(* ===== verification/_CoqProject ===== *)
-Q . S2P
Prelude.v
Memory.v
LibC.v
Mmu.v
Kalloc.v
Vm.v
Ports.v
Ide.v
Boot.v
Block.v
Bio.v
FsLayout.v
Fs.v
FsDir.v
FsTypes.v
FsBlocks.v
FsFile.v
FsRw.v
FsProps.v
FsIcache.v
FsDirProps.v
FsTrunc.v
FsAlloc.v
FsPath.v
FsTree.v
FsSound.v
File.v
Text.v
Screen.v
Shell.v
Seg.v
Trap.v
UserMem.v
Uvm.v
UvmProps.v
Kvm.v
Kernel.v
FirstProc.v
Exec.v
Load.v
Calls.v
KernTypes.v
CallProps.v
Create.v
OpenProps.v
CreateTree.v
ExecProps.v
SysExec.v
SysInv.v
UserRun.v
SysRw.v
UserLib.v
Mkfs.v
MkfsProps.v
ImageRead.v
Init.v
Start.v
