(* ===== verification/Prelude.v ===== *)
(** * LXOS: a verified model of a small operating system

    LXOS is a 32-bit x86 kernel: a boot loader, a page allocator and page
    tables, a screen, a keyboard with a command line, an IDE disk behind a
    buffer cache, an inode file system with directories, a table of open files,
    processes with their own address spaces, and eight system calls.  This
    library translates its C functions into Gallina, one definition per
    function (loops and long branches have a definition of their own), and
    proves what they do.  File names below are relative to src/.

    ** The layers

    Each layer is written against the state of the one below, and changes it
    only through that layer's operations.

    - Foundations.  This file: outcomes of C code, loops, machine integers,
      arrays.  Memory: byte-addressed memory and the string instructions of
      include/x86.h.  LibC: libc/string.c, libc/mem.c.  Mmu: include/mmu.h.
    - Memory.  Kalloc: kernel/kalloc.c; the abstract state is the list of free
      pages.  Vm: kernel/vm.c on the page tables in memory.  UserMem: what the
      processor reads and writes at a user address.  Uvm: an address space as a
      finite map from page numbers to physical pages, the relation [uvm] between
      it and the tables, and the operations' refinement of it.  UvmProps: the
      theorems about the bytes that user addresses have.  Kvm: the kernel's part
      of an address space ([setupkvm], which succeeds or gives every page back) and
      the page of the first program ([inituvm]).
    - Devices.  Ports: cpu/ports.c, and the interfaces of the hardware (class
      [PortIO] for the instructions, class [AtaDrive] for the protocol of the
      drive, with an instance that shows it can hold).  Ide: drivers/ide.c.
      Boot: boot/start.c.  Text: characters and numerals.  Screen: drivers/screen.c.  Shell:
      the interrupt handler of drivers/keyboard.c, and kernel/sh.c.
    - Blocks.  Block: the class [BlockOps] of the operations that the buffer
      cache offers and its laws ([BlockLayer]), stated on an abstract disk.  Bio:
      fs/bio.c, which implements them over Ide.
    - File system, over any implementation of [BlockOps].  FsLayout: the
      structures on the disk, as bytes and as records.  Fs: blocks, inodes and
      contents of fs/fs.c.  FsDir: its directories and paths.  FsBlocks, FsFile,
      FsRw: the specifications of the bitmap, of [bmap], and of [readi] and
      [writei] on a file as an array of bytes.  FsProps, FsIcache, FsDirProps,
      FsPath: the theorems; FsTrunc: how a file's blocks are given back; FsAlloc:
      how an inode is taken.  FsTree: a disk that holds a tree of directories
      ([tree_ok]), what a path leads to in it ([resolve]), a cache of inodes that
      agrees with it ([sound]) and its users, as a multiset of slots ([held]); there
      [namei] refines [resolve].  FsSound: a write to a file in use keeps tree and
      cache in order ([changed], [written]).  File: fs/file.c.
    - Traps.  Seg: segment descriptors, GDT and IDT (kernel/vm.c, cpu/idt.c,
      cpu/isr.c).  Trap: cpu/isr.c and cpu/timer.c.
    - Processes and system calls.  Kernel: kernel/proc.c and the state that the
      calls act on.  Exec: kernel/exec.c and [loaduvm].  Load: the segments of a
      program file in a fresh address space, against the reference [segments].
      ExecProps: the stack, the commit and [exec] as a whole.  Calls:
      kernel/syscall.c and kernel/calls.c.  FsTypes, KernTypes: the shape of the state and its
      invariance.  CallProps, SysRw, Create, OpenProps, SysExec: the theorems on
      single calls.  CreateTree: how [create] grows the tree ([sprouted],
      [create_total]).  SysInv: what holds between two calls ([settled], [alive])
      and that every call keeps it.  UserRun: a program's steps ([user_step]).
    - The image builder.  Mkfs: utils/mkfs.c, the host program that writes the
      disk image the kernel mounts.  Its [balloc] and [main] are [mkfs_balloc] and
      [mkfs_main] here, as fs/fs.c and user/init.c have functions of these names.  MkfsProps: the image is a file system of
      fs/fs.c, stated with the definitions of FsBlocks and FsFile.  ImageRead: the
      kernel's functions of Fs and FsDir on that image.
    - Start and user programs.  FirstProc: what [uinit] makes.  Init: the machine
      around the kernel ([mach]: interrupt table, [lidtl], interrupt flag) and
      [isr_install] on it, over the classes [Pics] and [KbdController] of the
      interrupt controllers and the keyboard's controller.  Start: kernel/kernel.c,
      [uinit], and the way to the first program.  UserLib: user/printf.c
      and user/init.c, over the class [UserCalls] of the system calls.

    ** Conventions

    A function that can follow a null pointer, read what was never written or
    stay in a loop answers a [res]: [Ok], [Fault] or [Hang].  State is passed
    explicitly; a C pointer to a table's slot is the slot's index.  Integers are
    [Z] with the wrap-around of the C type written out ([u8], [u16], [u32], [s16],
    [s32]).  A local buffer that is not initialised is an argument ([junk]), so
    that the theorems hold for any contents.  Addresses that the linker decides
    ([data], [ts_addr], [trapret], [forkret]) are arguments.  Messages of
    [kprintf] go to a log in the state of the driver, the file system or the
    kernel, except in Screen and Shell, which model what is shown.  Fields and
    statements that nothing reads (locks, pipes, the log of the file system) are
    left out, and said so where the type is declared.

    A loop is [while p f s], at most [p] turns of [f]; a theorem with result [Ok]
    therefore also says that the loop leaves.  The bounds are those of the data,
    never met: [2^21] pages of 2 GB and more, [2^32] bytes, inodes, or turns of a
    32-bit counter, [2^31] turns of a signed one, [2^20] bitmap blocks, [2^13]
    bits of a block, [2^23] sectors, [2^10] blocks of one [iappend] of at most
    512 bytes, [2^17] program headers (the count has 16
    bits), [2^6] digits of a number.  [p] is a binary number, so the loops
    compute.

    ** What the theorems show

    The numbered comments (C1 is the first in importance) are the properties.

    - Every run: [user_runs_safely] (UserRun) is the invariant of a process that
      stores, is interrupted and calls in any order: page
      tables, reference counts, open files, the tree and the cache stay in
      order, and every call but [exit] returns.  What each call needs is
      [served]: 189 free blocks for
      a write (a C [int] of bytes, cut at the size limit of a file), a free
      inode, three blocks and a free entry for open and mknod, arguments shorter
      than a page for exec.  Without the first two, [balloc] and [ialloc] go on
      with what is no block and no inode; a huge argument makes exec fault.
      [exit_releases]: the call of [exit] that ends such a run leaves no file and no
      inode in use, and the process without descriptors and directory.
    - The whole path: [sys_read_delivers] and [sys_write_stores] (SysRw) follow
      read and write from the user's buffer to the bytes of the file;
      [sys_open_makes] (CreateTree) follows open with [O_CREATE] of a path that
      is not there to the tree with one file more and the descriptor on it (there
      is also [sys_open_creates] in Create, down to the tables of inodes);
      [sys_open_opens] (OpenProps) follows any other open through the tree, and
      [open_close] what close gives back;
      [sys_exec_runs] (SysExec) follows exec from the path and the array of
      arguments in the user's memory, through the tree and the file on the disk
      ([exec_runs] of ExecProps), to the process that runs it.  There the plan of a
      program ([path_plan], [elf_plan]) is computed from the bytes of the disk and
      the arguments alone; [exec] carries it out, or fails and gives back every
      page, the second only when there is no plan or fewer than 67 pages plus two
      per page of the image are free: the
      directory, the tables of the kernel half, and a page and at most one table
      for each page.  There are fewer than five arguments, each shorter than a
      page.  Read and write say also what stays: of a write that does not fit
      below the size limit, the whole chunks of 1536 bytes are stored.
    - The file system refines arrays of bytes: [writei_refines],
      [readi_refines], [writei_readi], [balloc_first_free] (FsProps; there is also
      [bmap_preserves]), [iget_unique] (FsIcache), [iput_frees] (FsTrunc); directories refine a
      search of an array of names: [dirlookup_finds],
      [dirlink_binds] (FsDirProps); paths refine a walk in the tree:
      [namei_resolves] (FsTree; there is also [namex_walks] in FsPath);
      [fileclose_counts] (File).
    - The buffer cache refines a disk: [binit_represents], [bread_refines],
      [bwrite_brelse_refine], [brelse_bget_lru] (Bio), over the lemmas
      [iderw_reads], [iderw_writes] (Ide).
    - Address spaces refine maps: [allocuvm_grows], [deallocuvm_shrinks],
      [copyout_stores], [freevm_returns] (UvmProps), [setupkvm_maps] (Kvm), over
      the lemma [mappages_correct] (Vm).
    - System calls: [argptr_safe], [getstr_terminated],
      [scheduler_runs], [syscall_unknown] (CallProps; there is also [exit_closes]).
      The lemma [kernel_typed] (KernTypes) keeps the shape of the tables along the
      step relation [kstep].
    - The image: [mkfs_builds] (MkfsProps), and [mkfs_file_read] (ImageRead), the
      way of a file from the host program to the kernel's [readi].
    - User programs: [printf_writes], [init_shows_file] (UserLib).
    - Start and devices: [kernel_main_boots] (Start), from the entry of the kernel
      through [isr_install] and the scheduler to the first program with everything
      in place ([booted]) and the interrupts served ([interrupts_on]); without
      [isr_install] the first read of the disk would [Hang] ([run_first]).
      [bootmain_loads] (Boot),
      [trap_dispatches] (Trap), [keyboard_types] (Shell): letters, Backspace, caps
      lock, Enter on a line that is no command, and END.
    - The C library: [safestrcpy_truncates] (LibC).

    Theorems that show that a function does not do what it means to do are
    next to it: [hex_to_ascii_colon], [int_to_ascii_sign], [backspace_empty]
    (LibC), [uva2ka_no_table] (Vm), [built_root] (MkfsProps; the size of the root
    of an image can reach one block beyond the directory's blocks).

    Each property with hypotheses is followed by a witness, the theorem at a
    concrete state: the simulated drive of Ports, the machine [pc] of Init, the file system [fs0] of
    FsProps, the directory of FsDirProps, the tree with "/bin/a" of FsTree, the
    processes of CallProps, ExecProps and SysExec.

    ** Not modelled

    Assembly (boot/start.S, boot/kernel_entry.S, cpu/interrupt.asm, kernel/init.S,
    kernel/swtch.S, user/usys.S)
    and the inline assembly of include/x86.h beyond what Ports and Memory name.
    The entry table [entrypgdir] (kernel/kernel.c), which only the entry code
    uses, is in Start with what it maps.
    What [kernel_main] prints after [uinit] is never reached.  Of utils/mkfs.c,
    opening the image, the messages, and failures of
    the host's file calls.
    Interrupts happen where the model says: the disk's interrupt while
    [iderw] waits, any other between two steps of [kstep]; a
    call of the kernel runs to its end before the next step. *)
From Stdlib Require Export ZArith Lia.
From stdpp Require Export base tactics option numbers strings gmap list_numbers list.

Global Open Scope Z_scope.

Declare Scope lx_scope.
Delimit Scope lx_scope with lx.
Global Open Scope lx_scope.

(** * Outcomes of C code

    [Fault] is the outcome of an access through a null pointer (or of a read
    the C standard leaves undefined), [Hang] the outcome of a loop that does
    not leave within its bound. *)

Inductive res (A : Type) : Type :=
| Ok (a : A)
| Fault
| Hang.
Arguments Ok {A} a.
Arguments Fault {A}.
Arguments Hang {A}.

Definition rbind {A B : Type} (c : res A) (k : A → res B) : res B :=
  match c with
  | Ok a => k a
  | Fault => Fault
  | Hang => Hang
  end.

Notation "'let*' p ':=' c 'in' k" := (rbind c (fun p => k))
  (at level 10, p pattern, c at level 200, k at level 200,
   format "'[' 'let*'  p  ':='  c  'in' ']' '/' k") : lx_scope.

#[export] Instance res_eq_dec {A} `{EqDecision A} : EqDecision (res A).
Proof. solve_decision. Defined.

Lemma rbind_Ok {A B} (a : A) (k : A → res B) : rbind (Ok a) k = k a.
Proof. reflexivity. Qed.

Lemma rbind_inv {A B} (c : res A) (k : A → res B) b :
  rbind c k = Ok b → ∃ a, c = Ok a ∧ k a = Ok b.
Proof. destruct c; simpl; intros; [eauto | discriminate..]. Qed.

(** * Bounded loops

    [while p f s] runs the loop body [f] from the loop state [s] at most
    [p] times: [inl s'] goes round again, [inr r] leaves the loop.  The bound
    is a binary number, so that a bound such as [2 ^ 32] can be written and
    executed. *)

Section while.
Context {S R : Type}.
Implicit Types (f : S → res (S + R)) (s : S).

Fixpoint repeatM (p : positive) f s : res (S + R) :=
match p with
| xH => f s
| xO q =>
    let* r := repeatM q f s in
    match r with inl s' => repeatM q f s' | inr x => Ok (inr x) end
| xI q =>
    let* r0 := f s in
    match r0 with
    | inl s0 =>
        let* r := repeatM q f s0 in
        match r with inl s' => repeatM q f s' | inr x => Ok (inr x) end
    | inr x => Ok (inr x)
    end
end.

Definition while (p : positive) f s : res R :=
let* r := repeatM p f s in
match r with inl _ => Hang | inr x => Ok x end.

(** The same loop counted in unary, for induction. *)
Fixpoint stepsM (n : nat) f s : res (S + R) :=
match n with
| O => Ok (inl s)
| Datatypes.S n' =>
    let* r := f s in
    match r with inl s' => stepsM n' f s' | inr x => Ok (inr x) end
end.

Lemma stepsM_add n m f s :
stepsM (n + m) f s =
(let* r := stepsM n f s in
 match r with inl s' => stepsM m f s' | inr x => Ok (inr x) end).
Proof.
revert s; induction n as [|n IH]; intros s; simpl; [reflexivity|].
destruct (f s) as [[s'|x]| |]; simpl; auto.
Qed.

Lemma stepsM_1 f s : stepsM 1 f s = f s.
Proof. simpl. destruct (f s) as [[s'|x]| |]; reflexivity. Qed.

Lemma repeatM_steps p f s : repeatM p f s = stepsM (Pos.to_nat p) f s.
Proof.
revert s; induction p as [p IH|p IH|]; intros s; simpl repeatM.
- replace (Pos.to_nat p~1) with (1 + (Pos.to_nat p + Pos.to_nat p))%nat by lia.
  rewrite stepsM_add, stepsM_1.
  destruct (f s) as [[s'|x]| |]; simpl; auto.
  rewrite stepsM_add, IH.
  destruct (stepsM _ f s') as [[s''|x]| |]; simpl; auto.
- replace (Pos.to_nat p~0) with (Pos.to_nat p + Pos.to_nat p)%nat by lia.
  rewrite stepsM_add, IH.
  destruct (stepsM _ f s) as [[s''|x]| |]; simpl; auto.
- change (Pos.to_nat 1) with 1%nat. symmetry. apply stepsM_1.
Qed.

(** Total correctness of a loop: an invariant [I], a measure [mu] that
  decreases and stays below the bound, a postcondition [Q]. *)
Lemma while_spec (I : S → Prop) (mu : S → Z) (Q : R → Prop) p f s :
(∀ s, I s → 0 ≤ mu s) →
(∀ s, I s →
   (∃ s', f s = Ok (inl s') ∧ I s' ∧ mu s' < mu s) ∨
   (∃ r, f s = Ok (inr r) ∧ Q r)) →
I s → mu s < Z.pos p →
∃ r, while p f s = Ok r ∧ Q r.
Proof.
intros Hpos Hstep HI Hmu. unfold while. rewrite repeatM_steps.
assert (mu s < Z.of_nat (Pos.to_nat p)) as Hn by lia. clear Hmu.
generalize dependent (Pos.to_nat p). intros n. revert s HI.
induction n as [|n IH]; intros s HI Hn.
- specialize (Hpos s HI). lia.
- simpl. destruct (Hstep s HI) as [(s' & -> & HI' & Hlt) | (r & -> & HQ)]; simpl.
  + apply IH; [assumption | lia].
  + eauto.
Qed.

(** The same with a measure that is carried by the invariant. *)
Lemma while_rel (I : S → nat → Prop) (Q : R → Prop) p f s n :
(∀ s n, I s n →
   (∃ s' n', f s = Ok (inl s') ∧ I s' n' ∧ (n' < n)%nat) ∨
   (∃ r, f s = Ok (inr r) ∧ Q r)) →
I s n → Z.of_nat n < Z.pos p →
∃ r, while p f s = Ok r ∧ Q r.
Proof.
intros Hstep HI Hn. unfold while. rewrite repeatM_steps.
assert (n < Pos.to_nat p)%nat as Hlt by lia. clear Hn.
generalize dependent (Pos.to_nat p). intros m. revert s n HI.
induction m as [|m IH]; intros s n HI Hn; [lia|].
simpl. destruct (Hstep s n HI) as [(s' & n' & -> & HI' & Hlt) | (r & -> & HQ)]; simpl.
- apply (IH s' n' HI'). lia.
- eauto.
Qed.

(** The same for a loop whose last turn may fault: [Q] is about its outcome. *)
Lemma while_out (I : S → nat → Prop) (Q : res R → Prop) p f s n :
  (∀ s n, I s n →
     (∃ s' n', f s = Ok (inl s') ∧ I s' n' ∧ (n' < n)%nat) ∨
     (∃ c, f s = rbind c (λ x, Ok (inr x)) ∧ Q c)) →
  I s n → Z.of_nat n < Z.pos p → Q (while p f s).
Proof.
  intros Hstep HI Hn. unfold while. rewrite repeatM_steps.
  assert (n < Pos.to_nat p)%nat as Hlt by lia. clear Hn.
  generalize dependent (Pos.to_nat p). intros m. revert s n HI.
  induction m as [|m IH]; intros s n HI Hn; [lia|].
  simpl. destruct (Hstep s n HI) as [(s' & n' & -> & HI' & Hlt) | (c & -> & HQ)]; simpl.
  - apply (IH s' n' HI'). lia.
  - by destruct c.
Qed.
End while.

(** * Machine integers

    A C [uint] is an integer in [0, 2^32), an [int] one in [-2^31, 2^31), a
    [ushort] and a [short] have 16 bits, a [uchar] and a [char] 8 bits (the
    [char] of the i386 compiler is signed). *)

Definition u8 (x : Z) : Z := x mod 2 ^ 8.
Definition u16 (x : Z) : Z := x mod 2 ^ 16.
Definition u32 (x : Z) : Z := x mod 2 ^ 32.
Definition s8 (x : Z) : Z := (x + 2 ^ 7) mod 2 ^ 8 - 2 ^ 7.
Definition s16 (x : Z) : Z := (x + 2 ^ 15) mod 2 ^ 16 - 2 ^ 15.
Definition s32 (x : Z) : Z := (x + 2 ^ 31) mod 2 ^ 32 - 2 ^ 31.

(** [lia] after expanding the machine-integer operations into division and
    modulo by literals. *)
Ltac zlia :=
  unfold u8, u16, u32, s8, s16, s32 in *;
  Z.div_mod_to_equations; lia.

Lemma u8_range x : 0 ≤ u8 x < 256.
Proof. zlia. Qed.
Lemma u16_range x : 0 ≤ u16 x < 65536.
Proof. zlia. Qed.
Lemma u32_range x : 0 ≤ u32 x < 2 ^ 32.
Proof. zlia. Qed.
Lemma s32_range x : - 2 ^ 31 ≤ s32 x < 2 ^ 31.
Proof. zlia. Qed.
Lemma s16_range x : - 2 ^ 15 ≤ s16 x < 2 ^ 15.
Proof. zlia. Qed.

Lemma u8_small x : 0 ≤ x < 256 → u8 x = x.
Proof. intros. zlia. Qed.
Lemma u16_small x : 0 ≤ x < 65536 → u16 x = x.
Proof. intros. zlia. Qed.
Lemma u32_small x : 0 ≤ x < 2 ^ 32 → u32 x = x.
Proof. intros. zlia. Qed.
Lemma s32_small x : - 2 ^ 31 ≤ x < 2 ^ 31 → s32 x = x.
Proof. intros. zlia. Qed.
Lemma s16_small x : - 2 ^ 15 ≤ x < 2 ^ 15 → s16 x = x.
Proof. intros. zlia. Qed.
Lemma u8_u8 x : u8 (u8 x) = u8 x.
Proof. zlia. Qed.
Lemma u32_u32 x : u32 (u32 x) = u32 x.
Proof. zlia. Qed.
Lemma u32_u32_add x y : u32 (u32 x + y) = u32 (x + y).
Proof. zlia. Qed.
Lemma s16_u16 x : s16 (u16 x) = s16 x.
Proof. zlia. Qed.
Lemma s32_u32 x : s32 (u32 x) = s32 x.
Proof. zlia. Qed.

Create HintDb lx.
Create Rewrite HintDb lx_int.
#[export] Hint Resolve u8_range u16_range u32_range s32_range s16_range : lx.
#[export] Hint Rewrite u8_u8 u32_u32 s16_u16 s32_u32 : lx_int.

(** C remainder and quotient truncate toward zero. *)
Abbreviation crem := Z.rem.
Abbreviation cquot := Z.quot.

(** * Bit operations *)

(** Equality of integers bit by bit. *)
Ltac Zbits :=
  apply Z.bits_inj'; intros ?i ?Hi;
  rewrite ?Z.land_spec, ?Z.lor_spec, ?Z.lxor_spec, ?Z.ldiff_spec;
  rewrite ?Z.shiftl_spec, ?Z.shiftr_spec, ?Z.lnot_spec by lia.

Lemma testbit_high x n i : 0 ≤ x < 2 ^ n → n ≤ i → 0 ≤ n → Z.testbit x i = false.
Proof.
  intros Hx Hi Hn. rewrite <- (Z.mod_small x (2 ^ n)) by assumption.
  apply Z.mod_pow2_bits_high. lia.
Qed.

Lemma land_ones_mod x n : 0 ≤ n → Z.land x (2 ^ n - 1) = x mod 2 ^ n.
Proof.
  intros. rewrite <- Z.land_ones, Z.ones_equiv by lia. f_equal.
Qed.

Lemma ldiff_ones_sub x n : 0 ≤ n → Z.land x (Z.lnot (2 ^ n - 1)) = x - x mod 2 ^ n.
Proof.
  intros. rewrite <- Z.ldiff_land.
  replace (2 ^ n - 1) with (Z.ones n) by (rewrite Z.ones_equiv; lia).
  rewrite Z.ldiff_ones_r by lia.
  rewrite Z.shiftl_mul_pow2, Z.shiftr_div_pow2 by lia.
  pose proof (Z.div_mod x (2 ^ n)). pose proof (Z.pow_pos_nonneg 2 n). lia.
Qed.

Lemma lor_disjoint_add x y n :
  0 ≤ n → x mod 2 ^ n = 0 → 0 ≤ y < 2 ^ n → Z.lor x y = x + y.
Proof.
  intros Hn Hx Hy. rewrite <- Z.lxor_lor; [symmetry; apply Z.add_nocarry_lxor|].
  all: Zbits; rewrite Z.bits_0; destruct (decide (i < n)).
  1, 3: rewrite <- (Z.mod_pow2_bits_low x n i), Hx, Z.bits_0 by lia; reflexivity.
  all: rewrite (testbit_high y n i) by lia; apply andb_false_r.
Qed.

(** * Lists indexed by C integers *)

(** [a[i]] and [a[i] = v] for an array of bytes or words. *)
Definition zget (l : list Z) (i : Z) : Z := l !!! Z.to_nat i.
Definition zset (l : list Z) (i v : Z) : list Z := <[Z.to_nat i := v]> l.

Lemma length_zset l i v : length (zset l i v) = length l.
Proof. apply length_insert. Qed.
Lemma zget_zset_eq l i v : 0 ≤ i < Z.of_nat (length l) → zget (zset l i v) i = v.
Proof.
  intros. unfold zget, zset. by rewrite list_lookup_total_insert_eq by lia.
Qed.
Lemma zget_zset_ne l i j v : 0 ≤ i → 0 ≤ j → i ≠ j → zget (zset l i v) j = zget l j.
Proof. intros. unfold zget, zset. rewrite list_lookup_total_insert_ne by lia. reflexivity. Qed.

Lemma lookup_rev {A} (l : list A) i :
  (i < length l)%nat → rev l !! i = l !! (length l - S i)%nat.
Proof. intros. rewrite rev_alt. by apply reverse_lookup. Qed.

(** [memmove(l + off, bs, length bs)] on an array: the cells from [off] on are
    replaced, those beyond the end of the array are not there to replace. *)
Definition splice (l : list Z) (off : nat) (bs : list Z) : list Z := list_inserts off bs l.

Lemma alter_alter {A} (f g : A → A) i (l : list A) :
  alter f i (alter g i l) = alter (λ x, f (g x)) i l.
Proof. 
  revert i. induction l as [|x l IH]; intros [|i]; try done.
  change (x :: alter f i (alter g i l) = x :: alter (λ x, f (g x)) i l). by rewrite IH.
Qed.

Lemma alter_ext_at {A} `{Inhabited A} (f g : A → A) i (l : list A) :
  f (l !!! i) = g (l !!! i) → alter f i l = alter g i l.
Proof.
  revert i. induction l as [|x l IH]; intros [|i] E; try done.
  - change (f x :: l = g x :: l). by f_equal.
  - change (x :: alter f i l = x :: alter g i l). f_equal. by apply IH.
Qed.

(** A slice of an array. *)
Definition slice {A} (l : list A) (off n : nat) : list A := take n (drop off l).

Lemma length_splice l off bs : length (splice l off bs) = length l.
Proof. apply length_inserts. Qed.

Lemma splice_0 l bs : (length bs ≤ length l)%nat → splice l 0 bs = bs ++ drop (length bs) l.
Proof.
  intros Hl. unfold splice. apply list_eq. intros i. destruct (decide (i < length bs)%nat) as [Hi|Hi].
  - rewrite list_lookup_inserts by lia. rewrite lookup_app_l by done. f_equal. lia.
  - rewrite list_lookup_inserts_ge, lookup_app_r, lookup_drop by lia. f_equal. lia.
Qed.

Lemma length_slice {A} (l : list A) off n :
  (off + n ≤ length l)%nat → length (slice l off n) = n.
Proof. intros. unfold slice. rewrite length_take, length_drop. lia. Qed.

Lemma lookup_slice {A} (l : list A) off n i :
  (i < n)%nat → slice l off n !! i = l !! (off + i)%nat.
Proof. intros. unfold slice. rewrite lookup_take_lt by lia. apply lookup_drop. Qed.

Create Rewrite HintDb lx_len.
#[export] Hint Rewrite length_zset length_splice @length_insert @length_app
  @length_take @length_drop @length_replicate : lx_len.
