(* ===== verification/Memory.v ===== *)
(** Byte-addressed memory, as the kernel and the boot loader see it, and the
    string instructions of include/x86.h that fill it. *)
From S2P Require Import Prelude.

(** A memory maps addresses to bytes; a cell that was never written is 0.
    The kernel addresses memory through the window [KERNBASE ..]: an address
    here is a kernel virtual address. *)
Abbreviation mem := (gmap Z Z).

Definition ld8 (m : mem) (a : Z) : Z := u8 (default 0 (m !! a)).
Definition st8 (m : mem) (a v : Z) : mem := <[a := u8 v]> m.

Definition ld32 (m : mem) (a : Z) : Z :=
  ld8 m a + 2 ^ 8 * ld8 m (a + 1) + 2 ^ 16 * ld8 m (a + 2) + 2 ^ 24 * ld8 m (a + 3).
Definition st32 (m : mem) (a v : Z) : mem :=
  st8 (st8 (st8 (st8 m a v) (a + 1) (Z.shiftr v 8)) (a + 2) (Z.shiftr v 16))
      (a + 3) (Z.shiftr v 24).

(** [stosb(addr, data, cnt)] and [stosl(addr, data, cnt)]. *)
Fixpoint stosb (m : mem) (addr data : Z) (cnt : nat) : mem :=
  match cnt with
  | O => m
  | S cnt' => stosb (st8 m addr data) (addr + 1) data cnt'
  end.

Fixpoint stosl (m : mem) (addr data : Z) (cnt : nat) : mem :=
  match cnt with
  | O => m
  | S cnt' => stosl (st32 m addr data) (addr + 4) data cnt'
  end.

(** The bytes [a .. a + n). *)
Fixpoint ld_bytes (m : mem) (a : Z) (n : nat) : list Z :=
  match n with
  | O => []
  | S n' => ld8 m a :: ld_bytes m (a + 1) n'
  end.

Fixpoint st_bytes (m : mem) (a : Z) (bs : list Z) : mem :=
  match bs with
  | [] => m
  | b :: bs' => st_bytes (st8 m a b) (a + 1) bs'
  end.

(** [addr] lies in the [n] bytes from [a]. *)
Definition inr_ (a n x : Z) : Prop := a ≤ x < a + n.

Section memory_lemmas.
Implicit Types (m : mem) (a b v x : Z).

Lemma ld8_range m a : 0 ≤ ld8 m a < 256.
Proof. apply u8_range. Qed.

Lemma ld8_st8 m a v x : ld8 (st8 m a v) x = if decide (x = a) then u8 v else ld8 m x.
Proof.
unfold ld8, st8. case_decide; subst.
- rewrite lookup_insert_eq. apply u8_u8.
- by rewrite lookup_insert_ne.
Qed.

Lemma ld8_st8_eq m a v : ld8 (st8 m a v) a = u8 v.
Proof. rewrite ld8_st8. by rewrite decide_True. Qed.

Lemma ld8_st8_ne m a v x : x ≠ a → ld8 (st8 m a v) x = ld8 m x.
Proof. intros. rewrite ld8_st8. by rewrite decide_False. Qed.

Lemma ld32_range m a : 0 ≤ ld32 m a < 2 ^ 32.
Proof.
unfold ld32.
pose proof (ld8_range m a). pose proof (ld8_range m (a + 1)).
pose proof (ld8_range m (a + 2)). pose proof (ld8_range m (a + 3)). lia.
Qed.

Lemma ld8_st32 m a v x :
ld8 (st32 m a v) x =
if decide (inr_ a 4 x) then u8 (Z.shiftr v (8 * (x - a))) else ld8 m x.
Proof.
unfold st32. rewrite !ld8_st8.
destruct (decide (inr_ a 4 x)) as [Hin|Hin]; unfold inr_ in Hin.
- repeat case_decide; try (do 2 f_equal; lia); try lia.
  replace (8 * (x - a)) with 0 by lia. by rewrite Z.shiftr_0_r.
- repeat case_decide; try lia.
Qed.

Lemma ld8_st32_ne m a v x : ¬ inr_ a 4 x → ld8 (st32 m a v) x = ld8 m x.
Proof. intros. rewrite ld8_st32. by rewrite decide_False. Qed.

Lemma ld32_ext m m' a :
(∀ x, inr_ a 4 x → ld8 m x = ld8 m' x) → ld32 m a = ld32 m' a.
Proof. intros H. unfold ld32. rewrite !H by (unfold inr_; lia). reflexivity. Qed.

Lemma ld32_st32_eq m a v : ld32 (st32 m a v) a = u32 v.
Proof.
unfold ld32. rewrite !ld8_st32, !decide_True by (unfold inr_; lia).
replace (8 * (a - a)) with 0 by lia. replace (8 * (a + 1 - a)) with 8 by lia.
replace (8 * (a + 2 - a)) with 16 by lia. replace (8 * (a + 3 - a)) with 24 by lia.
rewrite !Z.shiftr_div_pow2 by lia. change (2 ^ 0) with 1. zlia.
Qed.

Lemma ld32_st32_ne m a v b : b + 4 ≤ a ∨ a + 4 ≤ b → ld32 (st32 m a v) b = ld32 m b.
Proof.
intros. apply ld32_ext. intros x Hx. apply ld8_st32_ne. unfold inr_ in *. lia.
Qed.

Lemma ld32_st8_ne m a v b : a < b ∨ b + 4 ≤ a → ld32 (st8 m a v) b = ld32 m b.
Proof. intros. apply ld32_ext. intros x Hx. apply ld8_st8_ne. unfold inr_ in *. lia. Qed.

Lemma ld8_stosb m a v n x :
ld8 (stosb m a v n) x = if decide (inr_ a (Z.of_nat n) x) then u8 v else ld8 m x.
Proof.
revert m a. induction n as [|n IH]; intros m a; simpl stosb.
- rewrite decide_False; [reflexivity | unfold inr_; lia].
- rewrite IH, ld8_st8. unfold inr_.
  repeat case_decide; try reflexivity; lia.
Qed.

Lemma ld8_stosl m a v n x :
ld8 (stosl m a v n) x =
if decide (inr_ a (4 * Z.of_nat n) x) then u8 (Z.shiftr v (8 * ((x - a) mod 4)))
else ld8 m x.
Proof.
revert m a. induction n as [|n IH]; intros m a; simpl stosl.
- rewrite decide_False; [reflexivity | unfold inr_; lia].
- rewrite IH, ld8_st32. unfold inr_.
  repeat case_decide; try reflexivity; try lia.
  + do 3 f_equal. zlia.
  + do 3 f_equal. rewrite Z.mod_small; lia.
Qed.

Lemma length_ld_bytes m a n : length (ld_bytes m a n) = n.
Proof. revert a. induction n; simpl; auto. Qed.

Lemma lookup_ld_bytes m a n i :
(i < n)%nat → ld_bytes m a n !! i = Some (ld8 m (a + Z.of_nat i)).
Proof.
revert a i. induction n as [|n IH]; intros a [|i] Hi; simpl; try lia.
- do 2 f_equal. lia.
- rewrite IH by lia. do 2 f_equal. lia.
Qed.

Lemma ld_bytes_ext m m' a n :
(∀ x, inr_ a (Z.of_nat n) x → ld8 m x = ld8 m' x) → ld_bytes m a n = ld_bytes m' a n.
Proof.
intros H. apply list_eq_same_length with n; rewrite ?length_ld_bytes; auto.
intros i x y Hi. rewrite !lookup_ld_bytes by lia.
rewrite H by (unfold inr_; lia). congruence.
Qed.

Lemma ld8_st_bytes m a bs x :
ld8 (st_bytes m a bs) x =
if decide (inr_ a (Z.of_nat (length bs)) x)
then u8 (bs !!! Z.to_nat (x - a)) else ld8 m x.
Proof.
revert m a. induction bs as [|b bs IH]; intros m a; simpl st_bytes.
- rewrite decide_False; [reflexivity | unfold inr_; simpl; lia].
- rewrite IH, ld8_st8. unfold inr_. simpl length.
  repeat case_decide; try reflexivity; try lia.
  + f_equal. replace (Z.to_nat (x - a)) with (S (Z.to_nat (x - (a + 1)))) by lia.
    reflexivity.
  + subst. rewrite Z.sub_diag. reflexivity.
Qed.

Lemma ld_st_bytes m a bs :
Forall (λ b, 0 ≤ b < 256) bs → ld_bytes (st_bytes m a bs) a (length bs) = bs.
Proof.
intros Hb. apply list_eq_same_length with (length bs); rewrite ?length_ld_bytes; auto.
intros i x y Hi. rewrite lookup_ld_bytes by lia. intros [= <-] Hy.
rewrite ld8_st_bytes, decide_True by (unfold inr_; lia).
replace (Z.to_nat _) with i by lia. rewrite (list_lookup_total_correct _ _ _ Hy).
apply u8_small. eapply Forall_lookup_1 in Hb; eauto.
Qed.
End memory_lemmas.

#[export] Hint Resolve ld8_range ld32_range : lx.
