(* ===== verification/LibC.v ===== *)
(** libc/string.c and libc/mem.c: the kernel's string and memory routines on
    byte-addressed memory, each with its functional specification. *)
From S2P Require Import Prelude Memory.

(** * libc/string.c: filling and copying *)

Definition memset (m : mem) (dst c n : Z) : mem :=
  if (crem (s32 dst) 4 =? 0) && (n mod 4 =? 0) then
    let c := Z.land c 0xFF in
    stosl m dst
      (Z.lor (Z.lor (Z.lor (Z.shiftl c 24) (Z.shiftl c 16)) (Z.shiftl c 8)) c)
      (Z.to_nat (n / 4))
  else stosb m dst c (Z.to_nat n).

(** [while(n-- > 0) *--d = *--s] with [d] and [s] past the end. *)
Fixpoint copy_backward (m : mem) (d s : Z) (n : nat) : mem :=
  match n with
  | O => m
  | S n' => copy_backward (st8 m (d - 1) (ld8 m (s - 1))) (d - 1) (s - 1) n'
  end.

(** [while(n-- > 0) *d++ = *s++]. *)
Fixpoint copy_forward (m : mem) (d s : Z) (n : nat) : mem :=
  match n with
  | O => m
  | S n' => copy_forward (st8 m d (ld8 m s)) (d + 1) (s + 1) n'
  end.

Definition memmove (m : mem) (dst src n : Z) : mem :=
  if (src <? dst) && (dst <? u32 (src + n)) then
    copy_backward m (dst + n) (src + n) (Z.to_nat n)
  else copy_forward m dst src (Z.to_nat n).

(** * libc/string.c: C strings *)

Definition strlen (m : mem) (s : Z) : res Z :=
  while (2 ^ 31) (λ i, Ok (if ld8 m (s + i) =? 0 then inr i else inl (i + 1))) 0.

Definition append (m : mem) (s n : Z) : res mem :=
  let* len := strlen m s in
  Ok (st8 (st8 m (s + len) n) (s + len + 1) 0).

Definition backspace (m : mem) (s : Z) : res mem :=
  let* len := strlen m s in
  Ok (st8 m (s + len - 1) 0).

Definition reverse (m : mem) (s : Z) : res mem :=
  let* len := strlen m s in
  while (2 ^ 31)
    (λ '(m, i, j),
       Ok (if i <? j then
             let c := ld8 m (s + i) in
             inl (st8 (st8 m (s + i) (ld8 m (s + j))) (s + j) c, i + 1, j - 1)
           else inr m))
    (m, 0, len - 1).

Definition strcmp (m : mem) (s1 s2 : Z) : res Z :=
  while (2 ^ 31)
    (λ i,
       Ok (if s8 (ld8 m (s1 + i)) =? s8 (ld8 m (s2 + i)) then
             if ld8 m (s1 + i) =? 0 then inr 0 else inl (i + 1)
           else inr (s8 (ld8 m (s1 + i)) - s8 (ld8 m (s2 + i)))))
    0.

(** The loop [while(--n > 0 && ( *s++ = *t++) != 0);], [k] being [n - 1], and
    the final [*s = 0]. *)
Fixpoint safestrcpy_loop (m : mem) (s t : Z) (k : nat) : mem :=
  match k with
  | O => st8 m s 0
  | S k' =>
      let c := ld8 m t in
      let m' := st8 m s c in
      if c =? 0 then st8 m' (s + 1) 0 else safestrcpy_loop m' (s + 1) (t + 1) k'
  end.

Definition safestrcpy (m : mem) (s t n : Z) : mem :=
  if n <=? 0 then m else safestrcpy_loop m s t (Z.to_nat (n - 1)).

Fixpoint strncmp_loop (m : mem) (p q : Z) (n : nat) : Z :=
  match n with
  | O => 0
  | S n' =>
      if negb (ld8 m p =? 0) && (ld8 m p =? ld8 m q)
      then strncmp_loop m (p + 1) (q + 1) n'
      else ld8 m p - ld8 m q
  end.

Definition strncmp (m : mem) (p q n : Z) : Z := strncmp_loop m p q (Z.to_nat n).

(** [while(n-- > 0) *s++ = 0]. *)
Fixpoint strncpy_pad (m : mem) (s : Z) (n : nat) : mem :=
  match n with
  | O => m
  | S n' => strncpy_pad (st8 m s 0) (s + 1) n'
  end.

Fixpoint strncpy_loop (m : mem) (s t : Z) (n : nat) : mem :=
  match n with
  | O => m
  | S n' =>
      let c := ld8 m t in
      let m' := st8 m s c in
      if c =? 0 then strncpy_pad m' (s + 1) n'
      else strncpy_loop m' (s + 1) (t + 1) n'
  end.

Definition strncpy (m : mem) (s t n : Z) : mem := strncpy_loop m s t (Z.to_nat n).

(** * libc/string.c: numbers *)

(** One turn of [do str[i++] = n % 10 + '0'; while((n /= 10) > 0);]. *)
Definition ita_step (str : Z) '((m, n, i) : mem * Z * Z) : res (mem * Z * Z + mem * Z) :=
  let m' := st8 m (str + i) (crem n 10 + 48) in
  let n' := cquot n 10 in
  Ok (if 0 <? n' then inl (m', n', i + 1) else inr (m', i + 1)).

Definition int_to_ascii (m : mem) (n str : Z) : res mem :=
  let* r := while (2 ^ 31) (ita_step str) (m, if n <? 0 then s32 (- n) else n, 0) in
  let '(m1, i) := r in
  reverse (st8 m1 (str + i) 0) str.

(** The loop over the nibbles 28, 24, .., 4 with the flag [zeros]. *)
Fixpoint hex_loop (m : mem) (n str : Z) (zeros : bool) (shifts : list Z) : res mem :=
  match shifts with
  | [] => Ok m
  | i :: shifts' =>
      let tmp := Z.land (Z.shiftr n i) 0xF in
      if (tmp =? 0) && negb zeros then hex_loop m n str zeros shifts'
      else
        let* m' := (if 0xA <? tmp then append m str (tmp - 0xA + 97)
                    else append m str (tmp + 48)) in
        hex_loop m' n str true shifts'
  end.

Definition hex_to_ascii (m : mem) (n str : Z) : res mem :=
  let* m := append m str 48 in
  let* m := append m str 120 in
  let* m := hex_loop m n str false [28; 24; 20; 16; 12; 8; 4] in
  let tmp := Z.land n 0xF in
  if 0xA <=? tmp then append m str (tmp - 0xA + 97) else append m str (tmp + 48).

(** * libc/mem.c *)

Definition memory_copy (m : mem) (source dest nbytes : Z) : mem :=
  copy_forward m dest source (Z.to_nat nbytes).

Definition memory_set (m : mem) (dest val len : Z) : mem := stosb m dest val (Z.to_nat len).

(** The bump allocator: [free_mem_addr] before, the address returned and
    [free_mem_addr] after. *)
Definition kmalloc (free_mem_addr size align : Z) : Z * Z :=
  let a :=
    if (align =? 1) && negb (Z.land free_mem_addr 0xFFFFF000 =? 0)
    then u32 (Z.land free_mem_addr 0xFFFFF000 + 0x1000) else free_mem_addr in
  (a, u32 (a + size)).

(** * Reference definitions on byte lists *)

(** [m] holds at [s] the C string [l]: the bytes of [l], none of them 0, and
    a terminating 0. *)
Definition cstr (m : mem) (s : Z) (l : list Z) : Prop :=
  ld_bytes m s (length l) = l ∧ Forall (λ c, 0 < c < 256) l ∧
  ld8 m (s + Z.of_nat (length l)) = 0.

(** [strncmp] on two arrays that hold at least [n] bytes, and [strncpy] of a
    byte sequence into an array of [n] bytes. *)
Fixpoint strncmp_bytes (p q : list Z) (n : nat) : Z :=
  match n, p, q with
  | S n', a :: p', b :: q' =>
      if negb (a =? 0) && (a =? b) then strncmp_bytes p' q' n' else a - b
  | _, _, _ => 0
  end.

Fixpoint strncpy_bytes (t : list Z) (n : nat) : list Z :=
  match n, t with
  | O, _ => []
  | S n', [] => replicate n 0
  | S n', c :: t' => if c =? 0 then replicate n 0 else c :: strncpy_bytes t' n'
  end.

Section fill_copy.
Implicit Types (m : mem) (x : Z).

Lemma fill_word c k :
0 ≤ c < 256 → 0 ≤ k < 4 →
u8 (Z.shiftr
      (Z.lor (Z.lor (Z.lor (Z.shiftl c 24) (Z.shiftl c 16)) (Z.shiftl c 8)) c)
      (8 * k)) = c.
Proof.
intros Hc Hk. rewrite !Z.shiftl_mul_pow2 by lia.
rewrite (lor_disjoint_add (c * 2 ^ 24) _ 24) by zlia.
rewrite (lor_disjoint_add (c * 2 ^ 24 + c * 2 ^ 16) _ 16) by zlia.
rewrite (lor_disjoint_add (_ + c * 2 ^ 8) _ 8) by zlia.
rewrite Z.shiftr_div_pow2 by lia.
assert (k = 0 ∨ k = 1 ∨ k = 2 ∨ k = 3) as [-> | [-> | [-> | ->]]] by lia; simpl (8 * _);
  zlia.
Qed.

Lemma ld8_memset m dst c n x :
0 ≤ n →
ld8 (memset m dst c n) x = if decide (inr_ dst n x) then u8 c else ld8 m x.
Proof.
intros Hn. unfold memset.
destruct ((crem (s32 dst) 4 =? 0) && (n mod 4 =? 0)) eqn:E.
- apply andb_prop in E as [_ E%Z.eqb_eq].
  rewrite ld8_stosl. unfold inr_.
  replace (4 * Z.of_nat (Z.to_nat (n / 4))) with n by zlia.
  case_decide; [|reflexivity].
  change 0xFF with (2 ^ 8 - 1). rewrite land_ones_mod by lia.
  apply (fill_word (u8 c)); zlia.
- rewrite ld8_stosb. by rewrite Z2Nat.id.
Qed.

Lemma ld8_copy_forward m d s n x :
d ≤ s ∨ s + Z.of_nat n ≤ d →
ld8 (copy_forward m d s n) x =
if decide (inr_ d (Z.of_nat n) x) then ld8 m (s + (x - d)) else ld8 m x.
Proof.
revert m d s. induction n as [|n IH]; intros m d s Hd; simpl copy_forward.
- rewrite decide_False; [reflexivity | unfold inr_; lia].
- rewrite IH, !ld8_st8 by lia. unfold inr_.
  repeat case_decide; try lia; try reflexivity.
  + f_equal. lia.
  + rewrite u8_small by apply ld8_range. f_equal. lia.
Qed.

Lemma ld8_copy_backward m d s n x :
s ≤ d →
ld8 (copy_backward m d s n) x =
if decide (inr_ (d - Z.of_nat n) (Z.of_nat n) x) then ld8 m (s + (x - d)) else ld8 m x.
Proof.
revert m d s. induction n as [|n IH]; intros m d s Hd; simpl copy_backward.
- rewrite decide_False; [reflexivity | unfold inr_; lia].
- rewrite IH, !ld8_st8 by lia. unfold inr_.
  repeat case_decide; try lia; try reflexivity.
  + f_equal. lia.
  + rewrite u8_small by apply ld8_range. f_equal. lia.
Qed.

Lemma ld8_memmove m dst src n x :
0 ≤ n → src + n < 2 ^ 32 → 0 ≤ src →
ld8 (memmove m dst src n) x =
if decide (inr_ dst n x) then ld8 m (src + (x - dst)) else ld8 m x.
Proof.
intros Hn Hs Hs0. unfold memmove. rewrite u32_small by lia.
destruct ((src <? dst) && (dst <? src + n)) eqn:E.
- apply andb_prop in E as [E1%Z.ltb_lt E2%Z.ltb_lt].
  rewrite ld8_copy_backward by lia. rewrite Z2Nat.id by lia.
  replace (dst + n - n) with dst by lia. case_decide; [f_equal; lia | reflexivity].
- apply andb_false_iff in E as [E%Z.ltb_ge | E%Z.ltb_ge];
    rewrite ld8_copy_forward, ?Z2Nat.id by lia; reflexivity.
Qed.
End fill_copy.

(** * C strings in memory *)

Section cstrings.
Implicit Types (m : mem) (l : list Z).

Lemma cstr_ld m s l i :
cstr m s l → (i < length l)%nat → l !! i = Some (ld8 m (s + Z.of_nat i)).
Proof.
intros (Hl & _) Hi. rewrite <- Hl at 1. by apply lookup_ld_bytes.
Qed.

Lemma cstr_nonzero m s l i :
cstr m s l → 0 ≤ i < Z.of_nat (length l) → ld8 m (s + i) ≠ 0.
Proof.
intros Hs Hi. pose proof (cstr_ld m s l (Z.to_nat i) Hs ltac:(lia)) as E.
destruct Hs as (_ & Hf & _). eapply Forall_lookup_1 in Hf; [|exact E].
rewrite Z2Nat.id in Hf by lia. lia.
Qed.

Lemma cstr_intro m s l :
(∀ i c, l !! i = Some c → ld8 m (s + Z.of_nat i) = c ∧ 0 < c < 256) →
ld8 m (s + Z.of_nat (length l)) = 0 → cstr m s l.
Proof.
intros H H0. split; [|split; [|done]].
- apply list_eq_same_length with (length l); rewrite ?length_ld_bytes; auto.
  intros i x y Hi. rewrite lookup_ld_bytes by lia. intros [= <-] Hy.
  by destruct (H i y Hy).
- apply Forall_lookup_2. intros i c Hc. by destruct (H i c Hc).
Qed.

Lemma cstr_elim m s l i c :
cstr m s l → l !! i = Some c → ld8 m (s + Z.of_nat i) = c ∧ 0 < c < 256.
Proof.
intros Hs Hc. pose proof (lookup_lt_Some _ _ _ Hc) as Hi.
rewrite (cstr_ld m s l i Hs Hi) in Hc. injection Hc as Hc. split; [done|].
destruct Hs as (Hl & Hf & _). eapply Forall_lookup_1 in Hf; [exact Hf|].
rewrite <- Hl, lookup_ld_bytes by done. by rewrite Hc.
Qed.

Lemma cstr_ext m m' s l :
(∀ x, inr_ s (Z.of_nat (length l) + 1) x → ld8 m' x = ld8 m x) →
cstr m s l → cstr m' s l.
Proof.
intros E Hs. apply cstr_intro.
- intros i c Hc. pose proof (lookup_lt_Some _ _ _ Hc).
  rewrite E by (unfold inr_; lia). by eapply cstr_elim.
- rewrite E by (unfold inr_; lia). apply Hs.
Qed.

(** A string determines its length and its bytes. *)
Lemma strlen_cstr m s l :
cstr m s l → Z.of_nat (length l) < 2 ^ 31 → strlen m s = Ok (Z.of_nat (length l)).
Proof.
intros Hs Hlen. unfold strlen.
destruct (while_spec (λ i, 0 ≤ i ≤ Z.of_nat (length l))
  (λ i, Z.of_nat (length l) - i) (λ r, r = Z.of_nat (length l)) (2 ^ 31)
  (λ i, Ok (if ld8 m (s + i) =? 0 then inr i else inl (i + 1))) 0)
  as (r & -> & ->); [lia | | lia | lia | reflexivity].
intros i Hi. destruct (Z.eqb_spec (ld8 m (s + i)) 0) as [E|E].
- right. eexists; split; [done|].
  destruct (decide (i = Z.of_nat (length l))); [done|].
  exfalso. eapply cstr_nonzero; [exact Hs | | exact E]. lia.
- left. eexists; split; [done|].
  assert (i ≠ Z.of_nat (length l)) by (intros ->; apply E; apply Hs). lia.
Qed.

Lemma append_cstr m s l n :
cstr m s l → 0 < n < 256 → Z.of_nat (length l) < 2 ^ 31 →
∃ m', append m s n = Ok m' ∧ cstr m' s (l ++ [n]) ∧
  ∀ x, ¬ inr_ (s + Z.of_nat (length l)) 2 x → ld8 m' x = ld8 m x.
Proof.
intros Hs Hn Hl. unfold append. rewrite (strlen_cstr _ _ l) by assumption.
simpl. eexists; split; [reflexivity|]. split.
- apply cstr_intro.
  + intros i c Hc. apply lookup_app_Some in Hc as [Hc | [Hi Hc]].
    * pose proof (lookup_lt_Some _ _ _ Hc).
      rewrite !ld8_st8_ne by lia. by eapply cstr_elim.
    * apply list_lookup_singleton_Some in Hc as [Hi' <-].
      replace (Z.of_nat i) with (Z.of_nat (length l)) by lia.
      rewrite ld8_st8_ne, ld8_st8_eq, u8_small by lia. done.
  + rewrite length_app, Nat2Z.inj_add. rewrite Z.add_assoc. simpl Z.of_nat.
    rewrite ld8_st8_eq. reflexivity.
- intros x Hx. rewrite !ld8_st8_ne by (unfold inr_ in Hx; lia). reflexivity.
Qed.

(** Removing the last character; the string must not be empty. *)
Lemma backspace_cstr m s l n :
cstr m s (l ++ [n]) → Z.of_nat (length (l ++ [n])) < 2 ^ 31 →
∃ m', backspace m s = Ok m' ∧ cstr m' s l.
Proof.
intros Hs Hl. unfold backspace. rewrite (strlen_cstr _ _ _ Hs) by assumption. simpl.
rewrite length_app in *. simpl length in *.
eexists; split; [reflexivity|]. apply cstr_intro.
- intros i c Hc. pose proof (lookup_lt_Some _ _ _ Hc).
  rewrite ld8_st8_ne by lia. eapply cstr_elim; [exact Hs|]. by apply lookup_app_l_Some.
- replace (s + Z.of_nat (length l + 1) - 1) with (s + Z.of_nat (length l)) by lia.
  rewrite ld8_st8_eq. reflexivity.
Qed.

(** On the empty string [backspace] writes the byte before the buffer. *)
Lemma backspace_empty m s :
cstr m s [] → backspace m s = Ok (st8 m (s - 1) 0).
Proof.
intros Hs. unfold backspace. rewrite (strlen_cstr _ _ _ Hs) by (simpl; lia). simpl.
by rewrite Z.add_0_r.
Qed.

(** [strncmp] compares the two arrays byte by byte. *)
Lemma strncmp_ref m p q n :
strncmp_loop m p q n = strncmp_bytes (ld_bytes m p n) (ld_bytes m q n) n.
Proof.
revert p q. induction n as [|n IH]; intros p q; [reflexivity|].
simpl. destruct (negb (ld8 m p =? 0) && (ld8 m p =? ld8 m q)); auto.
Qed.

Lemma ld8_strncpy_pad m s n x :
ld8 (strncpy_pad m s n) x = if decide (inr_ s (Z.of_nat n) x) then 0 else ld8 m x.
Proof.
revert m s. induction n as [|n IH]; intros m s; simpl strncpy_pad.
- rewrite decide_False; [reflexivity | unfold inr_; lia].
- rewrite IH, ld8_st8. unfold inr_. repeat case_decide; try reflexivity; lia.
Qed.
End cstrings.

(** * Copying and reversing strings *)

Section string_ops.
Implicit Types (m : mem) (l : list Z).

Lemma cstr_nil m s : cstr m s [] ↔ ld8 m s = 0.
Proof.
unfold cstr. simpl. rewrite Z.add_0_r. split; [tauto|]. intros H. by repeat split.
Qed.

Lemma cstr_cons m s c l :
cstr m s (c :: l) ↔ ld8 m s = c ∧ 0 < c < 256 ∧ cstr m (s + 1) l.
Proof.
unfold cstr. simpl length. rewrite Forall_cons.
replace (s + Z.of_nat (S (length l))) with (s + 1 + Z.of_nat (length l)) by lia.
simpl ld_bytes. split.
- intros ([= H1 H2] & (H3 & H4) & H5). auto.
- intros (<- & H2 & (H3 & H4 & H5)). rewrite H3. auto.
Qed.

Lemma safestrcpy_loop_spec m s t l k :
cstr m t l → s + Z.of_nat k < t ∨ t + Z.of_nat (length l) < s →
cstr (safestrcpy_loop m s t k) s (take k l) ∧
∀ x, ¬ inr_ s (Z.of_nat k + 1) x → ld8 (safestrcpy_loop m s t k) x = ld8 m x.
Proof.
revert m s t l. induction k as [|k IH]; intros m s t l Hs Hd; simpl safestrcpy_loop.
{ rewrite take_0, cstr_nil, ld8_st8_eq. split; [reflexivity|].
  intros x Hx. apply ld8_st8_ne. unfold inr_ in Hx. lia. }
destruct l as [|c l].
- apply cstr_nil in Hs. rewrite Hs. simpl. split.
  + rewrite cstr_nil, ld8_st8_ne, ld8_st8_eq by lia. reflexivity.
  + intros x Hx. rewrite !ld8_st8_ne by (unfold inr_ in Hx; lia). reflexivity.
- apply cstr_cons in Hs as (Hc & Hc' & Hs). rewrite Hc.
  rewrite (proj2 (Z.eqb_neq c 0)) by lia.
  simpl length in Hd.
  destruct (IH (st8 m s c) (s + 1) (t + 1) l) as (H1 & H2); [|lia|].
  { eapply cstr_ext; [|exact Hs]. intros x Hx. apply ld8_st8_ne. unfold inr_ in Hx. lia. }
  split.
  + simpl take. apply cstr_cons. split; [|split; [lia | exact H1]].
    rewrite H2, ld8_st8_eq, u8_small by (unfold inr_; lia). reflexivity.
  + intros x Hx. rewrite H2, ld8_st8_ne by (unfold inr_ in *; lia). reflexivity.
Qed.

Lemma strncpy_loop_spec m s t l n i :
cstr m t l ∨ (n ≤ length l)%nat ∧ ld_bytes m t (length l) = l ∧ Forall (λ c, 0 < c < 256) l →
s + Z.of_nat n ≤ t ∨ t + Z.of_nat (length l) < s →
(i < n)%nat →
ld8 (strncpy_loop m s t n) (s + Z.of_nat i) = strncpy_bytes l n !!! i.
Proof.
revert m s t l i. induction n as [|n IH]; intros m s t l i Hl Hd Hi; [lia|].
simpl strncpy_loop.
destruct l as [|c l]; [|destruct (decide (0 < c < 256)) as [Hc|Hc]].
- destruct Hl as [Hl | (? & _)]; [|simpl in *; lia].
  apply cstr_nil in Hl. rewrite Hl. simpl strncpy_bytes. rewrite Z.eqb_refl.
  change (0 :: replicate n 0) with (replicate (S n) 0).
  rewrite lookup_total_replicate_2 by lia.
  rewrite ld8_strncpy_pad, ld8_st8. unfold inr_. repeat case_decide; try lia. reflexivity.
- assert (ld8 m t = c) as Ec.
  { destruct Hl as [Hl | (_ & [= Hl _] & _)]; [by apply cstr_cons in Hl as (? & _) | done]. }
  rewrite Ec. simpl strncpy_bytes. rewrite (proj2 (Z.eqb_neq c 0)) by lia.
  simpl length in Hd.
  assert (∀ k, ld8 (strncpy_loop (st8 m s c) (s + 1) (t + 1) n) (s + 1 + k) =
    ld8 (strncpy_loop (st8 m s c) (s + 1) (t + 1) n) (s + (1 + k))) as Eq
    by (intros; f_equal; lia).
  destruct i as [|i]; simpl.
  + rewrite Z.add_0_r.
    assert (∀ n m s t, ∀ x, x < s → ld8 (strncpy_loop m s t n) x = ld8 m x) as Hout.
    { clear. induction n as [|n IH]; intros m s t x Hx; [done|]. simpl.
      destruct (ld8 m t =? 0).
      - rewrite ld8_strncpy_pad, decide_False, ld8_st8_ne by (unfold inr_; lia). done.
      - rewrite IH, ld8_st8_ne by lia. done. }
    rewrite Hout, ld8_st8_eq, u8_small by lia. done.
  + replace (s + Z.of_nat (S i)) with (s + 1 + Z.of_nat i) by lia.
    apply IH; [|lia|lia].
    assert (∀ x, inr_ (t + 1) (Z.of_nat (length l) + 1) x → x ≠ s) as Hns
      by (intros x Hx ->; unfold inr_ in Hx; lia).
    destruct Hl as [Hl | (Hn & [= _ Hl] & Hf)].
    * left. apply cstr_cons in Hl as (_ & _ & Hl). eapply cstr_ext; [|exact Hl].
      intros x Hx. apply ld8_st8_ne. auto.
    * right. apply Forall_cons in Hf as (_ & Hf). split; [simpl in *; lia|]. split; [|done].
      rewrite <- Hl at 2. apply ld_bytes_ext. intros x Hx. apply ld8_st8_ne. apply Hns.
      unfold inr_ in *. lia.
- exfalso. apply Hc. destruct Hl as [Hl | (_ & _ & Hl)].
  + by apply cstr_cons in Hl as (_ & ? & _).
  + by apply Forall_cons in Hl as (? & _).
Qed.

(** [reverse] reverses the string in place and touches nothing else. *)
Lemma reverse_cstr m s l :
cstr m s l → Z.of_nat (length l) < 2 ^ 31 →
∃ m', reverse m s = Ok m' ∧ cstr m' s (rev l) ∧
  ∀ x, ¬ inr_ s (Z.of_nat (length l)) x → ld8 m' x = ld8 m x.
Proof.
intros Hs Hlen. unfold reverse. rewrite (strlen_cstr _ _ _ Hs) by assumption. simpl.
set (L := Z.of_nat (length l)) in *.
match goal with |- context [while _ ?f _] => set (body := f) end.
destruct (while_spec
  (λ '(m', i, j), 0 ≤ i ≤ L ∧ j = L - 1 - i ∧
     ∀ x, ld8 m' x =
       if decide (inr_ s L x ∧ (x - s < i ∨ j < x - s))
       then ld8 m (s + (L - 1 - (x - s))) else ld8 m x)
  (λ '(m', i, j), L - i)
  (λ m', ∀ x, ld8 m' x = if decide (inr_ s L x) then ld8 m (s + (L - 1 - (x - s))) else ld8 m x)
  (2 ^ 31) body (m, 0, L - 1)) as (m' & Hm' & HQ); cycle 4.
- exists m'. split; [exact Hm'|].
  split; [|intros x Hx; rewrite HQ, decide_False by exact Hx; reflexivity].
  apply cstr_intro; rewrite ?length_rev.
  + intros i c Hc. pose proof (lookup_lt_Some _ _ _ Hc) as Hi. rewrite length_rev in Hi.
    rewrite lookup_rev in Hc by done.
    rewrite HQ, decide_True by (unfold inr_; lia).
    replace (L - 1 - _) with (Z.of_nat (length l - S i)) by lia.
    by eapply cstr_elim.
  + rewrite HQ, decide_False by (unfold inr_; lia). apply Hs.
- intros [[m1 i] j] H. lia.
- intros [[m1 i] j] (Hi & -> & Hx). unfold body.
  destruct (Z.ltb_spec i (L - 1 - i)) as [Hlt|Hge].
  + left. eexists; split; [reflexivity|]. split; [|lia]. split; [lia|]. split; [lia|].
    intros x. rewrite !ld8_st8, !Hx. unfold inr_.
    repeat case_decide; try lia; rewrite ?u8_small by apply ld8_range;
      first [reflexivity | f_equal; lia].
  + right. eexists; split; [reflexivity|]. intros x. rewrite Hx. unfold inr_.
    repeat case_decide; try lia; try reflexivity. f_equal. lia.
- split; [lia|]. split; [lia|]. intros x.
  rewrite decide_False; [reflexivity|]. unfold inr_. lia.
- lia.
Qed.
End string_ops.

(** * Numbers in decimal *)

(** The value of a decimal numeral, least significant digit first and last. *)
Definition le_dec (l : list Z) : Z := foldr (λ c a, (c - 48) + 10 * a) 0 l.
Definition dec_value (l : list Z) : Z := fold_left (λ a c, 10 * a + (c - 48)) l 0.
Definition is_digit (c : Z) : Prop := 48 ≤ c < 58.

Lemma dec_value_rev l : dec_value (rev l) = le_dec l.
Proof.
  unfold dec_value, le_dec. rewrite fold_left_rev_right || idtac.
  induction l as [|c l IH]; [reflexivity|]. simpl.
  rewrite fold_left_app. simpl. rewrite IH. lia.
Qed.

Lemma le_dec_snoc l c : le_dec (l ++ [c]) = le_dec l + 10 ^ Z.of_nat (length l) * (c - 48).
Proof.
  induction l as [|d l IH]; [simpl; lia|].
  simpl length. rewrite Nat2Z.inj_succ, Z.pow_succ_r by lia.
  simpl. rewrite IH. lia.
Qed.

Lemma le_dec_nonneg l : Forall is_digit l → 0 ≤ le_dec l.
Proof. induction 1 as [|c l Hc _ IH]; unfold is_digit in *; simpl; lia. Qed.

Section int_to_ascii.
Context (m : mem) (str n0 : Z) (Hn0 : 0 ≤ n0 < 2 ^ 31).

(** The buffer holds the digits [l], and nothing else was written. *)
Definition ita_buf (m' : mem) (l : list Z) : Prop :=
Forall is_digit l ∧
(∀ k c, l !! k = Some c → ld8 m' (str + Z.of_nat k) = c) ∧
(∀ x, ¬ inr_ str (Z.of_nat (length l)) x → ld8 m' x = ld8 m x).

(** After [i] digits: the digits so far are in the buffer, least significant
  first, and [n] is what remains of the number. *)
Definition ita_inv '((m', n, i) : mem * Z * Z) : Prop :=
∃ l, i = Z.of_nat (length l) ∧ 0 ≤ n < 2 ^ 31 ∧ n0 = le_dec l + 10 ^ i * n ∧
  (l = [] ∨ 0 < n) ∧ ita_buf m' l.

Definition ita_post '((m', i) : mem * Z) : Prop :=
∃ l, i = Z.of_nat (length l) ∧ i ≤ 10 ∧ n0 = le_dec l ∧
  (head (rev l) ≠ Some 48 ∨ l = [48]) ∧ ita_buf m' l.

Lemma ita_store m' l c :
is_digit c → ita_buf m' l → ita_buf (st8 m' (str + Z.of_nat (length l)) c) (l ++ [c]).
Proof.
intros Hc (Hf & Hl & Hout). split; [|split].
- apply Forall_app; auto.
- intros k d Hd. apply lookup_app_Some in Hd as [Hd | [Hk Hd]].
  + pose proof (lookup_lt_Some _ _ _ Hd). rewrite ld8_st8_ne by lia. auto.
  + apply list_lookup_singleton_Some in Hd as [Hk' <-].
    replace (Z.of_nat k) with (Z.of_nat (length l)) by lia.
    by rewrite ld8_st8_eq, u8_small by (unfold is_digit in Hc; lia).
- intros x. rewrite length_app. simpl length. intros Hx.
  rewrite ld8_st8_ne, Hout by (unfold inr_ in *; lia). done.
Qed.

Lemma ita_digits_bound l n :
Forall is_digit l → n0 = le_dec l + 10 ^ Z.of_nat (length l) * n → 0 < n →
Z.of_nat (length l) ≤ 9.
Proof.
intros Hf Hv Hn. apply le_dec_nonneg in Hf.
destruct (decide (Z.of_nat (length l) ≤ 9)); [done|].
pose proof (Z.pow_le_mono_r 10 10 (Z.of_nat (length l))). nia.
Qed.

Lemma ita_loop :
∃ r, while (2 ^ 31) (ita_step str) (m, n0, 0) = Ok r ∧ ita_post r.
Proof.
apply while_spec with (I := ita_inv) (mu := λ '(_, n, _), n).
- intros [[m' n] i] (l & _ & H & _). lia.
- intros [[m' n] i] (l & -> & Hn & Hv & Hl & Hbuf).
  unfold ita_step. cbv zeta.
  rewrite Z.rem_mod_nonneg, Z.quot_div_nonneg by lia.
  assert (is_digit (n mod 10 + 48)) as Hdig by (unfold is_digit; zlia).
  pose proof (ita_store m' l _ Hdig Hbuf) as Hbuf'.
  assert (n0 = le_dec (l ++ [n mod 10 + 48]) + 10 ^ (Z.of_nat (length l) + 1) * (n / 10)) as Hv'.
  { rewrite le_dec_snoc, Z.add_simpl_r, Z.pow_add_r by lia.
    rewrite Hv at 1. rewrite (Z.div_mod n 10) at 1 by lia. ring. }
  assert (Z.of_nat (length l) + 1 = Z.of_nat (length (l ++ [n mod 10 + 48]))) as El
    by (rewrite length_app; simpl; lia).
  destruct (Z.ltb_spec 0 (n / 10)) as [Hlt|Hge].
  + left. eexists; split; [reflexivity|]. split; [|zlia].
    exists (l ++ [n mod 10 + 48]). rewrite <- El.
    split; [done|]. split; [zlia|]. auto.
  + right. eexists; split; [reflexivity|].
    exists (l ++ [n mod 10 + 48]). rewrite <- El.
    assert (n / 10 = 0) as E by zlia. rewrite E in Hv'.
    split; [reflexivity|]. destruct Hl as [-> | Hl].
    * split; [simpl; lia|]. split; [lia|]. split; [|auto].
      destruct (decide (n mod 10 + 48 = 48)) as [->|Hne]; [by right|left].
      simpl. congruence.
    * split; [pose proof (ita_digits_bound l n (proj1 Hbuf) Hv Hl); lia|].
      split; [lia|]. split; [left|auto].
      rewrite rev_unit. simpl. intros [= E']. zlia.
- exists []. split; [done|]. split; [lia|]. split; [simpl; lia|]. split; [auto|].
  split; [constructor|]. split; [|done]. intros k c. rewrite lookup_nil. discriminate.
- lia.
Qed.

Lemma int_to_ascii_nonneg :
∃ m' ds, int_to_ascii m n0 str = Ok m' ∧ cstr m' str ds ∧ Forall is_digit ds ∧
  dec_value ds = n0 ∧ (head ds ≠ Some 48 ∨ ds = [48]) ∧ (length ds ≤ 10)%nat ∧
  ∀ x, ¬ inr_ str (Z.of_nat (length ds) + 1) x → ld8 m' x = ld8 m x.
Proof.
unfold int_to_ascii. rewrite (proj2 (Z.ltb_ge n0 0)) by lia.
destruct ita_loop as ([m1 i] & -> & l & -> & Hi & Hv & Hlast & Hf & Hd & Hout).
cbn [rbind].
set (m2 := st8 m1 (str + Z.of_nat (length l)) 0).
assert (cstr m2 str l) as Hs.
{ apply cstr_intro; [|apply ld8_st8_eq]. intros k c Hc.
  pose proof (lookup_lt_Some _ _ _ Hc). unfold m2. rewrite ld8_st8_ne by lia.
  split; [auto|]. eapply Forall_lookup_1 in Hf; [|exact Hc]. unfold is_digit in Hf. lia. }
destruct (reverse_cstr m2 str l Hs) as (m' & -> & Hs' & Hout'); [lia|].
exists m', (rev l). split; [done|]. split; [done|].
split; [by apply Forall_rev|]. split; [by rewrite dec_value_rev|].
rewrite length_rev. split; [|split; [lia|]].
- destruct Hlast as [? | ->]; auto.
- intros x Hx. rewrite Hout' by (unfold inr_ in *; lia). unfold m2.
  rewrite ld8_st8_ne, Hout by (unfold inr_ in *; lia). done.
Qed.
End int_to_ascii.

(** * Properties *)

(** [memset] sets the [n] bytes at [dst] to the low byte of [c], and no
    other byte, on the word path ([stosl], when address and length are
    multiples of 4) as on the byte path. *)
Theorem memset_fills m dst c n :
  0 ≤ n →
  ∀ x, ld8 (memset m dst c n) x = ld8 (stosb m dst c (Z.to_nat n)) x.
Proof.
  intros Hn x. rewrite ld8_memset by done. rewrite ld8_stosb. unfold inr_.
  rewrite Z2Nat.id by done. done.
Qed.

Lemma memset_fills_witness :
  ld8 (memset ∅ 0x1000 0x1AB 8) 0x1007 = ld8 (stosb ∅ 0x1000 0x1AB 8) 0x1007 ∧
  ld8 (memset ∅ 0x1000 0x1AB 8) 0x1007 = 0xAB.
Proof. split; [by apply (memset_fills ∅ 0x1000 0x1AB 8) | by vm_compute]. Defined.

(** [memmove] copies the [n] bytes that were at [src], also when the two
    areas overlap in either direction, and changes nothing else. *)
Theorem memmove_copies m dst src n :
  0 ≤ n → 0 ≤ src → src + n < 2 ^ 32 →
  ld_bytes (memmove m dst src n) dst (Z.to_nat n) = ld_bytes m src (Z.to_nat n) ∧
  ∀ x, ¬ inr_ dst n x → ld8 (memmove m dst src n) x = ld8 m x.
Proof.
  intros Hn Hs He. split.
  - apply list_eq. intros i. destruct (decide (i < Z.to_nat n)%nat).
    + rewrite !lookup_ld_bytes by done. rewrite ld8_memmove by lia.
      rewrite decide_True by (unfold inr_; lia).
      do 2 f_equal. lia.
    + rewrite !lookup_ge_None_2 by (rewrite length_ld_bytes; lia). done.
  - intros x Hx. rewrite ld8_memmove by lia. by rewrite decide_False.
Qed.

Lemma memmove_copies_witness :
  ld_bytes (memmove (st_bytes ∅ 100 [1; 2; 3; 4]) 101 100 4) 101 4 =
    ld_bytes (st_bytes ∅ 100 [1; 2; 3; 4]) 100 4.
Proof. apply (memmove_copies (st_bytes ∅ 100 [1; 2; 3; 4]) 101 100 4); lia. Defined.

(** C40. [safestrcpy] copies a C string into a buffer of [n] bytes: at most
    [n - 1] characters, always terminated, and nothing outside the buffer. *)
Theorem safestrcpy_truncates m s t l n :
  cstr m t l → 0 < n → s + n ≤ t ∨ t + Z.of_nat (length l) < s →
  cstr (safestrcpy m s t n) s (take (Z.to_nat (n - 1)) l) ∧
  ∀ x, ¬ inr_ s n x → ld8 (safestrcpy m s t n) x = ld8 m x.
Proof.
  intros Hc Hn Hd. unfold safestrcpy. rewrite (proj2 (Z.leb_gt _ _) Hn).
  destruct (safestrcpy_loop_spec m s t l (Z.to_nat (n - 1))) as (H1 & H2); [done | lia |].
  split; [done|]. intros x Hx. apply H2. by replace (_ + 1) with n by lia.
Qed.

Lemma safestrcpy_truncates_witness :
  cstr (safestrcpy (st_bytes ∅ 100 [104; 101; 121; 0]) 200 100 3) 200 [104; 101].
Proof.
  apply (safestrcpy_truncates (st_bytes ∅ 100 [104; 101; 121; 0]) 200 100 [104; 101; 121] 3);
    [|lia|simpl; lia].
  split; [done|]. split; [repeat constructor; done | done].
Defined.

(** [int_to_ascii] of a non-negative [n] writes its decimal numeral: a
    terminated string of digits without leading zeros whose value is [n]. *)
Theorem int_to_ascii_decimal m n str :
  0 ≤ n < 2 ^ 31 →
  ∃ m' ds, int_to_ascii m n str = Ok m' ∧ cstr m' str ds ∧ Forall is_digit ds ∧
    dec_value ds = n ∧ (head ds ≠ Some 48 ∨ ds = [48]) ∧
    ∀ x, ¬ inr_ str (Z.of_nat (length ds) + 1) x → ld8 m' x = ld8 m x.
Proof.
  intros Hn. destruct (int_to_ascii_nonneg m str n Hn) as (m' & ds & E & H1 & H2 & H3 & H4 & _ & H5).
  by exists m', ds.
Qed.

Lemma int_to_ascii_decimal_witness :
  ∃ m' ds, int_to_ascii ∅ 1024 100 = Ok m' ∧ cstr m' 100 ds ∧ dec_value ds = 1024.
Proof.
  destruct (int_to_ascii_decimal ∅ 1024 100) as (m' & ds & E & H1 & _ & H3 & _); [lia|].
  by exists m', ds.
Defined.

(** The sign is lost: a negative number is written as its absolute value. *)
Theorem int_to_ascii_sign m n str :
  - 2 ^ 31 < n < 0 → int_to_ascii m n str = int_to_ascii m (- n) str.
Proof.
  intros Hn. unfold int_to_ascii. rewrite (proj2 (Z.ltb_lt n 0)), (proj2 (Z.ltb_ge (- n) 0)) by lia.
  by rewrite s32_small by lia.
Qed.

Lemma int_to_ascii_sign_witness :
  int_to_ascii ∅ (-7) 100 = int_to_ascii ∅ 7 100 ∧
  (let* m := int_to_ascii ∅ (-7) 100 in Ok (ld_bytes m 100 2)) = Ok [55; 0].
Proof. split; [apply (int_to_ascii_sign ∅ (-7) 100); lia | reflexivity]. Defined.

(** [hex_to_ascii] writes a nibble 10 above the last digit as a colon. *)
Theorem hex_to_ascii_colon :
  (let* m := hex_to_ascii ∅ 0xA0 100 in Ok (ld_bytes m 100 5)) = Ok [48; 120; 58; 48; 0] ∧
  (let* m := hex_to_ascii ∅ 0xBA 100 in Ok (ld_bytes m 100 5)) = Ok [48; 120; 98; 97; 0].
Proof. split; reflexivity. Qed.
