(* ===== verification/Mmu.v ===== *)
(** include/mmu.h: the memory layout constants, the address and page-table
    macros, and their arithmetic. *)
From S2P Require Import Prelude.

Definition KERNBASE : Z := 0x80000000.
Definition KERNLINK : Z := 0x80100000.
Definition EXTMEM : Z := 0x100000.
Definition PHYSTOP : Z := 0xE000000.
Definition DEVSPACE : Z := 0xFE000000.

Definition NPDENTRIES : Z := 1024.
Definition NPTENTRIES : Z := 1024.
Definition PGSIZE : Z := 4096.
Definition PTXSHIFT : Z := 12.
Definition PDXSHIFT : Z := 22.
Definition KSTACKSIZE : Z := 4096.

Definition PTE_P : Z := 0x001.
Definition PTE_W : Z := 0x002.
Definition PTE_U : Z := 0x004.
Definition PTE_PS : Z := 0x080.

Definition V2P (a : Z) : Z := u32 (a - KERNBASE).
Definition P2V (a : Z) : Z := u32 (a + KERNBASE).

Definition PDX (va : Z) : Z := Z.land (Z.shiftr va PDXSHIFT) 0x3FF.
Definition PTX (va : Z) : Z := Z.land (Z.shiftr va PTXSHIFT) 0x3FF.
Definition PGADDR (d t o : Z) : Z :=
  u32 (Z.lor (Z.lor (Z.shiftl d PDXSHIFT) (Z.shiftl t PTXSHIFT)) o).

Definition PGROUNDUP (sz : Z) : Z := Z.land (u32 (sz + PGSIZE - 1)) (Z.lnot (PGSIZE - 1)).
Definition PGROUNDDOWN (a : Z) : Z := Z.land a (Z.lnot (PGSIZE - 1)).

Definition PTE_ADDR (pte : Z) : Z := Z.land pte (Z.lnot 0xFFF).
Definition PTE_FLAGS (pte : Z) : Z := Z.land pte 0xFFF.

(** [x & PTE_P], the test the kernel makes on a directory or table entry. *)
Definition present (x : Z) : bool := negb (Z.land x PTE_P =? 0).

(** * The arithmetic of the macros *)

Lemma PGROUNDDOWN_sub a : PGROUNDDOWN a = a - a mod 4096.
Proof. apply (ldiff_ones_sub a 12). lia. Qed.

Lemma PTE_ADDR_sub a : PTE_ADDR a = a - a mod 4096.
Proof. apply (ldiff_ones_sub a 12). lia. Qed.

Lemma PTE_FLAGS_mod a : PTE_FLAGS a = a mod 4096.
Proof. apply (land_ones_mod a 12). lia. Qed.

Lemma PGROUNDUP_spec sz :
  0 ≤ sz → sz + 4095 < 2 ^ 32 →
  PGROUNDUP sz mod 4096 = 0 ∧ sz ≤ PGROUNDUP sz < sz + 4096.
Proof.
  intros H1 H2. unfold PGROUNDUP, PGSIZE. rewrite u32_small by lia.
  rewrite (ldiff_ones_sub _ 12) by lia. zlia.
Qed.

Lemma PDX_div va : 0 ≤ va < 2 ^ 32 → PDX va = va / 2 ^ 22.
Proof.
  intros. unfold PDX, PDXSHIFT. change 0x3FF with (2 ^ 10 - 1).
  rewrite land_ones_mod, Z.shiftr_div_pow2 by lia. zlia.
Qed.

Lemma PTX_div va : 0 ≤ va < 2 ^ 32 → PTX va = va / 4096 mod 1024.
Proof.
  intros. unfold PTX, PTXSHIFT. change 0x3FF with (2 ^ 10 - 1).
  rewrite land_ones_mod, Z.shiftr_div_pow2 by lia. reflexivity.
Qed.

Lemma PDX_range va : 0 ≤ PDX va < 1024.
Proof.
  unfold PDX. change 0x3FF with (2 ^ 10 - 1). rewrite land_ones_mod by lia. zlia.
Qed.

Lemma PTX_range va : 0 ≤ PTX va < 1024.
Proof.
  unfold PTX. change 0x3FF with (2 ^ 10 - 1). rewrite land_ones_mod by lia. zlia.
Qed.

(** The two table indices name the page of the address. *)
Lemma PDX_PTX_page va : 0 ≤ va < 2 ^ 32 → PDX va * 1024 + PTX va = va / 4096.
Proof. intros. rewrite PDX_div, PTX_div by lia. zlia. Qed.

Lemma PDX_PTX_inj va va' :
  0 ≤ va < 2 ^ 32 → 0 ≤ va' < 2 ^ 32 →
  PDX va = PDX va' → PTX va = PTX va' → va / 4096 = va' / 4096.
Proof.
  intros H1 H2 E1 E2. rewrite <- (PDX_PTX_page va), <- (PDX_PTX_page va') by lia. lia.
Qed.

(** [PGADDR] rebuilds an address from its three fields. *)
Lemma PGADDR_split va :
  0 ≤ va < 2 ^ 32 → PGADDR (PDX va) (PTX va) (va mod 4096) = va.
Proof.
  intros. unfold PGADDR, PDXSHIFT, PTXSHIFT. rewrite PDX_div, PTX_div by lia.
  rewrite !Z.shiftl_mul_pow2 by lia.
  rewrite (lor_disjoint_add (va / 2 ^ 22 * 2 ^ 22) _ 22) by zlia.
  rewrite (lor_disjoint_add (_ + va / 4096 mod 1024 * 2 ^ 12) _ 12) by zlia.
  zlia.
Qed.

Lemma PGADDR_dir d : 0 ≤ d < 1024 → PGADDR d 0 0 = d * 2 ^ 22.
Proof.
  intros. unfold PGADDR, PDXSHIFT, PTXSHIFT.
  rewrite Z.shiftl_0_l, !Z.lor_0_r, Z.shiftl_mul_pow2 by lia. apply u32_small. lia.
Qed.

Lemma V2P_kern v : KERNBASE ≤ v < 2 ^ 32 → V2P v = v - KERNBASE.
Proof. unfold V2P, KERNBASE. intros. apply u32_small. lia. Qed.

Lemma P2V_phys a : 0 ≤ a < 2 ^ 31 → P2V a = a + KERNBASE.
Proof. unfold P2V, KERNBASE. intros. apply u32_small. lia. Qed.

Lemma V2P_P2V a : 0 ≤ a < 2 ^ 32 → V2P (P2V a) = a.
Proof. unfold V2P, P2V, KERNBASE. intros. zlia. Qed.

Lemma P2V_V2P v : 0 ≤ v < 2 ^ 32 → P2V (V2P v) = v.
Proof. unfold V2P, P2V, KERNBASE. intros. zlia. Qed.

(** An entry made of a page address and flag bits gives both back. *)
Lemma pte_make pa flags :
  pa mod 4096 = 0 → 0 ≤ flags < 4096 →
  Z.lor pa flags = pa + flags ∧
  PTE_ADDR (Z.lor pa flags) = pa ∧ PTE_FLAGS (Z.lor pa flags) = flags.
Proof.
  intros Hpa Hf. rewrite (lor_disjoint_add pa flags 12) by (try apply Hpa; lia).
  rewrite PTE_ADDR_sub, PTE_FLAGS_mod. zlia.
Qed.

Lemma land_flag_low x flag :
  0 ≤ flag < 4096 → Z.land x flag = Z.land (PTE_FLAGS x) flag.
Proof.
  intros Hf. unfold PTE_FLAGS. Zbits.
  destruct (decide (i < 12)).
  - replace (Z.testbit 0xFFF i) with true; [by rewrite andb_true_r|].
    symmetry. change 0xFFF with (Z.ones 12). apply Z.ones_spec_low. lia.
  - rewrite (testbit_high flag 12 i) by lia. by rewrite !andb_false_r.
Qed.

Lemma present_0 : present 0 = false.
Proof. reflexivity. Qed.
