(* ===== verification/Kalloc.v ===== *)
(** kernel/kalloc.c: the physical page allocator.  The free pages form a list
    threaded through their own first words; the abstract state is the list of
    free pages, which [kfree] pushes on and [kalloc] pops. *)
From S2P Require Import Prelude Memory LibC Mmu.

(** The kernel memory, [kmem.freelist], and what the memory code reported
    through kprint/kprintf (newest first). *)
Record kst := mk_kst { km : mem; freelist : Z; klog : list string }.

Definition set_km (st : kst) (m : mem) : kst := mk_kst m (freelist st) (klog st).
Definition kprint (st : kst) (msg : string) : kst := mk_kst (km st) (freelist st) (msg :: klog st).

Definition kfree (st : kst) (v : Z) : kst :=
  let m1 := memset (km st) v 1 PGSIZE in
  mk_kst (st32 m1 v (freelist st)) v (klog st).

Definition kalloc (st : kst) : kst * Z :=
  let r := freelist st in
  if r =? 0 then (st, r) else (mk_kst (km st) (ld32 (km st) r) (klog st), r).

(** [for(; p + PGSIZE <= vend; p += PGSIZE) kfree(p)]. *)
Definition freerange (st : kst) (vstart vend : Z) : res kst :=
  while (2 ^ 21)
    (λ '(st, p),
       Ok (if u32 (p + PGSIZE) <=? vend then inl (kfree st p, u32 (p + PGSIZE)) else inr st))
    (st, PGROUNDUP vstart).

Definition kinit1 (st : kst) (vstart vend : Z) : res kst := freerange st vstart vend.
Definition kinit2 (st : kst) (vstart vend : Z) : res kst := freerange st vstart vend.

(** * The abstract free list *)

(** A page of the kernel window, by its kernel virtual address. *)
Definition page_ok (v : Z) : Prop := v mod 4096 = 0 ∧ KERNBASE ≤ v < 2 ^ 32.

#[export] Instance page_ok_dec v : Decision (page_ok v).
Proof. unfold page_ok. apply _. Defined.

(** The word-linked list from [h] visits the pages [l] and ends in null. *)
Fixpoint chain (m : mem) (h : Z) (l : list Z) : Prop :=
  match l with
  | [] => h = 0
  | p :: l' => h = p ∧ page_ok p ∧ chain m (ld32 m p) l'
  end.

Definition free_pages (st : kst) (l : list Z) : Prop :=
  chain (km st) (freelist st) l ∧ NoDup l.

#[export] Instance chain_dec m h l : Decision (chain m h l).
Proof. revert h. induction l; intros h; simpl; apply _. Defined.
#[export] Instance free_pages_dec st l : Decision (free_pages st l).
Proof. unfold free_pages. apply _. Defined.

Section free_list.
Implicit Types (m : mem) (l : list Z) (st : kst).

Lemma page_ok_disjoint p q x :
page_ok p → page_ok q → p ≠ q → inr_ p PGSIZE x → ¬ inr_ q PGSIZE x.
Proof. unfold page_ok, inr_, PGSIZE. intros. zlia. Qed.

Lemma page_ok_nonzero p : page_ok p → p ≠ 0.
Proof. unfold page_ok, KERNBASE. lia. Qed.

Lemma page_word p i x :
page_ok p → 0 ≤ i < 1024 → inr_ (p + 4 * i) 4 x → inr_ p PGSIZE x.
Proof. unfold inr_, PGSIZE. lia. Qed.

(** The list only reads the first words of its pages. *)
Lemma chain_ext m m' h l :
(∀ p, p ∈ l → ld32 m' p = ld32 m p) → chain m h l → chain m' h l.
Proof.
revert h. induction l as [|p l IH]; intros h E; [done|].
simpl. intros (-> & Hp & Hc). repeat split; try apply Hp.
rewrite E by left. apply IH; [|exact Hc]. intros q Hq. apply E. by right.
Qed.

Lemma chain_page_ok m h l p : chain m h l → p ∈ l → page_ok p.
Proof.
revert h. induction l as [|q l IH]; intros h; [by intros _ ?%not_elem_of_nil|].
simpl. intros (_ & Hq & Hc) [->|Hp]%elem_of_cons; eauto.
Qed.

(** A memory update that spares the free pages leaves the list alone. *)
Lemma free_pages_frame st st' l :
freelist st' = freelist st →
(∀ q x, q ∈ l → page_ok q → inr_ q PGSIZE x → ld8 (km st') x = ld8 (km st) x) →
free_pages st l → free_pages st' l.
Proof.
intros Ef E (Hc & Hnd). split; [|done]. rewrite Ef.
apply chain_ext with (km st); [|done]. intros p Hp. apply ld32_ext.
intros x Hx. apply (E p x Hp); [by eapply chain_page_ok|].
unfold inr_, PGSIZE in *. lia.
Qed.

Lemma km_kfree st v x :
page_ok v → ¬ inr_ v PGSIZE x → ld8 (km (kfree st v)) x = ld8 (km st) x.
Proof.
intros Hv Hx. unfold kfree. cbn [km].
rewrite ld8_st32_ne by (unfold inr_, PGSIZE in *; lia).
rewrite ld8_memset, decide_False by (done || unfold PGSIZE; lia). done.
Qed.

Lemma kfree_free_pages st l v :
free_pages st l → page_ok v → v ∉ l → free_pages (kfree st v) (v :: l).
Proof.
intros Hf Hv Hnot.
assert (free_pages (mk_kst (km (kfree st v)) (freelist st) []) l) as (Hc & Hnd).
{ apply free_pages_frame with st; try done. intros q x Hq Hqok Hx. apply km_kfree; [done|].
  apply (page_ok_disjoint q v x); congruence. }
split; [|by constructor]. split; [done|]. split; [done|].
unfold kfree at 2. cbn [km]. rewrite ld32_st32_eq.
rewrite u32_small; [exact Hc|].
destruct Hf as (Hc0 & _). destruct l as [|p l]; simpl in Hc0.
- rewrite Hc0. lia.
- destruct Hc0 as (-> & Hp & _). unfold page_ok, KERNBASE in Hp. lia.
Qed.

Lemma kalloc_nil st : free_pages st [] → kalloc st = (st, 0).
Proof. intros (Hc & _). simpl in Hc. unfold kalloc. by rewrite Hc. Qed.

Lemma kalloc_cons st p l :
free_pages st (p :: l) →
∃ st', kalloc st = (st', p) ∧ km st' = km st ∧ free_pages st' l ∧ page_ok p ∧ (p ∉ l) ∧
  klog st' = klog st.
Proof.
intros ((E & Hp & Hc) & Hnd). apply NoDup_cons in Hnd as (Hnot & Hnd).
unfold kalloc. rewrite E. pose proof (page_ok_nonzero p Hp).
rewrite (proj2 (Z.eqb_neq p 0)) by done.
eexists; split; [reflexivity|]. repeat split; try done; apply Hp.
Qed.
End free_list.

(** * Freeing a range of pages *)

(** The [n] consecutive pages from [p]. *)
Fixpoint page_run (p : Z) (n : nat) : list Z :=
  match n with
  | O => []
  | S n' => p :: page_run (p + 4096) n'
  end.

Lemma page_run_snoc p n : page_run p (S n) = page_run p n ++ [p + 4096 * Z.of_nat n].
Proof.
  revert p. induction n as [|n IH]; intros p; [simpl; f_equal; lia|].
  change (page_run p (S (S n))) with (p :: page_run (p + 4096) (S n)).
  rewrite IH. cbn [page_run app]. do 2 f_equal. f_equal. lia.
Qed.

Lemma length_page_run p n : length (page_run p n) = n.
Proof. revert p. induction n as [|n IH]; intros p; [done|]. cbn. by rewrite IH. Qed.

Lemma elem_of_page_run p n x :
  x ∈ page_run p n ↔ ∃ k, 0 ≤ k < Z.of_nat n ∧ x = p + 4096 * k.
Proof.
  revert p. induction n as [|n IH]; intros p; simpl page_run.
  - rewrite elem_of_nil. split; [done | intros (k & Hk & _); lia].
  - rewrite elem_of_cons, IH. split.
    + intros [-> | (k & Hk & ->)]; [exists 0; lia | exists (k + 1); lia].
    + intros (k & Hk & ->). destruct (decide (k = 0)) as [->|Hne]; [left; lia|right].
      exists (k - 1). lia.
Qed.

Section freerange.
Context (st0 : kst) (l : list Z) (vstart vend : Z).
Context (Hfree : free_pages st0 l)
      (Hstart : KERNBASE ≤ vstart ∧ vstart + 8192 < 2 ^ 32)
      (Hend : vend < 2 ^ 32 - 4096)
      (Hnew : ∀ p, p ∈ l → ¬ PGROUNDUP vstart ≤ p < vend).

Context (p0 : Z) (n : nat)
      (Hp0 : p0 = PGROUNDUP vstart) (Hn0 : n = Z.to_nat ((vend - p0) / 4096)).

Definition freerange_inv '((st, p) : kst * Z) : Prop :=
∃ k, (k ≤ n)%nat ∧ p = p0 + 4096 * Z.of_nat k ∧
  free_pages st (rev (page_run p0 k) ++ l) ∧ klog st = klog st0 ∧
  ∀ x, ¬ inr_ p0 (4096 * Z.of_nat k) x → ld8 (km st) x = ld8 (km st0) x.

Lemma freerange_spec :
∃ st', freerange st0 vstart vend = Ok st' ∧
  free_pages st' (rev (page_run p0 n) ++ l) ∧ klog st' = klog st0 ∧
  ∀ x, ¬ inr_ p0 (4096 * Z.of_nat n) x → ld8 (km st') x = ld8 (km st0) x.
Proof.
pose proof Hstart as Hs. unfold KERNBASE in Hs.
destruct (PGROUNDUP_spec vstart) as (Hal & Hr); [lia..|].
rewrite <- Hp0 in *. unfold freerange. rewrite <- Hp0.
apply while_spec with (I := freerange_inv)
  (mu := λ '(_, p), Z.max 0 ((vend - p) / 4096)).
- intros [st p] _. lia.
- intros [st p] (k & Hk & -> & Hf & Hlog & Hout).
  assert (4096 * Z.of_nat n ≤ Z.max 0 (vend - p0)) as Hn by zlia.
  unfold PGSIZE. rewrite u32_small by lia.
  destruct (Z.leb_spec (p0 + 4096 * Z.of_nat k + 4096) vend) as [Hle|Hgt].
  + left. eexists; split; [reflexivity|].
    assert (page_ok (p0 + 4096 * Z.of_nat k)) as Hok
      by (unfold page_ok, KERNBASE; zlia).
    split; [|zlia]. exists (S k). split; [zlia|]. split; [lia|].
    rewrite page_run_snoc, rev_unit. split; [|split].
    * simpl. apply kfree_free_pages; [done|done|].
      intros [Hin|Hin]%elem_of_app; [|apply Hnew in Hin; lia].
      apply list_elem_of_In, in_rev, list_elem_of_In, elem_of_page_run in Hin
        as (j & Hj & E). lia.
    * done.
    * intros x Hx. rewrite km_kfree, Hout; [done|..]; unfold inr_, PGSIZE in *; try lia.
      exact Hok.
  + right. eexists; split; [reflexivity|].
    assert (k = n) as -> by zlia. auto.
- exists 0%nat. simpl. repeat split; try done; try lia; apply Hfree.
- zlia.
Qed.
End freerange.

(** * Properties *)

(** Freeing and allocating on the free list: [kfree] of a page that is not
    free makes it the first of the list, the next [kalloc] returns it and
    leaves the list as it was, and an allocator without free pages answers 0. *)
Theorem kfree_kalloc_lifo st l v :
  free_pages st l → page_ok v → v ∉ l →
  ∃ st', kalloc (kfree st v) = (st', v) ∧ free_pages st' l ∧
    (∀ x, ¬ inr_ v PGSIZE x → ld8 (km st') x = ld8 (km st) x) ∧
    (l = [] → (kalloc st).2 = 0 ∧ (kalloc st').2 = 0).
Proof.
  intros Hf Hv Hl. destruct (kalloc_cons _ _ _ (kfree_free_pages _ _ _ Hf Hv Hl))
    as (st' & E & Em & Hf' & _).
  exists st'. split; [done|]. split; [done|]. split.
  - intros x Hx. rewrite Em. by rewrite km_kfree by done.
  - intros ->. by rewrite !kalloc_nil.
Qed.

Definition kst0 : kst := mk_kst ∅ 0 [].

Lemma kfree_kalloc_lifo_witness :
  ∃ st', kalloc (kfree (kfree kst0 0x80400000) 0x80401000) = (st', 0x80401000) ∧
    free_pages st' [0x80400000].
Proof.
  destruct (kfree_kalloc_lifo (kfree kst0 0x80400000) [0x80400000] 0x80401000)
    as (st' & E & Hf & _).
  - apply kfree_free_pages; [by split; [|constructor] | by compute_done | apply not_elem_of_nil].
  - by compute_done.
  - by rewrite list_elem_of_singleton.
  - by exists st'.
Defined.

(** [freerange] gives the allocator every whole page between the two
    addresses, in front of the pages it had, the highest first, and touches no
    other byte; it terminates when the end is a page below the top of memory. *)
Theorem freerange_frees st l vstart vend :
  free_pages st l → KERNBASE ≤ vstart → vstart + 8192 < 2 ^ 32 → vend < 2 ^ 32 - 4096 →
  (∀ p, p ∈ l → ¬ PGROUNDUP vstart ≤ p < vend) →
  let p0 := PGROUNDUP vstart in
  let n := Z.to_nat ((vend - p0) / 4096) in
  ∃ st', freerange st vstart vend = Ok st' ∧
    free_pages st' (rev (page_run p0 n) ++ l) ∧
    ∀ x, ¬ inr_ p0 (4096 * Z.of_nat n) x → ld8 (km st') x = ld8 (km st) x.
Proof.
  intros Hf H1 H2 H3 Hn p0 n.
  destruct (freerange_spec st l vstart vend Hf (conj H1 H2) H3 Hn p0 n eq_refl eq_refl)
    as (st' & E & Hf' & _ & Hx). by exists st'.
Qed.

Lemma freerange_frees_witness :
  ∃ st', freerange kst0 0x80400001 0x80404fff = Ok st' ∧
    free_pages st' [0x80403000; 0x80402000; 0x80401000].
Proof.
  destruct (freerange_frees kst0 [] 0x80400001 0x80404fff) as (st' & E & Hf & _).
  - split; [done | constructor].
  - by compute_done.
  - done.
  - done.
  - intros p Hp. by apply elem_of_nil in Hp.
  - exists st'. split; [exact E | exact Hf].
Defined.
