(* ===== verification/Vm.v ===== *)
(** kernel/vm.c: page tables.  Operations follow the C functions on the kernel
    memory; the abstract state is the entry each user or kernel virtual address
    has in a page directory. *)
From S2P Require Import Prelude Memory LibC Mmu Kalloc.

(** * The operations of kernel/vm.c *)

(** The address of the page-table entry for [va], or 0. *)
Definition walkpgdir (st : kst) (pgdir va : Z) (alloc : bool) : kst * Z :=
  let pde := pgdir + 4 * PDX va in
  if present (ld32 (km st) pde) then
    (st, P2V (PTE_ADDR (ld32 (km st) pde)) + 4 * PTX va)
  else if negb alloc then (st, 0)
  else
    let '(st, pgtab) := kalloc st in
    if pgtab =? 0 then (st, 0)
    else
      let m := memset (km st) pgtab 0 PGSIZE in
      let m := st32 m pde (Z.lor (Z.lor (Z.lor (V2P pgtab) PTE_P) PTE_W) PTE_U) in
      (set_km st m, pgtab + 4 * PTX va).

(** One turn of the loop of [mappages]. *)
Definition map_step (pgdir perm last : Z) '((st, a, pa) : kst * Z * Z)
  : res (kst * Z * Z + kst * Z) :=
  let '(st, pte) := walkpgdir st pgdir a true in
  if pte =? 0 then Ok (inr (st, -1))
  else
    let st := set_km st (st32 (km st) pte (Z.lor (Z.lor pa perm) PTE_P)) in
    if a =? last then Ok (inr (st, 0))
    else Ok (inl (st, u32 (a + PGSIZE), u32 (pa + PGSIZE))).

Definition mappages (st : kst) (pgdir va size pa perm : Z) : res (kst * Z) :=
  let a := PGROUNDDOWN va in
  let last := PGROUNDDOWN (u32 (u32 (va + size) - 1)) in
  while (2 ^ 21) (map_step pgdir perm last) (st, a, pa).

Definition dealloc_step (pgdir oldsz : Z) '((st, a) : kst * Z) : res (kst * Z + kst) :=
  if a <? oldsz then
    let '(st, pte) := walkpgdir st pgdir a false in
    if pte =? 0 then
      Ok (inl (st, u32 (u32 (PGADDR (PDX a + 1) 0 0 - PGSIZE) + PGSIZE)))
    else if present (ld32 (km st) pte) then
      let pa := PTE_ADDR (ld32 (km st) pte) in
      let st := if pa =? 0 then kprint st "kfree faild" else st in
      let st := kfree st (P2V pa) in
      Ok (inl (set_km st (st32 (km st) pte 0), u32 (a + PGSIZE)))
    else Ok (inl (st, u32 (a + PGSIZE)))
  else Ok (inr st).

Definition deallocuvm (st : kst) (pgdir oldsz newsz : Z) : res (kst * Z) :=
  if oldsz <=? newsz then Ok (st, oldsz)
  else
    let* st := while (2 ^ 21) (dealloc_step pgdir oldsz) (st, PGROUNDUP newsz) in
    Ok (st, newsz).

(** [for(i = 0; i < NPDENTRIES; i++) if(pgdir[i] & PTE_P) kfree(P2V(PTE_ADDR(pgdir[i])))],
    [n] entries from [i] being left. *)
Fixpoint freevm_loop (st : kst) (pgdir i : Z) (n : nat) : kst :=
  match n with
  | O => st
  | S n' =>
      let e := ld32 (km st) (pgdir + 4 * i) in
      freevm_loop (if present e then kfree st (P2V (PTE_ADDR e)) else st) pgdir (i + 1) n'
  end.

Definition freevm (st : kst) (pgdir : Z) : res kst :=
  let* r := deallocuvm st pgdir KERNBASE 0 in
  Ok (kfree (freevm_loop r.1 pgdir 0 (Z.to_nat NPDENTRIES)) pgdir).

(** The table [kmap]; [data] is the linker symbol of kernel.ld. *)
Record kmap_entry := { virt : Z; phys_start : Z; phys_end : Z; perm : Z }.

Definition kmap (data : Z) : list kmap_entry :=
  [ {| virt := KERNBASE; phys_start := 0; phys_end := EXTMEM; perm := PTE_W |};
    {| virt := KERNLINK; phys_start := V2P KERNLINK; phys_end := V2P data; perm := 0 |};
    {| virt := data; phys_start := V2P data; phys_end := PHYSTOP; perm := PTE_W |};
    {| virt := DEVSPACE; phys_start := DEVSPACE; phys_end := 0; perm := PTE_W |} ].

Fixpoint map_kernel (st : kst) (pgdir : Z) (ks : list kmap_entry) : res (kst * Z) :=
  match ks with
  | [] => Ok (st, pgdir)
  | k :: ks' =>
      let* r := mappages st pgdir (virt k) (u32 (phys_end k - phys_start k))
                  (phys_start k) (perm k) in
      if r.2 <? 0 then
        let* st := freevm r.1 pgdir in Ok (st, 0)
      else map_kernel r.1 pgdir ks'
  end.

Definition setupkvm (st : kst) (data : Z) : res (kst * Z) :=
  let '(st, pgdir) := kalloc st in
  if pgdir =? 0 then Ok (st, 0)
  else map_kernel (set_km st (memset (km st) pgdir 0 PGSIZE)) pgdir (kmap data).

Definition inituvm (st : kst) (pgdir init sz : Z) : res kst :=
  let st := if PGSIZE <=? sz then kprint st "inituvm: more than a page" else st in
  let '(st, mem) := kalloc st in
  if mem =? 0 then Fault
  else
    let st := set_km st (memset (km st) mem 0 PGSIZE) in
    let* r := mappages st pgdir 0 PGSIZE (V2P mem) (Z.lor PTE_W PTE_U) in
    Ok (set_km r.1 (memmove (km r.1) mem init sz)).

Definition clearpteu (st : kst) (pgdir uva : Z) : res kst :=
  let '(st, pte) := walkpgdir st pgdir uva false in
  if pte =? 0 then Fault
  else Ok (set_km st (st32 (km st) pte (Z.land (ld32 (km st) pte) (Z.lnot PTE_U)))).

Definition alloc_step (pgdir oldsz newsz : Z) '((st, a) : kst * Z)
  : res (kst * Z + kst * Z) :=
  if a <? newsz then
    let '(st, mem) := kalloc st in
    if mem =? 0 then
      let* r := deallocuvm (kprint st "allocuvm out of memory") pgdir newsz oldsz in
      Ok (inr (r.1, 0))
    else
      let st := set_km st (memset (km st) mem 0 PGSIZE) in
      let* r := mappages st pgdir a PGSIZE (V2P mem) (Z.lor PTE_W PTE_U) in
      if r.2 <? 0 then
        let* r := deallocuvm (kprint r.1 "allocuvm out of memory (2)") pgdir newsz oldsz in
        Ok (inr (kfree r.1 mem, 0))
      else Ok (inl (r.1, u32 (a + PGSIZE)))
  else Ok (inr (st, newsz)).

Definition allocuvm (st : kst) (pgdir oldsz newsz : Z) : res (kst * Z) :=
  if KERNBASE <=? newsz then Ok (st, 0)
  else if newsz <? oldsz then Ok (st, oldsz)
  else while (2 ^ 21) (alloc_step pgdir oldsz newsz) (st, PGROUNDUP oldsz).

(** The kernel address of the user page at [uva]; a null table is dereferenced. *)
Definition uva2ka (st : kst) (pgdir uva : Z) : res Z :=
  let '(st, pte) := walkpgdir st pgdir uva false in
  if pte =? 0 then Fault
  else
    let e := ld32 (km st) pte in
    if negb (present e) then Ok 0
    else if Z.land e PTE_U =? 0 then Ok 0
    else Ok (P2V (PTE_ADDR e)).

(** The loop state: the memory, [va] and the bytes from [buf] on; [len] is how
    many are left. *)
Definition copyout_step (pgdir : Z) '((st, va, buf) : kst * Z * list Z)
  : res (kst * Z * list Z + kst * Z) :=
  let len := Z.of_nat (length buf) in
  if 0 <? len then
    let va0 := PGROUNDDOWN va in
    let* pa0 := uva2ka st pgdir va0 in
    if pa0 =? 0 then Ok (inr (st, -1))
    else
      let n := PGSIZE - (va - va0) in
      let n := if len <? n then len else n in
      let st := set_km st (st_bytes (km st) (pa0 + (va - va0)) (take (Z.to_nat n) buf)) in
      Ok (inl (st, u32 (va0 + PGSIZE), drop (Z.to_nat n) buf))
  else Ok (inr (st, 0)).

(** [copyout(pgdir, va, p, len)], [buf] being the [len] bytes at [p]: the callers
    copy from their own stack and from user pages of another directory, which
    the copy does not change. *)
Definition copyout (st : kst) (pgdir va : Z) (buf : list Z) : res (kst * Z) :=
  while (2 ^ 32) (copyout_step pgdir) (st, va, buf).

(** * Page tables as a map from pages to entries *)

Definition pde_of (m : mem) (pgdir i : Z) : Z := ld32 m (pgdir + 4 * i).
Definition tab_of (m : mem) (pgdir i : Z) : Z := P2V (PTE_ADDR (pde_of m pgdir i)).

(** The entry of [va]: 0 when its table is missing. *)
Definition pte_at (m : mem) (pgdir va : Z) : Z :=
  if present (pde_of m pgdir (PDX va))
  then ld32 m (tab_of m pgdir (PDX va) + 4 * PTX va) else 0.

(** A page directory beside the free list [l]: the directory and its tables
    are distinct pages, none of them free. *)
Record pt_wf (st : kst) (pgdir : Z) (l : list Z) : Prop := {
  ptw_free : free_pages st l;
  ptw_dir : page_ok pgdir;
  ptw_dir_used : pgdir ∉ l;
  ptw_tab : ∀ i, 0 ≤ i < 1024 → present (pde_of (km st) pgdir i) = true →
    page_ok (tab_of (km st) pgdir i) ∧ tab_of (km st) pgdir i ≠ pgdir ∧
    tab_of (km st) pgdir i ∉ l;
  ptw_inj : ∀ i j, 0 ≤ i < 1024 → 0 ≤ j < 1024 →
    present (pde_of (km st) pgdir i) = true → present (pde_of (km st) pgdir j) = true →
    tab_of (km st) pgdir i = tab_of (km st) pgdir j → i = j
}.

Definition same_page (a b : Z) : Prop := a / 4096 = b / 4096.
#[export] Instance same_page_dec a b : Decision (same_page a b).
Proof. unfold same_page. apply _. Defined.

Lemma present_make pa flags :
  pa mod 4096 = 0 → 0 ≤ flags < 4096 → present (Z.lor (Z.lor pa flags) PTE_P) = true.
Proof.
  intros Hpa Hf. unfold present. apply negb_true_iff, Z.eqb_neq. intros E.
  apply (f_equal (λ x, Z.testbit x 0)) in E.
  rewrite Z.land_spec, Z.lor_spec, Z.bits_0 in E. change (Z.testbit PTE_P 0) with true in E.
  rewrite orb_true_r in E. discriminate.
Qed.

Lemma lor_flags_bound pa flags :
  pa mod 4096 = 0 → 0 ≤ pa < 2 ^ 32 → 0 ≤ flags < 4096 → 0 ≤ Z.lor pa flags < 2 ^ 32.
Proof.
  intros Hpa Hr Hf. rewrite (lor_disjoint_add pa flags 12) by (try apply Hpa; lia). zlia.
Qed.

Lemma V2P_page p : page_ok p → V2P p mod 4096 = 0 ∧ 0 ≤ V2P p < 2 ^ 31.
Proof.
  intros (Ha & Hr). rewrite V2P_kern by assumption. unfold KERNBASE in *. zlia.
Qed.

Section page_words.
Implicit Types (m : mem).

(** Words of a page whose bytes did not change. *)
Lemma ld32_page m m' q i :
(∀ x, inr_ q PGSIZE x → ld8 m' x = ld8 m x) → 0 ≤ i < 1024 →
ld32 m' (q + 4 * i) = ld32 m (q + 4 * i).
Proof.
intros E Hi. apply ld32_ext. intros x Hx. apply E. unfold inr_, PGSIZE in *. lia.
Qed.

(** A word stored in page [p] does not reach another page. *)
Lemma st32_page_ne m p q i v x :
page_ok p → page_ok q → p ≠ q → 0 ≤ i < 1024 → inr_ q PGSIZE x →
ld8 (st32 m (p + 4 * i) v) x = ld8 m x.
Proof.
intros Hp Hq Hne Hi Hx. apply ld8_st32_ne. intros Hin.
apply (page_ok_disjoint q p x Hq Hp); [congruence | exact Hx |].
unfold inr_, PGSIZE in *. lia.
Qed.

Lemma memset_page_ne m p q c x :
page_ok p → page_ok q → p ≠ q → inr_ q PGSIZE x →
ld8 (memset m p c PGSIZE) x = ld8 m x.
Proof.
intros Hp Hq Hne Hx. rewrite ld8_memset by (unfold PGSIZE; lia).
rewrite decide_False; [done|]. by apply (page_ok_disjoint q p x Hq Hp).
Qed.

Lemma ld32_memset_zero m p i :
0 ≤ i < 1024 → ld32 (memset m p 0 PGSIZE) (p + 4 * i) = 0.
Proof.
intros Hi. unfold ld32. rewrite !ld8_memset by (unfold PGSIZE; lia).
rewrite !decide_True by (unfold inr_, PGSIZE; lia). reflexivity.
Qed.

Lemma ld32_st32_slot m p i j v :
ld32 (st32 m (p + 4 * i) v) (p + 4 * j) =
if decide (i = j) then u32 v else ld32 m (p + 4 * j).
Proof.
case_decide as E; [subst; apply ld32_st32_eq | apply ld32_st32_ne; lia].
Qed.
End page_words.

Section walk.
Context (st : kst) (pgdir va : Z) (l : list Z).
Context (Hwf : pt_wf st pgdir l) (Hva : 0 ≤ va < 2 ^ 32).

Lemma walk_present alloc :
present (pde_of (km st) pgdir (PDX va)) = true →
walkpgdir st pgdir va alloc = (st, tab_of (km st) pgdir (PDX va) + 4 * PTX va).
Proof. intros E. unfold walkpgdir. unfold pde_of in E. rewrite E. reflexivity. Qed.

Lemma walk_noalloc_absent :
present (pde_of (km st) pgdir (PDX va)) = false → walkpgdir st pgdir va false = (st, 0).
Proof. intros E. unfold walkpgdir. unfold pde_of in E. rewrite E. reflexivity. Qed.

Lemma slot_nonzero :
present (pde_of (km st) pgdir (PDX va)) = true →
tab_of (km st) pgdir (PDX va) + 4 * PTX va ≠ 0.
Proof.
intros E. destruct (ptw_tab _ _ _ Hwf (PDX va) (PDX_range va) E) as ((_ & H) & _).
pose proof (PTX_range va). unfold KERNBASE in H. lia.
Qed.

Lemma walk_alloc_nil :
present (pde_of (km st) pgdir (PDX va)) = false → l = [] →
walkpgdir st pgdir va true = (st, 0).
Proof.
intros E El. unfold walkpgdir. unfold pde_of in E. rewrite E. simpl.
rewrite kalloc_nil; [reflexivity|]. rewrite <- El. apply Hwf.
Qed.
End walk.

Section table_install.
Context (st : kst) (pgdir va p : Z) (l : list Z).
Context (Hwf : pt_wf st pgdir (p :: l)).
Context (Habs : present (pde_of (km st) pgdir (PDX va)) = false).

Let e := Z.lor (Z.lor (Z.lor (V2P p) PTE_P) PTE_W) PTE_U.
Let m2 := st32 (memset (km st) p 0 PGSIZE) (pgdir + 4 * PDX va) e.

Lemma inst_page : page_ok p ∧ pgdir ≠ p ∧ (p ∉ l) ∧ pgdir ∉ l.
Proof.
destruct Hwf as [[Hc Hnd] _ Hu _ _].
apply NoDup_cons in Hnd as (? & _). apply not_elem_of_cons in Hu as (? & ?).
repeat split; try done; eapply chain_page_ok; eauto; left.
Qed.

Lemma inst_entry : PTE_ADDR e = V2P p ∧ present e = true ∧ 0 ≤ e < 2 ^ 32.
Proof.
destruct (V2P_page p) as (Ha & Hr); [apply inst_page|].
assert (e = Z.lor (Z.lor (V2P p) 6) PTE_P) as ->
  by (unfold e; rewrite <- !Z.lor_assoc; reflexivity).
rewrite present_make, <- Z.lor_assoc by lia. change (Z.lor 6 PTE_P) with 7.
destruct (pte_make (V2P p) 7) as (_ & -> & _); [lia..|].
pose proof (lor_flags_bound (V2P p) 7). auto with lia.
Qed.

Lemma inst_pde i :
0 ≤ i < 1024 →
pde_of m2 pgdir i = if decide (PDX va = i) then e else pde_of (km st) pgdir i.
Proof.
intros Hi. unfold pde_of, m2. rewrite ld32_st32_slot.
destruct inst_entry as (_ & _ & He). destruct inst_page as (Hp & Hne & _).
case_decide; [by apply u32_small|]. apply ld32_page; [|done].
intros x Hx. eapply memset_page_ne; [exact Hp | exact (ptw_dir _ _ _ Hwf) | congruence | exact Hx].
Qed.

Lemma inst_tab i :
0 ≤ i < 1024 →
tab_of m2 pgdir i = if decide (PDX va = i) then p else tab_of (km st) pgdir i.
Proof.
intros Hi. unfold tab_of. rewrite inst_pde by done. case_decide; [|done].
destruct inst_entry as (-> & _). destruct inst_page as ((_ & Hr) & _).
apply P2V_V2P. unfold KERNBASE in Hr. lia.
Qed.

Lemma inst_frame x :
¬ inr_ p PGSIZE x → ¬ inr_ pgdir PGSIZE x → ld8 m2 x = ld8 (km st) x.
Proof.
intros H1 H2. unfold m2. pose proof (PDX_range va).
rewrite ld8_st32_ne by (unfold inr_, PGSIZE in *; lia).
rewrite ld8_memset, decide_False by (done || unfold PGSIZE; lia). done.
Qed.

Lemma inst_tab_words i k :
0 ≤ i < 1024 → 0 ≤ k < 1024 → present (pde_of (km st) pgdir i) = true →
ld32 m2 (tab_of (km st) pgdir i + 4 * k) = ld32 (km st) (tab_of (km st) pgdir i + 4 * k).
Proof.
intros Hi Hk E. destruct (ptw_tab _ _ _ Hwf i Hi E) as (Ht & Hnd & Hnf).
apply not_elem_of_cons in Hnf as (Hnp & _). destruct inst_page as (Hp & Hne & _).
apply ld32_page; [|done]. intros x Hx. apply inst_frame.
- eapply page_ok_disjoint; [exact Ht | exact Hp | congruence | exact Hx].
- eapply page_ok_disjoint; [exact Ht | exact (ptw_dir _ _ _ Hwf) | congruence | exact Hx].
Qed.

Lemma inst_zero k : 0 ≤ k < 1024 → ld32 m2 (p + 4 * k) = 0.
Proof.
intros Hk. destruct inst_page as (Hp & Hne & _). unfold m2.
transitivity (ld32 (memset (km st) p 0 PGSIZE) (p + 4 * k)); [|by apply ld32_memset_zero].
apply ld32_page; [|done]. intros x Hx. pose proof (PDX_range va).
eapply st32_page_ne; [exact (ptw_dir _ _ _ Hwf) | exact Hp | done | done | exact Hx].
Qed.

Lemma inst_wf st1 :
km st1 = km st → free_pages st1 l → pt_wf (set_km st1 m2) pgdir l.
Proof.
intros Ekm Hf. destruct inst_page as (Hp & Hne & Hpl & Hdl).
assert (∀ i, 0 ≤ i < 1024 → present (pde_of m2 pgdir i) = true →
  PDX va = i ∧ tab_of m2 pgdir i = p ∨
  PDX va ≠ i ∧ tab_of m2 pgdir i = tab_of (km st) pgdir i ∧
    present (pde_of (km st) pgdir i) = true) as Hcase.
{ intros i Hi E. rewrite inst_pde in E by done. rewrite inst_tab by done.
  case_decide; auto. }
split; cbn [km set_km].
- apply free_pages_frame with st1; [done| |done]. cbn [km set_km].
  intros q x Hq Hqok Hx. rewrite Ekm.
  apply inst_frame; [apply (page_ok_disjoint q p x) | apply (page_ok_disjoint q pgdir x)];
    try done; try apply Hwf; congruence.
- apply Hwf.
- done.
- intros i Hi E. destruct (Hcase i Hi E) as [(<- & ->) | (Hn & -> & E')]; [auto|].
  destruct (ptw_tab _ _ _ Hwf i Hi E') as (? & ? & ?%not_elem_of_cons). tauto.
- intros i j Hi Hj Ei Ej.
  destruct (Hcase i Hi Ei) as [(<- & ->) | (Hn & -> & Ei')];
    destruct (Hcase j Hj Ej) as [(<- & ->) | (Hn' & -> & Ej')]; try done.
  + intros E. destruct (ptw_tab _ _ _ Hwf j Hj Ej') as (_ & _ & (? & _)%not_elem_of_cons).
    congruence.
  + intros E. destruct (ptw_tab _ _ _ Hwf i Hi Ei') as (_ & _ & (? & _)%not_elem_of_cons).
    congruence.
  + by apply Hwf.
Qed.

Lemma inst_pte_at va' : pte_at m2 pgdir va' = pte_at (km st) pgdir va'.
Proof.
unfold pte_at. pose proof (PDX_range va'). pose proof (PTX_range va').
rewrite inst_pde, inst_tab by done. destruct inst_entry as (_ & He & _).
case_decide as E.
- rewrite He, <- E, Habs. by apply inst_zero.
- destruct (present (pde_of (km st) pgdir (PDX va'))) eqn:E'; [|done].
  by apply inst_tab_words.
Qed.

Lemma walk_alloc_cons :
∃ st', walkpgdir st pgdir va true = (st', p + 4 * PTX va) ∧ pt_wf st' pgdir l ∧
  present (pde_of (km st') pgdir (PDX va)) = true ∧ tab_of (km st') pgdir (PDX va) = p ∧
  (∀ va', pte_at (km st') pgdir va' = pte_at (km st) pgdir va') ∧
  (∀ i, 0 ≤ i < 1024 → present (pde_of (km st) pgdir i) = true →
     present (pde_of (km st') pgdir i) = true ∧
     tab_of (km st') pgdir i = tab_of (km st) pgdir i) ∧
  (∀ i, 0 ≤ i < 1024 → present (pde_of (km st') pgdir i) = true →
     tab_of (km st') pgdir i = p ∨
     present (pde_of (km st) pgdir i) = true ∧ tab_of (km st') pgdir i = tab_of (km st) pgdir i) ∧
  (∀ x, ¬ inr_ p PGSIZE x → ¬ inr_ pgdir PGSIZE x → ld8 (km st') x = ld8 (km st) x) ∧
  klog st' = klog st.
Proof.
destruct (kalloc_cons st p l) as (st1 & Ek & Em & Hf & Hp & Hpl & Elog); [apply Hwf|].
pose proof (PDX_range va). pose proof Habs as E. unfold pde_of in E.
exists (set_km st1 m2). unfold walkpgdir. rewrite E, Ek. cbn [negb].
rewrite (proj2 (Z.eqb_neq p 0)) by (by apply page_ok_nonzero). rewrite Em.
split; [reflexivity|]. split; [by apply inst_wf|]. cbn [km set_km klog].
rewrite (inst_pde (PDX va)), (inst_tab (PDX va)), !decide_True by done.
split; [apply inst_entry|]. split; [done|]. split; [apply inst_pte_at|].
split; [|split; [|split; [apply inst_frame | done]]].
- intros i Hi Ei. rewrite inst_pde, inst_tab by done.
  case_decide; [congruence | done].
- intros i Hi Ei. rewrite inst_pde in Ei by done. rewrite inst_tab by done.
  case_decide; auto.
Qed.
End table_install.

(** * Growing page tables *)

(** [q] is the directory or one of its tables. *)
Definition pt_page (m : mem) (pgdir q : Z) : Prop :=
  q = pgdir ∨ ∃ i, 0 ≤ i < 1024 ∧ present (pde_of m pgdir i) = true ∧ tab_of m pgdir i = q.

(** From [st] to [st'] the page table may have gained tables, taken from the
    front of the free list, and only pages of the table were written. *)
Record pt_step (pgdir : Z) (st : kst) (l : list Z) (st' : kst) (l' : list Z) : Prop := {
  pts_wf : pt_wf st' pgdir l';
  pts_ext : ∀ i, 0 ≤ i < 1024 → present (pde_of (km st) pgdir i) = true →
    present (pde_of (km st') pgdir i) = true ∧ tab_of (km st') pgdir i = tab_of (km st) pgdir i;
  pts_used : ∃ used, l = used ++ l' ∧
    ∀ q, pt_page (km st') pgdir q ↔ pt_page (km st) pgdir q ∨ q ∈ used;
  pts_frame : ∀ q x, page_ok q → ¬ pt_page (km st') pgdir q → inr_ q PGSIZE x →
    ld8 (km st') x = ld8 (km st) x;
  pts_log : klog st' = klog st
}.

Lemma pt_page_ext pgdir st l st' l' q :
  pt_step pgdir st l st' l' → pt_page (km st) pgdir q → pt_page (km st') pgdir q.
Proof.
  intros H [-> | (i & Hi & E & <-)]; [by left|right].
  destruct (pts_ext _ _ _ _ _ H i Hi E). eauto.
Qed.

Lemma pt_step_refl pgdir st l : pt_wf st pgdir l → pt_step pgdir st l st l.
Proof.
  intros Hwf. split; try done; auto. exists []. split; [done|]. intros q.
  rewrite elem_of_nil. tauto.
Qed.

Lemma pt_step_trans pgdir st1 l1 st2 l2 st3 l3 :
  pt_step pgdir st1 l1 st2 l2 → pt_step pgdir st2 l2 st3 l3 → pt_step pgdir st1 l1 st3 l3.
Proof.
  intros H1 H2. split.
  - apply H2.
  - intros i Hi E. destruct (pts_ext _ _ _ _ _ H1 i Hi E) as (E2 & <-).
    by apply H2.
  - destruct (pts_used _ _ _ _ _ H1) as (u1 & -> & Hu1).
    destruct (pts_used _ _ _ _ _ H2) as (u2 & -> & Hu2).
    exists (u1 ++ u2). rewrite app_assoc. split; [done|].
    intros q. rewrite elem_of_app, Hu2, Hu1. tauto.
  - intros q x Hq Hn Hx. rewrite (pts_frame _ _ _ _ _ H2 q x) by done.
    apply (pts_frame _ _ _ _ _ H1 q x Hq); [|done].
    intros Hp. apply Hn. eapply pt_page_ext; eauto.
  - rewrite (pts_log _ _ _ _ _ H2). apply H1.
Qed.

(** [walkpgdir] with [alloc] set: the slot of [va] in a page table that holds
    the same entries, or 0 when a table is missing and no page is free. *)
Lemma walk_alloc_spec st pgdir va l :
  pt_wf st pgdir l →
  walkpgdir st pgdir va true = (st, 0) ∧ l = [] ∧
    present (pde_of (km st) pgdir (PDX va)) = false ∨
  ∃ st' l', walkpgdir st pgdir va true = (st', tab_of (km st') pgdir (PDX va) + 4 * PTX va) ∧
    pt_step pgdir st l st' l' ∧ present (pde_of (km st') pgdir (PDX va)) = true ∧
    (∀ va', pte_at (km st') pgdir va' = pte_at (km st) pgdir va') ∧
    (length l ≤ length l' + if present (pde_of (km st) pgdir (PDX va)) then 0 else 1)%nat.
Proof.
  intros Hwf. destruct (present (pde_of (km st) pgdir (PDX va))) eqn:E.
  - right. exists st, l. rewrite (walk_present st pgdir va true) by done.
    split; [done|]. split; [by apply pt_step_refl|]. repeat split; auto. lia.
  - destruct l as [|p l]; [left; repeat split; eauto using walk_alloc_nil|right].
    destruct (walk_alloc_cons st pgdir va p l Hwf E)
      as (st' & Hw & Hwf' & E' & Ht & Hpte & Hpres & Hnew & Hfr & Hlog).
    exists st', l. rewrite Ht. split; [done|]. split; [|simpl; auto with lia].
    assert (pt_page (km st') pgdir p) as Hpage
      by (right; exists (PDX va); auto using PDX_range).
    split; [done| | | |done].
    + done.
    + exists [p]. split; [done|]. intros q. rewrite list_elem_of_singleton. split.
      * intros [->|(i & Hi & Ei & <-)]; [by left; left|].
        destruct (Hnew i Hi Ei) as [|(Ei' & Et)]; [by right|]. left; right. by exists i.
      * intros [[->|(i & Hi & Ei & <-)]| ->]; [by left| |done].
        destruct (Hpres i Hi Ei). right. by exists i.
    + intros q x Hq Hn Hx. apply Hfr.
      * apply (page_ok_disjoint q p x); try done; [|by intros ->].
        eapply chain_page_ok; [apply Hwf | left].
      * apply (page_ok_disjoint q pgdir x); try done; [apply Hwf|]. intros ->. apply Hn. by left.
Qed.

(** Writing the entry of [va] in its table. *)
Section set_pte.
Context (st : kst) (pgdir va v : Z) (l : list Z).
Context (Hwf : pt_wf st pgdir l) (Hva : 0 ≤ va < 2 ^ 32).
Context (Hpres : present (pde_of (km st) pgdir (PDX va)) = true).

Let m2 := st32 (km st) (tab_of (km st) pgdir (PDX va) + 4 * PTX va) v.

Lemma set_pte_frame q x :
page_ok q → tab_of (km st) pgdir (PDX va) ≠ q → inr_ q PGSIZE x →
ld8 m2 x = ld8 (km st) x.
Proof.
intros Hq Hne Hx. destruct (ptw_tab _ _ _ Hwf (PDX va) (PDX_range va) Hpres) as (Ht & _).
apply (st32_page_ne (km st) _ q (PTX va) v x Ht Hq Hne); [apply PTX_range | done].
Qed.

Lemma set_pte_pde i : 0 ≤ i < 1024 → pde_of m2 pgdir i = pde_of (km st) pgdir i.
Proof.
intros Hi. destruct (ptw_tab _ _ _ Hwf (PDX va) (PDX_range va) Hpres) as (_ & Hn & _).
apply ld32_page; [|done]. intros x Hx. by apply (set_pte_frame pgdir x (ptw_dir _ _ _ Hwf)).
Qed.

Lemma set_pte_tab i : 0 ≤ i < 1024 → tab_of m2 pgdir i = tab_of (km st) pgdir i.
Proof. intros Hi. unfold tab_of. by rewrite set_pte_pde. Qed.

Lemma set_pte_step : pt_step pgdir st l (set_km st m2) l.
Proof.
split; cbn [km set_km].
- destruct Hwf as [Hf Hd Hu Ht Hi]. split; cbn [km set_km]; try done.
  + apply free_pages_frame with st; [done| |done]. intros q x Hq Hqok Hx.
    apply (set_pte_frame q x Hqok); [|done].
    intros <-. by apply (Ht (PDX va) (PDX_range va) Hpres).
  + intros i Hi1. rewrite set_pte_pde, set_pte_tab by done. auto.
  + intros i j Hi1 Hj1. rewrite !set_pte_pde, !set_pte_tab by done. auto.
- intros i Hi. rewrite set_pte_pde, set_pte_tab by done. auto.
- exists []. split; [done|]. intros q. rewrite elem_of_nil. unfold pt_page. split.
  + intros [->|(i & Hi & Ei & <-)]; [by left; left|]. rewrite set_pte_pde in Ei by done.
    left; right. exists i. by rewrite set_pte_tab.
  + intros [[->|(i & Hi & Ei & <-)]|[]]; [by left|]. right. exists i.
    by rewrite set_pte_pde, set_pte_tab.
- intros q x Hq Hn Hx. apply (set_pte_frame q x Hq); [|done].
  intros <-. apply Hn. right. exists (PDX va). pose proof (PDX_range va).
  rewrite set_pte_pde, set_pte_tab by done. auto.
- done.
Qed.

Lemma set_pte_at va' :
0 ≤ va' < 2 ^ 32 →
pte_at m2 pgdir va' = if decide (same_page va va') then u32 v else pte_at (km st) pgdir va'.
Proof.
intros Hva'. unfold pte_at. pose proof (PDX_range va'). pose proof (PTX_range va').
rewrite set_pte_pde, set_pte_tab by done.
destruct (decide (PDX va = PDX va')) as [E|E].
- rewrite <- E, Hpres. unfold m2. rewrite ld32_st32_slot.
  destruct (decide (PTX va = PTX va')) as [E2|E2].
  + rewrite decide_True; [done|]. by apply PDX_PTX_inj.
  + rewrite decide_False; [done|]. intros E3. apply E2.
    unfold same_page in E3. by rewrite !PTX_div, E3 by lia.
- rewrite decide_False.
  + destruct (present (pde_of (km st) pgdir (PDX va'))) eqn:E'; [|done].
    apply ld32_page; [|done]. intros x Hx.
    destruct (ptw_tab _ _ _ Hwf (PDX va') (PDX_range va') E') as (Ht & _).
    apply (set_pte_frame _ x Ht); [|done].
    intros Et. apply E. apply Hwf; auto using PDX_range.
  + intros E3. apply E. unfold same_page in E3. rewrite !PDX_div by lia. zlia.
Qed.
End set_pte.

(** * mappages *)

Section mappages.
Context (st0 : kst) (pgdir va size pa0 perm : Z) (l0 : list Z).
Context (Hwf0 : pt_wf st0 pgdir l0)
      (Hva : 0 ≤ va) (Hsize : 1 ≤ size) (Hend : va + size ≤ 2 ^ 32)
      (Hpa : pa0 mod 4096 = 0) (Hpa0 : 0 ≤ pa0) (Hperm : 0 ≤ perm < 4096).
Context (p0 n : Z) (Hp0 : p0 = va / 4096) (Hn : n = (va + size - 1) / 4096 - va / 4096 + 1)
      (Hpaend : pa0 + 4096 * n ≤ 2 ^ 32).

(** The entry of page number [pg] once mapped. *)
Definition map_entry (pg : Z) : Z :=
Z.lor (Z.lor (pa0 + 4096 * (pg - p0)) perm) PTE_P.

(** [m] has the first [k] pages mapped and the other entries of [st0]. *)
Definition mapped_upto (m : mem) (k : Z) : Prop :=
∀ va', 0 ≤ va' < 2 ^ 32 →
  pte_at m pgdir va' =
  if decide (p0 ≤ va' / 4096 < p0 + k) then map_entry (va' / 4096)
  else pte_at (km st0) pgdir va'.

(** Tables taken for the first [k] pages. *)
Definition tables_upto (k : Z) : Z :=
if decide (k = 0) then 0 else (p0 + k - 1) / 1024 - p0 / 1024 + 1.

Definition map_inv '((st, a, pa) : kst * Z * Z) : Prop :=
∃ k l, 0 ≤ k < n ∧ a = 4096 * (p0 + k) ∧ pa = pa0 + 4096 * k ∧
  pt_step pgdir st0 l0 st l ∧ mapped_upto (km st) k ∧
  Z.of_nat (length l0) ≤ Z.of_nat (length l) + tables_upto k ∧
  (k = 0 ∨ present (pde_of (km st) pgdir ((p0 + k - 1) / 1024)) = true).

Definition map_post '((st, r) : kst * Z) : Prop :=
∃ l, pt_step pgdir st0 l0 st l ∧
  (r = 0 ∧ mapped_upto (km st) n ∧ Z.of_nat (length l0) ≤ Z.of_nat (length l) + tables_upto n ∨
   r = -1 ∧ l = [] ∧ Z.of_nat (length l0) < tables_upto n ∧
     ∃ k, 0 ≤ k < n ∧ mapped_upto (km st) k).

Lemma map_entry_range pg : p0 ≤ pg < p0 + n → 0 ≤ map_entry pg < 2 ^ 32.
Proof.
intros Hpg. unfold map_entry. rewrite <- Z.lor_assoc. apply lor_flags_bound; [zlia|lia|].
assert (0 ≤ Z.lor perm PTE_P) by (apply Z.lor_nonneg; unfold PTE_P; lia).
split; [done|]. destruct (Z.eq_dec (Z.lor perm PTE_P) 0) as [->|]; [lia|].
change 4096 with (2 ^ 12). apply Z.log2_lt_pow2; [lia|].
rewrite Z.log2_lor by (unfold PTE_P; lia). apply Z.max_lub_lt; [|cbv; done].
destruct (Z.eq_dec perm 0) as [->|]; [cbv; done|]. apply Z.log2_lt_pow2; lia.
Qed.

Lemma map_store st k l :
pt_step pgdir st0 l0 st l → 0 ≤ k < n → mapped_upto (km st) k →
present (pde_of (km st) pgdir (PDX (4096 * (p0 + k)))) = true →
let a := 4096 * (p0 + k) in
let st' := set_km st (st32 (km st) (tab_of (km st) pgdir (PDX a) + 4 * PTX a)
             (map_entry (p0 + k))) in
pt_step pgdir st0 l0 st' l ∧ mapped_upto (km st') (k + 1).
Proof.
intros Hs Hk Hm Hpres a st'.
assert (0 ≤ a < 2 ^ 32) as Ha by (unfold a; zlia).
pose proof (pts_wf _ _ _ _ _ Hs) as Hwf. split.
- eapply pt_step_trans; [exact Hs|]. by apply set_pte_step.
- intros va' Hva'. unfold st'. cbn [km set_km].
  rewrite (set_pte_at st pgdir a _ l Hwf Ha Hpres va' Hva'). unfold same_page.
  destruct (decide (a / 4096 = va' / 4096)) as [E|E].
  + rewrite decide_True by (unfold a in E; zlia).
    replace (va' / 4096) with (p0 + k) by (unfold a in E; zlia).
    apply u32_small. apply map_entry_range. lia.
  + rewrite Hm by done. unfold a in E.
    repeat case_decide; try done; zlia.
Qed.

Lemma map_loop :
∃ r, while (2 ^ 21) (map_step pgdir perm (4096 * (p0 + n - 1))) (st0, 4096 * p0, pa0) = Ok r ∧
  map_post r.
Proof.
apply while_spec with (I := map_inv) (mu := λ '(_, a, _), p0 + n - a / 4096).
- intros [[st a] pa] (k & l & Hk & -> & _). zlia.
- intros [[st a] pa] (k & l & Hk & -> & -> & Hs & Hm & Hlen & Hprev).
  set (a := 4096 * (p0 + k)).
  assert (0 ≤ a < 2 ^ 32) as Ha by (unfold a; zlia).
  assert (PDX a = (p0 + k) / 1024) as Edx by (rewrite PDX_div by done; unfold a; zlia).
  pose proof (pts_wf _ _ _ _ _ Hs) as Hwf.
  unfold map_step. fold a.
  destruct (walk_alloc_spec st pgdir a l Hwf)
    as [(-> & -> & Habs) | (st1 & l1 & -> & Hs1 & Hpres & Hpte & Hlen1)].
  + right. eexists; split; [reflexivity|]. exists []. split; [done|]. right.
    split; [done|]. split; [done|]. split; [|eauto].
    simpl in Hlen. unfold tables_upto in *. rewrite Edx in Habs.
    rewrite (decide_False (P := n = 0)) by lia.
    destruct (decide (k = 0)); [zlia|]. destruct Hprev as [?|Hprev]; [done|].
    assert ((p0 + k - 1) / 1024 ≠ (p0 + k) / 1024) by congruence. zlia.
  + pose proof (slot_nonzero st1 pgdir a l1 (pts_wf _ _ _ _ _ Hs1) Hpres) as Hnz.
    rewrite (proj2 (Z.eqb_neq _ _) Hnz).
    assert (mapped_upto (km st1) k) as Hm1
      by (intros va' Hva'; rewrite Hpte; apply Hm, Hva').
    assert (pt_step pgdir st0 l0 st1 l1) as Hs01 by (eapply pt_step_trans; eauto).
    destruct (map_store st1 k l1 Hs01 Hk Hm1 Hpres) as (Hs' & Hm').
    fold a in Hs', Hm'.
    assert (Z.lor (Z.lor (pa0 + 4096 * k) perm) PTE_P = map_entry (p0 + k)) as ->
      by (unfold map_entry; do 3 f_equal; lia).
    assert (Z.of_nat (length l0) ≤ Z.of_nat (length l1) + tables_upto (k + 1)) as Hlen'.
    { unfold tables_upto in *. rewrite (decide_False (P := k + 1 = 0)) by lia.
      rewrite Edx in Hlen1. destruct (decide (k = 0)) as [->|Hk0].
      - assert (length l ≤ length l1 + 1)%nat by (case_match; lia). zlia.
      - destruct Hprev as [?|Hprev]; [done|].
        destruct (Z.eq_dec ((p0 + k - 1) / 1024) ((p0 + k) / 1024)) as [Eq|Eq].
        + rewrite Eq in Hprev. rewrite Hprev in Hlen1. zlia.
        + assert (length l ≤ length l1 + 1)%nat by (case_match; lia). zlia. }
    destruct (Z.eqb_spec a (4096 * (p0 + n - 1))) as [Elast|Elast].
    * right. eexists; split; [reflexivity|]. exists l1. split; [done|]. left.
      split; [done|]. replace n with (k + 1) by (unfold a in Elast; lia). by split.
    * left. eexists; split; [reflexivity|]. split.
      -- exists (k + 1), l1. unfold PGSIZE, a in *. rewrite !u32_small by zlia.
         split; [lia|]. split; [lia|]. split; [lia|]. split; [done|]. split; [done|].
         split; [done|]. right. replace (p0 + (k + 1) - 1) with (p0 + k) by lia.
         rewrite <- Edx.
         destruct (pts_ext _ _ _ _ _ (set_pte_step st1 pgdir (4096 * (p0 + k))
           (map_entry (p0 + k)) l1 (pts_wf _ _ _ _ _ Hs1) Hpres) _ (PDX_range _) Hpres).
         done.
      -- unfold PGSIZE, a in *. rewrite u32_small by zlia. zlia.
- exists 0, l0. split; [zlia|]. split; [lia|]. split; [lia|].
  split; [by apply pt_step_refl|]. split.
  + intros va' Hva'. rewrite decide_False by lia. done.
  + unfold tables_upto. rewrite decide_True by done. split; [lia | by left].
- zlia.
Qed.

Lemma mappages_spec :
∃ st' r, mappages st0 pgdir va size pa0 perm = Ok (st', r) ∧ map_post (st', r).
Proof.
destruct map_loop as ([st' r] & H & HQ). exists st', r. split; [|exact HQ].
unfold mappages. rewrite !PGROUNDDOWN_sub.
replace (u32 (u32 (va + size) - 1)) with (va + size - 1) by zlia.
replace (va - va mod 4096) with (4096 * p0) by zlia.
replace (va + size - 1 - (va + size - 1) mod 4096) with (4096 * (p0 + n - 1)) by zlia.
exact H.
Qed.
End mappages.

(** * Address translation by the kernel *)

(** What [uva2ka] answers for an entry: the page it names when it is present
    and a user page, otherwise 0. *)
Definition user_page (e : Z) : Z :=
  if present e && negb (Z.land e PTE_U =? 0) then P2V (PTE_ADDR e) else 0.

Lemma uva2ka_table st pgdir va :
  present (pde_of (km st) pgdir (PDX va)) = true →
  tab_of (km st) pgdir (PDX va) + 4 * PTX va ≠ 0 →
  uva2ka st pgdir va = Ok (user_page (pte_at (km st) pgdir va)).
Proof.
  intros E Hnz. unfold uva2ka, pte_at, user_page.
  rewrite walk_present, E by done. rewrite (proj2 (Z.eqb_neq _ _) Hnz).
  destruct (present (ld32 _ _)); [|done]. simpl.
  destruct (Z.land _ PTE_U =? 0); done.
Qed.

Lemma uva2ka_no_table st pgdir va :
  present (pde_of (km st) pgdir (PDX va)) = false → uva2ka st pgdir va = Fault.
Proof. intros E. unfold uva2ka. by rewrite walk_noalloc_absent. Qed.

(** An entry that is present has its table. *)
Lemma pte_present_table m pgdir va :
  present (pte_at m pgdir va) = true → present (pde_of m pgdir (PDX va)) = true.
Proof. unfold pte_at. by destruct (present (pde_of m pgdir (PDX va))). Qed.

Lemma uva2ka_present st pgdir va l :
  pt_wf st pgdir l → present (pte_at (km st) pgdir va) = true →
  uva2ka st pgdir va = Ok (user_page (pte_at (km st) pgdir va)).
Proof.
  intros Hwf E. apply pte_present_table in E.
  apply uva2ka_table; [done|]. by apply (slot_nonzero st pgdir va l Hwf).
Qed.

(** A user mapping of a physical page is read back as that page. *)
Lemma user_page_entry pa perm :
  pa mod 4096 = 0 → 0 ≤ pa < 2 ^ 32 → 0 ≤ perm < 4096 → Z.testbit perm 2 = true →
  user_page (Z.lor (Z.lor pa perm) PTE_P) = P2V pa ∧ present (Z.lor (Z.lor pa perm) PTE_P) = true.
Proof.
  intros Hpa Hr Hperm HU. unfold user_page. rewrite present_make by done. simpl.
  split; [|done]. rewrite (proj2 (Z.eqb_neq _ _)).
  - simpl. f_equal. unfold PTE_ADDR. Zbits.
    destruct (decide (i < 12)).
    + change 0xFFF with (Z.ones 12). rewrite Z.ones_spec_low by lia. simpl.
      rewrite andb_false_r. rewrite <- (Z.mod_pow2_bits_low pa 12 i) by lia.
      change (2 ^ 12) with 4096. by rewrite Hpa, Z.bits_0.
    + rewrite (testbit_high perm 12 i), (testbit_high PTE_P 12 i), (testbit_high 0xFFF 12 i)
        by (unfold PTE_P; lia). by rewrite !orb_false_r, andb_true_r.
  - intros E. apply (f_equal (λ x, Z.testbit x 2)) in E.
    rewrite Z.land_spec, !Z.lor_spec, HU, Z.bits_0 in E.
    change (Z.testbit PTE_U 2) with true in E. rewrite orb_true_r in E. discriminate.
Qed.

(** * Properties *)

(** [mappages] on a well-formed page directory maps every page of the
    range to its physical page with the permissions, and changes no other
    entry; it fails only when the free pages run out, after mapping a prefix
    of the range. *)
Theorem mappages_correct st pgdir va size pa perm l :
  pt_wf st pgdir l → 0 ≤ va → 1 ≤ size → va + size ≤ 2 ^ 32 →
  pa mod 4096 = 0 → 0 ≤ pa → 0 ≤ perm < 4096 →
  let p0 := va / 4096 in
  let n := (va + size - 1) / 4096 - p0 + 1 in
  let entry pg := Z.lor (Z.lor (pa + 4096 * (pg - p0)) perm) PTE_P in
  let mapped m k := ∀ va', 0 ≤ va' < 2 ^ 32 →
    pte_at m pgdir va' =
      if decide (p0 ≤ va' / 4096 < p0 + k) then entry (va' / 4096)
      else pte_at (km st) pgdir va' in
  pa + 4096 * n ≤ 2 ^ 32 →
  ∃ st' r l', mappages st pgdir va size pa perm = Ok (st', r) ∧ pt_wf st' pgdir l' ∧
    (r = 0 ∧ mapped (km st') n ∨
     r = -1 ∧ l' = [] ∧ Z.of_nat (length l) < (p0 + n - 1) / 1024 - p0 / 1024 + 1 ∧
       ∃ k, 0 ≤ k < n ∧ mapped (km st') k).
Proof.
  intros Hwf H1 H2 H3 H4 H5 H6 p0 n entry mapped H7.
  destruct (mappages_spec st pgdir va size pa perm l Hwf H1 H2 H3 H4 H5 H6 p0 n eq_refl eq_refl H7)
    as (st' & r & E & l' & Hs & [(-> & Hm & _) | (-> & -> & Hlen & k & Hk & Hm)]).
  - exists st', 0, l'. split; [done|]. split; [apply Hs|]. by left.
  - exists st', (-1), []. split; [done|]. split; [apply Hs|]. right.
    split; [done|]. split; [done|]. unfold tables_upto in Hlen.
    rewrite decide_False in Hlen by (unfold n, p0; zlia). split; [exact Hlen|]. by exists k.
Qed.

(** A zeroed directory is well formed. *)
Lemma pt_wf_empty st pgdir l :
  free_pages st l → page_ok pgdir → pgdir ∉ l →
  (∀ i, 0 ≤ i < 1024 → pde_of (km st) pgdir i = 0) → pt_wf st pgdir l.
Proof.
  intros Hf Hp Hl H0. split; [done..| |].
  - intros i Hi. rewrite H0 by done. by rewrite present_0.
  - intros i j Hi _. rewrite H0 by done. by rewrite present_0.
Qed.

(** The empty directory at [0x80400000] beside two free pages. *)
Definition vm0 : kst := kfree (kfree kst0 0x80401000) 0x80402000.

Lemma vm0_wf : pt_wf vm0 0x80400000 [0x80402000; 0x80401000].
Proof.
  assert (free_pages vm0 [0x80402000; 0x80401000]) as Hf.
  { apply kfree_free_pages; [| by compute_done | by rewrite list_elem_of_singleton].
    apply kfree_free_pages; [ by split; [|constructor] | by compute_done | apply not_elem_of_nil]. }
  assert (∀ i, 0 ≤ i < 1024 → pde_of (km vm0) 0x80400000 i = 0) as H0.
  { intros i Hi. unfold pde_of. rewrite (ld32_ext _ ∅).
    - unfold ld32, ld8. by rewrite !lookup_empty.
    - intros x Hx. unfold vm0. unfold inr_, PGSIZE in *.
      rewrite !km_kfree; 
        first [unfold inr_, PGSIZE; lia | split; [reflexivity | unfold KERNBASE; lia] | reflexivity]. }
  apply pt_wf_empty; [done | by compute_done | | done].
  rewrite !elem_of_cons, elem_of_nil. lia.
Qed.

Lemma mappages_correct_witness :
  ∃ st' r l', mappages vm0 0x80400000 0x1234 0x1000 0x5000 6 = Ok (st', r) ∧
    pt_wf st' 0x80400000 l' ∧ r = 0.
Proof.
  destruct (mappages_correct vm0 0x80400000 0x1234 0x1000 0x5000 6 _ vm0_wf
    ltac:(lia) ltac:(lia) ltac:(lia) eq_refl ltac:(lia) ltac:(lia) ltac:(zlia))
    as (st' & r & l' & E & Hwf & [(Hr & _) | (_ & _ & Hlen & _)]).
  - exists st', r, l'. split; [exact E|]. split; [exact Hwf | exact Hr].
  - exfalso. vm_compute in Hlen. discriminate Hlen.
Defined.

(** What user code sees is what was mapped: after a successful [mappages]
    with the user bit, [uva2ka] of an address of the range is the kernel
    address of the physical page given for it. *)
Theorem mappages_uva2ka st pgdir va size pa perm l st' :
  pt_wf st pgdir l → 0 ≤ va → 1 ≤ size → va + size ≤ 2 ^ 32 →
  pa mod 4096 = 0 → 0 ≤ pa → 0 ≤ perm < 4096 → Z.testbit perm 2 = true →
  pa + 4096 * ((va + size - 1) / 4096 - va / 4096 + 1) ≤ 2 ^ 32 →
  mappages st pgdir va size pa perm = Ok (st', 0) →
  ∀ u, va ≤ u < va + size →
    uva2ka st' pgdir u = Ok (P2V (pa + 4096 * (u / 4096 - va / 4096))).
Proof.
  intros Hwf H1 H2 H3 H4 H5 H6 HU H7 E u Hu.
  destruct (mappages_spec st pgdir va size pa perm l Hwf H1 H2 H3 H4 H5 H6 _ _ eq_refl eq_refl H7)
    as (st1 & r & E1 & l' & Hs & [(-> & Hm & _) | (-> & _)]); rewrite E in E1; [|discriminate].
  injection E1 as <-.
  assert (pte_at (km st') pgdir u = map_entry pa perm (va / 4096) (u / 4096)) as Epte.
  { rewrite Hm by lia. rewrite decide_True; [done | zlia]. }
  destruct (user_page_entry (pa + 4096 * (u / 4096 - va / 4096)) perm) as (Eu & Ep);
    [zlia | zlia | done | done |].
  rewrite (uva2ka_present st' pgdir u l'), Epte.
  - by rewrite <- Eu.
  - apply Hs.
  - rewrite Epte. exact Ep.
Qed.

Lemma mappages_uva2ka_witness :
  ∃ st', mappages vm0 0x80400000 0x1234 0x1000 0x5000 6 = Ok (st', 0) ∧
    uva2ka st' 0x80400000 0x2233 = Ok 0x80006000.
Proof.
  destruct (mappages_spec vm0 0x80400000 0x1234 0x1000 0x5000 6 _ vm0_wf
    ltac:(lia) ltac:(lia) ltac:(lia) eq_refl ltac:(lia) ltac:(lia) _ _ eq_refl eq_refl ltac:(zlia))
    as (st' & r & E & l' & _ & [(-> & _) | (_ & _ & Hlen & _)]).
  - exists st'. split; [exact E|].
    etransitivity; [exact (mappages_uva2ka vm0 0x80400000 0x1234 0x1000 0x5000 6 _ st' vm0_wf ltac:(lia) ltac:(lia) ltac:(lia)
      eq_refl ltac:(lia) ltac:(lia) eq_refl ltac:(zlia) E 0x2233 ltac:(lia)) | reflexivity].
  - exfalso. vm_compute in Hlen. discriminate Hlen.
Defined.
