(* ===== verification/Ports.v ===== *)
(** Port input and output, and the disk drive behind the ports.

    The instructions of include/x86.h and cpu/ports.c ([inb], [outb], [insl],
    [outsl]) talk to hardware, which is a parameter of the development: the
    class [PortIO] names the operations, and the class [AtaDrive] what the
    kernel relies on, the register protocol that the comment of boot/start.c
    lists (data register 1F0, sector count 1F2, sector number 1F3 to 1F6,
    command and status 1F7). *)
From S2P Require Import Prelude.

Class PortIO (hw : Type) := {
  inb : hw → Z → hw * Z;
  outb : hw → Z → Z → hw;
  insl : hw → Z → nat → hw * list Z;
  outsl : hw → Z → list Z → hw
}.

(** What a drive is doing: the command and the sector it is about. *)
Inductive ata_cmd :=
| AtaIdle
| AtaReading (drive lba : Z)
| AtaWriting (drive lba : Z).

(** The registers of the drive and the sectors of the two disks. *)
Record ata := mk_ata {
  ata_count : Z; ata_lba0 : Z; ata_lba1 : Z; ata_lba2 : Z; ata_dev : Z;
  ata_pending : ata_cmd;
  platter : Z → Z → list Z
}.

Definition ata_drive (a : ata) : Z := Z.land (Z.shiftr (ata_dev a) 4) 1.
Definition ata_lba (a : ata) : Z :=
  ata_lba0 a + 2 ^ 8 * ata_lba1 a + 2 ^ 16 * ata_lba2 a + 2 ^ 24 * Z.land (ata_dev a) 0xF.

(** A write to one of the drive's registers. *)
Definition ata_out (a : ata) (port v : Z) : ata :=
  let v := u8 v in
  if port =? 0x1f2 then mk_ata v (ata_lba0 a) (ata_lba1 a) (ata_lba2 a) (ata_dev a) (ata_pending a) (platter a)
  else if port =? 0x1f3 then mk_ata (ata_count a) v (ata_lba1 a) (ata_lba2 a) (ata_dev a) (ata_pending a) (platter a)
  else if port =? 0x1f4 then mk_ata (ata_count a) (ata_lba0 a) v (ata_lba2 a) (ata_dev a) (ata_pending a) (platter a)
  else if port =? 0x1f5 then mk_ata (ata_count a) (ata_lba0 a) (ata_lba1 a) v (ata_dev a) (ata_pending a) (platter a)
  else if port =? 0x1f6 then mk_ata (ata_count a) (ata_lba0 a) (ata_lba1 a) (ata_lba2 a) v (ata_pending a) (platter a)
  else if port =? 0x1f7 then
    mk_ata (ata_count a) (ata_lba0 a) (ata_lba1 a) (ata_lba2 a) (ata_dev a)
      (if v =? 0x20 then AtaReading (ata_drive a) (ata_lba a)
       else if v =? 0x30 then AtaWriting (ata_drive a) (ata_lba a)
       else ata_pending a)
      (platter a)
  else a.

Definition ata_set_pending (a : ata) (c : ata_cmd) (p : Z → Z → list Z) : ata :=
  mk_ata (ata_count a) (ata_lba0 a) (ata_lba1 a) (ata_lba2 a) (ata_dev a) c p.

(** One sector replaced. *)
Definition disk_set (p : Z → Z → list Z) (drive lba : Z) (data : list Z) : Z → Z → list Z :=
  λ d b, if decide (d = drive ∧ b = lba) then data else p d b.

(** A drive that follows the protocol and reports no error.  [ata_view] is the
    drive's state, [ata_busy] bounds the status reads that may still find it
    busy. *)
Class AtaDrive (hw : Type) `{PortIO hw} := {
  ata_view : hw → ata;
  ata_busy : hw → Z;
  ata_busy_bound : ∀ h, 0 ≤ ata_busy h < 2 ^ 31;
  ata_outb : ∀ h port v, ata_view (outb h port v) = ata_out (ata_view h) port v;
  ata_status : ∀ h,
    let '(h', r) := inb h 0x1f7 in
    ata_view h' = ata_view h ∧
    (Z.land r 0xC0 = 0x40 ∧ Z.land r 0x21 = 0 ∨ Z.land r 0xC0 ≠ 0x40 ∧ ata_busy h' < ata_busy h);
  ata_insl : ∀ h drive lba,
    ata_pending (ata_view h) = AtaReading drive lba →
    let '(h', data) := insl h 0x1f0 128 in
    data = platter (ata_view h) drive lba ∧
    ata_view h' = ata_set_pending (ata_view h) AtaIdle (platter (ata_view h));
  ata_outsl : ∀ h drive lba data,
    ata_pending (ata_view h) = AtaWriting drive lba → length data = 512%nat →
    ata_view (outsl h 0x1f0 data) =
      ata_set_pending (ata_view h) AtaIdle (disk_set (platter (ata_view h)) drive lba data)
}.

(** * A concrete drive

    The drive that answers every status read at once; it shows that the class
    is inhabited and executes the witnesses of the development. *)
Definition sim_inb (h : ata) (port : Z) : ata * Z :=
  (h, if port =? 0x1f7 then 0x40 else 0).
Definition sim_insl (h : ata) (port : Z) (n : nat) : ata * list Z :=
  match ata_pending h with
  | AtaReading d b => (ata_set_pending h AtaIdle (platter h), platter h d b)
  | _ => (h, replicate (4 * n) 0)
  end.
Definition sim_outsl (h : ata) (port : Z) (data : list Z) : ata :=
  match ata_pending h with
  | AtaWriting d b => ata_set_pending h AtaIdle (disk_set (platter h) d b data)
  | _ => h
  end.

#[export] Instance sim_ports : PortIO ata :=
  { inb := sim_inb; outb := ata_out; insl := sim_insl; outsl := sim_outsl }.

#[export] Instance sim_drive : AtaDrive ata.
Proof.
  refine {| ata_view := id; ata_busy := λ _, 0 |}; simpl.
  - lia.
  - done.
  - auto.
  - intros h d b E. unfold sim_insl. rewrite E. done.
  - intros h d b data E _. unfold sim_outsl. rewrite E. done.
Defined.

Definition sim_disk (p : Z → Z → list Z) : ata := mk_ata 0 0 0 0 0 AtaIdle p.

Lemma sim_platter p : platter (ata_view (sim_disk p)) = p.
Proof. reflexivity. Qed.
