(* ===== verification/Ide.v ===== *)
(** drivers/ide.c: the IDE driver.  Buffers are identified by their index in
    [bufs]; the driver keeps a queue of buffers linked through [qnext], starts
    the command of the first and completes it in the interrupt handler. *)
From S2P Require Import Prelude Ports.

Definition BSIZE : Z := 512.
Definition FSSIZE : Z := 1000.

(** include/buf.h; a null [qnext] is [None]. *)
Definition B_VALID : Z := 0x2.
Definition B_DIRTY : Z := 0x4.

Record buf := mk_buf {
  b_flags : Z; b_dev : Z; b_blockno : Z; b_refcnt : Z;
  b_prev : nat; b_next : nat; b_qnext : option nat;
  b_data : list Z
}.

#[export] Instance buf_inhabited : Inhabited buf :=
  populate (mk_buf 0 0 0 0 0 0 None []).

Definition set_flags (b : buf) (v : Z) : buf :=
  mk_buf v (b_dev b) (b_blockno b) (b_refcnt b) (b_prev b) (b_next b) (b_qnext b) (b_data b).
Definition set_key (b : buf) (dev blockno : Z) : buf :=
  mk_buf (b_flags b) dev blockno (b_refcnt b) (b_prev b) (b_next b) (b_qnext b) (b_data b).
Definition set_refcnt (b : buf) (v : Z) : buf :=
  mk_buf (b_flags b) (b_dev b) (b_blockno b) v (b_prev b) (b_next b) (b_qnext b) (b_data b).
Definition set_prev (b : buf) (v : nat) : buf :=
  mk_buf (b_flags b) (b_dev b) (b_blockno b) (b_refcnt b) v (b_next b) (b_qnext b) (b_data b).
Definition set_next (b : buf) (v : nat) : buf :=
  mk_buf (b_flags b) (b_dev b) (b_blockno b) (b_refcnt b) (b_prev b) v (b_qnext b) (b_data b).
Definition set_qnext (b : buf) (v : option nat) : buf :=
  mk_buf (b_flags b) (b_dev b) (b_blockno b) (b_refcnt b) (b_prev b) (b_next b) v (b_data b).
Definition set_data (b : buf) (v : list Z) : buf :=
  mk_buf (b_flags b) (b_dev b) (b_blockno b) (b_refcnt b) (b_prev b) (b_next b) (b_qnext b) v.

(** The driver's state: the hardware, the buffers, [idequeue], [havedisk1] and
    the messages printed (newest first). *)
Record disk_st (hw : Type) := mk_disk {
  d_hw : hw; bufs : list buf; idequeue : option nat; havedisk1 : bool; d_log : list string
}.
Arguments mk_disk {hw} _ _ _ _ _.
Arguments d_hw {hw} _.
Arguments bufs {hw} _.
Arguments idequeue {hw} _.
Arguments havedisk1 {hw} _.
Arguments d_log {hw} _.

Section driver.
Context {hw : Type} `{PortIO hw}.
Implicit Types (st : disk_st hw).

Definition bufp st (i : nat) : buf := bufs st !!! i.
Definition upd_buf st (i : nat) (f : buf → buf) : disk_st hw :=
mk_disk (d_hw st) (alter f i (bufs st)) (idequeue st) (havedisk1 st) (d_log st).
Definition set_hw st (h : hw) : disk_st hw :=
mk_disk h (bufs st) (idequeue st) (havedisk1 st) (d_log st).
Definition set_queue st (q : option nat) : disk_st hw :=
mk_disk (d_hw st) (bufs st) q (havedisk1 st) (d_log st).
Definition dprint st (msg : string) : disk_st hw :=
mk_disk (d_hw st) (bufs st) (idequeue st) (havedisk1 st) (msg :: d_log st).

(** [while(((r = inb(0x1f7)) & (IDE_BSY|IDE_DRDY)) != IDE_DRDY);] *)
Definition idewait (h : hw) (checkerr : bool) : res (hw * Z) :=
let* p := while (2 ^ 32)
  (λ h, let '(h, r) := inb h 0x1f7 in
        Ok (if Z.land r 0xC0 =? 0x40 then inr (h, r) else inl h)) h in
let '(h, r) := p in
Ok (h, if checkerr && negb (Z.land r 0x21 =? 0) then -1 else 0).

(** [n] turns of the probe loop of [ideinit]. *)
Fixpoint ideinit_probe st (n : nat) : disk_st hw :=
match n with
| O => st
| S n' =>
    let '(h, r) := inb (d_hw st) 0x1f7 in
    if negb (r =? 0) then
      dprint (mk_disk h (bufs st) (idequeue st) true (d_log st)) "dectected disk1"
    else ideinit_probe (set_hw st h) n'
end.

Definition ideinit st : res (disk_st hw) :=
let* p := idewait (d_hw st) false in
let h := outb p.1 0x1f6 (Z.lor 0xe0 (Z.shiftl 1 4)) in
let st := ideinit_probe (set_hw st h) 1000 in
Ok (set_hw st (outb (d_hw st) 0x1f6 (Z.lor 0xe0 (Z.shiftl 0 4)))).

Definition idestart st (i : nat) : res (disk_st hw) :=
let b := bufp st i in
let st := if FSSIZE <=? b_blockno b then dprint st "incorrect blockno" else st in
let sector := s32 (b_blockno b) in
let* p := idewait (d_hw st) false in
let h := p.1 in
let h := outb h 0x3f6 0 in
let h := outb h 0x1f2 1 in
let h := outb h 0x1f3 (Z.land sector 0xff) in
let h := outb h 0x1f4 (Z.land (Z.shiftr sector 8) 0xff) in
let h := outb h 0x1f5 (Z.land (Z.shiftr sector 16) 0xff) in
let h := outb h 0x1f6
  (Z.lor (Z.lor 0xe0 (Z.shiftl (Z.land (b_dev b) 1) 4)) (Z.land (Z.shiftr sector 24) 0x0f)) in
Ok (set_hw st
  (if negb (Z.land (b_flags b) B_DIRTY =? 0)
   then outsl (outb h 0x1f7 0x30) 0x1f0 (b_data b)
   else outb h 0x1f7 0x20)).

(** The interrupt handler. *)
Definition ideint_callback st : res (disk_st hw) :=
match idequeue st with
| None => Ok st
| Some i =>
    let st := set_queue st (b_qnext (bufp st i)) in
    let* st :=
      (if Z.land (b_flags (bufp st i)) B_DIRTY =? 0 then
         let* p := idewait (d_hw st) true in
         let st := set_hw st p.1 in
         if 0 <=? p.2 then
           let '(h, data) := insl (d_hw st) 0x1f0 128 in
           Ok (upd_buf (set_hw st h) i (λ b, set_data b data))
         else Ok st
       else Ok st) in
    let st := upd_buf st i (λ b, set_flags b (Z.lor (b_flags b) B_VALID)) in
    let st := upd_buf st i (λ b, set_flags b (Z.land (b_flags b) (Z.lnot B_DIRTY))) in
    match idequeue st with
    | None => Ok st
    | Some j => idestart st j
    end
end.

(** [for(pp = &idequeue; *pp; pp = &( *pp)->qnext); *pp = b]: [cur] is the
  last buffer seen. *)
Definition ide_enqueue st (i : nat) : res (disk_st hw) :=
match idequeue st with
| None => Ok (set_queue st (Some i))
| Some q =>
    while (2 ^ 32)
      (λ cur,
         Ok (match b_qnext (bufp st cur) with
             | Some j => inl j
             | None => inr (upd_buf st cur (λ b, set_qnext b (Some i)))
             end)) q
end.

Definition buf_done (b : buf) : bool := Z.land (b_flags b) (Z.lor B_VALID B_DIRTY) =? B_VALID.

(** The busy wait at the end of [iderw]: the flags only change when the
  drive's interrupt arrives, one per turn. *)
Definition ide_wait st (i : nat) : res (disk_st hw) :=
while (2 ^ 32)
  (λ st, if buf_done (bufp st i) then Ok (inr st)
         else let* st := ideint_callback st in Ok (inl st)) st.

Definition iderw st (i : nat) : res (disk_st hw) :=
let b := bufp st i in
let st := if buf_done b then dprint st "iderw: nothing to do" else st in
let st := if negb (b_dev b =? 0) && negb (havedisk1 st)
          then dprint st "iderw: ide disk 1 not present" else st in
let st := upd_buf st i (λ b, set_qnext b None) in
let* st := ide_enqueue st i in
let* st := (match idequeue st with
            | Some q => if decide (q = i) then idestart st i else Ok st
            | None => Ok st
            end) in
ide_wait st i.
End driver.

(** * One transfer *)

Section ide_lemmas.
Context {hw : Type} `{AtaDrive hw}.
Implicit Types (st : disk_st hw) (h : hw).

Lemma bufp_upd st i j f :
(j < length (bufs st))%nat →
bufp (upd_buf st i f) j = if decide (i = j) then f (bufp st j) else bufp st j.
Proof.
intros Hj. unfold bufp, upd_buf. cbn [bufs].
apply list_lookup_total_correct. rewrite list_lookup_alter.
apply lookup_lt_is_Some_2 in Hj as (b & Hb). rewrite Hb.
rewrite (list_lookup_total_correct _ _ _ Hb).
case_decide as E; [rewrite E, Hb|]; done.
Qed.

Lemma bufp_upd_eq st i f :
(i < length (bufs st))%nat → bufp (upd_buf st i f) i = f (bufp st i).
Proof. intros Hi. rewrite bufp_upd by done. by rewrite decide_True. Qed.

Lemma idewait_ok h c :
∃ h', idewait h c = Ok (h', 0) ∧ ata_view h' = ata_view h.
Proof.
unfold idewait.
destruct (while_spec (λ h1, ata_view h1 = ata_view h) ata_busy
  (λ '(h', r), ata_view h' = ata_view h ∧ Z.land r 0x21 = 0) (2 ^ 32)
  (λ h, let '(h, r) := inb h 0x1f7 in
        Ok (if Z.land r 0xC0 =? 0x40 then inr (h, r) else inl h)) h)
  as ([h' r] & -> & Hv & Hr).
- intros h1 _. apply ata_busy_bound.
- intros h1 Hv. pose proof (ata_status h1) as Hs. destruct (inb h1 0x1f7) as [h2 r].
  destruct Hs as (Ev & [(E & Er) | (E & Hlt)]).
  + right. rewrite E. eexists; split; [reflexivity|]. split; [congruence | done].
  + left. rewrite (proj2 (Z.eqb_neq _ _) E). eexists; split; [reflexivity|].
    split; [congruence | done].
- done.
- pose proof (ata_busy_bound h). lia.
- simpl. rewrite Hr. exists h'. rewrite andb_false_r. done.
Qed.

Lemma drive_byte dev x :
0 ≤ x < 16 →
let v := u8 (Z.lor (Z.lor 0xe0 (Z.shiftl (Z.land dev 1) 4)) x) in
Z.land (Z.shiftr v 4) 1 = Z.land dev 1 ∧ Z.land v 0xF = x.
Proof.
intros Hx.
assert (Z.land dev 1 = 0 ∨ Z.land dev 1 = 1) as Hd.
{ change 1 with (2 ^ 1 - 1). rewrite land_ones_mod by lia. zlia. }
assert (x ∈ seqZ 0 16) as Hin by (apply elem_of_seqZ; lia).
assert (∀ d, d = 0 ∨ d = 1 → Forall (λ x,
  let v := u8 (Z.lor (Z.lor 0xe0 (Z.shiftl d 4)) x) in
  Z.land (Z.shiftr v 4) 1 = d ∧ Z.land v 0xF = x) (seqZ 0 16)) as Hall.
{ intros d [-> | ->]; repeat constructor. }
exact (proj1 (Forall_forall _ _) (Hall _ Hd) x Hin).
Qed.

Lemma lba_bytes b :
0 ≤ b < 2 ^ 28 →
u8 (Z.land b 0xff) + 2 ^ 8 * u8 (Z.land (Z.shiftr b 8) 0xff)
  + 2 ^ 16 * u8 (Z.land (Z.shiftr b 16) 0xff)
  + 2 ^ 24 * Z.land (Z.shiftr b 24) 0x0f = b
∧ 0 ≤ Z.land (Z.shiftr b 24) 0x0f < 16.
Proof.
intros Hb. change 0xff with (2 ^ 8 - 1). change 0x0f with (2 ^ 4 - 1).
rewrite !land_ones_mod, !Z.shiftr_div_pow2 by lia. zlia.
Qed.

(** The command [idestart] gives the drive, as the drive sees it. *)
Lemma ata_command a dev b cmd :
0 ≤ b < 2 ^ 28 →
let a1 := ata_out a 0x3f6 0 in
let a2 := ata_out a1 0x1f2 1 in
let a3 := ata_out a2 0x1f3 (Z.land b 0xff) in
let a4 := ata_out a3 0x1f4 (Z.land (Z.shiftr b 8) 0xff) in
let a5 := ata_out a4 0x1f5 (Z.land (Z.shiftr b 16) 0xff) in
let a6 := ata_out a5 0x1f6
  (Z.lor (Z.lor 0xe0 (Z.shiftl (Z.land dev 1) 4)) (Z.land (Z.shiftr b 24) 0x0f)) in
let a7 := ata_out a6 0x1f7 cmd in
platter a7 = platter a ∧ ata_count a7 = 1 ∧
ata_pending a7 =
  if u8 cmd =? 0x20 then AtaReading (Z.land dev 1) b
  else if u8 cmd =? 0x30 then AtaWriting (Z.land dev 1) b else ata_pending a.
Proof.
intros Hb. cbn -[Z.land Z.lor Z.shiftl Z.shiftr u8 Z.pow Z.add Z.mul].
destruct (lba_bytes b Hb) as (El & Hx).
destruct (drive_byte dev _ Hx) as (Ed & En).
split; [done|]. split; [done|]. unfold ata_drive, ata_lba.
cbn [ata_dev ata_lba0 ata_lba1 ata_lba2]. rewrite Ed, En, El. done.
Qed.
End ide_lemmas.

Section transfer.
Context {hw : Type} `{AtaDrive hw}.
Implicit Types (st : disk_st hw).

Definition disk_of st : Z → Z → list Z := platter (ata_view (d_hw st)).
Definition drive_of (b : buf) : Z := Z.land (b_dev b) 1.

(** [st'] is [st] but for the hardware and the messages. *)
Definition same_driver st st' : Prop :=
bufs st' = bufs st ∧ idequeue st' = idequeue st ∧ havedisk1 st' = havedisk1 st.

Lemma idestart_spec st i :
let b := bufp st i in
0 ≤ b_blockno b < 2 ^ 28 →
(Z.land (b_flags b) B_DIRTY ≠ 0 → length (b_data b) = 512%nat) →
∃ st', idestart st i = Ok st' ∧ same_driver st st' ∧
  if Z.land (b_flags b) B_DIRTY =? 0 then
    ata_pending (ata_view (d_hw st')) = AtaReading (drive_of b) (b_blockno b) ∧
    disk_of st' = disk_of st
  else
    ata_pending (ata_view (d_hw st')) = AtaIdle ∧
    disk_of st' = disk_set (disk_of st) (drive_of b) (b_blockno b) (b_data b).
Proof.
intros b Hb Hlen. unfold idestart. fold b. rewrite s32_small by lia.
set (st1 := if FSSIZE <=? b_blockno b then _ else st).
assert (same_driver st st1 ∧ disk_of st1 = disk_of st) as (Hst1 & Hd1)
  by (unfold st1; case_match; done).
destruct (idewait_ok (d_hw st1) false) as (h1 & -> & Hv1). cbn [rbind fst snd].
eexists; split; [reflexivity|]. split; [exact Hst1|].
unfold disk_of in *. cbn [d_hw set_hw].
destruct (Z.eqb_spec (Z.land (b_flags b) B_DIRTY) 0) as [E|E]; cbn [negb].
- rewrite !ata_outb. destruct (ata_command (ata_view h1) (b_dev b) (b_blockno b) 0x20 Hb)
    as (Hp & _ & Hc).
  split; [exact Hc|]. rewrite <- Hd1, <- Hv1. exact Hp.
- destruct (ata_command (ata_view h1) (b_dev b) (b_blockno b) 0x30 Hb) as (Hp & _ & Hc).
  rewrite <- Hv1 in *. rewrite <- !ata_outb in Hp, Hc. simpl in Hc.
  erewrite ata_outsl by (first [exact Hc | exact (Hlen E)]).
  cbn [ata_pending ata_set_pending platter]. split; [done|].
  rewrite Hp. by rewrite <- Hd1, Hv1.
Qed.

(** Completion of the first buffer when it is alone on the queue. *)
Lemma callback_read st i :
idequeue st = Some i → (i < length (bufs st))%nat → b_qnext (bufp st i) = None →
Z.land (b_flags (bufp st i)) B_DIRTY = 0 →
ata_pending (ata_view (d_hw st)) = AtaReading (drive_of (bufp st i)) (b_blockno (bufp st i)) →
∃ st', ideint_callback st = Ok st' ∧ idequeue st' = None ∧ havedisk1 st' = havedisk1 st ∧
  ata_pending (ata_view (d_hw st')) = AtaIdle ∧ disk_of st' = disk_of st ∧
  bufs st' = alter (λ b, set_flags (set_data b
      (disk_of st (drive_of (bufp st i)) (b_blockno (bufp st i))))
      (Z.land (Z.lor (b_flags b) B_VALID) (Z.lnot B_DIRTY))) i (bufs st).
Proof.
intros Hq Hi Hn Hf Hp. unfold ideint_callback. rewrite Hq, Hn.
change (bufp (set_queue st None) i) with (bufp st i). rewrite Hf. cbn [Z.eqb].
change (d_hw (set_queue st None)) with (d_hw st).
destruct (idewait_ok (d_hw st) true) as (h1 & -> & Hv1). cbn [rbind fst snd].
rewrite (proj2 (Z.leb_le 0 0)) by lia. cbn [d_hw set_hw].
rewrite <- Hv1 in Hp. pose proof (ata_insl h1 _ _ Hp) as Hins.
destruct (insl h1 0x1f0 128) as [h2 data]. destruct Hins as (-> & Hv2).
cbn [rbind]. eexists; split; [reflexivity|].
unfold upd_buf, disk_of. cbn. rewrite Hv2. cbn.
split; [done|]. split; [done|]. split; [done|]. rewrite Hv1. split; [done|].
rewrite !alter_alter. done.
Qed.

Lemma callback_write st i :
idequeue st = Some i → b_qnext (bufp st i) = None →
Z.land (b_flags (bufp st i)) B_DIRTY ≠ 0 →
ideint_callback st = Ok (mk_disk (d_hw st)
  (alter (λ b, set_flags b (Z.land (Z.lor (b_flags b) B_VALID) (Z.lnot B_DIRTY))) i (bufs st))
  None (havedisk1 st) (d_log st)).
Proof.
intros Hq Hn Hf. unfold ideint_callback. rewrite Hq, Hn.
change (bufp (set_queue st None) i) with (bufp st i).
rewrite (proj2 (Z.eqb_neq _ _) Hf). cbn [rbind]. unfold upd_buf. cbn.
rewrite !alter_alter. done.
Qed.
End transfer.

(** * Synchronising a buffer with the disk *)

Section iderw.
Context {hw : Type} `{AtaDrive hw}.
Implicit Types (st : disk_st hw).

(** What a completed transfer leaves behind: buffer [i] changed by [f], the
  disk being [d], an empty queue and an idle drive. *)
Record transferred st (i : nat) (f : buf → buf) (d : Z → Z → list Z) st' : Prop := {
tr_bufs : bufs st' = alter f i (bufs st);
tr_queue : idequeue st' = None;
tr_have : havedisk1 st' = havedisk1 st;
tr_idle : ata_pending (ata_view (d_hw st')) = AtaIdle;
tr_disk : disk_of st' = d
}.

Context st (i : nat) (Hi : (i < length (bufs st))%nat) (Hq : idequeue st = None)
      (Hbno : 0 ≤ b_blockno (bufp st i) < 2 ^ 28).

Lemma ide_wait_done st1 : buf_done (bufp st1 i) = true → ide_wait st1 i = Ok st1.
Proof.
intros E. unfold ide_wait.
destruct (while_spec (λ s, s = st1) (λ _, 0) (λ s, s = st1) (2 ^ 32)
  (λ st, if buf_done (bufp st i) then Ok (inr st)
         else let* st := ideint_callback st in Ok (inl st)) st1) as (r & -> & ->); try done.
intros s ->. right. rewrite E. eauto.
Qed.

Lemma ide_wait_one st1 st2 :
buf_done (bufp st1 i) = false → ideint_callback st1 = Ok st2 →
buf_done (bufp st2 i) = true → ide_wait st1 i = Ok st2.
Proof.
intros E1 E2 E3. unfold ide_wait.
destruct (while_spec (λ s, s = st1 ∨ s = st2)
  (λ s, if buf_done (bufp s i) then 0 else 1) (λ s, s = st2) (2 ^ 32)
  (λ st, if buf_done (bufp st i) then Ok (inr st)
         else let* st := ideint_callback st in Ok (inl st)) st1) as (r & -> & ->); try done.
- intros s _. case_match; lia.
- intros s [-> | ->].
  + left. rewrite E1, E2. eexists; split; [reflexivity|]. rewrite E3. auto with lia.
  + right. rewrite E3. eauto.
- auto.
- rewrite E1. lia.
Qed.

(** The state in which [iderw] starts the drive. *)
Definition rw_started st1 : Prop :=
bufs st1 = alter (λ b, set_qnext b None) i (bufs st) ∧ idequeue st1 = Some i ∧
havedisk1 st1 = havedisk1 st ∧ d_hw st1 = d_hw st.

Lemma rw_started_buf st1 :
rw_started st1 → bufp st1 i = set_qnext (bufp st i) None ∧ (i < length (bufs st1))%nat.
Proof.
intros (Eb & _). unfold bufp. rewrite Eb. rewrite length_alter.
split; [|done]. apply (bufp_upd_eq st i (λ b, set_qnext b None) Hi).
Qed.

Lemma iderw_start :
∃ st1, rw_started st1 ∧
  iderw st i = (let* s := idestart st1 i in ide_wait s i).
Proof.
unfold iderw.
set (sa := if buf_done (bufp st i) then _ else st).
set (sb := if negb (b_dev (bufp st i) =? 0) && negb (havedisk1 sa) then _ else sa).
assert (same_driver st sb ∧ d_hw sb = d_hw st) as ((E1 & E2 & E3) & E4)
  by (unfold sb, sa; repeat case_match; done).
unfold ide_enqueue, upd_buf. cbn [idequeue]. rewrite E2, Hq. cbn [rbind idequeue set_queue].
rewrite decide_True by done. eexists; split; [|reflexivity].
unfold rw_started. cbn. rewrite E1, E3, E4. done.
Qed.

Lemma iderw_read :
b_flags (bufp st i) = 0 →
∃ st', iderw st i = Ok st' ∧
  transferred st i (λ b, set_flags (set_data (set_qnext b None)
    (disk_of st (drive_of (bufp st i)) (b_blockno (bufp st i)))) B_VALID) (disk_of st) st'.
Proof.
intros Hf. destruct iderw_start as (st1 & Hs & ->).
destruct (rw_started_buf st1 Hs) as (Eb & Hi1). destruct Hs as (Ebs & Eq & Eh & Ehw).
destruct (idestart_spec st1 i) as (st2 & -> & (E2b & E2q & E2h) & Hcmd);
  rewrite ?Eb; cbn [b_blockno b_flags set_qnext]; [done | rewrite Hf; done |].
rewrite Eb in Hcmd. cbn [b_flags set_qnext] in Hcmd. rewrite Hf in Hcmd. simpl in Hcmd.
destruct Hcmd as (Hp & Hd).
assert (bufp st2 i = set_qnext (bufp st i) None) as Eb2 by (unfold bufp; rewrite E2b; exact Eb).
destruct (callback_read st2 i) as (st3 & Hcb & Hq3 & Hh3 & Hp3 & Hd3 & Hb3);
  rewrite ?E2b, ?E2q, ?Eb2; try done; [cbn [b_flags set_qnext]; by rewrite Hf|].
exists st3. cbn [rbind].
assert (bufs st3 = alter (λ b, set_flags (set_data (set_qnext b None)
  (disk_of st (drive_of (bufp st i)) (b_blockno (bufp st i))))
  (Z.land (Z.lor (b_flags b) B_VALID) (Z.lnot B_DIRTY))) i (bufs st)) as Hb3'.
{ rewrite Hb3, Hd, E2b, Ebs, alter_alter, Eb2. unfold disk_of. rewrite Ehw. done. }
assert (bufs st3 = alter (λ b, set_flags (set_data (set_qnext b None)
    (disk_of st (drive_of (bufp st i)) (b_blockno (bufp st i)))) B_VALID) i (bufs st)) as Hb3f.
{ rewrite Hb3'. apply alter_ext_at. change (bufs st !!! i) with (bufp st i). by rewrite Hf. }
split.
- apply ide_wait_one; [|done|].
  + rewrite Eb2. unfold buf_done. cbn [b_flags set_qnext]. by rewrite Hf.
  + unfold bufp. rewrite Hb3f.
    change (buf_done (bufp (upd_buf st i (λ b, set_flags (set_data (set_qnext b None)
      (disk_of st (drive_of (bufp st i)) (b_blockno (bufp st i)))) B_VALID)) i) = true).
    rewrite bufp_upd_eq by done. done.
- split; [done | done | by rewrite Hh3, E2h | done |].
  rewrite Hd3, Hd. unfold disk_of. by rewrite Ehw.
Qed.

Lemma iderw_write :
Z.land (b_flags (bufp st i)) B_DIRTY ≠ 0 →
Z.land (Z.lor (b_flags (bufp st i)) B_VALID) (Z.lnot B_DIRTY) = B_VALID →
ata_pending (ata_view (d_hw st)) = AtaIdle →
length (b_data (bufp st i)) = 512%nat →
∃ st', iderw st i = Ok st' ∧
  transferred st i (λ b, set_flags (set_qnext b None) B_VALID)
    (disk_set (disk_of st) (drive_of (bufp st i)) (b_blockno (bufp st i))
       (b_data (bufp st i))) st'.
Proof.
intros Hf Hf2 Hidle Hlen. destruct iderw_start as (st1 & Hs & ->).
destruct (rw_started_buf st1 Hs) as (Eb & Hi1). destruct Hs as (Ebs & Eq & Eh & Ehw).
destruct (idestart_spec st1 i) as (st2 & -> & (E2b & E2q & E2h) & Hcmd);
  rewrite ?Eb; cbn [b_blockno b_flags b_data set_qnext]; [done | done |].
rewrite Eb in Hcmd. cbn [b_flags set_qnext] in Hcmd.
rewrite (proj2 (Z.eqb_neq _ _) Hf) in Hcmd. destruct Hcmd as (Hp & Hd).
assert (bufp st2 i = set_qnext (bufp st i) None) as Eb2 by (unfold bufp; rewrite E2b; exact Eb).
pose proof (callback_write st2 i) as Hcb.
rewrite E2q, Eb2 in Hcb. specialize (Hcb Eq eq_refl Hf).
assert (alter (λ b, set_flags b (Z.land (Z.lor (b_flags b) B_VALID) (Z.lnot B_DIRTY))) i
  (bufs st2) = alter (λ b, set_flags (set_qnext b None) B_VALID) i (bufs st)) as Hbs.
{ rewrite E2b, Ebs, alter_alter. apply alter_ext_at.
  change (bufs st !!! i) with (bufp st i). cbn [b_flags set_qnext]. by rewrite Hf2. }
rewrite Hbs in Hcb.
eexists. cbn [rbind]. split; [eapply ide_wait_one; [|exact Hcb|]|].
- rewrite Eb2. unfold buf_done. cbn [b_flags set_qnext].
  apply Z.eqb_neq. intros E. apply Hf.
  apply (f_equal (λ x, Z.land x B_DIRTY)) in E. rewrite <- Z.land_assoc in E. exact E.
- change (buf_done (bufp (upd_buf st i (λ b, set_flags (set_qnext b None) B_VALID)) i) = true).
  rewrite bufp_upd_eq by done. done.
- split; cbn; [done | done | by rewrite E2h | done |].
  transitivity (disk_of st2); [done|]. rewrite Hd. unfold disk_of. by rewrite Ehw.
Qed.
End iderw.

(** * Properties *)

Section ide_properties.
Context {hw : Type} `{AtaDrive hw}.
Implicit Types (st : disk_st hw).

(** [iderw] of a clean buffer with an idle driver terminates and reads
  the buffer's sector: the data become the drive's, the buffer is valid,
  the queue is empty again, and neither the disk nor another buffer changes. *)
Theorem iderw_reads st i :
(i < length (bufs st))%nat → idequeue st = None →
0 ≤ b_blockno (bufp st i) < 2 ^ 28 → b_flags (bufp st i) = 0 →
∃ st', iderw st i = Ok st' ∧
  b_data (bufp st' i) = disk_of st (drive_of (bufp st i)) (b_blockno (bufp st i)) ∧
  b_flags (bufp st' i) = B_VALID ∧ idequeue st' = None ∧ disk_of st' = disk_of st ∧
  ∀ j, (j < length (bufs st))%nat → j ≠ i → bufp st' j = bufp st j.
Proof.
intros Hi Hq Hb Hf. destruct (iderw_read st i Hi Hq Hb Hf) as (st' & E & [Eb Eq _ _ Ed]).
exists st'. split; [done|].
set (f := λ b, _) in Eb.
assert (∀ j, (j < length (bufs st))%nat → bufp st' j = bufp (upd_buf st i f) j) as Eu
  by (intros j _; unfold bufp; by rewrite Eb).
rewrite (Eu i Hi), bufp_upd_eq by done.
split; [done|]. split; [done|]. split; [done|]. split; [done|].
intros j Hj Hne. rewrite Eu, bufp_upd by done. by rewrite decide_False.
Qed.

(** [iderw] of a valid dirty buffer terminates and writes its data to its
  sector and to no other, and leaves the buffer valid and clean. *)
Theorem iderw_writes st i :
(i < length (bufs st))%nat → idequeue st = None →
0 ≤ b_blockno (bufp st i) < 2 ^ 28 → b_flags (bufp st i) = Z.lor B_VALID B_DIRTY →
ata_pending (ata_view (d_hw st)) = AtaIdle → length (b_data (bufp st i)) = 512%nat →
∃ st', iderw st i = Ok st' ∧
  disk_of st' (drive_of (bufp st i)) (b_blockno (bufp st i)) = b_data (bufp st i) ∧
  (∀ dev bno, (dev, bno) ≠ (drive_of (bufp st i), b_blockno (bufp st i)) →
     disk_of st' dev bno = disk_of st dev bno) ∧
  bufp st' i = set_flags (set_qnext (bufp st i) None) B_VALID ∧ idequeue st' = None.
Proof.
intros Hi Hq Hb Hf Hidle Hlen.
destruct (iderw_write st i Hi Hq Hb) as (st' & E & [Eb Eq _ _ Ed]);
  [by rewrite Hf | by rewrite Hf | done | done |].
exists st'. split; [done|]. rewrite Ed. unfold disk_set.
split; [by rewrite decide_True|].
split; [intros dev bno Hne; rewrite decide_False; [done|]; intros (-> & ->); done|].
split; [|done]. unfold bufp at 1. rewrite Eb.
apply (bufp_upd_eq st i (λ b, set_flags (set_qnext b None) B_VALID)). done.
Qed.
End ide_properties.

(** A driver on the concrete drive, one buffer, sector 5 of disk 1 holding
    sevens. *)
Definition ide0 (flags : Z) : disk_st ata :=
  mk_disk (sim_disk (λ d b, replicate 512 (if (d =? 1) && (b =? 5) then 7 else 0)))
    [mk_buf flags 1 5 1 0 0 None (replicate 512 3)] None true [].

Lemma iderw_reads_witness :
  ∃ st', iderw (ide0 0) 0 = Ok st' ∧ b_data (bufp st' 0) = replicate 512 7.
Proof.
  destruct (iderw_reads (ide0 0) 0) as (st' & E & Hd & _);
    [simpl; lia | done | by simpl; lia | done |].
  by exists st'.
Defined.

Lemma iderw_writes_witness :
  ∃ st', iderw (ide0 6) 0 = Ok st' ∧ disk_of st' 1 5 = replicate 512 3.
Proof.
  destruct (iderw_writes (ide0 6) 0) as (st' & E & Hd & _);
    [simpl; lia | done | by simpl; lia | done | done | done |].
  by exists st'.
Defined.
