(* ===== verification/Boot.v ===== *)
(** boot/start.c: the boot loader reads the kernel, an ELF file that starts at
    sector 1 of the first disk, to the physical addresses its program headers
    name, and answers the entry point.  Paging is off: an address of the memory
    is a physical address. *)
From S2P Require Import Prelude Memory Ports Ide.

Definition SECTSIZE : Z := 512.
(** The address of the scratch page, [elf], and the bytes read into it. *)
Definition ELFBUF : Z := 0x10000.
Definition ELFLEN : Z := 4096.
Definition BOOT_ELF_MAGIC : Z := 0x464C457F.

(** [elf->phnum], a [ushort]. *)
Definition ld16 (m : mem) (a : Z) : Z := ld8 m a + 2 ^ 8 * ld8 m (a + 1).

Section boot.
Context {hw : Type} `{PortIO hw}.
Implicit Types (h : hw) (m : mem).

Definition waitdisk h : res hw :=
  while (2 ^ 32)
    (λ h, let '(h, r) := inb h 0x1f7 in
          Ok (if negb (Z.land r 0xC0 =? 0x40) then inl h else inr h)) h.

Definition readsect h m (dst offset : Z) : res (hw * mem) :=
  let* h := waitdisk h in
  let h := outb h 0x1f2 1 in
  let h := outb h 0x1f3 (u8 offset) in
  let h := outb h 0x1f4 (u8 (Z.shiftr offset 8)) in
  let h := outb h 0x1f5 (u8 (Z.shiftr offset 16)) in
  let h := outb h 0x1f6 (u8 (Z.lor (Z.shiftr offset 24) 0xE0)) in
  let h := outb h 0x1f7 0x20 in
  let* h := waitdisk h in
  let '(h, data) := insl h 0x1f0 (Z.to_nat (SECTSIZE / 4)) in
  Ok (h, st_bytes m dst data).

(** One turn of the loop of [readseg]. *)
Definition readseg_step (epa : Z) '((h, m, pa, offset) : hw * mem * Z * Z)
  : res (hw * mem * Z * Z + hw * mem) :=
  if pa <? epa then
    let* r := readsect h m pa offset in
    Ok (inl (r.1, r.2, u32 (pa + SECTSIZE), u32 (offset + 1)))
  else Ok (inr (h, m)).

Definition readseg h m (pa count offset : Z) : res (hw * mem) :=
  let epa := u32 (pa + count) in
  let pa := u32 (pa - offset mod SECTSIZE) in
  let offset := u32 (offset / SECTSIZE + 1) in
  while (2 ^ 23) (readseg_step epa) (h, m, pa, offset).

(** One turn of the loop over the program headers, the one at [ph]. *)
Definition bootmain_step (eph : Z) '((h, m, ph) : hw * mem * Z) : res (hw * mem * Z + hw * mem) :=
  if ph <? eph then
    let pa := ld32 m (ph + 12) in
    let* r := readseg h m pa (ld32 m (ph + 16)) (ld32 m (ph + 4)) in
    let '(h, m) := r in
    let filesz := ld32 m (ph + 16) in
    let memsz := ld32 m (ph + 20) in
    let m := if filesz <? memsz then stosb m (u32 (pa + filesz)) 0 (Z.to_nat (memsz - filesz)) else m in
    Ok (inl (h, m, u32 (ph + 32)))
  else Ok (inr (h, m)).

(** The entry point that [bootmain] jumps to; none when it returns. *)
Definition bootmain h m : res (hw * mem * option Z) :=
  let* r := readseg h m ELFBUF ELFLEN 0 in
  let '(h, m) := r in
  if negb (ld32 m ELFBUF =? BOOT_ELF_MAGIC) then Ok (h, m, None)
  else
    let ph := u32 (ELFBUF + ld32 m (ELFBUF + 28)) in
    let eph := u32 (ph + 32 * ld16 m (ELFBUF + 44)) in
    let* r := while (2 ^ 17) (bootmain_step eph) (h, m, ph) in
    let '(h, m) := r in
    Ok (h, m, Some (ld32 m (ELFBUF + 24))).
End boot.

(** * Reading *)

(** Byte [i] of the file that starts at sector 1 of the disk. *)
Definition img (p : Z → Z → list Z) (i : Z) : Z := u8 (zget (p 0 (1 + i / 512)) (i mod 512)).

Lemma sector_pos o pa k x :
  pa - o mod 512 + 512 * k ≤ x < pa - o mod 512 + 512 * k + 512 →
  (o + (x - pa)) mod 512 = x - (pa - o mod 512 + 512 * k) ∧ (o + (x - pa)) / 512 = o / 512 + k.
Proof.
  intros Hx. pose proof (Z.div_mod o 512 ltac:(lia)) as Eo.
  assert (o + (x - pa) = (o / 512 + k) * 512 + (x - (pa - o mod 512 + 512 * k))) as -> by lia.
  assert (0 ≤ x - (pa - o mod 512 + 512 * k) < 512) as Hr by lia. revert Hr.
  generalize (x - (pa - o mod 512 + 512 * k)). intros r Hr. split.
  - by rewrite (Z.add_comm _ r), Z.mod_add, Z.mod_small by lia.
  - rewrite Z.div_add_l, (Z.div_small r) by lia. lia.
Qed.

Section read.
Context {hw : Type} `{AtaDrive hw}.
Implicit Types (h : hw) (m : mem).

Definition disk_view h : Z → Z → list Z := platter (ata_view h).

Lemma waitdisk_ok h : ∃ h', waitdisk h = Ok h' ∧ ata_view h' = ata_view h.
Proof.
  unfold waitdisk. apply while_spec with (I := λ h1, ata_view h1 = ata_view h) (mu := ata_busy).
  - intros h1 _. apply ata_busy_bound.
  - intros h1 Hv. pose proof (ata_status h1) as Hs. destruct (inb h1 0x1f7) as [h2 r].
    destruct Hs as (Ev & [(E & _) | (E & Hlt)]).
    + right. rewrite E. exists h2. split; [done|congruence].
    + left. rewrite (proj2 (Z.eqb_neq _ _) E). exists h2. split; [done|]. split; [congruence|done].
  - done.
  - pose proof (ata_busy_bound h). lia.
Qed.

Lemma readsect_ok h m dst b :
  0 ≤ b < 2 ^ 28 →
  ∃ h', readsect h m dst b = Ok (h', st_bytes m dst (disk_view h 0 b)) ∧ disk_view h' = disk_view h.
Proof.
  intros Hb. unfold readsect. destruct (waitdisk_ok h) as (h1 & -> & E1). cbn [rbind].
  set (h2 := outb _ 0x1f7 0x20). destruct (waitdisk_ok h2) as (h3 & -> & E3). cbn [rbind].
  assert (ata_pending (ata_view h2) = AtaReading 0 b ∧ disk_view h2 = disk_view h) as (Ep & Ed).
  { unfold h2, disk_view. rewrite !ata_outb. cbn -[Z.land Z.lor Z.shiftl Z.shiftr u8 Z.pow Z.add Z.mul].
    rewrite E1. split; [|done]. unfold ata_drive, ata_lba. cbn [ata_dev ata_lba0 ata_lba1 ata_lba2].
    rewrite !u8_u8. assert (0 ≤ Z.shiftr b 24 < 16) as Hx by (rewrite Z.shiftr_div_pow2; zlia).
    destruct (drive_byte 0 _ Hx) as (D1 & D2). change (Z.lor 0xe0 (Z.shiftl (Z.land 0 1) 4)) with 0xe0 in D1, D2.
    change (Z.land 0 1) with 0 in D1. rewrite (Z.lor_comm (Z.shiftr b 24)), D1, D2. change (u8 32) with 32.
    change (32 =? 32) with true. cbv iota. f_equal. rewrite !Z.shiftr_div_pow2 by lia. zlia. }
  rewrite <- E3 in Ep. pose proof (ata_insl h3 _ _ Ep) as Hins. unfold SECTSIZE.
  change (Z.to_nat (512 / 4)) with 128%nat. destruct (insl h3 0x1f0 128) as [h4 data].
  destruct Hins as (-> & E4). exists h4. unfold disk_view in *. rewrite E4, E3. cbn. by rewrite Ed.
Qed.

Section readseg.
Context (h0 : hw) (m0 : mem) (pa count offset : Z).
Context (Hlen : ∀ b, length (disk_view h0 0 b) = 512%nat).
Context (Hpa : offset mod 512 ≤ pa) (Hc : 0 ≤ count) (Hend : pa + count + 512 < 2 ^ 32).
Context (Ho : 0 ≤ offset) (Hob : offset + count + 1024 < 2 ^ 32).

(** The sectors read, and where the first goes. *)
Definition seg_start : Z := pa - offset mod 512.
Definition seg_sects : Z := (offset mod 512 + count + 511) / 512.

Definition seg_mem (k : Z) (m : mem) : Prop :=
  ∀ x, ld8 m x = if decide (seg_start ≤ x < seg_start + 512 * k)
                 then img (disk_view h0) (offset + (x - pa)) else ld8 m0 x.

Lemma readseg_spec :
  ∃ h' m', readseg h0 m0 pa count offset = Ok (h', m') ∧ disk_view h' = disk_view h0 ∧
    seg_mem seg_sects m'.
Proof.
  unfold readseg, SECTSIZE. assert (0 ≤ offset mod 512 < 512) as Hm by zlia.
  rewrite (u32_small (pa + count)), (u32_small (pa - _)), (u32_small (offset / 512 + 1)) by zlia.
  destruct (while_spec
    (λ '(h, m, a, o), ∃ k, 0 ≤ k ≤ seg_sects ∧ a = seg_start + 512 * k ∧ o = offset / 512 + 1 + k ∧
       disk_view h = disk_view h0 ∧ seg_mem k m)
    (λ '(_, _, a, _), (seg_start + 512 * seg_sects - a) / 512)
    (λ '(h, m), disk_view h = disk_view h0 ∧ seg_mem seg_sects m)
    (2 ^ 23) (readseg_step (pa + count)) (h0, m0, pa - offset mod 512, offset / 512 + 1))
    as ([h' m'] & -> & Hp).
  - intros [[[h m] a] o] (k & Hk & -> & _). unfold seg_sects in *. zlia.
  - intros [[[h m] a] o] (k & Hk & -> & -> & Ev & Hmem). unfold readseg_step.
    destruct (Z.ltb_spec (seg_start + 512 * k) (pa + count)) as [Hlt|Hge].
    + left. assert (k < seg_sects) as Hks by (unfold seg_sects, seg_start in *; zlia).
      destruct (readsect_ok h m (seg_start + 512 * k) (offset / 512 + 1 + k)) as (h1 & -> & E1);
        [unfold seg_sects in *; zlia|].
      cbn [rbind fst snd]. unfold SECTSIZE. rewrite !u32_small by (unfold seg_start, seg_sects in *; zlia).
      eexists; split; [reflexivity|]. split; [|unfold seg_start, seg_sects in *; zlia].
      exists (k + 1). split; [lia|]. split; [lia|]. split; [lia|]. split; [congruence|].
      intros x. rewrite ld8_st_bytes, Ev, Hlen. unfold inr_. rewrite Hmem.
      destruct (decide (seg_start + 512 * k ≤ x < seg_start + 512 * k + Z.of_nat 512)) as [Hx|Hx].
      * rewrite decide_True by lia. unfold img, zget. unfold seg_start in *.
        destruct (sector_pos offset pa k x Hx) as (-> & ->).
        by replace (1 + (offset / 512 + k)) with (offset / 512 + 1 + k) by lia.
      * repeat case_decide; done || lia.
    + right. eexists; split; [reflexivity|]. split; [done|].
      replace seg_sects with k; [done|]. unfold seg_sects, seg_start in *. zlia.
  - exists 0. split; [unfold seg_sects; zlia|]. split; [unfold seg_start; lia|]. split; [lia|].
    split; [done|]. intros x. by rewrite decide_False by lia.
  - unfold seg_sects, seg_start. zlia.
  - exists h', m'. by split.
Qed.
End readseg.
End read.

(** * Loading a kernel *)

(** A word of the file, and program header [j] of the table at [phoff]. *)
Definition iword (p : Z → Z → list Z) (i : Z) : Z :=
  img p i + 2 ^ 8 * img p (i + 1) + 2 ^ 16 * img p (i + 2) + 2 ^ 24 * img p (i + 3).

Record boot_seg := mk_bseg { bs_off : Z; bs_pa : Z; bs_filesz : Z; bs_memsz : Z }.
Definition seg_of (p : Z → Z → list Z) (j : Z) : boot_seg :=
  let a := iword p 28 + 32 * j in
  mk_bseg (iword p (a + 4)) (iword p (a + 12)) (iword p (a + 16)) (iword p (a + 20)).

(** The memory that loading the segment may write: whole sectors. *)
Definition seg_lo (s : boot_seg) : Z := seg_start (bs_pa s) (bs_off s).
Definition seg_hi (s : boot_seg) : Z :=
  Z.max (bs_pa s + bs_memsz s) (seg_lo s + 512 * seg_sects (bs_filesz s) (bs_off s)).

(** The segment is in memory: the bytes of the file, then zeros. *)
Definition seg_loaded (p : Z → Z → list Z) (s : boot_seg) (m : mem) : Prop :=
  ∀ i, 0 ≤ i < bs_memsz s →
    ld8 m (bs_pa s + i) = if decide (i < bs_filesz s) then img p (bs_off s + i) else 0.

(** A kernel file that the loader can load: [n] program headers in the first
    page, segments that fit, apart from each other and from the scratch page. *)
Record bootable (p : Z → Z → list Z) (n : Z) : Prop := {
  bk_len : ∀ b, length (p 0 b) = 512%nat;
  bk_magic : iword p 0 = BOOT_ELF_MAGIC;
  bk_num : n = img p 44 + 2 ^ 8 * img p 45;
  bk_table : iword p 28 + 32 * n ≤ ELFLEN;
  bk_seg : ∀ j, 0 ≤ j < n → let s := seg_of p j in
    bs_filesz s ≤ bs_memsz s ∧ bs_off s mod 512 ≤ bs_pa s ∧ seg_hi s + 512 < 2 ^ 32 ∧
    bs_off s + bs_filesz s + 1024 < 2 ^ 32 ∧ (seg_hi s ≤ ELFBUF ∨ ELFBUF + ELFLEN ≤ seg_lo s);
  bk_apart : ∀ i j, 0 ≤ i < n → 0 ≤ j < n → i ≠ j →
    seg_hi (seg_of p i) ≤ seg_lo (seg_of p j) ∨ seg_hi (seg_of p j) ≤ seg_lo (seg_of p i)
}.

Lemma img_range p i : 0 ≤ img p i < 256.
Proof. apply u8_range. Qed.

Lemma iword_range p i : 0 ≤ iword p i < 2 ^ 32.
Proof.
  unfold iword. pose proof (img_range p i). pose proof (img_range p (i + 1)).
  pose proof (img_range p (i + 2)). pose proof (img_range p (i + 3)). lia.
Qed.

Section load.
Context {hw : Type} `{AtaDrive hw}.
Context (h0 : hw) (n : Z) (Hk : bootable (disk_view h0) n).
Implicit Types (h : hw) (m : mem).

(** The scratch page holds the start of the file. *)
Definition elf_there m : Prop := ∀ i, 0 ≤ i < ELFLEN → ld8 m (ELFBUF + i) = img (disk_view h0) i.

Lemma elf_word m i : elf_there m → 0 ≤ i → i + 4 ≤ ELFLEN → ld32 m (ELFBUF + i) = iword (disk_view h0) i.
Proof.
  intros He Hi Hl. unfold ld32, iword. rewrite <- !Z.add_assoc, !He by lia. done.
Qed.

Lemma bootmain_turn h m j :
  0 ≤ j < n → disk_view h = disk_view h0 → elf_there m →
  ∃ h' m', bootmain_step (ELFBUF + iword (disk_view h0) 28 + 32 * n)
      (h, m, ELFBUF + iword (disk_view h0) 28 + 32 * j) =
    Ok (inl (h', m', ELFBUF + iword (disk_view h0) 28 + 32 * (j + 1))) ∧
    disk_view h' = disk_view h0 ∧ seg_loaded (disk_view h0) (seg_of (disk_view h0) j) m' ∧
    ∀ x, ¬ seg_lo (seg_of (disk_view h0) j) ≤ x < seg_hi (seg_of (disk_view h0) j) → ld8 m' x = ld8 m x.
Proof.
  intros Hj Ev He. set (p := disk_view h0) in *.
  pose proof (bk_seg _ _ Hk j Hj) as Hseg. pose proof (bk_table _ _ Hk) as Htab.
  pose proof (iword_range p 28) as Hphoff. unfold ELFLEN in Htab. fold p in Htab, Hseg. cbv zeta in Hseg.
  unfold bootmain_step. rewrite (proj2 (Z.ltb_lt _ _)) by lia.
  set (a := iword p 28 + 32 * j) in *.
  assert (∀ m k, elf_there m → 0 ≤ k ≤ 28 →
    ld32 m (ELFBUF + iword p 28 + 32 * j + k) = iword p (a + k)) as Hf.
  { intros m' k Hm Hkr. replace (ELFBUF + iword p 28 + 32 * j + k) with (ELFBUF + (a + k)) by (unfold a; lia).
    apply (elf_word m' (a + k) Hm); unfold a, ELFLEN; lia. }
  rewrite !Hf by (done || lia). set (s := seg_of p j) in *.
  change (iword p (a + 12)) with (bs_pa s). change (iword p (a + 16)) with (bs_filesz s).
  change (iword p (a + 4)) with (bs_off s).
  assert (0 ≤ bs_filesz s ∧ 0 ≤ bs_off s ∧ 0 ≤ bs_pa s) as (R1 & R2 & R3)
    by (split; [|split]; apply iword_range).
  destruct Hseg as (S1 & S2 & S3 & S4 & S5).
  assert (bs_pa s + bs_filesz s ≤ seg_lo s + 512 * seg_sects (bs_filesz s) (bs_off s)) as Hcov
    by (unfold seg_lo, seg_start, seg_sects; zlia).
  destruct (readseg_spec h m (bs_pa s) (bs_filesz s) (bs_off s)) as (h1 & m1 & -> & E1 & Hm1);
    [rewrite Ev; apply Hk|done|lia|unfold seg_hi in S3; lia|lia|lia|].
  cbn [rbind]. unfold seg_mem in Hm1. rewrite Ev in Hm1. fold (seg_lo s) in Hm1.
  assert (elf_there m1) as He1.
  { intros i Hi. rewrite Hm1, decide_False; [by apply He|]. unfold seg_hi in S5. lia. }
  rewrite !Hf by (done || lia). change (iword p (a + 16)) with (bs_filesz s).
  change (iword p (a + 20)) with (bs_memsz s).
  set (m2 := if _ <? _ then _ else m1).
  assert (∀ x, ld8 m2 x = if decide (bs_pa s + bs_filesz s ≤ x < bs_pa s + bs_memsz s) then 0 else ld8 m1 x) as Hm2.
  { intros x. unfold m2, seg_hi in *. destruct (Z.ltb_spec (bs_filesz s) (bs_memsz s)).
    - rewrite ld8_stosb, u32_small by lia. unfold inr_. repeat case_decide; done || lia.
    - by rewrite decide_False by lia. }
  eexists h1, m2. split; [|split; [congruence|split]].
  - do 3 f_equal. unfold ELFBUF. rewrite u32_small by (unfold ELFBUF in *; lia). lia.
  - intros i Hi. rewrite Hm2, Hm1. unfold seg_lo, seg_start in *.
    destruct (decide (i < bs_filesz s)).
    + rewrite decide_False, decide_True by zlia. f_equal. lia.
    + by rewrite decide_True by lia.
  - intros x Hx. rewrite Hm2, Hm1. unfold seg_hi, seg_lo, seg_start in *. rewrite !decide_False by zlia. done.
Qed.

Lemma bootmain_spec m :
  ∃ h' m', bootmain h0 m = Ok (h', m', Some (iword (disk_view h0) 24)) ∧
    ∀ j, 0 ≤ j < n → seg_loaded (disk_view h0) (seg_of (disk_view h0) j) m'.
Proof.
  pose proof (bk_table _ _ Hk) as Htab. pose proof (bk_num _ _ Hk) as Hnum.
  pose proof (iword_range (disk_view h0) 28) as Hphoff. unfold ELFLEN in Htab.
  pose proof (img_range (disk_view h0) 44). pose proof (img_range (disk_view h0) 45).
  unfold bootmain. destruct (readseg_spec h0 m ELFBUF ELFLEN 0) as (h1 & m1 & -> & E1 & Hm1);
    [apply Hk|done..|]. cbn [rbind].
  assert (elf_there m1) as He.
  { intros i Hi. rewrite Hm1. change (seg_start ELFBUF 0) with ELFBUF. change (seg_sects ELFLEN 0) with 8.
    unfold ELFLEN in Hi. rewrite decide_True by lia. f_equal. lia. }
  assert (∀ m, elf_there m → ld32 m ELFBUF = BOOT_ELF_MAGIC) as Hmagic.
  { intros m' Hm. rewrite <- (Z.add_0_r ELFBUF), (elf_word m' 0 Hm) by (unfold ELFLEN; lia). apply Hk. }
  rewrite Hmagic by done. rewrite Z.eqb_refl. cbn [negb].
  rewrite (elf_word m1 28 He) by (unfold ELFLEN; lia).
  assert (ld16 m1 (ELFBUF + 44) = n) as -> by (unfold ld16; rewrite <- Z.add_assoc, !He, Hnum by done; done).
  rewrite !u32_small by (rewrite ?u32_small; unfold ELFBUF; lia).
  destruct (while_spec
    (λ '(h, m', ph), ∃ j, 0 ≤ j ≤ n ∧ ph = ELFBUF + iword (disk_view h0) 28 + 32 * j ∧
       disk_view h = disk_view h0 ∧ elf_there m' ∧
       ∀ i, 0 ≤ i < j → seg_loaded (disk_view h0) (seg_of (disk_view h0) i) m')
    (λ '(_, _, ph), (ELFBUF + iword (disk_view h0) 28 + 32 * n - ph) / 32)
    (λ '(h, m'), elf_there m' ∧ ∀ i, 0 ≤ i < n → seg_loaded (disk_view h0) (seg_of (disk_view h0) i) m')
    (2 ^ 17) (bootmain_step (ELFBUF + iword (disk_view h0) 28 + 32 * n))
    (h1, m1, ELFBUF + iword (disk_view h0) 28)) as ([h' m'] & -> & He' & Hl).
  - intros [[h m'] ph] (j & Hj & -> & _). zlia.
  - intros [[h m'] ph] (j & Hj & -> & Ev & He' & Hl). destruct (decide (j < n)) as [Hlt|Hge].
    + left. destruct (bootmain_turn h m' j ltac:(lia) Ev He') as (h2 & m2 & E & Ev2 & Hl2 & Hfr).
      eexists; split; [exact E|]. split; [|zlia].
      pose proof (bk_seg _ _ Hk j ltac:(lia)) as (_ & _ & _ & _ & Hap).
      exists (j + 1). split; [lia|]. split; [done|]. split; [done|]. split.
      * intros i Hi. rewrite Hfr by lia. by apply He'.
      * intros i Hi. destruct (decide (i = j)) as [->|Hne]; [done|]. intros k Hkr.
        rewrite Hfr; [by apply Hl; lia|].
        pose proof (bk_apart _ _ Hk i j ltac:(lia) ltac:(lia) Hne) as Hd.
        assert (seg_lo (seg_of (disk_view h0) i) ≤ bs_pa (seg_of (disk_view h0) i)) as Hlo
          by (unfold seg_lo, seg_start; zlia).
        assert (bs_pa (seg_of (disk_view h0) i) + bs_memsz (seg_of (disk_view h0) i) ≤
          seg_hi (seg_of (disk_view h0) i)) as Hhi by (unfold seg_hi; lia). lia.
    + right. unfold bootmain_step. rewrite (proj2 (Z.ltb_ge _ _)) by lia. eexists; split; [reflexivity|].
      split; [done|]. intros i Hi. apply Hl. lia.
  - exists 0. split; [lia|]. split; [lia|]. split; [done|]. split; [done|]. lia.
  - zlia.
  - cbn [rbind]. exists h', m'. split; [|done]. by rewrite (elf_word m' 24 He') by (unfold ELFLEN; lia).
Qed.
End load.

(** C18. The boot loader ends with every segment of the kernel at its physical
    address, the bytes of the file followed by zeros up to the segment's size in
    memory, and jumps to the entry point of the file's header, when the file is
    an ELF file whose header tables fit the first page and whose segments do not
    overlap. *)
Theorem bootmain_loads {hw} `{AtaDrive hw} (h : hw) m n :
  let p := disk_view h in
  bootable p n →
  ∃ h' m', bootmain h m = Ok (h', m', Some (iword p 24)) ∧
    ∀ j, 0 ≤ j < n → let s := seg_of p j in
      ∀ i, 0 ≤ i < bs_memsz s →
        ld8 m' (bs_pa s + i) = if decide (i < bs_filesz s) then img p (bs_off s + i) else 0.
Proof. intros p Hk. destruct (bootmain_spec h n Hk m) as (h' & m' & E & Hl). by exists h', m'. Qed.

(** A kernel of one segment: eight bytes of the file at offset 4096, and eight
    zeros, at address 1 MB; entry at [0x100000]. *)
Definition kernel_disk : Z → Z → list Z := λ _ b,
  if decide (b = 1) then
    [0x7f; 69; 76; 70] ++ replicate 20 0 ++ [0; 0; 0x10; 0] ++ [52; 0; 0; 0] ++ replicate 12 0 ++ [1; 0] ++
    replicate 6 0 ++ [1; 0; 0; 0; 0; 0x10; 0; 0; 0; 0; 0; 0; 0; 0; 0x10; 0; 8; 0; 0; 0; 16; 0; 0; 0] ++
    replicate 436 0
  else if decide (b = 9) then [1; 2; 3; 4; 5; 6; 7; 8] ++ replicate 504 0
  else replicate 512 0.

Lemma kernel_bootable : bootable kernel_disk 1.
Proof.
  split; [|reflexivity|reflexivity|vm_compute; congruence| |lia].
  - intros b. unfold kernel_disk. repeat case_decide; reflexivity.
  - intros j Hj. assert (j = 0) as -> by lia. vm_compute. repeat split; try congruence. right. congruence.
Qed.

Lemma bootmain_loads_witness :
  ∃ h' m', bootmain (sim_disk kernel_disk) ∅ = Ok (h', m', Some 0x100000) ∧
    ld8 m' 0x100002 = 3 ∧ ld8 m' 0x10000f = 0.
Proof.
  assert (bootable (disk_view (sim_disk kernel_disk)) 1) as Hk
    by (unfold disk_view; rewrite sim_platter; exact kernel_bootable).
  destruct (bootmain_loads (sim_disk kernel_disk) ∅ 1 Hk) as (h' & m' & E & Hl).
  exists h', m'. split; [exact E|]. specialize (Hl 0 ltac:(lia)).
  split.
  - etransitivity; [exact (Hl 2 ltac:(vm_compute; split; congruence)) | reflexivity].
  - etransitivity; [exact (Hl 15 ltac:(vm_compute; split; congruence)) | reflexivity].
Defined.
