(* ===== verification/Block.v ===== *)
(** What the buffer cache promises to the file system: a disk of 512-byte
    blocks, read into and written from buffers that the caller holds between
    [bread] and [brelse]. *)
From S2P Require Import Prelude Ports Ide.

(** A held buffer: its block, how many times it is held, its contents. *)
Record hbuf := mk_hbuf { h_dev : Z; h_bno : Z; h_cnt : Z; h_data : list Z }.
Definition disk := Z → Z → list Z.
Abbreviation held := (gmap nat hbuf).

(** The blocks the cache serves: two disks of [2^28] sectors, less the block
    that the fields of an unused buffer name. *)
Definition block_ok (dev bno : Z) : Prop :=
  0 ≤ dev < 2 ∧ 0 ≤ bno < 2 ^ 28 ∧ (dev, bno) ≠ (0, 0).

#[export] Instance block_ok_dec dev bno : Decision (block_ok dev bno).
Proof. unfold block_ok. apply _. Defined.

(** How many buffers a caller can hold at once. *)
Definition NHELD : nat := 30.

(** The operations: [bread], [b->data], a store to [b->data], [bwrite],
    [brelse]. *)
Class BlockOps (S : Type) := {
  bl_read : S → Z → Z → res (S * nat);
  bl_data : S → nat → list Z;
  bl_set : S → nat → list Z → S;
  bl_write : S → nat → res S;
  bl_release : S → nat → S
}.

(** [bl_rep s d h]: the disk is [d] and the caller holds [h]. *)
Class BlockLayer (S : Type) `{BlockOps S} := {
  bl_rep : S → disk → held → Prop;
  bl_sector : ∀ s d h dev bno,
    bl_rep s d h → block_ok dev bno → length (d dev bno) = 512%nat;
  bl_data_rep : ∀ s d h i x,
    bl_rep s d h → h !! i = Some x → bl_data s i = h_data x ∧ length (h_data x) = 512%nat;
  bl_read_rep : ∀ s d h dev bno,
    bl_rep s d h → block_ok dev bno → (size h < NHELD)%nat →
    (∀ i x, h !! i = Some x → (h_dev x, h_bno x) ≠ (dev, bno)) →
    ∃ s' i, bl_read s dev bno = Ok (s', i) ∧ h !! i = None ∧
      bl_rep s' d (<[i := mk_hbuf dev bno 1 (d dev bno)]> h);
  bl_read_again : ∀ s d h dev bno i x,
    bl_rep s d h → h !! i = Some x → (h_dev x, h_bno x) = (dev, bno) → h_cnt x < 2 ^ 31 →
    ∃ s', bl_read s dev bno = Ok (s', i) ∧
      bl_rep s' d (<[i := mk_hbuf dev bno (h_cnt x + 1) (h_data x)]> h);
  bl_set_rep : ∀ s d h i x data,
    bl_rep s d h → h !! i = Some x → length data = 512%nat →
    bl_rep (bl_set s i data) d (<[i := mk_hbuf (h_dev x) (h_bno x) (h_cnt x) data]> h);
  bl_write_rep : ∀ s d h i x,
    bl_rep s d h → h !! i = Some x →
    ∃ s', bl_write s i = Ok s' ∧ bl_rep s' (disk_set d (h_dev x) (h_bno x) (h_data x)) h;
  bl_release_rep : ∀ s d h i x,
    bl_rep s d h → h !! i = Some x → h_cnt x = 1 → h_data x = d (h_dev x) (h_bno x) →
    bl_rep (bl_release s i) d (delete i h);
  bl_release_again : ∀ s d h i x,
    bl_rep s d h → h !! i = Some x → 1 < h_cnt x →
    bl_rep (bl_release s i) d (<[i := mk_hbuf (h_dev x) (h_bno x) (h_cnt x - 1) (h_data x)]> h)
}.
