(* ===== verification/Bio.v ===== *)
(** fs/bio.c: the buffer cache, a fixed array of buffers kept on a doubly
    linked ring in the order of last use. *)
From S2P Require Import Prelude Ports Ide Block.

(** The buffers are [0 .. NBUF); [bcache.head] is the element [NBUF]. *)
Definition NBUF : nat := 30.
Definition HEAD : nat := NBUF.

Section bio.
Context {hw : Type} `{PortIO hw}.
Implicit Types (st : disk_st hw).

(** Linking [b] in behind the head. *)
Definition link_front st (b : nat) : disk_st hw :=
let st := upd_buf st b (λ x, set_next x (b_next (bufp st HEAD))) in
let st := upd_buf st b (λ x, set_prev x HEAD) in
let st := upd_buf st (b_next (bufp st HEAD)) (λ x, set_prev x b) in
upd_buf st HEAD (λ x, set_next x b).

(** [for(b = bcache.buf; b < bcache.buf+NBUF; b++)], [n] buffers left. *)
Fixpoint binit_loop st (b n : nat) : disk_st hw :=
match n with
| O => st
| S n' => binit_loop (link_front st b) (S b) n'
end.

Definition binit st : disk_st hw :=
let st := upd_buf st HEAD (λ x, set_prev x HEAD) in
let st := upd_buf st HEAD (λ x, set_next x HEAD) in
binit_loop st 0 NBUF.

(** The two searches of [bget], forward for the block, backward for a buffer
  to recycle. *)
Definition find_forward st (P : buf → bool) : res (option nat) :=
while (2 ^ 32)
  (λ b, Ok (if decide (b = HEAD) then inr None
            else if P (bufp st b) then inr (Some b) else inl (b_next (bufp st b))))
  (b_next (bufp st HEAD)).

Definition find_backward st (P : buf → bool) : res (option nat) :=
while (2 ^ 32)
  (λ b, Ok (if decide (b = HEAD) then inr None
            else if P (bufp st b) then inr (Some b) else inl (b_prev (bufp st b))))
  (b_prev (bufp st HEAD)).

Definition has_key (dev blockno : Z) (b : buf) : bool :=
(b_dev b =? dev) && (b_blockno b =? blockno).
Definition recyclable (b : buf) : bool :=
(b_refcnt b =? 0) && (Z.land (b_flags b) B_DIRTY =? 0).

Definition bget st (dev blockno : Z) : res (disk_st hw * option nat) :=
let* r := find_forward st (has_key dev blockno) in
match r with
| Some b => Ok (upd_buf st b (λ x, set_refcnt x (u32 (b_refcnt x + 1))), Some b)
| None =>
    let* r := find_backward st recyclable in
    match r with
    | Some b =>
        let st := upd_buf st b (λ x, set_key x dev blockno) in
        let st := upd_buf st b (λ x, set_flags x 0) in
        Ok (upd_buf st b (λ x, set_refcnt x 1), Some b)
    | None => Ok (dprint st "bget: no buffers", None)
    end
end.

Definition bread st (dev blockno : Z) : res (disk_st hw * nat) :=
let* r := bget st dev blockno in
let '(st, b) := r in
match b with
| None => Fault
| Some b =>
    if Z.land (b_flags (bufp st b)) B_VALID =? 0
    then let* st := iderw st b in Ok (st, b)
    else Ok (st, b)
end.

Definition bwrite st (b : nat) : res (disk_st hw) :=
iderw (upd_buf st b (λ x, set_flags x (Z.lor (b_flags x) B_DIRTY))) b.

Definition unlink st (b : nat) : disk_st hw :=
let st := upd_buf st (b_next (bufp st b)) (λ x, set_prev x (b_prev (bufp st b))) in
upd_buf st (b_prev (bufp st b)) (λ x, set_next x (b_next (bufp st b))).

Definition brelse st (b : nat) : disk_st hw :=
let st := upd_buf st b (λ x, set_refcnt x (u32 (b_refcnt x - 1))) in
if b_refcnt (bufp st b) =? 0 then link_front (unlink st b) b else st.
End bio.

(** * The ring *)

Section ring.
Implicit Types (bs : list buf) (l : list nat).

Definition nxt bs (i : nat) : nat := b_next (bs !!! i).
Definition prv bs (i : nat) : nat := b_prev (bs !!! i).
Definition link bs (x y : nat) : Prop := nxt bs x = y ∧ prv bs y = x.

(** From [x], following [next], one meets [l]; [prev] leads back. *)
Fixpoint path bs (x : nat) l : Prop :=
match l with
| [] => True
| y :: l' => link bs x y ∧ path bs y l'
end.

Fixpoint endof (x : nat) l : nat :=
match l with [] => x | y :: l' => endof y l' end.

Definition ring bs l : Prop :=
path bs HEAD (l ++ [HEAD]) ∧ l ≡ₚ seq 0 NBUF ∧ length bs = S NBUF.

Lemma path_app bs x l1 l2 :
path bs x (l1 ++ l2) ↔ path bs x l1 ∧ path bs (endof x l1) l2.
Proof. revert x. induction l1 as [|y l1 IH]; intros x; simpl; [|rewrite IH]; tauto. Qed.

Lemma endof_in x l : endof x l ∈ x :: l.
Proof.
revert x. induction l as [|y l IH]; intros x; simpl; [by left|].
right. apply IH.
Qed.

Lemma endof_snoc x l y : endof x (l ++ [y]) = y.
Proof. revert x. induction l as [|z l IH]; intros x; simpl; auto. Qed.

(** A path only depends on the [next] of its nodes but the last and on the
  [prev] of its nodes but the first. *)
Lemma path_frame bs bs' x l :
(∀ y, y ∈ l → prv bs' y = prv bs y) →
(∀ y, y ∈ x :: l → y ≠ endof x l → nxt bs' y = nxt bs y) →
NoDup (x :: l) → path bs x l → path bs' x l.
Proof.
revert x. induction l as [|y l IH]; intros x Hp Hn Hnd; [done|].
simpl. intros ((E1 & E2) & Hpath). apply NoDup_cons in Hnd as (Hx & Hnd).
split; [split|].
- rewrite Hn; [done | by left |]. intros E. apply Hx. rewrite E. simpl. apply endof_in.
- by rewrite Hp by left.
- apply IH; [| |done|done].
  + intros z Hz. apply Hp. by right.
  + intros z Hz Hne. apply Hn; [by right|done].
Qed.

(** Everything of a buffer but its links. *)
Definition core (b : buf) : buf := set_prev (set_next b 0) 0.
Definition same_cores bs bs' : Prop :=
length bs' = length bs ∧ ∀ j, core (bs' !!! j) = core (bs !!! j).

Lemma lookup_alter_total bs i j (f : buf → buf) :
(i < length bs)%nat →
alter f i bs !!! j = if decide (i = j) then f (bs !!! j) else bs !!! j.
Proof.
intros Hi. rewrite !list_lookup_total_alt, list_lookup_alter.
case_decide as E; [subst|done].
apply lookup_lt_is_Some_2 in Hi as (b & ->). done.
Qed.

Lemma same_cores_refl bs : same_cores bs bs.
Proof. done. Qed.
Lemma same_cores_trans bs1 bs2 bs3 :
same_cores bs1 bs2 → same_cores bs2 bs3 → same_cores bs1 bs3.
Proof. intros (L1 & E1) (L2 & E2). split; [congruence|]. intros j. by rewrite E2, E1. Qed.

Lemma same_cores_alter bs i (f : buf → buf) :
(∀ b, core (f b) = core b) → same_cores bs (alter f i bs).
Proof.
intros Hf. split; [apply length_alter|]. intros j.
destruct (decide (i < length bs)%nat).
- rewrite lookup_alter_total by done. case_decide; auto.
- rewrite !list_lookup_total_alt, list_lookup_alter. case_decide; subst; [|done].
  by rewrite lookup_ge_None_2 by lia.
Qed.

Lemma core_fields b b' :
core b = core b' →
b_flags b = b_flags b' ∧ b_dev b = b_dev b' ∧ b_blockno b = b_blockno b' ∧
b_refcnt b = b_refcnt b' ∧ b_qnext b = b_qnext b' ∧ b_data b = b_data b'.
Proof. unfold core, set_prev, set_next. simpl. intros [= -> -> -> -> -> ->]. done. Qed.

Lemma ring_lt bs l y : ring bs l → y ∈ HEAD :: l → (y < length bs)%nat.
Proof.
intros (_ & Hl & Hlen) [->|Hy]%elem_of_cons; rewrite Hlen; [unfold HEAD; lia|].
rewrite Hl in Hy. apply elem_of_seq in Hy. lia.
Qed.

Lemma ring_nodup bs l : ring bs l → NoDup (HEAD :: l).
Proof.
intros (_ & Hl & _). apply NoDup_cons. split.
- rewrite Hl. rewrite elem_of_seq. unfold HEAD. lia.
- rewrite Hl. apply NoDup_seq.
Qed.

(** Changing fields other than the links keeps the ring. *)
Lemma ring_frame bs bs' l :
length bs' = length bs → (∀ j, nxt bs' j = nxt bs j ∧ prv bs' j = prv bs j) →
ring bs l → ring bs' l.
Proof.
intros Hlen E (Hp & Hl & Hn). split; [|split; [done | congruence]].
clear Hl Hn. revert Hp. generalize HEAD at 1 3. induction (l ++ [HEAD]) as [|y k IH]; [done|].
simpl. intros x ((E1 & E2) & Hp). split; [|auto].
destruct (E x), (E y). split; congruence.
Qed.
End ring.

(** * Moving a buffer to the front *)

Section relink.
Implicit Types (bs : list buf) (l : list nat).

Definition unlink_bs bs (b : nat) : list buf :=
let bs1 := alter (λ x, set_prev x (prv bs b)) (nxt bs b) bs in
alter (λ x, set_next x (nxt bs1 b)) (prv bs1 b) bs1.

Definition link_front_bs bs (b : nat) : list buf :=
let bs := alter (λ x, set_next x (nxt bs HEAD)) b bs in
let bs := alter (λ x, set_prev x HEAD) b bs in
let bs := alter (λ x, set_prev x b) (nxt bs HEAD) bs in
alter (λ x, set_next x b) HEAD bs.

Lemma nxt_alter_next bs i v j :
(i < length bs)%nat →
nxt (alter (λ x, set_next x v) i bs) j = if decide (i = j) then v else nxt bs j.
Proof. intros. unfold nxt. rewrite lookup_alter_total by done. by case_decide. Qed.
Lemma prv_alter_next bs i v j :
(i < length bs)%nat → prv (alter (λ x, set_next x v) i bs) j = prv bs j.
Proof. intros. unfold prv. rewrite lookup_alter_total by done. by case_decide. Qed.
Lemma nxt_alter_prev bs i v j :
(i < length bs)%nat → nxt (alter (λ x, set_prev x v) i bs) j = nxt bs j.
Proof. intros. unfold nxt. rewrite lookup_alter_total by done. by case_decide. Qed.
Lemma prv_alter_prev bs i v j :
(i < length bs)%nat →
prv (alter (λ x, set_prev x v) i bs) j = if decide (i = j) then v else prv bs j.
Proof. intros. unfold prv. rewrite lookup_alter_total by done. by case_decide. Qed.

Lemma unlink_cores bs b : same_cores bs (unlink_bs bs b).
Proof.
unfold unlink_bs. eapply same_cores_trans; apply same_cores_alter; done.
Qed.

Lemma link_front_cores bs b : same_cores bs (link_front_bs bs b).
Proof.
unfold link_front_bs.
do 3 (eapply same_cores_trans; [|apply same_cores_alter; done]).
by apply same_cores_alter.
Qed.

(** A rotation of a list without duplicates. *)
Lemma nodup_snoc (x : nat) l : NoDup (x :: l) → NoDup (l ++ [x]).
Proof. intros Hnd. by rewrite <- Permutation_cons_append. Qed.

Lemma nodup_around (x : nat) l1 b l2 :
NoDup (x :: l1 ++ b :: l2) →
NoDup (x :: l1) ∧ NoDup (l2 ++ [x]) ∧ ¬ (b ∈ l2 ++ [x]) ∧ ¬ (b ∈ x :: l1) ∧
(∀ y, y ∈ l1 → ¬ (y ∈ l2 ++ [x])) ∧ (∀ y, y ∈ x :: l1 → ¬ (y ∈ l2)).
Proof.
change (x :: l1 ++ b :: l2) with ((x :: l1) ++ b :: l2).
intros (H1 & H2 & H3)%NoDup_app. apply NoDup_cons in H3 as (H3 & H4).
assert (∀ y, y ∈ x :: l1 → y ∉ l2) as H5 by (intros y Hy ?; apply (H2 y Hy); by right).
assert (b ∉ x :: l1) as H6 by (intros Hb; apply (H2 b Hb); by left).
split; [done|]. split.
{ apply nodup_snoc, NoDup_cons. split; [|done]. apply H5. by left. }
split.
{ rewrite elem_of_app, list_elem_of_singleton. intros [? | ->]; [done|]. apply H6. by left. }
split; [done|]. split; [|done].
intros y Hy. rewrite elem_of_app, list_elem_of_singleton.
intros [Hy2 | ->]; [by apply (H5 y); [right|]|]. by apply NoDup_cons in H1 as (? & _).
Qed.

Lemma unlink_path bs l1 b l2 :
ring bs (l1 ++ b :: l2) → path (unlink_bs bs b) HEAD ((l1 ++ l2) ++ [HEAD]).
Proof.
intros Hr. destruct (nodup_around _ _ _ _ (ring_nodup _ _ Hr))
  as (Hn1 & Hn2 & Hb2 & Hb1 & H12 & H21).
assert (∀ y, y ∈ HEAD :: l1 ++ b :: l2 → (y < length bs)%nat) as Hlt
  by (intros y; by apply ring_lt).
destruct Hr as (Hp & _). rewrite <- app_assoc in Hp |- *.
apply path_app in Hp as (Hp1 & Hp2). cbn [app path] in Hp2.
destruct Hp2 as ((E1 & E2) & Hp2).
pose proof (endof_in HEAD l1) as Ha. pose proof (endof_snoc (endof HEAD l1) l2 HEAD) as Eend.
destruct (l2 ++ [HEAD]) as [|c S'] eqn:El2; [by destruct l2|].
destruct Hp2 as ((E3 & E4) & Hp2). simpl in Eend.
assert (c ∈ HEAD :: l1 ++ b :: l2) as Hc.
{ assert (c ∈ l2 ++ [HEAD]) as Hc by (rewrite El2; left).
  rewrite elem_of_cons, elem_of_app, elem_of_cons.
  apply elem_of_app in Hc as [? | ->%list_elem_of_singleton]; auto. }
assert (endof HEAD l1 ∈ HEAD :: l1 ++ b :: l2) as Ha'.
{ rewrite elem_of_cons, elem_of_app. apply elem_of_cons in Ha as [?|?]; auto. }
apply Hlt in Hc as Hcl. apply Hlt in Ha' as Hal.
assert (c ≠ b) as Hcb by (intros ->; apply Hb2; left).
assert (∀ j, prv (unlink_bs bs b) j = if decide (c = j) then endof HEAD l1 else prv bs j)
  as Eprv.
{ intros j. unfold unlink_bs. rewrite E3, E2, nxt_alter_prev by done.
  rewrite prv_alter_next by (rewrite length_alter, prv_alter_prev, decide_False, E2; done).
  by rewrite prv_alter_prev. }
assert (∀ j, nxt (unlink_bs bs b) j = if decide (endof HEAD l1 = j) then c else nxt bs j)
  as Enxt.
{ intros j. unfold unlink_bs. rewrite E3, E2, nxt_alter_prev by done.
  rewrite nxt_alter_next by (rewrite length_alter, prv_alter_prev, decide_False, E2; done).
  rewrite prv_alter_prev, (decide_False (P := c = b)), E2, nxt_alter_prev by done.
  by rewrite E3. }
apply path_app. split; [|split; [split|]].
- apply path_frame with bs; [| |done|done].
  + intros y Hy. rewrite Eprv, decide_False; [done|]. intros ->. apply (H12 y Hy). left.
  + intros y Hy Hne. rewrite Enxt, decide_False; [done | congruence].
- by rewrite Enxt, decide_True.
- by rewrite Eprv, decide_True.
- apply path_frame with bs; [| |done|done].
  + intros y Hy. rewrite Eprv, decide_False; [done|].
    apply NoDup_cons in Hn2 as (? & _). congruence.
  + intros y Hy Hne. rewrite Enxt, decide_False; [done|]. rewrite Eend in Hne.
    rewrite <- El2 in Hy. apply elem_of_app in Hy as [Hy | ->%list_elem_of_singleton]; [|done].
    intros <-. by apply (H21 _ Ha).
Qed.

Lemma link_front_path bs l b :
path bs HEAD (l ++ [HEAD]) → NoDup (HEAD :: b :: l) →
(∀ y, y ∈ HEAD :: b :: l → (y < length bs)%nat) →
path (link_front_bs bs b) HEAD ((b :: l) ++ [HEAD]).
Proof.
intros Hp Hnd Hlt. apply NoDup_cons in Hnd as (Hn1 & Hn2).
assert (NoDup (HEAD :: l)) as Hn4.
{ apply NoDup_cons in Hn2 as (? & ?). apply NoDup_cons. split; [|done].
  intros ?. apply Hn1. by right. }
apply NoDup_cons in Hn2 as (Hn2 & Hn3). simpl.
assert (b ≠ HEAD) as HbH by (intros ->; apply Hn1; left).
assert (b ∉ l ++ [HEAD]) as HbS.
{ rewrite elem_of_app, list_elem_of_singleton. tauto. }
assert (∀ y, y ∈ l ++ [HEAD] → (y < length bs)%nat) as Hlt'.
{ intros y [? | ->%list_elem_of_singleton]%elem_of_app; apply Hlt; [right; by right | left]. }
pose proof (nodup_snoc _ _ Hn4) as Hnd2. pose proof (endof_snoc HEAD l HEAD) as Eend.
assert (b < length bs)%nat as Hbl by (apply Hlt; right; left).
assert (HEAD < length bs)%nat as HHl by (apply Hlt; left).
clear Hn1 Hn2 Hn3 Hn4 Hlt.
destruct (l ++ [HEAD]) as [|h S'] eqn:El; [by destruct l|].
destruct Hp as ((E1 & E2) & Hp). simpl in Eend.
assert (h < length bs)%nat as Hhl by (apply Hlt'; left).
assert (b ≠ h) as Hbh by (intros ->; apply HbS; left).
assert (link_front_bs bs b =
  alter (λ x, set_next x b) HEAD (alter (λ x, set_prev x b) h
    (alter (λ x, set_prev x HEAD) b (alter (λ x, set_next x h) b bs)))) as Elf.
{ unfold link_front_bs. cbv zeta.
  rewrite nxt_alter_prev, nxt_alter_next, decide_False by (rewrite ?length_alter; done).
  by rewrite E1. }
assert (∀ j, nxt (link_front_bs bs b) j =
  if decide (HEAD = j) then b else if decide (b = j) then h else nxt bs j) as Enxt.
{ intros j. rewrite Elf, nxt_alter_next, !nxt_alter_prev, nxt_alter_next
    by (rewrite ?length_alter; done). done. }
assert (∀ j, prv (link_front_bs bs b) j =
  if decide (h = j) then b else if decide (b = j) then HEAD else prv bs j) as Eprv.
{ intros j. rewrite Elf, prv_alter_next, !prv_alter_prev, prv_alter_next
    by (rewrite ?length_alter; done). done. }
simpl. split; [split|split; [split|]].
- by rewrite Enxt, decide_True.
- by rewrite Eprv, decide_False, decide_True.
- by rewrite Enxt, decide_False, decide_True.
- by rewrite Eprv, decide_True.
- apply path_frame with bs; [| |done|done].
  + intros y Hy. apply NoDup_cons in Hnd2 as (Hnh & _).
    rewrite Eprv, !decide_False; [done | intros ->; apply HbS; by right | congruence].
  + intros y Hy Hne. rewrite Eend in Hne.
    rewrite Enxt, !decide_False; [done | intros ->; by apply HbS | congruence].
Qed.
End relink.

(** * Searching the ring *)

Section search.
Context {hw : Type} `{PortIO hw}.
Implicit Types (st : disk_st hw) (l : list nat).

(** [l] is what iterating [f] from [x] meets. *)
Fixpoint steps (f : nat → nat) (x : nat) l : Prop :=
match l with [] => True | y :: l' => f x = y ∧ steps f y l' end.

Lemma steps_snoc f x l y : steps f x (l ++ [y]) ↔ steps f x l ∧ f (endof x l) = y.
Proof. revert x. induction l as [|z l IH]; intros x; simpl; [tauto|]. rewrite IH. tauto. Qed.

Lemma path_next bs x l : path bs x l → steps (nxt bs) x l.
Proof. revert x. induction l as [|y l IH]; intros x; simpl; [done|]. intros ((? & _) & ?). auto. Qed.

Lemma path_prev bs x l y : path bs x (l ++ [y]) → steps (prv bs) y (reverse l ++ [x]).
Proof.
revert x. induction l as [|z l IH]; intros x; simpl.
- intros ((_ & ?) & _). done.
- intros ((_ & E) & Hp%IH). rewrite reverse_cons. apply steps_snoc. split; [done|].
  by rewrite endof_snoc.
Qed.

Definition visit (f : nat → nat) (P : nat → bool) (b : nat) : res (nat + option nat) :=
Ok (if decide (b = HEAD) then inr None else if P b then inr (Some b) else inl (f b)).

Lemma visit_find f P x l :
steps f x (l ++ [HEAD]) → HEAD ∉ l → (length l < 1000)%nat →
while (2 ^ 32) (visit f P) (f x) = Ok (List.find P l).
Proof.
intros Hs Hh Hlen.
destruct (while_rel (λ b n, ∃ x l', f x = b ∧ steps f x (l' ++ [HEAD]) ∧ ¬ (HEAD ∈ l') ∧
    length l' = n ∧ List.find P l' = List.find P l)
  (λ r, r = List.find P l) (2 ^ 32) (visit f P) (f x) (length l)) as (r & -> & ->);
  [|by eauto 10 | lia | done].
intros b n (y & l' & <- & Hs' & Hh' & <- & E). unfold visit.
destruct l' as [|z l']; simpl in Hs'; destruct Hs' as (-> & Hs').
- right. rewrite decide_True by done. by eauto.
- apply not_elem_of_cons in Hh' as (Hz & Hh'). rewrite decide_False by done. simpl in E.
  destruct (P z); [right; by rewrite <- E; eauto|].
  left. eexists _, _. split; [done|]. split; [by eauto 10|]. simpl. lia.
Qed.

Lemma find_forward_ring st l P :
ring (bufs st) l → find_forward st P = Ok (List.find (λ i, P (bufp st i)) l).
Proof.
intros Hr. pose proof (ring_nodup _ _ Hr) as (Hh & _)%NoDup_cons.
destruct Hr as (Hp & Hl & _).
apply (visit_find (nxt (bufs st)) (λ i, P (bufp st i)) HEAD l);
  [by apply path_next | done |].
rewrite Hl, length_seq. unfold NBUF. lia.
Qed.

Lemma find_backward_ring st l P :
ring (bufs st) l → find_backward st P = Ok (List.find (λ i, P (bufp st i)) (reverse l)).
Proof.
intros Hr. pose proof (ring_nodup _ _ Hr) as (Hh & _)%NoDup_cons.
destruct Hr as (Hp & Hl & _).
apply (visit_find (prv (bufs st)) (λ i, P (bufp st i)) HEAD (reverse l)).
- by apply path_prev.
- by rewrite elem_of_reverse.
- rewrite length_reverse, Hl, length_seq. unfold NBUF. lia.
Qed.

(** [bget]: the first buffer of the ring with the key, else the last one that
  can be recycled, else the message and a null pointer. *)
Lemma bget_ring st l dev blockno :
ring (bufs st) l →
bget st dev blockno =
  match List.find (λ i, has_key dev blockno (bufp st i)) l with
  | Some b => Ok (upd_buf st b (λ x, set_refcnt x (u32 (b_refcnt x + 1))), Some b)
  | None =>
      match List.find (λ i, recyclable (bufp st i)) (reverse l) with
      | Some b =>
          Ok (upd_buf st b (λ x, set_refcnt (set_flags (set_key x dev blockno) 0) 1), Some b)
      | None => Ok (dprint st "bget: no buffers", None)
      end
  end.
Proof.
intros Hr. unfold bget. rewrite (find_forward_ring st l _ Hr). cbn [rbind].
case_match; [done|]. rewrite (find_backward_ring st l _ Hr). cbn [rbind].
case_match; [|done]. unfold upd_buf. cbn [d_hw bufs idequeue havedisk1 d_log].
by rewrite !alter_alter.
Qed.

(** Releasing: the count goes down, and a buffer that nobody holds moves to
  the front. *)
Lemma brelse_bufs st b :
let bs := alter (λ x, set_refcnt x (u32 (b_refcnt x - 1))) b (bufs st) in
(b < length (bufs st))%nat →
bufs (brelse st b) =
  if u32 (b_refcnt (bufp st b) - 1) =? 0 then link_front_bs (unlink_bs bs b) b else bs.
Proof.
intros bs Hb. unfold brelse. rewrite !bufp_upd_eq by done. cbn [b_refcnt set_refcnt].
by case_match.
Qed.

Lemma relink_ring bs l1 b l2 :
ring bs (l1 ++ b :: l2) → ring (link_front_bs (unlink_bs bs b) b) (b :: l1 ++ l2).
Proof.
intros Hr. destruct (unlink_cores bs b) as (Len & _).
destruct (link_front_cores (unlink_bs bs b) b) as (Len2 & _).
assert (HEAD :: b :: l1 ++ l2 ≡ₚ HEAD :: l1 ++ b :: l2) as HP
  by (by rewrite Permutation_middle).
split; [|split].
- apply link_front_path.
  + by apply unlink_path.
  + rewrite HP. by apply ring_nodup with bs.
  + intros y. rewrite HP, Len. by apply ring_lt.
- destruct Hr as (_ & <- & _). by rewrite Permutation_middle.
- destruct Hr as (_ & _ & <-). congruence.
Qed.

Lemma relink_cores bs b : same_cores bs (link_front_bs (unlink_bs bs b) b).
Proof. eapply same_cores_trans; [apply unlink_cores | apply link_front_cores]. Qed.
End search.

(** * The cache as a block layer *)

Section rep.
Context {hw : Type} `{AtaDrive hw}.
Implicit Types (st : disk_st hw) (d : disk) (h : held).

Definition key (b : buf) : Z * Z := (b_dev b, b_blockno b).

(** A buffer in use holds what its holders see; one that is not is unused
  since boot or caches its block. *)
Definition buf_ok d (b : buf) (o : option hbuf) : Prop :=
length (b_data b) = 512%nat ∧
match o with
| Some x =>
    b_flags b = B_VALID ∧ key b = (h_dev x, h_bno x) ∧ block_ok (h_dev x) (h_bno x) ∧
    b_refcnt b = h_cnt x ∧ 0 < h_cnt x ≤ 2 ^ 31 ∧ b_data b = h_data x
| None =>
    b_refcnt b = 0 ∧
    (b_flags b = 0 ∧ key b = (0, 0) ∨
     b_flags b = B_VALID ∧ block_ok (b_dev b) (b_blockno b) ∧
     b_data b = d (b_dev b) (b_blockno b))
end.

Record bio_rep st d h : Prop := {
br_ring : ∃ l, ring (bufs st) l;
br_queue : idequeue st = None;
br_idle : ata_pending (ata_view (d_hw st)) = AtaIdle;
br_disk : disk_of st = d;
br_sector : ∀ dev bno, block_ok dev bno → length (d dev bno) = 512%nat;
br_buf : ∀ i, (i < NBUF)%nat → buf_ok d (bufp st i) (h !! i);
br_uniq : ∀ i j, (i < NBUF)%nat → (j < NBUF)%nat →
  b_flags (bufp st i) = B_VALID → b_flags (bufp st j) = B_VALID →
  key (bufp st i) = key (bufp st j) → i = j;
br_dom : ∀ i, h !! i ≠ None → (i < NBUF)%nat
}.

Lemma buf_ok_core d b b' o : core b = core b' → buf_ok d b o → buf_ok d b' o.
Proof.
intros (E1 & E2 & E3 & E4 & _ & E6)%core_fields. unfold buf_ok, key.
by rewrite E1, E2, E3, E4, E6.
Qed.

(** Reordering the ring changes nothing for the caller. *)
Lemma rep_cores st st' d h :
bio_rep st d h → same_cores (bufs st) (bufs st') → (∃ l, ring (bufs st') l) →
idequeue st' = idequeue st → d_hw st' = d_hw st → bio_rep st' d h.
Proof.
intros Hr (Hlen & Hc) Hl Eq Eh. destruct Hr as [_ Rq Ri Rd Rs Rb Ru Rm].
assert (∀ i, core (bufp st i) = core (bufp st' i)) as Hcore
  by (intros i; unfold bufp; by rewrite Hc).
split; [done | congruence | congruence | unfold disk_of in *; congruence | done | | | done].
- intros i Hi. eapply buf_ok_core; [apply Hcore|]. auto.
- intros i j Hi Hj. destruct (core_fields _ _ (Hcore i)) as (E1 & E2 & E3 & _).
  destruct (core_fields _ _ (Hcore j)) as (F1 & F2 & F3 & _).
  unfold key. rewrite <- E1, <- E2, <- E3, <- F1, <- F2, <- F3. by apply Ru.
Qed.

(** One buffer changed, and what the caller knows of it. *)
Lemma rep_alter st st' d d' h i f o :
bio_rep st d h → (i < NBUF)%nat →
bufs st' = alter f i (bufs st) → (∀ b, b_next (f b) = b_next b ∧ b_prev (f b) = b_prev b) →
idequeue st' = None → ata_pending (ata_view (d_hw st')) = AtaIdle → disk_of st' = d' →
(∀ dev bno, block_ok dev bno → length (d' dev bno) = 512%nat) →
buf_ok d' (f (bufp st i)) o →
(∀ j, (j < NBUF)%nat → j ≠ i → buf_ok d' (bufp st j) (h !! j)) →
(∀ j, (j < NBUF)%nat → j ≠ i → b_flags (bufp st j) = B_VALID →
   b_flags (f (bufp st i)) = B_VALID → key (bufp st j) ≠ key (f (bufp st i))) →
bio_rep st' d' (partial_alter (λ _, o) i h).
Proof.
intros Hr Hi Eb Hf Eq Ei Ed Hs Ho Hj Hu.
destruct (br_ring _ _ _ Hr) as (l & Hl).
assert (length (bufs st) = S NBUF) as Hlen by apply Hl.
assert (bufp st' i = f (bufp st i)) as Ebi.
{ unfold bufp. rewrite Eb, lookup_alter_total by lia. by rewrite decide_True. }
assert (∀ j, j ≠ i → bufp st' j = bufp st j) as Ebj.
{ intros j Hne. unfold bufp. rewrite Eb, lookup_alter_total by lia. by rewrite decide_False. }
split; [| done | done | done | done | | |].
- exists l. apply ring_frame with (bufs st); [by rewrite Eb, length_alter| |done].
  intros j. unfold nxt, prv. rewrite Eb, lookup_alter_total by lia.
  case_decide; [apply Hf | done].
- intros j Hjn. destruct (decide (j = i)) as [->|Hne].
  + by rewrite lookup_partial_alter_eq, Ebi.
  + rewrite lookup_partial_alter_ne by done. rewrite Ebj by done. auto.
- intros j k Hjn Hk.
  destruct (decide (j = i)) as [->|Hne], (decide (k = i)) as [->|Hne2];
    rewrite ?Ebi, ?Ebj by done; intros ? ? E; [done | | |].
  + by destruct (Hu k).
  + by destruct (Hu j).
  + by apply (br_uniq _ _ _ Hr).
- intros j. destruct (decide (j = i)) as [->|Hne]; [done|].
  rewrite lookup_partial_alter_ne by done. apply (br_dom _ _ _ Hr).
Qed.
End rep.

Section ops.
Context {hw : Type} `{AtaDrive hw}.
Implicit Types (st : disk_st hw) (d : disk) (h : held).

Definition key_of (x : hbuf) : Z * Z := (h_dev x, h_bno x).

Lemma has_key_spec dev bno b : has_key dev bno b = true ↔ key b = (dev, bno).
Proof.
unfold has_key, key. rewrite andb_true_iff, !Z.eqb_eq.
split; [intros (-> & ->) | intros [= -> ->]]; done.
Qed.

Lemma ring_in bs l i : ring bs l → i ∈ l ↔ (i < NBUF)%nat.
Proof. intros (_ & -> & _). rewrite elem_of_seq. lia. Qed.

Lemma rep_bufs st d h : bio_rep st d h → length (bufs st) = S NBUF.
Proof. intros Hr. destruct (br_ring _ _ _ Hr) as (l & _ & _ & ?). done. Qed.

Lemma rep_upd st d h i f o :
bio_rep st d h → (i < NBUF)%nat → (∀ b, b_next (f b) = b_next b ∧ b_prev (f b) = b_prev b) →
buf_ok d (f (bufp st i)) o →
(∀ j, (j < NBUF)%nat → j ≠ i → b_flags (bufp st j) = B_VALID →
   b_flags (f (bufp st i)) = B_VALID → key (bufp st j) ≠ key (f (bufp st i))) →
bio_rep (upd_buf st i f) d (partial_alter (λ _, o) i h).
Proof.
intros Hr Hi Hf Ho Hu. apply rep_alter with st d f; try done; try apply Hr; auto.
intros j Hj _. by apply (br_buf _ _ _ Hr).
Qed.

(** Changes that keep the key and the validity of a buffer. *)
Lemma rep_upd_same st d h i f o :
bio_rep st d h → (i < NBUF)%nat → (∀ b, b_next (f b) = b_next b ∧ b_prev (f b) = b_prev b) →
(∀ b, key (f b) = key b ∧ b_flags (f b) = b_flags b) →
buf_ok d (f (bufp st i)) o →
bio_rep (upd_buf st i f) d (partial_alter (λ _, o) i h).
Proof.
intros Hr Hi Hf Hk Ho. apply rep_upd; try done.
destruct (Hk (bufp st i)) as (-> & ->). intros j Hj Hne Hv Hv2 E. apply Hne.
by apply (br_uniq _ _ _ Hr).
Qed.

Lemma set_rep st d h i x data :
bio_rep st d h → h !! i = Some x → length data = 512%nat →
bio_rep (upd_buf st i (λ b, set_data b data)) d
  (<[i := mk_hbuf (h_dev x) (h_bno x) (h_cnt x) data]> h).
Proof.
intros Hr Hx Hlen. assert (i < NBUF)%nat as Hi by (apply (br_dom _ _ _ Hr); by rewrite Hx).
apply rep_upd_same; try done. pose proof (br_buf _ _ _ Hr i Hi) as Hb.
rewrite Hx in Hb. destruct Hb as (_ & Hb). split; [done|]. cbn. tauto.
Qed.

Lemma rep_data st d h i x :
bio_rep st d h → h !! i = Some x →
b_data (bufp st i) = h_data x ∧ length (h_data x) = 512%nat.
Proof.
intros Hr Hx. pose proof (br_buf _ _ _ Hr i) as Hb. rewrite Hx in Hb.
destruct Hb as (Hl & _ & _ & _ & _ & _ & Hd); [apply (br_dom _ _ _ Hr); by rewrite Hx|].
by rewrite <- Hd.
Qed.

Lemma find_key_held st d h i x l :
bio_rep st d h → ring (bufs st) l → h !! i = Some x →
List.find (λ i, has_key (h_dev x) (h_bno x) (bufp st i)) l = Some i.
Proof.
intros Hr Hl Hx. assert (i < NBUF)%nat as Hi by (apply (br_dom _ _ _ Hr); by rewrite Hx).
pose proof (br_buf _ _ _ Hr i Hi) as Hb. rewrite Hx in Hb.
destruct Hb as (_ & Hv & Hk & Hok & _).
destruct (List.find _ l) as [j|] eqn:E.
- apply List.find_some in E as (Hj & E). apply list_elem_of_In in Hj.
  apply (ring_in _ _ _ Hl) in Hj. apply has_key_spec in E. f_equal. symmetry.
  apply (br_uniq _ _ _ Hr); [done | done | done | | congruence].
  pose proof (br_buf _ _ _ Hr j Hj) as (_ & Hb). case_match; [apply Hb|].
  destruct Hb as (_ & [(_ & E0) | (Hvj & _)]); [|done].
  destruct Hok as (_ & _ & Hne). congruence.
- exfalso. assert (In i l) as Hin by (apply list_elem_of_In; by apply (ring_in _ _ _ Hl)).
  pose proof (List.find_none _ _ E i Hin) as Hf. cbn beta in Hf.
  by rewrite (proj2 (has_key_spec _ _ _) Hk) in Hf.
Qed.

Lemma read_held st d h i x :
bio_rep st d h → h !! i = Some x → h_cnt x < 2 ^ 31 →
∃ st', bread st (h_dev x) (h_bno x) = Ok (st', i) ∧
  bio_rep st' d (<[i := mk_hbuf (h_dev x) (h_bno x) (h_cnt x + 1) (h_data x)]> h).
Proof.
intros Hr Hx Hc. assert (i < NBUF)%nat as Hi by (apply (br_dom _ _ _ Hr); by rewrite Hx).
pose proof (rep_bufs _ _ _ Hr) as Hlen.
destruct (br_ring _ _ _ Hr) as (l & Hl). unfold bread. rewrite (bget_ring _ l) by done.
rewrite (find_key_held st d h i x l) by done. cbn [rbind].
rewrite bufp_upd_eq by lia. cbn [b_flags set_refcnt].
pose proof (br_buf _ _ _ Hr i Hi) as Hb. rewrite Hx in Hb.
destruct Hb as (Hd & Hv & Hk & Hok & Hn & Hpos & Hdata). rewrite Hv. cbn [Z.land Z.eqb].
eexists; split; [reflexivity|]. apply rep_upd_same; try done.
split; [done|]. cbn. rewrite Hn, u32_small by lia.
do 4 (split; [done|]). split; [lia | done].
Qed.

(** A block that nobody holds: the buffer found or recycled, before the
  transfer. *)
Lemma find_key_fresh st d h dev bno l i :
bio_rep st d h → block_ok dev bno → (∀ i x, h !! i = Some x → key_of x ≠ (dev, bno)) →
ring (bufs st) l →
List.find (λ i, has_key dev bno (bufp st i)) l = Some i →
(i < NBUF)%nat ∧ h !! i = None ∧ b_flags (bufp st i) = B_VALID ∧ b_refcnt (bufp st i) = 0 ∧
key (bufp st i) = (dev, bno) ∧ b_data (bufp st i) = d dev bno ∧
length (b_data (bufp st i)) = 512%nat.
Proof.
intros Hr Hok Hh Hl (Hin & Hk)%List.find_some.
apply list_elem_of_In, (ring_in _ _ _ Hl) in Hin. apply has_key_spec in Hk.
pose proof (br_buf _ _ _ Hr i Hin) as (Hlen & Hb).
destruct (h !! i) as [x|] eqn:Hx.
{ destruct Hb as (_ & Hkx & _). destruct (Hh i x Hx). unfold key_of. congruence. }
destruct Hb as (Hn & [(_ & E) | (Hv & _ & Hd)]).
{ destruct Hok as (_ & _ & Hne). congruence. }
injection Hk as <- <-. done.
Qed.

Lemma find_recyclable st d h l :
bio_rep st d h → (size h < NHELD)%nat → ring (bufs st) l →
∃ i, List.find (λ i, recyclable (bufp st i)) (reverse l) = Some i ∧
  (i < NBUF)%nat ∧ h !! i = None ∧ length (b_data (bufp st i)) = 512%nat.
Proof.
intros Hr Hsize Hl.
assert (∃ i, (i < NBUF)%nat ∧ h !! i = None) as (j & Hj & Hnone).
{ destruct (decide (Forall (λ i, is_Some (h !! i)) (seq 0 NBUF))) as [Hall|Hex].
  - exfalso. assert (NBUF ≤ size h)%nat; [|unfold NHELD, NBUF in *; lia].
    rewrite <- (size_dom (D := gset nat)).
    replace NBUF with (size (set_seq 0 NBUF : gset nat)) by apply size_set_seq.
    apply subseteq_size. intros i Hi. apply elem_of_set_seq in Hi.
    apply elem_of_dom. apply (proj1 (Forall_forall _ _) Hall), elem_of_seq. done.
  - apply not_Forall_Exists in Hex; [|apply _].
    apply Exists_exists in Hex as (j & Hj & Hn). exists j.
    apply elem_of_seq in Hj. split; [lia|]. by apply eq_None_not_Some. }
assert (∀ i, (i < NBUF)%nat → recyclable (bufp st i) = true ↔ h !! i = None) as Hrec.
{ intros i Hi. pose proof (br_buf _ _ _ Hr i Hi) as (_ & Hb). unfold recyclable.
  rewrite andb_true_iff, !Z.eqb_eq. destruct (h !! i) as [x|].
  - destruct Hb as (_ & _ & _ & -> & Hpos & _). split; [lia | done].
  - split; [done|]. intros _. destruct Hb as (-> & [(-> & _) | (-> & _)]); done. }
destruct (List.find _ (reverse l)) as [i|] eqn:E.
- apply List.find_some in E as (Hin & E).
  apply list_elem_of_In, elem_of_reverse, (ring_in _ _ _ Hl) in Hin.
  exists i. split; [done|]. split; [done|]. split; [by apply Hrec|].
  apply (br_buf _ _ _ Hr i Hin).
- exfalso. assert (In j (reverse l)) as Hin.
  { apply list_elem_of_In, elem_of_reverse. by apply (ring_in _ _ _ Hl). }
  pose proof (List.find_none _ _ E j Hin) as Hf. cbn beta in Hf.
  by rewrite (proj2 (Hrec j Hj)) in Hf.
Qed.

Lemma read_fresh st d h dev bno :
bio_rep st d h → block_ok dev bno → (size h < NHELD)%nat →
(∀ i x, h !! i = Some x → key_of x ≠ (dev, bno)) →
∃ st' i, bread st dev bno = Ok (st', i) ∧ h !! i = None ∧
  bio_rep st' d (<[i := mk_hbuf dev bno 1 (d dev bno)]> h).
Proof.
intros Hr Hok Hsize Hh. pose proof (rep_bufs _ _ _ Hr) as Hlen.
destruct (br_ring _ _ _ Hr) as (l & Hl). unfold bread. rewrite (bget_ring _ l) by done.
destruct (List.find (λ i, has_key dev bno (bufp st i)) l) as [i|] eqn:E; cbn [rbind].
- destruct (find_key_fresh st d h dev bno l i) as (Hi & Hx & Hv & Hn & Hk & Hd & Hdl); try done.
  rewrite bufp_upd_eq by lia. cbn [b_flags set_refcnt]. rewrite Hv. cbn [Z.land Z.eqb].
  eexists _, i; split; [reflexivity|]. split; [done|]. apply rep_upd_same; try done.
  split; [done|]. cbn. rewrite Hn. done.
- destruct (find_recyclable st d h l) as (i & -> & Hi & Hx & Hdl); [done..|].
  cbn [rbind]. set (st1 := upd_buf st i _).
  assert (bufp st1 i = set_refcnt (set_flags (set_key (bufp st i) dev bno) 0) 1) as Eb
    by (unfold st1; by rewrite bufp_upd_eq by lia).
  rewrite Eb. cbn [b_flags set_refcnt set_flags Z.land Z.eqb].
  destruct Hok as (Hdev & Hbno & Hne).
  destruct (iderw_read st1 i) as (st2 & -> & [Eb2 Eq2 _ Ei2 Ed2]);
    [unfold st1, upd_buf; cbn [bufs]; rewrite length_alter; lia | apply Hr
    | rewrite Eb; done | rewrite Eb; done|].
  cbn [rbind]. eexists _, i; split; [reflexivity|]. split; [done|].
  assert (disk_of st1 = d) as Ed1 by (rewrite <- (br_disk _ _ _ Hr); done).
  rewrite Ed1 in Eb2, Ed2. rewrite Eb in Eb2. unfold drive_of in Eb2. cbn [b_dev b_blockno set_refcnt set_flags set_key] in Eb2.
  replace (Z.land dev 1) with dev in Eb2
    by (change 1 with (2 ^ 1 - 1); rewrite land_ones_mod by lia; zlia).
  unfold st1, upd_buf in Eb2. cbn [bufs] in Eb2. rewrite alter_alter in Eb2.
  eapply rep_alter; [exact Hr | exact Hi | exact Eb2 | done | done | done | done | | | |].
  + apply Hr.
  + split; cbn; [apply (br_sector _ _ _ Hr); done|]. unfold block_ok. auto 10 with lia.
  + intros j Hj _. by apply (br_buf _ _ _ Hr).
  + intros j Hj Hne2 _ _. cbn. intros Ek.
    assert (In j l) as Hin by (apply list_elem_of_In; by apply (ring_in _ _ _ Hl)).
    pose proof (List.find_none _ _ E j Hin) as Hf. cbn beta in Hf.
    by rewrite (proj2 (has_key_spec dev bno _) Ek) in Hf.
Qed.

Lemma write_rep st d h i x :
bio_rep st d h → h !! i = Some x →
∃ st', bwrite st i = Ok st' ∧
  bio_rep st' (disk_set d (h_dev x) (h_bno x) (h_data x)) h.
Proof.
intros Hr Hx. assert (i < NBUF)%nat as Hi by (apply (br_dom _ _ _ Hr); by rewrite Hx).
pose proof (rep_bufs _ _ _ Hr) as Hlen.
pose proof (br_buf _ _ _ Hr i Hi) as Hb. rewrite Hx in Hb.
destruct Hb as (Hdl & Hv & Hk & Hok & Hn & Hpos & Hdata). injection Hk as Ek1 Ek2.
unfold bwrite. set (st1 := upd_buf st i _).
assert (bufp st1 i = set_flags (bufp st i) (Z.lor B_VALID B_DIRTY)) as Eb
  by (unfold st1; rewrite bufp_upd_eq by lia; by rewrite Hv).
destruct (iderw_write st1 i) as (st2 & -> & [Eb2 Eq2 _ Ei2 Ed2]);
  rewrite ?Eb; cbn [b_blockno b_flags set_flags b_data]; rewrite ?Ek2; try done;
  [unfold st1, upd_buf; cbn [bufs]; rewrite length_alter; lia | apply Hr | apply Hok
  | apply Hr |].
eexists; split; [reflexivity|].
assert (disk_of st1 = d) as Ed1 by (rewrite <- (br_disk _ _ _ Hr); done).
rewrite Ed1, Eb in Ed2. unfold drive_of in Ed2. cbn [b_dev b_blockno b_data set_flags] in Ed2.
rewrite Ek1, Ek2, Hdata in Ed2.
replace (Z.land (h_dev x) 1) with (h_dev x) in Ed2
  by (destruct Hok; change 1 with (2 ^ 1 - 1); rewrite land_ones_mod by lia; zlia).
unfold st1, upd_buf in Eb2. cbn [bufs] in Eb2. rewrite alter_alter in Eb2.
rewrite <- (insert_id h i x Hx).
eapply rep_alter; [exact Hr | exact Hi | exact Eb2 | done | done | done | exact Ed2 | | | |].
- intros dev bno Hok2. unfold disk_set. case_decide; [congruence | by apply (br_sector _ _ _ Hr)].
- split; cbn; [done|]. unfold key. cbn. rewrite Ek1, Ek2. auto 10.
- intros j Hj Hne. pose proof (br_buf _ _ _ Hr j Hj) as (Hlj & Hbj).
  split; [done|]. destruct (h !! j) as [y|]; [done|].
  destruct Hbj as (? & [? | (Hvj & Hokj & Hdj)]); split; auto.
  right. split; [done|]. split; [done|]. unfold disk_set. rewrite decide_False; [done|].
  intros (E1 & E2). apply Hne. apply (br_uniq _ _ _ Hr); try done.
  unfold key. congruence.
- intros j Hj Hne Hvj _ E. apply Hne. by apply (br_uniq _ _ _ Hr).
Qed.

Lemma release_rep st d h i x :
bio_rep st d h → h !! i = Some x → (h_cnt x = 1 → h_data x = d (h_dev x) (h_bno x)) →
bio_rep (brelse st i) d
  (if h_cnt x =? 1 then delete i h
   else <[i := mk_hbuf (h_dev x) (h_bno x) (h_cnt x - 1) (h_data x)]> h).
Proof.
intros Hr Hx Hd. assert (i < NBUF)%nat as Hi by (apply (br_dom _ _ _ Hr); by rewrite Hx).
pose proof (rep_bufs _ _ _ Hr) as Hlen.
pose proof (br_buf _ _ _ Hr i Hi) as Hb. rewrite Hx in Hb.
destruct Hb as (Hdl & Hv & Hk & Hok & Hn & Hpos & Hdata). injection Hk as Ek1 Ek2.
set (st1 := upd_buf st i (λ x, set_refcnt x (u32 (b_refcnt x - 1)))).
assert (bio_rep st1 d (if h_cnt x =? 1 then delete i h else
  <[i := mk_hbuf (h_dev x) (h_bno x) (h_cnt x - 1) (h_data x)]> h)) as Hr1.
{ assert (u32 (b_refcnt (bufp st i) - 1) = h_cnt x - 1) as E by (rewrite Hn, u32_small; lia).
  destruct (Z.eqb_spec (h_cnt x) 1) as [E1|E1]; apply rep_upd_same; try done.
  - split; [done|]. cbn. rewrite E, Hv, Ek1, Ek2, Hdata. split; [lia|]. auto.
  - split; [done|]. unfold key. cbn. rewrite E, Ek1, Ek2.
    do 4 (split; [done|]). split; [lia | done]. }
unfold brelse. fold st1. destruct (b_refcnt (bufp st1 i) =? 0); [|done].
apply rep_cores with st1; [done | exact (relink_cores (bufs st1) i) | | done | done].
destruct (br_ring _ _ _ Hr1) as (l & Hl).
pose proof Hi as Hin. apply (ring_in _ _ _ Hl), list_elem_of_split in Hin as (l1 & l2 & ->).
exists (i :: l1 ++ l2). exact (relink_ring (bufs st1) l1 i l2 Hl).
Qed.
End ops.

(** * The instance, and the cache after boot *)

#[export] Instance bio_ops {hw : Type} `{PortIO hw} : BlockOps (disk_st hw) :=
  { bl_read := bread;
    bl_data := λ st i, b_data (bufp st i);
    bl_set := λ st i data, upd_buf st i (λ b, set_data b data);
    bl_write := bwrite;
    bl_release := brelse }.

#[export] Instance bio_layer {hw : Type} `{AtaDrive hw} : BlockLayer (disk_st hw).
Proof.
  refine {| bl_rep := bio_rep |}; cbn [bl_read bl_data bl_set bl_write bl_release bio_ops].
  - intros st d h dev bno Hr. apply (br_sector _ _ _ Hr).
  - exact rep_data.
  - exact read_fresh.
  - intros st d h dev bno i x Hr Hx [= <- <-]. by apply read_held.
  - exact set_rep.
  - exact write_rep.
  - intros st d h i x Hr Hx Hc Hd. pose proof (release_rep st d h i x Hr Hx (λ _, Hd)) as E.
    by rewrite Hc in E.
  - intros st d h i x Hr Hx Hc. pose proof (release_rep st d h i x Hr Hx) as E.
    rewrite (proj2 (Z.eqb_neq _ _)) in E by lia. apply E. lia.
Defined.

Section boot.
Context {hw : Type} `{AtaDrive hw}.
Implicit Types (st : disk_st hw).

(** The driver's variables before [main] runs. *)
Definition zero_buf : buf := mk_buf 0 0 0 0 0 0 None (replicate 512 0).
Definition boot_disk (h : hw) : disk_st hw := mk_disk h (replicate 31 zero_buf) None false [].

Lemma link_front_ring_partial st l b :
path (bufs st) HEAD (l ++ [HEAD]) → l ≡ₚ seq 0 b → (b < NBUF)%nat →
length (bufs st) = S NBUF →
path (bufs (link_front st b)) HEAD ((b :: l) ++ [HEAD]).
Proof.
intros Hp Hl Hb Hlen. apply (link_front_path (bufs st)); [done | |].
- rewrite Hl. apply NoDup_cons. rewrite elem_of_cons, elem_of_seq.
  split; [unfold HEAD; lia|]. apply NoDup_cons. rewrite elem_of_seq.
  split; [lia | apply NoDup_seq].
- intros y. rewrite Hl, !elem_of_cons, elem_of_seq, Hlen. unfold HEAD. lia.
Qed.

Lemma binit_loop_spec n b st l :
path (bufs st) HEAD (l ++ [HEAD]) → l ≡ₚ seq 0 b → (b + n)%nat = NBUF →
length (bufs st) = S NBUF →
let st' := binit_loop st b n in
(∃ l', ring (bufs st') l') ∧ same_cores (bufs st) (bufs st') ∧
idequeue st' = idequeue st ∧ d_hw st' = d_hw st.
Proof.
revert b st l. induction n as [|n IH]; intros b st l Hp Hl Hb Hlen; cbn [binit_loop].
- split; [|done]. exists l. replace b with NBUF in Hl by lia. done.
- pose proof (link_front_cores (bufs st) b) as Hc.
  change (link_front_bs (bufs st) b) with (bufs (link_front st b)) in Hc.
  destruct (IH (S b) (link_front st b) (b :: l)) as (H1 & H2 & H3 & H4).
  + apply link_front_ring_partial; [done | done | lia | done].
  + rewrite Hl, seq_S. simpl. by rewrite Permutation_cons_append.
  + lia.
  + destruct Hc as (-> & _). done.
  + split; [done|]. split; [by eapply same_cores_trans|]. done.
Qed.

(** After [binit] the cache represents the drive's disk and nothing is held. *)
Lemma binit_rep h :
ata_pending (ata_view h) = AtaIdle →
(∀ dev bno, block_ok dev bno → length (platter (ata_view h) dev bno) = 512%nat) →
bio_rep (binit (boot_disk h)) (platter (ata_view h)) ∅.
Proof.
intros Hi Hs. unfold binit.
set (st := upd_buf (upd_buf (boot_disk h) _ _) _ _).
destruct (binit_loop_spec NBUF 0 st []) as (H1 & (H2l & H2) & H3 & H4); [done..|].
assert (∀ i, core (bufp (binit_loop st 0 NBUF) i) = core zero_buf ∨ (NBUF < i)%nat) as Hcore.
{ intros i. unfold bufp. rewrite H2. destruct (decide (NBUF < i)%nat); [by right | left].
  unfold NBUF in *. do 31 (destruct i as [|i]; [done|]). lia. }
split; [exact H1 | by rewrite H3 | by rewrite H4 | | exact Hs | | |].
- unfold disk_of. by rewrite H4.
- intros i Hi2. rewrite lookup_empty. destruct (Hcore i) as [E|]; [|lia].
  apply (buf_ok_core _ zero_buf); [done|]. split; [reflexivity|]. split; [reflexivity|].
  left. split; reflexivity.
- intros i j Hi2 _ Hv. destruct (Hcore i) as [E|]; [|lia].
  apply core_fields in E as (E & _). rewrite E in Hv. discriminate Hv.
- intros i []. apply lookup_empty.
Qed.
End boot.

(** * Properties *)

Section bio_properties.
Context {hw : Type} `{AtaDrive hw}.
Implicit Types (st : disk_st hw) (d : disk) (h : held).

(** C27. The cache implements a disk of blocks: after [binit] it represents
  the drive's contents with nothing held. *)
Theorem binit_represents (x : hw) :
ata_pending (ata_view x) = AtaIdle →
(∀ dev bno, block_ok dev bno → length (platter (ata_view x) dev bno) = 512%nat) →
bio_rep (binit (boot_disk x)) (platter (ata_view x)) ∅.
Proof. apply binit_rep. Qed.

(** C13. [bread] of a block that is not held, with a buffer left, terminates
  and returns a free buffer that now holds the block's contents, whether
  it was cached or had to be read into a recycled buffer; what the other
  held buffers hold and the disk are unchanged. *)
Theorem bread_refines st d h dev bno :
bio_rep st d h → block_ok dev bno → (size h < NHELD)%nat →
(∀ i x, h !! i = Some x → key_of x ≠ (dev, bno)) →
∃ st' i, bread st dev bno = Ok (st', i) ∧ h !! i = None ∧ b_data (bufp st' i) = d dev bno ∧
  bio_rep st' d (<[i := mk_hbuf dev bno 1 (d dev bno)]> h).
Proof.
intros Hr Hok Hs Hh. destruct (read_fresh st d h dev bno Hr Hok Hs Hh) as (st' & i & E & Hi & Hr').
exists st', i. split; [done|]. split; [done|]. split; [|done].
destruct (rep_data st' d _ i (mk_hbuf dev bno 1 (d dev bno)) Hr') as (Hd & _);
  [by rewrite lookup_insert_eq | exact Hd].
Qed.

(** C26. [bwrite] and [brelse] of a held buffer: the block gets the buffer's
  contents on the disk, and after the release nothing is held for it. *)
Theorem bwrite_brelse_refine st d h i x :
bio_rep st d h → h !! i = Some x → h_cnt x = 1 →
∃ st', bwrite st i = Ok st' ∧
  let d' := disk_set d (h_dev x) (h_bno x) (h_data x) in
  bio_rep st' d' h ∧ disk_of st' = d' ∧ bio_rep (brelse st' i) d' (delete i h).
Proof.
intros Hr Hx Hc. destruct (write_rep st d h i x Hr Hx) as (st' & E & Hr').
exists st'. split; [done|]. split; [done|]. split; [apply Hr'|].
pose proof (release_rep st' _ h i x Hr' Hx) as Hrel. rewrite Hc in Hrel. apply Hrel.
intros _. unfold disk_set. by rewrite decide_True.
Qed.

(** C37. The ring is kept in the order of use: [brelse] by the last holder
  moves the buffer to the front and keeps the order of the others, and
  [bget] of a block that is not cached recycles the last buffer of the ring
  that nobody holds and that is not dirty. *)
Theorem brelse_bget_lru st l1 b l2 dev bno :
ring (bufs st) (l1 ++ b :: l2) → b_refcnt (bufp st b) = 1 →
let st1 := brelse st b in
let l := b :: l1 ++ l2 in
ring (bufs st1) l ∧
(List.find (λ i, has_key dev bno (bufp st1 i)) l = None →
 bget st1 dev bno =
   match List.find (λ i, recyclable (bufp st1 i)) (reverse l) with
   | Some i => Ok (upd_buf st1 i (λ x, set_refcnt (set_flags (set_key x dev bno) 0) 1), Some i)
   | None => Ok (dprint st1 "bget: no buffers", None)
   end).
Proof.
intros Hr Hc st1 l.
assert (ring (bufs st1) l) as Hr1.
{ unfold st1, l. rewrite brelse_bufs
    by (apply (ring_lt _ _ _ Hr); right; apply elem_of_app; right; left).
  rewrite Hc. apply relink_ring. apply ring_frame with (bufs st); [apply length_alter| |done].
  intros j. unfold nxt, prv. rewrite lookup_alter_total
    by (apply (ring_lt _ _ _ Hr); right; apply elem_of_app; right; left).
  by case_decide. }
split; [done|]. intros Hf. by rewrite (bget_ring st1 l dev bno Hr1), Hf.
Qed.
End bio_properties.

(** The cache on the concrete drive, every sector holding its own number. *)
Definition bio0 : disk_st ata := binit (boot_disk (sim_disk (λ d b, replicate 512 (u8 b)))).

Lemma binit_represents_witness :
  bio_rep bio0 (λ d b, replicate 512 (u8 b)) ∅.
Proof.
  pose proof (binit_represents (sim_disk (λ d b, replicate 512 (u8 b)))) as Hb.
  rewrite sim_platter in Hb. apply Hb; [reflexivity|]. intros. apply length_replicate.
Defined.

Lemma bio0_rep : bio_rep bio0 (λ d b, replicate 512 (u8 b)) ∅.
Proof.
  pose proof (binit_rep (sim_disk (λ d b, replicate 512 (u8 b)))) as Hb.
  rewrite sim_platter in Hb. apply Hb; [reflexivity|]. intros. apply length_replicate.
Qed.

Lemma bread_refines_witness :
  ∃ st' i, bread bio0 1 37 = Ok (st', i) ∧ b_data (bufp st' i) = replicate 512 37.
Proof.
  destruct (bread_refines bio0 _ ∅ 1 37 bio0_rep) as (st' & i & E & _ & Hd & _).
  - by compute_done.
  - rewrite map_size_empty. unfold NHELD. lia.
  - intros i x Hx. by rewrite lookup_empty in Hx.
  - exists st', i. split; [exact E | exact Hd].
Defined.

Lemma bwrite_brelse_refine_witness :
  ∃ st i st', bread bio0 1 37 = Ok (st, i) ∧
    bwrite (upd_buf st i (λ b, set_data b (replicate 512 9))) i = Ok st' ∧
    disk_of st' 1 37 = replicate 512 9.
Proof.
  destruct (read_fresh bio0 _ ∅ 1 37 bio0_rep) as (st & i & E & _ & Hr).
  - by compute_done.
  - rewrite map_size_empty. unfold NHELD. lia.
  - intros i x Hx. by rewrite lookup_empty in Hx.
  - assert (∀ x : hbuf, <[i:=x]> (∅ : held) !! i = Some x) as Hx
      by (intros x; by rewrite lookup_insert_eq).
    pose proof (set_rep st _ _ i _ (replicate 512 9) Hr (Hx _) (length_replicate _ _)) as Hr2.
    rewrite insert_insert_eq in Hr2.
    destruct (bwrite_brelse_refine _ _ _ i _ Hr2 (Hx _) eq_refl) as (st' & E2 & _ & Hd & _).
    exists st, i, st'. split; [exact E|]. split; [exact E2|]. rewrite Hd. reflexivity.
Defined.

Lemma brelse_bget_lru_witness :
  let st := upd_buf bio0 3 (λ b, set_refcnt b 1) in
  ring (bufs (brelse st 3)) (3%nat :: [29; 28; 27; 26; 25; 24; 23; 22; 21; 20; 19; 18; 17; 16; 15; 14;
    13; 12; 11; 10; 9; 8; 7; 6; 5; 4]%nat ++ [2; 1; 0]%nat).
Proof.
  intros st. refine (proj1 (brelse_bget_lru st
    [29; 28; 27; 26; 25; 24; 23; 22; 21; 20; 19; 18; 17; 16; 15; 14;
    13; 12; 11; 10; 9; 8; 7; 6; 5; 4]%nat 3 [2; 1; 0]%nat 1 0 _ _)); [|reflexivity].
  split; [|split].
  - vm_compute. repeat split.
  - apply (bool_decide_unpack _). vm_compute. exact I.
  - reflexivity.
Defined.
