(* ===== verification/FsLayout.v ===== *)
(** include/fs.h, include/file.h, include/stat.h, include/fctl.h: the layout of the file system
    on the disk (super block, inodes, directory entries), as bytes and as
    records. *)
From S2P Require Import Prelude Ide.

Definition ROOTINO : Z := 1.
Definition ROOTDEV : Z := 1.
Definition NINODE : nat := 50.
Definition NDIRECT : Z := 12.
Definition NINDIRECT : Z := BSIZE / 4.
Definition MAXFILE : Z := NDIRECT + NINDIRECT.
Definition NDEV : Z := 10.
Definition IPB : Z := BSIZE / 64.
Definition BPB : Z := BSIZE * 8.
Definition DIRSIZ : nat := 14.
Definition T_DIR : Z := 1.
Definition T_FILE : Z := 2.
Definition T_DEV : Z := 3.

(** include/fctl.h. *)
Definition O_RDONLY : Z := 0x000.
Definition O_WRONLY : Z := 0x001.
Definition O_RDWR : Z := 0x002.
Definition O_CREATE : Z := 0x200.

(** * Little-endian fields *)

(** The [n] bytes of an integer, and the integer of some bytes. *)
Fixpoint le_bytes (n : nat) (x : Z) : list Z :=
  match n with
  | O => []
  | S n' => u8 x :: le_bytes n' (x / 256)
  end.

Fixpoint le_int (bs : list Z) : Z :=
  match bs with
  | [] => 0
  | b :: bs' => b + 256 * le_int bs'
  end.

Definition get16 (bs : list Z) (off : nat) : Z := le_int (slice bs off 2).
Definition get32 (bs : list Z) (off : nat) : Z := le_int (slice bs off 4).
Definition put16 (bs : list Z) (off : nat) (v : Z) : list Z := splice bs off (le_bytes 2 v).
Definition put32 (bs : list Z) (off : nat) (v : Z) : list Z := splice bs off (le_bytes 4 v).

(** * struct superblock *)

Record superblock := mk_sb {
  sb_size : Z; sb_nblocks : Z; sb_ninodes : Z; sb_nlog : Z;
  sb_logstart : Z; sb_inodestart : Z; sb_bmapstart : Z
}.

(** [memmove(sb, bp->data, sizeof( *sb))]. *)
Definition dec_sb (bs : list Z) : superblock :=
  mk_sb (get32 bs 0) (get32 bs 4) (get32 bs 8) (get32 bs 12) (get32 bs 16) (get32 bs 20)
    (get32 bs 24).

Definition enc_sb (sb : superblock) : list Z :=
  le_bytes 4 (sb_size sb) ++ le_bytes 4 (sb_nblocks sb) ++ le_bytes 4 (sb_ninodes sb) ++
  le_bytes 4 (sb_nlog sb) ++ le_bytes 4 (sb_logstart sb) ++ le_bytes 4 (sb_inodestart sb) ++
  le_bytes 4 (sb_bmapstart sb).

(** [IBLOCK(i, sb)] and [BBLOCK(b, sb)]. *)
Definition IBLOCK (i : Z) (sb : superblock) : Z := u32 (i / IPB + sb_inodestart sb).
Definition BBLOCK (b : Z) (sb : superblock) : Z := u32 (b / BPB + sb_bmapstart sb).

(** * struct dinode *)

Record dinode := mk_dinode {
  di_type : Z; di_major : Z; di_minor : Z; di_nlink : Z; di_size : Z; di_addrs : list Z
}.

(** The words of an array of [n] words at [off]. *)
Definition get_words (bs : list Z) (off n : nat) : list Z :=
  (λ k, get32 bs (off + 4 * k)) <$> seq 0 n.
Fixpoint put_words (ws : list Z) : list Z :=
  match ws with [] => [] | w :: ws' => le_bytes 4 w ++ put_words ws' end.

(** The inode at byte [off] of a block. *)
Definition dec_dinode (bs : list Z) (off : nat) : dinode :=
  mk_dinode (s16 (get16 bs off)) (s16 (get16 bs (off + 2))) (s16 (get16 bs (off + 4)))
    (s16 (get16 bs (off + 6))) (get32 bs (off + 8)) (get_words bs (off + 12) 13).

(** The stores of [iupdate], field by field. *)
Definition enc_dinode (bs : list Z) (off : nat) (di : dinode) : list Z :=
  let bs := put16 bs off (di_type di) in
  let bs := put16 bs (off + 2) (di_major di) in
  let bs := put16 bs (off + 4) (di_minor di) in
  let bs := put16 bs (off + 6) (di_nlink di) in
  let bs := put32 bs (off + 8) (di_size di) in
  splice bs (off + 12) (put_words (di_addrs di)).

(** [(struct dinode* )bp->data + inum%IPB]. *)
Definition ioff (inum : Z) : nat := Z.to_nat (64 * (inum mod IPB)).

(** * struct dirent *)

Definition de_inum (de : list Z) : Z := get16 de 0.
Definition de_name (de : list Z) : list Z := slice de 2 DIRSIZ.

(** * struct stat *)

Record stat := mk_stat { st_type : Z; st_dev : Z; st_ino : Z; st_nlink : Z; st_size : Z }.

(** * The encodings *)

Section bytes.
Implicit Types (bs ws : list Z) (x : Z) (n : nat).

Definition byte_list bs : Prop := Forall (λ b, 0 ≤ b < 256) bs.

Lemma length_le_bytes n x : length (le_bytes n x) = n.
Proof. revert x. induction n; intros x; simpl; auto. Qed.

Lemma le_bytes_byte n x : byte_list (le_bytes n x).
Proof. revert x. induction n; intros x; simpl; constructor; [apply u8_range | apply IHn]. Qed.

Lemma le_int_bytes n x : le_int (le_bytes n x) = x mod 256 ^ Z.of_nat n.
Proof.
revert x. induction n as [|n IH]; intros x; [by rewrite Z.mod_1_r|].
cbn [le_bytes le_int]. rewrite IH, Nat2Z.inj_succ, Z.pow_succ_r by lia.
unfold u8. change (2 ^ 8) with 256.
rewrite Z.rem_mul_r by lia. lia.
Qed.

Lemma le_int_range bs : byte_list bs → 0 ≤ le_int bs < 256 ^ Z.of_nat (length bs).
Proof.
induction 1 as [|b bs Hb _ IH]; [done|]. cbn [le_int length].
rewrite Nat2Z.inj_succ, Z.pow_succ_r by lia. lia.
Qed.

Lemma le_bytes_int bs : byte_list bs → le_bytes (length bs) (le_int bs) = bs.
Proof.
induction 1 as [|b bs Hb _ IH]; [done|]. cbn [le_int length le_bytes]. f_equal.
- unfold u8. rewrite Z.mul_comm, Z.mod_add by lia. by apply Z.mod_small.
- rewrite Z.mul_comm, Z.div_add, Z.div_small by lia. exact IH.
Qed.

Lemma byte_list_slice bs off n : byte_list bs → byte_list (slice bs off n).
Proof. intros H. by apply Forall_take, Forall_drop. Qed.

Lemma byte_list_splice bs off bs' :
byte_list bs → byte_list bs' → byte_list (splice bs off bs').
Proof.
intros H H'. apply Forall_lookup. intros i b Hb. unfold splice in Hb.
assert (i < length bs)%nat as Hi
  by (apply lookup_lt_Some in Hb; by rewrite length_inserts in Hb).
destruct (decide (off ≤ i < off + length bs')%nat).
- rewrite list_lookup_inserts in Hb by lia. exact (Forall_lookup_1 _ _ _ _ H' Hb).
- assert (bs !! i = Some b) as Hb'; [|exact (Forall_lookup_1 _ _ _ _ H Hb')].
  rewrite <- Hb. symmetry. destruct (decide (i < off)%nat).
  + by rewrite list_lookup_inserts_lt by lia.
  + by rewrite list_lookup_inserts_ge by lia.
Qed.

(** A segment is read back where it was put, and does not change others. *)
Lemma slice_splice_eq bs off bs' n :
n = length bs' → (off + n ≤ length bs)%nat → slice (splice bs off bs') off n = bs'.
Proof.
intros -> Hl. apply list_eq. intros i. destruct (decide (i < length bs')%nat).
- rewrite lookup_slice by done. unfold splice.
  rewrite list_lookup_inserts by lia. f_equal. lia.
- rewrite !lookup_ge_None_2; [done | lia |]. unfold slice. rewrite length_take. lia.
Qed.

Lemma slice_splice_ne bs off bs' off' n :
(off' + n ≤ off ∨ off + length bs' ≤ off')%nat →
slice (splice bs off bs') off' n = slice bs off' n.
Proof.
intros Hd. apply list_eq. intros i. destruct (decide (i < n)%nat).
- rewrite !lookup_slice by done. unfold splice. destruct Hd.
  + by rewrite list_lookup_inserts_lt by lia.
  + by rewrite list_lookup_inserts_ge by lia.
- rewrite !lookup_ge_None_2; [done | |]; unfold slice; rewrite length_take; lia.
Qed.

Lemma slice_app_l bs bs' n : n = length bs → slice (bs ++ bs') 0 n = bs.
Proof. intros ->. unfold slice. rewrite drop_0. by rewrite take_app_length. Qed.

Lemma slice_app_r bs bs' off n m :
length bs = m → (m ≤ off)%nat → slice (bs ++ bs') off n = slice bs' (off - m) n.
Proof. intros <- Ho. unfold slice. by rewrite drop_app_ge by done. Qed.

Lemma splice_splice bs off bs1 bs2 :
length bs1 = length bs2 → splice (splice bs off bs1) off bs2 = splice bs off bs2.
Proof.
intros Hl. apply list_eq. intros i. unfold splice.
destruct (decide (off ≤ i < off + length bs2)%nat) as [Hi|Hi].
- destruct (decide (i < length bs)%nat).
  + rewrite !list_lookup_inserts; rewrite ?length_inserts; try lia. done.
  + rewrite !lookup_ge_None_2; [done | |]; rewrite ?length_inserts; lia.
- destruct (decide (i < off)%nat).
  + by rewrite !list_lookup_inserts_lt by lia.
  + by rewrite !list_lookup_inserts_ge by lia.
Qed.
End bytes.

#[export] Hint Rewrite length_le_bytes : lx_len.
#[export] Hint Resolve le_bytes_byte byte_list_slice byte_list_splice : lx.

Section fields.
Implicit Types (bs ws : list Z) (off : nat) (v : Z).

Lemma get16_put16 bs off v : (off + 2 ≤ length bs)%nat → get16 (put16 bs off v) off = u16 v.
Proof.
intros Hl. unfold get16, put16. rewrite slice_splice_eq by (rewrite ?length_le_bytes; lia).
by rewrite le_int_bytes.
Qed.

Lemma get32_put32 bs off v : (off + 4 ≤ length bs)%nat → get32 (put32 bs off v) off = u32 v.
Proof.
intros Hl. unfold get32, put32. rewrite slice_splice_eq by (rewrite ?length_le_bytes; lia).
by rewrite le_int_bytes.
Qed.

Lemma get16_splice_ne bs off bs' off' :
(off' + 2 ≤ off ∨ off + length bs' ≤ off')%nat → get16 (splice bs off bs') off' = get16 bs off'.
Proof. intros. unfold get16. by rewrite slice_splice_ne. Qed.

Lemma get32_splice_ne bs off bs' off' :
(off' + 4 ≤ off ∨ off + length bs' ≤ off')%nat → get32 (splice bs off bs') off' = get32 bs off'.
Proof. intros. unfold get32. by rewrite slice_splice_ne. Qed.

Lemma get16_range bs off : byte_list bs → 0 ≤ get16 bs off < 2 ^ 16.
Proof.
intros H. unfold get16. pose proof (le_int_range _ (byte_list_slice _ off 2 H)) as Hr.
assert (length (slice bs off 2) ≤ 2)%nat by (unfold slice; rewrite length_take; lia).
assert (256 ^ Z.of_nat (length (slice bs off 2)) ≤ 256 ^ 2) by (apply Z.pow_le_mono_r; lia).
lia.
Qed.

Lemma get32_range bs off : byte_list bs → 0 ≤ get32 bs off < 2 ^ 32.
Proof.
intros H. unfold get32. pose proof (le_int_range _ (byte_list_slice _ off 4 H)) as Hr.
assert (length (slice bs off 4) ≤ 4)%nat by (unfold slice; rewrite length_take; lia).
assert (256 ^ Z.of_nat (length (slice bs off 4)) ≤ 256 ^ 4) by (apply Z.pow_le_mono_r; lia).
lia.
Qed.

Lemma length_put_words ws : length (put_words ws) = (4 * length ws)%nat.
Proof.
induction ws as [|w ws IH]; [done|]. cbn [put_words length].
rewrite length_app, IH, length_le_bytes. lia.
Qed.

Lemma slice_put_words ws k :
(k < length ws)%nat → slice (put_words ws) (4 * k) 4 = le_bytes 4 (ws !!! k).
Proof.
revert k. induction ws as [|w ws IH]; intros k Hk; simpl in Hk; [lia|].
cbn [put_words].
destruct k as [|k].
- rewrite Nat.mul_0_r. by apply slice_app_l.
- rewrite (slice_app_r _ _ _ _ 4) by (rewrite ?length_le_bytes; lia).
  replace (4 * S k - 4)%nat with (4 * k)%nat by lia. apply IH. lia.
Qed.

Lemma slice_slice {A} (l : list A) a n b m :
(b + m ≤ n)%nat → slice (slice l a n) b m = slice l (a + b) m.
Proof.
intros H. apply list_eq. intros i. destruct (decide (i < m)%nat).
- rewrite !lookup_slice by lia. f_equal. lia.
- rewrite !lookup_ge_None_2; [done | |]; unfold slice; rewrite length_take; lia.
Qed.

(** The words of a block are read back. *)
Lemma get_words_splice bs off ws :
(off + 4 * length ws ≤ length bs)%nat → Forall (λ w, 0 ≤ w < 2 ^ 32) ws →
get_words (splice bs off (put_words ws)) off (length ws) = ws.
Proof.
intros Hl Hw. unfold get_words. apply list_eq. intros k.
rewrite list_lookup_fmap. destruct (decide (k < length ws)%nat) as [Hk|Hk].
- rewrite lookup_seq_lt by done. simpl. unfold get32.
  pose proof (slice_splice_eq bs off (put_words ws) (4 * length ws)) as E.
  rewrite length_put_words in E. specialize (E eq_refl Hl).
  rewrite <- (slice_slice _ off (4 * length ws) (4 * k) 4) by lia.
  rewrite E, slice_put_words, le_int_bytes by done.
  destruct (lookup_lt_is_Some_2 ws k Hk) as (w & Ew).
  rewrite (list_lookup_total_correct _ _ _ Ew), Ew. f_equal.
  apply Z.mod_small. exact (Forall_lookup_1 _ _ _ _ Hw Ew).
- rewrite lookup_seq_ge by lia. rewrite lookup_ge_None_2 by lia. done.
Qed.

Lemma get_words_ext bs bs' off n :
slice bs off (4 * n) = slice bs' off (4 * n) → get_words bs off n = get_words bs' off n.
Proof.
intros E. unfold get_words. apply list_fmap_ext. intros i k Hk.
apply lookup_seq in Hk as (-> & Hi). unfold get32. simpl.
rewrite <- (slice_slice bs off (4 * n)), <- (slice_slice bs' off (4 * n)) by lia. by rewrite E.
Qed.
End fields.

(** * Round trips *)

(** The fields fit their C types. *)
Record dinode_ok (di : dinode) : Prop := {
  do_type : - 2 ^ 15 ≤ di_type di < 2 ^ 15;
  do_major : - 2 ^ 15 ≤ di_major di < 2 ^ 15;
  do_minor : - 2 ^ 15 ≤ di_minor di < 2 ^ 15;
  do_nlink : - 2 ^ 15 ≤ di_nlink di < 2 ^ 15;
  do_size : 0 ≤ di_size di < 2 ^ 32;
  do_len : length (di_addrs di) = 13%nat;
  do_addrs : Forall (λ a, 0 ≤ a < 2 ^ 32) (di_addrs di)
}.

(** Lengths of updated arrays, and side conditions on offsets. *)
Ltac lens := unfold put16, put32, enc_dinode in *; cbv zeta in *;
  rewrite ?length_splice, ?length_put_words, ?length_le_bytes; lia.

Section dinode.
Implicit Types (bs : list Z) (off : nat) (di : dinode).

Lemma length_enc_dinode bs off di : length (enc_dinode bs off di) = length bs.
Proof. unfold enc_dinode, put16, put32. by rewrite !length_splice. Qed.

Lemma enc_dinode_byte bs off di :
byte_list bs → byte_list (put_words (di_addrs di)) → byte_list (enc_dinode bs off di).
Proof.
intros. unfold enc_dinode, put16, put32.
repeat (apply byte_list_splice; [|first [assumption | apply le_bytes_byte]]). assumption.
Qed.

Lemma put_words_byte ws : byte_list (put_words ws).
Proof. induction ws; [constructor|]. apply Forall_app. split; [apply le_bytes_byte | done]. Qed.

Lemma get16_put16_s bs off v :
(off + 2 ≤ length bs)%nat → - 2 ^ 15 ≤ v < 2 ^ 15 → s16 (get16 (put16 bs off v) off) = v.
Proof. intros Hl Hv. rewrite get16_put16 by done. rewrite s16_u16. by apply s16_small. Qed.

Lemma dec_enc_dinode bs off di :
(off + 64 ≤ length bs)%nat → dinode_ok di → dec_dinode (enc_dinode bs off di) off = di.
Proof.
intros Hl [H1 H2 H3 H4 H5 H6 H7]. destruct di as [ty ma mi nl sz ad].
cbn [di_type di_major di_minor di_nlink di_size di_addrs] in *.
unfold dec_dinode, enc_dinode. cbn [di_type di_major di_minor di_nlink di_size di_addrs].
f_equal.
- rewrite get16_splice_ne by lens. unfold put32. rewrite get16_splice_ne by lens.
  unfold put16. rewrite !get16_splice_ne by lens. by apply get16_put16_s; [lia|].
- rewrite get16_splice_ne by lens. unfold put32. rewrite get16_splice_ne by lens.
  do 2 (unfold put16 at 1; rewrite get16_splice_ne by lens). by apply get16_put16_s; [lens|].
- rewrite get16_splice_ne by lens. unfold put32. rewrite get16_splice_ne by lens.
  unfold put16 at 1; rewrite get16_splice_ne by lens. by apply get16_put16_s; [lens|].
- rewrite get16_splice_ne by lens. unfold put32. rewrite get16_splice_ne by lens.
  by apply get16_put16_s; [lens|].
- rewrite get32_splice_ne by lens. rewrite get32_put32 by lens. by apply u32_small.
- rewrite <- H6. apply get_words_splice; [lens | done].
Qed.

(** The inodes of a block do not overlap. *)
Lemma slice_enc_dinode_ne bs off di off' n :
length (di_addrs di) = 13%nat → (off' + n ≤ off ∨ off + 64 ≤ off')%nat →
slice (enc_dinode bs off di) off' n = slice bs off' n.
Proof.
intros Hl Hd. unfold enc_dinode, put16, put32. rewrite !slice_splice_ne; [done|..];
  rewrite ?length_le_bytes, ?length_put_words; lia.
Qed.

Lemma dec_dinode_ext bs bs' off :
slice bs off 64 = slice bs' off 64 → dec_dinode bs off = dec_dinode bs' off.
Proof.
intros E.
assert (∀ o n, (o + n ≤ 64)%nat → slice bs (off + o) n = slice bs' (off + o) n) as Es.
{ intros o n Ho. rewrite <- (slice_slice bs off 64), <- (slice_slice bs' off 64) by done.
  by rewrite E. }
pose proof (Es 0%nat 2%nat ltac:(lia)) as E0. rewrite Nat.add_0_r in E0.
unfold dec_dinode, get16, get32. rewrite E0, !Es by lia. f_equal. apply get_words_ext. by apply Es.
Qed.

Lemma dec_enc_dinode_ne bs off di off' :
length (di_addrs di) = 13%nat → (off' + 64 ≤ off ∨ off + 64 ≤ off')%nat →
dec_dinode (enc_dinode bs off di) off' = dec_dinode bs off'.
Proof. intros Hl Hd. apply dec_dinode_ext. by apply slice_enc_dinode_ne. Qed.

Lemma dec_dinode_ok bs off :
byte_list bs → dinode_ok (dec_dinode bs off).
Proof.
intros Hb. split; cbn; try apply s16_range; [by apply get32_range | done |].
repeat constructor; by apply get32_range.
Qed.

Lemma ioff_range inum : (ioff inum + 64 ≤ 512)%nat.
Proof. unfold ioff, IPB, BSIZE. change (512 / 64) with 8. zlia. Qed.

Lemma ioff_ne i j :
i / IPB = j / IPB → i ≠ j → (ioff i + 64 ≤ ioff j ∨ ioff j + 64 ≤ ioff i)%nat.
Proof. unfold ioff, IPB, BSIZE. change (512 / 64) with 8. intros. zlia. Qed.
End dinode.

(** The super block is read back. *)
Lemma dec_enc_sb sb rest :
  Forall (λ v, 0 ≤ v < 2 ^ 32)
    [sb_size sb; sb_nblocks sb; sb_ninodes sb; sb_nlog sb; sb_logstart sb; sb_inodestart sb;
     sb_bmapstart sb] →
  dec_sb (enc_sb sb ++ rest) = sb.
Proof.
  intros H. destruct sb as [a b c d e f g].
  cbn [sb_size sb_nblocks sb_ninodes sb_nlog sb_logstart sb_inodestart sb_bmapstart] in *.
  assert (∀ v, 0 ≤ v < 2 ^ 32 → le_int (le_bytes 4 v) = v) as E
    by (intros v Hv; rewrite le_int_bytes; by apply Z.mod_small).
  repeat (apply Forall_cons in H as (? & H)).
  unfold dec_sb, enc_sb, get32. cbn [sb_size sb_nblocks sb_ninodes sb_nlog sb_logstart
    sb_inodestart sb_bmapstart]. rewrite <- !app_assoc.
  f_equal; repeat (rewrite (slice_app_r _ _ _ _ 4) by (rewrite ?length_le_bytes; lia));
    cbn [Nat.sub]; rewrite slice_app_l by done; by apply E.
Qed.
