(* ===== verification/Fs.v ===== *)
(** fs/fs.c: blocks, inodes and file contents, over any block layer. *)
From S2P Require Import Prelude LibC Ide Block FsLayout.

(** An in-memory inode of include/file.h. *)
Record inode := mk_inode {
  i_dev : Z; i_inum : Z; i_ref : Z; i_valid : Z;
  i_type : Z; i_major : Z; i_minor : Z; i_nlink : Z; i_size : Z; i_addrs : list Z
}.

#[export] Instance inode_inhabited : Inhabited inode :=
  populate (mk_inode 0 0 0 0 0 0 0 0 0 (replicate 13 0)).
#[export] Instance inode_eq_dec : EqDecision inode.
Proof. solve_decision. Defined.

(** The functions that can be in [devsw]: nothing reads from a device, and
    [screenewrite] of drivers/screen.c writes to one. *)
Inductive devread : Set := .
Inductive devwrite : Set := Screenewrite.

(** The state of fs.c: the block layer, [sb], [icache], [devsw], the characters
    that [kputchar] was given and the messages printed (newest first). *)
Record fsys (S : Type) := mk_fsys {
  f_blk : S; f_sb : superblock; icache : list inode;
  devsw : list (option devread * option devwrite); f_con : list Z; f_log : list string
}.
Arguments mk_fsys {S} _ _ _ _ _ _.
Arguments f_blk {S} _.
Arguments f_sb {S} _.
Arguments icache {S} _.
Arguments devsw {S} _.
Arguments f_con {S} _.
Arguments f_log {S} _.

Definition set_ref (x : inode) (v : Z) : inode :=
  mk_inode (i_dev x) (i_inum x) v (i_valid x) (i_type x) (i_major x) (i_minor x) (i_nlink x)
    (i_size x) (i_addrs x).
Definition set_valid (x : inode) (v : Z) : inode :=
  mk_inode (i_dev x) (i_inum x) (i_ref x) v (i_type x) (i_major x) (i_minor x) (i_nlink x)
    (i_size x) (i_addrs x).
Definition set_type (x : inode) (v : Z) : inode :=
  mk_inode (i_dev x) (i_inum x) (i_ref x) (i_valid x) v (i_major x) (i_minor x) (i_nlink x)
    (i_size x) (i_addrs x).
Definition set_nlink (x : inode) (v : Z) : inode :=
  mk_inode (i_dev x) (i_inum x) (i_ref x) (i_valid x) (i_type x) (i_major x) (i_minor x) v
    (i_size x) (i_addrs x).
Definition set_major_minor (x : inode) (a b : Z) : inode :=
  mk_inode (i_dev x) (i_inum x) (i_ref x) (i_valid x) (i_type x) a b (i_nlink x)
    (i_size x) (i_addrs x).
Definition set_size (x : inode) (v : Z) : inode :=
  mk_inode (i_dev x) (i_inum x) (i_ref x) (i_valid x) (i_type x) (i_major x) (i_minor x)
    (i_nlink x) v (i_addrs x).
Definition set_addr (x : inode) (k a : Z) : inode :=
  mk_inode (i_dev x) (i_inum x) (i_ref x) (i_valid x) (i_type x) (i_major x) (i_minor x)
    (i_nlink x) (i_size x) (zset (i_addrs x) k a).

(** What [ilock] copies from the disk inode and [iupdate] to it. *)
Definition load_dinode (x : inode) (di : dinode) : inode :=
  mk_inode (i_dev x) (i_inum x) (i_ref x) (i_valid x) (di_type di) (di_major di) (di_minor di)
    (di_nlink di) (di_size di) (di_addrs di).
Definition dinode_of (x : inode) : dinode :=
  mk_dinode (i_type x) (i_major x) (i_minor x) (i_nlink x) (i_size x) (i_addrs x).

Section fs.
Context {S : Type} `{BlockOps S}.
Implicit Types (fs : fsys S) (ip : nat).

Definition set_blk fs (s : S) : fsys S :=
mk_fsys s (f_sb fs) (icache fs) (devsw fs) (f_con fs) (f_log fs).
Definition set_sb fs (sb : superblock) : fsys S :=
mk_fsys (f_blk fs) sb (icache fs) (devsw fs) (f_con fs) (f_log fs).
Definition set_icache fs (ic : list inode) : fsys S :=
mk_fsys (f_blk fs) (f_sb fs) ic (devsw fs) (f_con fs) (f_log fs).
Definition fprint fs (msg : string) : fsys S :=
mk_fsys (f_blk fs) (f_sb fs) (icache fs) (devsw fs) (f_con fs) (msg :: f_log fs).
Definition fputs fs (cs : list Z) : fsys S :=
mk_fsys (f_blk fs) (f_sb fs) (icache fs) (devsw fs) (f_con fs ++ cs) (f_log fs).
Definition inodep fs ip : inode := icache fs !!! ip.
Definition upd_inode fs ip (f : inode → inode) : fsys S := set_icache fs (alter f ip (icache fs)).

(** The calls of the block layer on the file system's state. *)
Definition fbread fs (dev bno : Z) : res (fsys S * nat) :=
let* r := bl_read (f_blk fs) dev bno in Ok (set_blk fs r.1, r.2).
Definition fdata fs (b : nat) : list Z := bl_data (f_blk fs) b.
Definition fset fs (b : nat) (data : list Z) : fsys S := set_blk fs (bl_set (f_blk fs) b data).
Definition fbwrite fs (b : nat) : res (fsys S) :=
let* s := bl_write (f_blk fs) b in Ok (set_blk fs s).
Definition fbrelse fs (b : nat) : fsys S := set_blk fs (bl_release (f_blk fs) b).

(** * Blocks *)

(** The super block read; the caller says where it goes. *)
Definition readsb fs (dev : Z) : res (fsys S * superblock) :=
let* r := fbread fs dev 1 in
let '(fs, bp) := r in
let sb := dec_sb (fdata fs bp) in
Ok (fbrelse fs bp, sb).

Definition bzero fs (dev bno : Z) : res (fsys S) :=
let* r := fbread fs dev bno in
let '(fs, bp) := r in
let fs := fset fs bp (replicate (Z.to_nat BSIZE) 0) in
let* fs := fbwrite fs bp in
Ok (fbrelse fs bp).

(** The inner loop of [balloc]: the first bit [bi] of the block that is clear,
  the block describing the disk blocks from [b] on. *)
Definition bit_clear (data : list Z) (bi : Z) : bool :=
Z.land (zget data (bi / 8)) (Z.shiftl 1 (bi mod 8)) =? 0.

Definition free_bit (data : list Z) (b size : Z) : res (option Z) :=
while (2 ^ 13)
  (λ bi, Ok (if (bi <? BPB) && (u32 (b + bi) <? size)
             then if bit_clear data bi then inr (Some bi) else inl (bi + 1)
             else inr None)) 0.

Definition balloc_step (dev : Z) '((fs, b) : fsys S * Z) : res (fsys S * Z + fsys S * Z) :=
if u32 b <? sb_size (f_sb fs) then
  let* r := fbread fs dev (BBLOCK b (f_sb fs)) in
  let '(fs, bp) := r in
  let data := fdata fs bp in
  let* o := free_bit data b (sb_size (f_sb fs)) in
  match o with
  | Some bi =>
      let m := Z.shiftl 1 (bi mod 8) in
      let fs := fset fs bp (zset data (bi / 8) (u8 (Z.lor (zget data (bi / 8)) m))) in
      let* fs := fbwrite fs bp in
      let fs := fbrelse fs bp in
      let* fs := bzero fs dev (u32 (b + bi)) in
      Ok (inr (fs, u32 (b + bi)))
  | None => Ok (inl (fbrelse fs bp, s32 (b + BPB)))
  end
else Ok (inr (fprint fs "balloc: out of blocks", u32 (-1))).

Definition balloc fs (dev : Z) : res (fsys S * Z) := while (2 ^ 20) (balloc_step dev) (fs, 0).

Definition bfree fs (dev b : Z) : res (fsys S) :=
let* r := readsb fs dev in
let fs := set_sb r.1 r.2 in
let* r := fbread fs dev (BBLOCK b (f_sb fs)) in
let '(fs, bp) := r in
let bi := b mod BPB in
let m := Z.shiftl 1 (bi mod 8) in
let data := fdata fs bp in
let fs := if bit_clear data bi then fprint fs "freeing free block" else fs in
let fs := fset fs bp (zset data (bi / 8) (u8 (Z.land (zget data (bi / 8)) (Z.lnot m)))) in
let* fs := fbwrite fs bp in
Ok (fbrelse fs bp).

(** * Inodes *)

Definition iinit fs (dev : Z) : res (fsys S) :=
let* r := readsb fs dev in
Ok (fprint (set_sb r.1 r.2) "sb: size %d nblocks %d ninodes %d  inodestart %d bmap start %d").

Definition iupdate fs ip : res (fsys S) :=
let x := inodep fs ip in
let* r := fbread fs (i_dev x) (IBLOCK (i_inum x) (f_sb fs)) in
let '(fs, bp) := r in
let fs := fset fs bp (enc_dinode (fdata fs bp) (ioff (i_inum x)) (dinode_of x)) in
let* fs := fbwrite fs bp in
Ok (fbrelse fs bp).

(** The scan of [icache] by [iget]: a match, or the first free slot. *)
Fixpoint iget_scan (ic : list inode) (i : nat) (empty : option nat) (dev inum : Z)
: nat + option nat :=
match ic with
| [] => inr empty
| x :: ic' =>
    if (0 <? i_ref x) && (i_dev x =? dev) && (i_inum x =? inum) then inl i
    else
      let empty :=
        match empty with
        | None => if i_ref x =? 0 then Some i else None
        | Some e => Some e
        end in
      iget_scan ic' (i + 1) empty dev inum
end.

Definition iget fs (dev inum : Z) : res (fsys S * nat) :=
match iget_scan (icache fs) 0 None dev inum with
| inl ip => Ok (upd_inode fs ip (λ x, set_ref x (s32 (i_ref x + 1))), ip)
| inr None => Fault
| inr (Some ip) =>
    Ok (upd_inode fs ip (λ x, mk_inode dev inum 1 0 (i_type x) (i_major x) (i_minor x)
          (i_nlink x) (i_size x) (i_addrs x)), ip)
end.

Definition ialloc_step (dev type : Z) '((fs, inum) : fsys S * Z)
: res (fsys S * Z + fsys S * option nat) :=
if u32 inum <? sb_ninodes (f_sb fs) then
  let* r := fbread fs dev (IBLOCK inum (f_sb fs)) in
  let '(fs, bp) := r in
  let data := fdata fs bp in
  if get16 data (ioff inum) =? 0 then
    let data := splice data (ioff inum) (replicate 64 0) in
    let fs := fset fs bp (put16 data (ioff inum) type) in
    let* fs := fbwrite fs bp in
    let fs := fbrelse fs bp in
    let* r := iget fs dev inum in
    Ok (inr (r.1, Some r.2))
  else Ok (inl (fbrelse fs bp, s32 (inum + 1)))
else Ok (inr (fprint fs "ialloc: no inodes", None)).

Definition ialloc fs (dev type : Z) : res (fsys S * option nat) :=
while (2 ^ 32) (ialloc_step dev type) (fs, 1).

Definition idup fs ip : fsys S * nat :=
(upd_inode fs ip (λ x, set_ref x (s32 (i_ref x + 1))), ip).

Definition ilock fs ip : res (fsys S) :=
let fs := if i_ref (inodep fs ip) <? 1 then fprint fs "ilock" else fs in
let x := inodep fs ip in
if i_valid x =? 0 then
  let* r := fbread fs (i_dev x) (IBLOCK (i_inum x) (f_sb fs)) in
  let '(fs, bp) := r in
  let di := dec_dinode (fdata fs bp) (ioff (i_inum x)) in
  let fs := upd_inode fs ip (λ x, load_dinode x di) in
  let fs := fbrelse fs bp in
  let fs := upd_inode fs ip (λ x, set_valid x 1) in
  Ok (if i_type (inodep fs ip) =? 0 then fprint fs "ilock: no type" else fs)
else Ok fs.

Definition iunlock fs ip : fsys S :=
if i_ref (inodep fs ip) <? 1 then fprint fs "iunlock" else fs.
(** * File contents *)

(** The part of [bmap] from [bp = bread(ip->dev, addr)] on: entry [bn] of the
  indirect block, filled in when it is 0. *)
Definition bmap_entry fs (dev addr bn : Z) : res (fsys S * Z) :=
let* r := fbread fs dev addr in
let '(fs, bp) := r in
let addr := get32 (fdata fs bp) (Z.to_nat (4 * bn)) in
if addr =? 0 then
  let* r := balloc fs dev in
  let '(fs, addr) := r in
  let fs := fset fs bp (put32 (fdata fs bp) (Z.to_nat (4 * bn)) addr) in
  let* fs := fbwrite fs bp in
  Ok (fbrelse fs bp, addr)
else Ok (fbrelse fs bp, addr).

(** The block of the file's block [bn], allocated when it is missing. *)
Definition bmap fs ip (bn : Z) : res (fsys S * Z) :=
let x := inodep fs ip in
if bn <? NDIRECT then
  let addr := zget (i_addrs x) bn in
  if addr =? 0 then
    let* r := balloc fs (i_dev x) in
    Ok (upd_inode r.1 ip (λ x, set_addr x bn r.2), r.2)
  else Ok (fs, addr)
else
  let bn := bn - NDIRECT in
  if bn <? NINDIRECT then
    let addr := zget (i_addrs x) NDIRECT in
    let* r :=
      (if addr =? 0 then
         let* r := balloc fs (i_dev x) in
         Ok (upd_inode r.1 ip (λ x, set_addr x NDIRECT r.2), r.2)
       else Ok (fs, addr)) in
    bmap_entry r.1 (i_dev x) r.2 bn
  else Ok (fprint fs "bmap: out of range", u32 (-1)).

(** [for(i = 0; i < NDIRECT; i++) if(ip->addrs[i]) ..], [n] turns left. *)
Fixpoint itrunc_direct fs ip (i : Z) (n : nat) : res (fsys S) :=
match n with
| O => Ok fs
| Datatypes.S n' =>
    let x := inodep fs ip in
    let addr := zget (i_addrs x) i in
    if addr =? 0 then itrunc_direct fs ip (i + 1) n'
    else
      let* fs := bfree fs (i_dev x) addr in
      itrunc_direct (upd_inode fs ip (λ x, set_addr x i 0)) ip (i + 1) n'
end.

(** [for(j = 0; j < NINDIRECT; j++) if(a[j]) bfree(ip->dev, a[j])]. *)
Fixpoint itrunc_indirect fs ip (bp : nat) (j : nat) (n : nat) : res (fsys S) :=
match n with
| O => Ok fs
| Datatypes.S n' =>
    let a := get32 (fdata fs bp) (4 * j) in
    if a =? 0 then itrunc_indirect fs ip bp (j + 1) n'
    else
      let* fs := bfree fs (i_dev (inodep fs ip)) a in
      itrunc_indirect fs ip bp (j + 1) n'
end.

Definition itrunc fs ip : res (fsys S) :=
let* fs := itrunc_direct fs ip 0 (Z.to_nat NDIRECT) in
let x := inodep fs ip in
let ind := zget (i_addrs x) NDIRECT in
let* fs :=
  (if ind =? 0 then Ok fs
   else
     let* r := fbread fs (i_dev x) ind in
     let '(fs, bp) := r in
     let* fs := itrunc_indirect fs ip bp 0 (Z.to_nat NINDIRECT) in
     let fs := fbrelse fs bp in
     let* fs := bfree fs (i_dev x) ind in
     Ok (upd_inode fs ip (λ x, set_addr x NDIRECT 0))) in
iupdate (upd_inode fs ip (λ x, set_size x 0)) ip.

Definition iput fs ip : res (fsys S) :=
let x := inodep fs ip in
let* fs :=
  (if negb (i_valid x =? 0) && (i_nlink x =? 0) && (i_ref x =? 1) then
     let* fs := itrunc fs ip in
     let fs := upd_inode fs ip (λ x, set_type x 0) in
     let* fs := iupdate fs ip in
     Ok (upd_inode fs ip (λ x, set_valid x 0))
   else Ok fs) in
Ok (upd_inode fs ip (λ x, set_ref x (s32 (i_ref x - 1)))).

Definition iunlockput fs ip : res (fsys S) := iput (iunlock fs ip) ip.

Definition stati fs ip : stat :=
let x := inodep fs ip in
mk_stat (i_type x) (s32 (i_dev x)) (i_inum x) (i_nlink x) (i_size x).

(** [devsw[major].write] of an inode: the characters go to the screen. *)
Definition dev_write fs ip (fn : devwrite) (src : list Z) (n : Z) : res (fsys S * Z) :=
match fn with
| Screenewrite =>
    let fs := iunlock fs ip in
    let fs := fputs fs (take (Z.to_nat n) src) in
    let* fs := ilock fs ip in
    Ok (fs, n)
end.

(** The entry of [devsw] for a device inode. *)
Definition dev_entry fs (x : inode) : option (option devread * option devwrite) :=
if (i_major x <? 0) || (NDEV <=? i_major x) then None
else devsw fs !! Z.to_nat (i_major x).

(** One turn of the copy loop of [readi]; [acc] is what was copied to [dst]. *)
Definition readi_step ip (n : Z) '((fs, tot, off, acc) : fsys S * Z * Z * list Z)
: res (fsys S * Z * Z * list Z + fsys S * list Z) :=
if tot <? n then
  let* r := bmap fs ip (off / BSIZE) in
  let* r := fbread r.1 (i_dev (inodep r.1 ip)) r.2 in
  let '(fs, bp) := r in
  let m := Z.min (n - tot) (BSIZE - off mod BSIZE) in
  let bytes := slice (fdata fs bp) (Z.to_nat (off mod BSIZE)) (Z.to_nat m) in
  let fs := fbrelse fs bp in
  Ok (inl (fs, tot + m, u32 (off + m), acc ++ bytes))
else Ok (inr (fs, acc)).

(** [readi]: the state, the bytes stored at [dst], the value returned. *)
Definition readi fs ip (off n : Z) : res (fsys S * list Z * Z) :=
let x := inodep fs ip in
if i_type x =? T_DEV then
  match dev_entry fs x with
  | Some (Some fn, _) => match fn with end
  | _ => Ok (fs, [], -1)
  end
else if (i_size x <? off) || (u32 (off + n) <? off) then Ok (fs, [], -1)
else
  let n := if i_size x <? u32 (off + n) then i_size x - off else n in
  let* r := while (2 ^ 32) (readi_step ip n) (fs, 0, off, []) in
  Ok (r.1, r.2, s32 n).

(** The body of the copy loop of [writei] for [m] bytes of [src]. *)
Definition write_part fs ip (off m : Z) (src : list Z) : res (fsys S) :=
let* r := bmap fs ip (off / BSIZE) in
let* r := fbread r.1 (i_dev (inodep r.1 ip)) r.2 in
let '(fs, bp) := r in
let fs := fset fs bp
  (splice (fdata fs bp) (Z.to_nat (off mod BSIZE)) (take (Z.to_nat m) src)) in
let* fs := fbwrite fs bp in
Ok (fbrelse fs bp).

Definition writei_step ip (n : Z) '((fs, tot, off, src) : fsys S * Z * Z * list Z)
: res (fsys S * Z * Z * list Z + fsys S * Z) :=
if tot <? n then
  let m := Z.min (n - tot) (BSIZE - off mod BSIZE) in
  let* fs := write_part fs ip off m src in
  Ok (inl (fs, tot + m, u32 (off + m), drop (Z.to_nat m) src))
else Ok (inr (fs, off)).

(** [writei] of the [n] bytes at [src]. *)
Definition writei fs ip (src : list Z) (off n : Z) : res (fsys S * Z) :=
let x := inodep fs ip in
if i_type x =? T_DEV then
  match dev_entry fs x with
  | Some (_, Some fn) => dev_write fs ip fn src (s32 n)
  | _ => Ok (fs, -1)
  end
else if (i_size x <? off) || (u32 (off + n) <? off) then Ok (fs, -1)
else if MAXFILE * BSIZE <? u32 (off + n) then Ok (fs, -1)
else
  let* r := while (2 ^ 32) (writei_step ip n) (fs, 0, off, src) in
  let '(fs, off) := r in
  if (0 <? n) && (i_size (inodep fs ip) <? off) then
    let* fs := iupdate (upd_inode fs ip (λ x, set_size x off)) ip in
    Ok (fs, s32 n)
  else Ok (fs, s32 n).
End fs.
