(* ===== verification/FsDir.v ===== *)
(** fs/fs.c: directories and path names.  A path is the list of its characters
    before the terminating 0; the name buffers of the callers are arrays of
    [DIRSIZ] bytes whose first contents are an argument. *)
From S2P Require Import Prelude LibC Ide Block FsLayout Fs.

Definition namecmp (s t : list Z) : Z := strncmp_bytes s t DIRSIZ.

Definition SLASH : Z := 47.

(** The names "." and "..". *)
Definition DOT : list Z := [46; 0].
Definition DOTDOT : list Z := [46; 46; 0].

(** [while( *path == '/') path++]. *)
Fixpoint skip_slashes (path : list Z) : list Z :=
  match path with
  | c :: path' => if c =? SLASH then skip_slashes path' else path
  | [] => []
  end.

(** [while( *path != '/' && *path != 0) path++]: what is passed, and the rest. *)
Fixpoint span_elem (path : list Z) : list Z * list Z :=
  match path with
  | c :: path' =>
      if (c =? SLASH) || (c =? 0) then ([], path)
      else let '(s, rest) := span_elem path' in (c :: s, rest)
  | [] => ([], [])
  end.

(** [*path == 0]. *)
Definition at_end (path : list Z) : bool :=
  match path with [] => true | c :: _ => c =? 0 end.

(** [skipelem]: the rest of the path and the name buffer, or null. *)
Definition skipelem (path name : list Z) : option (list Z * list Z) :=
  let path := skip_slashes path in
  if at_end path then None
  else
    let '(s, path) := span_elem path in
    let name :=
      if (DIRSIZ <=? length s)%nat then splice name 0 (take DIRSIZ s)
      else splice (splice name 0 s) (length s) [0] in
    Some (skip_slashes path, name).

Section dir.
Context {S : Type} `{BlockOps S}.
Implicit Types (fs : fsys S) (ip dp : nat).

(** [readi(dp, &de, off, sizeof(de))] into the local [de], and the message
  [msg] when it is short; bytes of [de] that were never set are not read. *)
Definition read_de fs dp (de : list Z) (off : Z) (msg : string) : res (fsys S * list Z) :=
let* r := readi fs dp off 16 in
let '(fs, bytes, ret) := r in
let de := bytes ++ drop (length bytes) de in
let fs := if ret =? 16 then fs else fprint fs msg in
if (length de <? 16)%nat then Fault else Ok (fs, de).

(** The loop state: the file system, [off], [de]. *)
Definition dirlookup_step dp (name : list Z) '((fs, off, de) : fsys S * Z * list Z)
: res (fsys S * Z * list Z + fsys S * option (nat * Z)) :=
if off <? i_size (inodep fs dp) then
  let* r := read_de fs dp de off "dirlookup read" in
  let '(fs, de) := r in
  if de_inum de =? 0 then Ok (inl (fs, u32 (off + 16), de))
  else if namecmp name (de_name de) =? 0 then
    let* r := iget fs (i_dev (inodep fs dp)) (de_inum de) in
    Ok (inr (r.1, Some (r.2, off)))
  else Ok (inl (fs, u32 (off + 16), de))
else Ok (inr (fs, None)).

(** The inode found and its offset in the directory, or null. *)
Definition dirlookup fs dp (name : list Z) : res (fsys S * option (nat * Z)) :=
let fs := if i_type (inodep fs dp) =? T_DIR then fs else fprint fs "dirlookup not DIR" in
while (2 ^ 32) (dirlookup_step dp name) (fs, 0, []).

(** The loop of [dirlink] that finds an empty entry. *)
Definition dirlink_step dp '((fs, off, de) : fsys S * Z * list Z)
: res (fsys S * Z * list Z + fsys S * Z) :=
if u32 off <? i_size (inodep fs dp) then
  let* r := read_de fs dp de (u32 off) "dirlink read" in
  let '(fs, de) := r in
  if de_inum de =? 0 then Ok (inr (fs, off)) else Ok (inl (fs, s32 (off + 16), de))
else Ok (inr (fs, off)).

Definition dirlink fs dp (name : list Z) (inum : Z) : res (fsys S * Z) :=
let* r := dirlookup fs dp name in
let '(fs, found) := r in
match found with
| Some (ip, _) => let* fs := iput fs ip in Ok (fs, -1)
| None =>
    let* r := while (2 ^ 32) (dirlink_step dp) (fs, 0, []) in
    let '(fs, off) := r in
    let de := le_bytes 2 (u16 inum) ++ strncpy_bytes name DIRSIZ in
    let* r := writei fs dp de (u32 off) 16 in
    Ok (if r.2 =? 16 then r.1 else fprint r.1 "dirlink", 0)
end.

(** One turn of the loop of [namex]. *)
Definition namex_step (nameiparent : bool) '((fs, ip, path, name) : fsys S * nat * list Z * list Z)
: res (fsys S * nat * list Z * list Z + fsys S * option nat * list Z) :=
match skipelem path name with
| None =>
    if nameiparent then
      let* fs := iput fs ip in Ok (inr (fs, None, name))
    else Ok (inr (fs, Some ip, name))
| Some (path, name) =>
    let* fs := ilock fs ip in
    if negb (i_type (inodep fs ip) =? T_DIR) then
      let* fs := iunlockput fs ip in Ok (inr (fs, None, name))
    else if nameiparent && at_end path then
      Ok (inr (iunlock fs ip, Some ip, name))
    else
      let* r := dirlookup fs ip name in
      let '(fs, next) := r in
      match next with
      | None => let* fs := iunlockput fs ip in Ok (inr (fs, None, name))
      | Some (next, _) =>
          let* fs := iunlockput fs ip in Ok (inl (fs, next, path, name))
      end
end.

(** [namex]; [cwd] is the current process's directory. *)
Definition namex fs (cwd : nat) (path : list Z) (nameiparent : bool) (name : list Z)
: res (fsys S * option nat * list Z) :=
let* r :=
  (if negb (at_end path) && (zget path 0 =? SLASH) then iget fs ROOTDEV ROOTINO
   else Ok (idup fs cwd)) in
while (2 ^ 32) (namex_step nameiparent) (r.1, r.2, path, name).

(** The local [name] of [namei] holds [junk] at first. *)
Definition namei fs (cwd : nat) (path junk : list Z) : res (fsys S * option nat) :=
let* r := namex fs cwd path false junk in Ok r.1.

Definition nameiparent fs (cwd : nat) (path name : list Z) : res (fsys S * option nat * list Z) :=
namex fs cwd path true name.
End dir.
