(* ===== verification/FsTypes.v ===== *)
(** The shape of the file system's state: the inode cache keeps its size and
    every inode its 13 addresses, through every function of fs/fs.c and over any
    block layer; a slot that a function answers is a slot of the cache. *)
From S2P Require Import Prelude LibC Ide Block FsLayout Fs FsDir.

Definition inode_ok (x : inode) : Prop := length (i_addrs x) = 13%nat.

Record fs_ok {S} (fs : fsys S) : Prop := {
  fo_cache : length (icache fs) = NINODE;
  fo_inodes : Forall inode_ok (icache fs)
}.

(** A slot of the cache. *)
Definition slot_ok (ip : nat) : Prop := (ip < NINODE)%nat.
Definition oslot_ok (o : option nat) : Prop := ∀ ip, o = Some ip → slot_ok ip.

Lemma oslot_ok_None : oslot_ok None.
Proof. done. Qed.
Lemma oslot_ok_Some ip : slot_ok ip → oslot_ok (Some ip).
Proof. by intros ? ? [= <-]. Qed.

(** A loop keeps an invariant, and its result has what the last turn gives. *)
Lemma while_keeps {St R} (I : St → Prop) (Q : R → Prop) p (f : St → res (St + R)) s r :
  (∀ s x, I s → f s = Ok x → match x with inl s' => I s' | inr r => Q r end) →
  I s → while p f s = Ok r → Q r.
Proof.
  intros Hf HI Hw. apply rbind_inv in Hw as (x & Hx & Hr). rewrite repeatM_steps in Hx.
  generalize dependent (Pos.to_nat p). intros n. revert s HI. induction n as [|n IH]; intros s HI Hx.
  - injection Hx as <-. discriminate.
  - cbn in Hx. apply rbind_inv in Hx as (y & Hy & Hx). pose proof (Hf s y HI Hy) as Hs.
    destruct y as [s'|r']; [by apply (IH s')|]. injection Hx as <-. by injection Hr as <-.
Qed.

(** Taking a computation that returned apart. *)
Ltac ok_inv_step :=
  match goal with
  | H : rbind _ _ = Ok _ |- _ => apply rbind_inv in H as (? & ? & H)
  | H : Ok _ = Ok _ |- _ => injection H as ?; subst
  | H : Fault = Ok _ |- _ => discriminate H
  | H : Hang = Ok _ |- _ => discriminate H
  | x : (_ * _)%type |- _ => destruct x
  | H : match ?x with _ => _ end = Ok _ |- _ => destruct x eqn:?
  end.
Ltac ok_inv := repeat (ok_inv_step; cbn [fst snd] in *); subst; try discriminate.

Create HintDb typed discriminated.
#[export] Hint Constants Opaque : typed.

Section fs_types.
Context {S : Type} `{BlockOps S}.
Implicit Types (fs : fsys S) (ip : nat).

Lemma fs_ok_ext fs fs' : icache fs' = icache fs → fs_ok fs → fs_ok fs'.
Proof. intros E [H1 H2]. by split; rewrite E. Qed.

Lemma fs_ok_set_blk fs s : fs_ok fs → fs_ok (set_blk fs s).
Proof. by apply fs_ok_ext. Qed.
Lemma fs_ok_fset fs b data : fs_ok fs → fs_ok (fset fs b data).
Proof. by apply fs_ok_ext. Qed.
Lemma fs_ok_fbrelse fs b : fs_ok fs → fs_ok (fbrelse fs b).
Proof. by apply fs_ok_ext. Qed.
Lemma fs_ok_fprint fs msg : fs_ok fs → fs_ok (fprint fs msg).
Proof. by apply fs_ok_ext. Qed.
Lemma fs_ok_set_sb fs sb : fs_ok fs → fs_ok (set_sb fs sb).
Proof. by apply fs_ok_ext. Qed.
Lemma fs_ok_fputs fs cs : fs_ok fs → fs_ok (fputs fs cs).
Proof. by apply fs_ok_ext. Qed.
Lemma fs_ok_iunlock fs ip : fs_ok fs → fs_ok (iunlock fs ip).
Proof. unfold iunlock. case_match; [apply fs_ok_fprint|done]. Qed.

Lemma fs_ok_if (b : bool) fs fs' : fs_ok fs → fs_ok fs' → fs_ok (if b then fs else fs').
Proof. by destruct b. Qed.

(** A change of one inode. *)
Lemma fs_ok_upd fs ip f : (∀ x, inode_ok x → inode_ok (f x)) → fs_ok fs → fs_ok (upd_inode fs ip f).
Proof.
  intros Hf [H1 H2]. split; cbn; [by rewrite length_alter|].
  apply Forall_alter; auto.
Qed.

Lemma inode_ok_set_addr x k a : inode_ok x → inode_ok (set_addr x k a).
Proof. unfold inode_ok. cbn. by rewrite length_zset. Qed.
Lemma inode_ok_load x bs off : inode_ok (load_dinode x (dec_dinode bs off)).
Proof. reflexivity. Qed.

Lemma slot_lookup fs i x : fs_ok fs → icache fs !! i = Some x → slot_ok i.
Proof. intros [E _] Hx%lookup_lt_Some. unfold slot_ok. lia. Qed.

Lemma iget_scan_slot ic i e dev inum :
  match iget_scan ic i e dev inum with
  | inl j => (i ≤ j < i + length ic)%nat
  | inr (Some j) => e = Some j ∨ (i ≤ j < i + length ic)%nat
  | inr None => True
  end.
Proof.
  revert i e. induction ic as [|x ic IH]; intros i e; cbn [iget_scan length].
  { destruct e; [by left|done]. }
  destruct (_ && _); [lia|]. set (e' := match e with Some _ => _ | None => _ end).
  specialize (IH (i + 1)%nat e'). destruct (iget_scan ic (i + 1) e' dev inum) as [j|[j|]]; [lia| |done].
  destruct IH as [E|]; [|right; lia]. unfold e' in E. destruct e as [e0|]; [by left|].
  destruct (i_ref x =? 0); [|done]. injection E as <-. right. lia.
Qed.
End fs_types.

#[export] Hint Resolve fs_ok_set_blk fs_ok_fset fs_ok_fbrelse fs_ok_fprint fs_ok_set_sb fs_ok_fputs
  fs_ok_iunlock fs_ok_if : typed.
#[export] Hint Resolve oslot_ok_None oslot_ok_Some : typed.
#[export] Hint Resolve inode_ok_set_addr inode_ok_load : typed.
#[export] Hint Resolve fs_ok_upd : typed.
#[export] Hint Extern 1 (inode_ok _) => match goal with H : inode_ok _ |- _ => exact H end : typed.

(** The functions that answer a state and more. *)
Ltac typed := intros; ok_inv; cbn beta iota in *; cbn [fst snd] in *; split_and?; eauto 60 with typed.

(** [H] is a loop that keeps [I] and ends with [Q]: one turn is left to show. *)
Ltac loop I Q H := apply (while_keeps I Q) in H; [exact H || idtac | clear H | cbn; auto].

Section fs_ops.
Context {S : Type} `{BlockOps S}.
Implicit Types (fs : fsys S) (ip : nat).

Lemma fbread_typed fs dev b fs' bp : fbread fs dev b = Ok (fs', bp) → fs_ok fs → fs_ok fs'.
Proof. unfold fbread. typed. Qed.
Lemma fbwrite_typed fs b fs' : fbwrite fs b = Ok fs' → fs_ok fs → fs_ok fs'.
Proof. unfold fbwrite. typed. Qed.
#[local] Hint Resolve fbread_typed fbwrite_typed : typed.

Lemma readsb_typed fs dev fs' sb : readsb fs dev = Ok (fs', sb) → fs_ok fs → fs_ok fs'.
Proof. unfold readsb. typed. Qed.
Lemma bzero_typed fs dev b fs' : bzero fs dev b = Ok fs' → fs_ok fs → fs_ok fs'.
Proof. unfold bzero. typed. Qed.
#[local] Hint Resolve readsb_typed bzero_typed : typed.

Lemma balloc_typed fs dev fs' a : balloc fs dev = Ok (fs', a) → fs_ok fs → fs_ok fs'.
Proof.
unfold balloc. intros Hb Hfs. loop (λ s : fsys S * Z, fs_ok s.1) (λ r : fsys S * Z, fs_ok r.1) Hb.
intros [fs1 b] x Hf1 Hx. cbn [balloc_step] in Hx. typed.
Qed.
Lemma bfree_typed fs dev b fs' : bfree fs dev b = Ok fs' → fs_ok fs → fs_ok fs'.
Proof. unfold bfree. typed. Qed.
Lemma iupdate_typed fs ip fs' : iupdate fs ip = Ok fs' → fs_ok fs → fs_ok fs'.
Proof. unfold iupdate. typed. Qed.
Lemma iinit_typed fs dev fs' : iinit fs dev = Ok fs' → fs_ok fs → fs_ok fs'.
Proof. unfold iinit. typed. Qed.
#[local] Hint Resolve balloc_typed bfree_typed iupdate_typed iinit_typed : typed.

Lemma iget_typed fs dev inum fs' ip :
iget fs dev inum = Ok (fs', ip) → fs_ok fs → fs_ok fs' ∧ slot_ok ip.
Proof.
unfold iget. intros Hg Hfs. pose proof (iget_scan_slot (icache fs) 0 None dev inum) as Hs.
pose proof (fo_cache _ Hfs) as Hl. unfold slot_ok.
destruct (iget_scan _ _ _ _ _) as [j|[j|]]; ok_inv; (split; [eauto with typed|]);
  [lia | destruct Hs; [done|lia]].
Qed.
Lemma iget_typed_fs fs dev inum fs' ip : iget fs dev inum = Ok (fs', ip) → fs_ok fs → fs_ok fs'.
Proof. intros. by eapply iget_typed. Qed.
Lemma iget_typed_slot fs dev inum fs' ip : iget fs dev inum = Ok (fs', ip) → fs_ok fs → slot_ok ip.
Proof. intros. by eapply iget_typed. Qed.
#[local] Hint Resolve iget_typed_fs iget_typed_slot : typed.

Lemma ialloc_typed fs dev type fs' o :
ialloc fs dev type = Ok (fs', o) → fs_ok fs → fs_ok fs' ∧ oslot_ok o.
Proof.
unfold ialloc. intros Hb Hfs.
loop (λ s : fsys S * Z, fs_ok s.1) (λ r : fsys S * option nat, fs_ok r.1 ∧ oslot_ok r.2) Hb.
intros [fs1 b] x Hf1 Hx. cbn [ialloc_step fst snd] in *. ok_inv; cbn [fst snd]; typed.
Qed.

Lemma idup_typed fs ip : fs_ok fs → fs_ok (idup fs ip).1.
Proof. unfold idup. cbn [fst]. eauto with typed. Qed.
Lemma ilock_typed fs ip fs' : ilock fs ip = Ok fs' → fs_ok fs → fs_ok fs'.
Proof. unfold ilock. typed. Qed.
Lemma bmap_entry_typed fs dev a bn fs' r :
bmap_entry fs dev a bn = Ok (fs', r) → fs_ok fs → fs_ok fs'.
Proof. unfold bmap_entry. typed. Qed.
#[local] Hint Resolve idup_typed ilock_typed bmap_entry_typed : typed.
Lemma bmap_typed fs ip bn fs' r : bmap fs ip bn = Ok (fs', r) → fs_ok fs → fs_ok fs'.
Proof. unfold bmap. typed. Qed.
#[local] Hint Resolve bmap_typed : typed.

Lemma itrunc_direct_typed n fs ip i fs' : itrunc_direct fs ip i n = Ok fs' → fs_ok fs → fs_ok fs'.
Proof. revert fs i. induction n; intros fs i; cbn [itrunc_direct]; typed. Qed.
Lemma itrunc_indirect_typed n fs ip bp j fs' :
itrunc_indirect fs ip bp j n = Ok fs' → fs_ok fs → fs_ok fs'.
Proof. revert fs j. induction n; intros fs j; cbn [itrunc_indirect]; typed. Qed.
#[local] Hint Resolve itrunc_direct_typed itrunc_indirect_typed : typed.
Lemma itrunc_typed fs ip fs' : itrunc fs ip = Ok fs' → fs_ok fs → fs_ok fs'.
Proof. unfold itrunc. typed. Qed.
#[local] Hint Resolve itrunc_typed : typed.
Lemma iput_typed fs ip fs' : iput fs ip = Ok fs' → fs_ok fs → fs_ok fs'.
Proof. unfold iput. typed. Qed.
#[local] Hint Resolve iput_typed : typed.
Lemma iunlockput_typed fs ip fs' : iunlockput fs ip = Ok fs' → fs_ok fs → fs_ok fs'.
Proof. unfold iunlockput. typed. Qed.

(** * Contents *)

Lemma readi_typed fs ip off n fs' bs r : readi fs ip off n = Ok (fs', bs, r) → fs_ok fs → fs_ok fs'.
Proof.
unfold readi. intros Hr Hfs. ok_inv; eauto with typed;
  loop (λ s : fsys S * Z * Z * list Z, fs_ok s.1.1.1) (λ r : fsys S * list Z, fs_ok r.1) H0;
  intros [[[fs1 tot] o] acc] x Hf1 Hx; cbn [readi_step fst snd] in *; typed.
Qed.
Lemma write_part_typed fs ip off m src fs' : write_part fs ip off m src = Ok fs' → fs_ok fs → fs_ok fs'.
Proof. unfold write_part. typed. Qed.
Lemma dev_write_typed fs ip fn src n fs' r :
dev_write fs ip fn src n = Ok (fs', r) → fs_ok fs → fs_ok fs'.
Proof. unfold dev_write. typed. Qed.
#[local] Hint Resolve write_part_typed dev_write_typed : typed.

Lemma writei_loop_typed fs ip n off src r :
while (2 ^ 32) (writei_step ip n) (fs, 0, off, src) = Ok r → fs_ok fs → fs_ok r.1.
Proof.
intros Hr Hfs. loop (λ s : fsys S * Z * Z * list Z, fs_ok s.1.1.1) (λ r : fsys S * Z, fs_ok r.1) Hr.
intros [[[fs1 tot] o] acc] x Hf1 Hx; cbn [writei_step fst snd] in *; typed.
Qed.
Lemma writei_typed fs ip src off n fs' r : writei fs ip src off n = Ok (fs', r) → fs_ok fs → fs_ok fs'.
Proof.
unfold writei. intros Hr Hfs. ok_inv; eauto with typed;
  match goal with H : while _ _ _ = Ok _ |- _ => apply writei_loop_typed in H; [|done] end;
  cbn [fst] in *; eauto with typed.
Qed.
End fs_ops.

#[export] Hint Resolve fbread_typed fbwrite_typed readsb_typed bzero_typed balloc_typed bfree_typed
  iupdate_typed iinit_typed iget_typed_fs iget_typed_slot idup_typed ilock_typed bmap_entry_typed
  bmap_typed itrunc_typed iput_typed iunlockput_typed readi_typed write_part_typed dev_write_typed
  writei_typed : typed.

Section dir_ops.
Context {S : Type} `{BlockOps S}.
Implicit Types (fs : fsys S) (dp : nat).

Lemma ialloc_typed_fs fs dev type fs' o : ialloc fs dev type = Ok (fs', o) → fs_ok fs → fs_ok fs'.
Proof. intros. by eapply ialloc_typed. Qed.
Lemma ialloc_typed_slot fs dev type fs' ip :
ialloc fs dev type = Ok (fs', Some ip) → fs_ok fs → slot_ok ip.
Proof. intros Hi Hfs. by apply (ialloc_typed _ _ _ _ _ Hi Hfs). Qed.

Lemma read_de_typed fs dp de off msg fs' de' :
read_de fs dp de off msg = Ok (fs', de') → fs_ok fs → fs_ok fs'.
Proof. unfold read_de. typed. Qed.
#[local] Hint Resolve read_de_typed : typed.

Lemma dirlookup_typed fs dp name fs' r :
dirlookup fs dp name = Ok (fs', r) → fs_ok fs → fs_ok fs' ∧ oslot_ok (fst <$> r).
Proof.
unfold dirlookup. intros Hr Hfs.
loop (λ s : fsys S * Z * list Z, fs_ok s.1.1)
  (λ r : fsys S * option (nat * Z), fs_ok r.1 ∧ oslot_ok (fst <$> r.2)) Hr.
- intros [[fs1 off] de] x Hf1 Hx. cbn [dirlookup_step fst snd] in *. ok_inv; cbn [fst snd fmap option_fmap option_map]; typed.
- cbn. eauto with typed.
Qed.
Lemma dirlookup_typed_fs fs dp name fs' r : dirlookup fs dp name = Ok (fs', r) → fs_ok fs → fs_ok fs'.
Proof. intros. by eapply dirlookup_typed. Qed.
Lemma dirlookup_typed_slot fs dp name fs' ip off :
dirlookup fs dp name = Ok (fs', Some (ip, off)) → fs_ok fs → slot_ok ip.
Proof. intros Hi Hfs. by apply (dirlookup_typed _ _ _ _ _ Hi Hfs). Qed.
#[local] Hint Resolve dirlookup_typed_fs dirlookup_typed_slot : typed.

Lemma dirlink_loop_typed fs dp r :
while (2 ^ 32) (dirlink_step dp) (fs, 0, []) = Ok r → fs_ok fs → fs_ok r.1.
Proof.
intros Hr Hfs. loop (λ s : fsys S * Z * list Z, fs_ok s.1.1) (λ r : fsys S * Z, fs_ok r.1) Hr.
intros [[fs1 off] de] x Hf1 Hx. cbn [dirlink_step fst snd] in *. typed.
Qed.
Lemma dirlink_typed fs dp name inum fs' r :
dirlink fs dp name inum = Ok (fs', r) → fs_ok fs → fs_ok fs'.
Proof.
unfold dirlink. intros Hr Hfs. ok_inv; eauto with typed.
apply dirlink_loop_typed in H1; cbn [fst] in *; eauto 60 with typed.
Qed.

Lemma namex_typed fs cwd path np name fs' o name' :
namex fs cwd path np name = Ok (fs', o, name') → fs_ok fs →
((¬ at_end path ∧ zget path 0 = SLASH) ∨ slot_ok cwd) → fs_ok fs' ∧ oslot_ok o.
Proof.
unfold namex. intros Hr Hfs Hc. apply rbind_inv in Hr as ([fs1 ip] & H1 & Hr). cbn [fst snd] in Hr.
assert (fs_ok fs1 ∧ slot_ok ip) as [Hf1 Hip].
{ destruct (negb (at_end path) && (zget path 0 =? SLASH)) eqn:E; [typed|].
  injection H1 as <- <-. split; [by apply idup_typed|]. destruct Hc as [[Hc E2]|]; [|done].
  rewrite E2 in E. destruct (at_end path); [by destruct Hc | done]. }
loop (λ s : fsys S * nat * list Z * list Z, fs_ok s.1.1.1 ∧ slot_ok s.1.1.2)
  (λ r : fsys S * option nat * list Z, fs_ok r.1.1 ∧ oslot_ok r.1.2) Hr.
intros [[[fs2 ip2] path2] name2] x [Hf2 Hi2] Hx. cbn [namex_step fst snd] in *.
ok_inv; cbn [fst snd]; typed.
Qed.
End dir_ops.

#[export] Hint Resolve ialloc_typed_fs ialloc_typed_slot dirlookup_typed_fs dirlookup_typed_slot
  dirlink_typed : typed.
