(* ===== verification/FsBlocks.v ===== *)
(** fs/fs.c: what the block operations do to the disk, over any block layer:
    transactions on one block, the free-block bitmap, [balloc], [bfree]. *)
From S2P Require Import Prelude LibC Ide Ports Block FsLayout Fs.

(** * One block at a time *)

(** No held buffer is for the block. *)
Definition not_held (h : held) (dev bno : Z) : Prop :=
  ∀ i x, h !! i = Some x → (h_dev x, h_bno x) ≠ (dev, bno).

Lemma not_held_insert h i x dev bno :
  not_held h dev bno → (h_dev x, h_bno x) ≠ (dev, bno) → not_held (<[i := x]> h) dev bno.
Proof.
  intros Hh Hx j y. destruct (decide (i = j)) as [->|Hne].
  - rewrite lookup_insert_eq. intros [= <-]. done.
  - rewrite lookup_insert_ne by done. apply Hh.
Qed.

Lemma disk_set_eq d dev bno data : disk_set d dev bno data dev bno = data.
Proof. unfold disk_set. by rewrite decide_True. Qed.
Lemma disk_set_ne d dev bno data dev' bno' :
  dev' ≠ dev ∨ bno' ≠ bno → disk_set d dev bno data dev' bno' = d dev' bno'.
Proof. intros Hne. unfold disk_set. rewrite decide_False; [done|]. intros (-> & ->). tauto. Qed.

Section transactions.
Context {S : Type} `{BlockLayer S}.
Implicit Types (fs : fsys S) (s : S) (d : disk) (h : held).

(** [bread] of a block that is not held, and what can follow: releasing it, or
  storing to it, writing it and releasing it. *)
Lemma with_block fs d h dev bno :
bl_rep (f_blk fs) d h → block_ok dev bno → (size h < NHELD)%nat → not_held h dev bno →
∃ s b, fbread fs dev bno = Ok (set_blk fs s, b) ∧ bl_data s b = d dev bno ∧ h !! b = None ∧
  bl_rep s d (<[b := mk_hbuf dev bno 1 (d dev bno)]> h) ∧
  bl_rep (bl_release s b) d h ∧
  ∀ data, length data = 512%nat →
    ∃ s', bl_write (bl_set s b data) b = Ok s' ∧
      bl_rep (bl_release s' b) (disk_set d dev bno data) h.
Proof.
intros Hr Hok Hs Hh. destruct (bl_read_rep _ _ _ _ _ Hr Hok Hs Hh) as (s & b & E & Hb & Hr1).
set (h1 := <[b := mk_hbuf dev bno 1 (d dev bno)]> h) in *.
assert (h1 !! b = Some (mk_hbuf dev bno 1 (d dev bno))) as Hx by apply lookup_insert_eq.
exists s, b. unfold fbread. rewrite E. split; [done|].
split; [exact (proj1 (bl_data_rep _ _ _ _ _ Hr1 Hx))|]. split; [done|]. split; [done|].
split.
- pose proof (bl_release_rep _ _ _ _ _ Hr1 Hx eq_refl eq_refl) as Hr2.
  unfold h1 in Hr2. by rewrite delete_insert_id in Hr2.
- intros data Hlen. pose proof (bl_set_rep _ _ _ _ _ data Hr1 Hx Hlen) as Hr2.
  cbn [h_dev h_bno h_cnt] in Hr2. unfold h1 in Hr2. rewrite insert_insert_eq in Hr2.
  set (h2 := <[b := mk_hbuf dev bno 1 data]> h) in *.
  assert (h2 !! b = Some (mk_hbuf dev bno 1 data)) as Hx2 by apply lookup_insert_eq.
  destruct (bl_write_rep _ _ _ _ _ Hr2 Hx2) as (s' & E' & Hr3). cbn in Hr3.
  exists s'. split; [done|].
  pose proof (bl_release_rep _ _ _ _ _ Hr3 Hx2 eq_refl) as Hr4. cbn in Hr4.
  unfold h2 in Hr4. rewrite delete_insert_id in Hr4 by done. apply Hr4.
  by rewrite disk_set_eq.
Qed.

Lemma readsb_spec fs d h dev :
bl_rep (f_blk fs) d h → block_ok dev 1 → (size h < NHELD)%nat → not_held h dev 1 →
∃ s, readsb fs dev = Ok (set_blk fs s, dec_sb (d dev 1)) ∧ bl_rep s d h.
Proof.
intros Hr Hok Hs Hh. destruct (with_block fs d h dev 1 Hr Hok Hs Hh)
  as (s & b & E & Hd & _ & _ & Hrel & _).
unfold readsb. rewrite E. cbn [rbind]. unfold fdata. cbn [f_blk set_blk]. rewrite Hd.
eexists; split; [reflexivity | done].
Qed.

Lemma bzero_spec fs d h dev bno :
bl_rep (f_blk fs) d h → block_ok dev bno → (size h < NHELD)%nat → not_held h dev bno →
∃ s, bzero fs dev bno = Ok (set_blk fs s) ∧
  bl_rep s (disk_set d dev bno (replicate 512 0)) h.
Proof.
intros Hr Hok Hs Hh. destruct (with_block fs d h dev bno Hr Hok Hs Hh)
  as (s & b & E & _ & _ & _ & _ & Hw).
destruct (Hw (replicate 512 0)) as (s' & E' & Hr'); [apply length_replicate|].
unfold bzero. rewrite E. cbn [rbind]. unfold fset, fbwrite. cbn [f_blk set_blk].
change (Z.to_nat BSIZE) with 512%nat. rewrite E'. cbn [rbind].
eexists; split; [reflexivity | exact Hr'].
Qed.
End transactions.

(** * The bitmap *)

(** The mask of a bit within its byte, and setting and clearing it. *)
Definition set_bit (data : list Z) (bi : Z) : list Z :=
  zset data (bi / 8) (u8 (Z.lor (zget data (bi / 8)) (Z.shiftl 1 (bi mod 8)))).
Definition clear_bit (data : list Z) (bi : Z) : list Z :=
  zset data (bi / 8) (u8 (Z.land (zget data (bi / 8)) (Z.lnot (Z.shiftl 1 (bi mod 8))))).

Lemma bit_clear_testbit data bi :
  bit_clear data bi = negb (Z.testbit (zget data (bi / 8)) (bi mod 8)).
Proof.
  unfold bit_clear. set (x := zget data (bi / 8)).
  assert (0 ≤ bi mod 8) by (apply Z.mod_pos_bound; lia). generalize dependent (bi mod 8).
  intros k Hk. rewrite Z.shiftl_1_l. destruct (Z.testbit x k) eqn:E; cbn [negb].
  - apply Z.eqb_neq. intros E0. apply (f_equal (λ v, Z.testbit v k)) in E0.
    rewrite Z.land_spec, E, Z.pow2_bits_true, Z.bits_0 in E0 by done. discriminate.
  - apply Z.eqb_eq. Zbits. rewrite Z.bits_0, Z.pow2_bits_eqb by done.
    destruct (Z.eqb_spec k i) as [->|]; [by rewrite E|]. apply andb_false_r.
Qed.

Lemma testbit_u8 x k : 0 ≤ k < 8 → Z.testbit (u8 x) k = Z.testbit x k.
Proof. intros Hk. unfold u8. by rewrite Z.mod_pow2_bits_low by lia. Qed.

Lemma bit_clear_set data bi bj :
  0 ≤ bi < 8 * Z.of_nat (length data) → 0 ≤ bj →
  bit_clear (set_bit data bi) bj = if decide (bj = bi) then false else bit_clear data bj.
Proof.
  intros Hi Hj. rewrite !bit_clear_testbit. unfold set_bit.
  destruct (decide (bj / 8 = bi / 8)) as [E|E].
  - rewrite E, zget_zset_eq by zlia. rewrite testbit_u8, Z.lor_spec, Z.shiftl_1_l by zlia.
    rewrite Z.pow2_bits_eqb by zlia. destruct (decide (bj = bi)) as [->|Hne].
    + by rewrite Z.eqb_refl, orb_true_r.
    + rewrite (proj2 (Z.eqb_neq _ _)) by zlia. by rewrite orb_false_r.
  - rewrite zget_zset_ne by zlia. rewrite decide_False; [done|]. congruence.
Qed.

Lemma bit_clear_clear data bi bj :
  0 ≤ bi < 8 * Z.of_nat (length data) → 0 ≤ bj →
  bit_clear (clear_bit data bi) bj = if decide (bj = bi) then true else bit_clear data bj.
Proof.
  intros Hi Hj. rewrite !bit_clear_testbit. unfold clear_bit.
  destruct (decide (bj / 8 = bi / 8)) as [E|E].
  - rewrite E, zget_zset_eq by zlia.
    rewrite testbit_u8, Z.land_spec, Z.lnot_spec, Z.shiftl_1_l by zlia.
    rewrite Z.pow2_bits_eqb by zlia. destruct (decide (bj = bi)) as [->|Hne].
    + by rewrite Z.eqb_refl, andb_false_r.
    + rewrite (proj2 (Z.eqb_neq _ _)) by zlia. by rewrite andb_true_r.
  - rewrite zget_zset_ne by zlia. rewrite decide_False; [done|]. congruence.
Qed.

(** The inner loop of [balloc] finds the first clear bit in range. *)
Lemma free_bit_spec data b size :
  0 ≤ b → b + 4096 < 2 ^ 32 →
  ∃ o, free_bit data b size = Ok o ∧
    match o with
    | Some bi => 0 ≤ bi < BPB ∧ b + bi < size ∧ bit_clear data bi = true ∧
        ∀ j, 0 ≤ j < bi → bit_clear data j = false
    | None => ∀ j, 0 ≤ j < BPB → b + j < size → bit_clear data j = false
    end.
Proof.
  intros Hb Hb2. unfold free_bit. change BPB with 4096.
  apply (while_spec
    (λ bi, 0 ≤ bi ≤ 4096 ∧ ∀ j, 0 ≤ j < bi → bit_clear data j = false) (λ bi, 4096 - bi)).
  - lia.
  - intros bi (Hbi & Hj). destruct (Z.ltb_spec bi 4096); cbn [andb]; [|].
    + rewrite u32_small by lia. destruct (Z.ltb_spec (b + bi) size); cbn [andb].
      * destruct (bit_clear data bi) eqn:E.
        -- right. eexists; split; [reflexivity|].
           split; [lia|]. split; [lia|]. split; [exact E | exact Hj].
        -- left. eexists; split; [reflexivity|]. split; [|lia]. split; [lia|].
           intros j Hj'. destruct (decide (j = bi)) as [->|]; [done|]. apply Hj. lia.
      * right. eexists; split; [reflexivity|]. intros j ? ?. apply Hj. lia.
    + right. eexists; split; [reflexivity|]. intros j ? ?. apply Hj. lia.
  - split; [lia|]. intros; lia.
  - lia.
Qed.

(** * The layout of a file system *)

(** boot block, super block, inodes, bitmap, data, as mkfs lays them out. *)
Definition dstart (sb : superblock) : Z := sb_bmapstart sb + sb_size sb / BPB + 1.

Record sb_wf (sb : superblock) : Prop := {
  sw_size : 0 ≤ sb_size sb ≤ 2 ^ 27;
  sw_inode : 2 ≤ sb_inodestart sb;
  sw_ninodes : 0 ≤ sb_ninodes sb;
  sw_bmap : sb_inodestart sb + sb_ninodes sb / IPB < sb_bmapstart sb;
  sw_data : dstart sb ≤ sb_size sb
}.

#[export] Instance sb_wf_dec sb : Decision (sb_wf sb).
Proof.
  destruct (decide (0 ≤ sb_size sb ≤ 2 ^ 27 ∧ 2 ≤ sb_inodestart sb ∧ 0 ≤ sb_ninodes sb ∧
    sb_inodestart sb + sb_ninodes sb / IPB < sb_bmapstart sb ∧ dstart sb ≤ sb_size sb))
    as [(H1 & H2 & H3 & H4 & H5)|Hn]; [left; by split | right; intros [H1 H2 H3 H4 H5]; auto 10].
Defined.

Definition data_block (sb : superblock) (b : Z) : Prop := dstart sb ≤ b < sb_size sb.

(** The bitmap's opinion of block [b]. *)
Definition used (sb : superblock) (d : disk) (dev b : Z) : bool :=
  negb (bit_clear (d dev (BBLOCK b sb)) (b mod BPB)).

Definition mark_used (sb : superblock) (d : disk) (dev b : Z) : disk :=
  disk_set d dev (BBLOCK b sb) (set_bit (d dev (BBLOCK b sb)) (b mod BPB)).
Definition mark_free (sb : superblock) (d : disk) (dev b : Z) : disk :=
  disk_set d dev (BBLOCK b sb) (clear_bit (d dev (BBLOCK b sb)) (b mod BPB)).

(** The boot block to the bitmap are in use. *)
Definition meta_used (sb : superblock) (d : disk) (dev : Z) : Prop :=
  ∀ b, 0 ≤ b < dstart sb → used sb d dev b = true.

(** Held blocks are data blocks in use. *)
Definition held_data (sb : superblock) (d : disk) (dev : Z) (h : held) : Prop :=
  ∀ i x, h !! i = Some x → h_dev x = dev → data_block sb (h_bno x) ∧ used sb d dev (h_bno x) = true.

Section layout.
Context (sb : superblock) (Hsb : sb_wf sb).
Implicit Types (d : disk) (h : held) (b : Z).

Lemma BBLOCK_eq b : 0 ≤ b < sb_size sb → BBLOCK b sb = b / 4096 + sb_bmapstart sb.
Proof.
intros Hb. destruct Hsb as [H1 H2 H3 H4 H5]. unfold dstart, BBLOCK, IPB, BPB, BSIZE in *.
change (512 * 8) with 4096 in *. change (512 / 64) with 8 in *. apply u32_small. zlia.
Qed.

Lemma BBLOCK_range b :
0 ≤ b < sb_size sb → sb_bmapstart sb ≤ BBLOCK b sb < dstart sb ∧ 2 < BBLOCK b sb.
Proof.
intros Hb. rewrite BBLOCK_eq by done. destruct Hsb as [H1 H2 H3 H4 H5].
unfold dstart, IPB, BPB, BSIZE in *.
change (512 * 8) with 4096 in *. change (512 / 64) with 8 in *. zlia.
Qed.

Lemma IBLOCK_range i :
0 ≤ i < sb_ninodes sb →
IBLOCK i sb = i / 8 + sb_inodestart sb ∧ 2 ≤ IBLOCK i sb < sb_bmapstart sb.
Proof.
intros Hi. destruct Hsb as [H1 H2 H3 H4 H5].
unfold IBLOCK, dstart, IPB, BPB, BSIZE in *.
change (512 * 8) with 4096 in *. change (512 / 64) with 8 in *.
rewrite u32_small by zlia. zlia.
Qed.

Context (dev : Z).

Lemma used_mark_used d b b' :
length (d dev (BBLOCK b sb)) = 512%nat → 0 ≤ b < sb_size sb → 0 ≤ b' < sb_size sb →
used sb (mark_used sb d dev b) dev b' = if decide (b' = b) then true else used sb d dev b'.
Proof.
intros Hl Hb Hb'. unfold used, mark_used. pose proof (BBLOCK_eq b Hb) as E.
pose proof (BBLOCK_eq b' Hb') as E'. unfold BPB, BSIZE in *. change (512 * 8) with 4096 in *.
destruct (decide (BBLOCK b' sb = BBLOCK b sb)) as [Eb|Eb].
- rewrite Eb, disk_set_eq, bit_clear_set by zlia. rewrite Eb in E'.
  destruct (decide (b' = b)) as [->|Hne]; [by rewrite decide_True|].
  rewrite decide_False by zlia. done.
- rewrite disk_set_ne by auto. rewrite decide_False; [done | congruence].
Qed.

Lemma used_mark_free d b b' :
length (d dev (BBLOCK b sb)) = 512%nat → 0 ≤ b < sb_size sb → 0 ≤ b' < sb_size sb →
used sb (mark_free sb d dev b) dev b' = if decide (b' = b) then false else used sb d dev b'.
Proof.
intros Hl Hb Hb'. unfold used, mark_free. pose proof (BBLOCK_eq b Hb) as E.
pose proof (BBLOCK_eq b' Hb') as E'. unfold BPB, BSIZE in *. change (512 * 8) with 4096 in *.
destruct (decide (BBLOCK b' sb = BBLOCK b sb)) as [Eb|Eb].
- rewrite Eb, disk_set_eq, bit_clear_clear by zlia. rewrite Eb in E'.
  destruct (decide (b' = b)) as [->|Hne]; [by rewrite decide_True|].
  rewrite decide_False by zlia. done.
- rewrite disk_set_ne by auto. rewrite decide_False; [done | congruence].
Qed.

(** The bitmap is not changed by writes elsewhere. *)
Lemma used_disk_set d bno data b :
0 ≤ b < sb_size sb → bno ≠ BBLOCK b sb →
used sb (disk_set d dev bno data) dev b = used sb d dev b.
Proof.
intros Hb Hne. unfold used.
by rewrite disk_set_ne by auto.
Qed.

Lemma held_meta d h bno :
held_data sb d dev h → bno < dstart sb → not_held h dev bno.
Proof. intros Hh Hb i x Hx [= E1 E2]. destruct (Hh i x Hx E1) as (Hr & _). unfold data_block in Hr. lia. Qed.

Lemma held_unused d h b :
held_data sb d dev h → used sb d dev b = false → not_held h dev b.
Proof. intros Hh Hb i x Hx [= E1 E2]. destruct (Hh i x Hx E1) as (_ & Hu). congruence. Qed.
Context (Hdev : 0 ≤ dev < 2).

Lemma block_ok_lt b : 1 ≤ b < sb_size sb → block_ok dev b.
Proof.
intros Hb. destruct Hsb as [H1 _ _ _ _]. split; [done|]. split; [lia|]. intros [= ? ?]. lia.
Qed.
End layout.

(** * balloc and bfree *)

Section alloc.
Context {S : Type} `{BlockLayer S}.
Implicit Types (fs : fsys S) (s : S) (h : held).
Context (sb : superblock) (Hsb : sb_wf sb) (dev : Z) (Hdev : 0 ≤ dev < 2).

(** The disk after [balloc] took [b]. *)
Definition alloc_disk (d : disk) (b : Z) : disk :=
disk_set (mark_used sb d dev b) dev b (replicate 512 0).

Definition balloc_ok fs (d : disk) h '((fs', r) : fsys S * Z) : Prop :=
(∃ s, data_block sb r ∧ used sb d dev r = false ∧
   (∀ b, 0 ≤ b < r → used sb d dev b = true) ∧
   fs' = set_blk fs s ∧ bl_rep s (alloc_disk d r) h) ∨
(∃ s, r = 2 ^ 32 - 1 ∧ (∀ b, 0 ≤ b < sb_size sb → used sb d dev b = true) ∧
   fs' = fprint (set_blk fs s) "balloc: out of blocks" ∧ bl_rep s d h).

Lemma balloc_turn fs d h k :
f_sb fs = sb → bl_rep (f_blk fs) d h → (size h < NHELD)%nat → meta_used sb d dev →
held_data sb d dev h → 0 ≤ k → 4096 * k < sb_size sb →
(∀ b, 0 ≤ b < 4096 * k → used sb d dev b = true) →
(∃ s, balloc_step dev (fs, 4096 * k) = Ok (inl (set_blk fs s, 4096 * (k + 1))) ∧
   bl_rep s d h ∧ ∀ b, 0 ≤ b < 4096 * (k + 1) → b < sb_size sb → used sb d dev b = true) ∨
(∃ r, balloc_step dev (fs, 4096 * k) = Ok (inr r) ∧ balloc_ok fs d h r).
Proof.
intros Efs Hr Hs Hm Hh Hk Hlt Hpre. pose proof (sw_size _ Hsb) as Hsize.
unfold balloc_step. rewrite u32_small, Efs by lia. rewrite (proj2 (Z.ltb_lt _ _) Hlt).
set (bm := BBLOCK (4096 * k) sb).
pose proof (BBLOCK_range sb Hsb (4096 * k) ltac:(lia)) as (Hbm & Hbm2). fold bm in Hbm, Hbm2.
assert (block_ok dev bm) as Hok
  by (apply (block_ok_lt sb Hsb dev Hdev); pose proof (sw_data _ Hsb); lia).
assert (length (d dev bm) = 512%nat) as Hlen by (by apply (bl_sector _ _ _ _ _ Hr)).
assert (∀ j, 0 ≤ j < 4096 → 4096 * k + j < sb_size sb →
  used sb d dev (4096 * k + j) = negb (bit_clear (d dev bm) j)) as Hu.
{ intros j Hj Hj2. unfold used, bm. rewrite !(BBLOCK_eq sb Hsb) by lia.
  replace ((4096 * k + j) / 4096) with (4096 * k / 4096) by zlia.
  unfold BPB, BSIZE. change (512 * 8) with 4096. by replace ((4096 * k + j) mod 4096) with j by zlia. }
destruct (with_block fs d h dev bm Hr Hok Hs) as (s & bp & E & Hd & _ & _ & Hrel & Hw);
  [apply (held_meta sb dev d h); [done | lia]|].
rewrite E. cbn [rbind]. unfold fdata. cbn [f_blk set_blk f_sb]. rewrite Hd, Efs.
destruct (free_bit_spec (d dev bm) (4096 * k) (sb_size sb)) as (o & -> & Ho); [lia|lia|].
cbn [rbind]. destruct o as [bi|].
- right. destruct Ho as (Hbi & Hbs & Hclear & Hmin). change BPB with 4096 in Hbi.
  set (r := 4096 * k + bi) in *.
  assert (used sb d dev r = false) as Hr0 by (unfold r; rewrite Hu, Hclear by lia; done).
  assert (data_block sb r) as Hrd.
  { split; [|done]. destruct (decide (r < dstart sb)) as [Hlo|]; [|lia].
    rewrite Hm in Hr0 by lia. discriminate. }
  assert (r / 4096 = k ∧ r mod 4096 = bi) as (Ek & Ebi) by (unfold r; zlia).
  assert (mark_used sb d dev r = disk_set d dev bm (set_bit (d dev bm) bi)) as Emark.
  { unfold mark_used, bm. rewrite !(BBLOCK_eq sb Hsb) by lia. unfold BPB, BSIZE.
    change (512 * 8) with 4096. rewrite Ek, Ebi. by replace (4096 * k / 4096) with k by zlia. }
  destruct (Hw (set_bit (d dev bm) bi)) as (s1 & E1 & Hr1);
    [unfold set_bit; by rewrite length_zset|].
  unfold fset, fbwrite. cbn [f_blk set_blk f_sb].
  change (zset (d dev bm) (bi / 8) _) with (set_bit (d dev bm) bi). rewrite E1. cbn [rbind].
  unfold fbrelse. cbn [f_blk set_blk]. rewrite u32_small by lia. rewrite <- Emark in Hr1.
  destruct (bzero_spec (set_blk fs (bl_release s1 bp)) (mark_used sb d dev r) h dev r)
    as (s2 & E2 & Hr2).
  + exact Hr1.
  + apply (block_ok_lt sb Hsb dev Hdev). unfold data_block in Hrd. lia.
  + done.
  + by apply (held_unused sb dev d).
  + change (bzero _ dev r) with (bzero (set_blk fs (bl_release s1 bp)) dev r).
    rewrite E2. eexists; split; [reflexivity|]. left. exists s2.
    split; [done|]. split; [done|]. split; [|split; [done|exact Hr2]].
    intros b Hb. destruct (decide (b < 4096 * k)); [apply Hpre; lia|].
    replace b with (4096 * k + (b - 4096 * k)) by lia. rewrite Hu by lia.
    by rewrite Hmin by lia.
- left. change BPB with 4096 in *. rewrite s32_small by lia.
  replace (4096 * k + 4096) with (4096 * (k + 1)) by lia.
  eexists; split; [reflexivity|]. split; [done|]. intros b Hb Hb2.
  destruct (decide (b < 4096 * k)); [apply Hpre; lia|].
  replace b with (4096 * k + (b - 4096 * k)) by lia. rewrite Hu by lia.
  by rewrite Ho by lia.
Qed.

Lemma balloc_spec fs d h :
f_sb fs = sb → bl_rep (f_blk fs) d h → (size h < NHELD)%nat → meta_used sb d dev →
held_data sb d dev h → ∃ r, balloc fs dev = Ok r ∧ balloc_ok fs d h r.
Proof.
intros Efs Hr Hs Hm Hh. pose proof (sw_size _ Hsb) as Hsize. unfold balloc.
apply (while_spec
  (λ '(fs', b), ∃ k s, 0 ≤ k ∧ b = 4096 * k ∧ 4096 * k < sb_size sb + 4096 ∧
     fs' = set_blk fs s ∧ bl_rep s d h ∧
     ∀ b, 0 ≤ b < 4096 * k → b < sb_size sb → used sb d dev b = true)
  (λ '(_, b), (sb_size sb + 4096 - b) / 4096)).
- intros [fs' b] (k & s & Hk & -> & Hlt & _). zlia.
- intros [fs' b] (k & s & Hk & -> & Hlt & -> & Hr' & Hpre).
  destruct (decide (4096 * k < sb_size sb)) as [Hin|Hout].
  + destruct (balloc_turn (set_blk fs s) d h k) as [(s' & E & Hr2 & Hpre2) | (r & E & Hok)];
      try done; [intros b Hb; apply Hpre; lia | |].
    * left. rewrite E. eexists; split; [reflexivity|]. split; [|zlia].
      exists (k + 1), s'. split; [lia|]. split; [done|]. split; [lia|]. done.
    * right. eauto.
  + right. unfold balloc_step. cbn [f_sb set_blk]. rewrite Efs, u32_small by lia.
    rewrite (proj2 (Z.ltb_ge _ _)) by lia. eexists; split; [reflexivity|]. right.
    exists s. split; [done|]. split; [|done]. intros b Hb. apply Hpre; lia.
- exists 0, (f_blk fs). split; [done|]. split; [done|]. split; [lia|].
  split; [by destruct fs|]. split; [done|]. intros; lia.
- zlia.
Qed.

Lemma bfree_spec fs d h b :
f_sb fs = sb → dec_sb (d dev 1) = sb → bl_rep (f_blk fs) d h → (size h < NHELD)%nat →
held_data sb d dev h → data_block sb b → used sb d dev b = true →
∃ s, bfree fs dev b = Ok (set_blk fs s) ∧ bl_rep s (mark_free sb d dev b) h.
Proof.
intros Efs Edec Hr Hs Hh Hb Hu. pose proof (sw_size _ Hsb) as Hsize.
pose proof (sw_data _ Hsb) as Hd. unfold data_block in Hb.
pose proof (BBLOCK_range sb Hsb b) as Hbr.
assert (0 < dstart sb) as Hd0.
{ destruct Hsb as [H1 H2 H3 H4 _]. unfold dstart, IPB, BPB, BSIZE in *.
  change (512 * 8) with 4096 in *. change (512 / 64) with 8 in *. zlia. }
destruct Hbr as (Hbm & Hbm2); [lia|].
assert (block_ok dev 1) as Hok1 by (apply (block_ok_lt sb Hsb dev Hdev); lia).
assert (block_ok dev (BBLOCK b sb)) as Hok by (apply (block_ok_lt sb Hsb dev Hdev); lia).
destruct (readsb_spec fs d h dev Hr Hok1 Hs) as (s & E & Hr1);
  [apply (held_meta sb dev d h); [done | lia]|].
unfold bfree. rewrite E. cbn [rbind fst snd]. rewrite Edec.
assert (set_sb (set_blk fs s) sb = set_blk fs s) as -> by (rewrite <- Efs; reflexivity).
cbn [f_sb set_blk]. rewrite Efs.
destruct (with_block (set_blk fs s) d h dev (BBLOCK b sb) Hr1 Hok Hs)
  as (s1 & bp & E1 & Hdat & _ & _ & _ & Hw); [apply (held_meta sb dev d h); [done | lia]|].
rewrite E1. cbn [rbind]. unfold fdata. cbn [f_blk set_blk]. rewrite Hdat.
destruct (Hw (clear_bit (d dev (BBLOCK b sb)) (b mod BPB))) as (s2 & E2 & Hr2).
{ unfold clear_bit. rewrite length_zset. by apply (bl_sector _ _ _ _ _ Hr). }
unfold used in Hu. apply negb_true_iff in Hu. rewrite Hu.
unfold fset, fbwrite. cbn [f_blk set_blk].
change (zset (d dev (BBLOCK b sb)) (b mod BPB / 8) _)
  with (clear_bit (d dev (BBLOCK b sb)) (b mod BPB)).
rewrite E2. cbn [rbind]. eexists; split; [reflexivity | exact Hr2].
Qed.
End alloc.
