(* ===== verification/FsFile.v ===== *)
(** fs/fs.c: the contents of a file.  A file is the array of the bytes that its
    direct and indirect blocks hold (a missing block holds zeros); [bmap],
    [readi] and [writei] are specified on that array. *)
From S2P Require Import Prelude LibC Ide Ports Block FsLayout Fs FsBlocks.

Definition NBLK : Z := 140.

Section file.
Context (sb : superblock) (Hsb : sb_wf sb) (dev : Z).
Implicit Types (d : disk) (x : inode) (b bn : Z).

Definition ind_of x : Z := zget (i_addrs x) NDIRECT.

(** The disk block of the file's block [bn], 0 when there is none. *)
Definition blk_addr d x bn : Z :=
if bn <? NDIRECT then zget (i_addrs x) bn
else if ind_of x =? 0 then 0
else get32 (d dev (ind_of x)) (Z.to_nat (4 * (bn - NDIRECT))).

(** The byte at position [i] of the file. *)
Definition file_byte d x (i : Z) : Z :=
let a := blk_addr d x (i / BSIZE) in if a =? 0 then 0 else zget (d dev a) (i mod BSIZE).

(** The blocks of the file. *)
Definition own d x b : Prop :=
b ≠ 0 ∧ (b = ind_of x ∨ ∃ bn, 0 ≤ bn < NBLK ∧ blk_addr d x bn = b).

Record file_wf d x : Prop := {
fw_dev : i_dev x = dev;
fw_inum : 0 ≤ i_inum x < sb_ninodes sb;
fw_len : length (i_addrs x) = 13%nat;
fw_size : 0 ≤ i_size x ≤ MAXFILE * BSIZE;
fw_own : ∀ b, own d x b → data_block sb b ∧ used sb d dev b = true;
fw_inj : ∀ bn bn', 0 ≤ bn < NBLK → 0 ≤ bn' < NBLK → blk_addr d x bn ≠ 0 →
  blk_addr d x bn = blk_addr d x bn' → bn = bn';
fw_ind : ∀ bn, 0 ≤ bn < NBLK → ind_of x ≠ 0 → blk_addr d x bn ≠ ind_of x
}.

Definition bitmap_block b : Prop := sb_bmapstart sb ≤ b < dstart sb.

(** What an operation on the file may do to the disk: give the file more
  blocks, among those that were free, and change the file's blocks and the
  bitmap, nothing else. *)
Record file_step d x d' x' : Prop := {
st_wf : file_wf d' x';
st_used : ∀ b, 0 ≤ b < sb_size sb → (used sb d' dev b = true ↔ used sb d dev b = true ∨ own d' x' b);
st_mono : ∀ b, own d x b → own d' x' b;
st_new : ∀ b, own d' x' b → own d x b ∨ used sb d dev b = false;
st_addr : ∀ bn, 0 ≤ bn < NBLK → blk_addr d x bn ≠ 0 → blk_addr d' x' bn = blk_addr d x bn;
st_frame : ∀ b, 0 ≤ b < sb_size sb → used sb d dev b = true → ¬ own d x b → ¬ bitmap_block b → d' dev b = d dev b;
st_dev : ∀ dev' b, dev' ≠ dev → d' dev' b = d dev' b
}.

Lemma file_step_refl d x : file_wf d x → file_step d x d x.
Proof.
intros Hwf. split; [done | | done | by left | done | done | done].
intros b Hb. split; [by left|]. intros [?|Ho]; [done|]. by apply (fw_own _ _ Hwf).
Qed.

Lemma data_block_range b : data_block sb b → 3 < b < sb_size sb.
Proof.
intros Hb. unfold data_block, dstart in Hb. destruct Hsb as [G1 G2 G3 G4 _].
unfold IPB, BPB, BSIZE in *. change (512 * 8) with 4096 in *. change (512 / 64) with 8 in *.
zlia.
Qed.

Lemma file_step_trans d1 x1 d2 x2 d3 x3 :
file_step d1 x1 d2 x2 → file_step d2 x2 d3 x3 → file_step d1 x1 d3 x3.
Proof.
intros [W1 U1 M1 N1 A1 F1 D1] [W2 U2 M2 N2 A2 F2 D2].
split; [done | | auto | | | | ].
- intros b Hb. rewrite (U2 b Hb), (U1 b Hb). split; [|intros [?|?]; auto].
  intros [[?|?]|?]; auto.
- intros b Ho. destruct (fw_own _ _ W2 b Ho) as (Hb & _). apply data_block_range in Hb.
  apply N2 in Ho as [Ho|Ho]; [auto|]. right.
  destruct (used sb d1 dev b) eqn:E; [|done].
  assert (used sb d2 dev b = true) by (apply U1; [lia | auto]). congruence.
- intros bn Hbn Hn. rewrite A2; [by apply A1 | done | by rewrite A1].
- intros b Hb Hu Hn Hm. rewrite F2, F1; auto.
  + by apply U1; [|left].
  + intros Ho. apply N1 in Ho as [?|?]; [done | congruence].
- intros dev' b Hd. by rewrite D2, D1.
Qed.

(** The data blocks, the bitmap and the metadata are apart. *)
Lemma data_not_bitmap b : data_block sb b → ¬ bitmap_block b.
Proof. unfold data_block, bitmap_block. lia. Qed.

Lemma BBLOCK_bitmap b : 0 ≤ b < sb_size sb → bitmap_block (BBLOCK b sb).
Proof. intros Hb. destruct (BBLOCK_range sb Hsb b Hb) as (? & _). done. Qed.

(** The addresses of a file only depend on its inode and its indirect block. *)
Lemma blk_addr_ext d d' x bn :
(ind_of x ≠ 0 → d' dev (ind_of x) = d dev (ind_of x)) → blk_addr d' x bn = blk_addr d x bn.
Proof.
intros E. unfold blk_addr. destruct (bn <? NDIRECT); [done|].
destruct (Z.eqb_spec (ind_of x) 0); [done|]. by rewrite E.
Qed.

Lemma file_byte_ext d d' x x' i :
blk_addr d' x' (i / BSIZE) = blk_addr d x (i / BSIZE) →
(blk_addr d x (i / BSIZE) ≠ 0 →
 d' dev (blk_addr d x (i / BSIZE)) = d dev (blk_addr d x (i / BSIZE))) →
file_byte d' x' i = file_byte d x i.
Proof.
intros Ea Ed. unfold file_byte. rewrite Ea.
destruct (Z.eqb_spec (blk_addr d x (i / BSIZE)) 0); [done|]. by rewrite Ed.
Qed.

Lemma own_ind d x : ind_of x ≠ 0 → own d x (ind_of x).
Proof. intros Hi. split; [done | by left]. Qed.
Lemma own_addr d x bn : 0 ≤ bn < NBLK → blk_addr d x bn ≠ 0 → own d x (blk_addr d x bn).
Proof. intros Hbn Ha. split; [done | right; eauto]. Qed.

(** A file gets the free block [r] as its block [bn]. *)
Lemma step_extend d x d' x' bn r :
file_wf d x → 0 ≤ bn < NBLK → blk_addr d x bn = 0 →
data_block sb r → used sb d dev r = false →
i_dev x' = i_dev x → i_inum x' = i_inum x → i_size x' = i_size x →
length (i_addrs x') = 13%nat → ind_of x' = ind_of x →
(∀ bn', 0 ≤ bn' < NBLK →
   blk_addr d' x' bn' = if decide (bn' = bn) then r else blk_addr d x bn') →
(∀ b, 0 ≤ b < sb_size sb → used sb d' dev b = used sb d dev b || bool_decide (b = r)) →
d' dev r = replicate 512 0 →
(∀ b, b ≠ r → ¬ bitmap_block b → (ind_of x ≠ 0 → b ≠ ind_of x) → d' dev b = d dev b) →
(∀ dev' b, dev' ≠ dev → d' dev' b = d dev' b) →
file_step d x d' x' ∧ (∀ i, 0 ≤ i < NBLK * BSIZE → file_byte d' x' i = file_byte d x i).
Proof.
intros Hwf Hbn Ha Hr Hru E1 E2 E3 E4 E5 Hblk Hused Hzero Hframe Hdev.
pose proof (data_block_range r Hr) as Hrr.
assert (∀ b, own d' x' b ↔ own d x b ∨ b = r) as Hown.
{ intros b. unfold own. rewrite E5. split.
  - intros (Hb & [?|(bn' & Hbn' & <-)]); [auto|].
    rewrite Hblk in Hb |- * by done. case_decide; [auto|]. left. eauto.
  - intros [(Hb & [?|(bn' & Hbn' & <-)]) | ->].
    + auto.
    + split; [done|]. right. exists bn'. split; [done|]. rewrite Hblk by done.
      rewrite decide_False; [done | by intros ->].
    + split; [lia|]. right. exists bn. split; [done|]. rewrite Hblk by done. by rewrite decide_True. }
assert (∀ b, own d x b → b ≠ r) as Hor
  by (intros b Ho ->; destruct (fw_own _ _ Hwf r Ho); congruence).
split; [split|].
- destruct Hwf as [W1 W2 W3 W4 W5 W6 W7]. split; [congruence | congruence | done | congruence | | | ].
  + intros b Ho. apply Hown in Ho as [Ho | ->].
    * destruct (W5 b Ho) as (Hb & Hu). split; [done|]. rewrite Hused, Hu; [done|].
      pose proof (data_block_range b Hb). lia.
    * split; [done|]. rewrite Hused by lia. rewrite bool_decide_eq_true_2 by done.
      by rewrite orb_true_r.
  + intros b1 b2 Hb1 Hb2. rewrite !Hblk by done.
    destruct (decide (b1 = bn)) as [->|N1], (decide (b2 = bn)) as [->|N2]; intros Hn E; try done.
    * destruct (Hor r); [|done]. rewrite E. apply own_addr; [done | congruence].
    * destruct (Hor r); [|done]. rewrite <- E. by apply own_addr.
    * by apply W6.
  + intros b1 Hb1 Hi. rewrite Hblk by done. rewrite E5 in Hi |- *. case_decide; [|by apply W7].
    intros E. destruct (Hor r); [|done]. rewrite E. by apply own_ind.
- intros b Hb. rewrite Hused, orb_true_iff, bool_decide_eq_true, Hown by done.
  split; [tauto|]. intros [?|[Ho|?]]; auto. left. by apply (fw_own _ _ Hwf).
- intros b Ho. apply Hown. by left.
- intros b Ho. apply Hown in Ho as [?| ->]; auto.
- intros b1 Hb1 Hn. rewrite Hblk by done. rewrite decide_False; [done | congruence].
- intros b Hb Hu Hn Hm. apply Hframe; [congruence | done |]. intros N0 ->.
  by apply Hn, own_ind.
- done.
- intros i Hi. set (b1 := i / BSIZE).
  assert (0 ≤ b1 < NBLK) as Hb1 by (unfold b1, NBLK, BSIZE in *; zlia).
  unfold file_byte. fold b1. rewrite Hblk by done. case_decide as Eb.
  + rewrite Eb, Ha. rewrite (proj2 (Z.eqb_neq _ _)) by lia. rewrite Hzero. cbn [Z.eqb].
    unfold zget. apply list_lookup_total_correct. apply lookup_replicate.
    split; [done|]. unfold BSIZE. zlia.
  + destruct (Z.eqb_spec (blk_addr d x b1) 0); [done|].
    rewrite Hframe; [done | | |].
    * by apply Hor, own_addr.
    * apply data_not_bitmap. by apply (fw_own _ _ Hwf), own_addr.
    * intros N0. by apply (fw_ind _ _ Hwf).
Qed.

(** The disk after [balloc]. *)
Lemma alloc_used d r b :
(∀ bno, 1 ≤ bno < sb_size sb → length (d dev bno) = 512%nat) →
data_block sb r → 0 ≤ b < sb_size sb →
used sb (alloc_disk sb dev d r) dev b = used sb d dev b || bool_decide (b = r).
Proof.
intros Hlen Hr Hb. pose proof (data_block_range r Hr) as Hrr. unfold alloc_disk.
pose proof (BBLOCK_range sb Hsb b Hb) as (? & ?). unfold data_block in Hr.
pose proof (BBLOCK_range sb Hsb r) as Hbr. pose proof (sw_data _ Hsb).
rewrite used_disk_set by lia. rewrite used_mark_used by (try done; try lia; apply Hlen; lia).
case_decide; [subst; by rewrite bool_decide_eq_true_2, orb_true_r by done|].
by rewrite bool_decide_eq_false_2, orb_false_r by done.
Qed.

Lemma alloc_other d r b :
data_block sb r → b ≠ r → ¬ bitmap_block b → alloc_disk sb dev d r dev b = d dev b.
Proof.
intros Hr Hne Hb. pose proof (data_block_range r Hr). unfold alloc_disk, mark_used.
rewrite !disk_set_ne; [done | | by right].
right. intros ->. apply Hb, BBLOCK_bitmap. lia.
Qed.

Lemma alloc_dev d r dev' b : dev' ≠ dev → alloc_disk sb dev d r dev' b = d dev' b.
Proof. intros Hne. unfold alloc_disk, mark_used. rewrite !disk_set_ne; auto. Qed.

Lemma alloc_zero d r : alloc_disk sb dev d r dev r = replicate 512 0.
Proof. apply disk_set_eq. Qed.

Lemma get32_zero off : (off + 4 ≤ 512)%nat → get32 (replicate 512 0) off = 0.
Proof.
intros Ho. unfold get32.
replace (slice (replicate 512 0) off 4) with [0; 0; 0; 0]; [done|].
apply list_eq. intros i. destruct (decide (i < 4)%nat) as [Hi|Hi].
- rewrite lookup_slice by done. rewrite lookup_replicate_2 by lia.
  do 4 (destruct i as [|i]; [done|]). lia.
- rewrite !lookup_ge_None_2; [done | |]; [|simpl; lia]. unfold slice. rewrite length_take. lia.
Qed.

(** A file without an indirect block gets the free block [r] as one. *)
Lemma step_indirect d x r :
(∀ bno, 1 ≤ bno < sb_size sb → length (d dev bno) = 512%nat) →
file_wf d x → ind_of x = 0 → data_block sb r → used sb d dev r = false →
let d' := alloc_disk sb dev d r in
let x' := set_addr x NDIRECT r in
file_step d x d' x' ∧ ind_of x' = r ∧
(∀ bn, 0 ≤ bn < NBLK → blk_addr d' x' bn = blk_addr d x bn) ∧
(∀ i, 0 ≤ i < NBLK * BSIZE → file_byte d' x' i = file_byte d x i).
Proof.
intros Hlen Hwf Hi Hr Hru d' x'. pose proof (data_block_range r Hr) as Hrr.
assert (ind_of x' = r) as Ei.
{ unfold ind_of, x'. cbn. apply zget_zset_eq. rewrite (fw_len _ _ Hwf). unfold NDIRECT. lia. }
assert (∀ bn, 0 ≤ bn < NBLK → blk_addr d' x' bn = blk_addr d x bn) as Hblk.
{ intros bn Hbn. unfold blk_addr. rewrite Ei, Hi. cbn [Z.eqb].
  destruct (Z.ltb_spec bn NDIRECT).
  - unfold x'. cbn. apply zget_zset_ne; unfold NDIRECT in *; lia.
  - rewrite (proj2 (Z.eqb_neq _ _)) by lia. unfold d'. rewrite alloc_zero.
    apply get32_zero. unfold NBLK, NDIRECT in *. lia. }
assert (∀ b, own d' x' b ↔ own d x b ∨ b = r) as Hown.
{ intros b. unfold own. rewrite Ei, Hi. split.
  - intros (Hb & [?|(bn & Hbn & E)]); [auto|]. rewrite Hblk in E by done. left. eauto.
  - intros [(Hb & [?|(bn & Hbn & E)]) | ->]; [done | |].
    + split; [done|]. right. exists bn. by rewrite Hblk.
    + split; [lia|]. by left. }
assert (∀ b, own d x b → b ≠ r) as Hor
  by (intros b Ho ->; destruct (fw_own _ _ Hwf r Ho); congruence).
split; [|split; [done|split; [done|]]].
- split.
  + split; try apply Hwf.
    * unfold x'. cbn. rewrite length_zset. apply Hwf.
    * intros b Ho. apply Hown in Ho as [Ho | ->].
      -- destruct (fw_own _ _ Hwf b Ho) as (Hb & Hu). split; [done|]. unfold d'.
         pose proof (data_block_range b Hb). rewrite alloc_used, Hu by (done || lia). done.
      -- split; [done|]. unfold d'. rewrite alloc_used by (done || lia).
         rewrite bool_decide_eq_true_2 by done. by rewrite orb_true_r.
    * intros b1 b2 H1 H2. rewrite !Hblk by done. by apply Hwf.
    * intros bn Hbn _. rewrite Hblk, Ei by done. intros E. destruct (Hor r); [|done].
      rewrite <- E. apply own_addr; [done | lia].
  + intros b Hb. unfold d' at 1.
    rewrite alloc_used, orb_true_iff, bool_decide_eq_true, Hown by done.
    split; [tauto|]. intros [?|[Ho|?]]; auto. left. by apply (fw_own _ _ Hwf).
  + intros b Ho. apply Hown. by left.
  + intros b Ho. apply Hown in Ho as [?| ->]; auto.
  + intros b1 Hb1 _. by apply Hblk.
  + intros b Hb Hu Hn Hm. apply alloc_other; [done | congruence | done].
  + intros. by apply alloc_dev.
- intros i Hib. assert (0 ≤ i / BSIZE < NBLK) by (unfold NBLK, BSIZE in *; zlia).
  apply file_byte_ext; [by apply Hblk|]. intros Hn. apply alloc_other; [done | |].
  + by apply Hor, own_addr.
  + apply data_not_bitmap. by apply (fw_own _ _ Hwf), own_addr.
Qed.

(** One of the file's blocks is written. *)
Lemma step_write d x bn data :
file_wf d x → 0 ≤ bn < NBLK → blk_addr d x bn ≠ 0 →
let d' := disk_set d dev (blk_addr d x bn) data in
file_step d x d' x ∧ (∀ bn', blk_addr d' x bn' = blk_addr d x bn') ∧
(∀ i, 0 ≤ i < NBLK * BSIZE → file_byte d' x i =
   if decide (i / BSIZE = bn) then zget data (i mod BSIZE) else file_byte d x i).
Proof.
intros Hwf Hbn Ha d'. set (a := blk_addr d x bn) in *.
assert (own d x a) as Hoa by (by apply own_addr).
destruct (fw_own _ _ Hwf a Hoa) as (Had & Hau). pose proof (data_block_range a Had) as Har.
assert (∀ bn', blk_addr d' x bn' = blk_addr d x bn') as Hblk.
{ intros bn'. apply blk_addr_ext. intros Hi. apply disk_set_ne. right.
  intros E. by apply (fw_ind _ _ Hwf bn). }
assert (∀ b, own d' x b ↔ own d x b) as Hown.
{ intros b. unfold own. split; intros (? & [?|(k & Hk & E)]); (split; [done|]); auto; right; exists k;
    (split; [done|]); [by rewrite <- Hblk | by rewrite Hblk]. }
assert (∀ b, 0 ≤ b < sb_size sb → used sb d' dev b = used sb d dev b) as Hused.
{ intros b Hb. apply used_disk_set; [done..|]. intros E. pose proof (BBLOCK_bitmap b Hb) as Hm.
  rewrite <- E in Hm. by apply (data_not_bitmap a). }
split; [split|split; [done|]].
- destruct Hwf as [W1 W2 W3 W4 W5 W6 W7]. split; try done.
  + intros b Ho. apply Hown in Ho. destruct (W5 b Ho) as (Hb & Hu). split; [done|].
    rewrite Hused; [done|]. pose proof (data_block_range b Hb). lia.
  + intros b1 b2. rewrite !Hblk. apply W6.
  + intros b1. rewrite Hblk. apply W7.
- intros b Hb. rewrite Hused, Hown by done. split; [auto|]. intros [?|Ho]; [done|].
  by apply (fw_own _ _ Hwf).
- intros b Ho. by apply Hown.
- intros b Ho. left. by apply Hown.
- intros b1 _ _. apply Hblk.
- intros b Hb Hu Hn Hm. apply disk_set_ne. right. congruence.
- intros dev' b Hne. apply disk_set_ne. by left.
- intros i Hi. assert (0 ≤ i / BSIZE < NBLK) as Hib by (unfold NBLK, BSIZE in *; zlia).
  unfold file_byte. rewrite Hblk. case_decide as E.
  + rewrite E. fold a. rewrite (proj2 (Z.eqb_neq _ _)) by done. unfold d'. by rewrite disk_set_eq.
  + destruct (Z.eqb_spec (blk_addr d x (i / BSIZE)) 0); [done|].
    unfold d'. rewrite disk_set_ne; [done|]. right. intros E2. apply E.
    by apply (fw_inj _ _ Hwf).
Qed.

(** A file gets the free block [r] as one of its direct blocks. *)
Lemma step_direct d x bn r :
(∀ bno, 1 ≤ bno < sb_size sb → length (d dev bno) = 512%nat) →
file_wf d x → 0 ≤ bn < NDIRECT → blk_addr d x bn = 0 → data_block sb r → used sb d dev r = false →
let d' := alloc_disk sb dev d r in
let x' := set_addr x bn r in
file_step d x d' x' ∧ ind_of x' = ind_of x ∧
(∀ bn', 0 ≤ bn' < NBLK → blk_addr d' x' bn' = if decide (bn' = bn) then r else blk_addr d x bn') ∧
(∀ i, 0 ≤ i < NBLK * BSIZE → file_byte d' x' i = file_byte d x i).
Proof.
intros Hlen Hwf Hbn Ha Hr Hru d' x'.
assert (ind_of x' = ind_of x) as Ei
  by (unfold ind_of, x'; cbn; apply zget_zset_ne; unfold NDIRECT in *; lia).
assert (∀ bn', 0 ≤ bn' < NBLK → blk_addr d' x' bn' = if decide (bn' = bn) then r else blk_addr d x bn')
  as Hblk.
{ intros bn' Hbn'. unfold blk_addr. rewrite Ei. destruct (Z.ltb_spec bn' NDIRECT) as [Hlt|Hge].
  - unfold x'. cbn. case_decide as Eb.
    + subst. apply zget_zset_eq. rewrite (fw_len _ _ Hwf). unfold NDIRECT in *. lia.
    + apply zget_zset_ne; lia.
  - rewrite decide_False by lia. destruct (Z.eqb_spec (ind_of x) 0); [done|].
    pose proof (fw_own _ _ Hwf _ (own_ind d x n)) as [Hd Hu].
    unfold d'. rewrite alloc_other; [done | done | congruence | by apply data_not_bitmap]. }
destruct (step_extend d x d' x' bn r) as (Hstep & Hbytes); try done.
- unfold NBLK, NDIRECT in *; lia.
- unfold x'. cbn. rewrite length_zset. apply Hwf.
- intros b Hb. by apply alloc_used.
- apply alloc_zero.
- intros b Hb Hm _. by apply alloc_other.
- intros. by apply alloc_dev.
Qed.

(** A file gets the free block [r] through its indirect block. *)
Lemma step_entry d x bn r :
(∀ bno, 1 ≤ bno < sb_size sb → length (d dev bno) = 512%nat) →
file_wf d x → ind_of x ≠ 0 → NDIRECT ≤ bn < NBLK → blk_addr d x bn = 0 →
data_block sb r → used sb d dev r = false →
let d' := disk_set (alloc_disk sb dev d r) dev (ind_of x)
            (put32 (d dev (ind_of x)) (Z.to_nat (4 * (bn - NDIRECT))) r) in
file_step d x d' x ∧
(∀ bn', 0 ≤ bn' < NBLK → blk_addr d' x bn' = if decide (bn' = bn) then r else blk_addr d x bn') ∧
(∀ i, 0 ≤ i < NBLK * BSIZE → file_byte d' x i = file_byte d x i) ∧
(∀ b, 0 ≤ b < sb_size sb → used sb d' dev b = used sb d dev b || bool_decide (b = r)).
Proof.
intros Hlen Hwf Hi Hbn Ha Hr Hru d'. pose proof (data_block_range r Hr) as Hrr.
destruct (fw_own _ _ Hwf (ind_of x)) as (Hid & Hiu); [by apply own_ind|].
pose proof (data_block_range _ Hid) as Hir. assert (ind_of x ≠ r) as Hne by congruence.
assert (∀ bn', 0 ≤ bn' < NBLK → blk_addr d' x bn' = if decide (bn' = bn) then r else blk_addr d x bn')
  as Hblk.
{ intros bn' Hbn'. unfold blk_addr. destruct (Z.ltb_spec bn' NDIRECT) as [Hlt|Hge].
  - by rewrite decide_False by lia.
  - rewrite (proj2 (Z.eqb_neq _ _)) by done. unfold d'. rewrite disk_set_eq.
    unfold NBLK, NDIRECT in *. case_decide as Eb.
    + subst bn'. rewrite get32_put32 by (rewrite Hlen; lia). apply u32_small.
      pose proof (sw_size _ Hsb). lia.
    + unfold put32. rewrite get32_splice_ne; [done|]. rewrite length_le_bytes. lia. }
assert (∀ b, 0 ≤ b < sb_size sb → used sb d' dev b = used sb d dev b || bool_decide (b = r)) as Hused.
{ intros b Hb. unfold d'. rewrite used_disk_set; [by apply alloc_used | done |].
  intros E'. apply (data_not_bitmap (ind_of x)); [done|]. rewrite E'. by apply BBLOCK_bitmap. }
destruct (step_extend d x d' x bn r) as (Hstep & Hbytes); try done.
- unfold NDIRECT in *. lia.
- apply Hwf.
- unfold d'. rewrite disk_set_ne by (right; congruence). apply alloc_zero.
- intros b' Hb' Hm' Hi'. unfold d'. rewrite disk_set_ne by auto. by apply alloc_other.
- intros dev' b' Hd. unfold d'. rewrite disk_set_ne by auto. by apply alloc_dev.
Qed.

(** The size is not part of what the blocks hold. *)
Lemma step_size d x n :
file_wf d x → 0 ≤ n ≤ MAXFILE * BSIZE → file_step d x d (set_size x n).
Proof.
intros Hwf Hn. destruct Hwf as [W1 W2 W3 W4 W5 W6 W7].
assert (file_wf d (set_size x n)) as Hwf' by (by split).
split; [done | | done | by left | done | done | done].
intros b Hb. split; [by left|]. intros [?|Ho]; [done|]. by apply (W5 b Ho).
Qed.
End file.

(** * Free blocks *)

Definition has_free (sb : superblock) (dev : Z) (d : disk) (n : nat) : Prop :=
  ∃ l, NoDup l ∧ length l = n ∧ ∀ b, b ∈ l → data_block sb b ∧ used sb d dev b = false.

Section free.
Context (sb : superblock) (dev : Z).
Implicit Types (d : disk).

Lemma has_free_S d n :
has_free sb dev d (S n) → ∃ b, data_block sb b ∧ used sb d dev b = false.
Proof. intros ([|b l] & _ & Hlen & Hl); [done|]. exists b. apply Hl. left. Qed.

Lemma has_free_le d n m : has_free sb dev d n → (m ≤ n)%nat → has_free sb dev d m.
Proof.
intros (l & Hnd & Hlen & Hl) Hm. exists (take m l). split; [|split].
- rewrite <- (take_drop m l) in Hnd. by apply NoDup_app in Hnd as (? & _).
- rewrite length_take. lia.
- intros b Hb. apply Hl. rewrite <- (take_drop m l). apply elem_of_app. by left.
Qed.

Lemma has_free_step d d' r n :
(∀ b, data_block sb b → used sb d' dev b = used sb d dev b || bool_decide (b = r)) →
has_free sb dev d (S n) → has_free sb dev d' n.
Proof.
intros Hu (l & Hnd & Hlen & Hl). destruct (decide (r ∈ l)) as [Hin|Hout].
- apply elem_of_Permutation in Hin as (l' & E). exists l'.
  rewrite E in Hnd. apply NoDup_cons in Hnd as (Hr & Hnd). split; [done|]. split.
  + rewrite E in Hlen. simpl in Hlen. lia.
  + intros b Hb. destruct (Hl b) as (Hd & Hb2); [rewrite E; by right|]. split; [done|].
    rewrite Hu, Hb2 by done. rewrite bool_decide_eq_false_2; [done|]. congruence.
- apply has_free_le with (S n); [|lia]. exists l. split; [done|]. split; [done|].
  intros b Hb. destruct (Hl b Hb) as (Hd & Hb2). split; [done|].
  rewrite Hu, Hb2 by done. rewrite bool_decide_eq_false_2; [done|]. congruence.
Qed.

Lemma has_free_ext d d' n :
(∀ b, data_block sb b → used sb d' dev b = used sb d dev b) →
has_free sb dev d n → has_free sb dev d' n.
Proof.
intros Hu (l & Hnd & Hlen & Hl). exists l. split; [done|]. split; [done|].
intros b Hb. destruct (Hl b Hb). by rewrite Hu.
Qed.
End free.

(** * bmap *)

Section ops.
Context {S : Type} `{BlockLayer S}.
Context (sb : superblock) (Hsb : sb_wf sb) (dev : Z) (Hdev : 0 ≤ dev < 2).
Implicit Types (fs : fsys S) (d : disk) (h : held) (x : inode) (ip : nat).

(** The file system between operations: the super block is loaded, the disk is
  [d], the metadata blocks are marked. *)
Record fsi_held fs d h : Prop := {
fi_sb : f_sb fs = sb;
fi_rep : bl_rep (f_blk fs) d h;
fi_meta : meta_used sb d dev;
fi_dec : dec_sb (d dev 1) = sb
}.
Definition fsi fs d : Prop := fsi_held fs d ∅.

Definition put_inode fs ip x : fsys S := set_icache fs (<[ip := x]> (icache fs)).

Lemma put_inode_upd fs ip f :
(ip < length (icache fs))%nat → upd_inode fs ip f = put_inode fs ip (f (inodep fs ip)).
Proof.
intros Hip. unfold upd_inode, put_inode, inodep. f_equal.
apply lookup_lt_is_Some_2 in Hip as (y & Hy).
rewrite (list_lookup_total_correct _ _ _ Hy). apply list_eq. intros j.
rewrite list_lookup_alter. destruct (decide (ip = j)) as [<-|Hne].
- rewrite Hy. rewrite list_lookup_insert_eq; [done|]. by apply lookup_lt_Some in Hy.
- by rewrite list_lookup_insert_ne.
Qed.

Lemma put_inode_same fs ip :
(ip < length (icache fs))%nat → put_inode fs ip (inodep fs ip) = fs.
Proof.
intros Hip. unfold put_inode, inodep. apply lookup_lt_is_Some_2 in Hip as (y & Hy).
rewrite (list_lookup_total_correct _ _ _ Hy), list_insert_id by done. by destruct fs.
Qed.

Lemma inodep_put fs ip x : (ip < length (icache fs))%nat → inodep (put_inode fs ip x) ip = x.
Proof. intros Hip. unfold inodep, put_inode. cbn. by rewrite list_lookup_total_insert_eq. Qed.

Lemma put_put fs ip x y : put_inode (put_inode fs ip x) ip y = put_inode fs ip y.
Proof. unfold put_inode, set_icache. cbn. by rewrite list_insert_insert_eq. Qed.

Lemma sector_len fs d h bno :
bl_rep (f_blk fs) d h → 1 ≤ bno < sb_size sb → length (d dev bno) = 512%nat.
Proof. intros Hr Hb. apply (bl_sector _ _ _ _ _ Hr). by apply (block_ok_lt sb Hsb dev Hdev). Qed.

Lemma balloc_free fs d h k :
fsi_held fs d h → (size h < NHELD)%nat → held_data sb d dev h →
has_free sb dev d (Datatypes.S k) →
∃ s r, balloc fs dev = Ok (set_blk fs s, r) ∧ data_block sb r ∧ used sb d dev r = false ∧
  bl_rep s (alloc_disk sb dev d r) h ∧ has_free sb dev (alloc_disk sb dev d r) k.
Proof.
intros [Es Hr Hm Hd] Hs Hh Hf.
destruct (balloc_spec sb Hsb dev Hdev fs d h Es Hr Hs Hm Hh) as ([fs' r] & E & Hok).
destruct Hok as [(s & Hrd & Hru & _ & -> & Hr') | (s & _ & Hall & _)].
- exists s, r. do 4 (split; [done|]). apply has_free_step with d r; [|done].
  intros b Hb. apply (alloc_used sb Hsb); [|done|].
  + intros. by eapply sector_len.
  + pose proof (data_block_range sb Hsb b Hb). lia.
- exfalso. apply has_free_S in Hf as (b & Hb & Hu).
  pose proof (data_block_range sb Hsb b Hb). rewrite Hall in Hu by lia. discriminate.
Qed.

(** A file step keeps the rest of the file system. *)
Lemma fsi_step fs d h d' x x' s f :
fsi_held fs d h → file_step sb dev d x d' x' → bl_rep s d' h →
fsi_held (set_icache (set_blk fs s) f) d' h.
Proof.
intros [Es Hr Hm Hd] [W U M N _ F D] Hr'.
assert (∀ b, 0 ≤ b < dstart sb → 0 ≤ b < sb_size sb) as Hlt
  by (intros b Hb; pose proof (sw_data _ Hsb); lia).
split; [done | done | |].
- intros b Hb. apply U; [auto|]. left. auto.
- assert (0 ≤ 1 < dstart sb ∧ ¬ bitmap_block sb 1) as (H1 & H2).
  { destruct Hsb as [G1 G2 G3 G4 _]. unfold bitmap_block, dstart, IPB, BPB, BSIZE in *.
    change (512 * 8) with 4096 in *. change (512 / 64) with 8 in *. zlia. }
  rewrite F; auto. intros Ho. apply M in Ho. destruct (fw_own _ _ _ _ W 1 Ho) as (Hb & _).
  unfold data_block in Hb. lia.
Qed.

(** An entry of the indirect block. *)
Lemma bmap_entry_spec fs d x bn k :
fsi fs d → file_wf sb dev d x → ind_of x ≠ 0 → NDIRECT ≤ bn < NBLK →
has_free sb dev d (Datatypes.S k) →
∃ s d', bmap_entry fs dev (ind_of x) (bn - NDIRECT) = Ok (set_blk fs s, blk_addr dev d' x bn) ∧
  bl_rep s d' ∅ ∧ file_step sb dev d x d' x ∧ blk_addr dev d' x bn ≠ 0 ∧
  (∀ i, 0 ≤ i < NBLK * BSIZE → file_byte dev d' x i = file_byte dev d x i) ∧
  has_free sb dev d' k.
Proof.
intros Hfs Hwf Hi Hbn Hfree. pose proof Hfs as [Es Hr Hm Hd].
destruct (fw_own _ _ _ _ Hwf (ind_of x)) as (Hid & Hiu); [by apply own_ind|].
pose proof (data_block_range sb Hsb _ Hid) as Hir.
assert (block_ok dev (ind_of x)) as Hok by (apply (block_ok_lt sb Hsb dev Hdev); lia).
destruct (with_block fs d ∅ dev (ind_of x) Hr Hok) as (s & b & E & Hdat & Hb & Hr1 & Hrel & _).
{ rewrite map_size_empty. unfold NHELD. lia. }
{ intros j y Hy. by rewrite lookup_empty in Hy. }
set (o := Z.to_nat (4 * (bn - NDIRECT))).
assert (o + 4 ≤ 512)%nat as Ho by (unfold o, NBLK, NDIRECT in *; lia).
assert (get32 (d dev (ind_of x)) o = blk_addr dev d x bn) as Ea.
{ unfold blk_addr. rewrite (proj2 (Z.ltb_ge _ _)) by lia. by rewrite (proj2 (Z.eqb_neq _ _)). }
unfold bmap_entry. rewrite E. cbn [rbind]. fold o.
change (fdata (set_blk fs s) b) with (bl_data s b). rewrite Hdat, Ea. destruct (Z.eqb_spec (blk_addr dev d x bn) 0) as [E0|N0].
2: { exists (bl_release s b), d. split; [done|]. split; [done|].
     split; [by apply file_step_refl|]. split; [done|]. split; [done|].
     apply has_free_le with (Datatypes.S k); [done | lia]. }
set (h1 := <[b := mk_hbuf dev (ind_of x) 1 (d dev (ind_of x))]> (∅ : held)) in *.
destruct (balloc_free (set_blk fs s) d h1 k) as (s2 & r & E2 & Hrd & Hru & Hr2 & Hfree2).
{ by split. }
{ unfold h1. rewrite insert_empty, map_size_singleton. unfold NHELD. lia. }
{ intros j y Hy Hyd. unfold h1 in Hy. rewrite insert_empty in Hy.
  apply lookup_singleton_Some in Hy as (<- & <-). done. }
{ done. }
pose proof (data_block_range sb Hsb r Hrd) as Hrr.
rewrite E2. cbn [rbind].
assert (h1 !! b = Some (mk_hbuf dev (ind_of x) 1 (d dev (ind_of x)))) as Hx
  by (unfold h1; apply lookup_insert_eq).
destruct (bl_data_rep _ _ _ _ _ Hr2 Hx) as (Hdat2 & Hlen). cbn [h_data] in Hdat2, Hlen.
unfold fdata, fset, fbwrite. cbn [f_blk set_blk]. rewrite Hdat2.
set (data := put32 (d dev (ind_of x)) o r).
assert (length data = 512%nat) as Hld by (unfold data, put32; by rewrite length_splice).
pose proof (bl_set_rep _ _ _ _ _ data Hr2 Hx Hld) as Hr3. cbn [h_dev h_bno h_cnt] in Hr3.
unfold h1 in Hr3. rewrite insert_insert_eq, insert_empty in Hr3.
set (d1 := alloc_disk sb dev d r) in *.
assert (({[b := mk_hbuf dev (ind_of x) 1 data]} : held) !! b
  = Some (mk_hbuf dev (ind_of x) 1 data)) as Hx3 by apply lookup_singleton_eq.
destruct (bl_write_rep _ _ _ _ _ Hr3 Hx3) as (s4 & E4 & Hr4). cbn [h_dev h_bno h_data] in Hr4.
rewrite E4. cbn [rbind].
set (d' := disk_set d1 dev (ind_of x) data) in *.
pose proof (bl_release_rep _ _ _ _ _ Hr4 Hx3 eq_refl (eq_sym (disk_set_eq _ _ _ _))) as Hr5.
rewrite delete_singleton_eq in Hr5.
destruct (step_entry sb Hsb dev d x bn r) as (Hstep & Hblk & Hbytes & Hused); try done.
{ intros. by eapply sector_len. }
fold o d1 data d' in Hstep, Hblk, Hbytes, Hused.
assert (blk_addr dev d' x bn = r) as Er
  by (rewrite Hblk by (unfold NDIRECT in *; lia); by rewrite decide_True).
exists (bl_release s4 b), d'. rewrite Er. split; [done|]. split; [exact Hr5|]. split; [exact Hstep|].
split; [lia|]. split; [exact Hbytes|]. apply has_free_step with d r; [|done].
intros b' Hb'. pose proof (data_block_range sb Hsb b' Hb'). apply Hused. lia.
Qed.

(** The inode with other block addresses, and whether it lacks an indirect
  block. *)
Definition with_addrs x (l : list Z) : inode :=
mk_inode (i_dev x) (i_inum x) (i_ref x) (i_valid x) (i_type x) (i_major x) (i_minor x)
  (i_nlink x) (i_size x) l.
Definition ind_need x : nat := if decide (ind_of x = 0) then 1 else 0.

Lemma with_addrs_id x : with_addrs x (i_addrs x) = x.
Proof. by destruct x. Qed.

(** What [bmap] leaves: the block's address, the file's contents as they were. *)
Definition bmap_post fs d ip bn k '((fs', a) : fsys S * Z) : Prop :=
∃ s d' l, let x := inodep fs ip in let x' := with_addrs x l in
  fs' = put_inode (set_blk fs s) ip x' ∧ a = blk_addr dev d' x' bn ∧ bl_rep s d' ∅ ∧
  file_step sb dev d x d' x' ∧ a ≠ 0 ∧
  (∀ i, 0 ≤ i < NBLK * BSIZE → file_byte dev d' x' i = file_byte dev d x i) ∧
  has_free sb dev d' (k + ind_need x').

Lemma bmap_direct fs d ip bn k :
fsi fs d → (ip < length (icache fs))%nat → file_wf sb dev d (inodep fs ip) →
0 ≤ bn < NDIRECT → has_free sb dev d (Datatypes.S k + ind_need (inodep fs ip)) →
∃ r, bmap fs ip bn = Ok r ∧ bmap_post fs d ip bn k r.
Proof.
intros Hfs Hip Hwf Hbn Hfree. unfold bmap, bmap_post. set (x := inodep fs ip) in *.
rewrite (proj2 (Z.ltb_lt _ _)) by lia.
assert (blk_addr dev d x bn = zget (i_addrs x) bn) as Ea
  by (unfold blk_addr; by rewrite (proj2 (Z.ltb_lt _ _)) by lia).
rewrite <- Ea. destruct (Z.eqb_spec (blk_addr dev d x bn) 0) as [E0|N0].
2: { eexists (_, _); split; [reflexivity|]. exists (f_blk fs), d, (i_addrs x).
     rewrite with_addrs_id. split.
     { transitivity (put_inode fs ip x); [symmetry; by apply put_inode_same | by destruct fs]. }
     split; [done|]. split; [apply Hfs|]. split; [by apply file_step_refl|]. split; [done|].
     split; [done|]. eapply has_free_le; [exact Hfree | lia]. }
rewrite (fw_dev _ _ _ _ Hwf).
destruct (balloc_free fs d ∅ (k + ind_need x)) as (s & r & E & Hrd & Hru & Hr & Hfree2);
  [done | rewrite map_size_empty; unfold NHELD; lia
  | intros j y Hy; by rewrite lookup_empty in Hy | done |].
rewrite E. cbn [rbind fst snd]. eexists (_, _); split; [reflexivity|].
destruct (step_direct sb Hsb dev d x bn r) as (Hstep & Ei & Hblk & Hbytes); try done.
{ intros. eapply sector_len; [apply Hfs | done]. }
set (d' := alloc_disk sb dev d r) in *. set (x' := set_addr x bn r) in *.
assert (blk_addr dev d' x' bn = r) as Er
  by (rewrite Hblk by (unfold NBLK, NDIRECT in *; lia); by rewrite decide_True).
exists s, d', (i_addrs x'). change (with_addrs x (i_addrs x')) with x'.
split; [by rewrite put_inode_upd|]. split; [done|]. split; [done|]. split; [done|].
split; [pose proof (data_block_range sb Hsb r Hrd); lia|]. split; [done|].
unfold ind_need. by rewrite Ei.
Qed.

(** The first part of [bmap] on a block of the indirect range. *)
Lemma bmap_make_indirect fs d ip k :
fsi fs d → (ip < length (icache fs))%nat → file_wf sb dev d (inodep fs ip) →
has_free sb dev d (k + ind_need (inodep fs ip)) →
let x := inodep fs ip in
∃ s d' l, let x' := with_addrs x l in
  (if zget (i_addrs x) NDIRECT =? 0 then
     let* r := balloc fs (i_dev x) in
     Ok (upd_inode r.1 ip (λ x, set_addr x NDIRECT r.2), r.2)
   else Ok (fs, zget (i_addrs x) NDIRECT)) = Ok (put_inode (set_blk fs s) ip x', ind_of x') ∧
  bl_rep s d' ∅ ∧ file_step sb dev d x d' x' ∧ ind_of x' ≠ 0 ∧
  (∀ i, 0 ≤ i < NBLK * BSIZE → file_byte dev d' x' i = file_byte dev d x i) ∧
  has_free sb dev d' k.
Proof.
intros Hfs Hip Hwf Hfree x. fold x in Hwf, Hfree.
change (zget (i_addrs x) NDIRECT) with (ind_of x). unfold ind_need in Hfree.
destruct (Z.eqb_spec (ind_of x) 0) as [E0|N0].
- rewrite decide_True, Nat.add_comm in Hfree by done. rewrite (fw_dev _ _ _ _ Hwf).
  destruct (balloc_free fs d ∅ k) as (s & r & E & Hrd & Hru & Hr & Hfree2);
    [done | rewrite map_size_empty; unfold NHELD; lia
    | intros j y Hy; by rewrite lookup_empty in Hy | done |].
  rewrite E. cbn [rbind fst snd].
  destruct (step_indirect sb Hsb dev d x r) as (Hstep & Ei & _ & Hbytes); try done.
  { intros. eapply sector_len; [apply Hfs | done]. }
  exists s, (alloc_disk sb dev d r), (i_addrs (set_addr x NDIRECT r)).
  change (with_addrs x (i_addrs (set_addr x NDIRECT r))) with (set_addr x NDIRECT r).
  rewrite Ei. split; [by rewrite put_inode_upd|].
  pose proof (data_block_range sb Hsb r Hrd). split; [done|]. split; [done|]. split; [lia|]. done.
- exists (f_blk fs), d, (i_addrs x). rewrite with_addrs_id. split.
  { do 2 f_equal. transitivity (put_inode fs ip x); [symmetry; by apply put_inode_same|].
    by destruct fs. }
  split; [apply Hfs|]. split; [by apply file_step_refl|]. split; [done|]. split; [done|].
  eapply has_free_le; [exact Hfree | lia].
Qed.

Lemma bmap_spec fs d ip bn k :
fsi fs d → (ip < length (icache fs))%nat → file_wf sb dev d (inodep fs ip) →
0 ≤ bn < NBLK → has_free sb dev d (Datatypes.S k + ind_need (inodep fs ip)) →
∃ r, bmap fs ip bn = Ok r ∧ bmap_post fs d ip bn k r.
Proof.
intros Hfs Hip Hwf Hbn Hfree.
destruct (decide (bn < NDIRECT)) as [Hlt|Hge]; [apply bmap_direct; (done || lia)|].
unfold bmap, bmap_post. set (x := inodep fs ip) in *.
rewrite (proj2 (Z.ltb_ge _ _)) by lia.
rewrite (proj2 (Z.ltb_lt (bn - NDIRECT) NINDIRECT))
  by (unfold NBLK, NDIRECT in *; change NINDIRECT with 128; lia).
destruct (bmap_make_indirect fs d ip (Datatypes.S k)) as (s & d1 & l & E & Hr & Hstep & Hi & Hby & Hf1);
  [done | done | done | done |].
fold x in E, Hstep, Hi, Hby. rewrite E. cbn [rbind fst snd].
set (x1 := with_addrs x l) in *. rewrite (fw_dev _ _ _ _ Hwf).
pose proof (fsi_step fs d ∅ d1 x x1 s (<[ip := x1]> (icache fs)) Hfs Hstep Hr) as Hfs1.
destruct (bmap_entry_spec (put_inode (set_blk fs s) ip x1) d1 x1 bn k)
  as (s2 & d2 & E2 & Hr2 & Hstep2 & Ha & Hby2 & Hf2); try done; [apply Hstep | lia |].
rewrite E2. eexists (_, _); split; [reflexivity|]. exists s2, d2, l. fold x1.
split; [done|]. split; [done|]. split; [done|].
split; [by eapply file_step_trans|]. split; [done|].
split; [intros i Hib; by rewrite Hby2, Hby|].
eapply has_free_le; [exact Hf2|]. unfold ind_need. rewrite decide_False by done. lia.
Qed.
End ops.
