(* ===== verification/FsRw.v ===== *)
(** fs/fs.c: [readi] and [writei] on the contents of a file, [iupdate] and
    [ilock] on the inodes of the disk. *)
From S2P Require Import Prelude LibC Ide Ports Block FsLayout Fs FsBlocks FsFile.

Section rw.
Context {S : Type} `{BlockLayer S}.
Context (sb : superblock) (Hsb : sb_wf sb) (dev : Z) (Hdev : 0 ≤ dev < 2).
Implicit Types (fs : fsys S) (d : disk) (x : inode) (ip : nat).
#[local] Abbreviation fsi := (fsi sb dev).
#[local] Abbreviation file_wf := (file_wf sb dev).
#[local] Abbreviation file_step := (file_step sb dev).
#[local] Abbreviation blk_addr := (blk_addr dev).
#[local] Abbreviation file_byte := (file_byte dev).
#[local] Abbreviation has_free := (has_free sb dev).

(** The bytes of the file from [off] on. *)
Definition file_bytes d x (off : Z) (n : nat) : list Z :=
(λ k, file_byte d x (off + Z.of_nat k)) <$> seq 0 n.

(** No block below the end of the file is missing. *)
Definition no_holes d x : Prop :=
∀ bn, 0 ≤ bn → bn * BSIZE < i_size x → blk_addr d x bn ≠ 0.

Lemma length_file_bytes d x off n : length (file_bytes d x off n) = n.
Proof. unfold file_bytes. by rewrite length_fmap, length_seq. Qed.

Lemma lookup_file_bytes d x off n k :
(k < n)%nat → file_bytes d x off n !! k = Some (file_byte d x (off + Z.of_nat k)).
Proof. intros Hk. unfold file_bytes. by rewrite list_lookup_fmap, lookup_seq_lt. Qed.

Lemma file_bytes_app d x off n m :
file_bytes d x off (n + m) = file_bytes d x off n ++ file_bytes d x (off + Z.of_nat n) m.
Proof.
apply list_eq. intros k. destruct (decide (k < n + m)%nat) as [Hk|Hk].
- rewrite lookup_file_bytes by done. destruct (decide (k < n)%nat).
  + rewrite lookup_app_l by (by rewrite length_file_bytes). by rewrite lookup_file_bytes.
  + rewrite lookup_app_r by (rewrite length_file_bytes; lia).
    rewrite length_file_bytes, lookup_file_bytes by lia. do 2 f_equal. lia.
- rewrite !lookup_ge_None_2; [done | |]; rewrite ?length_app, !length_file_bytes; lia.
Qed.

(** A part of one block of the file. *)
Lemma file_bytes_block d x off m :
0 ≤ off → (Z.to_nat (off mod BSIZE) + m ≤ 512)%nat →
blk_addr d x (off / BSIZE) ≠ 0 → length (d dev (blk_addr d x (off / BSIZE))) = 512%nat →
slice (d dev (blk_addr d x (off / BSIZE))) (Z.to_nat (off mod BSIZE)) m = file_bytes d x off m.
Proof.
intros Ho Hm Ha Hl. apply list_eq. intros k. destruct (decide (k < m)%nat) as [Hk|Hk].
- rewrite lookup_slice, lookup_file_bytes by done. unfold FsFile.file_byte.
  assert ((off + Z.of_nat k) / BSIZE = off / BSIZE) as -> by (unfold BSIZE in *; zlia).
  rewrite (proj2 (Z.eqb_neq _ _)) by done. unfold zget.
  assert (Z.to_nat (off mod BSIZE) + k = Z.to_nat ((off + Z.of_nat k) mod BSIZE))%nat as E
    by (unfold BSIZE in *; zlia).
  rewrite E. apply list_lookup_lookup_total_lt. lia.
- rewrite !lookup_ge_None_2; [done | |]; rewrite ?length_file_bytes; [lia|].
  unfold slice. rewrite length_take. lia.
Qed.

(** [bmap] of a block that is there changes nothing. *)
Lemma bmap_present fs d ip bn :
fsi fs d → file_wf d (inodep fs ip) → 0 ≤ bn < NBLK → blk_addr d (inodep fs ip) bn ≠ 0 →
∃ s, bmap fs ip bn = Ok (set_blk fs s, blk_addr d (inodep fs ip) bn) ∧ bl_rep s d ∅.
Proof.
intros Hfs Hwf Hbn Ha. set (x := inodep fs ip) in *. unfold bmap. fold x.
destruct (Z.ltb_spec bn NDIRECT) as [Hlt|Hge].
- assert (blk_addr d x bn = zget (i_addrs x) bn) as Ea
    by (unfold FsFile.blk_addr; by rewrite (proj2 (Z.ltb_lt _ _)) by lia).
  rewrite <- Ea, (proj2 (Z.eqb_neq _ _)) by done. exists (f_blk fs).
  split; [by destruct fs | apply Hfs].
- rewrite (proj2 (Z.ltb_lt _ _))
    by (unfold NBLK, NDIRECT in *; change NINDIRECT with 128; lia).
  assert (blk_addr d x bn = if ind_of x =? 0 then 0
    else get32 (d dev (ind_of x)) (Z.to_nat (4 * (bn - NDIRECT)))) as Ea
    by (unfold FsFile.blk_addr; by rewrite (proj2 (Z.ltb_ge _ _)) by lia).
  change (zget (i_addrs x) NDIRECT) with (ind_of x).
  destruct (Z.eqb_spec (ind_of x) 0) as [E0|N0]; [done|]. cbn [rbind fst snd].
  destruct (fw_own _ _ _ _ Hwf (ind_of x)) as (Hid & Hiu); [by apply own_ind|].
  pose proof (data_block_range sb Hsb _ Hid) as Hir.
  destruct (with_block fs d ∅ dev (ind_of x)) as (s & b & E & Hdat & _ & _ & Hrel & _).
  { apply Hfs. }
  { apply (block_ok_lt sb Hsb dev Hdev). lia. }
  { rewrite map_size_empty. unfold NHELD. lia. }
  { intros j y Hy. by rewrite lookup_empty in Hy. }
  rewrite (fw_dev _ _ _ _ Hwf). unfold bmap_entry. rewrite E. cbn [rbind].
  change (fdata (set_blk fs s) b) with (bl_data s b). rewrite Hdat, <- Ea.
  rewrite (proj2 (Z.eqb_neq _ _)) by done. by exists (bl_release s b).
Qed.

(** * readi *)

Lemma readi_turn fs d ip off n tot acc :
let x := inodep fs ip in
fsi fs d → file_wf d x → 0 ≤ tot < n → 0 ≤ off → off + n < 2 ^ 32 → off + n ≤ i_size x →
no_holes d x →
let m := Z.min (n - tot) (BSIZE - (off + tot) mod BSIZE) in
∃ s, readi_step ip n (fs, tot, off + tot, acc) =
    Ok (inl (set_blk fs s, tot + m, off + (tot + m),
             acc ++ file_bytes d x (off + tot) (Z.to_nat m))) ∧
  bl_rep s d ∅.
Proof.
intros x Hfs Hwf Ht Ho Hn Hsz Hnh m. pose proof (fw_size _ _ _ _ Hwf) as Hsize.
assert (0 < m ≤ BSIZE) as Hm by (unfold m, BSIZE; zlia).
assert (0 ≤ (off + tot) / BSIZE < NBLK ∧ (off + tot) / BSIZE * BSIZE < i_size x) as (Hbn & Hlt).
{ change MAXFILE with 140 in Hsize. unfold NBLK, BSIZE in *. zlia. }
assert (blk_addr d x ((off + tot) / BSIZE) ≠ 0) as Ha by (apply Hnh; [apply Hbn | done]).
unfold readi_step. rewrite (proj2 (Z.ltb_lt _ _)) by lia.
destruct (bmap_present fs d ip _ Hfs Hwf Hbn Ha) as (s & -> & Hr). cbn [rbind fst snd].
fold x. set (a := blk_addr d x ((off + tot) / BSIZE)) in *.
destruct (fw_own _ _ _ _ Hwf a) as (Hid & _); [by apply own_addr|].
pose proof (data_block_range sb Hsb _ Hid) as Hir.
assert (block_ok dev a) as Hok by (apply (block_ok_lt sb Hsb dev Hdev); lia).
destruct (with_block (set_blk fs s) d ∅ dev a) as (s1 & b & E & Hdat & _ & _ & Hrel & _);
  [done | done | rewrite map_size_empty; unfold NHELD; lia
  | intros j y Hy; by rewrite lookup_empty in Hy |].
change (inodep (set_blk fs s) ip) with x. rewrite (fw_dev _ _ _ _ Hwf), E. cbn [rbind].
change (fdata (set_blk (set_blk fs s) s1) b) with (bl_data s1 b). rewrite Hdat. fold m.
exists (bl_release s1 b). split; [|done]. rewrite u32_small by lia.
unfold a. rewrite file_bytes_block; [| lia | unfold m, BSIZE in *; zlia | done |].
- do 2 f_equal. f_equal. f_equal. lia.
- apply (bl_sector _ _ _ _ _ Hr Hok).
Qed.

Lemma readi_spec fs d ip off n :
let x := inodep fs ip in
fsi fs d → file_wf d x → no_holes d x → i_type x ≠ T_DEV →
0 ≤ off ≤ i_size x → 0 ≤ n → off + n < 2 ^ 32 →
let m := Z.min n (i_size x - off) in
∃ s, readi fs ip off n = Ok (set_blk fs s, file_bytes d x off (Z.to_nat m), m) ∧ bl_rep s d ∅.
Proof.
intros x Hfs Hwf Hnh Hty Ho Hn Hlt m. pose proof (fw_size _ _ _ _ Hwf) as Hsize.
change (MAXFILE * BSIZE) with 71680 in Hsize.
unfold readi. fold x. rewrite (proj2 (Z.eqb_neq _ _)) by done.
rewrite u32_small by lia. rewrite (proj2 (Z.ltb_ge (i_size x) off)) by lia.
rewrite (proj2 (Z.ltb_ge (off + n) off)) by lia. cbn [orb].
assert ((if i_size x <? off + n then i_size x - off else n) = m) as ->.
{ unfold m. destruct (Z.ltb_spec (i_size x) (off + n)); lia. }
destruct (while_spec
  (λ '(fs', tot, off', acc), ∃ s, fs' = set_blk fs s ∧ bl_rep s d ∅ ∧ 0 ≤ tot ≤ m ∧
     off' = off + tot ∧ acc = file_bytes d x off (Z.to_nat tot))
  (λ '(_, tot, _, _), m - tot)
  (λ '(fs', acc), ∃ s, fs' = set_blk fs s ∧ bl_rep s d ∅ ∧ acc = file_bytes d x off (Z.to_nat m))
  (2 ^ 32) (readi_step ip m) (fs, 0, off, [])) as ([fs' acc] & -> & s & -> & Hr & ->).
- intros [[[fs' tot] off'] acc] (s & _ & _ & Ht & _). lia.
- intros [[[fs' tot] off'] acc] (s & -> & Hr & Ht & -> & ->).
  destruct (decide (tot < m)) as [Hlt2|Hge].
  + left. destruct (readi_turn (set_blk fs s) d ip off m tot (file_bytes d x off (Z.to_nat tot)))
      as (s' & E & Hr'); try done; try lia.
    { split; [apply Hfs | done | apply Hfs | apply Hfs]. }
    { unfold m. change (inodep (set_blk fs s) ip) with x. lia. }
    rewrite E. eexists; split; [reflexivity|].
    set (k := Z.min (m - tot) (BSIZE - (off + tot) mod BSIZE)).
    assert (0 < k ≤ m - tot) as Hk by (unfold k, BSIZE; zlia). split; [|lia].
    exists s'. split; [done|]. split; [done|]. split; [lia|]. split; [done|].
    replace (Z.to_nat (tot + k)) with (Z.to_nat tot + Z.to_nat k)%nat by lia.
    rewrite file_bytes_app. do 3 f_equal. lia.
  + right. unfold readi_step. rewrite (proj2 (Z.ltb_ge _ _)) by lia.
    eexists; split; [reflexivity|]. exists s. split; [done|]. split; [done|]. do 2 f_equal. lia.
- exists (f_blk fs). split; [by destruct fs|]. split; [apply Hfs|]. split; [unfold m; lia|].
  split; [lia|]. done.
- unfold m. lia.
- cbn [rbind fst snd]. exists s. split; [|done]. rewrite s32_small; [done|]. unfold m. lia.
Qed.

(** * writei *)

(** How many blocks the bytes from [off] to [fin] touch. *)
Definition nblocks (off fin : Z) : nat :=
if decide (off < fin) then Z.to_nat ((fin - 1) / BSIZE - off / BSIZE + 1) else 0.

(** The file after the bytes [src] are stored at [off]. *)
Definition wrote (d : disk) x (d' : disk) x' (off : Z) (src : list Z) : Prop :=
∀ i, 0 ≤ i < NBLK * BSIZE → file_byte d' x' i =
  if decide (off ≤ i < off + Z.of_nat (length src)) then zget src (i - off) else file_byte d x i.

Lemma zget_splice data o bs i :
0 ≤ i < Z.of_nat (length data) →
zget (splice data o bs) i =
  if decide (Z.of_nat o ≤ i < Z.of_nat o + Z.of_nat (length bs))
  then zget bs (i - Z.of_nat o) else zget data i.
Proof.
intros Hi. unfold zget, splice. rewrite !list_lookup_total_alt. case_decide as E.
- rewrite list_lookup_inserts by lia. do 2 f_equal. lia.
- destruct (decide (Z.to_nat i < o)%nat).
  + by rewrite list_lookup_inserts_lt.
  + by rewrite list_lookup_inserts_ge by lia.
Qed.

Lemma zget_drop src k i : 0 ≤ k → 0 ≤ i → zget (drop (Z.to_nat k) src) i = zget src (k + i).
Proof.
intros. unfold zget. rewrite !list_lookup_total_alt, lookup_drop. do 2 f_equal. lia.
Qed.

Lemma zget_take src k i : 0 ≤ i < k → zget (take (Z.to_nat k) src) i = zget src i.
Proof.
intros. unfold zget. rewrite !list_lookup_total_alt, lookup_take_lt by lia. done.
Qed.

(** The bytes [bs] are copied into one block of the file, at [off]. *)
Lemma step_copy d x off bs :
let a := blk_addr d x (off / BSIZE) in
let d' := disk_set d dev a (splice (d dev a) (Z.to_nat (off mod BSIZE)) bs) in
file_wf d x → 0 ≤ off → off mod BSIZE + Z.of_nat (length bs) ≤ BSIZE → off < NBLK * BSIZE →
a ≠ 0 → length (d dev a) = 512%nat →
file_step d x d' x ∧ (∀ bn, blk_addr d' x bn = blk_addr d x bn) ∧ wrote d x d' x off bs.
Proof.
intros a d' Hwf Ho Hmb Hend Ha Hl.
assert (0 ≤ off / BSIZE < NBLK) as Hbn by (unfold NBLK, BSIZE in *; zlia).
destruct (step_write sb Hsb dev d x (off / BSIZE) (splice (d dev a) (Z.to_nat (off mod BSIZE)) bs) Hwf Hbn Ha)
  as (Hst & Hblk & Hby). fold a d' in Hst, Hblk, Hby.
split; [done|]. split; [done|]. intros i Hi. rewrite Hby by done. case_decide as Eb.
- rewrite zget_splice by (rewrite Hl; unfold BSIZE; zlia).
  assert (Z.of_nat (Z.to_nat (off mod BSIZE)) = off mod BSIZE) as Eo by (unfold BSIZE; zlia). rewrite Eo.
  destruct (decide (off ≤ i < off + Z.of_nat (length bs))) as [Hin|Hout].
  + rewrite decide_True by (unfold BSIZE in *; zlia). f_equal. unfold BSIZE in *; zlia.
  + rewrite decide_False by (unfold BSIZE in *; zlia).
    unfold FsFile.file_byte. rewrite Eb. fold a. by rewrite (proj2 (Z.eqb_neq _ _)).
- rewrite decide_False by (unfold BSIZE in *; zlia). done.
Qed.

(** One block of the copy: [m] bytes of [src] go to the file at [off]. *)
Lemma write_block fs d ip off m src k :
let x := inodep fs ip in
fsi fs d → (ip < length (icache fs))%nat → file_wf d x →
0 ≤ off → 0 < m → off mod BSIZE + m ≤ BSIZE → off + m ≤ MAXFILE * BSIZE →
m ≤ Z.of_nat (length src) → has_free d (Datatypes.S k + ind_need x) →
∃ s d' l, let x' := with_addrs x l in
  write_part fs ip off m src = Ok (put_inode (set_blk fs s) ip x') ∧
  bl_rep s d' ∅ ∧ file_step d x d' x' ∧ blk_addr d' x' (off / BSIZE) ≠ 0 ∧
  wrote d x d' x' off (take (Z.to_nat m) src) ∧ has_free d' (k + ind_need x') ∧
  (blk_addr d x (off / BSIZE) ≠ 0 → l = i_addrs x).
Proof.
intros x Hfs Hip Hwf Ho Hm Hmb Hend Hsrc Hfree. change MAXFILE with 140 in Hend.
assert (0 ≤ off / BSIZE < NBLK) as Hbn by (unfold NBLK, BSIZE in *; zlia).
destruct (bmap_spec sb Hsb dev Hdev fs d ip (off / BSIZE) k) as ([fs1 a] & E & Hpost);
  [done..|].
destruct Hpost as (s1 & d1 & l & E1 & Ea & Hr1 & Hst1 & Ha & Hby1 & Hf1). fold x in E1, Ea, Hst1, Hby1, Hf1.
unfold write_part. rewrite E. cbn [rbind fst snd]. set (x1 := with_addrs x l) in *.
assert (inodep fs1 ip = x1) as Ex1 by (rewrite E1; by apply inodep_put).
rewrite Ex1. change (i_dev x1) with (i_dev x). rewrite (fw_dev _ _ _ _ Hwf).
pose proof (st_wf _ _ _ _ _ _ Hst1) as Hwf1.
destruct (fw_own _ _ _ _ Hwf1 a) as (Had & _); [rewrite Ea in Ha |- *; by apply own_addr|].
pose proof (data_block_range sb Hsb _ Had) as Har.
assert (block_ok dev a) as Hok by (apply (block_ok_lt sb Hsb dev Hdev); lia).
destruct (with_block fs1 d1 ∅ dev a) as (s2 & b & E2 & Hdat & _ & _ & _ & Hw).
{ rewrite E1. exact Hr1. } { done. } { rewrite map_size_empty; unfold NHELD; lia. }
{ intros j y Hy; by rewrite lookup_empty in Hy. }
rewrite E2. cbn [rbind].
change (fdata (set_blk fs1 s2) b) with (bl_data s2 b). rewrite Hdat.
set (o := Z.to_nat (off mod BSIZE)). set (bs := take (Z.to_nat m) src).
assert (length (d1 dev a) = 512%nat) as Hl1 by (apply (bl_sector _ _ _ _ _ Hr1 Hok)).
assert (Z.of_nat (length bs) = m) as Hlb by (unfold bs; rewrite length_take; lia).
destruct (Hw (splice (d1 dev a) o bs)) as (s3 & E3 & Hr3); [by rewrite length_splice|].
unfold fset, fbwrite. cbn [f_blk set_blk]. rewrite E3. cbn [rbind].
pose proof (step_copy d1 x1 off bs) as Hcp. cbv zeta in Hcp. rewrite <- Ea in Hcp.
destruct Hcp as (Hst2 & Hblk2 & Hby2); [done | done | lia | unfold NBLK; lia | done | done |].
fold o in Hst2, Hblk2, Hby2.
set (d2 := disk_set d1 dev a (splice (d1 dev a) o bs)) in *.
exists (bl_release s3 b), d2, l. fold x1.
split; [by rewrite E1|]. split; [done|]. split; [by eapply file_step_trans|].
split; [by rewrite Hblk2, <- Ea|]. split.
- intros i Hi. rewrite Hby2 by done. by rewrite Hby1.
- split; [|intros Hpre; destruct (bmap_present fs d ip (off / BSIZE) Hfs Hwf Hbn Hpre) as (s0 & E0 & _);
    rewrite E in E0; injection E0 as E0 _; rewrite E0 in Ex1; change (x = with_addrs x l) in Ex1; by rewrite Ex1].
  apply has_free_ext with d1; [|done]. intros b' Hb'. unfold d2.
  pose proof (data_block_range sb Hsb b' Hb'). rewrite used_disk_set; [done | lia |].
  intros E'. apply (data_not_bitmap sb a); [done|]. rewrite E'. apply BBLOCK_bitmap; [done|lia].
Qed.

(** The copy loop. *)
Lemma nblocks_turn off fin m :
0 ≤ off < fin → m = Z.min (fin - off) (BSIZE - off mod BSIZE) →
nblocks off fin = Datatypes.S (nblocks (off + m) fin) ∧ 0 < m ∧ off mod BSIZE + m ≤ BSIZE ∧
off + m ≤ fin ∧ (∀ bn, 0 ≤ bn → bn * BSIZE < off + m → bn * BSIZE < off ∨ bn = off / BSIZE).
Proof.
intros Ho ->. unfold nblocks. rewrite decide_True by lia. unfold BSIZE.
destruct (decide (off + Z.min (fin - off) (512 - off mod 512) < fin)).
- rewrite <- Z2Nat.inj_succ by zlia. split; [f_equal; zlia|]. split; [zlia|]. split; [zlia|].
  split; [zlia|]. intros. zlia.
- split; [zlia|]. split; [zlia|]. split; [zlia|].
  split; [zlia|]. intros. zlia.
Qed.

(** The state of the loop after [tot] bytes, [e] free blocks being spared. *)
Definition copied (e : nat) fs d ip off fin (src : list Z) '((fs', tot, off', src') : fsys S * Z * Z * list Z)
: Prop :=
∃ s d' l, let x := inodep fs ip in let x' := with_addrs x l in
  fs' = put_inode (set_blk fs s) ip x' ∧ bl_rep s d' ∅ ∧ file_step d x d' x' ∧
  0 ≤ tot ≤ Z.of_nat (length src) ∧ off' = off + tot ∧ off' ≤ fin ∧
  src' = drop (Z.to_nat tot) src ∧ wrote d x d' x' off (take (Z.to_nat tot) src) ∧
  has_free d' (nblocks off' fin + e + ind_need x') ∧
  (∀ bn, 0 ≤ bn → bn * BSIZE < off' → blk_addr d' x' bn ≠ 0) ∧ (fin ≤ i_size x → l = i_addrs x).

Lemma wrote_app d x d1 x1 d2 x2 off src1 src2 :
wrote d x d1 x1 off src1 → wrote d1 x1 d2 x2 (off + Z.of_nat (length src1)) src2 →
wrote d x d2 x2 off (src1 ++ src2).
Proof.
intros H1 H2 i Hi. rewrite H2, H1, length_app by done. unfold zget.
destruct (decide (off + Z.of_nat (length src1) ≤ i <
                  off + Z.of_nat (length src1) + Z.of_nat (length src2))) as [Ha|Ha].
- rewrite decide_True by lia. rewrite !list_lookup_total_alt, lookup_app_r by lia.
  do 2 f_equal. lia.
- destruct (decide (off ≤ i < off + Z.of_nat (length src1))).
  + rewrite decide_True by lia. rewrite !list_lookup_total_alt, lookup_app_l by lia. done.
  + by rewrite decide_False by lia.
Qed.

Lemma take_drop_app {A} (l : list A) (i j : nat) :
take i l ++ take j (drop i l) = take (i + j) l.
Proof. rewrite <- take_take_drop. done. Qed.

Lemma writei_turn e fs d ip off src st :
let x := inodep fs ip in
let n := Z.of_nat (length src) in
fsi fs d → (ip < length (icache fs))%nat → file_wf d x → no_holes d x → 0 ≤ off → off + n ≤ MAXFILE * BSIZE →
copied e fs d ip off (off + n) src st → st.1.1.2 < n →
∃ st', writei_step ip n st = Ok (inl st') ∧ copied e fs d ip off (off + n) src st' ∧
  n - st'.1.1.2 < n - st.1.1.2.
Proof.
intros x n Hfs Hip Hwf Hnh Ho Hend Hst Hlt. destruct st as [[[fs' tot] off'] src']. cbn [fst snd] in *.
destruct Hst as (s & d1 & l & -> & Hr & Hst1 & Ht & -> & Hf & -> & Hw & Hfree & Hnz & Hsame).
fold x in Hst1, Hw, Hfree, Hnz, Hsame |- *. set (x1 := with_addrs x l) in *.
unfold writei_step. rewrite (proj2 (Z.ltb_lt _ _)) by lia.
set (m := Z.min (n - tot) (BSIZE - (off + tot) mod BSIZE)).
destruct (nblocks_turn (off + tot) (off + n) m) as (En & Hm & Hmb & Hmf & Hbn); [lia | unfold m; lia |].
change MAXFILE with 140 in Hend.
set (fs1 := put_inode (set_blk fs s) ip x1).
assert (inodep fs1 ip = x1) as Ex1 by (by apply inodep_put).
assert (fsi fs1 d1) as Hfs1 by (by apply (fsi_step sb Hsb dev Hdev fs d ∅ d1 x x1 s)).
destruct (write_block fs1 d1 ip (off + tot) m (drop (Z.to_nat tot) src)
  (nblocks (off + tot + m) (off + n) + e))
  as (s2 & d2 & l2 & E2 & Hr2 & Hst2 & Ha2 & Hw2 & Hf2 & Hsame2); try done; try lia.
{ unfold fs1. cbn. by rewrite length_insert. }
{ rewrite Ex1. apply Hst1. }
{ change MAXFILE with 140. lia. }
{ rewrite length_drop. lia. }
{ rewrite Ex1. rewrite En in Hfree. exact Hfree. }
rewrite E2. cbn [rbind]. rewrite Ex1 in Hst2, Ha2, Hw2, Hf2, Hsame2 |- *.
change (with_addrs x1 l2) with (with_addrs x l2) in *. set (x2 := with_addrs x l2) in *.
eexists; split; [reflexivity|]. split; [|cbn [fst snd]; lia].
assert (file_step d x d2 x2) as Hst3 by (by eapply file_step_trans).
exists s2, d2, l2. fold x. fold x2. rewrite u32_small by (unfold BSIZE in *; lia).
split. { unfold fs1. change (set_blk (put_inode (set_blk fs s) ip x1) s2)
  with (put_inode (set_blk fs s2) ip x1). apply put_put. }
split; [done|]. split; [done|]. split; [lia|]. split; [lia|]. split; [lia|].
split. { rewrite drop_drop. f_equal. lia. }
split.
{ replace (Z.to_nat (tot + m)) with (Z.to_nat tot + Z.to_nat m)%nat by lia.
  rewrite <- take_drop_app. eapply wrote_app; [exact Hw|].
  rewrite length_take. replace (Z.of_nat (Z.to_nat tot `min` length src)) with tot by lia. done. }
split; [done|]. split.
{ intros bn Hbn0 Hbn1. destruct (Hbn bn Hbn0 Hbn1) as [Hlo | ->]; [|done].
  assert (0 ≤ bn < NBLK) by (unfold NBLK, BSIZE in *; lia).
  rewrite (st_addr _ _ _ _ _ _ Hst2) by (done || by apply Hnz). by apply Hnz. }
intros Hle. rewrite <- (Hsame Hle). apply Hsame2.
assert (0 ≤ (off + tot) / BSIZE < NBLK ∧ (off + tot) / BSIZE * BSIZE < i_size x) as (Hb1 & Hb2)
  by (fold x in Hle; unfold NBLK, BSIZE in *; zlia).
rewrite (st_addr _ _ _ _ _ _ Hst1) by (done || by apply Hnh; [apply Hb1|]). by apply Hnh; [apply Hb1|].
Qed.

Lemma writei_loop e fs d ip off src :
let x := inodep fs ip in
let n := Z.of_nat (length src) in
fsi fs d → (ip < length (icache fs))%nat → file_wf d x → no_holes d x →
0 ≤ off ≤ i_size x → off + n ≤ MAXFILE * BSIZE → has_free d (nblocks off (off + n) + e + ind_need x) →
∃ s d' l, let x' := with_addrs x l in
  while (2 ^ 32) (writei_step ip n) (fs, 0, off, src) =
    Ok (put_inode (set_blk fs s) ip x', off + n) ∧
  bl_rep s d' ∅ ∧ file_step d x d' x' ∧ wrote d x d' x' off src ∧
  has_free d' (e + ind_need x') ∧
  (∀ bn, 0 ≤ bn → bn * BSIZE < off + n → blk_addr d' x' bn ≠ 0) ∧ (off + n ≤ i_size x → l = i_addrs x).
Proof.
intros x n Hfs Hip Hwf Hnh Ho Hend Hfree.
change (MAXFILE * BSIZE) with 71680 in Hend.
destruct (while_spec
  (λ st, copied e fs d ip off (off + n) src st) (λ st, n - st.1.1.2)
  (λ '(fs', off'), copied e fs d ip off (off + n) src (fs', n, off', drop (Z.to_nat n) src))
  (2 ^ 32) (writei_step ip n) (fs, 0, off, src)) as ([fs' off'] & E & Hq).
- intros [[[fs' tot] off'] src'] (s & d' & l & _ & _ & _ & Ht & _). cbn [fst snd]. lia.
- intros st Hst. destruct (decide (st.1.1.2 < n)) as [Hlt|Hge].
  + left. destruct (writei_turn e fs d ip off src st) as (st' & E & Hst' & Hdec); try done; [lia|].
    fold n in E, Hst', Hdec. rewrite E. eexists; split; [reflexivity|].
    split; [done | exact Hdec].
  + right. destruct st as [[[fs' tot] off'] src']. cbn [fst snd] in Hge.
    unfold writei_step. rewrite (proj2 (Z.ltb_ge _ _)) by lia.
    eexists; split; [reflexivity|].
    assert (tot = n) as -> by (destruct Hst as (s & d' & l & _ & _ & _ & Ht & _); lia).
    destruct Hst as (s & d' & l & H1 & H2 & H3 & H4 & H5 & H6 & H7 & H8).
    exists s, d', l. done.
- exists (f_blk fs), d, (i_addrs x). cbv zeta. fold x. rewrite with_addrs_id. split.
  { transitivity (put_inode fs ip x); [symmetry; by apply put_inode_same | by destruct fs]. }
  split; [apply Hfs|]. split; [by apply file_step_refl|]. split; [lia|]. split; [lia|].
  split; [lia|]. split; [done|]. split.
  { intros i Hi. rewrite decide_False; [done|]. rewrite length_take. lia. }
  split; [done|]. split; [|done]. intros bn Hbn Hlt. apply Hnh; [done | lia].
- cbn [fst snd]. lia.
- rewrite E. destruct Hq as (s & d' & l & -> & Hr & Hst & _ & -> & _ & _ & Hw & Hfree' & Hnz).
  fold x in Hst, Hw, Hnz |- *. exists s, d', l. fold x. split; [done|].
  unfold n in Hw. rewrite Nat2Z.id, firstn_all in Hw.
  split; [exact Hr|]. split; [exact Hst|]. split; [exact Hw|]. split; [|exact Hnz].
  eapply has_free_le; [exact Hfree' | fold x; lia].
Qed.

(** * Inodes on the disk *)

Definition disk_inode (d : disk) (i : Z) : dinode := dec_dinode (d dev (IBLOCK i sb)) (ioff i).

(** The disk after [iupdate] of [x]. *)
Definition put_dinode (d : disk) x : disk :=
disk_set d dev (IBLOCK (i_inum x) sb)
  (enc_dinode (d dev (IBLOCK (i_inum x) sb)) (ioff (i_inum x)) (dinode_of x)).

Lemma inode_block_facts i :
0 ≤ i < sb_ninodes sb →
block_ok dev (IBLOCK i sb) ∧ 1 < IBLOCK i sb < sb_bmapstart sb ∧ IBLOCK i sb < sb_size sb.
Proof.
intros Hi. pose proof (IBLOCK_range sb Hsb i Hi) as (_ & Hb).
destruct Hsb as [G1 G2 G3 G4 G5]. unfold dstart in G5.
assert (0 ≤ sb_size sb / BPB) by (unfold BPB, BSIZE; zlia).
split; [apply (block_ok_lt sb Hsb dev Hdev); lia|]. lia.
Qed.

Lemma iupdate_spec fs d ip :
let x := inodep fs ip in
fsi fs d → i_dev x = dev → 0 ≤ i_inum x < sb_ninodes sb →
∃ s, iupdate fs ip = Ok (set_blk fs s) ∧ bl_rep s (put_dinode d x) ∅.
Proof.
intros x Hfs Hxd Hi. destruct (inode_block_facts _ Hi) as (Hok & _).
unfold iupdate. fold x. rewrite Hxd, (fi_sb _ _ _ _ _ Hfs).
destruct (with_block fs d ∅ dev (IBLOCK (i_inum x) sb)) as (s & b & E & Hdat & _ & _ & _ & Hw).
{ apply Hfs. } { done. } { rewrite map_size_empty. unfold NHELD. lia. }
{ intros j y Hy. by rewrite lookup_empty in Hy. }
rewrite E. cbn [rbind]. change (fdata (set_blk fs s) b) with (bl_data s b). rewrite Hdat.
destruct (Hw (enc_dinode (d dev (IBLOCK (i_inum x) sb)) (ioff (i_inum x)) (dinode_of x)))
  as (s' & E' & Hr').
{ rewrite length_enc_dinode. apply (bl_sector _ _ _ _ _ (fi_rep _ _ _ _ _ Hfs) Hok). }
unfold fset, fbwrite. cbn [f_blk set_blk]. rewrite E'. cbn [rbind].
eexists; split; [reflexivity | exact Hr'].
Qed.

Lemma disk_inode_put d x i :
0 ≤ i_inum x < sb_ninodes sb → 0 ≤ i < sb_ninodes sb →
length (d dev (IBLOCK (i_inum x) sb)) = 512%nat → dinode_ok (dinode_of x) →
disk_inode (put_dinode d x) i = if decide (i = i_inum x) then dinode_of x else disk_inode d i.
Proof.
intros Hx Hi Hl Hok. unfold disk_inode, put_dinode.
pose proof (ioff_range (i_inum x)) as Hr. case_decide as E.
- rewrite E, disk_set_eq. apply dec_enc_dinode; [lia | done].
- destruct (decide (IBLOCK i sb = IBLOCK (i_inum x) sb)) as [Eb|Eb].
  + rewrite Eb, disk_set_eq. apply dec_enc_dinode_ne; [apply Hok|].
    assert (i / IPB = i_inum x / IPB).
    { destruct (IBLOCK_range sb Hsb i Hi) as (E1 & _).
      destruct (IBLOCK_range sb Hsb _ Hx) as (E2 & _). change IPB with 8. lia. }
    by apply ioff_ne.
  + rewrite disk_set_ne by auto. done.
Qed.

(** Writing an inode touches no file's contents and no bitmap. *)
Lemma put_dinode_other d x b :
0 ≤ i_inum x < sb_ninodes sb → sb_bmapstart sb ≤ b → put_dinode d x dev b = d dev b.
Proof.
intros Hx Hb. unfold put_dinode. apply disk_set_ne. right.
pose proof (inode_block_facts _ Hx). lia.
Qed.

Lemma put_dinode_used d x b :
0 ≤ i_inum x < sb_ninodes sb → 0 ≤ b < sb_size sb →
used sb (put_dinode d x) dev b = used sb d dev b.
Proof.
intros Hx Hb. apply used_disk_set; [done|].
pose proof (inode_block_facts _ Hx). pose proof (BBLOCK_range sb Hsb b Hb). lia.
Qed.

Lemma put_dinode_addr d x y bn :
0 ≤ i_inum x < sb_ninodes sb → (∀ b, own dev d y b → data_block sb b) →
blk_addr (put_dinode d x) y bn = blk_addr d y bn.
Proof.
intros Hx Hy. apply blk_addr_ext. intros Hi. apply put_dinode_other; [done|].
specialize (Hy (ind_of y) (own_ind _ _ _ Hi)). unfold data_block, dstart in Hy.
pose proof (sw_size _ Hsb). assert (0 ≤ sb_size sb / BPB) by (unfold BPB, BSIZE; zlia). lia.
Qed.

Lemma put_dinode_own d x y b :
0 ≤ i_inum x < sb_ninodes sb → (∀ b, own dev d y b → data_block sb b) →
own dev (put_dinode d x) y b → own dev d y b.
Proof.
intros Hx Hd (Hb & [?|(bn & Hbn & E)]); (split; [done|]); [by left|]. right. exists bn.
split; [done|]. by rewrite <- E, put_dinode_addr.
Qed.

Lemma put_dinode_file d x y :
0 ≤ i_inum x < sb_ninodes sb → file_wf d y →
file_wf (put_dinode d x) y ∧
∀ i, 0 ≤ i < NBLK * BSIZE → file_byte (put_dinode d x) y i = file_byte d y i.
Proof.
intros Hx Hwf.
assert (∀ b, own dev d y b → data_block sb b) as Hd by (intros b Hb; by apply (fw_own _ _ _ _ Hwf)).
assert (∀ bn, blk_addr (put_dinode d x) y bn = blk_addr d y bn) as Ha
  by (intros bn; by apply put_dinode_addr).
assert (∀ b, own dev (put_dinode d x) y b → own dev d y b) as Ho
  by (intros b; by apply put_dinode_own).
split.
- destruct Hwf as [W1 W2 W3 W4 W5 W6 W7]. split; try done.
  + intros b Hb. apply Ho in Hb. destruct (W5 b Hb) as (Hdb & Hu). split; [done|].
    rewrite put_dinode_used; [done | done |]. pose proof (data_block_range sb Hsb b Hdb). lia.
  + intros b1 b2. rewrite !Ha. apply W6.
  + intros b1. rewrite Ha. apply W7.
- intros i Hi. apply file_byte_ext; [apply Ha|]. intros Hn. apply put_dinode_other; [done|].
  assert (0 ≤ i / BSIZE < NBLK) as Hb by (unfold NBLK, BSIZE in *; zlia).
  specialize (Hd _ (own_addr _ _ _ _ Hb Hn)). unfold data_block, dstart in Hd.
  pose proof (sw_size _ Hsb). assert (0 ≤ sb_size sb / BPB) by (unfold BPB, BSIZE; zlia). lia.
Qed.

Lemma put_dinode_fsi fs d x s f :
fsi fs d → 0 ≤ i_inum x < sb_ninodes sb → bl_rep s (put_dinode d x) ∅ →
fsi (set_icache (set_blk fs s) f) (put_dinode d x).
Proof.
intros [Es Hr Hm Hd] Hx Hr'. split; [done | done | |].
- intros b Hb. pose proof (sw_data _ Hsb). rewrite put_dinode_used by (done || lia). auto.
- unfold put_dinode. rewrite disk_set_ne; [done|]. right.
  pose proof (inode_block_facts _ Hx). lia.
Qed.

(** The fields that the blocks of a file do not determine. *)
Record meta_ok x : Prop := {
mo_type : - 2 ^ 15 ≤ i_type x < 2 ^ 15;
mo_major : - 2 ^ 15 ≤ i_major x < 2 ^ 15;
mo_minor : - 2 ^ 15 ≤ i_minor x < 2 ^ 15;
mo_nlink : - 2 ^ 15 ≤ i_nlink x < 2 ^ 15
}.

Lemma file_dinode_ok d x : file_wf d x → meta_ok x → dinode_ok (dinode_of x).
Proof.
intros Hwf [M1 M2 M3 M4]. pose proof (fw_size _ _ _ _ Hwf) as Hs.
change (MAXFILE * BSIZE) with 71680 in Hs. split; try done; cbn; [lia | apply Hwf |].
apply Forall_lookup. intros k a Ha.
destruct (decide (a = 0)) as [->|Hn]; [lia|].
assert (data_block sb a) as Hd.
{ apply (fw_own _ _ _ _ Hwf). assert (zget (i_addrs x) (Z.of_nat k) = a) as Ez.
  { unfold zget. rewrite Nat2Z.id. by apply list_lookup_total_correct. }
  pose proof (lookup_lt_Some _ _ _ Ha) as Hk. rewrite (fw_len _ _ _ _ Hwf) in Hk.
  destruct (decide (Z.of_nat k = NDIRECT)) as [Ek|Nk].
  - rewrite <- Ez, Ek. apply own_ind. unfold ind_of. rewrite <- Ek. congruence.
  - assert (0 ≤ Z.of_nat k < NDIRECT) by (unfold NDIRECT in *; lia).
    rewrite <- Ez. replace (zget (i_addrs x) (Z.of_nat k)) with (blk_addr d x (Z.of_nat k))
      by (unfold FsFile.blk_addr; by rewrite (proj2 (Z.ltb_lt _ _)) by lia).
    apply own_addr; [unfold NBLK, NDIRECT in *; lia|].
    unfold FsFile.blk_addr. rewrite (proj2 (Z.ltb_lt _ _)) by lia. congruence. }
pose proof (data_block_range sb Hsb a Hd). pose proof (sw_size _ Hsb). lia.
Qed.

Lemma file_step_inodes d x d' x' j :
file_step d x d' x' → meta_used sb d dev → 0 ≤ j < sb_ninodes sb →
disk_inode d' j = disk_inode d j ∧ d' dev (IBLOCK j sb) = d dev (IBLOCK j sb).
Proof.
intros Hst Hm Hj. pose proof (inode_block_facts j Hj) as (_ & H1 & H2).
assert (d' dev (IBLOCK j sb) = d dev (IBLOCK j sb)) as E; [|by unfold disk_inode; rewrite E].
assert (IBLOCK j sb < dstart sb) as H3.
{ unfold dstart. pose proof (sw_size _ Hsb).
  assert (0 ≤ sb_size sb / BPB) by (unfold BPB, BSIZE; zlia). lia. }
apply (st_frame _ _ _ _ _ _ Hst); [lia | apply Hm; lia | | unfold bitmap_block; lia].
intros Ho. apply (st_mono _ _ _ _ _ _ Hst) in Ho.
destruct (fw_own _ _ _ _ (st_wf _ _ _ _ _ _ Hst) _ Ho) as (Hb & _). unfold data_block in Hb. lia.
Qed.

Lemma wrote_frame d x d1 x1 d2 x2 off src :
wrote d x d1 x1 off src →
(∀ i, 0 ≤ i < NBLK * BSIZE → file_byte d2 x2 i = file_byte d1 x1 i) → wrote d x d2 x2 off src.
Proof. intros Hw He i Hi. by rewrite He, Hw. Qed.

(** The data blocks of other files keep their contents and their owners. *)
Definition others_kept d x d' x' : Prop :=
∀ b, data_block sb b → used sb d dev b = true → ¬ own dev d x b →
  d' dev b = d dev b ∧ used sb d' dev b = true ∧ ¬ own dev d' x' b.

Lemma others_kept_trans d1 x1 d2 x2 d3 x3 :
others_kept d1 x1 d2 x2 → others_kept d2 x2 d3 x3 → others_kept d1 x1 d3 x3.
Proof.
intros H1 H2 b Hb Hu Ho. destruct (H1 b Hb Hu Ho) as (E1 & Hu2 & Ho2).
destruct (H2 b Hb Hu2 Ho2) as (E2 & Hu3 & Ho3). by rewrite E2.
Qed.

Lemma file_step_kept d x d' x' : file_step d x d' x' → others_kept d x d' x'.
Proof.
intros Hst b Hb Hu Ho. pose proof (data_block_range sb Hsb b Hb).
split; [apply (st_frame _ _ _ _ _ _ Hst); [lia | done | done | by apply data_not_bitmap]|].
split; [apply (st_used _ _ _ _ _ _ Hst); [lia | by left]|].
intros Ho'. destruct (st_new _ _ _ _ _ _ Hst b Ho'); [done | congruence].
Qed.

Lemma put_dinode_kept d x y :
0 ≤ i_inum x < sb_ninodes sb → (∀ b, own dev d y b → data_block sb b) →
others_kept d y (put_dinode d x) y.
Proof.
intros Hx Hy b Hb Hu Ho. pose proof (data_block_range sb Hsb b Hb).
split; [|split; [by rewrite put_dinode_used by (done || lia) | intros Ho'; apply Ho; by eapply put_dinode_own]].
apply put_dinode_other; [done|]. pose proof (sw_size _ Hsb).
assert (0 ≤ sb_size sb / BPB) by (unfold BPB, BSIZE; zlia). unfold data_block, dstart in Hb. lia.
Qed.

(** The file grows to [m] bytes, and its inode is saved. *)
Lemma grow_spec fs d ip m :
let x := inodep fs ip in
let x' := set_size x m in
fsi fs d → (ip < length (icache fs))%nat → file_step d x d x' → meta_ok x →
∃ s, let fs' := put_inode (set_blk fs s) ip x' in
  let d' := put_dinode d x' in
  iupdate (upd_inode fs ip (λ x, set_size x m)) ip = Ok fs' ∧ fsi fs' d' ∧ file_wf d' x' ∧
  (∀ i, 0 ≤ i < NBLK * BSIZE → file_byte d' x' i = file_byte d x' i) ∧
  (∀ bn, 0 ≤ bn → blk_addr d' x' bn = blk_addr d x' bn) ∧
  (∀ j, 0 ≤ j < sb_ninodes sb → disk_inode d' j = if decide (j = i_inum x) then dinode_of x' else disk_inode d j) ∧
  others_kept d x d' x' ∧ ∀ k, has_free d k → has_free d' k.
Proof.
intros x x' Hfs Hip Hst Hmeta. pose proof (st_wf _ _ _ _ _ _ Hst) as Hwf.
rewrite put_inode_upd by done. fold x x'. set (fs2 := put_inode fs ip x').
assert (inodep fs2 ip = x') as Ex2 by (by apply inodep_put).
assert (fsi fs2 d) as Hfs2 by (split; apply Hfs).
assert (0 ≤ i_inum x' < sb_ninodes sb) as Hin by apply Hwf.
destruct (iupdate_spec fs2 d ip Hfs2) as (s2 & E2 & Hr2); rewrite ?Ex2; [apply Hwf | done |].
rewrite Ex2 in Hr2. exists s2. split; [exact E2|].
destruct (put_dinode_file d x' x' Hin Hwf) as (Hwf3 & Hby3).
split; [by apply (put_dinode_fsi fs2 d x' s2 (icache fs2))|]. split; [done|]. split; [exact Hby3|].
assert (∀ b, own dev d x' b → data_block sb b) as Hown by (intros b Hb; by apply (fw_own _ _ _ _ Hwf)).
split; [intros bn Hbn; by apply put_dinode_addr|]. split.
{ intros j Hj. assert (dinode_ok (dinode_of x')) as Hdok by (apply file_dinode_ok with d; [done|]; by destruct Hmeta).
  assert (length (d dev (IBLOCK (i_inum x') sb)) = 512%nat) as Hl
    by (apply (bl_sector _ _ _ _ _ (fi_rep _ _ _ _ _ Hfs)), inode_block_facts; done).
  change (i_inum x) with (i_inum x'). by rewrite disk_inode_put. }
split; [apply others_kept_trans with d x'; [by apply file_step_kept | by apply put_dinode_kept]|].
intros k. apply has_free_ext. intros b Hb. apply put_dinode_used; [done|]. pose proof (data_block_range sb Hsb b Hb). lia.
Qed.

Lemma writei_spec_free e fs d ip off src :
let x := inodep fs ip in
let n := Z.of_nat (length src) in
fsi fs d → (ip < length (icache fs))%nat → file_wf d x → no_holes d x → meta_ok x →
i_type x ≠ T_DEV → 0 ≤ off ≤ i_size x → off + n ≤ MAXFILE * BSIZE →
has_free d (nblocks off (off + n) + e + ind_need x) →
∃ fs' d', writei fs ip src off n = Ok (fs', n) ∧ fsi fs' d' ∧
  let x' := inodep fs' ip in
  file_wf d' x' ∧ no_holes d' x' ∧ i_size x' = Z.max (i_size x) (off + n) ∧
  wrote d x d' x' off src ∧
  (i_size x < off + n → disk_inode d' (i_inum x) = dinode_of x') ∧
  (∀ j, 0 ≤ j < sb_ninodes sb → j ≠ i_inum x → disk_inode d' j = disk_inode d j) ∧
  others_kept d x d' x' ∧
  i_type x' = i_type x ∧ has_free d' (e + ind_need x') ∧
  ∃ s, fs' = put_inode (set_blk fs s) ip x' ∧ x' = set_size (with_addrs x (i_addrs x')) (i_size x') ∧
    (off + n ≤ i_size x → x' = x ∧ disk_inode d' (i_inum x) = disk_inode d (i_inum x)).
Proof.
intros x n Hfs Hip Hwf Hnh Hmeta Hty Ho Hend Hfree.
assert (0 ≤ n) as Hn0 by (unfold n; lia).
pose proof (fw_size _ _ _ _ Hwf) as Hsize.
destruct (writei_loop e fs d ip off src) as (s & d1 & l & E & Hr1 & Hst & Hw & Hf1 & Hnz & Hl0); [done..|].
fold x in E, Hst, Hw, Hf1, Hnz. fold n in E, Hnz. set (x1 := with_addrs x l) in *.
unfold writei. fold x. rewrite (proj2 (Z.eqb_neq _ _)) by done.
rewrite u32_small by (change (MAXFILE * BSIZE) with 71680 in *; lia).
rewrite (proj2 (Z.ltb_ge (i_size x) off)), (proj2 (Z.ltb_ge (off + n) off)),
  (proj2 (Z.ltb_ge (MAXFILE * BSIZE) (off + n))) by lia. cbn [orb].
rewrite E. cbn [rbind]. rewrite inodep_put by done. change (i_size x1) with (i_size x).
rewrite s32_small by (change (MAXFILE * BSIZE) with 71680 in *; lia).
pose proof (fsi_step sb Hsb dev Hdev fs d ∅ d1 x x1 s (<[ip := x1]> (icache fs)) Hfs Hst Hr1) as Hfs1.
change (set_icache (set_blk fs s) (<[ip:=x1]> (icache fs))) with (put_inode (set_blk fs s) ip x1) in Hfs1.
assert (∀ j, 0 ≤ j < sb_ninodes sb → disk_inode d1 j = disk_inode d j) as Hdi1
  by (intros j Hj; by apply (file_step_inodes d x d1 x1); [| apply Hfs|]).
pose proof (file_step_kept _ _ _ _ Hst) as Hfr1.
destruct (decide (i_size x < off + n)) as [Hgrow|Hsame].
- rewrite (proj2 (Z.ltb_lt 0 n)), (proj2 (Z.ltb_lt (i_size x) (off + n))) by lia. cbn [andb].
  assert (file_step d1 x1 d1 (set_size x1 (off + n))) as Hst2 by (apply step_size; [apply Hst | lia]).
  destruct (grow_spec (put_inode (set_blk fs s) ip x1) d1 ip (off + n)) as (s2 & E2 & Hfs2 & Hwf2 & Hby & Had & Hdi2 & Hk & Hf2);
    rewrite ?inodep_put by done;
    [exact Hfs1 | cbn; by rewrite length_insert | exact Hst2 | by destruct Hmeta |].
  rewrite inodep_put in E2, Hfs2, Hwf2, Hby, Had, Hdi2, Hk, Hf2 by done.
  change (set_blk (put_inode (set_blk fs s) ip x1) s2) with (put_inode (set_blk fs s2) ip x1) in E2, Hfs2.
  rewrite put_put in E2, Hfs2. set (x2 := set_size x1 (off + n)) in *. rewrite E2. cbn [rbind].
  assert (inodep (put_inode (set_blk fs s2) ip x2) ip = x2) as Ex2 by (by apply inodep_put).
  exists (put_inode (set_blk fs s2) ip x2), (put_dinode d1 x2). rewrite Ex2. cbv zeta.
  split; [done|]. split; [done|]. split; [done|].
  split; [intros bn Hbn Hlt; rewrite Had by done; by apply Hnz|].
  split; [change (off + n = i_size x `max` (off + n)); lia|].
  split; [by apply (wrote_frame d x d1 x1)|].
  split; [intros _; rewrite (Hdi2 (i_inum x)) by apply Hwf; by rewrite decide_True|].
  split; [intros j Hj Hne; rewrite Hdi2 by done; rewrite decide_False by done; auto|].
  split; [by apply others_kept_trans with d1 x1|]. split; [done|]. split; [by apply Hf2|].
  exists s2. split; [done|]. split; [done | lia].
- rewrite (proj2 (Z.ltb_ge (i_size x) (off + n))) by lia. rewrite andb_false_r.
  exists (put_inode (set_blk fs s) ip x1), d1. split; [done|]. split; [done|].
  rewrite inodep_put by done. split; [apply Hst|]. split.
  { intros bn Hbn Hlt. change (i_size x1) with (i_size x) in Hlt.
    assert (blk_addr d x bn ≠ 0) as Hn by (by apply Hnh).
    assert (0 ≤ bn < NBLK)
      by (change (MAXFILE * BSIZE) with 71680 in *; unfold NBLK, BSIZE in *; lia).
    by rewrite (st_addr _ _ _ _ _ _ Hst). }
  split; [change (i_size x = i_size x `max` (off + n)); lia|]. split; [done|].
  split; [lia|]. split; [auto|]. split; [done|]. split; [done|]. split; [done|]. exists s. split; [done|]. split; [done|].
  intros _. split; [unfold x1; rewrite Hl0 by (fold x; lia); apply with_addrs_id|]. apply Hdi1, Hwf.
Qed.

Lemma writei_spec fs d ip off src :
let x := inodep fs ip in
let n := Z.of_nat (length src) in
fsi fs d → (ip < length (icache fs))%nat → file_wf d x → no_holes d x → meta_ok x →
i_type x ≠ T_DEV → 0 ≤ off ≤ i_size x → off + n ≤ MAXFILE * BSIZE →
has_free d (nblocks off (off + n) + ind_need x) →
∃ fs' d', writei fs ip src off n = Ok (fs', n) ∧ fsi fs' d' ∧
  let x' := inodep fs' ip in
  file_wf d' x' ∧ no_holes d' x' ∧ i_size x' = Z.max (i_size x) (off + n) ∧
  wrote d x d' x' off src ∧
  (i_size x < off + n → disk_inode d' (i_inum x) = dinode_of x') ∧
  (∀ j, 0 ≤ j < sb_ninodes sb → j ≠ i_inum x → disk_inode d' j = disk_inode d j) ∧
  (∀ b, data_block sb b → used sb d dev b = true → ¬ own dev d x b → d' dev b = d dev b) ∧
  i_type x' = i_type x ∧ length (icache fs') = length (icache fs).
Proof.
intros x n H1 H2 H3 H4 H5 H6 H7 H8 H9.
destruct (writei_spec_free 0 fs d ip off src)
  as (fs' & d' & E & Q1 & Q2 & Q3 & Q4 & Q5 & Q6 & Q7 & Q8 & Q9 & _ & s & Q10 & _);
  [done.. | by rewrite Nat.add_0_r |].
exists fs', d'. do 8 (split; [done|]). split; [intros b Hb Hu Ho; by apply Q8|].
split; [done|]. rewrite Q10. cbn. by rewrite length_insert.
Qed.

(** * ilock *)

Lemma ilock_spec fs d ip :
let x := inodep fs ip in
fsi fs d → (ip < length (icache fs))%nat → i_dev x = dev → 0 ≤ i_inum x < sb_ninodes sb →
1 ≤ i_ref x → i_valid x = 0 → di_type (disk_inode d (i_inum x)) ≠ 0 →
∃ s, ilock fs ip =
    Ok (put_inode (set_blk fs s) ip (set_valid (load_dinode x (disk_inode d (i_inum x))) 1)) ∧
  bl_rep s d ∅.
Proof.
intros x Hfs Hip Hxd Hi Href Hv Hty. destruct (inode_block_facts _ Hi) as (Hok & _).
unfold ilock. fold x. rewrite (proj2 (Z.ltb_ge (i_ref x) 1)) by lia. fold x.
rewrite Hv. cbn [Z.eqb]. rewrite Hxd, (fi_sb _ _ _ _ _ Hfs).
destruct (with_block fs d ∅ dev (IBLOCK (i_inum x) sb)) as (s & b & E & Hdat & _ & _ & Hrel & _).
{ apply Hfs. } { done. } { rewrite map_size_empty. unfold NHELD. lia. }
{ intros j y Hy. by rewrite lookup_empty in Hy. }
rewrite E. cbn [rbind]. change (fdata (set_blk fs s) b) with (bl_data s b). rewrite Hdat.
change (dec_dinode (d dev (IBLOCK (i_inum x) sb)) (ioff (i_inum x)))
  with (disk_inode d (i_inum x)).
rewrite (put_inode_upd (set_blk fs s) ip (λ x0, load_dinode x0 (disk_inode d (i_inum x)))) by done.
change (inodep (set_blk fs s) ip) with x.
set (x1 := load_dinode x (disk_inode d (i_inum x))).
rewrite put_inode_upd by (cbn; by rewrite length_insert).
change (inodep (fbrelse (put_inode (set_blk fs s) ip x1) b) ip)
  with (inodep (put_inode (set_blk fs s) ip x1) ip).
assert (inodep (put_inode (set_blk fs s) ip x1) ip = x1) as -> by (by apply inodep_put).
change (put_inode (fbrelse (put_inode (set_blk fs s) ip x1) b) ip (set_valid x1 1))
  with (put_inode (put_inode (set_blk fs (bl_release s b)) ip x1) ip (set_valid x1 1)).
rewrite put_put, inodep_put by done.
rewrite (proj2 (Z.eqb_neq _ _)) by done. by exists (bl_release s b).
Qed.

Lemma ilock_valid fs ip :
1 ≤ i_ref (inodep fs ip) → i_valid (inodep fs ip) ≠ 0 → ilock fs ip = Ok fs.
Proof.
intros Href Hv. unfold ilock. rewrite (proj2 (Z.ltb_ge _ _)) by lia.
by rewrite (proj2 (Z.eqb_neq _ _)).
Qed.

Lemma iunlock_live fs ip : 1 ≤ i_ref (inodep fs ip) → iunlock fs ip = fs.
Proof. intros Hr. unfold iunlock. by rewrite (proj2 (Z.ltb_ge _ _)) by lia. Qed.
End rw.
