(* ===== verification/FsProps.v ===== *)
(** fs/fs.c: the properties of blocks, inodes and file contents, and a small
    file system on the concrete drive that shows their hypotheses hold. *)
From S2P Require Import Prelude LibC Ports Ide Block Bio FsLayout Fs FsBlocks FsFile FsRw.

(** * A concrete file system

    64 blocks, 16 inodes (blocks 2 and 3), the bitmap in block 5 with the
    blocks 0 to 5 in use; the first slot of the inode cache is the empty file
    of inode 2. *)
Definition sb0 : superblock := mk_sb 64 58 16 0 2 2 5.
Definition file0 : inode := mk_inode 1 2 1 1 T_FILE 0 0 1 0 (replicate 13 0).
Definition d0 : disk := λ dev b,
  if decide (b = 1) then enc_sb sb0 ++ replicate 484 0
  else if decide (b = 2) then enc_dinode (replicate 512 0) (ioff 2) (dinode_of file0)
  else if decide (b = 5) then 0x3F :: replicate 511 0
  else replicate 512 0.
Definition fs0 : fsys (disk_st ata) :=
  mk_fsys (binit (boot_disk (sim_disk d0))) sb0 (file0 :: replicate 49 inhabitant) [] [] [].

Lemma sb0_wf : sb_wf sb0.
Proof. apply (bool_decide_unpack _). vm_compute. exact I. Qed.

Lemma d0_len dev b : length (d0 dev b) = 512%nat.
Proof. unfold d0. repeat case_decide; reflexivity. Qed.

Lemma d0_rep : bl_rep (f_blk fs0) d0 ∅.
Proof.
  pose proof (binit_rep (sim_disk d0)) as Hb. rewrite sim_platter in Hb.
  apply Hb; [reflexivity|]. intros dev b _. apply d0_len.
Qed.

Lemma fs0_fsi : fsi sb0 1 fs0 d0.
Proof.
  split; [reflexivity | apply d0_rep | | vm_compute; reflexivity].
  intros b Hb. change (dstart sb0) with 6 in Hb.
  assert (b ∈ seqZ 0 6) as Hin by (apply elem_of_seqZ; lia). clear Hb.
  revert b Hin.
  apply Forall_forall. apply (bool_decide_unpack _). vm_compute. exact I.
Qed.

Lemma blk_addr_empty d x bn :
  i_addrs x = replicate 13 0 → 0 ≤ bn < NBLK → blk_addr 1 d x bn = 0.
Proof.
  intros Ha Hbn. unfold blk_addr, ind_of. rewrite Ha.
  destruct (Z.ltb_spec bn NDIRECT); [|done].
  unfold zget. apply list_lookup_total_correct, lookup_replicate. unfold NDIRECT in *. split; [done | lia].
Qed.

Lemma file0_own d b : own 1 d file0 b → False.
Proof.
  intros (Hb & [E | (bn & Hbn & E)]); [by rewrite E in Hb|].
  by rewrite blk_addr_empty in E.
Qed.

Lemma file0_wf : file_wf sb0 1 d0 file0.
Proof.
  split; try done.
  - intros b Hb. by apply file0_own in Hb.
  - intros bn bn' Hbn _ Hn. by rewrite blk_addr_empty in Hn.
Qed.

Lemma file0_no_holes : no_holes 1 d0 file0.
Proof. intros bn H1 H2. change (i_size file0) with 0 in H2. unfold BSIZE in H2. lia. Qed.

Lemma d0_free : has_free sb0 1 d0 3.
Proof.
  exists [6; 7; 8]. split; [apply (bool_decide_unpack _); vm_compute; exact I|]. split; [done|].
  intros b Hb.
  repeat (apply elem_of_cons in Hb as [->|Hb];
    [split; [split; by vm_compute | by vm_compute]|]). by apply elem_of_nil in Hb.
Qed.

(** * Properties *)

Section fs_properties.
Context {S : Type} `{BlockLayer S}.
Implicit Types (fs : fsys S) (d : disk) (sb : superblock).

(** C23. [balloc] takes the first free block: the block it returns was the
  first whose bit was clear, it is a data block, its bit is set and its
  contents are zeros, and no other block and no other bit changes; without
  a free block it reports so and returns -1 with the disk unchanged. *)
Theorem balloc_first_free sb dev fs d h :
sb_wf sb → 0 ≤ dev < 2 → f_sb fs = sb → bl_rep (f_blk fs) d h → (size h < NHELD)%nat →
meta_used sb d dev → held_data sb d dev h →
(∃ s d' r, balloc fs dev = Ok (set_blk fs s, r) ∧ bl_rep s d' h ∧ data_block sb r ∧
   used sb d dev r = false ∧ (∀ b, 0 ≤ b < r → used sb d dev b = true) ∧
   d' dev r = replicate 512 0 ∧
   (∀ b, 0 ≤ b < sb_size sb → used sb d' dev b = used sb d dev b || bool_decide (b = r)) ∧
   (∀ b, b ≠ r → ¬ bitmap_block sb b → d' dev b = d dev b)) ∨
(∃ s, (∀ b, 0 ≤ b < sb_size sb → used sb d dev b = true) ∧ bl_rep s d h ∧
   balloc fs dev = Ok (fprint (set_blk fs s) "balloc: out of blocks", 2 ^ 32 - 1)).
Proof.
intros Hsb Hdev Es Hr Hs Hm Hh.
destruct (balloc_spec sb Hsb dev Hdev fs d h Es Hr Hs Hm Hh)
  as ([fs' r] & E & [(s & H1 & H2 & H3 & -> & H4) | (s & -> & H1 & -> & H2)]).
- left. exists s, (alloc_disk sb dev d r), r.
  split; [done|]. split; [done|]. split; [done|]. split; [done|]. split; [done|].
  split; [apply alloc_zero|]. split.
  + intros b Hb. apply (alloc_used sb Hsb); [|done|done].
    intros. by apply (sector_len sb Hsb dev Hdev fs d h).
  + intros b Hne Hb. by apply alloc_other.
- right. by exists s.
Qed.

(** [bfree] of a data block in use clears its bit and nothing else. *)
Theorem bfree_frees sb dev fs d h b :
sb_wf sb → 0 ≤ dev < 2 → f_sb fs = sb → dec_sb (d dev 1) = sb →
bl_rep (f_blk fs) d h → (size h < NHELD)%nat → held_data sb d dev h →
data_block sb b → used sb d dev b = true →
∃ s d', bfree fs dev b = Ok (set_blk fs s) ∧ bl_rep s d' h ∧
  (∀ b', 0 ≤ b' < sb_size sb →
     used sb d' dev b' = if decide (b' = b) then false else used sb d dev b') ∧
  (∀ b', ¬ bitmap_block sb b' → d' dev b' = d dev b').
Proof.
intros Hsb Hdev Es Ed Hr Hs Hh Hb Hu.
destruct (bfree_spec sb Hsb dev Hdev fs d h b Es Ed Hr Hs Hh Hb Hu) as (s & E & Hr').
pose proof (data_block_range sb Hsb b Hb) as Hbr.
exists s, (mark_free sb d dev b). split; [done|]. split; [done|]. split.
- intros b' Hb'. apply used_mark_free; [done | | lia | done].
  apply (sector_len sb Hsb dev Hdev fs d h); [done|].
  pose proof (BBLOCK_range sb Hsb b). pose proof (sw_data _ Hsb). lia.
- intros b' Hb'. unfold mark_free. apply disk_set_ne. right. intros ->. apply Hb'.
  apply BBLOCK_bitmap; [done | lia].
Qed.

(** [bmap] gives the file a block for every position below its maximal
  size, taking up to two free blocks, and leaves the file's contents, the
  blocks of other files and the metadata as they were. *)
Theorem bmap_preserves sb dev fs d ip bn k :
sb_wf sb → 0 ≤ dev < 2 → fsi sb dev fs d → (ip < length (icache fs))%nat →
let x := inodep fs ip in
file_wf sb dev d x → 0 ≤ bn < NBLK → has_free sb dev d (Datatypes.S k + ind_need x) →
∃ fs' d' a, bmap fs ip bn = Ok (fs', a) ∧ bl_rep (f_blk fs') d' ∅ ∧
  let x' := inodep fs' ip in
  a = blk_addr dev d' x' bn ∧ a ≠ 0 ∧ file_wf sb dev d' x' ∧
  (∀ i, 0 ≤ i < NBLK * BSIZE → file_byte dev d' x' i = file_byte dev d x i) ∧
  (∀ b, 0 ≤ b < sb_size sb → used sb d dev b = true → ¬ own dev d x b →
     ¬ bitmap_block sb b → d' dev b = d dev b) ∧
  has_free sb dev d' (k + ind_need x').
Proof.
intros Hsb Hdev Hfs Hip x Hwf Hbn Hf.
destruct (bmap_spec sb Hsb dev Hdev fs d ip bn k) as ([fs' a] & E & Hpost); [done..|].
destruct Hpost as (s & d' & l & -> & Ea & Hr & Hst & Ha & Hby & Hf').
eexists _, d', a. split; [exact E|]. split; [done|].
rewrite inodep_put by done. split; [done|]. split; [done|]. split; [apply Hst|].
split; [done|]. split; [apply Hst | done].
Qed.

(** C12. [writei] stores the bytes at the offset of the file and nothing else of
  it, extends the size to what was written and saves the inode when it grew; it
  terminates and returns the number of bytes.  Of the inode in the cache only
  size and addresses change (neither when the bytes are inside the file), so
  type, links, users and the valid flag stay; the other slots of the cache, the
  other inodes and the data blocks of other files, and the rest of the state of
  the file system stay as they are. *)
Theorem writei_refines sb dev fs d ip off src :
let x := inodep fs ip in
let n := Z.of_nat (length src) in
sb_wf sb → 0 ≤ dev < 2 →
fsi sb dev fs d → (ip < length (icache fs))%nat → file_wf sb dev d x → no_holes dev d x →
meta_ok x → i_type x ≠ T_DEV → 0 ≤ off ≤ i_size x → off + n ≤ MAXFILE * BSIZE →
has_free sb dev d (nblocks off (off + n) + ind_need x) →
∃ fs' d', writei fs ip src off n = Ok (fs', n) ∧ fsi sb dev fs' d' ∧
  let x' := inodep fs' ip in
  file_wf sb dev d' x' ∧ no_holes dev d' x' ∧ i_size x' = Z.max (i_size x) (off + n) ∧
  (∀ i, 0 ≤ i < NBLK * BSIZE → file_byte dev d' x' i =
     if decide (off ≤ i < off + n) then zget src (i - off) else file_byte dev d x i) ∧
  (i_size x < off + n → disk_inode sb dev d' (i_inum x) = dinode_of x') ∧
  (∀ j, 0 ≤ j < sb_ninodes sb → j ≠ i_inum x →
     disk_inode sb dev d' j = disk_inode sb dev d j) ∧
  (∀ b, data_block sb b → used sb d dev b = true → ¬ own dev d x b → d' dev b = d dev b) ∧
  x' = set_size (with_addrs x (i_addrs x')) (i_size x') ∧
  (off + n ≤ i_size x → x' = x ∧ disk_inode sb dev d' (i_inum x) = disk_inode sb dev d (i_inum x)) ∧
  ∃ s, fs' = put_inode (set_blk fs s) ip x'.
Proof.
intros x n Hsb Hdev H1 H2 H3 H4 H5 H6 H7 H8 H9.
destruct (writei_spec_free sb Hsb dev Hdev 0 fs d ip off src)
  as (fs' & d' & E & Q1 & Q2 & Q3 & Q4 & Q5 & Q6 & Q7 & Q8 & _ & _ & s & Q10 & Q11 & Q12);
  [done.. | by rewrite Nat.add_0_r |].
exists fs', d'. do 5 (split; [done|]). split; [exact Q5|]. split; [done|]. split; [done|].
split; [intros b Hb Hu Ho; by apply Q8|]. split; [done|]. split; [done|]. by exists s.
Qed.

(** C22. [readi] of a file without holes returns the bytes of the file from the
  offset to the end asked for or the end of the file, and changes neither
  the disk nor the inode; beyond the end it returns -1. *)
Theorem readi_refines sb dev fs d ip off n :
let x := inodep fs ip in
sb_wf sb → 0 ≤ dev < 2 →
fsi sb dev fs d → file_wf sb dev d x → no_holes dev d x → i_type x ≠ T_DEV →
0 ≤ off → 0 ≤ n → off + n < 2 ^ 32 →
if decide (off ≤ i_size x) then
  let m := Z.min n (i_size x - off) in
  ∃ s, readi fs ip off n = Ok (set_blk fs s, file_bytes dev d x off (Z.to_nat m), m) ∧
    bl_rep s d ∅
else readi fs ip off n = Ok (fs, [], -1).
Proof.
intros x Hsb Hdev H1 H2 H3 H4 H5 H6 H7. case_decide.
- by apply (readi_spec sb Hsb dev Hdev).
- unfold readi. fold x. rewrite (proj2 (Z.eqb_neq _ _)) by done.
  by rewrite (proj2 (Z.ltb_lt (i_size x) off)) by lia.
Qed.

(** C19. What was written is read back: after [writei] of some bytes at an
  offset, [readi] of as many bytes there returns them. *)
Theorem writei_readi sb dev fs d ip off src :
let x := inodep fs ip in
let n := Z.of_nat (length src) in
sb_wf sb → 0 ≤ dev < 2 →
fsi sb dev fs d → (ip < length (icache fs))%nat → file_wf sb dev d x → no_holes dev d x →
meta_ok x → i_type x ≠ T_DEV → 0 ≤ off ≤ i_size x → off + n ≤ MAXFILE * BSIZE →
has_free sb dev d (nblocks off (off + n) + ind_need x) →
∃ fs' fs'', writei fs ip src off n = Ok (fs', n) ∧ readi fs' ip off n = Ok (fs'', src, n).
Proof.
intros x n Hsb Hdev H1 H2 H3 H4 H5 H6 H7 H8 H9.
destruct (writei_spec sb Hsb dev Hdev fs d ip off src)
  as (fs' & d' & E & Q1 & Q2 & Q3 & Q4 & Q5 & _ & _ & _ & Q9 & _); [done..|].
fold n x in E, Q4, Q5, Q9. change (MAXFILE * BSIZE) with 71680 in H8.
destruct (readi_spec sb Hsb dev Hdev fs' d' ip off n) as (s & Er & _);
  [done | done | done | congruence | lia | lia | lia |].
exists fs', (set_blk fs' s). split; [done|]. rewrite Er.
replace (Z.min n (i_size (inodep fs' ip) - off)) with n by lia.
do 3 f_equal. apply list_eq. intros k. unfold n. rewrite Nat2Z.id.
destruct (decide (k < length src)%nat) as [Hk|Hk].
- rewrite lookup_file_bytes by done. unfold wrote in Q5.
  change (MAXFILE * BSIZE) with 71680 in *. rewrite Q5 by (unfold NBLK, BSIZE; lia).
  rewrite decide_True by lia. unfold zget.
  replace (Z.to_nat (off + Z.of_nat k - off)) with k by lia.
  symmetry. by apply list_lookup_lookup_total_lt.
- rewrite !lookup_ge_None_2; [done | lia |]. rewrite length_file_bytes. lia.
Qed.

(** The inode is saved and loaded: after [iupdate] of the inode in one
  slot, [ilock] of a slot for the same inode that is not loaded yet fills it
  with the same fields; no other inode of the disk changes. *)
Theorem iupdate_ilock sb dev fs d ip jp :
let x := inodep fs ip in
let y := inodep fs jp in
sb_wf sb → 0 ≤ dev < 2 → fsi sb dev fs d → (jp < length (icache fs))%nat →
file_wf sb dev d x → meta_ok x → i_type x ≠ 0 →
i_dev y = dev → i_inum y = i_inum x → 1 ≤ i_ref y → i_valid y = 0 →
∃ fs' fs'', iupdate fs ip = Ok fs' ∧ ilock fs' jp = Ok fs'' ∧
  dinode_of (inodep fs'' jp) = dinode_of x ∧ i_valid (inodep fs'' jp) = 1 ∧
  ∃ d', bl_rep (f_blk fs'') d' ∅ ∧
    ∀ j, 0 ≤ j < sb_ninodes sb → j ≠ i_inum x → disk_inode sb dev d' j = disk_inode sb dev d j.
Proof.
intros x y Hsb Hdev Hfs Hjp Hwf Hmeta Hty Hyd Hyi Hyr Hyv.
pose proof (fw_inum _ _ _ _ Hwf) as Hin.
destruct (iupdate_spec sb Hsb dev Hdev fs d ip Hfs) as (s & E & Hr); [apply Hwf | done |].
fold x in Hr. set (d' := put_dinode sb dev d x) in *.
assert (fsi sb dev (set_blk fs s) d') as Hfs'
  by (by apply (put_dinode_fsi sb Hsb dev Hdev fs d x s (icache fs))).
assert (∀ j, 0 ≤ j < sb_ninodes sb → disk_inode sb dev d' j =
  if decide (j = i_inum x) then dinode_of x else disk_inode sb dev d j) as Hdi.
{ intros j Hj. apply disk_inode_put; try done.
  - apply (bl_sector _ _ _ _ _ (fi_rep _ _ _ _ _ Hfs)).
    by apply (inode_block_facts sb Hsb dev Hdev).
  - by apply (file_dinode_ok sb Hsb dev d). }
destruct (ilock_spec sb Hsb dev Hdev (set_blk fs s) d' jp Hfs' Hjp)
  as (s2 & E2 & Hr2); try done.
{ change (inodep (set_blk fs s) jp) with y. by rewrite Hyi. }
{ change (inodep (set_blk fs s) jp) with y. rewrite Hyi, Hdi by done. by rewrite decide_True. }
change (inodep (set_blk fs s) jp) with y in E2. rewrite Hyi, Hdi, decide_True in E2 by done.
eexists _, _. split; [exact E|]. split; [exact E2|].
rewrite inodep_put by done. split; [by destruct x|]. split; [done|].
exists d'. split; [exact Hr2|]. intros j Hj Hne. rewrite Hdi by done. by rewrite decide_False.
Qed.
End fs_properties.

(** * Witnesses on the concrete file system *)

Lemma held_none sb d dev : held_data sb d dev ∅.
Proof. intros i x Hx. by rewrite lookup_empty in Hx. Qed.

Lemma size_none : (size (∅ : held) < NHELD)%nat.
Proof. rewrite map_size_empty. unfold NHELD. lia. Qed.

Lemma file0_meta : meta_ok file0.
Proof. by split. Qed.

Lemma balloc_first_free_witness :
  ∃ s d', balloc fs0 1 = Ok (set_blk fs0 s, 6) ∧ bl_rep s d' ∅ ∧ d' 1 6 = replicate 512 0.
Proof.
  destruct (balloc_first_free sb0 1 fs0 d0 ∅ sb0_wf ltac:(lia) eq_refl d0_rep size_none
    (fi_meta _ _ _ _ _ fs0_fsi) (held_none _ _ _))
    as [(s & d' & r & E & Hr & Hd & Hu & Hmin & Hz & _) | (s & Hall & _)].
  - assert (r = 6) as ->.
    { destruct (decide (r < 6)) as [Hlt|]; [destruct Hd as (Hd & _); change (dstart sb0) with 6 in Hd; lia|].
      destruct (decide (6 < r)) as [Hgt|]; [|lia].
      pose proof (Hmin 6 ltac:(lia)) as H6. vm_compute in H6. discriminate H6. }
    exists s, d'. split; [exact E|]. split; [exact Hr | exact Hz].
  - pose proof (Hall 6 ltac:(vm_compute; split; congruence)) as H6. vm_compute in H6. discriminate H6.
Defined.

(** A block that was just allocated is freed. *)
Lemma bfree_frees_witness :
  ∃ fs s d d' r, bl_rep (f_blk fs) d ∅ ∧ used sb0 d 1 r = true ∧
    bfree fs 1 r = Ok (set_blk fs s) ∧ bl_rep s d' ∅ ∧ used sb0 d' 1 r = false.
Proof.
  destruct (balloc_free sb0 sb0_wf 1 ltac:(lia) fs0 d0 ∅ 2 fs0_fsi size_none (held_none _ _ _) d0_free)
    as (s & r & _ & Hrd & Hru & Hr & _).
  set (d1 := alloc_disk sb0 1 d0 r) in *.
  pose proof (data_block_range sb0 sb0_wf r Hrd) as Hrr.
  assert (used sb0 d1 1 r = true) as Hu.
  { unfold d1. rewrite (alloc_used sb0 sb0_wf); [|intros; apply d0_len | done | lia].
    rewrite bool_decide_eq_true_2 by done. apply orb_true_r. }
  assert (dec_sb (d1 1 1) = sb0) as Hdec.
  { unfold d1. rewrite (alloc_other sb0 sb0_wf); [vm_compute; reflexivity | done | lia |].
    intros [Hb _]. vm_compute in Hb. by apply Hb. }
  destruct (bfree_frees sb0 1 (set_blk fs0 s) d1 ∅ r sb0_wf ltac:(lia) eq_refl Hdec Hr size_none
    (held_none _ _ _) Hrd Hu) as (s2 & d2 & E & Hr2 & Hu2 & _).
  exists (set_blk fs0 s), s2, d1, d2, r. split; [exact Hr|]. split; [exact Hu|].
  split; [exact E|]. split; [exact Hr2|]. rewrite Hu2 by lia. by rewrite decide_True.
Defined.

Lemma bmap_preserves_witness :
  ∃ fs' d' a, bmap fs0 0 20 = Ok (fs', a) ∧ a ≠ 0 ∧ bl_rep (f_blk fs') d' ∅ ∧
    file_wf sb0 1 d' (inodep fs' 0).
Proof.
  destruct (bmap_preserves sb0 1 fs0 d0 0 20 1 sb0_wf ltac:(lia) fs0_fsi ltac:(vm_compute; lia)
    file0_wf ltac:(unfold NBLK; lia) d0_free) as (fs' & d' & a & E & Hr & _ & Ha & Hwf & _).
  exists fs', d', a. split; [exact E|]. split; [exact Ha|]. split; [exact Hr | exact Hwf].
Defined.

Lemma fs0_need : has_free sb0 1 d0 (nblocks 0 (0 + Z.of_nat (length [104; 105])) + ind_need file0).
Proof. apply has_free_le with 3%nat; [exact d0_free | vm_compute; lia]. Qed.

Lemma writei_refines_witness :
  ∃ fs' d', writei fs0 0 [104; 105] 0 2 = Ok (fs', 2) ∧ fsi sb0 1 fs' d' ∧
    i_size (inodep fs' 0) = 2 ∧ file_byte 1 d' (inodep fs' 0) 1 = 105.
Proof.
  destruct (writei_refines sb0 1 fs0 d0 0 0 [104; 105] sb0_wf ltac:(lia) fs0_fsi
    ltac:(vm_compute; lia) file0_wf file0_no_holes file0_meta ltac:(done) ltac:(by vm_compute)
    ltac:(by vm_compute) fs0_need) as (fs' & d' & E & Hfs & _ & _ & Hs & Hby & _).
  exists fs', d'. split; [exact E|]. split; [exact Hfs|]. split; [exact Hs|].
  etransitivity; [apply Hby; vm_compute; split; congruence | reflexivity].
Defined.

Lemma readi_refines_witness :
  ∃ fs s, readi fs 0 0 10 = Ok (set_blk fs s, [104; 105], 2).
Proof.
  destruct (writei_spec sb0 sb0_wf 1 ltac:(lia) fs0 d0 0 0 [104; 105] fs0_fsi
    ltac:(vm_compute; lia) file0_wf file0_no_holes file0_meta ltac:(done) ltac:(by vm_compute)
    ltac:(by vm_compute) fs0_need)
    as (fs' & d' & _ & Hfs & Hwf & Hnh & Hs & Hby & _ & _ & _ & Hty & _).
  pose proof (readi_refines sb0 1 fs' d' 0 0 10 sb0_wf ltac:(lia) Hfs Hwf Hnh
    ltac:(rewrite Hty; done) ltac:(lia) ltac:(lia) ltac:(lia)) as Hr.
  change (i_size (inodep fs' 0) = 2) in Hs. rewrite Hs, decide_True in Hr by lia.
  destruct Hr as (s & E & _). exists fs', s. rewrite E.
  unfold file_bytes. change (Z.to_nat (10 `min` (2 - 0))) with 2%nat.
  cbn [seq fmap list_fmap]. repeat f_equal.
  - etransitivity; [apply Hby; vm_compute; split; congruence | reflexivity].
  - etransitivity; [apply Hby; vm_compute; split; congruence | reflexivity].
Defined.

Lemma writei_readi_witness :
  ∃ fs' fs'', writei fs0 0 [104; 105] 0 2 = Ok (fs', 2) ∧ readi fs' 0 0 2 = Ok (fs'', [104; 105], 2).
Proof.
  exact (writei_readi sb0 1 fs0 d0 0 0 [104; 105] sb0_wf ltac:(lia) fs0_fsi
    ltac:(vm_compute; lia) file0_wf file0_no_holes file0_meta ltac:(done) ltac:(by vm_compute)
    ltac:(by vm_compute) fs0_need).
Defined.

(** A second slot for the inode of the first, not loaded yet. *)
Definition fs1 : fsys (disk_st ata) :=
  set_icache fs0 [file0; mk_inode 1 2 1 0 0 0 0 0 0 []].

Lemma iupdate_ilock_witness :
  ∃ fs' fs'', iupdate fs1 0 = Ok fs' ∧ ilock fs' 1 = Ok fs'' ∧
    dinode_of (inodep fs'' 1) = dinode_of file0.
Proof.
  assert (fsi sb0 1 fs1 d0) as Hfs by (split; [reflexivity | apply d0_rep | apply fs0_fsi | apply fs0_fsi]).
  destruct (iupdate_ilock sb0 1 fs1 d0 0 1 sb0_wf ltac:(lia) Hfs ltac:(simpl; lia) file0_wf file0_meta
    ltac:(done) eq_refl eq_refl ltac:(simpl; lia) eq_refl) as (fs' & fs'' & E & E2 & Hd & _).
  exists fs', fs''. split; [exact E|]. split; [exact E2 | exact Hd].
Defined.
