(* ===== verification/FsIcache.v ===== *)
(** fs/fs.c: the inode cache.  [iget] keeps one slot per inode in use and
    counts its users. *)
From S2P Require Import Prelude LibC Ide Block FsLayout Fs.

Definition in_use (dev inum : Z) (x : inode) : Prop :=
  0 < i_ref x ∧ i_dev x = dev ∧ i_inum x = inum.
Definition unused (x : inode) : Prop := i_ref x = 0.

#[export] Instance in_use_dec dev inum x : Decision (in_use dev inum x).
Proof. unfold in_use. apply _. Defined.
#[export] Instance unused_dec x : Decision (unused x).
Proof. unfold unused. apply _. Defined.

(** No inode is in use in two slots, and no count is near overflow. *)
Record icache_ok (ic : list inode) : Prop := {
  ic_uniq : ∀ i j x y, ic !! i = Some x → ic !! j = Some y →
    in_use (i_dev y) (i_inum y) x → 0 < i_ref y → i = j;
  ic_refs : ∀ i x, ic !! i = Some x → 0 ≤ i_ref x < 2 ^ 31
}.

Section scan.
Implicit Types (ic : list inode).

(** The scan of [iget], in terms of searches. *)
Lemma iget_scan_find ic i o dev inum :
  iget_scan ic i o dev inum =
    match list_find (in_use dev inum) ic with
    | Some (j, _) => inl (i + j)%nat
    | None => inr (match o with
                   | Some e => Some e
                   | None => (λ p, (i + p.1)%nat) <$> list_find unused ic
                   end)
    end.
Proof.
  revert i o. induction ic as [|x ic IH]; intros i o; cbn [iget_scan list_find].
  - by destruct o.
  - assert ((0 <? i_ref x) && (i_dev x =? dev) && (i_inum x =? inum) =
      bool_decide (in_use dev inum x)) as ->.
    { apply eq_true_iff_eq. rewrite !andb_true_iff, bool_decide_eq_true, Z.ltb_lt, !Z.eqb_eq.
      unfold in_use. tauto. }
    destruct (decide (in_use dev inum x)) as [Hu|Hu].
    + rewrite bool_decide_eq_true_2 by done. f_equal. lia.
    + rewrite bool_decide_eq_false_2 by done. rewrite IH.
      destruct (list_find (in_use dev inum) ic) as [[j y]|]; cbn [prod_map fmap option_fmap option_map].
      { f_equal. simpl. lia. }
      f_equal. destruct o; [done|].
      destruct (decide (unused x)) as [E|E]; unfold unused in E.
      * rewrite (proj2 (Z.eqb_eq _ _) E). simpl. f_equal. lia.
      * rewrite (proj2 (Z.eqb_neq _ _) E).
        destruct (list_find unused ic) as [[j y]|]; cbn; [|done]. f_equal. lia.
Qed.

(** Changing one slot. *)
Lemma lookup_alter_inode ic i j (f : inode → inode) :
  alter f i ic !! j = if decide (i = j) then f <$> ic !! j else ic !! j.
Proof. rewrite list_lookup_alter. case_decide; by subst. Qed.

Lemma icache_ok_alter ic i x (f : inode → inode) :
  icache_ok ic → ic !! i = Some x → 0 ≤ i_ref (f x) < 2 ^ 31 →
  (∀ j y, ic !! j = Some y → j ≠ i → 0 < i_ref (f x) → ¬ in_use (i_dev (f x)) (i_inum (f x)) y) →
  icache_ok (alter f i ic).
Proof.
  intros [Hu Hr] Hx Hf Hne. split.
  - intros j k y z. rewrite !lookup_alter_inode.
    destruct (decide (i = j)) as [Ej|Hj], (decide (i = k)) as [Ek|Hk].
    + intros _ _ _ _. congruence.
    + rewrite <- Ej, Hx. intros [= <-] Hz (H1 & H2 & H3) Hz2. exfalso.
      apply (Hne k z Hz); [congruence | cbn; lia |]. split; [done|]. by rewrite H2, H3.
    + rewrite <- Ek, Hx. intros Hy [= <-] Hin Hz2. exfalso. apply (Hne j y Hy); [congruence | done | done].
    + apply Hu.
  - intros j y. rewrite lookup_alter_inode. destruct (decide (i = j)) as [->|]; [|apply Hr].
    rewrite Hx. by intros [= <-].
Qed.
End scan.

(** * iget, idup *)

Section iget.
Context {S : Type} `{BlockOps S}.
Implicit Types (fs : fsys S) (ip : nat).

(** What [iget] promises: a slot in use for the inode. *)
Definition got fs (dev inum : Z) '((fs', ip) : fsys S * nat) : Prop :=
  icache_ok (icache fs') ∧ (ip < length (icache fs'))%nat ∧
  in_use dev inum (inodep fs' ip) ∧
  (∃ f, fs' = upd_inode fs ip f) ∧
  (in_use dev inum (inodep fs ip) ∧ inodep fs' ip = set_ref (inodep fs ip) (i_ref (inodep fs ip) + 1)
   ∨ unused (inodep fs ip) ∧ i_ref (inodep fs' ip) = 1 ∧ i_valid (inodep fs' ip) = 0 ∧
     ∀ j x, icache fs !! j = Some x → ¬ in_use dev inum x).

Lemma inodep_lookup fs ip x : icache fs !! ip = Some x → inodep fs ip = x.
Proof. apply list_lookup_total_correct. Qed.

Lemma inodep_upd fs ip f :
  (ip < length (icache fs))%nat → inodep (upd_inode fs ip f) ip = f (inodep fs ip).
Proof.
  intros Hip. apply lookup_lt_is_Some_2 in Hip as (x & Hx).
  rewrite (inodep_lookup fs ip x Hx). apply inodep_lookup. cbn.
  rewrite lookup_alter_inode, decide_True by done. by rewrite Hx.
Qed.

Lemma iget_spec fs dev inum :
  icache_ok (icache fs) →
  (∀ j x, icache fs !! j = Some x → i_ref x < 2 ^ 31 - 1) →
  if decide (Exists (λ x, in_use dev inum x ∨ unused x) (icache fs)) then
    ∃ r, iget fs dev inum = Ok r ∧ got fs dev inum r
  else iget fs dev inum = Fault.
Proof.
  intros Hok Hmax. unfold iget. rewrite iget_scan_find. cbn [Nat.add].
  destruct (list_find (in_use dev inum) (icache fs)) as [[ip x]|] eqn:E.
  - apply list_find_Some in E as (Hx & Hu & _).
    rewrite decide_True
      by (apply Exists_exists; exists x; split; [by eapply list_elem_of_lookup_2 | by left]).
    eexists; split; [reflexivity|].
    assert (ip < length (icache fs))%nat as Hip by (by eapply lookup_lt_Some).
    pose proof (ic_refs _ Hok _ _ Hx) as Hr. specialize (Hmax _ _ Hx).
    assert (s32 (i_ref x + 1) = i_ref x + 1) as Es by (apply s32_small; lia).
    cbv beta iota. unfold got.
    assert (inodep (upd_inode fs ip (λ x, set_ref x (s32 (i_ref x + 1)))) ip =
      set_ref x (i_ref x + 1)) as Ex
      by (rewrite inodep_upd by done; rewrite (inodep_lookup _ _ _ Hx); by rewrite Es).
    rewrite Ex, (inodep_lookup _ _ _ Hx). split; [|split; [|split; [|split]]].
    + cbn. apply icache_ok_alter with x; [done | done | rewrite Es; cbn; lia |].
      intros j y Hy Hne _ Hin. cbn in Hin. apply Hne.
      apply (ic_uniq _ Hok j ip y x Hy Hx); [done|]. by destruct Hu.
    + cbn. by rewrite length_alter.
    + destruct Hu as (H1 & H2 & H3). split; [cbn; lia | done].
    + by eexists.
    + by left.
  - apply list_find_None in E. destruct (list_find unused (icache fs)) as [[ip x]|] eqn:E2;
      cbn [fmap option_fmap option_map fst].
    + apply list_find_Some in E2 as (Hx & Hu & _).
      rewrite decide_True
        by (apply Exists_exists; exists x; split; [by eapply list_elem_of_lookup_2 | by right]).
      eexists; split; [reflexivity|].
      assert (ip < length (icache fs))%nat as Hip by (by eapply lookup_lt_Some).
      assert (∀ j y, icache fs !! j = Some y → ¬ in_use dev inum y) as Hno
        by (intros j y Hy; exact (Forall_lookup_1 _ _ _ _ E Hy)).
      cbv beta iota. unfold got. rewrite inodep_upd by done. rewrite (inodep_lookup _ _ _ Hx).
      split; [|split; [|split; [|split]]].
      * cbn. apply icache_ok_alter with x; [done | done | cbn; lia |].
        intros j y Hy _ _. cbn. by apply (Hno j).
      * cbn. by rewrite length_alter.
      * split; [cbn; lia | done].
      * by eexists.
      * right. done.
    + rewrite decide_False; [done|]. apply list_find_None in E2.
      intros (x & Hx & [Hin|Hin])%Exists_exists;
        [exact (proj1 (Forall_forall _ _) E x Hx Hin) | exact (proj1 (Forall_forall _ _) E2 x Hx Hin)].
Qed.

(** C36. The inode cache keeps one slot per inode: [iget] keeps the invariant,
    returns a slot in use for the inode asked for, the one it had with one
    more user or a fresh one, and follows a null pointer when every slot is in
    use for another inode. *)
Theorem iget_unique fs dev inum :
  icache_ok (icache fs) →
  (∀ j x, icache fs !! j = Some x → i_ref x < 2 ^ 31 - 1) →
  if decide (Exists (λ x, in_use dev inum x ∨ unused x) (icache fs)) then
    ∃ fs' ip, iget fs dev inum = Ok (fs', ip) ∧ icache_ok (icache fs') ∧
      in_use dev inum (inodep fs' ip) ∧
      (in_use dev inum (inodep fs ip) ∧
         inodep fs' ip = set_ref (inodep fs ip) (i_ref (inodep fs ip) + 1)
       ∨ unused (inodep fs ip) ∧ i_ref (inodep fs' ip) = 1 ∧ i_valid (inodep fs' ip) = 0 ∧
         ∀ j x, icache fs !! j = Some x → ¬ in_use dev inum x)
  else iget fs dev inum = Fault.
Proof.
  intros Hok Hmax. pose proof (iget_spec fs dev inum Hok Hmax) as Hs.
  case_decide; [|done]. destruct Hs as ([fs' ip] & E & H1 & _ & H2 & _ & H3).
  by exists fs', ip.
Qed.
End iget.

(** A cache of two slots, one in use. *)
Definition ic0 : fsys unit :=
  mk_fsys tt (mk_sb 0 0 0 0 0 0 0)
    [mk_inode 1 5 2 1 2 0 0 1 0 (replicate 13 0); mk_inode 0 0 0 0 0 0 0 0 0 (replicate 13 0)] [] [] [].

Lemma ic0_ok : icache_ok (icache ic0).
Proof.
  split.
  - intros [|[|i]] [|[|j]] x y; cbn; try done; intros [= <-] [= <-] (H1 & H2 & H3) H4; cbn in *; lia.
  - intros [|[|i]] x; cbn; try done; intros [= <-]; cbn; lia.
Qed.

Lemma iget_unique_witness :
  ∃ fs' ip, iget ic0 1 7 = Ok (fs', ip) ∧ icache_ok (icache fs') ∧ i_inum (inodep fs' ip) = 7.
Proof.
  pose proof (iget_unique ic0 1 7 ic0_ok
    ltac:(intros [|[|j]] x; cbn; try done; intros [= <-]; cbn; lia)) as Hs.
  rewrite decide_True in Hs by (apply (bool_decide_unpack _); vm_compute; exact I).
  destruct Hs as (fs' & ip & E & Hok & (_ & _ & Hi) & _).
  exists fs', ip. split; [exact E|]. split; [exact Hok | exact Hi].
Defined.
