(* ===== verification/FsDirProps.v ===== *)
(** fs/fs.c: directories as arrays of entries.  [dirlookup] is a search of that
    array, [dirlink] stores an entry in the first empty place. *)
From S2P Require Import Prelude LibC Ports Ide Block Bio FsLayout Fs FsDir FsBlocks FsFile FsRw FsIcache FsProps.

(** * Names in entries *)

Lemma length_strncpy t n : length (strncpy_bytes t n) = n.
Proof.
  revert t. induction n as [|n IH]; intros [|c t]; simpl; try done.
  - by rewrite length_replicate.
  - destruct (c =? 0); simpl; [by rewrite length_replicate | by rewrite IH].
Qed.

Lemma strncmp_strncpy t n : strncmp_bytes t (strncpy_bytes t n) n = 0.
Proof.
  revert t. induction n as [|n IH]; intros [|c t]; simpl; try done.
  destruct (Z.eqb_spec c 0) as [->|Hc]; [done|]. simpl. rewrite Z.eqb_refl. apply IH.
Qed.

Lemma find_seq_ext {P Q : nat → bool} k n :
  (∀ j, (k ≤ j < k + n)%nat → P j = Q j) → List.find P (seq k n) = List.find Q (seq k n).
Proof.
  revert k. induction n as [|n IH]; intros k HPQ; [done|]. cbn [seq List.find].
  rewrite HPQ by lia. rewrite IH; [done|]. intros j Hj. apply HPQ. lia.
Qed.

Lemma find_seq_app {P : nat → bool} k n m :
  List.find P (seq k (n + m)) =
    match List.find P (seq k n) with Some j => Some j | None => List.find P (seq (k + n) m) end.
Proof.
  revert k. induction n as [|n IH]; intros k; cbn [Nat.add seq List.find].
  - by rewrite Nat.add_0_r.
  - destruct (P k); [done|]. rewrite IH. by rewrite Nat.add_succ_comm.
Qed.

Lemma find_seq_none {P : nat → bool} k n :
  (∀ j, (k ≤ j < k + n)%nat → P j = false) → List.find P (seq k n) = None.
Proof.
  intros HP. rewrite (find_seq_ext (Q := λ _, false)) by done. clear HP. revert k.
  induction n as [|n IH]; intros k; [done|]. apply IH.
Qed.

Lemma find_seq_unique {P : nat → bool} i k n :
  (k ≤ i < k + n)%nat → P i = true → (∀ j, (k ≤ j < i)%nat → P j = false) →
  List.find P (seq k n) = Some i.
Proof.
  intros Hi Hp Hj. replace n with ((i - k) + Datatypes.S (n - (i - k) - 1))%nat by lia.
  rewrite find_seq_app, find_seq_none by (intros; apply Hj; lia). cbn [seq List.find].
  replace (k + (i - k))%nat with i by lia. by rewrite Hp.
Qed.

Lemma find_seq_first {P : nat → bool} k n i :
  List.find P (seq k n) = Some i →
  (k ≤ i < k + n)%nat ∧ P i = true ∧ ∀ j, (k ≤ j < i)%nat → P j = false.
Proof.
  revert k. induction n as [|n IH]; intros k; cbn [seq List.find]; [done|].
  destruct (P k) eqn:E.
  - intros [= <-]. split; [lia|]. split; [done|]. lia.
  - intros Hf. destruct (IH _ Hf) as (H1 & H2 & H3). split; [lia|]. split; [done|].
    intros j Hj. destruct (decide (j = k)) as [->|]; [done|]. apply H3. lia.
Qed.

Lemma find_seq_set {P P' : nat → bool} k n b :
  (k ≤ n)%nat → ((k < n)%nat → P k = false) →
  (∀ j, (j < Nat.max n (k + 1))%nat → P' j = if decide (j = k) then b else P j) →
  (b = true → List.find P (seq 0 n) = None) →
  List.find P' (seq 0 (Nat.max n (k + 1))) = if b then Some k else List.find P (seq 0 n).
Proof.
  intros Hk Hf HP Hb. destruct b.
  - apply find_seq_unique; [lia | rewrite HP by lia; by rewrite decide_True |].
    intros j Hj. rewrite HP by lia. rewrite decide_False by lia.
    apply (List.find_none _ _ (Hb eq_refl) j). apply in_seq. lia.
  - rewrite (find_seq_ext (Q := λ j, if decide (j < n)%nat then P j else false)).
    + destruct (decide (k < n)%nat).
      * replace (Nat.max n (k + 1)) with n by lia. apply find_seq_ext.
        intros j Hj. by rewrite decide_True by lia.
      * replace (Nat.max n (k + 1)) with (n + 1)%nat by lia. rewrite find_seq_app.
        rewrite (find_seq_ext (Q := P)) by (intros j Hj; by rewrite decide_True by lia).
        destruct (List.find P (seq 0 n)); [done|]. simpl. by rewrite decide_False by lia.
    + intros j Hj. rewrite HP by lia. destruct (decide (j = k)) as [->|]; case_decide; try done.
      * symmetry. by apply Hf.
      * lia.
Qed.

Section dirs.
Context {S : Type} `{BlockLayer S}.
Context (sb : superblock) (Hsb : sb_wf sb) (dev : Z) (Hdev : 0 ≤ dev < 2).
Implicit Types (fs : fsys S) (d : disk) (x : inode) (dp : nat) (name de : list Z).
#[local] Abbreviation fsi := (fsi sb dev).
#[local] Abbreviation file_wf := (file_wf sb dev).
#[local] Abbreviation file_byte := (file_byte dev).

(** Entry [k] of a directory, and how many there are. *)
Definition dirent d x (k : nat) : list Z := file_bytes dev d x (16 * Z.of_nat k) 16.
Definition nents x : nat := Z.to_nat (i_size x / 16).

(** The entry is in use for the name. *)
Definition names name de : bool := negb (de_inum de =? 0) && (namecmp name (de_name de) =? 0).

Record dir_ok d x : Prop := {
  dr_wf : file_wf d x;
  dr_full : no_holes dev d x;
  dr_type : i_type x = T_DIR;
  dr_size : i_size x mod 16 = 0
}.

Lemma length_dirent d x k : length (dirent d x k) = 16%nat.
Proof. apply length_file_bytes. Qed.

Lemma nents_lt x k : 0 ≤ i_size x → (k < nents x)%nat → 16 * Z.of_nat k + 16 ≤ i_size x.
Proof. unfold nents. intros. zlia. Qed.

Lemma read_de_spec fs d dp de k msg :
  let x := inodep fs dp in
  fsi fs d → dir_ok d x → (k < nents x)%nat → (length de ≤ 16)%nat →
  ∃ s, read_de fs dp de (16 * Z.of_nat k) msg = Ok (set_blk fs s, dirent d x k) ∧ bl_rep s d ∅.
Proof.
  intros x Hfs [Hwf Hnh Hty Hsz] Hk Hde.
  pose proof (fw_size _ _ _ _ Hwf) as Hs. change (MAXFILE * BSIZE) with 71680 in Hs.
  pose proof (nents_lt x k (proj1 Hs) Hk) as Hlt.
  destruct (readi_spec sb Hsb dev Hdev fs d dp (16 * Z.of_nat k) 16) as (s & E & Hr);
    [done | done | done | fold x; by rewrite Hty | fold x; lia | lia | lia |].
  fold x in E. replace (Z.min 16 (i_size x - 16 * Z.of_nat k)) with 16 in E by lia.
  unfold read_de. rewrite E. cbn [rbind Z.eqb Pos.eqb].
  change (file_bytes dev d x (16 * Z.of_nat k) (Z.to_nat 16)) with (dirent d x k).
  rewrite length_dirent, drop_ge, app_nil_r, length_dirent by done. by exists s.
Qed.

(** What [dirlookup] answers. *)
Definition found_entry fs d dp name : option nat :=
  let x := inodep fs dp in List.find (λ k, names name (dirent d x k)) (seq 0 (nents x)).

Definition lookup_result fs d dp name (s : S) : res (fsys S * option (nat * Z)) :=
  match found_entry fs d dp name with
  | Some k =>
      let* r := iget (set_blk fs s) dev (de_inum (dirent d (inodep fs dp) k)) in
      Ok (r.1, Some (r.2, 16 * Z.of_nat k))
  | None => Ok (set_blk fs s, None)
  end.

Lemma dirlookup_spec fs d dp name :
  fsi fs d → dir_ok d (inodep fs dp) →
  ∃ s, dirlookup fs dp name = lookup_result fs d dp name s ∧ bl_rep s d ∅.
Proof.
  intros Hfs Hdir. set (x := inodep fs dp). pose proof Hdir as [Hwf Hnh Hty Hsz]. fold x in Hdir, Hwf, Hnh, Hty, Hsz.
  pose proof (fw_size _ _ _ _ Hwf) as Hs. change (MAXFILE * BSIZE) with 71680 in Hs.
  unfold dirlookup. fold x. rewrite Hty. cbn [Z.eqb T_DIR Pos.eqb].
  apply (while_out
    (λ '(fs', off, de) n, ∃ s k, fs' = set_blk fs s ∧ bl_rep s d ∅ ∧ off = 16 * Z.of_nat k ∧
       (length de ≤ 16)%nat ∧ (k + n = nents x)%nat ∧
       List.find (λ k, names name (dirent d x k)) (seq k n) = found_entry fs d dp name)
    (λ out, ∃ s, out = lookup_result fs d dp name s ∧ bl_rep s d ∅)
    (2 ^ 32) (dirlookup_step dp name) (fs, 0, []) (nents x)).
  - intros [[fs' off] de] n (s & k & -> & Hr & -> & Hde & Hkn & Hfind).
    unfold dirlookup_step. change (inodep (set_blk fs s) dp) with x.
    destruct n as [|n].
    { right. exists (Ok (set_blk fs s, None)).
      rewrite (proj2 (Z.ltb_ge _ _)) by (unfold nents in *; zlia).
      split; [done|]. exists s. split; [|done]. unfold lookup_result. by rewrite <- Hfind. }
    assert (k < nents x)%nat as Hk by lia.
    pose proof (nents_lt x k (proj1 Hs) Hk) as Hlt.
    rewrite (proj2 (Z.ltb_lt _ _)) by lia.
    destruct (read_de_spec (set_blk fs s) d dp de k "dirlookup read") as (s' & -> & Hr');
      [split; [apply Hfs | done | apply Hfs | apply Hfs] | done | done | done |].
    change (inodep (set_blk fs s) dp) with x. cbn [rbind].
    change (set_blk (set_blk fs s) s') with (set_blk fs s').
    change (inodep (set_blk fs s') dp) with x.
    cbn [seq List.find] in Hfind. set (e := dirent d x k) in *. unfold names at 1 in Hfind.
    assert (∃ s0 k0, (set_blk fs s') = set_blk fs s0 ∧ bl_rep s0 d ∅ ∧
      u32 (16 * Z.of_nat k + 16) = 16 * Z.of_nat k0 ∧ (length e ≤ 16)%nat ∧ (k0 + n = nents x)%nat ∧
      (List.find (λ k, names name (dirent d x k)) (seq (Datatypes.S k) n) = found_entry fs d dp name →
       List.find (λ k, names name (dirent d x k)) (seq k0 n) = found_entry fs d dp name)) as Hnext.
    { exists s', (Datatypes.S k). rewrite u32_small by lia. unfold e. rewrite length_dirent.
      split; [done|]. split; [done|]. split; [lia|]. split; [lia|]. split; [lia|]. done. }
    destruct Hnext as (s0 & k0 & N1 & N2 & N3 & N4 & N5 & N6).
    destruct (de_inum e =? 0) eqn:E0; cbn [negb andb] in Hfind.
    { left. eexists _, n. split; [reflexivity|]. split; [|lia]. exists s0, k0. auto 10. }
    destruct (namecmp name (de_name e) =? 0) eqn:E1.
    + right. exists (lookup_result fs d dp name s'). split; [|by exists s'].
      unfold lookup_result. rewrite <- Hfind. fold x. fold e.
      rewrite (fw_dev _ _ _ _ Hwf). by destruct (iget (set_blk fs s') dev (de_inum e)).
    + left. eexists _, n. split; [reflexivity|]. split; [|lia]. exists s0, k0. auto 10.
  - exists (f_blk fs), 0%nat. split; [by destruct fs|]. split; [apply Hfs|]. split; [done|].
    split; [simpl; lia|]. done.
  - unfold nents. zlia.
Qed.

(** * dirlink *)

(** The first empty entry, or the place behind the last entry. *)
Definition empty_entry d x (k : nat) : bool := de_inum (dirent d x k) =? 0.
Definition free_entry d x : nat :=
  default (nents x) (List.find (empty_entry d x) (seq 0 (nents x))).

Lemma dirlink_loop fs d dp :
  let x := inodep fs dp in
  fsi fs d → dir_ok d x →
  ∃ r, while (2 ^ 32) (dirlink_step dp) (fs, 0, []) = Ok r ∧
    ∃ s, r = (set_blk fs s, 16 * Z.of_nat (free_entry d x)) ∧ bl_rep s d ∅.
Proof.
  intros x Hfs Hdir. pose proof Hdir as [Hwf _ _ Hsz].
  pose proof (fw_size _ _ _ _ Hwf) as Hs. change (MAXFILE * BSIZE) with 71680 in Hs.
  apply (while_rel
    (λ '(fs', off, de) n, ∃ s k, fs' = set_blk fs s ∧ bl_rep s d ∅ ∧ off = 16 * Z.of_nat k ∧
       (length de ≤ 16)%nat ∧ (k + n = nents x)%nat ∧
       default (nents x) (List.find (empty_entry d x) (seq k n)) = free_entry d x)
    (λ r, ∃ s, r = (set_blk fs s, 16 * Z.of_nat (free_entry d x)) ∧ bl_rep s d ∅)
    (2 ^ 32) (dirlink_step dp) (fs, 0, []) (nents x)).
  - intros [[fs' off] de] n (s & k & -> & Hr & -> & Hde & Hkn & Hfind).
    unfold dirlink_step. change (inodep (set_blk fs s) dp) with x. rewrite u32_small by (unfold nents in *; zlia).
    destruct n as [|n].
    { right. rewrite (proj2 (Z.ltb_ge _ _)) by (unfold nents in *; zlia).
      eexists; split; [reflexivity|]. exists s. split; [|done]. simpl in Hfind.
      by rewrite <- Hfind, <- Hkn, Nat.add_0_r. }
    assert (k < nents x)%nat as Hk by lia.
    pose proof (nents_lt x k (proj1 Hs) Hk) as Hlt.
    rewrite (proj2 (Z.ltb_lt _ _)) by lia.
    destruct (read_de_spec (set_blk fs s) d dp de k "dirlink read") as (s' & -> & Hr');
      [split; [apply Hfs | done | apply Hfs | apply Hfs] | done | done | done |].
    change (inodep (set_blk fs s) dp) with x. cbn [rbind].
    change (set_blk (set_blk fs s) s') with (set_blk fs s').
    cbn [seq List.find] in Hfind. unfold empty_entry at 1 in Hfind.
    destruct (de_inum (dirent d x k) =? 0) eqn:E0.
    + right. eexists; split; [reflexivity|]. exists s'. by rewrite <- Hfind.
    + left. eexists _, n. split; [reflexivity|]. split; [|lia].
      exists s', (Datatypes.S k). rewrite length_dirent, s32_small by lia.
      split; [done|]. split; [done|]. split; [lia|]. split; [lia|]. split; [lia|]. done.
  - exists (f_blk fs), 0%nat. split; [by destruct fs|]. split; [apply Hfs|]. split; [done|].
    split; [simpl; lia|]. done.
  - unfold nents. zlia.
Qed.

Lemma free_entry_le d x : (free_entry d x ≤ nents x)%nat.
Proof.
  unfold free_entry. destruct (List.find _ _) as [k|] eqn:E; [|done]. simpl.
  apply List.find_some in E as (Hin & _). apply in_seq in Hin. lia.
Qed.

(** The free entry names nothing. *)
Lemma free_entry_empty d x k name :
  (k < nents x)%nat → k = free_entry d x → names name (dirent d x k) = false.
Proof.
  intros Hk ->. unfold free_entry in *. destruct (List.find _ _) as [j|] eqn:E; simpl in *; [|lia].
  apply List.find_some in E as (_ & He). unfold names. unfold empty_entry in He. by rewrite He.
Qed.

(** The inode number a name is bound to. *)
Definition dir_get d x name : option Z :=
  (λ k, de_inum (dirent d x k)) <$> List.find (λ k, names name (dirent d x k)) (seq 0 (nents x)).

(** The entry that [dirlink] stores. *)
Definition new_dirent name inum : list Z := le_bytes 2 (u16 inum) ++ strncpy_bytes name DIRSIZ.

Lemma new_dirent_len name inum : length (new_dirent name inum) = 16%nat.
Proof. unfold new_dirent. by rewrite length_app, length_le_bytes, length_strncpy. Qed.

Lemma new_dirent_inum name inum : 0 ≤ inum < 2 ^ 16 → de_inum (new_dirent name inum) = inum.
Proof.
  intros Hi. unfold de_inum, get16, new_dirent, slice.
  rewrite drop_0, take_app_length' by (by rewrite length_le_bytes). rewrite le_int_bytes.
  unfold u16. change (256 ^ Z.of_nat 2) with (2 ^ 16). rewrite !Z.mod_small by zlia. lia.
Qed.

Lemma new_dirent_name name inum : de_name (new_dirent name inum) = strncpy_bytes name DIRSIZ.
Proof.
  unfold de_name, new_dirent, slice. rewrite drop_app_length' by (by rewrite length_le_bytes).
  by rewrite take_ge by (by rewrite length_strncpy).
Qed.

(** The directory's array of entries after a store at the free entry. *)
Definition dir_set d x d' x' (e : list Z) : Prop :=
  nents x' = Nat.max (nents x) (free_entry d x + 1) ∧
  ∀ j, (j < nents x')%nat → dirent d' x' j = if decide (j = free_entry d x) then e else dirent d x j.

Lemma wrote_dirent d x d' x' e :
  length e = 16%nat → 16 * Z.of_nat (free_entry d x) + 16 ≤ 71680 →
  dir_ok d x → i_size x' = Z.max (i_size x) (16 * Z.of_nat (free_entry d x) + 16) →
  wrote dev d x d' x' (16 * Z.of_nat (free_entry d x)) e →
  dir_set d x d' x' e ∧ i_size x' mod 16 = 0.
Proof.
  intros He Hmax [Hwf _ _ Hsz] Es Hw. pose proof (free_entry_le d x) as Hk.
  pose proof (fw_size _ _ _ _ Hwf) as Hs. change (MAXFILE * BSIZE) with 71680 in Hs.
  set (k := free_entry d x) in *. unfold dir_set. fold k.
  assert (nents x' = Nat.max (nents x) (k + 1)) as En
    by (unfold nents in *; rewrite Es; zlia).
  split; [split; [done|] | rewrite Es; zlia].
  intros j Hj. assert (16 * (Z.of_nat j + 1) ≤ 71680) as Hj2.
  { rewrite En in Hj. assert (16 * Z.of_nat (nents x) ≤ 71680) by (unfold nents; zlia). lia. }
  apply list_eq. intros i. destruct (decide (i < 16)%nat) as [Hi|Hi].
  2: { rewrite !lookup_ge_None_2; [done | |]; [|rewrite length_dirent; lia].
       case_decide; rewrite ?length_dirent; lia. }
  unfold dirent. rewrite lookup_file_bytes by done. rewrite Hw by (unfold NBLK, BSIZE; lia).
  rewrite He. destruct (decide (j = k)) as [->|Hne].
  - rewrite decide_True by lia. unfold zget.
    replace (Z.to_nat (16 * Z.of_nat k + Z.of_nat i - 16 * Z.of_nat k)) with i by lia.
    symmetry. apply list_lookup_lookup_total_lt. lia.
  - rewrite decide_False by lia. by rewrite lookup_file_bytes.
Qed.

Lemma dir_get_set d x d' x' name name' inum :
  dir_set d x d' x' (new_dirent name inum) → 0 < inum < 2 ^ 16 →
  (namecmp name' (strncpy_bytes name DIRSIZ) = 0 → dir_get d x name' = None) →
  dir_get d' x' name' =
    if decide (namecmp name' (strncpy_bytes name DIRSIZ) = 0) then Some inum else dir_get d x name'.
Proof.
  intros (En & He) Hi Hno. pose proof (free_entry_le d x) as Hk. set (k := free_entry d x) in *.
  assert (names name' (new_dirent name inum) =
    bool_decide (namecmp name' (strncpy_bytes name DIRSIZ) = 0)) as Hb.
  { unfold names. rewrite new_dirent_inum, new_dirent_name by lia.
    rewrite (proj2 (Z.eqb_neq _ _)) by lia. cbn [negb andb].
    apply eq_true_iff_eq. by rewrite Z.eqb_eq, bool_decide_eq_true. }
  unfold dir_get. rewrite En.
  rewrite (find_seq_set (P := λ j, names name' (dirent d x j)) k (nents x)
    (bool_decide (namecmp name' (strncpy_bytes name DIRSIZ) = 0))); [|done| | |].
  - destruct (decide (namecmp name' (strncpy_bytes name DIRSIZ) = 0)) as [E|E].
    + rewrite bool_decide_eq_true_2 by done. cbn [fmap option_fmap option_map].
      rewrite He by (rewrite En; lia). rewrite decide_True by done. f_equal. apply new_dirent_inum. lia.
    + rewrite bool_decide_eq_false_2 by done.
      destruct (List.find _ _) as [j|] eqn:Ef; [|done]. cbn [fmap option_fmap option_map].
      apply List.find_some in Ef as (Hj & Hn). apply in_seq in Hj.
      rewrite He by (rewrite En; lia). rewrite decide_False; [done|]. intros ->.
      by rewrite (free_entry_empty d x k name') in Hn by (done || lia).
  - intros Hlt. by apply free_entry_empty.
  - intros j Hj. rewrite <- En in Hj. rewrite He by done. destruct (decide (j = k)); [exact Hb | done].
  - intros Hb1. apply bool_decide_eq_true in Hb1. specialize (Hno Hb1).
    unfold dir_get in Hno. by destruct (List.find _ _).
Qed.

Lemma dirlink_spec fs d dp name inum :
  let x := inodep fs dp in
  let k := free_entry d x in
  fsi fs d → (dp < length (icache fs))%nat → dir_ok d x → meta_ok x →
  0 < inum < 2 ^ 16 → dir_get d x name = None →
  16 * Z.of_nat k + 16 ≤ MAXFILE * BSIZE →
  has_free sb dev d (nblocks (16 * Z.of_nat k) (16 * Z.of_nat k + 16) + ind_need x) →
  ∃ s d' x', dirlink fs dp name inum = Ok (put_inode (set_blk fs s) dp x', 0) ∧
    fsi (put_inode (set_blk fs s) dp x') d' ∧
    x' = set_size (with_addrs x (i_addrs x')) (i_size x') ∧
    dir_ok d' x' ∧ dir_get d' x' name = Some inum ∧
    (∀ name', namecmp name' (strncpy_bytes name DIRSIZ) ≠ 0 →
       dir_get d' x' name' = dir_get d x name') ∧
    (∀ j, 0 ≤ j < sb_ninodes sb → j ≠ i_inum x → disk_inode sb dev d' j = disk_inode sb dev d j) ∧
    others_kept sb dev d x d' x' ∧ dir_set d x d' x' (new_dirent name inum) ∧
    (disk_inode sb dev d (i_inum x) = dinode_of x → disk_inode sb dev d' (i_inum x) = dinode_of x').
Proof.
  intros x k Hfs Hdp Hdir Hmeta Hinum Hno Hmax Hfree. change (MAXFILE * BSIZE) with 71680 in Hmax.
  pose proof Hdir as [Hwf Hnh Hty Hsz].
  pose proof (free_entry_le d x) as Hk. fold k in Hk.
  pose proof (fw_size _ _ _ _ Hwf) as Hs.
  destruct (dirlookup_spec fs d dp name Hfs Hdir) as (s & E & Hr).
  assert (found_entry fs d dp name = None) as Hf.
  { unfold dir_get in Hno. unfold found_entry. fold x. by destruct (List.find _ _). }
  unfold lookup_result in E. rewrite Hf in E. unfold dirlink. rewrite E. cbn [rbind].
  assert (fsi (set_blk fs s) d) as Hfs1 by (split; [apply Hfs | done | apply Hfs | apply Hfs]).
  destruct (dirlink_loop (set_blk fs s) d dp Hfs1 Hdir) as (r & E2 & s2 & -> & Hr2).
  rewrite E2. cbn [rbind]. change (inodep (set_blk fs s) dp) with x. fold k.
  change (set_blk (set_blk fs s) s2) with (set_blk fs s2).
  change (le_bytes 2 (u16 inum) ++ strncpy_bytes name DIRSIZ) with (new_dirent name inum).
  assert (fsi (set_blk fs s2) d) as Hfs2 by (split; [apply Hfs | done | apply Hfs | apply Hfs]).
  rewrite u32_small by lia.
  assert (Z.of_nat (length (new_dirent name inum)) = 16) as Hl by (by rewrite new_dirent_len).
  destruct (writei_spec_free sb Hsb dev Hdev 0 (set_blk fs s2) d dp (16 * Z.of_nat k) (new_dirent name inum))
    as (fs' & d' & E3 & Q1 & Q2 & Q3 & Q4 & Q5 & Q6 & Q7 & Q8 & Q9 & _ & s3 & Q10 & Q11 & Q12); try done.
  { change (inodep (set_blk fs s2) dp) with x. by rewrite Hty. }
  { change (inodep (set_blk fs s2) dp) with x. unfold nents in *. zlia. }
  { rewrite Hl. change (MAXFILE * BSIZE) with 71680. lia. }
  { by rewrite Hl, Nat.add_0_r. }
  rewrite Hl in E3, Q4, Q6, Q12. rewrite E3. cbn [rbind snd fst Z.eqb Pos.eqb].
  change (inodep (set_blk fs s2) dp) with x in *.
  set (x' := inodep fs' dp) in *.
  change (set_blk (set_blk fs s2) s3) with (set_blk fs s3) in Q10.
  exists s3, d', x'. rewrite <- Q10. split; [done|]. split; [done|]. split; [done|].
  destruct (wrote_dirent d x d' x' (new_dirent name inum)) as (Hset & Hm);
    [apply new_dirent_len | done | done | done | done |].
  split; [split; [done | done | by rewrite Q9 | done]|].
  pose proof (dir_get_set d x d' x' name) as Hget.
  split; [rewrite (Hget name inum) by done; by rewrite decide_True by apply strncmp_strncpy|].
  split; [intros name' Hne; rewrite (Hget name' inum) by done; by rewrite decide_False|].
  split; [done|]. split; [done|]. split; [done|]. intros Hsv.
  destruct (decide (i_size x < 16 * Z.of_nat k + 16)) as [Hlt|Hge]; [by apply Q6|].
  destruct Q12 as (Ex & ->); [lia|]. by rewrite Hsv, Ex.
Qed.

(** C14. [dirlink] of a name that the directory does not bind binds it: the
    entry is written to the first empty place ([free_entry]), or behind the last
    one, and every other entry stays where and what it was ([dir_set]); the name
    is found afterwards, every other name is bound as before; of the inode in the
    cache only size and addresses change, and of the disk only this directory. *)
Theorem dirlink_binds fs d dp name inum :
  let x := inodep fs dp in
  let k := free_entry d x in
  fsi fs d → (dp < length (icache fs))%nat → dir_ok d x → meta_ok x →
  0 < inum < 2 ^ 16 → dir_get d x name = None →
  16 * Z.of_nat k + 16 ≤ MAXFILE * BSIZE →
  has_free sb dev d (nblocks (16 * Z.of_nat k) (16 * Z.of_nat k + 16) + ind_need x) →
  ∃ fs' d', dirlink fs dp name inum = Ok (fs', 0) ∧ fsi fs' d' ∧
    let x' := inodep fs' dp in
    dir_ok d' x' ∧ dir_get d' x' name = Some inum ∧
    (∀ name', namecmp name' (strncpy_bytes name DIRSIZ) ≠ 0 →
       dir_get d' x' name' = dir_get d x name') ∧
    (∀ j, 0 ≤ j < sb_ninodes sb → j ≠ i_inum x → disk_inode sb dev d' j = disk_inode sb dev d j) ∧
    (∀ b, data_block sb b → used sb d dev b = true → ¬ own dev d x b → d' dev b = d dev b) ∧
    dir_set d x d' x' (new_dirent name inum) ∧
    x' = set_size (with_addrs x (i_addrs x')) (i_size x') ∧ ∃ s, fs' = put_inode (set_blk fs s) dp x'.
Proof.
  intros x k H1 H2 H3 H4 H5 H6 H7 H8.
  destruct (dirlink_spec fs d dp name inum H1 H2 H3 H4 H5 H6 H7 H8)
    as (s & d' & x' & E & Hfs' & Hx & Hdir & Hg & Hne & Hdi & Hk & Hset & _).
  eexists _, d'. split; [exact E|]. split; [exact Hfs'|]. rewrite inodep_put by done.
  split; [exact Hdir|]. split; [exact Hg|]. split; [exact Hne|]. split; [exact Hdi|].
  split; [intros b Hb Hu Ho; by apply Hk|]. split; [exact Hset|]. split; [exact Hx | by exists s].
Qed.

(** C33. [dirlookup] terminates and answers with the first entry in use whose
    name is the one looked for, through [iget] of its inode, or with null when
    there is none; it changes neither the disk nor the directory. *)
Theorem dirlookup_finds fs d dp name :
  let x := inodep fs dp in
  fsi fs d → dir_ok d x →
  ∃ s, bl_rep s d ∅ ∧
    ((∀ j, (j < nents x)%nat → names name (dirent d x j) = false) ∧
       dirlookup fs dp name = Ok (set_blk fs s, None)
     ∨ ∃ k, (k < nents x)%nat ∧ names name (dirent d x k) = true ∧
         (∀ j, (j < k)%nat → names name (dirent d x j) = false) ∧
         dirlookup fs dp name =
           (let* r := iget (set_blk fs s) dev (de_inum (dirent d x k)) in
            Ok (r.1, Some (r.2, 16 * Z.of_nat k)))).
Proof.
  intros x Hfs Hdir. destruct (dirlookup_spec fs d dp name Hfs Hdir) as (s & E & Hr).
  exists s. split; [done|]. rewrite E. unfold lookup_result, found_entry. fold x.
  pose proof (List.find_none (λ k, names name (dirent d x k)) (seq 0 (nents x))) as Hn.
  destruct (List.find _ _) as [k|] eqn:Ef.
  - right. exists k. apply find_seq_first in Ef as (Hk & Hp & Hj).
    split; [lia|]. split; [done|]. split; [|done]. intros j Hlt. apply Hj. lia.
  - left. split; [|done]. intros j Hj. apply Hn; [done|]. apply in_seq. lia.
Qed.

(** [dirlink] of a name that the directory binds fails with -1 and changes
    nothing on the disk: the reference [dirlookup] took is dropped again. *)
Theorem dirlink_bound fs d dp name :
  let x := inodep fs dp in
  fsi fs d → dir_ok d x → dir_get d x name ≠ None →
  icache_ok (icache fs) → (∀ j y, icache fs !! j = Some y → i_ref y < 2 ^ 31 - 1) →
  Exists unused (icache fs) →
  ∀ inum, ∃ fs', dirlink fs dp name inum = Ok (fs', -1) ∧ bl_rep (f_blk fs') d ∅ ∧
    length (icache fs') = length (icache fs) ∧
    ∀ j, i_ref (inodep fs' j) = i_ref (inodep fs j).
Proof.
  intros x Hfs Hdir Hget Hic Hmax Hun inum.
  destruct (dirlookup_spec fs d dp name Hfs Hdir) as (s & E & Hr).
  unfold lookup_result, found_entry in E. fold x in E. unfold dir_get in Hget.
  destruct (List.find _ _) as [k|]; [|done]. clear Hget.
  set (i := de_inum (dirent d x k)) in *.
  pose proof (iget_spec (set_blk fs s) dev i Hic Hmax) as Hg.
  rewrite decide_True in Hg.
  2: { apply Exists_exists in Hun as (y & Hy & Hu). apply Exists_exists. exists y. auto. }
  destruct Hg as ([fs1 ip] & Eg & Hok1 & Hip & _ & (f & Ef) & Hcase).
  rewrite Eg in E. unfold dirlink. rewrite E. cbn [rbind fst snd].
  assert ((ip < length (icache fs))%nat) as Hip0
    by (rewrite Ef in Hip; cbn in Hip; by rewrite length_alter in Hip).
  assert (negb (i_valid (inodep fs1 ip) =? 0) && (i_nlink (inodep fs1 ip) =? 0) &&
    (i_ref (inodep fs1 ip) =? 1) = false ∧ i_ref (inodep fs1 ip) = i_ref (inodep fs ip) + 1) as (Eb & Eref).
  { destruct Hcase as [((Hu & _) & E1) | (Hu & E1 & E2 & _)].
    - rewrite E1. cbn. split; [|done]. rewrite (proj2 (Z.eqb_neq _ 1)); [by rewrite andb_false_r|].
      change (inodep (set_blk fs s) ip) with (inodep fs ip) in Hu |- *. lia.
    - rewrite E2. split; [done|]. rewrite E1. unfold unused in Hu.
      change (inodep (set_blk fs s) ip) with (inodep fs ip) in Hu. lia. }
  unfold iput. rewrite Eb. cbn [rbind]. eexists; split; [reflexivity|].
  split; [by rewrite Ef|]. split; [rewrite Ef; cbn; by rewrite !length_alter|].
  assert (0 ≤ i_ref (inodep fs ip) < 2 ^ 31 - 1) as Hb.
  { apply lookup_lt_is_Some_2 in Hip0 as (y & Hy). rewrite (inodep_lookup _ _ _ Hy).
    pose proof (ic_refs _ Hic _ _ Hy). specialize (Hmax _ _ Hy). lia. }
  intros j. destruct (decide (j = ip)) as [->|Hne].
  - rewrite inodep_upd by done. cbn. rewrite Eref, s32_small; lia.
  - rewrite Ef. unfold inodep, upd_inode. cbn.
    rewrite !list_lookup_total_alter_ne by done. done.
Qed.
End dirs.

(** * A concrete directory

    Inode 1 of the file system [sb0], in block 6, with the entries "." and
    "..". *)
Definition dir0 : inode := mk_inode 1 1 1 1 T_DIR 0 0 1 32 (6 :: replicate 12 0).
Definition ddir : disk := λ dev b,
  if decide (b = 5) then 0x7F :: replicate 511 0
  else if decide (b = 6) then new_dirent DOT 1 ++ new_dirent DOTDOT 1 ++ replicate 480 0
  else d0 dev b.
Definition no_inode : inode := mk_inode 0 0 0 0 0 0 0 0 0 (replicate 13 0).
Definition fsdir : fsys (disk_st ata) :=
  mk_fsys (binit (boot_disk (sim_disk ddir))) sb0
    (dir0 :: replicate 49 no_inode) [] [] [].

Lemma ddir_len dev b : length (ddir dev b) = 512%nat.
Proof. unfold ddir. repeat case_decide; [reflexivity.. | apply d0_len]. Qed.

Lemma ddir_rep : bl_rep (f_blk fsdir) ddir ∅.
Proof.
  pose proof (binit_rep (sim_disk ddir)) as Hb. rewrite sim_platter in Hb.
  apply Hb; [reflexivity|]. intros dev b _. apply ddir_len.
Qed.

Lemma fsdir_fsi : fsi sb0 1 fsdir ddir.
Proof.
  split; [reflexivity | apply ddir_rep | | vm_compute; reflexivity].
  intros b Hb. change (dstart sb0) with 6 in Hb.
  assert (b ∈ seqZ 0 6) as Hin by (apply elem_of_seqZ; lia). clear Hb.
  revert b Hin. apply Forall_forall. apply (bool_decide_unpack _). vm_compute. exact I.
Qed.

Lemma dir0_addr bn : 0 ≤ bn < NBLK → blk_addr 1 ddir dir0 bn = if decide (bn = 0) then 6 else 0.
Proof.
  intros Hbn. unfold blk_addr. change (ind_of dir0) with 0. cbn [Z.eqb].
  destruct (Z.ltb_spec bn NDIRECT) as [Hlt|Hge]; unfold NDIRECT in *.
  - case_decide as E; [by rewrite E|]. unfold zget. cbn [i_addrs dir0].
    apply list_lookup_total_correct. rewrite lookup_cons_ne_0 by lia.
    apply lookup_replicate. split; [done | lia].
  - by rewrite decide_False by lia.
Qed.

Lemma dir0_own b : own 1 ddir dir0 b → b = 6.
Proof.
  intros (Hb & [E | (bn & Hbn & E)]); [done|].
  rewrite dir0_addr in E by done. by case_decide.
Qed.

Lemma dir0_ok : dir_ok sb0 1 ddir dir0.
Proof.
  split; [|intros bn H1 H2; rewrite dir0_addr | done | done].
  - split; try done.
    + intros b ->%dir0_own. split; [split; by vm_compute | by vm_compute].
    + intros bn bn' H1 H2. rewrite !dir0_addr by done. repeat case_decide; congruence.
  - change (i_size dir0) with 32 in H2. unfold BSIZE in H2. rewrite decide_True by lia. done.
  - change (i_size dir0) with 32 in H2. unfold NBLK, BSIZE in *. lia.
Qed.

Lemma ddir_free : has_free sb0 1 ddir 3.
Proof.
  exists [7; 8; 9]. split; [apply (bool_decide_unpack _); vm_compute; exact I|]. split; [done|].
  intros b Hb.
  repeat (apply elem_of_cons in Hb as [->|Hb];
    [split; [split; by vm_compute | by vm_compute]|]). by apply elem_of_nil in Hb.
Qed.

Lemma fsdir_icache : icache_ok (icache fsdir).
Proof.
  assert (∀ i x, icache fsdir !! i = Some x → 0 < i_ref x → i = 0%nat ∧ x = dir0) as H0.
  { intros [|i] x E Hx; [by injection E as <-|]. change (replicate 49 no_inode !! i = Some x) in E. apply lookup_replicate in E as (-> & _).
    cbn in Hx. lia. }
  split.
  - intros i j x y Hi Hj (Hx & _) Hy. apply H0 in Hi as (-> & _); [|done].
    by apply H0 in Hj as (-> & _).
  - intros [|i] x E; [injection E as <-; cbn; lia|]. change (replicate 49 no_inode !! i = Some x) in E.
    apply lookup_replicate in E as (-> & _). cbn. lia.
Qed.

Lemma dirlookup_finds_witness :
  ∃ fs', dirlookup fsdir 0 DOTDOT = Ok (fs', Some (0%nat, 16)).
Proof.
  destruct (dirlookup_finds sb0 sb0_wf 1 ltac:(lia) fsdir ddir 0 DOTDOT fsdir_fsi dir0_ok)
    as (s & _ & [(Hno & _) | (k & Hk & Hn & Hj & E)]).
  - specialize (Hno 1%nat ltac:(vm_compute; lia)). vm_compute in Hno. discriminate Hno.
  - assert (k = 1%nat) as ->.
    { change (nents (inodep fsdir 0)) with 2%nat in Hk.
      destruct k as [|k]; [vm_compute in Hn; discriminate Hn | lia]. }
    change (de_inum (dirent 1 ddir (inodep fsdir 0) 1)) with (de_inum (dirent 1 ddir dir0 1)) in E.
    replace (de_inum (dirent 1 ddir dir0 1)) with 1 in E by (vm_compute; reflexivity).
    eexists. rewrite E. reflexivity.
Defined.

(** The name "init". *)
Definition INIT : list Z := [105; 110; 105; 116; 0].

Lemma dirlink_binds_witness :
  ∃ fs' d', dirlink fsdir 0 INIT 2 = Ok (fs', 0) ∧ dir_get 1 d' (inodep fs' 0) INIT = Some 2 ∧
    dir_get 1 d' (inodep fs' 0) DOTDOT = Some 1.
Proof.
  destruct (dirlink_binds sb0 sb0_wf 1 ltac:(lia) fsdir ddir 0 INIT 2 fsdir_fsi
    ltac:(vm_compute; lia) dir0_ok ltac:(split; split; discriminate || reflexivity) ltac:(lia)
    ltac:(vm_compute; reflexivity) ltac:(vm_compute; discriminate))
    as (fs' & d' & E & _ & _ & Hg & Hg' & _).
  - apply has_free_le with 3%nat; [exact ddir_free | vm_compute; lia].
  - exists fs', d'. split; [exact E|]. split; [exact Hg|].
    rewrite Hg' by (vm_compute; discriminate). vm_compute. reflexivity.
Defined.

Lemma dirlink_bound_witness :
  ∃ fs', dirlink fsdir 0 DOT 2 = Ok (fs', -1) ∧ i_ref (inodep fs' 0) = 1.
Proof.
  destruct (dirlink_bound sb0 sb0_wf 1 ltac:(lia) fsdir ddir 0 DOT fsdir_fsi dir0_ok
    ltac:(vm_compute; discriminate) fsdir_icache
    ltac:(intros [|j] y Hy; [injection Hy as <-; cbn; lia
      | change (replicate 49 no_inode !! j = Some y) in Hy; apply lookup_replicate in Hy as (-> & _); cbn; lia])
    ltac:(apply (bool_decide_unpack _); vm_compute; exact I) 2)
    as (fs' & E & _ & _ & Hr).
  exists fs'. split; [exact E|]. rewrite Hr. reflexivity.
Defined.
