(* ===== verification/FsTrunc.v ===== *)
(** fs/fs.c: giving a file's blocks back.  [itrunc] frees exactly the blocks of
    the file; [iput] does so for the last user of an inode without links. *)
From S2P Require Import Prelude LibC Ports Ide Block Bio FsLayout Fs FsDir FsBlocks FsFile FsRw FsProps FsIcache FsDirProps.

(** The addresses in a list that name a block. *)
Definition nonzero (l : list Z) : list Z := filter (λ a, a ≠ 0) l.

Lemma elem_of_nonzero b l : b ∈ nonzero l ↔ b ≠ 0 ∧ b ∈ l.
Proof. unfold nonzero. by rewrite list_elem_of_filter. Qed.
Lemma nonzero_cons a l : nonzero (a :: l) = if decide (a = 0) then nonzero l else a :: nonzero l.
Proof. unfold nonzero. rewrite filter_cons. by repeat case_decide. Qed.
Lemma nonzero_app l k : nonzero (l ++ k) = nonzero l ++ nonzero k.
Proof. apply filter_app. Qed.

Section trunc.
Context {S : Type} `{BlockLayer S}.
Context (sb : superblock) (Hsb : sb_wf sb) (dev : Z) (Hdev : 0 ≤ dev < 2).
Implicit Types (fs : fsys S) (d : disk) (h : held) (x : inode) (ip : nat).
#[local] Abbreviation fsi := (fsi sb dev).
#[local] Abbreviation fsi_held := (fsi_held sb dev).
#[local] Abbreviation file_wf := (file_wf sb dev).
#[local] Abbreviation disk_inode := (disk_inode sb dev).

(** * Freeing a list of blocks *)

(** The disk after [bfree] of every block of a list. *)
Definition free_all d (l : list Z) : disk := foldl (λ d b, mark_free sb d dev b) d l.

Definition sectors d : Prop := ∀ b, 1 ≤ b < sb_size sb → length (d dev b) = 512%nat.

Lemma fsi_sectors fs d h : fsi_held fs d h → sectors d.
Proof. intros Hf b Hb. eapply (sector_len sb Hsb dev Hdev); [apply Hf | done]. Qed.

Lemma mark_free_other d b b' :
  data_block sb b → ¬ bitmap_block sb b' → mark_free sb d dev b dev b' = d dev b'.
Proof.
  intros Hb Hb'. pose proof (data_block_range sb Hsb b Hb). unfold mark_free.
  apply disk_set_ne. right. intros ->. apply Hb', BBLOCK_bitmap; [done | lia].
Qed.

Lemma mark_free_sectors d b : sectors d → data_block sb b → sectors (mark_free sb d dev b).
Proof.
  intros Hd Hb b' Hb'. pose proof (data_block_range sb Hsb b Hb).
  unfold mark_free, disk_set. case_decide as E; [|by apply Hd]. destruct E as (_ & ->).
  unfold clear_bit. rewrite length_zset. by apply Hd.
Qed.

Lemma free_all_cons d b l : free_all d (b :: l) = free_all (mark_free sb d dev b) l.
Proof. done. Qed.
Lemma free_all_app d l k : free_all d (l ++ k) = free_all (free_all d l) k.
Proof. apply foldl_app. Qed.

Lemma free_all_other d l b' :
  Forall (data_block sb) l → ¬ bitmap_block sb b' → free_all d l dev b' = d dev b'.
Proof.
  intros Hl Hb'. revert d. induction Hl as [|b l Hb _ IH]; intros d; [done|].
  by rewrite free_all_cons, IH, mark_free_other.
Qed.

Lemma free_all_used d l b' :
  sectors d → Forall (data_block sb) l → 0 ≤ b' < sb_size sb →
  used sb (free_all d l) dev b' = used sb d dev b' && bool_decide (b' ∉ l).
Proof.
  intros Hd Hl Hb'. revert d Hd. induction Hl as [|b l Hb _ IH]; intros d Hd.
  { rewrite bool_decide_eq_true_2 by apply not_elem_of_nil. by rewrite andb_true_r. }
  pose proof (data_block_range sb Hsb b Hb). pose proof (BBLOCK_range sb Hsb b).
  pose proof (sw_data _ Hsb).
  rewrite free_all_cons, IH by (by apply mark_free_sectors).
  rewrite used_mark_free by (try done; try apply Hd; lia).
  destruct (decide (b' = b)) as [->|Hne]; cbn [andb].
  - rewrite bool_decide_eq_false_2; [by rewrite andb_false_r|]. intros Hn. apply Hn. by left.
  - f_equal. apply bool_decide_ext. rewrite not_elem_of_cons. tauto.
Qed.

(** The rest of the file system's invariant survives. *)
Lemma fsi_free fs d h s l f :
  fsi_held fs d h → Forall (data_block sb) l → bl_rep s (free_all d l) h →
  fsi_held (set_icache (set_blk fs s) f) (free_all d l) h.
Proof.
  intros Hf Hl Hr. pose proof (fsi_sectors _ _ _ Hf) as Hd. destruct Hf as [Es _ Hm Hdec].
  assert (0 ≤ 1 < dstart sb ∧ ¬ bitmap_block sb 1) as (_ & H2).
  { destruct Hsb as [G1 G2 G3 G4 _]. unfold bitmap_block, dstart, IPB, BPB, BSIZE in *.
    change (512 * 8) with 4096 in *. change (512 / 64) with 8 in *. zlia. }
  split; [done | done | |].
  - intros b Hb. pose proof (sw_data _ Hsb). rewrite free_all_used by (done || lia).
    rewrite Hm by done. apply bool_decide_eq_true_2. intros Hin.
    pose proof (proj1 (Forall_forall _ _) Hl b Hin) as Hdb. unfold data_block in Hdb. lia.
  - by rewrite free_all_other.
Qed.

(** Blocks that a caller may free: different data blocks in use. *)
Definition freeable d (l : list Z) : Prop :=
  NoDup l ∧ ∀ b, b ∈ l → data_block sb b ∧ used sb d dev b = true.

Lemma freeable_data d l : freeable d l → Forall (data_block sb) l.
Proof. intros (_ & Hl). apply Forall_forall. intros b Hb. by apply Hl. Qed.

Lemma freeable_app d l k :
  sectors d → freeable d (l ++ k) → freeable d l ∧ freeable (free_all d l) k.
Proof.
  intros Hd (Hnd & Hl). apply NoDup_app in Hnd as (H1 & H2 & H3).
  assert (freeable d l) as Hfl by (split; [done|]; intros b Hb; apply Hl, elem_of_app; by left).
  split; [done|]. split; [done|]. intros b Hb.
  destruct (Hl b) as (Hdb & Hu); [apply elem_of_app; by right|]. split; [done|].
  pose proof (data_block_range sb Hsb b Hdb).
  rewrite free_all_used, Hu by (try done; try lia; by apply (freeable_data d)).
  apply bool_decide_eq_true_2. intros Hin. by apply (H2 b Hin).
Qed.

Lemma freeable_cons d b l :
  sectors d → freeable d (b :: l) →
  data_block sb b ∧ used sb d dev b = true ∧ freeable (mark_free sb d dev b) l.
Proof.
  intros Hd Hf. destruct (freeable_app d [b] l Hd Hf) as ((_ & Hb) & Hl).
  destruct (Hb b) as (H1 & H2); [by left|]. done.
Qed.

(** * The loops of itrunc *)

Lemma itrunc_direct_spec fs d ip pre todo post :
  let x := inodep fs ip in
  fsi fs d → (ip < length (icache fs))%nat → i_dev x = dev → i_addrs x = pre ++ todo ++ post →
  freeable d (nonzero todo) →
  ∃ s, itrunc_direct fs ip (Z.of_nat (length pre)) (length todo) =
      Ok (put_inode (set_blk fs s) ip (with_addrs x (pre ++ replicate (length todo) 0 ++ post))) ∧
    bl_rep s (free_all d (nonzero todo)) ∅.
Proof.
  revert fs d pre. induction todo as [|a todo IH]; intros fs d pre x Hfs Hip Hxd Ex Hfr.
  { exists (f_blk fs). split; [|apply Hfs]. cbn [itrunc_direct length replicate app].
    cbn [app] in Ex. rewrite <- Ex, with_addrs_id. f_equal.
    transitivity (put_inode fs ip x); [symmetry; by apply put_inode_same | by destruct fs]. }
  cbn [itrunc_direct length]. fold x.
  assert (zget (i_addrs x) (Z.of_nat (length pre)) = a) as ->.
  { unfold zget. rewrite Nat2Z.id, Ex. by apply list_lookup_total_middle. }
  rewrite nonzero_cons in Hfr |- *.
  replace (Z.of_nat (length pre) + 1) with (Z.of_nat (length (pre ++ [0])))
    by (rewrite length_app; simpl; lia).
  assert (pre ++ replicate (Datatypes.S (length todo)) 0 ++ post =
    (pre ++ [0]) ++ replicate (length todo) 0 ++ post) as -> by (by rewrite <- app_assoc).
  destruct (Z.eqb_spec a 0) as [->|Ha].
  - rewrite decide_True in Hfr |- * by done. apply IH; try done. fold x. by rewrite Ex, <- app_assoc.
  - rewrite decide_False in Hfr |- * by done.
    destruct (freeable_cons d a _ (fsi_sectors _ _ _ Hfs) Hfr) as (Hda & Hua & Hfr2).
    destruct (bfree_spec sb Hsb dev Hdev fs d ∅ a) as (s & E & Hr);
      [apply Hfs | apply Hfs | apply Hfs | apply size_none | apply held_none | done | done |].
    rewrite Hxd, E. cbn [rbind].
    rewrite put_inode_upd by done. change (inodep (set_blk fs s) ip) with x.
    set (x1 := set_addr x (Z.of_nat (length pre)) 0).
    assert (i_addrs x1 = (pre ++ [0]) ++ todo ++ post) as Ex1.
    { unfold x1. cbn. unfold zset. rewrite Nat2Z.id, Ex. rewrite <- app_assoc.
      by rewrite insert_app_r_alt, Nat.sub_diag by done. }
    assert (fsi (put_inode (set_blk fs s) ip x1) (mark_free sb d dev a)) as Hfs1
      by (apply (fsi_free fs d ∅ s [a]); [done | by apply Forall_singleton | exact Hr]).
    destruct (IH (put_inode (set_blk fs s) ip x1) (mark_free sb d dev a) (pre ++ [0]))
      as (s2 & E2 & Hr2); rewrite ?inodep_put by done; try done.
    { cbn. by rewrite length_insert. }
    exists s2. split; [|exact Hr2]. rewrite E2, inodep_put by done. f_equal.
    change (set_blk (put_inode (set_blk fs s) ip x1) s2) with (put_inode (set_blk fs s2) ip x1).
    by rewrite put_put.
Qed.

(** The blocks that an indirect block names. *)
Definition words (data : list Z) (j n : nat) : list Z := (λ k, get32 data (4 * k)%nat) <$> seq j n.

Lemma itrunc_indirect_spec fs d ip bp ind data j n :
  let h := {[bp := mk_hbuf dev ind 1 data]} : held in
  fsi_held fs d h → i_dev (inodep fs ip) = dev → data_block sb ind → used sb d dev ind = true →
  freeable d (nonzero (words data j n)) → (ind ∉ words data j n) →
  ∃ s, itrunc_indirect fs ip bp j n = Ok (set_blk fs s) ∧
    bl_rep s (free_all d (nonzero (words data j n))) h.
Proof.
  intros h. revert fs d j. induction n as [|n IH]; intros fs d j Hfs Hxd Hid Hiu Hfr Hin.
  { exists (f_blk fs). split; [by destruct fs | apply Hfs]. }
  assert (h !! bp = Some (mk_hbuf dev ind 1 data)) as Hx by apply lookup_singleton_eq.
  destruct (bl_data_rep _ _ _ _ _ (fi_rep _ _ _ _ _ Hfs) Hx) as (Hdat & _). cbn in Hdat.
  change (words data j (Datatypes.S n)) with (get32 data (4 * j)%nat :: words data (Datatypes.S j) n) in *.
  cbn [itrunc_indirect]. unfold fdata. rewrite Hdat.
  set (a := get32 data (4 * j)%nat) in *. rewrite nonzero_cons in Hfr |- *.
  apply not_elem_of_cons in Hin as (Hne & Hin). rewrite Nat.add_1_r.
  destruct (Z.eqb_spec a 0) as [->|Ha]; [by apply IH|].
  rewrite decide_False in Hfr |- * by done.
  destruct (freeable_cons d a _ (fsi_sectors _ _ _ Hfs) Hfr) as (Hda & Hua & Hfr2).
  pose proof (data_block_range sb Hsb a Hda). pose proof (data_block_range sb Hsb ind Hid).
  destruct (bfree_spec sb Hsb dev Hdev fs d h a) as (s & E & Hr);
    [apply Hfs | apply Hfs | apply Hfs | | | done | done |].
  { unfold h. rewrite map_size_singleton. unfold NHELD. lia. }
  { intros i y Hy _. unfold h in Hy. by apply lookup_singleton_Some in Hy as (_ & <-). }
  rewrite Hxd, E. cbn [rbind].
  assert (fsi_held (set_blk fs s) (mark_free sb d dev a) h) as Hfs1.
  { apply (fsi_free fs d h s [a] (icache fs)); [done | by apply Forall_singleton | exact Hr]. }
  destruct (IH (set_blk fs s) (mark_free sb d dev a) (Datatypes.S j)) as (s2 & E2 & Hr2); try done.
  { pose proof (free_all_used d [a] ind (fsi_sectors _ _ _ Hfs) ltac:(by apply Forall_singleton)
      ltac:(lia)) as Hu.
    change (free_all d [a]) with (mark_free sb d dev a) in Hu. rewrite Hu, Hiu.
    apply bool_decide_eq_true_2. by rewrite list_elem_of_singleton. }
  exists s2. by rewrite E2.
Qed.

(** * The blocks of a file, as a list *)

Definition direct_blocks x : list Z := nonzero (take 12 (i_addrs x)).
Definition indirect_blocks d x : list Z :=
  if ind_of x =? 0 then [] else nonzero (words (d dev (ind_of x)) 0 128) ++ [ind_of x].
Definition file_blocks d x : list Z := direct_blocks x ++ indirect_blocks d x.

Lemma elem_of_direct d x b :
  file_wf d x →
  b ∈ direct_blocks x ↔ b ≠ 0 ∧ ∃ bn, 0 ≤ bn < NDIRECT ∧ blk_addr dev d x bn = b.
Proof.
  intros Hwf. unfold direct_blocks. rewrite elem_of_nonzero.
  pose proof (fw_len _ _ _ _ Hwf) as Hlen. split; intros (Hb & Hin); (split; [done|]).
  - apply list_elem_of_lookup in Hin as (k & Hk). apply lookup_take_Some in Hk as (Hk & Hk12).
    exists (Z.of_nat k). unfold NDIRECT. split; [lia|]. unfold blk_addr.
    rewrite (proj2 (Z.ltb_lt _ _)) by (unfold NDIRECT; lia). unfold zget. rewrite Nat2Z.id.
    by apply list_lookup_total_correct.
  - destruct Hin as (bn & Hbn & E). unfold blk_addr in E.
    rewrite (proj2 (Z.ltb_lt _ _)) in E by lia. unfold NDIRECT in Hbn.
    apply list_elem_of_lookup. exists (Z.to_nat bn). apply lookup_take_Some. split; [|lia].
    rewrite <- E. unfold zget. apply list_lookup_lookup_total_lt. lia.
Qed.

Lemma elem_of_words data j n b :
  b ∈ words data j n ↔ ∃ k, (j ≤ k < j + n)%nat ∧ get32 data (4 * k)%nat = b.
Proof.
  unfold words. rewrite list_elem_of_fmap. setoid_rewrite elem_of_seq.
  split; [intros (k & -> & ?) | intros (k & ? & <-)]; eauto.
Qed.

(** Entry [k] of the indirect block is the address of block [12 + k]. *)
Lemma word_addr d x k :
  ind_of x ≠ 0 → get32 (d dev (ind_of x)) (4 * k)%nat = blk_addr dev d x (NDIRECT + Z.of_nat k).
Proof.
  intros Hi. unfold blk_addr. rewrite (proj2 (Z.ltb_ge _ _)) by lia.
  rewrite (proj2 (Z.eqb_neq _ _)) by done. f_equal. lia.
Qed.

Lemma elem_of_indirect d x b :
  b ∈ indirect_blocks d x ↔
  b ≠ 0 ∧ (b = ind_of x ∨ ∃ bn, NDIRECT ≤ bn < NBLK ∧ blk_addr dev d x bn = b).
Proof.
  unfold indirect_blocks. destruct (Z.eqb_spec (ind_of x) 0) as [E|Hi].
  - split; [by intros ?%elem_of_nil|]. intros (Hb & [->|(bn & Hbn & Ea)]); [done|].
    unfold blk_addr in Ea. rewrite (proj2 (Z.ltb_ge _ _)), E in Ea by lia. by subst.
  - rewrite elem_of_app, list_elem_of_singleton, elem_of_nonzero, elem_of_words. split.
    + intros [(Hb & k & Hk & E)| ->]; [|by auto]. split; [done|]. right.
      rewrite word_addr in E by done. exists (NDIRECT + Z.of_nat k).
      unfold NDIRECT, NBLK. split; [lia | done].
    + intros (Hb & [->|(bn & Hbn & E)]); [by right|]. left. split; [done|].
      exists (Z.to_nat (bn - NDIRECT)). unfold NDIRECT, NBLK in *. split; [lia|].
      rewrite word_addr by done. rewrite <- E. f_equal. unfold NDIRECT. lia.
Qed.

Lemma elem_of_file_blocks d x b : file_wf d x → b ∈ file_blocks d x ↔ own dev d x b.
Proof.
  intros Hwf. unfold file_blocks, own. rewrite elem_of_app, elem_of_indirect.
  rewrite (elem_of_direct d) by done. split.
  - intros [(Hb & bn & Hbn & E)|(Hb & [->|(bn & Hbn & E)])]; (split; [done|]); auto; right;
      exists bn; (split; [unfold NDIRECT, NBLK in *; lia | done]).
  - intros (Hb & [->|(bn & Hbn & E)]); [by auto|].
    destruct (decide (bn < NDIRECT)); [left | right]; (split; [done|]); [|right];
      exists bn; (split; [lia | done]).
Qed.

Lemma nonzero_NoDup (f : nat → Z) j n :
  (∀ i i', (j ≤ i < j + n)%nat → (j ≤ i' < j + n)%nat → f i ≠ 0 → f i = f i' → i = i') →
  NoDup (nonzero (f <$> seq j n)).
Proof.
  revert j. induction n as [|n IH]; intros j Hf; [apply NoDup_nil_2|].
  cbn [seq fmap list_fmap]. rewrite nonzero_cons.
  assert (NoDup (nonzero (f <$> seq (Datatypes.S j) n))) as Hnd
    by (apply IH; intros i i' Hi Hi'; apply Hf; lia).
  case_decide; [done|]. apply NoDup_cons. split; [|done].
  rewrite elem_of_nonzero, list_elem_of_fmap. intros (_ & i & E & Hi%elem_of_seq).
  assert (j = i) by (apply Hf; lia || done). lia.
Qed.

Lemma file_blocks_freeable d x : file_wf d x → freeable d (file_blocks d x).
Proof.
  intros Hwf. pose proof (fw_len _ _ _ _ Hwf) as Hlen. split.
  2: { intros b Hb. apply (fw_own _ _ _ _ Hwf). by apply elem_of_file_blocks. }
  pose proof (fw_inj _ _ _ _ Hwf) as Hinj. pose proof (fw_ind _ _ _ _ Hwf) as Hind.
  apply NoDup_app. split; [|split].
  - assert (direct_blocks x = nonzero ((λ k, blk_addr dev d x (Z.of_nat k)) <$> seq 0 12)) as ->.
    { unfold direct_blocks. f_equal. apply list_eq. intros k.
      rewrite list_lookup_fmap, lookup_take. destruct (decide (k < 12)%nat) as [Hk|Hk].
      - rewrite lookup_seq_lt by done. unfold blk_addr.
        cbn [fmap option_fmap option_map Nat.add].
        rewrite (proj2 (Z.ltb_lt _ _)) by (unfold NDIRECT; lia). unfold zget. rewrite Nat2Z.id.
        apply list_lookup_lookup_total_lt. lia.
      - by rewrite lookup_seq_ge by lia. }
    apply nonzero_NoDup. intros i i' Hi Hi' Hn E.
    apply Hinj in E; [lia | unfold NBLK; lia | unfold NBLK; lia | done].
  - intros b Hb Hb'. apply (elem_of_direct d x b Hwf) in Hb as (Hn & bn & Hbn & <-).
    unfold NDIRECT in Hbn.
    apply elem_of_indirect in Hb' as (_ & [E|(bn' & Hbn' & E)]).
    + apply (Hind bn); [unfold NBLK; lia | congruence | done].
    + unfold NDIRECT, NBLK in *. apply Hinj in E; [lia | lia | lia | congruence].
  - unfold indirect_blocks. destruct (Z.eqb_spec (ind_of x) 0) as [|Hi]; [apply NoDup_nil_2|].
    apply NoDup_app. split; [|split; [|apply NoDup_singleton]].
    + apply nonzero_NoDup. intros i i' Hk Hk' Hn E. rewrite !word_addr in E by done.
      rewrite word_addr in Hn by done.
      apply Hinj in E; unfold NDIRECT, NBLK in *; [lia | lia | lia | done].
    + intros b (_ & (k & Hk & E)%elem_of_words)%elem_of_nonzero ->%list_elem_of_singleton.
      rewrite word_addr in E by done. unfold NDIRECT in E.
      apply (Hind (12 + Z.of_nat k)); [unfold NBLK; lia | done | done].
Qed.

(** * itrunc *)

(** The inode without blocks. *)
Definition emptied x : inode := set_size (with_addrs x (replicate 13 0)) 0.

(** The disk after [itrunc]. *)
Definition trunc_disk d x : disk := put_dinode sb dev (free_all d (file_blocks d x)) (emptied x).

(** The second half of [itrunc]: the indirect block and those it names. *)
Lemma itrunc_ind_spec fs d ip l :
  let x := inodep fs ip in
  fsi fs d → (ip < length (icache fs))%nat → i_dev x = dev → i_addrs x = replicate 12 0 ++ [l] →
  freeable d (indirect_blocks d x) →
  ∃ s, (if zget (i_addrs x) NDIRECT =? 0 then Ok fs
      else
        let* r := fbread fs (i_dev x) (zget (i_addrs x) NDIRECT) in
        let '(fs, bp) := r in
        let* fs := itrunc_indirect fs ip bp 0 (Z.to_nat NINDIRECT) in
        let fs := fbrelse fs bp in
        let* fs := bfree fs (i_dev x) (zget (i_addrs x) NDIRECT) in
        Ok (upd_inode fs ip (λ x, set_addr x NDIRECT 0))) =
    Ok (put_inode (set_blk fs s) ip (with_addrs x (replicate 13 0))) ∧
    bl_rep s (free_all d (indirect_blocks d x)) ∅.
Proof.
  intros x Hfs Hip Hxd Ex Hfr. change (zget (i_addrs x) NDIRECT) with (ind_of x).
  unfold indirect_blocks in Hfr |- *. destruct (Z.eqb_spec (ind_of x) 0) as [E0|Hi].
  { exists (f_blk fs). split; [|apply Hfs].
    assert (l = 0) as -> by (unfold ind_of in E0; rewrite Ex in E0; exact E0).
    change (replicate 13 0) with (replicate 12 0 ++ [0]). rewrite <- Ex, with_addrs_id. f_equal.
    transitivity (put_inode fs ip x); [symmetry; by apply put_inode_same | by destruct fs]. }
  rewrite Hxd. set (ind := ind_of x) in *.
  destruct (freeable_app d _ [ind] (fsi_sectors _ _ _ Hfs) Hfr) as (Hfw & (_ & Hfi)).
  assert (data_block sb ind ∧ used sb d dev ind = true) as (Hid & Hiu)
    by (apply Hfr, elem_of_app; right; by left).
  pose proof (data_block_range sb Hsb ind Hid).
  assert (ind ∉ words (d dev ind) 0 128) as Hnin.
  { intros Hin. destruct Hfr as ((_ & Hnd & _)%NoDup_app & _).
    apply (Hnd ind); [by apply elem_of_nonzero | by left]. }
  destruct (with_block fs d ∅ dev ind (fi_rep _ _ _ _ _ Hfs)) as (s & bp & E & Hdat & _ & Hr & _ & _);
    [by apply (block_ok_lt sb Hsb dev Hdev); lia | apply size_none
    | intros j y Hy; by rewrite lookup_empty in Hy |].
  rewrite E. cbn [rbind]. rewrite insert_empty in Hr.
  set (h := {[bp := mk_hbuf dev ind 1 (d dev ind)]} : held) in *.
  destruct (itrunc_indirect_spec (set_blk fs s) d ip bp ind (d dev ind) 0 128)
    as (s2 & E2 & Hr2); [by split; try apply Hfs | done..|].
  change (Z.to_nat NINDIRECT) with 128%nat. rewrite E2. cbn [rbind].
  set (ws := nonzero (words (d dev ind) 0 128)) in *.
  assert (free_all d ws dev ind = d dev ind) as Ed
    by (apply free_all_other; [by apply (freeable_data d) | by apply data_not_bitmap]).
  assert (bl_rep (bl_release s2 bp) (free_all d ws) ∅) as Hr3.
  { pose proof (bl_release_rep _ _ _ bp _ Hr2 (lookup_singleton_eq _ _) eq_refl (eq_sym Ed)) as Hx.
    unfold h in Hx. by rewrite delete_singleton_eq in Hx. }
  assert (fsi (set_blk fs (bl_release s2 bp)) (free_all d ws)) as Hfs3
    by (apply (fsi_free fs d ∅ _ ws (icache fs)); [done | by apply (freeable_data d) | done]).
  destruct (bfree_spec sb Hsb dev Hdev (set_blk fs (bl_release s2 bp)) (free_all d ws) ∅ ind)
    as (s4 & E4 & Hr4); [apply Hfs3 | apply Hfs3 | apply Hfs3 | apply size_none | apply held_none
    | done | apply Hfi; by left |].
  change (fbrelse (set_blk (set_blk fs s) s2) bp) with (set_blk fs (bl_release s2 bp)).
  rewrite E4. cbn [rbind]. exists s4. split; [|by rewrite free_all_app].
  rewrite put_inode_upd by done. do 2 f_equal. change (inodep _ ip) with x.
  unfold set_addr, with_addrs. by rewrite Ex.
Qed.

Lemma itrunc_spec fs d ip :
  let x := inodep fs ip in
  fsi fs d → (ip < length (icache fs))%nat → file_wf d x →
  ∃ s, itrunc fs ip = Ok (put_inode (set_blk fs s) ip (emptied x)) ∧
    fsi (put_inode (set_blk fs s) ip (emptied x)) (trunc_disk d x).
Proof.
  intros x Hfs Hip Hwf. pose proof (fw_len _ _ _ _ Hwf) as Hlen.
  pose proof (file_blocks_freeable d x Hwf) as Hfr.
  destruct (freeable_app d _ _ (fsi_sectors _ _ _ Hfs) Hfr) as (Hfd & Hfi).
  assert (i_addrs x = take 12 (i_addrs x) ++ [ind_of x]) as Ex.
  { rewrite <- (take_drop 12 (i_addrs x)) at 1. f_equal. unfold ind_of, zget.
    destruct (i_addrs x) as [|? l]; [done|]. do 12 (destruct l as [|? l]; [done|]).
    by destruct l. }
  unfold itrunc.
  destruct (itrunc_direct_spec fs d ip [] (take 12 (i_addrs x)) [ind_of x]) as (s & E & Hr);
    [done | done | apply Hwf | done | done |].
  assert (length (take 12 (i_addrs x)) = 12%nat) as Hl12 by (rewrite length_take; lia).
  rewrite Hl12 in E. change (Z.of_nat (length [])) with 0 in E.
  change (Z.to_nat NDIRECT) with 12%nat. rewrite E. cbn [rbind]. fold x. cbn [app].
  set (x1 := with_addrs x (replicate 12 0 ++ [ind_of x])). fold (direct_blocks x) in Hr.
  set (d1 := free_all d (direct_blocks x)) in *.
  assert (indirect_blocks d1 x1 = indirect_blocks d x) as Eind.
  { unfold indirect_blocks. change (ind_of x1) with (ind_of x).
    destruct (Z.eqb_spec (ind_of x) 0) as [|Hi]; [done|]. unfold d1.
    rewrite free_all_other; [done | by apply (freeable_data d) |]. apply data_not_bitmap.
    apply (fw_own _ _ _ _ Hwf). by apply own_ind. }
  assert (fsi (put_inode (set_blk fs s) ip x1) d1) as Hfs1
    by (apply (fsi_free fs d ∅ s (direct_blocks x) (<[ip := x1]> (icache fs)));
      [done | by apply (freeable_data d) | done]).
  set (fs1 := put_inode (set_blk fs s) ip x1) in *.
  assert (inodep fs1 ip = x1) as Ex1 by (by apply inodep_put).
  assert ((ip < length (icache fs1))%nat) as Hip1 by (cbn; by rewrite length_insert).
  pose proof (itrunc_ind_spec fs1 d1 ip (ind_of x)) as Hit. cbv zeta in Hit. rewrite Ex1, Eind in Hit.
  destruct Hit as (s2 & E2 & Hr2); [done | done | apply Hwf | done | done |].
  rewrite Ex1, E2. cbn [rbind].
  change (set_blk fs1 s2) with (put_inode (set_blk fs s2) ip x1).
  rewrite put_put, put_inode_upd, inodep_put, put_put by (done || by cbn; rewrite length_insert).
  change (set_size (with_addrs x1 (replicate 13 0)) 0) with (emptied x).
  unfold d1 in Hr2. rewrite <- free_all_app in Hr2. fold (file_blocks d x) in Hr2.
  set (fs2 := put_inode (set_blk fs s2) ip (emptied x)).
  assert (inodep fs2 ip = emptied x) as Ex2 by (by apply inodep_put).
  assert (fsi fs2 (free_all d (file_blocks d x))) as Hfs2
    by (apply (fsi_free fs d ∅ s2 (file_blocks d x) (<[ip := emptied x]> (icache fs)));
      [done | by apply (freeable_data d) | done]).
  destruct (iupdate_spec sb Hsb dev Hdev fs2 (free_all d (file_blocks d x)) ip Hfs2) as (s3 & E3 & Hr3);
    rewrite ?Ex2; [apply Hwf | apply Hwf |].
  rewrite Ex2 in Hr3. exists s3. split; [exact E3|].
  by apply (put_dinode_fsi sb Hsb dev Hdev fs2 _ (emptied x) s3 (icache fs2)); [| apply Hwf |].
Qed.

(** * What freeing a file does to the disk *)

(** The blocks of the file, and only they, become free; no data block and no
    other inode changes. *)
Record truncated d x d' : Prop := {
  tr_used : ∀ b, 0 ≤ b < sb_size sb →
    (used sb d' dev b = true ↔ used sb d dev b = true ∧ ¬ own dev d x b);
  tr_data : ∀ b, data_block sb b → d' dev b = d dev b;
  tr_inodes : ∀ j, 0 ≤ j < sb_ninodes sb → j ≠ i_inum x → disk_inode d' j = disk_inode d j;
  tr_dev : ∀ dev' b, dev' ≠ dev → d' dev' b = d dev' b
}.

Lemma inode_not_bitmap j : 0 ≤ j < sb_ninodes sb → ¬ bitmap_block sb (IBLOCK j sb).
Proof.
  intros Hj. pose proof (inode_block_facts sb Hsb dev Hdev j Hj). unfold bitmap_block. lia.
Qed.

Lemma free_all_truncated d x : sectors d → file_wf d x → truncated d x (free_all d (file_blocks d x)).
Proof.
  intros Hd Hwf. pose proof (freeable_data d _ (file_blocks_freeable d x Hwf)) as Hl. split.
  - intros b Hb. rewrite free_all_used, andb_true_iff, bool_decide_eq_true by done.
    by rewrite elem_of_file_blocks.
  - intros b Hb. apply free_all_other; [done | by apply data_not_bitmap].
  - intros j Hj _. unfold FsRw.disk_inode. by rewrite free_all_other by (done || by apply inode_not_bitmap).
  - intros dev' b Hne. clear Hl. generalize (file_blocks d x). intros l. clear Hwf Hd. revert d.
    induction l as [|a l IH]; intros d; [done|]. rewrite free_all_cons, IH.
    unfold mark_free. apply disk_set_ne. by left.
Qed.

Lemma truncated_put d x d' y :
  truncated d x d' → i_inum y = i_inum x → 0 ≤ i_inum x < sb_ninodes sb →
  dinode_ok (dinode_of y) → length (d' dev (IBLOCK (i_inum x) sb)) = 512%nat →
  truncated d x (put_dinode sb dev d' y) ∧
  disk_inode (put_dinode sb dev d' y) (i_inum x) = dinode_of y.
Proof.
  intros [T1 T2 T3 T4] Ey Hi Hok Hl. rewrite <- Ey in Hi, Hl |- *.
  assert (∀ j, 0 ≤ j < sb_ninodes sb → disk_inode (put_dinode sb dev d' y) j =
    if decide (j = i_inum y) then dinode_of y else disk_inode d' j) as Hdi
    by (intros j Hj; by apply (disk_inode_put sb Hsb dev)).
  split; [|rewrite Hdi by done; by rewrite decide_True].
  split.
  - intros b Hb. rewrite (put_dinode_used sb Hsb dev Hdev) by done. by apply T1.
  - intros b Hb. rewrite (put_dinode_other sb Hsb dev Hdev); [by apply T2 | done |].
    unfold data_block, dstart in Hb. pose proof (sw_size _ Hsb).
    assert (0 ≤ sb_size sb / BPB) by (unfold BPB, BSIZE; zlia). lia.
  - intros j Hj Hne. rewrite Hdi by done. rewrite decide_False by congruence. auto.
  - intros dev' b Hne. unfold put_dinode. rewrite disk_set_ne by auto. auto.
Qed.

(** Files that share no block with it are as they were. *)
Lemma truncated_file d x d' y :
  truncated d x d' → file_wf d y → (∀ b, own dev d y b → ¬ own dev d x b) →
  file_wf d' y ∧ ∀ i, 0 ≤ i < NBLK * BSIZE → file_byte dev d' y i = file_byte dev d y i.
Proof.
  intros [T1 T2 _ _] Hwf Hdis.
  assert (∀ bn, blk_addr dev d' y bn = blk_addr dev d y bn) as Ha.
  { intros bn. apply blk_addr_ext. intros Hi. apply T2. apply (fw_own _ _ _ _ Hwf). by apply own_ind. }
  assert (∀ b, own dev d' y b → own dev d y b) as Ho
    by (intros b (Hb & [?|(bn & Hbn & E)]); (split; [done|]); [by left | right; exists bn; by rewrite <- Ha]).
  split.
  - destruct Hwf as [W1 W2 W3 W4 W5 W6 W7]. split; try done.
    + intros b Hb%Ho. destruct (W5 b Hb) as (Hdb & Hu). split; [done|].
      pose proof (data_block_range sb Hsb b Hdb). apply T1; [lia|]. auto.
    + intros b1 b2. rewrite !Ha. apply W6.
    + intros b1. rewrite Ha. apply W7.
  - intros i Hi. apply file_byte_ext; [apply Ha|]. intros Hn. apply T2, (fw_own _ _ _ _ Hwf).
    apply own_addr; [unfold NBLK, BSIZE in *; zlia | done].
Qed.

Lemma zeros_dinode_ok x : meta_ok x → i_size x = 0 → i_addrs x = replicate 13 0 → dinode_ok (dinode_of x).
Proof.
  intros [M1 M2 M3 M4] Es Ea. split; try done; cbn; rewrite ?Es, ?Ea; [done..|].
  by repeat (apply Forall_cons; split).
Qed.

Lemma meta_ok_emptied x : meta_ok x → meta_ok (emptied x).
Proof. by intros [M1 M2 M3 M4]. Qed.

Lemma trunc_disk_truncated d x :
  sectors d → file_wf d x → meta_ok x →
  truncated d x (trunc_disk d x) ∧ disk_inode (trunc_disk d x) (i_inum x) = dinode_of (emptied x) ∧
  length (trunc_disk d x dev (IBLOCK (i_inum x) sb)) = 512%nat.
Proof.
  intros Hd Hwf Hm. pose proof (fw_inum _ _ _ _ Hwf) as Hi.
  pose proof (inode_block_facts sb Hsb dev Hdev _ Hi) as (_ & Hb & Hbs).
  assert (length (free_all d (file_blocks d x) dev (IBLOCK (i_inum x) sb)) = 512%nat) as Hl.
  { rewrite free_all_other; [apply Hd; lia | | by apply inode_not_bitmap].
    by apply (freeable_data d), file_blocks_freeable. }
  unfold trunc_disk.
  destruct (truncated_put d x (free_all d (file_blocks d x)) (emptied x)) as (H1 & H2);
    [by apply free_all_truncated | done | done | by apply zeros_dinode_ok; [apply meta_ok_emptied|..] | done |].
  split; [done|]. split; [done|]. unfold put_dinode.
  change (i_inum (emptied x)) with (i_inum x). by rewrite disk_set_eq, length_enc_dinode.
Qed.

(** * iput *)

Lemma inodep_put_ne fs ip j y : ip ≠ j → inodep (put_inode fs ip y) j = inodep fs j.
Proof. intros Hne. unfold inodep, put_inode. cbn. by rewrite list_lookup_total_insert_ne. Qed.

Lemma iput_more fs ip :
  let x := inodep fs ip in
  (ip < length (icache fs))%nat → 1 ≤ i_ref x < 2 ^ 31 →
  i_valid x = 0 ∨ i_nlink x ≠ 0 ∨ i_ref x ≠ 1 →
  iput fs ip = Ok (put_inode fs ip (set_ref x (i_ref x - 1))).
Proof.
  intros x Hip Hr Hc. unfold iput. fold x.
  assert (negb (i_valid x =? 0) && (i_nlink x =? 0) && (i_ref x =? 1) = false) as ->.
  { destruct Hc as [->|[Hn|Hn]]; [done | |].
    - rewrite (proj2 (Z.eqb_neq (i_nlink x) 0)) by done. by rewrite andb_false_r.
    - rewrite (proj2 (Z.eqb_neq (i_ref x) 1)) by done. by rewrite andb_false_r. }
  cbn [rbind]. rewrite put_inode_upd by done. fold x. by rewrite s32_small by lia.
Qed.

(** The inode as the last [iput] leaves it. *)
Definition dropped x : inode := set_ref (set_valid (set_type (emptied x) 0) 0) 0.

Lemma iput_last fs d ip :
  let x := inodep fs ip in
  fsi fs d → (ip < length (icache fs))%nat → file_wf d x → meta_ok x →
  i_valid x ≠ 0 → i_nlink x = 0 → i_ref x = 1 →
  ∃ s d', iput fs ip = Ok (put_inode (set_blk fs s) ip (dropped x)) ∧
    fsi (put_inode (set_blk fs s) ip (dropped x)) d' ∧ truncated d x d' ∧
    disk_inode d' (i_inum x) = dinode_of (dropped x).
Proof.
  intros x Hfs Hip Hwf Hm Hv Hn Hr1. pose proof (fw_inum _ _ _ _ Hwf) as Hi.
  destruct (itrunc_spec fs d ip Hfs Hip Hwf) as (s & E & Hfs1). fold x in E, Hfs1.
  destruct (trunc_disk_truncated d x (fsi_sectors _ _ _ Hfs) Hwf Hm) as (Ht & _ & Hl).
  set (d1 := trunc_disk d x) in *.
  unfold iput. fold x. rewrite (proj2 (Z.eqb_neq (i_valid x) 0)) by done.
  rewrite Hn, Hr1, E. cbn [negb andb Z.eqb Pos.eqb rbind].
  rewrite put_inode_upd, inodep_put, put_put by (done || by cbn; rewrite length_insert).
  set (x1 := set_type (emptied x) 0). set (fs1 := put_inode (set_blk fs s) ip x1).
  assert (inodep fs1 ip = x1) as Ex1 by (by apply inodep_put).
  assert (fsi fs1 d1) as Hfs2 by (split; apply Hfs1).
  destruct (iupdate_spec sb Hsb dev Hdev fs1 d1 ip Hfs2) as (s2 & E2 & Hr2);
    rewrite ?Ex1; [apply Hwf | done |].
  rewrite Ex1 in Hr2. rewrite E2. cbn [rbind].
  change (set_blk fs1 s2) with (put_inode (set_blk fs s2) ip x1).
  rewrite !put_inode_upd by (by cbn; rewrite ?length_alter, ?length_insert).
  rewrite !inodep_put by (by cbn; rewrite ?length_insert). rewrite !put_put.
  assert (dinode_ok (dinode_of x1)) as Hok.
  { destruct Hm as [M1 M2 M3 M4]. by apply zeros_dinode_ok. }
  destruct (truncated_put d x d1 x1 Ht eq_refl Hi Hok Hl) as (Ht2 & Hd2).
  exists s2, (put_dinode sb dev d1 x1).
  change (set_ref (set_valid x1 1) (s32 (i_ref (set_valid x1 0) - 1))) with (dropped x).
  split; [|split; [|split; [done | exact Hd2]]].
  - do 2 f_equal. unfold dropped, x1, set_ref, set_valid. cbn [i_ref set_type emptied set_size with_addrs].
    by rewrite Hr1.
  - by apply (put_dinode_fsi sb Hsb dev Hdev fs1 d1 x1 s2 (<[ip := dropped x]> (icache fs))).
Qed.

(** C15. Dropping a user of an inode: the last user of an inode that was read and
    has no links gives its blocks back, marks its disk inode free and empties the
    slot, and no other inode, file or slot changes; any other call, that for an
    inode that was never read included, only counts one user less. *)
Theorem iput_frees fs d ip :
  let x := inodep fs ip in
  fsi fs d → (ip < length (icache fs))%nat → (i_valid x ≠ 0 → file_wf d x ∧ meta_ok x) →
  1 ≤ i_ref x < 2 ^ 31 →
  if decide (i_valid x ≠ 0 ∧ i_nlink x = 0 ∧ i_ref x = 1) then
    ∃ fs' d', iput fs ip = Ok fs' ∧ fsi fs' d' ∧
      i_ref (inodep fs' ip) = 0 ∧ i_valid (inodep fs' ip) = 0 ∧
      (∀ j, ip ≠ j → inodep fs' j = inodep fs j) ∧
      (∀ b, 0 ≤ b < sb_size sb →
         (used sb d' dev b = true ↔ used sb d dev b = true ∧ ¬ own dev d x b)) ∧
      di_type (disk_inode d' (i_inum x)) = 0 ∧
      (∀ j, 0 ≤ j < sb_ninodes sb → j ≠ i_inum x → disk_inode d' j = disk_inode d j) ∧
      (∀ y, file_wf d y → (∀ b, own dev d y b → ¬ own dev d x b) →
         file_wf d' y ∧
         ∀ i, 0 ≤ i < NBLK * BSIZE → file_byte dev d' y i = file_byte dev d y i)
  else iput fs ip = Ok (put_inode fs ip (set_ref x (i_ref x - 1))).
Proof.
  intros x Hfs Hip Hx Hr. case_decide as Hc.
  - destruct Hc as (Hv & Hn & Hr1). destruct (Hx Hv) as (Hwf & Hm).
    destruct (iput_last fs d ip) as (s & d' & E & Hfs' & Ht & Hd); [done..|].
    eexists _, d'. split; [exact E|]. split; [exact Hfs'|]. rewrite inodep_put by done.
    split; [done|]. split; [done|].
    split; [intros j Hne; by rewrite inodep_put_ne|]. split; [apply Ht|].
    split; [exact (f_equal di_type Hd)|]. split; [apply Ht|].
    intros y Hy Hdis. by apply (truncated_file d x).
  - apply iput_more; [done | done |]. fold x. destruct (decide (i_valid x = 0)); [by left|].
    destruct (decide (i_nlink x = 0)); [|by auto]. right; right. intros E. by apply Hc.
Qed.
End trunc.

(** * A concrete unlinked directory

    The directory [dir0] after its last link is gone. *)
Definition gone : inode := set_nlink dir0 0.
Definition fsgone : fsys (disk_st ata) := set_icache fsdir (gone :: replicate 49 no_inode).

Lemma gone_wf : file_wf sb0 1 ddir gone.
Proof. split; apply (dr_wf _ _ _ _ dir0_ok). Qed.

Lemma iput_frees_witness :
  used sb0 ddir 1 6 = true ∧
  ∃ fs' d', iput fsgone 0 = Ok fs' ∧ i_ref (inodep fs' 0) = 0 ∧ used sb0 d' 1 6 = false ∧
    di_type (disk_inode sb0 1 d' 1) = 0.
Proof.
  assert (fsi sb0 1 fsgone ddir) as Hfs by (split; apply fsdir_fsi).
  pose proof (iput_frees sb0 sb0_wf 1 ltac:(lia) fsgone ddir 0 Hfs ltac:(vm_compute; lia)
    ltac:(intros _; split; [exact gone_wf | split; split; discriminate || reflexivity]) ltac:(cbn; lia)) as Hp.
  rewrite decide_True in Hp by done.
  destruct Hp as (fs' & d' & E & _ & Hr & _ & _ & Hu & Hd & _).
  split; [vm_compute; reflexivity|]. exists fs', d'. split; [exact E|]. split; [exact Hr|].
  split; [|exact Hd]. apply not_true_is_false. intros Hu6.
  apply Hu in Hu6 as (_ & Hno); [|vm_compute; split; congruence].
  apply Hno. split; [done|]. right. exists 0. split; [unfold NBLK; lia|].
  exact (dir0_addr 0 ltac:(unfold NBLK; lia)).
Defined.
