(* ===== verification/FsAlloc.v ===== *)
(** fs/fs.c: taking an inode.  [ialloc] finds the first inode of the disk whose
    type is 0, zeroes it, gives it the type asked for and returns a slot of the
    cache for it. *)
From S2P Require Import Prelude LibC Ports Ide Block Bio FsLayout Fs FsDir FsBlocks FsFile FsRw FsProps FsIcache FsDirProps FsTrunc.

(** The inode that [memset] and the store of the type leave on the disk. *)
Definition fresh_dinode (type : Z) : dinode := mk_dinode type 0 0 0 0 (replicate 13 0).

Lemma put16_zeroed data off type :
  (off + 64 ≤ length data)%nat →
  put16 (splice data off (replicate 64 0)) off type = enc_dinode data off (fresh_dinode type).
Proof.
  intros Hl. rewrite <- (take_drop off data).
  assert (length (take off data) = off) as Ho by (rewrite length_take; lia).
  assert (64 ≤ length (drop off data))%nat as Hd by (rewrite length_drop; lia).
  generalize dependent (take off data). generalize dependent (drop off data). clear Hl.
  intros B HB A HA. subst off.
  unfold enc_dinode, put16, put32, splice, fresh_dinode. cbv zeta.
  cbn [di_type di_major di_minor di_nlink di_size di_addrs].
  rewrite <- (Nat.add_0_r (length A)) at 1 2 8. rewrite !list_inserts_app_r.
  do 64 (destruct B as [|? B]; [cbn in HB; lia|]). reflexivity.
Qed.

Section ialloc.
Context {S : Type} `{BlockLayer S}.
Context (sb : superblock) (Hsb : sb_wf sb) (dev : Z) (Hdev : 0 ≤ dev < 2).
Implicit Types (fs : fsys S) (d : disk) (x : inode) (ip : nat).
#[local] Abbreviation fsi := (fsi sb dev).
#[local] Abbreviation disk_inode := (disk_inode sb dev).

(** The test of [ialloc]: [dip->type == 0]. *)
Definition free_inode d (i : Z) : bool := get16 (d dev (IBLOCK i sb)) (ioff i) =? 0.

Definition fresh_inode (i type : Z) : inode := mk_inode dev i 0 0 type 0 0 0 0 (replicate 13 0).

(** The disk after [ialloc] took inode [i]. *)
Definition ialloc_disk d (i type : Z) : disk := put_dinode sb dev d (fresh_inode i type).

Lemma free_inode_type d i : free_inode d i = true → di_type (disk_inode d i) = 0.
Proof.
  unfold free_inode, FsRw.disk_inode, dec_dinode. intros Hf%Z.eqb_eq. cbn [di_type]. by rewrite Hf.
Qed.

Lemma fresh_dinode_ok type : - 2 ^ 15 ≤ type < 2 ^ 15 → dinode_ok (fresh_dinode type).
Proof. intros Ht. split; try done. by repeat (apply Forall_cons; split). Qed.

Lemma ninodes_small : sb_ninodes sb < 2 ^ 31.
Proof.
  destruct Hsb as [G1 G2 G3 G4 G5]. unfold dstart, IPB, BPB, BSIZE in *.
  change (512 * 8) with 4096 in *. change (512 / 64) with 8 in *. zlia.
Qed.

(** The search of [ialloc] from inode [i] on ends at the first free inode. *)
Definition ialloc_ok fs d type (c : res (fsys S * option nat)) : Prop :=
  (∃ i s, 1 ≤ i < sb_ninodes sb ∧ free_inode d i = true ∧ (∀ j, 1 ≤ j < i → free_inode d j = false) ∧
     bl_rep s (ialloc_disk d i type) ∅ ∧
     c = (let* r := iget (set_blk fs s) dev i in Ok (r.1, Some r.2))) ∨
  (∃ s, (∀ j, 1 ≤ j < sb_ninodes sb → free_inode d j = false) ∧ bl_rep s d ∅ ∧
     c = Ok (fprint (set_blk fs s) "ialloc: no inodes", None)).

Lemma ialloc_turn fs d i type :
  fsi fs d → 1 ≤ i < sb_ninodes sb → (∀ j, 1 ≤ j < i → free_inode d j = false) →
  (∃ s, ialloc_step dev type (fs, i) = Ok (inl (set_blk fs s, i + 1)) ∧ bl_rep s d ∅ ∧
     free_inode d i = false) ∨
  (∃ c, ialloc_step dev type (fs, i) = rbind c (λ r, Ok (inr r)) ∧ ialloc_ok fs d type c).
Proof.
  intros Hfs Hi Hpre. pose proof ninodes_small as Hn.
  destruct (inode_block_facts sb Hsb dev Hdev i) as (Hok & _); [lia|].
  unfold ialloc_step. rewrite u32_small, (fi_sb _ _ _ _ _ Hfs) by lia.
  rewrite (proj2 (Z.ltb_lt _ _)) by lia.
  destruct (with_block fs d ∅ dev (IBLOCK i sb)) as (s & b & E & Hdat & _ & _ & Hrel & Hw);
    [apply Hfs | done | apply size_none | intros j y Hy; by rewrite lookup_empty in Hy |].
  rewrite E. cbn [rbind]. change (fdata (set_blk fs s) b) with (bl_data s b). rewrite Hdat.
  change (get16 (d dev (IBLOCK i sb)) (ioff i) =? 0) with (free_inode d i).
  destruct (free_inode d i) eqn:Ef.
  - right. pose proof (bl_sector _ _ _ _ _ (fi_rep _ _ _ _ _ Hfs) Hok) as Hl.
    rewrite put16_zeroed by (rewrite Hl; apply ioff_range).
    destruct (Hw (enc_dinode (d dev (IBLOCK i sb)) (ioff i) (fresh_dinode type))) as (s2 & E2 & Hr2);
      [by rewrite length_enc_dinode|].
    unfold fset, fbwrite. cbn [f_blk set_blk]. rewrite E2. cbn [rbind].
    exists (let* r := iget (set_blk fs (bl_release s2 b)) dev i in Ok (r.1, Some r.2)). split.
    + change (fbrelse _ b) with (set_blk fs (bl_release s2 b)).
      by destruct (iget (set_blk fs (bl_release s2 b)) dev i).
    + left. exists i, (bl_release s2 b). do 3 (split; [done|]). by split.
  - left. exists (bl_release s b). rewrite s32_small by lia. done.
Qed.

Lemma ialloc_spec fs d type : fsi fs d → ialloc_ok fs d type (ialloc fs dev type).
Proof.
  intros Hfs. pose proof ninodes_small as Hn. pose proof (sw_ninodes _ Hsb) as Hn0. unfold ialloc.
  apply (while_out (λ '(fs', i) n, ∃ s, fs' = set_blk fs s ∧ bl_rep s d ∅ ∧ 1 ≤ i ∧
      (n = Z.to_nat (sb_ninodes sb - i)) ∧ (i ≤ sb_ninodes sb ∨ i = 1) ∧
      ∀ j, 1 ≤ j < i → free_inode d j = false) _ _ _ _ (Z.to_nat (sb_ninodes sb - 1))).
  - intros [fs' i] n (s & -> & Hr & Hi & -> & Hle & Hpre).
    destruct (decide (i < sb_ninodes sb)) as [Hlt|Hge].
    + destruct (ialloc_turn (set_blk fs s) d i type) as [(s' & E & Hr' & Hf) | (c & E & Hc)];
        [split; try done; apply Hfs | lia | done | left | right; by exists c].
      rewrite E. eexists _, _. split; [reflexivity|]. split; [|instantiate (1 := Z.to_nat (sb_ninodes sb - (i + 1))); lia].
      exists s'. split; [done|]. split; [done|]. split; [lia|]. split; [done|]. split; [lia|].
      intros j Hj. destruct (decide (j = i)) as [->|]; [done|]. apply Hpre. lia.
    + right. unfold ialloc_step. rewrite (fi_sb _ _ _ _ _ Hfs : f_sb (set_blk fs s) = sb).
      rewrite u32_small by lia. rewrite (proj2 (Z.ltb_ge _ _)) by lia.
      eexists (Ok _). split; [reflexivity|]. right. exists s. split; [|done].
      intros j Hj. apply Hpre. lia.
  - exists (f_blk fs). split; [by destruct fs|]. split; [apply Hfs|]. split; [lia|].
    split; [done|]. split; [by right|]. lia.
  - lia.
Qed.

(** * The slot for the new inode *)

(** The inodes in use have their type on the disk. *)
Definition live d (ic : list inode) : Prop :=
  ∀ j y, ic !! j = Some y → 0 < i_ref y → i_dev y = dev → free_inode d (i_inum y) = false.

(** What taking an inode needs of the cache: a slot, and no count at its limit. *)
Record icache_room d (ic : list inode) : Prop := {
  ir_ok : icache_ok ic;
  ir_max : ∀ j y, ic !! j = Some y → i_ref y < 2 ^ 31 - 1;
  ir_slot : Exists unused ic;
  ir_live : live d ic
}.

Definition first_free d (i : Z) : Prop :=
  1 ≤ i < sb_ninodes sb ∧ free_inode d i = true ∧ ∀ j, 1 ≤ j < i → free_inode d j = false.

Lemma ialloc_slot fs d type i0 :
  fsi fs d → icache_room d (icache fs) → 1 ≤ i0 < sb_ninodes sb → free_inode d i0 = true →
  ∃ i s ip y, first_free d i ∧
    ialloc fs dev type = Ok (put_inode (set_blk fs s) ip y, Some ip) ∧
    fsi (put_inode (set_blk fs s) ip y) (ialloc_disk d i type) ∧
    (ip < length (icache fs))%nat ∧ unused (inodep fs ip) ∧
    i_dev y = dev ∧ i_inum y = i ∧ i_ref y = 1 ∧ i_valid y = 0.
Proof.
  intros Hfs [Hok Hmax Hslot Hlive] Hi0 Hf0.
  destruct (ialloc_spec fs d type Hfs) as [(i & s & Hi & Hf & Hmin & Hr & E) | (s & Hno & _)];
    [|by rewrite Hno in Hf0].
  pose proof (iget_spec (set_blk fs s) dev i Hok Hmax) as Hg. rewrite decide_True in Hg.
  2: { apply Exists_exists in Hslot as (y & Hy & Hu). apply Exists_exists. eauto. }
  destruct Hg as ([fs1 ip] & Eg & _ & Hip & Huse & (f & Ef) & Hcase).
  rewrite Eg in E. cbn [rbind fst snd] in E.
  assert ((ip < length (icache fs))%nat) as Hip0
    by (rewrite Ef in Hip; cbn in Hip; by rewrite length_alter in Hip).
  rewrite (put_inode_upd (set_blk fs s) ip f Hip0) in Ef.
  set (y := f (inodep (set_blk fs s) ip)) in *.
  assert (inodep fs1 ip = y) as Ey by (rewrite Ef; by apply inodep_put).
  rewrite Ey in Huse, Hcase. destruct Huse as (_ & H2 & H3).
  destruct Hcase as [((Hu & Hd & Hn) & _) | (Hu & H4 & H5 & _)].
  - exfalso. change (inodep (set_blk fs s) ip) with (inodep fs ip) in *.
    apply lookup_lt_is_Some_2 in Hip0 as (z & Hz). rewrite (inodep_lookup _ _ _ Hz) in *.
    rewrite <- Hn, (Hlive _ _ Hz Hu Hd) in Hf. discriminate.
  - exists i, s, ip, y. split; [done|]. rewrite <- Ef. split; [done|]. split; [|done].
    rewrite Ef. by apply (put_dinode_fsi sb Hsb dev Hdev fs d); [| cbn; lia |].
Qed.

(** The inode of a file that was just created. *)
Definition new_inode (i type major minor nlink : Z) : inode :=
  mk_inode dev i 1 1 type major minor nlink 0 (replicate 13 0).

Lemma disk_inode_fresh fs d i type j :
  fsi fs d → - 2 ^ 15 ≤ type < 2 ^ 15 → 0 ≤ i < sb_ninodes sb → 0 ≤ j < sb_ninodes sb →
  disk_inode (ialloc_disk d i type) j = if decide (j = i) then fresh_dinode type else disk_inode d j.
Proof.
  intros Hfs Ht Hi Hj. unfold ialloc_disk. rewrite (disk_inode_put sb Hsb dev); [done | done | done | |].
  - apply (bl_sector _ _ _ _ _ (fi_rep _ _ _ _ _ Hfs)). by apply (inode_block_facts sb Hsb dev Hdev).
  - by apply (fresh_dinode_ok type).
Qed.

Lemma ilock_fresh fs d ip type i :
  let y := inodep fs ip in
  fsi fs d → (ip < length (icache fs))%nat → i_dev y = dev → i_inum y = i → i_ref y = 1 →
  i_valid y = 0 → 0 ≤ i < sb_ninodes sb → disk_inode d i = fresh_dinode type → type ≠ 0 →
  ∃ s, ilock fs ip = Ok (put_inode (set_blk fs s) ip (new_inode i type 0 0 0)) ∧ bl_rep s d ∅.
Proof.
  intros y Hfs Hip Hyd Hyi Hyr Hyv Hi Ed Ht.
  destruct (ilock_spec sb Hsb dev Hdev fs d ip Hfs Hip) as (s & E & Hr); fold y; rewrite ?Hyi;
    [done | done | lia | done | by rewrite Ed |].
  exists s. split; [|done]. rewrite E. fold y. rewrite Hyi, Ed. do 2 f_equal.
  unfold set_valid, load_dinode, new_inode, fresh_dinode. cbn. by rewrite Hyd, Hyi, Hyr.
Qed.

(** A file without blocks. *)
Lemma empty_file_wf d x :
  i_dev x = dev → 0 ≤ i_inum x < sb_ninodes sb → i_addrs x = replicate 13 0 → i_size x = 0 →
  file_wf sb dev d x ∧ no_holes dev d x ∧ ∀ b, ¬ own dev d x b.
Proof.
  intros Ex Hi Ea Es.
  assert (∀ bn, 0 ≤ bn < NBLK → blk_addr dev d x bn = 0) as Hb.
  { intros bn Hbn. unfold blk_addr, ind_of. rewrite Ea. destruct (Z.ltb_spec bn NDIRECT); [|done].
    unfold zget. apply list_lookup_total_correct, lookup_replicate. unfold NDIRECT in *. lia. }
  assert (ind_of x = 0) as Ei by (unfold ind_of; by rewrite Ea).
  assert (∀ b, ¬ own dev d x b) as Ho.
  { intros b (Hn & [E | (bn & Hbn & E)]); [congruence|]. rewrite Hb in E by done. congruence. }
  split; [|split; [|done]].
  - split; try done; [by rewrite Ea | rewrite Es; done | |].
    + intros b Hob. by destruct (Ho b).
    + intros bn bn' Hbn _ Hn. by rewrite Hb in Hn.
  - intros bn Hbn Hlt. rewrite Es in Hlt. unfold BSIZE in Hlt. lia.
Qed.

(** Writing an inode leaves a directory as it was. *)
Lemma put_dinode_dir d x y :
  dir_ok sb dev d x → 0 ≤ i_inum y < sb_ninodes sb →
  let d' := put_dinode sb dev d y in
  dir_ok sb dev d' x ∧ (∀ k, (k < nents x)%nat → dirent dev d' x k = dirent dev d x k).
Proof.
  intros [Hwf Hnh Hty Hsz] Hy d'.
  destruct (put_dinode_file sb Hsb dev Hdev d y x Hy Hwf) as (Hwf' & Hby). fold d' in Hwf', Hby.
  split.
  - split; [done | | done | done]. intros bn H1 H2. unfold d'.
    rewrite (put_dinode_addr sb Hsb dev Hdev); [by apply Hnh | done |].
    intros b Hb. by apply (fw_own _ _ _ _ Hwf).
  - intros k Hk. pose proof (fw_size _ _ _ _ Hwf) as Hs. change (MAXFILE * BSIZE) with 71680 in Hs.
    assert (16 * Z.of_nat k + 16 ≤ i_size x) by (unfold nents in Hk; zlia). unfold dirent, file_bytes. apply list_fmap_ext.
    intros i j Hj%lookup_seq. apply Hby. change (NBLK * BSIZE) with 71680. lia.
Qed.

Lemma dir_ext d d' x :
  (∀ k, (k < nents x)%nat → dirent dev d' x k = dirent dev d x k) →
  free_entry dev d' x = free_entry dev d x ∧ ∀ name, dir_get dev d' x name = dir_get dev d x name.
Proof.
  intros He. split.
  - unfold free_entry. f_equal. apply find_seq_ext. intros j Hj. unfold empty_entry. by rewrite He by lia.
  - intros name. unfold dir_get.
    rewrite (find_seq_ext (Q := λ k, names name (dirent dev d x k))) by (intros j Hj; by rewrite He by lia).
    destruct (List.find _ _) as [j|] eqn:E; [|done]. cbn [fmap option_fmap option_map]. apply find_seq_first in E as (Hj & _).
    by rewrite He by lia.
Qed.
End ialloc.
