(* ===== verification/FsPath.v ===== *)
(** fs/fs.c: path resolution.  [skipelem] takes the components of a path one by
    one, and [namex] is a walk along them. *)
From S2P Require Import Prelude LibC Ports Ide Block Bio FsLayout Fs FsDir FsBlocks FsFile FsRw FsProps FsDirProps FsTrunc.

(** * The components of a path *)

Definition flush (cur : list Z) : list (list Z) := match cur with [] => [] | _ => [cur] end.

(** The maximal runs of characters other than '/', up to the terminating 0;
    [cur] is the run being read. *)
Fixpoint elems_from (cur path : list Z) : list (list Z) :=
  match path with
  | [] => flush cur
  | c :: path' =>
      if c =? 0 then flush cur
      else if c =? SLASH then flush cur ++ elems_from [] path'
      else elems_from (cur ++ [c]) path'
  end.

Definition elems (path : list Z) : list (list Z) := elems_from [] path.

(** The name buffer after a component was stored to it: cut to [DIRSIZ]
    characters, terminated when it is shorter. *)
Definition put_name (name e : list Z) : list Z :=
  if (DIRSIZ <=? length e)%nat then splice name 0 (take DIRSIZ e)
  else splice (splice name 0 e) (length e) [0].

Section path.
Implicit Types (path name e : list Z).

Lemma elems_skip path : elems (skip_slashes path) = elems path.
Proof.
  unfold elems. induction path as [|c path IH]; [done|]. cbn [skip_slashes].
  destruct (Z.eqb_spec c SLASH) as [->|]; [|done]. rewrite IH. done.
Qed.

Lemma elems_span cur path s rest :
  span_elem path = (s, rest) → elems_from cur path = flush (cur ++ s) ++ elems rest.
Proof.
  revert cur s rest. induction path as [|c path IH]; intros cur s rest; cbn [span_elem].
  - intros [= <- <-]. by rewrite !app_nil_r.
  - destruct (Z.eqb_spec c SLASH) as [->|Hs]; cbn [orb].
    { intros [= <- <-]. rewrite app_nil_r. done. }
    destruct (Z.eqb_spec c 0) as [->|H0].
    { intros [= <- <-]. rewrite app_nil_r. unfold elems. cbn. by rewrite app_nil_r. }
    destruct (span_elem path) as [s' rest'] eqn:E. intros [= <- <-]. cbn [elems_from].
    rewrite (proj2 (Z.eqb_neq _ _)), (proj2 (Z.eqb_neq c SLASH)) by done.
    rewrite (IH _ s' rest') by done. by rewrite <- app_assoc.
Qed.

Lemma skip_slashes_head path : head (skip_slashes path) ≠ Some SLASH.
Proof.
  induction path as [|c path IH]; [done|]. cbn [skip_slashes].
  destruct (Z.eqb_spec c SLASH); [done|]. simpl. congruence.
Qed.

Lemma length_skip_slashes path : (length (skip_slashes path) ≤ length path)%nat.
Proof.
  induction path as [|c path IH]; [done|]. cbn [skip_slashes].
  destruct (c =? SLASH); simpl; lia.
Qed.

Lemma length_span path s rest :
  span_elem path = (s, rest) → (length s + length rest)%nat = length path.
Proof.
  revert s rest. induction path as [|c path IH]; intros s rest; cbn [span_elem].
  - by intros [= <- <-].
  - destruct ((c =? SLASH) || (c =? 0)); [by intros [= <- <-]|].
    destruct (span_elem path) as [s' rest'] eqn:E. intros [= <- <-]. simpl.
    by rewrite (IH s' rest').
Qed.

(** A path without leading slashes is at its end exactly when it has no
    component left. *)
Lemma at_end_elems path : head path ≠ Some SLASH → at_end path = true ↔ elems path = [].
Proof.
  destruct path as [|c path]; [done|]. simpl. intros Hc. unfold elems. cbn [elems_from].
  destruct (Z.eqb_spec c 0) as [->|H0]; [done|].
  rewrite (proj2 (Z.eqb_neq c SLASH)) by congruence. cbn [app].
  split; [done|]. intros E. exfalso. destruct (span_elem path) as [s rest] eqn:Es.
  rewrite (elems_span [c] path s rest Es) in E. done.
Qed.

(** [skipelem] takes the first component. *)
Lemma skipelem_elems path name :
  match elems path with
  | [] => skipelem path name = None
  | e :: es =>
      ∃ rest, skipelem path name = Some (rest, put_name name e) ∧ elems rest = es ∧
        head rest ≠ Some SLASH ∧ (length rest < length path)%nat
  end.
Proof.
  unfold skipelem. rewrite <- elems_skip. set (p := skip_slashes path).
  pose proof (skip_slashes_head path) as Hh. fold p in Hh.
  pose proof (length_skip_slashes path) as Hlen. fold p in Hlen.
  destruct (at_end p) eqn:Eend.
  - apply (at_end_elems p Hh) in Eend. by rewrite Eend.
  - destruct (span_elem p) as [s rest] eqn:Es.
    assert (s ≠ []) as Hs.
    { destruct p as [|c p']; [done|]. simpl in Hh, Eend, Es.
      rewrite Eend, (proj2 (Z.eqb_neq c SLASH)) in Es by congruence. cbn in Es.
      destruct (span_elem p'). by injection Es as <- <-. }
    unfold elems. rewrite (elems_span [] p s rest Es). cbn [app].
    destruct s as [|c s]; [done|]. cbn [flush app].
    exists (skip_slashes rest). split; [done|]. split; [apply elems_skip|].
    split; [apply skip_slashes_head|].
    pose proof (length_skip_slashes rest). apply length_span in Es. simpl in Es. lia.
Qed.
End path.

(** * Names in buffers *)

(** A name before its terminating 0. *)
Definition clean (e : list Z) : Prop := Forall (λ c, c ≠ 0) e.

Lemma elems_from_clean cur path : clean cur → Forall clean (elems_from cur path).
Proof.
  assert (∀ c, clean c → Forall clean (flush c)) as Hf by (intros [|??] Hc; [constructor | by constructor]).
  revert cur. induction path as [|c path IH]; intros cur Hc; cbn [elems_from]; [by apply Hf|].
  destruct (Z.eqb_spec c 0); [by apply Hf|]. destruct (c =? SLASH).
  - apply Forall_app. split; [by apply Hf | by apply IH; constructor].
  - apply IH, Forall_app. split; [done | by repeat constructor].
Qed.

Lemma elems_clean path : Forall clean (elems path).
Proof. apply elems_from_clean. constructor. Qed.

Lemma length_put_name junk e : length junk = DIRSIZ → length (put_name junk e) = DIRSIZ.
Proof. intros Hj. unfold put_name, splice. case_match; by rewrite ?length_inserts. Qed.

Lemma strncpy_S c t n :
  strncpy_bytes (c :: t) (S n) = if c =? 0 then replicate (S n) 0 else c :: strncpy_bytes t n.
Proof. done. Qed.

Lemma strncpy_idem t n : strncpy_bytes (strncpy_bytes t n) n = strncpy_bytes t n.
Proof.
  assert (∀ k, strncpy_bytes (replicate k 0) k = replicate k 0) as Hz by (by intros [|k]).
  revert t. induction n as [|n IH]; intros [|c t]; try done.
  rewrite strncpy_S. destruct (Z.eqb_spec c 0) as [->|Hc]; [done|].
  rewrite strncpy_S, (proj2 (Z.eqb_neq c 0)) by done. by rewrite IH.
Qed.

Lemma strncpy_take e n : strncpy_bytes (take n e) n = strncpy_bytes e n.
Proof.
  revert e. induction n as [|n IH]; intros [|c e]; cbn; try done. destruct (c =? 0); [done|]. by rewrite IH.
Qed.

(** What follows the terminating 0 does not count. *)
Lemma strncpy_cut e r n : clean e → strncpy_bytes (e ++ 0 :: r) n = strncpy_bytes e n.
Proof.
  intros He. revert n. induction He as [|c e Hc He IH]; intros [|n]; try done.
  cbn [app]. rewrite !strncpy_S, (proj2 (Z.eqb_neq c 0)) by done. by rewrite IH.
Qed.

(** [strncmp] compares names as far as their terminating 0. *)
Lemma strncmp_names p q n :
  (n ≤ length p)%nat → (n ≤ length q)%nat →
  strncmp_bytes p q n = 0 ↔ strncpy_bytes p n = strncpy_bytes q n.
Proof.
  revert p q. induction n as [|n IH]; intros [|a p] [|b q] Hp Hq; try done; try (cbn in *; lia).
  cbn [strncmp_bytes]. rewrite !strncpy_S.
  destruct (Z.eqb_spec a 0) as [->|Ha], (Z.eqb_spec b 0) as [->|Hb]; cbn [negb andb].
  - done.
  - split; [lia | intros [= E]; lia].
  - rewrite (proj2 (Z.eqb_neq a 0)) by done. split; [lia | intros [= E]; lia].
  - destruct (Z.eqb_spec a b) as [->|Hn]; [|split; [lia | congruence]].
    rewrite IH by (cbn in *; lia). split; [by intros -> | by intros [= ->]].
Qed.

Lemma splice_end l l' bs bs' off :
  off = length l → length bs = length bs' → splice (l ++ bs ++ l') off bs' = l ++ bs' ++ l'.
Proof.
  intros -> Hl. unfold splice. apply list_eq. intros i.
  destruct (decide (i < length l)%nat); [|destruct (decide (i < length l + length bs')%nat)].
  - rewrite list_lookup_inserts_lt by lia. by rewrite !lookup_app_l by done.
  - rewrite list_lookup_inserts by (rewrite ?length_app; lia).
    rewrite lookup_app_r by lia. by rewrite lookup_app_l by lia.
  - rewrite list_lookup_inserts_ge by lia. rewrite !lookup_app_r by lia. by rewrite Hl.
Qed.

(** The name buffer holds the name. *)
Lemma strncpy_put_name junk e :
  clean e → length junk = DIRSIZ → strncpy_bytes (put_name junk e) DIRSIZ = strncpy_bytes e DIRSIZ.
Proof.
  intros He Hj. unfold put_name. destruct (Nat.leb_spec DIRSIZ (length e)) as [Hl|Hl].
  - rewrite splice_0 by (rewrite length_take; lia).
    rewrite drop_ge, app_nil_r by (rewrite length_take; lia). apply strncpy_take.
  - rewrite splice_0 by lia. destruct (drop (length e) junk) as [|c r] eqn:E.
    { apply (f_equal length) in E. rewrite length_drop in E. cbn in E. lia. }
    change (c :: r) with ([c] ++ r). rewrite (splice_end e r [c] [0]) by done. by apply strncpy_cut.
Qed.

(** * namex as a walk *)

Section walk.
Context {S : Type} `{BlockOps S}.
Implicit Types (fs : fsys S) (ip : nat) (name : list Z).

(** From the inode [ip], along the components [es]. *)
Fixpoint namex_walk (parent : bool) fs ip (es : list (list Z)) name
  : res (fsys S * option nat * list Z) :=
  match es with
  | [] => if parent then let* fs := iput fs ip in Ok (fs, None, name) else Ok (fs, Some ip, name)
  | e :: es' =>
      let name := put_name name e in
      let* fs := ilock fs ip in
      if negb (i_type (inodep fs ip) =? T_DIR) then
        let* fs := iunlockput fs ip in Ok (fs, None, name)
      else if parent && (match es' with [] => true | _ => false end) then
        Ok (iunlock fs ip, Some ip, name)
      else
        let* r := dirlookup fs ip name in
        match r.2 with
        | None => let* fs := iunlockput r.1 ip in Ok (fs, None, name)
        | Some (next, _) =>
            let* fs := iunlockput r.1 ip in namex_walk parent fs next es' name
        end
  end.

Lemma while_step {A R : Type} p (f : A → res (A + R)) s :
  (1 < p)%positive →
  while p f s =
    (let* r := f s in match r with inl s' => while (Pos.pred p) f s' | inr x => Ok x end).
Proof.
  intros Hp. unfold while. rewrite !repeatM_steps.
  replace (Pos.to_nat p) with (1 + Pos.to_nat (Pos.pred p))%nat by lia.
  rewrite stepsM_add, stepsM_1. destruct (f s) as [[s'|x]| |]; cbn; try done.
  by rewrite repeatM_steps.
Qed.

Lemma namex_loop parent fs ip path name (p : positive) :
  (Z.of_nat (length path) < Z.pos p) →
  while p (namex_step parent) (fs, ip, path, name) = namex_walk parent fs ip (elems path) name.
Proof.
  revert fs ip path name. induction p as [|p IH] using Pos.peano_ind; intros fs ip path name Hp.
  - destruct path; simpl in Hp; [|lia]. unfold while, repeatM. unfold namex_step.
    cbn [skipelem skip_slashes at_end elems elems_from flush namex_walk].
    destruct parent; [|done]. by destruct (iput fs ip).
  - rewrite while_step by lia. rewrite Pos.pred_succ. unfold namex_step at 1.
    pose proof (skipelem_elems path name) as Hs. destruct (elems path) as [|e es].
    + rewrite Hs. cbn [namex_walk]. destruct parent; [|done]. by destruct (iput fs ip).
    + destruct Hs as (rest & -> & He & Hh & Hlen). cbn [namex_walk].
      destruct (ilock fs ip) as [fs1| |]; cbn [rbind]; [|done|done].
      destruct (negb (i_type (inodep fs1 ip) =? T_DIR)).
      { by destruct (iunlockput fs1 ip). }
      assert (at_end rest = match es with [] => true | _ => false end) as ->.
      { destruct (at_end rest) eqn:E.
        - apply at_end_elems in E; [|done]. by rewrite E in He; subst.
        - destruct es; [|done]. apply at_end_elems in He; [|done]. congruence. }
      destruct (parent && _); [done|].
      destruct (dirlookup fs1 ip (put_name name e)) as [[fs2 o]| |]; cbn [rbind fst snd]; [|done|done].
      destruct o as [[next off]|].
      * destruct (iunlockput fs2 ip); cbn [rbind]; [|done|done].
        rewrite IH by lia. by rewrite He.
      * by destruct (iunlockput fs2 ip).
Qed.

Lemma namex_spec fs cwd path parent name :
  Z.of_nat (length path) < 2 ^ 32 →
  namex fs cwd path parent name =
    (let* r := (match path with
                | c :: _ => if c =? SLASH then iget fs ROOTDEV ROOTINO else Ok (idup fs cwd)
                | [] => Ok (idup fs cwd)
                end) in
     namex_walk parent r.1 r.2 (elems path) name).
Proof.
  intros Hlen. unfold namex.
  replace (if negb (at_end path) && (zget path 0 =? SLASH) then iget fs ROOTDEV ROOTINO
    else Ok (idup fs cwd)) with
    (match path with
     | c :: _ => if c =? SLASH then iget fs ROOTDEV ROOTINO else Ok (idup fs cwd)
     | [] => Ok (idup fs cwd)
     end).
  - destruct (match path with [] => _ | _ => _ end) as [[fs1 ip]| |]; cbn [rbind fst snd]; [|done|done].
    by apply namex_loop.
  - destruct path as [|c path]; [done|]. cbn [at_end]. change (zget (c :: path) 0) with c.
    destruct (Z.eqb_spec c SLASH) as [->|]; [done|]. by rewrite andb_false_r.
Qed.

(** Path resolution terminates and is a walk along the components of the
    path: from the root when the path is absolute, else from the current
    directory, one [dirlookup] per component, stopping early at a file that is
    not a directory, at a name that is not found and, for [nameiparent], before
    the last component. *)
Theorem namex_walks fs cwd path parent name :
  Z.of_nat (length path) < 2 ^ 32 →
  namex fs cwd path parent name =
    (let* r := (match path with
                | c :: _ => if c =? SLASH then iget fs ROOTDEV ROOTINO else Ok (idup fs cwd)
                | [] => Ok (idup fs cwd)
                end) in
     namex_walk parent r.1 r.2 (elems path) name).
Proof. apply namex_spec. Qed.
End walk.

Section here.
Context {S : Type} `{BlockLayer S}.
Context (sb : superblock) (Hsb : sb_wf sb) (dev : Z) (Hdev : 0 ≤ dev < 2).
Implicit Types (fs : fsys S) (d : disk) (x : inode) (ip dp : nat).

(** A relative path of one component that the current directory binds: [namei]
  gets the inode, with the directory in use once more meanwhile. *)
Lemma namei_here fs d dp path junk e inum :
let x := inodep fs dp in
fsi sb dev fs d → (dp < length (icache fs))%nat → dir_ok sb dev d x →
1 ≤ i_ref x < 2 ^ 31 - 1 → i_valid x ≠ 0 →
head path ≠ Some SLASH → elems path = [e] → Z.of_nat (length path) < 2 ^ 32 →
dir_get dev d x (put_name junk e) = Some inum →
let fs1 := put_inode fs dp (set_ref x (i_ref x + 1)) in
∃ s, bl_rep s d ∅ ∧
  namei fs dp path junk =
    (let* r := iget (set_blk fs1 s) dev inum in let* fs2 := iunlockput r.1 dp in Ok (fs2, Some r.2)).
Proof.
intros x Hfs Hdp Hdir Hr Hv Hh He Hlen Hget fs1.
assert (inodep fs1 dp = set_ref x (i_ref x + 1)) as E1 by (by apply inodep_put).
assert (dir_ok sb dev d (inodep fs1 dp)) as Hdir1.
{ rewrite E1. destruct Hdir as [D1 D2 D3 D4]. split; [|done..]. by destruct D1; split. }
assert (fsi sb dev fs1 d) as Hfs1 by (split; apply Hfs).
destruct (dirlookup_spec sb Hsb dev Hdev fs1 d dp (put_name junk e) Hfs1 Hdir1) as (s & Ed & Hrep).
exists s. split; [done|]. unfold namei. rewrite namex_spec by done.
assert (match path with c :: _ => if c =? SLASH then iget fs ROOTDEV ROOTINO else Ok (idup fs dp) | [] => Ok (idup fs dp) end
  = Ok (fs1, dp)) as ->.
{ assert (idup fs dp = (fs1, dp)) as ->.
  { unfold idup. rewrite put_inode_upd by done. fold x. by rewrite s32_small by lia. }
  destruct path as [|c path]; [done|]. rewrite (proj2 (Z.eqb_neq c SLASH)); [done|]. intros ->. by apply Hh. }
cbn [rbind fst snd]. rewrite He. cbn [namex_walk andb].
rewrite ilock_valid by (rewrite E1; cbn; done || lia). cbn [rbind]. rewrite E1.
rewrite (dr_type _ _ _ _ Hdir : i_type (set_ref x _) = T_DIR). cbn [Z.eqb T_DIR Pos.eqb negb].
rewrite Ed. unfold lookup_result, found_entry. rewrite E1.
unfold dir_get in Hget. change (nents (set_ref x (i_ref x + 1))) with (nents x).
change (dirent dev d (set_ref x (i_ref x + 1))) with (dirent dev d x).
destruct (List.find _ _) as [k|]; [|done]. injection Hget as <-.
destruct (iget _ dev _) as [[fs2 ip]| |]; [|done..]. cbn [rbind fst snd].
by destruct (iunlockput fs2 dp).
Qed.
End here.

(** [skipelem] splits off the first component of a path, whatever slashes
    surround it, and stores it to the name buffer, cut to 14 characters. *)
Theorem skipelem_first path name :
  match elems path with
  | [] => skipelem path name = None
  | e :: es =>
      ∃ rest, skipelem path name = Some (rest, put_name name e) ∧ elems rest = es
  end.
Proof.
  pose proof (skipelem_elems path name) as Hs. destruct (elems path); [done|].
  destruct Hs as (rest & E & He & _). by exists rest.
Qed.

(** The path "/./.." in the concrete directory. *)
Definition dots : list Z := [47; 46; 47; 46; 46; 0].

Lemma namex_walks_witness :
  elems dots = [[46]; [46; 46]] ∧
  ∃ fs' name, namex fsdir 0 dots false (replicate 14 0) = Ok (fs', Some 0%nat, name).
Proof.
  split; [reflexivity|].
  assert (∃ r, namex fsdir 0 dots false (replicate 14 0) = Ok r ∧ r.1.2 = Some 0%nat) as ([[fs' o] name] & E & Eo).
  2: { exists fs', name. cbn in Eo. rewrite <- Eo. exact E. }
  rewrite (namex_walks fsdir 0 dots false (replicate 14 0) ltac:(vm_compute; reflexivity)).
  match goal with |- ∃ r, ?c = Ok r ∧ _ =>
    assert (match c with Ok r => r.1.2 = Some 0%nat | _ => False end) as Hc by (vm_compute; reflexivity);
    destruct c as [r| |]; [exists r; by split | done | done] end.
Defined.
