(* ===== verification/FsTree.v ===== *)
(** fs/fs.c: path names against the tree of directories on the disk.  [resolve]
    follows the components of a path on the disk alone; [namei] and
    [nameiparent], which go through the inode cache and count the users of every
    inode on the way, refine it. *)
From stdpp Require Import gmultiset.
From S2P Require Import Prelude LibC Ports Ide Block Bio FsLayout Fs FsDir FsBlocks FsFile FsRw FsProps FsIcache FsDirProps FsTrunc FsPath.

Section tree.
Context (sb : superblock) (dev : Z).
Implicit Types (d : disk) (i r : Z) (hs : gmultiset nat) (ic : list inode).
#[local] Abbreviation disk_inode := (disk_inode sb dev).

(** Inode [i] as [ilock] loads it, with [r] users. *)
Definition node d i r : inode :=
  let di := disk_inode d i in
  mk_inode dev i r 1 (di_type di) (di_major di) (di_minor di) (di_nlink di) (di_size di) (di_addrs di).

Definition linked d i : Prop :=
  0 ≤ i < sb_ninodes sb ∧ di_type (disk_inode d i) ≠ 0 ∧ di_nlink (disk_inode d i) ≠ 0.
Definition is_dir d i : bool := di_type (disk_inode d i) =? T_DIR.

(** The files in use are well formed and share no block, and directories only
    name files in use. *)
Record tree_ok d : Prop := {
  tr_wf : ∀ i, linked d i → file_wf sb dev d (node d i 0);
  tr_full : ∀ i, linked d i → no_holes dev d (node d i 0);
  tr_size : ∀ i, linked d i → is_dir d i = true → di_size (disk_inode d i) mod 16 = 0;
  tr_entry : ∀ i k, linked d i → is_dir d i = true → (k < nents (node d i 0))%nat →
    de_inum (dirent dev d (node d i 0) k) ≠ 0 → linked d (de_inum (dirent dev d (node d i 0) k));
  tr_apart : ∀ i j b, linked d i → linked d j → i ≠ j → own dev d (node d i 0) b → ¬ own dev d (node d j 0) b
}.

(** The files in use hold bytes. *)
Definition files_bytes d : Prop := ∀ i q, linked d i → 0 ≤ q < di_size (disk_inode d i) →
  0 ≤ file_byte dev d (node d i 0) q < 256.

(** The inode that a name is bound to in the directory [i]. *)
Definition child d i (e : list Z) : option Z :=
  if is_dir d i then dir_get dev d (node d i 0) (strncpy_bytes e DIRSIZ) else None.

(** The inode that a path leads to from [i]. *)
Fixpoint resolve d i (es : list (list Z)) : option Z :=
  match es with
  | [] => Some i
  | e :: es' => match child d i e with Some n => resolve d n es' | None => None end
  end.

(** The directory that the last component of a path is looked up in. *)
Fixpoint resolve_parent d i (es : list (list Z)) : option Z :=
  match es with
  | [] => None
  | [_] => if is_dir d i then Some i else None
  | e :: es' => match child d i e with Some n => resolve_parent d n es' | None => None end
  end.

Lemma resolve_app d i es es' :
  resolve d i (es ++ es') = match resolve d i es with Some n => resolve d n es' | None => None end.
Proof. revert i. induction es as [|e es IH]; intros i; [done|]. cbn. destruct (child d i e); auto. Qed.

(** A path leads to what its last name is bound to in its parent. *)
Lemma resolve_parent_last d i es e :
  resolve d i (es ++ [e]) = match resolve_parent d i (es ++ [e]) with Some n => child d n e | None => None end.
Proof.
  revert i. induction es as [|c es IH]; intros i; cbn.
  - unfold child. destruct (is_dir d i) eqn:Ed; [|done]. rewrite Ed. by destruct (dir_get _ _ _ _).
  - destruct (es ++ [e]) eqn:E; [by destruct es|]. destruct (child d i c); [apply IH | done].
Qed.

Lemma resolve_parent_dir d i es n : resolve_parent d i es = Some n → is_dir d n = true.
Proof.
  revert i. induction es as [|e es IH]; intros i; [done|]. cbn [resolve_parent]. destruct es.
  - destruct (is_dir d i) eqn:Ed; [by intros [= <-] | done].
  - destruct (child d i e); [apply IH | done].
Qed.

(** * The inode cache *)

(** The inodes in use are files of the disk, and what the cache says of those
    that were read agrees with the disk. *)
Record synced d ic : Prop := {
  sy_ok : icache_ok ic;
  sy_slot : ∀ j, (j < length ic)%nat → let x := ic !!! j in 0 < i_ref x →
    i_dev x = dev ∧ linked d (i_inum x) ∧ (i_valid x = 0 ∨ x = node d (i_inum x) (i_ref x))
}.

(** The cache [ic] is [ic0] with the slots [hs] in use once more each. *)
Record held ic0 hs ic : Prop := {
  he_len : length ic = length ic0;
  he_ref : ∀ j, (j < length ic0)%nat →
    i_ref (ic !!! j) = i_ref (ic0 !!! j) + Z.of_nat (multiplicity j hs);
  he_same : ∀ j, (j < length ic0)%nat → 0 < i_ref (ic0 !!! j) →
    i_inum (ic !!! j) = i_inum (ic0 !!! j) ∧ (i_valid (ic0 !!! j) ≠ 0 → i_valid (ic !!! j) ≠ 0)
}.

(** Two slots are free and no count is near its limit. *)
Record roomy ic : Prop := {
  ro_slots : ∃ j1 j2, j1 ≠ j2 ∧ (j1 < length ic)%nat ∧ (j2 < length ic)%nat ∧
    unused (ic !!! j1) ∧ unused (ic !!! j2);
  ro_refs : ∀ j, (j < length ic)%nat → 0 ≤ i_ref (ic !!! j) < 2 ^ 31 - 4
}.

Lemma held_refl ic : held ic ∅ ic.
Proof. split; [done | | done]. intros j _. rewrite multiplicity_empty. lia. Qed.

Lemma held_put ic0 hs hs' ic j y :
  held ic0 hs ic → (j < length ic0)%nat → (∀ k, k ≠ j → multiplicity k hs' = multiplicity k hs) →
  i_ref y = i_ref (ic0 !!! j) + Z.of_nat (multiplicity j hs') →
  (0 < i_ref (ic0 !!! j) → i_inum y = i_inum (ic0 !!! j) ∧ (i_valid (ic0 !!! j) ≠ 0 → i_valid y ≠ 0)) →
  held ic0 hs' (<[j := y]> ic).
Proof.
  intros [L R I] Hj Hm Hr Hi. split; [by rewrite length_insert | |].
  - intros k Hk. destruct (decide (k = j)) as [->|Hne]; [by rewrite list_lookup_total_insert_eq by lia|].
    rewrite list_lookup_total_insert_ne by done. by rewrite R, Hm.
  - intros k Hk. destruct (decide (k = j)) as [->|Hne]; [by rewrite list_lookup_total_insert_eq by lia|].
    rewrite list_lookup_total_insert_ne by done. by apply I.
Qed.

Lemma synced_put d ic j y :
  synced d ic → (j < length ic)%nat → 0 ≤ i_ref y < 2 ^ 31 →
  (0 < i_ref y → i_dev y = dev ∧ linked d (i_inum y) ∧ (i_valid y = 0 ∨ y = node d (i_inum y) (i_ref y))) →
  (∀ k x, ic !! k = Some x → k ≠ j → 0 < i_ref y → ¬ in_use dev (i_inum y) x) →
  synced d (<[j := y]> ic).
Proof.
  intros [Ho Hs] Hj Hr Hy Hne. split.
  - destruct (lookup_lt_is_Some_2 ic j Hj) as (x & Hx).
    replace (<[j := y]> ic) with (alter (λ _, y) j ic).
    2: { apply list_eq. intros k. rewrite list_lookup_alter. case_decide as E; [subst|].
         - by rewrite Hx, list_lookup_insert_eq by done.
         - by rewrite list_lookup_insert_ne by done. }
    apply icache_ok_alter with x; [done..|]. intros k z Hz Hk Hp.
    destruct (Hy Hp) as (-> & _). by apply (Hne k z).
  - intros k Hk. rewrite length_insert in Hk. destruct (decide (k = j)) as [->|Hkj].
    + by rewrite list_lookup_total_insert_eq by done.
    + rewrite list_lookup_total_insert_ne by done. by apply Hs.
Qed.

(** Other slots do not hold what slot [j] holds. *)
Lemma synced_other d ic j k x :
  synced d ic → (j < length ic)%nat → 0 < i_ref (ic !!! j) → ic !! k = Some x → k ≠ j →
  ¬ in_use dev (i_inum (ic !!! j)) x.
Proof.
  intros [Ho Hs] Hj Hr Hx Hne Hu. destruct (Hs j Hj Hr) as (Hd & _). apply Hne.
  pose proof (list_lookup_lookup_total_lt ic j Hj) as Ej.
  apply (ic_uniq _ Ho k j x _ Hx Ej); [by rewrite Hd | done].
Qed.
End tree.

Lemma file_wf_ref sb dev d x r : file_wf sb dev d x → file_wf sb dev d (set_ref x r).
Proof. by intros []; split. Qed.

Lemma put_dir_ref sb dev d x r : dir_ok sb dev d x → dir_ok sb dev d (set_ref x r).
Proof. intros [D1 D2 D3 D4]. split; [by apply file_wf_ref | done..]. Qed.

Lemma node_wf sb dev d i r : tree_ok sb dev d → linked sb dev d i → file_wf sb dev d (node sb dev d i r).
Proof. intros Ht Hi. exact (file_wf_ref sb dev d (node sb dev d i 0) r (tr_wf _ _ _ Ht i Hi)). Qed.

Lemma node_dir sb dev d i r :
  tree_ok sb dev d → linked sb dev d i → is_dir sb dev d i = true → dir_ok sb dev d (node sb dev d i r).
Proof.
  intros Ht Hi Hd. split; [by apply node_wf | exact (tr_full _ _ _ Ht i Hi) | by apply Z.eqb_eq |].
  exact (tr_size _ _ _ Ht i Hi Hd).
Qed.

(** A directory names files in use. *)
Lemma child_linked sb dev d i e n :
  tree_ok sb dev d → linked sb dev d i → child sb dev d i e = Some n → linked sb dev d n.
Proof.
  intros Ht Hi. unfold child, dir_get. destruct (is_dir sb dev d i) eqn:Ed; [|done].
  destruct (List.find _ _) as [k|] eqn:Ef; [|done]. intros [= <-].
  apply find_seq_first in Ef as ((_ & Hk) & Hn & _).
  apply (tr_entry _ _ _ Ht i k Hi Ed Hk). unfold names in Hn. apply andb_true_iff in Hn as (Hn & _).
  by apply negb_true_iff, Z.eqb_neq in Hn.
Qed.

(** The name buffer finds what its name is bound to. *)
Lemma dir_get_name dev d x junk e :
  clean e → length junk = DIRSIZ →
  dir_get dev d x (put_name junk e) = dir_get dev d x (strncpy_bytes e DIRSIZ).
Proof.
  intros He Hj. unfold dir_get. erewrite find_seq_ext; [done|]. intros k _. cbn beta. unfold names. f_equal.
  assert (DIRSIZ ≤ length (de_name (dirent dev d x k)))%nat as Hl.
  { unfold de_name, slice. rewrite length_take, length_drop, length_dirent. unfold DIRSIZ. lia. }
  apply eq_true_iff_eq. rewrite !Z.eqb_eq. unfold namecmp.
  rewrite !strncmp_names by (rewrite ?length_put_name, ?length_strncpy; lia).
  by rewrite strncpy_idem, strncpy_put_name.
Qed.

(** * The operations that count users *)

Section users.
Context {S : Type} `{BlockLayer S}.
Context (sb : superblock) (Hsb : sb_wf sb) (dev : Z) (Hdev : 0 ≤ dev < 2).
Implicit Types (fs : fsys S) (d : disk) (x : inode) (ip dp : nat) (hs : gmultiset nat).
#[local] Abbreviation fsi := (fsi sb dev).
#[local] Abbreviation node := (node sb dev).
#[local] Abbreviation linked := (linked sb dev).

(** The file system between operations: the tree is well formed and the cache
    agrees with it. *)
Record sound fs d : Prop := {
  so_fsi : fsi fs d;
  so_tree : tree_ok sb dev d;
  so_sync : synced sb dev d (icache fs)
}.

Lemma sound_blk fs d s : sound fs d → bl_rep s d ∅ → sound (set_blk fs s) d.
Proof. intros [[F1 F2 F3 F4] T Y] Hr. by split. Qed.

Lemma sound_put fs d s ip y :
  sound fs d → bl_rep s d ∅ → synced sb dev d (<[ip := y]> (icache fs)) → sound (put_inode (set_blk fs s) ip y) d.
Proof. intros [[F1 F2 F3 F4] T Y] Hr Hs. by split. Qed.

Lemma slot_sync fs d ip :
  let x := inodep fs ip in
  sound fs d → (ip < length (icache fs))%nat → 0 < i_ref x →
  i_dev x = dev ∧ linked d (i_inum x) ∧ (i_valid x = 0 ∨ x = node d (i_inum x) (i_ref x)).
Proof. intros x Hs. apply (sy_slot _ _ _ _ (so_sync _ _ Hs)). Qed.

Lemma total_ref fs d j : sound fs d → (j < length (icache fs))%nat → 0 ≤ i_ref (inodep fs j) < 2 ^ 31.
Proof.
  intros Hs Hj. exact (ic_refs _ (sy_ok _ _ _ _ (so_sync _ _ Hs)) j _ (list_lookup_lookup_total_lt _ _ Hj)).
Qed.

Lemma set_blk_same fs : set_blk fs (f_blk fs) = fs.
Proof. by destruct fs. Qed.

(** The count of a slot in use changes. *)
Lemma sound_ref fs d ip r :
  let x := inodep fs ip in
  sound fs d → (ip < length (icache fs))%nat → 0 < i_ref x → 0 ≤ r < 2 ^ 31 → sound (put_inode fs ip (set_ref x r)) d.
Proof.
  intros x Hs Hip Hr Hr'. destruct (slot_sync fs d ip Hs Hip Hr) as (Hd & Hi & Hv). fold x in Hd, Hi, Hv.
  rewrite <- (set_blk_same fs) at 1. apply sound_put; [done | apply Hs|].
  apply synced_put; [apply Hs | done | done | |].
  - intros _. split; [exact Hd|]. split; [exact Hi|]. destruct Hv as [Hv|Hv]; [by left | right].
    rewrite Hv at 1. done.
  - intros k z Hz Hk _. apply (synced_other sb dev d (icache fs) ip k z); [apply Hs | done..].
Qed.

(** [iput] of an inode that has links only counts down. *)
Lemma iput_sound fs d ip :
  let x := inodep fs ip in
  sound fs d → (ip < length (icache fs))%nat → 0 < i_ref x →
  iput fs ip = Ok (put_inode fs ip (set_ref x (i_ref x - 1))) ∧ sound (put_inode fs ip (set_ref x (i_ref x - 1))) d.
Proof.
  intros x Hs Hip Hr. destruct (slot_sync fs d ip Hs Hip Hr) as (_ & Hi & Hv).
  pose proof (total_ref fs d ip Hs Hip) as Hrr. fold x in Hi, Hv, Hrr. split.
  - apply iput_more; [done | fold x; lia |]. fold x. destruct Hv as [->|Hv]; [by left | right; left]. rewrite Hv. apply Hi.
  - apply sound_ref; [done.. | fold x; lia].
Qed.

Lemma inum_put fs ip y j :
  i_inum y = i_inum (inodep fs ip) → (ip < length (icache fs))%nat →
  i_inum (inodep (put_inode fs ip y) j) = i_inum (inodep fs j).
Proof. intros Hy Hip. destruct (decide (ip = j)) as [<-|Hne]; [by rewrite inodep_put|]. by rewrite inodep_put_ne. Qed.

Context (ic0 : list inode) (Hroom : roomy ic0).

Lemma held_ref fs d hs ip :
  held ic0 (hs ⊎ {[+ ip +]}) (icache fs) → (ip < length ic0)%nat → sound fs d →
  1 ≤ i_ref (inodep fs ip) < 2 ^ 31 ∧ (ip < length (icache fs))%nat.
Proof.
  intros Hh Hip Hs. pose proof (ro_refs _ Hroom ip Hip) as Hr0.
  rewrite <- (he_len _ _ _ Hh) in Hip. split; [|done].
  pose proof (ic_refs _ (sy_ok _ _ _ _ (so_sync _ _ Hs)) ip (inodep fs ip) (list_lookup_lookup_total_lt _ _ Hip)) as Hr.
  split; [|apply Hr]. unfold inodep. rewrite (he_ref _ _ _ Hh) by (by rewrite <- (he_len _ _ _ Hh)).
  rewrite multiplicity_disj_union, multiplicity_singleton_eq. lia.
Qed.

(** [ilock] of a slot in use reads the inode if it was not read before. *)
Lemma ilock_held fs d hs ip :
  let x := inodep fs ip in
  sound fs d → held ic0 (hs ⊎ {[+ ip +]}) (icache fs) → (ip < length ic0)%nat →
  ∃ fs', ilock fs ip = Ok fs' ∧ sound fs' d ∧ held ic0 (hs ⊎ {[+ ip +]}) (icache fs') ∧
    inodep fs' ip = node d (i_inum x) (i_ref x) ∧ ∀ j, i_inum (inodep fs' j) = i_inum (inodep fs j).
Proof.
  intros x Hs Hh Hip. destruct (held_ref fs d hs ip Hh Hip Hs) as (Hr & Hlt). fold x in Hr.
  destruct (slot_sync fs d ip Hs Hlt) as (Hd & Hi & Hv); [fold x; lia|]. fold x in Hd, Hi, Hv.
  destruct Hv as [Hv | Hv].
  - destruct (ilock_spec sb Hsb dev Hdev fs d ip) as (s & E & Hrep); [apply Hs | done..| apply Hi | apply Hr | done | apply Hi |].
    fold x in E. set (y := set_valid _ 1) in *. eexists. split; [exact E|].
    assert (y = node d (i_inum x) (i_ref x)) as Ey by (unfold y, load_dinode; cbn; by rewrite Hd).
    split; [|split; [|split]].
    + apply sound_put; [done..|]. apply synced_put; [apply Hs | done | cbn; lia | |].
      * intros _. split; [exact Hd|]. split; [exact Hi | by right].
      * intros k z Hz Hk _. apply (synced_other sb dev d (icache fs) ip k z); [apply Hs | done | change (0 < i_ref x); lia | done..].
    + apply held_put with (hs ⊎ {[+ ip +]}); [done..| |]; [exact (he_ref _ _ _ Hh ip Hip)|].
      intros Hp. split; [exact (proj1 (he_same _ _ _ Hh ip Hip Hp)) | done].
    + rewrite inodep_put by done. exact Ey.
    + intros j. by apply (inum_put (set_blk fs s)).
  - exists fs. split; [|done]. apply ilock_valid; [apply Hr|]. fold x. by rewrite Hv.
Qed.

Lemma iput_held fs d hs ip :
  sound fs d → held ic0 (hs ⊎ {[+ ip +]}) (icache fs) → (ip < length ic0)%nat →
  ∃ fs', iput fs ip = Ok fs' ∧ sound fs' d ∧ held ic0 hs (icache fs') ∧
    ∀ j, i_inum (inodep fs' j) = i_inum (inodep fs j).
Proof.
  intros Hs Hh Hip. destruct (held_ref fs d hs ip Hh Hip Hs) as (Hr & Hlt).
  destruct (iput_sound fs d ip Hs Hlt ltac:(lia)) as (E & Hs').
  eexists. split; [exact E|]. split; [exact Hs'|]. split; [|intros j; by apply inum_put].
  apply held_put with (hs ⊎ {[+ ip +]}); [done | done | | | exact (he_same _ _ _ Hh ip Hip)].
  - intros k Hk. rewrite multiplicity_disj_union, multiplicity_singleton_ne by done. lia.
  - pose proof (he_ref _ _ _ Hh ip Hip) as E1. rewrite multiplicity_disj_union, multiplicity_singleton_eq in E1.
    cbn [i_ref set_ref]. unfold inodep. rewrite E1. lia.
Qed.

(** A locked inode is given back: it was read meanwhile. *)
Lemma node_released fs d hs ip s :
  let x := inodep fs ip in
  let fs' := put_inode (set_blk fs s) ip (node d (i_inum x) (i_ref x - 1)) in
  sound fs d → bl_rep s d ∅ → held ic0 (hs ⊎ {[+ ip +]}) (icache fs) → (ip < length ic0)%nat →
  sound fs' d ∧ held ic0 hs (icache fs').
Proof.
  intros x fs' Hs Hrep Hh Hip. destruct (held_ref fs d hs ip Hh Hip Hs) as (Hr & Hlt). fold x in Hr.
  destruct (slot_sync fs d ip Hs Hlt) as (_ & Hi & _); [fold x; lia|]. fold x in Hi. split.
  - apply sound_put; [done..|]. apply synced_put; [apply Hs | done | cbn; lia | |].
    + intros _. split; [done|]. split; [exact Hi | by right].
    + intros k z Hz Hk _. apply (synced_other sb dev d (icache fs) ip k z); [apply Hs | done | change (0 < i_ref x); lia | done..].
  - apply held_put with (hs ⊎ {[+ ip +]}); [done | done | | | intros Hp; split; [exact (proj1 (he_same _ _ _ Hh ip Hip Hp)) | done]].
    + intros k Hk. rewrite multiplicity_disj_union, multiplicity_singleton_ne by done. lia.
    + pose proof (he_ref _ _ _ Hh ip Hip) as E. rewrite multiplicity_disj_union, multiplicity_singleton_eq in E.
      cbn [i_ref FsTree.node]. unfold x, inodep. rewrite E. lia.
Qed.

(** One more user of a slot in use. *)
Lemma hold_more fs d hs ip :
  let x := inodep fs ip in
  sound fs d → held ic0 hs (icache fs) → (ip < length ic0)%nat → (multiplicity ip hs ≤ 2)%nat → 0 < i_ref x →
  let fs' := put_inode fs ip (set_ref x (i_ref x + 1)) in
  i_ref x + 1 < 2 ^ 31 - 1 ∧ sound fs' d ∧ held ic0 (hs ⊎ {[+ ip +]}) (icache fs') ∧
  ∀ j, i_inum (inodep fs' j) = i_inum (inodep fs j).
Proof.
  intros x Hs Hh Hip Hm Hr fs'. pose proof (he_len _ _ _ Hh) as Hl.
  assert (ip < length (icache fs))%nat as Hlt by lia.
  pose proof (ro_refs _ Hroom ip Hip) as Hr0. pose proof (he_ref _ _ _ Hh ip Hip) as Er.
  change (icache fs !!! ip) with x in Er.
  split; [lia|]. split; [by apply sound_ref; [..|fold x; lia]|]. split; [|intros j; by apply inum_put].
  apply held_put with hs; [done | done | | | exact (he_same _ _ _ Hh ip Hip)].
  - intros k Hk. rewrite multiplicity_disj_union, multiplicity_singleton_ne by done. lia.
  - rewrite multiplicity_disj_union, multiplicity_singleton_eq. cbn [i_ref set_ref]. lia.
Qed.

Lemma idup_held fs d hs ip :
  sound fs d → held ic0 hs (icache fs) → (ip < length ic0)%nat → (multiplicity ip hs ≤ 2)%nat →
  0 < i_ref (inodep fs ip) →
  ∃ fs', idup fs ip = (fs', ip) ∧ sound fs' d ∧ held ic0 (hs ⊎ {[+ ip +]}) (icache fs') ∧
    ∀ j, i_inum (inodep fs' j) = i_inum (inodep fs j).
Proof.
  intros Hs Hh Hip Hm Hr. destruct (hold_more fs d hs ip Hs Hh Hip Hm Hr) as (Hb & H1 & H2 & H3).
  eexists. split; [|by split]. unfold idup. pose proof (he_len _ _ _ Hh).
  rewrite put_inode_upd by lia. by rewrite s32_small by lia.
Qed.

(** [iget] uses one slot more: the one that has the inode, or a free one. *)
Lemma iget_held fs d hs i j0 :
  sound fs d → held ic0 hs (icache fs) → (∀ j, multiplicity j hs ≤ 2)%nat → linked d i →
  (j0 < length ic0)%nat → unused (ic0 !!! j0) → j0 ∉ hs →
  ∃ fs' ip, iget fs dev i = Ok (fs', ip) ∧ sound fs' d ∧ held ic0 (hs ⊎ {[+ ip +]}) (icache fs') ∧
    (ip < length ic0)%nat ∧ i_inum (inodep fs' ip) = i ∧
    ∀ j, 0 < i_ref (inodep fs j) → i_inum (inodep fs' j) = i_inum (inodep fs j).
Proof.
  intros Hs Hh Hm Hi Hj0 Hu Hn. pose proof (he_len _ _ _ Hh) as Hl.
  pose proof (sy_ok _ _ _ _ (so_sync _ _ Hs)) as Hok.
  pose proof (iget_spec fs dev i Hok) as Hg. rewrite decide_True in Hg.
  2: { apply Exists_exists. exists (icache fs !!! j0). split; [apply list_elem_of_lookup_total_2; lia|]. right.
       unfold unused in *. rewrite (he_ref _ _ _ Hh) by done. rewrite not_elem_of_multiplicity in Hn. lia. }
  destruct Hg as ([fs' ip] & E & Hok' & Hip & (_ & Hd & Hin) & (f & Ef) & Hcase).
  { intros j x Hx. assert (j < length ic0)%nat as Hj by (rewrite <- Hl; by eapply lookup_lt_Some).
    pose proof (he_ref _ _ _ Hh j Hj) as Er. rewrite (list_lookup_total_correct _ _ _ Hx) in Er.
    pose proof (ro_refs _ Hroom j Hj). specialize (Hm j). lia. }
  assert (ip < length (icache fs))%nat as Hlt by (rewrite Ef in Hip; cbn in Hip; by rewrite length_alter in Hip).
  assert (ip < length ic0)%nat as Hip0 by lia.
  assert (fs' = put_inode fs ip (inodep fs' ip)) as Efs by (rewrite Ef, inodep_upd by done; by apply put_inode_upd).
  exists fs', ip. split; [done|]. destruct Hcase as [((Hr & _) & Ey) | (Hun & Hr1 & Hv & Hno)].
  - destruct (hold_more fs d hs ip Hs Hh Hip0 (Hm ip) Hr) as (_ & H1 & H2 & H3).
    rewrite <- Ey, <- Efs in H1, H2, H3. split; [done|]. split; [done|]. split; [done|]. split; [done|]. intros j _. apply H3.
  - set (y := inodep fs' ip) in *.
    assert (fs' = put_inode (set_blk fs (f_blk fs)) ip y) as Efs2 by (rewrite Efs; by destruct fs).
    split; [|split; [|split; [done|split; [done|]]]].
    + rewrite Efs2. apply sound_put; [done | apply Hs|]. apply synced_put; [apply Hs | done | lia | |].
      * intros _. split; [done|]. split; [by rewrite Hin | by left].
      * intros k x Hx _ _. rewrite Hin. by apply (Hno k).
    + rewrite Efs2. pose proof (he_ref _ _ _ Hh ip Hip0) as Er. change (icache fs !!! ip) with (inodep fs ip) in Er.
      pose proof (ro_refs _ Hroom ip Hip0). unfold unused in Hun.
      apply held_put with hs; [done | done | | | lia].
      * intros k Hk. rewrite multiplicity_disj_union, multiplicity_singleton_ne by done. lia.
      * rewrite multiplicity_disj_union, multiplicity_singleton_eq. lia.
    + intros j Hj. rewrite Efs. rewrite inodep_put_ne; [done|]. intros ->. unfold unused in Hun. lia.
Qed.

(** [dirlookup] in a directory in use finds the child of that name. *)
Lemma dirlookup_held fs d hs ip i junk e j0 :
  sound fs d → held ic0 (hs ⊎ {[+ ip +]}) (icache fs) → (∀ j, multiplicity j hs ≤ 1)%nat →
  (ip < length ic0)%nat → linked d i → is_dir sb dev d i = true → inodep fs ip = node d i (i_ref (inodep fs ip)) →
  clean e → length junk = DIRSIZ → (j0 < length ic0)%nat → unused (ic0 !!! j0) → j0 ∉ hs ⊎ {[+ ip +]} →
  ∃ fs' o, dirlookup fs ip (put_name junk e) = Ok (fs', o) ∧ sound fs' d ∧ i_inum (inodep fs' ip) = i ∧
    match child sb dev d i e with
    | Some n => ∃ jp off, o = Some (jp, off) ∧ held ic0 (hs ⊎ {[+ ip +]} ⊎ {[+ jp +]}) (icache fs') ∧
        (jp < length ic0)%nat ∧ i_inum (inodep fs' jp) = n
    | None => o = None ∧ held ic0 (hs ⊎ {[+ ip +]}) (icache fs') ∧ icache fs' = icache fs
    end.
Proof.
  intros Hs Hh Hm Hip Hi Hd Ex He Hj Hj0 Hu Hn. destruct (held_ref fs d hs ip Hh Hip Hs) as (Hr & Hlt).
  assert (i_inum (inodep fs ip) = i) as Ei by (by rewrite Ex).
  destruct (dirlookup_spec sb Hsb dev Hdev fs d ip (put_name junk e)) as (s & E & Hrep);
    [apply Hs | rewrite Ex; apply node_dir; [apply Hs | done..] |].
  rewrite E. unfold lookup_result.
  pose proof (child_linked sb dev d i e) as Hc. unfold child in Hc |- *. rewrite Hd in Hc |- *.
  rewrite <- (dir_get_name dev d (node d i 0) junk e He Hj) in Hc |- *. unfold dir_get in Hc |- *.
  change (nents (node d i 0)) with (nents (node d i (i_ref (inodep fs ip)))) in Hc |- *.
  change (dirent dev d (node d i 0)) with (dirent dev d (node d i (i_ref (inodep fs ip)))) in Hc |- *.
  rewrite <- Ex in Hc |- *. unfold found_entry.
  destruct (List.find _ _) as [k|]; cbn [fmap option_fmap option_map] in Hc |- *.
  - pose proof (Hc _ (so_tree _ _ Hs) Hi eq_refl) as Hl.
    destruct (iget_held (set_blk fs s) d (hs ⊎ {[+ ip +]}) (de_inum (dirent dev d (inodep fs ip) k)) j0)
      as (fs' & jp & E2 & H1 & H2 & H3 & H4 & H5);
      [by apply sound_blk | done | | done..|].
    { intros j. rewrite multiplicity_disj_union, multiplicity_singleton. specialize (Hm j). case_decide; lia. }
    rewrite E2. cbn [rbind fst snd]. eexists _, _. split; [done|]. split; [done|].
    split; [rewrite H5; [exact Ei | change (0 < i_ref (inodep fs ip)); lia]|]. eexists _, _. done.
  - eexists _, _. split; [done|]. split; [by apply sound_blk|]. done.
Qed.

Lemma iunlockput_held fs d hs ip :
  sound fs d → held ic0 (hs ⊎ {[+ ip +]}) (icache fs) → (ip < length ic0)%nat →
  ∃ fs', iunlockput fs ip = Ok fs' ∧ sound fs' d ∧ held ic0 hs (icache fs') ∧
    ∀ j, i_inum (inodep fs' j) = i_inum (inodep fs j).
Proof.
  intros Hs Hh Hip. unfold iunlockput. destruct (held_ref fs d hs ip Hh Hip Hs) as (Hr & _).
  rewrite iunlock_live by lia. by apply iput_held.
Qed.

(** A slot that is free although [ip] is in use once more. *)
Lemma roomy_slot ip : ∃ j0, (j0 < length ic0)%nat ∧ unused (ic0 !!! j0) ∧ j0 ∉ (∅ ⊎ {[+ ip +]} : gmultiset nat).
Proof.
  destruct (ro_slots _ Hroom) as (j1 & j2 & Hne & H1 & H2 & U1 & U2).
  destruct (decide (j1 = ip)) as [->|]; [exists j2 | exists j1]; (split; [done|]; split; [done|];
    rewrite (left_id_L ∅ (⊎)), gmultiset_elem_of_singleton; congruence).
Qed.

(** What a walk from inode [i] that looks for [o] answers: the slot of what it
    found, in use once more, and every other slot as often as before. *)
Definition walked fs' d (o : option Z) (r : option nat) : Prop :=
  sound fs' d ∧
  match o with
  | Some n => ∃ jp, r = Some jp ∧ held ic0 {[+ jp +]} (icache fs') ∧ (jp < length ic0)%nat ∧
      i_inum (inodep fs' jp) = n ∧ linked d n
  | None => r = None ∧ held ic0 ∅ (icache fs')
  end.

Definition target (parent : bool) d i es : option Z :=
  if parent then resolve_parent sb dev d i es else resolve sb dev d i es.

Lemma namex_walk_spec parent fs d ip i es name :
  sound fs d → held ic0 {[+ ip +]} (icache fs) → (ip < length ic0)%nat → i_inum (inodep fs ip) = i → linked d i →
  Forall clean es → length name = DIRSIZ →
  ∃ fs' r name', namex_walk parent fs ip es name = Ok (fs', r, name') ∧ walked fs' d (target parent d i es) r ∧
    (parent = true → r ≠ None → ∃ junk e, last es = Some e ∧ length junk = DIRSIZ ∧ name' = put_name junk e).
Proof.
  intros Hs Hh Hip Ei Hi Hes Hname. revert fs ip i name Hs Hh Hip Ei Hi Hname.
  induction Hes as [|e es He Hes IH]; intros fs ip i name Hs Hh Hip Ei Hi Hname.
  - cbn [namex_walk]. destruct parent; [|by exists fs, (Some ip), name; split; [|split; [split; [|exists ip]|]]].
    rewrite <- (left_id_L ∅ (⊎) {[+ ip +]}) in Hh. rewrite <- Ei in Hi.
    destruct (iput_held fs d ∅ ip Hs Hh Hip) as (fs' & -> & H1 & H2 & _).
    exists fs', None, name. done.
  - rewrite <- (left_id_L ∅ (⊎) {[+ ip +]}) in Hh. rewrite <- Ei in Hi.
    cbn [namex_walk]. destruct (ilock_held fs d ∅ ip Hs Hh Hip) as (fs1 & -> & Hs1 & Hh1 & E1 & I1).
    cbn [rbind]. rewrite E1, Ei. pose proof (I1 ip) as Ei1. rewrite Ei in Ei1. rewrite Ei in Hi, E1.
    change (i_type (node d i (i_ref (inodep fs ip)))) with (di_type (disk_inode sb dev d i)).
    fold (is_dir sb dev d i).
    assert (target parent d i (e :: es) = if is_dir sb dev d i then target parent d i (e :: es) else None) as Et.
    { unfold target. destruct parent, es; cbn; unfold child; by destruct (is_dir sb dev d i). }
    destruct (is_dir sb dev d i) eqn:Ed; cbn [negb].
    2: { rewrite Et. destruct (iunlockput_held fs1 d ∅ ip Hs1 Hh1 Hip) as (fs2 & -> & H1 & H2 & _).
         exists fs2, None, (put_name name e). done. }
    clear Et.
    destruct (parent && match es with [] => true | _ => false end) eqn:Ep.
    { destruct parent, es as [|c es']; try discriminate Ep.
      exists (iunlock fs1 ip), (Some ip), (put_name name e). split; [done|].
      destruct (held_ref fs1 d ∅ ip Hh1 Hip Hs1) as (Hr1 & _). rewrite iunlock_live by lia.
      split; [|intros _ _; by exists name, e]. split; [done|]. cbn. rewrite Ed.
      rewrite (left_id_L ∅ (⊎)) in Hh1. by exists ip. }
    destruct (roomy_slot ip) as (j0 & Hj0 & Hu & Hn).
    destruct (dirlookup_held fs1 d ∅ ip i name e j0) as (fs2 & o & -> & Hs2 & Ei2 & Hc); try done.
    { intros j. rewrite multiplicity_empty. lia. }
    { by rewrite E1. }
    cbn [rbind fst snd].
    assert (target parent d i (e :: es) = match child sb dev d i e with Some n => target parent d n es | None => None end) as Et.
    { unfold target. by destruct parent, es. }
    pose proof (child_linked sb dev d i e) as Hcl. rewrite Et. destruct (child sb dev d i e) as [n|].
    + destruct Hc as (jp & off & -> & Hh2 & Hjp & En). cbn [rbind fst snd].
      rewrite <- (assoc_L (⊎)), (comm_L (⊎) {[+ ip +]}), (assoc_L (⊎)) in Hh2.
      destruct (iunlockput_held fs2 d (∅ ⊎ {[+ jp +]}) ip Hs2 Hh2 Hip) as (fs3 & -> & Hs3 & Hh3 & I3).
      cbn [rbind]. rewrite (left_id_L ∅ (⊎)) in Hh3.
      destruct (IH fs3 jp n (put_name name e)) as (fs4 & r & name' & E4 & Hw & Hname'); try done.
      { by rewrite I3. } { apply Hcl; [apply Hs | done | done]. } { by apply length_put_name. }
      exists fs4, r, name'. split; [done|]. split; [done|]. intros Hp Hr.
      destruct (Hname' Hp Hr) as (junk & c & Hl & Hrest). exists junk, c. split; [|done]. by rewrite last_cons, Hl.
    + destruct Hc as (-> & Hh2 & _).
      destruct (iunlockput_held fs2 d ∅ ip Hs2 Hh2 Hip) as (fs3 & -> & Hs3 & Hh3 & I3).
      exists fs3, None, (put_name name e). done.
Qed.
End users.

(** * namei and nameiparent *)

Section resolve.
Context {S : Type} `{BlockLayer S}.
Context (sb : superblock) (Hsb : sb_wf sb) (dev : Z) (Hdev : 0 ≤ dev < 2).
Implicit Types (fs : fsys S) (d : disk) (ip cwd : nat) (path junk : list Z).

(** Where the walk along a path starts: absolute paths at the root. *)
Definition start fs cwd path : Z := if decide (head path = Some SLASH) then ROOTINO else i_inum (inodep fs cwd).

(** The current directory is in use, or the root is there; the one that is
    needed. *)
Record startable fs d cwd path : Prop := {
  sr_cwd : head path ≠ Some SLASH → (cwd < length (icache fs))%nat ∧ 0 < i_ref (inodep fs cwd);
  sr_root : head path = Some SLASH → dev = ROOTDEV ∧ linked sb dev d ROOTINO;
  sr_len : Z.of_nat (length path) < 2 ^ 32
}.

Lemma namex_held fs d cwd path parent junk :
  sound sb dev fs d → roomy (icache fs) → startable fs d cwd path → length junk = DIRSIZ →
  ∃ fs' r name, namex fs cwd path parent junk = Ok (fs', r, name) ∧
    walked sb dev (icache fs) fs' d (target sb dev parent d (start fs cwd path) (elems path)) r ∧
    (parent = true → r ≠ None →
       ∃ junk' e, last (elems path) = Some e ∧ length junk' = DIRSIZ ∧ name = put_name junk' e).
Proof.
  intros Hs Hroom [C1 C4 C5] Hj. rewrite namex_spec by done.
  assert (∃ fs1 ip, match path with
      | c :: _ => if c =? SLASH then iget fs ROOTDEV ROOTINO else Ok (idup fs cwd)
      | [] => Ok (idup fs cwd)
      end = Ok (fs1, ip) ∧ sound sb dev fs1 d ∧ held (icache fs) {[+ ip +]} (icache fs1) ∧
      (ip < length (icache fs))%nat ∧ i_inum (inodep fs1 ip) = start fs cwd path ∧
      linked sb dev d (start fs cwd path)) as (fs1 & ip & -> & H1 & H2 & H3 & H4 & H5).
  - pose proof (held_refl (icache fs)) as Hh0.
    destruct (decide (head path = Some SLASH)) as [Hh|Hh].
    + assert (start fs cwd path = ROOTINO) as -> by (by unfold start; rewrite decide_True).
      destruct path as [|c path]; [done|]. injection Hh as ->. rewrite Z.eqb_refl.
      destruct (C4 eq_refl) as (Ed & Hroot). rewrite <- Ed.
      destruct (roomy_slot (icache fs) Hroom 0%nat) as (j0 & Hj0 & Hu & _).
      destruct (iget_held sb dev (icache fs) Hroom fs d ∅ ROOTINO j0 Hs Hh0) as (fs1 & ip & E & Q1 & Q2 & Q3 & Q4 & _);
        [intros; rewrite multiplicity_empty; lia | exact Hroot | done | done | apply gmultiset_not_elem_of_empty |].
      rewrite (left_id_L ∅ (⊎)) in Q2. by exists fs1, ip.
    + assert (start fs cwd path = i_inum (inodep fs cwd)) as -> by (by unfold start; rewrite decide_False).
      destruct (C1 Hh) as (Hlt & Hr). destruct (slot_sync sb dev fs d cwd Hs Hlt Hr) as (_ & Hlk & _).
      destruct (idup_held sb dev (icache fs) Hroom fs d ∅ cwd Hs Hh0 Hlt) as (fs1 & E & Q1 & Q2 & Q3);
        [rewrite multiplicity_empty; lia | done |].
      rewrite (left_id_L ∅ (⊎)) in Q2. exists fs1, cwd. rewrite Q3. split; [|done].
      destruct path as [|c path]; [by rewrite E|]. rewrite (proj2 (Z.eqb_neq c SLASH)); [by rewrite E|].
      intros ->. by apply Hh.
  - cbn [rbind fst snd]. apply (namex_walk_spec sb Hsb dev Hdev (icache fs) Hroom); try done.
    apply elems_clean.
Qed.

Lemma namei_spec fs d cwd path junk :
  sound sb dev fs d → roomy (icache fs) → startable fs d cwd path → length junk = DIRSIZ →
  ∃ fs' r, namei fs cwd path junk = Ok (fs', r) ∧
    walked sb dev (icache fs) fs' d (resolve sb dev d (start fs cwd path) (elems path)) r.
Proof.
  intros Hs Hroom Hc Hj. destruct (namex_held fs d cwd path false junk Hs Hroom Hc Hj) as (fs' & r & name & E & Hw & _).
  exists fs', r. unfold namei. by rewrite E.
Qed.

(** C5. Path names mean what the tree of directories on the disk says.  [namei]
    of any path, absolute or not, of any length and with any slashes, ends and
    answers the inode that [resolve] finds on the disk, or null when there is
    none; the inode it answers has one user more and every other inode has the
    users it had, so nothing that was looked at on the way stays in use; the disk
    is as it was and the cache still agrees with it. *)
Theorem namei_resolves fs d cwd path junk :
  sound sb dev fs d → roomy (icache fs) → startable fs d cwd path → length junk = DIRSIZ →
  ∃ fs' r, namei fs cwd path junk = Ok (fs', r) ∧ sound sb dev fs' d ∧
    match resolve sb dev d (start fs cwd path) (elems path) with
    | Some n => ∃ ip, r = Some ip ∧ i_inum (inodep fs' ip) = n ∧ linked sb dev d n ∧
        ∀ j, (j < length (icache fs))%nat →
          i_ref (inodep fs' j) = i_ref (inodep fs j) + (if decide (j = ip) then 1 else 0) ∧
          (0 < i_ref (inodep fs j) → i_inum (inodep fs' j) = i_inum (inodep fs j))
    | None => r = None ∧
        ∀ j, (j < length (icache fs))%nat →
          i_ref (inodep fs' j) = i_ref (inodep fs j) ∧
          (0 < i_ref (inodep fs j) → i_inum (inodep fs' j) = i_inum (inodep fs j))
    end.
Proof.
  intros Hs Hroom Hc Hj. destruct (namei_spec fs d cwd path junk Hs Hroom Hc Hj) as (fs' & r & E & Hs' & Hw).
  exists fs', r. split; [done|]. split; [done|]. destruct (resolve sb dev d (start fs cwd path) (elems path)) as [n|].
  - destruct Hw as (ip & -> & [_ R I] & Hip & Hn & Hl). exists ip. do 3 (split; [done|]). intros j Hlt.
    split; [|intros Hp; exact (proj1 (I j Hlt Hp))]. unfold inodep. rewrite (R j Hlt). f_equal.
    rewrite multiplicity_singleton. by case_decide.
  - destruct Hw as (-> & [_ R I]). split; [done|]. intros j Hlt. split; [|intros Hp; exact (proj1 (I j Hlt Hp))].
    unfold inodep. rewrite (R j Hlt), multiplicity_empty. lia.
Qed.
End resolve.

(** * A concrete tree

    The root has the directory "bin", which has the file "a" of one block,
    [bytes]; the inodes are 1, 2 and 3. *)
(** A file of one block. *)
Lemma one_block_wf d x a :
  i_dev x = 1 → 0 ≤ i_inum x < sb_ninodes sb0 → i_addrs x = a :: replicate 12 0 → 0 ≤ i_size x ≤ 512 →
  a ≠ 0 → data_block sb0 a → used sb0 d 1 a = true →
  file_wf sb0 1 d x ∧ no_holes 1 d x ∧ ∀ b, own 1 d x b → b = a.
Proof.
  intros Hd Hi Ha Hs Hna Hb Hu.
  assert (ind_of x = 0) as Ei by (unfold ind_of; by rewrite Ha).
  assert (∀ bn, 0 ≤ bn < NBLK → blk_addr 1 d x bn = if decide (bn = 0) then a else 0) as Haddr.
  { intros bn Hbn. unfold blk_addr. rewrite Ei. cbn [Z.eqb].
    destruct (Z.ltb_spec bn NDIRECT) as [Hlt|Hge]; unfold NDIRECT in *; [|by rewrite decide_False by lia].
    rewrite Ha. case_decide as E; [by rewrite E|]. unfold zget. apply list_lookup_total_correct.
    rewrite lookup_cons_ne_0 by lia. apply lookup_replicate. split; [done|lia]. }
  assert (∀ b, own 1 d x b → b = a) as Hown.
  { intros b (Hnb & [E | (bn & Hbn & E)]); [congruence|]. rewrite Haddr in E by done. by case_decide. }
  split; [split; try done | split; [|done]].
  - rewrite Ha. done.
  - change (MAXFILE * BSIZE) with 71680. lia.
  - intros b ->%Hown. done.
  - intros bn bn' H1 H2. rewrite !Haddr by done. repeat case_decide; congruence.
  - intros bn H1 H2. unfold BSIZE in H2. rewrite Haddr by (unfold NBLK; lia). rewrite decide_True by lia. done.
Qed.

Section concrete.
Context (bytes : list Z) (size : Z).
Definition tree_dinode (type size a : Z) : dinode := mk_dinode type 0 0 1 size (a :: replicate 12 0).
Definition tree_inodes : list Z :=
  enc_dinode (enc_dinode (enc_dinode (replicate 512 0) 64 (tree_dinode T_DIR 48 6)) 128 (tree_dinode T_DIR 48 7))
    192 (tree_dinode T_FILE size 8).
Definition dtree : disk := λ dev b,
  if decide (b = 2) then tree_inodes
  else if decide (b = 5) then 0xFF :: 1 :: replicate 510 0
  else if decide (b = 6) then new_dirent DOT 1 ++ new_dirent DOTDOT 1 ++ new_dirent [98; 105; 110] 2 ++ replicate 464 0
  else if decide (b = 7) then new_dirent DOT 2 ++ new_dirent DOTDOT 1 ++ new_dirent [97] 3 ++ replicate 464 0
  else if decide (b = 8) then bytes
  else d0 dev b.
Definition tree_slots : list inode :=
  mk_inode 1 1 1 1 T_DIR 0 0 1 48 (6 :: replicate 12 0) :: replicate 49 no_inode.
Definition fstree : fsys (disk_st ata) := mk_fsys (binit (boot_disk (sim_disk dtree))) sb0 tree_slots [] [] [].
End concrete.

Lemma length_tree_inodes size : length (tree_inodes size) = 512%nat.
Proof. unfold tree_inodes. by rewrite !length_enc_dinode. Qed.

Lemma dtree_len bytes size dev b : length bytes = 512%nat → length (dtree bytes size dev b) = 512%nat.
Proof.
  intros Hb. unfold dtree.
  repeat case_decide; first [exact (length_tree_inodes size) | exact Hb | apply d0_len | reflexivity].
Qed.

Lemma fstree_fsi bytes size : length bytes = 512%nat → fsi sb0 1 (fstree bytes size) (dtree bytes size).
Proof.
  intros Hl. split; [reflexivity | | | vm_compute; reflexivity].
  - pose proof (binit_rep (sim_disk (dtree bytes size))) as Hb. rewrite sim_platter in Hb.
    apply Hb; [reflexivity|]. intros dev b _. by apply dtree_len.
  - intros b Hb. change (dstart sb0) with 6 in Hb.
    assert (b ∈ seqZ 0 6) as Hin by (apply elem_of_seqZ; lia). clear Hb.
    revert b Hin. apply Forall_forall. apply (bool_decide_unpack _). vm_compute. exact I.
Qed.

(** The three inodes on the disk. *)
Lemma tree_dinodes bytes size i :
  0 ≤ size < 2 ^ 31 → 0 ≤ i < 16 →
  disk_inode sb0 1 (dtree bytes size) i =
    if decide (i = 1) then tree_dinode T_DIR 48 6
    else if decide (i = 2) then tree_dinode T_DIR 48 7
    else if decide (i = 3) then tree_dinode T_FILE size 8
    else mk_dinode 0 0 0 0 0 (replicate 13 0).
Proof.
  intros Hs Hi. destruct (decide (i = 3)) as [->|Hne].
  - change (disk_inode sb0 1 (dtree bytes size) 3) with (dec_dinode (tree_inodes size) 192).
    unfold tree_inodes. rewrite dec_enc_dinode; [done | rewrite !length_enc_dinode, length_replicate; lia |].
    split; [done..| cbn [di_size tree_dinode]; lia | done |]. by repeat (apply Forall_cons; split).
  - rewrite <- (Z2Nat.id i) in * by lia. set (k := Z.to_nat i) in *. assert (k < 16)%nat as Hk by lia. clearbody k. clear Hi.
    do 16 (destruct k as [|k]; [first [by destruct Hne | vm_compute; reflexivity]|]). lia.
Qed.

Lemma tree_roomy : roomy tree_slots.
Proof.
  split.
  - exists 1%nat, 2%nat. split; [done|]. split; [cbn; lia|]. split; [cbn; lia|]. by split.
  - intros j Hj. apply (Forall_lookup_total_1 (λ x, 0 ≤ i_ref x < 2 ^ 31 - 4)); [|done].
    apply (bool_decide_unpack _). vm_compute. exact I.
Qed.

Lemma tree_bytes bytes size : byte_list bytes → files_bytes sb0 1 (dtree bytes size).
Proof.
  intros Hby i q _ _. unfold file_byte. case_match; [lia|]. set (b := blk_addr _ _ _ _). clearbody b. unfold zget.
  rewrite list_lookup_total_alt. destruct (_ !! _) as [c|] eqn:Ec; [|done].
  cbn. refine (Forall_lookup_1 (λ c, 0 ≤ c < 256) (dtree bytes size 1 b) _ c _ Ec).
  unfold dtree. repeat case_decide;
    [| by apply (bool_decide_unpack _); vm_compute.. | done |].
  - unfold tree_inodes. do 3 (apply enc_dinode_byte; [|apply put_words_byte]). by apply (Forall_replicate (λ b, 0 ≤ b < 256)).
  - unfold d0. repeat case_decide; apply (bool_decide_unpack _); vm_compute; exact I.
Qed.

Section concrete_ok.
Context (bytes : list Z) (size : Z) (Hb : length bytes = 512%nat) (Hs : 0 ≤ size ≤ 512).
#[local] Abbreviation D := (dtree bytes size).

Lemma tree_linked i : linked sb0 1 D i → i = 1 ∨ i = 2 ∨ i = 3.
Proof.
  intros (Hi & Hty & _). rewrite tree_dinodes in Hty by (cbn in Hi; lia). repeat case_decide; auto. by destruct Hty.
Qed.

Lemma linked_tree i : i = 1 ∨ i = 2 ∨ i = 3 → linked sb0 1 D i.
Proof.
  intros Hi. split; [cbn; lia|]. rewrite tree_dinodes by lia. by destruct Hi as [->|[->| ->]].
Qed.

Lemma tree_node i r :
  node sb0 1 D i r = if decide (i = 1) then mk_inode 1 1 r 1 T_DIR 0 0 1 48 (6 :: replicate 12 0)
    else if decide (i = 2) then mk_inode 1 2 r 1 T_DIR 0 0 1 48 (7 :: replicate 12 0)
    else if decide (i = 3) then mk_inode 1 3 r 1 T_FILE 0 0 1 size (8 :: replicate 12 0)
    else node sb0 1 D i r.
Proof.
  repeat case_decide; [subst; unfold node; rewrite tree_dinodes by lia; done.. | done].
Qed.

Lemma dtree_ok : tree_ok sb0 1 D.
Proof.
  assert (∀ i, linked sb0 1 D i → file_wf sb0 1 D (node sb0 1 D i 0) ∧ no_holes 1 D (node sb0 1 D i 0) ∧
    ∀ b, own 1 D (node sb0 1 D i 0) b → b = i + 5) as Hwf.
  { intros i [->|[->| ->]]%tree_linked; rewrite tree_node.
    - by apply (one_block_wf D _ 6).
    - by apply (one_block_wf D _ 7).
    - by apply (one_block_wf D _ 8). }
  assert (∀ i, linked sb0 1 D i → is_dir sb0 1 D i = true → i = 1 ∨ i = 2) as Hdir.
  { intros i [->|[->| ->]]%tree_linked; [by left | by right |]. unfold is_dir. rewrite tree_dinodes by lia. done. }
  split.
  - intros i Hi. by apply Hwf.
  - intros i Hi. by apply Hwf.
  - intros i Hi Hd. destruct (Hdir i Hi Hd) as [->| ->]; by rewrite tree_dinodes by lia.
  - intros i k Hi Hd Hk Hn. apply linked_tree. revert Hk Hn.
    destruct (Hdir i Hi Hd) as [->| ->]; rewrite tree_node; cbn [decide]; intros Hk;
      change (nents _) with 3%nat in Hk; do 3 (destruct k as [|k]; [vm_compute; auto|]); lia.
  - intros i j b Hi Hj Hne Hbi Hbj. apply Hwf in Hbi, Hbj; [lia | done..].
Qed.

Lemma fstree_sound : sound sb0 1 (fstree bytes size) D.
Proof.
  split; [by apply fstree_fsi | exact dtree_ok |]. change (icache (fstree bytes size)) with tree_slots.
  assert (∀ j x, tree_slots !! j = Some x → 0 < i_ref x → j = 0%nat ∧ x = node sb0 1 D 1 1) as Hj.
  { intros [|j] x Hx Hr.
    - injection Hx as <-. split; [done|]. by rewrite tree_node.
    - change (replicate 49 no_inode !! j = Some x) in Hx. by apply lookup_replicate in Hx as (-> & _). }
  split.
  - split.
    + intros i j x y Hx Hy (Hr & _) Hr'. destruct (Hj i x Hx Hr) as (-> & _). by destruct (Hj j y Hy Hr') as (-> & _).
    + intros i x Hx. destruct i as [|i]; [injection Hx as <-; cbn; lia|].
      change (replicate 49 no_inode !! i = Some x) in Hx. apply lookup_replicate in Hx as (-> & _). cbn. lia.
  - intros j Hlt x Hr. destruct (Hj j x (list_lookup_lookup_total_lt _ _ Hlt) Hr) as (_ & ->).
    split; [done|]. split; [apply linked_tree; by left | by right].
Qed.

Lemma tree_start path :
  Z.of_nat (length path) < 2 ^ 32 → startable sb0 1 (fstree bytes size) D 0 path.
Proof.
  intros Hl. split; [split; [cbn; lia | done] | | done]. intros _. split; [done | apply linked_tree; by left].
Qed.
End concrete_ok.

(** "/bin/../bin//a" is inode 3. *)
Definition path_a : list Z := [47; 98; 105; 110; 47; 46; 46; 47; 98; 105; 110; 47; 47; 97].

Lemma namei_resolves_witness :
  ∃ fs' ip, namei (fstree (replicate 512 0) 0) 0 path_a (replicate 14 0) = Ok (fs', Some ip) ∧
    i_inum (inodep fs' ip) = 3 ∧ i_ref (inodep fs' 0) = 1.
Proof.
  destruct (namei_resolves sb0 sb0_wf 1 ltac:(lia) (fstree (replicate 512 0) 0) (dtree (replicate 512 0) 0) 0 path_a
    (replicate 14 0) (fstree_sound (replicate 512 0) 0 eq_refl ltac:(lia)) tree_roomy
    (tree_start (replicate 512 0) 0 eq_refl ltac:(lia) path_a eq_refl) eq_refl)
    as (fs' & r & E & _ & Hr).
  replace (resolve _ _ _ _ _) with (Some 3) in Hr by (vm_compute; reflexivity).
  destruct Hr as (ip & -> & Hi & _ & Hrest). exists fs', ip. split; [exact E|]. split; [exact Hi|].
  destruct (Hrest 0%nat ltac:(cbn; lia)) as (Hr & Hi0). specialize (Hi0 eq_refl).
  rewrite decide_False in Hr; [exact Hr|]. intros <-. rewrite Hi in Hi0. discriminate Hi0.
Defined.
