(* ===== verification/FsSound.v ===== *)
(** fs/fs.c: the tree of directories under change.  A write to a file and a new
    entry in a directory leave a tree on the disk, and an inode cache that agrees
    with it; the paths that do not end at the new entry lead where they led. *)
From stdpp Require Import gmultiset.
From S2P Require Import Prelude LibC Ports Ide Block Bio FsLayout Fs FsDir FsBlocks FsFile FsRw FsProps FsIcache FsDirProps FsTrunc FsAlloc FsPath FsTree.

Section change.
Context (sb : superblock) (dev : Z).
Implicit Types (d : disk) (x y : inode) (i j b : Z).
#[local] Abbreviation disk_inode := (disk_inode sb dev).
#[local] Abbreviation linked := (linked sb dev).
#[local] Abbreviation node := (node sb dev).
#[local] Abbreviation is_dir := (is_dir sb dev).
#[local] Abbreviation own := (own dev).

Lemma node_meta d i r : meta_ok (node d i r).
Proof. split; apply s16_range. Qed.

Lemma dinode_node d i r : dinode_of (node d i r) = disk_inode d i.
Proof. unfold dinode_of, FsTree.node. cbn [i_type i_major i_minor i_nlink i_size i_addrs]. by destruct (disk_inode d i). Qed.

Lemma node_same d d' i r : disk_inode d' i = disk_inode d i → node d' i r = node d i r.
Proof. intros E. unfold FsTree.node. by rewrite E. Qed.

(** The inode that [iupdate] wrote is the one that [ilock] reads. *)
Lemma node_saved d x : i_dev x = dev → i_valid x = 1 → disk_inode d (i_inum x) = dinode_of x → node d (i_inum x) (i_ref x) = x.
Proof. intros Hd Hv E. unfold FsTree.node. rewrite E. destruct x. cbn in *. by subst. Qed.

(** * A file that shares no block with the one that changes *)
Section apart.
Context d x d' x' y (Hk : others_kept sb dev d x d' x').
Context (Hwf : file_wf sb dev d y) (Hap : ∀ b, own d y b → ¬ own d x b).

Lemma apart_block b : own d y b → d' dev b = d dev b ∧ used sb d' dev b = true ∧ ¬ own d' x' b.
Proof. intros Ho. destruct (fw_own _ _ _ _ Hwf b Ho) as (Hd & Hu). by apply Hk; [| |apply Hap]. Qed.

Lemma apart_addr bn : blk_addr dev d' y bn = blk_addr dev d y bn.
Proof. apply blk_addr_ext. intros Hn. by apply apart_block, own_ind. Qed.

Lemma apart_own b : own d' y b ↔ own d y b.
Proof. unfold FsFile.own. by setoid_rewrite apart_addr. Qed.

Lemma apart_wf : file_wf sb dev d' y.
Proof.
  destruct Hwf as [W1 W2 W3 W4 W5 W6 W7]. split; [done..| | |].
  - intros b Ho%apart_own. split; [by apply W5 | by apply apart_block].
  - intros bn bn' H1 H2. rewrite !apart_addr. by apply W6.
  - intros bn H1 H2. rewrite apart_addr. by apply W7.
Qed.

Lemma apart_full : no_holes dev d y → no_holes dev d' y.
Proof. intros Hn bn H1 H2. rewrite apart_addr. by apply Hn. Qed.

Lemma apart_byte i : 0 ≤ i < NBLK * BSIZE → file_byte dev d' y i = file_byte dev d y i.
Proof.
  intros Hi. apply file_byte_ext; [apply apart_addr|]. intros Hn. apply apart_block, own_addr; [|done].
  unfold NBLK, BSIZE in *. zlia.
Qed.

Lemma apart_dirent k : (k < nents y)%nat → dirent dev d' y k = dirent dev d y k.
Proof.
  intros Hk0. pose proof (fw_size _ _ _ _ Hwf) as Hs. change (MAXFILE * BSIZE) with 71680 in Hs.
  assert (16 * Z.of_nat k + 16 ≤ i_size y) by (unfold nents in Hk0; zlia). unfold dirent, file_bytes. apply list_fmap_ext.
  intros q z Hq%lookup_seq. apply apart_byte. change (NBLK * BSIZE) with 71680. lia.
Qed.
End apart.

(** * One inode changes *)

(** From [d] to [d'] the contents of inode [i] change, and nothing else but
    inodes that are new in [d'], which are empty and no directories. *)
Record changed d i d' : Prop := {
  ch_linked : linked d i;
  ch_stays : linked d' i;
  ch_wf : file_wf sb dev d' (node d' i 0);
  ch_full : no_holes dev d' (node d' i 0);
  ch_kept : others_kept sb dev d (node d i 0) d' (node d' i 0);
  ch_same : ∀ j, linked d j → j ≠ i → disk_inode d' j = disk_inode d j;
  ch_new : ∀ j, linked d' j → ¬ linked d j → di_addrs (disk_inode d' j) = replicate 13 0 ∧
    di_size (disk_inode d' j) = 0 ∧ is_dir d' j = false;
  ch_size : is_dir d' i = true → di_size (disk_inode d' i) mod 16 = 0;
  ch_entry : ∀ k, is_dir d' i = true → (k < nents (node d' i 0))%nat →
    de_inum (dirent dev d' (node d' i 0) k) ≠ 0 → linked d' (de_inum (dirent dev d' (node d' i 0) k))
}.

Lemma linked_dec d i : {linked d i} + {¬ linked d i}.
Proof. unfold FsTree.linked. apply (decide _). Defined.

Section changed.
Context d i d' (Hc : changed d i d') (Ht : tree_ok sb dev d).

Lemma changed_linked j : linked d j → linked d' j.
Proof.
  intros Hj. destruct (decide (j = i)) as [->|Hne]; [apply Hc|].
  unfold FsTree.linked. by rewrite (ch_same _ _ _ Hc j Hj Hne).
Qed.

Lemma changed_cases j : linked d' j → j = i ∨ j ≠ i ∧ linked d j ∨ ¬ linked d j.
Proof. intros _. destruct (decide (j = i)); [by left|]. right. destruct (linked_dec d j); [by left | by right]. Qed.

(** The other files are as they were. *)
Lemma changed_other j : linked d j → j ≠ i →
  file_wf sb dev d' (node d j 0) ∧ node d' j 0 = node d j 0 ∧ is_dir d' j = is_dir d j ∧
  (∀ b, own d (node d j 0) b → ¬ own d (node d i 0) b).
Proof.
  intros Hj Hne.
  assert (∀ b, own d (node d j 0) b → ¬ own d (node d i 0) b) as Hap
    by (intros b; by apply (tr_apart _ _ _ Ht j i b Hj (ch_linked _ _ _ Hc))).
  split; [by apply (apart_wf d (node d i 0) d' (node d' i 0)); [apply Hc | apply Ht|]|].
  split; [by apply node_same, (ch_same _ _ _ Hc)|].
  split; [unfold FsTree.is_dir; by rewrite (ch_same _ _ _ Hc j Hj Hne) | done].
Qed.

Lemma changed_child j e : linked d j → j ≠ i → child sb dev d' j e = child sb dev d j e.
Proof.
  intros Hj Hne. destruct (changed_other j Hj Hne) as (_ & En & Ed & Hap).
  unfold child. rewrite Ed, En. destruct (is_dir d j); [|done].
  apply dir_ext. intros k Hk. apply (apart_dirent d (node d i 0) d' (node d' i 0)); [apply Hc | by apply Ht | done | done].
Qed.

(** A new file has no blocks. *)
Lemma changed_fresh j : linked d' j → ¬ linked d j →
  file_wf sb dev d' (node d' j 0) ∧ no_holes dev d' (node d' j 0) ∧ is_dir d' j = false ∧ ∀ b, ¬ own d' (node d' j 0) b.
Proof.
  intros Hj Hn. destruct (ch_new _ _ _ Hc j Hj Hn) as (Ha & Hs & Hd).
  destruct (empty_file_wf sb dev d' (node d' j 0)) as (H1 & H2 & H3); [done | apply Hj | done | done |]. done.
Qed.

Lemma changed_own_other j : linked d j → j ≠ i → ∀ b, own d' (node d' j 0) b ↔ own d (node d j 0) b.
Proof.
  intros Hj Hne b. destruct (changed_other j Hj Hne) as (_ & -> & _ & Hap).
  apply (apart_own d (node d i 0) d' (node d' i 0)); [apply Hc | by apply Ht | done].
Qed.

(** The blocks of the file that changed are not those of another file. *)
Lemma changed_apart j b : linked d j → j ≠ i → own d' (node d' j 0) b → ¬ own d' (node d' i 0) b.
Proof.
  intros Hj Hne Ho. apply (changed_own_other j Hj Hne b) in Ho. destruct (changed_other j Hj Hne) as (_ & _ & _ & Hap).
  eapply (apart_block d (node d i 0) d' (node d' i 0) (node d j 0)); [apply Hc | by apply Ht | done | done].
Qed.

Lemma changed_tree : tree_ok sb dev d'.
Proof.
  split.
  - intros j Hj. destruct (changed_cases j Hj) as [->|[(Hne & Hl)|Hn]]; [apply Hc | | by apply changed_fresh].
    destruct (changed_other j Hl Hne) as (? & -> & _). done.
  - intros j Hj. destruct (changed_cases j Hj) as [->|[(Hne & Hl)|Hn]]; [apply Hc | | by apply changed_fresh].
    destruct (changed_other j Hl Hne) as (_ & -> & _ & Hap).
    apply (apart_full d (node d i 0) d' (node d' i 0)); [apply Hc | by apply Ht | exact Hap | exact (tr_full _ _ _ Ht j Hl)].
  - intros j Hj Hd. destruct (changed_cases j Hj) as [->|[(Hne & Hl)|Hn]]; [exact (ch_size _ _ _ Hc Hd) | |].
    + destruct (changed_other j Hl Hne) as (_ & _ & Ed & _). rewrite (ch_same _ _ _ Hc) by done.
      apply (tr_size _ _ _ Ht j Hl). by rewrite <- Ed.
    + destruct (changed_fresh j Hj Hn) as (_ & _ & Hd' & _). congruence.
  - intros j k Hj Hd Hk Hnz. destruct (changed_cases j Hj) as [->|[(Hne & Hl)|Hn]]; [exact (ch_entry _ _ _ Hc k Hd Hk Hnz) | |].
    + destruct (changed_other j Hl Hne) as (_ & En & Ed & Hap). rewrite En in Hk, Hnz |- *.
      assert (dirent dev d' (node d j 0) k = dirent dev d (node d j 0) k) as Ede.
      { apply (apart_dirent d (node d i 0) d' (node d' i 0)); [apply Hc | by apply Ht | done | done]. }
      rewrite Ede in Hnz |- *. apply changed_linked, (tr_entry _ _ _ Ht j k Hl); [by rewrite <- Ed | done | done].
    + destruct (changed_fresh j Hj Hn) as (_ & _ & Hd' & _). congruence.
  - intros j1 j2 b H1 H2 Hne Ho1 Ho2.
    destruct (changed_cases j1 H1) as [->|[(N1 & L1)|F1]]; [| |by apply (changed_fresh j1 H1 F1) in Ho1].
    + destruct (changed_cases j2 H2) as [->|[(N2 & L2)|F2]]; [done | |by apply (changed_fresh j2 H2 F2) in Ho2].
      by apply (changed_apart j2 b L2 N2 Ho2).
    + destruct (changed_cases j2 H2) as [->|[(N2 & L2)|F2]]; [by apply (changed_apart j1 b L1 N1 Ho1) | |
        by apply (changed_fresh j2 H2 F2) in Ho2].
      apply (changed_own_other j1 L1 N1 b) in Ho1. apply (changed_own_other j2 L2 N2 b) in Ho2.
      exact (tr_apart _ _ _ Ht j1 j2 b L1 L2 Hne Ho1 Ho2).
Qed.
End changed.

(** Paths lead where they led when a plain file changes. *)
Lemma changed_resolve d i d' s es :
  changed d i d' → tree_ok sb dev d → is_dir d i = false → is_dir d' i = false → linked d s →
  resolve sb dev d' s es = resolve sb dev d s es.
Proof.
  intros Hc Ht Hd Hd'. revert s. induction es as [|e es IH]; intros s Hs; [done|]. cbn [resolve].
  assert (child sb dev d' s e = child sb dev d s e) as ->.
  { destruct (decide (s = i)) as [->|Hne]; [|by apply (changed_child d i d')]. unfold child. by rewrite Hd, Hd'. }
  destruct (child sb dev d s e) as [n|] eqn:En; [|done]. apply IH. by apply (child_linked sb dev d s e).
Qed.
End change.

(** * The cache after a change *)

Section caches.
Context {S : Type} `{BlockLayer S}.
Context (sb : superblock) (Hsb : sb_wf sb) (dev : Z) (Hdev : 0 ≤ dev < 2).
Implicit Types (fs : fsys S) (d : disk) (x : inode) (ip dp : nat) (ic : list inode) (hs : gmultiset nat).
#[local] Abbreviation sound := (sound sb dev).
#[local] Abbreviation disk_inode := (disk_inode sb dev).
#[local] Abbreviation linked := (linked sb dev).
#[local] Abbreviation node := (node sb dev).

Lemma slot_node fs d ip :
  let x := inodep fs ip in
  sound fs d → (ip < length (icache fs))%nat → 0 < i_ref x → i_valid x ≠ 0 →
  x = node d (i_inum x) (i_ref x) ∧ linked d (i_inum x).
Proof.
  intros x Hs Hip Hr Hv. destruct (slot_sync sb dev fs d ip Hs Hip Hr) as (_ & Hl & [Hv0|Ex]); [done | by split].
Qed.

(** The slots of the other inodes still agree with the disk. *)
Lemma synced_change d d' ic i :
  synced sb dev d ic → changed sb dev d i d' →
  (∀ j, (j < length ic)%nat → i_inum (ic !!! j) = i → 0 < i_ref (ic !!! j) →
     i_valid (ic !!! j) = 0 ∨ ic !!! j = node d' i (i_ref (ic !!! j))) →
  synced sb dev d' ic.
Proof.
  intros [Ho Hs] Hc Hi. split; [done|]. intros j Hj x Hr. destruct (Hs j Hj Hr) as (Hd & Hl & Hv). fold x in Hd, Hl, Hv.
  split; [done|]. split; [by apply (changed_linked sb dev d i d')|].
  destruct (decide (i_inum x = i)) as [Ei|Hne]; [rewrite Ei; by apply Hi|].
  destruct Hv as [Hv|Hv]; [by left | right]. rewrite Hv at 1. symmetry. apply node_same. by apply (ch_same _ _ _ _ _ Hc).
Qed.

(** The slot of the inode that changed holds its new contents. *)
Lemma synced_insert fs d ip d' :
  let x := inodep fs ip in
  sound fs d → (ip < length (icache fs))%nat → 0 < i_ref x → changed sb dev d (i_inum x) d' →
  synced sb dev d' (<[ip := node d' (i_inum x) (i_ref x)]> (icache fs)).
Proof.
  intros x Hs Hip Hr Hc. set (i := i_inum x) in *. pose proof (so_sync _ _ _ _ Hs) as Hsy.
  pose proof (total_ref sb dev fs d ip Hs Hip) as Hrr. fold x in Hrr.
  destruct (slot_sync sb dev fs d ip Hs Hip Hr) as (Hd & Hl & _). fold x in Hd, Hl. fold i in Hl.
  set (ic0 := <[ip := set_valid x 0]> (icache fs)).
  assert (∀ k z, icache fs !! k = Some z → k ≠ ip → ¬ in_use dev i z) as Hother
    by (intros k z Hz Hk; exact (synced_other sb dev d (icache fs) ip k z Hsy Hip Hr Hz Hk)).
  assert (synced sb dev d ic0) as Hy0.
  { apply synced_put; [done | done | exact Hrr | intros _; split; [done|]; split; [done | by left] | intros k z Hz Hk _; exact (Hother k z Hz Hk)]. }
  assert (synced sb dev d' ic0) as Hy1.
  { apply (synced_change d d' ic0 i Hy0 Hc). intros j Hj Ei Hrj. unfold ic0 in *. rewrite length_insert in Hj.
    destruct (decide (j = ip)) as [->|Hne]; [left; by rewrite list_lookup_total_insert_eq|].
    rewrite list_lookup_total_insert_ne in Ei, Hrj by done. pose proof (list_lookup_lookup_total_lt _ _ Hj) as Ej.
    destruct (Hother j _ Ej Hne). split; [done|]. destruct (sy_slot _ _ _ _ Hsy j Hj Hrj) as (Hdj & _). by split. }
  replace (<[ip := _]> (icache fs)) with (<[ip := node d' i (i_ref x)]> ic0) by (unfold ic0; by rewrite list_insert_insert_eq).
  apply synced_put; [done | unfold ic0; by rewrite length_insert | exact Hrr | |].
  - intros _. split; [done|]. split; [by apply Hc | by right].
  - intros k z Hz Hk _. unfold ic0 in Hz. rewrite list_lookup_insert_ne in Hz by done. exact (Hother k z Hz Hk).
Qed.

(** What a write leaves in slot [ip]: the same inode with other contents. *)
Record written fs d ip fs' d' : Prop := {
  wn_fsi : fsi sb dev fs' d';
  wn_cache : icache fs' = <[ip := inodep fs' ip]> (icache fs);
  wn_fields : inodep fs' ip = set_size (with_addrs (inodep fs ip) (i_addrs (inodep fs' ip))) (i_size (inodep fs' ip));
  wn_wf : file_wf sb dev d' (inodep fs' ip);
  wn_full : no_holes dev d' (inodep fs' ip);
  wn_kept : others_kept sb dev d (inodep fs ip) d' (inodep fs' ip);
  wn_saved : disk_inode d (i_inum (inodep fs ip)) = dinode_of (inodep fs ip) →
    disk_inode d' (i_inum (inodep fs ip)) = dinode_of (inodep fs' ip);
  wn_others : ∀ j, 0 ≤ j < sb_ninodes sb → j ≠ i_inum (inodep fs ip) → disk_inode d' j = disk_inode d j
}.

Lemma written_changed fs d ip fs' d' :
  let x := inodep fs ip in
  let i := i_inum x in
  sound fs d → (ip < length (icache fs))%nat → 0 < i_ref x → i_valid x ≠ 0 → is_dir sb dev d i = false →
  written fs d ip fs' d' →
  changed sb dev d i d' ∧ inodep fs' ip = node d' i (i_ref x) ∧ is_dir sb dev d' i = false ∧ sound fs' d'.
Proof.
  intros x i Hs Hip Hr Hv Hnd [W1 W2 W3 W4 W5 W6 W7 W8]. fold x in W3, W6, W7, W8. fold i in W7, W8.
  destruct (slot_node fs d ip Hs Hip Hr Hv) as (Ex & Hl). fold x in Ex, Hl. fold i in Ex, Hl.
  set (x' := inodep fs' ip) in *.
  assert (i_dev x = dev ∧ i_valid x = 1) as (Exd & Exv) by (rewrite Ex; done).
  assert (disk_inode d' i = dinode_of x') as Ed.
  { apply W7. rewrite Ex. symmetry. apply dinode_node. }
  assert (node d' i (i_ref x) = x') as En.
  { assert (i_inum x' = i ∧ i_ref x' = i_ref x) as (E1 & E2) by (by rewrite W3). rewrite <- E1, <- E2.
    apply node_saved; [by rewrite W3 | by rewrite W3 | by rewrite E1]. }
  assert (di_type (disk_inode d' i) = di_type (disk_inode d i) ∧ di_nlink (disk_inode d' i) = di_nlink (disk_inode d i))
    as (Ety & Enl) by (rewrite Ed, W3, Ex; done).
  assert (linked d' i) as Hl' by (split; [apply Hl | by rewrite Ety, Enl; apply Hl]).
  assert (is_dir sb dev d' i = false) as Hnd' by (unfold is_dir; rewrite Ety; exact Hnd).
  assert (file_wf sb dev d' (node d' i 0) ∧ no_holes dev d' (node d' i 0) ∧
    others_kept sb dev d (node d i 0) d' (node d' i 0)) as (G1 & G2 & G3).
  { assert (node d' i 0 = set_ref x' 0) as -> by (by rewrite <- En).
    assert (node d i 0 = set_ref x 0) as -> by (by rewrite Ex).
    split; [by apply file_wf_ref | by split]. }
  assert (changed sb dev d i d') as Hc.
  { split; try done.
    - intros j Hj Hne. apply W8; [apply Hj | done].
    - intros j Hj Hn. destruct Hn. destruct (decide (j = i)) as [->|Hne]; [done|].
      split; [apply Hj|]. rewrite <- (W8 j); [apply Hj | apply Hj | done].
    - congruence.
    - congruence. }
  split; [done|]. split; [done|]. split; [done|]. split; [done | by apply (changed_tree sb dev d i d'), Hs |].
  rewrite W2, <- En. by apply (synced_insert fs d).
Qed.

Lemma written_refl fs d ip :
  fsi sb dev fs d → (ip < length (icache fs))%nat → file_wf sb dev d (inodep fs ip) → no_holes dev d (inodep fs ip) →
  written fs d ip fs d.
Proof.
  intros Hf Hip Hwf Hn. split; try done.
  - symmetry. apply list_insert_id. by apply list_lookup_lookup_total_lt.
  - by destruct (inodep fs ip).
Qed.

Lemma written_trans fs d ip fs1 d1 fs2 d2 :
  written fs d ip fs1 d1 → written fs1 d1 ip fs2 d2 → written fs d ip fs2 d2.
Proof.
  intros [A1 A2 A3 A4 A5 A6 A7 A8] [B1 B2 B3 B4 B5 B6 B7 B8].
  assert (i_inum (inodep fs1 ip) = i_inum (inodep fs ip)) as Ei by (by rewrite A3).
  rewrite Ei in B7, B8. split; [done | | | done | done | by eapply others_kept_trans | | ].
  - rewrite B2, A2. by rewrite list_insert_insert_eq.
  - rewrite B3 at 1. rewrite A3. done.
  - intros E. by apply B7, A7.
  - intros j Hj Hne. rewrite B8, A8 by done. done.
Qed.

(** [writei] of bytes that fit. *)
Lemma writei_written e fs d ip off src :
  let x := inodep fs ip in
  let n := Z.of_nat (length src) in
  fsi sb dev fs d → (ip < length (icache fs))%nat → file_wf sb dev d x → no_holes dev d x → meta_ok x →
  i_type x ≠ T_DEV → 0 ≤ off ≤ i_size x → off + n ≤ MAXFILE * BSIZE →
  has_free sb dev d (nblocks off (off + n) + e + ind_need x) →
  ∃ fs' d', writei fs ip src off n = Ok (fs', n) ∧ written fs d ip fs' d' ∧
    let x' := inodep fs' ip in
    i_size x' = Z.max (i_size x) (off + n) ∧ wrote dev d x d' x' off src ∧
    has_free sb dev d' (e + ind_need x').
Proof.
  intros x n Hfs Hip Hwf Hnh Hm Ht Ho Hend Hfree.
  destruct (writei_spec_free sb Hsb dev Hdev e fs d ip off src Hfs Hip Hwf Hnh Hm Ht Ho Hend Hfree)
    as (fs' & d' & E & Q1 & Q2 & Q3 & Q4 & Q5 & Q6 & Q7 & Q8 & _ & Q9 & s & Q10 & Q11 & Q12).
  exists fs', d'. split; [exact E|]. split; [|done]. split; [done | | done | done | done | done | | done].
  - rewrite Q10 at 1. done.
  - fold x. intros Hsv. destruct (decide (i_size x < off + n)) as [Hlt|Hge]; [by apply Q6|].
    destruct Q12 as (Ex & Ed); [fold x n; lia|].
    transitivity (disk_inode d (i_inum x)); [exact Ed|]. rewrite Hsv. f_equal. exact (eq_sym Ex).
Qed.
End caches.
