(* ===== verification/File.v ===== *)
(** fs/file.c: the table of open files.  A file is a slot of the inode cache
    with an offset and access rights; several descriptors share it. *)
From S2P Require Import Prelude LibC Ports Ide Block Bio FsLayout Fs FsDir FsBlocks FsFile FsRw FsProps FsDirProps FsTree FsSound.

Inductive fdtype := FD_NONE | FD_PIPE | FD_INODE.
#[export] Instance fdtype_eq_dec : EqDecision fdtype.
Proof. solve_decision. Defined.

(** [struct file]; the pipe pointer is not used by any function, and [f_ip] is
    only read when the type is [FD_INODE]. *)
Record file := mk_file {
  f_type : fdtype; f_ref : Z; f_readable : Z; f_writable : Z; f_ip : nat; f_off : Z
}.
#[export] Instance file_inhabited : Inhabited file := populate (mk_file FD_NONE 0 0 0 0 0).

Definition NFILE : nat := 100.
Definition MAXOPBLOCKS : Z := 10.

Definition fset_ref (f : file) (v : Z) : file :=
  mk_file (f_type f) v (f_readable f) (f_writable f) (f_ip f) (f_off f).
Definition fset_off (f : file) (v : Z) : file :=
  mk_file (f_type f) (f_ref f) (f_readable f) (f_writable f) (f_ip f) v.
Definition fset_type (f : file) (v : fdtype) : file :=
  mk_file v (f_ref f) (f_readable f) (f_writable f) (f_ip f) (f_off f).

(** The file system and [ftable.file]. *)
Record fio (S : Type) := mk_fio { y_fs : fsys S; ftable : list file }.
Arguments mk_fio {S} _ _.
Arguments y_fs {S} _.
Arguments ftable {S} _.

(** The scan of [filealloc]. *)
Fixpoint free_file (fs : list file) (i : nat) : option nat :=
  match fs with
  | [] => None
  | f :: fs' => if f_ref f =? 0 then Some i else free_file fs' (i + 1)
  end.

Section file.
Context {S : Type} `{BlockOps S}.
Implicit Types (y : fio S) (f : nat).

Definition filep y f : file := ftable y !!! f.
Definition upd_file y f (g : file → file) : fio S := mk_fio (y_fs y) (alter g f (ftable y)).
Definition set_fs y (fs : fsys S) : fio S := mk_fio fs (ftable y).
Definition yprint y (msg : string) : fio S := set_fs y (fprint (y_fs y) msg).

Definition filealloc y : fio S * option nat :=
match free_file (ftable y) 0 with
| Some f => (upd_file y f (λ x, fset_ref x 1), Some f)
| None => (y, None)
end.

Definition filedup y f : fio S * nat := (upd_file y f (λ x, fset_ref x (s32 (f_ref x + 1))), f).

Definition fileclose y f : res (fio S) :=
let y := upd_file y f (λ x, fset_ref x (s32 (f_ref x - 1))) in
if 0 <? f_ref (filep y f) then Ok y
else
  let ff := filep y f in
  let y := upd_file y f (λ x, fset_type (fset_ref x 0) FD_NONE) in
  if decide (f_type ff = FD_INODE) then
    let* fs := iput (y_fs y) (f_ip ff) in Ok (set_fs y fs)
  else Ok y.

(** The value returned, and what is stored at [st]. *)
Definition filestat y f : res (fio S * Z * option stat) :=
let x := filep y f in
if decide (f_type x = FD_INODE) then
  let* fs := ilock (y_fs y) (f_ip x) in
  let st := stati fs (f_ip x) in
  Ok (set_fs y (iunlock fs (f_ip x)), 0, Some st)
else Ok (y, -1, None).

(** The value returned, and the bytes stored at [addr]. *)
Definition fileread y f (n : Z) : res (fio S * Z * list Z) :=
let x := filep y f in
if f_readable x =? 0 then Ok (y, -1, [])
else if decide (f_type x = FD_INODE) then
  let* fs := ilock (y_fs y) (f_ip x) in
  let* rd := readi fs (f_ip x) (f_off x) (u32 n) in
  let '(fs, bytes, r) := rd in
  let y := set_fs y fs in
  let y := if 0 <? r then upd_file y f (λ x, fset_off x (u32 (f_off x + r))) else y in
  Ok (set_fs y (iunlock (y_fs y) (f_ip x)), r, bytes)
else Ok (yprint y "fileread", -1, []).

(** One turn of the loop of [filewrite]; [src] are the [n] bytes at [addr]. *)
Definition filewrite_step f (src : list Z) (n : Z) '((y, i) : fio S * Z)
  : res (fio S * Z + fio S * Z) :=
let ip := f_ip (filep y f) in
let max := cquot (MAXOPBLOCKS - 1 - 1 - 2) 2 * 512 in
if i <? n then
  let n1 := if max <? n - i then max else n - i in
  let* fs := ilock (y_fs y) ip in
  let* w := writei fs ip (take (Z.to_nat n1) (drop (Z.to_nat i) src)) (f_off (filep y f)) (u32 n1) in
  let '(fs, r) := w in
  let y := set_fs y fs in
  let y := if 0 <? r then upd_file y f (λ x, fset_off x (u32 (f_off x + r))) else y in
  let y := set_fs y (iunlock (y_fs y) ip) in
  if r <? 0 then Ok (inr (y, i))
  else
    let y := if r =? n1 then y else yprint y "short filewrite" in
    Ok (inl (y, s32 (i + r)))
else Ok (inr (y, i)).

Definition filewrite y f (src : list Z) (n : Z) : res (fio S * Z) :=
let x := filep y f in
if f_writable x =? 0 then Ok (y, -1)
else if decide (f_type x = FD_INODE) then
  let* r := while (2 ^ 31) (filewrite_step f src n) (y, 0) in
  let '(y, i) := r in
  Ok (y, if i =? n then n else -1)
else Ok (yprint y "filewrite", -1).
End file.

(** * Allocation *)

Lemma free_file_spec l k i :
  free_file l k = Some i →
  ∃ j x, i = (k + j)%nat ∧ l !! j = Some x ∧ f_ref x = 0 ∧
    ∀ j' y, (j' < j)%nat → l !! j' = Some y → f_ref y ≠ 0.
Proof.
  revert k. induction l as [|f l IH]; intros k; cbn [free_file]; [done|].
  destruct (Z.eqb_spec (f_ref f) 0) as [E|N].
  - intros [= <-]. exists 0%nat, f. split; [lia|]. split; [done|]. split; [done|]. lia.
  - intros (j & x & -> & Hx & E & Hj)%IH. exists (Datatypes.S j), x.
    split; [lia|]. split; [done|]. split; [done|]. intros [|j'] y Hlt Hy; [by injection Hy as <-|].
    apply (Hj j' y); [lia | done].
Qed.

Lemma free_file_none l k : free_file l k = None → ∀ j x, l !! j = Some x → f_ref x ≠ 0.
Proof.
  revert k. induction l as [|f l IH]; intros k; cbn [free_file]; [done|].
  destruct (Z.eqb_spec (f_ref f) 0) as [E|N]; [done|]. intros Hn [|j] x Hx; [by injection Hx as <-|].
  by apply (IH _ Hn j x).
Qed.

Section file_lemmas.
Context {S : Type} `{BlockOps S}.
Implicit Types (y : fio S) (f : nat).

Lemma filep_upd y f g :
(f < length (ftable y))%nat → filep (upd_file y f g) f = g (filep y f).
Proof.
intros Hf. unfold filep, upd_file. cbn [ftable].
rewrite !list_lookup_total_alt, list_lookup_alter, decide_True by done.
apply lookup_lt_is_Some_2 in Hf as (x & ->). done.
Qed.

Lemma filep_upd_ne y f g f' : f' ≠ f → filep (upd_file y f g) f' = filep y f'.
Proof. intros Hne. unfold filep, upd_file. cbn [ftable]. by rewrite list_lookup_total_alter_ne. Qed.

(** [filealloc] hands out the first slot that nobody uses, with one user,
  and leaves the other slots alone; it returns null exactly when every slot
  is in use. *)
Theorem filealloc_first y :
match filealloc y with
| (y', Some f) =>
    (f < length (ftable y))%nat ∧ f_ref (filep y f) = 0 ∧
    (∀ j, (j < f)%nat → f_ref (filep y j) ≠ 0) ∧
    filep y' f = fset_ref (filep y f) 1 ∧ (∀ j, j ≠ f → filep y' j = filep y j) ∧
    y_fs y' = y_fs y
| (y', None) => y' = y ∧ ∀ j, (j < length (ftable y))%nat → f_ref (filep y j) ≠ 0
end.
Proof.
unfold filealloc. destruct (free_file (ftable y) 0) as [f|] eqn:E.
- apply free_file_spec in E as (j & x & -> & Hx & Ex & Hj). cbn [Nat.add].
  pose proof (lookup_lt_Some _ _ _ Hx) as Hlt.
  assert (filep y j = x) as Ey by (by apply list_lookup_total_correct).
  split; [done|]. split; [by rewrite Ey|]. split.
  + intros k Hk. destruct (lookup_lt_is_Some_2 (ftable y) k) as (z & Hz); [lia|].
    unfold filep. rewrite (list_lookup_total_correct _ _ _ Hz). by apply (Hj k).
  + split; [by apply filep_upd|]. split; [|done]. intros k Hk. by apply filep_upd_ne.
- split; [done|]. intros j Hj. destruct (lookup_lt_is_Some_2 (ftable y) j Hj) as (z & Hz).
  unfold filep. rewrite (list_lookup_total_correct _ _ _ Hz). by eapply free_file_none.
Qed.

Lemma fileclose_counts_spec y f :
(f < length (ftable y))%nat → 1 ≤ f_ref (filep y f) < 2 ^ 31 - 1 →
(let '(y1, _) := filedup y f in fileclose y1 f = Ok y) ∧
(1 < f_ref (filep y f) →
   ∃ y', fileclose y f = Ok y' ∧ y_fs y' = y_fs y ∧
     filep y' f = fset_ref (filep y f) (f_ref (filep y f) - 1)) ∧
(f_ref (filep y f) = 1 →
   fileclose y f =
     (let y' := upd_file y f (λ x, fset_type (fset_ref x 0) FD_NONE) in
      if decide (f_type (filep y f) = FD_INODE) then
        let* fs := iput (y_fs y) (f_ip (filep y f)) in Ok (set_fs y' fs)
      else Ok y')).
Proof.
intros Hf Hr. destruct (lookup_lt_is_Some_2 _ _ Hf) as (x & Hx).
assert (filep y f = x) as Ex by (by apply list_lookup_total_correct). rewrite Ex in *.
split; [|split].
- unfold filedup, fileclose. rewrite !filep_upd by (cbn; by rewrite ?length_alter).
  cbn [f_ref fset_ref]. rewrite Ex. rewrite (s32_small (f_ref x + 1)) by lia.
  rewrite s32_small by lia. rewrite (proj2 (Z.ltb_lt _ _)) by lia. f_equal.
  unfold upd_file. cbn. destruct y as [fs ft]. f_equal. cbn in *.
  apply list_eq. intros j. rewrite !list_lookup_alter.
  destruct (decide (f = j)) as [<-|]; [|done]. rewrite Hx, decide_True by done.
  cbn [fmap option_fmap option_map]. unfold fset_ref. cbn [f_ref f_type f_readable f_writable f_ip f_off].
  rewrite (s32_small (f_ref x + 1)), s32_small by lia. destruct x; cbn. do 2 f_equal. lia.
- intros H1. unfold fileclose. rewrite !filep_upd by done. cbn [f_ref fset_ref]. rewrite Ex.
  rewrite s32_small, (proj2 (Z.ltb_lt _ _)) by lia. eexists; split; [reflexivity|].
  split; [done|]. rewrite filep_upd, Ex by done. by rewrite s32_small by lia.
- intros H1. unfold fileclose. rewrite !filep_upd by done. cbn [f_ref fset_ref]. rewrite Ex, H1.
  change (s32 (1 - 1)) with 0. cbn [Z.ltb Z.compare f_type f_ip fset_ref].
  change (y_fs (upd_file (upd_file y f _) f _)) with (y_fs y).
  assert (upd_file (upd_file y f (λ x0, fset_ref x0 (s32 (f_ref x0 - 1)))) f
    (λ x0, fset_type (fset_ref x0 0) FD_NONE) =
    upd_file y f (λ x0, fset_type (fset_ref x0 0) FD_NONE)) as ->; [|done].
  unfold upd_file. cbn. f_equal. by rewrite alter_alter.
Qed.

(** C38. [filedup] and [fileclose] count: a close of a file with more users, or
  after a dup, only lowers the count; the last close frees the slot and
  gives its inode to [iput]. *)
Theorem fileclose_counts y f :
(f < length (ftable y))%nat → 1 ≤ f_ref (filep y f) < 2 ^ 31 - 1 →
(let '(y1, _) := filedup y f in fileclose y1 f = Ok y) ∧
(1 < f_ref (filep y f) →
   ∃ y', fileclose y f = Ok y' ∧ y_fs y' = y_fs y ∧
     filep y' f = fset_ref (filep y f) (f_ref (filep y f) - 1)) ∧
(f_ref (filep y f) = 1 →
   fileclose y f =
     (let y' := upd_file y f (λ x, fset_type (fset_ref x 0) FD_NONE) in
      if decide (f_type (filep y f) = FD_INODE) then
        let* fs := iput (y_fs y) (f_ip (filep y f)) in Ok (set_fs y' fs)
      else Ok y')).
Proof. apply fileclose_counts_spec. Qed.
End file_lemmas.

(** * Reading and writing through an open file *)

Section io.
Context {S : Type} `{BlockLayer S}.
Context (sb : superblock) (Hsb : sb_wf sb) (dev : Z) (Hdev : 0 ≤ dev < 2).
Implicit Types (y : fio S) (f : nat) (d : disk).

(** An open file that is not a device: its inode is in the cache, loaded and
  in use, and its offset is inside the contents. *)
Record open_ok y d f : Prop := {
oo_slot : (f < length (ftable y))%nat;
oo_type : f_type (filep y f) = FD_INODE;
oo_fsi : fsi sb dev (y_fs y) d;
oo_ip : (f_ip (filep y f) < length (icache (y_fs y)))%nat;
oo_ref : 1 ≤ i_ref (inodep (y_fs y) (f_ip (filep y f)));
oo_valid : i_valid (inodep (y_fs y) (f_ip (filep y f))) ≠ 0;
oo_wf : file_wf sb dev d (inodep (y_fs y) (f_ip (filep y f)));
oo_full : no_holes dev d (inodep (y_fs y) (f_ip (filep y f)));
oo_meta : meta_ok (inodep (y_fs y) (f_ip (filep y f)));
oo_nodev : i_type (inodep (y_fs y) (f_ip (filep y f))) ≠ T_DEV;
oo_off : 0 ≤ f_off (filep y f) ≤ i_size (inodep (y_fs y) (f_ip (filep y f)))
}.

Lemma upd_off_spec y f r :
(f < length (ftable y))%nat → 0 ≤ f_off (filep y f) → 0 ≤ r → f_off (filep y f) + r < 2 ^ 32 →
let y' := if 0 <? r then upd_file y f (λ x, fset_off x (u32 (f_off x + r))) else y in
y_fs y' = y_fs y ∧ length (ftable y') = length (ftable y) ∧
filep y' f = fset_off (filep y f) (f_off (filep y f) + r) ∧
∀ f', f' ≠ f → filep y' f' = filep y f'.
Proof.
intros Hf Ho Hr Hlt. destruct (Z.ltb_spec 0 r) as [Hpos|Hz].
- split; [done|]. split; [cbn; by rewrite length_alter|]. split.
  + rewrite filep_upd by done. by rewrite u32_small by lia.
  + intros. by apply filep_upd_ne.
- assert (r = 0) as -> by lia. do 2 (split; [done|]). split; [|done].
  rewrite Z.add_0_r. by destruct (filep y f).
Qed.

(** [fileread] of an open file returns the bytes of the file from the
  offset on, as many as asked for or as there are, and advances the offset
  by them; nothing else of the file table, and nothing on the disk,
  changes. *)
Lemma fileread_spec y d f n :
let x := filep y f in
let ip := inodep (y_fs y) (f_ip x) in
open_ok y d f → f_readable x ≠ 0 → 0 ≤ n < 2 ^ 31 →
let m := Z.min n (i_size ip - f_off x) in
∃ y', fileread y f n = Ok (y', m, file_bytes dev d ip (f_off x) (Z.to_nat m)) ∧
  bl_rep (f_blk (y_fs y')) d ∅ ∧ icache (y_fs y') = icache (y_fs y) ∧
  filep y' f = fset_off x (f_off x + m) ∧ (∀ f', f' ≠ f → filep y' f' = filep y f') ∧
  length (ftable y') = length (ftable y) ∧ f_sb (y_fs y') = f_sb (y_fs y).
Proof.
intros x ip [O1 O2 O3 O4 O5 O6 O7 O8 O9 O10 O11] Hread Hn m. fold x in O2, O4, O5, O6, O7, O8, O9, O10, O11.
fold ip in O5, O6, O7, O8, O9, O10, O11.
pose proof (fw_size _ _ _ _ O7) as Hs. change (MAXFILE * BSIZE) with 71680 in Hs.
unfold fileread. fold x. rewrite (proj2 (Z.eqb_neq _ _) Hread), decide_True by done.
rewrite ilock_valid by done. cbn [rbind]. rewrite u32_small by lia.
destruct (readi_spec sb Hsb dev Hdev (y_fs y) d (f_ip x) (f_off x) n)
  as (s & -> & Hr); [done | done | done | done | done | lia | lia |]. fold ip m. cbn [rbind].
set (y1 := set_fs y (set_blk (y_fs y) s)).
assert (0 ≤ m ≤ i_size ip) as Hm by (unfold m; lia).
assert (filep y1 f = x) as Ex by done.
destruct (upd_off_spec y1 f m) as (E1 & E2 & E3 & E4); [done | rewrite Ex; lia | lia | rewrite Ex; lia |].
rewrite Ex in E3.
set (y2 := if 0 <? m then _ else _) in *.
eexists; split; [reflexivity|]. rewrite iunlock_live by (rewrite E1; exact O5). cbn. rewrite E1.
split; [done|]. split; [done|]. split; [done|]. split; [done|]. by split.
Qed.

(** * filewrite *)

(** How many turns the loop takes for [n] bytes. *)
Definition nchunks (n : Z) : nat := Z.to_nat ((n + 1535) / 1536).

Lemma nblocks_chunk off k : 0 ≤ off → 0 ≤ k ≤ 1536 → (nblocks off (off + k) ≤ 4)%nat.
Proof. intros Ho Hk. unfold nblocks, BSIZE. case_decide; [zlia | lia]. Qed.

(** How many of [n] bytes are stored at [off]: all, or the chunks that fit in a
  file of the largest size. *)
Definition stored (off n : Z) : Z :=
if decide (off + n ≤ MAXFILE * BSIZE) then n else (MAXFILE * BSIZE - off) / 1536 * 1536.

(** After [i] bytes of [src] were written. *)
Definition wrote_upto y d f (src : list Z) '((y', i) : fio S * Z) : Prop :=
∃ d', let x := inodep (y_fs y) (f_ip (filep y f)) in
  let x' := inodep (y_fs y') (f_ip (filep y f)) in
  0 ≤ i ≤ Z.of_nat (length src) ∧ (i = Z.of_nat (length src) ∨ i mod 1536 = 0) ∧
  f_off (filep y f) + i ≤ MAXFILE * BSIZE ∧ open_ok y' d' f ∧
  filep y' f = fset_off (filep y f) (f_off (filep y f) + i) ∧
  length (ftable y') = length (ftable y) ∧
  (∀ f', f' ≠ f → filep y' f' = filep y f') ∧
  wrote dev d x d' x' (f_off (filep y f)) (take (Z.to_nat i) src) ∧
  i_size x' = Z.max (i_size x) (f_off (filep y f) + i) ∧
  written sb dev (y_fs y) d (f_ip (filep y f)) (y_fs y') d' ∧
  has_free sb dev d' (4 * nchunks (stored (f_off (filep y f)) (Z.of_nat (length src)) - i) + ind_need x').

(** [writei] of bytes beyond the largest size does nothing. *)
Lemma writei_big fs ip off n src :
i_type (inodep fs ip) ≠ T_DEV → 0 ≤ off → off + n < 2 ^ 32 → MAXFILE * BSIZE < off + n →
writei fs ip src off n = Ok (fs, -1).
Proof.
intros Ht Ho Hlt Hbig. unfold writei. rewrite (proj2 (Z.eqb_neq _ _)) by done.
change (MAXFILE * BSIZE) with 71680 in *. rewrite u32_small by lia. rewrite (proj2 (Z.ltb_lt 71680 (off + n))) by lia.
by destruct (_ || _).
Qed.

(** The chunk of [n1] bytes after [i] bytes: either it passes the largest size, and
  [i] bytes are all that is stored, or it is one of the chunks to come. *)
Lemma chunk_fits off n i n1 :
0 ≤ off → 0 ≤ i < n → i mod 1536 = 0 → off + i ≤ MAXFILE * BSIZE →
0 < n1 ≤ 1536 → n1 ≤ n - i → n1 = n - i ∨ n1 = 1536 →
if decide (MAXFILE * BSIZE < off + i + n1) then i = stored off n
else nchunks (stored off n - i) = (1 + nchunks (stored off n - i - n1))%nat ∧ (i + n1 = n ∨ (i + n1) mod 1536 = 0).
Proof.
unfold stored. change (MAXFILE * BSIZE) with 71680. intros Hoff Hi Hmod Hin Hn1 Hle Hc. case_decide as Hbig.
{ rewrite decide_False by lia. zlia. }
split; [|destruct Hc; [left; lia | right; zlia]].
set (m := if decide _ then n else _).
assert (n1 = m - i ∨ n1 = 1536 ∧ 1536 ≤ m - i) as Hm.
{ unfold m. case_decide; [destruct Hc; lia|]. right. split; [lia | zlia]. }
revert Hm. clearbody m. unfold nchunks. generalize (m - i). intros k Hk0. destruct Hk0 as [->|(-> & Hk0)].
- assert ((k + 1535) / 1536 = 1 ∧ (k - k + 1535) / 1536 = 0) as (-> & ->) by zlia. lia.
- assert ((k + 1535) / 1536 = 1 + (k - 1536 + 1535) / 1536) by zlia.
  assert (0 ≤ (k - 1536 + 1535) / 1536) by zlia. lia.
Qed.

(** A write to the inode of an open file, which stays open at another offset. *)
Lemma open_written y d f y' d' o :
open_ok y d f → written sb dev (y_fs y) d (f_ip (filep y f)) (y_fs y') d' →
length (ftable y') = length (ftable y) → filep y' f = fset_off (filep y f) o →
0 ≤ o ≤ i_size (inodep (y_fs y') (f_ip (filep y f))) → open_ok y' d' f.
Proof.
intros [O1 O2 O3 O4 O5 O6 O7 O8 O9 O10 O11] Hwr El Ef Ho. pose proof (wn_fields _ _ _ _ _ _ _ Hwr) as Ex.
split; rewrite ?El, ?Ef; cbn [f_type f_ip f_off fset_off]; try done; [apply Hwr | | | | apply Hwr | apply Hwr | |].
- rewrite (wn_cache _ _ _ _ _ _ _ Hwr). by rewrite length_insert.
- by rewrite Ex.
- by rewrite Ex.
- rewrite Ex. destruct O9 as [M1 M2 M3 M4]. by split.
- by rewrite Ex.
Qed.

Lemma filewrite_turn y d f src st :
let n := Z.of_nat (length src) in
let off := f_off (filep y f) in
0 ≤ off → n < 2 ^ 31 → wrote_upto y d f src st → st.2 < n →
(∃ st', filewrite_step f src n st = Ok (inl st') ∧ wrote_upto y d f src st' ∧ n - st'.2 < n - st.2) ∨
filewrite_step f src n st = Ok (inr st) ∧ st.2 = stored off n.
Proof.
intros n off Hoff0 Hn31 Hst Hlt. destruct st as [y1 i]. cbn [snd] in *.
destruct Hst as (d1 & Hi & Hmod & Hin & Hop & Ef & Hft & Hf' & Hw & Hsz & Hwr & Hfree). fold n off in Hi, Hmod, Hin, Hfree.
pose proof Hop as [O1 O2 O3 O4 O5 O6 O7 O8 O9 O10 O11].
rewrite Ef in O2, O4, O5, O6, O7, O8, O9, O10, O11. cbn [f_ip f_off f_type fset_off] in *.
set (ip := f_ip (filep y f)) in *. fold off in O11, Ef, Hw, Hsz.
set (x := inodep (y_fs y) ip) in *. set (x1 := inodep (y_fs y1) ip) in *.
unfold filewrite_step. rewrite Ef. cbn [f_ip f_off fset_off]. fold ip off.
change (cquot (MAXOPBLOCKS - 1 - 1 - 2) 2 * 512) with 1536.
rewrite (proj2 (Z.ltb_lt i n)) by done.
set (n1 := if 1536 <? n - i then 1536 else n - i).
assert (0 < n1 ≤ 1536 ∧ n1 ≤ n - i ∧ (n1 = n - i ∨ n1 = 1536)) as (Hn1 & Hn1i & Hn1c)
  by (unfold n1; destruct (Z.ltb_spec 1536 (n - i)); lia).
rewrite ilock_valid by done. cbn [rbind].
set (src1 := take (Z.to_nat n1) (drop (Z.to_nat i) src)).
assert (Z.of_nat (length src1) = n1) as Hl1
  by (unfold src1; rewrite length_take, length_drop; lia).
pose proof (chunk_fits off n i n1 Hoff0 ltac:(lia) ltac:(lia) Hin Hn1 Hn1i Hn1c) as Hch.
change (MAXFILE * BSIZE) with 71680 in *. rewrite u32_small by lia. case_decide as Hbig.
{ right. rewrite writei_big by (done || change (MAXFILE * BSIZE) with 71680; lia). cbn [rbind fst snd Z.ltb Z.compare].
  rewrite iunlock_live by exact O5. split; [by destruct y1 | done]. }
left. destruct Hch as (Hch & Hmod2). set (m := stored off n) in *.
destruct (writei_written sb Hsb dev Hdev (4 * nchunks (m - i - n1)) (y_fs y1) d1 ip (off + i) src1)
  as (fs2 & d2 & E2 & Hwr2 & Hsz2 & Hw2 & Hfree2); try done.
{ rewrite Hl1. change (MAXFILE * BSIZE) with 71680. lia. }
{ apply has_free_le with (4 * nchunks (m - i) + ind_need x1)%nat; [done|]. fold x1. rewrite Hl1.
  pose proof (nblocks_chunk (off + i) n1). lia. }
fold x1 in Hsz2, Hw2. rewrite Hl1 in E2, Hsz2. rewrite E2. cbn [rbind].
set (y2 := set_fs y1 fs2).
destruct (upd_off_spec y2 f n1) as (F1 & F2 & F3 & F4);
  [done | change (filep y2 f) with (filep y1 f); rewrite Ef; cbn; lia | lia
  | change (filep y2 f) with (filep y1 f); rewrite Ef; cbn; fold off; lia |].
change (filep y2 f) with (filep y1 f) in F3.
set (y3 := if 0 <? n1 then _ else _) in *. change (y_fs y2) with fs2 in F1.
assert (1 ≤ i_ref (inodep fs2 ip)) as Hr2 by (rewrite (wn_fields _ _ _ _ _ _ _ Hwr2); exact O5).
rewrite F1, iunlock_live by done. rewrite (proj2 (Z.ltb_ge n1 0)), Z.eqb_refl by lia.
rewrite s32_small by lia. eexists; split; [reflexivity|]. split; [|cbn; lia].
rewrite Ef in F3. cbn [f_off fset_off] in F3. fold off in F3.
assert (open_ok (set_fs y3 fs2) d2 f) as Hop3.
{ apply (open_written y1 d1 f _ _ (off + i + n1)); rewrite ?Ef; cbn [f_ip fset_off]; fold ip; try done.
  cbn [y_fs set_fs]. rewrite Hsz2. lia. }
exists d2. cbn [y_fs set_fs]. fold ip off x n. set (x2 := inodep fs2 ip) in *.
change (filep (set_fs y3 fs2)) with (filep y3). change (ftable (set_fs y3 fs2)) with (ftable y3).
change (MAXFILE * BSIZE) with 71680.
split; [lia|]. split; [done|]. split; [lia|]. split; [done|].
split; [rewrite F3; unfold fset_off; cbn; f_equal; lia|].
split; [by rewrite F2|]. split; [intros f' Hne; rewrite F4 by done; by apply Hf'|].
split.
{ replace (Z.to_nat (i + n1)) with (Z.to_nat i + Z.to_nat n1)%nat by lia.
  rewrite <- take_drop_app. eapply wrote_app; [exact Hw|].
  rewrite length_take. replace (Z.of_nat (Z.to_nat i `min` length src)) with i by lia. done. }
split; [lia|]. split; [by eapply written_trans|].
fold m. replace (m - (i + n1)) with (m - i - n1) by lia. exact Hfree2.
Qed.

(** [filewrite] of an open file stores the bytes at the offset, chunk by chunk,
  until one would pass the largest size; it extends the file, advances the
  offset by the bytes stored, and answers -1 unless all were; no other open
  file, no other inode and no block of another file changes. *)
Lemma filewrite_all y d f src :
let n := Z.of_nat (length src) in
let off := f_off (filep y f) in
let m := stored off n in
let x := inodep (y_fs y) (f_ip (filep y f)) in
open_ok y d f → f_writable (filep y f) ≠ 0 → n < 2 ^ 31 → has_free sb dev d (4 * nchunks m + ind_need x) →
∃ y' d', filewrite y f src n = Ok (y', if m =? n then n else -1) ∧ open_ok y' d' f ∧
  let x' := inodep (y_fs y') (f_ip (filep y f)) in
  0 ≤ m ≤ n ∧ filep y' f = fset_off (filep y f) (off + m) ∧ length (ftable y') = length (ftable y) ∧
  (∀ f', f' ≠ f → filep y' f' = filep y f') ∧
  i_size x' = Z.max (i_size x) (off + m) ∧ wrote dev d x d' x' off (take (Z.to_nat m) src) ∧
  written sb dev (y_fs y) d (f_ip (filep y f)) (y_fs y') d'.
Proof.
intros n off m x Hop Hwr Hn31 Hfree. unfold filewrite.
rewrite (proj2 (Z.eqb_neq _ _) Hwr), decide_True by apply Hop.
pose proof (oo_off _ _ _ Hop) as Hoff. fold off x in Hoff.
pose proof (fw_size _ _ _ _ (oo_wf _ _ _ Hop)) as Hs. fold x in Hs. change (MAXFILE * BSIZE) with 71680 in Hs.
destruct (while_spec (wrote_upto y d f src) (λ st, n - st.2)
  (λ '(y', i), wrote_upto y d f src (y', i) ∧ i = m)
  (2 ^ 31) (filewrite_step f src n) (y, 0)) as ([y' i] & E & (Hq & ->)).
- intros [y' i] (d' & Hi & _). cbn [snd]. lia.
- intros st Hst. destruct (decide (st.2 < n)) as [Hlt|Hge].
  + destruct (filewrite_turn y d f src st) as [(st' & E & Hst' & Hdec)|(E & Em)]; try done; [lia | |].
    * left. fold n in E, Hdec. rewrite E. by exists st'.
    * right. fold n in E. rewrite E. destruct st as [y1 i1]. eexists; split; [reflexivity|]. done.
  + right. destruct st as [y' i]. cbn [snd] in Hge. unfold filewrite_step.
    rewrite (proj2 (Z.ltb_ge _ _)) by lia. eexists; split; [reflexivity|]. split; [done|].
    destruct Hst as (d' & Hi & _ & Hin & _). fold n off in Hi, Hin.
    assert (i = n) as -> by lia. unfold m, stored. by rewrite decide_True by lia.
- exists d. cbv zeta. fold n off x m. rewrite Z.add_0_r, Z.sub_0_r. change (MAXFILE * BSIZE) with 71680. split; [lia|].
  split; [by right|]. split; [lia|]. split; [done|].
  split; [unfold off; by destruct (filep y f)|]. split; [done|]. split; [done|]. split.
  { intros k Hk. rewrite decide_False; [done|]. simpl. lia. }
  split; [lia|]. split; [|done]. apply written_refl; apply Hop.
- cbn [snd]. lia.
- rewrite E. cbn [rbind].
  destruct Hq as (d' & Hm & _ & _ & Hop' & Ef & Hft & Hf' & Hw & Hsz & Hwn & _).
  exists y', d'. split; [done|]. split; [done|]. done.
Qed.

End io.

(** * Witnesses: two open files, the empty file of [fs0] and the directory of
    [fsdir] *)
Definition open0 (fs : fsys (disk_st ata)) : fio (disk_st ata) :=
  mk_fio fs [mk_file FD_INODE 1 1 1 0 0; inhabitant].


Lemma fileclose_counts_witness :
  ∃ y', fileclose (open0 fs0) 0 = Ok y' ∧ i_ref (inodep (y_fs y') 0) = 0.
Proof.
  destruct (fileclose_counts (open0 fs0) 0 ltac:(vm_compute; lia) ltac:(vm_compute; split; congruence))
    as (_ & _ & Hc).
  specialize (Hc eq_refl). eexists. rewrite Hc. cbv zeta. rewrite decide_True by reflexivity.
  split; reflexivity.
Defined.

Lemma open_fsdir : open_ok sb0 1 (open0 fsdir) ddir 0.
Proof.
  destruct dir0_ok as [Hwf Hfull _ _].
  split; [vm_compute; lia | reflexivity | exact fsdir_fsi | vm_compute; lia | | | exact Hwf | exact Hfull
    | split; split; discriminate || reflexivity | discriminate | split; discriminate].
  - change (1 ≤ 1). lia.
  - discriminate.
Qed.

Lemma open_fs0 : open_ok sb0 1 (open0 fs0) d0 0.
Proof.
  split; [vm_compute; lia | reflexivity | exact fs0_fsi | vm_compute; lia | | | exact file0_wf
    | exact file0_no_holes | exact file0_meta | discriminate | split; discriminate].
  - change (1 ≤ 1). lia.
  - discriminate.
Qed.

(** The free blocks of [d0]. *)
Lemma has_free_d0 n : (n ≤ 8)%nat → has_free sb0 1 d0 n.
Proof.
  intros Hn. apply has_free_le with 8%nat; [|done].
  exists [6; 7; 8; 9; 10; 11; 12; 13]. split; [apply (bool_decide_unpack _); vm_compute; exact I|].
  split; [reflexivity|]. intros b Hb.
  repeat (apply elem_of_cons in Hb as [->|Hb];
    [split; [split; by vm_compute | by vm_compute]|]). by apply elem_of_nil in Hb.
Qed.
