(* ===== verification/Text.v ===== *)
(** Characters and numerals.  kprintint (drivers/screen.c) and printint
    (user/printf.c) are the same function but for the digits above nine and the
    way a character is put out. *)
From S2P Require Import Prelude.

(** The characters of a string literal. *)
Definition chars (s : string) : list Z := (λ c, Z.of_nat (Ascii.nat_of_ascii c)) <$> String.list_ascii_of_string s.

Lemma chars_app s t : chars (s ++ t) = chars s ++ chars t.
Proof.
  unfold chars. induction s as [|c s IH]; [done|].
  change (String c s +:+ t)%string with (String c (s +:+ t)). cbn. by rewrite <- IH.
Qed.

(** [digits[d]]; [ten] is the character of the digit ten. *)
Definition digit_char (ten d : Z) : Z := if d <? 10 then 48 + d else ten + (d - 10).

(** The digits of [x], least significant first. *)
Definition numeral_digits (ten x base : Z) : res (list Z) :=
  while (2 ^ 6)
    (λ '(buf, x), let buf := buf ++ [digit_char ten (x mod base)] in
       Ok (if x / base =? 0 then inr buf else inl (buf, x / base)))
    ([], x).

(** What is left in [buf], in the order it is printed; [buf] has 16 bytes. *)
Definition numeral (ten xx base : Z) (sign : bool) : res (list Z) :=
  let neg := sign && (xx <? 0) in
  let x := u32 (if neg then - xx else xx) in
  let* buf := numeral_digits ten x base in
  let buf := if neg then buf ++ [45] else buf in
  if (length buf <=? 16)%nat then Ok (rev buf) else Fault.

(** * Their values *)

Definition digit_val (c : Z) : Z :=
  if c <? 58 then c - 48 else if c <? 97 then c - 55 else c - 87.

(** The value of a numeral, most significant digit first. *)
Definition num_val (base : Z) (cs : list Z) : Z := foldl (λ a c, a * base + digit_val c) 0 cs.
Definition int_val (base : Z) (cs : list Z) : Z :=
  match cs with
  | 45 :: cs' => - num_val base cs'
  | _ => num_val base cs
  end.

Lemma num_val_acc base a cs :
  foldl (λ a c, a * base + digit_val c) a cs = a * base ^ Z.of_nat (length cs) + num_val base cs.
Proof.
  unfold num_val. revert a. induction cs as [|c cs IH]; intros a; cbn [foldl length]; [lia|].
  rewrite IH, (IH (0 * base + digit_val c)), Nat2Z.inj_succ, Z.pow_succ_r by lia. lia.
Qed.

Lemma log2_div x b : 2 ≤ b → 0 < x / b → Z.log2 (x / b) < Z.log2 x.
Proof.
  intros Hb Hx. assert (2 * (x / b) ≤ x) as Hle by (Z.div_mod_to_equations; nia).
  apply Z.log2_le_mono in Hle. rewrite Z.log2_double in Hle by done. lia.
Qed.

Lemma int_val_num base cs : head cs ≠ Some 45 → int_val base cs = num_val base cs.
Proof.
  intros Hh. unfold int_val. destruct cs as [|c cs]; [done|]. simpl in Hh.
  assert (c ≠ 45) as Hc by congruence. clear Hh.
  repeat match goal with |- context [match ?p with _ => _ end] => destruct p end; congruence.
Qed.

Lemma digits_bound base x k n :
  2 ≤ base → 1 ≤ n → x < base ^ n → (k = 1%nat ∨ base ^ (Z.of_nat k - 1) ≤ x) → Z.of_nat k ≤ n.
Proof.
  intros Hb Hn Hx [->|Hk]; [lia|].
  assert (base ^ (Z.of_nat k - 1) < base ^ n) as Hlt by lia.
  apply Z.pow_lt_mono_r_iff in Hlt; lia.
Qed.

Section numeral.
Context (ten : Z) (Hten : ten = 65 ∨ ten = 97).

Lemma digit_val_char d : 0 ≤ d < 16 → digit_val (digit_char ten d) = d.
Proof.
  intros Hd. unfold digit_val, digit_char. repeat case_match; zlia.
Qed.

Definition is_num (base : Z) (buf : list Z) : Prop :=
  Forall (λ c, ∃ d, 0 ≤ d < base ∧ c = digit_char ten d) buf.

Lemma numeral_digits_spec x base :
  2 ≤ base ≤ 16 → 0 ≤ x < 2 ^ 32 →
  ∃ buf, numeral_digits ten x base = Ok buf ∧ num_val base (rev buf) = x ∧ is_num base buf ∧
    (0 < length buf)%nat ∧ (length buf = 1%nat ∨ base ^ (Z.of_nat (length buf) - 1) ≤ x).
Proof.
  intros Hb Hx. unfold numeral_digits.
  destruct (while_spec
    (λ '(buf, y), 0 ≤ y < 2 ^ 32 ∧ num_val base (rev buf) + base ^ Z.of_nat (length buf) * y = x ∧
       is_num base buf ∧ 0 ≤ num_val base (rev buf) ∧ (buf ≠ [] → 0 < y))
    (λ '(_, y), Z.log2 y)
    (λ buf, num_val base (rev buf) = x ∧ is_num base buf ∧ (0 < length buf)%nat ∧
       (length buf = 1%nat ∨ base ^ (Z.of_nat (length buf) - 1) ≤ x))
    (2 ^ 6)
    (λ '(buf, x), let buf := buf ++ [digit_char ten (x mod base)] in
       Ok (if x / base =? 0 then inr buf else inl (buf, x / base)))
    ([], x)) as (buf & E & HQ).
  - intros [buf y] _. apply Z.log2_nonneg.
  - intros [buf y] (Hy & Hval & Hd & H0 & Hne). cbv zeta.
    pose proof (Z.mod_pos_bound y base ltac:(lia)) as Hm.
    pose proof (Z.div_mod y base ltac:(lia)) as Hdm.
    assert (num_val base (rev (buf ++ [digit_char ten (y mod base)])) =
      num_val base (rev buf) + base ^ Z.of_nat (length buf) * (y mod base)) as Ev.
    { rewrite rev_app_distr. cbn [rev app]. unfold num_val at 1. cbn [foldl].
      rewrite num_val_acc, length_rev, digit_val_char by lia. lia. }
    assert (is_num base (buf ++ [digit_char ten (y mod base)])) as Hd'.
    { apply Forall_app. split; [done|]. constructor; [by eexists | constructor]. }
    pose proof (Z.pow_pos_nonneg base (Z.of_nat (length buf)) ltac:(lia) ltac:(lia)) as Hp.
    destruct (Z.eqb_spec (y / base) 0) as [E0|N0].
    + right. eexists; split; [reflexivity|]. rewrite Ev, length_app. cbn [length].
      assert (y mod base = y) as Em by lia. rewrite Em in Hd' |- *.
      split; [lia|]. split; [done|]. split; [lia|].
      destruct buf as [|c buf]; [by left|]. right. specialize (Hne ltac:(done)).
      replace (Z.of_nat (length (c :: buf) + 1) - 1) with (Z.of_nat (length (c :: buf))) by lia. nia.
    + left. assert (0 < y / base) as Hq by (pose proof (Z.div_pos y base); lia).
      eexists; split; [reflexivity|]. split; [|apply log2_div; lia].
      rewrite Ev, length_app, Nat2Z.inj_add, Z.pow_add_r by lia. cbn [length]. change (Z.of_nat 1) with 1.
      rewrite Z.pow_1_r. split; [split; [lia|]; apply Z.le_lt_trans with y; [|lia];
        Z.div_mod_to_equations; nia|].
      split; [nia|]. split; [done|]. split; [nia|]. done.
  - split; [done|]. cbn. split; [lia|]. split; [constructor|]. split; [lia|]. done.
  - destruct (decide (x = 0)) as [->|]; [reflexivity|].
    assert (Z.log2 x < 32) by (apply Z.log2_lt_pow2; lia). lia.
  - by exists buf.
Qed.

Lemma is_num_head base buf : is_num base buf → head (rev buf) ≠ Some 45.
Proof.
  intros Hn. apply Forall_rev in Hn. destruct (rev buf) as [|c l]; [done|].
  inversion Hn as [|? ? (d & Hd & ->)]; subst. simpl. unfold digit_char.
  destruct (Z.ltb_spec d 10); intros [= ?]; lia.
Qed.

Lemma numeral_spec n base sign :
  - 2 ^ 31 ≤ n < 2 ^ 31 → base = 10 ∨ base = 16 →
  ∃ cs, numeral ten n base sign = Ok cs ∧ (length cs ≤ 11)%nat ∧
    int_val base cs = (if sign then n else u32 n).
Proof.
  intros Hn Hb. set (neg := sign && (n <? 0)).
  set (x := u32 (if neg then - n else n)).
  assert (0 ≤ x < 2 ^ 32) as Hx by apply u32_range.
  destruct (numeral_digits_spec x base) as (buf & E & Hv & Hnum & Hpos & Hlen); [lia | done |].
  assert (Z.of_nat (length buf) ≤ 10) as Hl.
  { apply digits_bound with base x; [lia | lia | | done].
    destruct Hb as [-> | ->]; cbn; lia. }
  unfold numeral. fold neg. fold x. rewrite E. cbn [rbind].
  set (buf' := if neg then buf ++ [45] else buf). exists (rev buf').
  assert (length buf' ≤ 11)%nat as Hl2 by (unfold buf'; destruct neg; rewrite ?length_app; simpl; lia).
  rewrite (proj2 (Nat.leb_le _ _)) by lia. split; [done|]. rewrite length_rev. split; [done|].
  assert (int_val base (rev buf) = x) as Ei by (rewrite int_val_num; [done | by eapply is_num_head]).
  unfold buf'. destruct neg eqn:En; unfold neg in En.
  - rewrite rev_app_distr. cbn [rev app int_val]. rewrite Hv. destruct sign; [|done].
    apply Z.ltb_lt in En. unfold x. rewrite u32_small; lia.
  - rewrite Ei. unfold x. destruct sign; [|done]. apply Z.ltb_ge in En. rewrite u32_small; lia.
Qed.

End numeral.
