(* ===== verification/Screen.v ===== *)
(** drivers/screen.c: the text screen.  The 4000 bytes of video memory and the
    cursor registers behind the ports 3D4 and 3D5 are the state; C [int]
    arithmetic on offsets is exact (an overflow would be undefined). *)
From S2P Require Import Prelude Memory LibC Ports Text.

Definition VIDEO_ADDRESS : Z := 0x800b8000.
Definition MAX_ROWS : Z := 25.
Definition MAX_COLS : Z := 80.
Definition WHITE_ON_BLACK : Z := 0x0f.
Definition RED_ON_BLACK : Z := 0x0c.
Definition REG_SCREEN_CTRL : Z := 0x3d4.
Definition REG_SCREEN_DATA : Z := 0x3d5.

(** * The cursor registers

    A VGA controller: a write to 3D4 selects a register, 3D5 reads and writes
    it; the registers 14 and 15 hold the cursor's position. *)
Record vga := mk_vga { vga_idx : Z; vga_hi : Z; vga_lo : Z }.

Definition vga_out (v : vga) (port b : Z) : vga :=
  if port =? 0x3d4 then mk_vga (u8 b) (vga_hi v) (vga_lo v)
  else if port =? 0x3d5 then
    if vga_idx v =? 14 then mk_vga (vga_idx v) (u8 b) (vga_lo v)
    else if vga_idx v =? 15 then mk_vga (vga_idx v) (vga_hi v) (u8 b)
    else v
  else v.

Class VgaCursor (hw : Type) `{PortIO hw} := {
  vga_view : hw → vga;
  vga_range : ∀ h, 0 ≤ vga_hi (vga_view h) < 256 ∧ 0 ≤ vga_lo (vga_view h) < 256;
  vga_outb : ∀ h port b, vga_view (outb h port b) = vga_out (vga_view h) port b;
  vga_inb : ∀ h,
    let '(h', r) := inb h 0x3d5 in
    vga_view h' = vga_view h ∧
    (vga_idx (vga_view h) = 14 → r = vga_hi (vga_view h)) ∧
    (vga_idx (vga_view h) = 15 → r = vga_lo (vga_view h))
}.

(** The video memory, and the ports. *)
Record scr (hw : Type) := mk_scr { s_mem : mem; s_hw : hw }.
Arguments mk_scr {hw} _ _.
Arguments s_mem {hw} _.
Arguments s_hw {hw} _.

(** * Offsets *)

Definition get_offset (col row : Z) : Z := 2 * (row * MAX_COLS + col).
Definition get_offset_row (offset : Z) : Z := cquot offset (2 * MAX_COLS).
Definition get_offset_col (offset : Z) : Z :=
  cquot (offset - get_offset_row offset * 2 * MAX_COLS) 2.

Section screen.
Context {hw : Type} `{PortIO hw}.
Implicit Types (s : scr hw) (offset col row c attr : Z).

Definition port_byte_out s (port b : Z) : scr hw := mk_scr (s_mem s) (outb (s_hw s) port b).
Definition port_byte_in s (port : Z) : scr hw * Z :=
  let '(h, r) := inb (s_hw s) port in (mk_scr (s_mem s) h, u8 r).

Definition get_cursor_offset s : scr hw * Z :=
  let s := port_byte_out s REG_SCREEN_CTRL 14 in
  let '(s, hi) := port_byte_in s REG_SCREEN_DATA in
  let offset := Z.shiftl hi 8 in
  let s := port_byte_out s REG_SCREEN_CTRL 15 in
  let '(s, lo) := port_byte_in s REG_SCREEN_DATA in
  (s, (offset + lo) * 2).

Definition set_cursor_offset s offset : scr hw :=
  let offset := cquot offset 2 in
  let s := port_byte_out s REG_SCREEN_CTRL 14 in
  let s := port_byte_out s REG_SCREEN_DATA (u8 (Z.shiftr offset 8)) in
  let s := port_byte_out s REG_SCREEN_CTRL 15 in
  port_byte_out s REG_SCREEN_DATA (u8 (Z.land offset 0xff)).

(** [vidmem[i] = b]. *)
Definition vset s (i b : Z) : scr hw := mk_scr (st8 (s_mem s) (VIDEO_ADDRESS + i) b) (s_hw s).

(** Line [i] and those below it move up by one, [n] lines. *)
Fixpoint scroll_lines (m : mem) (i : Z) (n : nat) : mem :=
  match n with
  | O => m
  | S n' =>
      scroll_lines (memory_copy m (get_offset 0 i + VIDEO_ADDRESS)
        (get_offset 0 (i - 1) + VIDEO_ADDRESS) (MAX_COLS * 2)) (i + 1) n'
  end.

(** [for(i=0;i<MAX_COLS*2;i++) last_line[i]=0]. *)
Definition clear_last (m : mem) : mem :=
  stosb m (get_offset 0 (MAX_ROWS - 1) + VIDEO_ADDRESS) 0 (Z.to_nat (MAX_COLS * 2)).

Definition scroll s : scr hw :=
  mk_scr (clear_last (scroll_lines (s_mem s) 1 (Z.to_nat (MAX_ROWS - 1)))) (s_hw s).

(** The screen and the offset returned. *)
Definition print_char s c col row attr : scr hw * Z :=
  let attr := if attr =? 0 then WHITE_ON_BLACK else attr in
  let '(s, offset) :=
    if (0 <=? col) && (0 <=? row) then (s, get_offset col row) else get_cursor_offset s in
  let '(s, row, offset) :=
    if c =? 10 then
      let row := get_offset_row offset in (s, row, get_offset 0 (row + 1))
    else if c =? 8 then (vset (vset s offset 32) (offset + 1) attr, row, offset)
    else (vset (vset s offset c) (offset + 1) attr, row, offset + 2) in
  let '(s, offset) :=
    if MAX_COLS * MAX_ROWS * 2 <=? offset then (scroll s, offset - 2 * MAX_COLS)
    else (s, offset) in
  if (MAX_COLS <=? col) || (MAX_ROWS <=? row) then
    (vset (vset s (2 * MAX_ROWS * MAX_COLS - 2) 69) (2 * MAX_ROWS * MAX_COLS - 1) RED_ON_BLACK,
     get_offset col row)
  else (set_cursor_offset s offset, offset).

Definition kputchar s c : scr hw := (print_char s c (-1) (-1) WHITE_ON_BLACK).1.

(** The loop of [kprint_at], over the characters before the terminating 0. *)
Fixpoint kprint_loop s (message : list Z) col row : scr hw :=
  match message with
  | [] => s
  | c :: message' =>
      let '(s, offset) := print_char s c col row RED_ON_BLACK in
      kprint_loop s message' (get_offset_col offset) (get_offset_row offset)
  end.

Definition kprint_at s (message : list Z) col row : scr hw :=
  let '(s, col, row) :=
    if (0 <=? col) && (0 <=? row) then (s, col, row)
    else
      let '(s, offset) := get_cursor_offset s in
      (s, get_offset_col offset, get_offset_row offset) in
  kprint_loop s message col row.

Definition kprint s (message : list Z) : scr hw := kprint_at s message (-1) (-1).

Definition kprint_backspace s : scr hw :=
  let '(s, offset) := get_cursor_offset s in
  let offset := offset - 2 in
  (print_char s 8 (get_offset_col offset) (get_offset_row offset) WHITE_ON_BLACK).1.

(** The [n] cells from [i] on. *)
Fixpoint clear_cells s (i : Z) (n : nat) : scr hw :=
  match n with
  | O => s
  | S n' => clear_cells (vset (vset s (i * 2) 32) (i * 2 + 1) WHITE_ON_BLACK) (i + 1) n'
  end.

Definition clear_screen s : scr hw :=
  set_cursor_offset (clear_cells s 0 (Z.to_nat (MAX_COLS * MAX_ROWS))) (get_offset 0 0).

(** * Formatted output *)

Fixpoint kputs s (cs : list Z) : scr hw :=
  match cs with [] => s | c :: cs' => kputs (kputchar s c) cs' end.

(** ["0123456789abcdef"[d]]: the digit ten is 97, "a". *)
Definition digits : Z := 97.
Definition kprintint_chars : Z → Z → bool → res (list Z) := numeral digits.

Definition kprintint s (xx base : Z) (sign : bool) : res (scr hw) :=
  let* cs := kprintint_chars xx base sign in Ok (kputs s cs).

(** The variable arguments: an [int] or a string. *)
Inductive varg := VInt (n : Z) | VStr (cs : list Z).

(** One conversion of [kprintf], the character after the '%': the screen and
    the arguments left.  An argument that is missing or has the other type is
    undefined; an unknown conversion prints nothing. *)
Definition kprintf_conv s (k : Z) (args : list varg) : res (scr hw * list varg) :=
  if k =? 115 then
    match args with VStr cs :: args' => Ok (kputs s cs, args') | _ => Fault end
  else if k =? 99 then
    match args with VInt n :: args' => Ok (kputchar s (s8 n), args') | _ => Fault end
  else if k =? 100 then
    match args with
    | VInt n :: args' => let* s := kprintint s n 10 true in Ok (s, args')
    | _ => Fault
    end
  else if k =? 112 then
    match args with
    | VInt n :: args' => let* s := kprintint s n 10 false in Ok (s, args')
    | _ => Fault
    end
  else if k =? 120 then
    match args with
    | VInt n :: args' => let* s := kprintint s n 16 false in Ok (s, args')
    | _ => Fault
    end
  else Ok (s, args).

(** The loop of [kprintf] over the format; after a '%' at its end it would read
    on behind the terminating 0. *)
Fixpoint kprintf_loop s (fmt : list Z) (args : list varg) : res (scr hw) :=
  match fmt with
  | [] => Ok s
  | c :: fmt' =>
      if c =? 37 then
        match fmt' with
        | [] => Fault
        | k :: fmt'' => let* r := kprintf_conv s k args in kprintf_loop r.1 fmt'' r.2
        end
      else kprintf_loop (kputchar s c) fmt' args
  end.

(** ["kern:"], then the format; the null format is not modelled. *)
Definition kprintf s (fmt : list Z) (args : list varg) : res (scr hw) :=
  kprintf_loop (kprint s [107; 101; 114; 110; 58]) fmt args.
End screen.

(** * The screen as a terminal

    2000 cells (character, attribute) and the cursor's cell. *)
Record term := mk_term { t_cells : list (Z * Z); t_cur : Z }.

Definition tscroll (cells : list (Z * Z)) : list (Z * Z) := drop 80 cells ++ replicate 80 (0, 0).

Definition tmove (cells : list (Z * Z)) (p : Z) : term :=
  if p <? 2000 then mk_term cells p else mk_term (tscroll cells) (p - 80).

Definition tput (attr : Z) (t : term) (c : Z) : term :=
  if c =? 10 then tmove (t_cells t) ((t_cur t / 80 + 1) * 80)
  else if c =? 8 then mk_term (<[Z.to_nat (t_cur t) := (32, attr)]> (t_cells t)) (t_cur t)
  else tmove (<[Z.to_nat (t_cur t) := (u8 c, attr)]> (t_cells t)) (t_cur t + 1).

Definition cell (m : mem) (i : nat) : Z * Z :=
  (ld8 m (VIDEO_ADDRESS + 2 * Z.of_nat i), ld8 m (VIDEO_ADDRESS + 2 * Z.of_nat i + 1)).
Definition cells (m : mem) : list (Z * Z) := cell m <$> seq 0 2000.

(** The memory outside the screen is the same. *)
Definition same_outside (m m' : mem) : Prop :=
  ∀ a, ¬ inr_ VIDEO_ADDRESS 4000 a → ld8 m' a = ld8 m a.

Lemma length_cells m : length (cells m) = 2000%nat.
Proof. unfold cells. by rewrite length_fmap, length_seq. Qed.

Lemma lookup_cells m i : (i < 2000)%nat → cells m !! i = Some (cell m i).
Proof. intros Hi. unfold cells. by rewrite list_lookup_fmap, lookup_seq_lt. Qed.

Lemma cells_eq m l :
  length l = 2000%nat → (∀ i x, l !! i = Some x → x = cell m i) → cells m = l.
Proof.
  intros Hl Hx. apply list_eq. intros i. destruct (decide (i < 2000)%nat) as [Hi|Hi].
  - rewrite lookup_cells by done. destruct (l !! i) as [x|] eqn:E; [by rewrite (Hx _ _ E)|].
    apply lookup_ge_None in E. lia.
  - rewrite !lookup_ge_None_2; [done | lia |]. rewrite length_cells. lia.
Qed.

Lemma scroll_lines_spec m i n x :
  1 ≤ i →
  ld8 (scroll_lines m i n) (VIDEO_ADDRESS + x) =
    if decide (160 * (i - 1) ≤ x < 160 * (i - 1 + Z.of_nat n))
    then ld8 m (VIDEO_ADDRESS + (x + 160)) else ld8 m (VIDEO_ADDRESS + x).
Proof.
  revert m i. induction n as [|n IH]; intros m i Hi; cbn [scroll_lines].
  - by rewrite decide_False by lia.
  - rewrite IH by lia. unfold memory_copy, get_offset, MAX_COLS.
    rewrite !ld8_copy_forward by lia. unfold inr_.
    repeat case_decide; try lia; try reflexivity; f_equal; lia.
Qed.

Lemma scroll_cells {hw} (s : scr hw) :
  cells (s_mem (scroll s)) = tscroll (cells (s_mem s)) ∧ same_outside (s_mem s) (s_mem (scroll s)).
Proof.
  assert (∀ x, ld8 (s_mem (scroll s)) (VIDEO_ADDRESS + x) =
    if decide (3840 ≤ x < 4000) then 0 else
    if decide (0 ≤ x < 3840) then ld8 (s_mem s) (VIDEO_ADDRESS + (x + 160))
    else ld8 (s_mem s) (VIDEO_ADDRESS + x)) as Hs.
  { intros x. unfold scroll, clear_last. cbn [s_mem].
    change (get_offset 0 (MAX_ROWS - 1)) with 3840. change (Z.to_nat (MAX_COLS * 2)) with 160%nat.
    change (Z.to_nat (MAX_ROWS - 1)) with 24%nat.
    rewrite ld8_stosb, scroll_lines_spec by lia. unfold inr_.
    repeat case_decide; try lia; reflexivity. }
  split.
  - apply cells_eq.
    { unfold tscroll. rewrite length_app, length_drop, length_replicate, length_cells. lia. }
    intros i y. unfold tscroll, cell. rewrite <- Z.add_assoc, !Hs.
    destruct (decide (i < 1920)%nat) as [Hi|Hi].
    + rewrite lookup_app_l by (rewrite length_drop, length_cells; lia).
      rewrite lookup_drop, lookup_cells by lia. intros [= <-]. unfold cell.
      repeat case_decide; try lia; f_equal; f_equal; lia.
    + rewrite lookup_app_r by (rewrite length_drop, length_cells; lia).
      rewrite length_drop, length_cells. intros (-> & Hl)%lookup_replicate.
      repeat case_decide; try lia; done.
  - intros a Ha. replace a with (VIDEO_ADDRESS + (a - VIDEO_ADDRESS)) by lia. unfold inr_ in Ha.
    rewrite Hs. repeat case_decide; try lia; done.
Qed.

Section terminal.
Context {hw : Type} `{VgaCursor hw}.
Implicit Types (s : scr hw) (t : term) (c attr offset : Z).

Definition cursor s : Z := vga_hi (vga_view (s_hw s)) * 256 + vga_lo (vga_view (s_hw s)).

(** The cursor is on the screen. *)
Definition on_screen s : Prop := 0 ≤ cursor s < 2000.

Definition view s : term := mk_term (cells (s_mem s)) (cursor s).

Lemma get_cursor_spec s :
  ∃ h, get_cursor_offset s = (mk_scr (s_mem s) h, 2 * cursor s) ∧ cursor (mk_scr (s_mem s) h) = cursor s.
Proof.
  unfold get_cursor_offset, port_byte_in, port_byte_out, cursor. cbn [s_hw s_mem].
  set (h1 := outb (s_hw s) REG_SCREEN_CTRL 14).
  assert (vga_view h1 = mk_vga 14 (vga_hi (vga_view (s_hw s))) (vga_lo (vga_view (s_hw s)))) as E1
    by (unfold h1; by rewrite vga_outb).
  pose proof (vga_inb h1) as H1. change 0x3d5 with REG_SCREEN_DATA in H1.
  destruct (inb h1 REG_SCREEN_DATA) as [h2 hi]. destruct H1 as (E2 & Hhi & _).
  cbn [s_hw s_mem]. set (h3 := outb h2 REG_SCREEN_CTRL 15).
  assert (vga_view h3 = mk_vga 15 (vga_hi (vga_view (s_hw s))) (vga_lo (vga_view (s_hw s)))) as E3
    by (unfold h3; by rewrite vga_outb, E2, E1).
  pose proof (vga_inb h3) as H3. change 0x3d5 with REG_SCREEN_DATA in H3.
  destruct (inb h3 REG_SCREEN_DATA) as [h4 lo]. destruct H3 as (E4 & _ & Hlo).
  cbn [s_hw s_mem]. exists h4. rewrite E4, E3. rewrite E1 in Hhi. rewrite E3 in Hlo. cbn in *.
  rewrite (Hhi eq_refl), (Hlo eq_refl).
  pose proof (vga_range (s_hw s)) as (R1 & R2). rewrite !u8_small by lia.
  split; [|done]. f_equal. rewrite Z.shiftl_mul_pow2 by lia. lia.
Qed.

Lemma set_cursor_spec s offset :
  0 ≤ offset < 131072 →
  s_mem (set_cursor_offset s offset) = s_mem s ∧ cursor (set_cursor_offset s offset) = offset / 2.
Proof.
  intros Ho. split; [done|].
  unfold set_cursor_offset, port_byte_out, cursor. cbn [s_hw].
  rewrite !vga_outb. unfold vga_out. cbn [vga_hi vga_lo vga_idx].
  change (u8 14) with 14. change (u8 15) with 15. cbn. rewrite !u8_u8. rewrite Z.quot_div_nonneg by lia.
  rewrite Z.shiftr_div_pow2 by lia. change 0xff with (2 ^ 8 - 1). rewrite land_ones_mod by lia.
  zlia.
Qed.

Lemma vset_cells s p c attr :
  0 ≤ p < 2000 →
  let s' := vset (vset s (2 * p) c) (2 * p + 1) attr in
  cells (s_mem s') = <[Z.to_nat p := (u8 c, u8 attr)]> (cells (s_mem s)) ∧
  same_outside (s_mem s) (s_mem s') ∧ s_hw s' = s_hw s.
Proof.
  intros Hp s'. split; [|split; [|done]].
  - apply cells_eq; [by rewrite length_insert, length_cells|]. intros i x Hx.
    unfold cell, s', vset. cbn [s_mem]. rewrite !ld8_st8.
    destruct (decide (i = Z.to_nat p)) as [->|Hne].
    + rewrite list_lookup_insert_eq in Hx by (rewrite length_cells; lia). injection Hx as <-.
      repeat case_decide; try lia; done.
    + rewrite list_lookup_insert_ne in Hx by done.
      pose proof (lookup_lt_Some _ _ _ Hx) as Hi. rewrite length_cells in Hi.
      rewrite lookup_cells in Hx by done. injection Hx as <-. unfold cell.
      repeat case_decide; try lia; done.
  - intros a Ha. unfold s', vset, inr_ in *. cbn [s_mem]. rewrite !ld8_st8.
    repeat case_decide; try lia; done.
Qed.

(** The end of [print_char]: scroll when the cursor left the screen. *)
Lemma print_char_move s p :
  0 ≤ p ≤ 2000 →
  let '(s', offset) := if MAX_COLS * MAX_ROWS * 2 <=? 2 * p then (scroll s, 2 * p - 2 * MAX_COLS)
    else (s, 2 * p) in
  view (set_cursor_offset s' offset) = tmove (cells (s_mem s)) p ∧
  same_outside (s_mem s) (s_mem (set_cursor_offset s' offset)) ∧
  offset = 2 * t_cur (tmove (cells (s_mem s)) p) ∧ 0 ≤ offset < 4000.
Proof.
  intros Hp. unfold tmove, view. change (MAX_COLS * MAX_ROWS * 2) with 4000. change (2 * MAX_COLS) with 160.
  destruct (Z.ltb_spec p 2000) as [Hlt|Hge].
  - rewrite (proj2 (Z.leb_gt _ _)) by lia.
    destruct (set_cursor_spec s (2 * p)) as (-> & ->); [lia|].
    split; [f_equal; zlia|]. split; [done|]. cbn. lia.
  - rewrite (proj2 (Z.leb_le _ _)) by lia.
    destruct (set_cursor_spec (scroll s) (2 * p - 160)) as (-> & ->); [lia|].
    destruct (scroll_cells s) as (-> & Hs). split; [f_equal; zlia|]. split; [done|]. cbn. lia.
Qed.

(** [print_char] at cell [p], which is given by the column and the row or is
    where the cursor is. *)
Lemma print_char_at s c p attr col row s0 :
  0 ≤ p < 2000 → 0 < attr < 256 →
  (if (0 <=? col) && (0 <=? row) then (s, get_offset col row) else get_cursor_offset s) = (s0, 2 * p) →
  s_mem s0 = s_mem s → col < MAX_COLS → row < MAX_ROWS →
  let r := print_char s c col row attr in
  view r.1 = tput attr (mk_term (cells (s_mem s)) p) c ∧ same_outside (s_mem s) (s_mem r.1) ∧
  r.2 = 2 * cursor r.1 ∧ on_screen r.1.
Proof.
  intros Hp Ha E Em Hcol Hrow. unfold print_char. rewrite (proj2 (Z.eqb_neq attr 0)) by lia.
  rewrite E. unfold tput. cbn [t_cells t_cur].
  assert (get_offset_row (2 * p) = p / 80) as Er
    by (unfold get_offset_row, MAX_COLS; rewrite Z.quot_div_nonneg by lia; zlia).
  assert (0 ≤ p / 80 < 25) as Hpr by zlia.
  assert (∀ s1 row1 p1, 0 ≤ p1 ≤ 2000 → row1 < MAX_ROWS → same_outside (s_mem s) (s_mem s1) →
    let r := (let '(s, offset) := if MAX_COLS * MAX_ROWS * 2 <=? 2 * p1
      then (scroll s1, 2 * p1 - 2 * MAX_COLS) else (s1, 2 * p1) in
     if (MAX_COLS <=? col) || (MAX_ROWS <=? row1)
     then (vset (vset s (2 * MAX_ROWS * MAX_COLS - 2) 69) (2 * MAX_ROWS * MAX_COLS - 1) RED_ON_BLACK,
           get_offset col row1)
     else (set_cursor_offset s offset, offset)) in
    view r.1 = tmove (cells (s_mem s1)) p1 ∧ same_outside (s_mem s) (s_mem r.1) ∧
    r.2 = 2 * cursor r.1 ∧ on_screen r.1) as Hend.
  { intros s1 row1 p1 Hp1 Hr1 Hs1. pose proof (print_char_move s1 p1 Hp1) as Hm.
    destruct (if MAX_COLS * MAX_ROWS * 2 <=? 2 * p1 then _ else _) as [s2 off].
    destruct Hm as (Hv & Hs2 & Eo & Hob). rewrite (proj2 (Z.leb_gt MAX_COLS col)), (proj2 (Z.leb_gt MAX_ROWS row1)) by done.
    cbn [orb fst snd]. split; [done|]. split; [intros a Hna; rewrite Hs2, Hs1; done|].
    unfold on_screen. pose proof (f_equal t_cur Hv) as Hcur.
    cbn [t_cur view] in Hcur. lia. }
  destruct (Z.eqb_spec c 10) as [->|N10].
  - rewrite Er. replace (get_offset 0 (p / 80 + 1)) with (2 * ((p / 80 + 1) * 80))
      by (unfold get_offset, MAX_COLS; lia).
    replace (cells (s_mem s)) with (cells (s_mem s0)) by (by rewrite Em). apply Hend; [lia | unfold MAX_ROWS; lia | by rewrite Em].
  - destruct (vset_cells s0 p c attr Hp) as (Hc1 & Hs1 & _).
    destruct (vset_cells s0 p 32 attr Hp) as (Hc2 & Hs2 & _).
    rewrite Em in Hc1, Hs1, Hc2, Hs2. rewrite (u8_small attr) in * by lia.
    destruct (Z.eqb_spec c 8) as [->|N8].
    + replace (mk_term (<[Z.to_nat p:=(32, attr)]> (cells (s_mem s))) p) with
        (tmove (cells (s_mem (vset (vset s0 (2 * p) 32) (2 * p + 1) attr))) p)
        by (unfold tmove; rewrite (proj2 (Z.ltb_lt _ _)) by lia; by rewrite Hc2).
      apply Hend; [lia | done | done].
    + rewrite <- Hc1. replace (2 * p + 2) with (2 * (p + 1)) by lia.
      apply Hend; [lia | done | done].
Qed.

(** What every output routine promises: the terminal's next state, with the
    rest of the memory as it was and the cursor still on the screen. *)
Definition shows s s' t : Prop := view s' = t ∧ same_outside (s_mem s) (s_mem s') ∧ on_screen s'.

Lemma shows_trans s1 s2 s3 t2 t3 : shows s1 s2 t2 → shows s2 s3 t3 → shows s1 s3 t3.
Proof.
  intros (_ & H1 & _) (E & H2 & H3). split; [done|]. split; [|done].
  intros a Ha. by rewrite H2, H1.
Qed.

Lemma kputchar_shows s c : on_screen s → shows s (kputchar s c) (tput WHITE_ON_BLACK (view s) c).
Proof.
  intros Hs. destruct (get_cursor_spec s) as (h & E & _).
  destruct (print_char_at s c (cursor s) WHITE_ON_BLACK (-1) (-1) (mk_scr (s_mem s) h))
    as (Hv & Ho & _ & Hon); try done.
Qed.

Lemma kputs_shows s cs : on_screen s → shows s (kputs s cs) (foldl (tput WHITE_ON_BLACK) (view s) cs).
Proof.
  revert s. induction cs as [|c cs IH]; intros s Hs; cbn [kputs foldl]; [by split|].
  pose proof (kputchar_shows s c Hs) as Hc. eapply shows_trans; [exact Hc|].
  destruct Hc as (<- & _ & Hon). by apply IH.
Qed.

Lemma offset_col_row p :
  0 ≤ p → get_offset_col (2 * p) = p mod 80 ∧ get_offset_row (2 * p) = p / 80 ∧
  get_offset (get_offset_col (2 * p)) (get_offset_row (2 * p)) = 2 * p.
Proof.
  intros Hp. unfold get_offset_col, get_offset_row, get_offset, MAX_COLS.
  rewrite (Z.quot_div_nonneg (2 * p)) by lia. rewrite Z.quot_div_nonneg by zlia. zlia.
Qed.

Lemma kprint_loop_shows s cs :
  on_screen s →
  shows s (kprint_loop s cs (get_offset_col (2 * cursor s)) (get_offset_row (2 * cursor s)))
    (foldl (tput RED_ON_BLACK) (view s) cs).
Proof.
  revert s. induction cs as [|c cs IH]; intros s Hs; cbn [kprint_loop foldl]; [by split|].
  pose proof Hs as Hs'. unfold on_screen in Hs'.
  destruct (offset_col_row (cursor s)) as (Ec & Er & Eo); [lia|].
  destruct (print_char_at s c (cursor s) RED_ON_BLACK (get_offset_col (2 * cursor s))
    (get_offset_row (2 * cursor s)) s) as (Hv & Ho & Eoff & Hon); try done.
  { rewrite Eo. rewrite !(proj2 (Z.leb_le _ _)) by zlia. done. }
  { rewrite Ec. unfold MAX_COLS. zlia. }
  { rewrite Er. unfold MAX_ROWS. zlia. }
  destruct (print_char s c _ _ _) as [s1 off]. cbn [fst snd] in *. subst off.
  apply (shows_trans s s1 _ (view s1)); [done|].
  change (tput RED_ON_BLACK (view s) c) with (tput RED_ON_BLACK (mk_term (cells (s_mem s)) (cursor s)) c).
  rewrite <- Hv. by apply IH.
Qed.

Lemma kprint_shows s cs : on_screen s → shows s (kprint s cs) (foldl (tput RED_ON_BLACK) (view s) cs).
Proof.
  intros Hs. unfold kprint, kprint_at. cbn [Z.leb Z.compare andb].
  destruct (get_cursor_spec s) as (h & -> & Ec). rewrite <- Ec.
  set (s1 := mk_scr (s_mem s) h) in *.
  assert (on_screen s1) as Hs1 by (unfold on_screen; by rewrite Ec).
  assert (view s = view s1) as -> by (unfold view; by rewrite Ec).
  exact (kprint_loop_shows s1 cs Hs1).
Qed.
End terminal.

(** * Numbers and formats *)

Lemma kprintint_spec n base sign :
  - 2 ^ 31 ≤ n < 2 ^ 31 → base = 10 ∨ base = 16 →
  ∃ cs, kprintint_chars n base sign = Ok cs ∧ (length cs ≤ 11)%nat ∧
    int_val base cs = (if sign then n else u32 n).
Proof. apply numeral_spec. by right. Qed.

(** [kprintint] prints the numeral of its argument: signed decimal with
    the sign, unsigned decimal, or hexadecimal; its buffer of 16 bytes never
    overflows, and it terminates. *)
Theorem kprintint_numeral n base sign :
  - 2 ^ 31 ≤ n < 2 ^ 31 → base = 10 ∨ base = 16 →
  ∃ cs, kprintint_chars n base sign = Ok cs ∧ (length cs ≤ 11)%nat ∧
    int_val base cs = (if sign then n else u32 n).
Proof. intros. by apply kprintint_spec. Qed.

Lemma kprintint_numeral_witness :
  ∃ cs, kprintint_chars (-2147483648) 10 true = Ok cs ∧ int_val 10 cs = -2147483648.
Proof.
  destruct (kprintint_numeral (-2147483648) 10 true ltac:(lia) ltac:(by left)) as (cs & E & _ & Hv).
  by exists cs.
Defined.

(** * Well-typed calls of kprintf

    A call is a sequence of items: characters of the format other than '%',
    and conversions with their arguments. *)
Inductive item :=
| ILit (c : Z) | IStr (cs : list Z) | IChr (n : Z) | IDec (n : Z) | IUns (n : Z) | IHex (n : Z).

Definition item_fmt (it : item) : list Z :=
  match it with
  | ILit c => [c] | IStr _ => [37; 115] | IChr _ => [37; 99] | IDec _ => [37; 100]
  | IUns _ => [37; 112] | IHex _ => [37; 120]
  end.
Definition item_arg (it : item) : list varg :=
  match it with
  | ILit _ => [] | IStr cs => [VStr cs]
  | IChr n | IDec n | IUns n | IHex n => [VInt n]
  end.
Definition item_ok (it : item) : Prop :=
  match it with
  | ILit c => c ≠ 37 | IStr _ => True
  | IChr n | IDec n | IUns n | IHex n => - 2 ^ 31 ≤ n < 2 ^ 31
  end.

(** The text of an item: a numeral is any character sequence that reads as the
    number. *)
Definition item_text (it : item) (cs : list Z) : Prop :=
  match it with
  | ILit c => cs = [c] | IStr cs' => cs = cs' | IChr n => cs = [s8 n]
  | IDec n => int_val 10 cs = n
  | IUns n => int_val 10 cs = u32 n
  | IHex n => int_val 16 cs = u32 n
  end.

Section calls.
Context {hw : Type} `{VgaCursor hw}.
Implicit Types (s : scr hw).

Lemma kputs_app s cs cs' : kputs s (cs ++ cs') = kputs (kputs s cs) cs'.
Proof. revert s. induction cs as [|c cs IH]; intros s; [done|]. apply IH. Qed.

Lemma kprintf_item s it fmt args :
  item_ok it →
  ∃ cs, item_text it cs ∧
    kprintf_loop s (item_fmt it ++ fmt) (item_arg it ++ args) = kprintf_loop (kputs s cs) fmt args.
Proof.
  intros Hok. destruct it as [c|cs|n|n|n|n]; cbn [item_fmt item_arg item_ok item_text app] in *.
  - exists [c]. split; [done|]. cbn [kprintf_loop]. by rewrite (proj2 (Z.eqb_neq _ _)).
  - by exists cs.
  - by exists [s8 n].
  - destruct (kprintint_spec n 10 true) as (cs & E & _ & Hv); [lia | lia|].
    exists cs. split; [done|]. cbn. unfold kprintint. by rewrite E.
  - destruct (kprintint_spec n 10 false) as (cs & E & _ & Hv); [lia | lia|].
    exists cs. split; [done|]. cbn. unfold kprintint. by rewrite E.
  - destruct (kprintint_spec n 16 false) as (cs & E & _ & Hv); [lia | lia|].
    exists cs. split; [done|]. cbn. unfold kprintint. by rewrite E.
Qed.

Lemma kprintf_items s its :
  Forall item_ok its →
  ∃ css, Forall2 item_text its css ∧
    kprintf_loop s (concat (item_fmt <$> its)) (concat (item_arg <$> its)) = Ok (kputs s (concat css)).
Proof.
  intros Hok. revert s. induction Hok as [|it its Hit _ IH]; intros s.
  - by exists [].
  - cbn [fmap list_fmap concat].
    destruct (kprintf_item s it (concat (item_fmt <$> its)) (concat (item_arg <$> its)) Hit)
      as (cs & Ht & ->).
    destruct (IH (kputs s cs)) as (css & Hts & ->). exists (cs :: css).
    split; [by constructor|]. cbn [concat]. by rewrite kputs_app.
Qed.

(** A well-typed [kprintf] terminates and shows "kern:" in red and then
    the text of its items in white, numbers as numerals that read as them; the
    memory outside the screen is untouched and the cursor stays on it. *)
Theorem kprintf_shows s its :
  on_screen s → Forall item_ok its →
  ∃ s' css, kprintf s (concat (item_fmt <$> its)) (concat (item_arg <$> its)) = Ok s' ∧
    Forall2 item_text its css ∧
    view s' = foldl (tput WHITE_ON_BLACK)
      (foldl (tput RED_ON_BLACK) (view s) [107; 101; 114; 110; 58]) (concat css) ∧
    same_outside (s_mem s) (s_mem s') ∧ on_screen s'.
Proof.
  intros Hs Hok. unfold kprintf. pose proof (kprint_shows s [107; 101; 114; 110; 58] Hs) as Hk.
  destruct (kprintf_items (kprint s [107; 101; 114; 110; 58]) its Hok) as (css & Ht & E).
  destruct Hk as (Ev & Ho & Hon).
  destruct (kputs_shows _ (concat css) Hon) as (Ev2 & Ho2 & Hon2). rewrite Ev in Ev2.
  eexists _, css. split; [exact E|]. split; [done|]. split; [done|]. split; [|done].
  intros a Ha. by rewrite Ho2, Ho.
Qed.

(** A character put on the screen changes the terminal as a terminal does:
    a character is stored at the cursor, which advances; a newline goes to the
    start of the next line; leaving the last line moves all lines up by one and
    clears the last; no byte outside the screen is written. *)
Theorem kputs_shows_text s cs :
  on_screen s →
  view (kputs s cs) = foldl (tput WHITE_ON_BLACK) (view s) cs ∧
  same_outside (s_mem s) (s_mem (kputs s cs)) ∧ on_screen (kputs s cs).
Proof. intros Hs. by apply kputs_shows. Qed.

(** [kprint_backspace] blanks the cell before the cursor (the first cell
    when there is none) and leaves the cursor there. *)
Theorem kprint_backspace_blanks s :
  on_screen s →
  let p := Z.max 0 (cursor s - 1) in
  view (kprint_backspace s) =
    mk_term (<[Z.to_nat p := (32, WHITE_ON_BLACK)]> (t_cells (view s))) p ∧
  same_outside (s_mem s) (s_mem (kprint_backspace s)).
Proof.
  intros Hs p. unfold kprint_backspace. destruct (get_cursor_spec s) as (h & -> & Ec).
  unfold on_screen in Hs. set (s1 := mk_scr (s_mem s) h) in *.
  destruct (decide (0 < cursor s)) as [Hpos|Hz].
  - replace (2 * cursor s - 2) with (2 * p) by lia.
    destruct (offset_col_row p) as (E1 & E2 & E3); [lia|].
    destruct (print_char_at s1 8 p WHITE_ON_BLACK (get_offset_col (2 * p)) (get_offset_row (2 * p)) s1)
      as (Hv & Ho & _); try done; try lia.
    + rewrite E3. rewrite !(proj2 (Z.leb_le _ _)) by zlia. done.
    + rewrite E1. unfold MAX_COLS. zlia.
    + rewrite E2. unfold MAX_ROWS. zlia.
  - replace (2 * cursor s - 2) with (-2) by lia. replace p with 0 by lia.
    destruct (get_cursor_spec s1) as (h2 & E2 & _).
    destruct (print_char_at s1 8 0 WHITE_ON_BLACK (get_offset_col (-2)) (get_offset_row (-2))
      (mk_scr (s_mem s1) h2)) as (Hv & Ho & _); try done; try lia.
    change ((0 <=? get_offset_col (-2)) && (0 <=? get_offset_row (-2))) with false. cbv iota.
    rewrite E2. do 2 f_equal. lia.
Qed.

(** [clear_screen] blanks every cell and puts the cursor in the first. *)
Theorem clear_screen_blank s :
  view (clear_screen s) = mk_term (replicate 2000 (32, WHITE_ON_BLACK)) 0 ∧
  same_outside (s_mem s) (s_mem (clear_screen s)).
Proof.
  assert (∀ n k s1, (k + n = 2000)%nat →
    (∀ i, (i < k)%nat → cells (s_mem s1) !! i = Some (32, WHITE_ON_BLACK)) →
    let s2 := clear_cells s1 (Z.of_nat k) n in
    (∀ i, (i < 2000)%nat → cells (s_mem s2) !! i = Some (32, WHITE_ON_BLACK)) ∧
    same_outside (s_mem s1) (s_mem s2)) as Hc.
  { induction n as [|n IH]; intros k s1 Hk Hi; cbn [clear_cells]; [split; [intros; apply Hi; lia | done]|].
    rewrite Z.mul_comm. destruct (vset_cells s1 (Z.of_nat k) 32 WHITE_ON_BLACK) as (Hc & Ho & _); [lia|].
    replace (Z.of_nat k + 1) with (Z.of_nat (k + 1)) by lia.
    destruct (IH (k + 1)%nat (vset (vset s1 (2 * Z.of_nat k) 32) (2 * Z.of_nat k + 1) WHITE_ON_BLACK))
      as (H1 & H2); [lia | |].
    - intros i Hik. rewrite Hc, Nat2Z.id. destruct (decide (i = k)) as [->|Hne].
      + by rewrite list_lookup_insert_eq by (rewrite length_cells; lia).
      + rewrite list_lookup_insert_ne by done. apply Hi. lia.
    - split; [done|]. intros a Ha. by rewrite H2, Ho. }
  destruct (Hc 2000%nat 0%nat s eq_refl) as (H1 & H2); [lia|].
  unfold clear_screen, view. change (Z.to_nat (MAX_COLS * MAX_ROWS)) with 2000%nat.
  change (Z.of_nat 0) with 0 in *.
  destruct (set_cursor_spec (clear_cells s 0 2000) (get_offset 0 0)) as (-> & ->);
    [change (get_offset 0 0) with 0; lia|].
  split; [|done]. f_equal. apply list_eq. intros i. destruct (decide (i < 2000)%nat) as [Hi|Hi].
  - rewrite H1 by done. symmetry. by apply lookup_replicate.
  - rewrite !lookup_ge_None_2; [done | |]; rewrite ?length_replicate, ?length_cells; lia.
Qed.
End calls.

(** * A concrete controller *)

#[export] Instance sim_vga_ports : PortIO vga := {
  inb v port := (v, if port =? 0x3d5 then
    if vga_idx v =? 14 then u8 (vga_hi v) else if vga_idx v =? 15 then u8 (vga_lo v) else 0 else 0);
  outb v port b := vga_out v port b;
  insl v _ _ := (v, []);
  outsl v _ _ := v
}.

(** Its registers are bytes. *)
Definition clamp (v : vga) : vga := mk_vga (vga_idx v) (u8 (vga_hi v)) (u8 (vga_lo v)).

#[export] Instance sim_vga : VgaCursor vga.
Proof.
  refine {| vga_view := clamp |}.
  - intros h. split; apply u8_range.
  - intros h port b. unfold clamp, outb, sim_vga_ports, vga_out. cbn.
    repeat case_match; cbn; rewrite ?u8_u8; done.
  - intros h. cbn. split; [done|]. split; [by intros -> | by intros ->].
Defined.

(** The screen with the cursor in its last cell. *)
Definition scr0 : scr vga := mk_scr ∅ (mk_vga 0 7 207).

Lemma scr0_on : on_screen scr0.
Proof. unfold on_screen. change (cursor scr0) with 1999. lia. Qed.

(** "A" and a newline there: the screen moves up once for the character and
    once for the newline on the last line. *)
Lemma kputs_shows_text_witness :
  cursor (kputs scr0 [65; 10]) = 1920 ∧ t_cells (view (kputs scr0 [65; 10])) !! 1839%nat = Some (65, 15).
Proof.
  destruct (kputs_shows_text scr0 [65; 10] scr0_on) as (E & _).
  split; [change (cursor (kputs scr0 [65; 10])) with (t_cur (view (kputs scr0 [65; 10])))|];
    rewrite E; vm_compute; reflexivity.
Defined.

Lemma kprint_backspace_blanks_witness : cursor (kprint_backspace scr0) = 1998.
Proof.
  destruct (kprint_backspace_blanks scr0 scr0_on) as (E & _).
  change (cursor (kprint_backspace scr0)) with (t_cur (view (kprint_backspace scr0))).
  rewrite E. reflexivity.
Defined.

(** [kprintf("n=%d\n", -7)]. *)
Lemma kprintf_shows_witness :
  ∃ s' css, kprintf scr0 [110; 61; 37; 100; 10] [VInt (-7)] = Ok s' ∧ on_screen s' ∧
    Forall2 item_text [ILit 110; ILit 61; IDec (-7); ILit 10] css.
Proof.
  destruct (kprintf_shows scr0 [ILit 110; ILit 61; IDec (-7); ILit 10] scr0_on)
    as (s' & css & E & Ht & _ & _ & Hon).
  - repeat constructor; cbn; lia.
  - exists s', css. split; [exact E|]. split; [exact Hon | exact Ht].
Defined.
