(* ===== verification/Shell.v ===== *)
(** drivers/keyboard.c and kernel/sh.c: the keyboard's interrupt handler edits a
    line in [key_buffer] and shows it; the key Enter gives the line to
    [user_input], which knows five commands and repeats the line.

    The screen and the drive are behind the same ports.  What the disk driver
    prints stays in its log and is not shown on this screen. *)
From S2P Require Import Prelude Memory LibC Ports Ide Text Screen.

Definition BACKSPACE : Z := 0x0E.
Definition ENTER : Z := 0x1c.
Definition CAPSLOCK : Z := 0x3a.
Definition SC_MAX : Z := 0x3a.

Definition sc_ascii_caps : list Z :=
  [63; 63; 49; 50; 51; 52; 53; 54; 55; 56; 57; 48; 45; 61; 63; 63; 81; 87; 69; 82; 84; 89; 85; 73; 79;
   80; 91; 93; 63; 63; 65; 83; 68; 70; 71; 72; 74; 75; 76; 59; 39; 96; 63; 92; 90; 88; 67; 86; 66; 78;
   77; 44; 46; 47; 63; 63; 63; 32].
Definition sc_ascii_normal : list Z :=
  [63; 63; 49; 50; 51; 52; 53; 54; 55; 56; 57; 48; 45; 61; 63; 63; 113; 119; 101; 114; 116; 121; 117; 105;
   111; 112; 91; 93; 63; 63; 97; 115; 100; 102; 103; 104; 106; 107; 108; 59; 39; 96; 63; 92; 122; 120; 99;
   118; 98; 110; 109; 44; 46; 47; 63; 63; 63; 32].

(** The C string at [s]. *)
Definition cstr_read (m : mem) (s : Z) : res (list Z) :=
  let* n := strlen m s in Ok (ld_bytes m s (Z.to_nat n)).

(** [strcmp(s, lit)] against a literal. *)
Definition strcmp_lit (m : mem) (s : Z) (lit : list Z) : res Z :=
  while (2 ^ 31)
    (λ i, let a := s8 (ld8 m (s + i)) in
          let b := s8 (zget (lit ++ [0]) i) in
          Ok (if a =? b then if ld8 m (s + i) =? 0 then inr 0 else inl (i + 1) else inr (a - b))) 0.

(** [char str[16]=""; hex_to_ascii(n, str)]: the text in [str]. *)
Definition hex_text (n : Z) : res (list Z) :=
  let* m := hex_to_ascii ∅ n 0 in cstr_read m 0.

(** Memory, the disk driver with the ports, [capslock]. *)
Record tty (hw : Type) := mk_tty { t_mem : mem; t_disk : disk_st hw; capslock : Z }.
Arguments mk_tty {hw} _ _ _.
Arguments t_mem {hw} _.
Arguments t_disk {hw} _.
Arguments capslock {hw} _.

Section shell.
Context {hw : Type} `{PortIO hw}.
Implicit Types (t : tty hw).

Definition tscr t : scr hw := mk_scr (t_mem t) (d_hw (t_disk t)).
Definition set_tscr t (s : scr hw) : tty hw := mk_tty (s_mem s) (set_hw (t_disk t) (s_hw s)) (capslock t).
Definition set_tmem t (m : mem) : tty hw := mk_tty m (t_disk t) (capslock t).
Definition set_caps t (v : Z) : tty hw := mk_tty (t_mem t) (t_disk t) v.
Definition tprint t (cs : list Z) : tty hw := set_tscr t (kprint (tscr t) cs).
Definition tprintf t (fmt : string) (args : list varg) : res (tty hw) :=
  let* s := kprintf (tscr t) (chars fmt) args in Ok (set_tscr t s).

(** [iderw(&buf1)] for a local buffer: it is on the driver's queue as any other,
    and gone when the call returns. *)
Definition iderw_local t (b : buf) : res (tty hw * buf) :=
  let d := t_disk t in
  let i := length (bufs d) in
  let* d := iderw (mk_disk (d_hw d) (bufs d ++ [b]) (idequeue d) (havedisk1 d) (d_log d)) i in
  Ok (mk_tty (t_mem t) (mk_disk (d_hw d) (take i (bufs d)) (idequeue d) (havedisk1 d) (d_log d)) (capslock t),
      bufp d i).

(** What a function leaves: the state it returns with, or the one in which it
    halted the processor. *)
Definition andthen (o : tty hw + tty hw) (f : tty hw → res (tty hw + tty hw)) : res (tty hw + tty hw) :=
  match o with inl t => f t | inr t => Ok (inr t) end.

(** [user_input(input)]; [junk] is what the fields of a local buffer hold that
    are not set.  After "END" and its message the processor is halted, in a
    handler that runs with interrupts off. *)
Definition user_input t (input : Z) (junk : buf) : res (tty hw + tty hw) :=
  let* c1 := strcmp_lit (t_mem t) input (chars "CLS") in
  let* o :=
    (if c1 =? 0 then Ok (inl (set_tscr t (clear_screen (tscr t))))
     else
       let* c2 := strcmp_lit (t_mem t) input (chars "END") in
       if c2 =? 0 then Ok (inr (tprint t (chars "Stopping the CPU.Bye!" ++ [10])))
       else
         let* c3 := strcmp_lit (t_mem t) input (chars "PAGE") in
         if c3 =? 0 then
           let* page := hex_text 0 in
           let* phys := hex_text 0 in
           Ok (inl (tprint (tprint (tprint (tprint (tprint t (chars "Page:")) page)
             (chars ",physical address: ")) phys) [10]))
         else
           let* c4 := strcmp_lit (t_mem t) input (chars "TESTIDEW") in
           if c4 =? 0 then
             let b := set_flags (set_key junk 1 1) B_DIRTY in
             let b := set_data b (splice (b_data b) 0 (replicate 6 101)) in
             let* r := iderw_local t b in
             let* s := kprintf (tscr r.1) (chars "ide write:%s" ++ [10]) [VStr (chars "eeeeee")] in
             Ok (inl (set_tscr r.1 s))
           else
             let* c5 := strcmp_lit (t_mem t) input (chars "TESTIDER") in
             if c5 =? 0 then
               let* r := iderw_local t (set_flags (set_key junk 1 1) B_DIRTY) in
               let* s := kprintf (tscr r.1) (chars "ide read:%c" ++ [10]) [VInt (s8 (zget (b_data r.2) 0))] in
               Ok (inl (set_tscr r.1 s))
             else Ok (inl t)) in
  andthen o (λ t,
  let t := tprint t (chars "You said:") in
  let* line := cstr_read (t_mem t) input in
  Ok (inl (tprint (tprint t line) [10; 62]))).

Definition keyboard_callback t (key_buffer : Z) (junk : buf) : res (tty hw + tty hw) :=
  let '(s, scancode) := port_byte_in (tscr t) 0x60 in
  let t := set_tscr t s in
  if SC_MAX <? scancode then Ok (inl t)
  else if scancode =? BACKSPACE then
    let* m := backspace (t_mem t) key_buffer in
    let t := set_tmem t m in
    Ok (inl (set_tscr t (kprint_backspace (tscr t))))
  else if scancode =? ENTER then
    let t := tprint t [10] in
    let* o := user_input t key_buffer junk in
    andthen o (λ t, Ok (inl (set_tmem t (st8 (t_mem t) key_buffer 0))))
  else if scancode =? CAPSLOCK then
    let t := set_caps t (if capslock t =? 0 then 1 else 0) in
    let* s := kprintf (tscr t) (chars "capslock:%d" ++ [10]) [VInt (capslock t)] in
    Ok (inl (set_tscr t s))
  else
    let letter := zget (if capslock t =? 0 then sc_ascii_normal else sc_ascii_caps) scancode in
    let* m := append (t_mem t) key_buffer letter in
    Ok (inl (tprint (set_tmem t m) [letter])).
End shell.

(** What the handler relies on: port 60 gives the scancode and does not disturb
    the screen's registers. *)
Class Keyboard (hw : Type) `{VgaCursor hw} := {
  kbd_code : hw → Z;
  kbd_inb : ∀ h, let '(h', r) := inb h 0x60 in vga_view h' = vga_view h ∧ u8 r = kbd_code h
}.

(** The characters of a string and its terminating 0, as an array. *)
Lemma zget_app_l l i c : l !! i = Some c → zget (l ++ [0]) (Z.of_nat i) = c.
Proof.
  intros Hc. unfold zget. rewrite Nat2Z.id. apply list_lookup_total_correct.
  rewrite lookup_app_l; [done|]. by eapply lookup_lt_Some.
Qed.

Lemma zget_app_end l : zget (l ++ [0]) (Z.of_nat (length l)) = 0.
Proof.
  unfold zget. rewrite Nat2Z.id. apply list_lookup_total_correct.
  by rewrite lookup_app_r, Nat.sub_diag by lia.
Qed.

Lemma cstr_zget m s l :
  cstr m s l → ∀ i, (i ≤ length l)%nat → ld8 m (s + Z.of_nat i) = zget (l ++ [0]) (Z.of_nat i).
Proof.
  intros Hs i Hi. destruct (decide (i < length l)%nat) as [Hlt|].
  - by rewrite (zget_app_l l i _ (cstr_ld m s l i Hs Hlt)).
  - assert (i = length l) as -> by lia. rewrite zget_app_end. apply Hs.
Qed.

Lemma str_zget l i :
  Forall (λ c, 0 < c < 256) l → (i ≤ length l)%nat →
  0 ≤ zget (l ++ [0]) (Z.of_nat i) < 256 ∧ (zget (l ++ [0]) (Z.of_nat i) = 0 ↔ i = length l).
Proof.
  intros Hf Hi. destruct (decide (i < length l)%nat) as [Hlt|].
  - destruct (lookup_lt_is_Some_2 _ _ Hlt) as (c & Hc). rewrite (zget_app_l l i c Hc).
    eapply Forall_lookup_1 in Hf; [|exact Hc]. lia.
  - assert (i = length l) as -> by lia. rewrite zget_app_end. lia.
Qed.

(** [strcmp_lit] tells a C string from a literal. *)
Lemma strcmp_lit_spec m s l lit :
  cstr m s l → Forall (λ c, 0 < c < 256) lit → Z.of_nat (length l) < 2 ^ 30 →
  ∃ r, strcmp_lit m s lit = Ok r ∧ (r = 0 ↔ l = lit).
Proof.
  intros Hs Hlit Hlen. unfold strcmp_lit.
  pose proof (cstr_zget m s l Hs) as Hl.
  assert (∀ k c, 0 ≤ c < 256 → 0 ≤ k < 256 → s8 c = s8 k → c = k) as Hs8 by (intros; zlia).
  assert (Forall (λ c, 0 < c < 256) l) as Hfl by apply Hs.
  destruct (while_spec (λ i, ∃ k, i = Z.of_nat k ∧ (k ≤ length l)%nat ∧ (k ≤ length lit)%nat ∧ take k l = take k lit)
    (λ i, Z.of_nat (length l) + 1 - i) (λ r, r = 0 ↔ l = lit) (2 ^ 31)
    (λ i, let a := s8 (ld8 m (s + i)) in let b := s8 (zget (lit ++ [0]) i) in
          Ok (if a =? b then if ld8 m (s + i) =? 0 then inr 0 else inl (i + 1) else inr (a - b))) 0)
    as (r & E & Hq); [| |exists 0%nat; split_and!; (done || lia)|lia|by exists r].
  - intros i (k & -> & Hk & _). lia.
  - intros i (k & -> & Hk & Hk2 & Et). rewrite (Hl k Hk).
    destruct (str_zget l k Hfl Hk) as (R1 & R2). destruct (str_zget lit k Hlit Hk2) as (R3 & R4).
    set (a := zget (l ++ [0]) (Z.of_nat k)) in *. set (b := zget (lit ++ [0]) (Z.of_nat k)) in *.
    cbv zeta. destruct (Z.eqb_spec (s8 a) (s8 b)) as [Eab|Nab].
    + assert (a = b) as Eb by (by apply Hs8). destruct (Z.eqb_spec a 0) as [E0|N0].
      * right. exists 0. split; [done|]. split; [|done]. intros _.
        rewrite <- (firstn_all l), <- (firstn_all lit), <- (proj1 R2 E0), <- (proj1 R4 ltac:(congruence)). done.
      * left. exists (Z.of_nat k + 1). split; [done|]. split; [|lia]. exists (S k).
        assert (k ≠ length l ∧ k ≠ length lit) as (N1 & N2) by (split; intros Ek; [apply N0, R2, Ek | apply N0; rewrite Eb; apply R4, Ek]).
        split; [lia|]. split; [lia|]. split; [lia|].
        destruct (lookup_lt_is_Some_2 l k) as (c & Hc); [lia|].
        destruct (lookup_lt_is_Some_2 lit k) as (c' & Hc'); [lia|].
        rewrite (take_S_r _ _ _ Hc), (take_S_r _ _ _ Hc'), Et. do 2 f_equal.
        assert (a = c) by (by apply zget_app_l). assert (b = c') by (by apply zget_app_l). congruence.
    + right. eexists; split; [reflexivity|]. split; [lia|]. intros ->. by destruct Nab.
Qed.

(** * Typing a line *)

Section typing.
Context {hw : Type} `{Keyboard hw}.
Context (kb : Z) (Hkb : kb + 256 ≤ VIDEO_ADDRESS ∨ VIDEO_ADDRESS + 4000 ≤ kb).
Implicit Types (t : tty hw) (l : list Z).

(** The line [l] is in the key buffer, and the screen shows [v]. *)
Definition line_is t l (v : term) : Prop :=
  cstr (t_mem t) kb l ∧ (length l ≤ 255)%nat ∧ on_screen (tscr t) ∧ view (tscr t) = v.

Lemma line_kept t (s : scr hw) l v :
  line_is t l v → shows (tscr t) s (view s) → line_is (set_tscr t s) l (view s).
Proof.
  intros (Hc & Hl & _ & _) (_ & Ho & Hon). split; [|done].
  apply (cstr_ext (t_mem t)); [|done]. intros x Hx. apply Ho. unfold inr_ in *. lia.
Qed.

(** Only the key buffer is written. *)
Lemma line_edited t m' l l' v :
  line_is t l v → (∀ x, ¬ inr_ kb 256 x → ld8 m' x = ld8 (t_mem t) x) → cstr m' kb l' → (length l' ≤ 255)%nat →
  line_is (set_tmem t m') l' v.
Proof.
  intros (_ & _ & Hon & Hv) Hm Hc Hl. split; [done|]. split; [done|]. split; [done|]. rewrite <- Hv.
  unfold view. f_equal. apply cells_eq; [apply length_cells|]. intros i x Hx.
  pose proof (lookup_lt_Some _ _ _ Hx) as Hi. rewrite length_cells in Hi. rewrite lookup_cells in Hx by done.
  injection Hx as <-. unfold cell. change (s_mem (tscr (set_tmem t m'))) with m'. change (s_mem (tscr t)) with (t_mem t).
  rewrite !Hm by (unfold inr_; lia). done.
Qed.

Lemma tprint_line t l v cs :
  line_is t l v → line_is (tprint t cs) l (foldl (tput RED_ON_BLACK) v cs).
Proof.
  intros Hl. pose proof Hl as (_ & _ & Hon & Hv). pose proof (kprint_shows (tscr t) cs Hon) as (E & Ho & Hon').
  rewrite <- Hv, <- E. apply line_kept with v; [done|by split].
Qed.

(** The scancode is read. *)
Lemma read_code t l v :
  line_is t l v →
  ∃ s, port_byte_in (tscr t) 0x60 = (s, kbd_code (d_hw (t_disk t))) ∧ line_is (set_tscr t s) l v ∧
    t_mem (set_tscr t s) = t_mem t.
Proof.
  intros (Hc & Hl & Hon & Hv). unfold port_byte_in. pose proof (kbd_inb (s_hw (tscr t))) as Hin.
  destruct (inb (s_hw (tscr t)) 0x60) as [h r]. destruct Hin as (Ev & Er).
  eexists; split; [by rewrite Er|]. split; [|done]. split; [done|]. split; [done|].
  unfold on_screen, view, cursor in *. cbn in *. rewrite Ev. done.
Qed.

Definition letter_of t (sc : Z) : Z := zget (if capslock t =? 0 then sc_ascii_normal else sc_ascii_caps) sc.

Lemma letter_range t sc : 0 ≤ sc < 58 → 0 < letter_of t sc < 256.
Proof.
  intros Hsc. unfold letter_of, zget.
  assert (Forall (λ c, 0 < c < 256) sc_ascii_normal) as Hn by (apply (bool_decide_unpack _); vm_compute; exact I).
  assert (Forall (λ c, 0 < c < 256) sc_ascii_caps) as Hc by (apply (bool_decide_unpack _); vm_compute; exact I).
  destruct (capslock t =? 0).
  - destruct (lookup_lt_is_Some_2 sc_ascii_normal (Z.to_nat sc)) as (c & E); [cbn; lia|].
    rewrite (list_lookup_total_correct _ _ _ E). by eapply Forall_lookup_1 in Hn; [|exact E].
  - destruct (lookup_lt_is_Some_2 sc_ascii_caps (Z.to_nat sc)) as (c & E); [cbn; lia|].
    rewrite (list_lookup_total_correct _ _ _ E). by eapply Forall_lookup_1 in Hc; [|exact E].
Qed.

Lemma key_letter t l v sc junk :
  line_is t l v → kbd_code (d_hw (t_disk t)) = sc → 0 ≤ sc < 58 → sc ≠ BACKSPACE → sc ≠ ENTER →
  (length l ≤ 254)%nat →
  ∃ t', keyboard_callback t kb junk = Ok (inl t') ∧ capslock t' = capslock t ∧
    line_is t' (l ++ [letter_of t sc]) (tput RED_ON_BLACK v (letter_of t sc)).
Proof.
  intros Hl Esc Hsc Hb He Hlen. destruct (read_code t l v Hl) as (s & Es & Hl1 & Em).
  unfold keyboard_callback. rewrite Es, Esc. unfold SC_MAX, CAPSLOCK.
  rewrite (proj2 (Z.ltb_ge _ _)), !(proj2 (Z.eqb_neq _ _)) by (done || lia).
  change (capslock (set_tscr t s)) with (capslock t). fold (letter_of t sc). rewrite Em.
  destruct Hl as (Hc & _). destruct (append_cstr (t_mem t) kb l (letter_of t sc) Hc) as (m' & -> & Hc' & Hm');
    [by apply letter_range|lia|].
  cbn [rbind]. eexists; split; [reflexivity|]. split; [done|].
  apply (tprint_line _ _ v [letter_of t sc]). eapply line_edited; [exact Hl1 | | done | rewrite length_app; cbn; lia].
  intros x Hx. rewrite Em. apply Hm'. unfold inr_ in *. lia.
Qed.

(** A line that is no command. *)
Definition no_command (l : list Z) : Prop :=
  l ≠ chars "CLS" ∧ l ≠ chars "END" ∧ l ≠ chars "PAGE" ∧ l ≠ chars "TESTIDEW" ∧ l ≠ chars "TESTIDER".

Lemma strcmp_other m l lit :
  cstr m kb l → (length l ≤ 255)%nat → Forall (λ c, 0 < c < 256) lit → l ≠ lit →
  ∃ r, strcmp_lit m kb lit = Ok r ∧ (r =? 0) = false.
Proof.
  intros Hc Hl Hlit Hne. destruct (strcmp_lit_spec m kb l lit Hc Hlit ltac:(lia)) as (r & -> & Hr).
  exists r. split; [done|]. apply Z.eqb_neq. tauto.
Qed.

Lemma user_input_echo t l v junk :
  line_is t l v → no_command l →
  ∃ t', user_input t kb junk = Ok (inl t') ∧ capslock t' = capslock t ∧
    line_is t' l (foldl (tput RED_ON_BLACK) v (chars "You said:" ++ l ++ [10; 62])).
Proof.
  intros Hl (N1 & N2 & N3 & N4 & N5). pose proof Hl as (Hc & Hlen & _). unfold user_input.
  destruct (strcmp_other (t_mem t) l (chars "CLS") Hc Hlen) as (r1 & -> & E1); [repeat constructor|done|].
  destruct (strcmp_other (t_mem t) l (chars "END") Hc Hlen) as (r2 & -> & E2); [repeat constructor|done|].
  destruct (strcmp_other (t_mem t) l (chars "PAGE") Hc Hlen) as (r3 & -> & E3); [repeat constructor|done|].
  destruct (strcmp_other (t_mem t) l (chars "TESTIDEW") Hc Hlen) as (r4 & -> & E4); [repeat constructor|done|].
  destruct (strcmp_other (t_mem t) l (chars "TESTIDER") Hc Hlen) as (r5 & -> & E5); [repeat constructor|done|].
  cbn [rbind]. rewrite E1. cbn [rbind]. rewrite E2. cbn [rbind]. rewrite E3. cbn [rbind]. rewrite E4.
  cbn [rbind]. rewrite E5. cbn [rbind andthen].
  pose proof (tprint_line t l v (chars "You said:") Hl) as Hl1. pose proof Hl1 as (Hc1 & _).
  unfold cstr_read. rewrite (strlen_cstr _ _ l Hc1) by lia. cbn [rbind]. rewrite Nat2Z.id.
  rewrite (proj1 Hc1). eexists; split; [reflexivity|]. split; [done|].
  rewrite !foldl_app. by do 2 apply tprint_line.
Qed.

Lemma backspace_line t l v :
  line_is t l v →
  let q := Z.max 0 (t_cur v - 1) in
  line_is (set_tscr t (kprint_backspace (tscr t))) l (mk_term (<[Z.to_nat q := (32, WHITE_ON_BLACK)]> (t_cells v)) q).
Proof.
  intros Hl q. pose proof Hl as (_ & _ & Hon & Hv).
  destruct (kprint_backspace_blanks (tscr t) Hon) as (Ev & Ho).
  assert (cursor (tscr t) = t_cur v) as Ec by (by rewrite <- Hv).
  rewrite Hv, Ec in Ev. fold q in Ev. rewrite <- Ev. apply line_kept with v; [done|].
  split; [done|]. split; [done|].
  assert (cursor (kprint_backspace (tscr t)) = q) as Eq by exact (f_equal t_cur Ev).
  unfold on_screen in *. rewrite Eq. unfold q. rewrite <- Ec. lia.
Qed.

Lemma backspace_frame m l c :
  cstr m kb (l ++ [c]) → (length l ≤ 254)%nat →
  ∃ m', backspace m kb = Ok m' ∧ cstr m' kb l ∧ (∀ x, ¬ inr_ kb 256 x → ld8 m' x = ld8 m x).
Proof.
  intros Hc Hl. assert (length (l ++ [c]) = S (length l)) as E1 by (rewrite length_app; cbn; lia).
  destruct (backspace_cstr m kb l c Hc) as (m' & E & Hc'); [rewrite E1; lia|].
  exists m'. split; [exact E|]. split; [exact Hc'|]. revert E. unfold backspace.
  rewrite (strlen_cstr _ _ _ Hc) by (rewrite E1; lia). cbn [rbind]. intros [= <-] x Hx.
  apply ld8_st8_ne. rewrite E1. unfold inr_ in Hx. lia.
Qed.

Lemma callback_backspace t s junk m' :
  port_byte_in (tscr t) 0x60 = (s, BACKSPACE) → backspace (s_mem s) kb = Ok m' →
  keyboard_callback t kb junk =
    Ok (inl (set_tscr (set_tmem (set_tscr t s) m') (kprint_backspace (tscr (set_tmem (set_tscr t s) m'))))).
Proof.
  intros E1 E2. unfold keyboard_callback. rewrite E1. cbv beta iota zeta.
  replace (SC_MAX <? BACKSPACE) with false by reflexivity. replace (BACKSPACE =? BACKSPACE) with true by reflexivity.
  replace (t_mem (set_tscr t s)) with (s_mem s) by reflexivity. rewrite E2. reflexivity.
Qed.

(** The other keys.  Backspace takes the last character of the line, and the
    cell before the cursor is blank. *)
Lemma key_backspace t l c v junk :
  line_is t (l ++ [c]) v → kbd_code (d_hw (t_disk t)) = BACKSPACE →
  ∃ t', keyboard_callback t kb junk = Ok (inl t') ∧ capslock t' = capslock t ∧
    let q := Z.max 0 (t_cur v - 1) in
    line_is t' l (mk_term (<[Z.to_nat q := (32, WHITE_ON_BLACK)]> (t_cells v)) q).
Proof.
  intros Hl Esc. destruct (read_code t _ v Hl) as (s & Es & Hl1 & Em). rewrite Esc in Es.
  pose proof Hl1 as (Hc & Hlen & _). rewrite length_app in Hlen. cbn [length] in Hlen.
  destruct (backspace_frame (s_mem s) l c Hc) as (m' & E & Hc' & Hm); [lia|].
  eexists. split; [exact (callback_backspace t s junk m' Es E)|]. split; [reflexivity|]. cbv zeta.
  apply backspace_line. eapply line_edited; [exact Hl1 | exact Hm | exact Hc' | lia].
Qed.

(** Caps lock changes the table of the letters, and says so. *)
Lemma key_capslock t l v junk :
  line_is t l v → kbd_code (d_hw (t_disk t)) = CAPSLOCK →
  let c := if capslock t =? 0 then 1 else 0 in
  ∃ t', keyboard_callback t kb junk = Ok (inl t') ∧ capslock t' = c ∧
    line_is t' l (foldl (tput WHITE_ON_BLACK) (foldl (tput RED_ON_BLACK) v (chars "kern:"))
      (chars "capslock:" ++ [48 + c; 10])).
Proof.
  intros Hl Esc c. destruct (read_code t _ v Hl) as (s & Es & Hl1 & Em).
  unfold keyboard_callback. rewrite Es, Esc. change (SC_MAX <? CAPSLOCK) with false.
  change (CAPSLOCK =? BACKSPACE) with false. change (CAPSLOCK =? ENTER) with false.
  change (CAPSLOCK =? CAPSLOCK) with true. cbv iota. change (capslock (set_tscr t s)) with (capslock t). fold c.
  set (t2 := set_caps (set_tscr t s) c). change (capslock t2) with c.
  assert (line_is t2 l v) as Hl2 by exact Hl1. pose proof Hl2 as (_ & _ & Hon & Hv).
  assert (kprintf (tscr t2) (chars "capslock:%d" ++ [10]) [VInt c] =
    Ok (kputs (kprint (tscr t2) (chars "kern:")) (chars "capslock:" ++ [48 + c; 10]))) as ->
    by (unfold c; destruct (capslock t =? 0); reflexivity).
  cbn [rbind]. eexists; split; [reflexivity|]. split; [done|].
  pose proof (kprint_shows (tscr t2) (chars "kern:") Hon) as Hs1. pose proof Hs1 as (Ev1 & _ & Hon1).
  pose proof (kputs_shows _ (chars "capslock:" ++ [48 + c; 10]) Hon1) as Hs2. rewrite Ev1, Hv in Hs2.
  pose proof Hs2 as (Ev2 & _). rewrite <- Ev2. apply line_kept with v; [done|]. rewrite Ev2.
  eapply shows_trans; [exact Hs1 | exact Hs2].
Qed.

(** Enter on the line "END" halts the processor with a message. *)
Lemma key_end t v junk :
  line_is t (chars "END") v → kbd_code (d_hw (t_disk t)) = ENTER →
  ∃ t', keyboard_callback t kb junk = Ok (inr t') ∧
    line_is t' (chars "END") (foldl (tput RED_ON_BLACK) v ([10] ++ chars "Stopping the CPU.Bye!" ++ [10])).
Proof.
  intros Hl Esc. destruct (read_code t _ v Hl) as (s & Es & Hl1 & Em).
  unfold keyboard_callback. rewrite Es, Esc. change (SC_MAX <? ENTER) with false.
  change (ENTER =? BACKSPACE) with false. change (ENTER =? ENTER) with true. cbv iota.
  pose proof (tprint_line _ _ v [10] Hl1) as Hl2. pose proof Hl2 as (Hc & Hlen & _). unfold user_input.
  destruct (strcmp_other _ (chars "END") (chars "CLS") Hc Hlen) as (r1 & -> & E1); [repeat constructor | done |].
  cbn [rbind]. rewrite E1.
  destruct (strcmp_lit_spec _ kb (chars "END") (chars "END") Hc) as (r2 & -> & E2); [repeat constructor | cbn; lia |].
  cbn [rbind]. rewrite (proj2 E2 eq_refl). cbn [Z.eqb rbind andthen]. eexists; split; [reflexivity|].
  rewrite foldl_app. by apply tprint_line.
Qed.

(** C32. What each key does to the line and to the screen.  A letter key adds its
    character, of the table that the caps lock selects, while the line has at most
    254; Backspace takes the last character of a line that has one; caps lock
    changes the table and says so; Enter on a line that is no command shows the
    line again after "You said:" and starts an empty line, and on "END" it halts
    the processor with a message; a code above those of the table does nothing. *)
Theorem keyboard_types t l v sc junk :
  line_is t l v → kbd_code (d_hw (t_disk t)) = sc → 0 ≤ sc →
  let letter := zget (if capslock t =? 0 then sc_ascii_normal else sc_ascii_caps) sc in
  (sc < 58 → sc ≠ BACKSPACE → sc ≠ ENTER → (length l ≤ 254)%nat →
   ∃ t', keyboard_callback t kb junk = Ok (inl t') ∧ capslock t' = capslock t ∧
     line_is t' (l ++ [letter]) (tput RED_ON_BLACK v letter)) ∧
  (sc = BACKSPACE → ∀ l1 c, l = l1 ++ [c] →
   ∃ t', keyboard_callback t kb junk = Ok (inl t') ∧ capslock t' = capslock t ∧
     let q := Z.max 0 (t_cur v - 1) in
     line_is t' l1 (mk_term (<[Z.to_nat q := (32, WHITE_ON_BLACK)]> (t_cells v)) q)) ∧
  (sc = CAPSLOCK → let c := if capslock t =? 0 then 1 else 0 in
   ∃ t', keyboard_callback t kb junk = Ok (inl t') ∧ capslock t' = c ∧
     line_is t' l (foldl (tput WHITE_ON_BLACK) (foldl (tput RED_ON_BLACK) v (chars "kern:"))
       (chars "capslock:" ++ [48 + c; 10]))) ∧
  (sc = ENTER → no_command l →
   ∃ t', keyboard_callback t kb junk = Ok (inl t') ∧ capslock t' = capslock t ∧
     line_is t' [] (foldl (tput RED_ON_BLACK) v ([10] ++ chars "You said:" ++ l ++ [10; 62]))) ∧
  (sc = ENTER → l = chars "END" →
   ∃ t', keyboard_callback t kb junk = Ok (inr t') ∧
     line_is t' l (foldl (tput RED_ON_BLACK) v ([10] ++ chars "Stopping the CPU.Bye!" ++ [10]))) ∧
  (SC_MAX < sc → ∃ t', keyboard_callback t kb junk = Ok (inl t') ∧ capslock t' = capslock t ∧ line_is t' l v).
Proof.
  intros Hl Esc Hpos letter. split; [|split; [|split; [|split; [|split]]]].
  - intros Hsc Hb He Hlen. by apply key_letter.
  - intros Hb l1 c ->. apply (key_backspace t l1 c); [done | congruence].
  - intros Hc c. apply key_capslock; [done | congruence].
  - intros He Hno. destruct (read_code t l v Hl) as (s & Es & Hl1 & Em).
    unfold keyboard_callback. rewrite Es, Esc, He. change (SC_MAX <? ENTER) with false.
    change (ENTER =? BACKSPACE) with false. change (ENTER =? ENTER) with true. cbv iota.
    destruct (user_input_echo _ l _ junk (tprint_line _ l v [10] Hl1) Hno) as (t' & -> & Ecaps & Hl2).
    cbn [rbind andthen]. eexists; split; [reflexivity|]. split; [done|].
    rewrite foldl_app. eapply line_edited; [exact Hl2 | | | cbn; lia].
    + intros x Hx. apply ld8_st8_ne. unfold inr_ in Hx. lia.
    + apply cstr_nil. by rewrite ld8_st8_eq.
  - intros He ->. apply key_end; [done | congruence].
  - intros Hgt. destruct (read_code t l v Hl) as (s & Es & Hl1 & Em).
    unfold keyboard_callback. rewrite Es, Esc, (proj2 (Z.ltb_lt _ _)) by done. by eexists.
Qed.
End typing.

(** * A concrete keyboard: the screen's controller and one scancode *)

#[export] Instance sim_kbd_ports : PortIO (vga * Z) := {
  inb h port := if port =? 0x60 then (h, h.2) else let '(v, r) := inb h.1 port in ((v, h.2), r);
  outb h port b := (vga_out h.1 port b, h.2);
  insl h _ _ := (h, []);
  outsl h _ _ := h
}.

#[export] Instance sim_kbd_vga : VgaCursor (vga * Z).
Proof.
  refine {| vga_view := λ h, vga_view h.1 |}.
  - intros h. apply vga_range.
  - intros [v c] port b. exact (vga_outb v port b).
  - intros [v c]. exact (vga_inb v).
Defined.

#[export] Instance sim_kbd : Keyboard (vga * Z).
Proof. refine {| kbd_code := λ h, u8 h.2 |}. intros [v c]. cbn. done. Defined.

(** The key A on an empty line. *)
Definition tty0 : tty (vga * Z) := mk_tty ∅ (mk_disk (mk_vga 0 0 5, 30) [] None false []) 0.

Lemma tty0_line : line_is 0x90000000 tty0 [] (view (tscr tty0)).
Proof.
  split; [by apply cstr_nil|]. split; [cbn; lia|]. split; [|done].
  unfold on_screen. change (cursor (tscr tty0)) with 5. lia.
Qed.

Lemma keyboard_types_witness :
  ∃ t', keyboard_callback tty0 0x90000000 inhabitant = Ok (inl t') ∧ cstr (t_mem t') 0x90000000 [97].
Proof.
  destruct (keyboard_types (H1 := sim_kbd) 0x90000000 ltac:(unfold VIDEO_ADDRESS; lia) tty0 [] _ 30 inhabitant tty0_line
    eq_refl ltac:(lia)) as (Hk & _).
  destruct (Hk ltac:(lia) ltac:(discriminate) ltac:(discriminate) ltac:(cbn; lia)) as (t' & E & _ & Hc & _).
  exists t'. split; [exact E | exact Hc].
Defined.
