(* ===== verification/Seg.v ===== *)
(** include/mmu.h, kernel/vm.c, cpu/idt.c: segment descriptors, the GDT and the
    gates of the IDT. *)
From S2P Require Import Prelude.

(** * Segment descriptors

    A bit field of width [w] keeps the [w] low bits of what is stored. *)
Definition bits (w x : Z) : Z := x mod 2 ^ w.

Record segdesc := mk_seg {
  lim_15_0 : Z; base_15_0 : Z; base_23_16 : Z; sg_type : Z; sg_s : Z; sg_dpl : Z; sg_p : Z;
  lim_19_16 : Z; sg_avl : Z; sg_rsv1 : Z; sg_db : Z; sg_g : Z; base_31_24 : Z
}.

#[export] Instance segdesc_inhabited : Inhabited segdesc :=
  populate (mk_seg 0 0 0 0 0 0 0 0 0 0 0 0 0).

Definition STA_X : Z := 0x8.
Definition STA_W : Z := 0x2.
Definition STA_R : Z := 0x2.
Definition SEG_KCODE : nat := 1.
Definition SEG_KDATA : nat := 2.
Definition SEG_UCODE : nat := 3.
Definition SEG_UDATA : nat := 4.
Definition SEG_TSS : nat := 5.
Definition STS_T32A : Z := 0x9.
Definition DPL_USER : Z := 3.

Definition SEG (type base lim dpl : Z) : segdesc :=
  mk_seg (Z.land (Z.shiftr lim 12) 0xffff) (Z.land base 0xffff) (Z.land (Z.shiftr base 16) 0xff)
    (bits 4 type) 1 (bits 2 dpl) 1 (bits 4 (Z.shiftr lim 28)) 0 0 1 1 (bits 8 (Z.shiftr base 24)).

Definition SEG16 (type base lim dpl : Z) : segdesc :=
  mk_seg (Z.land lim 0xffff) (Z.land base 0xffff) (Z.land (Z.shiftr base 16) 0xff)
    (bits 4 type) 1 (bits 2 dpl) 1 (bits 4 (Z.shiftr lim 16)) 0 0 1 0 (bits 8 (Z.shiftr base 24)).

Definition set_s (d : segdesc) (v : Z) : segdesc :=
  mk_seg (lim_15_0 d) (base_15_0 d) (base_23_16 d) (sg_type d) v (sg_dpl d) (sg_p d)
    (lim_19_16 d) (sg_avl d) (sg_rsv1 d) (sg_db d) (sg_g d) (base_31_24 d).

(** [gdt], six descriptors. *)
Definition seginit (gdt : list segdesc) : list segdesc :=
  let gdt := <[SEG_KCODE := SEG (Z.lor STA_X STA_R) 0 0xffffffff 0]> gdt in
  let gdt := <[SEG_KDATA := SEG STA_W 0 0xffffffff 0]> gdt in
  let gdt := <[SEG_UCODE := SEG (Z.lor STA_X STA_R) 0 0xffffffff DPL_USER]> gdt in
  <[SEG_UDATA := SEG STA_W 0 0xffffffff DPL_USER]> gdt.

(** How the processor reads a descriptor. *)
Definition seg_base (d : segdesc) : Z := base_15_0 d + 2 ^ 16 * base_23_16 d + 2 ^ 24 * base_31_24 d.
Definition seg_limit (d : segdesc) : Z :=
  let l := lim_15_0 d + 2 ^ 16 * lim_19_16 d in
  if sg_g d =? 1 then 4096 * l + 4095 else l.

Lemma land_ones16 x : Z.land x 0xffff = x mod 2 ^ 16.
Proof. change 0xffff with (2 ^ 16 - 1). by apply land_ones_mod. Qed.
Lemma land_ones8 x : Z.land x 0xff = x mod 2 ^ 8.
Proof. change 0xff with (2 ^ 8 - 1). by apply land_ones_mod. Qed.

(** A descriptor built by [SEG] or [SEG16] names the segment it was given:
    the base exactly; the limit exactly (20 bits) for [SEG16], rounded up to the
    end of its 4096-byte page for [SEG]. *)
Theorem seg_decodes type base lim dpl :
  0 ≤ base < 2 ^ 32 → 0 ≤ lim < 2 ^ 32 →
  seg_base (SEG type base lim dpl) = base ∧
  seg_limit (SEG type base lim dpl) = lim - lim mod 4096 + 4095 ∧
  seg_base (SEG16 type base lim dpl) = base ∧
  (lim < 2 ^ 20 → seg_limit (SEG16 type base lim dpl) = lim).
Proof.
  intros Hb Hl. unfold seg_base, seg_limit, SEG, SEG16, bits. cbn -[Z.land Z.shiftr Z.pow].
  rewrite !land_ones16, !land_ones8, !Z.shiftr_div_pow2 by lia. cbn -[Z.land Z.shiftr].
  split; [|split; [|split]]; intros; zlia.
Qed.

Lemma seg_decodes_witness : seg_limit (SEG STA_W 0 0xffffffff 0) = 0xffffffff.
Proof.
  destruct (seg_decodes STA_W 0 0xffffffff 0 ltac:(lia) ltac:(lia)) as (_ & -> & _). reflexivity.
Defined.

(** * Gates *)

Record idt_gate := mk_gate {
  g_low : Z; g_sel : Z; g_always0 : Z; g_flags : Z; g_high : Z
}.
#[export] Instance idt_gate_inhabited : Inhabited idt_gate := populate (mk_gate 0 0 0 0 0).

Definition KERNEL_CS : Z := 0x08.
Definition IDT_ENTRIES : nat := 256.

Definition set_idt_gate (idt : list idt_gate) (n : nat) (handler : Z) : list idt_gate :=
  <[n := mk_gate (Z.land handler 0xFFFF) KERNEL_CS 0
           (if (n =? 64)%nat then 0xEF else 0x8E)
           (Z.land (Z.shiftr handler 16) 0xFFFF)]> idt.

(** The base and the limit that [lidtl] gets. *)
Definition set_idt (idt_addr : Z) : Z * Z := (idt_addr, Z.of_nat IDT_ENTRIES * 8 - 1).

(** How the processor reads a gate. *)
Definition gate_offset (g : idt_gate) : Z := g_low g + 2 ^ 16 * g_high g.
Definition gate_dpl (g : idt_gate) : Z := Z.land (Z.shiftr (g_flags g) 5) 3.
Definition gate_present (g : idt_gate) : bool := Z.testbit (g_flags g) 7.

(** The gates that [isr_install] sets: the exceptions, the interrupts of the
    two controllers, the system call.  The interrupt controllers are set up after
    the exceptions. *)
Definition exc_vectors : list nat := [1%nat; 0%nat] ++ seq 2 30.
Definition irq_vectors : list nat := seq 32 16 ++ [64%nat].
Definition isr_vectors : list nat := exc_vectors ++ irq_vectors.

Fixpoint set_gates (idt : list idt_gate) (entry : nat → Z) (vs : list nat) : list idt_gate :=
  match vs with
  | [] => idt
  | v :: vs' => set_gates (set_idt_gate idt v (entry v)) entry vs'
  end.

Lemma set_gates_app idt entry vs ws :
  set_gates idt entry (vs ++ ws) = set_gates (set_gates idt entry vs) entry ws.
Proof. revert idt. induction vs as [|v vs IH]; intros idt; [done|]. apply IH. Qed.

Lemma set_gates_lookup idt entry vs v :
  (∀ w, w ∈ vs → (w < length idt)%nat) →
  set_gates idt entry vs !! v =
    if decide (v ∈ vs) then set_idt_gate idt v (entry v) !! v else idt !! v.
Proof.
  revert idt. induction vs as [|w vs IH]; intros idt Hl; cbn [set_gates].
  - rewrite decide_False; [done|]. apply not_elem_of_nil.
  - rewrite IH.
    2: { intros u Hu. unfold set_idt_gate. rewrite length_insert. apply Hl. by right. }
    unfold set_idt_gate. destruct (decide (v = w)) as [->|Hne].
    + assert (w < length idt)%nat by (apply Hl; left).
      rewrite (decide_True (P := w ∈ w :: vs)) by left.
      case_decide; rewrite !list_lookup_insert_eq; rewrite ?length_insert; done.
    + assert (v ∈ vs ↔ v ∈ w :: vs) as Hiff by (rewrite elem_of_cons; tauto).
      rewrite (list_lookup_insert_ne _ w v) by congruence.
      destruct (decide (v ∈ vs)) as [Hv|Hv].
      * rewrite decide_True by tauto.
        assert (v < length idt)%nat by (apply Hl; by right).
        rewrite !list_lookup_insert_eq; rewrite ?length_insert; done.
      * by rewrite decide_False by tauto.
Qed.

(** After [isr_install] every exception, every hardware interrupt and the
    system call have a present gate in the kernel's code segment for their own
    entry point; user code may raise vector 64 and no other, and the other
    entries of the table are untouched. *)
Theorem gates_installed idt entry v :
  length idt = IDT_ENTRIES → (∀ w, 0 ≤ entry w < 2 ^ 32) →
  let idt' := set_gates idt entry isr_vectors in
  if decide (v ∈ isr_vectors) then
    ∃ g, idt' !! v = Some g ∧ gate_offset g = entry v ∧ g_sel g = KERNEL_CS ∧
      gate_present g = true ∧ gate_dpl g = (if decide (v = 64%nat) then 3 else 0)
  else idt' !! v = idt !! v.
Proof.
  intros Hl He idt'. unfold idt'.
  assert (∀ w, w ∈ isr_vectors → (w < 65)%nat) as Hw
    by (apply Forall_forall, (bool_decide_unpack _); vm_compute; exact I).
  rewrite set_gates_lookup by (intros w Hin; rewrite Hl; apply Hw in Hin; unfold IDT_ENTRIES; lia).
  case_decide as Hv; [|done]. unfold set_idt_gate.
  rewrite list_lookup_insert_eq by (rewrite Hl; apply Hw in Hv; unfold IDT_ENTRIES; lia).
  eexists; split; [reflexivity|]. specialize (He v). unfold gate_offset. cbn [g_low g_high g_sel].
  rewrite !land_ones16, Z.shiftr_div_pow2 by lia. split; [zlia|]. split; [done|].
  unfold gate_present, gate_dpl. cbn [g_flags].
  destruct (Nat.eqb_spec v 64) as [->|Hne]; [done|]. by rewrite decide_False.
Qed.

Lemma gates_installed_witness :
  ∃ g, set_gates (replicate 256 inhabitant) (λ v, 0x80100000 + Z.of_nat v mod 256) isr_vectors !! 64%nat = Some g ∧
    gate_dpl g = 3.
Proof.
  pose proof (gates_installed (replicate 256 inhabitant) (λ v, 0x80100000 + Z.of_nat v mod 256) 64
    eq_refl ltac:(intros w; zlia)) as Hg.
  cbv zeta in Hg. rewrite decide_True in Hg by (apply (bool_decide_unpack _); vm_compute; exact I).
  destruct Hg as (g & E & _ & _ & _ & Hd). exists g. split; [exact E | exact Hd].
Defined.
