(* ===== verification/Trap.v ===== *)
(** cpu/isr.c and cpu/timer.c: the table of interrupt handlers, its set-up, and
    the dispatch of a trap.  The kernel beyond the table and the tick counter is
    a parameter [St]: [out] is the port output of cpu/ports.c on it, [run] what a
    handler of another file does with the registers at an address. *)
From S2P Require Import Prelude.

(** The functions that are registered. *)
Inductive handler := TimerCallback | KeyboardCallback | IdeintCallback | SyscallHandler.
#[export] Instance handler_eq_dec : EqDecision handler.
Proof. solve_decision. Defined.

Definition IRQ0 : Z := 32.
Definition IRQ1 : Z := 33.
Definition IRQ14 : Z := 46.

Section trap.
Context {St : Type} (out : St → Z → Z → St) (run : handler → Z → St → res St).

Record isr_state := mk_isr { interrupt_handlers : list (option handler); tick : Z; isr_rest : St }.
Implicit Types (s : isr_state).

Definition isr_out s (port v : Z) : isr_state := mk_isr (interrupt_handlers s) (tick s) (out (isr_rest s) port v).

(** [port_byte_out] for each port and value of the list. *)
Definition isr_outs s (l : list (Z * Z)) : isr_state := foldl (λ s pv, isr_out s pv.1 pv.2) s l.

(** The remapping of the interrupt controllers by [isr_install]. *)
Definition pic_remap : list (Z * Z) :=
  [(0x20, 0x11); (0xA0, 0x11); (0x21, 0x20); (0xA1, 0x28); (0x21, 0x04); (0xA1, 0x02); (0x21, 0x01);
   (0xA1, 0x01); (0x21, 0x0); (0xA1, 0x0)].

(** [n] is a [uint8_t]. *)
Definition register_interrupt_handler s (n : Z) (h : handler) : isr_state :=
  mk_isr (<[Z.to_nat (u8 n) := Some h]> (interrupt_handlers s)) (tick s) (isr_rest s).

Definition init_timer s (freq : Z) : isr_state :=
  let s := register_interrupt_handler s IRQ0 TimerCallback in
  let divisor := u32 (1193180 / freq) in
  let low := u8 (Z.land divisor 0xFF) in
  let high := u8 (Z.land (Z.shiftr divisor 8) 0xFF) in
  isr_outs s [(0x43, 0x36); (0x40, low); (0x40, high)].

Definition ide_register s : isr_state := register_interrupt_handler s IRQ14 IdeintCallback.
Definition init_syscall s : isr_state := register_interrupt_handler s 64 SyscallHandler.

(** [irq_install]; [kbd] is what [init_keyboard] does before it registers its
    handler. *)
Definition irq_install s (kbd : St → res St) : res isr_state :=
  let s := ide_register (init_timer s 50) in
  let* r := kbd (isr_rest s) in
  let s := register_interrupt_handler (mk_isr (interrupt_handlers s) (tick s) r) IRQ1 KeyboardCallback in
  Ok (init_syscall s).

Definition timer_callback s : isr_state :=
  mk_isr (interrupt_handlers s) (u32 (tick s + 1)) (isr_rest s).

(** [handler(r)]. *)
Definition run_handler s (h : handler) (r : Z) : res isr_state :=
  match h with
  | TimerCallback => Ok (timer_callback s)
  | _ => let* x := run h r (isr_rest s) in Ok (mk_isr (interrupt_handlers s) (tick s) x)
  end.

(** [irq_handler] for interrupt [n]: three numbers are ignored; otherwise it
    reports and stops.  A number of three digits does not fit [s[3]] with its
    terminator, one from 32 on is not an index of [exception_messages]. *)
Definition irq_handler s (n : Z) : res isr_state :=
  if (n =? 130) || (n =? 14) || (n =? 160) then Ok s
  else if 100 <=? n then Fault
  else if 32 <=? n then Fault
  else Hang.

(** [trap_handler(r)] with [r->int_no = n]. *)
Definition trap_handler s (n r : Z) : res isr_state :=
  let s := if 40 <=? n then isr_out s 0xA0 0x20 else s in
  let s := isr_out s 0x20 0x20 in
  match interrupt_handlers s !! Z.to_nat n with
  | None => Fault
  | Some (Some h) => run_handler s h r
  | Some None => irq_handler s n
  end.

(** The controllers told that the interrupt is over. *)
Definition acked (x : St) (n : Z) : St := out (if 40 <=? n then out x 0xA0 0x20 else x) 0x20 0x20.

Lemma irq_install_table s kbd s' :
  interrupt_handlers s = replicate 256 None → irq_install s kbd = Ok s' →
  length (interrupt_handlers s') = 256%nat ∧
  ∀ n, 0 ≤ n < 256 → interrupt_handlers s' !! Z.to_nat n =
    Some (if decide (n = 32) then Some TimerCallback else if decide (n = 33) then Some KeyboardCallback
          else if decide (n = 46) then Some IdeintCallback else if decide (n = 64) then Some SyscallHandler
          else None).
Proof.
  intros Hs Hi. apply rbind_inv in Hi as (x & _ & [= <-]). cbn -[replicate]. rewrite Hs. split.
  - by rewrite !length_insert, length_replicate.
  - intros n Hn. change (Z.to_nat (u8 64)) with 64%nat. change (Z.to_nat (u8 IRQ1)) with 33%nat.
    change (Z.to_nat (u8 IRQ14)) with 46%nat. change (Z.to_nat (u8 IRQ0)) with 32%nat.
    rewrite !list_lookup_insert, !length_insert, length_replicate.
    rewrite lookup_replicate_2 by lia. repeat case_decide; done || lia.
Qed.

(** C39. After [irq_install] a trap is acknowledged at the interrupt controllers,
    at the second one when it is behind it, and goes to the handler registered
    for it: the timer counts, the keyboard, the disk and the system call run
    their handler; a page fault is ignored, any other exception stops the
    machine. *)
Theorem trap_dispatches s kbd s' n r :
  interrupt_handlers s = replicate 256 None → irq_install s kbd = Ok s' → 0 ≤ n < 32 ∨ n ∈ [32; 33; 46; 64] →
  let x := acked (isr_rest s') n in
  trap_handler s' n r =
    if decide (n = 32) then Ok (mk_isr (interrupt_handlers s') (u32 (tick s' + 1)) x)
    else if decide (n ∈ [33; 46; 64]) then
      let h := if decide (n = 33) then KeyboardCallback else if decide (n = 46) then IdeintCallback
               else SyscallHandler in
      let* x := run h r x in Ok (mk_isr (interrupt_handlers s') (tick s') x)
    else if decide (n = 14) then Ok (mk_isr (interrupt_handlers s') (tick s') x)
    else Hang.
Proof.
  intros Hs Hi Hn x. destruct (irq_install_table s kbd s' Hs Hi) as (_ & Hl).
  assert (0 ≤ n < 256) as Hr by (rewrite !elem_of_cons, elem_of_nil in Hn; lia).
  unfold trap_handler. set (s1 := if 40 <=? n then isr_out s' 0xA0 0x20 else s').
  assert (isr_out s1 0x20 0x20 = mk_isr (interrupt_handlers s') (tick s') x) as ->
    by (unfold s1, x, acked; by destruct (40 <=? n)).
  cbn [interrupt_handlers]. rewrite Hl by done.
  destruct (decide (n = 32)) as [->|N32]; [done|].
  destruct (decide (n = 33)) as [->|N33]; [done|].
  destruct (decide (n = 46)) as [->|N46]; [done|].
  destruct (decide (n = 64)) as [->|N64]; [done|].
  rewrite decide_False by (rewrite !elem_of_cons, elem_of_nil; lia).
  rewrite !elem_of_cons, elem_of_nil in Hn. assert (0 ≤ n < 32) as Hlt by lia.
  unfold irq_handler. case_decide as E14; [by subst|].
  rewrite !(proj2 (Z.eqb_neq n _)), !(proj2 (Z.leb_gt _ _)) by lia. done.
Qed.
End trap.

(** A kernel that only remembers the ports written. *)
Lemma trap_dispatches_witness :
  let out (x : list (Z * Z)) port v := x ++ [(port, v)] in
  let run (h : handler) (r : Z) x : res (list (Z * Z)) := Ok x in
  ∃ s', irq_install out (mk_isr (replicate 256 None) 0 []) Ok = Ok s' ∧
    trap_handler out run s' 46 0 =
      Ok (mk_isr (interrupt_handlers s') 0 [(0x43, 0x36); (0x40, 55); (0x40, 93); (0xA0, 0x20); (0x20, 0x20)]).
Proof.
  intros out run. eexists; split; [reflexivity|].
  etransitivity; [eapply (trap_dispatches out run (mk_isr (replicate 256 None) 0 []) Ok _ 46 0 eq_refl eq_refl);
    right; rewrite !elem_of_cons; tauto | reflexivity].
Defined.
