(* ===== verification/UserMem.v ===== *)
(** User memory: what the processor reads and writes at a user address, through
    the page directory of the current process.  The walk is the one the manual
    of the processor documents; the kernel runs with write protection on
    (boot/kernel_entry.S sets [CR0_WP]). *)
From S2P Require Import Prelude Memory LibC Mmu Kalloc Vm.

(** The kernel address of the byte at [va]; none is a page fault. *)
Definition mmu (st : kst) (pgdir va : Z) (write : bool) : option Z :=
  let e := pte_at (km st) pgdir va in
  if present e && (negb write || negb (Z.land e PTE_W =? 0))
  then Some (P2V (PTE_ADDR e) + va mod 4096) else None.

Definition uld8 (st : kst) (pgdir va : Z) : res Z :=
  match mmu st pgdir va false with
  | Some a => Ok (ld8 (km st) a)
  | None => Fault
  end.

Fixpoint uld_bytes (st : kst) (pgdir va : Z) (n : nat) : res (list Z) :=
  match n with
  | O => Ok []
  | S n' =>
      let* b := uld8 st pgdir va in
      let* bs := uld_bytes st pgdir (u32 (va + 1)) n' in
      Ok (b :: bs)
  end.

Definition uld32 (st : kst) (pgdir va : Z) : res Z :=
  let* bs := uld_bytes st pgdir va 4 in
  match bs with
  | [a; b; c; d] => Ok (a + 2 ^ 8 * b + 2 ^ 16 * c + 2 ^ 24 * d)
  | _ => Fault
  end.

Definition ust8 (st : kst) (pgdir va v : Z) : res kst :=
  match mmu st pgdir va true with
  | Some a => Ok (set_km st (st8 (km st) a v))
  | None => Fault
  end.

Fixpoint ust_bytes (st : kst) (pgdir va : Z) (bs : list Z) : res kst :=
  match bs with
  | [] => Ok st
  | b :: bs' =>
      let* st := ust8 st pgdir va b in
      ust_bytes st pgdir (u32 (va + 1)) bs'
  end.

(** The string at [va], without its terminating 0. *)
Definition uld_str (st : kst) (pgdir va : Z) : res (list Z) :=
  while (2 ^ 32)
    (λ '(va, acc),
       let* b := uld8 st pgdir va in
       Ok (if b =? 0 then inr acc else inl (u32 (va + 1), acc ++ [b]))) (va, []).

(** * A user image

    The bytes [bs] are mapped from address [va] on. *)
Definition uimage (st : kst) (pgdir va : Z) (bs : list Z) : Prop :=
  ∀ i b, bs !! i = Some b → uld8 st pgdir (va + Z.of_nat i) = Ok b.

Lemma uimage_bytes st pgdir va bs :
  0 ≤ va → va + Z.of_nat (length bs) ≤ 2 ^ 32 → uimage st pgdir va bs →
  uld_bytes st pgdir va (length bs) = Ok bs.
Proof.
  revert va. induction bs as [|b bs IH]; intros va H0 Hlen Hi; [done|].
  cbn [length uld_bytes] in *. pose proof (Hi 0%nat b eq_refl) as Hb. rewrite Z.add_0_r in Hb.
  rewrite Hb. cbn [rbind]. destruct bs as [|b' bs].
  - done.
  - rewrite u32_small by (cbn [length] in Hlen; lia). rewrite IH; [done | lia | lia |].
    intros i c Hc. replace (va + 1 + Z.of_nat i) with (va + Z.of_nat (S i)) by lia. by apply Hi.
Qed.
