(* ===== verification/Uvm.v ===== *)
(** User address spaces: the abstract state of kernel/vm.c.  A space is a finite
    map from page numbers below [KERNBASE] to the physical pages behind them,
    each by its kernel address; [allocuvm] adds pages to it, [deallocuvm]
    removes them, [copyout] and the processor's stores change their bytes and
    [freevm] gives everything back to the page allocator. *)
From S2P Require Import Prelude Memory LibC Mmu Kalloc Vm UserMem.

(** How many page numbers there are below [KERNBASE]. *)
Definition NUPAGES : Z := 2 ^ 19.

(** An entry for page [p] that user code may write, or only the kernel. *)
Definition user_entry (e p : Z) : Prop :=
  present e = true ∧ PTE_ADDR e = V2P p ∧ Z.testbit e 1 = true.

(** The directory [pgdir] maps the pages of [um]; the free pages are [l]. *)
Record uvm (st : kst) (pgdir : Z) (um : gmap Z Z) (l : list Z) : Prop := {
  uv_wf : pt_wf st pgdir l;
  uv_some : ∀ pg p, um !! pg = Some p →
    0 ≤ pg < NUPAGES ∧ page_ok p ∧ (p ∉ l) ∧ ¬ pt_page (km st) pgdir p ∧
    user_entry (pte_at (km st) pgdir (4096 * pg)) p;
  uv_none : ∀ pg, 0 ≤ pg < NUPAGES → um !! pg = None →
    present (pte_at (km st) pgdir (4096 * pg)) = false;
  uv_inj : ∀ i j p, um !! i = Some p → um !! j = Some p → i = j
}.

(** User code may use page [pg]. *)
Definition uperm (st : kst) (pgdir pg : Z) : bool := Z.testbit (pte_at (km st) pgdir (4096 * pg)) 2.

(** * Changes outside the page table *)

Lemma pt_page_ok st pgdir l q : pt_wf st pgdir l → pt_page (km st) pgdir q → page_ok q.
Proof.
  intros Hwf [->|(i & Hi & E & <-)]; [apply Hwf|]. by apply (ptw_tab _ _ _ Hwf i).
Qed.

Lemma pt_page_used st pgdir l q : pt_wf st pgdir l → pt_page (km st) pgdir q → q ∉ l.
Proof.
  intros Hwf [->|(i & Hi & E & <-)]; [apply Hwf|]. by apply (ptw_tab _ _ _ Hwf i).
Qed.

Section frame.
Context (st st' : kst) (pgdir : Z) (l l' : list Z).
Context (Hwf : pt_wf st pgdir l).
Context (Hmem : ∀ q x, pt_page (km st) pgdir q → inr_ q PGSIZE x → ld8 (km st') x = ld8 (km st) x).

Lemma frame_pde i : 0 ≤ i < 1024 → pde_of (km st') pgdir i = pde_of (km st) pgdir i.
Proof. intros Hi. apply ld32_page; [|done]. intros x Hx. apply (Hmem pgdir); [by left | done]. Qed.

Lemma frame_tab i : 0 ≤ i < 1024 → tab_of (km st') pgdir i = tab_of (km st) pgdir i.
Proof. intros Hi. unfold tab_of. by rewrite frame_pde. Qed.

Lemma frame_pt_page q : pt_page (km st') pgdir q ↔ pt_page (km st) pgdir q.
Proof.
  unfold pt_page. f_equiv. split; intros (i & Hi & E & Eq); exists i.
  - rewrite frame_pde in E by done. rewrite frame_tab in Eq by done. done.
  - rewrite frame_pde, frame_tab by done. done.
Qed.

Lemma frame_pte_at va : pte_at (km st') pgdir va = pte_at (km st) pgdir va.
Proof.
  pose proof (PDX_range va). pose proof (PTX_range va).
  unfold pte_at. rewrite frame_pde, frame_tab by done.
  destruct (present (pde_of (km st) pgdir (PDX va))) eqn:E; [|done].
  apply ld32_page; [|done]. intros x Hx. apply (Hmem (tab_of (km st) pgdir (PDX va))); [|done].
  right. eauto.
Qed.

Lemma frame_wf :
  free_pages st' l' → (∀ q, pt_page (km st) pgdir q → q ∉ l') → pt_wf st' pgdir l'.
Proof.
  intros Hf Hl. split; [done | apply Hwf | apply Hl; by left | |].
  - intros i Hi E. rewrite frame_pde in E by done. rewrite frame_tab by done.
    destruct (ptw_tab _ _ _ Hwf i Hi E) as (? & ? & ?). split; [done|]. split; [done|].
    apply Hl. right. eauto.
  - intros i j Hi Hj. rewrite !frame_pde, !frame_tab by done. by apply Hwf.
Qed.

Lemma uvm_frame um :
  uvm st pgdir um l → free_pages st' l' → (∀ q, pt_page (km st) pgdir q → q ∉ l') →
  (∀ pg p, um !! pg = Some p → p ∉ l') → uvm st' pgdir um l'.
Proof.
  intros Hu Hf Hl Hp. split; [by apply frame_wf | | | apply Hu].
  - intros pg p E. destruct (uv_some _ _ _ _ Hu pg p E) as (? & ? & ? & ? & ?).
    rewrite frame_pt_page, frame_pte_at. eauto 10.
  - intros pg Hpg E. rewrite frame_pte_at. by apply Hu.
Qed.
End frame.

(** [walkpgdir] below: pages other than those of the table keep their bytes, and
    those of [um] are such. *)
Lemma uvm_pages_kept st pgdir um l st' l' pg p x :
  uvm st pgdir um l → pt_step pgdir st l st' l' → um !! pg = Some p → inr_ p PGSIZE x →
  ¬ pt_page (km st') pgdir p ∧ ld8 (km st') x = ld8 (km st) x.
Proof.
  intros Hu Hs E Hx. destruct (uv_some _ _ _ _ Hu pg p E) as (_ & Hp & Hl & Hn & _).
  assert (¬ pt_page (km st') pgdir p) as Hn'.
  { destruct (pts_used _ _ _ _ _ Hs) as (used & -> & Hiff). rewrite Hiff.
    intros [?|Hin]; [done|]. apply Hl. apply elem_of_app. by left. }
  split; [done|]. by apply (pts_frame _ _ _ _ _ Hs p x).
Qed.

(** A step of the page table that keeps the entries keeps the space. *)
Lemma uvm_step st pgdir um l st' l' :
  uvm st pgdir um l → pt_step pgdir st l st' l' →
  (∀ pg, 0 ≤ pg < NUPAGES → pte_at (km st') pgdir (4096 * pg) = pte_at (km st) pgdir (4096 * pg)) →
  uvm st' pgdir um l'.
Proof.
  intros Hu Hs Hpte. destruct (pts_used _ _ _ _ _ Hs) as (used & -> & Hiff). split.
  - apply Hs.
  - intros pg p E. destruct (uv_some _ _ _ _ Hu pg p E) as (Hpg & Hp & Hl & Hn & He).
    split; [done|]. split; [done|]. rewrite elem_of_app in Hl. split; [tauto|].
    rewrite Hiff, Hpte by done. split; [tauto|done].
  - intros pg Hpg E. rewrite Hpte by done. by apply Hu.
  - apply Hu.
Qed.

(** The entry [mappages] makes for a user page. *)
Lemma user_entry_make p :
  page_ok p → user_entry (Z.lor (Z.lor (V2P p) (Z.lor PTE_W PTE_U)) PTE_P) p.
Proof.
  intros Hp. destruct (V2P_page p Hp) as (Ha & Hr).
  split; [by apply present_make|]. rewrite <- Z.lor_assoc.
  change (Z.lor (Z.lor PTE_W PTE_U) PTE_P) with 7.
  destruct (pte_make (V2P p) 7) as (_ & -> & _); [lia..|]. split; [done|].
  rewrite Z.lor_spec. change (Z.testbit 7 1) with true. apply orb_true_r.
Qed.

(** * One page more, one page less *)

Lemma pg_addr j : 0 ≤ j < NUPAGES → 0 ≤ 4096 * j < 2 ^ 31 ∧ 4096 * j / 4096 = j.
Proof. unfold NUPAGES. intros. split; [lia|]. zlia. Qed.

Section one_page.
Context (st : kst) (pgdir pg p : Z) (um : gmap Z Z) (l : list Z).
Context (Hu : uvm st pgdir um l) (Hpg : 0 ≤ pg < NUPAGES).

Lemma uvm_map :
  um !! pg = None → page_ok p → p ∉ l → ¬ pt_page (km st) pgdir p → (∀ j, um !! j ≠ Some p) →
  ∃ st' r l', mappages st pgdir (4096 * pg) PGSIZE (V2P p) (Z.lor PTE_W PTE_U) = Ok (st', r) ∧
    pt_step pgdir st l st' l' ∧
    (r = 0 ∧ uvm st' pgdir (<[pg := p]> um) l' ∧ (length l ≤ length l' + 1)%nat ∧
       uperm st' pgdir pg = true ∧
       (∀ j, 0 ≤ j < 2 ^ 20 → j ≠ pg →
          pte_at (km st') pgdir (4096 * j) = pte_at (km st) pgdir (4096 * j)) ∨
     r = -1 ∧ l = [] ∧ uvm st' pgdir um l').
Proof.
  intros Hnone Hp Hl Hnp Hfresh. destruct (pg_addr pg Hpg) as (Ha & Hd).
  destruct (V2P_page p Hp) as (Hva & Hvr).
  destruct (mappages_spec st pgdir (4096 * pg) PGSIZE (V2P p) (Z.lor PTE_W PTE_U) l
    (uv_wf _ _ _ _ Hu) ltac:(lia) ltac:(done) ltac:(unfold PGSIZE; lia) Hva ltac:(lia) ltac:(done)
    pg 1 ltac:(done) ltac:(unfold PGSIZE; zlia) ltac:(lia)) as (st' & r & E & l' & Hs & Hc).
  exists st', r, l'. split; [exact E|]. split; [exact Hs|].
  assert (∀ j, 0 ≤ j < 2 ^ 20 → 0 ≤ 4096 * j < 2 ^ 32 ∧ 4096 * j / 4096 = j) as Hb
    by (intros j Hj; split; [lia|zlia]).
  assert (∀ j, 0 ≤ j < NUPAGES → 0 ≤ j < 2 ^ 20) as Hn by (unfold NUPAGES; lia).
  destruct Hc as [(-> & Hm & Hlen) | (-> & -> & Hlen & k & Hk & Hm)].
  - left. split; [done|].
    assert (∀ j, 0 ≤ j < 2 ^ 20 → pte_at (km st') pgdir (4096 * j) =
      if decide (j = pg) then Z.lor (Z.lor (V2P p) (Z.lor PTE_W PTE_U)) PTE_P
      else pte_at (km st) pgdir (4096 * j)) as Hm'.
    { intros j Hj. destruct (Hb j Hj) as (Hj1 & Hj2). rewrite Hm by done. rewrite Hj2. unfold map_entry.
      repeat case_decide; try lia. do 2 f_equal. lia. }
    split; [|split; [|split]].
    + destruct (pts_used _ _ _ _ _ Hs) as (used & El & Hiff).
      split; [apply Hs | | |].
      * intros j q Hj. apply lookup_insert_Some in Hj as [(<- & <-) | (Hne & Hj)].
        -- split; [done|]. split; [done|]. split; [subst l; rewrite elem_of_app in Hl; tauto|].
           rewrite Hiff, Hm', decide_True by auto. split; [|by apply user_entry_make].
           subst l. rewrite elem_of_app in Hl. tauto.
        -- destruct (uv_some _ _ _ _ Hu j q Hj) as (Hj' & Hq & Hql & Hqn & He).
           rewrite El, elem_of_app in Hql. split; [done|]. split; [done|]. split; [tauto|].
           rewrite Hiff, Hm', decide_False by auto. split; [tauto|done].
      * intros j Hj E'. apply lookup_insert_None in E' as (Hj' & Hne).
        rewrite Hm', decide_False by auto. by apply Hu.
      * intros i j q [(<- & <-) | (Hi & Ei)]%lookup_insert_Some [(<- & E1) | (Hj & Ej)]%lookup_insert_Some;
          try done; [by apply Hfresh in Ej | subst q; by apply Hfresh in Ei | by apply (uv_inj _ _ _ _ Hu i j q)].
    + unfold tables_upto in Hlen. rewrite decide_False in Hlen by done.
      replace ((pg + 1 - 1) / 1024) with (pg / 1024) in Hlen by (f_equal; lia). lia.
    + unfold uperm. rewrite Hm', decide_True by auto. by rewrite !Z.lor_spec, orb_true_r.
    + intros j Hj Hne. by rewrite Hm', decide_False by done.
  - right. split; [done|].
    assert (k = 0) as -> by lia. unfold tables_upto in Hlen. rewrite decide_False in Hlen by done.
    replace ((pg + 1 - 1) / 1024) with (pg / 1024) in Hlen by (f_equal; lia).
    assert (l = []) as -> by (destruct l; [done | cbn in Hlen; lia]).
    split; [done|]. eapply uvm_step; [done..|]. intros j Hj. rewrite Hm by (by apply Hb, Hn).
    by rewrite decide_False by lia.
Qed.

(** A page taken out of the space: its entry is cleared and it is freed. *)
Lemma uvm_unmap :
  um !! pg = Some p →
  let slot := tab_of (km st) pgdir (PDX (4096 * pg)) + 4 * PTX (4096 * pg) in
  let st' := set_km (kfree st p) (st32 (km (kfree st p)) slot 0) in
  walkpgdir st pgdir (4096 * pg) false = (st, slot) ∧ slot ≠ 0 ∧
  ld32 (km st) slot = pte_at (km st) pgdir (4096 * pg) ∧
  uvm st' pgdir (delete pg um) (p :: l) ∧
  (∀ q, pt_page (km st') pgdir q ↔ pt_page (km st) pgdir q) ∧
  (∀ q x, page_ok q → q ≠ p → ¬ pt_page (km st) pgdir q → inr_ q PGSIZE x →
     ld8 (km st') x = ld8 (km st) x).
Proof.
  intros Epg slot st'. destruct (uv_some _ _ _ _ Hu pg p Epg) as (_ & Hp & Hpl & Hpn & He & He2 & He3).
  destruct (pg_addr pg Hpg) as (Ha & Hd). pose proof (uv_wf _ _ _ _ Hu) as Hwf.
  pose proof (pte_present_table _ _ _ He) as Hpres.
  split; [by apply walk_present|]. split; [by apply (slot_nonzero st pgdir _ l)|].
  split; [unfold pte_at; by rewrite Hpres|].
  assert (∀ q x, page_ok q → q ≠ p → inr_ q PGSIZE x → ld8 (km (kfree st p)) x = ld8 (km st) x) as Hk.
  { intros q x Hq Hne Hx. apply km_kfree; [done|]. by apply (page_ok_disjoint q p x). }
  assert (∀ q x, pt_page (km st) pgdir q → inr_ q PGSIZE x → ld8 (km (kfree st p)) x = ld8 (km st) x) as Hkp.
  { intros q x Hq Hx. apply (Hk q x); [by eapply pt_page_ok| by intros ->|done]. }
  assert (free_pages (kfree st p) (p :: l)) as Hf by (apply kfree_free_pages; [apply Hwf|done..]).
  assert (pt_wf (kfree st p) pgdir (p :: l)) as Hwf1.
  { eapply frame_wf; [exact Hwf | done | done |]. intros q Hq [->|Hin]%elem_of_cons; [done|].
    by eapply pt_page_used. }
  assert (slot = tab_of (km (kfree st p)) pgdir (PDX (4096 * pg)) + 4 * PTX (4096 * pg)) as Eslot
    by (unfold slot; f_equal; symmetry; apply (frame_tab st _ pgdir Hkp), PDX_range).
  assert (present (pde_of (km (kfree st p)) pgdir (PDX (4096 * pg))) = true) as Hpres1
    by (rewrite (frame_pde st _ pgdir Hkp); [done | apply PDX_range]).
  pose proof (set_pte_step (kfree st p) pgdir (4096 * pg) 0 (p :: l) Hwf1 Hpres1) as Hs.
  pose proof (set_pte_at (kfree st p) pgdir (4096 * pg) 0 (p :: l) Hwf1 ltac:(lia) Hpres1) as Hat.
  rewrite <- Eslot in Hs, Hat. fold st' in Hs.
  assert (∀ q, pt_page (km st') pgdir q ↔ pt_page (km st) pgdir q) as Hpt.
  { intros q. rewrite <- (frame_pt_page st _ pgdir Hkp).
    destruct (pts_used _ _ _ _ _ Hs) as (used & Eu & ->).
    assert (used = []) as ->.
    { apply (f_equal length) in Eu. rewrite length_app in Eu. destruct used; [done|cbn in Eu; lia]. }
    rewrite elem_of_nil. tauto. }
  split; [|split; [exact Hpt|]].
  - assert (∀ j, 0 ≤ j < NUPAGES → pte_at (km st') pgdir (4096 * j) =
      if decide (j = pg) then 0 else pte_at (km st) pgdir (4096 * j)) as Hat'.
    { intros j Hj. destruct (pg_addr j Hj) as (Hj1 & Hj2).
      change (km st') with (st32 (km (kfree st p)) slot 0). rewrite Hat by lia.
      rewrite (frame_pte_at st _ pgdir Hkp).
      destruct (decide (same_page _ _)) as [E|N]; unfold same_page in *; rewrite Hd, Hj2 in *;
        [by rewrite decide_True | by rewrite decide_False]. }
    split; [apply Hs | | |].
    + intros j q [Hne Hj]%lookup_delete_Some.
      destruct (uv_some _ _ _ _ Hu j q Hj) as (Hj' & Hq & Hql & Hqn & Hqe).
      split; [done|]. split; [done|]. rewrite Hpt, Hat', decide_False by auto.
      split; [|by split]. rewrite elem_of_cons. intros [->|?]; [|done].
      apply Hne. by apply (uv_inj _ _ _ _ Hu pg j p).
    + intros j Hj [->|Hn]%lookup_delete_None; rewrite Hat' by done.
      * by rewrite decide_True.
      * case_decide; [done|]. by apply Hu.
    + intros i j q [_ Hi]%lookup_delete_Some [_ Hj]%lookup_delete_Some. by apply (uv_inj _ _ _ _ Hu i j q).
  - intros q x Hq Hne Hqn Hx. rewrite <- (Hk q x) by done.
    apply (pts_frame _ _ _ _ _ Hs q x Hq); [|done]. by rewrite Hpt.
Qed.
End one_page.

(** * deallocuvm *)

(** The pages of [um] from number [lo] on, below number [hi], are gone from
    [um'], and are the pages of [fr]. *)
Definition taken (um um' : gmap Z Z) (fr : list Z) (lo hi : Z) : Prop :=
  (∀ j, um' !! j = if decide (lo ≤ j < hi) then None else um !! j) ∧
  (∀ q, q ∈ fr ↔ ∃ j, lo ≤ j < hi ∧ um !! j = Some q).

Lemma taken_delete um um' fr lo pg p :
  taken um um' fr lo pg → lo ≤ pg → um' !! pg = Some p → taken um (delete pg um') (p :: fr) lo (pg + 1).
Proof.
  intros (Ht1 & Ht2) Hpg Ep. assert (um !! pg = Some p) as Eum by (by rewrite (Ht1 pg), decide_False in Ep by lia).
  split.
  - intros j. destruct (decide (j = pg)) as [->|Hne].
    + rewrite lookup_delete_eq, decide_True by lia. done.
    + rewrite lookup_delete_ne, Ht1 by done. repeat case_decide; done || lia.
  - intros q. rewrite elem_of_cons, Ht2. split.
    + intros [->|(j & Hj & Ej)]; [exists pg; split; [lia | done]|]. exists j. split; [lia|done].
    + intros (j & Hj & Ej). destruct (decide (j = pg)) as [->|]; [left; congruence|].
      right. exists j. split; [lia|done].
Qed.

(** Without its table no page is there. *)
Lemma uvm_no_table st pgdir um l pg j :
  uvm st pgdir um l → 0 ≤ pg < NUPAGES → present (pde_of (km st) pgdir (pg / 1024)) = false →
  j / 1024 = pg / 1024 → um !! j = None.
Proof.
  intros Hu Hr Epd Hj. destruct (um !! j) as [q|] eqn:Ej; [|done]. exfalso.
  destruct (uv_some _ _ _ _ Hu j q Ej) as (Hjr & _ & _ & _ & He & _).
  apply pte_present_table in He. rewrite PDX_div in He by (unfold NUPAGES in Hjr; lia).
  replace (4096 * j / 2 ^ 22) with (pg / 1024) in He by zlia. congruence.
Qed.

(** Only the messages differ. *)
Lemma uvm_ext st st' pgdir um l :
  uvm st pgdir um l → km st' = km st → freelist st' = freelist st → uvm st' pgdir um l.
Proof.
  intros Hu Ek Ef. eapply uvm_frame; [apply Hu | | exact Hu | | |].
  - intros q x _ _. by rewrite Ek.
  - split; [rewrite Ek, Ef; apply Hu | apply Hu].
  - intros q Hq. eapply pt_page_used; [apply Hu | exact Hq].
  - intros j q Hj. by apply (uv_some _ _ _ _ Hu j q).
Qed.

Section dealloc.
Context (st0 : kst) (pgdir oldsz : Z) (um : gmap Z Z) (l : list Z).
Context (Hu0 : uvm st0 pgdir um l) (Hold : 0 ≤ oldsz ≤ KERNBASE).

Definition dealloc_inv (lo : Z) '((st, a) : kst * Z) : Prop :=
  ∃ pg um' fr, a = 4096 * pg ∧ lo ≤ pg ≤ NUPAGES ∧ uvm st pgdir um' (fr ++ l) ∧
    taken um um' fr lo pg ∧ (∀ j, lo ≤ j < pg → oldsz ≤ 4096 * j → um !! j = None) ∧
    (∀ q, pt_page (km st) pgdir q ↔ pt_page (km st0) pgdir q) ∧
    (∀ q x, page_ok q → (q ∉ fr) → ¬ pt_page (km st0) pgdir q → inr_ q PGSIZE x →
       ld8 (km st) x = ld8 (km st0) x).

(** A turn at [a] that finds nothing mapped before [pg']. *)
Lemma dealloc_skip lo st pg pg' :
  dealloc_inv lo (st, 4096 * pg) → pg < pg' ≤ NUPAGES →
  (∀ j, pg ≤ j < pg' → um !! j = None) → dealloc_inv lo (st, 4096 * pg').
Proof.
  intros (pg0 & um' & fr & E & Hpg & Hu & (Ht1 & Ht2) & Hhi & Hpt & Hfr) Hlt Hnone.
  assert (pg0 = pg) as -> by lia. exists pg', um', fr. split; [done|]. split; [lia|]. split; [done|].
  split; [|split; [|done]].
  - split.
    + intros j. rewrite Ht1. repeat case_decide; try done; try lia. apply Hnone. lia.
    + intros q. rewrite Ht2. split; intros (j & Hj & E'); exists j; (split; [|done]); [lia|].
      destruct (decide (j < pg)); [lia|]. rewrite Hnone in E'; [done|lia].
  - intros j Hj Ho. destruct (decide (j < pg)); [apply Hhi; lia | apply Hnone; lia].
Qed.

Lemma dealloc_turn lo st pg :
  0 ≤ lo → dealloc_inv lo (st, 4096 * pg) → 4096 * pg < oldsz →
  ∃ st' pg', dealloc_step pgdir oldsz (st, 4096 * pg) = Ok (inl (st', 4096 * pg')) ∧ pg < pg' ∧
    dealloc_inv lo (st', 4096 * pg').
Proof.
  intros Hlo Hinv Hlt. pose proof Hinv as (pg0 & um' & fr & E & Hpg & Hu & (Ht1 & Ht2) & Hhi & Hpt & Hfr).
  assert (pg0 = pg) as -> by lia. unfold KERNBASE in Hold.
  assert (0 ≤ pg < NUPAGES) as Hr by (unfold NUPAGES; lia).
  destruct (pg_addr pg Hr) as (Ha & Hd).
  assert (um' !! pg = um !! pg) as Eum by (by rewrite (Ht1 pg), decide_False by lia).
  unfold dealloc_step. rewrite (proj2 (Z.ltb_lt _ _)) by lia.
  assert (u32 (4096 * pg + PGSIZE) = 4096 * (pg + 1)) as Enext by (unfold PGSIZE; rewrite u32_small; lia).
  destruct (um' !! pg) as [p|] eqn:Ep.
  - destruct (uvm_unmap st pgdir pg p um' (fr ++ l) Hu Hr Ep) as (-> & Hnz & Els & Hu' & Hpt' & Hfr').
    destruct (uv_some _ _ _ _ Hu pg p Ep) as (_ & Hp & _ & Hpn & Hpr & Epa & _).
    rewrite (proj2 (Z.eqb_neq _ _) Hnz), Els, Hpr, Epa.
    rewrite P2V_V2P by (unfold page_ok, KERNBASE in Hp; lia). rewrite Enext.
    set (st1 := if _ =? 0 then _ else _).
    assert (km st1 = km st ∧ freelist st1 = freelist st) as (Ek1 & Ef1)
      by (unfold st1; by destruct (_ =? 0)).
    assert (km (kfree st1 p) = km (kfree st p) ∧ freelist (kfree st1 p) = freelist (kfree st p)) as (Ek & Ef)
      by (unfold kfree; cbn [km freelist]; by rewrite Ek1, Ef1).
    eexists _, (pg + 1). split; [reflexivity|]. split; [lia|].
    exists (pg + 1), (delete pg um'), (p :: fr). split; [done|]. split; [lia|]. rewrite Ek.
    split; [eapply uvm_ext; [exact Hu' | done | exact Ef]|].
    split; [by apply taken_delete; [split | lia |] | split; [|split]].
    + intros j Hj Ho. apply Hhi; lia.
    + intros q. cbn [km set_km]. rewrite <- Hpt. apply Hpt'.
    + intros q x Hq [Hn1 Hn2]%not_elem_of_cons Hnp Hx. cbn [km set_km].
      rewrite <- (Hfr q x) by done. apply (Hfr' q x); [done..| |done]. by rewrite Hpt.
  - pose proof (uv_none _ _ _ _ Hu pg Hr Ep) as Habs.
    destruct (present (pde_of (km st) pgdir (PDX (4096 * pg)))) eqn:Epd.
    + rewrite walk_present by done.
      rewrite (proj2 (Z.eqb_neq _ 0)) by (apply (slot_nonzero st pgdir _ (fr ++ l)); [apply Hu|done]).
      unfold pte_at in Habs. rewrite Epd in Habs. rewrite Habs, Enext.
      eexists _, (pg + 1). split; [reflexivity|]. split; [lia|].
      apply (dealloc_skip lo st pg); [done | lia |]. intros j Hj. replace j with pg by lia. congruence.
    + rewrite walk_noalloc_absent by done. rewrite Z.eqb_refl.
      assert (PDX (4096 * pg) = pg / 1024) as Edx by (rewrite PDX_div by lia; zlia).
      rewrite Edx, PGADDR_dir by zlia. unfold NUPAGES in Hr.
      exists st, (1024 * (pg / 1024 + 1)). split.
      * do 4 f_equal. unfold PGSIZE. rewrite u32_u32_add. rewrite u32_small by zlia. zlia.
      * split; [zlia|]. apply (dealloc_skip lo st pg); [done | unfold NUPAGES; zlia |].
        intros j Hj. rewrite Edx in Epd. pose proof (uvm_no_table st pgdir um' (fr ++ l) pg j Hu ltac:(unfold NUPAGES; lia) Epd ltac:(zlia)) as En.
        by rewrite (Ht1 j), decide_False in En by lia.
Qed.

(** [deallocuvm] removes the pages from [newsz], rounded up, to [oldsz] and
    gives them to the allocator; the others keep their bytes. *)
Lemma deallocuvm_spec newsz :
  0 ≤ newsz < oldsz →
  ∃ st' um' fr, deallocuvm st0 pgdir oldsz newsz = Ok (st', newsz) ∧ uvm st' pgdir um' (fr ++ l) ∧
    taken um um' fr ((newsz + 4095) / 4096) ((oldsz + 4095) / 4096) ∧
    (∀ q, pt_page (km st') pgdir q ↔ pt_page (km st0) pgdir q) ∧
    (∀ q x, page_ok q → (q ∉ fr) → ¬ pt_page (km st0) pgdir q → inr_ q PGSIZE x →
       ld8 (km st') x = ld8 (km st0) x).
Proof.
  intros Hn. unfold KERNBASE in Hold. unfold deallocuvm. rewrite (proj2 (Z.leb_gt _ _)) by lia.
  destruct (PGROUNDUP_spec newsz) as (Hm & Hrd); [lia..|].
  set (lo := (newsz + 4095) / 4096).
  assert (PGROUNDUP newsz = 4096 * lo) as -> by (unfold lo; zlia).
  destruct (while_spec (dealloc_inv lo) (λ '(_, a), NUPAGES - a / 4096)
    (λ st, ∃ pg, oldsz ≤ 4096 * pg ∧ dealloc_inv lo (st, 4096 * pg))
    (2 ^ 21) (dealloc_step pgdir oldsz) (st0, 4096 * lo)) as (st' & E & pg & Hge & Hinv).
  - intros [st a] (pg & um' & fr & -> & Hpg & _). zlia.
  - intros [st a] Hinv. pose proof Hinv as (pg & um' & fr & -> & Hpg & _).
    destruct (decide (4096 * pg < oldsz)) as [Hlt|Hge].
    + left. destruct (dealloc_turn lo st pg ltac:(unfold lo; zlia) Hinv Hlt) as (st' & pg' & E & Hpg' & Hinv').
      exists (st', 4096 * pg'). split; [done|]. split; [done|]. zlia.
    + right. unfold dealloc_step. rewrite (proj2 (Z.ltb_ge _ _)) by lia. eexists; split; [reflexivity|].
      exists pg. split; [lia|done].
  - exists lo, um, []. split; [done|]. split; [unfold lo, NUPAGES; zlia|]. split; [done|].
    split; [split|split; [|done]].
    + intros j. by rewrite decide_False by lia.
    + intros q. rewrite elem_of_nil. split; [done|]. intros (j & Hj & _). lia.
    + intros j Hj. lia.
  - unfold NUPAGES, lo. zlia.
  - rewrite E. cbn [rbind]. destruct Hinv as (pg0 & um' & fr & E0 & Hpg & Hu & (Ht1 & Ht2) & Hhi & Hpt & Hfr).
    assert (pg0 = pg) as -> by lia.
    exists st', um', fr. split; [done|]. split; [done|]. split; [|done].
    assert (∀ j, lo ≤ j → j < pg ↔ j < (oldsz + 4095) / 4096 ∨ j < pg ∧ um !! j = None) as Hiff.
    { intros j Hj. split; [|intros [|]; [zlia|tauto]]. intros Hlt.
      destruct (decide (oldsz ≤ 4096 * j)); [right; split; [done|]; apply Hhi; lia | left; zlia]. }
    split.
    + intros j. rewrite Ht1. destruct (decide (lo ≤ j)); [|by rewrite !decide_False by lia].
      destruct (decide (j < (oldsz + 4095) / 4096)).
      * rewrite !decide_True; [done|lia|]. split; [done|]. apply Hiff; auto.
      * rewrite (decide_False (P := lo ≤ j < (oldsz + 4095) / 4096)) by lia. case_decide as Hc; [|done].
        destruct (Hiff j) as (Hi & _); [lia|]. destruct Hi as [?|(_ & ?)]; [lia|lia|done].
    + intros q. rewrite Ht2. split; intros (j & Hj & Ej); exists j; (split; [|done]).
      * destruct (Hiff j) as (Hi & _); [lia|]. destruct Hi as [?|(_ & ?)]; [lia|lia|congruence].
      * split; [lia|]. apply Hiff; [lia|]. left. lia.
Qed.
End dealloc.

(** * allocuvm *)

(** A page freed, or taken and zeroed, leaves the space as it is. *)
Lemma uvm_kfree st pgdir um l p :
  uvm st pgdir um l → page_ok p → p ∉ l → ¬ pt_page (km st) pgdir p → (∀ j, um !! j ≠ Some p) →
  uvm (kfree st p) pgdir um (p :: l) ∧
  (∀ q, pt_page (km (kfree st p)) pgdir q ↔ pt_page (km st) pgdir q).
Proof.
  intros Hu Hp Hl Hn Hf. pose proof (uv_wf _ _ _ _ Hu) as Hwf.
  assert (∀ q x, pt_page (km st) pgdir q → inr_ q PGSIZE x → ld8 (km (kfree st p)) x = ld8 (km st) x) as Hk.
  { intros q x Hq Hx. apply km_kfree; [done|].
    apply (page_ok_disjoint q p x); [by eapply pt_page_ok|done|by intros ->|done]. }
  split; [|by apply frame_pt_page]. eapply uvm_frame; [exact Hwf|done|exact Hu| | |].
  - apply kfree_free_pages; [apply Hwf|done..].
  - intros q Hq [->|Hin]%elem_of_cons; [done|]. by eapply pt_page_used.
  - intros j q Ej [->|Hin]%elem_of_cons; [by apply Hf in Ej|].
    by destruct (uv_some _ _ _ _ Hu j q Ej) as (_ & _ & Hql & _).
Qed.

Lemma uvm_kalloc st pgdir um l p :
  uvm st pgdir um (p :: l) →
  ∃ st1, kalloc st = (st1, p) ∧ let st2 := set_km st1 (memset (km st1) p 0 PGSIZE) in
    uvm st2 pgdir um l ∧ page_ok p ∧ (p ∉ l) ∧ ¬ pt_page (km st) pgdir p ∧ (∀ j, um !! j ≠ Some p) ∧
    (∀ q, pt_page (km st2) pgdir q ↔ pt_page (km st) pgdir q) ∧
    (∀ va, pte_at (km st2) pgdir va = pte_at (km st) pgdir va) ∧
    (∀ x, inr_ p PGSIZE x → ld8 (km st2) x = 0) ∧
    (∀ q x, page_ok q → q ≠ p → inr_ q PGSIZE x → ld8 (km st2) x = ld8 (km st) x).
Proof.
  intros Hu. pose proof (uv_wf _ _ _ _ Hu) as Hwf.
  destruct (kalloc_cons st p l) as (st1 & E & Ekm & Hf & Hp & Hpl & _); [apply Hwf|].
  exists st1. split; [done|]. cbv zeta. cbn [km set_km]. rewrite Ekm.
  assert (¬ pt_page (km st) pgdir p) as Hn by (intros H; eapply pt_page_used in H; [apply H; left|done]).
  assert (∀ q x, page_ok q → q ≠ p → inr_ q PGSIZE x → ld8 (memset (km st) p 0 PGSIZE) x = ld8 (km st) x) as Hk.
  { intros q x Hq Hne Hx. by apply (memset_page_ne (km st) p q). }
  assert (∀ q x, pt_page (km st) pgdir q → inr_ q PGSIZE x → ld8 (memset (km st) p 0 PGSIZE) x = ld8 (km st) x) as Hkp.
  { intros q x Hq Hx. apply (Hk q x); [by eapply pt_page_ok|by intros ->|done]. }
  split; [|split; [done|split; [done|split; [done|split; [|split; [|split; [|split]]]]]]].
  - eapply uvm_frame; [exact Hwf|done|exact Hu| | |].
    + apply free_pages_frame with st1; [done| |done]. cbn [km set_km]. rewrite Ekm.
      intros q x Hq Hqok Hx. apply (Hk q x); [done|by intros ->|done].
    + intros q Hq Hin. eapply pt_page_used; [exact Hwf|exact Hq|by right].
    + intros j q Ej Hin. destruct (uv_some _ _ _ _ Hu j q Ej) as (_ & _ & Hql & _). apply Hql. by right.
  - intros j Ej. destruct (uv_some _ _ _ _ Hu j p Ej) as (_ & _ & Hql & _). apply Hql. by left.
  - intros q. apply (frame_pt_page st (set_km st1 (memset (km st) p 0 PGSIZE)) pgdir). exact Hkp.
  - apply (frame_pte_at st (set_km st1 (memset (km st) p 0 PGSIZE)) pgdir). exact Hkp.
  - intros x Hx. rewrite ld8_memset by done. rewrite decide_True by done. done.
  - exact Hk.
Qed.

(** The pages that the allocator and the space hold. *)
Definition owned (st : kst) (pgdir : Z) (um : gmap Z Z) (l : list Z) (q : Z) : Prop :=
  q ∈ l ∨ (∃ j, um !! j = Some q) ∨ pt_page (km st) pgdir q.

Lemma owned_step st pgdir um l st' l' q :
  pt_step pgdir st l st' l' → owned st' pgdir um l' q ↔ owned st pgdir um l q.
Proof.
  intros Hs. destruct (pts_used _ _ _ _ _ Hs) as (used & -> & Hiff).
  unfold owned. rewrite Hiff, elem_of_app. tauto.
Qed.

Lemma owned_insert st pgdir um l pg p q :
  um !! pg = None → owned st pgdir (<[pg := p]> um) l q ↔ q = p ∨ owned st pgdir um l q.
Proof.
  intros Hn. unfold owned. assert ((∃ j, <[pg := p]> um !! j = Some q) ↔ q = p ∨ ∃ j, um !! j = Some q) as ->; [|tauto].
  split.
  - intros (j & [(_ & <-)|(_ & Ej)]%lookup_insert_Some); [by left | right; by exists j].
  - intros [->|(j & Ej)]; [exists pg; apply lookup_insert_eq|]. exists j.
    rewrite lookup_insert_ne; [done|]. intros ->. congruence.
Qed.

Lemma owned_taken st st' pgdir um um' fr l lo hi q :
  (∀ q, pt_page (km st') pgdir q ↔ pt_page (km st) pgdir q) → taken um um' fr lo hi →
  owned st' pgdir um' (fr ++ l) q ↔ owned st pgdir um l q.
Proof.
  intros Hpt (T1 & T2). unfold owned. rewrite Hpt, elem_of_app, T2.
  assert ((∃ j, um !! j = Some q) ↔ (∃ j, lo ≤ j < hi ∧ um !! j = Some q) ∨ ∃ j, um' !! j = Some q) as ->; [|tauto].
  split.
  - intros (j & Ej). destruct (decide (lo ≤ j < hi)); [left; by exists j|]. right. exists j.
    by rewrite T1, decide_False.
  - intros [(j & _ & Ej)|(j & Ej)]; [by exists j|]. rewrite T1 in Ej. case_decide; [done|]. by exists j.
Qed.

(** From [st0] with free pages [l0]: only pages of [l0] and of the table were
    written, and the table only took pages of [l0]. *)
Record from_free (pgdir : Z) (st0 : kst) (l0 : list Z) (st : kst) (l : list Z) : Prop := {
  ff_sub : ∀ q, q ∈ l → q ∈ l0;
  ff_pt : ∀ q, pt_page (km st) pgdir q → pt_page (km st0) pgdir q ∨ q ∈ l0;
  ff_mem : ∀ q x, page_ok q → (q ∉ l0) → ¬ pt_page (km st0) pgdir q → inr_ q PGSIZE x →
    ld8 (km st) x = ld8 (km st0) x
}.

Section alloc.
Context (st0 : kst) (pgdir oldsz newsz : Z) (um : gmap Z Z) (l0 : list Z).
Context (Hu0 : uvm st0 pgdir um l0) (Hsz : 0 ≤ oldsz ≤ newsz) (Hnew : newsz < KERNBASE).
Context (lo hi : Z) (Hlo : lo = (oldsz + 4095) / 4096) (Hhi : hi = (newsz + 4095) / 4096).
Context (Hgap : ∀ j, lo ≤ j < hi → um !! j = None).

(** The pages [lo .. pg) are there, zeroed and for user code, out of the free
    pages; the other entries are as they were. *)
Definition grown (st : kst) (um' : gmap Z Z) (pg : Z) : Prop :=
  (∀ j, ¬ lo ≤ j < pg → um' !! j = um !! j) ∧
  (∀ j, lo ≤ j < pg → ∃ p, um' !! j = Some p ∧ p ∈ l0 ∧ ∀ x, inr_ p PGSIZE x → ld8 (km st) x = 0) ∧
  (∀ j, lo ≤ j < pg → uperm st pgdir j = true) ∧
  (∀ j, 0 ≤ j < 2 ^ 20 → ¬ lo ≤ j < pg →
     pte_at (km st) pgdir (4096 * j) = pte_at (km st0) pgdir (4096 * j)).

(** No page is lost. *)
Definition same_owned (st : kst) (um' : gmap Z Z) (l : list Z) : Prop :=
  ∀ q, owned st pgdir um' l q ↔ owned st0 pgdir um l0 q.

Definition alloc_inv '((st, a) : kst * Z) : Prop :=
  ∃ pg um' l, a = 4096 * pg ∧ lo ≤ pg ≤ hi ∧ uvm st pgdir um' l ∧ grown st um' pg ∧
    from_free pgdir st0 l0 st l ∧ same_owned st um' l ∧
    Z.of_nat (length l0) ≤ Z.of_nat (length l) + 2 * (pg - lo).

Definition alloc_post '((st, r) : kst * Z) : Prop :=
  (∃ um' l, r = newsz ∧ uvm st pgdir um' l ∧ grown st um' hi ∧ from_free pgdir st0 l0 st l ∧
     same_owned st um' l ∧ Z.of_nat (length l0) ≤ Z.of_nat (length l) + 2 * (hi - lo)) ∨
  (∃ l, r = 0 ∧ uvm st pgdir um l ∧ from_free pgdir st0 l0 st l ∧ same_owned st um l ∧
     Z.of_nat (length l0) < 2 * (hi - lo)).

Lemma grown_in st um' pg :
  grown st um' pg → ∀ j q, lo ≤ j < pg → um' !! j = Some q → q ∈ l0.
Proof. intros (_ & G2 & _) j q Hj Ej. destruct (G2 j Hj) as (p & Ep & Hin & _). congruence. Qed.

(** The way out when memory is short: the pages of this call are given back. *)
Lemma alloc_undo st um' pg l msg :
  lo ≤ pg < hi → uvm st pgdir um' l → (∀ j, ¬ lo ≤ j < pg → um' !! j = um !! j) →
  (∀ j q, lo ≤ j < pg → um' !! j = Some q → q ∈ l0) → from_free pgdir st0 l0 st l →
  ∃ st', deallocuvm (kprint st msg) pgdir newsz oldsz = Ok (st', oldsz) ∧
    ∃ l', uvm st' pgdir um l' ∧ from_free pgdir st0 l0 st' l' ∧
      (∀ q, pt_page (km st') pgdir q ↔ pt_page (km st) pgdir q) ∧
      (∀ q, q ∈ l' ↔ (∃ j, lo ≤ j < pg ∧ um' !! j = Some q) ∨ q ∈ l) ∧
      (∀ q, owned st' pgdir um l' q ↔ owned st pgdir um' l q).
Proof.
  intros Hpg Hu G1 G2 [F1 F2 F3].
  assert (uvm (kprint st msg) pgdir um' l) as Hu1 by (by destruct Hu as [[]]; split; [split|..]).
  destruct (deallocuvm_spec (kprint st msg) pgdir newsz um' l Hu1 ltac:(lia) oldsz ltac:(zlia))
    as (st' & um2 & fr & E & Hu' & (T1 & T2) & Hpt & Hfr). rewrite <- Hlo, <- Hhi in T1, T2.
  exists st'. split; [exact E|]. exists (fr ++ l).
  assert (um2 = um) as ->.
  { apply map_eq. intros j. rewrite T1. case_decide; [by rewrite Hgap|].
    apply G1. lia. }
  assert (∀ q, q ∈ fr → q ∈ l0) as Hfrl.
  { intros q (j & Hj & Ej)%T2. destruct (decide (j < pg)) as [Hlt|].
    - apply (G2 j); [lia|done].
    - rewrite G1, Hgap in Ej by lia. done. }
  split; [done|]. split; [split|split; [exact Hpt|split]].
  - intros q [Hq|Hq]%elem_of_app; auto.
  - intros q Hq%Hpt. by apply F2.
  - intros q x Hq Hl Hn Hx. rewrite <- (F3 q x) by done.
    apply (Hfr q x Hq); [intros ?; by apply Hl, Hfrl | | done].
    intros [?|?]%F2; done.
  - intros q. rewrite elem_of_app, T2. split; (intros [(j & Hj & Ej)|]; [|by auto]).
    + left. exists j. split; [|done]. destruct (decide (j < pg)); [lia|].
      rewrite G1, Hgap in Ej by lia. done.
    + left. exists j. split; [lia|done].
  - intros q. by apply (owned_taken (kprint st msg) st' pgdir um' um fr l lo hi).
Qed.

(** One page more: [p] is taken and cleared, which leads to [st2], and mapped. *)
Lemma from_free_step st st2 st3 p l l' :
  from_free pgdir st0 l0 st (p :: l) → (∀ q, pt_page (km st2) pgdir q ↔ pt_page (km st) pgdir q) →
  (∀ q x, page_ok q → q ≠ p → inr_ q PGSIZE x → ld8 (km st2) x = ld8 (km st) x) →
  pt_step pgdir st2 l st3 l' → from_free pgdir st0 l0 st3 l'.
Proof.
  intros [F1 F2 F3] Hpt2 Hm2 Hs. assert (p ∈ l0) as Hpl0 by (apply F1; left).
  destruct (pts_used _ _ _ _ _ Hs) as (used & El & Hpt3). split.
  - intros q Hq. apply F1. right. rewrite El. apply elem_of_app. by right.
  - intros q [Hq%Hpt2|Hq]%Hpt3; [by apply F2|]. right. apply F1. right. rewrite El. apply elem_of_app. by left.
  - intros q x Hq Hl Hn Hx. assert (q ≠ p) as Hne by (by intros ->).
    rewrite <- (F3 q x) by done. rewrite <- (Hm2 q x) by done.
    apply (pts_frame _ _ _ _ _ Hs q x Hq); [|done].
    intros [Hq'%Hpt2|Hq']%Hpt3; [by destruct (F2 q Hq')|].
    apply Hl, F1. right. rewrite El. apply elem_of_app. by left.
Qed.

Lemma grown_step st st3 um' pg p :
  lo ≤ pg < hi → grown st um' pg → p ∈ l0 → (∀ x, inr_ p PGSIZE x → ld8 (km st3) x = 0) →
  (∀ j q x, um' !! j = Some q → inr_ q PGSIZE x → ld8 (km st3) x = ld8 (km st) x) →
  uperm st3 pgdir pg = true →
  (∀ j, 0 ≤ j < 2 ^ 20 → j ≠ pg → pte_at (km st3) pgdir (4096 * j) = pte_at (km st) pgdir (4096 * j)) →
  grown st3 (<[pg := p]> um') (pg + 1).
Proof.
  intros Hr (G1 & G2 & G3 & G4) Hpl0 Hz Hkeep Hup Hat. unfold KERNBASE in Hnew. split; [|split; [|split]].
  - intros j Hj. rewrite lookup_insert_ne by lia. apply G1. lia.
  - intros j Hj. destruct (decide (j = pg)) as [->|].
    + exists p. by rewrite lookup_insert_eq.
    + destruct (G2 j) as (q & Ej & Hin & Hzq); [lia|]. exists q.
      rewrite lookup_insert_ne by done. split; [done|]. split; [done|]. intros x Hx.
      rewrite (Hkeep j q x Ej Hx). by apply Hzq.
  - intros j Hj. destruct (decide (j = pg)) as [->|]; [done|]. unfold uperm.
    rewrite Hat by zlia. apply G3. lia.
  - intros j Hj Hn. rewrite Hat by lia. apply G4; lia.
Qed.

(** No memory for the table of page [pg]: what the call took, and [p], go back. *)
Lemma alloc_undo_map st um' pg p :
  lo ≤ pg < hi → uvm st pgdir um' [] → (∀ j, ¬ lo ≤ j < pg → um' !! j = um !! j) →
  (∀ j q, lo ≤ j < pg → um' !! j = Some q → q ∈ l0) → from_free pgdir st0 l0 st [] →
  p ∈ l0 → page_ok p → (∀ j, um' !! j ≠ Some p) → ¬ pt_page (km st) pgdir p →
  (∀ q, q = p ∨ owned st pgdir um' [] q ↔ owned st0 pgdir um l0 q) → Z.of_nat (length l0) < 2 * (hi - lo) →
  ∃ st4, deallocuvm (kprint st "allocuvm out of memory (2)") pgdir newsz oldsz = Ok (st4, oldsz) ∧ alloc_post (kfree st4 p, 0).
Proof.
  intros Hr Hu Hg1 Hin Hff Hpl0 Hp Hfresh Hnp Hown Hlen.
  destruct (alloc_undo st um' pg [] "allocuvm out of memory (2)" Hr Hu Hg1 Hin Hff)
    as (st4 & -> & l4 & Hu4 & Hff4 & Hpt4 & Hl4 & Ho4). exists st4. split; [done|]. right. exists (p :: l4).
  destruct (uvm_kfree st4 pgdir um l4 p Hu4 Hp) as (Hu5 & Hpt5).
  - intros [(j & Hj & Ej)|Hl]%Hl4; [by apply Hfresh in Ej|]. by apply elem_of_nil in Hl.
  - by rewrite Hpt4.
  - intros j Ej. destruct (uv_some _ _ _ _ Hu0 j p Ej) as (_ & _ & Hn0 & _). done.
  - split; [done|]. split; [done|]. split; [|split; [|done]].
    2: { intros q. rewrite <- Hown, <- Ho4. unfold owned. rewrite Hpt5, elem_of_cons. tauto. }
    destruct Hff4 as [K1 K2 K3]. split.
    + intros q [->|Hq]%elem_of_cons; auto.
    + intros q Hq%Hpt5. by apply K2.
    + intros q x Hq Hl Hn Hx. rewrite <- (K3 q x) by done. apply km_kfree; [done|].
      apply (page_ok_disjoint q p x); [done|done|by intros ->|done].
Qed.

Lemma alloc_turn st pg :
  alloc_inv (st, 4096 * pg) → 4096 * pg < newsz →
  (∃ st', alloc_step pgdir oldsz newsz (st, 4096 * pg) = Ok (inl (st', 4096 * (pg + 1))) ∧
     alloc_inv (st', 4096 * (pg + 1))) ∨
  (∃ st', alloc_step pgdir oldsz newsz (st, 4096 * pg) = Ok (inr (st', 0)) ∧ alloc_post (st', 0)).
Proof.
  intros (pg0 & um' & l & E & Hpg & Hu & Hg & Hff & Hown & Hlen) Hlt. unfold KERNBASE in Hnew.
  assert (pg0 = pg) as -> by lia. assert (lo ≤ pg < hi) as Hr by zlia.
  assert (0 ≤ pg < NUPAGES) as Hpr by (unfold NUPAGES; zlia).
  unfold alloc_step. rewrite (proj2 (Z.ltb_lt _ _)) by lia.
  destruct l as [|p l].
  - right. rewrite kalloc_nil by apply Hu. rewrite Z.eqb_refl.
    destruct (alloc_undo st um' pg [] "allocuvm out of memory" Hr Hu (proj1 Hg) (grown_in st um' pg Hg) Hff)
      as (st' & -> & l' & Hu' & Hff' & _ & _ & Ho'). exists st'. split; [done|]. right. exists l'.
    split; [done|]. split; [done|]. split; [done|].
    split; [intros q; rewrite Ho'; apply Hown|]. cbn in Hlen. lia.
  - destruct (uvm_kalloc st pgdir um' l p Hu)
      as (st1 & -> & Hu2 & Hp & Hpl & Hnp & Hfresh & Hpt2 & Hat2 & Hz & Hm2).
    rewrite (proj2 (Z.eqb_neq _ _) (page_ok_nonzero p Hp)).
    set (st2 := set_km st1 (memset (km st1) p 0 PGSIZE)) in *.
    assert (p ∈ l0) as Hpl0 by (apply Hff; left).
    assert (um' !! pg = None) as Enone by (rewrite (proj1 Hg), Hgap by lia; done).
    assert (¬ pt_page (km st2) pgdir p) as Hnp2 by (by rewrite Hpt2).
    destruct (uvm_map st2 pgdir pg p um' l Hu2 Hpr Enone Hp Hpl Hnp2 Hfresh)
      as (st3 & r & l' & -> & Hs & Hcase). cbn [rbind fst snd].
    pose proof (from_free_step st st2 st3 p l l' Hff Hpt2 Hm2 Hs) as Hff3.
    destruct (pts_used _ _ _ _ _ Hs) as (used & El & Hpt3).
    assert (¬ pt_page (km st3) pgdir p) as Hnp3
      by (intros [?|Hq']%Hpt3; [done|]; apply Hpl; rewrite El; apply elem_of_app; by left).
    assert (∀ q, q = p ∨ owned st3 pgdir um' l' q ↔ owned st0 pgdir um l0 q) as Hown3.
    { intros q. rewrite (owned_step _ _ _ _ _ _ _ Hs). rewrite <- (Hown q : _ ↔ _). unfold owned. rewrite Hpt2, elem_of_cons. tauto. }
    cbn [length] in Hlen. destruct Hcase as [(-> & Hu3 & Hlen3 & Hup & Hat3) | (-> & -> & Hu3)].
    + left. cbn [Z.ltb Z.compare]. unfold PGSIZE. rewrite u32_small by (unfold NUPAGES in Hpr; lia).
      replace (4096 * pg + 4096) with (4096 * (pg + 1)) by lia. eexists; split; [reflexivity|].
      exists (pg + 1), (<[pg := p]> um'), l'. split; [done|]. split; [lia|]. split; [done|].
      split; [|split; [done|split; [intros q; rewrite owned_insert by done; apply Hown3 | lia]]].
      apply (grown_step st); try done.
      * intros x Hx. rewrite <- (Hz x Hx). by apply (pts_frame _ _ _ _ _ Hs p x Hp).
      * intros j q x Ej Hx. destruct (uvm_pages_kept _ _ _ _ _ _ j q x Hu2 Hs Ej Hx) as (_ & ->).
        apply (Hm2 q x); [by apply (uv_some _ _ _ _ Hu j q)| |done]. intros ->. by apply Hfresh in Ej.
      * intros j Hj Hne. by rewrite Hat3, Hat2.
    + right. cbn [Z.ltb Z.compare]. symmetry in El. apply app_eq_nil in El as (-> & ->). cbn [length] in Hlen.
      destruct (alloc_undo_map st3 um' pg p) as (st4 & -> & Hpost); try done; [apply Hg | by apply (grown_in st um' pg Hg) | lia |].
      cbn [rbind fst snd]. by eexists.
Qed.

(** [allocuvm] adds zeroed pages up to [newsz], or gives back what it took and
    answers 0, which it only does when memory is short. *)
Lemma allocuvm_spec : ∃ r, allocuvm st0 pgdir oldsz newsz = Ok r ∧ alloc_post r.
Proof.
  unfold KERNBASE in Hnew. unfold allocuvm, KERNBASE.
  rewrite (proj2 (Z.leb_gt _ _)), (proj2 (Z.ltb_ge _ _)) by lia.
  destruct (PGROUNDUP_spec oldsz) as (Hm & Hrd); [lia..|].
  assert (PGROUNDUP oldsz = 4096 * lo) as -> by zlia.
  apply while_spec with (I := alloc_inv) (mu := λ '(_, a), NUPAGES - a / 4096).
  - intros [st a] (pg & um' & l & -> & Hpg & _). unfold NUPAGES. zlia.
  - intros [st a] Hinv. pose proof Hinv as (pg & um' & l & -> & Hpg & Hu & Hg & Hff & Hown & Hlen).
    destruct (decide (4096 * pg < newsz)) as [Hlt|Hge].
    + destruct (alloc_turn st pg Hinv Hlt) as [(st' & E & Hinv') | (st' & E & Hpost)].
      * left. exists (st', 4096 * (pg + 1)). split; [done|]. split; [done|]. zlia.
      * right. by exists (st', 0).
    + right. unfold alloc_step. rewrite (proj2 (Z.ltb_ge _ _)) by lia. eexists; split; [reflexivity|].
      left. exists um', l. assert (pg = hi) as -> by zlia. done.
  - exists lo, um, l0. split; [done|]. split; [zlia|]. split; [done|]. split; [|split; [split|split; [done|lia]]].
    + split; [done|]. split; [lia|]. split; [lia|done].
    + done.
    + by left.
    + done.
  - unfold NUPAGES. zlia.
Qed.
End alloc.
