(* ===== verification/UvmProps.v ===== *)
(** What kernel/vm.c promises about user memory: the bytes that user addresses
    have, through growing, shrinking, copying in and freeing. *)
From S2P Require Import Prelude Memory LibC Mmu Kalloc Vm UserMem Uvm.

(** The byte at user address [u] of the space [um]. *)
Definition ubyte (st : kst) (um : gmap Z Z) (u : Z) : option Z :=
  (λ p, ld8 (km st) (p + u mod 4096)) <$> um !! (u / 4096).

Lemma pte_at_page m pgdir va :
  0 ≤ va < 2 ^ 32 → pte_at m pgdir va = pte_at m pgdir (4096 * (va / 4096)).
Proof.
  intros Hva. unfold pte_at. rewrite !PDX_div, !PTX_div by zlia.
  replace (4096 * (va / 4096) / 2 ^ 22) with (va / 2 ^ 22) by zlia.
  by replace (4096 * (va / 4096) / 4096) with (va / 4096) by zlia.
Qed.

Section user.
Context (pgdir : Z) (um : gmap Z Z) (l : list Z).
Implicit Types (st : kst) (u p v : Z).

Lemma user_addr u : 0 ≤ u < KERNBASE → 0 ≤ u / 4096 < NUPAGES ∧ 0 ≤ u mod 4096 < 4096.
Proof. unfold KERNBASE, NUPAGES. intros. zlia. Qed.

(** The processor and the kernel reach a mapped byte at the same place. *)
Lemma mmu_uvm st u p w :
  uvm st pgdir um l → 0 ≤ u < KERNBASE → um !! (u / 4096) = Some p →
  mmu st pgdir u w = Some (p + u mod 4096).
Proof.
  intros Hu Hr E. destruct (uv_some _ _ _ _ Hu _ _ E) as (_ & Hp & _ & _ & He1 & He2 & He3).
  unfold KERNBASE in Hr. unfold mmu. rewrite (pte_at_page _ _ u) by lia. rewrite He1, He2.
  rewrite P2V_V2P by (unfold page_ok, KERNBASE in Hp; lia).
  assert (negb (Z.land (pte_at (km st) pgdir (4096 * (u / 4096))) PTE_W =? 0) = true) as ->.
  { apply negb_true_iff, Z.eqb_neq. intros E0. apply (f_equal (λ x, Z.testbit x 1)) in E0.
    rewrite Z.land_spec, He3 in E0. discriminate. }
  by rewrite orb_true_r.
Qed.

Lemma uld8_uvm st u b :
  uvm st pgdir um l → 0 ≤ u < KERNBASE → ubyte st um u = Some b → uld8 st pgdir u = Ok b.
Proof.
  intros Hu Hr E. apply fmap_Some in E as (p & E & ->). unfold uld8. by rewrite (mmu_uvm st u p).
Qed.

(** [bs] was stored at user address [u]: those bytes, and nothing else of the
    space or of its page table, changed. *)
Record ustored st u (bs : list Z) (st' : kst) : Prop := {
  us_uvm : uvm st' pgdir um l;
  us_pte : ∀ va, pte_at (km st') pgdir va = pte_at (km st) pgdir va;
  us_byte : ∀ u', ubyte st' um u' =
    if decide (u ≤ u' < u + Z.of_nat (length bs)) then Some (u8 (zget bs (u' - u)))
    else ubyte st um u';
  us_mem : ∀ q x, page_ok q → (∀ j, um !! j ≠ Some q) → inr_ q PGSIZE x → ld8 (km st') x = ld8 (km st) x
}.

Lemma ustored_nil st u : uvm st pgdir um l → ustored st u [] st.
Proof. intros Hu. split; [done..| |done]. intros u'. by rewrite decide_False by (cbn; lia). Qed.

Lemma ustored_app st1 st2 st3 u bs1 bs2 :
  ustored st1 u bs1 st2 → ustored st2 (u + Z.of_nat (length bs1)) bs2 st3 →
  ustored st1 u (bs1 ++ bs2) st3.
Proof.
  intros [A1 A2 A3 A4] [B1 B2 B3 B4].
  split; [done|intros va; by rewrite B2| |intros q x Hq Hn Hx; rewrite (B4 q x) by done; by apply (A4 q x)].
  intros u'. rewrite B3, A3, length_app. unfold zget.
  repeat case_decide; try done; try lia.
  - do 2 f_equal. rewrite lookup_total_app_r by lia. f_equal. lia.
  - do 2 f_equal. by rewrite lookup_total_app_l by lia.
Qed.

Lemma ustored_byte st u p v :
  uvm st pgdir um l → 0 ≤ u < KERNBASE → um !! (u / 4096) = Some p →
  ustored st u [v] (set_km st (st8 (km st) (p + u mod 4096) v)).
Proof.
  intros Hu Hr E. destruct (user_addr u Hr) as (_ & Hm).
  destruct (uv_some _ _ _ _ Hu _ _ E) as (_ & Hp & Hpl & Hpn & _).
  pose proof (uv_wf _ _ _ _ Hu) as Hwf.
  set (st' := set_km st _).
  assert (inr_ p PGSIZE (p + u mod 4096)) as Hin by (unfold inr_, PGSIZE; lia).
  assert (∀ q x, page_ok q → q ≠ p → inr_ q PGSIZE x → ld8 (km st') x = ld8 (km st) x) as Hk.
  { intros q x Hq Hne Hx. apply ld8_st8_ne. intros ->.
    by apply (page_ok_disjoint p q _ Hp Hq (not_eq_sym Hne) Hin). }
  assert (∀ q x, pt_page (km st) pgdir q → inr_ q PGSIZE x → ld8 (km st') x = ld8 (km st) x) as Hkp.
  { intros q x Hq Hx. apply (Hk q x); [by eapply pt_page_ok|by intros ->|done]. }
  split.
  - eapply uvm_frame; [exact Hwf|exact Hkp|exact Hu| | |].
    + apply free_pages_frame with st; [done| |apply Hwf]. intros q x Hq Hqok Hx.
      apply (Hk q x); [done|by intros ->|done].
    + intros q Hq. by eapply pt_page_used.
    + intros j q Ej. by apply (uv_some _ _ _ _ Hu j q).
  - by apply frame_pte_at.
  - intros u'. unfold ubyte. cbn [length]. change (Z.of_nat 1) with 1. destruct (decide (u ≤ u' < u + 1)) as [Hu'|Hu'].
    + assert (u' = u) as -> by lia. rewrite E. cbn [fmap option_fmap option_map]. unfold st'.
      cbn [km set_km]. rewrite ld8_st8_eq, Z.sub_diag. done.
    + destruct (um !! (u' / 4096)) as [p'|] eqn:E'; [|done]. cbn [fmap option_fmap option_map]. f_equal.
      destruct (uv_some _ _ _ _ Hu _ _ E') as (_ & Hp' & _).
      unfold st'. cbn [km set_km]. apply ld8_st8_ne. intros Eq.
      assert (p' = p) as -> by (unfold page_ok in Hp, Hp'; zlia).
      pose proof (uv_inj _ _ _ _ Hu _ _ _ E E'). zlia.
  - intros q x Hq Hn Hx. apply (Hk q x); [done | | done]. intros ->. by apply (Hn (u / 4096)).
Qed.

(** A run of bytes inside one page. *)
Lemma ustored_page st u p bs :
  uvm st pgdir um l → 0 ≤ u → u + Z.of_nat (length bs) ≤ 4096 * (u / 4096) + 4096 →
  u < KERNBASE → um !! (u / 4096) = Some p →
  ustored st u bs (set_km st (st_bytes (km st) (p + u mod 4096) bs)).
Proof.
  revert st u. induction bs as [|b bs IH]; intros st u Hu Hr Hend Hk E.
  { cbn. replace (set_km st (km st)) with st by (by destruct st). by apply ustored_nil. }
  pose proof (ustored_byte st u p b Hu ltac:(lia) E) as Hb. cbn [length st_bytes] in *.
  destruct bs as [|b' bs]; [exact Hb|].
  assert ((u + 1) / 4096 = u / 4096 ∧ (u + 1) mod 4096 = u mod 4096 + 1) as (Ed & Em)
    by (cbn [length] in Hend; zlia).
  pose proof (IH (set_km st (st8 (km st) (p + u mod 4096) b)) (u + 1)) as IH'.
  rewrite Ed, Em in IH'. unfold KERNBASE in *.
  apply (ustored_app st _ _ u [b] (b' :: bs) Hb). cbn [length].
  rewrite <- Z.add_assoc. apply IH'; [apply Hb|lia|cbn [length] in *; lia| |done].
  destruct (uv_some _ _ _ _ Hu _ _ E) as (Hpg & _). unfold NUPAGES in Hpg. cbn [length] in Hend. zlia.
Qed.

(** [n] mapped bytes from user address [u]. *)
Definition umapped (u n : Z) : Prop := ∀ u', u ≤ u' < u + n → is_Some (um !! (u' / 4096)).

Lemma ust_bytes_spec st u bs :
  uvm st pgdir um l → 0 ≤ u → u + Z.of_nat (length bs) ≤ KERNBASE →
  umapped u (Z.of_nat (length bs)) →
  ∃ st', ust_bytes st pgdir u bs = Ok st' ∧ ustored st u bs st'.
Proof.
  revert st u. induction bs as [|b bs IH]; intros st u Hu Hr Hend Hm.
  { exists st. split; [done|]. by apply ustored_nil. }
  unfold KERNBASE in *. cbn [length] in *. destruct (Hm u) as (p & E); [lia|].
  pose proof (ustored_byte st u p b Hu ltac:(unfold KERNBASE; lia) E) as Hb.
  destruct (IH (set_km st (st8 (km st) (p + u mod 4096) b)) (u + 1)) as (st' & Es & Hs);
    [apply Hb|lia|lia| |].
  { intros u' Hu'. apply Hm. lia. }
  exists st'. cbn [ust_bytes]. unfold ust8. rewrite (mmu_uvm st u p) by (unfold KERNBASE; done || lia).
  cbn [rbind]. rewrite u32_small by lia. split; [exact Es|].
  by apply (ustored_app st _ _ u [b] bs Hb).
Qed.

Lemma uld_bytes_spec st u n bs :
  uvm st pgdir um l → 0 ≤ u → u + Z.of_nat n ≤ KERNBASE → length bs = n →
  (∀ i, (i < n)%nat → ubyte st um (u + Z.of_nat i) = bs !! i) →
  uld_bytes st pgdir u n = Ok bs.
Proof.
  intros Hu Hr Hend <- Hb. apply uimage_bytes; [lia|unfold KERNBASE in Hend; lia|].
  intros i b Ei. pose proof (lookup_lt_Some _ _ _ Ei). apply uld8_uvm; [done|lia|].
  by rewrite Hb.
Qed.
End user.

(** * copyout *)

(** [uva2ka] of a user page of the space. *)
Lemma uva2ka_uvm st pgdir um l pg p :
  uvm st pgdir um l → um !! pg = Some p →
  uva2ka st pgdir (4096 * pg) =
    Ok (if Z.testbit (pte_at (km st) pgdir (4096 * pg)) 2 then p else 0).
Proof.
  intros Hu E. destruct (uv_some _ _ _ _ Hu _ _ E) as (_ & Hp & _ & _ & He1 & He2 & _).
  rewrite (uva2ka_present st pgdir _ l) by (apply Hu || done). unfold user_page. rewrite He1, He2.
  rewrite P2V_V2P by (unfold page_ok, KERNBASE in Hp; lia). f_equal. cbn [andb].
  set (e := pte_at _ _ _). change PTE_U with (2 ^ 2).
  destruct (Z.eqb_spec (Z.land e (2 ^ 2)) 0) as [E0|N]; cbn [negb].
  - apply (f_equal (λ x, Z.testbit x 2)) in E0. rewrite Z.land_spec, Z.bits_0, andb_true_r in E0.
    by rewrite E0.
  - destruct (Z.testbit e 2) eqn:Et; [done|]. destruct N. Zbits. rewrite Z.bits_0.
    rewrite Z.pow2_bits_eqb by lia. destruct (Z.eqb_spec 2 i) as [<-|]; [by rewrite Et|].
    apply andb_false_r.
Qed.

Section copyout.
Context (st0 : kst) (pgdir va : Z) (um : gmap Z Z) (l buf : list Z).
Context (Hu0 : uvm st0 pgdir um l) (Hva : 0 ≤ va).
Context (Hend : va + Z.of_nat (length buf) ≤ KERNBASE) (Hm : umapped um va (Z.of_nat (length buf))).
Context (HU : ∀ u, va ≤ u < va + Z.of_nat (length buf) → Z.testbit (pte_at (km st0) pgdir u) 2 = true).

Definition copyout_inv '((st, v, rest) : kst * Z * list Z) (n : nat) : Prop :=
  ∃ wr, buf = wr ++ rest ∧ length rest = n ∧ ustored pgdir um l st0 va wr st ∧
    (rest = [] ∨ v = va + Z.of_nat (length wr)).

Lemma copyout_turn st v rest n :
  copyout_inv (st, v, rest) n → rest ≠ [] →
  ∃ s n', copyout_step pgdir (st, v, rest) = Ok (inl s) ∧ copyout_inv s n' ∧ (n' < n)%nat.
Proof.
  intros (wr & Eb & <- & Hs & Hv) Hne. destruct Hv as [|Hv]; [done|].
  assert (length buf = (length wr + length rest)%nat) as Hlen by (by rewrite Eb, length_app).
  assert (0 < length rest)%nat as Hpos by (destruct rest; [done|cbn; lia]).
  unfold KERNBASE in *. assert (va ≤ v < va + Z.of_nat (length buf)) as Hvr by lia.
  destruct (Hm v Hvr) as (p & E). pose proof (HU v Hvr) as HUv.
  unfold copyout_step. rewrite (proj2 (Z.ltb_lt _ _)) by lia. rewrite PGROUNDDOWN_sub.
  replace (v - v mod 4096) with (4096 * (v / 4096)) by zlia.
  rewrite (uva2ka_uvm st pgdir um l (v / 4096) p) by (apply Hs || done).
  rewrite (us_pte _ _ _ _ _ _ _ Hs), <- pte_at_page, HUv by lia. cbn [rbind].
  destruct (uv_some _ _ _ _ Hu0 _ _ E) as (_ & Hp & _).
  rewrite (proj2 (Z.eqb_neq _ _) (page_ok_nonzero p Hp)).
  replace (v - 4096 * (v / 4096)) with (v mod 4096) by zlia. unfold PGSIZE.
  set (c := if _ <? _ then _ else _).
  assert (c = Z.min (Z.of_nat (length rest)) (4096 - v mod 4096)) as Ec
    by (unfold c; case (Z.ltb_spec (Z.of_nat (length rest)) (4096 - v mod 4096)); lia).
  assert (0 < c) as Hc by zlia.
  pose proof (ustored_page pgdir um l st v p (take (Z.to_nat c) rest)) as Hpage.
  rewrite length_take in Hpage. unfold KERNBASE in Hpage.
  eexists _, _. split; [reflexivity|]. split.
  - exists (wr ++ take (Z.to_nat c) rest). rewrite <- app_assoc, take_drop. split; [done|].
    split; [reflexivity|]. split.
    + eapply ustored_app; [exact Hs|]. rewrite <- Hv.
      apply Hpage; [apply Hs|lia|zlia|lia|done].
    + destruct (decide (c = Z.of_nat (length rest))) as [Ecl|Ncl].
      * left. apply drop_ge. lia.
      * right. rewrite length_app, length_take. rewrite u32_small by zlia. zlia.
  - rewrite length_drop. lia.
Qed.

Lemma copyout_spec : ∃ st', copyout st0 pgdir va buf = Ok (st', 0) ∧ ustored pgdir um l st0 va buf st'.
Proof.
  destruct (while_rel copyout_inv (λ '(st', r), r = 0 ∧ ustored pgdir um l st0 va buf st')
    (2 ^ 32) (copyout_step pgdir) (st0, va, buf) (length buf)) as ([st' r] & E & -> & Hs).
  - intros [[st v] rest] n Hinv. destruct (decide (rest = [])) as [->|Hne].
    + right. eexists; split; [reflexivity|]. destruct Hinv as (wr & Eb & _ & Hs & _).
      rewrite app_nil_r in Eb. subst. by split.
    + left. by apply (copyout_turn st v rest).
  - exists []. split; [done|]. split; [done|]. split; [by apply ustored_nil|]. right. cbn. lia.
  - unfold KERNBASE in Hend. lia.
  - by exists st'.
Qed.
End copyout.

(** A first page that only the kernel may use. *)
Lemma copyout_guard st pgdir um l va buf :
  uvm st pgdir um l → is_Some (um !! (va / 4096)) → uperm st pgdir (va / 4096) = false → buf ≠ [] →
  copyout st pgdir va buf = Ok (st, -1).
Proof.
  intros Hu (p & Ep) HU Hne. assert (0 < length buf)%nat as Hl by (destruct buf; [done|cbn; lia]).
  unfold copyout. apply (while_out (λ s n, s = (st, va, buf)) (λ c, c = Ok (st, -1)) _ _ _ 0%nat);
    [|done|lia].
  intros s n ->. right. exists (Ok (st, -1)). split; [|done]. unfold copyout_step.
  rewrite (proj2 (Z.ltb_lt _ _)) by lia. rewrite PGROUNDDOWN_sub.
  replace (va - va mod 4096) with (4096 * (va / 4096)) by zlia.
  rewrite (uva2ka_uvm st pgdir um l _ p) by done. unfold uperm in HU. by rewrite HU.
Qed.

(** * freevm *)

Section freevm.
Context (pgdir : Z) (Hdir : page_ok pgdir).

(** The tables of the directory from entry [i] on are pages that are not free. *)
Definition tables_from (st : kst) (i : Z) (l : list Z) : Prop :=
  (∀ k, i ≤ k < 1024 → present (pde_of (km st) pgdir k) = true →
    page_ok (tab_of (km st) pgdir k) ∧ tab_of (km st) pgdir k ≠ pgdir ∧
    tab_of (km st) pgdir k ∉ l) ∧
  (∀ j k, i ≤ j < 1024 → i ≤ k < 1024 →
    present (pde_of (km st) pgdir j) = true → present (pde_of (km st) pgdir k) = true →
    tab_of (km st) pgdir j = tab_of (km st) pgdir k → j = k).

Lemma freevm_loop_spec n i st l :
  0 ≤ i → i + Z.of_nat n = 1024 → free_pages st l → pgdir ∉ l → tables_from st i l →
  ∃ fr, free_pages (freevm_loop st pgdir i n) (fr ++ l) ∧
    (∀ q, q ∈ fr ↔ ∃ k, i ≤ k < 1024 ∧ present (pde_of (km st) pgdir k) = true ∧
       tab_of (km st) pgdir k = q) ∧
    (∀ q x, page_ok q → (q ∉ fr) → inr_ q PGSIZE x →
       ld8 (km (freevm_loop st pgdir i n)) x = ld8 (km st) x).
Proof.
  revert i st l. induction n as [|n IH]; intros i st l Hi Hn Hf Hd (Ht & Hinj).
  { exists []. cbn. split; [done|]. split; [|done]. intros q. rewrite elem_of_nil.
    split; [done|]. intros (k & Hk & _). lia. }
  cbn [freevm_loop]. change (ld32 (km st) (pgdir + 4 * i)) with (pde_of (km st) pgdir i).
  destruct (present (pde_of (km st) pgdir i)) eqn:Ei.
  - change (P2V (PTE_ADDR (pde_of (km st) pgdir i))) with (tab_of (km st) pgdir i).
    set (t := tab_of (km st) pgdir i). destruct (Ht i) as (Hto & Htd & Htl); [lia|done|].
    fold t in Hto, Htd, Htl.
    assert (∀ q x, page_ok q → q ≠ t → inr_ q PGSIZE x → ld8 (km (kfree st t)) x = ld8 (km st) x) as Hk.
    { intros q x Hq Hne Hx. apply km_kfree; [done|]. by apply (page_ok_disjoint q t x). }
    assert (∀ k, 0 ≤ k < 1024 → pde_of (km (kfree st t)) pgdir k = pde_of (km st) pgdir k) as Ep.
    { intros k Hkr. apply ld32_page; [|done]. intros x Hx. by apply (Hk pgdir x Hdir). }
    assert (∀ k, 0 ≤ k < 1024 → tab_of (km (kfree st t)) pgdir k = tab_of (km st) pgdir k) as Et
      by (intros k Hkr; unfold tab_of; by rewrite Ep).
    destruct (IH (i + 1) (kfree st t) (t :: l)) as (fr & Hfr & Hin & Hm); [lia|lia| | | |].
    + by apply kfree_free_pages.
    + rewrite not_elem_of_cons. auto.
    + split.
      * intros k Hkr E. rewrite Ep in E by lia. rewrite Et by lia.
        destruct (Ht k) as (? & ? & ?); [lia|done|]. split; [done|]. split; [done|].
        rewrite not_elem_of_cons. split; [|done]. intros Eq.
        assert (k = i) by (apply Hinj; [lia..|done|done|done]). lia.
      * intros j k Hj Hkr. rewrite !Ep, !Et by lia. apply Hinj; lia.
    + exists (fr ++ [t]). rewrite <- app_assoc. split; [exact Hfr|]. split.
      * intros q. rewrite elem_of_app, Hin, list_elem_of_singleton. split.
        -- intros [(k & Hkr & E & Eq)| ->]; [|exists i; split; [lia|done]].
           exists k. rewrite Ep in E by lia. rewrite Et in Eq by lia. split; [lia|done].
        -- intros (k & Hkr & E & Eq). destruct (decide (k = i)) as [->|]; [by right|]. left.
           exists k. rewrite Ep, Et by lia. split; [lia|done].
      * intros q x Hq Hn' Hx. rewrite elem_of_app, list_elem_of_singleton in Hn'.
        rewrite (Hm q x) by tauto. apply (Hk q x); tauto.
  - destruct (IH (i + 1) st l) as (fr & Hfr & Hin & Hm); [lia|lia|done|done| |].
    + split; [intros k Hkr; apply Ht; lia | intros j k Hj Hkr; apply Hinj; lia].
    + exists fr. split; [exact Hfr|]. split; [|exact Hm]. intros q. rewrite Hin.
      split; intros (k & Hkr & E & Eq); exists k; (split; [|done]); [lia|].
      destruct (decide (k = i)) as [->|]; [congruence|lia].
Qed.
End freevm.

Lemma freevm_spec st pgdir um l :
  uvm st pgdir um l →
  ∃ st' l', freevm st pgdir = Ok st' ∧ free_pages st' l' ∧
    (∀ q, q ∈ l' ↔ q ∈ l ∨ (∃ j, um !! j = Some q) ∨ pt_page (km st) pgdir q) ∧
    (∀ q x, page_ok q → (q ∉ l') → inr_ q PGSIZE x → ld8 (km st') x = ld8 (km st) x).
Proof.
  intros Hu. unfold freevm.
  destruct (deallocuvm_spec st pgdir KERNBASE um l Hu ltac:(unfold KERNBASE; lia) 0
    ltac:(unfold KERNBASE; lia)) as (st1 & um1 & fr1 & -> & Hu1 & (T1 & T2) & Hpt1 & Hm1).
  cbn [rbind fst]. pose proof (uv_wf _ _ _ _ Hu1) as Hwf1. pose proof (ptw_dir _ _ _ Hwf1) as Hd.
  destruct (freevm_loop_spec pgdir Hd 1024 0 st1 (fr1 ++ l)) as (fr2 & Hf2 & Hin2 & Hm2);
    [lia|lia|apply Hwf1|apply Hwf1| |].
  { split; [intros k Hk E; by apply Hwf1|intros j k Hj Hk E1 E2; by apply Hwf1]. }
  change (Z.to_nat NPDENTRIES) with 1024%nat. set (st2 := freevm_loop st1 pgdir 0 1024) in *.
  assert (pgdir ∉ fr2) as Hnf2.
  { intros (k & Hk & E & Eq)%Hin2. by destruct (ptw_tab _ _ _ Hwf1 k Hk E) as (_ & ? & _). }
  assert (∀ q, q ∈ pgdir :: fr2 ++ fr1 ++ l ↔ q ∈ l ∨ (∃ j, um !! j = Some q) ∨ pt_page (km st) pgdir q) as Hall.
  { intros q. rewrite <- Hpt1, elem_of_cons, !elem_of_app, Hin2, T2. unfold pt_page.
    assert ((∃ j, (0 + 4095) / 4096 ≤ j < (KERNBASE + 4095) / 4096 ∧ um !! j = Some q) ↔
      ∃ j, um !! j = Some q) as ->; [|tauto].
    split; intros (j & Hj); [by exists j; apply Hj|]. exists j. split; [|done].
    destruct (uv_some _ _ _ _ Hu j q Hj) as (Hr & _). unfold NUPAGES in Hr. unfold KERNBASE. zlia. }
  exists (kfree st2 pgdir), (pgdir :: fr2 ++ fr1 ++ l). split; [done|]. split; [|split; [exact Hall|]].
  - apply kfree_free_pages; [done|done|]. rewrite elem_of_app. intros [?|?]; [done|].
    by apply (ptw_dir_used _ _ _ Hwf1).
  - intros q x Hq Hn Hx. pose proof Hn as Hn'. rewrite Hall in Hn'.
    rewrite not_elem_of_cons, !not_elem_of_app in Hn. destruct Hn as (Hn1 & Hn2 & Hn3 & Hn4).
    rewrite km_kfree; [|done|by apply (page_ok_disjoint q pgdir x)].
    rewrite (Hm2 q x) by done. apply (Hm1 q x); [done|done|tauto|done].
Qed.

(** A word stored below the kernel window is in no page. *)
Lemma uvm_low_store st pgdir um l a v :
  uvm st pgdir um l → a + 4 ≤ KERNBASE →
  let st' := set_km st (st32 (km st) a v) in
  uvm st' pgdir um l ∧ (∀ u, ubyte st' um u = ubyte st um u) ∧
  (∀ j, uperm st' pgdir j = uperm st pgdir j).
Proof.
  intros Hu Ha st'. pose proof (uv_wf _ _ _ _ Hu) as Hwf.
  assert (∀ q x, page_ok q → inr_ q PGSIZE x → ld8 (km st') x = ld8 (km st) x) as Hk.
  { intros q x Hq Hx. apply ld8_st32_ne. unfold page_ok, inr_ in *. lia. }
  assert (∀ q x, pt_page (km st) pgdir q → inr_ q PGSIZE x → ld8 (km st') x = ld8 (km st) x) as Hkp.
  { intros q x Hq. apply Hk. by eapply pt_page_ok. }
  split; [|split].
  - eapply uvm_frame; [exact Hwf|exact Hkp|exact Hu| | |].
    + apply free_pages_frame with st; [done| |apply Hwf]. intros q x _ Hq. by apply Hk.
    + intros q Hq. by eapply pt_page_used.
    + intros j q Ej. by apply (uv_some _ _ _ _ Hu j q).
  - intros u. unfold ubyte. destruct (um !! (u / 4096)) as [p|] eqn:E; [|done]. cbn. f_equal.
    apply (Hk p); [by apply (uv_some _ _ _ _ Hu _ _ E)|]. unfold inr_, PGSIZE. zlia.
  - intros j. unfold uperm. by rewrite (frame_pte_at st st' pgdir Hkp).
Qed.

(** * Properties *)

Lemma ubyte_kept st st' um um' u :
  um' !! (u / 4096) = um !! (u / 4096) →
  (∀ p x, um !! (u / 4096) = Some p → inr_ p PGSIZE x → ld8 (km st') x = ld8 (km st) x) →
  ubyte st' um' u = ubyte st um u.
Proof.
  intros E Hm. unfold ubyte. rewrite E. destruct (um !! (u / 4096)) as [p|]; [|done].
  cbn. f_equal. apply (Hm p); [done|]. unfold inr_, PGSIZE. zlia.
Qed.

Lemma from_free_kept st0 pgdir um l0 st l pg p x :
  uvm st0 pgdir um l0 → from_free pgdir st0 l0 st l → um !! pg = Some p → inr_ p PGSIZE x →
  ld8 (km st) x = ld8 (km st0) x.
Proof.
  intros Hu Hff E Hx. destruct (uv_some _ _ _ _ Hu _ _ E) as (_ & Hp & Hl & Hn & _).
  by apply (ff_mem _ _ _ _ _ Hff p x).
Qed.

(** C16. [allocuvm] ends; it either grows the process to [newsz], the new pages
    being zero and accessible to user code, or answers 0 and leaves the address
    space as it was, which happens only when the allocator holds fewer than two
    pages for each page asked for.  The bytes the process had are never
    changed. *)
Theorem allocuvm_grows st pgdir um l oldsz newsz :
  let lo := (oldsz + 4095) / 4096 in
  let hi := (newsz + 4095) / 4096 in
  uvm st pgdir um l → 0 ≤ oldsz ≤ newsz → newsz < KERNBASE →
  (∀ j, lo ≤ j < hi → um !! j = None) →
  ∃ st' r um' l', allocuvm st pgdir oldsz newsz = Ok (st', r) ∧ uvm st' pgdir um' l' ∧
    (r = newsz ∧ (∀ j, lo ≤ j < hi → uperm st' pgdir j = true) ∧
       (∀ u, ubyte st' um' u = if decide (lo ≤ u / 4096 < hi) then Some 0 else ubyte st um u) ∨
     r = 0 ∧ um' = um ∧ (∀ u, ubyte st' um u = ubyte st um u) ∧
       Z.of_nat (length l) < 2 * (hi - lo)).
Proof.
  intros lo hi Hu Hsz Hnew Hgap.
  destruct (allocuvm_spec st pgdir oldsz newsz um l Hu Hsz Hnew lo hi eq_refl eq_refl Hgap)
    as ([st' r] & E & [(um' & l' & -> & Hu' & (G1 & G2 & G3 & _) & Hff & _) | (l' & -> & Hu' & Hff & _ & Hlen)]).
  - exists st', newsz, um', l'. split; [done|]. split; [done|]. left. split; [done|]. split; [done|].
    intros u. case_decide as Hj.
    + destruct (G2 _ Hj) as (p & Ep & _ & Hz). unfold ubyte. rewrite Ep. cbn. f_equal. apply Hz.
      unfold inr_, PGSIZE. zlia.
    + apply ubyte_kept; [by apply G1|]. intros p x Ep Hx. by eapply from_free_kept.
  - exists st', 0, um, l'. split; [done|]. split; [done|]. right. split; [done|]. split; [done|].
    split; [|done]. intros u. apply ubyte_kept; [done|]. intros p x Ep Hx. by eapply from_free_kept.
Qed.

(** C24. [deallocuvm] ends and takes exactly the pages between the two sizes,
    rounded up, out of the address space: they and no others become free, and
    the bytes below stay. *)
Theorem deallocuvm_shrinks st pgdir um l oldsz newsz :
  let lo := (newsz + 4095) / 4096 in
  let hi := (oldsz + 4095) / 4096 in
  uvm st pgdir um l → 0 ≤ newsz < oldsz → oldsz ≤ KERNBASE →
  ∃ st' um' l', deallocuvm st pgdir oldsz newsz = Ok (st', newsz) ∧ uvm st' pgdir um' l' ∧
    (∀ u, ubyte st' um' u = if decide (lo ≤ u / 4096 < hi) then None else ubyte st um u) ∧
    (∀ q, q ∈ l' ↔ q ∈ l ∨ ∃ j, lo ≤ j < hi ∧ um !! j = Some q).
Proof.
  intros lo hi Hu Hn Ho.
  destruct (deallocuvm_spec st pgdir oldsz um l Hu ltac:(lia) newsz Hn)
    as (st' & um' & fr & E & Hu' & (T1 & T2) & _ & Hm). fold lo hi in T1, T2.
  exists st', um', (fr ++ l). split; [done|]. split; [done|]. split.
  - intros u. case_decide as Hj; [unfold ubyte; by rewrite T1, decide_True|].
    apply ubyte_kept; [by rewrite T1, decide_False|]. intros p x Ep Hx.
    destruct (uv_some _ _ _ _ Hu _ _ Ep) as (_ & Hp & _ & Hnp & _). apply (Hm p x Hp); [|done..].
    intros (j & Hj' & Ej)%T2. apply Hj. by rewrite (uv_inj _ _ _ _ Hu _ _ _ Ep Ej).
  - intros q. rewrite elem_of_app, T2. tauto.
Qed.

(** C20. [copyout] into pages that user code may use stores all the bytes at the
    user address, over page boundaries, and changes no other byte of the address
    space: reading the address back gives the bytes.  A first page that is
    mapped for the kernel only makes it fail without a store. *)
Theorem copyout_stores st pgdir um l va buf :
  uvm st pgdir um l → 0 ≤ va → va + Z.of_nat (length buf) ≤ KERNBASE →
  umapped um va (Z.of_nat (length buf)) →
  (Forall (λ b, 0 ≤ b < 256) buf →
   (∀ u, va ≤ u < va + Z.of_nat (length buf) → uperm st pgdir (u / 4096) = true) →
   ∃ st', copyout st pgdir va buf = Ok (st', 0) ∧ uvm st' pgdir um l ∧
     uld_bytes st' pgdir va (length buf) = Ok buf ∧
     ∀ u, ¬ va ≤ u < va + Z.of_nat (length buf) → ubyte st' um u = ubyte st um u) ∧
  (buf ≠ [] → uperm st pgdir (va / 4096) = false → copyout st pgdir va buf = Ok (st, -1)).
Proof.
  intros Hu Hva Hend Hm. unfold KERNBASE in *. split.
  - intros Hb HU. destruct (copyout_spec st pgdir va um l buf) as (st' & E & [S1 _ S3 _]); try done.
    { intros u Hr. rewrite pte_at_page by lia. by apply HU. }
    exists st'. split; [done|]. split; [done|]. split.
    + apply (uld_bytes_spec pgdir um l); [done|done|done|done|]. intros i Hi.
      rewrite S3, decide_True by lia. replace (va + Z.of_nat i - va) with (Z.of_nat i) by lia.
      unfold zget. rewrite Nat2Z.id. destruct (lookup_lt_is_Some_2 buf i Hi) as (b & Eb).
      rewrite (list_lookup_total_correct _ _ _ Eb), Eb. f_equal. apply u8_small.
      by eapply Forall_lookup_1 in Hb; [|exact Eb].
    + intros u Hn. by rewrite S3, decide_False.
  - intros Hne HU. apply (copyout_guard st pgdir um l); [done | | done | done]. apply Hm.
    destruct buf; [done|cbn; lia].
Qed.

(** C25. [freevm] ends and leaks nothing: afterwards the free pages are those
    that were free, the pages of the process, the tables of its page directory
    and the directory itself, each once, and no other page was written. *)
Theorem freevm_returns st pgdir um l :
  uvm st pgdir um l →
  ∃ st' l', freevm st pgdir = Ok st' ∧ free_pages st' l' ∧ NoDup l' ∧
    (∀ q, q ∈ l' ↔ q ∈ l ∨ (∃ j, um !! j = Some q) ∨ pt_page (km st) pgdir q) ∧
    (∀ q x, page_ok q → (q ∉ l') → inr_ q PGSIZE x → ld8 (km st') x = ld8 (km st) x).
Proof.
  intros Hu. destruct (freevm_spec st pgdir um l Hu) as (st' & l' & E & Hf & Hin & Hm).
  exists st', l'. split; [done|]. split; [done|]. split; [apply Hf|]. by split.
Qed.

(** * Witnesses: a process of one page made in [vm0] *)

Lemma vm0_uvm : uvm vm0 0x80400000 ∅ [0x80402000; 0x80401000].
Proof.
  split; [exact vm0_wf| | |].
  - intros pg p E. by rewrite lookup_empty in E.
  - intros pg Hpg _. pose proof (pg_addr pg Hpg). unfold pte_at.
    replace (pde_of (km vm0) 0x80400000 (PDX (4096 * pg))) with 0; [done|]. symmetry.
    unfold pde_of. pose proof (PDX_range (4096 * pg)). rewrite (ld32_ext _ ∅).
    + unfold ld32, ld8. by rewrite !lookup_empty.
    + intros x Hx. unfold vm0. unfold inr_, PGSIZE in *.
      rewrite !km_kfree; 
        first [unfold inr_, PGSIZE; lia | split; [reflexivity | unfold KERNBASE; lia] | reflexivity].
  - intros i j p E. by rewrite lookup_empty in E.
Qed.

Lemma vm0_gap : ∀ j, (0 + 4095) / 4096 ≤ j < (100 + 4095) / 4096 → (∅ : gmap Z Z) !! j = None.
Proof. intros. apply lookup_empty. Qed.

Lemma allocuvm_grows_witness :
  ∃ st' um' l', allocuvm vm0 0x80400000 0 100 = Ok (st', 100) ∧ uvm st' 0x80400000 um' l' ∧
    ubyte st' um' 77 = Some 0.
Proof.
  destruct (allocuvm_grows vm0 0x80400000 ∅ _ 0 100 vm0_uvm ltac:(lia) ltac:(unfold KERNBASE; lia) vm0_gap)
    as (st' & r & um' & l' & E & Hu & [(-> & _ & Hb) | (_ & _ & _ & Hlen)]).
  - exists st', um', l'. split; [exact E|]. split; [exact Hu|]. rewrite Hb. reflexivity.
  - exfalso. vm_compute in Hlen. discriminate Hlen.
Defined.

(** The process. *)
Lemma proc1 :
  ∃ st um l p, uvm st 0x80400000 um l ∧ um !! 0 = Some p ∧ uperm st 0x80400000 0 = true ∧
    ∀ u, 0 ≤ u < 4096 → ubyte st um u = Some 0.
Proof.
  destruct (allocuvm_spec vm0 0x80400000 0 100 ∅ _ vm0_uvm ltac:(lia) ltac:(unfold KERNBASE; lia)
    0 1 eq_refl eq_refl (λ j _, lookup_empty j))
    as ([st' r] & _ & [(um' & l' & _ & Hu & (_ & G2 & G3 & _) & _) | (l' & _ & _ & _ & _ & Hlen)]).
  - destruct (G2 0) as (p & Ep & _ & Hz); [lia|]. exists st', um', l', p.
    split; [exact Hu|]. split; [exact Ep|]. split; [apply G3; lia|].
    intros u Hr. unfold ubyte. replace (u / 4096) with 0 by zlia. rewrite Ep. cbn. f_equal. apply Hz.
    unfold inr_, PGSIZE. zlia.
  - exfalso. vm_compute in Hlen. discriminate Hlen.
Qed.

Lemma proc1_pages um p n :
  um !! 0 = Some p → 0 ≤ n ≤ 4000 → umapped um 8 n.
Proof.
  intros E Hn u Hu. replace (u / 4096) with 0 by zlia. by exists p.
Qed.

Lemma deallocuvm_shrinks_witness :
  ∃ st st' um' p, deallocuvm st 0x80400000 100 0 = Ok (st', 0) ∧ ubyte st' um' 8 = None ∧
    ∃ l', free_pages st' l' ∧ p ∈ l'.
Proof.
  destruct proc1 as (st & um & l & p & Hu & Ep & _).
  destruct (deallocuvm_shrinks st 0x80400000 um l 100 0 Hu ltac:(lia) ltac:(unfold KERNBASE; lia))
    as (st' & um' & l' & E & Hu' & Hb & Hl).
  exists st, st', um', p. split; [exact E|]. split; [rewrite Hb; reflexivity|].
  exists l'. split; [apply Hu'|]. apply Hl. right. exists 0. split; [vm_compute; split; congruence | exact Ep].
Defined.

Lemma copyout_stores_witness :
  ∃ st st', copyout st 0x80400000 8 [104; 105] = Ok (st', 0) ∧
    uld_bytes st' 0x80400000 8 2 = Ok [104; 105].
Proof.
  destruct proc1 as (st & um & l & p & Hu & Ep & HU & _).
  destruct (copyout_stores st 0x80400000 um l 8 [104; 105] Hu ltac:(lia) ltac:(unfold KERNBASE; cbn; lia)
    (proc1_pages um p 2 Ep ltac:(lia))) as (Hok & _).
  destruct Hok as (st' & E & _ & Er & _).
  - repeat constructor; lia.
  - intros u Hr. cbn in Hr. replace (u / 4096) with 0 by zlia. exact HU.
  - exists st, st'. split; [exact E | exact Er].
Defined.

Lemma freevm_returns_witness :
  ∃ st st' l' p, freevm st 0x80400000 = Ok st' ∧ free_pages st' l' ∧ p ∈ l' ∧ 0x80400000 ∈ l'.
Proof.
  destruct proc1 as (st & um & l & p & Hu & Ep & _).
  destruct (freevm_returns st 0x80400000 um l Hu) as (st' & l' & E & Hf & _ & Hin & _).
  exists st, st', l', p. split; [exact E|]. split; [exact Hf|].
  split; apply Hin; right; [left; by exists 0 | right; by left].
Defined.
