(* ===== verification/Kvm.v ===== *)
(** kernel/vm.c: the kernel's part of an address space.  [setupkvm] makes a page
    directory that maps what the table [kmap] says. *)
From S2P Require Import Prelude Memory LibC Mmu Kalloc Vm UserMem Uvm UvmProps.

Definition kmap_size (e : kmap_entry) : Z := u32 (phys_end e - phys_start e).

(** An entry maps whole pages, and does not wrap around. *)
Record entry_ok (e : kmap_entry) : Prop := {
  eo_virt : virt e mod 4096 = 0 ∧ 0 ≤ virt e;
  eo_size : kmap_size e mod 4096 = 0 ∧ 1 ≤ kmap_size e;
  eo_vend : virt e + kmap_size e ≤ 2 ^ 32;
  eo_phys : phys_start e mod 4096 = 0 ∧ 0 ≤ phys_start e;
  eo_pend : phys_start e + kmap_size e ≤ 2 ^ 32;
  eo_perm : 0 ≤ perm e < 4096
}.

(** The page tables that an entry may need. *)
Definition entry_tables (e : kmap_entry) : Z :=
  ((virt e + kmap_size e - 1) / 4096) / 1024 - (virt e / 4096) / 1024 + 1.
Definition tables_needed (ks : list kmap_entry) : Z := foldr (λ e n, entry_tables e + n) 0 ks.

(** The page table entry of [va] once the table is mapped over an old entry: the
    last entry of the table that covers [va] decides. *)
Fixpoint kmap_pte (ks : list kmap_entry) (va old : Z) : Z :=
  match ks with
  | [] => old
  | e :: ks' =>
      kmap_pte ks' va
        (if decide (virt e ≤ va < virt e + kmap_size e) then
           Z.lor (Z.lor (phys_start e + (va - va mod 4096 - virt e)) (perm e)) PTE_P
         else old)
  end.

Lemma entry_tables_pos e : entry_ok e → 1 ≤ entry_tables e.
Proof. intros [[] [] ? ? ? ?]. unfold entry_tables. zlia. Qed.

Lemma tables_needed_nonneg ks : Forall entry_ok ks → 0 ≤ tables_needed ks.
Proof.
  induction 1 as [|e ks He _ IH]; [done|]. cbn. apply entry_tables_pos in He. fold (tables_needed ks). lia.
Qed.

Lemma map_entry_spec st pgdir e l :
  pt_wf st pgdir l → entry_ok e →
  ∃ st' r l', mappages st pgdir (virt e) (kmap_size e) (phys_start e) (perm e) = Ok (st', r) ∧
    pt_step pgdir st l st' l' ∧
    (r = 0 ∧ Z.of_nat (length l) ≤ Z.of_nat (length l') + entry_tables e ∧
       (∀ va, 0 ≤ va < 2 ^ 32 → pte_at (km st') pgdir va = kmap_pte [e] va (pte_at (km st) pgdir va)) ∨
     r = -1 ∧ Z.of_nat (length l) < entry_tables e ∧
       ∀ va, 0 ≤ va < virt e → pte_at (km st') pgdir va = pte_at (km st) pgdir va).
Proof.
  intros Hwf [[Hv Hv0] [Hs Hs1] Hve [Hp Hp0] Hpe Hpm]. set (size := kmap_size e) in *.
  set (p0 := virt e / 4096). set (n := (virt e + size - 1) / 4096 - p0 + 1).
  assert (4096 * p0 = virt e ∧ 4096 * n = size) as [E0 En] by (unfold n, p0; zlia).
  destruct (mappages_spec st pgdir (virt e) size (phys_start e) (perm e) l Hwf Hv0 Hs1 Hve Hp Hp0 Hpm
    p0 n eq_refl eq_refl ltac:(lia)) as (st' & r & E & l' & Hst & Hc).
  assert (tables_upto p0 n = entry_tables e) as Ht.
  { unfold tables_upto, entry_tables. rewrite decide_False by lia. fold size. fold p0.
    do 3 f_equal. lia. }
  rewrite Ht in Hc. exists st', r, l'. split; [done|]. split; [done|].
  destruct Hc as [(-> & Hm & Hlen) | (-> & _ & Hlen & k & Hk & Hm)]; [left|right].
  - split; [done|]. split; [done|]. intros va Hva. rewrite Hm by done. cbn [kmap_pte]. fold size.
    assert (p0 ≤ va / 4096 < p0 + n ↔ virt e ≤ va < virt e + size) as Hiff by zlia.
    destruct (decide (p0 ≤ va / 4096 < p0 + n)) as [Hin|Hout].
    + rewrite decide_True by tauto. unfold map_entry. do 3 f_equal. zlia.
    + by rewrite decide_False by tauto.
  - split; [done|]. split; [done|]. intros va Hva. rewrite Hm by lia. rewrite decide_False; [done|]. zlia.
Qed.

(** What a failed [setupkvm] leaves: the pages are free again. *)
Definition given_back (st : kst) (own : Z → Prop) (st' : kst) : Prop :=
  ∃ l', free_pages st' l' ∧ (∀ q, q ∈ l' ↔ own q) ∧
    ∀ q x, page_ok q → ¬ own q → inr_ q PGSIZE x → ld8 (km st') x = ld8 (km st) x.

Lemma freevm_gives_back st pgdir um l :
  uvm st pgdir um l → ∃ st', freevm st pgdir = Ok st' ∧ given_back st (owned st pgdir um l) st'.
Proof.
  intros Hu. destruct (freevm_spec st pgdir um l Hu) as (st' & l' & E & Hf & Hin & Hk).
  exists st'. split; [done|]. exists l'. split; [done|]. split; [done|].
  intros q x Hq Hn. apply (Hk q x Hq). by rewrite Hin.
Qed.

Lemma given_back_step pgdir st l st1 l1 st' :
  pt_step pgdir st l st1 l1 → given_back st1 (owned st1 pgdir ∅ l1) st' →
  given_back st (owned st pgdir ∅ l) st'.
Proof.
  intros Hs (l' & Hf & Hin & Hk). exists l'. split; [done|]. split.
  - intros q. by rewrite Hin, (owned_step _ _ _ _ _ _ _ Hs).
  - intros q x Hq Hn Hx. rewrite <- (owned_step _ _ _ _ _ _ q Hs) in Hn. rewrite (Hk q x) by done.
    apply (pts_frame _ _ _ _ _ Hs q x Hq); [|done]. intros ?. apply Hn. by right; right.
Qed.

Lemma map_kernel_spec ks st pgdir l :
  uvm st pgdir ∅ l → Forall entry_ok ks → Forall (λ e, KERNBASE ≤ virt e) ks →
  ∃ st' r, map_kernel st pgdir ks = Ok (st', r) ∧
    ((∃ l', r = pgdir ∧ uvm st' pgdir ∅ l' ∧ pt_step pgdir st l st' l' ∧
        Z.of_nat (length l) ≤ Z.of_nat (length l') + tables_needed ks ∧
        ∀ va, 0 ≤ va < 2 ^ 32 → pte_at (km st') pgdir va = kmap_pte ks va (pte_at (km st) pgdir va)) ∨
     r = 0 ∧ Z.of_nat (length l) < tables_needed ks ∧ given_back st (owned st pgdir ∅ l) st').
Proof.
  intros Hu Hok. revert st l Hu. induction Hok as [|e ks He Hks IH]; intros st l Hu Hv.
  { exists st, pgdir. split; [done|]. left. exists l. split; [done|]. split; [done|].
    split; [by apply pt_step_refl, Hu|]. split; [cbn; lia | done]. }
  apply Forall_cons in Hv as (Hve & Hv). unfold KERNBASE in Hve.
  cbn [tables_needed foldr] in *. fold (tables_needed ks) in *.
  pose proof (tables_needed_nonneg ks Hks) as Hn0.
  destruct (map_entry_spec st pgdir e l (uv_wf _ _ _ _ Hu) He) as (st1 & r & l1 & E1 & Hs1 & Hc).
  assert (uvm st1 pgdir ∅ l1) as Hu1.
  { apply (uvm_step st pgdir ∅ l); [done..|]. intros pg Hpg. destruct (pg_addr pg Hpg) as [Hr _].
    destruct Hc as [(_ & _ & Hp1) | (_ & _ & Hp1)]; rewrite Hp1 by lia; [|done].
    cbn [kmap_pte]. by rewrite decide_False by lia. }
  cbn [map_kernel]. fold (kmap_size e). rewrite E1. cbn [rbind fst snd].
  destruct Hc as [(-> & Hl1 & Hp1) | (-> & Hl1 & Hp1)]; cbn [Z.ltb Z.compare].
  - destruct (IH st1 l1 Hu1 Hv) as (st2 & r & E2 & Hc). exists st2, r. split; [exact E2|].
    destruct Hc as [(l2 & -> & Hu2 & Hs2 & Hl2 & Hp2) | (-> & Hl2 & Hg)].
    + left. exists l2. split; [done|]. split; [done|]. split; [by eapply pt_step_trans|]. split; [lia|].
      intros va Hva. rewrite Hp2, Hp1 by done. done.
    + right. split; [done|]. split; [lia|]. by eapply given_back_step.
  - destruct (freevm_gives_back st1 pgdir ∅ l1 Hu1) as (st2 & -> & Hg). cbn [rbind].
    exists st2, 0. split; [done|]. right. split; [done|]. split; [lia|]. by eapply given_back_step.
Qed.

(** The table of the kernel, for an aligned [data] in the kernel's window. *)
Definition data_ok (data : Z) : Prop :=
  data mod 4096 = 0 ∧ KERNLINK < data < KERNBASE + PHYSTOP.

Lemma kmap_ok data : data_ok data → Forall entry_ok (kmap data) ∧ tables_needed (kmap data) ≤ 66.
Proof.
  intros [Ha Hr]. unfold KERNLINK, KERNBASE, PHYSTOP in Hr.
  assert (V2P data = data - 0x80000000) as Ed by (rewrite V2P_kern; unfold KERNBASE; lia).
  unfold kmap. change (V2P KERNLINK) with 0x100000. rewrite Ed.
  unfold KERNLINK, KERNBASE, PHYSTOP, EXTMEM, DEVSPACE. split.
  - repeat constructor; unfold kmap_size; cbn [virt phys_start phys_end perm PTE_W];
      rewrite ?u32_small by lia; first [lia | zlia | by vm_compute].
  - unfold tables_needed, entry_tables, kmap_size. cbn [foldr virt phys_start phys_end perm].
    change (u32 (0 - 4261412864)) with 33554432.
    rewrite !u32_small by lia. rewrite !Z.div_div by lia. zlia.
Qed.

(** User addresses are not mapped. *)
Lemma kmap_user data va : data_ok data → va < KERNBASE → kmap_pte (kmap data) va 0 = 0.
Proof.
  intros [Ha Hr] Hva. unfold KERNLINK, KERNBASE, PHYSTOP in *. unfold kmap. cbn [kmap_pte virt].
  unfold KERNLINK, KERNBASE, DEVSPACE. by rewrite !decide_False by lia.
Qed.

(** * setupkvm *)

(** The address space that [setupkvm] makes: no user page, the kernel's entries,
    the directory and the tables out of the free pages, nothing else written. *)
Record new_space (data : Z) (st : kst) (l : list Z) (st' : kst) (pgdir : Z) (l' : list Z) : Prop := {
  ns_uvm : uvm st' pgdir ∅ l';
  ns_pte : ∀ va, 0 ≤ va < 2 ^ 32 → pte_at (km st') pgdir va = kmap_pte (kmap data) va 0;
  ns_used : ∃ used, l = used ++ l' ∧ (length used ≤ 67)%nat ∧
    ∀ q, pt_page (km st') pgdir q ↔ q ∈ used;
  ns_mem : ∀ q x, page_ok q → q ∉ l → inr_ q PGSIZE x → ld8 (km st') x = ld8 (km st) x;
  ns_log : klog st' = klog st
}.

Lemma zeroed_dir st p l :
  free_pages st (p :: l) →
  ∃ st1, kalloc st = (st1, p) ∧
    let st2 := set_km st1 (memset (km st1) p 0 PGSIZE) in
    pt_wf st2 p l ∧ page_ok p ∧ klog st2 = klog st ∧
    (∀ i, 0 ≤ i < 1024 → pde_of (km st2) p i = 0) ∧
    (∀ q x, page_ok q → q ≠ p → inr_ q PGSIZE x → ld8 (km st2) x = ld8 (km st) x).
Proof.
  intros Hf. destruct (kalloc_cons st p l Hf) as (st1 & E & Ekm & Hf1 & Hp & Hpl & Hlog).
  exists st1. split; [done|]. cbv zeta. cbn [km set_km klog]. rewrite Ekm.
  assert (∀ q x, page_ok q → q ≠ p → inr_ q PGSIZE x → ld8 (memset (km st) p 0 PGSIZE) x = ld8 (km st) x) as Hk.
  { intros q x Hq Hne Hx. by apply (memset_page_ne (km st) p q). }
  assert (∀ i, 0 ≤ i < 1024 → pde_of (memset (km st) p 0 PGSIZE) p i = 0) as H0.
  { intros i Hi. unfold pde_of. by apply ld32_memset_zero. }
  split; [|done]. apply pt_wf_empty; [|done..].
  apply free_pages_frame with st1; [done| |done]. cbn [km set_km]. rewrite Ekm.
  intros q x Hq Hqok Hx. apply (Hk q x); [done | by intros -> | done].
Qed.

Lemma pte_at_no_table m pgdir va : pde_of m pgdir (PDX va) = 0 → pte_at m pgdir va = 0.
Proof. intros E. unfold pte_at. by rewrite E. Qed.

Lemma kmap_high data : data_ok data → Forall (λ e, KERNBASE ≤ virt e) (kmap data).
Proof.
  intros [_ Hr]. unfold KERNLINK, KERNBASE, PHYSTOP in *.
  repeat constructor; cbn [virt]; unfold KERNLINK, KERNBASE, DEVSPACE; lia.
Qed.

(** [setupkvm] makes the space, or gives back what it took and answers 0, which
    it only does when fewer than 67 pages are free. *)
Lemma setupkvm_any st l data :
  free_pages st l → data_ok data →
  ∃ st' r, setupkvm st data = Ok (st', r) ∧
    ((∃ l', page_ok r ∧ new_space data st l st' r l') ∨
     r = 0 ∧ (length l < 67)%nat ∧ given_back st (λ q, q ∈ l) st').
Proof.
  intros Hf Hd. unfold setupkvm. destruct l as [|p l].
  { rewrite kalloc_nil by done. exists st, 0. split; [done|]. right. split; [done|].
    split; [cbn; lia|]. exists []. by split. }
  destruct (zeroed_dir st p l Hf) as (st1 & E & Hwf & Hp & Hlog & H0 & Hk).
  set (st2 := set_km st1 (memset (km st1) p 0 PGSIZE)) in *.
  assert (∀ va, pte_at (km st2) p va = 0) as Hz by (intros va; apply pte_at_no_table, H0, PDX_range).
  assert (∀ q, pt_page (km st2) p q ↔ q = p) as Hroot.
  { intros q. split; [|intros ->; by left]. intros [->|(i & Hi & Ei & _)]; [done|]. by rewrite H0 in Ei. }
  assert (∀ q, owned st2 p ∅ l q ↔ q ∈ p :: l) as Hown.
  { intros q. unfold owned. rewrite Hroot, elem_of_cons. split; [|tauto].
    intros [?|[(j & Ej)|?]]; [by right | by rewrite lookup_empty in Ej | by left]. }
  assert (uvm st2 p ∅ l) as Hu.
  { split; [done | | |]; [intros pg q Eq; by rewrite lookup_empty in Eq | intros pg _ _; by rewrite Hz
    | intros i j q Eq; by rewrite lookup_empty in Eq]. }
  destruct (kmap_ok data Hd) as [Hok Hn].
  destruct (map_kernel_spec (kmap data) st2 p l Hu Hok (kmap_high data Hd)) as (st3 & r & E3 & Hc).
  exists st3, r. rewrite E, (proj2 (Z.eqb_neq p 0)) by (by apply page_ok_nonzero). split; [exact E3|].
  destruct Hc as [(l3 & -> & Hu3 & Hs & Hl & Hpte) | (-> & Hl & l' & Hf' & Hin & Hk')].
  - left. exists l3. split; [done|]. destruct (pts_used _ _ _ _ _ Hs) as (used & -> & Hiff). split.
    + done.
    + intros va Hva. by rewrite Hpte, Hz.
    + exists (p :: used). split; [done|]. rewrite length_app in *. split; [cbn; lia|].
      intros q. rewrite Hiff, Hroot, elem_of_cons. done.
    + intros q x Hq [Hqp Hql]%not_elem_of_cons Hx.
      rewrite (pts_frame _ _ _ _ _ Hs q x); [by apply (Hk q x) | done | | done].
      rewrite Hiff, Hroot. intros [?|Hin]; [done|]. apply Hql, elem_of_app. by left.
    + by rewrite (pts_log _ _ _ _ _ Hs).
  - right. split; [done|]. split; [cbn; lia|]. exists l'. split; [done|].
    split; [intros q; by rewrite Hin|]. intros q x Hq Hnq Hx. rewrite (Hk' q x); [| done | by rewrite Hown | done].
    apply (Hk q x); [done | | done]. intros ->. apply Hnq. left.
Qed.

Lemma setupkvm_spec st l data :
  free_pages st l → data_ok data → (67 ≤ length l)%nat →
  ∃ st' pgdir l', setupkvm st data = Ok (st', pgdir) ∧ page_ok pgdir ∧ new_space data st l st' pgdir l'.
Proof.
  intros Hf Hd Hlen. destruct (setupkvm_any st l data Hf Hd) as (st' & r & E & [(l' & Hp & Hn) | (_ & Hl & _)]); [|lia].
  by exists st', r, l'.
Qed.

(** C28. [setupkvm] with 67 free pages at hand makes an address space that maps
    every kernel address as the table [kmap] says, the last entry of the table
    that covers an address being the one that counts, and no user address; it
    only takes free pages and writes nowhere else. *)
Theorem setupkvm_maps st l data :
  free_pages st l → data_ok data → (67 ≤ length l)%nat →
  ∃ st' pgdir l', setupkvm st data = Ok (st', pgdir) ∧ page_ok pgdir ∧ new_space data st l st' pgdir l'.
Proof. apply setupkvm_spec. Qed.

(** 256 free pages. *)
Lemma setupkvm_maps_witness :
  ∃ st st' pgdir l', setupkvm st 0x80110000 = Ok (st', pgdir) ∧ uvm st' pgdir ∅ l' ∧
    pte_at (km st') pgdir 0x80234567 = 0x234003.
Proof.
  destruct (freerange_spec kst0 [] 0x80400000 0x80500000 ltac:(split; [done | constructor])
    ltac:(unfold KERNBASE; lia) ltac:(lia) ltac:(by intros p ?%elem_of_nil) 0x80400000 256%nat eq_refl eq_refl)
    as (st & _ & Hf & _).
  rewrite app_nil_r in Hf. exists st.
  destruct (setupkvm_maps st _ 0x80110000 Hf) as (st' & pgdir & l' & E & _ & Hn).
  - split; [reflexivity | unfold KERNLINK, KERNBASE, PHYSTOP; lia].
  - rewrite length_rev, length_page_run. lia.
  - exists st', pgdir, l'. split; [exact E|]. split; [exact (ns_uvm _ _ _ _ _ _ Hn)|].
    rewrite (ns_pte _ _ _ _ _ _ Hn) by lia. vm_compute. reflexivity.
Defined.

(** * Writes to a page beside the table *)

(** Only page [q] differs. *)
Definition page_only (q : Z) (st st' : kst) : Prop :=
  freelist st' = freelist st ∧
  ∀ p x, page_ok p → p ≠ q → inr_ p PGSIZE x → ld8 (km st') x = ld8 (km st) x.

Lemma page_only_trans q st1 st2 st3 : page_only q st1 st2 → page_only q st2 st3 → page_only q st1 st3.
Proof.
  intros [E1 H1] [E2 H2]. split; [congruence|]. intros p x Hp Hne Hx. by rewrite (H2 p x), (H1 p x).
Qed.

Lemma free_pages_page_only q st st' l : page_only q st st' → q ∉ l → free_pages st l → free_pages st' l.
Proof.
  intros [E Hk] Hq Hf. apply free_pages_frame with st; [done| |done].
  intros p x Hp Hpok Hx. apply (Hk p x); [done | by intros -> | done].
Qed.

Lemma uvm_page_only q st st' pgdir um l :
  page_only q st st' → q ∉ l → ¬ pt_page (km st) pgdir q → uvm st pgdir um l →
  uvm st' pgdir um l ∧ (∀ va, pte_at (km st') pgdir va = pte_at (km st) pgdir va) ∧
  (∀ q', pt_page (km st') pgdir q' ↔ pt_page (km st) pgdir q').
Proof.
  intros Ho Hl Hn Hu. pose proof (uv_wf _ _ _ _ Hu) as Hwf.
  assert (∀ p x, pt_page (km st) pgdir p → inr_ p PGSIZE x → ld8 (km st') x = ld8 (km st) x) as Hk.
  { intros p x Hp Hx. apply (proj2 Ho p x); [by eapply pt_page_ok | by intros -> | done]. }
  split; [|split; [by apply frame_pte_at | by apply frame_pt_page]].
  eapply uvm_frame; [exact Hwf | exact Hk | exact Hu | | |].
  - eapply free_pages_page_only; [done..|apply Hwf].
  - intros p Hp. by eapply pt_page_used.
  - intros j p Ej. by apply (uv_some _ _ _ _ Hu j p).
Qed.

Lemma ubyte_page_only q st st' um u :
  page_only q st st' → (∀ pg p, um !! pg = Some p → page_ok p ∧ p ≠ q) → ubyte st' um u = ubyte st um u.
Proof.
  intros [_ Hk] Hq. apply ubyte_kept; [done|]. intros p x E. destruct (Hq _ _ E). by apply Hk.
Qed.

(** A store inside a page. *)
Lemma page_only_mem q st m :
  page_ok q → (∀ x, ¬ inr_ q PGSIZE x → ld8 m x = ld8 (km st) x) → page_only q st (set_km st m).
Proof. intros Hq Hm. split; [done|]. intros p x Hp Hne Hx. apply Hm. by apply (page_ok_disjoint p q x). Qed.

Lemma page_only_st32 q st a v :
  page_ok q → q ≤ a → a + 4 ≤ q + PGSIZE → page_only q st (set_km st (st32 (km st) a v)).
Proof.
  intros Hq H1 H2. apply page_only_mem; [done|]. intros x Hx. apply ld8_st32_ne. unfold inr_ in *. lia.
Qed.

Lemma page_only_memset q st a c n :
  page_ok q → q ≤ a → 0 ≤ n → a + n ≤ q + PGSIZE → page_only q st (set_km st (memset (km st) a c n)).
Proof.
  intros Hq H1 H0 H2. apply page_only_mem; [done|]. intros x Hx.
  rewrite ld8_memset by done. rewrite decide_False; [done|]. unfold inr_ in *. lia.
Qed.

(** * inituvm *)

(** The program's image in kernel memory, beside the pages of [l]. *)
Definition image_ok (l : list Z) (image size : Z) : Prop :=
  0 ≤ size < PGSIZE ∧ 0 ≤ image ∧ image + size < 2 ^ 32 ∧
  ∀ x, inr_ image size x → ∃ q, page_ok q ∧ (q ∉ l) ∧ inr_ q PGSIZE x.

(** User page 0 holds the image, and zeros behind it. *)
Definition image_at (m : mem) (image size : Z) (st : kst) (um : gmap Z Z) : Prop :=
  ∀ u, 0 ≤ u < PGSIZE → ubyte st um u = Some (if decide (u < size) then ld8 m (image + u) else 0).

(** [mappages] of user page 0, where a page is left for the table. *)
Lemma map_first st pgdir p l :
  uvm st pgdir ∅ l → l ≠ [] → page_ok p → p ∉ l → ¬ pt_page (km st) pgdir p →
  ∃ st' l', mappages st pgdir 0 PGSIZE (V2P p) (Z.lor PTE_W PTE_U) = Ok (st', 0) ∧
    pt_step pgdir st l st' l' ∧ uvm st' pgdir {[0 := p]} l' ∧ uperm st' pgdir 0 = true ∧
    ∀ va, 4096 ≤ va < 2 ^ 32 → pte_at (km st') pgdir va = pte_at (km st) pgdir va.
Proof.
  intros Hu Hl Hp Hpl Hn. destruct (V2P_page p Hp) as [Ha Hr].
  destruct (uvm_map st pgdir 0 p ∅ l Hu) as (st' & r & l' & E & Hs & Hc); try done.
  change (4096 * 0) with 0 in E.
  destruct Hc as [(-> & Hu' & _ & Hperm & _) | (_ & ? & _)]; [|done].
  exists st', l'. split; [done|]. split; [done|]. split; [done|]. split; [done|].
  destruct (mappages_spec st pgdir 0 PGSIZE (V2P p) (Z.lor PTE_W PTE_U) l (uv_wf _ _ _ _ Hu)
    ltac:(lia) ltac:(done) ltac:(done) Ha ltac:(lia) ltac:(done) 0 1 eq_refl eq_refl ltac:(lia))
    as (st1 & r1 & E1 & l1 & _ & Hm). rewrite E in E1. injection E1 as <- <-.
  destruct Hm as [(_ & Hm & _)|(? & _)]; [|done].
  intros va Hva. rewrite Hm by lia. rewrite decide_False; [done|]. zlia.
Qed.

Lemma inituvm_spec st pgdir p l image size :
  uvm st pgdir ∅ (p :: l) → l ≠ [] → image_ok (p :: l) image size →
  (∀ q, pt_page (km st) pgdir q → ∀ x, inr_ image size x → ¬ inr_ q PGSIZE x) →
  ∃ st' l', inituvm st pgdir image size = Ok st' ∧ uvm st' pgdir {[0 := p]} l' ∧
    image_at (km st) image size st' {[0 := p]} ∧ klog st' = klog st ∧
    (∃ used, l = used ++ l') ∧
    (∀ va, 2 ^ 31 ≤ va < 2 ^ 32 → pte_at (km st') pgdir va = pte_at (km st) pgdir va) ∧
    (∀ q, pt_page (km st') pgdir q → pt_page (km st) pgdir q ∨ q ∈ l) ∧
    (∀ q x, page_ok q → q ∉ p :: l → ¬ pt_page (km st) pgdir q → inr_ q PGSIZE x →
       ld8 (km st') x = ld8 (km st) x).
Proof.
  intros Hu Hl (Hsz & Him0 & Him & Himg) Hpt. unfold inituvm.
  rewrite (proj2 (Z.leb_gt PGSIZE size)) by lia.
  destruct (uvm_kalloc st pgdir ∅ l p Hu) as (st1 & E & Hu2 & Hp & Hpl & Hn & _ & Hpt2 & Hpte2 & Hz & Hk).
  rewrite E, (proj2 (Z.eqb_neq p 0)) by (by apply page_ok_nonzero).
  assert (klog (set_km st1 (memset (km st1) p 0 PGSIZE)) = klog st) as Hlog2.
  { destruct (kalloc_cons st p l) as (st1' & E' & _ & _ & _ & _ & Hlog); [apply Hu|].
    rewrite E in E'. by injection E' as <-. }
  set (st2 := set_km st1 (memset (km st1) p 0 PGSIZE)) in *.
  destruct (map_first st2 pgdir p l Hu2 Hl Hp Hpl) as (st3 & l3 & E3 & Hs & Hu3 & Hperm & Hpte3);
    [by rewrite Hpt2|].
  rewrite E3. cbn [rbind fst snd]. destruct (pts_used _ _ _ _ _ Hs) as (used & El & Hiff).
  assert (∀ q x, page_ok q → q ∉ p :: l → ¬ pt_page (km st) pgdir q → inr_ q PGSIZE x →
    ld8 (km st3) x = ld8 (km st) x) as Hk3.
  { intros q x Hq [Hqp Hql]%not_elem_of_cons Hnq Hx. rewrite (pts_frame _ _ _ _ _ Hs q x Hq); [by apply (Hk q x) | | done].
    rewrite Hiff, Hpt2. intros [?|Hin]; [done|]. apply Hql. rewrite El. apply elem_of_app. by left. }
  assert (¬ pt_page (km st3) pgdir p) as Hn3.
  { rewrite Hiff, Hpt2. intros [?|Hin]; [done|]. apply Hpl. rewrite El. apply elem_of_app. by left. }
  set (st4 := set_km st3 (memmove (km st3) p image size)).
  assert (page_only p st3 st4) as Ho.
  { apply page_only_mem; [done|]. intros x Hx. rewrite ld8_memmove by lia. rewrite decide_False; [done|].
    unfold inr_ in *. lia. }
  destruct (uvm_page_only p st3 st4 pgdir {[0 := p]} l3 Ho) as (Hu4 & Hpte4 & Hpt4); [ | done | done | ].
  { rewrite El in Hpl. intros Hin. apply Hpl, elem_of_app. by right. }
  exists st4, l3. split; [done|]. split; [done|].
  assert (∀ x, inr_ image size x → ld8 (km st3) x = ld8 (km st) x) as Hsrc.
  { intros x Hx. destruct (Himg x Hx) as (q & Hq & Hql & Hxq). apply (Hk3 q x); [done | done | | done].
    intros Hpq. by apply (Hpt q Hpq x Hx). }
  split; [|split; [|split; [|split; [|split]]]].
  - intros u Hu0. unfold PGSIZE in Hu0. unfold ubyte. rewrite Z.div_small, Z.mod_small by lia.
    rewrite lookup_singleton_eq. unfold st4. cbn [fmap option_fmap option_map km set_km]. f_equal.
    rewrite ld8_memmove by lia.
    destruct (decide (u < size)) as [Hlt|Hge].
    + rewrite decide_True by (unfold inr_; lia). rewrite Hsrc by (unfold inr_; lia). f_equal. lia.
    + rewrite decide_False by (unfold inr_; lia).
      assert (inr_ p PGSIZE (p + u)) as Hin by (unfold inr_, PGSIZE; lia).
      rewrite (pts_frame _ _ _ _ _ Hs p _ Hp Hn3 Hin). by apply Hz.
  - change (klog st3 = klog st). by rewrite (pts_log _ _ _ _ _ Hs).
  - by exists used.
  - intros va Hva. rewrite Hpte4, Hpte3, Hpte2 by lia. done.
  - intros q. rewrite Hpt4, Hiff, Hpt2, El, elem_of_app. tauto.
  - intros q x Hq Hql Hnq Hx. rewrite (proj2 Ho q x) by (done || (intros ->; apply Hql; left)). by apply (Hk3 q x).
Qed.
