(* ===== verification/Kernel.v ===== *)
(** include/proc.h, kernel/proc.c: processes, and the state of the kernel that
    the system calls act on.  A trap frame is in kernel memory, at the address
    the process keeps. *)
From S2P Require Import Prelude Memory LibC Mmu Kalloc Vm UserMem Seg Ide Block FsLayout Fs FsDir File.

Inductive procstate := UNUSED | EMBYRO | SLEEPING | RUNNABLE | RUNNING.
#[export] Instance procstate_eq_dec : EqDecision procstate.
Proof. solve_decision. Defined.

(** [struct proc]; [chan] and [killed] are not used by any function. *)
Record proc := mk_proc {
  p_sz : Z; p_pgdir : Z; p_kstack : Z; p_state : procstate; p_pid : Z; p_parent : option nat;
  p_tf : Z; p_context : Z; p_ofile : list (option nat); p_cwd : option nat; p_name : list Z
}.

Definition NPROC : nat := 64.
Definition NOFILE : nat := 16.
Definition proc0 : proc :=
  mk_proc 0 0 0 UNUSED 0 None 0 0 (replicate NOFILE None) None (replicate 16 0).
#[export] Instance proc_inhabited : Inhabited proc := populate proc0.

(** The offsets of the fields of [registers_t] that the kernel uses. *)
Definition TF_EAX : Z := 28.
Definition TF_DS : Z := 32.
Definition TF_ES : Z := 36.
Definition TF_INT_NO : Z := 48.
Definition TF_EIP : Z := 56.
Definition TF_CS : Z := 60.
Definition TF_EFLAGS : Z := 64.
Definition TF_ESP : Z := 68.
Definition TF_SS : Z := 72.
Definition TF_SIZE : Z := 76.

(** The kernel: open files over the file system, memory with what was printed,
    the process table, the descriptor table with the stack fields of the task
    state, the page directory register, the first call of [forkret] to come. *)
Record kern (S : Type) := mk_kern {
  k_io : fio S; k_vm : kst; ptable : list proc; curproc : option nat; initproc : option nat;
  nextpid : Z; k_gdt : list segdesc; k_esp0 : Z; k_ss0 : Z; k_cr3 : Z; k_first : bool
}.
Arguments mk_kern {S} _ _ _ _ _ _ _ _ _ _ _.
Arguments k_io {S} _.
Arguments k_vm {S} _.
Arguments ptable {S} _.
Arguments curproc {S} _.
Arguments initproc {S} _.
Arguments nextpid {S} _.
Arguments k_gdt {S} _.
Arguments k_esp0 {S} _.
Arguments k_ss0 {S} _.
Arguments k_cr3 {S} _.
Arguments k_first {S} _.

Definition pset_state (p : proc) (v : procstate) : proc :=
  mk_proc (p_sz p) (p_pgdir p) (p_kstack p) v (p_pid p) (p_parent p) (p_tf p) (p_context p)
    (p_ofile p) (p_cwd p) (p_name p).
Definition pset_ofile (p : proc) (fd : nat) (v : option nat) : proc :=
  mk_proc (p_sz p) (p_pgdir p) (p_kstack p) (p_state p) (p_pid p) (p_parent p) (p_tf p) (p_context p)
    (<[fd := v]> (p_ofile p)) (p_cwd p) (p_name p).
Definition pset_cwd (p : proc) (v : option nat) : proc :=
  mk_proc (p_sz p) (p_pgdir p) (p_kstack p) (p_state p) (p_pid p) (p_parent p) (p_tf p) (p_context p)
    (p_ofile p) v (p_name p).
Definition pset_parent (p : proc) (v : option nat) : proc :=
  mk_proc (p_sz p) (p_pgdir p) (p_kstack p) (p_state p) (p_pid p) v (p_tf p) (p_context p)
    (p_ofile p) (p_cwd p) (p_name p).
Definition pset_tf (p : proc) (v : Z) : proc :=
  mk_proc (p_sz p) (p_pgdir p) (p_kstack p) (p_state p) (p_pid p) (p_parent p) v (p_context p)
    (p_ofile p) (p_cwd p) (p_name p).
Definition pset_mem (p : proc) (sz pgdir : Z) : proc :=
  mk_proc sz pgdir (p_kstack p) (p_state p) (p_pid p) (p_parent p) (p_tf p) (p_context p)
    (p_ofile p) (p_cwd p) (p_name p).
Definition pset_name (p : proc) (v : list Z) : proc :=
  mk_proc (p_sz p) (p_pgdir p) (p_kstack p) (p_state p) (p_pid p) (p_parent p) (p_tf p) (p_context p)
    (p_ofile p) (p_cwd p) v.
Definition pset_stack (p : proc) (pid kstack tf context : Z) : proc :=
  mk_proc (p_sz p) (p_pgdir p) kstack (p_state p) pid (p_parent p) tf context
    (p_ofile p) (p_cwd p) (p_name p).

(** [safestrcpy(dst, t, n)] on arrays: the characters that fit, a terminating 0,
    and the 0 of a string that ends early, which is stored twice. *)
Definition safestrcpy_bytes (dst t : list Z) (n : nat) : list Z :=
  if (length t <? n - 1)%nat then splice dst 0 (t ++ [0; 0]) else splice dst 0 (take (n - 1) t ++ [0]).

Section kernel.
Context {S : Type} `{BlockOps S}.
Implicit Types (k : kern S) (p : nat).

Definition set_io k (y : fio S) : kern S :=
mk_kern y (k_vm k) (ptable k) (curproc k) (initproc k) (nextpid k) (k_gdt k) (k_esp0 k) (k_ss0 k)
(k_cr3 k) (k_first k).
Definition set_vm k (st : kst) : kern S :=
mk_kern (k_io k) st (ptable k) (curproc k) (initproc k) (nextpid k) (k_gdt k) (k_esp0 k) (k_ss0 k)
(k_cr3 k) (k_first k).
Definition set_procs k (ps : list proc) : kern S :=
mk_kern (k_io k) (k_vm k) ps (curproc k) (initproc k) (nextpid k) (k_gdt k) (k_esp0 k) (k_ss0 k)
(k_cr3 k) (k_first k).
Definition set_cur k (c : option nat) : kern S :=
mk_kern (k_io k) (k_vm k) (ptable k) c (initproc k) (nextpid k) (k_gdt k) (k_esp0 k) (k_ss0 k)
(k_cr3 k) (k_first k).
Definition set_init k (c : option nat) : kern S :=
mk_kern (k_io k) (k_vm k) (ptable k) (curproc k) c (nextpid k) (k_gdt k) (k_esp0 k) (k_ss0 k)
(k_cr3 k) (k_first k).
Definition set_nextpid k (v : Z) : kern S :=
mk_kern (k_io k) (k_vm k) (ptable k) (curproc k) (initproc k) v (k_gdt k) (k_esp0 k) (k_ss0 k)
(k_cr3 k) (k_first k).
Definition set_cpu k (gdt : list segdesc) (esp0 ss0 cr3 : Z) : kern S :=
mk_kern (k_io k) (k_vm k) (ptable k) (curproc k) (initproc k) (nextpid k) gdt esp0 ss0 cr3 (k_first k).
Definition set_first k (v : bool) : kern S :=
mk_kern (k_io k) (k_vm k) (ptable k) (curproc k) (initproc k) (nextpid k) (k_gdt k) (k_esp0 k)
(k_ss0 k) (k_cr3 k) v.

Definition kfs k : fsys S := y_fs (k_io k).
Definition set_kfs k (fs : fsys S) : kern S := set_io k (set_fs (k_io k) fs).
Definition kmsg k (msg : string) : kern S := set_vm k (kprint (k_vm k) msg).
Definition procp k p : proc := ptable k !!! p.
Definition upd_proc k p (f : proc → proc) : kern S := set_procs k (alter f p (ptable k)).

(** Words of a trap frame. *)
Definition tf_get k p (off : Z) : Z := ld32 (km (k_vm k)) (p_tf (procp k p) + off).
Definition tf_set k p (off v : Z) : kern S :=
set_vm k (set_km (k_vm k) (st32 (km (k_vm k)) (p_tf (procp k p) + off) v)).

(** [getcurproc()], where the caller follows the pointer. *)
Definition cur k : res nat := match curproc k with Some p => Ok p | None => Fault end.

(** The directory that [namex] starts from: [getcurproc()->cwd] is only followed
for a path that does not start with '/'. *)
Definition path_cwd k (path : list Z) : res nat :=
if negb (at_end path) && (zget path 0 =? SLASH) then Ok 0%nat
else
let* p := cur k in
match p_cwd (procp k p) with Some c => Ok c | None => Fault end.

(** [namei] and [nameiparent] in the current process. *)
Definition namei_cur k (path junk : list Z) : res (kern S * option nat) :=
let* cwd := path_cwd k path in
let* r := namei (kfs k) cwd path junk in
Ok (set_kfs k r.1, r.2).
Definition nameiparent_cur k (path name : list Z) : res (kern S * option nat * list Z) :=
let* cwd := path_cwd k path in
let* r := nameiparent (kfs k) cwd path name in
Ok (set_kfs k r.1.1, r.1.2, r.2).

(** [ts_addr] is the address of [ts]; its size is 104. *)
Definition switchuvm k (ts_addr : Z) (p : option nat) : res (kern S) :=
match p with
| None => Fault
| Some p =>
  let x := procp k p in
  let k := if p_kstack x =? 0 then kmsg k "switchuvm: no kstack" else k in
  let k := if p_pgdir x =? 0 then kmsg k "switchuvm: no pgdir" else k in
  let gdt := <[SEG_TSS := set_s (SEG16 STS_T32A ts_addr (104 - 1) 0) 0]> (k_gdt k) in
  Ok (set_cpu k gdt (u32 (p_kstack x + 4096)) (Z.of_nat SEG_KDATA * 8) (V2P (p_pgdir x)))
end.

(** * kernel/proc.c *)

(** [allocproc]: the loop looks at the same slot, the first, at every turn.
[trapret] and [forkret] are the addresses of the entry points. *)
Definition allocproc k (trapret forkret : Z) : kern S * option nat :=
let p := 0%nat in
if decide (p_state (procp k p) = UNUSED) then
let k := upd_proc k p (λ x, pset_state x EMBYRO) in
let pid := nextpid k in
let k := set_nextpid k (s32 (pid + 1)) in
let '(st, kstack) := kalloc (k_vm k) in
let k := set_vm k st in
if kstack =? 0 then
  (upd_proc k p (λ x, pset_state (pset_stack x pid 0 (p_tf x) (p_context x)) UNUSED), None)
else
  let sp := kstack + 4096 - TF_SIZE in
  let tf := sp in
  let sp := sp - 4 in
  let m := st32 (km (k_vm k)) sp trapret in
  let sp := sp - 20 in
  let m := memset m sp 0 20 in
  let m := st32 m (sp + 16) forkret in
  (upd_proc (set_vm k (set_km (k_vm k) m)) p (λ x, pset_stack x pid kstack tf sp), Some p)
else (k, None).

(** The next process that [scheduler] switches to, from slot [p] on. *)
Fixpoint next_runnable (ps : list proc) (p : nat) : option nat :=
match ps with
| [] => None
| x :: ps' => if decide (p_state x = RUNNABLE) then Some p else next_runnable ps' (p + 1)
end.

(** [scheduler] up to the [swtch] that runs the process; a process that is
never switched away from does not come back. *)
Definition scheduler k (ts_addr : Z) : res (kern S * option nat) :=
match next_runnable (ptable k) 0 with
| None => Ok (k, None)
| Some p =>
  let* k := switchuvm k ts_addr (Some p) in
  let k := upd_proc k p (λ x, pset_state x RUNNING) in
  Ok (set_cur k (Some p), Some p)
end.

(** [uinit] up to the call of [isr_install], which is in Start; [image] is [_binary_init_start],
[data] the end of the kernel's read-only part. *)
Definition uinit_proc k (trapret forkret data image size : Z) : res (kern S) :=
let '(k, p) := allocproc k trapret forkret in
let k := set_init k p in
match p with
| None => Fault
| Some p =>
  let* r := setupkvm (k_vm k) data in
  let k := set_vm k r.1 in
  let k := upd_proc k p (λ x, pset_mem x (p_sz x) r.2) in
  let k := if r.2 =? 0 then kmsg k "userinit: out of memory?" else k in
  let* st := inituvm (k_vm k) (p_pgdir (procp k p)) image size in
  let k := set_vm k st in
  let k := upd_proc k p (λ x, pset_mem x PGSIZE (p_pgdir x)) in
  let k := set_vm k (set_km (k_vm k) (memset (km (k_vm k)) (p_tf (procp k p)) 0 TF_SIZE)) in
  let k := tf_set k p TF_CS (Z.lor (Z.of_nat SEG_UCODE * 8) DPL_USER) in
  let k := tf_set k p TF_DS (Z.lor (Z.of_nat SEG_UDATA * 8) DPL_USER) in
  let k := tf_set k p TF_ES (tf_get k p TF_DS) in
  let k := tf_set k p TF_SS (tf_get k p TF_DS) in
  let k := tf_set k p TF_EFLAGS 0x200 in
  let k := tf_set k p TF_ESP PGSIZE in
  let k := tf_set k p TF_EIP 0 in
  let k := upd_proc k p (λ x, pset_name x (safestrcpy_bytes (p_name x) [105; 110; 105; 116] 16)) in
  let* r := namei_cur k [SLASH] (replicate DIRSIZ 0) in
  let k := upd_proc r.1 p (λ x, pset_cwd x r.2) in
  let k := upd_proc k p (λ x, pset_state x RUNNABLE) in
  Ok (kmsg k "initialized:get proc:%x ;pggir addr:%x")
end.

Definition forkret k : res (kern S) :=
if k_first k then
let k := set_first k false in
let* fs := iinit (kfs k) ROOTDEV in Ok (set_kfs k fs)
else Ok k.

(** The loop of [exit] over the descriptors, [n] being left. *)
Fixpoint close_all k p (fd n : nat) : res (kern S) :=
match n with
| O => Ok k
| Datatypes.S n' =>
  match p_ofile (procp k p) !!! fd with
  | None => close_all k p (fd + 1) n'
  | Some f =>
      let* y := fileclose (k_io k) f in
      close_all (upd_proc (set_io k y) p (λ x, pset_ofile x fd None)) p (fd + 1) n'
  end
end.

Definition exit k : res (kern S) :=
let* p := cur k in
let k := if decide (Some p = initproc k) then kmsg k "init exiting" else k in
let* k := close_all k p 0 NOFILE in
match p_cwd (procp k p) with
| None => Fault
| Some cwd =>
  let* fs := iput (kfs k) cwd in
  let k := set_kfs k fs in
  let k := upd_proc k p (λ x, pset_cwd x None) in
  Ok (set_procs k
    ((λ x, if decide (p_parent x = Some p) then pset_parent x (initproc k) else x) <$> ptable k))
end.
End kernel.
