(* ===== verification/FirstProc.v ===== *)
(** kernel/proc.c: the making of the first process by [uinit]: its kernel stack,
    its address space with the image of the first program, its trap frame, its
    directory. *)
From S2P Require Import Prelude Memory LibC Mmu Kalloc Vm UserMem Uvm UvmProps Kvm Seg Ide Block FsLayout Fs FsDir.
From S2P Require Import FsPath File Kernel.

(** The words that [uinit] leaves in the trap frame at [tf], and on the kernel
    stack below it: [swtch] returns to [forkret], which returns to [trapret]. *)
Record first_frame (m : mem) (tf trapret forkret : Z) : Prop := {
  ff_eip : ld32 m (tf + TF_EIP) = 0;
  ff_esp : ld32 m (tf + TF_ESP) = PGSIZE;
  ff_cs : ld32 m (tf + TF_CS) = Z.of_nat SEG_UCODE * 8 + DPL_USER;
  ff_ds : ld32 m (tf + TF_DS) = Z.of_nat SEG_UDATA * 8 + DPL_USER;
  ff_es : ld32 m (tf + TF_ES) = Z.of_nat SEG_UDATA * 8 + DPL_USER;
  ff_ss : ld32 m (tf + TF_SS) = Z.of_nat SEG_UDATA * 8 + DPL_USER;
  ff_eflags : ld32 m (tf + TF_EFLAGS) = 0x200;
  ff_eax : ld32 m (tf + TF_EAX) = 0;
  ff_ret : ld32 m (tf - 4) = u32 trapret;
  ff_ctx : ld32 m (tf - 24 + 16) = u32 forkret
}.

(** The process of [uinit], on the kernel stack [s], with the directory [ip]. *)
Definition first_proc (x : proc) (pid s pgdir : Z) (ip : nat) : proc :=
  mk_proc PGSIZE pgdir s RUNNABLE pid (p_parent x) (s + 4096 - TF_SIZE) (s + 4096 - TF_SIZE - 24)
    (p_ofile x) (Some ip) (safestrcpy_bytes (p_name x) [105; 110; 105; 116] 16).

(** Its memory: the space, the image, the stack page [s], beside free pages [l]. *)
Record first_space (m0 : mem) (data image size : Z) (st : kst) (s pgdir pg : Z) (l : list Z) : Prop := {
  fs_stack : page_ok s ∧ (s ∉ l) ∧ ¬ pt_page (km st) pgdir s ∧ s ≠ pg;
  fs_uvm : uvm st pgdir {[0 := pg]} l;
  fs_image : image_at m0 image size st {[0 := pg]};
  fs_kernel : ∀ va, KERNBASE ≤ va < 2 ^ 32 → pte_at (km st) pgdir va = kmap_pte (kmap data) va 0
}.

(** * The kernel stack *)

Lemma stack_page st s l tr fr :
  free_pages st (s :: l) →
  ∃ st1, kalloc st = (st1, s) ∧
    let tf := s + 4096 - TF_SIZE in
    let m := st32 (memset (st32 (km st1) (tf - 4) tr) (tf - 4 - 20) 0 20) (tf - 4 - 20 + 16) fr in
    free_pages (set_km st1 m) l ∧ page_ok s ∧ (s ∉ l) ∧ klog (set_km st1 m) = klog st ∧
    ld32 m (tf - 4) = u32 tr ∧ ld32 m (tf - 24 + 16) = u32 fr ∧
    ∀ q x, page_ok q → q ≠ s → inr_ q PGSIZE x → ld8 m x = ld8 (km st) x.
Proof.
  intros Hf. destruct (kalloc_cons st s l Hf) as (st1 & E & Ekm & Hf1 & Hp & Hl & Hlog).
  exists st1. split; [done|]. cbv zeta. unfold TF_SIZE. set (tf := s + 4096 - 76).
  set (m1 := st32 (km st1) (tf - 4) tr). set (m2 := memset m1 (tf - 4 - 20) 0 20).
  set (m3 := st32 m2 (tf - 4 - 20 + 16) fr).
  assert (page_only s st1 (set_km st1 m3)) as Ho.
  { apply (page_only_trans s st1 (set_km st1 m1)); [apply page_only_st32; unfold tf, PGSIZE; (done || lia)|].
    apply (page_only_trans s _ (set_km st1 m2));
      [exact (page_only_memset s (set_km st1 m1) (tf - 4 - 20) 0 20 Hp ltac:(unfold tf; lia) ltac:(lia) ltac:(unfold tf, PGSIZE; lia))|].
    exact (page_only_st32 s (set_km st1 m2) (tf - 4 - 20 + 16) fr Hp ltac:(unfold tf; lia) ltac:(unfold tf, PGSIZE; lia)). }
  split; [by eapply free_pages_page_only|]. split; [done|]. split; [done|]. split; [done|].
  split; [|split].
  - unfold m3. rewrite ld32_st32_ne by lia. unfold m2.
    rewrite (ld32_ext _ m1); [apply ld32_st32_eq|]. intros x Hx. rewrite ld8_memset by lia.
    rewrite decide_False; [done|]. unfold inr_ in *. lia.
  - unfold m3. replace (tf - 24 + 16) with (tf - 4 - 20 + 16) by lia. apply ld32_st32_eq.
  - intros q x Hq Hne Hx. rewrite <- Ekm. by apply (proj2 Ho q x).
Qed.

(** The trap frame, stored word by word. *)
Definition frame_stores (m : mem) (tf : Z) : mem :=
  let m := memset m tf 0 TF_SIZE in
  let m := st32 m (tf + TF_CS) (Z.lor (Z.of_nat SEG_UCODE * 8) DPL_USER) in
  let m := st32 m (tf + TF_DS) (Z.lor (Z.of_nat SEG_UDATA * 8) DPL_USER) in
  let m := st32 m (tf + TF_ES) (ld32 m (tf + TF_DS)) in
  let m := st32 m (tf + TF_SS) (ld32 m (tf + TF_DS)) in
  let m := st32 m (tf + TF_EFLAGS) 0x200 in
  let m := st32 m (tf + TF_ESP) PGSIZE in
  st32 m (tf + TF_EIP) 0.

Lemma frame_outside m tf x : ¬ inr_ tf TF_SIZE x → ld8 (frame_stores m tf) x = ld8 m x.
Proof.
  intros Hx. unfold frame_stores, inr_, TF_SIZE in *.
  rewrite !ld8_st32_ne by (unfold inr_, TF_CS, TF_DS, TF_ES, TF_SS, TF_EFLAGS, TF_ESP, TF_EIP; lia).
  rewrite ld8_memset by lia. by rewrite decide_False.
Qed.

Lemma frame_first m tf tr fr :
  ld32 m (tf - 4) = u32 tr → ld32 m (tf - 24 + 16) = u32 fr → first_frame (frame_stores m tf) tf tr fr.
Proof.
  intros H1 H2.
  assert (∀ a, a + 4 ≤ tf → ld32 (frame_stores m tf) a = ld32 m a) as Hbelow.
  { intros a Ha. apply ld32_ext. intros x Hx. apply frame_outside. unfold inr_ in *. lia. }
  split; try (rewrite Hbelow by lia; done); unfold frame_stores, TF_SIZE, TF_EIP, TF_ESP, TF_CS, TF_DS, TF_ES,
    TF_SS, TF_EFLAGS, TF_EAX; rewrite ?ld32_st32_eq; repeat (rewrite ld32_st32_ne by lia; rewrite ?ld32_st32_eq); try done.
  unfold ld32. rewrite !ld8_memset by lia. rewrite !decide_True by (unfold inr_; lia). done.
Qed.

Section uinit.
Context {S : Type} `{BlockOps S}.
Implicit Types (k : kern S).

Lemma namei_root (fs fs' : fsys S) cwd junk ip :
iget fs ROOTDEV ROOTINO = Ok (fs', ip) → namei fs cwd [SLASH] junk = Ok (fs', Some ip).
Proof.
intros E. unfold namei. rewrite namex_spec by (cbn; lia). cbv iota. rewrite Z.eqb_refl, E.
reflexivity.
Qed.

(** The memory of [uinit] up to the trap frame. *)
Lemma uinit_space st st1 s l data image size :
free_pages st1 l → page_ok s → s ∉ l → (∀ q x, page_ok q → q ≠ s → inr_ q PGSIZE x → ld8 (km st1) x = ld8 (km st) x) →
data_ok data → (69 ≤ length l)%nat → image_ok (s :: l) image size →
∃ st2 pgdir st3 pg l', setupkvm st1 data = Ok (st2, pgdir) ∧ page_ok pgdir ∧
  inituvm st2 pgdir image size = Ok st3 ∧ first_space (km st) data image size st3 s pgdir pg l' ∧
  klog st3 = klog st1 ∧ (∃ used, l = used ++ l') ∧
  (∀ x, inr_ s PGSIZE x → ld8 (km st3) x = ld8 (km st1) x).
Proof.
intros Hf Hs Hsl Hk Hd Hlen (Hsz & Him0 & Him & Himg).
destruct (setupkvm_spec st1 l data Hf Hd) as (st2 & pgdir & l2 & E2 & Hpd & [Hu Hpte (used & El & Hul & Hused) Hmem Hlog]); [lia|].
destruct l2 as [|pg l2]; [rewrite El, length_app in Hlen; cbn in Hlen; lia|].
assert (l2 ≠ []) as Hne by (intros ->; rewrite El, length_app in Hlen; cbn in Hlen; lia).
assert (∀ q, pt_page (km st2) pgdir q → q ∈ l) as Hpl
  by (intros q Hq%Hused; rewrite El; apply elem_of_app; by left).
assert (∀ q, q ∈ pg :: l2 → q ∈ l) as Hsub by (intros q Hq; rewrite El; apply elem_of_app; by right).
assert (¬ pt_page (km st2) pgdir s) as Hns by (intros Hq; by apply Hsl, Hpl).
assert (∀ x, inr_ image size x → ld8 (km st2) x = ld8 (km st) x) as Hsrc.
{ intros x Hx. destruct (Himg x Hx) as (q & Hq & [Hqs Hql]%not_elem_of_cons & Hxq).
  rewrite (Hmem q x), (Hk q x) by done. done. }
destruct (inituvm_spec st2 pgdir pg l2 image size Hu) as (st3 & l3 & E3 & Hu3 & Hi3 & Hlog3 & (u3 & Eu3) & Hpte3 & Hpt3 & Hk3).
{ done. }
{ split; [done|]. split; [done|]. split; [done|]. intros x Hx. destruct (Himg x Hx) as (q & Hq & [Hqs Hql]%not_elem_of_cons & Hxq).
  exists q. split; [done|]. split; [|done]. intros Hin. by apply Hql, Hsub. }
{ intros q Hq x Hx Hxq. destruct (Himg x Hx) as (q' & Hq' & [Hqs Hql]%not_elem_of_cons & Hxq').
  assert (page_ok q) as Hqok by (by eapply pt_page_ok; [apply Hu|]).
  apply (page_ok_disjoint q q' x Hqok Hq'); [|done|done]. intros ->. by apply Hql, Hpl. }
assert (pg ≠ s) as Hpgs by (intros ->; apply Hsl, Hsub; left).
exists st2, pgdir, st3, pg, l3. split; [done|]. split; [done|]. split; [done|]. split; [|split; [|split]].
- split.
  + split; [done|]. split; [|split; [|done]].
    * intros Hin. apply Hsl, Hsub. right. rewrite Eu3. apply elem_of_app. by right.
    * intros [Hq|Hq]%Hpt3; [done|]. apply Hsl, Hsub. by right.
  + done.
  + intros u Hu0. rewrite Hi3 by done. destruct (decide (u < size)); [|done]. rewrite Hsrc; [done|]. unfold inr_. lia.
  + intros va Hva. unfold KERNBASE in Hva. rewrite Hpte3, Hpte by lia. done.
- congruence.
- exists (used ++ pg :: u3). rewrite El, Eu3, <- app_assoc. done.
- intros x Hx. rewrite (Hk3 s x), (Hmem s x); [done | done | done | done | done | | done | done].
  intros [?|Hin]%elem_of_cons; [done|]. apply Hsl, Hsub. by right.
Qed.

Lemma namei_cur_root k fs' junk ip :
iget (kfs k) ROOTDEV ROOTINO = Ok (fs', ip) → namei_cur k [SLASH] junk = Ok (set_kfs k fs', Some ip).
Proof. intros E. unfold namei_cur. change (path_cwd k [SLASH]) with (Ok 0%nat). cbn [rbind]. by rewrite (namei_root _ fs' _ _ ip). Qed.

(** The frame is in the stack page, so the space stays as it is. *)
Lemma first_space_frame m data image size st s pgdir pg l tf :
first_space m data image size st s pgdir pg l → tf = s + 4096 - TF_SIZE →
first_space m data image size (set_km st (frame_stores (km st) tf)) s pgdir pg l.
Proof.
intros [(Hs & Hsl & Hn & Hne) Hu Hi Hk] ->. set (st' := set_km st _).
assert (page_only s st st') as Ho.
{ apply page_only_mem; [done|]. intros x Hx. apply frame_outside. unfold inr_, TF_SIZE, PGSIZE in *. lia. }
destruct (uvm_page_only s st st' pgdir _ l Ho Hsl Hn Hu) as (Hu' & Hpte & Hpt).
split; [by rewrite Hpt | done | |].
- intros u Hu0. rewrite (ubyte_page_only s st st') by (done ||
    (intros j p Ej; destruct (uv_some _ _ _ _ Hu j p Ej) as (_ & Hp & _); split; [done|];
     apply lookup_singleton_Some in Ej as [_ <-]; congruence)).
  by apply Hi.
- intros va Hva. rewrite Hpte. by apply Hk.
Qed.

Lemma uinit_spec k s l x ps tr fr data image size fs' ip :
ptable k = x :: ps → p_state x = UNUSED → free_pages (k_vm k) (s :: l) → (69 ≤ length l)%nat →
data_ok data → image_ok (s :: l) image size → iget (kfs k) ROOTDEV ROOTINO = Ok (fs', ip) →
∃ st pgdir pg l',
  uinit_proc k tr fr data image size = Ok (kmsg (mk_kern (set_fs (k_io k) fs') st
    (first_proc x (nextpid k) s pgdir ip :: ps) (curproc k) (Some 0%nat) (s32 (nextpid k + 1)) (k_gdt k)
    (k_esp0 k) (k_ss0 k) (k_cr3 k) (k_first k)) "initialized:get proc:%x ;pggir addr:%x") ∧
  first_space (km (k_vm k)) data image size st s pgdir pg l' ∧ page_ok pgdir ∧
  first_frame (km st) (s + 4096 - TF_SIZE) tr fr ∧ klog st = klog (k_vm k) ∧ ∃ used, l = used ++ l'.
Proof.
intros Ept Ex Hf Hlen Hd Him Hget.
destruct (stack_page (k_vm k) s l tr fr Hf) as (st0 & E0 & Hf1 & Hs & Hsl & Hlog & Hret & Hctx & Hk).
set (tf := s + 4096 - TF_SIZE) in *. set (m1 := st32 _ _ fr) in Hret, Hctx, Hk, Hf1, Hlog.
destruct (uinit_space (k_vm k) (set_km st0 m1) s l data image size Hf1 Hs Hsl Hk Hd Hlen Him)
  as (st2 & pgdir & st3 & pg & l' & E2 & Hpd & E3 & Hsp & Hlog3 & Hused & Hstack).
exists (set_km st3 (frame_stores (km st3) tf)), pgdir, pg, l'.
split; [|split; [|split; [done|split; [|split]]]].
- unfold uinit_proc. assert (allocproc k tr fr = (mk_kern (k_io k) (set_km st0 m1)
    (pset_stack (pset_state x EMBYRO) (nextpid k) s tf (tf - 24) :: ps) (curproc k) (initproc k)
    (s32 (nextpid k + 1)) (k_gdt k) (k_esp0 k) (k_ss0 k) (k_cr3 k) (k_first k), Some 0%nat)) as ->.
  { destruct k as [io vm pt cp ip0 np gdt e s0 c f]. cbn in Ept, E0. subst pt. unfold allocproc.
    cbn [procp ptable lookup_total list_lookup_total]. rewrite decide_True by done. cbn [k_vm upd_proc set_procs set_nextpid].
    rewrite E0, (proj2 (Z.eqb_neq s 0)) by (by apply page_ok_nonzero).
    unfold tf. replace (s + 4096 - TF_SIZE - 24) with (s + 4096 - TF_SIZE - 4 - 20) by lia. reflexivity. }
  cbn [k_vm set_init]. rewrite E2. cbn [rbind fst snd]. rewrite (proj2 (Z.eqb_neq pgdir 0)) by (by apply page_ok_nonzero).
  match goal with |- rbind ?t _ = _ => change t with (inituvm st2 pgdir image size) end.
  rewrite E3. cbn [rbind].
  erewrite namei_cur_root by exact Hget. reflexivity.
- by apply first_space_frame.
- apply frame_first.
  + rewrite (ld32_ext _ m1); [done|]. intros y Hy. apply Hstack. unfold tf, TF_SIZE, inr_, PGSIZE in *. lia.
  + rewrite (ld32_ext _ m1); [done|]. intros y Hy. apply Hstack. unfold tf, TF_SIZE, inr_, PGSIZE in *. lia.
- change (klog st3 = klog (k_vm k)). congruence.
- done.
Qed.
End uinit.
