(* ===== verification/Exec.v ===== *)
(** kernel/exec.c and [loaduvm] of kernel/vm.c: the program of a file replaces
    the image of the current process. *)
From S2P Require Import Prelude Memory LibC Mmu Kalloc Vm UserMem Seg Ide Block FsLayout Fs FsDir File Kernel.

Definition MAXARG : nat := 5.
Definition ELF_MAGIC : Z := 0x464C457F.
Definition ELF_PROG_LOAD : Z := 1.

(** The fields of [struct elfhdr] and [struct proghdr] that are used. *)
Record elfhdr := mk_elf { e_magic : Z; e_entry : Z; e_phoff : Z; e_phnum : Z }.
Definition dec_elf (bs : list Z) : elfhdr :=
  mk_elf (get32 bs 0) (get32 bs 24) (get32 bs 28) (get16 bs 44).

Record proghdr := mk_ph { ph_type : Z; ph_off : Z; ph_vaddr : Z; ph_filesz : Z; ph_memsz : Z }.
Definition dec_ph (bs : list Z) : proghdr :=
  mk_ph (get32 bs 0) (get32 bs 4) (get32 bs 8) (get32 bs 16) (get32 bs 20).

(** The last component of a path, as the loop over [last] finds it. *)
Fixpoint last_elem (last path : list Z) : list Z :=
  match path with
  | [] => last
  | c :: path' => last_elem (if c =? SLASH then path' else last) path'
  end.

Section exec.
Context {S : Type} `{BlockOps S}.
Implicit Types (k : kern S) (ip : nat).

(** One turn of [loaduvm]: a page of the file goes to the page at [addr+i]. *)
Definition loaduvm_step (pgdir addr : Z) ip (offset sz : Z) '((k, i) : kern S * Z)
  : res (kern S * Z + kern S * Z) :=
if i <? sz then
  let '(st, pte) := walkpgdir (k_vm k) pgdir (u32 (addr + i)) false in
  if pte =? 0 then Fault
  else
    let pa := PTE_ADDR (ld32 (km st) pte) in
    let n := if u32 (sz - i) <? PGSIZE then u32 (sz - i) else PGSIZE in
    let* r := readi (kfs k) ip (u32 (offset + i)) n in
    let '(fs, bytes, ret) := r in
    let k := set_kfs (set_vm k (set_km st (st_bytes (km st) (P2V pa) bytes))) fs in
    if ret =? n then Ok (inl (k, u32 (i + PGSIZE))) else Ok (inr (k, -1))
else Ok (inr (k, 0)).

Definition loaduvm k (pgdir addr : Z) ip (offset sz : Z) : res (kern S * Z) :=
let k := if addr mod PGSIZE =? 0 then k else kmsg k "loaduvm: addr must be page aligned" in
while (2 ^ 21) (loaduvm_step pgdir addr ip offset sz) (k, 0).

(** What the loop over the program headers does with the header [ph], the rest of
  the loop being [next]; none where the code goes to [bad]. *)
Definition load_ph k (pgdir : Z) ip (sz : Z) (ph : proghdr) (next : kern S → Z → res (kern S * option Z))
  : res (kern S * option Z) :=
if negb (ph_type ph =? ELF_PROG_LOAD) then next k sz
else if ph_memsz ph <? ph_filesz ph then Ok (k, None)
else if u32 (ph_vaddr ph + ph_memsz ph) <? ph_vaddr ph then Ok (k, None)
else
  let* r := allocuvm (k_vm k) pgdir sz (u32 (ph_vaddr ph + ph_memsz ph)) in
  let k := set_vm k r.1 in
  let sz := r.2 in
  if sz =? 0 then Ok (k, None)
  else if negb (ph_vaddr ph mod PGSIZE =? 0) then Ok (k, None)
  else
    let* r := loaduvm k pgdir (ph_vaddr ph) ip (ph_off ph) (ph_filesz ph) in
    if r.2 <? 0 then Ok (r.1, None) else next r.1 sz.

(** The loop, [n] headers being left; the size reached. *)
Fixpoint load_segments k (pgdir : Z) ip (off sz : Z) (n : nat) : res (kern S * option Z) :=
match n with
| O => Ok (k, Some sz)
| Datatypes.S n' =>
    let* r := readi (kfs k) ip (u32 off) 32 in
    let '(fs, bytes, ret) := r in
    let k := set_kfs k fs in
    if negb (ret =? 32) then Ok (k, None)
    else load_ph k pgdir ip sz (dec_ph bytes) (λ k sz, load_segments k pgdir ip (s32 (off + 32)) sz n')
end.

(** The strings of [argv] onto the stack; the stack pointer and the addresses
  of the strings. *)
Fixpoint push_args k (pgdir sp : Z) (argc : nat) (argv : list (list Z)) (addrs : list Z)
  : res (kern S * option (Z * list Z)) :=
match argv with
| [] => Ok (k, Some (sp, addrs))
| a :: argv' =>
    if (MAXARG <=? argc)%nat then Ok (k, None)
    else
      let len := Z.of_nat (length a) + 1 in
      let sp := Z.land (u32 (sp - len)) (Z.lnot 3) in
      let* r := copyout (k_vm k) pgdir sp (a ++ [0]) in
      let k := set_vm k r.1 in
      if r.2 <? 0 then Ok (k, None) else push_args k pgdir sp (argc + 1) argv' (addrs ++ [sp])
end.

(** The code at [bad]; the page directory and the inode are there or null. *)
Definition exec_bad k (pgdir : Z) (ip : option nat) : res (kern S * Z) :=
let* k := (if pgdir =? 0 then Ok k else let* st := freevm (k_vm k) pgdir in Ok (set_vm k st)) in
let* k := match ip with
          | None => Ok k
          | Some ip => let* fs := iunlockput (kfs k) ip in Ok (set_kfs k fs)
          end in
Ok (k, -1).

(** From the name of the process on: the process gets the new image. *)
Definition exec_commit k (ts_addr : Z) (p : nat) (pgdir sz entry sp : Z) (path : list Z) : res (kern S * Z) :=
let k := upd_proc k p (λ x, pset_name x (safestrcpy_bytes (p_name x) (last_elem path path) 16)) in
let oldpgdir := p_pgdir (procp k p) in
let k := upd_proc k p (λ x, pset_mem x sz pgdir) in
let k := tf_set k p TF_EIP entry in
let k := tf_set k p TF_ESP sp in
let k := kmsg k "load elf proc:%s" in
let* k := switchuvm k ts_addr (Some p) in
let* st := freevm (k_vm k) oldpgdir in
Ok (set_vm k st, 0).

(** From the user stack on: [ip] is unlocked. *)
Definition exec_stack k (ts_addr : Z) (p : nat) (pgdir sz entry : Z) (path : list Z) (argv : list (list Z))
  : res (kern S * Z) :=
let sz := PGROUNDUP sz in
let* r := allocuvm (k_vm k) pgdir sz (u32 (sz + 2 * PGSIZE)) in
let k := set_vm k r.1 in
let sz := r.2 in
if sz =? 0 then exec_bad k pgdir None
else
  let* st := clearpteu (k_vm k) pgdir (u32 (sz - 2 * PGSIZE)) in
  let k := set_vm k st in
  let* r := push_args k pgdir sz 0 argv [] in
  match r with
  | (k, None) => exec_bad k pgdir None
  | (k, Some (sp, addrs)) =>
      let argc := Z.of_nat (length addrs) in
      let ustack := [0xffffffff; argc; u32 (sp - (argc + 1) * 4)] ++ addrs ++ [0] in
      let sp := u32 (sp - (3 + argc + 1) * 4) in
      let* r := copyout (k_vm k) pgdir sp (put_words ustack) in
      let k := set_vm k r.1 in
      if r.2 <? 0 then exec_bad k pgdir None
      else exec_commit k ts_addr p pgdir sz entry sp path
  end.

(** From the check of the ELF header on, [ret] being what [readi] answered; [ip]
  is locked. *)
Definition exec_elf k (data ts_addr : Z) (p ip : nat) (bytes : list Z) (ret : Z) (path : list Z)
  (argv : list (list Z)) : res (kern S * Z) :=
let elf := dec_elf bytes in
if negb (ret =? 52) then exec_bad k 0 (Some ip)
else if negb (e_magic elf =? ELF_MAGIC) then exec_bad k 0 (Some ip)
else
  let* r := setupkvm (k_vm k) data in
  let k := set_vm k r.1 in
  let pgdir := r.2 in
  if pgdir =? 0 then exec_bad k 0 (Some ip)
  else
    let k := kmsg k "check elf header:OK" in
    let* r := load_segments k pgdir ip (s32 (e_phoff elf)) 0 (Z.to_nat (e_phnum elf)) in
    match r with
    | (k, None) => exec_bad k pgdir (Some ip)
    | (k, Some sz) =>
        let* fs := iunlockput (kfs k) ip in
        exec_stack (set_kfs k fs) ts_addr p pgdir sz (e_entry elf) path argv
    end.

(** [exec(path, argv)]; [path] and the strings of [argv] are given by their
  characters, [data] and [ts_addr] are linker symbols. *)
Definition exec k (data ts_addr : Z) (path : list Z) (argv : list (list Z)) (junk : list Z)
  : res (kern S * Z) :=
let* p := cur k in
let k := kmsg k "real exec: " in
let* r := namei_cur k path junk in
let k := r.1 in
match r.2 with
| None => Ok (kmsg k "exec: fail", -1)
| Some ip =>
    let* fs := ilock (kfs k) ip in
    let k := kmsg (set_kfs k fs) "ready check elf header" in
    let* r := readi (kfs k) ip 0 52 in
    let '(fs, bytes, ret) := r in
    exec_elf (set_kfs k fs) data ts_addr p ip bytes ret path argv
end.
End exec.
