(* ===== verification/Load.v ===== *)
(** kernel/exec.c: the program of a file goes to a new address space.  [loaduvm]
    copies a part of the file to user pages; the loop over the program headers
    refines a walk that computes the size and the bytes of the image from the
    file alone. *)
From S2P Require Import Prelude Memory LibC Mmu Kalloc Vm UserMem Uvm UvmProps Kvm Seg Ide Block FsLayout Fs FsDir.
From S2P Require Import FsBlocks FsFile FsRw File Kernel Exec.

(** * The new address space *)

(** The bytes [g] over [f] at [u]. *)
Definition overlay (f : Z → Z) (u n : Z) (g : Z → Z) : Z → Z :=
λ v, if decide (u ≤ v < u + n) then g (v - u) else f v.

(** How many pages [sz] bytes take. *)
Definition pages_to (sz : Z) : Z := (sz + 4095) / 4096.

Section image.
Context (data : Z) (st0 : kst) (l0 : list Z) (pgdir : Z).
Implicit Types (st : kst) (um : gmap Z Z) (l : list Z) (f : Z → Z).

(** A space made of pages of [l0], and of all of them with the free pages; no
  other page was written. *)
Record beside st um l : Prop := {
be_uvm : uvm st pgdir um l;
be_own : ∀ q, owned st pgdir um l q ↔ q ∈ l0;
be_mem : ∀ q a, page_ok q → q ∉ l0 → inr_ q PGSIZE a → ld8 (km st) a = ld8 (km st0) a
}.

(** The program of size [sz] with the bytes [f]. *)
Record new_image st um l (sz : Z) f : Prop := {
ni_beside : beside st um l;
ni_len : Z.of_nat (length l0) ≤ Z.of_nat (length l) + 67 + 2 * pages_to sz;
ni_kern : ∀ va, KERNBASE ≤ va < 2 ^ 32 → pte_at (km st) pgdir va = kmap_pte (kmap data) va 0;
ni_pages : ∀ j, is_Some (um !! j) ↔ 0 ≤ j < pages_to sz;
ni_perm : ∀ j, 0 ≤ j < pages_to sz → uperm st pgdir j = true;
ni_bytes : ∀ u, 0 ≤ u < 4096 * pages_to sz → ubyte st um u = Some (f u);
ni_zero : ∀ u, sz ≤ u → f u = 0;
ni_sz : 0 ≤ sz < KERNBASE
}.

(** Too few pages are free for a program of size [sz]. *)
Definition short_of (sz : Z) : Prop := Z.of_nat (length l0) < 67 + 2 * pages_to sz.

Lemma beside_stored st um l u bs st' :
beside st um l → ustored pgdir um l st u bs st' → beside st' um l.
Proof.
intros [B1 B2 B3] [U1 U2 U3 U4].
assert (∀ j q, um !! j = Some q → q ∈ l0) as Hin by (intros j q E; apply B2; right; left; by exists j).
split; [done | |].
- intros q. rewrite <- B2. unfold owned. rewrite (frame_pt_page st st' pgdir); [done|].
  intros p a Hp Hx. apply (U4 p a); [by eapply pt_page_ok; [apply B1|] | | done].
  intros j E. by apply (uv_some _ _ _ _ B1 j p E).
- intros q a Hq Hn Hx. rewrite <- (B3 q a) by done. apply (U4 q a); [done | | done].
  intros j E. by apply Hn, (Hin j).
Qed.

(** The segment's bytes. *)
Lemma image_stored st um l sz f u bs g st' :
new_image st um l sz f → ustored pgdir um l st u bs st' → 0 ≤ u → u + Z.of_nat (length bs) ≤ sz →
(∀ i, 0 ≤ i < Z.of_nat (length bs) → u8 (zget bs i) = g i) →
new_image st' um l sz (overlay f u (Z.of_nat (length bs)) g).
Proof.
intros [N1 N2 N3 N4 N5 N6 N7 N8] Hs Hu Hend Hg. pose proof Hs as [U1 U2 U3 U4].
split; [by eapply beside_stored | done | | done | | | | done].
- intros va Hva. by rewrite U2, N3.
- intros j Hj. unfold uperm. rewrite U2. by apply N5.
- intros v Hv. rewrite U3, N6 by done. unfold overlay. case_decide; [|done]. by rewrite Hg by lia.
- intros v Hv. unfold overlay. rewrite decide_False by lia. by apply N7.
Qed.

(** [allocuvm] of a segment or of the stack. *)
Lemma image_grow st um l sz f newsz :
new_image st um l sz f → sz ≤ newsz < KERNBASE →
∃ st' r um' l', allocuvm st pgdir sz newsz = Ok (st', r) ∧
  (r = newsz ∧ new_image st' um' l' newsz f ∨ r = 0 ∧ beside st' um' l' ∧ short_of newsz).
Proof.
intros [N1 N2 N3 N4 N5 N6 N7 N8] Hn. pose proof N1 as [B1 B2 B3].
assert (pages_to sz ≤ pages_to newsz) as Hle by (unfold pages_to; zlia).
assert (0 ≤ pages_to sz ∧ pages_to newsz ≤ NUPAGES) as (Hp0 & HpN)
  by (unfold pages_to, KERNBASE, NUPAGES in *; zlia).
destruct (allocuvm_spec st pgdir sz newsz um l B1 ltac:(lia) ltac:(lia) (pages_to sz) (pages_to newsz)
  eq_refl eq_refl) as ([st' r] & E & Hpost).
{ intros j Hj. destruct (um !! j) eqn:Ej; [|done]. assert (is_Some (um !! j)) as Hj' by (rewrite Ej; done).
  apply N4 in Hj'. lia. }
assert (∀ q a l', from_free pgdir st l st' l' → page_ok q → q ∉ l0 → inr_ q PGSIZE a →
  ld8 (km st') a = ld8 (km st0) a) as Hmem.
{ intros q a l' Hff Hq Hql Hx. rewrite <- (B3 q a) by done. apply (ff_mem _ _ _ _ _ Hff q a); [done | | | done].
  - intros Hin. apply Hql, B2. by left.
  - intros Hin. apply Hql, B2. by right; right. }
destruct Hpost as [(um' & l' & -> & Hu' & (G1 & G2 & G3 & G4) & Hff & Hown & Hlen) |
  (l' & -> & Hu' & Hff & Hown & Hlen)].
- exists st', newsz, um', l'. split; [done|]. left. split; [done|]. split.
  + split; [done | intros q; by rewrite (Hown q : _ ↔ _) | intros q a; by apply (Hmem q a l')].
  + lia.
  + intros va Hva. rewrite <- N3, !pte_at_page with (va := va) by (unfold KERNBASE in *; lia).
    apply G4; unfold KERNBASE, NUPAGES in *; zlia.
  + intros j. destruct (decide (pages_to sz ≤ j < pages_to newsz)) as [Hj|Hj].
    * destruct (G2 j Hj) as (p & -> & _). split; [lia | by eexists].
    * rewrite G1, N4 by done. lia.
  + intros j Hj. destruct (decide (pages_to sz ≤ j)); [apply G3; lia|].
    unfold uperm. rewrite G4 by (unfold NUPAGES in *; lia). apply N5. lia.
  + intros u Hu. destruct (decide (pages_to sz ≤ u / 4096)) as [Hj|Hj].
    * destruct (G2 (u / 4096)) as (p & Ep & _ & Hz); [zlia|]. unfold ubyte. rewrite Ep. cbn. f_equal.
      rewrite N7 by (unfold pages_to in Hj; zlia). apply Hz. unfold inr_, PGSIZE. zlia.
    * rewrite <- N6 by zlia. apply ubyte_kept; [apply G1; lia|]. intros p a Ep Hx.
      by apply (from_free_kept st pgdir um l st' l' (u / 4096) p).
  + intros u Hu. apply N7. lia.
  + lia.
- exists st', 0, um, l'. split; [done|]. right. split; [done|]. split.
  + split; [done | intros q; by rewrite (Hown q : _ ↔ _) | intros q a; by apply (Hmem q a l')].
  + unfold short_of. lia.
Qed.
End image.

Section load.
Context {S : Type} `{BlockLayer S}.
Context (sb : superblock) (Hsb : sb_wf sb) (dev : Z) (Hdev : 0 ≤ dev < 2).
Implicit Types (fs : fsys S) (d : disk) (x : inode) (ip : nat) (k : kern S) (ph : proghdr).
#[local] Abbreviation fsi := (fsi sb dev).
#[local] Abbreviation file_bytes := (file_bytes dev).
#[local] Abbreviation file_byte := (file_byte dev).

(** * Reading anywhere *)

(** A file that can be read: no block below its end is missing, and the disk
  holds bytes. *)
Record readable fs d ip : Prop := {
rd_fsi : fsi fs d;
rd_wf : file_wf sb dev d (inodep fs ip);
rd_holes : no_holes dev d (inodep fs ip);
rd_bytes : ∀ i, 0 ≤ i < i_size (inodep fs ip) → 0 ≤ file_byte d (inodep fs ip) i < 256
}.

(** The end of what [readi] reads: a device has nothing to read. *)
Definition fend x : Z := if i_type x =? T_DEV then -1 else i_size x.

Lemma readable_blk fs d ip s : readable fs d ip → bl_rep s d ∅ → readable (set_blk fs s) d ip.
Proof. intros [R1 R2 R3 R4] Hr. split; try done. by split; try apply R1. Qed.

Lemma readable_size fs d ip : readable fs d ip → fend (inodep fs ip) ≤ i_size (inodep fs ip) ≤ 71680.
Proof.
intros Hr. pose proof (fw_size _ _ _ _ (rd_wf _ _ _ Hr)) as Hs. change (MAXFILE * BSIZE) with 71680 in Hs.
unfold fend. case_match; lia.
Qed.

Lemma readi_any fs d ip off n :
let x := inodep fs ip in
readable fs d ip → 0 ≤ off < 2 ^ 32 → 0 ≤ n < 2 ^ 31 →
∃ s, readi fs ip off n = Ok (if decide (off ≤ fend x)
    then (set_blk fs s, file_bytes d x off (Z.to_nat (Z.min n (fend x - off))), Z.min n (fend x - off))
    else (set_blk fs s, [], -1)) ∧ bl_rep s d ∅.
Proof.
intros x Hr Ho Hn. pose proof (readable_size fs d ip Hr) as Hsz. fold x in Hsz.
pose proof Hr as [R1 R2 R3 _]. fold x in R2, R3. unfold fend in *.
destruct (Z.eqb_spec (i_type x) T_DEV) as [Et|Nt].
- exists (f_blk fs). split; [|apply R1]. rewrite decide_False by lia.
  unfold readi. fold x. rewrite Et, Z.eqb_refl.
  assert (set_blk fs (f_blk fs) = fs) as -> by (by destruct fs).
  destruct (dev_entry fs x) as [[[[]|] ?]|]; done.
- case_decide as Hd; [apply (readi_spec sb Hsb dev Hdev); fold x; try done; lia|].
  exists (f_blk fs). split; [|apply R1]. unfold readi. fold x.
  rewrite (proj2 (Z.eqb_neq _ _)), (proj2 (Z.ltb_lt _ _)) by (done || lia).
  by assert (set_blk fs (f_blk fs) = fs) as -> by (by destruct fs).
Qed.

(** * loaduvm *)

(** The kernel with another file system and other memory. *)
Definition kst_fs k (st : kst) (s : S) : kern S := set_vm (set_kfs k (set_blk (kfs k) s)) st.

Section loaduvm.
Context (k0 : kern S) (d : disk) (ip : nat) (pgdir addr off sz : Z) (um : gmap Z Z) (l : list Z).
Let x := inodep (kfs k0) ip.
Context (Hr : readable (kfs k0) d ip) (Hu : uvm (k_vm k0) pgdir um l).
Context (Ha : addr mod 4096 = 0) (Ha0 : 0 ≤ addr) (Hsz : 0 ≤ sz) (Hend : addr + sz < KERNBASE).
Context (Hm : umapped um addr sz) (Ho : 0 ≤ off < 2 ^ 32).

Definition load_inv '((k, i) : kern S * Z) : Prop :=
∃ st s, let n := Z.min i sz in
  k = kst_fs k0 st s ∧ bl_rep s d ∅ ∧ 0 ≤ i < sz + 4096 ∧ i mod 4096 = 0 ∧
  (i = 0 ∨ off + n ≤ fend x) ∧
  ustored pgdir um l (k_vm k0) addr (file_bytes d x off (Z.to_nat n)) st.

Definition load_post '((k, r) : kern S * Z) : Prop :=
∃ st s, k = kst_fs k0 st s ∧ bl_rep s d ∅ ∧
  if decide (sz = 0 ∨ off + sz ≤ fend x)
  then r = 0 ∧ ustored pgdir um l (k_vm k0) addr (file_bytes d x off (Z.to_nat sz)) st
  else r = -1 ∧ ∃ bs, ustored pgdir um l (k_vm k0) addr bs st.

(** One page. *)
Lemma load_turn k i :
load_inv (k, i) → i < sz →
(∃ k', loaduvm_step pgdir addr ip off sz (k, i) = Ok (inl (k', i + 4096)) ∧ load_inv (k', i + 4096)) ∨
(∃ r, loaduvm_step pgdir addr ip off sz (k, i) = Ok (inr r) ∧ load_post r).
Proof.
intros (st & s & -> & Hrep & Hi & Him & Hoff & Hst) Hlt. unfold KERNBASE in Hend.
rewrite Z.min_l in Hoff, Hst by lia.
pose proof (readable_size _ _ _ Hr) as Hfs. fold x in Hfs.
pose proof (us_uvm _ _ _ _ _ _ _ Hst) as Hu'. set (pg := (addr + i) / 4096).
assert (4096 * pg = addr + i) as Epg by (unfold pg; zlia).
destruct (Hm (addr + i)) as (p & Ep); [lia|]. fold pg in Ep.
destruct (uv_some _ _ _ _ Hu' _ _ Ep) as (Hpg & Hp & _ & _ & He & He2 & _).
pose proof (pte_present_table _ _ _ He) as Hpres.
unfold loaduvm_step. rewrite (proj2 (Z.ltb_lt _ _)) by done. rewrite !u32_small by lia.
rewrite <- Epg. change (k_vm (kst_fs k0 st s)) with st.
rewrite (walk_present st pgdir (4096 * pg)) by done.
rewrite (proj2 (Z.eqb_neq _ _)) by (by apply (slot_nonzero st pgdir _ l); [apply Hu'|]).
assert (PTE_ADDR (ld32 (km st) (tab_of (km st) pgdir (PDX (4096 * pg)) + 4 * PTX (4096 * pg))) = V2P p) as ->.
{ rewrite <- He2. unfold pte_at. by rewrite Hpres. }
assert ((if sz - i <? PGSIZE then sz - i else PGSIZE) = Z.min (sz - i) 4096) as ->
  by (unfold PGSIZE; destruct (Z.ltb_spec (sz - i) 4096); lia).
set (n := Z.min (sz - i) 4096).
assert (0 ≤ off + i < 2 ^ 32) as Hoi by (destruct Hoff as [->|]; lia).
change (kfs (kst_fs k0 st s)) with (set_blk (kfs k0) s).
destruct (readi_any (set_blk (kfs k0) s) d ip (off + i) n) as (s' & -> & Hrep');
  [by apply readable_blk | done | lia |].
change (inodep (set_blk (kfs k0) s) ip) with x. cbn [rbind].
change (set_blk (set_blk (kfs k0) s) s') with (set_blk (kfs k0) s').
rewrite P2V_V2P by (unfold page_ok, KERNBASE in Hp; lia).
destruct (decide (off + i ≤ fend x)) as [Hin|Hout]; cbn [st_bytes].
- set (m := Z.min n (fend x - (off + i))). set (bs := file_bytes d x (off + i) (Z.to_nat m)).
  pose proof (ustored_page pgdir um l st (addr + i) p bs Hu') as Hpage.
  unfold bs in Hpage at 1. rewrite length_file_bytes in Hpage. fold pg in Hpage.
  replace ((addr + i) mod 4096) with 0 in Hpage by zlia. rewrite Z.add_0_r in Hpage.
  specialize (Hpage ltac:(lia) ltac:(lia) ltac:(unfold KERNBASE; lia) Ep).
  set (st' := set_km st (st_bytes (km st) p bs)) in *.
  assert (ustored pgdir um l (k_vm k0) addr (file_bytes d x off (Z.to_nat (i + m))) st') as Hst'.
  { replace (Z.to_nat (i + m)) with (Z.to_nat i + Z.to_nat m)%nat by lia.
    rewrite file_bytes_app, Z2Nat.id by lia. apply (ustored_app pgdir um l _ st st'); [done|].
    by rewrite length_file_bytes, Z2Nat.id by lia. }
  destruct (Z.eqb_spec m n) as [Em|Nm].
  + left. unfold PGSIZE. rewrite u32_small by lia. eexists. split; [reflexivity|].
    exists st', s'. cbv zeta. split; [done|]. split; [done|]. split; [lia|]. split; [zlia|].
    replace (Z.min (i + 4096) sz) with (i + m) by lia. split; [right; lia|done].
  + right. eexists. split; [reflexivity|]. exists st', s'. split; [done|]. split; [done|].
    rewrite decide_False by lia. split; [done|]. by eexists.
- right. rewrite (proj2 (Z.eqb_neq _ _)) by lia. eexists. split; [reflexivity|].
  exists st, s'. split; [unfold kst_fs; by destruct st|]. split; [done|].
  rewrite decide_False by lia. split; [done|]. by eexists.
Qed.

Lemma loaduvm_spec : ∃ r, loaduvm k0 pgdir addr ip off sz = Ok r ∧ load_post r.
Proof.
unfold KERNBASE in Hend. unfold loaduvm. change PGSIZE with 4096. rewrite Ha, Z.eqb_refl.
apply while_spec with (I := load_inv) (mu := λ '(_, i), (sz + 4096 - i) / 4096).
- intros [k i] (st & s & _ & _ & Hi & _). zlia.
- intros [k i] Hinv. destruct (Z.ltb_spec i sz) as [Hlt|Hge].
  + destruct (load_turn k i Hinv Hlt) as [(k' & E & Hinv') | (r & E & Hpost)].
    * left. exists (k', i + 4096). split; [done|]. split; [done|]. zlia.
    * right. by exists r.
  + right. destruct Hinv as (st & s & -> & Hrep & Hi & _ & Hoff & Hst). rewrite Z.min_r in Hoff, Hst by lia.
    unfold loaduvm_step. rewrite (proj2 (Z.ltb_ge _ _)) by done.
    eexists. split; [reflexivity|]. exists st, s. split; [done|]. split; [done|].
    rewrite decide_True by lia. done.
- exists (k_vm k0), (f_blk (kfs k0)). cbv zeta. split.
  { unfold kst_fs. assert (set_blk (kfs k0) (f_blk (kfs k0)) = kfs k0) as -> by (by destruct (kfs k0)).
    destruct k0 as [[]]. done. }
  split; [apply (rd_fsi _ _ _ Hr)|]. split; [lia|]. split; [done|]. split; [by left|].
  rewrite Z.min_l by done. by apply ustored_nil.
- zlia.
Qed.
End loaduvm.

(** * The image that a file asks for *)

(** What makes a segment unfit for a program of size [sz]. *)
Definition bad_segment x (sz : Z) ph : bool :=
let fin := ph_vaddr ph + ph_memsz ph in
(ph_memsz ph <? ph_filesz ph) || (KERNBASE <=? fin) || (Z.max sz fin =? 0) ||
negb (ph_vaddr ph mod PGSIZE =? 0) ||
((0 <? ph_filesz ph) && (fend x <? ph_off ph + ph_filesz ph)).

(** The size and the bytes of the program after [n] more headers from [off]. *)
Fixpoint segments d x (off sz : Z) (f : Z → Z) (n : nat) : option (Z * (Z → Z)) :=
match n with
| O => Some (sz, f)
| Datatypes.S n' =>
    if fend x <? off + 32 then None
    else
      let ph := dec_ph (file_bytes d x off 32) in
      if negb (ph_type ph =? ELF_PROG_LOAD) then segments d x (off + 32) sz f n'
      else if bad_segment x sz ph then None
      else segments d x (off + 32) (Z.max sz (ph_vaddr ph + ph_memsz ph))
             (overlay f (ph_vaddr ph) (ph_filesz ph) (λ i, file_byte d x (ph_off ph + i))) n'
end.

Lemma segments_size d x n : ∀ off sz f sz' f',
segments d x off sz f n = Some (sz', f') → sz ≤ sz'.
Proof.
induction n as [|n IH]; intros off sz f sz' f'; cbn [segments]; [intros [= <- _]; lia|].
case_match; [done|]. case_match; [apply IH|]. case_match; [done|]. intros E%IH. lia.
Qed.

(** * The loop over the program headers *)

Lemma get_file fs d ip off n :
readable fs d ip → 0 ≤ off → off + Z.of_nat n ≤ fend (inodep fs ip) →
byte_list (file_bytes d (inodep fs ip) off n).
Proof.
intros Hr Ho Hn. pose proof (readable_size fs d ip Hr). apply Forall_lookup. intros i b Hb.
pose proof (lookup_lt_Some _ _ _ Hb) as Hi. rewrite length_file_bytes in Hi.
rewrite lookup_file_bytes in Hb by done. injection Hb as <-. apply (rd_bytes _ _ _ Hr). lia.
Qed.

Lemma dec_ph_range bs :
byte_list bs → let ph := dec_ph bs in
0 ≤ ph_off ph < 2 ^ 32 ∧ 0 ≤ ph_vaddr ph < 2 ^ 32 ∧ 0 ≤ ph_filesz ph < 2 ^ 32 ∧ 0 ≤ ph_memsz ph < 2 ^ 32.
Proof. intros Hb. split; [|split; [|split]]; by apply get32_range. Qed.

Lemma zget_file fs d ip off n i :
readable fs d ip → 0 ≤ off → off + n ≤ fend (inodep fs ip) → 0 ≤ i < n →
u8 (zget (file_bytes d (inodep fs ip) off (Z.to_nat n)) i) = file_byte d (inodep fs ip) (off + i).
Proof.
intros Hr Ho Hn Hi. pose proof (readable_size fs d ip Hr) as Hsz. unfold zget.
assert (Z.to_nat i < Z.to_nat n)%nat as Hlt by lia.
rewrite (list_lookup_total_correct _ _ _ (lookup_file_bytes dev d _ off _ _ Hlt)).
rewrite Z2Nat.id by lia. apply u8_small, (rd_bytes _ _ _ Hr). lia.
Qed.

(** A segment that the file and the address space have room for. *)
Definition good_segment x (sz : Z) ph : Prop :=
ph_filesz ph ≤ ph_memsz ph ∧ ph_vaddr ph + ph_memsz ph < KERNBASE ∧
Z.max sz (ph_vaddr ph + ph_memsz ph) ≠ 0 ∧ ph_vaddr ph mod 4096 = 0 ∧
(ph_filesz ph ≤ 0 ∨ ph_off ph + ph_filesz ph ≤ fend x).

Lemma segment_good x sz ph : bad_segment x sz ph = false ↔ good_segment x sz ph.
Proof.
unfold bad_segment, good_segment. change PGSIZE with 4096.
rewrite !orb_false_iff, negb_false_iff, andb_false_iff, Z.eqb_eq, !Z.ltb_ge, Z.leb_gt, Z.eqb_neq. tauto.
Qed.

Lemma segment_bad x sz ph : ¬ good_segment x sz ph → bad_segment x sz ph = true.
Proof. rewrite <- segment_good. by destruct (bad_segment x sz ph). Qed.

Section segments.
Context (data : Z) (st0 : kst) (l0 : list Z) (pgdir : Z) (d : disk) (ip : nat).
Implicit Types (st : kst) (um : gmap Z Z) (l : list Z) (f : Z → Z).
#[local] Abbreviation new_image := (new_image data st0 l0 pgdir).
#[local] Abbreviation beside := (beside st0 l0 pgdir).

(** The space of a load that stops. *)
Definition some_space st : Prop := ∃ um l, beside st um l.

Lemma image_space st um l sz f : new_image st um l sz f → some_space st.
Proof. intros Hn. exists um, l. apply Hn. Qed.

(** The step of the size. *)
Lemma segment_alloc st um l sz f ph :
new_image st um l sz f → 0 ≤ ph_vaddr ph < 2 ^ 32 → 0 ≤ ph_memsz ph < 2 ^ 32 →
let fin := ph_vaddr ph + ph_memsz ph in
let sz' := Z.max sz fin in
(KERNBASE ≤ fin ∧ ¬ fin < 2 ^ 32 ∧ u32 fin < ph_vaddr ph) ∨
u32 fin = fin ∧ ∃ st' r, allocuvm st pgdir sz fin = Ok (st', r) ∧
  (fin < KERNBASE ∧ r = sz' ∧ (∃ um' l', new_image st' um' l' sz' f) ∨
   r = 0 ∧ some_space st' ∧ (KERNBASE ≤ fin ∨ short_of l0 sz')).
Proof.
intros Hn Hv Hm fin sz'. destruct (decide (fin < 2 ^ 32)) as [Hlt|Hge].
2: { left. unfold KERNBASE. split; [lia|]. split; [done|]. unfold fin in *. zlia. }
right. split; [apply u32_small; lia|]. pose proof (ni_sz _ _ _ _ _ _ _ _ _ Hn) as Hsz.
destruct (decide (KERNBASE ≤ fin)) as [Hk|Hk].
- exists st, 0. split; [unfold allocuvm; by rewrite (proj2 (Z.leb_le _ _))|].
  right. split; [done|]. split; [by eapply image_space|]. by left.
- destruct (decide (fin < sz)) as [Hs|Hs].
  + exists st, sz. split.
    { unfold allocuvm. rewrite (proj2 (Z.leb_gt _ _)) by lia. by rewrite (proj2 (Z.ltb_lt _ _)). }
    left. split; [lia|]. split; [lia|]. exists um, l. by replace sz' with sz by lia.
  + destruct (image_grow data st0 l0 pgdir st um l sz f fin Hn) as (st' & r & um' & l' & E & Hc); [lia|].
    exists st', r. split; [done|]. replace sz' with fin by lia.
    destruct Hc as [(-> & Hn') | (-> & Hb & Hshort)]; [left | right].
    * split; [lia|]. split; [done|]. by exists um', l'.
    * split; [done|]. split; [by exists um', l'|]. by right.
Qed.

(** The outcome of the loop, [o] being what the file asks for. *)
Definition loaded st (r : option Z) (o : option (Z * (Z → Z))) : Prop :=
match o with
| Some (sz, f) =>
    r = Some sz ∧ (∃ um l, new_image st um l sz f) ∨ r = None ∧ some_space st ∧ short_of l0 sz
| None => r = None ∧ some_space st
end.

(** A load that stops, when the file is bad or memory is short. *)
Lemma loaded_none st o :
some_space st → (∀ sz f, o = Some (sz, f) → short_of l0 sz) → loaded st None o.
Proof. intros Hs Ho. destruct o as [[sz f]|]; [|done]. right. split; [done|]. split; [done|]. by apply (Ho sz f). Qed.

Lemma short_mono sz sz' : short_of l0 sz → sz ≤ sz' → short_of l0 sz'.
Proof. unfold short_of, pages_to. intros. zlia. Qed.

Definition runs k (c : res (kern S * option Z)) (o : option (Z * (Z → Z))) : Prop :=
∃ st s r, c = Ok (kst_fs k st s, r) ∧ bl_rep s d ∅ ∧ loaded st r o.

Lemma kst_fs_vm k st : kst_fs k st (f_blk (kfs k)) = set_vm k st.
Proof.
unfold kst_fs. assert (set_blk (kfs k) (f_blk (kfs k)) = kfs k) as -> by (by destruct (kfs k)).
by destruct k as [[]].
Qed.

Section load_ph.
Context (k : kern S) (sz : Z) (ph : proghdr) (next : kern S → Z → res (kern S * option Z)).
Context (o : Z → (Z → Z) → option (Z * (Z → Z))).
Let x := inodep (kfs k) ip.
Context (Hr : readable (kfs k) d ip).
Context (Hph : 0 ≤ ph_off ph < 2 ^ 32 ∧ 0 ≤ ph_vaddr ph < 2 ^ 32 ∧
  0 ≤ ph_filesz ph < 2 ^ 32 ∧ 0 ≤ ph_memsz ph < 2 ^ 32).
Context (Hmono : ∀ sz f sz' f', o sz f = Some (sz', f') → sz ≤ sz').
Context (Hnext : ∀ st s um l sz f, bl_rep s d ∅ → new_image st um l sz f →
  runs k (next (kst_fs k st s) sz) (o sz f)).

Lemma runs_stop st o' :
some_space st → (∀ sz f, o' = Some (sz, f) → short_of l0 sz) → runs k (Ok (set_vm k st, None)) o'.
Proof.
intros Hs Ho. exists st, (f_blk (kfs k)), None. rewrite kst_fs_vm. split; [done|].
split; [apply (rd_fsi _ _ _ Hr) | by apply loaded_none].
Qed.

Lemma runs_bad st o' : some_space st → ¬ good_segment x sz ph →
runs k (Ok (set_vm k st, None)) (if bad_segment x sz ph then None else o').
Proof. intros Hs Hb. rewrite segment_bad by done. by apply runs_stop. Qed.

(** The bytes of the segment, once the pages are there. *)
Lemma load_into st um l f :
let fin := ph_vaddr ph + ph_memsz ph in
let sz' := Z.max sz fin in
new_image st um l sz' f → ph_filesz ph ≤ ph_memsz ph → fin < KERNBASE → sz' ≠ 0 →
ph_vaddr ph mod 4096 = 0 →
runs k (let* r := loaduvm (set_vm k st) pgdir (ph_vaddr ph) ip (ph_off ph) (ph_filesz ph) in
        if r.2 <? 0 then Ok (r.1, None) else next r.1 sz')
  (if bad_segment x sz ph then None
   else o sz' (overlay f (ph_vaddr ph) (ph_filesz ph) (λ i, file_byte d x (ph_off ph + i)))).
Proof.
intros fin sz' Hn Hfm Hk N0 Ea. destruct Hph as (Ho & Hv & Hf & Hm).
destruct (loaduvm_spec (set_vm k st) d ip pgdir (ph_vaddr ph) (ph_off ph) (ph_filesz ph) um l Hr
  (be_uvm _ _ _ _ _ _ (ni_beside _ _ _ _ _ _ _ _ _ Hn)) Ea (proj1 Hv) (proj1 Hf) ltac:(lia))
  as ([k2 r] & E2 & st2 & s2 & -> & Hrep & Hc); [ | done |].
{ intros u Hu'. apply (ni_pages _ _ _ _ _ _ _ _ _ Hn). unfold pages_to, sz', fin. zlia. }
change (kst_fs (set_vm k st) st2 s2) with (kst_fs k st2 s2) in *.
change (inodep (kfs (set_vm k st)) ip) with x in Hc. rewrite E2. cbn [rbind fst snd].
assert (good_segment x sz ph ↔ ph_filesz ph = 0 ∨ ph_off ph + ph_filesz ph ≤ fend x) as Hiff
  by (unfold good_segment; fold fin sz'; lia).
case_decide as Hd.
- rewrite (proj2 (segment_good x sz ph) (proj2 Hiff Hd)). destruct Hc as (-> & Hst). cbn [Z.ltb Z.compare].
  apply (Hnext st2 s2 um l); [done|].
  assert (Z.of_nat (length (file_bytes d x (ph_off ph) (Z.to_nat (ph_filesz ph)))) = ph_filesz ph) as El
    by (rewrite length_file_bytes; lia).
  rewrite <- El at 1. eapply image_stored; [exact Hn | exact Hst | lia | rewrite El; lia |].
  rewrite El. intros i Hi. apply (zget_file (kfs k) d ip); [done | lia | fold x; lia | done].
- destruct Hc as (-> & bs & Hst). cbn [Z.ltb Z.compare].
  rewrite segment_bad by tauto. exists st2, s2, None. split; [done|]. split; [done|]. split; [done|].
  exists um, l. eapply beside_stored; [apply Hn | exact Hst].
Qed.

Lemma load_ph_spec um l f :
new_image (k_vm k) um l sz f →
runs k (load_ph k pgdir ip sz ph next)
  (if negb (ph_type ph =? ELF_PROG_LOAD) then o sz f
   else if bad_segment x sz ph then None
   else o (Z.max sz (ph_vaddr ph + ph_memsz ph))
          (overlay f (ph_vaddr ph) (ph_filesz ph) (λ i, file_byte d x (ph_off ph + i)))).
Proof.
intros Hn. unfold load_ph. pose proof (image_space _ _ _ _ _ Hn) as Hsp.
assert (set_vm k (k_vm k) = k) as Ek by (by destruct k).
assert (∀ o', ¬ good_segment x sz ph → runs k (Ok (k, None)) (if bad_segment x sz ph then None else o')) as Hbad
  by (intros o' Hb; rewrite <- Ek at 2; by apply runs_bad).
destruct (negb (ph_type ph =? ELF_PROG_LOAD)).
{ rewrite <- Ek at 2. rewrite <- kst_fs_vm. apply (Hnext _ _ um l); [apply (rd_fsi _ _ _ Hr) | done]. }
set (fin := ph_vaddr ph + ph_memsz ph). unfold good_segment in Hbad. fold fin in Hbad.
destruct (Z.ltb_spec (ph_memsz ph) (ph_filesz ph)) as [Hlt|Hge]; [apply Hbad; lia|].
destruct Hph as (_ & Hv & _ & Hm).
destruct (segment_alloc (k_vm k) um l sz f ph Hn Hv Hm) as [(Hk & _ & Hw) | (Hu & st & r & E & Hc)];
  [fold fin in Hk, Hw | fold fin in Hu, E, Hc].
{ rewrite (proj2 (Z.ltb_lt _ _)) by done. apply Hbad. lia. }
rewrite Hu, (proj2 (Z.ltb_ge fin _)), E by lia. cbn [rbind fst snd].
destruct Hc as [(Hk & -> & um' & l' & Hn') | (-> & Hs' & Hwhy)].
2: { cbn [Z.eqb]. apply runs_stop; [done|]. intros sz' f'. destruct (bad_segment x sz ph) eqn:Eb; [done|].
  apply segment_good in Eb as (_ & Hk & _). fold fin in Hk. intros Eo%Hmono.
  destruct Hwhy as [?|Hs]; [lia|]. by apply (short_mono _ _ Hs). }
pose proof (image_space _ _ _ _ _ Hn') as Hsp'.
destruct (Z.eqb_spec (Z.max sz fin) 0) as [E0|N0].
{ apply runs_bad; [done|]. unfold good_segment. fold fin. lia. }
change PGSIZE with 4096. destruct (Z.eqb_spec (ph_vaddr ph mod 4096) 0) as [Ea|Na]; cbn [negb].
2: { apply runs_bad; [done|]. unfold good_segment. lia. }
by apply (load_into st um' l').
Qed.
End load_ph.

Lemma load_segments_spec x n : ∀ k o um l sz f,
inodep (kfs k) ip = x → readable (kfs k) d ip → new_image (k_vm k) um l sz f → - 2 ^ 31 ≤ o < 2 ^ 31 →
runs k (load_segments k pgdir ip o sz n) (segments d x (u32 o) sz f n).
Proof.
induction n as [|n IH]; intros k o um l sz f Ex Hr Hn Ho.
{ cbn [load_segments segments]. exists (k_vm k), (f_blk (kfs k)), (Some sz). rewrite kst_fs_vm.
  split; [by destruct k|]. split; [apply (rd_fsi _ _ _ Hr)|]. left. split; [done|]. by exists um, l. }
cbn [load_segments segments].
pose proof (readable_size _ _ _ Hr) as Hfe. rewrite Ex in Hfe. pose proof (u32_range o) as Hu.
destruct (readi_any (kfs k) d ip (u32 o) 32 Hr Hu ltac:(lia)) as (s & -> & Hrep).
rewrite Ex. set (k1 := set_kfs k (set_blk (kfs k) s)).
assert (inodep (kfs k1) ip = x) as Ex1 by done.
assert (readable (kfs k1) d ip) as Hr1 by (by apply readable_blk).
destruct (Z.ltb_spec (fend x) (u32 o + 32)) as [Hlt|Hge].
{ exists (k_vm k), s, None. split; [|split; [done|split; [done | by eapply image_space]]].
  assert (kst_fs k (k_vm k) s = k1) as -> by (unfold k1, kst_fs; by destruct k).
  case_decide; cbn [rbind]; rewrite (proj2 (Z.eqb_neq _ 32)) by lia; done. }
rewrite decide_True by lia. cbn [rbind]. rewrite Z.min_l by lia. cbn [Z.eqb Pos.eqb negb]. fold k1.
change (Z.to_nat 32) with 32%nat.
assert (u32 o = o) as Eo by zlia.
pose proof (load_ph_spec k1 sz (dec_ph (file_bytes d x (u32 o) 32))
  (λ k sz, load_segments k pgdir ip (s32 (o + 32)) sz n)
  (λ sz f, segments d x (u32 o + 32) sz f n) Hr1) as Hspec.
rewrite Ex1 in Hspec. apply (Hspec) with (um := um) (l := l); [| | | done].
- apply dec_ph_range. rewrite <- Ex. apply get_file; [done | lia | rewrite Ex; lia].
- intros sz1 f1 sz2 f2. apply segments_size.
- intros st2 s2 um2 l2 sz2 f2 Hrep2 Hn2.
  destruct (IH (kst_fs k1 st2 s2) (s32 (o + 32)) um2 l2 sz2 f2) as (st3 & s3 & r & E & Hc);
    [done | by apply readable_blk | done | apply s32_range |].
  rewrite s32_small in E, Hc by lia. rewrite u32_small in Hc by lia. rewrite Eo, s32_small by lia.
  by exists st3, s3, r.
Qed.
End segments.
End load.
