(* ===== verification/Calls.v ===== *)
(** kernel/syscall.c and kernel/calls.c: the arguments of a system call, which
    are in user memory, the calls, and their dispatch. *)
From S2P Require Import Prelude Memory LibC Mmu Kalloc Vm UserMem Seg Ide Block FsLayout Fs FsDir File Kernel Exec.


(** The bytes of [struct stat]: [type] at 0, [dev] at 4, [ino] at 8, [nlink] at
    12, [size] at 16; the two bytes between [type] and [dev], and between
    [nlink] and [size], are not written. *)
Definition stat_stores (st : stat) : list (Z * list Z) :=
[(0, le_bytes 2 (u16 (st_type st))); (4, le_bytes 4 (u32 (st_dev st)));
 (8, le_bytes 4 (u32 (st_ino st))); (12, le_bytes 2 (u16 (st_nlink st)));
 (16, le_bytes 4 (u32 (st_size st)))].

Section calls.
Context {S : Type} `{BlockOps S}.
Implicit Types (k : kern S).

Definition cur_proc k : res proc := let* p := cur k in Ok (procp k p).

(** * Arguments

    A result of [None] is the return value -1; otherwise the value stored. *)
Definition getint k (addr : Z) : res (option Z) :=
let* x := cur_proc k in
if (p_sz x <=? addr) || (p_sz x <? u32 (addr + 4)) then Ok None
else let* v := uld32 (k_vm k) (p_pgdir x) addr in Ok (Some v).

(** The scan of [getstr] from [s] on: the length of the string. *)
Definition getstr_len (st : kst) (pgdir addr ep : Z) : res (option Z) :=
while (2 ^ 32)
  (λ s, if s <? ep then
          let* c := uld8 st pgdir s in
          Ok (if c =? 0 then inr (Some (s - addr)) else inl (s + 1))
        else Ok (inr None)) addr.

Definition getstr k (addr : Z) : res (option Z) :=
let* x := cur_proc k in
if p_sz x <=? addr then Ok None
else getstr_len (k_vm k) (p_pgdir x) addr (p_sz x).

Definition argint k (n : Z) : res (option Z) :=
let* p := cur k in getint k (u32 (tf_get k p TF_ESP + 4 + 4 * n)).

Definition argptr k (n size : Z) : res (option Z) :=
let* x := cur_proc k in
let* i := argint k n in
match i with
| None => Ok None
| Some i =>
    if (size <? 0) || (p_sz x <=? i) || (p_sz x <? u32 (i + size)) then Ok None else Ok (Some i)
end.

Definition argstr k (n : Z) : res (option Z) :=
let* addr := argint k n in
match addr with
| None => Ok None
| Some addr =>
    let* len := getstr k addr in
    match len with None => Ok None | Some _ => Ok (Some addr) end
end.

(** The characters of a user string, and the bytes at a user address. *)
Definition user_str k (addr : Z) : res (list Z) :=
let* x := cur_proc k in uld_str (k_vm k) (p_pgdir x) addr.
Definition user_bytes k (addr n : Z) : res (list Z) :=
let* x := cur_proc k in uld_bytes (k_vm k) (p_pgdir x) addr (Z.to_nat n).
Definition user_store k (addr : Z) (bs : list Z) : res (kern S) :=
let* x := cur_proc k in
let* st := ust_bytes (k_vm k) (p_pgdir x) addr bs in Ok (set_vm k st).

(** * Descriptors *)

Fixpoint free_fd (ofile : list (option nat)) (fd : nat) : option nat :=
match ofile with
| [] => None
| None :: _ => Some fd
| Some _ :: ofile' => free_fd ofile' (fd + 1)
end.

Definition fdalloc k (f : nat) : res (kern S * option nat) :=
let* p := cur k in
match free_fd (p_ofile (procp k p)) 0 with
| Some fd => Ok (upd_proc k p (λ x, pset_ofile x fd (Some f)), Some fd)
| None => Ok (k, None)
end.

(** The descriptor and the file of argument [n]; a read outside [ofile] is a
    fault. *)
Definition argfd k (n : Z) : res (option (nat * nat)) :=
let* fd := argint k n in
match fd with
| None => Ok None
| Some fd =>
    let fd := s32 fd in
    if (fd <? 0) || (Z.of_nat NOFILE <=? fd) then Ok None
    else
      let* x := cur_proc k in
      match p_ofile x !! Z.to_nat fd with
      | None => Fault
      | Some None => Ok None
      | Some (Some f) => Ok (Some (Z.to_nat fd, f))
      end
end.

(** * Creating inodes *)

(** The part of [create] for a name that is free in the directory [dp]. *)
Definition create_new k (dp : nat) (name : list Z) (type major minor : Z)
  : res (kern S * option nat) :=
let* r := ialloc (kfs k) (i_dev (inodep (kfs k) dp)) type in
match r.2 with
| None => Fault
| Some ip =>
    let* fs := ilock r.1 ip in
    let fs := upd_inode fs ip (λ x, set_nlink (set_major_minor x major minor) 1) in
    let* fs := iupdate fs ip in
    let* fs :=
      (if type =? T_DIR then
         let fs := upd_inode fs dp (λ x, set_nlink x (s16 (i_nlink x + 1))) in
         let* fs := iupdate fs dp in
         let* r := dirlink fs ip DOT (i_inum (inodep fs ip)) in
         if r.2 <? 0 then Ok (fprint r.1 "create dots")
         else
           let* r := dirlink r.1 ip DOTDOT (i_inum (inodep r.1 dp)) in
           Ok (if r.2 <? 0 then fprint r.1 "create dots" else r.1)
       else Ok fs) in
    let* r := dirlink fs dp name (i_inum (inodep fs ip)) in
    let fs := if r.2 <? 0 then fprint r.1 "create: dirlink" else r.1 in
    let* fs := iunlockput fs dp in
    Ok (set_kfs k fs, Some ip)
end.

(** [create(path, type, major, minor)]; [junk] is in the local name buffer. *)
Definition create k (path junk : list Z) (type major minor : Z) : res (kern S * option nat) :=
let* r := nameiparent_cur k path junk in
let '(k, dp, name) := r in
match dp with
| None => Ok (k, None)
| Some dp =>
    let* fs := ilock (kfs k) dp in
    let* r := dirlookup fs dp name in
    match r.2 with
    | Some (ip, _) =>
        let* fs := iunlockput r.1 dp in
        let* fs := ilock fs ip in
        if (type =? T_FILE) && (i_type (inodep fs ip) =? T_FILE) then Ok (set_kfs k fs, Some ip)
        else let* fs := iunlockput fs ip in Ok (set_kfs k fs, None)
    | None => create_new (set_kfs k r.1) dp name type major minor
    end
end.

(** * The calls: the state and the value returned *)

(** The loop of [sys_exec] over the argument pointers, [n] slots being left;
  none where it returns -1. *)
Fixpoint exec_args k (uargv : Z) (i : Z) (n : nat) : res (option (list (list Z))) :=
match n with
| O => Ok None
| Datatypes.S n' =>
    let* uarg := getint k (u32 (uargv + 4 * i)) in
    match uarg with
    | None => Ok None
    | Some uarg =>
        if uarg =? 0 then Ok (Some [])
        else
          let* len := getstr k uarg in
          match len with
          | None => Ok None
          | Some _ =>
              let* a := user_str k uarg in
              let* rest := exec_args k uargv (i + 1) n' in
              Ok (match rest with None => None | Some rest => Some (a :: rest) end)
          end
    end
end.

(** [kprintf] reads the text of [argv[0]]; with no arguments that is a null
    pointer, and it reads what the user has at address 0. *)
Definition sys_exec k (data ts_addr : Z) (junk : list Z) : res (kern S * Z) :=
let* path := argstr k 0 in
match path with
| None => Ok (k, -1)
| Some path =>
    let* uargv := argint k 1 in
    match uargv with
    | None => Ok (k, -1)
    | Some uargv =>
        let* argv := exec_args k uargv 0 5 in
        match argv with
        | None => Ok (k, -1)
        | Some argv =>
            let* path := user_str k path in
            let* shown := match argv with [] => user_str k 0 | a :: _ => Ok a end in
            let k := kmsg k "exec:%s,%s" in
            let k := kmsg (kmsg (kmsg k "You said:") "test IDE") ">" in
            exec k data ts_addr path argv junk
        end
    end
end.

Definition sys_exit k : res (kern S * Z) := let* k := exit k in Ok (k, 0).

(** [sys_open] from the inode on, which is locked. *)
Definition open_inode k (ip : nat) (omode : Z) : res (kern S * Z) :=
let '(y, f) := filealloc (k_io k) in
let k := set_io k y in
match f with
| None => let* fs := iunlockput (kfs k) ip in Ok (set_kfs k fs, -1)
| Some f =>
    let* r := fdalloc k f in
    let '(k, fd) := r in
    match fd with
    | None =>
        let* y := fileclose (k_io k) f in
        let k := set_io k y in
        let* fs := iunlockput (kfs k) ip in Ok (set_kfs k fs, -1)
    | Some fd =>
        let k := set_kfs k (iunlock (kfs k) ip) in
        let rd := if Z.land omode O_WRONLY =? 0 then 1 else 0 in
        let wr := if negb (Z.land omode O_WRONLY =? 0) || negb (Z.land omode O_RDWR =? 0) then 1 else 0 in
        let k := set_io k (upd_file (k_io k) f (λ x, mk_file FD_INODE (f_ref x) rd wr ip 0)) in
        Ok (k, Z.of_nat fd)
    end
end.

Definition sys_open k (junk : list Z) : res (kern S * Z) :=
let* path := argstr k 0 in
match path with
| None => Ok (k, -1)
| Some path =>
    let* omode := argint k 1 in
    match omode with
    | None => Ok (k, -1)
    | Some omode =>
        let* path := user_str k path in
        if negb (Z.land omode O_CREATE =? 0) then
          let* r := create k path junk T_FILE 0 0 in
          match r.2 with
          | None => Ok (r.1, -1)
          | Some ip => open_inode r.1 ip omode
          end
        else
          let* r := namei_cur k path junk in
          let k := r.1 in
          match r.2 with
          | None => Ok (k, -1)
          | Some ip =>
              let* fs := ilock (kfs k) ip in
              let k := set_kfs k fs in
              if (i_type (inodep fs ip) =? T_DIR) && negb (omode =? O_RDONLY) then
                let* fs := iunlockput fs ip in Ok (set_kfs k fs, -1)
              else open_inode k ip omode
          end
    end
end.

Definition sys_mknod k (junk : list Z) : res (kern S * Z) :=
let* path := argstr k 0 in
let* major := match path with None => Ok None | Some _ => argint k 1 end in
let* minor := match major with None => Ok None | Some _ => argint k 2 end in
match path, major, minor with
| Some path, Some major, Some minor =>
    let* path := user_str k path in
    let* r := create k path junk T_DEV (s16 major) (s16 minor) in
    match r.2 with
    | None => Ok (r.1, -1)
    | Some ip => let* fs := iunlockput (kfs r.1) ip in Ok (set_kfs r.1 fs, 0)
    end
| _, _, _ => Ok (k, -1)
end.

(** The arguments of [sys_read] and [sys_write]: the file, the address, the
  count. *)
Definition rw_args k : res (option (nat * Z * Z)) :=
let* fd := argfd k 0 in
match fd with
| None => Ok None
| Some (_, f) =>
    let* n := argint k 2 in
    match n with
    | None => Ok None
    | Some n =>
        let n := s32 n in
        let* p := argptr k 1 n in
        Ok (match p with None => None | Some p => Some (f, p, n) end)
    end
end.

Definition sys_write k : res (kern S * Z) :=
let* a := rw_args k in
match a with
| None => Ok (k, -1)
| Some (f, p, n) =>
    let* src := user_bytes k p n in
    let* r := filewrite (k_io k) f src n in
    Ok (set_io k r.1, r.2)
end.

Definition sys_read k : res (kern S * Z) :=
let* a := rw_args k in
match a with
| None => Ok (k, -1)
| Some (f, p, n) =>
    let* r := fileread (k_io k) f n in
    let '(y, ret, bytes) := r in
    let* k := user_store (set_io k y) p bytes in
    Ok (k, ret)
end.

Definition sys_close k : res (kern S * Z) :=
let* a := argfd k 0 in
match a with
| None => Ok (k, -1)
| Some (fd, f) =>
    let* p := cur k in
    let k := upd_proc k p (λ x, pset_ofile x fd None) in
    let* y := fileclose (k_io k) f in
    Ok (set_io k y, 0)
end.

(** The stores of [stati] through the user's pointer. *)
Fixpoint store_fields k (p : Z) (fields : list (Z * list Z)) : res (kern S) :=
match fields with
| [] => Ok k
| (off, bs) :: fields' =>
    let* k := user_store k (u32 (p + off)) bs in store_fields k p fields'
end.

Definition sys_fstat k : res (kern S * Z) :=
let* a := argfd k 0 in
match a with
| None => Ok (k, -1)
| Some (_, f) =>
    let* p := argptr k 1 20 in
    match p with
    | None => Ok (k, -1)
    | Some p =>
        let* r := filestat (k_io k) f in
        let '(y, ret, st) := r in
        let k := set_io k y in
        match st with
        | None => Ok (k, ret)
        | Some st => let* k := store_fields k p (stat_stores st) in Ok (k, ret)
        end
    end
end.

(** * Dispatch *)

Inductive syscall_fn :=
| Sys_exec | Sys_exit | Sys_open | Sys_mknod | Sys_write | Sys_read | Sys_close | Sys_fstat.

(** The table [syscalls]. *)
Definition syscalls : list (option syscall_fn) :=
[None; Some Sys_exec; Some Sys_exit; Some Sys_open; Some Sys_mknod; Some Sys_write;
 Some Sys_read; Some Sys_close; Some Sys_fstat].

Definition run_syscall k (data ts_addr : Z) (junk : list Z) (fn : syscall_fn) : res (kern S * Z) :=
match fn with
| Sys_exec => sys_exec k data ts_addr junk
| Sys_exit => sys_exit k
| Sys_open => sys_open k junk
| Sys_mknod => sys_mknod k junk
| Sys_write => sys_write k
| Sys_read => sys_read k
| Sys_close => sys_close k
| Sys_fstat => sys_fstat k
end.

Definition dispatcher k (data ts_addr : Z) (junk : list Z) (num : Z) (p : nat) : res (kern S) :=
let* fn := (if (0 <? num) && (num <? Z.of_nat (length syscalls))
            then match syscalls !! Z.to_nat num with Some fn => Ok fn | None => Fault end else Ok None) in
match fn with
| Some fn =>
    let* r := run_syscall k data ts_addr junk fn in
    Ok (tf_set r.1 p TF_EAX (u32 r.2))
| None => Ok (tf_set (kmsg k "unknow syscall") p TF_EAX (u32 (-1)))
end.

(** The handler of interrupt 64, [r] being the address of the trap frame. *)
Definition syscall k (data ts_addr : Z) (junk : list Z) (r : Z) : res (kern S) :=
let* p := cur k in
let k := upd_proc k p (λ x, pset_tf x r) in
let num := s32 (tf_get k p TF_EAX) in
dispatcher (kmsg k "recv syscall: %d,%d") data ts_addr junk num p.
End calls.
