(* ===== verification/KernTypes.v ===== *)
(** The shape of the kernel's state: every table keeps its size and every index
    stays inside the table it is used with - the files of the descriptors, the
    inodes of the files, the directories and the parents of the processes.
    [kern_ok] holds after every step of the kernel and of the user programs. *)
From S2P Require Import Prelude Memory LibC Mmu Kalloc Vm UserMem Seg Ide Block Bio FsLayout.
From S2P Require Import Fs FsDir FsTypes Ports FsProps File Kernel Exec Calls.

Definition file_ok (x : file) : Prop := f_type x = FD_INODE → slot_ok (f_ip x).
Definition fd_ok (o : option nat) : Prop := ∀ f, o = Some f → (f < NFILE)%nat.
Definition pid_ok (o : option nat) : Prop := ∀ p, o = Some p → (p < NPROC)%nat.

Record fio_ok {S} (y : fio S) : Prop := {
  yo_fs : fs_ok (y_fs y);
  yo_len : length (ftable y) = NFILE;
  yo_files : Forall file_ok (ftable y)
}.

Record proc_ok (x : proc) : Prop := {
  po_len : length (p_ofile x) = NOFILE;
  po_fds : Forall fd_ok (p_ofile x);
  po_cwd : oslot_ok (p_cwd x);
  po_name : length (p_name x) = 16%nat;
  po_parent : pid_ok (p_parent x)
}.

Record kern_ok {S} (k : kern S) : Prop := {
  ko_io : fio_ok (k_io k);
  ko_len : length (ptable k) = NPROC;
  ko_procs : Forall proc_ok (ptable k);
  ko_cur : pid_ok (curproc k);
  ko_init : pid_ok (initproc k)
}.

Section files.
Context {S : Type} `{BlockOps S}.
Implicit Types (y : fio S) (fs : fsys S).

Lemma fio_ok_fs y : fio_ok y → fs_ok (y_fs y).
Proof. by intros []. Qed.
Lemma fio_ok_set_fs y fs : fs_ok fs → fio_ok y → fio_ok (set_fs y fs).
Proof. by intros ? []. Qed.
Lemma fio_ok_yprint y msg : fio_ok y → fio_ok (yprint y msg).
Proof. intros Hy. apply fio_ok_set_fs; [|done]. apply fs_ok_fprint, Hy. Qed.
Lemma fio_ok_if (b : bool) y y' : fio_ok y → fio_ok y' → fio_ok (if b then y else y').
Proof. by destruct b. Qed.

Lemma fio_ok_upd y f g : (∀ x, file_ok x → file_ok (g x)) → fio_ok y → fio_ok (upd_file y f g).
Proof.
intros Hg [H1 H2 H3]. split; [done | cbn; by rewrite length_alter | apply Forall_alter; auto].
Qed.

Lemma filep_ok y f : fio_ok y → file_ok (filep y f).
Proof.
intros Hy. unfold filep. destruct (ftable y !! f) as [x|] eqn:E.
- rewrite (list_lookup_total_correct _ _ _ E). by eapply Forall_lookup_1 in E; [|apply Hy].
- rewrite list_lookup_total_alt, E. by intros ?.
Qed.

Lemma file_ok_none x : file_ok (fset_type x FD_NONE).
Proof. done. Qed.
End files.

#[export] Hint Resolve fio_ok_fs fio_ok_set_fs fio_ok_yprint fio_ok_if fio_ok_upd : typed.
#[export] Hint Extern 1 (file_ok _) => first [match goal with H : file_ok _ |- _ => exact H end | done] : typed.

Section file_ops.
Context {S : Type} `{BlockOps S}.
Implicit Types (y : fio S).

Lemma filealloc_typed y y' f : filealloc y = (y', f) → fio_ok y → fio_ok y' ∧ fd_ok f.
Proof.
unfold filealloc. destruct (free_file (ftable y) 0) as [i|] eqn:E; intros [= <- <-] Hy; [|done].
split; [eauto with typed|]. intros ? [= <-]. apply free_file_spec in E as (j & x & -> & Hx & _).
apply lookup_lt_Some in Hx. rewrite (yo_len _ Hy) in Hx. exact Hx.
Qed.
Lemma filealloc_typed_io y y' f : filealloc y = (y', f) → fio_ok y → fio_ok y'.
Proof. intros. by eapply filealloc_typed. Qed.

Lemma fileclose_typed y f y' : fileclose y f = Ok y' → fio_ok y → fio_ok y'.
Proof. unfold fileclose. typed. Qed.
Lemma filestat_typed y f y' r st : filestat y f = Ok (y', r, st) → fio_ok y → fio_ok y'.
Proof. unfold filestat. typed. Qed.
Lemma fileread_typed y f n y' r bs : fileread y f n = Ok (y', r, bs) → fio_ok y → fio_ok y'.
Proof. unfold fileread. typed. Qed.
Lemma filewrite_loop_typed y f src n r :
while (2 ^ 31) (filewrite_step f src n) (y, 0) = Ok r → fio_ok y → fio_ok r.1.
Proof.
intros Hr Hy. loop (λ s : fio S * Z, fio_ok s.1) (λ r : fio S * Z, fio_ok r.1) Hr.
intros [y1 i] x Hf1 Hx. cbn [filewrite_step fst snd] in *. typed.
Qed.
Lemma filewrite_typed y f src n y' r : filewrite y f src n = Ok (y', r) → fio_ok y → fio_ok y'.
Proof.
unfold filewrite. intros Hr Hy. ok_inv; eauto with typed. by apply filewrite_loop_typed in H0.
Qed.
End file_ops.

#[export] Hint Resolve filealloc_typed_io fileclose_typed filestat_typed fileread_typed filewrite_typed : typed.

(** * Processes *)

Section kern_state.
Context {S : Type} `{BlockOps S}.
Implicit Types (k : kern S) (p : nat) (x : proc).

Lemma proc_ok_proc0 : proc_ok proc0.
Proof. split; try done. by apply Forall_replicate. Qed.

Lemma procp_ok k p : kern_ok k → proc_ok (procp k p).
Proof.
intros Hk. unfold procp. destruct (ptable k !! p) as [x|] eqn:E.
- rewrite (list_lookup_total_correct _ _ _ E). by eapply Forall_lookup_1 in E; [|apply Hk].
- rewrite list_lookup_total_alt, E. apply proc_ok_proc0.
Qed.

Lemma kern_ok_io k : kern_ok k → fio_ok (k_io k).
Proof. by intros []. Qed.
Lemma kern_ok_fs k : kern_ok k → fs_ok (kfs k).
Proof. intros Hk. apply Hk. Qed.
Lemma kern_ok_set_io k y : fio_ok y → kern_ok k → kern_ok (set_io k y).
Proof. by intros ? []. Qed.
Lemma kern_ok_set_kfs k fs : fs_ok fs → kern_ok k → kern_ok (set_kfs k fs).
Proof. intros Hf [[]]. by repeat (split; [done..|]). Qed.
Lemma kern_ok_set_vm k st : kern_ok k → kern_ok (set_vm k st).
Proof. by intros []. Qed.
Lemma kern_ok_kmsg k msg : kern_ok k → kern_ok (kmsg k msg).
Proof. by intros []. Qed.
Lemma kern_ok_tf_set k p off v : kern_ok k → kern_ok (tf_set k p off v).
Proof. by intros []. Qed.
Lemma kern_ok_set_cpu k gdt a b c : kern_ok k → kern_ok (set_cpu k gdt a b c).
Proof. by intros []. Qed.
Lemma kern_ok_set_nextpid k v : kern_ok k → kern_ok (set_nextpid k v).
Proof. by intros []. Qed.
Lemma kern_ok_set_first k v : kern_ok k → kern_ok (set_first k v).
Proof. by intros []. Qed.
Lemma kern_ok_set_cur k c : pid_ok c → kern_ok k → kern_ok (set_cur k c).
Proof. by intros ? []. Qed.
Lemma kern_ok_set_init k c : pid_ok c → kern_ok k → kern_ok (set_init k c).
Proof. by intros ? []. Qed.
Lemma kern_ok_if (b : bool) k k' : kern_ok k → kern_ok k' → kern_ok (if b then k else k').
Proof. by destruct b. Qed.
Lemma kern_ok_decide {P Q : Prop} (b : {P} + {Q}) k k' :
kern_ok k → kern_ok k' → kern_ok (if b then k else k').
Proof. by destruct b. Qed.
Lemma kern_ok_upd k p f : (∀ x, proc_ok x → proc_ok (f x)) → kern_ok k → kern_ok (upd_proc k p f).
Proof.
intros Hf [H1 H2 H3 H4 H5]. split; [done | cbn; by rewrite length_alter | | done | done].
apply Forall_alter; auto.
Qed.

Lemma proc_ok_ofile x fd o : fd_ok o → proc_ok x → proc_ok (pset_ofile x fd o).
Proof.
intros Ho [H1 H2 H3 H4 H5]. split; cbn; try done; [by rewrite length_insert|]. by apply Forall_insert.
Qed.
Lemma proc_ok_cwd x o : oslot_ok o → proc_ok x → proc_ok (pset_cwd x o).
Proof. by intros Ho []. Qed.
Lemma proc_ok_parent x o : pid_ok o → proc_ok x → proc_ok (pset_parent x o).
Proof. by intros Ho []. Qed.
Lemma proc_ok_same x x' :
p_ofile x' = p_ofile x → p_cwd x' = p_cwd x → p_name x' = p_name x → p_parent x' = p_parent x →
proc_ok x → proc_ok x'.
Proof. intros E1 E2 E3 E4 []. by split; rewrite ?E1, ?E2, ?E3, ?E4. Qed.
Lemma proc_ok_name x t n : proc_ok x → proc_ok (pset_name x (safestrcpy_bytes (p_name x) t n)).
Proof.
intros []. split; try done. cbn. unfold safestrcpy_bytes.
destruct (_ <? _)%nat; by rewrite length_splice.
Qed.

Lemma cur_typed k p : cur k = Ok p → kern_ok k → (p < NPROC)%nat.
Proof. unfold cur. intros Hc Hk. ok_inv. by apply Hk. Qed.
Lemma path_cwd_typed k path c : path_cwd k path = Ok c → kern_ok k → slot_ok c.
Proof.
unfold path_cwd. intros Hc Hk. ok_inv; [unfold slot_ok, NINODE; lia|]. by eapply (po_cwd _ (procp_ok _ _ Hk)).
Qed.
Lemma fd_ok_lookup k p fd f : p_ofile (procp k p) !!! fd = Some f → kern_ok k → fd_ok (Some f).
Proof.
intros Hf Hk. pose proof (procp_ok k p Hk) as Hp. rewrite list_lookup_total_alt in Hf.
destruct (p_ofile (procp k p) !! fd) as [o|] eqn:E; [|done]. simpl in Hf. subst o.
by eapply Forall_lookup_1 in E; [|apply Hp].
Qed.
End kern_state.

#[export] Hint Resolve kern_ok_io kern_ok_fs kern_ok_set_io kern_ok_set_kfs kern_ok_set_vm kern_ok_kmsg
  kern_ok_tf_set kern_ok_set_cpu kern_ok_set_nextpid kern_ok_set_first kern_ok_set_cur kern_ok_set_init
  kern_ok_if kern_ok_decide kern_ok_upd proc_ok_ofile proc_ok_cwd proc_ok_name path_cwd_typed fd_ok_lookup : typed.
#[export] Hint Extern 3 (proc_ok _) =>
  match goal with H : proc_ok ?x |- _ => apply (proc_ok_same x); [reflexivity..|exact H] end : typed.
#[export] Hint Extern 1 (fd_ok None) => done : typed.

Section kern_ops.
Context {S : Type} `{BlockOps S}.
Implicit Types (k : kern S) (p : nat).

Lemma namei_cur_typed k path junk k' o :
namei_cur k path junk = Ok (k', o) → kern_ok k → kern_ok k' ∧ oslot_ok o.
Proof.
unfold namei_cur, namei. intros Hn Hk. ok_inv.
match goal with H : namex _ _ _ _ _ = Ok _ |- _ => apply namex_typed in H as [? ?] end;
  eauto 20 with typed.
Qed.
Lemma nameiparent_cur_typed k path name k' o name' :
nameiparent_cur k path name = Ok (k', o, name') → kern_ok k → kern_ok k' ∧ oslot_ok o.
Proof.
unfold nameiparent_cur, nameiparent. intros Hn Hk. ok_inv.
match goal with H : namex _ _ _ _ _ = Ok _ |- _ => apply namex_typed in H as [? ?] end;
  eauto 20 with typed.
Qed.
Lemma namei_cur_typed_k k path junk k' o : namei_cur k path junk = Ok (k', o) → kern_ok k → kern_ok k'.
Proof. intros. by eapply namei_cur_typed. Qed.
Lemma namei_cur_typed_slot k path junk k' o : namei_cur k path junk = Ok (k', o) → kern_ok k → oslot_ok o.
Proof. intros. by eapply namei_cur_typed. Qed.
Lemma nameiparent_cur_typed_k k path name k' o name' :
nameiparent_cur k path name = Ok (k', o, name') → kern_ok k → kern_ok k'.
Proof. intros. by eapply nameiparent_cur_typed. Qed.
#[local] Hint Resolve namei_cur_typed_k namei_cur_typed_slot nameiparent_cur_typed_k : typed.

Lemma switchuvm_typed k ts (p : option nat) k' : switchuvm k ts p = Ok k' → kern_ok k → kern_ok k'.
Proof. unfold switchuvm. typed. Qed.
#[local] Hint Resolve switchuvm_typed : typed.

Lemma next_runnable_lt ps i p : next_runnable ps i = Some p → (i ≤ p < i + length ps)%nat.
Proof.
revert i. induction ps as [|x ps IH]; intros i; cbn [next_runnable length]; [done|].
case_decide; [intros [= <-]; lia|]. intros Hn%IH. lia.
Qed.
Lemma scheduler_typed k ts k' o : scheduler k ts = Ok (k', o) → kern_ok k → kern_ok k'.
Proof.
unfold scheduler. intros Hs Hk. destruct (next_runnable _ _) as [p|] eqn:E; ok_inv; [|done].
apply next_runnable_lt in E. rewrite (ko_len _ Hk) in E.
apply kern_ok_set_cur; [intros ? [= <-]; lia|]. eauto 20 with typed.
Qed.
Lemma forkret_typed k k' : forkret k = Ok k' → kern_ok k → kern_ok k'.
Proof. unfold forkret. typed. Qed.
Lemma allocproc_typed k a b k' o : allocproc k a b = (k', o) → kern_ok k → kern_ok k' ∧ pid_ok o.
Proof.
unfold allocproc. intros Ha Hk. assert (pid_ok (Some 0%nat)) by (intros ? [= <-]; unfold NPROC; lia).
destruct (decide _); [|by injection Ha as <- <-].
destruct (kalloc _) as [st a0]. destruct (a0 =? 0); injection Ha as <- <-; (split; [|done]);
  eauto 40 with typed.
Qed.
Lemma uinit_typed k a b c d e k' : uinit_proc k a b c d e = Ok k' → kern_ok k → kern_ok k'.
Proof.
unfold uinit_proc. intros Hu Hk. destruct (allocproc k a b) as [k1 o] eqn:E.
apply allocproc_typed in E as [Hk1 Ho]; [|done]. ok_inv. eauto 60 with typed.
Qed.
End kern_ops.

#[export] Hint Resolve namei_cur_typed_k namei_cur_typed_slot nameiparent_cur_typed_k switchuvm_typed : typed.

(** * Programs and system calls *)

Section call_ops.
Context {S : Type} `{BlockOps S}.
Implicit Types (k : kern S) (p : nat).

Lemma close_all_typed n k p fd k' : close_all k p fd n = Ok k' → kern_ok k → kern_ok k'.
Proof.
revert k fd. induction n as [|n IH]; intros k fd; cbn [close_all]; [typed|].
intros Hc Hk. ok_inv; (eapply IH; [eassumption|]); eauto 40 with typed.
Qed.
#[local] Hint Resolve close_all_typed : typed.
Lemma exit_typed k k' : exit k = Ok k' → kern_ok k → kern_ok k'.
Proof.
unfold exit. intros He Hk. ok_inv.
match goal with |- kern_ok (set_procs ?k1 _) => assert (kern_ok k1) as [? Hl Hps ? ?] by eauto 60 with typed end.
split; cbn; try done; [by rewrite length_fmap|]. apply Forall_fmap.
eapply Forall_impl; [exact Hps|]. intros z Hz. cbn. destruct (decide (p_parent z = _)); [apply proc_ok_parent|]; assumption.
Qed.

Lemma loaduvm_typed k pgdir addr ip off sz k' r :
loaduvm k pgdir addr ip off sz = Ok (k', r) → kern_ok k → kern_ok k'.
Proof.
unfold loaduvm. intros Hl Hk.
loop (λ s : kern S * Z, kern_ok s.1) (λ r : kern S * Z, kern_ok r.1) Hl; [|eauto with typed].
intros [k1 i] x Hk1 Hx. cbn [loaduvm_step fst snd] in *.
destruct (walkpgdir _ _ _ _); typed.
Qed.
#[local] Hint Resolve loaduvm_typed : typed.
Lemma load_segments_typed n k pgdir ip off sz k' r :
load_segments k pgdir ip off sz n = Ok (k', r) → kern_ok k → kern_ok k'.
Proof. revert k off sz. induction n; intros k off sz; cbn [load_segments]; unfold load_ph; typed. Qed.
Lemma push_args_typed argv k pgdir sp argc addrs k' r :
push_args k pgdir sp argc argv addrs = Ok (k', r) → kern_ok k → kern_ok k'.
Proof. revert k sp argc addrs. induction argv; intros k sp argc addrs; cbn [push_args]; typed. Qed.
Lemma exec_bad_typed k pgdir ip k' r : exec_bad k pgdir ip = Ok (k', r) → kern_ok k → kern_ok k'.
Proof. unfold exec_bad. typed. Qed.
#[local] Hint Resolve load_segments_typed push_args_typed exec_bad_typed : typed.
Lemma exec_commit_typed k ts p pgdir sz entry sp path k' r :
exec_commit k ts p pgdir sz entry sp path = Ok (k', r) → kern_ok k → kern_ok k'.
Proof. unfold exec_commit. typed. Qed.
#[local] Hint Resolve exec_commit_typed : typed.
Lemma exec_stack_typed k ts p pgdir sz entry path argv k' r :
exec_stack k ts p pgdir sz entry path argv = Ok (k', r) → kern_ok k → kern_ok k'.
Proof. unfold exec_stack. typed. Qed.
#[local] Hint Resolve exec_stack_typed : typed.
Lemma exec_typed k data ts path argv junk k' r :
exec k data ts path argv junk = Ok (k', r) → kern_ok k → kern_ok k'.
Proof. unfold exec, exec_elf. typed. Qed.
#[local] Hint Resolve exit_typed exec_typed : typed.

Lemma user_store_typed k a bs k' : user_store k a bs = Ok k' → kern_ok k → kern_ok k'.
Proof. unfold user_store. typed. Qed.
Lemma fdalloc_typed k f k' fd :
fdalloc k f = Ok (k', fd) → (f < NFILE)%nat → kern_ok k → kern_ok k'.
Proof.
unfold fdalloc. intros Hf Hlt Hk. assert (fd_ok (Some f)) by (by intros ? [= <-]).
typed.
Qed.
#[local] Hint Resolve user_store_typed : typed.
Lemma create_new_typed k dp name type major minor k' o :
create_new k dp name type major minor = Ok (k', o) → kern_ok k → kern_ok k' ∧ oslot_ok o.
Proof. unfold create_new. typed. Qed.
Lemma create_typed k path junk type major minor k' o :
create k path junk type major minor = Ok (k', o) → kern_ok k → kern_ok k' ∧ oslot_ok o.
Proof.
unfold create. intros Hc Hk. ok_inv; try (split; eauto 40 with typed; fail).
eapply create_new_typed; [eassumption|]. eauto 30 with typed.
Qed.
Lemma open_inode_typed k ip omode k' r :
open_inode k ip omode = Ok (k', r) → slot_ok ip → kern_ok k → kern_ok k'.
Proof.
unfold open_inode. intros Ho Hip Hk. destruct (filealloc (k_io k)) as [y o] eqn:E.
apply filealloc_typed in E as [Hy Hf]; [|apply Hk]. ok_inv; [| |eauto 30 with typed].
all: match goal with H : fdalloc _ _ = Ok _ |- _ =>
  apply fdalloc_typed in H; [|by apply Hf|eauto with typed] end; eauto 30 with typed.
apply kern_ok_set_io; [|eauto 30 with typed]. apply fio_ok_upd; [by intros x _ _|]. eauto 30 with typed.
Qed.
End call_ops.

#[export] Hint Resolve exit_typed exec_typed user_store_typed open_inode_typed : typed.

Section calls.
Context {S : Type} `{BlockOps S}.
Implicit Types (k : kern S).

Lemma create_typed_k k path junk type major minor k' o :
create k path junk type major minor = Ok (k', o) → kern_ok k → kern_ok k'.
Proof. intros. by eapply create_typed. Qed.
Lemma create_typed_slot k path junk type major minor k' ip :
create k path junk type major minor = Ok (k', Some ip) → kern_ok k → slot_ok ip.
Proof. intros Hc Hk. by apply (create_typed _ _ _ _ _ _ _ _ Hc Hk). Qed.
Lemma namei_cur_typed_some k path junk k' ip : namei_cur k path junk = Ok (k', Some ip) → kern_ok k → slot_ok ip.
Proof. intros Hc Hk. by apply (namei_cur_typed _ _ _ _ _ Hc Hk). Qed.
#[local] Hint Resolve create_typed_k create_typed_slot namei_cur_typed_some : typed.

Lemma sys_open_typed k junk k' r : sys_open k junk = Ok (k', r) → kern_ok k → kern_ok k'.
Proof. unfold sys_open. typed. Qed.
Lemma sys_mknod_typed k junk k' r : sys_mknod k junk = Ok (k', r) → kern_ok k → kern_ok k'.
Proof. unfold sys_mknod. typed. Qed.
Lemma sys_exec_typed k data ts junk k' r : sys_exec k data ts junk = Ok (k', r) → kern_ok k → kern_ok k'.
Proof. unfold sys_exec. typed. Qed.
Lemma sys_write_typed k k' r : sys_write k = Ok (k', r) → kern_ok k → kern_ok k'.
Proof. unfold sys_write. typed. Qed.
Lemma sys_read_typed k k' r : sys_read k = Ok (k', r) → kern_ok k → kern_ok k'.
Proof. unfold sys_read. typed. Qed.
Lemma sys_close_typed k k' r : sys_close k = Ok (k', r) → kern_ok k → kern_ok k'.
Proof. unfold sys_close. typed. Qed.
Lemma store_fields_typed l k p k' : store_fields k p l = Ok k' → kern_ok k → kern_ok k'.
Proof. revert k. induction l as [|[off bs] l IH]; intros k; cbn [store_fields]; typed. Qed.
#[local] Hint Resolve store_fields_typed : typed.
Lemma sys_fstat_typed k k' r : sys_fstat k = Ok (k', r) → kern_ok k → kern_ok k'.
Proof. unfold sys_fstat. typed. Qed.
#[local] Hint Resolve sys_open_typed sys_mknod_typed sys_exec_typed sys_write_typed sys_read_typed
  sys_close_typed sys_fstat_typed : typed.

Lemma run_syscall_typed k data ts junk fn k' r :
run_syscall k data ts junk fn = Ok (k', r) → kern_ok k → kern_ok k'.
Proof. destruct fn; cbn [run_syscall]; unfold sys_exit; typed. Qed.
#[local] Hint Resolve run_syscall_typed : typed.
Lemma syscall_typed k data ts junk a k' : syscall k data ts junk a = Ok k' → kern_ok k → kern_ok k'.
Proof. unfold syscall, dispatcher. typed. Qed.
End calls.

#[export] Hint Resolve scheduler_typed forkret_typed uinit_typed syscall_typed : typed.

(** * The steps of the system

    What can happen to the state: a user program runs and changes memory, it
    calls the kernel with any registers, the scheduler switches to a process, a
    process runs for the first time, the first process is made. *)
Section steps.
Context {S : Type} `{BlockOps S}.

Inductive kstep : kern S → kern S → Prop :=
| step_user k st : kstep k (set_vm k st)
| step_syscall k k' data ts junk a : syscall k data ts junk a = Ok k' → kstep k k'
| step_scheduler k k' ts o : scheduler k ts = Ok (k', o) → kstep k k'
| step_forkret k k' : forkret k = Ok k' → kstep k k'
| step_uinit k k' trapret frk data image size : uinit_proc k trapret frk data image size = Ok k' → kstep k k'.

(** Whatever the user programs do, the kernel's tables keep their shape: after
any sequence of steps from a state of that shape, the open-file table has its
100 slots and the process table its 64, every descriptor of a process is a
slot of the file table, the inode of every open file and every current
directory is a slot of the inode cache, every inode has its 13 block
addresses, parents and the current process are processes of the table. *)
Theorem kernel_typed k k' : rtc kstep k k' → kern_ok k → kern_ok k'.
Proof. induction 1 as [|k1 k2 k3 Hs _ IH]; [done|]. intros Hk. apply IH. destruct Hs; eauto with typed. Qed.
End steps.

(** A full-sized kernel with one runnable process: the scheduler runs it, and it
    makes a system call that does not exist. *)
Definition full_kern : kern (disk_st ata) :=
  mk_kern (mk_fio fs0 (mk_file FD_INODE 1 1 1 0 0 :: replicate 99 inhabitant)) kst0
    (pset_cwd (pset_ofile (pset_state proc0 RUNNABLE) 0 (Some 0%nat)) (Some 0%nat) :: replicate 63 proc0)
    None (Some 0%nat) 2 [] 0 0 0 true.

Lemma full_kern_ok : kern_ok full_kern.
Proof.
  split; [split; [split|..]|..]; try reflexivity.
  - apply Forall_cons; split; [reflexivity|]. by apply Forall_replicate.
  - apply Forall_cons; split; [intros _; unfold slot_ok, NINODE; cbn; lia|]. by apply Forall_replicate.
  - apply Forall_cons; split; [|apply Forall_replicate, proc_ok_proc0].
    apply proc_ok_cwd; [intros ? [= <-]; unfold slot_ok, NINODE; lia|].
    apply proc_ok_ofile; [intros ? [= <-]; unfold NFILE; lia|]. by apply (proc_ok_same proc0), proc_ok_proc0.
  - by intros ?.
  - intros ? [= <-]. unfold NPROC. lia.
Qed.

Lemma kernel_typed_witness :
  ∃ k', rtc kstep full_kern k' ∧ curproc k' = Some 0%nat ∧
    klog (k_vm k') = ["unknow syscall"; "recv syscall: %d,%d"; "switchuvm: no pgdir"; "switchuvm: no kstack"]%string ∧
    kern_ok k'.
Proof.
  assert (∃ k1, scheduler full_kern 0 = Ok (k1, Some 0%nat)) as (k1 & E1) by (eexists; reflexivity).
  assert (∃ k2, syscall k1 0 0 [] 0 = Ok k2) as (k2 & E2)
    by (injection E1 as <-; eexists; reflexivity).
  assert (rtc kstep full_kern k2) as Hs.
  { eapply rtc_l; [eapply step_scheduler, E1|]. eapply rtc_l; [eapply step_syscall, E2|]. apply rtc_refl. }
  exists k2. split; [exact Hs|]. split; [|split; [|exact (kernel_typed _ _ Hs full_kern_ok)]].
  all: injection E1 as <-; injection E2 as <-; reflexivity.
Defined.
