(* ===== verification/CallProps.v ===== *)
(** The system calls: what they take from user memory is inside it, what they
    give back arrives there, and what happens to descriptors and processes. *)
From S2P Require Import Prelude Memory LibC Mmu Kalloc Vm UserMem Uvm UvmProps Seg Ports Ide Block Bio.
From S2P Require Import FsLayout Fs FsDir FsBlocks FsFile FsRw FsProps FsDirProps File Kernel Exec Calls.

(** The current process [p] has the address space [um], mapped up to its size. *)
Record user_proc {S} (k : kern S) (p : nat) (um : gmap Z Z) (l : list Z) : Prop := {
  up_cur : curproc k = Some p;
  up_uvm : uvm (k_vm k) (p_pgdir (procp k p)) um l;
  up_sz : 0 ≤ p_sz (procp k p) ≤ KERNBASE;
  up_mapped : umapped um 0 (p_sz (procp k p))
}.

Section args.
Context {S : Type} `{BlockOps S}.
Implicit Types (k : kern S) (p : nat).

Section proc.
Context (k : kern S) (p : nat) (um : gmap Z Z) (l : list Z) (Hp : user_proc k p um l).

Lemma cur_user : cur k = Ok p.
Proof. unfold cur. by rewrite (up_cur _ _ _ _ Hp). Qed.

Lemma cur_proc_user : cur_proc k = Ok (procp k p).
Proof. unfold cur_proc. by rewrite cur_user. Qed.

Lemma user_mapped a n : 0 ≤ a → a + n ≤ p_sz (procp k p) → umapped um a n.
Proof. intros Ha Hn u Hu. apply (up_mapped _ _ _ _ Hp). lia. Qed.

(** A byte of the process's memory. *)
Lemma user_byte a :
  0 ≤ a < p_sz (procp k p) →
  ∃ b, ubyte (k_vm k) um a = Some b ∧ uld8 (k_vm k) (p_pgdir (procp k p)) a = Ok b ∧ 0 ≤ b < 256.
Proof.
  intros Ha. destruct (up_mapped _ _ _ _ Hp a) as (q & Eq); [lia|].
  pose proof (up_sz _ _ _ _ Hp). unfold KERNBASE in *.
  exists (ld8 (km (k_vm k)) (q + a mod 4096)).
  assert (ubyte (k_vm k) um a = Some (ld8 (km (k_vm k)) (q + a mod 4096))) as E
    by (unfold ubyte; by rewrite Eq).
  split; [done|]. split; [|apply ld8_range].
  apply (uld8_uvm _ um l); [apply Hp|unfold KERNBASE; lia|done].
Qed.

Lemma user_uld_bytes n a :
  0 ≤ a → a + Z.of_nat n ≤ p_sz (procp k p) →
  ∃ bs, uld_bytes (k_vm k) (p_pgdir (procp k p)) a n = Ok bs ∧ length bs = n ∧
    Forall (λ b, 0 ≤ b < 256) bs ∧
    ∀ i, (i < n)%nat → ubyte (k_vm k) um (a + Z.of_nat i) = bs !! i.
Proof.
  revert a. induction n as [|n IH]; intros a Ha Hn.
  { exists []. split; [done|]. split; [done|]. split; [constructor|lia]. }
  destruct (user_byte a) as (b & Eb & El & Hb); [lia|].
  pose proof (up_sz _ _ _ _ Hp) as Hsz. unfold KERNBASE in Hsz.
  destruct (IH (a + 1)) as (bs & E & Hl & Hr & Hi); [lia|lia|].
  exists (b :: bs). cbn [uld_bytes]. rewrite El. cbn [rbind]. rewrite u32_small by lia. rewrite E.
  split; [done|]. split; [cbn; lia|]. split; [by constructor|]. intros [|i] Hlt.
  - by rewrite Z.add_0_r, Eb.
  - cbn [lookup list_lookup]. rewrite <- Hi by lia. f_equal. lia.
Qed.

(** [getint] answers the word at an address whose four bytes are below the
    size, and -1 for any other address. *)
Lemma getint_spec addr :
  0 ≤ addr < 2 ^ 32 →
  if decide (addr + 4 ≤ p_sz (procp k p))
  then ∃ v, getint k addr = Ok (Some v) ∧ 0 ≤ v < 2 ^ 32
  else getint k addr = Ok None.
Proof.
  intros Ha. pose proof (up_sz _ _ _ _ Hp) as Hsz. unfold KERNBASE in Hsz.
  unfold getint. rewrite cur_proc_user. cbn [rbind]. case_decide as Hd.
  - rewrite (proj2 (Z.leb_gt _ _)), u32_small, (proj2 (Z.ltb_ge _ _)) by lia. cbn [orb].
    destruct (user_uld_bytes 4 addr) as (bs & E & Hl & Hr & _); [lia|lia|].
    unfold uld32. rewrite E. cbn [rbind].
    do 5 (destruct bs as [|? bs]; try discriminate Hl).
    rewrite !Forall_cons in Hr. eexists; split; [reflexivity|]. lia.
  - destruct (Z.leb_spec (p_sz (procp k p)) addr); [done|]. rewrite u32_small by lia.
    rewrite (proj2 (Z.ltb_lt _ _)) by lia. done.
Qed.

Lemma argint_total n : ∃ o, argint k n = Ok o ∧ ∀ v, o = Some v → 0 ≤ v < 2 ^ 32.
Proof.
  unfold argint. rewrite cur_user. cbn [rbind].
  pose proof (getint_spec (u32 (tf_get k p TF_ESP + 4 + 4 * n)) (u32_range _)) as Hg.
  case_decide; [destruct Hg as (v & -> & Hv)|rewrite Hg]; (eexists; split; [reflexivity|]); [|done].
  by intros v' [= <-].
Qed.

(** Which blocks [argptr] accepts: those inside the process's memory. *)
Lemma argptr_spec n size :
  - 2 ^ 31 ≤ size < 2 ^ 31 →
  ∃ o, argint k n = Ok o ∧ (∀ v, o = Some v → 0 ≤ v < 2 ^ 32) ∧
    argptr k n size =
      Ok (match o with
          | Some i => if decide (0 ≤ size ∧ i < p_sz (procp k p) ∧ i + size ≤ p_sz (procp k p))
                      then Some i else None
          | None => None
          end).
Proof.
  intros Hs. destruct (argint_total n) as (o & E & Ho). exists o. split; [done|]. split; [done|].
  unfold argptr. rewrite cur_proc_user, E. cbn [rbind]. destruct o as [i|]; [|done].
  specialize (Ho i eq_refl). pose proof (up_sz _ _ _ _ Hp) as Hsz. unfold KERNBASE in Hsz.
  case_decide as Hd.
  - rewrite (proj2 (Z.ltb_ge size 0)), (proj2 (Z.leb_gt _ _)), u32_small, (proj2 (Z.ltb_ge _ _)) by lia.
    done.
  - destruct (Z.ltb_spec size 0); [done|]. destruct (Z.leb_spec (p_sz (procp k p)) i); [done|].
    rewrite u32_small by lia. rewrite (proj2 (Z.ltb_lt _ _)) by lia. done.
Qed.

(** Stores inside the process's memory. *)
Lemma user_store_spec a bs :
  0 ≤ a → a + Z.of_nat (length bs) ≤ p_sz (procp k p) →
  ∃ st', user_store k a bs = Ok (set_vm k st') ∧
    ustored (p_pgdir (procp k p)) um l (k_vm k) a bs st'.
Proof.
  intros Ha Hn. pose proof (up_sz _ _ _ _ Hp) as Hsz.
  unfold user_store. rewrite cur_proc_user. cbn [rbind].
  destruct (ust_bytes_spec (p_pgdir (procp k p)) um l (k_vm k) a bs) as (st' & -> & Hs);
    [apply Hp|done|lia|by apply user_mapped|]. by exists st'.
Qed.

Lemma user_proc_set_vm st' :
  uvm st' (p_pgdir (procp k p)) um l → user_proc (set_vm k st') p um l.
Proof. intros Hu. destruct Hp. by split. Qed.
End proc.

(** C17. A pointer argument that [argptr] lets through is inside the memory of
    the process, with all the bytes asked for: any store of that many bytes
    there succeeds, changes those bytes and nothing else of the address space;
    and [argptr] never faults, whatever the arguments are. *)
Theorem argptr_safe k p um l n size :
  user_proc k p um l → - 2 ^ 31 ≤ size < 2 ^ 31 →
  ∃ o, argptr k n size = Ok o ∧
    ∀ i, o = Some i →
      0 ≤ i ∧ 0 ≤ size ∧ i + size ≤ p_sz (procp k p) ∧ argint k n = Ok (Some i) ∧
      ∀ bs, Z.of_nat (length bs) ≤ size →
        ∃ k', user_store k i bs = Ok k' ∧ user_proc k' p um l ∧
          ∀ u, ubyte (k_vm k') um u =
            if decide (i ≤ u < i + Z.of_nat (length bs)) then Some (u8 (zget bs (u - i)))
            else ubyte (k_vm k) um u.
Proof.
  intros Hp Hs. destruct (argptr_spec k p um l Hp n size Hs) as (o & E & Ho & ->).
  eexists; split; [reflexivity|]. intros i Ei. destruct o as [j|]; [|done].
  case_decide as Hd; [|done]. injection Ei as ->. specialize (Ho i eq_refl).
  split; [lia|]. split; [lia|]. split; [lia|]. split; [done|]. intros bs Hbs.
  destruct (user_store_spec k p um l Hp i bs) as (st' & -> & Hst); [lia|lia|].
  eexists; split; [reflexivity|]. split; [|apply Hst].
  apply user_proc_set_vm; [done|apply Hst].
Qed.

Lemma getstr_spec k p um l addr :
  user_proc k p um l → 0 ≤ addr →
  ∃ o, getstr k addr = Ok o ∧
    match o with
    | Some len =>
        0 ≤ len ∧ addr + len < p_sz (procp k p) ∧ ubyte (k_vm k) um (addr + len) = Some 0 ∧
        ∀ u, addr ≤ u < addr + len → ubyte (k_vm k) um u ≠ Some 0
    | None => ∀ u, addr ≤ u < p_sz (procp k p) → ubyte (k_vm k) um u ≠ Some 0
    end.
Proof.
  intros Hp Ha. pose proof (up_sz _ _ _ _ Hp) as Hsz. unfold KERNBASE in Hsz.
  unfold getstr. rewrite (cur_proc_user k p um l Hp). cbn [rbind].
  destruct (Z.leb_spec (p_sz (procp k p)) addr) as [Hle|Hlt].
  { exists None. split; [done|]. intros u Hu. lia. }
  unfold getstr_len.
  apply while_spec with
    (I := λ s, addr ≤ s ≤ p_sz (procp k p) ∧ ∀ u, addr ≤ u < s → ubyte (k_vm k) um u ≠ Some 0)
    (mu := λ s, p_sz (procp k p) - s); [lia| |split; lia|lia].
  intros s (Hs & Hnz). destruct (Z.ltb_spec s (p_sz (procp k p))) as [Hlt'|Hge].
  - destruct (user_byte k p um l Hp s) as (b & Eb & -> & Hb); [lia|]. cbn [rbind].
    destruct (Z.eqb_spec b 0) as [->|Hb0].
    + right. eexists; split; [reflexivity|]. cbn beta iota. rewrite (Zplus_minus addr s).
      split; [lia|]. split; [lia|]. split; [done|]. intros u Hu. apply Hnz. lia.
    + left. exists (s + 1). split; [done|]. split; [split; [lia|]|lia]. intros u Hu.
      destruct (decide (u = s)) as [->|]; [|apply Hnz; lia]. rewrite Eb. by intros [= ?].
  - right. exists None. split; [done|]. intros u Hu. apply Hnz. lia.
Qed.

(** C30. [getstr] ends without a fault for every address a user program can
    pass: it answers the length of the string when its terminating 0 is below
    the size of the process, and -1 when the string runs past the end. *)
Theorem getstr_terminated k p um l addr :
  user_proc k p um l → 0 ≤ addr →
  ∃ o, getstr k addr = Ok o ∧
    match o with
    | Some len =>
        0 ≤ len ∧ addr + len < p_sz (procp k p) ∧ ubyte (k_vm k) um (addr + len) = Some 0 ∧
        ∀ u, addr ≤ u < addr + len → ubyte (k_vm k) um u ≠ Some 0
    | None => ∀ u, addr ≤ u < p_sz (procp k p) → ubyte (k_vm k) um u ≠ Some 0
    end.
Proof. exact (getstr_spec k p um l addr). Qed.

(** * Descriptors *)

Lemma free_fd_spec ofile fd0 :
  match free_fd ofile fd0 with
  | Some fd => ∃ j, fd = (fd0 + j)%nat ∧ ofile !! j = Some None ∧
      ∀ i, (i < j)%nat → ∃ f, ofile !! i = Some (Some f)
  | None => ∀ i o, ofile !! i = Some o → o ≠ None
  end.
Proof.
  revert fd0. induction ofile as [|[f|] ofile IH]; intros fd0; cbn [free_fd].
  - done.
  - specialize (IH (fd0 + 1)%nat). destruct (free_fd ofile (fd0 + 1)).
    + destruct IH as (j & -> & Hj & Hlt). exists (1 + j)%nat. split; [lia|]. split; [done|].
      intros [|i] Hi; [by exists f|]. apply Hlt. lia.
    + intros [|i] o Hi; [by injection Hi as <-|]. by apply (IH i o).
  - exists 0%nat. split; [lia|]. split; [done|]. lia.
Qed.

(** [fdalloc] binds the lowest free descriptor of the current process to the
    file and nothing else, and fails only when all descriptors are in use;
    after a [close] of a lower descriptor, that one is the next to be given. *)
Theorem fdalloc_lowest k p f :
  curproc k = Some p → (p < length (ptable k))%nat →
  let files := p_ofile (procp k p) in
  ∃ k' r, fdalloc k f = Ok (k', r) ∧
    match r with
    | Some fd =>
        files !! fd = Some None ∧ (∀ i, (i < fd)%nat → ∃ g, files !! i = Some (Some g)) ∧
        p_ofile (procp k' p) = <[fd := Some f]> files ∧
        (∀ q, q ≠ p → procp k' q = procp k q) ∧ k_io k' = k_io k ∧ k_vm k' = k_vm k
    | None => k' = k ∧ ∀ i o, files !! i = Some o → o ≠ None
    end.
Proof.
  intros Hc Hp files. unfold fdalloc, cur. rewrite Hc. cbn [rbind].
  pose proof (free_fd_spec (p_ofile (procp k p)) 0) as Hf.
  destruct (free_fd (p_ofile (procp k p)) 0) as [fd|]; [|by exists k, None].
  destruct Hf as (j & -> & Hj & Hlt). cbn [Nat.add]. eexists _, (Some j). split; [reflexivity|].
  split; [done|]. split; [done|]. unfold procp, upd_proc. cbn [ptable set_procs]. split.
  - rewrite !list_lookup_total_alt, list_lookup_alter, decide_True by done.
    fold (procp k p). unfold files, procp. rewrite list_lookup_total_alt.
    by destruct (lookup_lt_is_Some_2 _ _ Hp) as (x & ->).
  - split; [|done]. intros q Hq. by rewrite list_lookup_total_alter_ne.
Qed.

(** * Processes *)

Lemma procp_upd k p f : (p < length (ptable k))%nat → procp (upd_proc k p f) p = f (procp k p).
Proof.
  intros Hp. unfold procp, upd_proc. cbn [ptable set_procs].
  rewrite !list_lookup_total_alt, list_lookup_alter, decide_True by done.
  by destruct (lookup_lt_is_Some_2 _ _ Hp) as (x & ->).
Qed.

Lemma procp_upd_ne k p f q : q ≠ p → procp (upd_proc k p f) q = procp k q.
Proof. intros Hq. unfold procp, upd_proc. cbn [ptable set_procs]. by rewrite list_lookup_total_alter_ne. Qed.

Lemma next_runnable_spec ps p0 :
  match next_runnable ps p0 with
  | Some p => ∃ j x, p = (p0 + j)%nat ∧ ps !! j = Some x ∧ p_state x = RUNNABLE ∧
      ∀ i y, (i < j)%nat → ps !! i = Some y → p_state y ≠ RUNNABLE
  | None => ∀ i y, ps !! i = Some y → p_state y ≠ RUNNABLE
  end.
Proof.
  revert p0. induction ps as [|x ps IH]; intros p0; cbn [next_runnable]; [done|].
  destruct (decide (p_state x = RUNNABLE)) as [E|N].
  - exists 0%nat, x. split; [lia|]. split; [done|]. split; [done|]. lia.
  - specialize (IH (p0 + 1)%nat). destruct (next_runnable ps (p0 + 1)).
    + destruct IH as (j & y & -> & Hj & E & Hlt). exists (1 + j)%nat, y. split; [lia|].
      split; [done|]. split; [done|]. intros [|i] z Hi Hz; [by injection Hz as <-|].
      apply (Hlt i); [lia|done].
    + intros [|i] y Hi; [by injection Hi as <-|]. by apply (IH i).
Qed.

(** C29. Whenever some process is runnable, [scheduler] switches to one: the
    first of the table.  That process becomes the current one and is the only
    one whose state changes, to running; the processor has its page directory
    and its kernel stack. *)
Theorem scheduler_runs k ts_addr :
  ∃ k' r, scheduler k ts_addr = Ok (k', r) ∧
    match r with
    | Some p =>
        p_state (procp k p) = RUNNABLE ∧ (∀ q, (q < p)%nat → p_state (procp k q) ≠ RUNNABLE) ∧
        curproc k' = Some p ∧ procp k' p = pset_state (procp k p) RUNNING ∧
        (∀ q, q ≠ p → procp k' q = procp k q) ∧
        k_cr3 k' = V2P (p_pgdir (procp k p)) ∧ k_esp0 k' = u32 (p_kstack (procp k p) + 4096) ∧
        k_ss0 k' = Z.of_nat SEG_KDATA * 8 ∧ k_io k' = k_io k ∧ km (k_vm k') = km (k_vm k)
    | None => k' = k ∧ ∀ q, (q < length (ptable k))%nat → p_state (procp k q) ≠ RUNNABLE
    end.
Proof.
  unfold scheduler. pose proof (next_runnable_spec (ptable k) 0) as Hn.
  destruct (next_runnable (ptable k) 0) as [p|].
  - destruct Hn as (j & x & -> & Hj & E & Hlt). cbn [Nat.add]. unfold switchuvm.
    pose proof (lookup_lt_Some _ _ _ Hj) as Hl. cbn [rbind].
    set (k1 := if p_kstack _ =? 0 then _ else _). set (k2 := if p_pgdir _ =? 0 then _ else _).
    assert (ptable k2 = ptable k ∧ k_io k2 = k_io k ∧ km (k_vm k2) = km (k_vm k)) as (Ep & Ei & Em)
      by (unfold k2, k1; destruct (p_pgdir _ =? 0); destruct (p_kstack _ =? 0); done).
    assert (∀ q, procp k2 q = procp k q) as Eq by (intros q; unfold procp; by rewrite Ep).
    eexists _, (Some j). split; [reflexivity|].
    assert (procp k j = x) as Ex by (by apply list_lookup_total_correct).
    split; [by rewrite Ex|]. split.
    { intros q Hq. destruct (lookup_lt_is_Some_2 (ptable k) q) as (y & Hy); [lia|].
      unfold procp. rewrite (list_lookup_total_correct _ _ _ Hy). by apply (Hlt q). }
    split; [done|]. split.
    { change (procp (upd_proc k2 j (λ x, pset_state x RUNNING)) j = pset_state (procp k j) RUNNING).
      rewrite procp_upd by (by rewrite Ep). by rewrite Eq. }
    split; [|done]. intros q Hq.
    change (procp (upd_proc k2 j (λ x, pset_state x RUNNING)) q = procp k q).
    by rewrite procp_upd_ne, Eq.
  - exists k, None. split; [done|]. split; [done|]. intros q Hq.
    destruct (lookup_lt_is_Some_2 _ _ Hq) as (y & Hy). unfold procp.
    rewrite (list_lookup_total_correct _ _ _ Hy). by apply (Hn q).
Qed.

(** * exit *)

(** No inode of the cache waits for its last user to be freed on the disk. *)
Definition all_linked (fs : fsys S) : Prop :=
  ∀ ip x, icache fs !! ip = Some x → i_valid x = 0 ∨ i_nlink x ≠ 0.

Lemma iput_linked (fs : fsys S) ip :
  all_linked fs → (ip < length (icache fs))%nat →
  iput fs ip = Ok (upd_inode fs ip (λ x, set_ref x (s32 (i_ref x - 1)))) ∧
  all_linked (upd_inode fs ip (λ x, set_ref x (s32 (i_ref x - 1)))).
Proof.
  intros Ha Hip. destruct (lookup_lt_is_Some_2 _ _ Hip) as (x & Hx). split.
  - unfold iput, inodep. rewrite (list_lookup_total_correct _ _ _ Hx).
    destruct (Ha ip x Hx) as [E|N].
    + rewrite E. done.
    + rewrite (proj2 (Z.eqb_neq (i_nlink x) 0)) by done. rewrite andb_false_r. done.
  - intros ip' y. unfold upd_inode, set_icache. cbn [icache]. rewrite list_lookup_alter.
    case_decide as E; [subst|by apply Ha]. rewrite Hx. intros [= <-]. by apply (Ha ip' x).
Qed.

(** The files hold slots of the inode cache. *)
Definition files_ok (y : fio S) : Prop :=
  all_linked (y_fs y) ∧ ∀ f, (f_ip (filep y f) < length (icache (y_fs y)))%nat.

Lemma fileclose_linked y f :
  files_ok y →
  ∃ y', fileclose y f = Ok y' ∧ files_ok y' ∧ f_blk (y_fs y') = f_blk (y_fs y) ∧
    length (icache (y_fs y')) = length (icache (y_fs y)) ∧
    (∀ g, g ≠ f → filep y' g = filep y g).
Proof.
  intros (Ha & Hf). unfold fileclose.
  set (y1 := upd_file y f (λ x, fset_ref x (s32 (f_ref x - 1)))).
  assert (∀ (y0 : fio S) h, (∀ x, f_ip (h x) = f_ip x) → ∀ g, f_ip (filep (upd_file y0 f h) g) = f_ip (filep y0 g)) as Hip.
  { intros y0 h Hh g. destruct (decide (g = f)) as [->|]; [|by rewrite filep_upd_ne].
    destruct (decide (f < length (ftable y0))%nat); [by rewrite filep_upd, Hh|].
    unfold filep, upd_file. cbn [ftable]. rewrite !list_lookup_total_alt, list_lookup_alter.
    rewrite decide_True by done. rewrite (lookup_ge_None_2 (ftable y0) f) by lia. done. }
  destruct (0 <? f_ref (filep y1 f)).
  { exists y1. split; [done|]. split; [split; [done|]|split; [done|split; [done|]]].
    - intros g. unfold y1. rewrite Hip by done. apply Hf.
    - intros g Hg. by apply filep_upd_ne. }
  set (y2 := upd_file y1 f (λ x, fset_type (fset_ref x 0) FD_NONE)).
  assert (∀ g, f_ip (filep y2 g) = f_ip (filep y g)) as Hip2
    by (intros g; unfold y2, y1; by rewrite !Hip).
  assert (∀ g, g ≠ f → filep y2 g = filep y g) as Hne
    by (intros g Hg; unfold y2, y1; by rewrite !filep_upd_ne).
  destruct (decide (f_type (filep y1 f) = FD_INODE)).
  - change (y_fs y2) with (y_fs y).
    destruct (iput_linked (y_fs y) (f_ip (filep y1 f)) Ha) as (-> & Ha').
    { unfold y1. rewrite Hip by done. apply Hf. }
    cbn [rbind]. eexists; split; [reflexivity|]. split; [split; [exact Ha'|]|split; [done|split]].
    + intros g. cbn. rewrite length_alter. change (filep (set_fs y2 _) g) with (filep y2 g).
      rewrite Hip2. apply Hf.
    + cbn. by rewrite length_alter.
    + exact Hne.
  - exists y2. split; [done|]. split; [split; [done|]|split; [done|split; [done|exact Hne]]].
    intros g. rewrite Hip2. apply Hf.
Qed.

Lemma close_all_spec n k p fd :
  files_ok (k_io k) → (p < length (ptable k))%nat →
  (fd + n)%nat = length (p_ofile (procp k p)) →
  ∃ k', close_all k p fd n = Ok k' ∧ files_ok (k_io k') ∧ f_blk (kfs k') = f_blk (kfs k) ∧
    length (icache (kfs k')) = length (icache (kfs k)) ∧
    (∃ files, ptable k' = alter (λ x, mk_proc (p_sz x) (p_pgdir x) (p_kstack x) (p_state x) (p_pid x)
        (p_parent x) (p_tf x) (p_context x) files (p_cwd x) (p_name x)) p (ptable k) ∧
      files = take fd (p_ofile (procp k p)) ++ replicate n None) ∧
    curproc k' = curproc k ∧ initproc k' = initproc k.
Proof.
  revert k fd. induction n as [|n IH]; intros k fd Hy Hp Hlen.
  { exists k. split; [done|]. split; [done|]. split; [done|]. split; [done|]. split; [|done].
    exists (p_ofile (procp k p)). split.
    - symmetry. rewrite <- (list_alter_id (λ x, x) (ptable k) p) at 2 by done.
      apply alter_ext_at. unfold procp. by destruct (ptable k !!! p).
    - cbn. rewrite app_nil_r. symmetry. apply take_ge. lia. }
  cbn [close_all]. assert (fd < length (p_ofile (procp k p)))%nat as Hfd by lia.
  destruct (lookup_lt_is_Some_2 _ _ Hfd) as (o & Ho).
  rewrite (list_lookup_total_correct _ _ _ Ho).
  assert (take fd (p_ofile (procp k p)) ++ replicate (1 + n) None =
    take (fd + 1) (<[fd := None]> (p_ofile (procp k p))) ++ replicate n None) as Efiles.
  { replace (fd + 1)%nat with (1 + fd)%nat by lia.
    rewrite (take_S_r _ _ None) by (by apply list_lookup_insert_eq).
    rewrite take_insert_ge by lia. by rewrite <- app_assoc. }
  destruct o as [f|].
  - destruct (fileclose_linked (k_io k) f Hy) as (y & -> & Hy' & Eb & El & _). cbn [rbind].
    set (k1 := upd_proc (set_io k y) p (λ x, pset_ofile x fd None)).
    assert (procp k1 p = pset_ofile (procp k p) fd None) as E1 by (by apply procp_upd).
    destruct (IH k1 (fd + 1)%nat) as (k' & -> & Hy2 & Eb2 & El2 & (files & Ept & Efl) & Ec & Ei).
    + done.
    + unfold k1. cbn. by rewrite length_alter.
    + rewrite E1. cbn. rewrite length_insert. lia.
    + exists k'. split; [done|]. split; [done|]. split; [by rewrite Eb2|]. split; [by rewrite El2|].
      split; [|done]. exists files. split.
      * rewrite Ept. unfold k1. cbn [ptable upd_proc set_procs set_io]. apply alter_alter.
      * rewrite Efl, E1. cbn [p_ofile pset_ofile]. by rewrite <- Efiles.
  - destruct (IH k (fd + 1)%nat) as (k' & -> & Hy2 & Eb2 & El2 & (files & Ept & Efl) & Ec & Ei).
    + done.
    + done.
    + lia.
    + exists k'. split; [done|]. split; [done|]. split; [done|]. split; [done|]. split; [|done].
      exists files. split; [done|]. rewrite Efl. cbn [Nat.add] in Efiles.
      rewrite Efiles. by rewrite list_insert_id.
Qed.

(** [exit] ends: it closes every descriptor of the current process, drops
    its directory and hands its children to the first process, without touching
    the disk; every other process keeps its descriptors, directory and state.
    The process that called it keeps its state as well. *)
Theorem exit_closes k p cwd :
  curproc k = Some p → (p < length (ptable k))%nat → length (p_ofile (procp k p)) = NOFILE →
  p_cwd (procp k p) = Some cwd → (cwd < length (icache (kfs k)))%nat → files_ok (k_io k) →
  ∃ k', exit k = Ok k' ∧ f_blk (kfs k') = f_blk (kfs k) ∧ curproc k' = Some p ∧
    p_ofile (procp k' p) = replicate NOFILE None ∧ p_cwd (procp k' p) = None ∧
    p_state (procp k' p) = p_state (procp k p) ∧
    ∀ q y, q ≠ p → ptable k !! q = Some y →
      ptable k' !! q = Some (if decide (p_parent y = Some p) then pset_parent y (initproc k) else y).
Proof.
  intros Hc Hp Hlen Hcwd Hip Hy. unfold exit, cur. rewrite Hc. cbn [rbind].
  set (k1 := if decide _ then _ else _).
  assert (k_io k1 = k_io k ∧ ptable k1 = ptable k ∧ initproc k1 = initproc k ∧ curproc k1 = curproc k)
    as (E1 & E2 & E3 & E4) by (unfold k1; by case_decide).
  assert (procp k1 p = procp k p) as E5 by (unfold procp; by rewrite E2).
  assert (kfs k1 = kfs k) as E6 by (unfold kfs; by rewrite E1).
  destruct (close_all_spec NOFILE k1 p 0) as (k2 & -> & Hy2 & Eb & El & (files & Ept & Ef) & Ec & Ei).
  { by rewrite E1. } { by rewrite E2. } { by rewrite E5. }
  cbn [rbind]. rewrite E2 in Ept. rewrite E6 in Eb, El. cbn [take app] in Ef.
  destruct (lookup_lt_is_Some_2 _ _ Hp) as (x & Hx).
  assert (procp k p = x) as Ex by (by apply list_lookup_total_correct).
  assert (ptable k2 !! p = Some (mk_proc (p_sz x) (p_pgdir x) (p_kstack x) (p_state x) (p_pid x)
    (p_parent x) (p_tf x) (p_context x) files (p_cwd x) (p_name x))) as Hx2
    by (by rewrite Ept, list_lookup_alter, decide_True, Hx).
  assert (p_cwd (procp k2 p) = Some cwd) as ->
    by (unfold procp; rewrite (list_lookup_total_correct _ _ _ Hx2); by rewrite <- Hcwd, Ex).
  destruct (iput_linked (kfs k2) cwd (proj1 Hy2)) as (-> & _); [by rewrite El|].
  cbn [rbind]. eexists; split; [reflexivity|]. cbn [kfs k_io y_fs set_procs upd_proc set_kfs set_io set_fs].
  split; [exact Eb|]. split; [cbn; by rewrite Ec, E4|].
  set (kf := set_procs _ (_ <$> _)).
  assert (∀ q, ptable kf !! q = (λ x, if decide (p_parent x = Some p) then pset_parent x (initproc k2) else x) <$>
    alter (λ x, pset_cwd x None) p (ptable k2) !! q) as Ekf by (intros q; apply list_lookup_fmap).
  assert (ptable kf !! p = Some (let y := pset_cwd (mk_proc (p_sz x) (p_pgdir x) (p_kstack x) (p_state x)
      (p_pid x) (p_parent x) (p_tf x) (p_context x) files (p_cwd x) (p_name x)) None in
    if decide (p_parent y = Some p) then pset_parent y (initproc k2) else y)) as Epf
    by (by rewrite Ekf, list_lookup_alter, decide_True, Hx2).
  assert (procp kf p = _) as -> by (apply list_lookup_total_correct, Epf).
  cbv zeta. rewrite Ei, E3 in *.
  split; [|split; [|split]].
  - case_decide; by rewrite Ef.
  - by case_decide.
  - fold (procp k p). rewrite Ex. by case_decide.
  - intros q y Hq Hyq.
    by rewrite Ekf, list_lookup_alter, decide_False, Ept, list_lookup_alter, decide_False, Hyq by done.
Qed.

End args.

(** * Dispatch *)

(** C31. The handler of the system-call interrupt answers a number that is not in
    the table, 0 and negative numbers included, with -1 in the caller's [eax]:
    besides that word, the saved frame pointer and the messages nothing of the
    kernel changes. *)
Theorem syscall_unknown {S} `{BlockOps S} (k : kern S) data ts_addr junk r p :
  curproc k = Some p → (p < length (ptable k))%nat →
  ¬ 1 ≤ s32 (ld32 (km (k_vm k)) (r + TF_EAX)) ≤ 8 →
  ∃ k', syscall k data ts_addr junk r = Ok k' ∧
    ld32 (km (k_vm k')) (r + TF_EAX) = 2 ^ 32 - 1 ∧
    (∀ x, ¬ inr_ (r + TF_EAX) 4 x → ld8 (km (k_vm k')) x = ld8 (km (k_vm k)) x) ∧
    procp k' p = pset_tf (procp k p) r ∧ (∀ q, q ≠ p → procp k' q = procp k q) ∧
    k_io k' = k_io k ∧ curproc k' = Some p.
Proof.
  intros Hc Hp Hnum. unfold syscall, cur. rewrite Hc. cbn [rbind].
  set (k1 := upd_proc k p (λ x, pset_tf x r)).
  assert (procp k1 p = pset_tf (procp k p) r) as Ep by exact (procp_upd k p (λ x, pset_tf x r) Hp).
  assert (tf_get k1 p TF_EAX = ld32 (km (k_vm k)) (r + TF_EAX)) as Eg
    by (unfold tf_get; by rewrite Ep).
  rewrite Eg. unfold dispatcher. set (num := s32 _) in *.
  set (fn := if (0 <? num) && _ then _ else _).
  assert (fn = Ok None) as ->.
  { unfold fn. destruct (Z.ltb_spec 0 num); [|done].
    rewrite (proj2 (Z.ltb_ge _ _)); [done|]. change (Z.of_nat (length syscalls)) with 9. lia. }
  cbn [rbind].
  set (k2 := kmsg (kmsg k1 _) _).
  assert (procp k2 p = pset_tf (procp k p) r) as Ep2 by exact Ep.
  eexists; split; [reflexivity|]. unfold tf_set. rewrite Ep2. cbn [p_tf pset_tf k_vm set_vm km set_km].
  split; [by rewrite ld32_st32_eq|]. split; [intros x Hx; by rewrite ld8_st32_ne|].
  split; [exact Ep|]. split; [|by split]. intros q Hq.
  change (procp k1 q = procp k q). by apply procp_upd_ne.
Qed.

(** * A process to try the calls on

    It runs in slot 0 with one page of memory, all zero but for the third
    argument of the call, which is 100; its trap frame is at [0x1000] and its
    stack pointer [0x100]. *)
Definition demo_proc : proc :=
  mk_proc 4096 0x80400000 0x80600000 RUNNING 1 None 0x1000 0 (Some 0%nat :: replicate 15 None)
    (Some 0%nat) (replicate 16 0).
Definition demo {S} (y : fio S) (st : kst) : kern S :=
  mk_kern y st [demo_proc; pset_parent (pset_state demo_proc RUNNABLE) (Some 0%nat)] (Some 0%nat)
    (Some 0%nat) 2 [] 0 0 0 true.

(** An argument of four known bytes. *)
Lemma getint_word {S} `{BlockOps S} (k : kern S) p um l a v :
  user_proc k p um l → a + 4 ≤ p_sz (procp k p) → 0 ≤ a → 0 ≤ v < 2 ^ 32 →
  (∀ i, (i < 4)%nat → ubyte (k_vm k) um (a + Z.of_nat i) = le_bytes 4 v !! i) → getint k a = Ok (Some v).
Proof.
  intros Hp Hend Ha Hv Hb. pose proof (up_sz _ _ _ _ Hp) as Hsz. unfold KERNBASE in Hsz. unfold getint.
  rewrite (cur_proc_user k p um l Hp). cbn [rbind].
  rewrite (proj2 (Z.leb_gt _ _)), u32_small, (proj2 (Z.ltb_ge _ _)) by lia. cbn [orb].
  unfold uld32. pose proof (length_le_bytes 4 v) as Hl. pose proof (le_int_bytes 4 v) as Hv2.
  rewrite Z.mod_small in Hv2 by (cbn; lia).
  rewrite (uld_bytes_spec (p_pgdir (procp k p)) um l (k_vm k) a 4 (le_bytes 4 v)); [|apply Hp|lia| |done|done].
  - generalize dependent (le_bytes 4 v). intros ws _ Hl <-.
    destruct ws as [|b0 [|b1 [|b2 [|b3 [|]]]]]; try discriminate Hl. cbn [rbind le_int]. do 2 f_equal.
    change (b0 + 2 ^ 8 * b1 + 2 ^ 16 * b2 + 2 ^ 24 * b3 =
      b0 + 256 * (b1 + 256 * (b2 + 256 * (b3 + 256 * 0)))). lia.
  - unfold KERNBASE. lia.
Qed.

Lemma argint_word {S} `{BlockOps S} (k : kern S) p um l n a v :
  user_proc k p um l → u32 (tf_get k p TF_ESP + 4 + 4 * n) = a → a + 4 ≤ p_sz (procp k p) → 0 ≤ a →
  0 ≤ v < 2 ^ 32 → (∀ i, (i < 4)%nat → ubyte (k_vm k) um (a + Z.of_nat i) = le_bytes 4 v !! i) →
  argint k n = Ok (Some v).
Proof.
  intros Hp Ea Hend Ha Hv Hb. unfold argint. rewrite (cur_user k p um l Hp). cbn [rbind]. rewrite Ea.
  exact (getint_word k p um l a v Hp Hend Ha Hv Hb).
Qed.

(** The bytes [bs] at [0x104], where the arguments of the call begin, the rest
    of the page being zero. *)
Lemma demo_args {S} `{BlockOps S} bs :
  Z.of_nat (length bs) ≤ 0xe00 → Forall (λ b, 0 ≤ b < 256) bs →
  ∃ st um l, (∀ y : fio S, user_proc (demo y st) 0 um l ∧
      ∀ n v, 0 ≤ n → 4 * n + 4 ≤ Z.of_nat (length bs) → 0 ≤ v < 2 ^ 32 →
        slice bs (Z.to_nat (4 * n)) 4 = le_bytes 4 v → argint (demo y st) n = Ok (Some v)) ∧
    ∀ u, 0 ≤ u < 4096 →
      ubyte st um u = Some (if decide (0x104 ≤ u < 0x104 + Z.of_nat (length bs)) then zget bs (u - 0x104) else 0).
Proof.
  intros Hlen Hbs. destruct proc1 as (st0 & um & l & p & Hu0 & Ep & _ & Hz).
  destruct (uvm_low_store st0 0x80400000 um l (0x1000 + TF_ESP) 0x100 Hu0 ltac:(unfold KERNBASE, TF_ESP; lia))
    as (Hu1 & Hb1 & _). set (st1 := set_km st0 _) in *.
  assert (∀ u, 0 ≤ u < 4096 → um !! (u / 4096) = Some p) as Hmap
    by (intros u Hr; by replace (u / 4096) with 0 by zlia).
  pose proof (ustored_page 0x80400000 um l st1 0x104 p bs Hu1 ltac:(lia)
    ltac:(change (4096 * (0x104 / 4096) + 4096) with 4096; lia)
    ltac:(unfold KERNBASE; lia) (Hmap 0x104 ltac:(lia))) as [Hu2 _ Hb2].
  change (0x104 mod 4096) with 0x104 in *.
  set (st2 := set_km st1 _) in *.
  destruct (uv_some _ _ _ _ Hu0 0 p Ep) as (_ & Hpo & _).
  assert (ld32 (km st2) (0x1000 + TF_ESP) = 0x100) as Hesp.
  { rewrite (ld32_ext _ (km st1)); [unfold st1; cbn [km set_km]; by rewrite ld32_st32_eq|].
    intros x Hx. unfold st2. cbn [km set_km]. rewrite ld8_st_bytes. rewrite decide_False; [done|].
    unfold inr_, TF_ESP, page_ok, KERNBASE in *. lia. }
  assert (∀ u, 0 ≤ u < 4096 → ubyte st2 um u =
    Some (if decide (0x104 ≤ u < 0x104 + Z.of_nat (length bs)) then zget bs (u - 0x104) else 0)) as Hub.
  { intros u Hu. rewrite Hb2. case_decide as E; [|by rewrite Hb1, Hz].
    f_equal. unfold u8. apply Z.mod_small. unfold zget.
    destruct (lookup_lt_is_Some_2 bs (Z.to_nat (u - 0x104))) as (b & Eb); [lia|].
    rewrite (list_lookup_total_correct _ _ _ Eb). by apply (Forall_lookup_1 _ _ _ _ Hbs Eb). }
  exists st2, um, l. split; [|done]. intros y.
  assert (user_proc (demo y st2) 0 um l) as Hp.
  { split; [done|exact Hu2|vm_compute; split; congruence|].
    intros u Hr. change (0 ≤ u < 4096) in Hr. rewrite (Hmap u Hr). by eexists. }
  split; [done|]. intros n v Hn Hend Hv Ev.
  assert (u32 (tf_get (demo y st2) 0 TF_ESP + 4 + 4 * n) = 0x104 + 4 * n) as Ea.
  { unfold tf_get. change (k_vm (demo y st2)) with st2.
    change (p_tf (procp (demo y st2) 0)) with 0x1000. rewrite Hesp, u32_small; lia. }
  apply (argint_word _ _ um l n _ v Hp Ea);
    [change (p_sz (procp (demo y st2) 0)) with 4096; lia | lia | done |].
  change (k_vm (demo y st2)) with st2. intros i Hi. rewrite Hub, decide_True by lia.
  rewrite <- Ev, lookup_slice by done. symmetry. unfold zget.
  replace (Z.to_nat (0x104 + 4 * n + Z.of_nat i - 0x104)) with (Z.to_nat (4 * n) + i)%nat by lia.
  apply list_lookup_lookup_total_lt. lia.
Qed.

Lemma demo_ready {S} `{BlockOps S} :
  ∃ st um l, (∀ y : fio S, user_proc (demo y st) 0 um l ∧
      argint (demo y st) 0 = Ok (Some 0) ∧ argint (demo y st) 1 = Ok (Some 0) ∧
      argint (demo y st) 2 = Ok (Some 100)) ∧
    (∀ u, 0 ≤ u < 0x10c → ubyte st um u = Some 0).
Proof.
  destruct (demo_args (replicate 8 0 ++ [100; 0; 0; 0])) as (st & um & l & Hd & Hb);
    [vm_compute; congruence | by repeat (apply Forall_cons; split) |].
  exists st, um, l. split.
  - intros y. destruct (Hd y) as (Hp & Ha). split; [done|].
    split; [|split]; apply Ha; (done || reflexivity || lia).
  - intros u Hu. rewrite Hb by lia. f_equal. case_decide as E; [|done].
    change (Z.of_nat (length _)) with 12 in E. unfold zget.
    destruct (Z.to_nat (u - 0x104)) as [|[|[|[|[|[|[|[|]]]]]]]] eqn:En; try reflexivity. lia.
Qed.

(** * Witnesses *)

Lemma argptr_safe_witness :
  ∃ (k : kern (disk_st ata)) o, argptr k 1 100 = Ok o ∧ o = Some 0 ∧
    ∃ k', user_store k 0 [7; 8] = Ok k'.
Proof.
  destruct (@demo_ready (disk_st ata) _) as (st & um & l & Hd & _).
  destruct (Hd (open0 fs0)) as (Hp & _ & H1 & _). set (k := demo (open0 fs0) st) in *.
  destruct (argptr_safe k 0 um l 1 100 Hp ltac:(lia)) as (o & E & Ho).
  assert (o = Some 0) as ->.
  { unfold argptr in E. rewrite (cur_proc_user k 0 um l Hp), H1 in E. by injection E as <-. }
  destruct (Ho 0 eq_refl) as (_ & _ & _ & _ & Hst).
  destruct (Hst [7; 8] ltac:(vm_compute; congruence)) as (k' & Ek & _).
  exists k, (Some 0). split; [exact E|]. split; [reflexivity|]. by exists k'.
Defined.

Lemma getstr_terminated_witness :
  ∃ (k : kern (disk_st ata)) o, getstr k 5 = Ok o ∧ o ≠ None.
Proof.
  destruct (@demo_ready (disk_st ata) _) as (st & um & l & Hd & Hz).
  destruct (Hd (open0 fs0)) as (Hp & _). set (k := demo (open0 fs0) st) in *.
  destruct (getstr_terminated k 0 um l 5 Hp ltac:(lia)) as (o & E & Ho).
  exists k, o. split; [exact E|]. destruct o; [discriminate|].
  exfalso. apply (Ho 5); [split; [lia|reflexivity] | apply Hz; lia].
Defined.

Lemma fdalloc_lowest_witness :
  ∃ k', fdalloc (demo (open0 fs0) kst0) 1 = Ok (k', Some 1%nat) ∧
    p_ofile (procp k' 0) = Some 0%nat :: Some 1%nat :: replicate 14 None.
Proof.
  destruct (fdalloc_lowest (demo (open0 fs0) kst0) 0 1 eq_refl ltac:(cbn; lia)) as (k' & r & E & Hr).
  assert (r = Some 1%nat) as ->.
  { assert ((fdalloc (demo (open0 fs0) kst0) 1) = Ok (k', Some 1%nat)) as E1; [|congruence].
    unfold fdalloc in *. cbn in E |- *. by injection E as <- <-. }
  exists k'. split; [exact E|]. destruct Hr as (_ & _ & -> & _). reflexivity.
Defined.

Lemma exit_closes_witness :
  ∃ k', exit (demo (open0 fs0) kst0) = Ok k' ∧ p_ofile (procp k' 0) = replicate 16 None ∧
    p_cwd (procp k' 0) = None ∧ p_state (procp k' 0) = RUNNING.
Proof.
  destruct (exit_closes (demo (open0 fs0) kst0) 0 0 eq_refl ltac:(cbn; lia) eq_refl eq_refl ltac:(vm_compute; lia))
    as (k' & E & _ & _ & Ho & Hc & Hs & _).
  - split.
    + intros [|ip] x Hx; [injection Hx as <-; right; discriminate|]. left.
      change (replicate 49 (inhabitant : inode) !! ip = Some x) in Hx.
      apply lookup_replicate in Hx as (-> & _). reflexivity.
    + intros [|[|f]]; vm_compute; lia.
  - exists k'. split; [exact E|]. split; [exact Ho|]. split; [exact Hc | exact Hs].
Defined.

Lemma syscall_unknown_witness :
  ∃ k', syscall (demo (open0 fs0) kst0) 0 0 [] 0x1000 = Ok k' ∧
    ld32 (km (k_vm k')) (0x1000 + TF_EAX) = 2 ^ 32 - 1.
Proof.
  destruct (syscall_unknown (demo (open0 fs0) kst0) 0 0 [] 0x1000 0 eq_refl ltac:(cbn; lia)
    ltac:(vm_compute; intros [Hn _]; by apply Hn)) as (k' & E & Hv & _).
  exists k'. split; [exact E | exact Hv].
Defined.
