(* ===== verification/Create.v ===== *)
(** kernel/calls.c: [create] and the creating [sys_open].  A file that is not
    there gets an inode, an entry in its directory, a slot of the file table
    and a descriptor. *)
From S2P Require Import Prelude Memory LibC Mmu Kalloc Vm UserMem Uvm UvmProps Seg Ports Ide Block Bio.
From S2P Require Import FsLayout Fs FsDir FsBlocks FsFile FsRw FsProps FsIcache FsDirProps FsTrunc FsAlloc FsPath.
From S2P Require Import File Kernel Exec Calls CallProps.

(** * A string in the user's memory *)

(** The characters [s] and a 0 are at address [a] of the process's memory. *)
Record user_string {S} (k : kern S) p (um : gmap Z Z) (a : Z) (s : list Z) : Prop := {
  us_start : 0 ≤ a;
  us_end : a + Z.of_nat (length s) < p_sz (procp k p);
  us_chars : ∀ i c, s !! i = Some c → c ≠ 0 ∧ ubyte (k_vm k) um (a + Z.of_nat i) = Some c;
  us_nul : ubyte (k_vm k) um (a + Z.of_nat (length s)) = Some 0
}.

Section strings.
Context {S : Type} `{BlockOps S}.
Context (k : kern S) (p : nat) (um : gmap Z Z) (l : list Z) (Hp : user_proc k p um l).
Context (a : Z) (s : list Z) (Hs : user_string k p um a s).

Lemma string_byte i :
  (i ≤ length s)%nat →
  uld8 (k_vm k) (p_pgdir (procp k p)) (a + Z.of_nat i) = Ok (default 0 (s !! i)) ∧
  ((i < length s)%nat → default 0 (s !! i) ≠ 0) ∧ default 0 (s !! length s) = 0.
Proof.
  intros Hi. pose proof (us_end _ _ _ _ _ Hs) as He. pose proof (us_start _ _ _ _ _ Hs) as H0.
  split; [|split; [|by rewrite lookup_ge_None_2]].
  - destruct (user_byte k p um l Hp (a + Z.of_nat i)) as (b & Eb & -> & _); [lia|]. f_equal.
    destruct (decide (i = length s)) as [->|Hne].
    + rewrite lookup_ge_None_2 by done. rewrite (us_nul _ _ _ _ _ Hs) in Eb. by injection Eb.
    + destruct (lookup_lt_is_Some_2 s i) as (c & Ec); [lia|].
      destruct (us_chars _ _ _ _ _ Hs i c Ec) as (_ & E). rewrite E in Eb. injection Eb as <-.
      by rewrite Ec.
  - intros Hlt. destruct (lookup_lt_is_Some_2 s i Hlt) as (c & Ec). rewrite Ec.
    by apply (us_chars _ _ _ _ _ Hs i).
Qed.

Lemma getstr_string : getstr k a = Ok (Some (Z.of_nat (length s))).
Proof.
  pose proof (us_end _ _ _ _ _ Hs) as He. pose proof (us_start _ _ _ _ _ Hs) as H0.
  pose proof (up_sz _ _ _ _ Hp) as Hsz. unfold KERNBASE in Hsz.
  unfold getstr. rewrite (cur_proc_user k p um l Hp). cbn [rbind].
  rewrite (proj2 (Z.leb_gt _ _)) by lia. unfold getstr_len.
  destruct (while_spec (λ v, ∃ i, (i ≤ length s)%nat ∧ v = a + Z.of_nat i)
    (λ v, a + Z.of_nat (length s) - v) (λ o, o = Some (Z.of_nat (length s))) (2 ^ 32)
    (λ v, if v <? p_sz (procp k p) then
            let* c := uld8 (k_vm k) (p_pgdir (procp k p)) v in
            Ok (if c =? 0 then inr (Some (v - a)) else inl (v + 1))
          else Ok (inr None)) a) as (o & E & ->); [| | | lia | exact E].
  - intros v (i & Hi & ->). lia.
  - intros v (i & Hi & ->). rewrite (proj2 (Z.ltb_lt _ _)) by lia.
    destruct (string_byte i Hi) as (-> & Hnz & Hz). cbn [rbind].
    destruct (decide (i = length s)) as [->|Hne].
    + right. rewrite Hz. eexists. split; [reflexivity|]. f_equal. lia.
    + left. rewrite (proj2 (Z.eqb_neq _ _)) by (apply Hnz; lia).
      eexists; split; [reflexivity|]. split; [|lia]. exists (Datatypes.S i). lia.
  - exists 0%nat. lia.
Qed.

Lemma user_str_string : user_str k a = Ok s.
Proof.
  pose proof (us_end _ _ _ _ _ Hs) as He. pose proof (us_start _ _ _ _ _ Hs) as H0.
  pose proof (up_sz _ _ _ _ Hp) as Hsz. unfold KERNBASE in Hsz.
  unfold user_str. rewrite (cur_proc_user k p um l Hp). cbn [rbind]. unfold uld_str.
  destruct (while_spec (λ '(v, acc), ∃ i, (i ≤ length s)%nat ∧ v = a + Z.of_nat i ∧ acc = take i s)
    (λ '(v, acc), a + Z.of_nat (length s) - v) (λ r, r = s) (2 ^ 32)
    (λ '(v, acc), let* b := uld8 (k_vm k) (p_pgdir (procp k p)) v in
       Ok (if b =? 0 then inr acc else inl (u32 (v + 1), acc ++ [b]))) (a, []))
    as (o & E & ->); [| | | lia | exact E].
  - intros [v acc] (i & Hi & -> & _). lia.
  - intros [v acc] (i & Hi & -> & ->). destruct (string_byte i Hi) as (-> & Hnz & Hz). cbn [rbind].
    destruct (decide (i = length s)) as [->|Hne].
    + right. rewrite Hz. eexists. split; [reflexivity|]. by rewrite take_ge.
    + left. rewrite (proj2 (Z.eqb_neq _ _)) by (apply Hnz; lia).
      eexists; split; [reflexivity|]. rewrite u32_small by lia. split; [|lia].
      exists (Datatypes.S i). split; [lia|]. split; [lia|].
      destruct (lookup_lt_is_Some_2 s i) as (c & Ec); [lia|]. by rewrite (take_S_r _ _ _ Ec), Ec.
  - exists 0%nat. split; [lia|]. split; [lia | done].
Qed.

Lemma argstr_string n : argint k n = Ok (Some a) → argstr k n = Ok (Some a).
Proof. intros Ha. unfold argstr. rewrite Ha. cbn [rbind]. by rewrite getstr_string. Qed.
End strings.

Section create.
Context {S : Type} `{BlockLayer S}.
Context (sb : superblock) (Hsb : sb_wf sb) (dev : Z) (Hdev : 0 ≤ dev < 2).
Implicit Types (fs : fsys S) (d : disk) (x : inode) (ip dp : nat) (k : kern S) (name : list Z).
#[local] Abbreviation fsi := (fsi sb dev).
#[local] Abbreviation disk_inode := (disk_inode sb dev).
#[local] Abbreviation free_inode := (free_inode sb dev).

(** A directory in use, with room for one more name. *)
Record parent_ok fs d dp name : Prop := {
  pa_slot : (dp < length (icache fs))%nat;
  pa_dir : dir_ok sb dev d (inodep fs dp);
  pa_meta : meta_ok (inodep fs dp);
  pa_ref : 1 ≤ i_ref (inodep fs dp) < 2 ^ 31;
  pa_valid : i_valid (inodep fs dp) ≠ 0;
  pa_links : i_nlink (inodep fs dp) ≠ 0;
  pa_absent : dir_get dev d (inodep fs dp) name = None;
  pa_room : 16 * Z.of_nat (free_entry dev d (inodep fs dp)) + 16 ≤ MAXFILE * BSIZE;
  pa_free : let o := 16 * Z.of_nat (free_entry dev d (inodep fs dp)) in
    has_free sb dev d (nblocks o (o + 16) + ind_need (inodep fs dp))
}.

(** What [create] does to the disk: the inode [y] is there, the directory
    binds the name to it, and everything else is as before. *)
Record created d x d' x' name (y : inode) : Prop := {
  cr_inode : disk_inode d' (i_inum y) = dinode_of y;
  cr_dir : dir_ok sb dev d' x';
  cr_bound : dir_get dev d' x' name = Some (i_inum y);
  cr_names : ∀ name', namecmp name' (strncpy_bytes name DIRSIZ) ≠ 0 →
    dir_get dev d' x' name' = dir_get dev d x name';
  cr_inodes : ∀ j, 0 ≤ j < sb_ninodes sb → j ≠ i_inum y → j ≠ i_inum x →
    disk_inode d' j = disk_inode d j;
  cr_kept : others_kept sb dev d x d' x';
  cr_set : dir_set dev d x d' x' (new_dirent name (i_inum y));
  cr_saved : disk_inode d (i_inum x) = dinode_of x → disk_inode d' (i_inum x) = dinode_of x'
}.

(** The new inode reaches the disk: [ialloc], [ilock] and the first
    [iupdate] of [create]. *)
Lemma new_inode_spec fs d i0 type major minor :
  fsi fs d → icache_room sb dev d (icache fs) → 1 ≤ i0 < sb_ninodes sb → free_inode d i0 = true →
  - 2 ^ 15 ≤ type < 2 ^ 15 → type ≠ 0 → - 2 ^ 15 ≤ major < 2 ^ 15 → - 2 ^ 15 ≤ minor < 2 ^ 15 →
  ∃ i ip s1 s2 s3 y, let n := new_inode dev i type major minor 1 in
    let f := λ x, set_nlink (set_major_minor x major minor) 1 in
    first_free sb dev d i ∧ (ip < length (icache fs))%nat ∧ unused (inodep fs ip) ∧
    ialloc fs dev type = Ok (put_inode (set_blk fs s1) ip y, Some ip) ∧
    ilock (put_inode (set_blk fs s1) ip y) ip =
      Ok (put_inode (set_blk fs s2) ip (new_inode dev i type 0 0 0)) ∧
    upd_inode (put_inode (set_blk fs s2) ip (new_inode dev i type 0 0 0)) ip f =
      put_inode (set_blk fs s2) ip n ∧
    iupdate (put_inode (set_blk fs s2) ip n) ip = Ok (put_inode (set_blk fs s3) ip n) ∧
    let d' := put_dinode sb dev (ialloc_disk sb dev d i type) n in
    fsi (put_inode (set_blk fs s3) ip n) d' ∧
    ∀ j, 0 ≤ j < sb_ninodes sb →
      disk_inode d' j = if decide (j = i) then dinode_of n else disk_inode d j.
Proof.
  intros Hfs Hroom Hi0 Hf0 Ht Ht0 Hma Hmi.
  destruct (ialloc_slot sb Hsb dev Hdev fs d type i0 Hfs Hroom Hi0 Hf0)
    as (i & s1 & ip & y & Hff & E1 & Hfs1 & Hip & Hun & Hy1 & Hy2 & Hy3 & Hy4).
  assert (0 ≤ i < sb_ninodes sb) as Hi by (destruct Hff; lia).
  set (fs1 := put_inode (set_blk fs s1) ip y) in *. set (d1 := ialloc_disk sb dev d i type) in *.
  assert (∀ j, 0 ≤ j < sb_ninodes sb →
    disk_inode d1 j = if decide (j = i) then fresh_dinode type else disk_inode d j) as Hd1
    by (intros j Hj; by apply (disk_inode_fresh sb Hsb dev Hdev fs)).
  assert (inodep fs1 ip = y) as Ey by (by apply inodep_put).
  destruct (ilock_fresh sb Hsb dev Hdev fs1 d1 ip type i) as (s2 & E2 & Hr2); rewrite ?Ey; try done.
  { cbn. by rewrite length_insert. }
  { rewrite Hd1 by done. by rewrite decide_True. }
  change (set_blk fs1 s2) with (put_inode (set_blk fs s2) ip y) in E2. rewrite put_put in E2.
  set (n := new_inode dev i type major minor 1).
  assert (fsi (put_inode (set_blk fs s2) ip n) d1) as Hfs2
    by (split; [apply Hfs | exact Hr2 | apply Hfs1 | apply Hfs1]).
  assert (inodep (put_inode (set_blk fs s2) ip n) ip = n) as En by (by apply inodep_put).
  destruct (iupdate_spec sb Hsb dev Hdev (put_inode (set_blk fs s2) ip n) d1 ip Hfs2) as (s3 & E3 & Hr3);
    rewrite ?En; [done | done |].
  rewrite En in Hr3. exists i, ip, s1, s2, s3, y. cbv zeta. fold n.
  split; [done|]. split; [done|]. split; [done|]. split; [done|]. split; [done|].
  split. { rewrite put_inode_upd, inodep_put by (done || by cbn; rewrite length_insert). apply put_put. }
  split; [exact E3|].
  split.
  { by apply (put_dinode_fsi sb Hsb dev Hdev (put_inode (set_blk fs s2) ip n) d1 n s3
      (<[ip := n]> (icache fs))). }
  intros j Hj. rewrite (disk_inode_put sb Hsb dev); [| done | done | |].
  - change (i_inum n) with i. case_decide; [done|]. rewrite Hd1 by done. by rewrite decide_False.
  - apply (bl_sector _ _ _ _ _ (fi_rep _ _ _ _ _ Hfs1)). by apply (inode_block_facts sb Hsb dev Hdev).
  - split; try done. by repeat (apply Forall_cons; split).
Qed.

(** Writing the new inode to the disk keeps what [dirlink] needs. *)
Lemma parent_put fs d dp name y s ip n :
  parent_ok fs d dp name → 0 ≤ i_inum y < sb_ninodes sb → ip ≠ dp →
  parent_ok (put_inode (set_blk fs s) ip n) (put_dinode sb dev d y) dp name.
Proof.
  intros [P1 P2 P3 P4 P5 P6 P7 P8 P9] Hy Hne.
  assert (inodep (put_inode (set_blk fs s) ip n) dp = inodep fs dp) as E
    by (by rewrite inodep_put_ne).
  destruct (put_dinode_dir sb Hsb dev Hdev d (inodep fs dp) y P2 Hy) as (Hd & He).
  destruct (dir_ext dev _ _ _ He) as (Ef & Eg).
  split; rewrite ?E; try done.
  - cbn. by rewrite length_insert.
  - by rewrite Eg.
  - by rewrite Ef.
  - rewrite Ef. apply has_free_ext with d; [|done]. intros b Hb.
    apply (put_dinode_used sb Hsb dev Hdev); [done|]. pose proof (data_block_range sb Hsb b Hb). lia.
Qed.

Lemma kept_put d x y :
  dir_ok sb dev d x → 0 ≤ i_inum y < sb_ninodes sb → others_kept sb dev d x (put_dinode sb dev d y) x.
Proof.
  intros Hd Hy. apply (put_dinode_kept sb Hsb dev Hdev); [done|].
  intros b Hb. by apply (fw_own _ _ _ _ (dr_wf _ _ _ _ Hd)).
Qed.

Lemma create_new_spec k dp name type major minor d i0 :
  let fs := kfs k in
  let x := inodep fs dp in
  fsi fs d → icache_room sb dev d (icache fs) → parent_ok fs d dp name →
  1 ≤ i0 < sb_ninodes sb → free_inode d i0 = true → sb_ninodes sb ≤ 2 ^ 16 →
  - 2 ^ 15 ≤ type < 2 ^ 15 → type ≠ 0 → type ≠ T_DIR →
  - 2 ^ 15 ≤ major < 2 ^ 15 → - 2 ^ 15 ≤ minor < 2 ^ 15 →
  ∃ i ip s d' x', let n := new_inode dev i type major minor 1 in
    let fs' := put_inode (put_inode (set_blk fs s) ip n) dp (set_ref x' (i_ref x - 1)) in
    create_new k dp name type major minor = Ok (set_kfs k fs', Some ip) ∧
    first_free sb dev d i ∧ (ip < length (icache fs))%nat ∧ unused (inodep fs ip) ∧ ip ≠ dp ∧
    x' = set_size (with_addrs x (i_addrs x')) (i_size x') ∧
    fsi fs' d' ∧ created d x d' x' name n.
Proof.
  intros fs x Hfs Hroom Hpar Hi0 Hf0 Hmax Ht Ht0 Htd Hma Hmi. fold fs in Hpar.
  destruct (new_inode_spec fs d i0 type major minor Hfs Hroom Hi0 Hf0 Ht Ht0 Hma Hmi)
    as (i & ip & s1 & s2 & s3 & y & Hff & Hip & Hun & E1 & E2 & E3 & E4 & Hfs3 & Hdi).
  set (n := new_inode dev i type major minor 1) in *.
  assert (0 ≤ i < sb_ninodes sb ∧ 0 < i < 2 ^ 16) as (Hi & Hi16) by (destruct Hff; lia).
  set (d1 := ialloc_disk sb dev d i type) in *. set (d3 := put_dinode sb dev d1 n) in *.
  set (fs3 := put_inode (set_blk fs s3) ip n) in *.
  assert (ip ≠ dp) as Hne
    by (intros ->; pose proof (pa_ref _ _ _ _ Hpar); unfold unused in Hun; lia).
  assert (i ≠ i_inum x) as Hni.
  { intros ->. destruct Hpar as [R1 R2 _ R4 _ _ _ _ _]. destruct Hff as (_ & Hf & _).
    apply lookup_lt_is_Some_2 in R1 as (z & Hz). pose proof (inodep_lookup _ _ _ Hz) as Ez.
    unfold x in Hf. rewrite Ez in Hf, R2, R4.
    rewrite (ir_live _ _ _ _ Hroom dp z Hz) in Hf; [discriminate | lia | apply R2]. }
  assert (parent_ok fs3 d3 dp name) as Hpar3.
  { apply (parent_put (put_inode (set_blk fs s1) ip y) d1 dp name n s3 ip n) in Hne as Hp;
      [|by apply parent_put | done].
    change (set_blk (put_inode (set_blk fs s1) ip y) s3) with (put_inode (set_blk fs s3) ip y) in Hp.
    by rewrite put_put in Hp. }
  assert (inodep fs3 dp = x) as Ex by (by unfold fs3; rewrite inodep_put_ne).
  unfold create_new. fold fs x.
  rewrite (fw_dev _ _ _ _ (dr_wf _ _ _ _ (pa_dir _ _ _ _ Hpar)) : i_dev x = dev), E1. cbn [rbind fst snd].
  rewrite E2. cbn [rbind]. rewrite E3, E4. cbn [rbind].
  rewrite (proj2 (Z.eqb_neq type T_DIR)) by done. cbn [rbind]. fold fs3.
  assert (inodep fs3 ip = n) as -> by (by apply inodep_put).
  destruct Hpar3 as [P1 P2 P3 P4 P5 P6 P7 P8 P9].
  destruct (dirlink_spec sb Hsb dev Hdev fs3 d3 dp name i) as (s4 & d' & x' & E5 & Hfs4 & Ex' & Q1 & Q2 & Q3 & Q4 & Q5 & Q6 & Q7);
    [done..|].
  change (i_inum n) with i. rewrite E5. cbn [rbind fst snd Z.ltb Z.compare].
  rewrite Ex in Ex', Q3, Q4, Q5, Q6, Q7, P4.
  set (fs4 := put_inode (set_blk fs3 s4) dp x') in *.
  assert (inodep fs4 dp = x') as Ex4 by (by apply inodep_put).
  unfold iunlockput. rewrite iunlock_live by (rewrite Ex4, Ex'; cbn; lia).
  rewrite iput_more; rewrite ?Ex4; [|cbn; by rewrite length_insert | rewrite Ex'; exact P4 |].
  2: { right; left. rewrite Ex'. cbn. by rewrite <- Ex. }
  cbn [rbind]. exists i, ip, s4, d', x'. cbv zeta. fold n.
  assert (i_ref x' = i_ref x) as -> by (by rewrite Ex').
  unfold fs4. rewrite put_put. change (set_blk fs3 s4) with (put_inode (set_blk fs s4) ip n).
  split; [done|]. split; [done|]. split; [done|]. split; [done|]. split; [done|]. split; [done|].
  split. { split; apply Hfs4. }
  destruct (put_dinode_dir sb Hsb dev Hdev d x (fresh_inode dev i type) (pa_dir _ _ _ _ Hpar) Hi) as (D1 & F1).
  destruct (put_dinode_dir sb Hsb dev Hdev d1 x n D1 Hi) as (D3 & F3).
  destruct (dir_ext dev _ _ _ F1) as (K1 & G1). destruct (dir_ext dev _ _ _ F3) as (K3 & G3).
  fold (ialloc_disk sb dev d i type) in K1. fold d1 in K1. fold d3 in K3.
  split; [| done | done | | | | |].
  - change (i_inum n) with i. rewrite Q4 by done. rewrite Hdi by done. by rewrite decide_True.
  - intros name' Hn. rewrite Q3 by done. rewrite <- G1. apply G3.
  - intros j Hj N1 N2. change (i_inum n) with i in N1. rewrite Q4, Hdi by done. by rewrite decide_False.
  - apply (others_kept_trans sb dev d x d1 x).
    + exact (kept_put d x (fresh_inode dev i type) (pa_dir _ _ _ _ Hpar) Hi).
    + exact (others_kept_trans sb dev d1 x d3 x d' x' (kept_put d1 x n D1 Hi) Q5).
  - destruct Q6 as (N6 & E6). rewrite K3, K1 in N6. split; [exact N6|]. intros j Hj. rewrite (E6 j Hj), K3, K1.
    case_decide as Hk; [done|].
    assert (j < nents x)%nat by (pose proof (free_entry_le dev d x); lia). etransitivity; [by apply F3 | by apply F1].
  - intros Hsv. apply Q7. rewrite Hdi by apply (dr_wf _ _ _ _ (pa_dir _ _ _ _ Hpar)). by rewrite decide_False.
Qed.

(** Only the inode cache and the disk matter. *)
Lemma parent_ext fs fs' d dp name :
  icache fs' = icache fs → parent_ok fs d dp name → parent_ok fs' d dp name.
Proof.
  intros E [P1 P2 P3 P4 P5 P6 P7 P8 P9].
  assert (inodep fs' dp = inodep fs dp) as Ex by (unfold inodep; by rewrite E).
  by split; rewrite ?Ex, ?E.
Qed.

(** * create of a name in the current directory *)

(** One more user of a slot leaves room in the cache. *)
Lemma room_more fs d dp :
  let x := inodep fs dp in
  icache_room sb dev d (icache fs) → (dp < length (icache fs))%nat → 1 ≤ i_ref x < 2 ^ 31 - 2 →
  icache_room sb dev d (icache (put_inode fs dp (set_ref x (i_ref x + 1)))).
Proof.
  intros x [R1 R2 R3 R4] Hdp Hr. pose proof Hdp as Hl. apply lookup_lt_is_Some_2 in Hl as (z & Hz).
  assert (x = z) as -> by (by apply inodep_lookup). cbn [put_inode icache set_icache].
  assert (∀ j y, <[dp := set_ref z (i_ref z + 1)]> (icache fs) !! j = Some y →
    j = dp ∧ y = set_ref z (i_ref z + 1) ∨ j ≠ dp ∧ icache fs !! j = Some y) as Hcase.
  { intros j y Hy. destruct (decide (j = dp)) as [->|Hne].
    - rewrite list_lookup_insert_eq in Hy by done. left. by injection Hy.
    - rewrite list_lookup_insert_ne in Hy by done. by right. }
  split.
  - assert (<[dp := set_ref z (i_ref z + 1)]> (icache fs) =
      alter (λ y, set_ref y (i_ref y + 1)) dp (icache fs)) as ->.
    { apply list_eq. intros j. rewrite list_lookup_alter. case_decide as E.
      - subst j. by rewrite list_lookup_insert_eq, Hz.
      - by rewrite list_lookup_insert_ne by congruence. }
    apply icache_ok_alter with z; [done | done | cbn; lia |].
    intros j y Hy Hne _ Hin. apply Hne. cbn in Hin. apply (ic_uniq _ R1 j dp y z Hy Hz Hin). lia.
  - intros j y Hy. destruct (Hcase j y Hy) as [(_ & ->)|(_ & E)]; [cbn; lia | by apply (R2 j)].
  - apply Exists_exists in R3 as (u & Hu & Hz0). apply list_elem_of_lookup in Hu as (j & Hj).
    apply Exists_exists. exists u. split; [|done]. apply list_elem_of_lookup. exists j.
    rewrite list_lookup_insert_ne; [done|]. intros ->. rewrite Hz in Hj. injection Hj as <-.
    unfold unused in Hz0. lia.
  - intros j y Hy. destruct (Hcase j y Hy) as [(_ & ->)|(_ & E)]; [|by apply (R4 j)].
    cbn. intros _. apply (R4 dp z Hz). lia.
Qed.

Lemma parent_more fs d dp name s :
  let x := inodep fs dp in
  parent_ok fs d dp name → i_ref x < 2 ^ 31 - 2 →
  parent_ok (put_inode (set_blk fs s) dp (set_ref x (i_ref x + 1))) d dp name.
Proof.
  intros x [P1 P2 P3 P4 P5 P6 P7 P8 P9] Hr. fold x in P2, P3, P4, P5, P6, P7, P8, P9.
  split; rewrite ?inodep_put by done; try done.
  - cbn. by rewrite length_insert.
  - destruct P2 as [D1 D2 D3 D4]. split; [|done..]. by destruct D1; split.
  - by destruct P3; split.
  - cbn. lia.
Qed.

(** A relative path of one component ends at the current directory. *)
Lemma nameiparent_here k p path junk e dp :
  let x := inodep (kfs k) dp in
  curproc k = Some p → p_cwd (procp k p) = Some dp → (dp < length (icache (kfs k)))%nat →
  1 ≤ i_ref x < 2 ^ 31 - 2 → i_valid x ≠ 0 → i_type x = T_DIR →
  head path ≠ Some SLASH → elems path = [e] → Z.of_nat (length path) < 2 ^ 32 →
  nameiparent_cur k path junk =
    Ok (set_kfs k (put_inode (kfs k) dp (set_ref x (i_ref x + 1))), Some dp, put_name junk e).
Proof.
  intros x Hc Hcwd Hdp Hr Hv Ht Hh He Hlen. unfold nameiparent_cur, path_cwd, cur.
  destruct path as [|c path]; [done|].
  assert (c ≠ SLASH) as Hcs by (intros ->; by apply Hh). change (zget (c :: path) 0) with c.
  rewrite (proj2 (Z.eqb_neq c SLASH)), andb_false_r by done. rewrite Hc. cbn [rbind]. rewrite Hcwd.
  cbn [rbind]. unfold nameiparent. rewrite namex_spec by done.
  rewrite (proj2 (Z.eqb_neq c SLASH)), He by done. cbn [rbind fst snd idup namex_walk].
  rewrite put_inode_upd by done. fold x. rewrite s32_small by lia.
  set (fs1 := put_inode (kfs k) dp (set_ref x (i_ref x + 1))).
  assert (inodep fs1 dp = set_ref x (i_ref x + 1)) as E1 by (by apply inodep_put).
  rewrite ilock_valid by (rewrite E1; cbn; done || lia). cbn [rbind]. rewrite E1. cbn [i_type set_ref].
  rewrite Ht. cbn [negb Z.eqb T_DIR Pos.eqb andb]. rewrite iunlock_live by (rewrite E1; cbn; lia). done.
Qed.

Lemma put_put_comm fs ip dp y z :
  ip ≠ dp → put_inode (put_inode fs dp z) ip y = put_inode (put_inode fs ip y) dp z.
Proof. intros Hne. unfold put_inode, set_icache. cbn. by rewrite list_insert_insert_ne. Qed.

(** The count of the directory's users is not on the disk. *)
Lemma created_refs d x d' x' name n a b :
  created d (set_ref x a) d' x' name n → created d x d' (set_ref x' b) name n.
Proof.
  intros [C1 C2 C3 C4 C5 C6]. split; try done.
  destruct C2 as [D1 D2 D3 D4]. split; [|done..]. by destruct D1; split.
Qed.

Lemma create_spec k p path junk e dp type major minor d i0 :
  let fs := kfs k in
  let x := inodep fs dp in
  let name := put_name junk e in
  curproc k = Some p → p_cwd (procp k p) = Some dp →
  head path ≠ Some SLASH → elems path = [e] → Z.of_nat (length path) < 2 ^ 32 →
  fsi fs d → icache_room sb dev d (icache fs) → parent_ok fs d dp name → i_ref x < 2 ^ 31 - 2 →
  1 ≤ i0 < sb_ninodes sb → free_inode d i0 = true → sb_ninodes sb ≤ 2 ^ 16 →
  - 2 ^ 15 ≤ type < 2 ^ 15 → type ≠ 0 → type ≠ T_DIR →
  - 2 ^ 15 ≤ major < 2 ^ 15 → - 2 ^ 15 ≤ minor < 2 ^ 15 →
  ∃ i ip s d' x', let n := new_inode dev i type major minor 1 in
    let fs' := put_inode (put_inode (set_blk fs s) ip n) dp x' in
    create k path junk type major minor = Ok (set_kfs k fs', Some ip) ∧
    first_free sb dev d i ∧ (ip < length (icache fs))%nat ∧ unused (inodep fs ip) ∧ ip ≠ dp ∧
    x' = set_size (with_addrs x (i_addrs x')) (i_size x') ∧
    fsi fs' d' ∧ created d x d' x' name n.
Proof.
  intros fs x name Hc Hcwd Hh He Hlen Hfs Hroom Hpar Hrx Hi0 Hf0 Hmax Ht Ht0 Htd Hma Hmi.
  pose proof Hpar as [P1 P2 P3 P4 P5 P6 P7 P8 P9]. fold x in P2, P3, P4, P5, P6, P7, P8, P9.
  unfold create.
  rewrite (nameiparent_here k p path junk e dp) by (done || exact (conj (proj1 P4) Hrx) || exact (dr_type _ _ _ _ P2)).
  cbn [rbind]. fold fs x name. set (fs1 := put_inode fs dp (set_ref x (i_ref x + 1))).
  change (kfs (set_kfs k fs1)) with fs1.
  assert (inodep fs1 dp = set_ref x (i_ref x + 1)) as E1 by (by apply inodep_put).
  rewrite ilock_valid by (rewrite E1; cbn; done || lia). cbn [rbind].
  pose proof (parent_more fs d dp name (f_blk fs) Hpar Hrx) as Hpar1.
  assert (put_inode (set_blk fs (f_blk fs)) dp (set_ref x (i_ref x + 1)) = fs1) as Efs1
    by (unfold fs1; f_equal; by destruct fs).
  fold x in Hpar1. rewrite Efs1 in Hpar1.
  assert (fsi fs1 d) as Hfs1 by (split; apply Hfs).
  destruct (dirlookup_spec sb Hsb dev Hdev fs1 d dp name Hfs1 (pa_dir _ _ _ _ Hpar1)) as (s1 & Ed & Hr1).
  unfold lookup_result, found_entry in Ed. pose proof (pa_absent _ _ _ _ Hpar1) as Ha. unfold dir_get in Ha.
  destruct (List.find _ _); [discriminate Ha|]. clear Ha.
  rewrite Ed. cbn [rbind fst snd].
  assert (fsi (set_blk fs1 s1) d) as Hfs2 by (split; try done; apply Hfs1).
  destruct (create_new_spec (set_kfs (set_kfs k fs1) (set_blk fs1 s1)) dp name type major minor d i0)
    as (i & ip & s & d' & x' & E & Q1 & Q2 & Q3 & Q4 & Q5 & Q6 & Q7); try done.
  { exact (room_more fs d dp Hroom P1 (conj (proj1 P4) Hrx)). }
  { by apply (parent_more fs d dp name s1). }
  change (kfs (set_kfs (set_kfs k fs1) (set_blk fs1 s1))) with (set_blk fs1 s1) in *.
  change (inodep (set_blk fs1 s1) dp) with (inodep fs1 dp) in *. rewrite E1 in *.
  cbn [i_ref set_ref] in *. replace (i_ref x + 1 - 1) with (i_ref x) in * by lia.
  change (set_blk (set_blk fs1 s1) s) with (put_inode (set_blk fs s) dp (set_ref x (i_ref x + 1))) in *.
  rewrite (put_put_comm (set_blk fs s) ip dp _ (set_ref x (i_ref x + 1))), put_put in E, Q6 by done.
  exists i, ip, s, d', (set_ref x' (i_ref x)). cbv zeta. split; [exact E|]. split; [exact Q1|].
  split; [by cbn in Q2; rewrite length_insert in Q2|].
  split.
  { change (inodep (set_blk fs1 s1) ip) with (inodep fs1 ip) in Q3. unfold fs1 in Q3.
    by rewrite inodep_put_ne in Q3. }
  split; [done|]. split; [by rewrite Q5|]. split; [exact Q6|]. exact (created_refs _ _ _ _ _ _ _ _ Q7).
Qed.

(** * sys_open *)

(** The access rights that [sys_open] gives for a mode. *)
Definition rd_of (om : Z) : Z := if Z.land om O_WRONLY =? 0 then 1 else 0.
Definition wr_of (om : Z) : Z :=
  if negb (Z.land om O_WRONLY =? 0) || negb (Z.land om O_RDWR =? 0) then 1 else 0.

(** Descriptor [fd] and file [f] are the first that are free. *)
Lemma open_inode_spec k p fd f ip om :
  curproc k = Some p → free_fd (p_ofile (procp k p)) 0 = Some fd →
  free_file (ftable (k_io k)) 0 = Some f → 1 ≤ i_ref (inodep (kfs k) ip) →
  let file := mk_file FD_INODE 1 (rd_of om) (wr_of om) ip 0 in
  let y' := mk_fio (kfs k) (<[f := file]> (ftable (k_io k))) in
  open_inode k ip om =
    Ok (set_io (upd_proc k p (λ z, pset_ofile z fd (Some f))) y', Z.of_nat fd).
Proof.
  intros Hc Hfd Hf Hr file y'. unfold open_inode, filealloc. rewrite Hf.
  set (k1 := set_io k (upd_file (k_io k) f (λ z, fset_ref z 1))).
  unfold fdalloc, cur. change (curproc k1) with (curproc k). rewrite Hc. cbn [rbind].
  change (procp k1 p) with (procp k p). rewrite Hfd. cbn [rbind].
  set (k2 := upd_proc k1 p (λ z, pset_ofile z fd (Some f))).
  change (kfs k2) with (kfs k). rewrite iunlock_live by done. do 2 f_equal.
  apply free_file_spec in Hf as (j & z & -> & Hz & _). cbn [Nat.add] in *.
  unfold set_io, upd_file, set_kfs, k2, k1. cbn. do 2 f_equal. unfold y', set_fs, upd_file. cbn.
  f_equal. apply list_eq. intros q. rewrite !list_lookup_alter. case_decide as E.
  - subst q. rewrite decide_True, Hz by done.
    by rewrite list_lookup_insert_eq by (by eapply lookup_lt_Some).
  - by rewrite list_lookup_insert_ne by congruence.
Qed.

(** [open(path, O_CREATE | ..)] of a name that the current directory does not
    bind, when the disk, the inode cache, the file table and the descriptors
    have room: the caller gets its lowest free descriptor for the first free
    file, open at offset 0 with the rights asked for, whose inode is the first
    free one of the disk, an empty file that the directory now binds to the
    name; other names, inodes and files, the user's memory and the other open
    files are as before, and the file is ready to be written. *)
Theorem sys_open_creates k p um l a om path junk e dp fd f d i0 :
  let fs := kfs k in
  let x := inodep fs dp in
  let name := put_name junk e in
  user_proc k p um l → (p < length (ptable k))%nat → p_cwd (procp k p) = Some dp →
  argint k 0 = Ok (Some a) → argint k 1 = Ok (Some om) → Z.land om O_CREATE ≠ 0 →
  user_string k p um a path → head path ≠ Some SLASH → elems path = [e] →
  fsi fs d → icache_room sb dev d (icache fs) → parent_ok fs d dp name → i_ref x < 2 ^ 31 - 2 →
  1 ≤ i0 < sb_ninodes sb → free_inode d i0 = true → sb_ninodes sb ≤ 2 ^ 16 →
  free_fd (p_ofile (procp k p)) 0 = Some fd → free_file (ftable (k_io k)) 0 = Some f →
  ∃ k' d' i ip, sys_open k junk = Ok (k', Z.of_nat fd) ∧ user_proc k' p um l ∧ k_vm k' = k_vm k ∧
    p_ofile (procp k' p) = <[fd := Some f]> (p_ofile (procp k p)) ∧
    filep (k_io k') f = mk_file FD_INODE 1 (rd_of om) (wr_of om) ip 0 ∧
    (∀ g, g ≠ f → filep (k_io k') g = filep (k_io k) g) ∧
    first_free sb dev d i ∧ unused (inodep fs ip) ∧
    inodep (kfs k') ip = new_inode dev i T_FILE 0 0 1 ∧
    (∀ j, j ≠ ip → j ≠ dp → inodep (kfs k') j = inodep fs j) ∧
    i_ref (inodep (kfs k') dp) = i_ref x ∧
    created d x d' (inodep (kfs k') dp) name (new_inode dev i T_FILE 0 0 1) ∧
    open_ok sb dev (k_io k') d' f.
Proof.
  intros fs x name Hp Hpl Hcwd Ha Hom Hcr Hus Hh He Hfs Hroom Hpar Hrx Hi0 Hf0 Hmax Hfd Hf.
  pose proof (up_cur _ _ _ _ Hp) as Hc.
  assert (Z.of_nat (length path) < 2 ^ 32) as Hlen.
  { pose proof (us_end _ _ _ _ _ Hus). pose proof (us_start _ _ _ _ _ Hus).
    pose proof (up_sz _ _ _ _ Hp) as Hsz. unfold KERNBASE in Hsz. lia. }
  destruct (create_spec k p path junk e dp T_FILE 0 0 d i0)
    as (i & ip & s & d' & x' & E & Q1 & Q2 & Q3 & Q4 & Q5 & Q6 & Q7); try done.
  fold fs x name in E, Q2, Q3, Q5, Q6, Q7. set (n := new_inode dev i T_FILE 0 0 1) in *.
  set (fs' := put_inode (put_inode (set_blk fs s) ip n) dp x') in *.
  assert (inodep fs' ip = n) as En
    by (unfold fs'; rewrite inodep_put_ne by done; by apply inodep_put).
  assert (inodep fs' dp = x') as Ed
    by (apply inodep_put; cbn; rewrite length_insert; apply (pa_slot _ _ _ _ Hpar)).
  unfold sys_open. rewrite (argstr_string k p um l Hp a path Hus 0 Ha), Hom. cbn [rbind].
  rewrite (user_str_string k p um l Hp a path Hus). cbn [rbind].
  rewrite (proj2 (Z.eqb_neq _ _)) by done. cbn [negb]. rewrite E. cbn [rbind fst snd].
  rewrite (open_inode_spec (set_kfs k fs') p fd f ip om); [|done|done|done|].
  2: { change (kfs (set_kfs k fs')) with fs'. rewrite En. cbn. lia. }
  change (kfs (set_kfs k fs')) with fs'. change (ftable (k_io (set_kfs k fs'))) with (ftable (k_io k)).
  set (file := mk_file FD_INODE 1 (rd_of om) (wr_of om) ip 0).
  set (k' := set_io _ _).
  assert (procp k' p = pset_ofile (procp k p) fd (Some f)) as Ep by exact (procp_upd k p _ Hpl).
  assert (f < length (ftable (k_io k)))%nat as Hfl.
  { apply free_file_spec in Hf as (j & z & -> & Hz & _). by apply lookup_lt_Some in Hz. }
  assert (filep (k_io k') f = file) as Ef by (by apply list_lookup_total_insert_eq).
  exists k', d', i, ip. split; [done|].
  split. { destruct Hp as [U1 U2 U3 U4]. by split; rewrite ?Ep. }
  split; [done|]. split; [by rewrite Ep|]. split; [exact Ef|].
  split; [intros g Hg; by apply list_lookup_total_insert_ne|].
  split; [done|]. split; [done|]. split; [exact En|].
  change (kfs k') with fs'. rewrite Ed.
  split. { intros j N1 N2. unfold fs'. by rewrite !inodep_put_ne. }
  split; [by rewrite Q5|]. split; [exact Q7|].
  assert (0 ≤ i_inum n < sb_ninodes sb) as Hin by (destruct Q1 as (H1 & _); cbn; lia).
  destruct (empty_file_wf sb dev d' n) as (Hwf & Hnh & _); [done..|].
  split; rewrite ?Ef; change (y_fs (k_io k')) with fs'; change (f_ip file) with ip; rewrite ?En; try done.
  - change (f < length (<[f := file]> (ftable (k_io k))))%nat. by rewrite length_insert.
  - cbn. by rewrite !length_insert.
Qed.
End create.

(** * A file created in the directory of FsDirProps.v

    The program asks for "a" with [O_CREATE | O_RDWR]; its page holds the
    arguments and the name. *)
Definition cre_bytes : list Z := le_bytes 4 0x110 ++ le_bytes 4 (Z.lor O_CREATE O_RDWR) ++ le_bytes 4 0 ++ [97; 0].
Definition dcre : disk := put_dinode sb0 1 ddir dir0.
Definition dir_slots : list inode := dir0 :: replicate 49 no_inode.
Definition fscre : fsys (disk_st ata) :=
  mk_fsys (binit (boot_disk (sim_disk dcre))) sb0 dir_slots [] [] [].
Definition name_a : list Z := put_name (replicate 14 0) [97].

Lemma dcre_len dev b : length (dcre dev b) = 512%nat.
Proof.
  unfold dcre, put_dinode, disk_set. case_decide; [|apply ddir_len].
  by rewrite length_enc_dinode, ddir_len.
Qed.

Lemma dcre_rep : bl_rep (binit (boot_disk (sim_disk dcre))) dcre ∅.
Proof.
  pose proof (binit_rep (sim_disk dcre)) as Hb. rewrite sim_platter in Hb.
  apply Hb; [reflexivity|]. intros dev b _. apply dcre_len.
Qed.

Lemma fscre_fsi : fsi sb0 1 fscre dcre.
Proof.
  split; [reflexivity | apply dcre_rep | | vm_compute; reflexivity].
  intros b Hb. change (dstart sb0) with 6 in Hb.
  assert (b ∈ seqZ 0 6) as Hin by (apply elem_of_seqZ; lia). clear Hb.
  revert b Hin. apply Forall_forall. apply (bool_decide_unpack _). vm_compute. exact I.
Qed.

Lemma fsdir_parent : parent_ok sb0 1 fsdir ddir 0 name_a.
Proof.
  split.
  - vm_compute. lia.
  - exact dir0_ok.
  - split; split; discriminate || reflexivity.
  - split; discriminate || reflexivity.
  - discriminate.
  - discriminate.
  - vm_compute. reflexivity.
  - vm_compute. discriminate.
  - apply has_free_le with 3%nat; [exact ddir_free | vm_compute; lia].
Qed.

Lemma fscre_icache : icache fscre = icache fsdir.
Proof. transitivity dir_slots; reflexivity. Qed.

Lemma fscre_parent : parent_ok sb0 1 fscre dcre 0 name_a.
Proof.
  assert (put_inode fsdir 1 no_inode = fsdir) as E by (apply put_inode_same; vm_compute; lia).
  pose proof (parent_put sb0 sb0_wf 1 ltac:(lia) fsdir ddir 0 name_a dir0 (f_blk fsdir) 1 no_inode
    fsdir_parent ltac:(vm_compute; split; congruence) ltac:(discriminate)) as Hp.
  change (set_blk fsdir (f_blk fsdir)) with fsdir in Hp. rewrite E in Hp.
  exact (parent_ext sb0 1 fsdir fscre dcre 0 name_a fscre_icache Hp).
Qed.

Lemma fscre_room : icache_room sb0 1 dcre (icache fscre).
Proof.
  rewrite fscre_icache.
  assert (∀ j y, icache fsdir !! j = Some y → y = dir0 ∨ y = no_inode) as Hy.
  { intros [|j] y E; [left; by injection E|]. right.
    change (replicate 49 no_inode !! j = Some y) in E. by apply lookup_replicate in E as (-> & _). }
  split.
  - exact fsdir_icache.
  - intros j y [-> | ->]%Hy; reflexivity.
  - apply (bool_decide_unpack _). vm_compute. exact I.
  - intros j y [-> | ->]%Hy Hr _; [vm_compute; reflexivity | discriminate Hr].
Qed.

Lemma sys_open_creates_witness :
  ∃ (k k' : kern (disk_st ata)) d' ip, sys_open k (replicate 14 0) = Ok (k', 1) ∧
    p_ofile (procp k' 0) !! 1%nat = Some (Some 1%nat) ∧
    filep (k_io k') 1 = mk_file FD_INODE 1 1 1 ip 0 ∧
    dir_get 1 d' (inodep (kfs k') 0) name_a = Some 3 ∧ open_ok sb0 1 (k_io k') d' 1.
Proof.
  destruct (@demo_args (disk_st ata) _ cre_bytes) as (st & um & l & Hd & Hb);
    [vm_compute; congruence | by repeat (apply Forall_cons; split) |].
  destruct (Hd (open0 fscre)) as (Hp & Ha). set (k := demo (open0 fscre) st) in *.
  assert (user_string k 0 um 0x110 [97]) as Hs.
  { split; [lia | reflexivity | |].
    - intros [|[|i]] c E; [injection E as <- | done | done]. split; [done|].
      change (k_vm k) with st. by rewrite Hb.
    - change (k_vm k) with st. by rewrite Hb. }
  destruct (sys_open_creates sb0 sb0_wf 1 ltac:(lia) k 0 um l 0x110 (Z.lor O_CREATE O_RDWR) [97]
    (replicate 14 0) [97] 0 1 1 dcre 3 Hp ltac:(cbn; lia) eq_refl
    (Ha 0 0x110 ltac:(lia) ltac:(vm_compute; congruence) ltac:(lia) eq_refl)
    (Ha 1 (Z.lor O_CREATE O_RDWR) ltac:(lia) ltac:(vm_compute; congruence) ltac:(vm_compute; split; congruence) eq_refl)
    ltac:(discriminate) Hs ltac:(discriminate) eq_refl fscre_fsi fscre_room fscre_parent
    ltac:(reflexivity) ltac:(vm_compute; split; congruence) ltac:(vm_compute; reflexivity)
    ltac:(vm_compute; congruence) eq_refl eq_refl)
    as (k' & d' & i & ip & E & _ & _ & Ho & Ef & _ & Hi & _ & _ & _ & _ & Hc & Hok).
  exists k, k', d', ip. split; [exact E|]. split; [rewrite Ho; reflexivity|]. split; [exact Ef|].
  split; [|exact Hok]. etransitivity; [exact (cr_bound _ _ _ _ _ _ _ _ Hc)|].
  change (Some i = Some 3). f_equal. pose proof Hi as ((H1 & _) & _ & Hmin).
  assert (i ≠ 1 ∧ i ≠ 2) as (N1 & N2).
  { destruct Hi as (_ & Hf & _). split; intros ->; vm_compute in Hf; discriminate Hf. }
  destruct (decide (3 < i)); [|lia]. specialize (Hmin 3 ltac:(lia)). vm_compute in Hmin. discriminate Hmin.
Defined.
