(* ===== verification/OpenProps.v ===== *)
(** kernel/calls.c: [sys_open] of a file that is there, and [sys_close].  Both
    are stated against the tree on the disk (FsTree.v) and the users of the
    inodes. *)
From stdpp Require Import gmultiset.
From S2P Require Import Prelude Memory LibC Mmu Kalloc Vm UserMem Uvm UvmProps Seg Ports Ide Block Bio.
From S2P Require Import FsLayout Fs FsDir FsBlocks FsFile FsRw FsProps FsIcache FsDirProps FsTrunc FsAlloc FsPath FsTree.
From S2P Require Import File Kernel Exec Calls CallProps Create.

Section open.
Context {S : Type} `{BlockLayer S}.
Context (sb : superblock) (Hsb : sb_wf sb) (dev : Z) (Hdev : 0 ≤ dev < 2).
Implicit Types (k : kern S) (p ip f : nat) (d : disk) (y : fio S) (ic : list inode).
#[local] Abbreviation sound := (sound sb dev).
#[local] Abbreviation walked := (walked sb dev).
#[local] Abbreviation linked := (linked sb dev).

(** The walk along the path starts at [cwd] in the current process. *)
Record begins k d (path : list Z) (cwd : nat) : Prop := {
  bg_cwd : path_cwd k path = Ok cwd;
  bg_start : startable sb dev (kfs k) d cwd path
}.

Lemma namei_cur_spec k d path cwd junk :
  sound (kfs k) d → roomy (icache (kfs k)) → begins k d path cwd → length junk = DIRSIZ →
  ∃ fs' r, namei_cur k path junk = Ok (set_kfs k fs', r) ∧
    walked (icache (kfs k)) fs' d (resolve sb dev d (start (kfs k) cwd path) (elems path)) r.
Proof.
  intros Hs Hroom [Ec Hst] Hj.
  destruct (namei_spec sb Hsb dev Hdev (kfs k) d cwd path junk Hs Hroom Hst Hj) as (fs' & r & E & Hw).
  exists fs', r. unfold namei_cur. rewrite Ec. cbn [rbind]. by rewrite E.
Qed.

Lemma nameiparent_cur_spec k d path cwd junk :
  sound (kfs k) d → roomy (icache (kfs k)) → begins k d path cwd → length junk = DIRSIZ →
  ∃ fs' r name, nameiparent_cur k path junk = Ok (set_kfs k fs', r, name) ∧
    walked (icache (kfs k)) fs' d (resolve_parent sb dev d (start (kfs k) cwd path) (elems path)) r ∧
    (r ≠ None → ∃ junk' e, last (elems path) = Some e ∧ clean e ∧ length junk' = DIRSIZ ∧ name = put_name junk' e).
Proof.
  intros Hs Hroom [Ec Hst] Hj.
  destruct (namex_held sb Hsb dev Hdev (kfs k) d cwd path true junk Hs Hroom Hst Hj) as (fs' & r & name & E & Hw & Hn).
  exists fs', r, name. unfold nameiparent_cur. rewrite Ec. cbn [rbind]. unfold nameiparent. rewrite E.
  split; [done|]. split; [done|]. intros Hr. destruct (Hn eq_refl Hr) as (junk' & e & Hl & Hrest).
  exists junk', e. split; [done|]. split; [|done].
  apply last_Some in Hl as (es & Hes). pose proof (elems_clean path) as Hc. rewrite Hes in Hc.
  apply Forall_app in Hc as (_ & Hc). by inversion Hc.
Qed.

(** * Descriptors and files *)

(** A file that nobody uses has no type. *)
Definition files_clean y : Prop := ∀ x, x ∈ ftable y → f_ref x = 0 → f_type x = FD_NONE.

(** A file that was just taken is given back. *)
Lemma fileclose_fresh y f :
  files_clean y → free_file (ftable y) 0 = Some f → fileclose (upd_file y f (λ x, fset_ref x 1)) f = Ok y.
Proof.
  intros Hc (j & x & -> & Hx & Er & _)%free_file_spec. cbn [Nat.add].
  pose proof (Hc x (list_elem_of_lookup_2 _ _ _ Hx) Er) as Et. pose proof (lookup_lt_Some _ _ _ Hx) as Hlt.
  unfold fileclose. rewrite !filep_upd by (cbn; by rewrite ?length_alter).
  unfold filep. rewrite (list_lookup_total_correct _ _ _ Hx). cbn [f_ref fset_ref f_type].
  change (0 <? s32 (1 - 1)) with false. cbv iota. rewrite decide_False by (by rewrite Et).
  unfold upd_file. cbn. destruct y as [fs ft]. do 2 f_equal. cbn in *.
  apply list_eq. intros q. rewrite !list_lookup_alter. destruct (decide (j = q)) as [<-|]; [|done].
  rewrite !decide_True, Hx by done. cbn. f_equal. destruct x. cbn in *. by subst.
Qed.

(** [sys_open] when there is no descriptor or no file left. *)
Lemma open_inode_full k p ip om :
  curproc k = Some p → files_clean (k_io k) →
  free_fd (p_ofile (procp k p)) 0 = None ∨ free_file (ftable (k_io k)) 0 = None →
  open_inode k ip om = (let* fs := iunlockput (kfs k) ip in Ok (set_kfs k fs, -1)).
Proof.
  intros Hc Hcl Hfull. unfold open_inode, filealloc.
  destruct (free_file (ftable (k_io k)) 0) as [f|] eqn:Ef.
  - destruct Hfull as [Hfd|]; [|done].
    set (k1 := set_io k (upd_file (k_io k) f (λ x, fset_ref x 1))).
    unfold fdalloc, cur. change (curproc k1) with (curproc k). rewrite Hc. cbn [rbind].
    change (procp k1 p) with (procp k p). rewrite Hfd. cbn [rbind].
    change (k_io k1) with (upd_file (k_io k) f (λ x, fset_ref x 1)). rewrite fileclose_fresh by done. cbn [rbind].
    change (set_io k1 (k_io k)) with (set_io k (k_io k)). by assert (set_io k (k_io k) = k) as -> by (by destruct k).
  - by assert (set_io k (k_io k) = k) as -> by (by destruct k).
Qed.

(** * [create] of a name that is there *)

(** Nothing is in use that was not in use before. *)
Definition as_before k d (fs' : fsys S) : Prop := sound fs' d ∧ held (icache (kfs k)) ∅ (icache fs').

(** Slot [ip] has inode [i], locked, with one user more. *)
Definition taken k d (fs' : fsys S) (i : Z) ip : Prop :=
  sound fs' d ∧ held (icache (kfs k)) (∅ ⊎ {[+ ip +]}) (icache fs') ∧ (ip < length (icache (kfs k)))%nat ∧
  inodep fs' ip = node sb dev d i (i_ref (inodep fs' ip)) ∧ linked d i.

Lemma ilock_taken k d fs ip i :
  roomy (icache (kfs k)) → sound fs d → held (icache (kfs k)) (∅ ⊎ {[+ ip +]}) (icache fs) →
  (ip < length (icache (kfs k)))%nat → i_inum (inodep fs ip) = i → linked d i →
  ∃ fs', ilock fs ip = Ok fs' ∧ taken k d fs' i ip.
Proof.
  intros Hroom Hs Hh Hip <- Hi.
  destruct (ilock_held sb Hsb dev Hdev _ Hroom fs d ∅ ip Hs Hh Hip) as (fs' & E & H1 & H2 & H3 & H4).
  exists fs'. split; [done|]. split; [done|]. split; [done|]. split; [done|]. split; [|done].
  by rewrite H3 at 1 2.
Qed.

Lemma taken_put k d fs ip i :
  roomy (icache (kfs k)) → taken k d fs i ip → ∃ fs', iunlockput fs ip = Ok fs' ∧ as_before k d fs'.
Proof.
  intros Hroom (Hs & Hh & Hip & _).
  destruct (iunlockput_held sb dev _ Hroom fs d ∅ ip Hs Hh Hip) as (fs' & E & H1 & H2 & _). by exists fs'.
Qed.

Definition create_result k d (path : list Z) cwd (junk : list Z) (type major minor : Z) (c : res (kern S * option nat)) : Prop :=
  let i := start (kfs k) cwd path in
  match resolve_parent sb dev d i (elems path), resolve sb dev d i (elems path) with
  | None, _ => ∃ fs', c = Ok (set_kfs k fs', None) ∧ as_before k d fs'
  | Some _, Some n =>
      if (type =? T_FILE) && (di_type (disk_inode sb dev d n) =? T_FILE)
      then ∃ fs' ip, c = Ok (set_kfs k fs', Some ip) ∧ taken k d fs' n ip
      else ∃ fs', c = Ok (set_kfs k fs', None) ∧ as_before k d fs'
  | Some dn, None =>
      ∃ fs' dp junk' e, c = create_new (set_kfs k fs') dp (put_name junk' e) type major minor ∧
        taken k d fs' dn dp ∧ is_dir sb dev d dn = true ∧ last (elems path) = Some e ∧ clean e ∧
        length junk' = DIRSIZ ∧ child sb dev d dn e = None
  end.

(** [create] up to the point where a new inode is made. *)
Lemma create_resolves k d path cwd junk type major minor :
  sound (kfs k) d → roomy (icache (kfs k)) → begins k d path cwd → length junk = DIRSIZ →
  create_result k d path cwd junk type major minor (create k path junk type major minor).
Proof.
  intros Hs Hroom Hb Hj. unfold create_result.
  destruct (nameiparent_cur_spec k d path cwd junk Hs Hroom Hb Hj) as (fs1 & r & name & E & (Hs1 & Hw) & Hn).
  unfold create. rewrite E. cbn [rbind]. set (i := start (kfs k) cwd path) in *.
  destruct (resolve_parent sb dev d i (elems path)) as [dn|] eqn:Ep.
  2: { destruct Hw as (-> & Hh). by exists fs1. }
  destruct Hw as (dp & -> & Hh & Hdp & Ei & Hl). destruct (Hn ltac:(done)) as (junk' & e & Hlast & He & Hj' & ->).
  assert (resolve sb dev d i (elems path) = child sb dev d dn e) as ->.
  { apply last_Some in Hlast as (es & Hes). rewrite Hes in Ep |- *. by rewrite resolve_parent_last, Ep. }
  pose proof (resolve_parent_dir sb dev d i _ dn Ep) as Hdir.
  change (kfs (set_kfs k fs1)) with fs1. rewrite <- (left_id_L ∅ (⊎) {[+ dp +]}) in Hh.
  destruct (ilock_taken k d fs1 dp dn Hroom Hs1 Hh Hdp Ei Hl) as (fs2 & -> & Ht2). cbn [rbind].
  pose proof Ht2 as (Hs2 & Hh2 & _ & En & _).
  destruct (roomy_slot (icache (kfs k)) Hroom dp) as (j0 & Hj0 & Hu & Hnj).
  destruct (dirlookup_held sb Hsb dev Hdev _ Hroom fs2 d ∅ dp dn junk' e j0) as (fs3 & o & -> & Hs3 & Ei3 & Hc);
    try done.
  { intros q. rewrite multiplicity_empty. lia. }
  cbn [rbind fst snd]. destruct (child sb dev d dn e) as [n|] eqn:Ec.
  - destruct Hc as (jp & off & -> & Hh3 & Hjp & En3).
    rewrite <- (assoc_L (⊎)), (comm_L (⊎) {[+ dp +]}), (assoc_L (⊎)) in Hh3.
    destruct (iunlockput_held sb dev _ Hroom fs3 d (∅ ⊎ {[+ jp +]}) dp Hs3 Hh3 Hdp) as (fs4 & -> & Hs4 & Hh4 & I4).
    cbn [rbind].
    assert (linked d n) as Hln by (by apply (child_linked sb dev d dn e); [apply Hs | |]).
    destruct (ilock_taken k d fs4 jp n Hroom Hs4 Hh4 Hjp) as (fs5 & -> & Ht5); [by rewrite I4 | done |]. cbn [rbind].
    pose proof Ht5 as (_ & _ & _ & En5 & _).
    assert (i_type (inodep fs5 jp) = di_type (disk_inode sb dev d n)) as -> by (by rewrite En5).
    case_match; [by exists fs5, jp|].
    destruct (taken_put k d fs5 jp n Hroom Ht5) as (fs6 & -> & Hb6). by exists fs6.
  - destruct Hc as (-> & Hh3 & Eic). exists fs3, dp, junk', e. split; [done|]. split; [|by split].
    split; [done|]. split; [done|]. split; [done|]. split; [|done].
    unfold inodep in *. by rewrite Eic.
Qed.

(** * What [sys_open] opens *)

(** The inode that an open with the mode [om] gets, when the file is there. *)
Definition opens d (om i : Z) (es : list (list Z)) : option Z :=
  match resolve sb dev d i es with
  | Some n =>
      if negb (Z.land om O_CREATE =? 0) then
        if (di_type (disk_inode sb dev d n) =? T_FILE) && negb (bool_decide (es = [])) then Some n else None
      else if is_dir sb dev d n && negb (om =? O_RDONLY) then None else Some n
  | None => None
  end.

(** The open makes a new file. *)
Definition creates d (om i : Z) (es : list (list Z)) : bool :=
  negb (Z.land om O_CREATE =? 0) &&
  match resolve_parent sb dev d i es with
  | Some _ => match resolve sb dev d i es with Some _ => false | None => true end
  | None => false
  end.

(** What [sys_open] does when it opens the inode [o], and nothing else: with a
    descriptor and a file free, the lowest descriptor gets the first free file,
    which has the inode at offset 0 with the rights of the mode; if there is no
    inode, no descriptor or no file, the answer is -1 and only the cache may have
    read more inodes. *)
Definition opened k d p (om : Z) (o : option Z) (c : res (kern S * Z)) : Prop :=
  match o, free_fd (p_ofile (procp k p)) 0, free_file (ftable (k_io k)) 0 with
  | Some n, Some fd, Some f =>
      ∃ fs' ip, taken k d fs' n ip ∧
        let file := mk_file FD_INODE 1 (rd_of om) (wr_of om) ip 0 in
        c = Ok (set_io (upd_proc k p (λ z, pset_ofile z fd (Some f))) (mk_fio fs' (<[f := file]> (ftable (k_io k)))),
                Z.of_nat fd)
  | _, _, _ => ∃ fs', as_before k d fs' ∧ c = Ok (set_kfs k fs', -1)
  end.

Lemma open_taken k d p fs n ip om :
  curproc k = Some p → files_clean (k_io k) → roomy (icache (kfs k)) → taken k d fs n ip →
  opened k d p om (Some n) (open_inode (set_kfs k fs) ip om).
Proof.
  intros Hc Hcl Hroom Ht. pose proof Ht as (Hs & Hh & Hip & _). unfold opened.
  destruct (held_ref sb dev _ Hroom fs d ∅ ip Hh Hip Hs) as (Hr & _).
  destruct (taken_put k d fs ip n Hroom Ht) as (fs' & E & Hb).
  assert (free_fd (p_ofile (procp k p)) 0 = None ∨ free_file (ftable (k_io k)) 0 = None →
    open_inode (set_kfs k fs) ip om = Ok (set_kfs k fs', -1)) as Hfull.
  { intros Hn. rewrite (open_inode_full (set_kfs k fs) p ip om Hc Hcl Hn). change (kfs (set_kfs k fs)) with fs. by rewrite E. }
  destruct (free_fd (p_ofile (procp k p)) 0) as [fd|] eqn:Efd; [|exists fs'; split; [done|]; by apply Hfull; left].
  destruct (free_file (ftable (k_io k)) 0) as [f|] eqn:Ef; [|exists fs'; split; [done|]; by apply Hfull; right].
  exists fs, ip. split; [done|].
  rewrite (open_inode_spec (set_kfs k fs) p fd f ip om); [done | done | done | done | exact (proj1 Hr)].
Qed.

Lemma resolve_parent_some d i es n :
  es ≠ [] → resolve sb dev d i es = Some n → ∃ m, resolve_parent sb dev d i es = Some m.
Proof.
  intros Hes. destruct (List.exists_last Hes) as (l & e & ->). rewrite resolve_parent_last.
  destruct (resolve_parent _ _ _ _ _) as [m|]; [by exists m | done].
Qed.

Lemma open_found k p um l a om path d cwd junk :
  let i := start (kfs k) cwd path in
  user_proc k p um l → argint k 0 = Ok (Some a) → argint k 1 = Ok (Some om) → user_string k p um a path →
  sound (kfs k) d → roomy (icache (kfs k)) → begins k d path cwd → length junk = DIRSIZ → files_clean (k_io k) →
  creates d om i (elems path) = false →
  opened k d p om (opens d om i (elems path)) (sys_open k junk).
Proof.
  intros i Hp Ha Hom Hus Hs Hroom Hb Hj Hcl Hcr. pose proof (up_cur _ _ _ _ Hp) as Hc.
  unfold sys_open. rewrite (argstr_string k p um l Hp a path Hus 0 Ha), Hom. cbn [rbind].
  rewrite (user_str_string k p um l Hp a path Hus). cbn [rbind].
  unfold opens, creates in *. destruct (negb (Z.land om O_CREATE =? 0)).
  - pose proof (create_resolves k d path cwd junk T_FILE 0 0 Hs Hroom Hb Hj) as Hres.
    unfold create_result in Hres. fold i in Hres. cbn [andb] in Hcr.
    destruct (resolve_parent sb dev d i (elems path)) as [dn|] eqn:Ep.
    + destruct (resolve sb dev d i (elems path)) as [n|] eqn:En; [|discriminate].
      rewrite bool_decide_eq_false_2 by (intros E; by rewrite E in Ep).
      change (T_FILE =? T_FILE) with true in Hres. cbn [andb negb] in Hres |- *. rewrite andb_true_r.
      destruct (di_type (disk_inode sb dev d n) =? T_FILE).
      * destruct Hres as (fs' & ip & -> & Ht). cbn [rbind fst snd]. by apply open_taken.
      * destruct Hres as (fs' & -> & Hb'). by exists fs'.
    + assert (opened k d p om None (let* r := create k path junk T_FILE 0 0 in
        match r.2 with Some ip => open_inode r.1 ip om | None => Ok (r.1, -1) end)) as Hno.
      { destruct Hres as (fs' & -> & Hb'). by exists fs'. }
      destruct (resolve sb dev d i (elems path)) as [n|] eqn:En; [|done].
      destruct (decide (elems path = [])) as [Ee|Ne].
      * rewrite bool_decide_eq_true_2, andb_false_r by done. done.
      * destruct (resolve_parent_some d i (elems path) n Ne En) as (m & Em). congruence.
  - destruct (namei_cur_spec k d path cwd junk Hs Hroom Hb Hj) as (fs1 & r & -> & (Hs1 & Hw)). fold i in Hw. cbn [rbind fst snd].
    destruct (resolve sb dev d i (elems path)) as [n|].
    2: { destruct Hw as (-> & Hh). by exists fs1. }
    destruct Hw as (ip & -> & Hh & Hip & Ei & Hl). rewrite <- (left_id_L ∅ (⊎) {[+ ip +]}) in Hh.
    change (kfs (set_kfs k fs1)) with fs1.
    destruct (ilock_taken k d fs1 ip n Hroom Hs1 Hh Hip Ei Hl) as (fs2 & -> & Ht). cbn [rbind].
    pose proof Ht as (_ & _ & _ & En & _). change (set_kfs (set_kfs k fs1) fs2) with (set_kfs k fs2).
    assert (i_type (inodep fs2 ip) = di_type (disk_inode sb dev d n)) as -> by (by rewrite En).
    fold (is_dir sb dev d n). destruct (is_dir sb dev d n && negb (om =? O_RDONLY)); [|by apply open_taken].
    destruct (taken_put k d fs2 ip n Hroom Ht) as (fs3 & -> & Hb3). by exists fs3.
Qed.

(** C6. [open(path, mode)] of a path that leads to a file, or to nothing: the
    tree on the disk, the mode, the free descriptors and the free files decide
    alone what happens, and all else stays as it was ([opened]).  In particular
    a directory only opens for reading, [O_CREATE] opens an existing plain file
    and no device and no directory, the lowest descriptor and the first free file
    are used, and when anything is missing the answer is -1 and no inode, file or
    descriptor stays in use. *)
Theorem sys_open_opens k p um l a om path d cwd junk :
  let i := start (kfs k) cwd path in
  user_proc k p um l → argint k 0 = Ok (Some a) → argint k 1 = Ok (Some om) → user_string k p um a path →
  sound (kfs k) d → roomy (icache (kfs k)) → begins k d path cwd → length junk = DIRSIZ → files_clean (k_io k) →
  creates d om i (elems path) = false →
  opened k d p om (opens d om i (elems path)) (sys_open k junk).
Proof. exact (open_found k p um l a om path d cwd junk). Qed.

(** * sys_close *)

(** A file table slot after its last close. *)
Definition closed_file (x : file) : file := fset_type (fset_ref x 0) FD_NONE.

(** The last close of an inode's file gives the inode back. *)
Lemma fileclose_last y f d :
  let x := filep y f in
  (f < length (ftable y))%nat → f_ref x = 1 → f_type x = FD_INODE → sound (y_fs y) d →
  (f_ip x < length (icache (y_fs y)))%nat → 0 < i_ref (inodep (y_fs y) (f_ip x)) →
  let z := inodep (y_fs y) (f_ip x) in
  let fs' := put_inode (y_fs y) (f_ip x) (set_ref z (i_ref z - 1)) in
  fileclose y f = Ok (mk_fio fs' (<[f := closed_file x]> (ftable y))) ∧ sound fs' d.
Proof.
  intros x Hf Hr Ht Hs Hip Hir z fs'. destruct (iput_sound sb dev (y_fs y) d (f_ip x) Hs Hip Hir) as (E & Hs').
  split; [|exact Hs']. destruct (fileclose_counts_spec y f Hf) as (_ & _ & Hl); [fold x; lia|].
  rewrite Hl by done. fold x. rewrite decide_True, E by done. cbn [rbind]. unfold set_fs, upd_file. cbn [ftable]. do 2 f_equal.
  apply list_eq. intros j. rewrite list_lookup_alter. destruct (decide (f = j)) as [<-|Hne].
  - rewrite list_lookup_insert_eq by done. unfold x, filep. by rewrite (list_lookup_lookup_total_lt _ _ Hf).
  - by rewrite list_lookup_insert_ne.
Qed.

Lemma close_opened k p d fd f x :
  let fs := kfs k in
  curproc k = Some p → argfd k 0 = Ok (Some (fd, f)) → x = filep (k_io k) f →
  (f < length (ftable (k_io k)))%nat → f_ref x = 1 → f_type x = FD_INODE → sound fs d →
  (f_ip x < length (icache fs))%nat → 0 < i_ref (inodep fs (f_ip x)) →
  let z := inodep fs (f_ip x) in
  let fs' := put_inode fs (f_ip x) (set_ref z (i_ref z - 1)) in
  sys_close k = Ok (set_io (upd_proc k p (λ q, pset_ofile q fd None)) (mk_fio fs' (<[f := closed_file x]> (ftable (k_io k)))), 0) ∧
  sound fs' d.
Proof.
  intros fs Hc Ha -> Hf Hr Ht Hs Hip Hir z fs'.
  destruct (fileclose_last (k_io k) f d Hf Hr Ht Hs Hip Hir) as (E & Hs'). split; [|exact Hs'].
  unfold sys_close. rewrite Ha. cbn [rbind]. unfold cur. rewrite Hc. cbn [rbind].
  change (k_io (upd_proc k p _)) with (k_io k). rewrite E. done.
Qed.

(** A descriptor that is taken and given back. *)
Lemma ofile_back k p fd f :
  free_fd (p_ofile (procp k p)) 0 = Some fd → (p < length (ptable k))%nat → ∀ q,
  procp (upd_proc (upd_proc k p (λ x, pset_ofile x fd (Some f))) p (λ x, pset_ofile x fd None)) q = procp k q.
Proof.
  intros Hfd Hp q. destruct (decide (q = p)) as [->|Hne].
  - rewrite !procp_upd by (cbn; by rewrite ?length_alter). pose proof (free_fd_spec (p_ofile (procp k p)) 0) as Hs.
    rewrite Hfd in Hs. destruct Hs as (j & -> & Hj & _). cbn [Nat.add].
    unfold pset_ofile. destruct (procp k p). cbn in *. f_equal. rewrite list_insert_insert_eq. by apply list_insert_id.
  - by rewrite !procp_upd_ne.
Qed.

(** C7. An open of a file that is there, followed by the close of the descriptor,
    whatever the program did to its memory in between, gives back everything:
    the descriptors are as before, the file is free again, and every inode of
    the cache has the users it had. *)
Theorem open_close k p um l a om path d cwd junk n fd f :
  let i := start (kfs k) cwd path in
  user_proc k p um l → argint k 0 = Ok (Some a) → argint k 1 = Ok (Some om) → user_string k p um a path →
  sound (kfs k) d → roomy (icache (kfs k)) → begins k d path cwd → length junk = DIRSIZ → files_clean (k_io k) →
  creates d om i (elems path) = false → opens d om i (elems path) = Some n →
  free_fd (p_ofile (procp k p)) 0 = Some fd → free_file (ftable (k_io k)) 0 = Some f → (p < length (ptable k))%nat →
  ∃ k1, sys_open k junk = Ok (k1, Z.of_nat fd) ∧
    ∀ st, argfd (set_vm k1 st) 0 = Ok (Some (fd, f)) →
    ∃ k', sys_close (set_vm k1 st) = Ok (k', 0) ∧ k_vm k' = st ∧ (∀ q, procp k' q = procp k q) ∧
      as_before k d (kfs k') ∧ f_ref (filep (k_io k') f) = 0 ∧ ∀ g, g ≠ f → filep (k_io k') g = filep (k_io k) g.
Proof.
  intros i Hp Ha Hom Hus Hs Hroom Hb Hj Hcl Hcr Ho Hfd Hf Hpl.
  pose proof (open_found k p um l a om path d cwd junk Hp Ha Hom Hus Hs Hroom Hb Hj Hcl Hcr) as Hop.
  fold i in Hop. unfold opened in Hop. rewrite Ho, Hfd, Hf in Hop. destruct Hop as (fs & ip & Ht & Hop). cbv zeta in Hop.
  eexists. split; [exact Hop|]. intros st Harg. set (file := mk_file FD_INODE 1 (rd_of om) (wr_of om) ip 0) in *.
  assert (f < length (ftable (k_io k)))%nat as Hfl.
  { apply free_file_spec in Hf as (j & z & -> & Hz & _). by apply lookup_lt_Some in Hz. }
  pose proof Ht as (Hs1 & Hh & Hip & _). destruct (held_ref sb dev _ Hroom fs d ∅ ip Hh Hip Hs1) as (Hr & Hlt).
  destruct (iput_held sb dev _ Hroom fs d ∅ ip Hs1 Hh Hip) as (fs2 & E2 & Hs2 & Hh2 & _).
  destruct (iput_sound sb dev fs d ip Hs1 Hlt ltac:(lia)) as (E3 & _). rewrite E2 in E3. injection E3 as E3.
  set (k1 := set_io _ _) in *.
  assert (filep (k_io (set_vm k1 st)) f = file) as Efile by (by apply list_lookup_total_insert_eq).
  destruct (close_opened (set_vm k1 st) p d fd f file) as (E & _); try done.
  { apply (up_cur _ _ _ _ Hp). }
  { change (f < length (<[f := file]> (ftable (k_io k))))%nat. by rewrite length_insert. }
  { change (0 < i_ref (inodep fs ip)). lia. }
  rewrite E. eexists. split; [done|]. split; [done|].
  split; [exact (ofile_back k p fd f Hfd Hpl)|]. split.
  { change (kfs _) with (put_inode fs ip (set_ref (inodep fs ip) (i_ref (inodep fs ip) - 1))). rewrite <- E3. by split. }
  change (ftable (k_io (set_vm k1 st))) with (<[f := file]> (ftable (k_io k))). unfold filep. cbn [k_io ftable set_io]. split.
  - rewrite list_lookup_total_insert_eq by (by rewrite length_insert). done.
  - intros g Hg. by rewrite !list_lookup_total_insert_ne.
Qed.
End open.

(** * A program that opens "/bin/a" of FsTree.v, and closes it *)
Definition path_bin (c : Z) : list Z := [47; 98; 105; 110; 47; c].
Definition path_bin_a : list Z := path_bin 97.
Definition opn_bytes (om c : Z) : list Z := le_bytes 4 0x110 ++ le_bytes 4 om ++ le_bytes 4 0 ++ path_bin c ++ [0].
Definition cls_bytes : list Z := le_bytes 4 1 ++ le_bytes 4 0.
Definition fs_a : fsys (disk_st ata) := fstree (replicate 512 7) 100.
Definition d_a : disk := dtree (replicate 512 7) 100.

Lemma open0_clean fs : files_clean (open0 fs).
Proof.
  intros x ([|[|j]] & E)%list_elem_of_lookup Hr; [|by injection E as <- | done].
  injection E as <-. discriminate Hr.
Qed.

Lemma opn_ready om c :
  0 ≤ om < 2 ^ 32 → 0 < c < 256 →
  ∃ st um l, let k := demo (open0 fs_a) st in
    user_proc k 0 um l ∧ argint k 0 = Ok (Some 0x110) ∧ argint k 1 = Ok (Some om) ∧
    user_string k 0 um 0x110 (path_bin c) ∧ sound sb0 1 (kfs k) d_a ∧ roomy (icache (kfs k)) ∧
    begins sb0 1 k d_a (path_bin c) 0.
Proof.
  intros Hom Hc. assert (length (opn_bytes om c) = 19%nat) as Hlen by reflexivity.
  destruct (@demo_args (disk_st ata) _ (opn_bytes om c)) as (st & um & l & Hd & Hb); [rewrite Hlen; lia | |].
  { repeat apply Forall_app_2; [apply le_bytes_byte.. | |]; by repeat (apply Forall_cons; split; [lia|]). }
  rewrite Hlen in Hd, Hb. destruct (Hd (open0 fs_a)) as (Hp & Ha). exists st, um, l. cbv zeta. split; [exact Hp|].
  split; [apply (Ha 0 0x110); [lia | lia | lia | reflexivity]|].
  split; [apply (Ha 1 om); [lia | lia | lia | reflexivity]|].
  split; [|split; [|split]].
  - split; [lia | reflexivity | |].
    + intros i b E. do 6 (destruct i as [|i]; [injection E as <-; split; [first [done | lia]|]; change (k_vm _) with st; by rewrite Hb|]).
      discriminate E.
    + change (k_vm _) with st. by rewrite Hb.
  - apply fstree_sound; [done | lia].
  - exact tree_roomy.
  - split; [done|]. by apply (tree_start (replicate 512 7) 100).
Qed.

Lemma sys_open_opens_witness :
  ∃ (k k' : kern (disk_st ata)) ip, sys_open k (replicate 14 0) = Ok (k', 1) ∧
    i_inum (inodep (kfs k') ip) = 3 ∧ filep (k_io k') 1 = mk_file FD_INODE 1 1 1 ip 0.
Proof.
  destruct (opn_ready O_RDWR 97 ltac:(by split) ltac:(by split)) as (st & um & l & Hp & H0 & H1 & Hs & Hso & Hr & Hb). set (k := demo (open0 fs_a) st) in *.
  pose proof (sys_open_opens sb0 sb0_wf 1 ltac:(lia) k 0 um l 0x110 O_RDWR path_bin_a d_a 0 (replicate 14 0)
    Hp H0 H1 Hs Hso Hr Hb eq_refl (open0_clean fs_a) ltac:(vm_compute; reflexivity)) as Hop.
  unfold opened in Hop. replace (opens _ _ _ _ _ _) with (Some 3) in Hop by (vm_compute; reflexivity).
  destruct Hop as (fs' & ip & (_ & _ & _ & En & _) & E). cbv zeta in E.
  exists k. eexists _, ip. split; [exact E|]. split; [|reflexivity].
  change (i_inum (inodep fs' ip) = 3). by rewrite En.
Defined.

Lemma open_close_witness :
  ∃ (k k1 k' : kern (disk_st ata)) st, sys_open k (replicate 14 0) = Ok (k1, 1) ∧
    sys_close (set_vm k1 st) = Ok (k', 0) ∧ p_ofile (procp k' 0) = p_ofile (procp k 0) ∧
    i_ref (inodep (kfs k') 0) = i_ref (inodep (kfs k) 0).
Proof.
  destruct (opn_ready O_RDWR 97 ltac:(by split) ltac:(by split)) as (st & um & l & Hp & H0 & H1 & Hs & Hso & Hr & Hb). set (k := demo (open0 fs_a) st) in *.
  destruct (open_close sb0 sb0_wf 1 ltac:(lia) k 0 um l 0x110 O_RDWR path_bin_a d_a 0 (replicate 14 0) 3 1 1
    Hp H0 H1 Hs Hso Hr Hb eq_refl (open0_clean fs_a) ltac:(vm_compute; reflexivity) ltac:(vm_compute; reflexivity)
    eq_refl eq_refl ltac:(cbn; lia)) as (k1 & E1 & Hcl).
  destruct (@demo_args (disk_st ata) _ cls_bytes) as (st' & um' & l' & Hd & _);
    [vm_compute; congruence | by repeat (apply Forall_cons; split) |].
  destruct (Hd (open0 fs_a)) as (_ & Ha').
  pose proof (Ha' 0 1 ltac:(lia) ltac:(vm_compute; congruence) ltac:(lia) eq_refl) as Harg.
  pose proof (open_found sb0 sb0_wf 1 ltac:(lia) k 0 um l 0x110 O_RDWR path_bin_a d_a 0 (replicate 14 0)
    Hp H0 H1 Hs Hso Hr Hb eq_refl (open0_clean fs_a) ltac:(vm_compute; reflexivity)) as Hop.
  unfold opened in Hop. replace (opens _ _ _ _ _ _) with (Some 3) in Hop by (vm_compute; reflexivity).
  destruct Hop as (fs' & ip & _ & E). cbv zeta in E. rewrite E1 in E. injection E as ->.
  destruct (Hcl st') as (k' & E2 & _ & Hq & (_ & Hh) & _).
  { unfold argfd. change (argint (set_vm _ st') 0) with (argint (demo (open0 fs_a) st') 0). by rewrite Harg. }
  exists k. eexists _, k', st'. split; [exact E1|]. split; [exact E2|]. split; [by rewrite Hq|].
  pose proof (he_ref _ _ _ Hh 0%nat ltac:(cbn; lia)) as Er. rewrite multiplicity_empty, Z.add_0_r in Er. exact Er.
Defined.
