(* ===== verification/CreateTree.v ===== *)
(** kernel/calls.c: [create] of a name that is not there, on the tree.  The new
    inode and its entry leave a tree on the disk and a cache that agrees with it;
    every path that led somewhere leads there still, and the new one leads to the
    new inode. *)
From stdpp Require Import gmultiset.
From S2P Require Import Prelude Memory LibC Mmu Kalloc Vm UserMem Uvm UvmProps Seg Ports Ide Block Bio.
From S2P Require Import FsLayout Fs FsDir FsBlocks FsFile FsRw FsProps FsIcache FsDirProps FsTrunc FsAlloc FsPath FsTree FsSound.
From S2P Require Import File Kernel Exec Calls CallProps Create OpenProps.

Lemma elems_Forall (P : Z → Prop) cur path :
  Forall P cur → Forall P path → Forall (Forall P) (elems_from cur path).
Proof.
  assert (∀ c, Forall P c → Forall (Forall P) (flush c)) as Hf by (intros [|??] Hc; [constructor | by constructor]).
  intros Hc Hp. revert cur Hc. induction Hp as [|c path Hc0 Hp IH]; intros cur Hc; cbn [elems_from]; [by apply Hf|].
  destruct (c =? 0); [by apply Hf|]. destruct (c =? SLASH); [apply Forall_app; split; [by apply Hf | by apply IH]|].
  apply IH, Forall_app. split; [done | by constructor].
Qed.

Lemma strncpy_byte t m : byte_list t → byte_list (strncpy_bytes t m).
Proof.
  intros Ht. assert (∀ q, byte_list (replicate q 0)) as Hz by (intros q; by apply (Forall_replicate (λ b, 0 ≤ b < 256))).
  revert m. induction Ht as [|c t Hc Ht IH]; intros [|m]; [constructor | apply (Hz (Datatypes.S m)) | constructor|].
  cbn [strncpy_bytes]. case_match; [apply (Hz (Datatypes.S m)) | constructor; [done | apply IH]].
Qed.

Section create_tree.
Context {S : Type} `{BlockLayer S}.
Context (sb : superblock) (Hsb : sb_wf sb) (dev : Z) (Hdev : 0 ≤ dev < 2).
Implicit Types (fs : fsys S) (d : disk) (ip dp : nat) (k : kern S).
#[local] Abbreviation sound := (sound sb dev).
#[local] Abbreviation linked := (linked sb dev).
#[local] Abbreviation node := (node sb dev).
#[local] Abbreviation is_dir := (is_dir sb dev).
#[local] Abbreviation disk_inode := (disk_inode sb dev).

(** What creating a file needs: a free inode, blocks for an entry, and no
    directory of the largest size. *)
Record create_room d : Prop := {
  cm_inode : ∃ i, 1 ≤ i < sb_ninodes sb ∧ free_inode sb dev d i = true;
  cm_blocks : has_free sb dev d 3;
  cm_entry : ∀ i, linked d i → is_dir d i = true →
    16 * Z.of_nat (free_entry dev d (node d i 0)) + 16 ≤ MAXFILE * BSIZE
}.

Lemma free_not_linked d i : free_inode sb dev d i = true → ¬ linked d i.
Proof.
  intros Hf (_ & Ht & _). apply Ht. unfold FsRw.disk_inode, dec_dinode. cbn [di_type]. unfold free_inode in Hf.
  apply Z.eqb_eq in Hf. by rewrite Hf.
Qed.

Lemma linked_live d i : linked d i → free_inode sb dev d i = false.
Proof. intros Hl. apply not_true_iff_false. intros Hf. by apply (free_not_linked d i Hf). Qed.

(** A cache with room for a new inode. *)
Lemma held_room ic0 fs d dp :
  roomy ic0 → sound fs d → held ic0 (∅ ⊎ {[+ dp +]}) (icache fs) → icache_room sb dev d (icache fs).
Proof.
  intros Hroom Hs Hh. pose proof (he_len _ _ _ Hh) as El. split.
  - apply Hs.
  - intros j y Ey. pose proof (lookup_lt_Some _ _ _ Ey) as Hj. rewrite El in Hj.
    pose proof (he_ref _ _ _ Hh j Hj) as Er. rewrite (list_lookup_total_correct _ _ _ Ey) in Er.
    pose proof (ro_refs _ Hroom j Hj) as Hr. rewrite (left_id_L ∅ (⊎)) in Er.
    enough (multiplicity j ({[+ dp +]} : gmultiset nat) ≤ 1)%nat by lia.
    destruct (decide (j = dp)) as [->|Hne]; [by rewrite multiplicity_singleton_eq | rewrite multiplicity_singleton_ne by done; lia].
  - destruct (roomy_slot ic0 Hroom dp) as (j0 & Hj0 & Hu & Hn). apply Exists_exists. exists (icache fs !!! j0). split.
    + apply list_elem_of_lookup_2 with j0. apply list_lookup_lookup_total_lt. lia.
    + unfold unused in *. rewrite (he_ref _ _ _ Hh) by done. rewrite not_elem_of_multiplicity in Hn. lia.
  - intros j y Ey Hr _. pose proof (lookup_lt_Some _ _ _ Ey) as Hj.
    destruct (sy_slot _ _ _ _ (so_sync _ _ _ _ Hs) j Hj) as (_ & Hl & _); rewrite (list_lookup_total_correct _ _ _ Ey) in *;
      [done | by apply linked_live].
Qed.

(** The directory that [create] has locked takes one more name. *)
Lemma taken_parent k d fs dn dp junk e :
  roomy (icache (kfs k)) → taken sb dev k d fs dn dp → is_dir d dn = true → clean e → length junk = DIRSIZ →
  child sb dev d dn e = None → create_room d → parent_ok sb dev fs d dp (put_name junk e).
Proof.
  intros Hroom (Hs & Hh & Hdp & En & Hl) Hd He Hj Hc [_ Hb He0].
  destruct (held_ref sb dev _ Hroom fs d ∅ dp Hh Hdp Hs) as (Hr & Hlt).
  remember (i_ref (inodep fs dp)) as r eqn:Er.
  split; rewrite ?En; try done.
  - apply node_dir; [apply Hs | done..].
  - apply node_meta.
  - apply Hl.
  - rewrite dir_get_name by done. unfold child in Hc. by rewrite Hd in Hc.
  - apply (He0 dn Hl Hd).
  - cbv zeta. set (o := 16 * Z.of_nat (free_entry dev d (node d dn r))).
    apply has_free_le with 3%nat; [done|]. unfold nblocks, ind_need, BSIZE. assert (0 ≤ o) by (unfold o; lia).
    repeat case_decide; zlia.
Qed.

(** The disk after the inode [i] of the new file [y] and its entry [e] in the
    directory [dn] were written. *)
Section made.
Context (d d' : disk) (dn r : Z) (x' : inode) (name : list Z) (i type major minor : Z).
Context (Ht : tree_ok sb dev d) (Hl : linked d dn) (Hd : is_dir d dn = true) (Hfree : free_inode sb dev d i = true).
Context (Hi : 0 < i < 2 ^ 16) (Hir : 0 ≤ i < sb_ninodes sb) (Hty : type ≠ 0) (Htd : type ≠ T_DIR).
#[local] Abbreviation x := (node d dn r).
#[local] Abbreviation n := (new_inode dev i type major minor 1).
Context (Hx' : x' = set_size (with_addrs x (i_addrs x')) (i_size x')) (Hc : created sb dev d x d' x' name n).

Lemma made_new : disk_inode d' i = dinode_of n.
Proof. exact (cr_inode _ _ _ _ _ _ _ _ Hc). Qed.

Lemma made_linked : linked d' i.
Proof. split; [done|]. rewrite made_new. by split. Qed.

Lemma made_ne j : linked d j → j ≠ i.
Proof. intros Hj ->. by apply (free_not_linked d i Hfree). Qed.

Lemma made_dir : node d' dn r = x' ∧ linked d' dn ∧ is_dir d' dn = true.
Proof.
  assert (disk_inode d' dn = dinode_of x') as Ed by (apply (cr_saved _ _ _ _ _ _ _ _ Hc); symmetry; apply dinode_node).
  assert (di_type (disk_inode d' dn) = di_type (disk_inode d dn) ∧ di_nlink (disk_inode d' dn) = di_nlink (disk_inode d dn))
    as (E1 & E2) by (by rewrite Ed, Hx').
  split; [|split; [split; [apply Hl | rewrite E1, E2; apply Hl] | unfold FsTree.is_dir; by rewrite E1]].
  assert (i_inum x' = dn ∧ i_ref x' = r) as (E3 & E4) by (by rewrite Hx'). rewrite <- E3, <- E4.
  apply node_saved; [by rewrite Hx' | by rewrite Hx' | by rewrite E3].
Qed.

Lemma made_other j : 0 ≤ j < sb_ninodes sb → j ≠ i → j ≠ dn → disk_inode d' j = disk_inode d j.
Proof. intros Hj N1 N2. by apply (cr_inodes _ _ _ _ _ _ _ _ Hc). Qed.

Lemma made_stays j : linked d j → linked d' j.
Proof.
  intros Hj. destruct (decide (j = dn)) as [->|Hne]; [apply made_dir|].
  pose proof (made_other j (proj1 Hj) (made_ne j Hj) Hne) as E. split; [apply Hj|]. rewrite E. apply Hj.
Qed.

Lemma made_changed : changed sb dev d dn d'.
Proof.
  destruct made_dir as (En & Hl' & Hd'). pose proof (cr_dir _ _ _ _ _ _ _ _ Hc) as Hdir.
  assert (node d' dn 0 = set_ref x' 0) as E0 by (by rewrite <- En).
  assert (dir_ok sb dev d' (node d' dn 0)) as Hdir0 by (rewrite E0; by apply put_dir_ref).
  split; try done.
  - apply Hdir0.
  - apply Hdir0.
  - rewrite E0. exact (cr_kept _ _ _ _ _ _ _ _ Hc).
  - intros j Hj Hne. apply made_other; [apply Hj | by apply made_ne | done].
  - intros j Hj Hn. destruct (decide (j = i)) as [->|Hne].
    + unfold FsTree.is_dir. rewrite made_new. split; [done|]. split; [done|]. by apply Z.eqb_neq.
    + destruct Hn. destruct (decide (j = dn)) as [->|Hne']; [done|].
      pose proof (made_other j (proj1 Hj) Hne Hne') as E. split; [apply Hj|]. rewrite <- E. apply Hj.
  - intros _. exact (dr_size _ _ _ _ Hdir0).
  - intros k _ Hk Hnz. rewrite E0 in Hk, Hnz |- *. destruct (cr_set _ _ _ _ _ _ _ _ Hc) as (Hnn & Hent).
    change (dirent dev d' (set_ref x' 0) k) with (dirent dev d' x' k) in Hnz |- *.
    rewrite (Hent k Hk) in Hnz |- *. case_decide as Hke.
    + rewrite (new_dirent_inum dev) by (cbn; lia). apply made_linked.
    + apply made_stays. apply (tr_entry _ _ _ Ht dn k Hl Hd); [|exact Hnz].
      change (k < nents x)%nat. change (nents (set_ref x' 0)) with (nents x') in Hk. pose proof (free_entry_le dev d x). lia.
Qed.

(** The new entry, and only it, is new in the tree. *)
Lemma made_child e junk :
  name = put_name junk e → clean e → length junk = DIRSIZ → child sb dev d dn e = None →
  child sb dev d' dn e = Some i ∧ ∀ j e' q, linked d j → child sb dev d j e' = Some q → child sb dev d' j e' = Some q.
Proof.
  intros Hname He Hj Hno. destruct made_dir as (En & Hl' & Hd').
  assert (∀ e', child sb dev d' dn e' = dir_get dev d' x' (strncpy_bytes e' DIRSIZ)) as Ech
    by (intros e'; unfold child; by rewrite Hd', <- En).
  assert (∀ e', child sb dev d dn e' = dir_get dev d x (strncpy_bytes e' DIRSIZ)) as Ech0
    by (intros e'; unfold child; by rewrite Hd).
  split.
  - rewrite Ech, <- (dir_get_name dev d' x' junk e He Hj), <- Hname. exact (cr_bound _ _ _ _ _ _ _ _ Hc).
  - intros j e' q Hlj Hq. destruct (decide (j = dn)) as [->|Hne].
    + rewrite Ech, (cr_names _ _ _ _ _ _ _ _ Hc), <- Ech0; [done|]. intros E0.
      rewrite Hname, strncpy_put_name in E0 by done. unfold namecmp in E0.
      apply strncmp_names in E0; [|rewrite length_strncpy; lia..]. rewrite !strncpy_idem in E0.
      rewrite Ech0, E0, <- Ech0 in Hq. congruence.
    + rewrite (changed_child sb dev d dn d' made_changed Ht); done.
Qed.

Lemma made_resolve e junk s es q :
  name = put_name junk e → clean e → length junk = DIRSIZ → child sb dev d dn e = None →
  linked d s → resolve sb dev d s es = Some q → resolve sb dev d' s es = Some q.
Proof.
  intros E1 E2 E3 E4. destruct (made_child e junk E1 E2 E3 E4) as (_ & Hm). revert s.
  induction es as [|c es IH]; intros s Hs Hr; [done|]. cbn [resolve] in *.
  destruct (child sb dev d s c) as [m|] eqn:Em; [|done]. rewrite (Hm s c m Hs Em). apply IH; [|done].
  by apply (child_linked sb dev d s c).
Qed.

Lemma made_parent e junk s es q :
  name = put_name junk e → clean e → length junk = DIRSIZ → child sb dev d dn e = None →
  linked d s → resolve_parent sb dev d s es = Some q → resolve_parent sb dev d' s es = Some q.
Proof.
  intros E1 E2 E3 E4. destruct (made_child e junk E1 E2 E3 E4) as (_ & Hm). revert s.
  induction es as [|c es IH]; intros s Hs Hr; [done|]. cbn [resolve_parent] in *. destruct es as [|c' es].
  - destruct (is_dir d s) eqn:Eds; [|done]. destruct (decide (s = dn)) as [->|Hne]; [by destruct made_dir as (_ & _ & ->)|].
    destruct (changed_other sb dev d dn d' made_changed Ht s Hs Hne) as (_ & _ & -> & _). by rewrite Eds.
  - destruct (child sb dev d s c) as [m|] eqn:Em; [|done]. rewrite (Hm s c m Hs Em). apply IH; [|done].
    by apply (child_linked sb dev d s c).
Qed.

(** The files hold bytes: the new one holds nothing, and the entry holds the name. *)
Lemma made_bytes e junk :
  name = put_name junk e → clean e → length junk = DIRSIZ → byte_list e → files_bytes sb dev d → files_bytes sb dev d'.
Proof.
  intros Hname He Hj Heb Hb j q Hlj Hq. destruct made_dir as (En & Hl' & Hd'). pose proof made_changed as Hch.
  assert (∀ m, linked d' m → di_size (disk_inode d' m) ≤ NBLK * BSIZE) as Hmax.
  { intros m Hm. pose proof (fw_size _ _ _ _ (tr_wf _ _ _ (changed_tree sb dev d dn d' Hch Ht) m Hm)) as Hs. apply Hs. }
  specialize (Hmax j Hlj).
  destruct (changed_cases sb dev d dn d' j Hlj) as [->|[(Hne & Hlo)|Hn]].
  - pose proof (cr_dir _ _ _ _ _ _ _ _ Hc) as Hdir. pose proof (dr_size _ _ _ _ Hdir) as Hmod.
    assert (di_size (disk_inode d' dn) = i_size x') as Es by (by rewrite <- En). rewrite Es in Hq, Hmax.
    assert (node d' dn 0 = set_ref x' 0) as -> by (by rewrite <- En).
    change (file_byte dev d' (set_ref x' 0) q) with (file_byte dev d' x' q).
    destruct (cr_set _ _ _ _ _ _ _ _ Hc) as (Hnn & Hent). set (k := Z.to_nat (q / 16)).
    assert (k < nents x')%nat as Hk by (unfold nents, k; zlia).
    assert (dirent dev d' x' k !! Z.to_nat (q mod 16) = Some (file_byte dev d' x' q)) as Eb.
    { unfold dirent. rewrite lookup_file_bytes by zlia. do 2 f_equal. unfold k. zlia. }
    rewrite (Hent k Hk) in Eb. case_decide as Hke.
    + refine (Forall_lookup_1 (λ b, 0 ≤ b < 256) _ _ _ _ Eb). unfold new_dirent. apply Forall_app. split.
      * apply le_bytes_byte.
      * rewrite Hname, strncpy_put_name by done. by apply strncpy_byte.
    + assert (k < nents x)%nat as Hkx by (pose proof (free_entry_le dev d x); lia).
      unfold dirent in Eb. rewrite lookup_file_bytes in Eb by zlia.
      replace (16 * Z.of_nat k + Z.of_nat (Z.to_nat (q mod 16))) with q in Eb by (unfold k; zlia).
      injection Eb as <-. change (file_byte dev d x q) with (file_byte dev d (node d dn 0) q). apply Hb; [done|].
      change (di_size (disk_inode d dn)) with (i_size x). unfold nents, k in Hkx. zlia.
  - destruct (changed_other sb dev d dn d' Hch Ht j Hlo Hne) as (_ & E & _ & Hap). rewrite E.
    rewrite (apart_byte sb dev d (node d dn 0) d' (node d' dn 0)); [|apply Hch | by apply Ht | done | lia].
    apply Hb; [done|]. by rewrite <- (ch_same _ _ _ _ _ Hch j Hlo Hne).
  - destruct (ch_new _ _ _ _ _ Hch j Hlj Hn) as (_ & E & _). lia.
Qed.

(** The cache after the new inode [ip] was loaded and the directory [dp] given
    back. *)
Lemma made_synced fs ip dp :
  sound fs d → (dp < length (icache fs))%nat → inodep fs dp = x → 1 ≤ r < 2 ^ 31 → (ip < length (icache fs))%nat → ip ≠ dp →
  synced sb dev d' (<[dp := set_ref x' (r - 1)]> (<[ip := n]> (icache fs))).
Proof.
  intros Hs Hdp Ex Hr Hip Hne. destruct made_dir as (En & Hl' & Hd').
  pose proof (synced_insert sb dev fs d dp d' Hs Hdp) as Hy. rewrite Ex in Hy. specialize (Hy ltac:(cbn; lia) made_changed).
  change (i_inum x) with dn in Hy. change (i_ref x) with r in Hy. rewrite En in Hy.
  set (ic1 := <[dp := x']> (icache fs)) in *.
  assert (dp < length ic1)%nat as Hdp1 by (unfold ic1; by rewrite length_insert).
  assert (i_inum x' = dn ∧ i_ref x' = r) as (Ei & Er) by (by rewrite <- En).
  assert (synced sb dev d' (<[ip := n]> ic1)) as Hy2.
  { apply synced_put; [exact Hy | unfold ic1; by rewrite length_insert | done | |].
    - intros _. split; [done|]. split; [exact made_linked | right].
      rewrite <- (node_saved sb dev d' n); [done | done | done | exact made_new].
    - intros q z Hz Hq _ (Hzr & _ & Hzi). change (i_inum n) with i in Hzi. unfold ic1 in Hz.
      destruct (decide (q = dp)) as [->|Hqd].
      + rewrite list_lookup_insert_eq in Hz by done. injection Hz as <-. rewrite Ei in Hzi. by destruct (made_ne dn Hl).
      + rewrite list_lookup_insert_ne in Hz by done. pose proof (lookup_lt_Some _ _ _ Hz) as Hql.
        destruct (sy_slot _ _ _ _ (so_sync _ _ _ _ Hs) q Hql) as (_ & Hlz & _); rewrite (list_lookup_total_correct _ _ _ Hz) in *; [done|].
        rewrite Hzi in Hlz. by destruct (made_ne i Hlz). }
  assert (<[dp := set_ref x' (r - 1)]> (<[ip := n]> (icache fs)) = <[dp := set_ref x' (r - 1)]> (<[ip := n]> ic1)) as ->.
  { unfold ic1. rewrite (list_insert_insert_ne _ ip dp) by done. by rewrite list_insert_insert_eq. }
  set (ic2 := <[ip := n]> ic1) in *.
  assert (ic2 !!! dp = x') as E2 by (unfold ic2, ic1; rewrite list_lookup_total_insert_ne by done; by apply list_lookup_total_insert_eq).
  assert (dp < length ic2)%nat as Hdp2 by (unfold ic2; by rewrite length_insert).
  apply synced_put; [exact Hy2 | done | change (i_ref (set_ref x' (r - 1))) with (r - 1); lia | |].
  - intros _. change (i_inum (set_ref x' (r - 1))) with (i_inum x'). rewrite Ei. split; [by rewrite Hx'|].
    split; [done | right]. change (i_ref (set_ref x' (r - 1))) with (r - 1). by rewrite <- En.
  - intros q z Hz Hq _. change (i_inum (set_ref x' (r - 1))) with (i_inum x'). rewrite <- E2.
    apply (synced_other sb dev d' ic2 dp q z Hy2 Hdp2); [rewrite E2, Er; lia | done | done].
Qed.
End made.

(** The users of the cache: the new inode has one, the directory's is gone. *)
Lemma held_made ic0 fs dp ip (y z : inode) :
  held ic0 (∅ ⊎ {[+ dp +]}) (icache fs) → (dp < length ic0)%nat → (ip < length ic0)%nat → ip ≠ dp →
  unused (inodep fs ip) → 0 ≤ i_ref (ic0 !!! ip) →
  i_ref y = i_ref (inodep fs dp) - 1 → i_inum y = i_inum (inodep fs dp) → i_valid y ≠ 0 → i_ref z = 1 →
  held ic0 (∅ ⊎ {[+ ip +]}) (<[dp := y]> (<[ip := z]> (icache fs))).
Proof.
  intros Hh Hdp Hip Hne Hun Hpos Ey1 Ey2 Ey3 Ez. rewrite (list_insert_insert_ne _ dp ip) by done.
  rewrite (left_id_L ∅ (⊎)) in Hh |- *. pose proof (he_ref _ _ _ Hh dp Hdp) as Erd. pose proof (he_ref _ _ _ Hh ip Hip) as Eri.
  rewrite multiplicity_singleton_eq in Erd. rewrite multiplicity_singleton_ne in Eri by done.
  change (icache fs !!! dp) with (inodep fs dp) in Erd. change (icache fs !!! ip) with (inodep fs ip) in Eri. unfold unused in Hun.
  assert (held ic0 ∅ (<[dp := y]> (icache fs))) as Hh1.
  { apply held_put with {[+ dp +]}; [done | done | | |].
    - intros q Hq. rewrite multiplicity_empty, multiplicity_singleton_ne by done. done.
    - rewrite multiplicity_empty. lia.
    - intros Hp. split; [|done]. rewrite Ey2. exact (proj1 (he_same _ _ _ Hh dp Hdp Hp)). }
  apply held_put with ∅; [done | done | | |].
  - intros q Hq. rewrite multiplicity_empty, multiplicity_singleton_ne by done. done.
  - rewrite multiplicity_singleton_eq. lia.
  - intros Hp. lia.
Qed.

(** What a new file does to the tree: its entry is new, and it is empty; paths
    lead where they led, and files have the contents that they had. *)
Record sprouted d d' (dn : Z) (e : list Z) (i type major minor : Z) : Prop := {
  sp_first : first_free sb dev d i;
  sp_child : child sb dev d' dn e = Some i;
  sp_new : disk_inode d' i = dinode_of (new_inode dev i type major minor 1);
  sp_resolve : ∀ s es q, linked d s → resolve sb dev d s es = Some q → resolve sb dev d' s es = Some q;
  sp_parent : ∀ s es q, linked d s → resolve_parent sb dev d s es = Some q → resolve_parent sb dev d' s es = Some q;
  sp_changed : changed sb dev d dn d';
  sp_dir : di_type (disk_inode d' dn) = di_type (disk_inode d dn) ∧ di_size (disk_inode d dn) ≤ di_size (disk_inode d' dn)
}.

Lemma create_new_taken k d fs dn dp junk e type major minor :
  roomy (icache (kfs k)) → taken sb dev k d fs dn dp → is_dir d dn = true → clean e → length junk = DIRSIZ →
  child sb dev d dn e = None → create_room d → sb_ninodes sb ≤ 2 ^ 16 → byte_list e → files_bytes sb dev d →
  - 2 ^ 15 ≤ type < 2 ^ 15 → type ≠ 0 → type ≠ T_DIR → - 2 ^ 15 ≤ major < 2 ^ 15 → - 2 ^ 15 ≤ minor < 2 ^ 15 →
  ∃ i ip fs' d', create_new (set_kfs k fs) dp (put_name junk e) type major minor = Ok (set_kfs k fs', Some ip) ∧
    sprouted d d' dn e i type major minor ∧ taken sb dev k d' fs' i ip ∧ files_bytes sb dev d'.
Proof.
  intros Hroom Htk Hd He Hj Hno Hcr Hmax Heb Hby Hty Ht0 Htd Hma Hmi.
  pose proof (taken_parent k d fs dn dp junk e Hroom Htk Hd He Hj Hno Hcr) as Hpar.
  pose proof Htk as (Hs & Hh & Hdp & En & Hl). destruct (held_ref sb dev _ Hroom fs d ∅ dp Hh Hdp Hs) as (Hr & Hlt).
  destruct (cm_inode _ Hcr) as (i0 & Hi0 & Hf0).
  destruct (create_new_spec sb Hsb dev Hdev (set_kfs k fs) dp (put_name junk e) type major minor d i0)
    as (i & ip & s & d' & x' & E & Hff & Hip & Hun & Hne & Ex' & Hfs' & Hc);
    [apply Hs | by apply (held_room (icache (kfs k)) fs d dp) | done..|].
  change (kfs (set_kfs k fs)) with fs in *. remember (i_ref (inodep fs dp)) as r eqn:Er. rewrite En in Ex', Hc.
  change (set_kfs (set_kfs k fs)) with (set_kfs k) in E.
  pose proof (so_tree _ _ _ _ Hs) as Ht. destruct Hff as (Hir & Hfree & Hmin).
  assert (0 < i < 2 ^ 16) as Hi by lia. assert (0 ≤ i < sb_ninodes sb) as Hi1 by lia.
  set (n := new_inode dev i type major minor 1) in *.
  set (fs' := put_inode (put_inode (set_blk fs s) ip n) dp (set_ref x' (r - 1))) in *.
  destruct (made_dir d d' dn r x' _ i type major minor Hl Hd Ex' Hc) as (En' & Hl' & Hd').
  pose proof (made_changed d d' dn r x' _ i type major minor Ht Hl Hd Hfree Hi Hi1 Ht0 Htd Ex' Hc) as Hch.
  exists i, ip, fs', d'. split; [exact E|]. split; [|split].
  - split; [by split | | | | | done |].
    + exact (proj1 (made_child d d' dn r x' _ i type major minor Ht Hl Hd Hfree Hi Hi1 Ht0 Htd Ex' Hc e junk eq_refl He Hj Hno)).
    + exact (cr_inode _ _ _ _ _ _ _ _ Hc).
    + intros q es m. by eapply (made_resolve d d' dn r x' _ i type major minor).
    + intros q es m. by eapply (made_parent d d' dn r x' _ i type major minor).
    + assert (di_type (disk_inode d' dn) = i_type x' ∧ di_size (disk_inode d' dn) = i_size x') as (-> & ->) by (by rewrite <- En').
      split; [by rewrite Ex'|]. change (di_size (disk_inode d dn)) with (i_size (node d dn r)).
      destruct (cr_set _ _ _ _ _ _ _ _ Hc) as (Hnn & _). pose proof (tr_size _ _ _ Ht dn Hl Hd) as Hm.
      pose proof (dr_size _ _ _ _ (cr_dir _ _ _ _ _ _ _ _ Hc)) as Hm'. unfold nents in Hnn.
      pose proof (fw_size _ _ _ _ (tr_wf _ _ _ Ht dn Hl)) as Hsz. change (i_size (node d dn 0)) with (i_size (node d dn r)) in Hsz.
      change (di_size (disk_inode d dn)) with (i_size (node d dn r)) in Hm.
      pose proof (fw_size _ _ _ _ (dr_wf _ _ _ _ (cr_dir _ _ _ _ _ _ _ _ Hc))) as Hsz'. zlia.
  - assert (sound fs' d') as Hs'.
    { split; [exact Hfs' | by apply (changed_tree sb dev d dn d')|].
      exact (made_synced d d' dn r x' _ i type major minor Ht Hl Hd Hfree Hi Hi1 Ht0 Htd Ex' Hc fs ip dp Hs Hlt En Hr Hip Hne). }
    assert (inodep fs' ip = n) as Ein by (unfold fs'; rewrite inodep_put_ne by done; by apply inodep_put).
    rewrite (he_len _ _ _ Hh) in Hip.
    split; [exact Hs'|]. split; [|split; [done|]; split].
    + apply held_made; try done; [apply (ro_refs _ Hroom ip Hip) | | | by rewrite Ex'].
      * change (r - 1 = i_ref (inodep fs dp) - 1). by rewrite Er.
      * change (i_inum x' = i_inum (inodep fs dp)). by rewrite En, Ex'.
    + rewrite Ein. symmetry. exact (node_saved sb dev d' n eq_refl eq_refl (cr_inode _ _ _ _ _ _ _ _ Hc)).
    + split; [exact Hi1|]. rewrite (cr_inode _ _ _ _ _ _ _ _ Hc : disk_inode d' i = _). by split.
  - exact (made_bytes d d' dn r x' _ i type major minor Ht Hl Hd Hfree Hi Hi1 Ht0 Htd Ex' Hc e junk eq_refl He Hj Heb Hby).
Qed.

(** From [d] to [d'] files stay, with their type, and do not shrink. *)
Definition grows d d' : Prop := ∀ i, linked d i →
  linked d' i ∧ di_type (disk_inode d' i) = di_type (disk_inode d i) ∧ di_size (disk_inode d i) ≤ di_size (disk_inode d' i).

Lemma grows_refl d : grows d d.
Proof. intros i Hi. split; [done|]. split; [done | lia]. Qed.

Lemma sprouted_grows d d' dn e i type major minor : sprouted d d' dn e i type major minor → grows d d'.
Proof.
  intros Hsp j Hj. pose proof (sp_changed _ _ _ _ _ _ _ _ Hsp) as Hc. split; [by apply (changed_linked sb dev d dn d')|].
  destruct (decide (j = dn)) as [->|Hne]; [apply Hsp|]. rewrite (ch_same _ _ _ _ _ Hc j Hj Hne). split; [done | lia].
Qed.

(** * create *)

Lemma string_bytes k p um l a path : user_proc k p um l → user_string k p um a path → byte_list path.
Proof.
  intros Hp Hs. apply Forall_lookup. intros i c Ec. destruct (us_chars _ _ _ _ _ Hs i c Ec) as (_ & E).
  pose proof (us_end _ _ _ _ _ Hs). pose proof (us_start _ _ _ _ _ Hs). pose proof (lookup_lt_Some _ _ _ Ec).
  destruct (user_byte k p um l Hp (a + Z.of_nat i)) as (b & Eb & _ & Hb); [lia|]. rewrite E in Eb. by injection Eb as <-.
Qed.

Lemma start_linked k d cwd path : sound (kfs k) d → begins sb dev k d path cwd → linked d (start (kfs k) cwd path).
Proof.
  intros Hs [_ [Hc Hr _]]. unfold start. case_decide as Hh; [by apply Hr|]. destruct (Hc Hh) as (Hlt & Hp).
  exact (proj1 (proj2 (slot_sync sb dev (kfs k) d cwd Hs Hlt Hp))).
Qed.

(** [create] answers a locked inode of a file, on the disk as it is or with the
    file added, or nothing. *)
Definition create_outcome k d (path : list Z) cwd (type major minor : Z) (c : res (kern S * option nat)) : Prop :=
  let s := start (kfs k) cwd path in
  match resolve_parent sb dev d s (elems path), resolve sb dev d s (elems path) with
  | Some dn, None =>
      ∃ fs' ip n d' e, c = Ok (set_kfs k fs', Some ip) ∧ last (elems path) = Some e ∧ sprouted d d' dn e n type major minor ∧
        resolve sb dev d' s (elems path) = Some n ∧ taken sb dev k d' fs' n ip ∧ files_bytes sb dev d'
  | Some _, Some n =>
      if (type =? T_FILE) && (di_type (disk_inode d n) =? T_FILE)
      then ∃ fs' ip, c = Ok (set_kfs k fs', Some ip) ∧ taken sb dev k d fs' n ip
      else ∃ fs', c = Ok (set_kfs k fs', None) ∧ as_before sb dev k d fs'
  | None, _ => ∃ fs', c = Ok (set_kfs k fs', None) ∧ as_before sb dev k d fs'
  end.

Lemma create_total k d path cwd junk type major minor :
  sound (kfs k) d → roomy (icache (kfs k)) → begins sb dev k d path cwd → length junk = DIRSIZ → byte_list path →
  files_bytes sb dev d → create_room d → sb_ninodes sb ≤ 2 ^ 16 →
  - 2 ^ 15 ≤ type < 2 ^ 15 → type ≠ 0 → type ≠ T_DIR → - 2 ^ 15 ≤ major < 2 ^ 15 → - 2 ^ 15 ≤ minor < 2 ^ 15 →
  create_outcome k d path cwd type major minor (create k path junk type major minor).
Proof.
  intros Hs Hroom Hb Hj Hpb Hby Hcr Hmax Hty Ht0 Htd Hma Hmi. unfold create_outcome.
  pose proof (create_resolves sb Hsb dev Hdev k d path cwd junk type major minor Hs Hroom Hb Hj) as Hres.
  unfold create_result in Hres. pose proof (start_linked k d cwd path Hs Hb) as Hst. set (s := start (kfs k) cwd path) in *.
  destruct (resolve_parent sb dev d s (elems path)) as [dn|] eqn:Ep; [|done].
  destruct (resolve sb dev d s (elems path)) as [n|]; [done|].
  destruct Hres as (fs1 & dp & junk' & e & -> & Htk & Hd & Hlast & He & Hj' & Hno).
  assert (byte_list e) as Heb.
  { apply last_Some in Hlast as (es & Hes). pose proof (elems_Forall (λ b, 0 ≤ b < 256) [] path ltac:(constructor) Hpb) as Hall.
    unfold elems in Hes. rewrite Hes in Hall. apply Forall_app in Hall as (_ & Hall). by inversion Hall. }
  destruct (create_new_taken k d fs1 dn dp junk' e type major minor Hroom Htk Hd He Hj' Hno Hcr Hmax Heb Hby)
    as (i & ip & fs' & d' & -> & Hsp & Htk' & Hby'); [done..|].
  exists fs', ip, i, d', e. split; [done|]. split; [done|]. split; [done|]. split; [|by split].
  apply last_Some in Hlast as (es & Hes). rewrite Hes in Ep |- *. rewrite resolve_parent_last.
  rewrite (sp_parent _ _ _ _ _ _ _ _ Hsp s _ dn Hst Ep). apply Hsp.
Qed.

(** C8. [open(path, O_CREATE | ..)] of a name that is not there, in a directory
    that is, makes a file: the first free inode, empty, under that name in that
    directory of the tree on the disk ([sprouted]); every path that led somewhere
    still leads there, every other file has the contents it had, the new path
    leads to the new file, and that is what is opened ([opened]). *)
Theorem sys_open_makes k p um l a om path d cwd junk :
  let s := start (kfs k) cwd path in
  user_proc k p um l → argint k 0 = Ok (Some a) → argint k 1 = Ok (Some om) → user_string k p um a path →
  sound (kfs k) d → roomy (icache (kfs k)) → begins sb dev k d path cwd → length junk = DIRSIZ → files_clean (k_io k) →
  files_bytes sb dev d → create_room d → sb_ninodes sb ≤ 2 ^ 16 →
  creates sb dev d om s (elems path) = true →
  ∃ d' dn e n, resolve_parent sb dev d s (elems path) = Some dn ∧ last (elems path) = Some e ∧
    sprouted d d' dn e n T_FILE 0 0 ∧ resolve sb dev d' s (elems path) = Some n ∧ files_bytes sb dev d' ∧
    opened sb dev k d' p om (Some n) (sys_open k junk).
Proof.
  intros s Hp Ha Hom Hus Hs Hroom Hb Hj Hcl Hby Hcr Hmax Hc.
  pose proof (create_total k d path cwd junk T_FILE 0 0 Hs Hroom Hb Hj (string_bytes k p um l a path Hp Hus) Hby Hcr Hmax) as Ht.
  specialize (Ht ltac:(split; done) ltac:(done) ltac:(done) ltac:(split; done) ltac:(split; done)).
  unfold create_outcome in Ht. fold s in Ht. unfold creates in Hc. apply andb_true_iff in Hc as (Hoc & Hc).
  destruct (resolve_parent sb dev d s (elems path)) as [dn|]; [|discriminate].
  destruct (resolve sb dev d s (elems path)) as [n|]; [discriminate|].
  destruct Ht as (fs' & ip & n & d' & e & E & Hlast & Hsp & Hres & Htk & Hby').
  exists d', dn, e, n. split; [done|]. split; [done|]. split; [done|]. split; [done|]. split; [done|].
  unfold sys_open. rewrite (argstr_string k p um l Hp a path Hus 0 Ha), Hom. cbn [rbind].
  rewrite (user_str_string k p um l Hp a path Hus). cbn [rbind]. rewrite Hoc, E. cbn [rbind fst snd].
  apply open_taken; [exact (up_cur _ _ _ _ Hp) | done..].
Qed.
End create_tree.

(** * A program that makes "/bin/b" *)
Definition O_MAKE : Z := Z.lor O_CREATE O_RDWR.

Lemma room_a : create_room sb0 1 d_a.
Proof.
  split.
  - exists 4. by split.
  - exists [9; 10; 11]. split; [apply (bool_decide_unpack _); vm_compute; exact I|]. split; [done|].
    apply Forall_forall. repeat constructor; vm_compute; congruence.
  - intros i Hi Hd. pose proof (free_entry_le 1 d_a (node sb0 1 d_a i 0)) as Hle.
    enough (nents (node sb0 1 d_a i 0) = 3%nat) as E by (rewrite E in Hle; change (MAXFILE * BSIZE) with 71680; lia).
    destruct (tree_linked (replicate 512 7) 100 eq_refl ltac:(lia) i Hi) as [->|[->| ->]];
      unfold d_a in *; [by rewrite tree_node by first [reflexivity | lia]..|].
    unfold is_dir in Hd. rewrite tree_dinodes in Hd by first [reflexivity | lia]. discriminate Hd.
Qed.

Lemma sys_open_makes_witness :
  ∃ (k : kern (disk_st ata)) d' n, resolve sb0 1 d' 1 [[98; 105; 110]; [98]] = Some n ∧
    opened sb0 1 k d' 0 O_MAKE (Some n) (sys_open k (replicate 14 0)).
Proof.
  destruct (opn_ready O_MAKE 98 ltac:(by split) ltac:(by split)) as (st & um & l & Hp & Ha0 & Ha1 & Hs & Hso & Hr & Hb).
  set (k := demo (open0 fs_a) st) in *.
  destruct (sys_open_makes sb0 sb0_wf 1 ltac:(lia) k 0 um l 0x110 O_MAKE (path_bin 98) d_a 0 (replicate 14 0)
    Hp Ha0 Ha1 Hs Hso Hr Hb eq_refl (open0_clean fs_a)) as (d' & dn & e & n & _ & _ & _ & Hres & _ & Ho).
  - apply tree_bytes. apply (bool_decide_unpack _). vm_compute. exact I.
  - exact room_a.
  - vm_compute. congruence.
  - vm_compute. reflexivity.
  - exists k, d', n. split; [exact Hres | exact Ho].
Defined.
