(* ===== verification/ExecProps.v ===== *)
(** kernel/exec.c: what [exec] promises.  The user stack gets the strings of
    [argv] and the words that a C program finds at its entry, above a page that
    user code may not touch; then the process runs in the new address space and
    the old one is given back, or nothing of the process has changed. *)
From stdpp Require Import gmultiset.
From S2P Require Import Prelude Memory LibC Mmu Kalloc Vm UserMem Uvm UvmProps Kvm Seg Ports Ide Block FsLayout Fs FsDir.
From S2P Require Import Bio FsBlocks FsFile FsRw FsProps FsIcache FsDirProps FsTrunc FsPath FsTree File Kernel Exec Calls CallProps Create OpenProps Load.

(** * clearpteu *)

Lemma user_entry_clear e p : 0 ≤ e < 2 ^ 32 → user_entry e p → user_entry (Z.land e (Z.lnot PTE_U)) p.
Proof.
  intros He (H1 & H2 & H3). unfold user_entry, present, PTE_ADDR, PTE_P, PTE_U in *. split; [|split].
  - rewrite <- H1. do 2 f_equal. Zbits. change 1 with (2 ^ 0) at 1 2. change 4 with (2 ^ 2).
    rewrite !Z.pow2_bits_eqb by lia. destruct (Z.eqb_spec 0 i); [|by rewrite !andb_false_r].
    subst. cbn. by rewrite !andb_true_r.
  - rewrite <- H2. Zbits. change 4 with (2 ^ 2). change 0xFFF with (Z.ones 12).
    rewrite Z.pow2_bits_eqb by lia. destruct (Z.eqb_spec 2 i); [|by rewrite andb_true_r].
    subst. cbn. by rewrite !andb_false_r.
  - rewrite Z.land_spec, H3. done.
Qed.

Lemma clearpteu_spec st pgdir um l pg p :
  uvm st pgdir um l → um !! pg = Some p →
  ∃ st', clearpteu st pgdir (4096 * pg) = Ok st' ∧ uvm st' pgdir um l ∧
    uperm st' pgdir pg = false ∧
    (∀ va, 0 ≤ va < 2 ^ 32 → va / 4096 ≠ pg → pte_at (km st') pgdir va = pte_at (km st) pgdir va) ∧
    (∀ q, pt_page (km st') pgdir q ↔ pt_page (km st) pgdir q) ∧
    (∀ q a, page_ok q → ¬ pt_page (km st) pgdir q → inr_ q PGSIZE a → ld8 (km st') a = ld8 (km st) a).
Proof.
  intros Hu Ep. destruct (uv_some _ _ _ _ Hu pg p Ep) as (Hpg & Hp & Hpl & Hpn & He).
  destruct (pg_addr pg Hpg) as (Ha & Hd). pose proof (uv_wf _ _ _ _ Hu) as Hwf.
  pose proof (pte_present_table _ _ _ (proj1 He)) as Hpres.
  set (e := pte_at (km st) pgdir (4096 * pg)) in *.
  assert (ld32 (km st) (tab_of (km st) pgdir (PDX (4096 * pg)) + 4 * PTX (4096 * pg)) = e) as Ee
    by (unfold e, pte_at; by rewrite Hpres).
  assert (0 ≤ e < 2 ^ 32) as Her by (rewrite <- Ee; apply ld32_range).
  set (e' := Z.land e (Z.lnot PTE_U)).
  assert (0 ≤ e' < 2 ^ 32) as Her'.
  { assert (Z.land e' (Z.ones 32) = e') as <-; [|rewrite Z.land_ones by lia; zlia].
    unfold e'. Zbits. rewrite Z.testbit_ones_nonneg by lia.
    destruct (Z.ltb_spec i 32); [by rewrite andb_true_r|]. by rewrite (testbit_high e 32 i) by lia. }
  pose proof (set_pte_step st pgdir (4096 * pg) e' l Hwf Hpres) as Hs.
  pose proof (set_pte_at st pgdir (4096 * pg) e' l Hwf ltac:(lia) Hpres) as Hat.
  unfold clearpteu. rewrite walk_present by done.
  rewrite (proj2 (Z.eqb_neq _ _)) by (by apply (slot_nonzero st pgdir _ l)). rewrite Ee. fold e'.
  set (m := st32 _ _ e') in *. exists (set_km st m). split; [done|].
  assert (∀ q, pt_page m pgdir q ↔ pt_page (km st) pgdir q) as Hpt.
  { intros q. destruct (pts_used _ _ _ _ _ Hs) as (used & Eu & Hiff).
    assert (used = []) as ->.
    { apply (f_equal length) in Eu. rewrite length_app in Eu. destruct used; [done|cbn in Eu; lia]. }
    change m with (km (set_km st m)). rewrite Hiff, elem_of_nil. tauto. }
  assert (∀ va, 0 ≤ va < 2 ^ 32 → pte_at m pgdir va = if decide (va / 4096 = pg) then e' else pte_at (km st) pgdir va) as Hat'.
  { intros va Hva. rewrite Hat, (u32_small e') by done.
    destruct (decide (same_page _ _)) as [E|N]; unfold same_page in *; rewrite Hd in *;
      [by rewrite decide_True | by rewrite decide_False]. }
  split; [|split; [|split; [|split; [exact Hpt|]]]].
  - split; [apply Hs | | |apply Hu].
    + intros j q Ej. destruct (uv_some _ _ _ _ Hu j q Ej) as (Hj & Hq & Hql & Hqn & Hqe).
      destruct (pg_addr j Hj) as (Hj1 & Hj2). cbn [km set_km]. rewrite Hpt, Hat', Hj2 by lia.
      split; [done|]. split; [done|]. split; [done|]. split; [done|].
      case_decide; [subst j|done]. rewrite Ep in Ej. injection Ej as <-. by apply user_entry_clear.
    + intros j Hj Ej. destruct (pg_addr j Hj) as (Hj1 & Hj2). cbn [km set_km]. rewrite Hat', Hj2 by lia.
      rewrite decide_False by congruence. by apply Hu.
  - unfold uperm. cbn [km set_km]. rewrite Hat', Hd, decide_True by (done || lia). unfold e'.
    rewrite Z.land_spec. change (Z.testbit (Z.lnot PTE_U) 2) with false. apply andb_false_r.
  - intros va Hva Hne. cbn [km set_km]. by rewrite Hat', decide_False.
  - intros q a Hq Hn Hx. apply (pts_frame _ _ _ _ _ Hs q a Hq); [by rewrite Hpt | done].
Qed.

(** * The user stack *)

(** The bytes [bs] are at user address [u]. *)
Definition bytes_at (st : kst) (um : gmap Z Z) (u : Z) (bs : list Z) : Prop :=
  ∀ i b, bs !! i = Some b → ubyte st um (u + Z.of_nat i) = Some b.

(** Where a string goes below [sp], and where those of [argv] go. *)
Definition arg_sp (sp : Z) (a : list Z) : Z := 4 * ((sp - (Z.of_nat (length a) + 1)) / 4).
Fixpoint arg_sps (sp : Z) (argv : list (list Z)) : list Z :=
  match argv with
  | [] => []
  | a :: argv' => arg_sp sp a :: arg_sps (arg_sp sp a) argv'
  end.
Definition args_sp (sp : Z) (argv : list (list Z)) : Z := foldl arg_sp sp argv.

Lemma arg_sp_below sp a : arg_sp sp a + (Z.of_nat (length a) + 1) ≤ sp.
Proof. unfold arg_sp. zlia. Qed.

Lemma args_sp_below argv : ∀ sp, args_sp sp argv ≤ sp.
Proof.
  induction argv as [|a argv IH]; intros sp; [cbn; lia|].
  change (args_sp (arg_sp sp a) argv ≤ sp). pose proof (IH (arg_sp sp a)). pose proof (arg_sp_below sp a). lia.
Qed.

Lemma length_arg_sps argv : ∀ sp, length (arg_sps sp argv) = length argv.
Proof. induction argv as [|a argv IH]; intros sp; [done|]. cbn. by rewrite IH. Qed.

(** The stack pointer as the code computes it. *)
Lemma arg_sp_code sp a :
  0 ≤ sp < 2 ^ 32 → Z.of_nat (length a) + 1 ≤ sp →
  Z.land (u32 (sp - (Z.of_nat (length a) + 1))) (Z.lnot 3) = arg_sp sp a.
Proof.
  intros Hsp Ha. rewrite u32_small by lia. change 3 with (2 ^ 2 - 1).
  rewrite ldiff_ones_sub by lia. unfold arg_sp. zlia.
Qed.

(** An argument: shorter than a page. *)
Definition arg_ok (a : list Z) : Prop := byte_list a ∧ Z.of_nat (length a) < 4096.

Lemma ustored_bytes_at pgdir um l st u bs st' :
  ustored pgdir um l st u bs st' → byte_list bs → bytes_at st' um u bs.
Proof.
  intros Hs Hb i b Ei. pose proof (lookup_lt_Some _ _ _ Ei).
  rewrite (us_byte _ _ _ _ _ _ _ Hs), decide_True by lia.
  replace (u + Z.of_nat i - u) with (Z.of_nat i) by lia. unfold zget. rewrite Nat2Z.id.
  rewrite (list_lookup_total_correct _ _ _ Ei). f_equal. apply u8_small. by apply (Forall_lookup_1 _ _ _ _ Hb Ei).
Qed.

Lemma bytes_at_kept st st' um u bs :
  (∀ v, u ≤ v < u + Z.of_nat (length bs) → ubyte st' um v = ubyte st um v) →
  bytes_at st um u bs → bytes_at st' um u bs.
Proof. intros Hk Hb i b Ei. pose proof (lookup_lt_Some _ _ _ Ei). rewrite Hk by lia. by apply Hb. Qed.

Section stack.
Context {S : Type} `{BlockOps S}.
Context (st0 : kst) (l0 : list Z) (pgdir : Z) (um : gmap Z Z) (l : list Z) (base : Z).
Context (Hbase : base mod 4096 = 0) (Hlow : 4096 ≤ base) (Hhigh : base + 4096 < KERNBASE).
Implicit Types (st : kst) (k : kern S).

(** The stack page at [base], above the page that user code may not use. *)
Record stack_ok st : Prop := {
so_beside : beside st0 l0 pgdir st um l;
so_mapped : umapped um (base - 4096) 8192;
so_guard : uperm st pgdir (base / 4096 - 1) = false;
so_user : uperm st pgdir (base / 4096) = true
}.

Lemma stack_copyout st u buf :
stack_ok st → base - 4096 ≤ u → u + Z.of_nat (length buf) ≤ base + 4096 → buf ≠ [] →
if decide (base ≤ u) then
  ∃ st', copyout st pgdir u buf = Ok (st', 0) ∧ ustored pgdir um l st u buf st' ∧ stack_ok st'
else copyout st pgdir u buf = Ok (st, -1).
Proof.
intros [B M G U] Hu Hend Hne. unfold KERNBASE in Hhigh.
assert (0 < length buf)%nat as Hl by (destruct buf; [done | cbn; lia]).
assert (umapped um u (Z.of_nat (length buf))) as Hm by (intros v Hv; apply M; lia).
case_decide as Hd.
- destruct (copyout_spec st pgdir u um l buf (be_uvm _ _ _ _ _ _ B)) as (st' & E & Hs); try done.
  + lia.
  + unfold KERNBASE. lia.
  + intros v Hv. rewrite pte_at_page by lia. replace (v / 4096) with (base / 4096) by zlia. exact U.
  + exists st'. split; [done|]. split; [done|]. split; [by eapply beside_stored | done | |];
      unfold uperm; rewrite (us_pte _ _ _ _ _ _ _ Hs); done.
- apply (copyout_guard st pgdir um l); [apply B | apply Hm; lia | | done].
  replace (u / 4096) with (base / 4096 - 1) by zlia. done.
Qed.

(** The strings of [argv] are on the stack. *)
Definition strings_at st (sps : list Z) (argv : list (list Z)) : Prop :=
Forall2 (λ sp a, bytes_at st um sp (a ++ [0])) sps argv.

(** [push_args] leaves the space in shape, whatever happens. *)
Record pushed st sp sp' st' : Prop := {
pu_ok : stack_ok st';
pu_pte : ∀ va, pte_at (km st') pgdir va = pte_at (km st) pgdir va;
pu_byte : ∀ u, ¬ sp' ≤ u < sp → ubyte st' um u = ubyte st um u
}.

Lemma pushed_more st sp sp1 sp2 st' : pushed st sp sp1 st' → sp2 ≤ sp1 → pushed st sp sp2 st'.
Proof. intros [P1 P2 P3] Hle. split; [done..|]. intros u Hu. apply P3. lia. Qed.

Lemma pushed_trans st1 st2 st3 sp1 sp2 sp3 :
pushed st1 sp1 sp2 st2 → pushed st2 sp2 sp3 st3 → sp3 ≤ sp2 ≤ sp1 → pushed st1 sp1 sp3 st3.
Proof.
intros [P1 P2 P3] [Q1 Q2 Q3] Hle. split; [done | intros va; by rewrite Q2 |].
intros u Hu. rewrite Q3, P3 by lia. done.
Qed.

Lemma push_args_spec argv : ∀ k sp argc addrs,
stack_ok (k_vm k) → base ≤ sp ≤ base + 4096 → (argc ≤ MAXARG)%nat → Forall arg_ok argv →
∃ st r, push_args k pgdir sp argc argv addrs = Ok (set_vm k st, r) ∧
  if decide ((argc + length argv ≤ MAXARG)%nat ∧ base ≤ args_sp sp argv)
  then r = Some (args_sp sp argv, addrs ++ arg_sps sp argv) ∧
    pushed (k_vm k) sp (args_sp sp argv) st ∧ strings_at st (arg_sps sp argv) argv
  else r = None ∧ stack_ok st.
Proof.
induction argv as [|a argv IH]; intros k sp argc addrs Hok Hsp Hc Hargs.
{ cbn [push_args arg_sps length args_sp foldl]. exists (k_vm k), (Some (sp, addrs)).
  split; [by destruct k|]. rewrite decide_True by lia. rewrite app_nil_r. split; [done|].
  split; [by split | by apply Forall2_nil]. }
apply Forall_cons in Hargs as ((Hab & Hal) & Hargs). pose proof (arg_sp_below sp a) as Hbel.
cbn [push_args arg_sps length]. change (args_sp sp (a :: argv)) with (args_sp (arg_sp sp a) argv).
pose proof (args_sp_below argv (arg_sp sp a)) as Hall. unfold KERNBASE in Hhigh.
destruct (Nat.leb_spec MAXARG argc) as [Hge|Hlt].
{ exists (k_vm k), None. split; [by destruct k|]. by rewrite decide_False by lia. }
rewrite arg_sp_code by lia. set (sp1 := arg_sp sp a) in *.
assert (base - 4096 ≤ sp1) as Hsp1 by (unfold sp1, arg_sp; zlia).
pose proof (stack_copyout (k_vm k) sp1 (a ++ [0]) Hok Hsp1) as Hco. rewrite length_app in Hco. cbn [length] in Hco.
specialize (Hco ltac:(lia) ltac:(by destruct a)). case_decide as Hd1.
2: { rewrite Hco. cbn [rbind fst snd Z.ltb Z.compare]. exists (k_vm k), None. split; [done|].
  by rewrite decide_False by lia. }
destruct Hco as (st1 & -> & Hs1 & Hok1). cbn [rbind fst snd Z.ltb Z.compare].
assert (pushed (k_vm k) sp sp1 st1) as Hp1.
{ split; [done | apply (us_pte _ _ _ _ _ _ _ Hs1) |]. intros u Hu.
  rewrite (us_byte _ _ _ _ _ _ _ Hs1), decide_False; [done|]. rewrite length_app. cbn [length]. lia. }
destruct (IH (set_vm k st1) sp1 (argc + 1)%nat (addrs ++ [sp1]) Hok1) as (st2 & r & E & Hcase); [lia | lia | done |].
exists st2, r. split; [exact E|]. change (k_vm (set_vm k st1)) with st1 in Hcase.
replace (argc + Datatypes.S (length argv))%nat with (argc + 1 + length argv)%nat by lia.
case_decide as Hd2; [|done]. destruct Hcase as (-> & Hp2 & Hs2). rewrite <- app_assoc.
split; [done|]. split; [exact (pushed_trans _ _ _ _ _ _ Hp1 Hp2 ltac:(lia))|]. apply Forall2_cons. split; [|done].
apply (bytes_at_kept st1); [intros v Hv; apply (pu_byte _ _ _ _ Hp2); lia|].
apply (ustored_bytes_at pgdir um l (k_vm k)); [done|]. apply Forall_app. split; [done|]. by repeat constructor.
Qed.
End stack.

(** * The new program *)

(** The words of the stack at the entry of the program. *)
Definition entry_words (sp : Z) (sps : list Z) : list Z :=
  [0xffffffff; Z.of_nat (length sps); sp + 12] ++ sps ++ [0].

(** The end of the stack of a program of size [sz]. *)
Definition stack_base (sz : Z) : Z := 4096 * pages_to sz + 4096.
Definition stack_top (sz : Z) : Z := stack_base sz + 4096.

(** The stack pointer of a program of size [sz], if the arguments fit. *)
Definition stack_plan (sz : Z) (argv : list (list Z)) : option Z :=
  let sp := args_sp (stack_top sz) argv - (4 + Z.of_nat (length argv)) * 4 in
  if decide (stack_top sz < KERNBASE ∧ (length argv ≤ MAXARG)%nat ∧ stack_base sz ≤ sp) then Some sp else None.

(** The address space of a program of size [sz] with the bytes [f], called with
    [argv]: the kernel's entries, the program, a page that user code may not
    use, the stack. *)
Record program (data : Z) (st : kst) (pgdir : Z) (um : gmap Z Z) (l : list Z)
    (sz : Z) (f : Z → Z) (argv : list (list Z)) (sp : Z) : Prop := {
  pg_uvm : uvm st pgdir um l;
  pg_kern : ∀ va, KERNBASE ≤ va < 2 ^ 32 → pte_at (km st) pgdir va = kmap_pte (kmap data) va 0;
  pg_pages : ∀ j, is_Some (um !! j) ↔ 0 ≤ j < pages_to sz + 2;
  pg_perm : ∀ j, 0 ≤ j < pages_to sz + 2 → uperm st pgdir j = bool_decide (j ≠ pages_to sz);
  pg_bytes : ∀ u, 0 ≤ u < 4096 * pages_to sz → ubyte st um u = Some (f u);
  pg_args : strings_at um st (arg_sps (stack_top sz) argv) argv;
  pg_entry : bytes_at st um sp (put_words (entry_words sp (arg_sps (stack_top sz) argv)))
}.

(** The space and its table are in pages that keep their bytes. *)
Lemma program_frame data st st' pgdir um l l' sz f argv sp :
  program data st pgdir um l sz f argv sp → free_pages st' l' →
  (∀ q, owned st pgdir um [] q → q ∉ l') →
  (∀ q a, page_ok q → owned st pgdir um [] q → inr_ q PGSIZE a → ld8 (km st') a = ld8 (km st) a) →
  program data st' pgdir um l' sz f argv sp.
Proof.
  intros [P1 P2 P3 P4 P5 P6 P7] Hf Hl Hk. pose proof (uv_wf _ _ _ _ P1) as Hwf.
  assert (∀ q a, pt_page (km st) pgdir q → inr_ q PGSIZE a → ld8 (km st') a = ld8 (km st) a) as Hkp.
  { intros q a Hq. apply Hk; [by eapply pt_page_ok | by right; right]. }
  assert (∀ u, ubyte st' um u = ubyte st um u) as Hb.
  { intros u. apply ubyte_kept; [done|]. intros q a Eq. apply Hk; [by apply (uv_some _ _ _ _ P1 _ _ Eq)|].
    right; left. by exists (u / 4096). }
  assert (∀ va, pte_at (km st') pgdir va = pte_at (km st) pgdir va) as Hpte by (by apply frame_pte_at).
  split; try done.
  - eapply uvm_frame; [exact Hwf | exact Hkp | exact P1 | done | |].
    + intros q Hq. apply Hl. by right; right.
    + intros pg q Eq. apply Hl. right; left. by exists pg.
  - intros va Hva. by rewrite Hpte, P2.
  - intros j Hj. unfold uperm. rewrite Hpte. by apply P4.
  - intros u Hu. by rewrite Hb, P5.
  - eapply Forall2_impl; [exact P6|]. intros u a Ha. by apply (bytes_at_kept st).
  - by apply (bytes_at_kept st).
Qed.

Section build.
Context {S : Type} `{BlockOps S}.
Context (data : Z) (st0 : kst) (l0 : list Z) (pgdir : Z).
Implicit Types (st : kst) (k : kern S) (um : gmap Z Z) (l : list Z) (sz : Z) (f : Z → Z) (argv : list (list Z)).
#[local] Abbreviation new_image := (new_image data st0 l0 pgdir).
#[local] Abbreviation some_space := (some_space st0 l0 pgdir).

Lemma image_round st um l sz f :
new_image st um l sz f → 4096 * pages_to sz < KERNBASE → new_image st um l (4096 * pages_to sz) f.
Proof.
intros [N1 N2 N3 N4 N5 N6 N7 N8] Hk.
assert (pages_to (4096 * pages_to sz) = pages_to sz) as E by (unfold pages_to; zlia).
split; rewrite ?E; try done.
- intros u Hu. apply N7. unfold pages_to in Hu. zlia.
- unfold pages_to in *. zlia.
Qed.

(** Two pages for the stack. *)
Lemma stack_alloc st um l sz f :
new_image st um l sz f →
∃ st' r, allocuvm st pgdir (PGROUNDUP sz) (u32 (PGROUNDUP sz + 2 * PGSIZE)) = Ok (st', r) ∧
  (r = stack_top sz ∧ stack_top sz < KERNBASE ∧ (∃ um' l', new_image st' um' l' (stack_top sz) f) ∨
   r = 0 ∧ some_space st' ∧ (KERNBASE ≤ stack_top sz ∨ short_of l0 (stack_top sz))).
Proof.
intros Hn. pose proof (ni_sz _ _ _ _ _ _ _ _ _ Hn) as Hsz. unfold KERNBASE in *.
destruct (PGROUNDUP_spec sz) as (Hm & Hrd); [lia..|].
assert (PGROUNDUP sz = 4096 * pages_to sz) as Er by (unfold pages_to; zlia).
rewrite Er. change (2 * PGSIZE) with 8192. unfold stack_top, stack_base.
rewrite u32_small by lia. replace (4096 * pages_to sz + 4096 + 4096) with (4096 * pages_to sz + 8192) by lia.
destruct (decide (2147483648 ≤ 4096 * pages_to sz + 8192)) as [Hge|Hlt].
- exists st, 0. split; [unfold allocuvm, KERNBASE; by rewrite (proj2 (Z.leb_le _ _))|].
  right. split; [done|]. split; [by exists um, l; apply Hn | by left].
- pose proof (image_round st um l sz f Hn ltac:(unfold KERNBASE; lia)) as Hn'.
  destruct (image_grow data st0 l0 pgdir st um l _ f (4096 * pages_to sz + 8192) Hn')
    as (st' & r & um' & l' & E & Hc); [unfold KERNBASE; lia|].
  exists st', r. split; [done|]. destruct Hc as [(-> & Hn2) | (-> & Hb & Hs)]; [left | right].
  + split; [done|]. split; [lia|]. by exists um', l'.
  + split; [done|]. split; [by exists um', l' | by right].
Qed.

(** The page below the stack is taken from user code. *)
Lemma stack_guard st um l sz f :
new_image st um l (stack_top sz) f → 0 ≤ sz →
∃ st', clearpteu st pgdir (u32 (stack_top sz - 2 * PGSIZE)) = Ok st' ∧
  stack_ok st0 l0 pgdir um l (stack_base sz) st' ∧
  (∀ va, KERNBASE ≤ va < 2 ^ 32 → pte_at (km st') pgdir va = kmap_pte (kmap data) va 0) ∧
  (∀ j, 0 ≤ j < pages_to sz + 2 → uperm st' pgdir j = bool_decide (j ≠ pages_to sz)) ∧
  (∀ u, 0 ≤ u < stack_top sz → ubyte st' um u = Some (f u)).
Proof.
intros [[B1 B2 B3] N2 N3 N4 N5 N6 N7 N8] Hsz. unfold KERNBASE in *.
change (2 * PGSIZE) with 8192. unfold stack_top, stack_base in *.
assert (pages_to (4096 * pages_to sz + 4096 + 4096) = pages_to sz + 2) as Ep by (unfold pages_to; zlia).
rewrite Ep in *. assert (0 ≤ pages_to sz) as Hp0 by (unfold pages_to; zlia).
rewrite u32_small by lia. replace (4096 * pages_to sz + 4096 + 4096 - 8192) with (4096 * pages_to sz) by lia.
destruct (proj2 (N4 (pages_to sz))) as (p & Hp); [lia|].
destruct (clearpteu_spec st pgdir um l _ p B1 Hp) as (st' & E & Hu & Hg & Hpte & Hpt & Hk).
assert (∀ j, 0 ≤ j < 2 ^ 20 → j ≠ pages_to sz → uperm st' pgdir j = uperm st pgdir j) as Hup
  by (intros j Hj Hne; unfold uperm; by rewrite Hpte by zlia).
assert (∀ j, 0 ≤ j < pages_to sz + 2 → uperm st' pgdir j = bool_decide (j ≠ pages_to sz)) as Hperm.
{ intros j Hj. destruct (decide (j = pages_to sz)) as [->|Hne].
  - rewrite Hg. symmetry. by apply bool_decide_false; intros [].
  - rewrite Hup, N5 by lia. symmetry. by apply bool_decide_true. }
exists st'. split; [done|]. split; [|split; [|split; [done|]]].
- split.
  + split; [done | intros q; rewrite <- B2; unfold owned; by rewrite Hpt |].
    intros q a Hq Hn Hx. rewrite <- (B3 q a) by done. apply (Hk q a); [done | | done].
    intros Hin. apply Hn, B2. by right; right.
  + intros u Hu'. apply N4. zlia.
  + replace ((4096 * pages_to sz + 4096) / 4096 - 1) with (pages_to sz) by zlia. done.
  + replace ((4096 * pages_to sz + 4096) / 4096) with (pages_to sz + 1) by zlia.
    rewrite Hperm by lia. apply bool_decide_true. lia.
- intros va Hva. rewrite Hpte by zlia. by apply N3.
- intros u Hu'. rewrite <- N6 by lia. apply ubyte_kept; [done|]. intros q a Eq.
  destruct (uv_some _ _ _ _ B1 _ _ Eq) as (_ & Hq & _ & Hqn & _). by apply Hk.
Qed.
End build.

(** * Giving a space back, and changing to it *)

(** The pages of [l0] are free again and nothing else was written. *)
Definition restored (st0 : kst) (l0 : list Z) (st : kst) : Prop := given_back st0 (λ q, q ∈ l0) st.

Lemma beside_freed st0 l0 pgdir st um l :
  beside st0 l0 pgdir st um l → ∃ st', freevm st pgdir = Ok st' ∧ restored st0 l0 st'.
Proof.
  intros [B1 B2 B3]. destruct (freevm_gives_back st pgdir um l B1) as (st' & E & l' & Hf & Hin & Hk).
  exists st'. split; [done|]. exists l'. split; [done|]. split; [intros q; by rewrite Hin|].
  intros q a Hq Hn Hx. rewrite (Hk q a); [by apply (B3 q a) | done | by rewrite B2 | done].
Qed.

(** The kernel stack of the process, with its trap frame, beside its memory. *)
Record kstack_ok (st : kst) (um : gmap Z Z) (l : list Z) (x : proc) : Prop := {
  ks_page : page_ok (p_kstack x);
  ks_used : p_kstack x ∉ l;
  ks_table : ¬ pt_page (km st) (p_pgdir x) (p_kstack x);
  ks_user : ∀ j, um !! j ≠ Some (p_kstack x);
  ks_frame : p_kstack x ≤ p_tf x ∧ p_tf x + TF_SIZE ≤ p_kstack x + PGSIZE
}.

(** What [exec] leaves in the trap frame: the entry point and the stack pointer;
    the rest of the kernel stack is as it was. *)
Record frame_set (st0 st : kst) (x : proc) (entry sp : Z) : Prop := {
  fs_eip : ld32 (km st) (p_tf x + TF_EIP) = entry;
  fs_esp : ld32 (km st) (p_tf x + TF_ESP) = sp;
  fs_rest : ∀ a, inr_ (p_kstack x) PGSIZE a → ¬ inr_ (p_tf x + TF_EIP) 4 a → ¬ inr_ (p_tf x + TF_ESP) 4 a →
    ld8 (km st) a = ld8 (km st0) a
}.

Section commit.
Context {S : Type} `{BlockOps S}.
Context (data : Z) (st0 : kst) (l0 : list Z) (pgdir : Z).
Implicit Types (st : kst) (k : kern S) (um : gmap Z Z) (l : list Z) (sz : Z) (f : Z → Z) (argv : list (list Z)).
#[local] Abbreviation beside := (beside st0 l0 pgdir).
#[local] Abbreviation some_space := (some_space st0 l0 pgdir).

Lemma exec_bad_stack k :
some_space (k_vm k) →
∃ st', exec_bad k pgdir None = Ok (set_vm k st', -1) ∧ restored st0 l0 st'.
Proof.
intros (um & l & Hb). destruct (beside_freed _ _ _ _ _ _ Hb) as (st' & E & Hr).
exists st'. split; [|done]. unfold exec_bad.
rewrite (proj2 (Z.eqb_neq pgdir 0)) by (apply page_ok_nonzero, (ptw_dir _ _ _ (uv_wf _ _ _ _ (be_uvm _ _ _ _ _ _ Hb)))).
by rewrite E.
Qed.

Lemma upd_proc_twice k p g h : upd_proc (upd_proc k p g) p h = upd_proc k p (λ x, h (g x)).
Proof.
unfold upd_proc, set_procs. cbn. f_equal. apply list_eq. intros j.
destruct (decide (p = j)) as [->|Hne].
- rewrite !list_lookup_alter, !decide_True by done. by destruct (ptable k !! j).
- by rewrite !list_lookup_alter, !decide_False by done.
Qed.

Lemma old_space st um l um0 x :
uvm st0 (p_pgdir x) um0 l0 → kstack_ok st0 um0 l0 x → beside st um l →
∀ st1, page_only (p_kstack x) st st1 →
uvm st1 (p_pgdir x) um0 l ∧ (∀ q, pt_page (km st1) (p_pgdir x) q ↔ pt_page (km st0) (p_pgdir x) q).
Proof.
intros Hu [K1 K2 K3 K4 K5] [B1 B2 B3] st1 Ho. pose proof (uv_wf _ _ _ _ Hu) as Hwf.
assert (∀ q, q ∈ l → q ∈ l0) as Hsub by (intros q Hq; apply B2; by left).
assert (∀ q a, pt_page (km st0) (p_pgdir x) q → inr_ q PGSIZE a → ld8 (km st1) a = ld8 (km st0) a) as Hkp.
{ intros q a Hq Hx. assert (page_ok q) as Hqk by (by eapply pt_page_ok).
  rewrite (proj2 Ho q a); [|done|by intros ->|done]. apply (B3 q a); [done | by eapply pt_page_used | done]. }
split; [|by apply frame_pt_page].
assert (free_pages st1 l) as Hf.
{ eapply free_pages_page_only; [exact Ho | by intros ?%Hsub | apply (uv_wf _ _ _ _ B1)]. }
eapply uvm_frame; [exact Hwf | exact Hkp | exact Hu | exact Hf | |].
- intros q Hq ?%Hsub. by eapply pt_page_used.
- intros j q Ej ?%Hsub. by destruct (uv_some _ _ _ _ Hu j q Ej) as (_ & _ & ? & _).
Qed.

(** The process after [exec]. *)
Definition new_proc (x : proc) (path : list Z) (sz : Z) : proc :=
pset_mem (pset_name x (safestrcpy_bytes (p_name x) (last_elem path path) 16)) sz pgdir.

Definition tss_gdt (ts_addr : Z) (gdt : list segdesc) : list segdesc :=
<[SEG_TSS := set_s (SEG16 STS_T32A ts_addr (104 - 1) 0) 0]> gdt.

(** The memory after the two words of the trap frame are stored. *)
Definition frame_mem (m : mem) (tf entry sp : Z) : mem := st32 (st32 m (tf + TF_EIP) entry) (tf + TF_ESP) sp.

Lemma exec_commit_run k ts p sp entry top path st2 :
let x := procp k p in
(p < length (ptable k))%nat → p_kstack x ≠ 0 → pgdir ≠ 0 →
freevm (kprint (set_km (k_vm k) (frame_mem (km (k_vm k)) (p_tf x) entry sp)) "load elf proc:%s") (p_pgdir x) = Ok st2 →
exec_commit k ts p pgdir top entry sp path =
  Ok (set_cpu (set_vm (upd_proc k p (λ x, new_proc x path top)) st2) (tss_gdt ts (k_gdt k))
        (u32 (p_kstack x + 4096)) (Z.of_nat SEG_KDATA * 8) (V2P pgdir), 0).
Proof.
intros x Hpl Hs Hpg E2. unfold exec_commit. rewrite upd_proc_twice. rewrite procp_upd by done. fold x.
change (p_pgdir (pset_name x _)) with (p_pgdir x).
set (k1 := upd_proc k p _).
assert (procp k1 p = new_proc x path top) as Ek1 by (unfold k1; by rewrite procp_upd).
unfold tf_set at 2. rewrite Ek1. change (p_tf (new_proc x path top)) with (p_tf x).
unfold tf_set. change (procp (set_vm k1 _) p) with (procp k1 p). rewrite Ek1.
change (p_tf (new_proc x path top)) with (p_tf x). unfold switchuvm.
match goal with |- context [kmsg ?a "load elf proc:%s"] =>
  change (procp (kmsg a "load elf proc:%s") p) with (procp k1 p) end.
rewrite Ek1. change (p_kstack (new_proc x path top)) with (p_kstack x). change (p_pgdir (new_proc x path top)) with pgdir.
rewrite (proj2 (Z.eqb_neq (p_kstack x) 0) Hs), (proj2 (Z.eqb_neq pgdir 0) Hpg).
cbn [rbind]. match goal with |- rbind ?t _ = _ => change t with
  (freevm (kprint (set_km (k_vm k) (frame_mem (km (k_vm k)) (p_tf x) entry sp)) "load elf proc:%s") (p_pgdir x)) end.
rewrite E2. reflexivity.
Qed.

(** Only the page of the kernel stack changes, by the two words. *)
Lemma frame_mem_only (st : kst) x entry sp :
page_ok (p_kstack x) → p_kstack x ≤ p_tf x ∧ p_tf x + TF_SIZE ≤ p_kstack x + PGSIZE →
page_only (p_kstack x) st (set_km st (frame_mem (km st) (p_tf x) entry sp)).
Proof.
unfold TF_SIZE. intros K1 K5. set (s := p_kstack x) in *. set (tf := p_tf x) in *.
apply (page_only_trans s _ (set_km st (st32 (km st) (tf + TF_EIP) entry))).
- apply page_only_st32; [done | unfold TF_EIP; lia | unfold TF_EIP, PGSIZE in *; lia].
- apply (page_only_st32 s (set_km st (st32 (km st) (tf + TF_EIP) entry)) (tf + TF_ESP) sp); [done | unfold TF_ESP; lia | unfold TF_ESP, PGSIZE in *; lia].
Qed.

Lemma frame_mem_set st1 st2 x entry sp :
0 ≤ entry < 2 ^ 32 → 0 ≤ sp < 2 ^ 32 → p_kstack x ≤ p_tf x ∧ p_tf x + TF_SIZE ≤ p_kstack x + PGSIZE →
(∀ a, inr_ (p_kstack x) PGSIZE a → ld8 (km st1) a = ld8 (km st0) a) →
(∀ a, inr_ (p_kstack x) PGSIZE a → ld8 (km st2) a = ld8 (frame_mem (km st1) (p_tf x) entry sp) a) →
frame_set st0 st2 x entry sp.
Proof.
unfold TF_SIZE. intros He Hsp K5 H1 Hs. unfold frame_mem in Hs. set (m1 := st32 (km st1) _ entry) in Hs. set (m2 := st32 m1 _ sp) in Hs.
split.
- rewrite (ld32_ext _ m2) by (intros a Ha; apply Hs; unfold inr_, TF_EIP, PGSIZE in *; lia). unfold m2.
  rewrite ld32_st32_ne by (unfold TF_EIP, TF_ESP; lia). unfold m1. rewrite ld32_st32_eq. by apply u32_small.
- rewrite (ld32_ext _ m2) by (intros a Ha; apply Hs; unfold inr_, TF_ESP, PGSIZE in *; lia). unfold m2.
  rewrite ld32_st32_eq. by apply u32_small.
- intros a Ha N1 N2. rewrite Hs by done. unfold m2, m1. rewrite !ld8_st32_ne by done. by apply H1.
Qed.

Lemma exec_commit_spec k ts p um l um0 sz f argv sp entry top path :
let x := procp k p in
beside (k_vm k) um l → program data (k_vm k) pgdir um l sz f argv sp →
uvm st0 (p_pgdir x) um0 l0 → kstack_ok st0 um0 l0 x → (p < length (ptable k))%nat →
0 ≤ entry < 2 ^ 32 → 0 ≤ sp < 2 ^ 32 →
∃ st' l', exec_commit k ts p pgdir top entry sp path =
    Ok (set_cpu (set_vm (upd_proc k p (λ x, new_proc x path top)) st') (tss_gdt ts (k_gdt k))
          (u32 (p_kstack x + 4096)) (Z.of_nat SEG_KDATA * 8) (V2P pgdir), 0) ∧
  program data st' pgdir um l' sz f argv sp ∧
  (∀ q, owned st' pgdir um l' q ↔ owned st0 (p_pgdir x) um0 l0 q) ∧ frame_set st0 st' x entry sp.
Proof.
intros x Hb Hp Hu Hks Hpl He Hsp. pose proof Hks as [K1 K2 K3 K4 K5].
set (s := p_kstack x) in *.
set (st1 := kprint (set_km (k_vm k) (frame_mem (km (k_vm k)) (p_tf x) entry sp)) "load elf proc:%s").
assert (page_only s (k_vm k) st1) as Ho by exact (frame_mem_only (k_vm k) x entry sp K1 K5).
destruct (old_space _ _ _ _ x Hu Hks Hb st1 Ho) as (Hu1 & Hpt1).
destruct (freevm_spec st1 (p_pgdir x) um0 l Hu1) as (st2 & l2 & E2 & Hf2 & Hin2 & Hk2).
assert (∀ q, q ∈ l2 ↔ q ∈ l ∨ owned st0 (p_pgdir x) um0 [] q) as Hin.
{ intros q. rewrite Hin2, Hpt1. unfold owned. rewrite elem_of_nil. tauto. }
assert (∀ q, owned st0 (p_pgdir x) um0 [] q → q ∉ l0) as Hold.
{ intros q [Hq|[(j & Ej)|Hq]]; [by apply elem_of_nil in Hq | | by eapply pt_page_used; [apply Hu|]].
  by destruct (uv_some _ _ _ _ Hu j q Ej) as (_ & _ & ? & _). }
assert (s ∉ l2) as Hs2.
{ rewrite Hin. intros [Hs|[Hs|[(j & Ej)|Hs]]]; [apply K2, (be_own _ _ _ _ _ _ Hb); by left | by apply elem_of_nil in Hs
  | by apply (K4 j) | done]. }
assert (∀ q, owned (k_vm k) pgdir um [] q → q ∈ l0 ∧ q ∉ l2) as Hnew.
{ intros q Hq. assert (q ∈ l0) as Hq0.
  { apply (be_own _ _ _ _ _ _ Hb). destruct Hq as [Hq|Hq]; [by apply elem_of_nil in Hq | by right]. }
  split; [done|]. rewrite Hin. intros [Hql|Hqo]; [|by apply Hold in Hqo].
  destruct Hq as [Hq|[(j & Ej)|Hq]]; [by apply elem_of_nil in Hq | | ].
  - by destruct (uv_some _ _ _ _ (pg_uvm _ _ _ _ _ _ _ _ _ Hp) j q Ej) as (_ & _ & ? & _).
  - by eapply pt_page_used in Hq; [|apply (uv_wf _ _ _ _ (pg_uvm _ _ _ _ _ _ _ _ _ Hp))]. }
assert (∀ q a, page_ok q → owned (k_vm k) pgdir um [] q → inr_ q PGSIZE a → ld8 (km st2) a = ld8 (km (k_vm k)) a) as Hkeep.
{ intros q a Hq Ho' Ha. destruct (Hnew q Ho') as (Hq0 & Hq2). rewrite (Hk2 q a) by done.
  apply (proj2 Ho q a); [done | | done]. intros ->. done. }
exists st2, l2. split; [|split; [|split]].
- apply exec_commit_run; [done | by apply page_ok_nonzero | | exact E2].
  apply page_ok_nonzero, (ptw_dir _ _ _ (uv_wf _ _ _ _ (be_uvm _ _ _ _ _ _ Hb))).
- eapply program_frame; [exact Hp | done | intros q Hq; by apply Hnew | done].
- intros q. unfold owned at 1. rewrite (frame_pt_page (k_vm k) st2 pgdir).
  2: { intros q' a Hq' Ha. apply (Hkeep q' a); [|by right; right|done].
    eapply pt_page_ok; [apply (uv_wf _ _ _ _ (be_uvm _ _ _ _ _ _ Hb)) | done]. }
  rewrite Hin. pose proof (be_own _ _ _ _ _ _ Hb q) as Hq. unfold owned in *. rewrite elem_of_nil. tauto.
- apply (frame_mem_set (k_vm k)); try done.
  + intros a Ha. by apply (be_mem _ _ _ _ _ _ Hb s a).
  + intros a Ha. by apply (Hk2 s a).
Qed.

(** What becomes of the process when [exec] changes it, or does not. *)
Definition changed k (c : res (kern S * Z)) ts p um0 sz f argv sp entry path : Prop :=
let x := procp k p in
∃ st' um l, c = Ok (set_cpu (set_vm (upd_proc k p (λ x, new_proc x path (stack_top sz))) st')
    (tss_gdt ts (k_gdt k)) (u32 (p_kstack x + 4096)) (Z.of_nat SEG_KDATA * 8) (V2P pgdir), 0) ∧
  program data st' pgdir um l sz f argv sp ∧
  (∀ q, owned st' pgdir um l q ↔ owned st0 (p_pgdir x) um0 l0 q) ∧ frame_set st0 st' x entry sp.
Definition unchanged k (c : res (kern S * Z)) : Prop :=
∃ st', c = Ok (set_vm k st', -1) ∧ restored st0 l0 st'.

Lemma strings_kept st st' um argv : ∀ sp,
(∀ v, args_sp sp argv ≤ v → ubyte st' um v = ubyte st um v) →
strings_at um st (arg_sps sp argv) argv → strings_at um st' (arg_sps sp argv) argv.
Proof.
induction argv as [|a argv IH]; intros sp Hk Hs; [by apply Forall2_nil|]. cbn [arg_sps] in *.
apply Forall2_cons in Hs as (Ha & Hs). change (args_sp sp (a :: argv)) with (args_sp (arg_sp sp a) argv) in Hk.
apply Forall2_cons. split; [|by apply IH]. apply (bytes_at_kept st); [|done].
intros v Hv. apply Hk. pose proof (args_sp_below argv (arg_sp sp a)). lia.
Qed.

(** The strings and the words of the entry go to the stack. *)
Lemma stack_filled k um l sz f argv st1 :
0 ≤ sz → stack_top sz < KERNBASE → Forall arg_ok argv →
stack_ok st0 l0 pgdir um l (stack_base sz) st1 →
(∀ va, KERNBASE ≤ va < 2 ^ 32 → pte_at (km st1) pgdir va = kmap_pte (kmap data) va 0) →
(∀ j, is_Some (um !! j) ↔ 0 ≤ j < pages_to sz + 2) →
(∀ j, 0 ≤ j < pages_to sz + 2 → uperm st1 pgdir j = bool_decide (j ≠ pages_to sz)) →
(∀ u, 0 ≤ u < stack_top sz → ubyte st1 um u = Some (f u)) →
∃ st2 r, push_args (set_vm k st1) pgdir (stack_top sz) 0 argv [] = Ok (set_vm k st2, r) ∧
  beside st2 um l ∧
  match r with
  | Some (sp, sps) =>
      sps = arg_sps (stack_top sz) argv ∧ sp = args_sp (stack_top sz) argv ∧ (length argv ≤ MAXARG)%nat ∧
      let sp' := sp - (4 + Z.of_nat (length argv)) * 4 in
      0 ≤ sp' ∧ sp < 2 ^ 32 ∧
      if decide (stack_base sz ≤ sp') then
        ∃ st3, copyout st2 pgdir sp' (put_words (entry_words sp' sps)) = Ok (st3, 0) ∧
          beside st3 um l ∧ program data st3 pgdir um l sz f argv sp'
      else copyout st2 pgdir sp' (put_words (entry_words sp' sps)) = Ok (st2, -1)
  | None => stack_plan sz argv = None
  end.
Proof.
intros Hsz Htop Hargs Hok Hk Hpg Hperm Hbyte. unfold KERNBASE in Htop.
pose proof (args_sp_below argv (stack_top sz)) as Hbel.
assert (stack_base sz mod 4096 = 0 ∧ 4096 ≤ stack_base sz ∧ stack_base sz + 4096 = stack_top sz) as (Hb1 & Hb2 & Hb3)
  by (unfold stack_top, stack_base, pages_to; zlia).
destruct (push_args_spec st0 l0 pgdir um l (stack_base sz) Hb1 Hb2 ltac:(unfold KERNBASE; lia) argv (set_vm k st1)
  (stack_top sz) 0 [] Hok ltac:(lia) ltac:(lia) Hargs) as (st2 & r & E & Hc).
exists st2, r. split; [exact E|]. case_decide as Hd.
2: { destruct Hc as (-> & Hok2). split; [apply Hok2|]. unfold stack_plan. rewrite decide_False; [done|].
  intros (_ & Hl & Hsp). apply Hd. lia. }
destruct Hc as (-> & [Q1 Q2 Q3] & Hst). cbn [app]. change (k_vm (set_vm k st1)) with st1 in *.
split; [apply Q1|]. split; [done|]. split; [done|]. split; [lia|]. cbv zeta. unfold MAXARG in Hd.
set (sp := args_sp (stack_top sz) argv) in *. set (sp' := sp - _).
split; [lia|]. split; [lia|]. set (ws := put_words _).
assert (Z.of_nat (length ws) = (4 + Z.of_nat (length argv)) * 4) as Hws.
{ unfold ws. rewrite length_put_words. unfold entry_words. rewrite !length_app, length_arg_sps. cbn [length]. lia. }
pose proof (stack_copyout st0 l0 pgdir um l (stack_base sz) Hb1 Hb2 ltac:(unfold KERNBASE; lia) st2 sp' ws Q1
  ltac:(lia) ltac:(lia) ltac:(intros Ew; rewrite Ew in Hws; cbn in Hws; lia)) as Hco.
case_decide as Hd'; [|done]. destruct Hco as (st3 & E3 & Hs3 & Hok3). exists st3. split; [done|].
split; [apply Hok3|].
assert (∀ u, ¬ sp' ≤ u < sp → ubyte st3 um u = ubyte st2 um u) as Hb3'.
{ intros u Hu. rewrite (us_byte _ _ _ _ _ _ _ Hs3), decide_False by lia. done. }
split.
- apply Hok3.
- intros va Hva. by rewrite (us_pte _ _ _ _ _ _ _ Hs3), Q2, Hk.
- done.
- intros j Hj. unfold uperm. rewrite (us_pte _ _ _ _ _ _ _ Hs3), Q2. by apply Hperm.
- intros u Hu. unfold stack_base in *. rewrite Hb3', Q3 by lia. apply Hbyte. lia.
- apply (strings_kept st2); [|done]. intros v Hv. apply Hb3'. lia.
- apply (ustored_bytes_at pgdir um l st2); [done | apply put_words_byte].
Qed.

Lemma changed_vm k st c ts p um0 sz f argv sp entry path :
changed (set_vm k st) c ts p um0 sz f argv sp entry path → changed k c ts p um0 sz f argv sp entry path.
Proof. done. Qed.

(** The code from the last copy on. *)
Definition stack_rest k ts p sz entry path (r : option (Z * list Z)) : res (kern S * Z) :=
match r with
| Some (sp, addrs) =>
    let argc := Z.of_nat (length addrs) in
    let ustack := [0xffffffff; argc; u32 (sp - (argc + 1) * 4)] ++ addrs ++ [0] in
    let sp := u32 (sp - (3 + argc + 1) * 4) in
    let* r := copyout (k_vm k) pgdir sp (put_words ustack) in
    let k := set_vm k r.1 in
    if r.2 <? 0 then exec_bad k pgdir None
    else exec_commit k ts p pgdir (stack_top sz) entry sp path
| None => exec_bad k pgdir None
end.

Lemma exec_stack_body k ts p sz entry path argv st1 st2 st3 r :
allocuvm (k_vm k) pgdir (PGROUNDUP sz) (u32 (PGROUNDUP sz + 2 * PGSIZE)) = Ok (st1, stack_top sz) →
stack_top sz ≠ 0 → clearpteu st1 pgdir (u32 (stack_top sz - 2 * PGSIZE)) = Ok st2 →
push_args (set_vm k st2) pgdir (stack_top sz) 0 argv [] = Ok (set_vm k st3, r) →
exec_stack k ts p pgdir sz entry path argv = stack_rest (set_vm k st3) ts p sz entry path r.
Proof.
intros E1 Hn E2 E3. unfold exec_stack. rewrite E1. cbn [rbind fst snd].
rewrite (proj2 (Z.eqb_neq (stack_top sz) 0)) by done.
change (k_vm (set_vm k st1)) with st1. rewrite E2. cbn [rbind].
change (set_vm (set_vm k st1) st2) with (set_vm k st2). rewrite E3. cbn [rbind].
unfold stack_rest. destruct r as [[sp addrs]|]; reflexivity.
Qed.

Lemma stack_rest_Some k ts p sz entry path sp sps :
let n := (4 + Z.of_nat (length sps)) * 4 in
n ≤ sp < 2 ^ 32 →
stack_rest k ts p sz entry path (Some (sp, sps)) =
  let* r := copyout (k_vm k) pgdir (sp - n) (put_words (entry_words (sp - n) sps)) in
  let k := set_vm k r.1 in
  if r.2 <? 0 then exec_bad k pgdir None else exec_commit k ts p pgdir (stack_top sz) entry (sp - n) path.
Proof.
intros n Hn. unfold stack_rest. rewrite !u32_small by lia.
replace (sp - (3 + Z.of_nat (length sps) + 1) * 4) with (sp - n) by lia. unfold entry_words.
by replace (sp - (Z.of_nat (length sps) + 1) * 4) with (sp - n + 12) by lia.
Qed.

Lemma exec_stack_spec k ts p um l um0 sz f argv entry path :
let x := procp k p in
let c := exec_stack k ts p pgdir sz entry path argv in
new_image data st0 l0 pgdir (k_vm k) um l sz f → Forall arg_ok argv →
uvm st0 (p_pgdir x) um0 l0 → kstack_ok st0 um0 l0 x → (p < length (ptable k))%nat → 0 ≤ entry < 2 ^ 32 →
match stack_plan sz argv with
| Some sp => changed k c ts p um0 sz f argv sp entry path ∨ unchanged k c ∧ short_of l0 (stack_top sz)
| None => unchanged k c
end.
Proof.
intros x c Hn Hargs Hu Hks Hpl He. pose proof (ni_sz _ _ _ _ _ _ _ _ _ Hn) as (Hsz & _).
assert (∀ st, some_space st → c = exec_bad (set_vm k st) pgdir None → unchanged k c) as Hbad.
{ intros st Hs ->. destruct (exec_bad_stack (set_vm k st) Hs) as (st' & -> & Hr). by exists st'. }
assert (∀ st1 um1 l1, beside st1 um1 l1 → some_space st1) as Hsp by (intros st1 um1 l1 Hb; by exists um1, l1).
destruct (stack_alloc data st0 l0 pgdir (k_vm k) um l sz f Hn) as (st1 & r & E1 & Hc).
destruct Hc as [(-> & Htop & um1 & l1 & Hn1) | (-> & Hs1 & Hwhy)].
2: { assert (unchanged k c) as Hun by (apply (Hbad st1 Hs1); unfold c, exec_stack; by rewrite E1).
  unfold stack_plan. case_decide as Hd; [|done]. right. split; [done|]. destruct Hwhy; [lia|done]. }
destruct (stack_guard data st0 l0 pgdir st1 um1 l1 sz f Hn1 Hsz) as (st2 & E2 & Hok & Hkern & Hperm & Hbyte).
assert (∀ j, is_Some (um1 !! j) ↔ 0 ≤ j < pages_to sz + 2) as Hpg.
{ intros j. rewrite (ni_pages _ _ _ _ _ _ _ _ _ Hn1). unfold stack_top, stack_base.
  assert (pages_to (4096 * pages_to sz + 4096 + 4096) = pages_to sz + 2) as -> by (unfold pages_to; zlia). done. }
destruct (stack_filled k um1 l1 sz f argv st2 Hsz Htop Hargs Hok Hkern Hpg Hperm Hbyte) as (st3 & r & E3 & Hb3 & Hc).
pose proof (exec_stack_body k ts p sz entry path argv st1 st2 st3 r E1
  ltac:(unfold stack_top, stack_base, pages_to; zlia) E2 E3) as Ec. fold c in Ec.
destruct r as [[sp sps]|]; [|rewrite Hc; by apply (Hbad st3); [by eapply Hsp|]].
destruct Hc as (-> & Esp & Hlen & Hc). cbv zeta in Hc. destruct Hc as (Hp0 & Hp1 & Hc).
pose proof (stack_rest_Some (set_vm k st3) ts p sz entry path sp (arg_sps (stack_top sz) argv)) as Er.
cbv zeta in Er. rewrite length_arg_sps in Er. rewrite Er in Ec by lia. clear Er.
unfold stack_plan. rewrite <- Esp. set (sp' := sp - (4 + Z.of_nat (length argv)) * 4) in *.
change (k_vm (set_vm k st3)) with st3 in Ec. case_decide as Hd.
- rewrite decide_True by done. destruct Hc as (st4 & E6 & Hb4 & Hp4). rewrite E6 in Ec.
  destruct (exec_commit_spec (set_vm k st4) ts p um1 l1 um0 sz f argv sp' entry (stack_top sz) path Hb4 Hp4 Hu Hks Hpl He)
    as (st5 & l5 & E7 & Hres); [lia|]. left. apply (changed_vm k st4). exists st5, um1, l5.
  split; [|exact Hres]. rewrite Ec. exact E7.
- rewrite decide_False by tauto. rewrite Hc in Ec. by apply (Hbad st3); [by eapply Hsp|].
Qed.
End commit.

(** * exec *)

Section exec.
Context {S : Type} `{BlockLayer S}.
Context (sb : superblock) (Hsb : sb_wf sb) (dev : Z) (Hdev : 0 ≤ dev < 2).
Implicit Types (fs : fsys S) (d : disk) (x y : inode) (ip p : nat) (k : kern S) (argv : list (list Z)).

(** The slot [ip] holds a file that [ilock] makes [y]: it was read before, or it
  is read now. *)
Record found fs d ip y : Prop := {
fo_fsi : fsi sb dev fs d;
fo_slot : (ip < length (icache fs))%nat;
fo_ref : 1 ≤ i_ref (inodep fs ip) < 2 ^ 31;
fo_read : i_valid (inodep fs ip) ≠ 0 ∧ y = inodep fs ip ∨
  i_valid (inodep fs ip) = 0 ∧ i_dev (inodep fs ip) = dev ∧ 0 ≤ i_inum (inodep fs ip) < sb_ninodes sb ∧
  let di := disk_inode sb dev d (i_inum (inodep fs ip)) in
  di_type di ≠ 0 ∧ y = set_valid (load_dinode (inodep fs ip) di) 1;
fo_wf : file_wf sb dev d y;
fo_holes : no_holes dev d y;
fo_bytes : ∀ i, 0 ≤ i < i_size y → 0 ≤ file_byte dev d y i < 256;
fo_linked : i_nlink y ≠ 0 ∨ i_ref y ≠ 1
}.

(** The program that the file [x] asks for: its entry point, its size, its bytes
  and its stack pointer. *)
Definition elf_plan d x argv : option (Z * Z * (Z → Z) * Z) :=
if fend x <? 52 then None
else
  let e := dec_elf (file_bytes dev d x 0 52) in
  if negb (e_magic e =? ELF_MAGIC) then None
  else
    match segments dev d x (e_phoff e) 0 (λ _, 0) (Z.to_nat (e_phnum e)) with
    | Some (sz, f) =>
        match stack_plan sz argv with
        | Some sp => Some (e_entry e, sz, f, sp)
        | None => None
        end
    | None => None
    end.

Section file.
Context (fs : fsys S) (d : disk) (ip : nat) (y : inode) (Hfo : found fs d ip y).

(** The file system while the file is locked, and after. *)
Definition locked (s : S) : fsys S := put_inode (set_blk fs s) ip y.
Definition released (s : S) : fsys S := put_inode (set_blk fs s) ip (set_ref y (i_ref y - 1)).

Lemma found_ref : i_ref y = i_ref (inodep fs ip).
Proof. by destruct (fo_read _ _ _ _ Hfo) as [(_ & ->)|(_ & _ & _ & _ & ->)]. Qed.

Lemma inodep_locked s : inodep (locked s) ip = y.
Proof. apply inodep_put. apply (fo_slot _ _ _ _ Hfo). Qed.

Lemma found_lock : ∃ s, ilock fs ip = Ok (locked s) ∧ bl_rep s d ∅.
Proof.
pose proof Hfo as [F1 F2 F3 F4 _ _ _ _]. destruct F4 as [(Hv & Hy)|(Hv & Hd & Hi & Ht & Hy)].
- exists (f_blk fs). split; [|apply F1]. rewrite ilock_valid by (done || lia). f_equal.
  unfold locked. rewrite Hy. transitivity (put_inode fs ip (inodep fs ip)); [by rewrite put_inode_same|].
  by destruct fs.
- destruct (ilock_spec sb Hsb dev Hdev fs d ip F1 F2 Hd Hi (proj1 F3) Hv Ht) as (s & E & Hr).
  exists s. unfold locked. rewrite E, Hy. by split.
Qed.

Lemma locked_readable s : bl_rep s d ∅ → readable sb dev (locked s) d ip.
Proof.
intros Hr. pose proof Hfo as [F1 _ _ _ F5 F6 F7 _]. split; rewrite ?inodep_locked; try done.
split; try apply F1. done.
Qed.

Lemma locked_unlock s : iunlockput (locked s) ip = Ok (released s).
Proof.
pose proof Hfo as [_ F2 F3 _ _ _ _ F8]. pose proof found_ref as Er. unfold iunlockput.
rewrite iunlock_live by (rewrite inodep_locked; lia).
rewrite iput_more; rewrite ?inodep_locked; [|by cbn; rewrite length_insert | lia | by right].
unfold locked, released. by rewrite put_put.
Qed.
End file.

Lemma uvm_kprint st pgdir um l msg : uvm st pgdir um l → uvm (kprint st msg) pgdir um l.
Proof. intros [[] U2 U3 U4]. by split; [split|..]. Qed.

(** The empty program, from the memory [st0] of the call. *)
Lemma new_image_start data st0 st l st' pgdir l' msg :
km st = km st0 → new_space data st l st' pgdir l' →
new_image data st0 l pgdir (kprint st' msg) ∅ l' 0 (λ _, 0).
Proof.
intros Ekm [N1 N2 (used & El & Hl & Hu) N4 _]. change (pages_to 0) with 0. split; try done.
- split; [by apply uvm_kprint | |].
  + intros q. unfold owned. cbn [km kprint]. rewrite Hu, El, elem_of_app. split; [|tauto].
    intros [?|[(j & Ej)|?]]; [by right | by rewrite lookup_empty in Ej | by left].
  + intros q a Hq Hn Ha. rewrite <- Ekm. by apply (N4 q a).
- change (pages_to 0) with 0. rewrite El, length_app. lia.
- intros va Hva. apply N2. unfold KERNBASE in Hva. lia.
- intros j. rewrite lookup_empty. change (pages_to 0) with 0. split; [by intros []|lia].
- change (pages_to 0) with 0. lia.
- change (pages_to 0) with 0. lia.
Qed.

(** The code at [bad] while the file is locked. *)
Lemma exec_bad_file fs d ip y k s st0 l0 pgdir :
found fs d ip y → kfs k = locked fs ip y s →
(pgdir = 0 ∧ restored st0 l0 (k_vm k) ∨ some_space st0 l0 pgdir (k_vm k)) →
∃ st', exec_bad k pgdir (Some ip) = Ok (set_vm (set_kfs k (released fs ip y s)) st', -1) ∧ restored st0 l0 st'.
Proof.
intros Hfo Ek Hsp. pose proof (locked_unlock fs d ip y Hfo s) as Eu. unfold exec_bad.
destruct Hsp as [(-> & Hr)|(um & l & Hb)].
- exists (k_vm k). split; [|done]. cbn [Z.eqb rbind]. rewrite Ek, Eu. reflexivity.
- destruct (beside_freed _ _ _ _ _ _ Hb) as (st' & E & Hr). exists st'. split; [|done].
  rewrite (proj2 (Z.eqb_neq pgdir 0)) by (apply page_ok_nonzero, (ptw_dir _ _ _ (uv_wf _ _ _ _ (be_uvm _ _ _ _ _ _ Hb)))).
  rewrite E. cbn [rbind]. change (kfs (set_vm k st')) with (kfs k). rewrite Ek, Eu. reflexivity.
Qed.

(** The kernel with the file locked, in memory [st]. *)
Definition kl k fs ip y (st : kst) (s : S) : kern S := set_vm (set_kfs k (locked fs ip y s)) st.

(** From the program headers on. *)
Lemma exec_load_spec k fs d ip y data ts p um0 l0 st pgdir l' s off n entry path argv :
let x := procp k p in
found fs d ip y → uvm (k_vm k) (p_pgdir x) um0 l0 → kstack_ok (k_vm k) um0 l0 x →
(p < length (ptable k))%nat → 0 ≤ entry < 2 ^ 32 → Forall arg_ok argv → 0 ≤ off < 2 ^ 32 →
bl_rep s d ∅ → new_image data (k_vm k) l0 pgdir st ∅ l' 0 (λ _, 0) →
∃ s', bl_rep s' d ∅ ∧
  let k1 := set_kfs k (released fs ip y s') in
  let c :=
    let* r := load_segments (kl k fs ip y st s) pgdir ip (s32 off) 0 n in
    match r with
    | (k, None) => exec_bad k pgdir (Some ip)
    | (k, Some sz) =>
        let* fs := iunlockput (kfs k) ip in exec_stack (set_kfs k fs) ts p pgdir sz entry path argv
    end in
  match segments dev d y off 0 (λ _, 0) n with
  | Some (sz, f) =>
      match stack_plan sz argv with
      | Some sp =>
          changed data (k_vm k) l0 pgdir k1 c ts p um0 sz f argv sp entry path ∨
          unchanged (k_vm k) l0 k1 c ∧ short_of l0 (stack_top sz)
      | None => unchanged (k_vm k) l0 k1 c
      end
  | None => unchanged (k_vm k) l0 k1 c
  end.
Proof.
intros x Hfo Hu Hks Hpl He Hargs Ho Hr Hn.
destruct (load_segments_spec sb Hsb dev Hdev data (k_vm k) l0 pgdir d ip y n (kl k fs ip y st s) (s32 off) ∅ l' 0
  (λ _, 0)) as (st1 & s1 & r & E & Hr1 & Hl).
{ by apply (inodep_locked fs d ip y). } { by apply locked_readable. } { done. } { apply s32_range. }
replace (u32 (s32 off)) with off in Hl by zlia. exists s1. split; [done|]. cbv zeta. rewrite E. cbn [rbind].
change (kst_fs (kl k fs ip y st s) st1 s1) with (kl k fs ip y st1 s1).
set (k1 := set_kfs k (released fs ip y s1)).
assert (∀ c, some_space (k_vm k) l0 pgdir st1 → c = exec_bad (kl k fs ip y st1 s1) pgdir (Some ip) →
  unchanged (k_vm k) l0 k1 c) as Hbad.
{ intros c Hs ->. destruct (exec_bad_file fs d ip y (kl k fs ip y st1 s1) s1 (k_vm k) l0 pgdir Hfo eq_refl)
    as (st2 & -> & Hres); [by right|]. by exists st2. }
destruct (segments dev d y off 0 (λ _, 0) n) as [[sz f]|].
- destruct Hl as [(-> & um & l & Hn1) | (-> & Hs & Hshort)].
  + change (kfs (kl k fs ip y st1 s1)) with (locked fs ip y s1).
    rewrite (locked_unlock fs d ip y Hfo s1). cbn [rbind].
    exact (exec_stack_spec data (k_vm k) l0 pgdir (set_vm k1 st1) ts p um l um0 sz f argv entry path Hn1 Hargs Hu Hks Hpl He).
  + assert (short_of l0 (stack_top sz)) as Hshort'.
    { unfold short_of, stack_top, stack_base, pages_to in *. clear -Hshort. zlia. }
    destruct (stack_plan sz argv); [right; split; [|done]|]; by apply Hbad.
- destruct Hl as (-> & Hs). by apply Hbad.
Qed.


(** What [exec] makes of the file, [c] being its run. *)
Definition exec_outcome k k1 (d : disk) y data ts p um0 l0 path argv (c : res (kern S * Z)) : Prop :=
match elf_plan d y argv with
| Some (entry, sz, f, sp) =>
    (∃ pgdir, changed data (k_vm k) l0 pgdir k1 c ts p um0 sz f argv sp entry path) ∨
    unchanged (k_vm k) l0 k1 c ∧ short_of l0 (stack_top sz)
| None => unchanged (k_vm k) l0 k1 c
end.

Lemma outcome_unchanged k k1 d y data ts p um0 l0 path argv c :
unchanged (k_vm k) l0 k1 c → elf_plan d y argv = None ∨ (length l0 < 67)%nat →
exec_outcome k k1 d y data ts p um0 l0 path argv c.
Proof.
intros Hu Ho. unfold exec_outcome. destruct (elf_plan d y argv) as [[[[entry sz] f] sp]|] eqn:E; [|done].
right. split; [done|]. destruct Ho as [?|Hl]; [done|]. unfold short_of.
assert (0 ≤ pages_to (stack_top sz)); [|lia]. unfold elf_plan, stack_plan in E.
destruct (fend y <? 52); [done|]. destruct (negb _); [done|].
destruct (segments dev d y _ 0 _ _) as [[sz' f']|] eqn:Es; [|done]. apply segments_size in Es.
case_decide; [|done]. injection E as <- <- <- <-. unfold stack_top, stack_base, pages_to. clear -Es. zlia.
Qed.

Lemma exec_elf_spec k fs d ip y data ts p um0 l0 path argv st s bytes ret :
let x := procp k p in
found fs d ip y → uvm (k_vm k) (p_pgdir x) um0 l0 → kstack_ok (k_vm k) um0 l0 x →
(p < length (ptable k))%nat → data_ok data → Forall arg_ok argv → bl_rep s d ∅ →
km st = km (k_vm k) → free_pages st l0 →
(if fend y <? 52 then ret ≠ 52 else ret = 52 ∧ bytes = file_bytes dev d y 0 52) →
∃ s', bl_rep s' d ∅ ∧
  exec_outcome k (set_kfs k (released fs ip y s')) d y data ts p um0 l0 path argv
    (exec_elf (kl k fs ip y st s) data ts p ip bytes ret path argv).
Proof.
intros x Hfo Hu Hks Hpl Hd Hargs Hr Ekm Hf Hret. unfold exec_elf.
assert (∀ st', restored (k_vm k) l0 st' → ∀ c, c = exec_bad (kl k fs ip y st' s) 0 (Some ip) →
  unchanged (k_vm k) l0 (set_kfs k (released fs ip y s)) c) as Hbad.
{ intros st' Hrest c ->. destruct (exec_bad_file fs d ip y (kl k fs ip y st' s) s (k_vm k) l0 0 Hfo eq_refl)
    as (st2 & -> & Hres); [by left|]. by exists st2. }
assert (restored (k_vm k) l0 st) as Hrest by (exists l0; split; [done|]; split; [done|]; intros q a _ _ _; by rewrite Ekm).
destruct (Z.ltb_spec (fend y) 52) as [Hlt|Hge].
{ exists s. split; [done|]. rewrite (proj2 (Z.eqb_neq ret 52)) by done.
  apply outcome_unchanged; [by apply (Hbad st)|]. left. unfold elf_plan. by rewrite (proj2 (Z.ltb_lt _ _)). }
destruct Hret as (-> & ->). cbn [Z.eqb Pos.eqb negb].
set (e := dec_elf (file_bytes dev d y 0 52)).
destruct (negb (e_magic e =? ELF_MAGIC)) eqn:Em.
{ exists s. split; [done|]. apply outcome_unchanged; [by apply (Hbad st)|]. left.
  unfold elf_plan. rewrite (proj2 (Z.ltb_ge _ _)) by done. fold e. by rewrite Em. }
change (k_vm (kl k fs ip y st s)) with st.
destruct (setupkvm_any st l0 data Hf Hd) as (st1 & pgdir & -> & Hc). cbn [rbind fst snd].
destruct Hc as [(l' & Hp & Hn) | (-> & Hshort & l' & Hf' & Hin & Hk')].
2: { cbn [Z.eqb]. exists s. split; [done|]. apply outcome_unchanged; [|by right]. apply (Hbad st1); [|done].
  exists l'. split; [done|]. split; [done|]. intros q a Hq Hnq Ha. rewrite <- Ekm. by apply (Hk' q a). }
rewrite (proj2 (Z.eqb_neq pgdir 0)) by (by apply page_ok_nonzero).
apply (new_image_start data (k_vm k) st l0 st1 pgdir l' "check elf header:OK" Ekm) in Hn.
assert (byte_list (file_bytes dev d y 0 52)) as Hby.
{ rewrite <- (inodep_locked fs d ip y Hfo s). apply (get_file sb); [by apply locked_readable | lia|].
  rewrite (inodep_locked fs d ip y Hfo s). lia. }
destruct (exec_load_spec k fs d ip y data ts p um0 l0 (kprint st1 "check elf header:OK") pgdir l' s (e_phoff e)
  (Z.to_nat (e_phnum e)) (e_entry e) path argv Hfo Hu Hks Hpl ltac:(by apply get32_range) Hargs ltac:(by apply get32_range) Hr Hn)
  as (s' & Hr' & Hres).
exists s'. split; [done|]. unfold exec_outcome, elf_plan. rewrite (proj2 (Z.ltb_ge _ _)) by done. fold e. rewrite Em.
destruct (segments dev d y (e_phoff e) 0 (λ _, 0) (Z.to_nat (e_phnum e))) as [[sz f]|]; [|exact Hres].
destruct (stack_plan sz argv) as [sp|]; [|exact Hres]. destruct Hres as [Hch|Hun]; [left | by right].
exists pgdir. exact Hch.
Qed.

Lemma exec_spec k fs d ip y data ts p um0 l0 cwd path junk argv :
let x := procp k p in
curproc k = Some p → (p < length (ptable k))%nat → uvm (k_vm k) (p_pgdir x) um0 l0 →
kstack_ok (k_vm k) um0 l0 x → data_ok data → Forall arg_ok argv →
path_cwd k path = Ok cwd → namei (kfs k) cwd path junk = Ok (fs, Some ip) → found fs d ip y →
∃ s, bl_rep s d ∅ ∧
  exec_outcome k (set_kfs k (released fs ip y s)) d y data ts p um0 l0 path argv
    (exec k data ts path argv junk).
Proof.
intros x Hc Hpl Hu Hks Hd Hargs Hcwd Hnamei Hfo.
destruct (found_lock fs d ip y Hfo) as (s1 & E1 & Hr1).
pose proof (locked_readable fs d ip y Hfo s1 Hr1) as Hrd.
destruct (readi_any sb Hsb dev Hdev (locked fs ip y s1) d ip 0 52 Hrd ltac:(lia) ltac:(lia)) as (s2 & E2 & Hr2).
rewrite (inodep_locked fs d ip y Hfo) in E2.
set (st1 := kprint (kprint (k_vm k) "real exec: ") "ready check elf header").
assert (∃ bytes ret, readi (locked fs ip y s1) ip 0 52 = Ok (locked fs ip y s2, bytes, ret) ∧
  if fend y <? 52 then ret ≠ 52 else ret = 52 ∧ bytes = file_bytes dev d y 0 52) as (bytes & ret & E3 & Hret).
{ rewrite E2. destruct (Z.ltb_spec (fend y) 52); case_decide; (eexists _, _; split; [reflexivity|]); try lia.
  rewrite Z.min_l by lia. done. }
destruct (exec_elf_spec k fs d ip y data ts p um0 l0 path argv st1 s2 bytes ret Hfo Hu Hks Hpl Hd Hargs Hr2 eq_refl
  (ptw_free _ _ _ (uv_wf _ _ _ _ Hu)) Hret) as (s & Hr & Hres).
exists s. split; [done|]. replace (exec k data ts path argv junk) with
  (exec_elf (kl k fs ip y st1 s2) data ts p ip bytes ret path argv); [exact Hres|].
unfold exec, cur. rewrite Hc. cbn [rbind]. unfold namei_cur.
change (path_cwd (kmsg k "real exec: ") path) with (path_cwd k path). rewrite Hcwd. cbn [rbind].
change (kfs (kmsg k "real exec: ")) with (kfs k). rewrite Hnamei. cbn [rbind fst snd].
change (kfs (set_kfs (kmsg k "real exec: ") fs)) with fs. rewrite E1. cbn [rbind].
match goal with |- context [readi (kfs ?a) ip 0 52] => change (kfs a) with (locked fs ip y s1) end.
rewrite E3. reflexivity.
Qed.

(** The kernel [k'] still has the process of [k]: its memory, its kernel stack,
  its place in the table; the free pages are the same. *)
Record process_kept k p (um : gmap Z Z) (l : list Z) k' : Prop := {
pk_same : k' = set_vm (set_kfs k (kfs k')) (k_vm k');
pk_proc : ∃ l', user_proc k' p um l' ∧ ∀ q, q ∈ l' ↔ q ∈ l;
pk_bytes : ∀ u, ubyte (k_vm k') um u = ubyte (k_vm k) um u;
pk_stack : ∀ a, inr_ (p_kstack (procp k p)) PGSIZE a → ld8 (km (k_vm k')) a = ld8 (km (k_vm k)) a;
pk_table : ¬ pt_page (km (k_vm k')) (p_pgdir (procp k p)) (p_kstack (procp k p))
}.

(** In [k'] the process is the program, about to start at [entry]. *)
Record process_replaced data k p (um : gmap Z Z) (l : list Z) path argv entry sz f sp k' : Prop := {
pr_space : ∃ um' l', let pgdir := p_pgdir (procp k' p) in
  user_proc k' p um' l' ∧ program data (k_vm k') pgdir um' l' sz f argv sp ∧
  ∀ q, owned (k_vm k') pgdir um' l' q ↔ owned (k_vm k) (p_pgdir (procp k p)) um l q;
pr_proc : procp k' p = new_proc (p_pgdir (procp k' p)) (procp k p) path (stack_top sz);
pr_others : ∀ q, q ≠ p → procp k' q = procp k q;
pr_frame : frame_set (k_vm k) (k_vm k') (procp k p) entry sp;
pr_cpu : k_cr3 k' = V2P (p_pgdir (procp k' p)) ∧ k_esp0 k' = u32 (p_kstack (procp k p) + 4096) ∧
  k_ss0 k' = Z.of_nat SEG_KDATA * 8;
pr_files : ftable (k_io k') = ftable (k_io k) ∧ length (ptable k') = length (ptable k)
}.

Lemma unchanged_kept k k1 p um l c fs :
user_proc k p um l → kstack_ok (k_vm k) um l (procp k p) → k1 = set_kfs k fs →
unchanged (k_vm k) l k1 c → ∃ k', c = Ok (k', -1) ∧ kfs k' = fs ∧ process_kept k p um l k'.
Proof.
intros [U1 U2 U3 U4] [K1 K2 K3 K4 _] -> (st & -> & l' & Hf & Hin & Hk). eexists. split; [done|]. split; [done|].
assert (∀ q, q ∉ l → ∀ a, page_ok q → inr_ q PGSIZE a → ld8 (km st) a = ld8 (km (k_vm k)) a) as Hk'
  by (intros q Hq a Hok; by apply (Hk q a)).
split; [done | exists l'; split; [|done] | | |].
- split; [done | | done | done].
  eapply uvm_frame; [apply U2 | | exact U2 | done | |].
  + intros q a Hq. apply Hk'; [by eapply pt_page_used; [apply U2|] | by eapply pt_page_ok; [apply U2|]].
  + intros q Hq. rewrite Hin. by eapply pt_page_used; [apply U2|].
  + intros j q Ej. rewrite Hin. by apply (uv_some _ _ _ _ U2 j q).
- intros u. apply ubyte_kept; [done|]. intros q a Eq. destruct (uv_some _ _ _ _ U2 _ _ Eq) as (_ & ? & ? & _). by apply Hk'.
- intros a. by apply Hk'.
- change (k_vm (set_vm (set_kfs k fs) st)) with st. intros Hpt. apply K3. apply (frame_pt_page (k_vm k) st); [|exact Hpt].
  intros q a Hq. apply Hk'; [by eapply pt_page_used; [apply U2|] | by eapply pt_page_ok; [apply U2|]].
Qed.

Lemma changed_replaced k k1 p um l c fs data ts pgdir sz f argv sp entry path :
(p < length (ptable k))%nat → curproc k = Some p → 0 ≤ sz → stack_top sz < KERNBASE → k1 = set_kfs k fs →
changed data (k_vm k) l pgdir k1 c ts p um sz f argv sp entry path →
∃ k', c = Ok (k', 0) ∧ kfs k' = fs ∧ process_replaced data k p um l path argv entry sz f sp k'.
Proof.
intros Hpl Hcur Hsz Htop -> (st & um' & l' & -> & Hp & Hown & Hfr). eexists. split; [done|]. split; [done|].
set (k2 := set_cpu _ _ _ _ _).
assert (procp k2 p = new_proc pgdir (procp k p) path (stack_top sz)) as Ep
  by exact (procp_upd k p (λ z, new_proc pgdir z path (stack_top sz)) Hpl).
assert (p_pgdir (procp k2 p) = pgdir) as Epg by (by rewrite Ep).
split; [| by rewrite Epg | | done | by rewrite Epg | split; [done | exact (length_alter _ _ _)]].
- exists um', l'. cbv zeta. rewrite Epg. split; [|by split]. split; [done | rewrite Epg; apply Hp | |]; rewrite Ep.
  + change (0 ≤ stack_top sz ≤ KERNBASE). unfold stack_top, stack_base, pages_to in *. zlia.
  + intros u Hu. change (0 ≤ u < 0 + stack_top sz) in Hu. apply (pg_pages _ _ _ _ _ _ _ _ _ Hp).
    unfold stack_top, stack_base in Hu. zlia.
- intros q Hq. exact (procp_upd_ne k p (λ z, new_proc pgdir z path (stack_top sz)) q Hq).
Qed.

Lemma elf_plan_size d y argv entry sz f sp :
elf_plan d y argv = Some (entry, sz, f, sp) → 0 ≤ sz ∧ stack_top sz < KERNBASE.
Proof.
unfold elf_plan, stack_plan. case_match; [done|]. case_match; [done|].
destruct (segments dev d y _ 0 _ _) as [[sz' f']|] eqn:Es; [|done]. apply segments_size in Es.
case_decide as Hd; [|done]. intros [= _ <- _ _]. split; [done | apply Hd].
Qed.

Lemma exec_found k p um l fs d ip y data ts cwd path junk argv :
user_proc k p um l → (p < length (ptable k))%nat → kstack_ok (k_vm k) um l (procp k p) →
data_ok data → Forall arg_ok argv →
path_cwd k path = Ok cwd → namei (kfs k) cwd path junk = Ok (fs, Some ip) → found fs d ip y →
∃ k' r s, exec k data ts path argv junk = Ok (k', r) ∧ kfs k' = released fs ip y s ∧ bl_rep s d ∅ ∧
  match elf_plan d y argv with
  | Some (entry, sz, f, sp) =>
      r = 0 ∧ process_replaced data k p um l path argv entry sz f sp k' ∨
      r = -1 ∧ process_kept k p um l k' ∧ Z.of_nat (length l) < 67 + 2 * pages_to (stack_top sz)
  | None => r = -1 ∧ process_kept k p um l k'
  end.
Proof.
intros Hp Hpl Hks Hd Hargs Hcwd Hnamei Hfo. pose proof (up_cur _ _ _ _ Hp) as Hc.
destruct (exec_spec k fs d ip y data ts p um l cwd path junk argv Hc Hpl (up_uvm _ _ _ _ Hp) Hks Hd Hargs Hcwd Hnamei Hfo)
  as (s & Hr & Hres).
unfold exec_outcome in Hres. pose proof (unchanged_kept k _ p um l (exec k data ts path argv junk) (released fs ip y s) Hp Hks eq_refl) as Hkept.
destruct (elf_plan d y argv) as [[[[entry sz] f] sp]|] eqn:Epl.
- apply elf_plan_size in Epl as (Hsz & Htop). destruct Hres as [(pgdir & Hch) | (Hun & Hshort)].
  + destruct (changed_replaced k _ p um l _ (released fs ip y s) data ts pgdir sz f argv sp entry path Hpl Hc Hsz Htop eq_refl Hch)
      as (k' & E & Ek & Hrep). exists k', 0, s. do 3 (split; [done|]). by left.
  + destruct (Hkept Hun) as (k' & E & Ek & Hk'). exists k', (-1), s. do 3 (split; [done|]). by right.
- destruct (Hkept Hres) as (k' & E & Ek & Hk'). exists k', (-1), s. done.
Qed.

(** A path that leads nowhere. *)
Lemma exec_missing k p um l fs data ts cwd path junk argv :
user_proc k p um l → kstack_ok (k_vm k) um l (procp k p) →
path_cwd k path = Ok cwd → namei (kfs k) cwd path junk = Ok (fs, None) →
∃ k', exec k data ts path argv junk = Ok (k', -1) ∧ kfs k' = fs ∧ process_kept k p um l k'.
Proof.
intros Hp Hks Hcwd Hnamei. pose proof (up_cur _ _ _ _ Hp) as Hc.
apply (unchanged_kept k (set_kfs k fs)); [done..|].
exists (kprint (kprint (k_vm k) "real exec: ") "exec: fail"). split.
- unfold exec, cur. rewrite Hc. cbn [rbind]. unfold namei_cur.
  change (path_cwd (kmsg k "real exec: ") path) with (path_cwd k path). rewrite Hcwd. cbn [rbind].
  change (kfs (kmsg k "real exec: ")) with (kfs k). rewrite Hnamei. reflexivity.
- exists l. split; [exact (ptw_free _ _ _ (uv_wf _ _ _ _ (up_uvm _ _ _ _ Hp)))|]. by split.
Qed.

(** The plan depends on the file, not on its users. *)
Lemma segments_ref d x r off sz f n : segments dev d (set_ref x r) off sz f n = segments dev d x off sz f n.
Proof.
revert off sz f. induction n as [|n IH]; intros off sz f; [done|]. cbn [segments].
change (fend (set_ref x r)) with (fend x). change (file_bytes dev d (set_ref x r)) with (file_bytes dev d x).
case_match; [done|]. set (ph := dec_ph _). change (bad_segment (set_ref x r) sz ph) with (bad_segment x sz ph).
case_match; [apply IH|]. case_match; [done|]. apply IH.
Qed.

Lemma elf_plan_ref d x r argv : elf_plan d (set_ref x r) argv = elf_plan d x argv.
Proof.
unfold elf_plan. change (fend (set_ref x r)) with (fend x).
change (file_bytes dev d (set_ref x r)) with (file_bytes dev d x). cbv zeta. by rewrite segments_ref.
Qed.

Lemma walked_found fs d ic0 n r :
roomy ic0 → files_bytes sb dev d → walked sb dev ic0 fs d (Some n) r →
∃ ip, r = Some ip ∧ (ip < length ic0)%nat ∧ held ic0 (∅ ⊎ {[+ ip +]}) (icache fs) ∧ i_inum (inodep fs ip) = n ∧
  found fs d ip (node sb dev d n (i_ref (inodep fs ip))).
Proof.
intros Hroom Hby (Hs & ip & -> & Hh & Hip & Ei & Hl). exists ip. do 2 (split; [done|]).
rewrite <- (left_id_L ∅ (⊎) {[+ ip +]}) in Hh. split; [done|]. split; [done|].
destruct (held_ref sb dev ic0 Hroom fs d ∅ ip Hh Hip Hs) as (Hr & Hlt).
destruct (slot_sync sb dev fs d ip Hs Hlt ltac:(lia)) as (Hd & _ & Hv). rewrite Ei in Hv.
split; [apply Hs | done | done | | | | | left; apply Hl].
- destruct Hv as [Hv|Hv].
  + right. do 2 (split; [done|]). rewrite Ei. split; [apply Hl|]. split; [apply Hl|].
    unfold node, load_dinode, set_valid. cbn. by rewrite Hd, Ei.
  + left. split; [by rewrite Hv | by symmetry].
- by apply node_wf; [apply Hs|].
- exact (tr_full _ _ _ (so_tree _ _ _ _ Hs) n Hl).
- intros i Hi. exact (Hby n i Hl Hi).
Qed.

(** The program that the path leads to. *)
Definition path_plan d (i : Z) (es : list (list Z)) argv : option (Z * Z * (Z → Z) * Z) :=
match resolve sb dev d i es with
| Some n => elf_plan d (node sb dev d n 0) argv
| None => None
end.

Lemma exec_path k p um l d data ts cwd path junk argv :
user_proc k p um l → (p < length (ptable k))%nat → kstack_ok (k_vm k) um l (procp k p) →
data_ok data → Forall arg_ok argv →
sound sb dev (kfs k) d → files_bytes sb dev d → roomy (icache (kfs k)) → begins sb dev k d path cwd → length junk = DIRSIZ →
∃ k' r, exec k data ts path argv junk = Ok (k', r) ∧ as_before sb dev k d (kfs k') ∧
  match path_plan d (start (kfs k) cwd path) (elems path) argv with
  | Some (entry, sz, f, sp) =>
      r = 0 ∧ process_replaced data k p um l path argv entry sz f sp k' ∨
      r = -1 ∧ process_kept k p um l k' ∧ Z.of_nat (length l) < 67 + 2 * pages_to (stack_top sz)
  | None => r = -1 ∧ process_kept k p um l k'
  end.
Proof.
intros Hp Hpl Hks Hd Hargs Hs Hby Hroom [Hcwd Hst] Hj.
destruct (namei_spec sb Hsb dev Hdev (kfs k) d cwd path junk Hs Hroom Hst Hj) as (fs & o & E & Hw).
unfold path_plan. destruct (resolve sb dev d (start (kfs k) cwd path) (elems path)) as [n|].
- destruct (walked_found fs d (icache (kfs k)) n o Hroom Hby Hw) as (ip & -> & Hip & Hh & Ei & Hfo).
  destruct (exec_found k p um l fs d ip _ data ts cwd path junk argv Hp Hpl Hks Hd Hargs Hcwd E Hfo)
    as (k' & r & s & Ex & Ek & Hr & Hres).
  exists k', r. split; [done|]. split.
  + unfold as_before. rewrite Ek. rewrite <- Ei.
    exact (node_released sb dev (icache (kfs k)) Hroom fs d ∅ ip s (proj1 Hw) Hr Hh Hip).
  + rewrite <- (elf_plan_ref d (node sb dev d n 0) (i_ref (inodep fs ip))). exact Hres.
- destruct Hw as (Hs' & -> & Hh).
  destruct (exec_missing k p um l fs data ts cwd path junk argv Hp Hks Hcwd E) as (k' & Ex & Ek & Hres).
  exists k', (-1). split; [done|]. split; [|done]. rewrite Ek. by split.
Qed.

(** [exec] of a path either makes the process the program that the path
    leads to, or leaves the process as it is and answers -1.  The tree and the
    file on the disk decide ([path_plan]): the size, every byte of the image and
    the entry point are those of the ELF headers; a path that leads nowhere, an
    unfit header, a segment outside the file or the user half, or arguments beyond
    a page are refused, and a fit file only fails when memory is short.  On
    success the stack holds the strings of [argv] and the words a C program
    expects, above a page that user code cannot reach, the trap frame starts the
    program there, the kernel's mappings are all in the new page directory, which
    is the one in use, and the pages of the old space are free again: no page is
    lost or shared.  In both cases every inode has the users it had. *)
Theorem exec_runs k p um l d data ts cwd path junk argv :
user_proc k p um l → (p < length (ptable k))%nat → kstack_ok (k_vm k) um l (procp k p) →
data_ok data → Forall arg_ok argv →
sound sb dev (kfs k) d → files_bytes sb dev d → roomy (icache (kfs k)) → begins sb dev k d path cwd → length junk = DIRSIZ →
∃ k' r, exec k data ts path argv junk = Ok (k', r) ∧ as_before sb dev k d (kfs k') ∧
  match path_plan d (start (kfs k) cwd path) (elems path) argv with
  | Some (entry, sz, f, sp) =>
      r = 0 ∧ process_replaced data k p um l path argv entry sz f sp k' ∨
      r = -1 ∧ process_kept k p um l k' ∧ Z.of_nat (length l) < 67 + 2 * pages_to (stack_top sz)
  | None => r = -1 ∧ process_kept k p um l k'
  end.
Proof. exact (exec_path k p um l d data ts cwd path junk argv). Qed.
End exec.

(** * A program that runs

    "/bin/a" of FsTree.v is an executable of one segment: 4 bytes of code at
    address 0, 8 bytes of memory. *)
Definition exe_bytes : list Z :=
  le_bytes 4 ELF_MAGIC ++ replicate 24 0 ++ le_bytes 4 52 ++ replicate 12 0 ++ le_bytes 2 1 ++ replicate 6 0 ++
  le_bytes 4 ELF_PROG_LOAD ++ le_bytes 4 84 ++ replicate 8 0 ++ le_bytes 4 4 ++ le_bytes 4 8 ++ replicate 8 0 ++
  [0xEB; 0xFE; 0x90; 0x90].
Definition exe_block : list Z := exe_bytes ++ replicate 424 0.
Definition dexe : disk := dtree exe_block 88.
Definition fsexe : fsys (disk_st ata) := fstree exe_block 88.

Lemma dexe_bytes : files_bytes sb0 1 dexe.
Proof. apply tree_bytes. apply (bool_decide_unpack _). vm_compute. exact I. Qed.

(** A process without memory of its own. *)
Definition exec_proc (pgdir s : Z) : proc :=
  mk_proc 0 pgdir s RUNNING 1 None (s + 4096 - TF_SIZE) 0 (replicate NOFILE None) (Some 0%nat) (replicate 16 0).
Definition exec_kern (st : kst) (pgdir s : Z) : kern (disk_st ata) :=
  mk_kern (open0 fsexe) st [exec_proc pgdir s] (Some 0%nat) None 2 (replicate 6 inhabitant) 0 0 0 false.

Lemma exec_process :
  ∃ st pgdir s l, user_proc (exec_kern st pgdir s) 0 ∅ l ∧ kstack_ok st ∅ l (exec_proc pgdir s) ∧
    (180 ≤ length l)%nat.
Proof.
  destruct (freerange_spec kst0 [] 0x80400000 0x80500000 ltac:(split; [done | constructor])
    ltac:(unfold KERNBASE; lia) ltac:(lia) ltac:(by intros p ?%elem_of_nil) 0x80400000 256%nat eq_refl eq_refl)
    as (st & _ & Hf & _).
  rewrite app_nil_r in Hf. pose proof (length_page_run 0x80400000 256) as Hlen. rewrite <- length_rev in Hlen.
  destruct (rev (page_run 0x80400000 256)) as [|s l]; [discriminate|].
  destruct (kalloc_cons st s l Hf) as (st1 & _ & _ & Hf1 & Hs & Hsl & _).
  assert (data_ok 0x80110000) as Hd by (split; [reflexivity | unfold KERNLINK, KERNBASE, PHYSTOP; lia]).
  cbn [length] in Hlen.
  destruct (setupkvm_spec st1 l 0x80110000 Hf1 Hd ltac:(lia)) as (st2 & pgdir & l2 & _ & Hp & [Hu _ (used & -> & Hul & Hpt) _ _]).
  rewrite elem_of_app in Hsl. rewrite length_app in Hlen.
  exists st2, pgdir, s, l2. split; [|split; [|lia]].
  - split; [done | done | vm_compute; split; congruence |]. intros u Hu'. cbn in Hu'. lia.
  - split; [done | tauto | | |].
    + change (p_pgdir (exec_proc pgdir s)) with pgdir. change (p_kstack (exec_proc pgdir s)) with s. rewrite Hpt. tauto.
    + intros j. by rewrite lookup_empty.
    + change (p_tf (exec_proc pgdir s)) with (s + 4096 - TF_SIZE). change (p_kstack (exec_proc pgdir s)) with s.
      unfold TF_SIZE, PGSIZE. lia.
Qed.

Lemma exec_runs_witness :
  ∃ (k k' : kern (disk_st ata)) um l, exec k 0x80110000 0 path_bin_a [[104; 105]] (replicate 14 0) = Ok (k', 0) ∧
    user_proc k' 0 um l ∧ ubyte (k_vm k') um 0 = Some 0xEB ∧ ubyte (k_vm k') um 1 = Some 0xFE ∧
    bytes_at (k_vm k') um 12284 [104; 105; 0] ∧ ld32 (km (k_vm k')) (p_tf (procp k 0) + TF_ESP) = 12264.
Proof.
  destruct exec_process as (st & pgdir & s & l & Hp & Hks & Hlen).
  set (k := exec_kern st pgdir s) in *.
  destruct (exec_runs sb0 sb0_wf 1 ltac:(lia) k 0 ∅ l dexe 0x80110000 0 0 path_bin_a (replicate 14 0) [[104; 105]]
    Hp ltac:(cbn; lia) Hks ltac:(split; [reflexivity | unfold KERNLINK, KERNBASE, PHYSTOP; lia])
    ltac:(by repeat constructor) (fstree_sound exe_block 88 eq_refl ltac:(lia)) dexe_bytes tree_roomy
    ltac:(split; [done | by apply (tree_start exe_block 88)]) eq_refl) as (k' & r & E & _ & Hc).
  set (f := overlay (λ _, 0) 0 4 (λ i, file_byte 1 dexe (node sb0 1 dexe 3 0) (84 + i))).
  assert (path_plan sb0 1 dexe (start (kfs k) 0 path_bin_a) (elems path_bin_a) [[104; 105]] = Some (0, 8, f, 12264)) as Epl.
  { unfold path_plan. replace (resolve _ _ _ _ _) with (Some 3) by (vm_compute; reflexivity). reflexivity. }
  rewrite Epl in Hc. destruct Hc as [(-> & Hr) | (_ & _ & Hshort)].
  2: { exfalso. change (pages_to (stack_top 8)) with 3 in Hshort. lia. }
  destruct (pr_space _ _ _ _ _ _ _ _ _ _ _ _ Hr) as (um & l' & Hu & Hprog & _).
  exists k, k', um, l'. split; [exact E|]. split; [exact Hu|].
  destruct Hprog as [_ _ _ _ Hb Ha _].
  split; [rewrite Hb by (split; [lia | reflexivity]); vm_compute; reflexivity|].
  split; [rewrite Hb by (split; [lia | reflexivity]); vm_compute; reflexivity|].
  split; [|exact (fs_esp _ _ _ _ _ (pr_frame _ _ _ _ _ _ _ _ _ _ _ _ Hr))].
  change (strings_at um (k_vm k') [12284] [[104; 105]]) in Ha. apply Forall2_cons in Ha as (Ha & _). exact Ha.
Defined.
