(* ===== verification/SysExec.v ===== *)
(** kernel/calls.c: [sys_exec] from the arguments in the memory of the process
    to the program that runs in its place. *)
From stdpp Require Import gmultiset.
From S2P Require Import Prelude Memory LibC Mmu Kalloc Vm UserMem Uvm UvmProps Kvm Seg Ports Ide Block FsLayout Fs FsDir.
From S2P Require Import Bio FsBlocks FsFile FsRw FsProps FsIcache FsDirProps FsTrunc FsPath FsTree File Kernel Exec Calls CallProps Create OpenProps Load ExecProps.

(** From index [i] on, the array at address [u] of the process points to the
    strings [argv] and ends with a null pointer. *)
Fixpoint argv_at {S} `{BlockOps S} (k : kern S) p um (u : Z) (i : Z) (argv : list (list Z)) : Prop :=
  match argv with
  | [] => getint k (u32 (u + 4 * i)) = Ok (Some 0)
  | a :: argv' =>
      (∃ addr, getint k (u32 (u + 4 * i)) = Ok (Some addr) ∧ addr ≠ 0 ∧ user_string k p um addr a) ∧
      argv_at k p um u (i + 1) argv'
  end.

Section args.
Context {S : Type} `{BlockOps S}.
Implicit Types (k : kern S).

(** An address that [getstr] accepts is that of a string of the process. *)
Lemma getstr_cases k p um l a :
  user_proc k p um l → 0 ≤ a → ∃ o, getstr k a = Ok o ∧ (o ≠ None → ∃ s, user_string k p um a s).
Proof.
  intros Hp Ha. destruct (getstr_spec k p um l a Hp Ha) as ([len|] & E & Hlen); rewrite E; [|by exists None].
  exists (Some len). split; [done|]. intros _. destruct Hlen as (G0 & Hend & Hz & Hnz).
  exists ((λ i, default 0 (ubyte (k_vm k) um (a + Z.of_nat i))) <$> seq 0 (Z.to_nat len)).
  assert (∀ i, (i < Z.to_nat len)%nat → ubyte (k_vm k) um (a + Z.of_nat i) =
    Some (default 0 (ubyte (k_vm k) um (a + Z.of_nat i)))) as Hb.
  { intros i Hi. destruct (user_byte k p um l Hp (a + Z.of_nat i)) as (b & -> & _); [lia | done]. }
  split; rewrite ?length_fmap, ?length_seq, ?Z2Nat.id by lia; [lia | lia | | done].
  intros i c Ec. apply list_lookup_fmap_Some in Ec as (q & -> & (-> & Hq)%lookup_seq). cbn [Nat.add].
  split; [|by rewrite <- Hb]. intros E0. apply (Hnz (a + Z.of_nat i)); [lia|]. by rewrite Hb, E0.
Qed.

(** A word of zeros in the process's memory. *)
Lemma getint_zero k p um l a :
  user_proc k p um l → 0 ≤ a < 2 ^ 32 → getint k a = Ok (Some 0) →
  a < p_sz (procp k p) ∧ ubyte (k_vm k) um a = Some 0.
Proof.
  intros Hp Ha Hg. pose proof (up_sz _ _ _ _ Hp) as Hsz. unfold KERNBASE in Hsz. unfold getint in Hg.
  rewrite (cur_proc_user k p um l Hp) in Hg. cbn [rbind] in Hg.
  destruct (Z.leb_spec (p_sz (procp k p)) a) as [?|Hlt]; [discriminate Hg|]. cbn [orb] in Hg.
  destruct (decide (a + 4 < 2 ^ 32)) as [H4|H4]; [|unfold KERNBASE in *; rewrite (proj2 (Z.ltb_lt _ _)) in Hg; [discriminate | lia]].
  rewrite u32_small in Hg by lia. destruct (Z.ltb_spec (p_sz (procp k p)) (a + 4)) as [?|Hend]; [discriminate Hg|].
  split; [done|]. destruct (user_uld_bytes k p um l Hp 4 a) as (bs & E & Hl & Hr & Hi); [lia | lia |].
  unfold uld32 in Hg. rewrite E in Hg. cbn [rbind] in Hg. specialize (Hi 0%nat ltac:(lia)). rewrite Z.add_0_r in Hi. rewrite Hi.
  do 5 (destruct bs as [|? bs]; try discriminate Hl). rewrite !Forall_cons in Hr. injection Hg as Hg. cbn. f_equal. lia.
Qed.

Lemma exec_args_nil k u i n : exec_args k u i n = Ok (Some []) → getint k (u32 (u + 4 * i)) = Ok (Some 0).
Proof.
  destruct n as [|n]; cbn [exec_args]; [discriminate|]. intros Hx. apply rbind_inv in Hx as ([v|] & -> & Hx); [|discriminate Hx].
  destruct (v =? 0) eqn:E0; [apply Z.eqb_eq in E0; by rewrite E0|].
  apply rbind_inv in Hx as ([len|] & _ & Hx); [|discriminate Hx]. apply rbind_inv in Hx as (a & _ & Hx).
  apply rbind_inv in Hx as ([rest|] & _ & Hx); [discriminate Hx | discriminate Hx].
Qed.

(** What [kprintf] shows of the arguments is a text: if there are none, the word
    that ends the array ends the text at address 0, if not something before it. *)
Lemma shown_text k p um l u n argv :
  user_proc k p um l → exec_args k u 0 n = Ok (Some argv) →
  ∃ t, match argv with [] => user_str k 0 | a :: _ => Ok a end = Ok t.
Proof.
  intros Hp Hx. destruct argv as [|a argv]; [|by exists a]. apply exec_args_nil in Hx. rewrite Z.mul_0_r in Hx.
  destruct (getint_zero k p um l _ Hp (u32_range _) Hx) as (Hlt & Hz).
  destruct (getstr_cases k p um l 0 Hp ltac:(lia)) as (o & E & Ho).
  destruct (getstr_spec k p um l 0 Hp ltac:(lia)) as (o' & E' & Ho'). rewrite E in E'. injection E' as <-.
  destruct o as [len|].
  - destruct (Ho ltac:(done)) as (s & Hs). exists s. by apply (user_str_string k p um l Hp 0 s).
  - exfalso. apply (Ho' (u32 (u + 0))); [pose proof (u32_range (u + 0)); lia | done].
Qed.
End args.

Section exec_call.
Context {S : Type} `{BlockLayer S}.
Context (sb : superblock) (Hsb : sb_wf sb) (dev : Z) (Hdev : 0 ≤ dev < 2).
Implicit Types (k : kern S) (p : nat) (d : disk) (argv : list (list Z)).

Lemma exec_args_spec k p um l u i n argv :
  user_proc k p um l → argv_at k p um u i argv → (length argv < n)%nat → exec_args k u i n = Ok (Some argv).
Proof.
  intros Hp. revert i n. induction argv as [|a argv IH]; intros i [|n] Ha Hn; try (cbn in Hn; lia); cbn [exec_args].
  - cbn [argv_at] in Ha. by rewrite Ha.
  - destruct Ha as ((addr & Hg & Hnz & Hs) & Ha). rewrite Hg. cbn [rbind].
    rewrite (proj2 (Z.eqb_neq addr 0)) by done. rewrite (getstr_string k p um l Hp addr a Hs). cbn [rbind].
    rewrite (user_str_string k p um l Hp addr a Hs). cbn [rbind].
    rewrite (IH (i + 1) n Ha) by (cbn in Hn; lia). done.
Qed.

(** Messages leave the process alone. *)
Lemma kept_kmsg k p um l msg k' : process_kept (kmsg k msg) p um l k' → process_kept k p um l k'.
Proof. by intros [K1 K2 K3 K4 K5]; split. Qed.

Lemma replaced_kmsg data k p um l path argv entry sz f sp msg k' :
  process_replaced data (kmsg k msg) p um l path argv entry sz f sp k' →
  process_replaced data k p um l path argv entry sz f sp k'.
Proof. intros [P1 P2 P3 [F1 F2 F3] P5 P6]; split; [exact P1 | exact P2 | exact P3 | by split | exact P5 | exact P6]. Qed.

Lemma user_proc_kmsg k p um l msg : user_proc k p um l → user_proc (kmsg k msg) p um l.
Proof. intros [U1 U2 U3 U4]. split; [done | by apply uvm_kprint | done..]. Qed.

(** What [exec] of a path does, with the process [p] of [k]. *)
Definition exec_done data k p um l d (cwd : nat) path argv (c : res (kern S * Z)) : Prop :=
  ∃ k' r, c = Ok (k', r) ∧ as_before sb dev k d (kfs k') ∧
    match path_plan sb dev d (start (kfs k) cwd path) (elems path) argv with
    | Some (entry, sz, f, sp) =>
        r = 0 ∧ process_replaced data k p um l path argv entry sz f sp k' ∨
        r = -1 ∧ process_kept k p um l k' ∧ Z.of_nat (length l) < 67 + 2 * pages_to (stack_top sz)
    | None => r = -1 ∧ process_kept k p um l k'
    end.

Lemma exec_done_kmsg data k p um l d cwd path argv msg c :
  exec_done data (kmsg k msg) p um l d cwd path argv c → exec_done data k p um l d cwd path argv c.
Proof.
  intros (k' & r & E & Hb & Hres). exists k', r. split; [done|]. split; [exact Hb|].
  change (start (kfs (kmsg k msg))) with (start (kfs k)) in Hres.
  destruct (path_plan _ _ _ _ _ _) as [[[[entry sz] f] sp]|].
  - destruct Hres as [(-> & Hr)|(-> & Hk & Hl)]; [left; split; [done|] | right; split; [done|]; split; [|done]].
    + by eapply replaced_kmsg.
    + by eapply kept_kmsg.
  - split; [apply Hres|]. by eapply kept_kmsg, Hres.
Qed.

(** The process [p] is running, and its path can be resolved from [cwd]. *)
Record caller_ok k p um l d (path : list Z) (cwd : nat) : Prop := {
  co_user : user_proc k p um l;
  co_slot : (p < length (ptable k))%nat;
  co_stack : kstack_ok (k_vm k) um l (procp k p);
  co_sound : sound sb dev (kfs k) d;
  co_room : roomy (icache (kfs k));
  co_begins : begins sb dev k d path cwd
}.

Lemma caller_kmsg k p um l d path cwd msg : caller_ok k p um l d path cwd → caller_ok (kmsg k msg) p um l d path cwd.
Proof.
  intros [C1 C2 [K1 K2 K3 K4 K5] C4 C5 [B1 B2]].
  split; [by apply user_proc_kmsg | done | by split | done | done | by split].
Qed.

Lemma sys_exec_spec k p um l d data ts a u path argv cwd junk :
  caller_ok k p um l d path cwd → data_ok data → files_bytes sb dev d → length junk = DIRSIZ →
  argint k 0 = Ok (Some a) → argint k 1 = Ok (Some u) →
  user_string k p um a path → argv_at k p um u 0 argv → (length argv < MAXARG)%nat → Forall arg_ok argv →
  exec_done data k p um l d cwd path argv (sys_exec k data ts junk).
Proof.
  intros Hc Hd Hby Hj Ha Hu Hpath Hargv Hn Hok. pose proof (co_user _ _ _ _ _ _ _ Hc) as Hp.
  unfold sys_exec. rewrite (argstr_string k p um l Hp a path Hpath 0 Ha), Hu. cbn [rbind].
  pose proof (exec_args_spec k p um l u 0 5 argv Hp Hargv Hn) as Ev. rewrite Ev. cbn [rbind].
  rewrite (user_str_string k p um l Hp a path Hpath). cbn [rbind].
  destruct (shown_text k p um l u 5 argv Hp Ev) as (t & ->). cbn [rbind].
  set (k4 := kmsg (kmsg (kmsg (kmsg k "exec:%s,%s") "You said:") "test IDE") ">").
  assert (caller_ok k4 p um l d path cwd) as [C1 C2 C3 C4 C5 C6] by (by do 4 apply caller_kmsg).
  assert (user_string k4 p um a path) as Hpath4 by (destruct Hpath as [S1 S2 S3 S4]; by split).
  do 4 eapply exec_done_kmsg.
  exact (exec_path sb Hsb dev Hdev k4 p um l d data ts cwd path junk argv C1 C2 C3 Hd Hok C4 Hby C5 C6 Hj).
Qed.

(** C4. The system call [exec], from the arguments in the user's memory to the new
    program.  There are fewer than five arguments, each shorter than a page of 4096
    bytes.  The process becomes the program that its path leads to, or stays as
    it is and gets -1.  The tree and the file on the disk decide ([path_plan]):
    the size, every byte of the image and the entry point are those of the ELF
    headers; a path that leads nowhere, an unfit header, a segment outside the
    file or the user half, or arguments beyond a page are refused, and a fit file
    only fails when memory is short.  On success the stack holds the strings of
    the caller's [argv] and the words a C program expects, above a page that user
    code cannot reach, the trap frame starts the program there, the kernel's
    mappings are all in the new page directory, which is the one in use, and the
    pages of the old space are free again: no page is lost or shared.  In both
    cases every inode has the users it had. *)
Theorem sys_exec_runs k p um l d data ts a u path argv cwd junk :
  caller_ok k p um l d path cwd → data_ok data → files_bytes sb dev d → length junk = DIRSIZ →
  argint k 0 = Ok (Some a) → argint k 1 = Ok (Some u) →
  user_string k p um a path → argv_at k p um u 0 argv → (length argv < MAXARG)%nat → Forall arg_ok argv →
  ∃ k' r, sys_exec k data ts junk = Ok (k', r) ∧ as_before sb dev k d (kfs k') ∧
    match path_plan sb dev d (start (kfs k) cwd path) (elems path) argv with
    | Some (entry, sz, f, sp) =>
        r = 0 ∧ process_replaced data k p um l path argv entry sz f sp k' ∨
        r = -1 ∧ process_kept k p um l k' ∧ Z.of_nat (length l) < 67 + 2 * pages_to (stack_top sz)
    | None => r = -1 ∧ process_kept k p um l k'
    end.
Proof. exact (sys_exec_spec k p um l d data ts a u path argv cwd junk). Qed.
End exec_call.

(** * A program that calls exec

    A process of one page whose first bytes are [bs]; its stack pointer is 0. *)
Definition ready_proc (pgdir s : Z) : proc :=
  mk_proc 4096 pgdir s RUNNING 1 None (s + 4096 - TF_SIZE) 0 (replicate NOFILE None) (Some 0%nat) (replicate 16 0).
Definition ready_kern (y : fio (disk_st ata)) (st : kst) (pgdir s : Z) : kern (disk_st ata) :=
  mk_kern y st [ready_proc pgdir s] (Some 0%nat) None 2 (replicate 6 inhabitant) 0 0 0 false.

Lemma ready_process bs :
  (length bs ≤ 4096)%nat → byte_list bs →
  ∃ st pgdir s um l, (∀ y, user_proc (ready_kern y st pgdir s) 0 um l) ∧ kstack_ok st um l (ready_proc pgdir s) ∧
    (170 ≤ length l)%nat ∧ ld32 (km st) (s + 4096 - TF_SIZE + TF_ESP) = 0 ∧
    ∀ i b, bs !! i = Some b → ubyte st um (Z.of_nat i) = Some b.
Proof.
  intros Hlen Hbs. destruct exec_process as (st & pgdir & s & l & [_ Hu _ _] & [K1 K2 K3 _ _] & Hl).
  change (k_vm _) with st in Hu. change (p_pgdir _) with pgdir in Hu, K3. change (p_kstack _) with s in K1, K2, K3.
  pose proof (uv_wf _ _ _ _ Hu) as Hwf.
  set (tf := s + 4096 - TF_SIZE). set (st1 := set_km st (st32 (km st) (tf + TF_ESP) 0)).
  assert (page_only s st st1) as Ho.
  { split; [done|]. intros q x Hq Hne Hx. apply ld8_st32_ne.
    pose proof (page_ok_disjoint q s x Hq K1 Hne Hx). unfold tf, inr_, PGSIZE, TF_SIZE, TF_ESP in *. lia. }
  assert (∀ q a, pt_page (km st) pgdir q → inr_ q PGSIZE a → ld8 (km st1) a = ld8 (km st) a) as Hk1.
  { intros q a Hq Hx. apply (proj2 Ho q a); [by eapply pt_page_ok | by intros -> | done]. }
  assert (uvm st1 pgdir ∅ l) as Hu1.
  { eapply uvm_frame; [exact Hwf | exact Hk1 | exact Hu | | by intros q Hq; eapply pt_page_used | by intros j q E].
    eapply free_pages_page_only; [exact Ho | done | apply Hwf]. }
  assert (¬ pt_page (km st1) pgdir s) as K3' by (by rewrite (frame_pt_page st st1 pgdir Hk1)).
  destruct (allocuvm_spec st1 pgdir 0 4096 ∅ l Hu1 ltac:(lia) ltac:(unfold KERNBASE; lia) 0 1 eq_refl eq_refl
    (λ j _, lookup_empty j)) as ([st2 r] & _ & [(um & l2 & _ & Hu2 & (G1 & G2 & _) & Hff & Hown & Hl2) | (l2 & _ & _ & _ & _ & Hsh)]);
    [|lia].
  destruct (G2 0 ltac:(lia)) as (q0 & Eq0 & Hq0 & Hz).
  assert (∀ j q, um !! j = Some q → j = 0 ∧ q = q0) as Hum.
  { intros j q E. destruct (decide (j = 0)) as [->|Hj]; [split; [done | congruence]|].
    rewrite G1 in E by lia. by rewrite lookup_empty in E. }
  assert (¬ owned st2 pgdir um l2 s) as Hns.
  { rewrite (Hown s). intros [?|[(j & E)|?]]; [done | by rewrite lookup_empty in E | done]. }
  destruct (ust_bytes_spec pgdir um l2 st2 0 bs Hu2 ltac:(lia) ltac:(unfold KERNBASE; lia)) as (st3 & _ & [V1 V2 V3 V4]).
  { intros u Hr. exists q0. by replace (u / 4096) with 0 by zlia. }
  assert (∀ a, inr_ s PGSIZE a → ld8 (km st3) a = ld8 (km st1) a) as Hks.
  { intros a Ha. rewrite (V4 s a K1); [|intros j E; apply Hns; right; left; by exists j | done].
    by apply (ff_mem _ _ _ _ _ Hff s a). }
  exists st3, pgdir, s, um, l2. split; [|split; [|split; [|split]]].
  - intros y. split; [done | exact V1 | change (0 ≤ 4096 ≤ KERNBASE); unfold KERNBASE; lia |].
    intros u Hr. change (0 ≤ u < 0 + 4096) in Hr. exists q0. by replace (u / 4096) with 0 by zlia.
  - split; [done | | | |]; change (p_kstack (ready_proc pgdir s)) with s.
    + intros Hin. apply Hns. by left.
    + change (p_pgdir _) with pgdir. intros Hpt. apply Hns. right; right.
      apply (frame_pt_page st2 st3 pgdir); [|done]. intros q a Hq Ha. apply (V4 q a); [by eapply pt_page_ok; [apply Hu2|] | | done].
      intros j E. by destruct (uv_some _ _ _ _ Hu2 j q E) as (_ & _ & _ & ? & _).
    + intros j E. apply Hns. right; left. by exists j.
    + change (p_tf _) with (s + 4096 - TF_SIZE). unfold TF_SIZE, PGSIZE. lia.
  - lia.
  - fold tf. rewrite (ld32_ext _ (km st1)); [exact (ld32_st32_eq (km st) (tf + TF_ESP) 0)|].
    intros x Hx. apply Hks. unfold tf, inr_, PGSIZE, TF_SIZE, TF_ESP in *. lia.
  - intros i b Eb. rewrite V3. pose proof (lookup_lt_Some _ _ _ Eb). rewrite decide_True by lia. f_equal.
    rewrite Z.sub_0_r. unfold zget. rewrite Nat2Z.id, (list_lookup_total_correct _ _ _ Eb).
    unfold u8. apply Z.mod_small. exact (Forall_lookup_1 _ _ _ _ Hbs Eb).
Qed.

(** The arguments 0x20 and 12, the array 0x30, 0 at 12, "/bin/a" and "hi". *)
Definition sx_bytes : list Z :=
  le_bytes 4 0 ++ le_bytes 4 0x20 ++ le_bytes 4 12 ++ le_bytes 4 0x30 ++ replicate 16 0 ++
  path_bin_a ++ replicate 10 0 ++ [104; 105; 0].

Lemma sx_string {S} (k : kern S) um a s :
  (∀ i b, sx_bytes !! i = Some b → ubyte (k_vm k) um (Z.of_nat i) = Some b) → p_sz (procp k 0) = 4096 →
  slice sx_bytes a (length s + 1) = s ++ [0] → Forall (λ c, c ≠ 0) s → (a + length s + 1 ≤ 51)%nat →
  user_string k 0 um (Z.of_nat a) s.
Proof.
  intros Hb Hsz Hsl Hs Hl.
  assert (∀ i c, (s ++ [0]) !! i = Some c → ubyte (k_vm k) um (Z.of_nat a + Z.of_nat i) = Some c) as Hc.
  { intros i c E. rewrite <- Nat2Z.inj_add. apply Hb. rewrite <- Hsl in E.
    pose proof (lookup_lt_Some _ _ _ E) as Hi. unfold slice in Hi. rewrite length_take in Hi.
    by rewrite lookup_slice in E by lia. }
  split; [lia | lia | |].
  - intros i c E. split; [exact (Forall_lookup_1 _ _ _ _ Hs E)|]. apply Hc. by apply lookup_app_l_Some.
  - apply Hc. rewrite lookup_app_r by lia. by rewrite Nat.sub_diag.
Qed.

Lemma sys_exec_runs_witness :
  ∃ (k k' : kern (disk_st ata)) um l, sys_exec k 0x80110000 0 (replicate 14 0) = Ok (k', 0) ∧
    user_proc k' 0 um l ∧ ubyte (k_vm k') um 0 = Some 0xEB ∧ bytes_at (k_vm k') um 12284 [104; 105; 0] ∧
    ld32 (km (k_vm k')) (p_tf (procp k 0) + TF_ESP) = 12264.
Proof.
  destruct (ready_process sx_bytes) as (st & pgdir & s & um0 & l & Hp & Hks & Hlen & Hesp & Hb);
    [vm_compute; lia | apply (bool_decide_unpack _); vm_compute; exact I |].
  specialize (Hp (open0 fsexe)). set (k := ready_kern (open0 fsexe) st pgdir s) in *.
  assert (∀ a v, (a + 4 ≤ 51)%nat → slice sx_bytes a 4 = le_bytes 4 v → 0 ≤ v < 2 ^ 32 →
    getint k (Z.of_nat a) = Ok (Some v)) as Hg.
  { intros a v Ha Hsl Hv. apply (getint_word k 0 um0 l (Z.of_nat a) v Hp);
      [change (p_sz _) with 4096; lia | lia | done |].
    intros i Hi. rewrite <- Hsl, lookup_slice by done.
    destruct (lookup_lt_is_Some_2 sx_bytes (a + i)) as (b & Eb); [change (length sx_bytes) with 51%nat; lia|].
    rewrite Eb, <- Nat2Z.inj_add. by apply Hb. }
  assert (∀ n, argint k n = getint k (u32 (4 + 4 * n))) as Harg.
  { intros n. unfold argint. change (cur k) with (Ok 0%nat : res nat). cbn [rbind]. do 2 f_equal.
    unfold tf_get. change (ld32 _ _) with (ld32 (km st) (s + 4096 - TF_SIZE + TF_ESP)). by rewrite Hesp. }
  assert (∀ a s, slice sx_bytes a (length s + 1) = s ++ [0] → Forall (λ c, c ≠ 0) s → (a + length s + 1 ≤ 51)%nat →
    user_string k 0 um0 (Z.of_nat a) s) as Hstr by (intros a t; by apply sx_string).
  assert (caller_ok sb0 1 k 0 um0 l dexe path_bin_a 0) as Hcaller.
  { split; [exact Hp | exact (Nat.lt_0_succ _) | exact Hks | exact (fstree_sound exe_block 88 eq_refl ltac:(lia)) |
      exact tree_roomy |]. split; [reflexivity | by apply (tree_start exe_block 88)]. }
  assert (argint k 0 = Ok (Some 0x20)) as Ha0 by (rewrite Harg; apply (Hg 4%nat 0x20); [lia | reflexivity | lia]).
  assert (argint k 1 = Ok (Some 12)) as Ha1 by (rewrite Harg; apply (Hg 8%nat 12); [lia | reflexivity | lia]).
  assert (user_string k 0 um0 0x20 path_bin_a) as Hpath
    by (apply (Hstr 0x20%nat); [reflexivity | by repeat constructor | cbn; lia]).
  assert (argv_at k 0 um0 12 0 [[104; 105]]) as Hargv.
  { split; [|apply (Hg 16%nat 0); [lia | reflexivity | lia]]. exists 0x30.
    split; [apply (Hg 12%nat 0x30); [lia | reflexivity | lia]|]. split; [discriminate|].
    apply (Hstr 0x30%nat); [reflexivity | by repeat constructor | cbn; lia]. }
  destruct (sys_exec_runs sb0 sb0_wf 1 ltac:(lia) k 0 um0 l dexe 0x80110000 0 0x20 12 path_bin_a [[104; 105]] 0
    (replicate 14 0) Hcaller
    ltac:(split; [reflexivity | unfold KERNLINK, KERNBASE, PHYSTOP; lia]) dexe_bytes eq_refl Ha0 Ha1 Hpath Hargv ltac:(unfold MAXARG; cbn; lia)
    ltac:(repeat constructor; cbn; lia)) as (k' & r & E & _ & Hc).
  set (f := overlay (λ _, 0) 0 4 (λ i, file_byte 1 dexe (node sb0 1 dexe 3 0) (84 + i))).
  assert (path_plan sb0 1 dexe (start (kfs k) 0 path_bin_a) (elems path_bin_a) [[104; 105]] = Some (0, 8, f, 12264)) as Epl.
  { unfold path_plan. replace (resolve _ _ _ _ _) with (Some 3) by (vm_compute; reflexivity). reflexivity. }
  rewrite Epl in Hc. destruct Hc as [(-> & Hr) | (_ & _ & Hshort)].
  2: { exfalso. change (pages_to (stack_top 8)) with 3 in Hshort. lia. }
  destruct (pr_space _ _ _ _ _ _ _ _ _ _ _ _ Hr) as (um & l' & Hu & Hprog & _).
  exists k, k', um, l'. split; [exact E|]. split; [exact Hu|].
  destruct Hprog as [_ _ _ _ Hby Ha _].
  split; [rewrite Hby by (split; [lia | reflexivity]); vm_compute; reflexivity|].
  split; [|exact (fs_esp _ _ _ _ _ (pr_frame _ _ _ _ _ _ _ _ _ _ _ _ Hr))].
  change (strings_at um (k_vm k') [12284] [[104; 105]]) in Ha. apply Forall2_cons in Ha as (Ha & _). exact Ha.
Defined.
