(* ===== verification/SysInv.v ===== *)
(** kernel/calls.c: what holds between two system calls.  The inodes in use are
    those of the open files and of the current directory, each as often as it is
    used; the open files are those of the descriptors, each once; the tree on the
    disk and the inode cache agree ([settled]).  Every system call keeps this. *)
From stdpp Require Import gmultiset.
From S2P Require Import Prelude Memory LibC Mmu Kalloc Vm UserMem Uvm UvmProps Kvm Seg Ports Ide Block FsLayout Fs FsDir Bio FsBlocks FsFile FsRw FsProps.
From S2P Require Import FsIcache FsDirProps FsTrunc FsAlloc FsPath FsTree FsSound File Kernel Exec Calls CallProps Create OpenProps CreateTree Load ExecProps SysExec.

(** * Descriptors as a list of files *)

Lemma fds_take (l : list (option nat)) fd f :
  l !! fd = Some (Some f) → omap id l ≡ₚ f :: omap id (<[fd := None]> l).
Proof.
  intros E. rewrite <- (take_drop_middle _ _ _ E) at 1. rewrite insert_take_drop by (by eapply lookup_lt_Some).
  rewrite !omap_app. cbn. symmetry. apply Permutation_middle.
Qed.

Lemma fds_give (l : list (option nat)) fd f :
  l !! fd = Some None → omap id (<[fd := Some f]> l) ≡ₚ f :: omap id l.
Proof.
  intros E. pose proof (lookup_lt_Some _ _ _ E) as Hlt.
  rewrite (fds_take (<[fd := Some f]> l) fd f) by (by rewrite list_lookup_insert_eq).
  by rewrite list_insert_insert_eq, (list_insert_id l fd None).
Qed.

Lemma fds_length (l : list (option nat)) : (length (omap id l) ≤ length l)%nat.
Proof. induction l as [|[f|] l IH]; cbn; lia. Qed.

Lemma fresh_nat (X : list nat) n : (length X < n)%nat → ∃ j, (j < n)%nat ∧ j ∉ X.
Proof.
  intros Hl. destruct (decide (Forall (λ j, j ∈ X) (seq 0 n))) as [Ha|Hn].
  - exfalso. pose proof (List.NoDup_incl_length (l := seq 0 n) (l' := X) (List.seq_NoDup n 0)) as Hi.
    rewrite List.length_seq in Hi. enough (n ≤ length X)%nat by lia. apply Hi. intros j Hj.
    apply list_elem_of_In. rewrite Forall_forall in Ha. apply Ha. by apply list_elem_of_In.
  - apply not_Forall_Exists in Hn; [|apply _]. apply Exists_exists in Hn as (j & Hj & Hx). exists j.
    apply elem_of_seq in Hj. split; [lia | done].
Qed.

Lemma multiplicity_list (l : list nat) j : (multiplicity j (list_to_set_disj l : gmultiset nat) ≤ length l)%nat.
Proof.
  induction l as [|x l IH]; cbn [list_to_set_disj length]; [by rewrite multiplicity_empty|].
  rewrite multiplicity_disj_union. destruct (decide (j = x)) as [->|Hne];
    [rewrite multiplicity_singleton_eq | rewrite multiplicity_singleton_ne by done]; lia.
Qed.

Section inv.
Context {S : Type} `{BlockLayer S}.
Context (sb : superblock) (Hsb : sb_wf sb) (dev : Z) (Hdev : 0 ≤ dev < 2).
Implicit Types (k : kern S) (p ip f fd : nat) (d : disk) (y : fio S).
#[local] Abbreviation sound := (sound sb dev).
#[local] Abbreviation linked := (linked sb dev).

(** The files that process [p] has open, and the inode slots that it uses. *)
Definition open_files k p : list nat := omap id (p_ofile (procp k p)).
Definition slots k p : list nat :=
  ((λ f, f_ip (filep (k_io k) f)) <$> open_files k p) ++ option_list (p_cwd (procp k p)).

(** An open file: its inode was read, its offset is inside the contents, and a
    directory is not open for writing. *)
Record file_fine k (x : file) : Prop := {
  ff_ref : f_ref x = 1;
  ff_type : f_type x = FD_INODE;
  ff_slot : (f_ip x < length (icache (kfs k)))%nat;
  ff_valid : i_valid (inodep (kfs k) (f_ip x)) ≠ 0;
  ff_off : i_type (inodep (kfs k) (f_ip x)) ≠ T_DEV → 0 ≤ f_off x ≤ i_size (inodep (kfs k) (f_ip x));
  ff_dir : f_writable x ≠ 0 → i_type (inodep (kfs k) (f_ip x)) ≠ T_DIR
}.

(** The state between two calls of process [p], the only one that runs. *)
Record settled k p d : Prop := {
  se_sound : sound (kfs k) d;
  se_bytes : files_bytes sb dev d;
  se_root : dev = ROOTDEV ∧ linked d ROOTINO;
  se_cache : length (icache (kfs k)) = NINODE;
  se_proc : (p < length (ptable k))%nat;
  se_fds : length (p_ofile (procp k p)) = NOFILE;
  se_once : NoDup (open_files k p);
  se_open : ∀ f, f ∈ open_files k p → (f < length (ftable (k_io k)))%nat ∧ file_fine k (filep (k_io k) f);
  se_free : ∀ f, (f < length (ftable (k_io k)))%nat → f ∉ open_files k p →
    f_ref (filep (k_io k) f) = 0 ∧ f_type (filep (k_io k) f) = FD_NONE;
  se_cwd : ∃ c, p_cwd (procp k p) = Some c ∧ (c < NINODE)%nat;
  se_users : ∀ j, (j < NINODE)%nat → i_ref (inodep (kfs k) j) = Z.of_nat (multiplicity j (list_to_set_disj (slots k p)))
}.

Lemma slots_length k p d : settled k p d → (length (slots k p) ≤ 17)%nat.
Proof.
  intros Hs. unfold slots. rewrite length_app, length_fmap. destruct (se_cwd _ _ _ Hs) as (c & -> & _). cbn.
  enough (length (open_files k p) ≤ NOFILE)%nat by (unfold NOFILE in *; lia).
  rewrite <- (se_fds _ _ _ Hs). apply fds_length.
Qed.

(** The cache has slots left: a process cannot use more than 17. *)
Lemma settled_roomy k p d : settled k p d → roomy (icache (kfs k)).
Proof.
  intros Hs. pose proof (slots_length k p d Hs) as Hl.
  assert (∀ j, (j < NINODE)%nat → j ∉ slots k p → unused (icache (kfs k) !!! j)) as Hu.
  { intros j Hj Hn. change (i_ref (inodep (kfs k) j) = 0). rewrite (se_users _ _ _ Hs j Hj).
    enough (multiplicity j (list_to_set_disj (slots k p) : gmultiset nat) = 0%nat) by lia.
    apply not_elem_of_multiplicity. by rewrite elem_of_list_to_set_disj. }
  split.
  - destruct (fresh_nat (slots k p) NINODE) as (j1 & Hj1 & Hn1); [unfold NINODE; lia|].
    destruct (fresh_nat (j1 :: slots k p) NINODE) as (j2 & Hj2 & Hn2); [cbn; unfold NINODE; lia|].
    apply not_elem_of_cons in Hn2 as (Hne & Hn2). exists j1, j2. rewrite (se_cache _ _ _ Hs).
    split; [done|]. split; [done|]. split; [done|]. by split; apply Hu.
  - intros j Hj. rewrite (se_cache _ _ _ Hs) in Hj. change (0 ≤ i_ref (inodep (kfs k) j) < 2 ^ 31 - 4). rewrite (se_users _ _ _ Hs j Hj).
    pose proof (multiplicity_list (slots k p) j). lia.
Qed.

Lemma settled_clean k p d : settled k p d → files_clean (k_io k).
Proof.
  intros Hs x (f & Ex)%list_elem_of_lookup Hr.
  assert (filep (k_io k) f = x) as Ef by (by apply list_lookup_total_correct). pose proof (lookup_lt_Some _ _ _ Ex) as Hf.
  destruct (decide (f ∈ open_files k p)) as [Hin|Hn].
  - destruct (se_open _ _ _ Hs f Hin) as (_ & [Hr1 _ _ _ _ _]). rewrite Ef in Hr1. lia.
  - rewrite <- Ef. by apply Hs.
Qed.

(** An inode that is used is in the cache and in use. *)
Lemma slot_used k p d j : settled k p d → j ∈ slots k p → (j < NINODE)%nat → 0 < i_ref (inodep (kfs k) j).
Proof.
  intros Hs Hj Hlt. rewrite (se_users _ _ _ Hs j Hlt).
  assert (0 < multiplicity j (list_to_set_disj (slots k p) : gmultiset nat))%nat
    by (by apply elem_of_multiplicity, elem_of_list_to_set_disj). lia.
Qed.

(** * Arguments *)

Lemma argstr_cases k p um l n :
  user_proc k p um l → ∃ o, argstr k n = Ok o ∧
    match o with Some a => argint k n = Ok (Some a) ∧ ∃ s, user_string k p um a s | None => True end.
Proof.
  intros Hp. unfold argstr. destruct (argint_total k p um l Hp n) as ([a|] & -> & Ha); cbn [rbind]; [|by exists None].
  destruct (getstr_cases k p um l a Hp) as ([len|] & -> & Hs); [by apply Ha | | by exists None].
  cbn [rbind]. exists (Some a). split; [done|]. split; [done | by apply Hs].
Qed.

(** A descriptor argument that is accepted is an open file. *)
Lemma argfd_cases k p um l d n :
  user_proc k p um l → settled k p d → ∃ o, argfd k n = Ok o ∧
    match o with Some (fd, f) => p_ofile (procp k p) !! fd = Some (Some f) ∧ f ∈ open_files k p | None => True end.
Proof.
  intros Hp Hs. unfold argfd. destruct (argint_total k p um l Hp n) as ([a|] & -> & Ha); cbn [rbind]; [|by exists None].
  destruct (Z.ltb_spec (s32 a) 0), (Z.leb_spec (Z.of_nat NOFILE) (s32 a)); cbn [orb]; try by exists None.
  rewrite (cur_proc_user k p um l Hp). cbn [rbind]. set (fd := Z.to_nat (s32 a)).
  destruct (lookup_lt_is_Some_2 (p_ofile (procp k p)) fd) as (o & Eo); [rewrite (se_fds _ _ _ Hs); lia|].
  rewrite Eo. destruct o as [f|]; [|by exists None].
  eexists. split; [done|]. split; [done|]. apply list_elem_of_omap. exists (Some f). split; [|done].
  by eapply list_elem_of_lookup_2.
Qed.

(** Where the walk along a path argument starts. *)
Lemma settled_begins k p um l d path a :
  user_proc k p um l → settled k p d → user_string k p um a path → ∃ cwd, begins sb dev k d path cwd.
Proof.
  intros Hp Hs Hus. destruct (se_cwd _ _ _ Hs) as (c & Ec & Hc).
  assert (Z.of_nat (length path) < 2 ^ 32) as Hlen.
  { pose proof (us_end _ _ _ _ _ Hus). pose proof (us_start _ _ _ _ _ Hus). pose proof (up_sz _ _ _ _ Hp) as Hsz.
    unfold KERNBASE in Hsz. lia. }
  assert (0 < i_ref (inodep (kfs k) c)) as Hr.
  { apply (slot_used k p d c Hs); [|done]. unfold slots. rewrite Ec. apply elem_of_app. right. by apply list_elem_of_here. }
  destruct (decide (head path = Some SLASH)) as [Eh|Nh].
  - exists 0%nat. destruct path as [|x path]; [done|]. injection Eh as ->. split; [done|]. split; [done | | done]. intros _. apply Hs.
  - exists c. split.
    + unfold path_cwd. destruct path as [|x path]; cbn [negb at_end andb];
        [|change (zget (x :: path) 0) with x; rewrite (proj2 (Z.eqb_neq x SLASH)) by (by intros ->); cbn [negb andb at_end]];
        unfold cur; rewrite (up_cur _ _ _ _ Hp); cbn [rbind]; rewrite Ec; rewrite ?andb_false_r; done.
    + split; [intros _; split; [rewrite (se_cache _ _ _ Hs); lia | done] | done | done].
Qed.

(** * What the calls leave *)

(** The slots in use before hold the same inodes. *)
Lemma fine_held hs k k' d d' x :
  sound (kfs k) d → sound (kfs k') d' → held (icache (kfs k)) hs (icache (kfs k')) → grows sb dev d d' →
  file_fine k x → 0 < i_ref (inodep (kfs k) (f_ip x)) → 0 < i_ref (inodep (kfs k') (f_ip x)) → file_fine k' x.
Proof.
  intros Hs Hs' Hh Hgr [F1 F2 F3 F4 F5 F6] Hr Hr'. set (j := f_ip x) in *.
  destruct (slot_node sb dev (kfs k) d j Hs F3 Hr F4) as (Ex & Hl).
  destruct (he_same _ _ _ Hh j F3 Hr) as (Ei & Hv). specialize (Hv F4).
  change (icache (kfs k') !!! j) with (inodep (kfs k') j) in Ei, Hv. change (icache (kfs k) !!! j) with (inodep (kfs k) j) in Ei.
  assert (j < length (icache (kfs k')))%nat as F3' by (by rewrite (he_len _ _ _ Hh)).
  destruct (slot_node sb dev (kfs k') d' j Hs' F3' Hr' Hv) as (Ex' & _). rewrite Ei in Ex'.
  destruct (Hgr _ Hl) as (_ & Ety & Esz).
  assert (i_type (inodep (kfs k') j) = i_type (inodep (kfs k) j)) as Et by (rewrite Ex', Ex; exact Ety).
  assert (i_size (inodep (kfs k) j) ≤ i_size (inodep (kfs k') j)) as Es by (rewrite Ex', Ex; exact Esz).
  split; fold j; rewrite ?Et; try done. intros Hd. specialize (F5 Hd). lia.
Qed.

Lemma fine_used k p d f : settled k p d → f ∈ open_files k p → 0 < i_ref (inodep (kfs k) (f_ip (filep (k_io k) f))).
Proof.
  intros Hs Hf. destruct (se_open _ _ _ Hs f Hf) as (_ & [_ _ F3 _ _ _]). rewrite (se_cache _ _ _ Hs) in F3.
  apply (slot_used k p d); [done | | done]. unfold slots. apply elem_of_app. left. apply list_elem_of_fmap. by exists f.
Qed.

(** The files and the inodes in use are those of before. *)
Lemma settled_grown k p d d' k' :
  settled k p d → grows sb dev d d' → files_bytes sb dev d' → as_before sb dev k d' (kfs k') → ftable (k_io k') = ftable (k_io k) →
  length (ptable k') = length (ptable k) → p_ofile (procp k' p) = p_ofile (procp k p) →
  p_cwd (procp k' p) = p_cwd (procp k p) → settled k' p d'.
Proof.
  intros Hs Hgr Hby (Hs' & Hh) Ef El Eo Ec.
  assert (open_files k' p = open_files k p) as Eof by (unfold open_files; by rewrite Eo).
  assert (∀ f, filep (k_io k') f = filep (k_io k) f) as Efp by (intros f; unfold filep; by rewrite Ef).
  assert (slots k' p = slots k p) as Esl.
  { unfold slots. rewrite Eof, Ec. f_equal. apply list_fmap_ext. intros i f _. by rewrite Efp. }
  assert (∀ j, (j < NINODE)%nat → i_ref (inodep (kfs k') j) = i_ref (inodep (kfs k) j)) as Er.
  { intros j Hj. rewrite <- (se_cache _ _ _ Hs) in Hj. pose proof (he_ref _ _ _ Hh j Hj) as E.
    rewrite multiplicity_empty, Z.add_0_r in E. exact E. }
  destruct Hs as [S1 S2 S3 S4 S5 S6 S7 S8 S9 S10 S11] eqn:Heq. pose proof Hh as [L _ _].
  split; rewrite ?Eof, ?Ef, ?El, ?Eo, ?Ec; try done.
  - split; [apply S3 | exact (proj1 (Hgr _ (proj2 S3)))].
  - by rewrite L.
  - intros f Hf. rewrite Efp. destruct (S8 f Hf) as (Hlt & Hfi). split; [done|].
    pose proof (fine_used k p d f Hs Hf) as Hu. apply (fine_held ∅ k k' d d'); try done.
    rewrite Er; [done|]. rewrite <- S4. apply Hfi.
  - intros f. rewrite Efp. apply S9.
  - intros j Hj. rewrite Esl, Er by done. by apply S11.
Qed.

Lemma settled_as_before k p d k' :
  settled k p d → as_before sb dev k d (kfs k') → ftable (k_io k') = ftable (k_io k) →
  length (ptable k') = length (ptable k) → p_ofile (procp k' p) = p_ofile (procp k p) →
  p_cwd (procp k' p) = p_cwd (procp k p) → settled k' p d.
Proof. intros Hs. exact (settled_grown k p d d k' Hs (grows_refl sb dev d) (se_bytes _ _ _ Hs)). Qed.

Lemma as_before_refl k d : sound (kfs k) d → as_before sb dev k d (kfs k).
Proof. intros Hs. split; [done | apply held_refl]. Qed.

(** * open and close *)

Lemma filep_insert y (fs' : fsys S) f g x :
  (f < length (ftable y))%nat → filep (mk_fio fs' (<[f := x]> (ftable y))) g = if decide (g = f) then x else filep y g.
Proof.
  intros Hf. unfold filep. cbn [ftable]. case_decide as E; [subst; by apply list_lookup_total_insert_eq|].
  by apply list_lookup_total_insert_ne.
Qed.

Lemma multiplicity_cons (l : list nat) j x :
  multiplicity j (list_to_set_disj (x :: l) : gmultiset nat) =
  ((if decide (j = x) then 1 else 0) + multiplicity j (list_to_set_disj l : gmultiset nat))%nat.
Proof.
  cbn [list_to_set_disj]. rewrite multiplicity_disj_union. case_decide as E;
    [subst; by rewrite multiplicity_singleton_eq | by rewrite multiplicity_singleton_ne].
Qed.

(** A new descriptor for a new file. *)
Lemma settled_opened k p d d' n fd f fs' ip rd wr :
  let file := mk_file FD_INODE 1 rd wr ip 0 in
  let k' := set_io (upd_proc k p (λ z, pset_ofile z fd (Some f))) (mk_fio fs' (<[f := file]> (ftable (k_io k)))) in
  settled k p d → grows sb dev d d' → files_bytes sb dev d' →
  free_fd (p_ofile (procp k p)) 0 = Some fd → free_file (ftable (k_io k)) 0 = Some f →
  taken sb dev k d' fs' n ip → (wr ≠ 0 → is_dir sb dev d' n = false) → settled k' p d'.
Proof.
  intros file k' Hs Hgr Hby Hfd Hf (Hs' & Hh & Hip & En & Hl) Hwr.
  pose proof (free_fd_spec (p_ofile (procp k p)) 0) as Hfs. rewrite Hfd in Hfs. destruct Hfs as (q & -> & Hfn & _).
  cbn [Nat.add] in *. apply free_file_spec in Hf as (g & z & -> & Hz & Hz0 & _). cbn [Nat.add] in *. clear Hfd.
  pose proof (lookup_lt_Some _ _ _ Hz) as Hg.
  assert (g ∉ open_files k p) as Hnew.
  { intros Hin. destruct (se_open _ _ _ Hs g Hin) as (_ & [F1 _ _ _ _ _]). unfold filep in F1.
    rewrite (list_lookup_total_correct _ _ _ Hz) in F1. lia. }
  assert (procp k' p = pset_ofile (procp k p) q (Some g)) as Ep by exact (procp_upd k p _ (se_proc _ _ _ Hs)).
  assert (open_files k' p ≡ₚ g :: open_files k p) as Eof by (unfold open_files; rewrite Ep; by apply fds_give).
  assert (∀ h, filep (k_io k') h = if decide (h = g) then file else filep (k_io k) h) as Efp
    by (intros h; by apply filep_insert).
  assert (slots k' p ≡ₚ ip :: slots k p) as Esl.
  { unfold slots. rewrite Eof, Ep. cbn [fmap list_fmap app]. rewrite Efp, decide_True by done. apply perm_skip.
    apply Permutation_app_tail, reflexive_eq, list_fmap_ext. intros i h Hh0.
    rewrite Efp, decide_False; [done|]. intros ->. by apply Hnew, (list_elem_of_lookup_2 _ i). }
  assert (∀ j, (j < NINODE)%nat → i_ref (inodep fs' j) = i_ref (inodep (kfs k) j) + if decide (j = ip) then 1 else 0) as Er.
  { intros j Hj. rewrite <- (se_cache _ _ _ Hs) in Hj. pose proof (he_ref _ _ _ Hh j Hj) as E.
    rewrite (left_id_L ∅ (⊎)) in E. unfold inodep. rewrite E. f_equal.
    case_decide as Ej; [subst; by rewrite multiplicity_singleton_eq | by rewrite multiplicity_singleton_ne]. }
  assert (length (icache fs') = NINODE) as Hlen by (rewrite (he_len _ _ _ Hh); apply Hs).
  assert (∀ j, (j < NINODE)%nat → 0 < i_ref (inodep (kfs k) j) → 0 < i_ref (inodep fs' j)) as Hpos
    by (intros j Hj Hp; rewrite Er by done; case_decide; lia).
  split.
  - exact Hs'.
  - exact Hby.
  - split; [apply Hs | exact (proj1 (Hgr _ (proj2 (se_root _ _ _ Hs))))].
  - exact Hlen.
  - assert (length (ptable k') = length (ptable k)) as -> by exact (length_alter _ _ _). apply (se_proc _ _ _ Hs).
  - rewrite Ep. cbn. rewrite length_insert. apply Hs.
  - rewrite Eof. apply NoDup_cons. split; [done | apply Hs].
  - intros h Hin. rewrite Eof in Hin. rewrite Efp.
    change (ftable (k_io k')) with (<[g := file]> (ftable (k_io k))). rewrite length_insert.
    apply elem_of_cons in Hin as [->|Hin].
    + rewrite decide_True by done. split; [done|]. change (kfs k') with fs'.
      assert (i_type (inodep fs' ip) = di_type (disk_inode sb dev d' n)) as Ety by (by rewrite En).
      split; try done; cbn [f_ip f_off f_writable file]; change (kfs k') with fs'.
      * rewrite Hlen. by rewrite <- (se_cache _ _ _ Hs).
      * by rewrite En.
      * intros _. rewrite En. cbn. pose proof (fw_size _ _ _ _ (tr_wf _ _ _ (so_tree _ _ _ _ Hs') n Hl)) as Hsz. cbn in Hsz. lia.
      * rewrite Ety. intros Hw. specialize (Hwr Hw). unfold is_dir in Hwr. by apply Z.eqb_neq.
    + rewrite decide_False by (by intros ->). destruct (se_open _ _ _ Hs h Hin) as (Hlt & Hfi). split; [done|].
      pose proof (fine_used k p d h Hs Hin) as Hu.
      apply (fine_held (∅ ⊎ {[+ ip +]}) k k' d d'); try done; [apply Hs|]. apply Hpos; [|done].
      rewrite <- (se_cache _ _ _ Hs). apply Hfi.
  - intros h Hh0 Hn. change (ftable (k_io k')) with (<[g := file]> (ftable (k_io k))) in Hh0.
    rewrite length_insert in Hh0. rewrite Eof in Hn.
    apply not_elem_of_cons in Hn as (Hne & Hn). rewrite Efp, decide_False by done. by apply Hs.
  - rewrite Ep. apply Hs.
  - intros j Hj. change (kfs k') with fs'. rewrite Er by done. rewrite (se_users _ _ _ Hs j Hj).
    rewrite (list_to_set_disj_perm _ _ Esl : (list_to_set_disj (slots k' p) : gmultiset nat) = _).
    rewrite multiplicity_cons. case_decide; lia.
Qed.

(** A descriptor is given back, and with it its file and a user of the inode. *)
Lemma settled_closed k p d fd f :
  settled k p d → p_ofile (procp k p) !! fd = Some (Some f) →
  ∃ y', fileclose (k_io k) f = Ok y' ∧ settled (set_io (upd_proc k p (λ x, pset_ofile x fd None)) y') p d.
Proof.
  intros Hs Hfd. set (x := filep (k_io k) f).
  assert (open_files k p ≡ₚ f :: omap id (<[fd := None]> (p_ofile (procp k p)))) as Eof by (by apply fds_take).
  assert (f ∈ open_files k p) as Hin by (rewrite Eof; apply list_elem_of_here).
  destruct (se_open _ _ _ Hs f Hin) as (Hf & Hfine). pose proof (fine_used k p d f Hs Hin) as Hu.
  fold x in Hfine, Hu. pose proof Hfine as [F1 F2 F3 F4 F5 F6].
  destruct (fileclose_last sb dev (k_io k) f d Hf F1 F2 (se_sound _ _ _ Hs) F3 Hu) as (E & Hs'). fold x in E, Hs'.
  eexists. split; [exact E|]. set (fs' := put_inode (y_fs (k_io k)) (f_ip x) _) in *. clear E.
  set (k' := set_io _ _).
  assert (procp k' p = pset_ofile (procp k p) fd None) as Ep by exact (procp_upd k p _ (se_proc _ _ _ Hs)).
  assert (open_files k p ≡ₚ f :: open_files k' p) as Eof' by (unfold open_files at 2; by rewrite Ep).
  pose proof (se_once _ _ _ Hs) as Hnd. rewrite Eof' in Hnd. apply NoDup_cons in Hnd as (Hnf & Hnd).
  assert (∀ h, filep (k_io k') h = if decide (h = f) then closed_file x else filep (k_io k) h) as Efp
    by (intros h; by apply filep_insert).
  assert (slots k p ≡ₚ f_ip x :: slots k' p) as Esl.
  { unfold slots. rewrite Eof', Ep. cbn [fmap list_fmap app]. apply perm_skip.
    apply Permutation_app_tail, reflexive_eq, list_fmap_ext. intros i h Hh0.
    rewrite Efp, decide_False; [done|]. intros ->. by apply Hnf, (list_elem_of_lookup_2 _ i). }
  assert (∀ j, inodep fs' j = if decide (j = f_ip x) then set_ref (inodep (kfs k) j) (i_ref (inodep (kfs k) j) - 1)
    else inodep (kfs k) j) as Ei.
  { intros j. case_decide as Ej; [subst j; by apply inodep_put | unfold fs'; by rewrite inodep_put_ne]. }
  assert (length (icache fs') = length (icache (kfs k))) as Hlen by exact (length_insert _ _ _).
  split.
  - exact Hs'.
  - apply Hs.
  - apply Hs.
  - rewrite <- (se_cache _ _ _ Hs). exact Hlen.
  - assert (length (ptable k') = length (ptable k)) as -> by exact (length_alter _ _ _). apply (se_proc _ _ _ Hs).
  - rewrite Ep. cbn. rewrite length_insert. apply Hs.
  - exact Hnd.
  - intros h Hh. assert (h ∈ open_files k p) as Hh' by (rewrite Eof'; by right).
    rewrite Efp, decide_False by (by intros ->).
    change (ftable (k_io k')) with (<[f := closed_file x]> (ftable (k_io k))). rewrite length_insert.
    destruct (se_open _ _ _ Hs h Hh') as (Hlt & [G1 G2 G3 G4 G5 G6]). split; [done|].
    split; change (kfs k') with fs'; rewrite ?Hlen, ?Ei; try done; by case_decide.
  - intros h Hh0 Hn. change (ftable (k_io k')) with (<[f := closed_file x]> (ftable (k_io k))) in Hh0.
    rewrite length_insert in Hh0. rewrite Efp. destruct (decide (h = f)) as [->|Hne]; [done|].
    apply Hs; [done|]. rewrite Eof'. by apply not_elem_of_cons.
  - rewrite Ep. apply Hs.
  - intros j Hj. change (kfs k') with fs'. pose proof (se_users _ _ _ Hs j Hj) as Hj0.
    rewrite (list_to_set_disj_perm _ _ Esl : (list_to_set_disj (slots k p) : gmultiset nat) = _), multiplicity_cons in Hj0.
    rewrite Ei. destruct (decide (j = f_ip x)); [cbn [i_ref set_ref]|]; lia.
Qed.

(** * The memory of the process *)

(** Process [p] runs with its memory and its kernel stack. *)
Record alive k p (um : gmap Z Z) (l : list Z) d : Prop := {
  al_user : user_proc k p um l;
  al_stack : kstack_ok (k_vm k) um l (procp k p);
  al_settled : settled k p d
}.

(** A call that ends, with the process and the file system in order. *)
Definition returns p um l d (c : res (kern S * Z)) : Prop :=
  ∃ k' r, c = Ok (k', r) ∧ alive k' p um l d.

Lemma alive_vm k p um l d d' k' :
  alive k p um l d → k_vm k' = k_vm k → curproc k' = curproc k → p_sz (procp k' p) = p_sz (procp k p) →
  p_pgdir (procp k' p) = p_pgdir (procp k p) → p_kstack (procp k' p) = p_kstack (procp k p) →
  p_tf (procp k' p) = p_tf (procp k p) → settled k' p d' → alive k' p um l d'.
Proof.
  intros [[U1 U2 U3 U4] [K1 K2 K3 K4 K5] _] Ev Ec Es Ep Ek Et Hs. split; [| |done].
  - split; rewrite ?Ec, ?Ev, ?Ep, ?Es; done.
  - split; rewrite ?Ek, ?Et, ?Ep, ?Ev; done.
Qed.

Lemma alive_stays k p um l d d' k' :
  alive k p um l d → k_vm k' = k_vm k → curproc k' = curproc k → ptable k' = ptable k → settled k' p d' →
  alive k' p um l d'.
Proof.
  intros [[U1 U2 U3 U4] [K1 K2 K3 K4 K5] _] Ev Ec Et Hs. assert (procp k' p = procp k p) as Ep by (unfold procp; by rewrite Et).
  split; [split | split | done]; rewrite ?Ec, ?Ev, ?Ep; done.
Qed.

(** Stores to the process's memory. *)
Lemma alive_stored k p um l d a bs :
  alive k p um l d → 0 ≤ a → a + Z.of_nat (length bs) ≤ p_sz (procp k p) →
  ∃ st', user_store k a bs = Ok (set_vm k st') ∧ alive (set_vm k st') p um l d.
Proof.
  intros [Hu [K1 K2 K3 K4 K5] Hs] Ha Hn. destruct (user_store_spec k p um l Hu a bs Ha Hn) as (st' & E & [V1 V2 V3 V4]).
  exists st'. split; [exact E|]. split; [by apply user_proc_set_vm | | exact (settled_as_before k p d (set_vm k st') Hs (as_before_refl k d (se_sound _ _ _ Hs)) eq_refl eq_refl eq_refl eq_refl)].
  split; [done | done | | done | done].
  change (¬ pt_page (km st') (p_pgdir (procp k p)) (p_kstack (procp k p))). intros Hpt. apply K3.
  pose proof (uv_wf _ _ _ _ (up_uvm _ _ _ _ Hu)) as Hwf.
  apply (frame_pt_page (k_vm k) st'); [|exact Hpt]. intros q x Hq Hx. apply (V4 q x); [by eapply pt_page_ok | | done].
  intros j E'. by destruct (uv_some _ _ _ _ (up_uvm _ _ _ _ Hu) j q E') as (_ & _ & _ & ? & _).
Qed.

Lemma returns_here k p um l d r : alive k p um l d → returns p um l d (Ok (k, r)).
Proof. by exists k, r. Qed.

Lemma sys_close_alive k p um l d : alive k p um l d → returns p um l d (sys_close k).
Proof.
  intros Ha. pose proof Ha as [Hu Hk Hs]. unfold sys_close.
  destruct (argfd_cases k p um l d 0 Hu Hs) as ([[fd f]|] & -> & Ho); cbn [rbind]; [|by apply returns_here].
  destruct Ho as (Hfd & Hin). rewrite (cur_user k p um l Hu). cbn [rbind].
  destruct (settled_closed k p d fd f Hs Hfd) as (y' & E & Hs').
  change (k_io (upd_proc k p _)) with (k_io k). rewrite E. cbn [rbind]. eexists _, 0. split; [done|].
  set (k' := set_io _ _) in *.
  assert (procp k' p = pset_ofile (procp k p) fd None) as Ep by exact (procp_upd k p _ (se_proc _ _ _ Hs)).
  apply (alive_vm k p um l d d); try done; by rewrite Ep.
Qed.

(** The inode of an open file is locked at once. *)
Lemma fine_locked k p d f :
  settled k p d → f ∈ open_files k p → let ip := f_ip (filep (k_io k) f) in
  ilock (kfs k) ip = Ok (kfs k) ∧ iunlock (kfs k) ip = kfs k ∧
  inodep (kfs k) ip = node sb dev d (i_inum (inodep (kfs k) ip)) (i_ref (inodep (kfs k) ip)) ∧
  linked d (i_inum (inodep (kfs k) ip)).
Proof.
  intros Hs Hin ip. destruct (se_open _ _ _ Hs f Hin) as (_ & [_ _ F3 F4 _ _]). pose proof (fine_used k p d f Hs Hin) as Hu.
  fold ip in F3, F4, Hu. split; [apply ilock_valid; [lia | done]|]. split; [apply iunlock_live; lia|].
  apply (slot_node sb dev (kfs k) d ip); [apply Hs | done..].
Qed.

Lemma stores_alive k p um l d a (fields : list (Z * list Z)) :
  alive k p um l d → 0 ≤ a → a + 20 ≤ p_sz (procp k p) →
  Forall (λ '(o, bs), 0 ≤ o ∧ o + Z.of_nat (length bs) ≤ 20) fields →
  ∃ k', store_fields k a fields = Ok k' ∧ alive k' p um l d.
Proof.
  intros Ha H0' Hend Hf. revert k Ha Hend. induction Hf as [|[o bs] fields (Ho & Hl) _ IH]; intros k Ha Hend; [by exists k|].
  cbn [store_fields]. pose proof (up_sz _ _ _ _ (al_user _ _ _ _ _ Ha)) as Hsz. unfold KERNBASE in Hsz.
  rewrite u32_small by lia. destruct (alive_stored k p um l d (a + o) bs Ha) as (st' & -> & Ha'); [lia | lia |].
  cbn [rbind]. by apply IH.
Qed.

Lemma sys_fstat_alive k p um l d : alive k p um l d → returns p um l d (sys_fstat k).
Proof.
  intros Ha. pose proof Ha as [Hu Hk Hs]. unfold sys_fstat.
  destruct (argfd_cases k p um l d 0 Hu Hs) as ([[fd f]|] & -> & Ho); cbn [rbind]; [|by apply returns_here].
  destruct Ho as (_ & Hin). destruct (argptr_spec k p um l Hu 1 20 ltac:(lia)) as (o & _ & Hv & ->). cbn [rbind].
  destruct o as [a|]; [|by apply returns_here]. specialize (Hv a eq_refl). case_decide as Hd; [|by apply returns_here].
  destruct (fine_locked k p d f Hs Hin) as (El & Eu & _). destruct (se_open _ _ _ Hs f Hin) as (_ & [_ F2 _ _ _ _]).
  unfold filestat. rewrite decide_True by done. change (y_fs (k_io k)) with (kfs k). rewrite El. cbn [rbind].
  rewrite Eu. assert (set_io k (set_fs (k_io k) (kfs k)) = k) as -> by (destruct k as [[]]; done).
  destruct (stores_alive k p um l d a (stat_stores (stati (kfs k) (f_ip (filep (k_io k) f))))) as (k' & -> & Ha');
    [done | lia | lia | |].
  - repeat (apply Forall_cons; split; [rewrite length_le_bytes; lia|]). apply Forall_nil. done.
  - cbn [rbind]. by eexists _, _.
Qed.

(** * read *)

Lemma rw_args_cases k p um l d :
  user_proc k p um l → settled k p d → ∃ o, rw_args k = Ok o ∧
    match o with
    | Some (f, a, n) => f ∈ open_files k p ∧ 0 ≤ a ∧ 0 ≤ n < 2 ^ 31 ∧ a + n ≤ p_sz (procp k p)
    | None => True
    end.
Proof.
  intros Hu Hs. unfold rw_args.
  destruct (argfd_cases k p um l d 0 Hu Hs) as ([[fd f]|] & -> & Ho); cbn [rbind]; [|by exists None].
  destruct (argint_total k p um l Hu 2) as ([v|] & -> & _); cbn [rbind]; [|by exists None].
  pose proof (s32_range v) as Hv. destruct (argptr_spec k p um l Hu 1 (s32 v) ltac:(lia)) as (o & _ & Hr & ->). cbn [rbind].
  destruct o as [a|]; [|by exists None]. specialize (Hr a eq_refl). case_decide as Hd; [|by exists None].
  eexists. split; [done|]. split; [apply Ho | lia].
Qed.

(** An open file that is no device can be read and written. *)
Lemma fine_open k p d f :
  settled k p d → f ∈ open_files k p → i_type (inodep (kfs k) (f_ip (filep (k_io k) f))) ≠ T_DEV →
  open_ok sb dev (k_io k) d f.
Proof.
  intros Hs Hin Ht. destruct (fine_locked k p d f Hs Hin) as (_ & _ & En & Hl).
  destruct (se_open _ _ _ Hs f Hin) as (Hlt & [F1 F2 F3 F4 F5 F6]). pose proof (fine_used k p d f Hs Hin) as Hu.
  pose proof (se_sound _ _ _ Hs) as Hso. set (ip := f_ip (filep (k_io k) f)) in *.
  split; try done; change (y_fs (k_io k)) with (kfs k); fold ip.
  - apply Hso.
  - lia.
  - rewrite En. apply node_wf; [apply Hso | done].
  - rewrite En. exact (tr_full _ _ _ (so_tree _ _ _ _ Hso) _ Hl).
  - rewrite En. apply node_meta.
  - by apply F5.
Qed.

(** The offset of an open file moves. *)
Lemma settled_offset k p d f o y' :
  let x := filep (k_io k) f in
  settled k p d → f ∈ open_files k p → fsi sb dev (y_fs y') d → icache (y_fs y') = icache (kfs k) →
  length (ftable y') = length (ftable (k_io k)) → filep y' f = fset_off x o →
  (i_type (inodep (kfs k) (f_ip x)) ≠ T_DEV → 0 ≤ o ≤ i_size (inodep (kfs k) (f_ip x))) →
  (∀ g, g ≠ f → filep y' g = filep (k_io k) g) → settled (set_io k y') p d.
Proof.
  intros x Hs Hin Hf Hic Hlen Ex Ho Hg. set (k' := set_io k y').
  assert (∀ g, f_ip (filep y' g) = f_ip (filep (k_io k) g)) as Eip.
  { intros g. destruct (decide (g = f)) as [->|Hne]; [by rewrite Ex | by rewrite Hg]. }
  assert (slots k' p = slots k p) as Esl.
  { unfold slots. f_equal. apply list_fmap_ext. intros i g _. apply Eip. }
  assert (∀ j, inodep (y_fs y') j = inodep (kfs k) j) as Ei by (intros j; unfold inodep; by rewrite Hic).
  split; try apply Hs; change (kfs k') with (y_fs y'); change (k_io k') with y'; rewrite ?Hic, ?Hlen.
  - destruct (se_sound _ _ _ Hs) as [_ T Y]. split; [done | done | by rewrite Hic].
  - apply Hs.
  - intros g Hgi. destruct (se_open _ _ _ Hs g Hgi) as (Hlt & [F1 F2 F3 F4 F5 F6]). split; [done|].
    destruct (decide (g = f)) as [->|Hne]; [rewrite Ex | rewrite Hg by done];
      (split; change (kfs k') with (y_fs y'); rewrite ?Hic, ?Ei; try done).
  - intros g Hlt Hn. assert (g ≠ f) as Hne by (by intros ->). rewrite Hg by done. by apply Hs.
  - intros j Hj. rewrite Esl, Ei. by apply Hs.
Qed.

Lemma fileread_alive k p um l d f a n :
  alive k p um l d → f ∈ open_files k p → 0 ≤ a → 0 ≤ n < 2 ^ 31 → a + n ≤ p_sz (procp k p) →
  ∃ y' r bs, fileread (k_io k) f n = Ok (y', r, bs) ∧ alive (set_io k y') p um l d ∧ Z.of_nat (length bs) ≤ n.
Proof.
  intros Ha Hin Ha0 Hn Hend. pose proof Ha as [Hu Hk Hs].
  destruct (fine_locked k p d f Hs Hin) as (El & Eu & En & Hl). set (x := filep (k_io k) f) in *.
  destruct (se_open _ _ _ Hs f Hin) as (Hlt & Hfine). fold x in Hfine. pose proof Hfine as [F1 F2 F3 F4 F5 F6].
  assert (set_io k (k_io k) = k) as Ek by (by destruct k).
  assert (set_fs (k_io k) (kfs k) = k_io k) as Es by (unfold kfs; by destruct (k_io k)).
  destruct (decide (f_readable x = 0)) as [Er|Nr].
  { exists (k_io k), (-1), []. unfold fileread. fold x. rewrite Er, Ek. split; [done|]. split; [done | cbn; lia]. }
  destruct (decide (i_type (inodep (kfs k) (f_ip x)) = T_DEV)) as [Ed|Nd].
  { exists (k_io k), (-1), []. unfold fileread. fold x. rewrite (proj2 (Z.eqb_neq _ _) Nr), decide_True by done.
    change (y_fs (k_io k)) with (kfs k). rewrite El. cbn [rbind]. unfold readi. rewrite Ed. change (T_DEV =? T_DEV) with true.
    cbv iota. rewrite Ek. split; [|split; [done | cbn; lia]].
    destruct (dev_entry _ _) as [[[[]|] o]|]; cbn [rbind Z.ltb Z.compare]; rewrite !Es; change (y_fs (k_io k)) with (kfs k); by rewrite Eu, Es. }
  pose proof (fine_open k p d f Hs Hin Nd) as Hop. fold x in Hop.
  destruct (fileread_spec sb Hsb dev Hdev (k_io k) d f n Hop Nr Hn) as (y' & E & Hrep & Hic & Ex & Hg & Hft & Hsbe).
  fold x in E, Ex. set (m := Z.min n _) in *. eexists y', m, _. split; [exact E|].
  pose proof (oo_off _ _ _ _ _ Hop) as Hoff. fold x in Hoff. split.
  2: { rewrite length_file_bytes. unfold m. lia. }
  apply (alive_stays k p um l d); try done. apply (settled_offset k p d f (f_off x + m)); try done.
  - destruct (so_fsi _ _ _ _ (se_sound _ _ _ Hs)) as [G1 G2 G3 G4]. split; [rewrite Hsbe; exact G1 | done | done | done].
  - fold x. intros _. change (inodep (kfs k) (f_ip x)) with (inodep (y_fs (k_io k)) (f_ip x)). unfold m. lia.
Qed.

Lemma sys_read_alive k p um l d : alive k p um l d → returns p um l d (sys_read k).
Proof.
  intros Ha. pose proof Ha as [Hu Hk Hs]. unfold sys_read.
  destruct (rw_args_cases k p um l d Hu Hs) as ([[[f a] n]|] & -> & Ho); cbn [rbind]; [|by apply returns_here].
  destruct Ho as (Hin & Ha0 & Hn & Hend).
  destruct (fileread_alive k p um l d f a n Ha Hin Ha0 Hn Hend) as (y' & r & bs & -> & Ha' & Hl). cbn [rbind].
  destruct (alive_stored (set_io k y') p um l d a bs Ha' Ha0) as (st' & -> & Ha2);
    [change (procp (set_io k y') p) with (procp k p); lia|].
  cbn [rbind]. by eexists _, _.
Qed.

(** * write *)

(** The files still hold bytes after bytes were written to one. *)
Lemma bytes_written (fs fs' : fsys S) d d' ip off src :
  let x := inodep fs ip in let x' := inodep fs' ip in
  sound fs d → (ip < length (icache fs))%nat → 0 < i_ref x → i_valid x ≠ 0 → is_dir sb dev d (i_inum x) = false →
  written sb dev fs d ip fs' d' → files_bytes sb dev d → 0 ≤ off ≤ i_size x → Forall (λ b, 0 ≤ b < 256) src →
  wrote dev d x d' x' off src → i_size x' = Z.max (i_size x) (off + Z.of_nat (length src)) →
  files_bytes sb dev d'.
Proof.
  intros x x' Hs Hip Hr Hv Hnd Hw Hb Hoff Hsrc Hwr Hsz.
  destruct (written_changed sb dev fs d ip fs' d' Hs Hip Hr Hv Hnd Hw) as (Hc & Ex' & _ & _).
  destruct (slot_node sb dev fs d ip Hs Hip Hr Hv) as (Ex & Hl). fold x in Hc, Ex', Ex, Hl. fold x' in Ex'.
  pose proof (so_tree _ _ _ _ Hs) as Ht. intros j q Hj Hq.
  assert (q < NBLK * BSIZE) as Hqm.
  { pose proof (fw_size _ _ _ _ (tr_wf _ _ _ (changed_tree sb dev d _ d' Hc Ht) j Hj)) as Hm. cbn [i_size node] in Hm.
    change (NBLK * BSIZE) with (MAXFILE * BSIZE). lia. }
  destruct (changed_cases sb dev d (i_inum x) d' j Hj) as [->|[(Hne & Hlj)|Hn]].
  - assert (node sb dev d' (i_inum x) 0 = set_ref x' 0) as -> by (by rewrite Ex').
    assert (di_size (disk_inode sb dev d' (i_inum x)) = i_size x') as Esz by (by rewrite Ex'). rewrite Esz, Hsz in Hq.
    change (file_byte dev d' (set_ref x' 0) q) with (file_byte dev d' x' q). rewrite Hwr by lia. case_decide as Hd.
    + unfold zget. destruct (lookup_lt_is_Some_2 src (Z.to_nat (q - off))) as (b & Eb); [lia|].
      rewrite (list_lookup_total_correct _ _ _ Eb). exact (Forall_lookup_1 _ _ _ _ Hsrc Eb).
    + assert (file_byte dev d x q = file_byte dev d (node sb dev d (i_inum x) 0) q) as -> by (by rewrite Ex at 1).
      apply Hb; [done|]. assert (di_size (disk_inode sb dev d (i_inum x)) = i_size x) as -> by (by rewrite Ex). lia.
  - destruct (changed_other sb dev d (i_inum x) d' Hc Ht j Hlj Hne) as (_ & En & _ & Hap). rewrite En.
    rewrite (apart_byte sb dev d (node sb dev d (i_inum x) 0) d' (node sb dev d' (i_inum x) 0));
      [|apply Hc | by apply Ht | done | lia].
    apply Hb; [done|]. by rewrite <- (ch_same _ _ _ _ _ Hc j Hlj Hne).
  - destruct (ch_new _ _ _ _ _ Hc j Hj Hn) as (_ & E & _). lia.
Qed.

(** A plain file is written, and its offset moves. *)
Lemma settled_written k p d f d' y' o :
  let x := filep (k_io k) f in
  settled k p d → f ∈ open_files k p → i_type (inodep (kfs k) (f_ip x)) ≠ T_DIR →
  written sb dev (kfs k) d (f_ip x) (y_fs y') d' → files_bytes sb dev d' →
  i_size (inodep (kfs k) (f_ip x)) ≤ i_size (inodep (y_fs y') (f_ip x)) →
  length (ftable y') = length (ftable (k_io k)) → filep y' f = fset_off x o →
  (i_type (inodep (kfs k) (f_ip x)) ≠ T_DEV → 0 ≤ o ≤ i_size (inodep (y_fs y') (f_ip x))) →
  (∀ g, g ≠ f → filep y' g = filep (k_io k) g) → settled (set_io k y') p d'.
Proof.
  intros x Hs Hin Hnd Hw Hb Hsz Hlen Ex Ho Hg. set (k' := set_io k y').
  destruct (se_open _ _ _ Hs f Hin) as (_ & [_ _ F3 F4 _ _]). pose proof (fine_used k p d f Hs Hin) as Hu.
  destruct (fine_locked k p d f Hs Hin) as (_ & _ & En & Hl). fold x in F3, F4, Hu, En, Hl. set (ip := f_ip x) in *.
  assert (is_dir sb dev d (i_inum (inodep (kfs k) ip)) = false) as Hdir.
  { unfold is_dir. apply Z.eqb_neq. rewrite En in Hnd. exact Hnd. }
  destruct (written_changed sb dev (kfs k) d ip (y_fs y') d' (se_sound _ _ _ Hs) F3 Hu F4 Hdir Hw) as (Hc & _ & _ & Hs').
  assert (∀ j, j ≠ ip → inodep (y_fs y') j = inodep (kfs k) j) as Hother.
  { intros j Hj. unfold inodep at 1. rewrite (wn_cache _ _ _ _ _ _ _ Hw). by rewrite list_lookup_total_insert_ne. }
  pose proof (wn_fields _ _ _ _ _ _ _ Hw) as Ew.
  assert (∀ j, i_ref (inodep (y_fs y') j) = i_ref (inodep (kfs k) j) ∧ i_valid (inodep (y_fs y') j) = i_valid (inodep (kfs k) j) ∧
    i_type (inodep (y_fs y') j) = i_type (inodep (kfs k) j) ∧ i_size (inodep (kfs k) j) ≤ i_size (inodep (y_fs y') j)) as Hkeep.
  { intros j. destruct (decide (j = ip)) as [->|Hne]; [|by rewrite Hother]. split; [by rewrite Ew|].
    split; [by rewrite Ew|]. split; [by rewrite Ew | done]. }
  assert (∀ g, f_ip (filep y' g) = f_ip (filep (k_io k) g)) as Eip.
  { intros g. destruct (decide (g = f)) as [->|Hne]; [by rewrite Ex | by rewrite Hg]. }
  assert (slots k' p = slots k p) as Esl by (unfold slots; f_equal; apply list_fmap_ext; intros i g _; apply Eip).
  assert (length (icache (y_fs y')) = length (icache (kfs k))) as Hlc
    by (rewrite (wn_cache _ _ _ _ _ _ _ Hw); apply length_insert).
  split; try apply Hs; change (kfs k') with (y_fs y'); change (k_io k') with y'; rewrite ?Hlc, ?Hlen.
  - exact Hs'.
  - exact Hb.
  - split; [apply Hs|]. by apply (changed_linked sb dev d _ d' Hc), Hs.
  - apply Hs.
  - intros g Hgi. destruct (se_open _ _ _ Hs g Hgi) as (Hlt & [G1 G2 G3 G4 G5 G6]). split; [done|].
    destruct (Hkeep (f_ip (filep (k_io k) g))) as (_ & K2 & K3 & K4).
    set (jp := f_ip (filep (k_io k) g)) in *.
    assert (i_valid (inodep (y_fs y') jp) ≠ 0) as V by (by rewrite K2).
    assert (f_writable (filep (k_io k) g) ≠ 0 → i_type (inodep (y_fs y') jp) ≠ T_DIR) as D by (by rewrite K3).
    assert (jp < length (icache (y_fs y')))%nat as L by (by rewrite Hlc).
    destruct (decide (g = f)) as [->|Hne]; [rewrite Ex | rewrite Hg by done].
    + split; [exact G1 | exact G2 | exact L | exact V | | exact D].
      change (i_type (inodep (y_fs y') jp) ≠ T_DEV → 0 ≤ o ≤ i_size (inodep (y_fs y') jp)). rewrite K3. exact Ho.
    + split; [exact G1 | exact G2 | exact L | exact V | | exact D].
      change (i_type (inodep (y_fs y') jp) ≠ T_DEV → 0 ≤ f_off (filep (k_io k) g) ≤ i_size (inodep (y_fs y') jp)).
      rewrite K3. intros Hd. specialize (G5 Hd). lia.
  - intros g Hlt Hn. assert (g ≠ f) as Hne by (by intros ->). rewrite Hg by done. by apply Hs.
  - intros j Hj. destruct (Hkeep j) as (-> & _). rewrite Esl. by apply Hs.
Qed.

(** A device: the characters go to the screen, chunk by chunk, or the first
    chunk is refused; only the offset of the file moves. *)
Definition put_some y f y' : Prop :=
  ∃ cs o, y_fs y' = fputs (y_fs y) cs ∧ length (ftable y') = length (ftable y) ∧
    filep y' f = fset_off (filep y f) o ∧ ∀ g, g ≠ f → filep y' g = filep y g.

Lemma put_refl y f : put_some y f y.
Proof.
  exists [], (f_off (filep y f)). split; [|split; [done|]; split; [by destruct (filep y f) | done]].
  destruct (y_fs y). unfold fputs. cbn. by rewrite app_nil_r.
Qed.

Lemma filewrite_device y f src :
  let ip := f_ip (filep y f) in
  let n := Z.of_nat (length src) in
  (f < length (ftable y))%nat → f_type (filep y f) = FD_INODE → i_type (inodep (y_fs y) ip) = T_DEV →
  1 ≤ i_ref (inodep (y_fs y) ip) → i_valid (inodep (y_fs y) ip) ≠ 0 → n < 2 ^ 31 →
  ∃ y' r, filewrite y f src n = Ok (y', r) ∧ put_some y f y'.
Proof.
  intros ip n Hf Ht Hd Hr Hv Hn. unfold filewrite.
  destruct (f_writable (filep y f) =? 0); [exists y, (-1); split; [done | apply put_refl]|]. rewrite decide_True by done.
  destruct (while_spec (λ '(y', i), put_some y f y' ∧ 0 ≤ i ≤ n) (λ '(_, i), n - i) (λ '(y', _), put_some y f y')
    (2 ^ 31) (filewrite_step f src n) (y, 0)) as ([y' i] & E & Hq).
  - intros [y' i] (_ & Hi). lia.
  - intros [y1 i] ((cs & o & Ey & El & Ex & Hg) & Hi). unfold filewrite_step.
    change (cquot (MAXOPBLOCKS - 1 - 1 - 2) 2 * 512) with 1536. rewrite Ex. cbn [f_ip fset_off]. fold ip.
    destruct (Z.ltb_spec i n) as [Hlt|Hge].
    2: { right. eexists; split; [reflexivity|]. by exists cs, o. }
    set (n1 := if 1536 <? n - i then 1536 else n - i).
    assert (0 < n1 ≤ n - i) as Hn1 by (unfold n1; destruct (Z.ltb_spec 1536 (n - i)); lia).
    assert (∀ fs0, icache fs0 = icache (y_fs y) → ilock fs0 ip = Ok fs0 ∧ iunlock fs0 ip = fs0) as Hlk.
    { intros fs0 E0. assert (inodep fs0 ip = inodep (y_fs y) ip) as Ei by (unfold inodep; by rewrite E0).
      split; [apply ilock_valid; by rewrite Ei | apply iunlock_live; by rewrite Ei]. }
    assert (icache (y_fs y1) = icache (y_fs y)) as Eic by (by rewrite Ey).
    rewrite (proj1 (Hlk _ Eic)). cbn [rbind]. rewrite (u32_small n1) by lia.
    unfold writei. assert (inodep (y_fs y1) ip = inodep (y_fs y) ip) as Ei by (unfold inodep; by rewrite Eic).
    rewrite Ei, Hd. change (T_DEV =? T_DEV) with true. cbv iota.
    assert (put_some y f y1) as Hp1 by (by exists cs, o).
    assert (set_fs y1 (y_fs y1) = y1) as Eself by (by destruct y1).
    destruct (dev_entry _ _) as [[rd [[]|]]|]; cbn [rbind Z.ltb Z.compare].
    2,3: right; rewrite Eself, (proj2 (Hlk _ Eic)), Eself; by eexists.
    unfold dev_write. rewrite (proj2 (Hlk _ Eic)). set (bs := take _ (take _ _)). set (fs2 := fputs (y_fs y1) bs).
    assert (icache fs2 = icache (y_fs y)) as Eic2 by exact Eic. rewrite (proj1 (Hlk _ Eic2)). cbn [rbind].
    rewrite s32_small by lia. rewrite (proj2 (Z.ltb_lt 0 n1)), (proj2 (Z.ltb_ge n1 0)), Z.eqb_refl by lia.
    left. set (y2 := upd_file (set_fs y1 fs2) f _). change (y_fs y2) with fs2. rewrite (proj2 (Hlk _ Eic2)).
    eexists; split; [reflexivity|]. cbn beta iota. rewrite s32_small by lia. split; [split; [|lia] | lia].
    assert (f < length (ftable (set_fs y1 fs2)))%nat as Hf1 by (cbn; by rewrite El).
    exists (cs ++ bs). eexists. split; [|split; [|split]].
    + change (y_fs (set_fs y2 fs2)) with (fputs (y_fs y1) bs). rewrite Ey. unfold fputs. cbn. by rewrite app_assoc.
    + cbn. rewrite length_alter. exact El.
    + change (filep (set_fs y2 fs2) f) with (filep y2 f). unfold y2. rewrite filep_upd by done.
      change (filep (set_fs y1 fs2) f) with (filep y1 f). rewrite Ex. reflexivity.
    + intros g Hne. change (filep (set_fs y2 fs2) g) with (filep y2 g). unfold y2. rewrite filep_upd_ne by done.
      change (filep (set_fs y1 fs2) g) with (filep y1 g). by apply Hg.
  - split; [apply put_refl | lia].
  - lia.
  - rewrite E. cbn [rbind]. by eexists _, _.
Qed.

(** What writing needs of the disk: free blocks for the largest file. *)
Definition write_room d : Prop := has_free sb dev d 189.

Lemma filewrite_alive k p um l d f src :
  alive k p um l d → f ∈ open_files k p → Z.of_nat (length src) < 2 ^ 31 → Forall (λ b, 0 ≤ b < 256) src → write_room d →
  ∃ y' r d', filewrite (k_io k) f src (Z.of_nat (length src)) = Ok (y', r) ∧ alive (set_io k y') p um l d'.
Proof.
  intros Ha Hin Hn Hsrc Hroom. pose proof Ha as [Hu Hk Hs]. set (x := filep (k_io k) f).
  destruct (fine_locked k p d f Hs Hin) as (El & Eu & En & Hl). pose proof (fine_used k p d f Hs Hin) as Hused.
  destruct (se_open _ _ _ Hs f Hin) as (Hlt & [F1 F2 F3 F4 F5 F6]). fold x in El, Eu, En, Hl, Hused, F1, F2, F3, F4, F5, F6.
  destruct (decide (f_writable x = 0)) as [Ew|Nw].
  { exists (k_io k), (-1), d. unfold filewrite. fold x. rewrite Ew. split; [done|]. by assert (set_io k (k_io k) = k) as -> by (by destruct k). }
  destruct (decide (i_type (inodep (kfs k) (f_ip x)) = T_DEV)) as [Ed|Nd].
  { destruct (filewrite_device (k_io k) f src Hlt F2 Ed ltac:(change (1 ≤ i_ref (inodep (kfs k) (f_ip x))); lia) F4 Hn)
      as (y' & r & E & cs & o & Ey & Elen & Ex & Hg).
    exists y', r, d. split; [exact E|]. apply (alive_stays k p um l d); try done.
    apply (settled_offset k p d f o); try done; rewrite ?Ey; try done.
    destruct (so_fsi _ _ _ _ (se_sound _ _ _ Hs)) as [G1 G2 G3 G4]. by split. }
  pose proof (fine_open k p d f Hs Hin Nd) as Hop. fold x in Hop. pose proof (oo_off _ _ _ _ _ Hop) as Hoff. fold x in Hoff.
  set (n := Z.of_nat (length src)) in *. set (m := stored (f_off x) n).
  pose proof (fw_size _ _ _ _ (oo_wf _ _ _ _ _ Hop)) as Hmax. fold x in Hmax.
  change (MAXFILE * BSIZE) with 71680 in Hmax. change (y_fs (k_io k)) with (kfs k) in Hoff, Hmax.
  destruct (filewrite_all sb Hsb dev Hdev (k_io k) d f src Hop Nw Hn) as (y' & d' & E & _ & Hm & Ex & Elen & Hg & Esz & Hw & Hwr).
  { apply has_free_le with 189%nat; [done|]. fold x n m. unfold nchunks, ind_need.
    assert (0 ≤ m ≤ 71680) as Hm by (unfold m, stored; change (MAXFILE * BSIZE) with 71680; case_decide; zlia).
    assert ((m + 1535) / 1536 ≤ 47) by zlia. case_decide; lia. }
  fold x n m in E, Hm, Ex, Esz, Hw, Hwr. change (y_fs (k_io k)) with (kfs k) in Esz, Hw, Hwr.
  eexists y', _, d'. split; [exact E|]. apply (alive_stays k p um l d); try done.
  assert (Z.of_nat (length (take (Z.to_nat m) src)) = m) as Elm by (rewrite length_take; lia).
  assert (i_type (inodep (kfs k) (f_ip x)) ≠ T_DIR) as Hnd by (by apply F6).
  apply (settled_written k p d f d' y' (f_off x + m)); try done; fold x.
  - apply (bytes_written (kfs k) (y_fs y') d d' (f_ip x) (f_off x) (take (Z.to_nat m) src)); try done.
    + apply Hs.
    + unfold is_dir. apply Z.eqb_neq. rewrite En in Hnd. exact Hnd.
    + apply Hs.
    + by apply Forall_take.
    + by rewrite Elm.
  - lia.
  - intros _. lia.
Qed.

Lemma sys_write_alive k p um l d :
  alive k p um l d → write_room d → ∃ d', returns p um l d' (sys_write k).
Proof.
  intros Ha Hroom. pose proof Ha as [Hu Hk Hs]. unfold sys_write.
  destruct (rw_args_cases k p um l d Hu Hs) as ([[[f a] n]|] & -> & Ho); cbn [rbind]; [|exists d; by apply returns_here].
  destruct Ho as (Hin & Ha0 & Hn & Hend). unfold user_bytes. rewrite (cur_proc_user k p um l Hu). cbn [rbind].
  destruct (user_uld_bytes k p um l Hu (Z.to_nat n) a) as (src & -> & Hl & Hb & _); [lia|lia|]. cbn [rbind].
  assert (Z.of_nat (length src) = n) as Hln by lia.
  destruct (filewrite_alive k p um l d f src Ha Hin ltac:(lia) Hb Hroom) as (y' & r & d' & E & Ha').
  rewrite Hln in E. rewrite E. cbn [rbind fst snd]. exists d'. by eexists _, _.
Qed.

(** * open and mknod *)

Lemma opened_alive k p um l d d' om o c :
  alive k p um l d → grows sb dev d d' → files_bytes sb dev d' → opened sb dev k d' p om o c →
  (∀ n, o = Some n → wr_of om ≠ 0 → is_dir sb dev d' n = false) → returns p um l d' c.
Proof.
  intros Ha Hgr Hby Ho Hdir. pose proof Ha as [Hu Hk Hs]. unfold opened in Ho.
  assert ((∃ fs', as_before sb dev k d' fs' ∧ c = Ok (set_kfs k fs', -1)) → returns p um l d' c) as Hno.
  { intros (fs' & Hb & ->). eexists _, _. split; [done|]. apply (alive_stays k p um l d); try done.
    by apply (settled_grown k p d d'). }
  destruct o as [n|]; [|by apply Hno]. destruct (free_fd (p_ofile (procp k p)) 0) as [fd|] eqn:Efd; [|by apply Hno].
  destruct (free_file (ftable (k_io k)) 0) as [f|] eqn:Ef; [|by apply Hno].
  destruct Ho as (fs' & ip & Ht & Hc). cbv zeta in Hc. rewrite Hc. eexists _, _. split; [done|].
  pose proof (settled_opened k p d d' n fd f fs' ip (rd_of om) (wr_of om) Hs Hgr Hby Efd Ef Ht (Hdir n eq_refl)) as Hs'.
  set (k' := set_io _ _) in *. assert (procp k' p = pset_ofile (procp k p) fd (Some f)) as Ep
    by exact (procp_upd k p _ (se_proc _ _ _ Hs)).
  apply (alive_vm k p um l d d'); try done; by rewrite Ep.
Qed.

(** A path argument of a settled process can be walked. *)
Lemma sys_open_alive k p um l d junk :
  alive k p um l d → create_room sb dev d → sb_ninodes sb ≤ 2 ^ 16 → length junk = DIRSIZ →
  ∃ d', returns p um l d' (sys_open k junk).
Proof.
  intros Ha Hcr Hmax Hj. pose proof Ha as [Hu Hk Hs].
  destruct (argstr_cases k p um l 0 Hu) as ([a|] & Ea & Hc).
  2: { exists d. unfold sys_open. rewrite Ea. by apply returns_here. }
  destruct Hc as (Ha0 & path & Hus). destruct (argint_total k p um l Hu 1) as ([om|] & Eom & _).
  2: { exists d. unfold sys_open. rewrite Ea. cbn [rbind]. rewrite Eom. by apply returns_here. }
  destruct (settled_begins k p um l d path a Hu Hs Hus) as (cwd & Hb). pose proof (settled_roomy k p d Hs) as Hroom.
  pose proof (settled_clean k p d Hs) as Hcl. pose proof (se_sound _ _ _ Hs) as Hso. pose proof (se_bytes _ _ _ Hs) as Hby.
  set (s := start (kfs k) cwd path).
  destruct (creates sb dev d om s (elems path)) eqn:Ec.
  - pose proof (create_total sb Hsb dev Hdev k d path cwd junk T_FILE 0 0 Hso Hroom Hb Hj (string_bytes k p um l a path Hu Hus) Hby Hcr Hmax) as Ht.
    specialize (Ht ltac:(split; done) ltac:(done) ltac:(done) ltac:(split; done) ltac:(split; done)).
    unfold create_outcome in Ht. fold s in Ht. unfold creates in Ec. apply andb_true_iff in Ec as (Hoc & Hc).
    destruct (resolve_parent sb dev d s (elems path)) as [dn|]; [|discriminate].
    destruct (resolve sb dev d s (elems path)) as [n|]; [discriminate|].
    destruct Ht as (fs' & ip & n & d' & e & E & Hlast & Hsp & Hres & Htk & Hby'). exists d'.
    apply (opened_alive k p um l d d' om (Some n)); [done | by eapply sprouted_grows | done | |].
    + unfold sys_open. rewrite Ea. cbn [rbind]. rewrite Eom. cbn [rbind]. rewrite (user_str_string k p um l Hu a path Hus). cbn [rbind].
      rewrite Hoc, E. cbn [rbind fst snd]. apply open_taken; [exact (up_cur _ _ _ _ Hu) | done..].
    + intros m [= <-] _. unfold is_dir. destruct Hsp as [_ _ -> _ _ _ _]. done.
  - exists d. pose proof (open_found sb Hsb dev Hdev k p um l a om path d cwd junk Hu Ha0 Eom Hus Hso Hroom Hb Hj Hcl Ec) as Ho.
    apply (opened_alive k p um l d d om _ _ Ha (grows_refl sb dev d) Hby Ho). fold s.
    intros n Hn Hw. unfold opens in Hn. destruct (resolve sb dev d s (elems path)) as [m|]; [|discriminate].
    destruct (negb (Z.land om O_CREATE =? 0)).
    + destruct (di_type (disk_inode sb dev d m) =? T_FILE) eqn:Et; [|discriminate].
      destruct (negb _); [|discriminate]. injection Hn as <-. unfold is_dir. apply Z.eqb_eq in Et. by rewrite Et.
    + destruct (is_dir sb dev d m) eqn:Ed; [|by injection Hn as <-]. cbn [andb] in Hn.
      destruct (Z.eqb_spec om O_RDONLY) as [->|]; [|discriminate]. by destruct Hw.
Qed.

Lemma sys_mknod_alive k p um l d junk :
  alive k p um l d → create_room sb dev d → sb_ninodes sb ≤ 2 ^ 16 → length junk = DIRSIZ →
  ∃ d', returns p um l d' (sys_mknod k junk).
Proof.
  intros Ha Hcr Hmax Hj. pose proof Ha as [Hu Hk Hs]. unfold sys_mknod.
  destruct (argstr_cases k p um l 0 Hu) as ([a|] & -> & Hc); cbn [rbind]; [|exists d; by apply returns_here].
  destruct Hc as (Ha0 & path & Hus).
  destruct (argint_total k p um l Hu 1) as ([ma|] & -> & _); cbn [rbind]; [|exists d; by apply returns_here].
  destruct (argint_total k p um l Hu 2) as ([mi|] & -> & _); cbn [rbind]; [|exists d; by apply returns_here].
  rewrite (user_str_string k p um l Hu a path Hus). cbn [rbind].
  destruct (settled_begins k p um l d path a Hu Hs Hus) as (cwd & Hb). pose proof (settled_roomy k p d Hs) as Hroom.
  pose proof (se_sound _ _ _ Hs) as Hso. pose proof (se_bytes _ _ _ Hs) as Hby.
  pose proof (create_total sb Hsb dev Hdev k d path cwd junk T_DEV (s16 ma) (s16 mi) Hso Hroom Hb Hj (string_bytes k p um l a path Hu Hus) Hby Hcr Hmax) as Ht.
  specialize (Ht ltac:(split; done) ltac:(done) ltac:(done) (s16_range _) (s16_range _)).
  unfold create_outcome in Ht. change (T_DEV =? T_FILE) with false in Ht. cbn [andb] in Ht.
  assert ((∃ fs', create k path junk T_DEV (s16 ma) (s16 mi) = Ok (set_kfs k fs', None) ∧ as_before sb dev k d fs') →
    ∃ d', returns p um l d' (let* r := create k path junk T_DEV (s16 ma) (s16 mi) in
      match r.2 with
      | None => Ok (r.1, -1)
      | Some ip => let* fs := iunlockput (kfs r.1) ip in Ok (set_kfs r.1 fs, 0)
      end)) as Hno.
  { intros (fs' & -> & Hbf). exists d. eexists _, _. split; [done|]. apply (alive_stays k p um l d); try done.
    by apply (settled_as_before k p d). }
  destruct (resolve_parent _ _ _ _ _) as [dn|]; [|by apply Hno]. destruct (resolve _ _ _ _ _) as [n|]; [by apply Hno|].
  destruct Ht as (fs' & ip & n & d' & e & -> & Hlast & Hsp & Hres & Htk & Hby'). cbn [rbind fst snd].
  change (kfs (set_kfs k fs')) with fs'. destruct (taken_put sb dev k d' fs' ip n Hroom Htk) as (fs2 & -> & Hbf). cbn [rbind].
  exists d'. eexists _, _. split; [done|]. apply (alive_stays k p um l d); try done.
  apply (settled_grown k p d d'); try done. by eapply sprouted_grows.
Qed.

(** * exec *)

Lemma exec_args_total k p um l u i m :
  user_proc k p um l → ∃ o, exec_args k u i m = Ok o ∧ ∀ argv, o = Some argv → Forall byte_list argv.
Proof.
  intros Hp. revert i. induction m as [|m IH]; intros i; cbn [exec_args]; [by exists None|].
  pose proof (getint_spec k p um l Hp (u32 (u + 4 * i)) (u32_range _)) as Hg. case_decide.
  2: { rewrite Hg. by exists None. }
  destruct Hg as (v & -> & Hv). cbn [rbind]. destruct (v =? 0); [exists (Some []); split; [done|]; by intros argv [= <-]|].
  destruct (getstr_cases k p um l v Hp (proj1 Hv)) as ([len|] & -> & Hs); cbn [rbind]; [|by exists None].
  destruct (Hs ltac:(done)) as (s & Hus). rewrite (user_str_string k p um l Hp v s Hus). cbn [rbind].
  destruct (IH (i + 1)) as ([rest|] & -> & Hr); cbn [rbind]; eexists; (split; [reflexivity|]); [|done].
  intros argv [= <-]. constructor; [exact (string_bytes k p um l v s Hp Hus) | by apply Hr].
Qed.

(** The arguments that the program hands to [exec] are shorter than a page. *)
Definition short_args k : Prop := ∀ u argv,
  argint k 1 = Ok (Some u) → exec_args k u 0 5 = Ok (Some argv) → Forall (λ a, Z.of_nat (length a) < 4096) argv.

(** After [exec] the process is settled, in the new program or in the old one. *)
Lemma kept_alive k p um l d k' :
  alive k p um l d → as_before sb dev k d (kfs k') → process_kept k p um l k' → ∃ l', alive k' p um l' d.
Proof.
  intros [Hu [K1 K2 K3 K4 K5] Hs] Hb [Q1 (l' & Hu' & Hl) _ _ Q5]. exists l'.
  assert (procp k' p = procp k p) as Ep by (by rewrite Q1).
  split; [done | split; rewrite ?Ep; try done; by rewrite Hl |].
  apply (settled_as_before k p d); [done | done | by rewrite Q1 | by rewrite Q1 | by rewrite Ep | by rewrite Ep].
Qed.

Lemma replaced_alive data k p um l d path argv entry sz (g : Z → Z) sp k' :
  alive k p um l d → as_before sb dev k d (kfs k') → process_replaced data k p um l path argv entry sz g sp k' →
  ∃ um' l', alive k' p um' l' d.
Proof.
  intros [Hu [K1 K2 K3 K4 K5] Hs] Hb [(um' & l' & Hu' & _ & Hown) Ep _ _ _ (Ef & El)]. exists um', l'.
  assert (¬ owned (k_vm k) (p_pgdir (procp k p)) um l (p_kstack (procp k p))) as Hn.
  { intros [?|[(j & E)|?]]; [done | by apply (K4 j) | done]. }
  assert (p_kstack (procp k' p) = p_kstack (procp k p) ∧ p_tf (procp k' p) = p_tf (procp k p) ∧
    p_ofile (procp k' p) = p_ofile (procp k p) ∧ p_cwd (procp k' p) = p_cwd (procp k p)) as (E1 & E2 & E3 & E4) by (by rewrite Ep).
  split; [done | | by apply (settled_as_before k p d)]. rewrite <- Hown in Hn.
  split; rewrite ?E1, ?E2; try done.
  - intros Hin. apply Hn. by left.
  - intros Hpt. apply Hn. by right; right.
  - intros j E. apply Hn. right; left. by exists j.
Qed.

Lemma alive_kmsg k p um l d msg : alive k p um l d → alive (kmsg k msg) p um l d.
Proof.
  intros [Hu [K1 K2 K3 K4 K5] Hs]. split; [by apply user_proc_kmsg | by split |].
  apply (settled_as_before k p d); try done. exact (as_before_refl k d (se_sound _ _ _ Hs)).
Qed.

Lemma sys_exec_alive k p um l d data ts junk :
  alive k p um l d → data_ok data → short_args k → length junk = DIRSIZ →
  ∃ um' l', returns p um' l' d (sys_exec k data ts junk).
Proof.
  intros Ha Hd Hshort Hj. pose proof Ha as [Hu Hk Hs]. unfold sys_exec.
  destruct (argstr_cases k p um l 0 Hu) as ([a|] & -> & Hc); cbn [rbind]; [|exists um, l; by apply returns_here].
  destruct Hc as (_ & path & Hus).
  destruct (argint_total k p um l Hu 1) as ([u|] & Eu & _); rewrite Eu; cbn [rbind]; [|exists um, l; by apply returns_here].
  destruct (exec_args_total k p um l u 0 5 Hu) as ([argv|] & Ev & Hv); rewrite Ev; cbn [rbind]; [|exists um, l; by apply returns_here].
  rewrite (user_str_string k p um l Hu a path Hus). cbn [rbind].
  destruct (shown_text k p um l u 5 argv Hu Ev) as (t & ->). cbn [rbind].
  set (k4 := kmsg (kmsg (kmsg (kmsg k "exec:%s,%s") "You said:") "test IDE") ">").
  assert (alive k4 p um l d) as Ha4 by (by do 4 apply alive_kmsg). pose proof Ha4 as [Hu4 Hk4 Hs4].
  assert (user_string k4 p um a path) as Hus4 by (destruct Hus as [G1 G2 G3 G4]; by split).
  destruct (settled_begins k4 p um l d path a Hu4 Hs4 Hus4) as (cwd & Hb).
  assert (Forall arg_ok argv) as Hok.
  { specialize (Hv argv eq_refl). specialize (Hshort u argv Eu Ev). rewrite Forall_forall in Hv, Hshort |- *.
    intros x Hx. by split; [apply Hv | apply Hshort]. }
  destruct (exec_path sb Hsb dev Hdev k4 p um l d data ts cwd path junk argv Hu4 (se_proc _ _ _ Hs4) Hk4 Hd Hok
    (se_sound _ _ _ Hs4) (se_bytes _ _ _ Hs4) (settled_roomy k4 p d Hs4) Hb Hj) as (k' & r & E & Hbf & Hres).
  rewrite E. enough (∃ um' l', alive k' p um' l' d) as (um' & l' & Ha') by (exists um', l'; by exists k', r).
  destruct (path_plan _ _ _ _ _ _) as [[[[entry sz] f] sp]|].
  - destruct Hres as [(_ & Hr) | (_ & Hr & _)]; [exact (replaced_alive data k4 p um l d path argv entry sz f sp k' Ha4 Hbf Hr)|].
    exists um. exact (kept_alive k4 p um l d k' Ha4 Hbf Hr).
  - exists um. exact (kept_alive k4 p um l d k' Ha4 Hbf (proj2 Hres)).
Qed.
End inv.
