(* ===== verification/UserRun.v ===== *)
(** kernel/calls.c: a program that runs.  It stores into its memory, the
    processor pushes a trap frame on its kernel stack, and the handler of
    interrupt 64 serves its calls, in any order ([user_step]).  Nothing of that
    stops the kernel or breaks what SysInv.v says of a process at rest. *)
From stdpp Require Import gmultiset relations.
From S2P Require Import Prelude Memory LibC Mmu Kalloc Vm UserMem Uvm UvmProps Kvm Seg Ports Ide Block FsLayout Fs FsDir Bio FsBlocks FsFile FsRw FsProps.
From S2P Require Import FsIcache FsDirProps FsTrunc FsAlloc FsPath FsTree FsSound File Kernel Exec Calls CallProps Create OpenProps CreateTree Load ExecProps SysExec SysInv.

Section run.
Context {S : Type} `{BlockLayer S}.
Context (sb : superblock) (Hsb : sb_wf sb) (dev : Z) (Hdev : 0 ≤ dev < 2) (Hmax : sb_ninodes sb ≤ 2 ^ 16) (p : nat).
Implicit Types (k : kern S) (d : disk).
#[local] Abbreviation alive := (alive sb dev).
#[local] Abbreviation settled := (settled sb dev).

(** The trap frame [r] is on the kernel stack. *)
Definition frame_at k (r : Z) : Prop := p_kstack (procp k p) ≤ r ∧ r + TF_SIZE ≤ p_kstack (procp k p) + PGSIZE.

(** The function that the number in the trap frame selects. *)
Definition call_of k (r : Z) : option syscall_fn :=
  let num := s32 (ld32 (km (k_vm k)) (r + TF_EAX)) in
  if (0 <? num) && (num <? Z.of_nat (length syscalls)) then syscalls !!! Z.to_nat num else None.

Lemma selected k r :
  let num := s32 (ld32 (km (k_vm k)) (r + TF_EAX)) in
  (if (0 <? num) && (num <? Z.of_nat (length syscalls))
   then match syscalls !! Z.to_nat num with Some fn => Ok fn | None => Fault end else Ok None) = Ok (call_of k r).
Proof.
  unfold call_of. set (num := s32 _). cbv zeta. destruct (Z.ltb_spec 0 num), (Z.ltb_spec num (Z.of_nat (length syscalls))); cbn [andb]; try done.
  destruct (lookup_lt_is_Some_2 syscalls (Z.to_nat num)) as (fn & E); [lia|]. by rewrite E, (list_lookup_total_correct _ _ _ E).
Qed.

(** The state in which that function starts. *)
Definition entered k (r : Z) : kern S := kmsg (upd_proc k p (λ x, pset_tf x r)) "recv syscall: %d,%d".

(** What a call needs of the disk and of its arguments: 189 free blocks for a
    write, a free inode, three blocks and a free entry for open and mknod,
    arguments shorter than a page for exec.  [exit] is not one of these calls. *)
Definition served k d (fn : syscall_fn) : Prop :=
  match fn with
  | Sys_write => write_room sb dev d
  | Sys_open | Sys_mknod => create_room sb dev d
  | Sys_exec => short_args k
  | Sys_exit => False
  | Sys_read | Sys_close | Sys_fstat => True
  end.

Lemma run_syscall_alive k um l d data ts junk fn :
  alive k p um l d → data_ok data → length junk = DIRSIZ → served k d fn →
  ∃ um' l' d', returns sb dev p um' l' d' (run_syscall k data ts junk fn).
Proof.
  intros Ha Hd Hj Hs. destruct fn; cbn [run_syscall served] in *; [| done | ..].
  - destruct (sys_exec_alive sb Hsb dev Hdev k p um l d data ts junk Ha Hd Hs Hj) as (um' & l' & Hr). by exists um', l', d.
  - destruct (sys_open_alive sb Hsb dev Hdev k p um l d junk Ha Hs Hmax Hj) as (d' & Hr). by exists um, l, d'.
  - destruct (sys_mknod_alive sb Hsb dev Hdev k p um l d junk Ha Hs Hmax Hj) as (d' & Hr). by exists um, l, d'.
  - destruct (sys_write_alive sb Hsb dev Hdev k p um l d Ha Hs) as (d' & Hr). by exists um, l, d'.
  - exists um, l, d. by apply sys_read_alive.
  - exists um, l, d. by apply sys_close_alive.
  - exists um, l, d. by apply sys_fstat_alive.
Qed.

(** * The kernel stack *)

Lemma alive_page_only k um l d st' :
  alive k p um l d → page_only (p_kstack (procp k p)) (k_vm k) st' → alive (set_vm k st') p um l d.
Proof.
  intros [Hu [K1 K2 K3 K4 K5] Hs] Ho.
  destruct (uvm_page_only _ _ _ _ um l Ho K2 K3 (up_uvm _ _ _ _ Hu)) as (Hu' & _ & Hpt).
  split; [by apply user_proc_set_vm | |].
  - split; [done | done | | done | done]. intros Hq. apply K3. by apply Hpt.
  - exact (settled_as_before sb dev k p d (set_vm k st') Hs (as_before_refl sb dev k d (se_sound _ _ _ _ _ Hs)) eq_refl eq_refl eq_refl eq_refl).
Qed.

Lemma alive_tf_set k um l d off v :
  alive k p um l d → 0 ≤ off → off + 4 ≤ TF_SIZE → alive (tf_set k p off v) p um l d.
Proof.
  intros Ha H1 H2. pose proof (al_stack _ _ _ _ _ _ _ Ha) as [K1 _ _ _ K5]. apply alive_page_only; [done|].
  apply page_only_st32; [done | lia | lia].
Qed.

Lemma alive_frame k um l d r : alive k p um l d → frame_at k r → alive (upd_proc k p (λ x, pset_tf x r)) p um l d.
Proof.
  intros [[U1 U2 U3 U4] [K1 K2 K3 K4 K5] Hs] Hr. set (k1 := upd_proc _ _ _).
  assert (procp k1 p = pset_tf (procp k p) r) as Ep by exact (procp_upd k p _ (se_proc _ _ _ _ _ Hs)).
  split; [split; rewrite ?Ep; done | split; rewrite ?Ep; done |].
  apply (settled_as_before sb dev k p d); [done | exact (as_before_refl sb dev k d (se_sound _ _ _ _ _ Hs)) | done | | by rewrite Ep..].
  apply length_alter.
Qed.

(** The handler of interrupt 64. *)
Lemma syscall_alive k um l d data ts junk r :
  alive k p um l d → frame_at k r → data_ok data → length junk = DIRSIZ →
  (∀ fn, call_of k r = Some fn → served (entered k r) d fn) →
  ∃ k' um' l' d', syscall k data ts junk r = Ok k' ∧ alive k' p um' l' d'.
Proof.
  intros Ha Hr Hd Hj Hs. unfold syscall, cur. rewrite (up_cur _ _ _ _ (al_user _ _ _ _ _ _ _ Ha)). cbn [rbind].
  pose proof (alive_frame k um l d r Ha Hr) as Ha1. fold (entered k r).
  assert (alive (entered k r) p um l d) as Ha2 by (by apply alive_kmsg).
  assert (tf_get (upd_proc k p (λ x, pset_tf x r)) p TF_EAX = ld32 (km (k_vm k)) (r + TF_EAX)) as Eg.
  { unfold tf_get. by rewrite (procp_upd k p _ (se_proc _ _ _ _ _ (al_settled _ _ _ _ _ _ _ Ha))). }
  rewrite Eg. unfold dispatcher. rewrite (selected k r). cbn [rbind].
  destruct (call_of k r) as [fn|] eqn:Ec.
  - destruct (run_syscall_alive (entered k r) um l d data ts junk fn Ha2 Hd Hj (Hs fn eq_refl)) as (um' & l' & d' & k' & v & E & Ha').
    rewrite E. cbn [rbind fst snd]. eexists _, um', l', d'. split; [done|]. by apply alive_tf_set.
  - eexists _, um, l, d. split; [done|]. apply alive_tf_set; [by apply alive_kmsg | done..].
Qed.

(** * Steps *)

Inductive user_step : kern S → kern S → Prop :=
  | step_store k a bs k' :
      0 ≤ a → a + Z.of_nat (length bs) ≤ p_sz (procp k p) → user_store k a bs = Ok k' → user_step k k'
  | step_push k st' : page_only (p_kstack (procp k p)) (k_vm k) st' → user_step k (set_vm k st')
  | step_call k r data ts junk k' :
      frame_at k r → data_ok data → length junk = DIRSIZ →
      (∀ d, sound sb dev (kfs k) d → ∀ fn, call_of k r = Some fn → served (entered k r) d fn) →
      syscall k data ts junk r = Ok k' → user_step k k'.

Lemma user_step_alive k k' um l d :
  user_step k k' → alive k p um l d → ∃ um' l' d', alive k' p um' l' d'.
Proof.
  intros Hst Ha. destruct Hst as [k a bs k' H1 H2 E | k st' Ho | k r data ts junk k' Hr Hd Hj Hs E].
  - destruct (alive_stored sb dev k p um l d a bs Ha H1 H2) as (st' & E' & Ha'). rewrite E' in E. injection E as <-. eauto.
  - exists um, l, d. by apply alive_page_only.
  - destruct (syscall_alive k um l d data ts junk r Ha Hr Hd Hj (Hs d (se_sound _ _ _ _ _ (al_settled _ _ _ _ _ _ _ Ha)))) as (k2 & um' & l' & d' & E' & Ha').
    rewrite E' in E. injection E as <-. eauto.
Qed.

Lemma user_steps_alive k k' um l d :
  rtc user_step k k' → alive k p um l d → ∃ um' l' d', alive k' p um' l' d'.
Proof.
  intros Hrt. revert um l d. induction Hrt as [k | k k1 k' Hst _ IH]; intros um l d Ha; [by exists um, l, d|].
  destruct (user_step_alive k k1 um l d Hst Ha) as (um1 & l1 & d1 & Ha1). by apply (IH um1 l1 d1).
Qed.

(** C1. Whatever a program stores, pushes and calls, in whatever order, the
    process and the file system stay in order ([alive]: its page tables map its
    memory and nothing else, every inode slot is used as often as its count
    says, an open file belongs to one descriptor, the directories form a tree of
    files that do not share blocks, and the cache agrees with the disk), and the
    next call returns: no [panic], no fault and no loop.  Every call, in the run
    and after it, is [served]: it is not [exit], the disk has room for it, and the
    arguments of an [exec] are each shorter than a page.  Longer arguments are
    not covered; one more than 32 MB longer than the new program makes [sp] wrap
    around, and [copyout] then follows a null page table ([Vm.uva2ka_no_table]). *)
Theorem user_runs_safely k um l d k' :
  alive k p um l d → rtc user_step k k' →
  ∃ um' l' d', alive k' p um' l' d' ∧
    ∀ data ts junk r, frame_at k' r → data_ok data → length junk = DIRSIZ →
      (∀ fn, call_of k' r = Some fn → served (entered k' r) d' fn) →
      ∃ k2 um2 l2 d2, syscall k' data ts junk r = Ok k2 ∧ alive k2 p um2 l2 d2.
Proof.
  intros Ha Hrt. destruct (user_steps_alive k k' um l d Hrt Ha) as (um' & l' & d' & Ha'). exists um', l', d'. split; [done|].
  intros data ts junk r. by apply (syscall_alive k' um' l' d').
Qed.

(** * The end of the process *)

Lemma fds_none (l : list (option nat)) : (∀ g, (g < length l)%nat → l !! g = Some None) → omap id l = [].
Proof.
  induction l as [|o l IH]; intros Hn; [done|]. pose proof (Hn 0%nat ltac:(cbn; lia)) as Ho. injection Ho as ->.
  apply IH. intros g Hg. apply (Hn (1 + g)%nat). cbn. lia.
Qed.

Lemma close_all_settled n k d fd :
  settled k p d → (fd + n)%nat = NOFILE → (∀ g, (g < fd)%nat → p_ofile (procp k p) !! g = Some None) →
  ∃ k', close_all k p fd n = Ok k' ∧ settled k' p d ∧ open_files k' p = [].
Proof.
  revert k fd. induction n as [|n IH]; intros k fd Hs Hn Hbef; cbn [close_all].
  { exists k. split; [done|]. split; [done|]. apply fds_none. intros g Hg. apply Hbef.
    rewrite (se_fds _ _ _ _ _ Hs) in Hg. lia. }
  destruct (lookup_lt_is_Some_2 (p_ofile (procp k p)) fd) as (o & Ho); [rewrite (se_fds _ _ _ _ _ Hs); lia|].
  rewrite (list_lookup_total_correct _ _ _ Ho). destruct o as [f|].
  - destruct (settled_closed sb dev k p d fd f Hs Ho) as (y' & -> & Hs'). cbn [rbind].
    apply (IH (upd_proc (set_io k y') p (λ x, pset_ofile x fd None))); [exact Hs' | lia |].
    intros g Hg. rewrite (procp_upd (set_io k y') p _ (se_proc _ _ _ _ _ Hs)). cbn [p_ofile pset_ofile].
    change (procp (set_io k y') p) with (procp k p). destruct (decide (g = fd)) as [->|Hne].
    + apply list_lookup_insert_eq. by eapply lookup_lt_Some.
    + rewrite list_lookup_insert_ne by done. apply Hbef. lia.
  - apply (IH k); [done | lia |]. intros g Hg. destruct (decide (g = fd)) as [->|Hne]; [done | apply Hbef; lia].
Qed.

(** The process table at the end of [exit]. *)
Lemma exit_table k (fs : fsys S) :
  (p < length (ptable k))%nat →
  let k2 := upd_proc (set_kfs k fs) p (λ x, pset_cwd x None) in
  let k' := set_procs k2 ((λ x, if decide (p_parent x = Some p) then pset_parent x (initproc k2) else x) <$> ptable k2) in
  p_ofile (procp k' p) = p_ofile (procp k p) ∧ p_cwd (procp k' p) = None ∧ p_state (procp k' p) = p_state (procp k p) ∧
  ∀ q y, q ≠ p → ptable k !! q = Some y →
    ptable k' !! q = Some (if decide (p_parent y = Some p) then pset_parent y (initproc k) else y).
Proof.
  intros Hp k2 k'. destruct (lookup_lt_is_Some_2 _ _ Hp) as (x & Hx).
  assert (procp k p = x) as Ex by (by apply list_lookup_total_correct).
  assert (∀ q, ptable k' !! q = (λ x, if decide (p_parent x = Some p) then pset_parent x (initproc k) else x) <$>
    alter (λ x, pset_cwd x None) p (ptable k) !! q) as El by (intros q; apply list_lookup_fmap).
  assert (procp k' p = if decide (p_parent (pset_cwd x None) = Some p) then pset_parent (pset_cwd x None) (initproc k) else pset_cwd x None) as Epp.
  { apply list_lookup_total_correct. by rewrite El, list_lookup_alter, decide_True, Hx by done. }
  rewrite Epp, Ex. split; [by case_decide|]. split; [by case_decide|]. split; [by case_decide|].
  intros q y Hq Ey. by rewrite El, list_lookup_alter_ne, Ey by done.
Qed.

(** What the loop of [exit] does to the processes. *)
Lemma close_all_procs n k fd k' :
  close_all k p fd n = Ok k' → (p < length (ptable k))%nat → (fd + n)%nat = length (p_ofile (procp k p)) →
  (∀ q, q ≠ p → ptable k' !! q = ptable k !! q) ∧ length (ptable k') = length (ptable k) ∧
  p_ofile (procp k' p) = take fd (p_ofile (procp k p)) ++ replicate n None ∧
  p_state (procp k' p) = p_state (procp k p) ∧ p_parent (procp k' p) = p_parent (procp k p) ∧ initproc k' = initproc k.
Proof.
  revert k fd. induction n as [|n IH]; intros k fd E Hp Hlen; cbn [close_all] in E.
  { injection E as <-. cbn [replicate]. rewrite app_nil_r, take_ge by lia. done. }
  destruct (lookup_lt_is_Some_2 (p_ofile (procp k p)) fd ltac:(lia)) as (o & Ho).
  rewrite (list_lookup_total_correct _ _ _ Ho) in E.
  assert (take fd (p_ofile (procp k p)) ++ replicate (1 + n) None =
    take (fd + 1) (<[fd := None]> (p_ofile (procp k p))) ++ replicate n None) as Efiles.
  { replace (fd + 1)%nat with (1 + fd)%nat by lia.
    rewrite (take_S_r _ _ None) by (apply list_lookup_insert_eq; lia).
    rewrite take_insert_ge by lia. by rewrite <- app_assoc. }
  destruct o as [f|].
  - apply rbind_inv in E as (y & _ & E). set (k1 := upd_proc (set_io k y) p (λ x, pset_ofile x fd None)) in E.
    assert (procp k1 p = pset_ofile (procp k p) fd None) as E1 by (by apply (procp_upd (set_io k y))).
    destruct (IH k1 (fd + 1)%nat E) as (G1 & G2 & G3 & G4 & G5 & G6);
      [cbn; by rewrite length_alter | rewrite E1; cbn; rewrite length_insert; lia |].
    rewrite E1 in G3, G4, G5. split; [|split; [|split; [|done]]].
    + intros q Hq. rewrite G1 by done. by apply list_lookup_alter_ne.
    + rewrite G2. apply length_alter.
    + rewrite G3. cbn [p_ofile pset_ofile]. by rewrite <- Efiles.
  - destruct (IH k (fd + 1)%nat E) as (G1 & G2 & G3 & G4); [done | lia |]. split; [done|]. split; [done|].
    split; [|done]. rewrite G3. cbn [Nat.add] in Efiles. rewrite Efiles. by rewrite list_insert_id.
Qed.

(** C9. [exit] after a run of such steps (with what [served] asks for before each
    call: room on the disk, short arguments) closes every descriptor and gives up the current
    directory: every slot of the file table is free, no inode of the cache is in
    use, however many descriptors shared it with the current directory, and cache
    and disk still hold the same tree.  The process has no descriptor and no
    directory left, its children belong to the first process, and every other
    process is as before; the caller keeps its state. *)
Theorem exit_releases k um l d k1 :
  alive k p um l d → rtc user_step k k1 →
  ∃ k' um' l' d', alive k1 p um' l' d' ∧ sys_exit k1 = Ok (k', 0) ∧ sound sb dev (kfs k') d' ∧
    (∀ f, (f < length (ftable (k_io k')))%nat → f_ref (filep (k_io k') f) = 0 ∧ f_type (filep (k_io k') f) = FD_NONE) ∧
    (∀ j, (j < NINODE)%nat → i_ref (inodep (kfs k') j) = 0) ∧
    p_ofile (procp k' p) = replicate NOFILE None ∧ p_cwd (procp k' p) = None ∧
    p_state (procp k' p) = p_state (procp k1 p) ∧
    ∀ q y, q ≠ p → ptable k1 !! q = Some y →
      ptable k' !! q = Some (if decide (p_parent y = Some p) then pset_parent y (initproc k1) else y).
Proof.
  intros Ha0 Hrt. destruct (user_steps_alive k k1 um l d Hrt Ha0) as (um' & l' & d' & Ha). pose proof Ha as [Hu _ Hs].
  unfold sys_exit, exit, cur. rewrite (up_cur _ _ _ _ Hu). cbn [rbind]. set (k2 := if decide _ then _ else _).
  assert (settled k2 p d') as Hs2 by (unfold k2; case_decide; [apply (alive_kmsg sb dev k1 p um' l' d' _ Ha) | exact Hs]).
  assert (ptable k2 = ptable k1 ∧ initproc k2 = initproc k1) as (Et & Ei) by (unfold k2; by case_decide).
  assert (procp k2 p = procp k1 p) as Ep by (unfold procp; by rewrite Et).
  destruct (close_all_settled NOFILE k2 d' 0 Hs2 eq_refl ltac:(lia)) as (k3 & E3 & Hs3 & Ho).
  destruct (close_all_procs NOFILE k2 0 k3 E3 (se_proc _ _ _ _ _ Hs2) (eq_sym (se_fds _ _ _ _ _ Hs2))) as (G1 & G2 & G3 & G4 & G5 & G6).
  rewrite E3. cbn [rbind].
  destruct (se_cwd _ _ _ _ _ Hs3) as (c & Ec & Hc). rewrite Ec.
  assert (∀ j, (j < NINODE)%nat → i_ref (inodep (kfs k3) j) = if decide (j = c) then 1 else 0) as Hr.
  { intros j Hj. rewrite (se_users _ _ _ _ _ Hs3 j Hj). unfold slots. rewrite Ho, Ec. cbn [fmap list_fmap app option_list list_to_set_disj].
    change (list_to_set_disj (option_list (Some c))) with ({[+ c +]} ⊎ ∅ : gmultiset nat).
    rewrite gmultiset_disj_union_right_id. case_decide as Ej; [subst; by rewrite multiplicity_singleton_eq | by rewrite multiplicity_singleton_ne]. }
  assert (c < length (icache (kfs k3)))%nat as Hlt by (by rewrite (se_cache _ _ _ _ _ Hs3)).
  destruct (iput_sound sb dev (kfs k3) d' c (se_sound _ _ _ _ _ Hs3) Hlt) as (-> & Hs4); [rewrite Hr by done; by rewrite decide_True|].
  cbn [rbind]. eexists _, um', l', d'. split; [done|]. split; [reflexivity|]. split; [exact Hs4|].
  destruct (exit_table k3 (put_inode (kfs k3) c (set_ref (inodep (kfs k3) c) (i_ref (inodep (kfs k3) c) - 1))) (se_proc _ _ _ _ _ Hs3))
    as (T1 & T2 & T3 & T4).
  split; [|split; [|split; [|split; [|split]]]].
  - intros f Hf. apply (se_free _ _ _ _ _ Hs3); [exact Hf|]. rewrite Ho. by intros ?%elem_of_nil.
  - intros j Hj. change (i_ref (inodep (put_inode (kfs k3) c (set_ref (inodep (kfs k3) c) (i_ref (inodep (kfs k3) c) - 1))) j) = 0).
    destruct (decide (j = c)) as [->|Hne].
    + rewrite inodep_put by done. cbn [i_ref set_ref]. rewrite Hr, decide_True by done. done.
    + rewrite inodep_put_ne by congruence. by rewrite Hr, decide_False.
  - etransitivity; [exact T1|]. by rewrite G3.
  - exact T2.
  - etransitivity; [exact T3|]. by rewrite G4, Ep.
  - intros q y Hq Ey. rewrite <- Ei, <- G6. apply T4; [done|]. by rewrite G1, Et.
Qed.
End run.

(** * A program that closes a file it does not have, on the disk of FsTree.v *)
Definition idle_io : fio (disk_st ata) := mk_fio fs_a (replicate 3 inhabitant).

Lemma idle_settled st pgdir s : settled sb0 1 (ready_kern idle_io st pgdir s) 0 d_a.
Proof.
  set (k := ready_kern _ _ _ _). assert (open_files k 0 = []) as Eo by reflexivity.
  assert (slots k 0 = [0%nat]) as Es by reflexivity.
  split; rewrite ?Eo, ?Es.
  - exact (fstree_sound (replicate 512 7) 100 eq_refl ltac:(lia)).
  - apply tree_bytes. apply (bool_decide_unpack _). vm_compute. exact I.
  - split; [done|]. apply linked_tree; [done | lia | by left].
  - reflexivity.
  - exact (Nat.lt_0_succ _).
  - reflexivity.
  - constructor.
  - intros f Hf. by apply elem_of_nil in Hf.
  - intros f Hf _. change (f < 3)%nat in Hf. do 3 (destruct f as [|f]; [by split|]). lia.
  - exists 0%nat. split; [reflexivity|]. unfold NINODE. lia.
  - intros j Hj. cbn [list_to_set_disj]. rewrite gmultiset_disj_union_right_id.
    destruct j as [|j]; [by rewrite multiplicity_singleton_eq|].
    rewrite multiplicity_singleton_ne by done. change (i_ref (tree_slots !!! Datatypes.S j) = 0).
    assert (Forall (λ x, i_ref x = 0) (replicate 49 no_inode)) as Hf by (apply (bool_decide_unpack _); vm_compute; exact I).
    apply (Forall_lookup_total_1 _ _ j Hf). cbn. unfold NINODE in Hj. lia.
Qed.

Lemma idle_alive : ∃ st pgdir s um l, alive sb0 1 (ready_kern idle_io st pgdir s) 0 um l d_a.
Proof.
  destruct (ready_process [0]) as (st & pgdir & s & um & l & Hp & Hks & _); [cbn; lia | by repeat constructor |].
  exists st, pgdir, s, um, l. split; [exact (Hp idle_io) | exact Hks | apply idle_settled].
Qed.

Lemma user_runs_safely_witness :
  ∃ (k k1 k2 : kern (disk_st ata)) um l d r, rtc (user_step sb0 1 0) k k1 ∧
    call_of k1 r = Some Sys_close ∧ syscall k1 0x80110000 0 (replicate 14 0) r = Ok k2 ∧ alive sb0 1 k2 0 um l d.
Proof.
  destruct idle_alive as (st & pgdir & s & um0 & l0 & Ha). set (k := ready_kern idle_io st pgdir s) in *.
  pose proof (al_stack _ _ _ _ _ _ _ Ha) as [K1 _ _ _ K5]. set (r := s + 4096 - TF_SIZE).
  set (k1 := set_vm k (set_km (k_vm k) (st32 (km (k_vm k)) (r + TF_EAX) 7))).
  assert (page_only s st (k_vm k1)) as Ho.
  { apply page_only_st32; [exact K1 | unfold r, TF_SIZE, TF_EAX; lia | unfold r, TF_SIZE, TF_EAX, PGSIZE; lia]. }
  assert (rtc (user_step sb0 1 0) k k1) as Hrt by (apply rtc_once, (step_push sb0 1 0 k (k_vm k1) Ho)).
  assert (call_of k1 r = Some Sys_close) as Ec.
  { unfold call_of. change (km (k_vm k1)) with (st32 (km st) (r + TF_EAX) 7). rewrite ld32_st32_eq. reflexivity. }
  destruct (user_runs_safely sb0 sb0_wf 1 ltac:(lia) ltac:(vm_compute; congruence) 0 k um0 l0 d_a k1 Ha Hrt)
    as (um1 & l1 & d1 & _ & Hn).
  destruct (Hn 0x80110000 0 (replicate 14 0) r) as (k2 & um2 & l2 & d2 & E & Ha2).
  - change (s ≤ r ∧ r + TF_SIZE ≤ s + PGSIZE). unfold r, TF_SIZE, PGSIZE. lia.
  - split; [reflexivity | unfold KERNLINK, KERNBASE, PHYSTOP; lia].
  - reflexivity.
  - rewrite Ec. by intros fn [= <-].
  - by exists k, k1, k2, um2, l2, d2, r.
Defined.

Lemma exit_releases_witness :
  ∃ k k' : kern (disk_st ata), i_ref (inodep (kfs k) 0) = 1 ∧ sys_exit k = Ok (k', 0) ∧ i_ref (inodep (kfs k') 0) = 0.
Proof.
  destruct idle_alive as (st & pgdir & s & um & l & Ha).
  destruct (exit_releases sb0 sb0_wf 1 ltac:(lia) ltac:(vm_compute; congruence) 0 _ um l d_a _ Ha (rtc_refl _ _))
    as (k' & _ & _ & _ & _ & E & _ & _ & Hr & _).
  eexists _, k'. split; [|split; [exact E | apply Hr; unfold NINODE; lia]]. reflexivity.
Defined.
