(* ===== verification/SysRw.v ===== *)
(** [sys_read] and [sys_write] from the user's memory to the disk and back: the
    descriptor, the file table, the file system and the address space of the
    process together. *)
From S2P Require Import Prelude Memory LibC Mmu Kalloc Vm UserMem Uvm UvmProps Seg Ports Ide Block Bio.
From S2P Require Import FsLayout Fs FsDir FsBlocks FsFile FsRw FsProps FsDirProps FsTree FsSound File Kernel Exec Calls CallProps.

Section rw.
Context {S : Type} `{BlockLayer S}.
Context (sb : superblock) (Hsb : sb_wf sb) (dev : Z) (Hdev : 0 ≤ dev < 2).
Implicit Types (k : kern S) (p f : nat) (d : disk).

(** What the arguments of the two calls are once they are accepted. *)
Lemma rw_args_spec k p um l f a n :
  user_proc k p um l → rw_args k = Ok (Some (f, a, n)) →
  0 ≤ a ∧ 0 ≤ n < 2 ^ 31 ∧ a + n ≤ p_sz (procp k p).
Proof.
  intros Hp. unfold rw_args. destruct (argfd k 0) as [[[fd f']|]| |]; cbn [rbind]; try discriminate.
  destruct (argint_total k p um l Hp 2) as (o & -> & _). cbn [rbind]. destruct o as [v|]; [|discriminate].
  pose proof (s32_range v) as Hv.
  destruct (argptr_spec k p um l Hp 1 (s32 v) ltac:(lia)) as (o & _ & Ho & ->). cbn [rbind].
  destruct o as [i|]; [|discriminate]. specialize (Ho i eq_refl). case_decide as Hd; [|discriminate].
  intros [= -> -> <-]. lia.
Qed.

(** C2. [read(fd, buf, n)] of an open file: the user finds in the buffer the
    bytes of the file from the offset on, as many as there are up to [n], gets
    their number back, and the offset moves past them.  Nothing else changes: the
    rest of the user's memory, every other page of the machine, the inode cache
    with its counts, the other open files, the disk, and in the kernel's state
    everything outside memory and files (the processes and their descriptors, the
    current process, the processor's tables). *)
Theorem sys_read_delivers k p um l d f a n :
  user_proc k p um l → rw_args k = Ok (Some (f, a, n)) →
  open_ok sb dev (k_io k) d f → f_readable (filep (k_io k) f) ≠ 0 →
  let x := filep (k_io k) f in
  let ip := inodep (kfs k) (f_ip x) in
  let m := Z.min n (i_size ip - f_off x) in
  ∃ k', sys_read k = Ok (k', m) ∧ user_proc k' p um l ∧
    (∀ u, ubyte (k_vm k') um u =
       if decide (a ≤ u < a + m) then Some (u8 (file_byte dev d ip (f_off x + (u - a))))
       else ubyte (k_vm k) um u) ∧
    bl_rep (f_blk (kfs k')) d ∅ ∧
    filep (k_io k') f = fset_off x (f_off x + m) ∧
    (∀ g, g ≠ f → filep (k_io k') g = filep (k_io k) g) ∧
    length (ftable (k_io k')) = length (ftable (k_io k)) ∧
    icache (kfs k') = icache (kfs k) ∧ f_sb (kfs k') = f_sb (kfs k) ∧
    (∀ q x, page_ok q → (∀ j, um !! j ≠ Some q) → inr_ q PGSIZE x → ld8 (km (k_vm k')) x = ld8 (km (k_vm k)) x) ∧
    k' = set_vm (set_io k (k_io k')) (k_vm k').
Proof.
  intros Hp Ha Ho Hr x ip m. destruct (rw_args_spec k p um l f a n Hp Ha) as (Ha0 & Hn & Hend).
  destruct (fileread_spec sb Hsb dev Hdev (k_io k) d f n Ho Hr Hn) as (y' & E & Hrep & Hic & Ex & Hne & Hft & Hsb').
  fold x in E, Ex. change (inodep (y_fs (k_io k)) (f_ip x)) with ip in E, Ex. fold m in E, Ex.
  pose proof (oo_off _ _ _ _ _ Ho) as Hoff. fold x in Hoff.
  change (inodep (y_fs (k_io k)) (f_ip x)) with ip in Hoff.
  unfold sys_read. rewrite Ha. cbn [rbind]. rewrite E. cbn [rbind].
  set (bytes := file_bytes dev d ip (f_off x) (Z.to_nat m)).
  assert (Z.of_nat (length bytes) = m) as Hl by (unfold bytes; rewrite length_file_bytes; lia).
  assert (user_proc (set_io k y') p um l) as Hp' by (by destruct Hp; split).
  destruct (user_store_spec (set_io k y') p um l Hp' a bytes) as (st' & -> & [U1 _ U3 U4]);
    [done|change (procp (set_io k y') p) with (procp k p); lia|].
  cbn [rbind]. eexists; split; [reflexivity|]. split; [by apply user_proc_set_vm|].
  split; [|by split_and!]. intros u. change (k_vm (set_vm (set_io k y') st')) with st'. rewrite U3, Hl.
  case_decide; [|done]. do 2 f_equal. unfold bytes, zget. apply list_lookup_total_correct.
  rewrite lookup_file_bytes by lia. do 2 f_equal. lia.
Qed.

(** C3. [write(fd, buf, n)] of an open file, when the disk has room: the bytes in
    the user's buffer become the bytes of the file at the offset, all of them, or
    only the whole chunks of 1536 bytes that end below the largest size (the rest
    of the room, less than a chunk, stays unused: [stored]); the file is
    extended as needed, the offset moves past what was stored, and [n] is answered
    if that was all and -1 if not.  Of the inode only size and addresses change;
    the user's memory, the other open files, the other inodes in the cache and on
    the disk, the blocks of other files and the rest of the kernel's state stay as
    they are. *)
Theorem sys_write_stores k p um l d f a n :
  let x := filep (k_io k) f in
  let ip := inodep (kfs k) (f_ip x) in
  let m := stored (f_off x) n in
  user_proc k p um l → rw_args k = Ok (Some (f, a, n)) →
  open_ok sb dev (k_io k) d f → f_writable x ≠ 0 →
  has_free sb dev d (4 * nchunks m + ind_need ip) →
  ∃ k' d', sys_write k = Ok (k', if m =? n then n else -1) ∧ user_proc k' p um l ∧ k_vm k' = k_vm k ∧
    open_ok sb dev (k_io k') d' f ∧
    let ip' := inodep (kfs k') (f_ip x) in
    0 ≤ m ≤ n ∧ filep (k_io k') f = fset_off x (f_off x + m) ∧
    (∀ g, g ≠ f → filep (k_io k') g = filep (k_io k) g) ∧
    i_size ip' = Z.max (i_size ip) (f_off x + m) ∧
    (∀ i, f_off x ≤ i < f_off x + m →
       ubyte (k_vm k) um (a + (i - f_off x)) = Some (file_byte dev d' ip' i)) ∧
    (∀ i, 0 ≤ i < NBLK * BSIZE → ¬ f_off x ≤ i < f_off x + m →
       file_byte dev d' ip' i = file_byte dev d ip i) ∧
    (∀ j, 0 ≤ j < sb_ninodes sb → j ≠ i_inum ip → disk_inode sb dev d' j = disk_inode sb dev d j) ∧
    (∀ b, data_block sb b → used sb d dev b = true → ¬ own dev d ip b → d' dev b = d dev b) ∧
    ip' = set_size (with_addrs ip (i_addrs ip')) (i_size ip') ∧
    icache (kfs k') = <[f_ip x := ip']> (icache (kfs k)) ∧
    length (ftable (k_io k')) = length (ftable (k_io k)) ∧ k' = set_io k (k_io k').
Proof.
  intros x ip m Hp Ha Ho Hw Hfree. destruct (rw_args_spec k p um l f a n Hp Ha) as (Ha0 & Hn & Hsz).
  unfold sys_write. rewrite Ha. cbn [rbind]. unfold user_bytes. rewrite (cur_proc_user k p um l Hp).
  cbn [rbind]. destruct (user_uld_bytes k p um l Hp (Z.to_nat n) a) as (src & -> & Hl & _ & Hsrc); [lia|lia|].
  cbn [rbind]. assert (Z.of_nat (length src) = n) as Hln by lia.
  pose proof (filewrite_all sb Hsb dev Hdev (k_io k) d f src Ho Hw) as Hspec. cbv zeta in Hspec.
  rewrite Hln in Hspec. fold x m in Hspec.
  destruct (Hspec (proj2 Hn) Hfree) as (y' & d' & -> & Ho' & Hm & Ex & Hft & Hne & Esz & Hb & [_ Hca Hfi _ _ Hk _ Hdi]).
  change (inodep (y_fs (k_io k)) (f_ip x)) with ip in Esz, Hb, Hdi, Hk.
  pose proof (oo_off _ _ _ _ _ Ho) as Hoff. fold x in Hoff.
  pose proof (fw_size _ _ _ _ (oo_wf _ _ _ _ _ Ho')) as Hmax. rewrite Ex in Hmax. change (f_ip (fset_off _ _)) with (f_ip x) in Hmax.
  assert (Z.of_nat (length (take (Z.to_nat m) src)) = m) as Hlm by (rewrite length_take; lia).
  unfold wrote in Hb. rewrite Hlm in Hb.
  cbn [rbind fst snd]. exists (set_io k y'), d'. split; [done|].
  split; [by destruct Hp; split|]. split; [done|]. split; [exact Ho'|].
  split; [exact Hm|]. split; [exact Ex|]. split; [exact Hne|]. split; [exact Esz|].
  change (MAXFILE * BSIZE) with 71680 in Hmax.
  split; [|split; [|split; [exact Hdi | split; [intros b Hb0 Hu Hno; by apply Hk | by split_and!]]]].
  - intros i Hi. change (inodep (kfs (set_io k y')) (f_ip x)) with (inodep (y_fs y') (f_ip x)).
    rewrite Hb, decide_True by (try done; change (NBLK * BSIZE) with 71680; lia).
    pose proof (Hsrc (Z.to_nat (i - f_off x)) ltac:(lia)) as Hs. rewrite Z2Nat.id in Hs by lia. rewrite Hs.
    rewrite zget_take by lia. unfold zget. destruct (lookup_lt_is_Some_2 src (Z.to_nat (i - f_off x))) as (b & Eb); [lia|].
    by rewrite (list_lookup_total_correct _ _ _ Eb).
  - intros i Hi Hni. change (inodep (kfs (set_io k y')) (f_ip x)) with (inodep (y_fs y') (f_ip x)).
    by rewrite Hb, decide_False by done.
Qed.
End rw.

(** * Witnesses: the process of CallProps.v, with [fsdir] and with [fs0] *)

Lemma demo_rw_args {S} `{BlockOps S} (k : kern S) st y :
  k = demo y st → argint k 0 = Ok (Some 0) → argint k 1 = Ok (Some 0) →
  argint k 2 = Ok (Some 100) → rw_args k = Ok (Some (0%nat, 0, 100)).
Proof.
  intros -> H0 H1 H2. unfold rw_args, argfd. rewrite H0. cbn [rbind].
  change ((s32 0 <? 0) || (Z.of_nat NOFILE <=? s32 0)) with false. cbv iota.
  unfold argptr. rewrite H1, H2. reflexivity.
Qed.

Lemma sys_read_delivers_witness :
  ∃ (k k' : kern (disk_st ata)), sys_read k = Ok (k', 32) ∧ f_off (filep (k_io k') 0) = 32 ∧
    ∃ um, ubyte (k_vm k') um 2 = Some 46.
Proof.
  destruct (@demo_ready (disk_st ata) _) as (st & um & l & Hd & _).
  destruct (Hd (open0 fsdir)) as (Hp & H0 & H1 & H2).
  destruct (sys_read_delivers sb0 sb0_wf 1 ltac:(lia) (demo (open0 fsdir) st) 0 um l ddir 0 0 100 Hp
    (demo_rw_args _ st _ eq_refl H0 H1 H2) open_fsdir ltac:(discriminate)) as (k' & E & _ & Hb & _ & Ef & _).
  exists (demo (open0 fsdir) st), k'. split; [exact E|]. split; [rewrite Ef; reflexivity|].
  exists um. rewrite Hb. vm_compute. reflexivity.
Defined.

Lemma sys_write_stores_witness :
  ∃ (k k' : kern (disk_st ata)), sys_write k = Ok (k', 100) ∧ f_off (filep (k_io k') 0) = 100.
Proof.
  destruct (@demo_ready (disk_st ata) _) as (st & um & l & Hd & _).
  destruct (Hd (open0 fs0)) as (Hp & H0 & H1 & H2).
  destruct (sys_write_stores sb0 sb0_wf 1 ltac:(lia) (demo (open0 fs0) st) 0 um l d0 0 0 100 Hp
    (demo_rw_args _ st _ eq_refl H0 H1 H2) open_fs0 ltac:(discriminate))
    as (k' & d' & E & _ & _ & _ & _ & Ef & _); [apply has_free_d0; vm_compute; lia|].
  exists (demo (open0 fs0) st), k'. split; [exact E | by rewrite Ef].
Defined.
