(* ===== verification/UserLib.v ===== *)
(** user/printf.c and user/init.c: the formatted output of user programs and the
    first program.  They run over the interface of the system calls; the strings
    that they pass are the characters before the terminating 0. *)
From S2P Require Import Prelude Text LibC Ide FsLayout.

(** What a program asks of the kernel.  The state [U] is the kernel's and, with
    it, the rest of the process; [fstat] gets the structure to fill in, [read]
    gives the bytes it stored, and each answers what the call returns. *)
Class UserCalls (U : Type) := {
  u_open : U → list Z → Z → U * Z;
  u_mknod : U → list Z → Z → Z → U * Z;
  u_close : U → Z → U * Z;
  u_write : U → Z → list Z → U * Z;
  u_read : U → Z → Z → U * list Z * Z;
  u_fstat : U → Z → stat → U * stat * Z
}.

Section printf.
Context {U : Type} `{UserCalls U}.
Implicit Types (u : U) (fd : Z).

Definition putc u fd (c : Z) : U := (u_write u fd [c]).1.

(** The characters of a string, one by one. *)
Fixpoint puts u fd (cs : list Z) : U :=
  match cs with [] => u | c :: cs' => puts (putc u fd c) fd cs' end.

(** The digits are upper case: the digit ten is 65, "A". *)
Definition printint u fd (xx base : Z) (sgn : bool) : res U :=
  let* cs := numeral 65 xx base sgn in Ok (puts u fd cs).

(** The arguments behind the format: an integer, or the address of a string,
    which may be null. *)
Inductive uarg := UInt (n : Z) | UStr (s : option (list Z)).

(** The branch for [state == '%']. *)
Definition conv u fd (c : Z) (ap : list uarg) : res (U * list uarg) :=
  if c =? 100 then
    match ap with UInt n :: ap' => let* u := printint u fd (s32 n) 10 true in Ok (u, ap') | _ => Fault end
  else if (c =? 120) || (c =? 112) then
    match ap with UInt n :: ap' => let* u := printint u fd (s32 n) 16 false in Ok (u, ap') | _ => Fault end
  else if c =? 115 then
    match ap with
    | UStr s :: ap' => Ok (puts u fd (default (chars "(null)") s), ap')
    | _ => Fault
    end
  else if c =? 99 then
    match ap with UInt n :: ap' => Ok (putc u fd (u8 n), ap') | _ => Fault end
  else if c =? 37 then Ok (putc u fd c, ap)
  else Ok (putc (putc u fd 37) fd c, ap).

(** The loop over the format; [pct] says that [state] is '%'. *)
Fixpoint printf_loop u fd (fmt : list Z) (pct : bool) (ap : list uarg) : res U :=
  match fmt with
  | [] => Ok u
  | c :: fmt' =>
      if pct then let* r := conv u fd c ap in printf_loop r.1 fd fmt' false r.2
      else if c =? 37 then printf_loop u fd fmt' true ap
      else printf_loop (putc u fd c) fd fmt' false ap
  end.

Definition printf u fd (fmt : list Z) (ap : list uarg) : res U := printf_loop u fd fmt false ap.

(** * init *)

(** A line: the text and a newline. *)
Definition line (s : string) : list Z := chars s ++ [10].

(** [stat] of init.c, which takes the structure that [fstat] fills in. *)
Definition stat_path u (path : list Z) (st : stat) : res (U * stat * Z) :=
  let '(u, fd) := u_open u path O_RDONLY in
  let* u := printf u 0 (line "fs.text 's fd is:%d") [UInt fd] in
  if fd <=? 0 then Ok (u, st, -1)
  else
    let '(u, st, r) := u_fstat u fd st in
    let '(u, _) := u_close u fd in
    Ok (u, st, r).

(** [main] up to its loop: the console, and the file "small". *)
Definition open_console u : U :=
  let '(u, r) := u_open u (chars "console") O_RDWR in
  if r <? 0 then
    let '(u, _) := u_mknod u (chars "console") 1 1 in
    (u_open u (chars "console") O_RDWR).1
  else u.

Definition create_small u : res (U * Z) :=
  let '(u, fd) := u_open u (chars "small") (Z.lor O_CREATE O_RDWR) in
  let* u := (if 0 <=? fd then printf u 0 (line "creat small succeeded; ok") []
             else printf u 0 (line "error: creat small failed!") []) in
  Ok (u, fd).

(** [if(write(fd, s, 10) != 10) printf(0, msg, i)]. *)
Definition write10 u fd (s msg : string) (i : Z) : res U :=
  let '(u, r) := u_write u fd (chars s) in
  if negb (r =? 10) then printf u 0 (line msg) [UInt i] else Ok u.

(** The turns of [for(i = 0; i < 2; i++)] from [i] on, [n] of them. *)
Fixpoint write_small u fd (i : Z) (n : nat) : res U :=
  match n with
  | O => Ok u
  | S n' =>
      let* u := write10 u fd "aaaaaaaaaa" "error: write aa %d new file failed" i in
      let* u := write10 u fd "bbbbbbbbbb" "error: write bb %d new file failed" i in
      write_small u fd (i + 1) n'
  end.

(** [buf] after [read(fd, buf, sizeof(buf))]; it is static, so it starts with
    zeros. *)
Definition BUFSZ : Z := 8192.
Definition buf0 : list Z := replicate (Z.to_nat BUFSZ) 0.

(** The string at the start of an array; without a 0 the reader leaves it. *)
Fixpoint c_string (bs : list Z) : res (list Z) :=
  match bs with
  | [] => Fault
  | b :: bs' => if b =? 0 then Ok [] else let* cs := c_string bs' in Ok (b :: cs)
  end.

Definition show_file u fd : res U :=
  let '(u, bs, i) := u_read u fd BUFSZ in
  let buf := splice buf0 0 bs in
  if negb (i =? 0) then
    let* u := printf u 0 (line "read succeeded ok") [] in
    let* cs := c_string buf in
    printf u 0 (line "content:%s") [UStr (Some cs)]
  else printf u 0 (line "read failed") [].

Definition main u (junk : stat) : res (U * Z) :=
  let u := open_console u in
  let* u := printf u 0 (line "init: starting sh") [] in
  let* u := printf u 0 (line "test create file") [] in
  let* r := create_small u in
  let '(u, fd) := r in
  let* u := write_small u fd 0 2 in
  let* u := printf u 0 (line "writes ok") [] in
  let '(u, _) := u_close u fd in
  let st := mk_stat (st_type junk) (st_dev junk) (st_ino junk) (st_nlink junk) 7 in
  let* r := stat_path u (chars "fs.txt") st in
  let '(u, st, r) := r in
  let* u := (if negb (r =? 0) then printf u 0 (line "fs.text size is:%d") [UInt (st_size st)] else Ok u) in
  let '(u, fd) := u_open u (chars "fs.txt") O_RDONLY in
  let* u := (if 0 <=? fd then printf u 0 (line "open fs.txt succeeded ok") []
             else printf u 0 (line "error: open small failed!") []) in
  let* u := show_file u fd in
  let '(u, _) := u_close u fd in
  Ok (u, 0).
End printf.

(** * The text of a call of printf

    A call is a sequence of items: characters of the format other than '%',
    conversions with their arguments, and unknown conversions. *)
Inductive uitem :=
| ULit (c : Z) | UDec (n : Z) | UHex (c n : Z) | UString (s : option (list Z)) | UChar (n : Z)
| UPercent | UUnknown (c : Z).

Definition uitem_fmt (it : uitem) : list Z :=
  match it with
  | ULit c => [c] | UDec _ => [37; 100] | UHex c _ => [37; c] | UString _ => [37; 115]
  | UChar _ => [37; 99] | UPercent => [37; 37] | UUnknown c => [37; c]
  end.
Definition uitem_arg (it : uitem) : list uarg :=
  match it with
  | UDec n | UHex _ n | UChar n => [UInt n] | UString s => [UStr s] | _ => []
  end.
Definition uitem_ok (it : uitem) : Prop :=
  match it with
  | ULit c => c ≠ 37
  | UHex c _ => c = 120 ∨ c = 112
  | UUnknown c => c ∉ [100; 120; 112; 115; 99; 37]
  | _ => True
  end.

(** What is printed for an item; a numeral is any text that reads as the
    number. *)
Definition uitem_text (it : uitem) (cs : list Z) : Prop :=
  match it with
  | ULit c => cs = [c]
  | UDec n => int_val 10 cs = s32 n
  | UHex _ n => int_val 16 cs = u32 n
  | UString s => cs = default (chars "(null)") s
  | UChar n => cs = [u8 n]
  | UPercent => cs = [37]
  | UUnknown c => cs = [37; c]
  end.

Ltac no_percent := apply (bool_decide_unpack _); vm_compute; exact I.

Section calls.
Context {U : Type} `{UserCalls U}.
Implicit Types (u : U) (fd : Z).

Lemma puts_app u fd cs cs' : puts u fd (cs ++ cs') = puts (puts u fd cs) fd cs'.
Proof. revert u. induction cs as [|c cs IH]; intros u; [done|]. apply IH. Qed.

Lemma u32_s32 n : u32 (s32 n) = u32 n.
Proof. unfold u32, s32. zlia. Qed.

Lemma printf_item u fd it fmt ap :
  uitem_ok it →
  ∃ cs, uitem_text it cs ∧
    printf_loop u fd (uitem_fmt it ++ fmt) false (uitem_arg it ++ ap) = printf_loop (puts u fd cs) fd fmt false ap.
Proof.
  intros Hok. destruct it as [c|n|c n|s|n| |c]; cbn [uitem_fmt uitem_arg uitem_ok uitem_text app] in *.
  - exists [c]. split; [done|]. cbn [printf_loop]. by rewrite (proj2 (Z.eqb_neq _ _)).
  - pose proof (s32_range n). destruct (numeral_spec 65 ltac:(by left) (s32 n) 10 true) as (cs & E & _ & Hv); [done | by left|].
    exists cs. split; [done|]. cbn. unfold printint. by rewrite E.
  - pose proof (s32_range n). destruct (numeral_spec 65 ltac:(by left) (s32 n) 16 false) as (cs & E & _ & Hv); [done | by right|].
    exists cs. split; [by rewrite Hv, u32_s32|].
    destruct Hok as [-> | ->]; cbn; unfold printint; by rewrite E.
  - by exists (default (chars "(null)") s).
  - by exists [u8 n].
  - by exists [37].
  - exists [37; c]. split; [done|]. cbn [printf_loop Z.eqb Pos.eqb]. unfold conv.
    assert (∀ k, k ∈ [100; 120; 112; 115; 99; 37] → (c =? k) = false) as Hk
      by (intros k Hin; apply Z.eqb_neq; congruence).
    rewrite !Hk by (apply (bool_decide_unpack _); vm_compute; exact I). done.
Qed.

(** Also with a '%' at the end of the format, which prints nothing. *)
Lemma printf_spec u fd its tail :
  Forall uitem_ok its → tail = [] ∨ tail = [37] →
  ∃ css, printf u fd (concat (uitem_fmt <$> its) ++ tail) (concat (uitem_arg <$> its)) = Ok (puts u fd (concat css)) ∧
    Forall2 uitem_text its css.
Proof.
  intros Hok Ht. unfold printf. revert u. induction Hok as [|it its Hit _ IH]; intros u.
  - exists []. by destruct Ht as [-> | ->].
  - cbn [fmap list_fmap concat]. rewrite <- app_assoc.
    destruct (printf_item u fd it (concat (uitem_fmt <$> its) ++ tail) (concat (uitem_arg <$> its)) Hit)
      as (cs & Hcs & ->).
    destruct (IH (puts u fd cs)) as (css & -> & Hcss). exists (cs :: css).
    cbn [concat]. rewrite puts_app. by split; [|constructor].
Qed.

(** C34. [printf] of a user program terminates, whatever the kernel answers, and
    makes one call of [write] with one byte for each character of its text, in
    order: the characters of the format, signed decimal and unsigned hexadecimal
    numerals that read as their arguments, strings ("(null)" for a null one),
    characters, and unknown conversions as they are; a '%' that ends the format
    prints nothing. *)
Theorem printf_writes u fd its tail :
  Forall uitem_ok its → tail = [] ∨ tail = [37] →
  ∃ css, printf u fd (concat (uitem_fmt <$> its) ++ tail) (concat (uitem_arg <$> its)) =
      Ok (foldl (λ u c, (u_write u fd [c]).1) u (concat css)) ∧
    Forall2 uitem_text its css.
Proof.
  intros Hok Ht. destruct (printf_spec u fd its tail Hok Ht) as (css & E & Hcss).
  exists css. split; [|done]. rewrite E. f_equal. clear. revert u.
  induction (concat css) as [|c cs IH]; intros u; [done|]. apply IH.
Qed.

(** Formats with one conversion, or none. *)
Lemma printf_loop_lits u fd pre fmt ap :
  37 ∉ pre → printf_loop u fd (pre ++ fmt) false ap = printf_loop (puts u fd pre) fd fmt false ap.
Proof.
  revert u. induction pre as [|c pre IH]; intros u Hp; [done|]. apply not_elem_of_cons in Hp as [Hc Hp].
  cbn [app printf_loop puts]. rewrite (proj2 (Z.eqb_neq c 37)) by congruence. by apply IH.
Qed.

Lemma printf_loop_end u fd post ap : 37 ∉ post → printf_loop u fd post false ap = Ok (puts u fd post).
Proof. intros Hp. rewrite <- (app_nil_r post) at 1. by rewrite printf_loop_lits. Qed.

Lemma printf_lits u fd fmt : 37 ∉ fmt → printf u fd fmt [] = Ok (puts u fd fmt).
Proof. apply printf_loop_end. Qed.

Lemma printf_dec u fd pre post n :
  37 ∉ pre → 37 ∉ post →
  ∃ cs, int_val 10 cs = s32 n ∧
    printf u fd (pre ++ [37; 100] ++ post) [UInt n] = Ok (puts u fd (pre ++ cs ++ post)).
Proof.
  intros H1 H2. unfold printf. rewrite printf_loop_lits by done.
  destruct (printf_item (puts u fd pre) fd (UDec n) post [] I) as (cs & Hcs & E). cbn [uitem_arg app] in E.
  exists cs. split; [done|]. etransitivity; [exact E|]. by rewrite printf_loop_end, !puts_app.
Qed.

Lemma printf_str u fd pre post s :
  37 ∉ pre → 37 ∉ post →
  printf u fd (pre ++ [37; 115] ++ post) [UStr (Some s)] = Ok (puts u fd (pre ++ s ++ post)).
Proof.
  intros H1 H2. unfold printf. rewrite printf_loop_lits by done. rewrite !puts_app.
  change (printf_loop (puts (puts u fd pre) fd s) fd post false [] = Ok (puts (puts (puts u fd pre) fd s) fd post)).
  by apply printf_loop_end.
Qed.

(** * init *)

(** A write of init ends, whatever the kernel answers. *)
Lemma write10_ends u fd s (pre post : string) i :
  37 ∉ chars pre → 37 ∉ chars post ++ [10] → ∃ u', write10 u fd s (pre ++ "%d" ++ post) i = Ok u'.
Proof.
  intros H1 H2. unfold write10. destruct (u_write u fd (chars s)) as [u1 r].
  destruct (negb (r =? 10)); [|by eexists].
  destruct (printf_dec u1 0 (chars pre) (chars post ++ [10]) i H1 H2) as (cs & _ & E).
  eexists. etransitivity; [|exact E]. f_equal. unfold line. rewrite !chars_app, <- !app_assoc. done.
Qed.

Lemma write_small_ends u fd i n : ∃ u', write_small u fd i n = Ok u'.
Proof.
  revert u i. induction n as [|n IH]; intros u i; cbn [write_small]; [by eexists|].
  destruct (write10_ends u fd "aaaaaaaaaa" "error: write aa " " new file failed" i) as (u1 & E1);
    [no_percent..|].
  destruct (write10_ends u1 fd "bbbbbbbbbb" "error: write bb " " new file failed" i) as (u2 & E2);
    [no_percent..|].
  change (write10 u fd "aaaaaaaaaa" "error: write aa %d new file failed" i = Ok u1) in E1.
  change (write10 u1 fd "bbbbbbbbbb" "error: write bb %d new file failed" i = Ok u2) in E2.
  rewrite E1. cbn [rbind]. rewrite E2. cbn [rbind]. apply IH.
Qed.

Lemma stat_path_ends u path st :
  ∃ u' st' r, stat_path u path st = Ok (u', st', r).
Proof.
  unfold stat_path. destruct (u_open u path O_RDONLY) as [u1 fd].
  destruct (printf_dec u1 0 (chars "fs.text 's fd is:") [10] fd) as (cs & _ & E);
    [no_percent..|].
  change (printf u1 0 (line "fs.text 's fd is:%d") [UInt fd] = Ok (puts u1 0 (chars "fs.text 's fd is:" ++ cs ++ [10]))) in E.
  rewrite E. cbn [rbind]. destruct (fd <=? 0); [by do 3 eexists|].
  destruct (u_fstat _ fd st) as [[u2 st2] r]. destruct (u_close u2 fd). by do 3 eexists.
Qed.

(** The string in a buffer that ends with a 0. *)
Lemma c_string_0 bs rest : 0 ∉ bs → c_string (bs ++ 0 :: rest) = Ok bs.
Proof.
  induction bs as [|b bs IH]; intros Hb; [done|]. apply not_elem_of_cons in Hb as [Hb Hbs].
  cbn [app c_string]. by rewrite (proj2 (Z.eqb_neq b 0)), IH by congruence.
Qed.

Lemma c_string_ends bs : 0 ∈ bs → ∃ cs, c_string bs = Ok cs.
Proof.
  induction bs as [|b bs IH]; [by intros ?%elem_of_nil|]. intros Hin. cbn [c_string].
  destruct (Z.eqb_spec b 0); [by eexists|].
  destruct IH as (cs & ->); [|by eexists]. apply elem_of_cons in Hin as [?|?]; [congruence | done].
Qed.

Lemma show_file_prints u fd bs i u1 :
  u_read u fd BUFSZ = (u1, bs, i) → i ≠ 0 → 0 ∉ bs → Z.of_nat (length bs) < BUFSZ →
  show_file u fd = Ok (puts u1 0 (line "read succeeded ok" ++ chars "content:" ++ bs ++ [10])).
Proof.
  intros E Hi H0 Hl. unfold show_file. rewrite E, (proj2 (Z.eqb_neq i 0)) by done. cbn [negb].
  rewrite printf_lits by no_percent. cbn [rbind].
  rewrite splice_0 by (unfold buf0; rewrite length_replicate; lia).
  unfold buf0. rewrite drop_replicate.
  assert (∃ n, Z.to_nat BUFSZ - length bs = S n)%nat as (n & ->).
  { exists (Z.to_nat BUFSZ - length bs - 1)%nat. lia. }
  cbn [replicate]. rewrite c_string_0 by done. cbn [rbind].
  change (line "content:%s") with (chars "content:" ++ [37; 115] ++ [10]).
  rewrite printf_str by no_percent. by rewrite <- puts_app.
Qed.

Lemma show_file_ends u fd :
  (∀ v, Z.of_nat (length (u_read v fd BUFSZ).1.2) < BUFSZ) → ∃ u', show_file u fd = Ok u'.
Proof.
  intros Hr. unfold show_file. specialize (Hr u). destruct (u_read u fd BUFSZ) as [[u1 bs] i]. cbn [fst snd] in Hr.
  destruct (negb (i =? 0)); rewrite printf_lits by no_percent; [|by eexists]. cbn [rbind].
  destruct (c_string_ends (splice buf0 0 bs)) as (cs & ->).
  { rewrite splice_0 by (unfold buf0; rewrite length_replicate; lia). apply elem_of_app. right.
    unfold buf0. rewrite drop_replicate. apply elem_of_replicate. lia. }
  cbn [rbind]. change (line "content:%s") with (chars "content:" ++ [37; 115] ++ [10]).
  rewrite printf_str by no_percent. by eexists.
Qed.

(** [main] gets to the reading of "fs.txt", whatever the kernel answers. *)
Lemma main_reads u junk :
  ∃ v fd, main u junk = (let* w := show_file v fd in let '(w, _) := u_close w fd in Ok (w, 0)).
Proof.
  unfold main, create_small. generalize (open_console u). clear u. intros u.
  do 2 (rewrite printf_lits by no_percent; cbn [rbind]).
  destruct (u_open _ (chars "small") _) as [u1 fd]. do 2 (rewrite printf_lits by no_percent).
  assert (∀ (b : bool) (x y : U), (if b then Ok x else Ok y) = Ok (if b then x else y)) as Hif by (by intros []).
  rewrite Hif. cbn [rbind].
  destruct (write_small_ends (if 0 <=? fd then puts u1 0 (line "creat small succeeded; ok")
    else puts u1 0 (line "error: creat small failed!")) fd 0 2) as (u2 & ->).
  cbn [rbind]. rewrite printf_lits by no_percent. cbn [rbind].
  destruct (u_close _ fd) as [u3 r3]. set (st := mk_stat _ _ _ _ _).
  destruct (stat_path_ends u3 (chars "fs.txt") st) as (u4 & st' & r & ->). cbn [rbind].
  assert (∃ u5, (if negb (r =? 0) then printf u4 0 (line "fs.text size is:%d") [UInt (st_size st')] else Ok u4) = Ok u5)
    as (u5 & ->).
  { destruct (negb (r =? 0)); [|by eexists].
    destruct (printf_dec u4 0 (chars "fs.text size is:") [10] (st_size st')) as (cs & _ & E); [no_percent..|].
    eexists; exact E. }
  cbn [rbind]. destruct (u_open u5 (chars "fs.txt") O_RDONLY) as [u6 fd2].
  do 2 (rewrite printf_lits by no_percent). rewrite Hif. cbn [rbind].
  by eexists _, fd2.
Qed.

(** C35. The first program ends and returns 0, whatever the kernel answers, when
    a read stores less than the 8192 bytes of its buffer.  When the file that is
    read has contents without a 0, the last that it does is to print them, a byte
    at a time, behind "content:", and to close the file.  A read that fills the
    buffer is not covered: [printf] then runs past the array. *)
Theorem init_shows_file u junk :
  (∀ v fd, Z.of_nat (length (u_read v fd BUFSZ).1.2) < BUFSZ) →
  ∃ v fd u', main u junk = Ok (u', 0) ∧
    let '(w, bs, i) := u_read v fd BUFSZ in
    i ≠ 0 → 0 ∉ bs →
    u' = (u_close (puts w 0 (line "read succeeded ok" ++ chars "content:" ++ bs ++ [10])) fd).1.
Proof.
  intros Hr. destruct (main_reads u junk) as (v & fd & ->). exists v, fd.
  destruct (show_file_ends v fd) as (w & E); [done|]. rewrite E. cbn [rbind].
  destruct (u_close w fd) as [w' r] eqn:Ec. exists w'. split; [done|]. specialize (Hr v fd).
  destruct (u_read v fd BUFSZ) as [[w1 bs] i] eqn:Er. intros Hi H0.
  pose proof (show_file_prints v fd bs i w1 Er Hi H0 Hr) as E2.
  rewrite E in E2. apply (f_equal (λ x, match x with Ok y => y | _ => w end)) in E2. cbv beta iota in E2.
  rewrite <- E2. by rewrite Ec.
Qed.

(** [stat] of an existing file answers 0, which its caller takes for false: the
    size is not printed. *)
Lemma stat_path_zero u path st fd u1 u2 st' :
  u_open u path O_RDONLY = (u1, fd) → 0 < fd →
  (∀ v, u_fstat v fd st = (u2, st', 0)) →
  stat_path u path st = Ok ((u_close u2 fd).1, st', 0).
Proof.
  intros E Hfd Hst. unfold stat_path. rewrite E.
  destruct (printf_dec u1 0 (chars "fs.text 's fd is:") [10] fd) as (cs & _ & E2); [no_percent..|].
  change (printf u1 0 (line "fs.text 's fd is:%d") [UInt fd] = Ok (puts u1 0 (chars "fs.text 's fd is:" ++ cs ++ [10]))) in E2.
  rewrite E2. cbn [rbind]. rewrite (proj2 (Z.leb_gt fd 0)) by done. rewrite Hst.
  by destruct (u_close u2 fd).
Qed.
End calls.

(** * A kernel that keeps what is written to descriptor 0, and whose only file is
    "hi". *)
#[local] Instance echo : UserCalls (list Z) := {|
  u_open v _ _ := (v, 3);
  u_mknod v _ _ _ := (v, 0);
  u_close v _ := (v, 0);
  u_write v fd bs := (if fd =? 0 then v ++ bs else v, Z.of_nat (length bs));
  u_read v _ n := (v, [104; 105], Z.min n 2);
  u_fstat v _ _ := (v, mk_stat T_FILE 1 2 1 2, 0)
|}.

(** [printf(0, "%d:%x%", -5, 255)]. *)
Lemma printf_writes_witness :
  ∃ css, printf [] 0 [37; 100; 58; 37; 120; 37] [UInt (-5); UInt 255] = Ok (concat css) ∧
    Forall2 uitem_text [UDec (-5); ULit 58; UHex 120 255] css.
Proof.
  destruct (printf_writes [] 0 [UDec (-5); ULit 58; UHex 120 255] [37]) as (css & E & Ht).
  - repeat constructor; cbn; lia.
  - by right.
  - exists css. split; [|exact Ht]. etransitivity; [exact E|]. f_equal.
    assert (∀ cs u, foldl (λ (u : list Z) c, (u_write u 0 [c]).1) u cs = u ++ cs) as Hw.
    { intros cs. induction cs as [|c cs IH]; intros u; cbn [foldl]; [by rewrite app_nil_r|].
      rewrite IH. cbn. by rewrite <- app_assoc. }
    by rewrite Hw.
Defined.

Lemma init_shows_file_witness :
  ∃ out u', main [] (mk_stat 0 0 0 0 0) = Ok (u', 0) ∧ u' = out ++ chars "content:hi" ++ [10].
Proof.
  destruct (init_shows_file [] (mk_stat 0 0 0 0 0)) as (v & fd & u' & E & Hu).
  - intros v fd. vm_compute. reflexivity.
  - cbn [u_read echo] in Hu.
    specialize (Hu ltac:(done) ltac:(apply (bool_decide_unpack _); vm_compute; exact I)).
    assert (∀ cs w, puts w 0 cs = w ++ cs) as Hw.
    { intros cs. induction cs as [|c cs IH]; intros w; cbn [puts]; [by rewrite app_nil_r|].
      rewrite IH. cbn. by rewrite <- app_assoc. }
    exists (v ++ line "read succeeded ok"), u'. split; [exact E|]. rewrite Hu, Hw, <- app_assoc. reflexivity.
Defined.
