(* ===== verification/Mkfs.v ===== *)
(** utils/mkfs.c: the host program that builds the image of the file system.
    The image is the list of the sectors written; the files to put on it are
    given by their names and by what each [read] of them returns.  Here [Fault]
    is also the end of the program by [exit(1)] or by a failed [assert]; the
    calls on the image file itself succeed, and the text printed is left out. *)
From S2P Require Import Prelude LibC Ide FsLayout FsBlocks.

(** * Constants *)

Definition LOGSIZE : Z := 10 * 3.
Definition NINODES : Z := 200.
Definition nbitmap : Z := FSSIZE / (BSIZE * 8) + 1.
Definition ninodeblocks : Z := NINODES / IPB + 1.
Definition nlog : Z := LOGSIZE.
Definition nmeta : Z := 2 + nlog + ninodeblocks + nbitmap.
Definition nblocks : Z := FSSIZE - nmeta.

(** On a little-endian host, where the bytes [a[0]], .. are the low ones first. *)
Definition xshort (x : Z) : Z := le_int [u8 x; u8 (Z.shiftr x 8)].
Definition xint (x : Z) : Z := le_int [u8 x; u8 (Z.shiftr x 8); u8 (Z.shiftr x 16); u8 (Z.shiftr x 24)].

Definition sb : superblock :=
  mk_sb (xint FSSIZE) (xint nblocks) (xint NINODES) (xint nlog) (xint 2) (xint (2 + nlog))
    (xint (2 + nlog + ninodeblocks)).

(** * The state *)

Record mkst := mk_mkst { m_img : list (list Z); freeinode : Z; freeblock : Z }.

Definition zeroes : list Z := replicate 512 0.

(** [lseek] to byte [sec * BSIZE], which is computed on 32 bits, then the
    sector; a write beyond the end fills the gap with zeros, a read there is
    short. *)
Definition seek (sec : Z) : nat := Z.to_nat (u32 (sec * BSIZE) / BSIZE).
Definition wsect (m : mkst) (sec : Z) (buf : list Z) : mkst :=
  let n := seek sec in
  let img := m_img m ++ replicate (n + 1 - length (m_img m)) zeroes in
  mk_mkst (<[n := buf]> img) (freeinode m) (freeblock m).
Definition rsect (m : mkst) (sec : Z) : res (list Z) :=
  match m_img m !! seek sec with Some buf => Ok buf | None => Fault end.

(** * Inodes *)

Definition winode (m : mkst) (inum : Z) (ip : dinode) : res mkst :=
  let bn := IBLOCK inum sb in
  let* buf := rsect m bn in
  Ok (wsect m bn (enc_dinode buf (ioff inum) ip)).

Definition rinode (m : mkst) (inum : Z) : res dinode :=
  let* buf := rsect m (IBLOCK inum sb) in Ok (dec_dinode buf (ioff inum)).

Definition inoalloc (m : mkst) (type : Z) : res (mkst * Z) :=
  let inum := freeinode m in
  let m := mk_mkst (m_img m) (u32 (inum + 1)) (freeblock m) in
  let din := mk_dinode (s16 (xshort type)) 0 0 (s16 (xshort 1)) (xint 0) (replicate 13 0) in
  let* m := winode m inum din in
  Ok (m, inum).

(** * The bitmap *)

(** [for(i = 0; i < used; i++) buf[i/8] = buf[i/8] | (0x1 << (i%8))], [n] turns
    from [i] on. *)
Fixpoint mark_bits (buf : list Z) (i : Z) (n : nat) : list Z :=
  match n with
  | O => buf
  | S n' => mark_bits (zset buf (i / 8) (u8 (Z.lor (zget buf (i / 8)) (Z.shiftl 1 (i mod 8))))) (i + 1) n'
  end.

(** [balloc] of utils/mkfs.c; fs/fs.c has another. *)
Definition mkfs_balloc (m : mkst) (used : Z) : res mkst :=
  if used <? BSIZE * 8 then
    Ok (wsect m (sb_bmapstart sb) (mark_bits (replicate (Z.to_nat BSIZE) 0) 0 (Z.to_nat used)))
  else Fault.

(** * Contents *)

(** [xint(freeblock++)]. *)
Definition take_block (m : mkst) : mkst * Z :=
  (mk_mkst (m_img m) (freeinode m) (u32 (freeblock m + 1)), xint (freeblock m)).

(** The block [x] of the turn: the block of the file at [fbn], taken from the
    free ones when the file has none there. *)
Definition direct_block (m : mkst) (din : dinode) (fbn : Z) : mkst * dinode * Z :=
  let '(m, din) :=
    if xint (zget (di_addrs din) fbn) =? 0 then
      let '(m, b) := take_block m in
      (m, mk_dinode (di_type din) (di_major din) (di_minor din) (di_nlink din) (di_size din)
            (zset (di_addrs din) fbn b))
    else (m, din) in
  (m, din, xint (zget (di_addrs din) fbn)).

Definition indirect_block (m : mkst) (din : dinode) (fbn : Z) : res (mkst * dinode * Z) :=
  let '(m, din, ind) := direct_block m din NDIRECT in
  let* indirect := rsect m ind in
  let k := Z.to_nat (4 * (fbn - NDIRECT)) in
  if get32 indirect k =? 0 then
    let '(m, b) := take_block m in
    let indirect := put32 indirect k b in
    Ok (wsect m ind indirect, din, xint (get32 indirect k))
  else Ok (m, din, xint (get32 indirect k)).

(** One turn of the loop of [iappend]; [p] holds the [n] bytes that are left. *)
Definition iappend_step '((m, din, off, p) : mkst * dinode * Z * list Z)
  : res (mkst * dinode * Z * list Z + mkst * dinode * Z) :=
  let n := Z.of_nat (length p) in
  if 0 <? n then
    let fbn := off / BSIZE in
    if fbn <? MAXFILE then
      let* r := (if fbn <? NDIRECT then Ok (direct_block m din fbn) else indirect_block m din fbn) in
      let '(m, din, x) := r in
      let n1 := Z.min n ((fbn + 1) * BSIZE - off) in
      let* buf := rsect m x in
      let m := wsect m x (splice buf (Z.to_nat (off - fbn * BSIZE)) (take (Z.to_nat n1) p)) in
      Ok (inl (m, din, u32 (off + n1), drop (Z.to_nat n1) p))
    else Fault
  else Ok (inr (m, din, off)).

(** A call appends at most a sector. *)
Definition iappend (m : mkst) (inum : Z) (xp : list Z) : res mkst :=
  let* din := rinode m inum in
  let* r := while (2 ^ 10) iappend_step (m, din, xint (di_size din), xp) in
  let '(m, din, off) := r in
  winode m inum (mk_dinode (di_type din) (di_major din) (di_minor din) (di_nlink din) (xint off)
                   (di_addrs din)).

(** * main *)

Definition entry (inum : Z) (name : list Z) : list Z :=
  le_bytes 2 (xshort inum) ++ strncpy_bytes name DIRSIZ.

(** [while((cc = read(fd, buf, sizeof(buf))) > 0) iappend(inum, buf, cc)]; the
    reads that return something. *)
Fixpoint append_reads (m : mkst) (inum : Z) (reads : list (list Z)) : res mkst :=
  match reads with
  | [] => Ok m
  | buf :: reads' => let* m := iappend m inum buf in append_reads m inum reads'
  end.

(** [if(argv[i][0] == '_') ++argv[i]]. *)
Definition skip_mark (name : list Z) : list Z :=
  match name with c :: name' => if c =? 95 then name' else name | [] => [] end.

(** One turn of the loop over the arguments: the name of a file and its reads,
    none when it cannot be opened. *)
Definition add_file (m : mkst) (rootino : Z) '((name, reads) : list Z * option (list (list Z))) : res mkst :=
  if bool_decide (47 ∈ name) then Fault
  else
    match reads with
    | None => Fault
    | Some reads =>
        let name := skip_mark name in
        let* r := inoalloc m T_FILE in
        let '(m, inum) := r in
        let* m := iappend m rootino (entry inum name) in
        append_reads m inum reads
    end.

Fixpoint add_files (m : mkst) (rootino : Z) (files : list (list Z * option (list (list Z)))) : res mkst :=
  match files with
  | [] => Ok m
  | f :: files' => let* m := add_file m rootino f in add_files m rootino files'
  end.

(** [for(i = 0; i < FSSIZE; i++) wsect(i, zeroes)]. *)
Fixpoint zero_sectors (m : mkst) (i : Z) (n : nat) : mkst :=
  match n with O => m | S n' => zero_sectors (wsect m i zeroes) (i + 1) n' end.

(** [main] of utils/mkfs.c, from the creation of the image on. *)
Definition mkfs_main (files : list (list Z * option (list (list Z)))) : res mkst :=
  let m := mk_mkst [] 1 nmeta in
  let m := zero_sectors m 0 (Z.to_nat FSSIZE) in
  let m := wsect m 1 (splice (replicate 512 0) 0 (enc_sb sb)) in
  let* r := inoalloc m T_DIR in
  let '(m, rootino) := r in
  if negb (rootino =? ROOTINO) then Fault
  else
    let* m := iappend m rootino (entry rootino [46]) in
    let* m := iappend m rootino (entry rootino [46; 46]) in
    let* m := add_files m rootino files in
    let* din := rinode m rootino in
    let off := (xint (di_size din) / BSIZE + 1) * BSIZE in
    let* m := winode m rootino (mk_dinode (di_type din) (di_major din) (di_minor din) (di_nlink din)
                                  (xint (u32 off)) (di_addrs din)) in
    mkfs_balloc m (s32 (freeblock m)).
