(* ===== verification/MkfsProps.v ===== *)
(** utils/mkfs.c: the image that it builds is a file system of fs/fs.c.  The
    program takes blocks from the first free one on; against a disk whose bitmap
    marks the blocks taken so far, which the program only writes at its end,
    each of its steps is a step of the kernel's file system. *)
From S2P Require Import Prelude LibC Ports Ide Block FsLayout Fs FsBlocks FsFile FsRw FsDirProps Mkfs.

(** * Words and sectors *)

Lemma le_int_shift x :
  le_int [u8 x; u8 (Z.shiftr x 8); u8 (Z.shiftr x 16); u8 (Z.shiftr x 24)] = le_int (le_bytes 4 x).
Proof.
  cbn [le_bytes le_int]. rewrite !Z.shiftr_div_pow2 by lia.
  rewrite !Z.div_div by lia. reflexivity.
Qed.

Lemma xint_u32 x : xint x = u32 x.
Proof. unfold xint. rewrite le_int_shift, le_int_bytes. reflexivity. Qed.

Lemma xshort_u16 x : xshort x = u16 x.
Proof.
  unfold xshort. rewrite Z.shiftr_div_pow2 by lia.
  change (le_int [u8 x; u8 (x / 2 ^ 8)]) with (le_int (le_bytes 2 x)). by rewrite le_int_bytes.
Qed.

Lemma xint_small x : 0 ≤ x < 2 ^ 32 → xint x = x.
Proof. rewrite xint_u32. apply u32_small. Qed.

Lemma mk_sb_eq : Mkfs.sb = mk_sb 1000 941 200 30 2 32 58.
Proof. reflexivity. Qed.
Lemma mk_sb_wf : sb_wf Mkfs.sb.
Proof. apply (bool_decide_unpack _). vm_compute. exact I. Qed.
Lemma mk_dstart : dstart Mkfs.sb = 59.
Proof. reflexivity. Qed.

Lemma seek_small sec : 0 ≤ sec < 2 ^ 23 → seek sec = Z.to_nat sec.
Proof.
  intros H. unfold seek, BSIZE. rewrite u32_small by lia. by rewrite Z.div_mul by lia.
Qed.

(** * The image as a disk *)

#[local] Abbreviation sb := Mkfs.sb.
#[local] Abbreviation mused := (used Mkfs.sb).

(** [d] is the image with the bitmap of the blocks taken so far in place. *)
Record mrep (m : mkst) (d : disk) : Prop := {
  mr_len : length (m_img m) = 1000%nat;
  mr_img : ∀ b, 0 ≤ b < 1000 → b ≠ 58 → m_img m !! Z.to_nat b = Some (d 1 b);
  mr_sec : ∀ b, 0 ≤ b < 1000 → length (d 1 b) = 512%nat;
  mr_used : ∀ b, 0 ≤ b < 1000 → mused d 1 b = true ↔ b < freeblock m;
  mr_zero : ∀ b, freeblock m ≤ b < 1000 → d 1 b = replicate 512 0;
  mr_free : 59 ≤ freeblock m ≤ 1000
}.

Section image.
Implicit Types (m : mkst) (d : disk) (b : Z).

Lemma BBLOCK_58 b : 0 ≤ b < 1000 → BBLOCK b sb = 58.
Proof.
intros Hb. rewrite (BBLOCK_eq _ mk_sb_wf) by done. cbn [sb_bmapstart]. rewrite mk_sb_eq. cbn. zlia.
Qed.

Lemma mrep_rsect m d b : mrep m d → 0 ≤ b < 1000 → b ≠ 58 → rsect m b = Ok (d 1 b).
Proof. intros [H1 H2 _ _ _ _] Hb Hn. unfold rsect. rewrite seek_small by lia. by rewrite H2. Qed.

Lemma wsect_img m b buf :
length (m_img m) = 1000%nat → 0 ≤ b < 1000 →
wsect m b buf = mk_mkst (<[Z.to_nat b := buf]> (m_img m)) (freeinode m) (freeblock m).
Proof.
intros Hl Hb. unfold wsect. rewrite seek_small by lia. f_equal.
replace (Z.to_nat b + 1 - length (m_img m))%nat with 0%nat by lia. by rewrite app_nil_r.
Qed.

Lemma mrep_wsect m d b buf :
mrep m d → 0 ≤ b < freeblock m → b ≠ 58 → length buf = 512%nat →
mrep (wsect m b buf) (disk_set d 1 b buf).
Proof.
intros [H1 H2 H3 H4 H5 H6] Hb Hn Hl. rewrite wsect_img by (done || lia).
split; cbn [m_img freeblock].
- by rewrite length_insert.
- intros b' Hb' Hn'. destruct (decide (b' = b)) as [->|Hne].
  + rewrite disk_set_eq. apply list_lookup_insert_eq. lia.
  + rewrite disk_set_ne by auto. rewrite list_lookup_insert_ne by lia. by apply H2.
- intros b' Hb'. destruct (decide (b' = b)) as [->|Hne]; [by rewrite disk_set_eq|].
  rewrite disk_set_ne by auto. by apply H3.
- intros b' Hb'. rewrite (used_disk_set sb); [by apply H4 | done |]. by rewrite BBLOCK_58.
- intros b' Hb'. rewrite disk_set_ne by (right; lia). by apply H5.
- done.
Qed.

(** The next free block is taken as [balloc] of the kernel takes it. *)
Lemma mrep_take m d :
mrep m d → freeblock m < 1000 →
let r := freeblock m in let d' := alloc_disk sb 1 d r in
take_block m = (mk_mkst (m_img m) (freeinode m) (r + 1), r) ∧
mrep (mk_mkst (m_img m) (freeinode m) (r + 1)) d' ∧
data_block sb r ∧ mused d 1 r = false.
Proof.
intros Hm Hf r d'. pose proof Hm as [H1 H2 H3 H4 H5 H6].
assert (data_block sb r) as Hr by (unfold data_block; rewrite mk_dstart; change (sb_size sb) with 1000; lia).
assert (mused d 1 r = false) as Hu.
{ destruct (mused d 1 r) eqn:E; [|done]. apply H4 in E; [|lia]. unfold r in E. lia. }
split; [|split; [|done]].
- unfold take_block. rewrite u32_small, xint_small by lia. done.
- assert (∀ b, b ≠ r → b ≠ 58 → d' 1 b = d 1 b) as Ho.
  { intros b Hb Hb2. apply (alloc_other sb mk_sb_wf); [done | done |].
    unfold bitmap_block. rewrite mk_dstart. change (sb_bmapstart sb) with 58. lia. }
  split; cbn [m_img freeblock].
  + done.
  + intros b Hb Hb2. rewrite H2 by done. destruct (decide (b = r)) as [->|Hne]; [|by rewrite Ho].
    unfold d'. rewrite (alloc_zero sb). by rewrite H5 by (unfold r; lia).
  + intros b Hb. unfold d', alloc_disk. destruct (decide (b = r)) as [->|Hne]; [by rewrite disk_set_eq|].
    rewrite disk_set_ne by auto. unfold mark_used. destruct (decide (b = BBLOCK r sb)) as [->|Hn2].
    * rewrite disk_set_eq. unfold set_bit. rewrite length_zset. apply H3. rewrite BBLOCK_58 by lia. lia.
    * rewrite disk_set_ne by auto. by apply H3.
  + intros b Hb. unfold d'. rewrite (alloc_used sb mk_sb_wf); [| |done|done].
    * rewrite orb_true_iff, bool_decide_eq_true, H4 by done. unfold r. lia.
    * intros bno Hbno. apply H3. change (sb_size sb) with 1000 in Hbno. lia.
  + intros b Hb. rewrite Ho by (unfold r; lia). apply H5. lia.
  + unfold r. lia.
Qed.
End image.

(** * Finding the block of a turn *)

(** The in-memory inode of inode [inum] with these contents. *)
Definition kin (inum : Z) (di : dinode) : inode := load_dinode (mk_inode 1 inum 1 1 0 0 0 0 0 []) di.

(** Exactly the first [nb] blocks of the file are there. *)
Record shape (d : disk) (x : inode) (nb : Z) : Prop := {
  sh_nb : 0 ≤ nb ≤ NBLK;
  sh_addr : ∀ bn, 0 ≤ bn < NBLK → blk_addr 1 d x bn ≠ 0 ↔ bn < nb;
  sh_ind : ind_of x ≠ 0 ↔ NDIRECT < nb
}.

(** The blocks that a file of [nb] blocks takes, and of a size. *)
Definition taken (nb : Z) : Z := nb + (if NDIRECT <? nb then 1 else 0).
Definition nblk (size : Z) : Z := (size + 511) / 512.

Section block.
Implicit Types (m : mkst) (d : disk) (b : Z) (x : inode) (din : dinode).
#[local] Abbreviation file_wf := (file_wf sb 1).
#[local] Abbreviation file_step := (file_step sb 1).

Lemma mrep_len m d : mrep m d → ∀ bno, 1 ≤ bno < sb_size sb → length (d 1 bno) = 512%nat.
Proof. intros Hm bno Hb. change (sb_size sb) with 1000 in Hb. apply (mr_sec _ _ Hm). lia. Qed.

Lemma own_small d x b : file_wf d x → own 1 d x b → 59 ≤ b < 1000.
Proof.
intros Hwf Ho. destruct (fw_own _ _ _ _ Hwf b Ho) as [Hb _]. unfold data_block in Hb.
rewrite mk_dstart in Hb. exact Hb.
Qed.

Lemma own_taken m d x b : mrep m d → file_wf d x → own 1 d x b → 59 ≤ b < freeblock m.
Proof.
intros Hm Hwf Ho. pose proof (own_small d x b Hwf Ho). destruct (fw_own _ _ _ _ Hwf b Ho) as [_ Hu].
apply (mr_used _ _ Hm) in Hu; lia.
Qed.

Lemma addr_small d x bn : file_wf d x → 0 ≤ bn < NBLK → 0 ≤ blk_addr 1 d x bn < 1000.
Proof.
intros Hwf Hbn. destruct (decide (blk_addr 1 d x bn = 0)) as [->|Hn]; [lia|].
pose proof (own_small d x _ Hwf (own_addr _ _ _ _ Hbn Hn)). lia.
Qed.

Lemma ind_small d x : file_wf d x → 0 ≤ ind_of x < 1000.
Proof.
intros Hwf. destruct (decide (ind_of x = 0)) as [->|Hn]; [lia|].
pose proof (own_small d x _ Hwf (own_ind _ _ _ Hn)). lia.
Qed.

(** What finding a block leaves: the file with [new] blocks more. *)
Definition found (m : mkst) d din inum (m' : mkst) d' din' (new : Z) : Prop :=
  let x := kin inum din in let x' := kin inum din' in
  mrep m' d' ∧ file_step d x d' x' ∧
  (∀ i, 0 ≤ i < NBLK * BSIZE → file_byte 1 d' x' i = file_byte 1 d x i) ∧
  freeblock m' = freeblock m + new ∧ freeinode m' = freeinode m ∧
  (∃ l, din' = mk_dinode (di_type din) (di_major din) (di_minor din) (di_nlink din) (di_size din) l).

Lemma found_refl m d din inum : mrep m d → file_wf d (kin inum din) → found m d din inum m d din 0.
Proof.
intros Hm Hwf. split; [done|]. split; [by apply file_step_refl|].
split; [done|]. split; [lia|]. split; [done|]. exists (di_addrs din). by destruct din.
Qed.

Lemma found_trans m d din inum m1 d1 din1 n1 m2 d2 din2 n2 :
found m d din inum m1 d1 din1 n1 → found m1 d1 din1 inum m2 d2 din2 n2 →
found m d din inum m2 d2 din2 (n1 + n2).
Proof.
intros (_ & S1 & B1 & F1 & I1 & l1 & E1) (M2 & S2 & B2 & F2 & I2 & l2 & E2).
split; [done|]. split; [by eapply (file_step_trans sb mk_sb_wf)|].
split; [intros i Hi; by rewrite B2, B1|]. split; [lia|]. split; [congruence|].
exists l2. rewrite E2, E1. reflexivity.
Qed.

(** The new block is one of the direct ones. *)
Lemma direct_block_spec m d din inum fbn nb :
let x := kin inum din in
mrep m d → file_wf d x → shape d x nb → 0 ≤ fbn < NDIRECT → fbn ≤ nb →
freeblock m + taken (Z.max nb (fbn + 1)) - taken nb ≤ 1000 →
∃ m' d' din', direct_block m din fbn = (m', din', blk_addr 1 d' (kin inum din') fbn) ∧
  found m d din inum m' d' din' (taken (Z.max nb (fbn + 1)) - taken nb) ∧
  shape d' (kin inum din') (Z.max nb (fbn + 1)).
Proof.
intros x Hm Hwf Hsh Hf Hnb Hfree. destruct Hsh as [S1 S2 S3]. pose proof (mr_free _ _ Hm) as Hfr.
assert (blk_addr 1 d x fbn = zget (di_addrs din) fbn) as Ea
  by (unfold blk_addr; by rewrite (proj2 (Z.ltb_lt _ _)) by lia).
assert (0 ≤ fbn < NBLK) as Hf' by (unfold NBLK, NDIRECT in *; lia).
pose proof (addr_small d x fbn Hwf Hf') as Hsm.
unfold direct_block. rewrite <- Ea, xint_small by lia.
destruct (Z.eqb_spec (blk_addr 1 d x fbn) 0) as [E0|N0].
- assert (fbn = nb) as -> by (destruct (decide (fbn < nb)) as [Hlt|]; [by apply S2 in Hlt|lia]).
  rewrite Z.max_r in * by lia.
  assert (taken (nb + 1) - taken nb = 1) as Et
    by (unfold taken; repeat case_match; unfold NDIRECT in *; lia).
  rewrite Et in *. destruct (mrep_take m d Hm) as (E & Hm' & Hr & Hu); [lia|].
  rewrite E. set (r := freeblock m) in *. cbn [di_addrs].
  destruct (step_direct sb mk_sb_wf 1 d x nb r) as (Hst & Ei & Hblk & Hby); try done.
  { by eapply mrep_len. }
  set (d' := alloc_disk sb 1 d r) in *.
  set (din' := mk_dinode _ _ _ _ _ (zset (di_addrs din) nb r)).
  change (set_addr x nb r) with (kin inum din') in *.
  assert (blk_addr 1 d' (kin inum din') nb = r) as Er by (rewrite Hblk by done; by rewrite decide_True).
  exists (mk_mkst (m_img m) (freeinode m) (r + 1)), d', din'. split; [|split].
  + rewrite Er. do 2 f_equal. rewrite zget_zset_eq; [apply xint_small; lia|].
    pose proof (fw_len _ _ _ _ Hwf) as Hl. cbn in Hl. unfold NDIRECT in *. lia.
  + split; [done|]. split; [done|]. split; [done|]. split; [done|]. split; [done|]. by eexists.
  + split; [unfold NBLK, NDIRECT in *; lia| |].
    * intros bn Hbn. rewrite Hblk by done. case_decide as Eb; [subst bn; lia|].
      rewrite S2 by done. lia.
    * rewrite Ei, S3. unfold NDIRECT in *. lia.
- assert (fbn < nb) as Hlt by (by apply S2). rewrite Z.max_l in * by lia.
  exists m, d, din. fold x. rewrite Z.sub_diag, <- Ea, xint_small by lia.
  split; [done|]. split; [by apply found_refl|]. by split.
Qed.

(** The indirect block, made when the file has none. *)
Lemma indirect_slot m d din inum :
let x := kin inum din in let new := if ind_of x =? 0 then 1 else 0 in
mrep m d → file_wf d x → freeblock m + new ≤ 1000 →
∃ m' d' din', direct_block m din NDIRECT = (m', din', ind_of (kin inum din')) ∧
  found m d din inum m' d' din' new ∧ ind_of (kin inum din') ≠ 0 ∧
  (∀ bn, 0 ≤ bn < NBLK → blk_addr 1 d' (kin inum din') bn = blk_addr 1 d x bn).
Proof.
intros x new Hm Hwf Hfree. pose proof (ind_small d x Hwf) as Hsm. pose proof (mr_free _ _ Hm) as Hf.
unfold direct_block, new in *. change (zget (di_addrs din) NDIRECT) with (ind_of x). rewrite xint_small by lia.
destruct (Z.eqb_spec (ind_of x) 0) as [E0|N0].
- destruct (mrep_take m d Hm) as (E & Hm' & Hr & Hu); [lia|].
  rewrite E. set (r := freeblock m) in *. cbn [di_addrs].
  destruct (step_indirect sb mk_sb_wf 1 d x r) as (Hst & Ei & Hblk & Hby); try done.
  { by eapply mrep_len. }
  set (d' := alloc_disk sb 1 d r) in *.
  set (din' := mk_dinode _ _ _ _ _ (zset (di_addrs din) NDIRECT r)).
  change (set_addr x NDIRECT r) with (kin inum din') in *.
  exists (mk_mkst (m_img m) (freeinode m) (r + 1)), d', din'. split; [|split; [|split]].
  + do 2 f_equal. change (zget (zset (di_addrs din) NDIRECT r) NDIRECT) with (ind_of (kin inum din')).
    apply xint_small. lia.
  + split; [done|]. split; [done|]. split; [done|]. split; [done|]. split; [done|]. by eexists.
  + lia.
  + exact Hblk.
- exists m, d, din. change (zget (di_addrs din) NDIRECT) with (ind_of x). rewrite xint_small by lia.
  split; [done|]. split; [by apply found_refl|]. done.
Qed.

(** A block behind the indirect block, which is there. *)
Lemma indirect_entry m d din inum fbn :
let x := kin inum din in let new := if blk_addr 1 d x fbn =? 0 then 1 else 0 in
mrep m d → file_wf d x → ind_of x ≠ 0 → NDIRECT ≤ fbn < NBLK → freeblock m + new ≤ 1000 →
∃ m' d', (let k := Z.to_nat (4 * (fbn - NDIRECT)) in
    let* indirect := rsect m (ind_of x) in
    if get32 indirect k =? 0 then
      let '(m, b) := take_block m in
      let indirect := put32 indirect k b in
      Ok (wsect m (ind_of x) indirect, din, xint (get32 indirect k))
    else Ok (m, din, xint (get32 indirect k))) = Ok (m', din, blk_addr 1 d' x fbn) ∧
  found m d din inum m' d' din new ∧ blk_addr 1 d' x fbn ≠ 0 ∧
  (∀ bn, 0 ≤ bn < NBLK → bn ≠ fbn → blk_addr 1 d' x bn = blk_addr 1 d x bn).
Proof.
intros x new Hm Hwf Hi Hf Hfree. pose proof (own_taken m d x _ Hm Hwf (own_ind _ _ _ Hi)) as Hir.
pose proof (mr_free _ _ Hm) as Hfr. assert (0 ≤ fbn < NBLK) as Hf' by (unfold NBLK, NDIRECT in *; lia).
pose proof (addr_small d x fbn Hwf Hf') as Hsm. cbv zeta. rewrite (mrep_rsect m d) by (done || lia).
cbn [rbind]. set (k := Z.to_nat (4 * (fbn - NDIRECT))).
assert (get32 (d 1 (ind_of x)) k = blk_addr 1 d x fbn) as Ea.
{ unfold blk_addr. rewrite (proj2 (Z.ltb_ge _ _)) by lia. by rewrite (proj2 (Z.eqb_neq _ _)). }
rewrite Ea. unfold new in *. destruct (Z.eqb_spec (blk_addr 1 d x fbn) 0) as [E0|N0].
- destruct (mrep_take m d Hm) as (E & Hm' & Hr & Hu); [lia|].
  rewrite E. set (r := freeblock m) in *.
  destruct (step_entry sb mk_sb_wf 1 d x fbn r) as (Hst & Hblk & Hby & _); try done.
  { by eapply mrep_len. }
  fold k in Hst, Hblk, Hby. set (d' := disk_set _ 1 _ _) in *.
  assert (blk_addr 1 d' x fbn = r) as Er by (rewrite Hblk by done; by rewrite decide_True).
  assert (length (d 1 (ind_of x)) = 512%nat) as Hl by (apply (mr_sec _ _ Hm); lia).
  eexists _, d'. split; [reflexivity || (do 2 f_equal)|].
  + rewrite Er, get32_put32; [rewrite u32_small by lia; apply xint_small; lia|].
    rewrite Hl. unfold k, NBLK, NDIRECT in *. lia.
  + split; [|split].
    * split; [|split; [done|split; [done|split; [done|split; [done|by exists (di_addrs din); destruct din]]]]].
      apply mrep_wsect; [done | cbn; lia | lia |]. unfold put32. by rewrite length_splice.
    * rewrite Er. lia.
    * intros bn Hbn Hne. rewrite Hblk by done. by rewrite decide_False.
- exists m, d. rewrite xint_small by lia. split; [done|]. split; [by apply found_refl|]. done.
Qed.

Lemma indirect_block_spec m d din inum fbn nb :
let x := kin inum din in
mrep m d → file_wf d x → shape d x nb → NDIRECT ≤ fbn < NBLK → fbn ≤ nb →
freeblock m + taken (Z.max nb (fbn + 1)) - taken nb ≤ 1000 →
∃ m' d' din', indirect_block m din fbn = Ok (m', din', blk_addr 1 d' (kin inum din') fbn) ∧
  found m d din inum m' d' din' (taken (Z.max nb (fbn + 1)) - taken nb) ∧
  shape d' (kin inum din') (Z.max nb (fbn + 1)).
Proof.
intros x Hm Hwf [S1 S2 S3] Hf Hnb Hfree.
set (n1 := if ind_of x =? 0 then 1 else 0). set (n2 := if blk_addr 1 d x fbn =? 0 then 1 else 0).
assert (0 ≤ fbn < NBLK) as Hf' by (unfold NBLK, NDIRECT in *; lia).
assert (taken (Z.max nb (fbn + 1)) - taken nb = n1 + n2) as En.
{ pose proof (S2 fbn Hf') as Hs. unfold n1, n2, taken.
  destruct (Z.eqb_spec (ind_of x) 0), (Z.eqb_spec (blk_addr 1 d x fbn) 0),
    (Z.ltb_spec NDIRECT nb), (Z.ltb_spec NDIRECT (Z.max nb (fbn + 1))); try lia;
    unfold NDIRECT in *; try lia; exfalso; intuition lia. }
rewrite En in *. unfold indirect_block.
destruct (indirect_slot m d din inum) as (m1 & d1 & din1 & E1 & F1 & Hi & Hb1); [done|done|fold x; fold n1; unfold n2 in *; case_match; lia|].
fold x n1 in F1, Hb1. rewrite E1. set (x1 := kin inum din1) in *.
assert (n2 = if blk_addr 1 d1 x1 fbn =? 0 then 1 else 0) as En2 by (by rewrite Hb1).
pose proof F1 as (Hm1 & Hst1 & _ & Hfb1 & _).
destruct (indirect_entry m1 d1 din1 inum fbn) as (m2 & d2 & E2 & F2 & Ha & Hb2); try done.
{ apply Hst1. } { fold x1. rewrite <- En2. lia. }
fold x1 in E2, F2, Ha, Hb2. rewrite <- En2 in F2.
exists m2, d2, din1. split; [exact E2|]. split; [by eapply found_trans|].
split; [unfold NBLK in *; lia| |].
- intros bn Hbn. destruct (decide (bn = fbn)) as [->|Hne]; [split; [lia|done]|].
  rewrite Hb2, Hb1, S2 by done. lia.
- split; [unfold NDIRECT in *; lia|]. done.
Qed.
End block.

(** * The loop of [iappend] *)

Section append.
Implicit Types (m : mkst) (d : disk) (x : inode) (din : dinode) (p : list Z).
#[local] Abbreviation file_wf := (file_wf sb 1).
#[local] Abbreviation file_step := (file_step sb 1).

Lemma taken_mono a b : a ≤ b → taken a ≤ taken b.
Proof. intros. unfold taken, NDIRECT. destruct (Z.ltb_spec 12 a), (Z.ltb_spec 12 b); lia. Qed.

Lemma nblk_turn off n :
0 ≤ off → 0 < n → let n1 := Z.min n ((off / 512 + 1) * 512 - off) in
0 < n1 ≤ n ∧ off mod 512 + n1 ≤ 512 ∧ off / 512 ≤ nblk off ∧
nblk (off + n1) = Z.max (nblk off) (off / 512 + 1) ∧ nblk (off + n1) ≤ nblk (off + n).
Proof. intros Ho Hn n1. unfold n1, nblk. split_and!; zlia. Qed.

Lemma block_at m d din inum fbn nb :
let x := kin inum din in
mrep m d → file_wf d x → shape d x nb → 0 ≤ fbn < NBLK → fbn ≤ nb →
freeblock m + taken (Z.max nb (fbn + 1)) - taken nb ≤ 1000 →
∃ m' d' din', (if fbn <? NDIRECT then Ok (direct_block m din fbn) else indirect_block m din fbn) =
    Ok (m', din', blk_addr 1 d' (kin inum din') fbn) ∧
  found m d din inum m' d' din' (taken (Z.max nb (fbn + 1)) - taken nb) ∧
  shape d' (kin inum din') (Z.max nb (fbn + 1)).
Proof.
intros x Hm Hwf Hsh Hf Hnb Hfree. destruct (Z.ltb_spec fbn NDIRECT).
- destruct (direct_block_spec m d din inum fbn nb) as (m' & d' & din' & E & Hr); [done|done|done|lia|done|done|].
  exists m', d', din'. by rewrite E.
- apply indirect_block_spec; (done || lia).
Qed.

(** A turn that has copied the first [i] bytes of [p0]. *)
Definition appended m0 (d0 : disk) din0 inum off0 p0 '((m, din, off, p) : mkst * dinode * Z * list Z) : Prop :=
  ∃ d (i : nat), (i ≤ length p0)%nat ∧ off = off0 + Z.of_nat i ∧ p = drop i p0 ∧ mrep m d ∧
    file_step d0 (kin inum din0) d (kin inum din) ∧
    wrote 1 d0 (kin inum din0) d (kin inum din) off0 (take i p0) ∧
    shape d (kin inum din) (nblk off) ∧
    freeblock m = freeblock m0 + taken (nblk off) - taken (nblk off0) ∧ freeinode m = freeinode m0 ∧
    ∃ l, din = mk_dinode (di_type din0) (di_major din0) (di_minor din0) (di_nlink din0) (di_size din0) l.

Lemma iappend_turn m0 d0 din0 inum off0 p0 st :
0 ≤ off0 → off0 + Z.of_nat (length p0) ≤ MAXFILE * BSIZE →
freeblock m0 + taken (nblk (off0 + Z.of_nat (length p0))) - taken (nblk off0) ≤ 1000 →
appended m0 d0 din0 inum off0 p0 st → st.2 ≠ [] →
∃ st', iappend_step st = Ok (inl st') ∧ appended m0 d0 din0 inum off0 p0 st' ∧
  (length st'.2 < length st.2)%nat.
Proof.
destruct st as [[[m din] off] p]. change (MAXFILE * BSIZE) with 71680.
intros Ho Hmax Hfree (d & i & Hi & -> & -> & Hm & Hst & Hwr & Hsh & Hfb & Hfi & l & Edin) Hp.
cbn [snd] in Hp |- *. set (off := off0 + Z.of_nat i) in *. set (p := drop i p0) in *.
assert (0 < Z.of_nat (length p)) as Hpos by (destruct p; [done | cbn; lia]).
assert (Z.of_nat i + Z.of_nat (length p) = Z.of_nat (length p0)) as Hlp
  by (unfold p; rewrite length_drop; lia).
destruct (nblk_turn off (Z.of_nat (length p))) as (Hn1 & Hfit & Hb1 & Hb2 & Hb3); [lia|done|].
set (n1 := Z.min _ _) in *.
pose proof (st_wf _ _ _ _ _ _ Hst) as Hwf. set (x := kin inum din) in *.
assert (0 ≤ off / 512 < NBLK) as Hbn by (unfold NBLK; zlia).
replace (off0 + Z.of_nat (length p0)) with (off + Z.of_nat (length p)) in * by lia.
destruct (block_at m d din inum (off / 512) (nblk off)) as (m1 & d1 & din1 & E1 & F1 & Sh1); try done.
{ rewrite <- Hb2. pose proof (taken_mono _ _ Hb3). lia. }
rewrite <- Hb2 in F1, Sh1. destruct F1 as (Hm1 & Hst1 & Hby1 & Hfb1 & Hfi1 & l1 & Edin1).
set (x1 := kin inum din1) in *. pose proof (st_wf _ _ _ _ _ _ Hst1) as Hwf1.
assert (blk_addr 1 d1 x1 (off / 512) ≠ 0) as Ha by (apply (sh_addr _ _ _ Sh1); [done | lia]).
pose proof (own_taken m1 d1 x1 _ Hm1 Hwf1 (own_addr _ _ _ _ Hbn Ha)) as Har.
pose proof (mr_free _ _ Hm1) as Hfr1.
unfold iappend_step. rewrite (proj2 (Z.ltb_lt _ _)) by done. change BSIZE with 512.
rewrite (proj2 (Z.ltb_lt (off / 512) MAXFILE)) by (unfold NBLK in *; change MAXFILE with 140; lia).
rewrite E1. cbn [rbind]. rewrite (mrep_rsect m1 d1) by (done || lia). cbn [rbind]. fold n1.
eexists; split; [reflexivity|].
set (a := blk_addr 1 d1 x1 (off / 512)) in *.
replace (off - off / 512 * 512) with (off mod 512) by zlia.
set (bs := take (Z.to_nat n1) p).
assert (length bs = Z.to_nat n1) as Hlb by (unfold bs; rewrite length_take; lia).
assert (length (d1 1 a) = 512%nat) as Hla by (apply (mr_sec _ _ Hm1); lia).
destruct (step_copy sb mk_sb_wf 1 ltac:(lia) d1 x1 off bs) as (Hst2 & Hblk2 & Hwr2); try done.
{ lia. } { change BSIZE with 512. lia. } { change BSIZE with 512. unfold NBLK. lia. }
change BSIZE with 512 in Hst2, Hblk2, Hwr2. fold a in Hst2, Hblk2, Hwr2.
set (d2 := disk_set d1 1 a _) in *. split; [|cbn [snd]; rewrite length_drop; lia].
exists d2, (i + Z.to_nat n1)%nat. rewrite u32_small by (unfold off in *; lia).
assert (off + n1 = off0 + Z.of_nat (i + Z.to_nat n1)) as Eoff by (unfold off; lia).
split; [lia|]. split; [done|]. split; [unfold p; rewrite drop_drop; done|].
split; [apply mrep_wsect; [done | lia | lia | by rewrite length_splice]|].
split; [by eapply (file_step_trans sb mk_sb_wf); [|eapply (file_step_trans sb mk_sb_wf)]|].
split; [|split; [|split; [|split]]].
- rewrite <- take_drop_app. fold p bs. eapply wrote_app.
  + eapply wrote_frame; [exact Hwr | exact Hby1].
  + rewrite length_take_le by done. fold off. exact Hwr2.
- rewrite Eoff in *. destruct Sh1 as [T1 T2 T3]. split; [done | | done].
  intros bn Hbn'. rewrite Hblk2. by apply T2.
- cbn. lia.
- cbn. congruence.
- exists l1. rewrite Edin1, Edin. reflexivity.
Qed.
End append.

(** * The files on the image *)

Definition file_at (d : disk) (inum : Z) : inode := kin inum (disk_inode sb 1 d inum).

(** Inode [inum] is a file of type [ty] with the contents [c]. *)
Record holds (d : disk) (inum ty : Z) (c : list Z) : Prop := {
  ho_wf : file_wf sb 1 d (file_at d inum);
  ho_shape : shape d (file_at d inum) (nblk (Z.of_nat (length c)));
  ho_meta : disk_inode sb 1 d inum =
    mk_dinode ty 0 0 1 (Z.of_nat (length c)) (i_addrs (file_at d inum));
  ho_bytes : file_bytes 1 d (file_at d inum) 0 (length c) = c;
  ho_tail : ∀ i, Z.of_nat (length c) ≤ i < NBLK * BSIZE → file_byte 1 d (file_at d inum) i = 0
}.

(** The blocks of a file with these contents. *)
Definition weight (f : Z * list Z) : Z := taken (nblk (Z.of_nat (length f.2))).
Fixpoint weights (fs : list (Z * list Z)) : Z :=
  match fs with [] => 0 | f :: fs' => weight f + weights fs' end.

Lemma weights_snoc fs f : weights (fs ++ [f]) = weights fs + weight f.
Proof. induction fs as [|g fs IH]; cbn [weights app]; [lia|]. rewrite IH. lia. Qed.
Lemma weights_insert fs k f g :
  fs !! k = Some f → weights (<[k := g]> fs) = weights fs - weight f + weight g.
Proof.
  revert k. induction fs as [|h fs IH]; intros [|k] Hk; try done.
  - injection Hk as ->. change (weight g + weights fs = weight f + weights fs - weight f + weight g). lia.
  - change (weight h + weights (<[k := g]> fs) = weight h + weights fs - weight f + weight g).
    rewrite (IH k) by done. lia.
Qed.

(** The image holds the files [fs], at the inodes from 1 on. *)
Record image (m : mkst) (d : disk) (fs : list (Z * list Z)) : Prop := {
  im_rep : mrep m d;
  im_count : freeinode m = 1 + Z.of_nat (length fs);
  im_inodes : Z.of_nat (length fs) < 200;
  im_files : ∀ k ty c, fs !! k = Some (ty, c) → holds d (Z.of_nat k + 1) ty c;
  im_apart : ∀ i j b, 1 ≤ i ≤ Z.of_nat (length fs) → 1 ≤ j ≤ Z.of_nat (length fs) → i ≠ j →
    own 1 d (file_at d i) b → ¬ own 1 d (file_at d j) b;
  im_free : freeblock m = 59 + weights fs;
  im_sb : dec_sb (d 1 1) = sb;
  im_rest : ∀ j, 0 ≤ j < 200 → j = 0 ∨ Z.of_nat (length fs) < j → di_type (disk_inode sb 1 d j) = 0
}.

Section files.
Implicit Types (m : mkst) (d : disk) (x y : inode) (din : dinode) (c : list Z).
#[local] Abbreviation file_wf := (file_wf sb 1).
#[local] Abbreviation file_step := (file_step sb 1).

(** A file whose blocks are left alone is still there. *)
Lemma kept_file d d' y :
file_wf d y → (∀ b, own 1 d y b → d' 1 b = d 1 b ∧ mused d' 1 b = true) →
file_wf d' y ∧ (∀ bn, blk_addr 1 d' y bn = blk_addr 1 d y bn) ∧
(∀ b, own 1 d' y b ↔ own 1 d y b) ∧
(∀ i, 0 ≤ i < NBLK * BSIZE → file_byte 1 d' y i = file_byte 1 d y i).
Proof.
intros Hwf Hk.
assert (∀ bn, blk_addr 1 d' y bn = blk_addr 1 d y bn) as Hb
  by (intros bn; apply blk_addr_ext; intros Hn; by apply Hk, own_ind).
assert (∀ b, own 1 d' y b ↔ own 1 d y b) as Ho.
{ intros b. unfold own. split; intros (H1 & [H2|(bn & H2 & H3)]); (split; [done|]); auto; right;
    exists bn; [by rewrite <- Hb | by rewrite Hb]. }
split; [|split; [done|split; [done|]]].
- destruct Hwf as [W1 W2 W3 W4 W5 W6 W7]. split; try done.
  + intros b Hob. apply Ho in Hob. split; [by apply W5|]. by apply Hk.
  + intros bn bn'. rewrite !Hb. apply W6.
  + intros bn. rewrite Hb. apply W7.
- intros i Hi. assert (0 ≤ i / BSIZE < NBLK) by (unfold NBLK, BSIZE in *; zlia).
  apply file_byte_ext; [done|]. intros Hn. by apply Hk, own_addr.
Qed.

Lemma holds_kept d d' inum ty c :
holds d inum ty c → disk_inode sb 1 d' inum = disk_inode sb 1 d inum →
(∀ b, own 1 d (file_at d inum) b → d' 1 b = d 1 b ∧ mused d' 1 b = true) →
holds d' inum ty c ∧ (∀ b, own 1 d' (file_at d' inum) b ↔ own 1 d (file_at d inum) b).
Proof.
intros [H1 H2 H3 H4 H5] E Hk. destruct (kept_file d d' _ H1 Hk) as (K1 & K2 & K3 & K4).
assert (file_at d' inum = file_at d inum) as Ef by (unfold file_at; by rewrite E).
split; [|by rewrite Ef]. split; rewrite Ef; try done.
- destruct H2 as [S1 S2 S3]. split; [done | | done]. intros bn Hbn. rewrite K2. by apply S2.
- by rewrite E.
- etransitivity; [|exact H4]. unfold file_bytes. apply list_fmap_ext. intros i k Hi.
  apply lookup_seq in Hi as [-> Hi]. apply K4.
  assert (Z.of_nat (length c) ≤ 71680) as Hc.
  { pose proof (fw_size _ _ _ _ H1) as Hs. unfold file_at in Hs. rewrite H3 in Hs. exact (proj2 Hs). }
  unfold NBLK. change (140 * BSIZE) with 71680. lia.
- intros i Hi. rewrite K4 by lia. by apply H5.
Qed.

Lemma sb_ninodes_200 : sb_ninodes sb = 200.
Proof. reflexivity. Qed.

Lemma iblock_range inum : 0 ≤ inum < 200 → 32 ≤ IBLOCK inum sb < 58.
Proof.
intros Hi. destruct (IBLOCK_range sb mk_sb_wf inum) as [E ?]; [by rewrite sb_ninodes_200|].
change (sb_inodestart sb) with 32 in E. change (sb_bmapstart sb) with 58 in *. rewrite E. zlia.
Qed.

Lemma rinode_spec m d inum :
mrep m d → 0 ≤ inum < 200 → rinode m inum = Ok (disk_inode sb 1 d inum).
Proof.
intros Hm Hi. pose proof (iblock_range inum Hi). unfold rinode.
rewrite (mrep_rsect m d) by (done || lia). reflexivity.
Qed.

Lemma winode_spec m d x :
mrep m d → 0 ≤ i_inum x < 200 →
∃ m', winode m (i_inum x) (dinode_of x) = Ok m' ∧ mrep m' (put_dinode sb 1 d x) ∧
  freeblock m' = freeblock m ∧ freeinode m' = freeinode m.
Proof.
intros Hm Hi. pose proof (iblock_range _ Hi) as Hb. pose proof (mr_free _ _ Hm). unfold winode.
rewrite (mrep_rsect m d) by (done || lia). cbn [rbind]. eexists; split; [reflexivity|]. split; [|done].
apply mrep_wsect; [done | lia | lia |]. rewrite length_enc_dinode. apply (mr_sec _ _ Hm). lia.
Qed.

(** * [iappend] *)

(** The loop, from a file with the contents [c]. *)
Lemma iappend_loop m d inum ty c xp :
let x := file_at d inum in let din := disk_inode sb 1 d inum in
let len := Z.of_nat (length c) in let fin := Z.of_nat (length (c ++ xp)) in
mrep m d → holds d inum ty c → (length xp ≤ 512)%nat → fin ≤ MAXFILE * BSIZE →
freeblock m + taken (nblk fin) - taken (nblk len) ≤ 1000 →
∃ m' d' l, let din' := mk_dinode ty 0 0 1 len l in
  while (2 ^ 10) iappend_step (m, din, len, xp) = Ok (m', din', fin) ∧ mrep m' d' ∧
  file_step d x d' (kin inum din') ∧ wrote 1 d x d' (kin inum din') len xp ∧
  shape d' (kin inum din') (nblk fin) ∧
  freeblock m' = freeblock m + taken (nblk fin) - taken (nblk len) ∧ freeinode m' = freeinode m.
Proof.
intros x din len fin Hm Hh Hxp Hmax Hfree. destruct Hh as [H1 H2 H3 _ _].
assert (fin = len + Z.of_nat (length xp)) as Ef by (unfold fin, len; rewrite length_app; lia).
assert (di_size din = len ∧ di_type din = ty ∧ di_major din = 0 ∧ di_minor din = 0 ∧ di_nlink din = 1)
  as (M1 & M2 & M3 & M4 & M5) by (unfold din; by rewrite H3).
destruct (while_spec (appended m d din inum len xp) (λ st, Z.of_nat (length st.2))
  (λ r, appended m d din inum len xp (r.1.1, r.1.2, r.2, [])) (2 ^ 10) iappend_step (m, din, len, xp))
  as ([[m' din'] off] & E & Hr).
- intros. lia.
- intros st Hst. destruct (decide (st.2 = [])) as [Ep|Hp].
  + right. destruct st as [[[m1 din1] off1] p1]. cbn in Ep. subst p1. by eexists.
  + left. destruct (iappend_turn m d din inum len xp st) as (st' & E1 & Hst' & Hlt);
      [lia | by rewrite <- Ef | by rewrite <- Ef | done | done |].
    exists st'. split; [done|]. split; [done|]. lia.
- exists d, 0%nat. split; [lia|]. split; [lia|]. split; [by rewrite drop_0|]. split; [done|].
  split; [by apply file_step_refl|]. split; [|split; [done|split; [lia|split; [done|]]]].
  + intros i Hi. rewrite take_0, decide_False by (cbn [length]; lia); done.
  + exists (di_addrs din). by destruct din.
- cbn [snd]. lia.
- destruct Hr as (d' & i & Hi & Eo & Ed & Hm' & Hst & Hwr & Hsh & Hfb & Hfi & l & El).
  cbn [fst snd] in *. apply (f_equal length) in Ed. rewrite length_drop in Ed. cbn in Ed.
  assert (i = length xp) as -> by lia. rewrite firstn_all in Hwr.
  assert (off = fin) as -> by lia. exists m', d', l.
  rewrite M1, M2, M3, M4, M5 in El. subst din'. done.
Qed.
End files.

Section saved.
Implicit Types (m : mkst) (d : disk) (x y : inode) (c : list Z).
#[local] Abbreviation file_wf := (file_wf sb 1).

(** What saving inode [inum] leaves alone. *)
Record saved (d d' : disk) (inum : Z) : Prop := {
  sv_inodes : ∀ j, 0 ≤ j < 200 → j ≠ inum → disk_inode sb 1 d' j = disk_inode sb 1 d j;
  sv_data : ∀ b, 58 ≤ b → d' 1 b = d 1 b;
  sv_used : ∀ b, 0 ≤ b < 1000 → mused d' 1 b = mused d 1 b;
  sv_sb : d' 1 1 = d 1 1
}.

Lemma put_saved d x :
0 ≤ i_inum x < 200 → length (d 1 (IBLOCK (i_inum x) sb)) = 512%nat → dinode_ok (dinode_of x) →
saved d (put_dinode sb 1 d x) (i_inum x) ∧
disk_inode sb 1 (put_dinode sb 1 d x) (i_inum x) = dinode_of x.
Proof.
intros Hi Hl Hok. split; [split|].
- intros j Hj Hne. rewrite (disk_inode_put _ mk_sb_wf) by done. by rewrite decide_False.
- intros b Hb. apply (put_dinode_other _ mk_sb_wf 1 ltac:(lia)); [done|]. exact Hb.
- intros b Hb. by apply (put_dinode_used _ mk_sb_wf 1 ltac:(lia)).
- unfold put_dinode. rewrite disk_set_ne; [done|]. right. pose proof (iblock_range _ Hi). lia.
- rewrite (disk_inode_put _ mk_sb_wf) by done. by rewrite decide_True.
Qed.

(** Saving an inode of a file with the contents [c] puts the file there. *)
Lemma winode_holds m d x ty c :
let d' := put_dinode sb 1 d x in let inum := i_inum x in
mrep m d → 1 ≤ inum < 200 → file_wf d x → shape d x (nblk (Z.of_nat (length c))) →
dinode_of x = mk_dinode ty 0 0 1 (Z.of_nat (length c)) (i_addrs x) → x = kin inum (dinode_of x) →
- 2 ^ 15 ≤ ty < 2 ^ 15 →
(∀ i, 0 ≤ i < NBLK * BSIZE →
   file_byte 1 d x i = if decide (i < Z.of_nat (length c)) then zget c i else 0) →
∃ m', winode m inum (dinode_of x) = Ok m' ∧ mrep m' d' ∧ freeblock m' = freeblock m ∧
  freeinode m' = freeinode m ∧ saved d d' inum ∧ holds d' inum ty c ∧
  (∀ b, own 1 d' (file_at d' inum) b ↔ own 1 d x b).
Proof.
intros d' inum Hm Hi Hwf Hsh Hd Hx Hty Hby. pose proof (iblock_range inum ltac:(lia)) as Hib.
destruct (winode_spec m d x Hm) as (m' & E & Hm' & Hfb & Hfi); [fold inum; lia|]. fold inum in E.
assert (dinode_ok (dinode_of x)) as Hok.
{ apply (file_dinode_ok _ mk_sb_wf 1 d); [done|]. injection Hd as E1 E2 E3 E4 _.
  split; rewrite ?E1, ?E2, ?E3, ?E4; lia. }
destruct (put_saved d x) as [Hsv Hdi]; [fold inum; lia | apply (mr_sec _ _ Hm); fold inum; lia | done |].
fold d' inum in Hsv, Hdi.
assert (file_at d' inum = x) as Ef by (unfold file_at; rewrite Hdi; by symmetry).
destruct (kept_file d d' x Hwf) as (K1 & K2 & K3 & K4).
{ intros b Ho. pose proof (own_small d x b Hwf Ho). rewrite (sv_data _ _ _ Hsv), (sv_used _ _ _ Hsv) by lia.
  split; [done|]. by apply (fw_own _ _ _ _ Hwf). }
exists m'. do 5 (split; [done|]). rewrite Ef. split; [|done].
split; rewrite ?Ef; [done | | by rewrite Hdi | | ].
- destruct Hsh as [S1 S2 S3]. split; [done | | done]. intros bn Hbn. rewrite K2. by apply S2.
- apply list_eq. intros k. pose proof (fw_size _ _ _ _ Hwf) as Hs. injection Hd as _ _ _ _ Hsz.
  rewrite Hsz in Hs. change (MAXFILE * BSIZE) with 71680 in Hs.
  destruct (decide (k < length c)%nat) as [Hk|Hk].
  + rewrite lookup_file_bytes, K4, Hby by (done || lia || (unfold NBLK; change (140 * BSIZE) with 71680; lia)).
    rewrite decide_True by lia.
    destruct (lookup_lt_is_Some_2 c k Hk) as (v & Hv). rewrite Hv. f_equal. unfold zget.
    replace (Z.to_nat (0 + Z.of_nat k)) with k by lia. by apply list_lookup_total_correct.
  + rewrite !lookup_ge_None_2; [done | lia | rewrite length_file_bytes; lia].
- intros i Hi2. rewrite K4, Hby by lia. by rewrite decide_False by lia.
Qed.

Lemma holds_saved d d' inum inum' ty c :
saved d d' inum → holds d inum' ty c → inum' ≠ inum → 0 ≤ inum' < 200 →
holds d' inum' ty c ∧ (∀ b, own 1 d' (file_at d' inum') b ↔ own 1 d (file_at d inum') b).
Proof.
intros [H1 H2 H3 _] Hh Hne Hi. apply holds_kept; [done | by apply H1 |].
intros b Ho. pose proof (own_small _ _ b (ho_wf _ _ _ _ Hh) Ho). rewrite H2, H3 by lia.
split; [done|]. by apply (fw_own _ _ _ _ (ho_wf _ _ _ _ Hh)).
Qed.
End saved.

(** * The operations on the image *)

Section ops.
Implicit Types (m : mkst) (d : disk) (c : list Z) (fs : list (Z * list Z)).

Lemma meta_used_rep m d : mrep m d → meta_used sb d 1.
Proof.
intros Hm b Hb. rewrite mk_dstart in Hb. apply (mr_used _ _ Hm); [lia|]. pose proof (mr_free _ _ Hm). lia.
Qed.

(** The other files after a step of file [inum]. *)
Lemma holds_step d inum d' x' j ty c :
file_step sb 1 d (file_at d inum) d' x' → meta_used sb d 1 → 0 ≤ j < 200 → holds d j ty c →
(∀ b, own 1 d (file_at d j) b → ¬ own 1 d (file_at d inum) b) →
holds d' j ty c ∧ (∀ b, own 1 d' (file_at d' j) b ↔ own 1 d (file_at d j) b).
Proof.
intros Hst Hm Hj Hh Hap.
apply holds_kept; [done | by apply (file_step_inodes _ mk_sb_wf 1 ltac:(lia) _ _ _ _ _ Hst) |].
intros b Ho. destruct (fw_own _ _ _ _ (ho_wf _ _ _ _ Hh) b Ho) as [Hb Hu].
destruct (file_step_kept _ mk_sb_wf _ _ _ _ _ Hst b Hb Hu) as (E & Hu' & _); [by apply Hap|done].
Qed.

(** One of the files is changed. *)
Lemma image_update m d fs k f ty c m2 d2 :
let inum := Z.of_nat k + 1 in
image m d fs → fs !! k = Some f → mrep m2 d2 → freeinode m2 = freeinode m →
freeblock m2 = freeblock m + weight (ty, c) - weight f → holds d2 inum ty c →
(∀ j ty' c', 1 ≤ j ≤ Z.of_nat (length fs) → j ≠ inum → holds d j ty' c' →
   holds d2 j ty' c' ∧ ∀ b, own 1 d2 (file_at d2 j) b ↔ own 1 d (file_at d j) b) →
(∀ b, own 1 d2 (file_at d2 inum) b → own 1 d (file_at d inum) b ∨ mused d 1 b = false) →
d2 1 1 = d 1 1 →
(∀ j, 0 ≤ j < 200 → j ≠ inum → disk_inode sb 1 d2 j = disk_inode sb 1 d j) →
image m2 d2 (<[k := (ty, c)]> fs).
Proof.
intros inum [Hm Hcnt Hin Hfs Hap Hfb Hsb Hrest] Hk Hm2 Hfi Hw Hh2 Hothers Hnew H1 Hdi.
pose proof (lookup_lt_Some _ _ _ Hk) as Hlt.
assert (∀ j, 1 ≤ j ≤ Z.of_nat (length fs) → ∃ ty' c', holds d j ty' c') as Hall.
{ intros j Hj. destruct (lookup_lt_is_Some_2 fs (Z.to_nat (j - 1))) as ([ty' c'] & Hf); [lia|].
  exists ty', c'. replace j with (Z.of_nat (Z.to_nat (j - 1)) + 1) by lia. by apply Hfs. }
assert (∀ j b, j ≠ inum → 1 ≤ j ≤ Z.of_nat (length fs) → own 1 d2 (file_at d2 inum) b →
  ¬ own 1 d2 (file_at d2 j) b) as Hn.
{ intros j b Hj Hjr Ho Ho'. destruct (Hall j Hjr) as (ty' & c' & Hhj).
  apply (Hothers j ty' c') in Ho'; [|done..]. destruct (Hnew b Ho) as [Ho1|Hu].
  - by apply (Hap inum j b) in Ho1; [|unfold inum; lia|lia|auto].
  - destruct (fw_own _ _ _ _ (ho_wf _ _ _ _ Hhj) b Ho') as [_ Hu']. congruence. }
split; rewrite ?length_insert; [exact Hm2 | lia | exact Hin | | | | |].
- intros k' ty' c' Hk'. destruct (decide (k' = k)) as [->|Hne].
  + rewrite list_lookup_insert_eq in Hk' by done. injection Hk' as <- <-. exact Hh2.
  + rewrite list_lookup_insert_ne in Hk' by done. pose proof (lookup_lt_Some _ _ _ Hk').
    apply Hothers; [lia | unfold inum; lia | by apply Hfs].
- intros i j b Hi' Hj' Hne Ho Ho'.
  destruct (decide (i = inum)) as [->|Ni]; [by apply (Hn j b)|].
  destruct (decide (j = inum)) as [->|Nj]; [by apply (Hn i b)|].
  destruct (Hall i Hi') as (ti & ci & Hhi), (Hall j Hj') as (tj & cj & Hhj).
  apply (Hothers i ti ci) in Ho; [|done..]. apply (Hothers j tj cj) in Ho'; [|done..].
  by apply (Hap i j b).
- rewrite (weights_insert _ _ _ _ Hk). lia.
- by rewrite H1.
- intros j Hj Hr. rewrite Hdi by (unfold inum; lia). by apply Hrest.
Qed.

(** The bytes of a file that is written behind its end. *)
Lemma wrote_end d inum ty c d1 x1 xp :
holds d inum ty c → wrote 1 d (file_at d inum) d1 x1 (Z.of_nat (length c)) xp →
Z.of_nat (length (c ++ xp)) ≤ 71680 →
∀ i, 0 ≤ i < NBLK * BSIZE →
  file_byte 1 d1 x1 i = if decide (i < Z.of_nat (length (c ++ xp))) then zget (c ++ xp) i else 0.
Proof.
intros Hh Hwr Hmax i Hib. rewrite Hwr by done.
unfold zget. rewrite !list_lookup_total_alt. rewrite length_app in *. case_decide as Ed.
- rewrite decide_True by lia. rewrite lookup_app_r by lia. do 2 f_equal. lia.
- case_decide as El; [|apply (ho_tail _ _ _ _ Hh); lia].
  rewrite lookup_app_l by lia. rewrite <- (ho_bytes _ _ _ _ Hh) at 1.
  rewrite lookup_file_bytes by lia. cbn. f_equal. lia.
Qed.

Lemma iappend_image m d fs k ty c xp :
let inum := Z.of_nat k + 1 in
image m d fs → fs !! k = Some (ty, c) → - 2 ^ 15 ≤ ty < 2 ^ 15 → (length xp ≤ 512)%nat →
Z.of_nat (length (c ++ xp)) ≤ MAXFILE * BSIZE →
freeblock m + weight (ty, c ++ xp) - weight (ty, c) ≤ 1000 →
∃ m' d', iappend m inum xp = Ok m' ∧ image m' d' (<[k := (ty, c ++ xp)]> fs).
Proof.
intros inum Him Hk Hty Hxp Hmax Hfree. pose proof Him as [Hm _ Hin Hfs Hap _ _ _].
pose proof (lookup_lt_Some _ _ _ Hk) as Hlt. pose proof (Hfs _ _ _ Hk) as Hh. fold inum in Hh.
set (len := Z.of_nat (length c)) in *. set (fin := Z.of_nat (length (c ++ xp))) in *.
unfold iappend. rewrite (rinode_spec m d) by (done || lia). cbn [rbind].
destruct (iappend_loop m d inum ty c xp) as (m1 & d1 & l & E1 & Hm1 & Hst & Hwr & Hsh & Hfb1 & Hfi1);
  [done|done|done|done|done|]. fold len fin in E1, Hwr, Hsh, Hfb1, Hst.
assert (di_size (disk_inode sb 1 d inum) = len) as Es by (rewrite (ho_meta _ _ _ _ Hh); done).
assert (0 ≤ len ≤ fin) as Hlen by (unfold len, fin; rewrite length_app; lia).
change (MAXFILE * BSIZE) with 71680 in Hmax.
rewrite Es, xint_small, E1 by lia. cbn [rbind di_type di_major di_minor di_nlink di_addrs].
rewrite xint_small by lia.
set (x2 := kin inum (mk_dinode ty 0 0 1 fin l)) in *.
assert (file_step sb 1 d (file_at d inum) d1 x2) as Hst2.
{ eapply (file_step_trans _ mk_sb_wf); [exact Hst|].
  apply (step_size sb 1 d1 (kin inum (mk_dinode ty 0 0 1 len l))); [apply Hst|].
  change (MAXFILE * BSIZE) with 71680. cbn [di_size]. lia. }
destruct (winode_holds m1 d1 x2 ty (c ++ xp)) as (m2 & E2 & Hm2 & Hfb2 & Hfi2 & Hsv & Hh2 & Ho2); try done.
{ change (i_inum x2) with inum. lia. } { apply Hst2. }
{ destruct Hsh as [T1 T2 T3]. by split. }
{ by apply (wrote_end _ _ _ _ _ _ _ Hh Hwr). }
change (i_inum x2) with inum in *. change (dinode_of x2) with (mk_dinode ty 0 0 1 fin l) in E2.
exists m2, (put_dinode sb 1 d1 x2). split; [exact E2|].
pose proof (meta_used_rep m d Hm) as Hmu.
apply (image_update m d fs k (ty, c)); try done; fold inum.
- congruence.
- rewrite Hfb2, Hfb1. unfold weight. cbn [snd]. fold len fin. lia.
- intros j ty' c' Hjr Hj Hhj.
  destruct (holds_step _ _ _ _ j ty' c' Hst2 Hmu ltac:(lia) Hhj) as [Ha Hb];
    [intros b; apply (Hap j inum b); lia|].
  destruct (holds_saved _ _ _ j _ _ Hsv Ha Hj ltac:(lia)) as [Hc Hd]. split; [done|].
  intros b. by rewrite Hd, Hb.
- intros b Ho. apply Ho2 in Ho. apply (st_new _ _ _ _ _ _ Hst2 b Ho).
- rewrite (sv_sb _ _ _ Hsv). apply (st_frame _ _ _ _ _ _ Hst2); [done | | |].
  + apply Hmu. rewrite mk_dstart. lia.
  + intros Ho. pose proof (own_small _ _ _ (ho_wf _ _ _ _ Hh) Ho). lia.
  + unfold bitmap_block. change (sb_bmapstart sb) with 58. lia.
- intros j Hj Hne. rewrite (sv_inodes _ _ _ Hsv) by done.
  by destruct (file_step_inodes _ mk_sb_wf 1 ltac:(lia) _ _ _ _ j Hst2 Hmu).
Qed.

(** An inode without blocks. *)
Definition empty_file (inum ty : Z) : inode := kin inum (mk_dinode ty 0 0 1 0 (replicate 13 0)).

Lemma empty_addr d inum ty bn : 0 ≤ bn < NBLK → blk_addr 1 d (empty_file inum ty) bn = 0.
Proof.
intros Hbn. unfold blk_addr. change (ind_of (empty_file inum ty)) with 0. cbn [Z.eqb].
destruct (Z.ltb_spec bn NDIRECT); [|done].
unfold zget. apply list_lookup_total_correct, lookup_replicate. unfold NDIRECT in *. split; [done | lia].
Qed.

Lemma empty_own d inum ty b : ¬ own 1 d (empty_file inum ty) b.
Proof.
intros (Hb & [E|(bn & Hbn & E)]); [by rewrite E in Hb|]. rewrite empty_addr in E by done. congruence.
Qed.

Lemma empty_wf d inum ty : 0 ≤ inum < 200 → file_wf sb 1 d (empty_file inum ty).
Proof.
intros Hi. split; try done.
- intros b Hb. by apply empty_own in Hb.
- intros bn bn' Hbn _ Hn. by rewrite empty_addr in Hn.
Qed.

Lemma empty_shape d inum ty : shape d (empty_file inum ty) 0.
Proof. split; [done | | done]. intros bn Hbn. rewrite empty_addr by done. lia. Qed.

Lemma inoalloc_image m d fs ty :
image m d fs → Z.of_nat (length fs) < 199 → 0 ≤ ty < 2 ^ 15 →
∃ m' d', inoalloc m ty = Ok (m', Z.of_nat (length fs) + 1) ∧ image m' d' (fs ++ [(ty, [])]).
Proof.
intros [Hm Hcnt Hin Hfs Hap Hfb Hsb Hrest] Hlen Hty. set (inum := Z.of_nat (length fs) + 1).
assert (freeinode m = inum) as Ei by (unfold inum; lia).
unfold inoalloc. rewrite Ei, !xshort_u16, xint_small, u32_small by (unfold inum; lia).
rewrite s16_u16, s16_small by lia. change (s16 (u16 1)) with 1.
set (m1 := mk_mkst (m_img m) (inum + 1) (freeblock m)).
assert (mrep m1 d) as Hm1 by (by destruct Hm).
destruct (winode_holds m1 d (empty_file inum ty) ty []) as (m2 & E2 & Hm2 & Hfb2 & Hfi2 & Hsv & Hh2 & Ho2);
  [exact Hm1 | change (i_inum (empty_file inum ty)) with inum; unfold inum; lia
  | apply empty_wf; unfold inum; lia | apply empty_shape | reflexivity | reflexivity | lia | |].
{ intros i Hi. unfold file_byte.
  rewrite empty_addr by (unfold NBLK, BSIZE in *; zlia). cbn. by rewrite decide_False by lia. }
change (i_inum (empty_file inum ty)) with inum in *.
change (dinode_of (empty_file inum ty)) with (mk_dinode ty 0 0 1 0 (replicate 13 0)) in E2.
rewrite E2. cbn [rbind]. set (d2 := put_dinode sb 1 d (empty_file inum ty)) in *.
exists m2, d2. split; [done|].
assert (∀ j ty' c', 1 ≤ j ≤ Z.of_nat (length fs) → holds d j ty' c' →
  holds d2 j ty' c' ∧ ∀ b, own 1 d2 (file_at d2 j) b ↔ own 1 d (file_at d j) b) as Hothers
  by (intros j ty' c' Hj Hh; apply (holds_saved d d2 inum j ty' c' Hsv Hh); unfold inum; lia).
assert (∀ j, 1 ≤ j ≤ Z.of_nat (length fs) → ∀ b, own 1 d2 (file_at d2 j) b ↔ own 1 d (file_at d j) b) as Hown.
{ intros j Hj. destruct (lookup_lt_is_Some_2 fs (Z.to_nat (j - 1))) as ([ty' c'] & Hf); [lia|].
  apply (Hothers j ty' c'); [done|]. replace j with (Z.of_nat (Z.to_nat (j - 1)) + 1) by lia. by apply Hfs. }
split; rewrite ?length_app; cbn [length]; [exact Hm2 | | | | | | |].
- rewrite Hfi2. cbn [m1 freeinode]. unfold inum. lia.
- lia.
- intros k ty' c' Hk. destruct (decide (k < length fs)%nat) as [Hlt|Hge].
  + rewrite lookup_app_l in Hk by done. apply Hothers; [lia | by apply Hfs].
  + rewrite lookup_app_r in Hk by lia. apply list_lookup_singleton_Some in Hk as [Ek [= <- <-]].
    replace k with (length fs) by lia. exact Hh2.
- intros i j b Hi Hj Hne Ho Ho'.
  destruct (decide (i = inum)) as [->|Ni]; [by apply Ho2, empty_own in Ho|].
  destruct (decide (j = inum)) as [->|Nj]; [by apply Ho2, empty_own in Ho'|].
  assert (1 ≤ i ≤ Z.of_nat (length fs)) as Hir by (unfold inum in Ni; lia).
  assert (1 ≤ j ≤ Z.of_nat (length fs)) as Hjr by (unfold inum in Nj; lia).
  apply (Hap i j b Hir Hjr Hne); [exact (proj1 (Hown i Hir b) Ho) | exact (proj1 (Hown j Hjr b) Ho')].
- rewrite weights_snoc, Hfb2. cbn [m1 freeblock]. change (weight (ty, [])) with 0. lia.
- by rewrite (sv_sb _ _ _ Hsv).
- intros j Hj Hr. unfold inum in *. rewrite (sv_inodes _ _ _ Hsv) by lia. apply Hrest; lia.
Qed.

(** * The files *)

Lemma weight_mono ty ty' c c' : (length c ≤ length c')%nat → weight (ty, c) ≤ weight (ty', c').
Proof. intros Hl. unfold weight. cbn [snd]. apply taken_mono. unfold nblk. zlia. Qed.

Lemma append_reads_image rs m d fs k ty c :
image m d fs → fs !! k = Some (ty, c) → - 2 ^ 15 ≤ ty < 2 ^ 15 → Forall (λ r, length r ≤ 512)%nat rs →
Z.of_nat (length (c ++ concat rs)) ≤ MAXFILE * BSIZE →
freeblock m + weight (ty, c ++ concat rs) - weight (ty, c) ≤ 1000 →
∃ m' d', append_reads m (Z.of_nat k + 1) rs = Ok m' ∧ image m' d' (<[k := (ty, c ++ concat rs)]> fs).
Proof.
revert m d fs c. induction rs as [|r rs IH]; intros m d fs c Him Hk Hty Hrs Hmax Hfree; cbn [append_reads concat] in *.
{ exists m, d. split; [done|]. rewrite app_nil_r. by rewrite list_insert_id. }
apply Forall_cons in Hrs as [Hr Hrs]. rewrite app_assoc in Hmax, Hfree.
pose proof (weight_mono ty ty (c ++ r) ((c ++ r) ++ concat rs) ltac:(rewrite (length_app (c ++ r)); lia)) as Hw.
destruct (iappend_image m d fs k ty c r) as (m1 & d1 & E1 & Him1); try done.
{ rewrite length_app in Hmax. lia. }
{ lia. }
rewrite E1. cbn [rbind].
assert (freeblock m1 = freeblock m + weight (ty, c ++ r) - weight (ty, c)) as Efb.
{ rewrite (im_free _ _ _ Him1), (im_free _ _ _ Him), (weights_insert _ _ _ _ Hk). lia. }
destruct (IH m1 d1 (<[k := (ty, c ++ r)]> fs) (c ++ r)) as (m2 & d2 & E2 & Him2); try done.
{ apply list_lookup_insert_eq. by apply lookup_lt_Some in Hk. }
{ lia. }
exists m2, d2. split; [done|]. rewrite list_insert_insert_eq, <- app_assoc in Him2. exact Him2.
Qed.
End ops.

(** A file to put on the image: its name and what the reads return. *)
Record src_ok (f : list Z * list (list Z)) : Prop := {
  so_name : 47 ∉ f.1;
  so_reads : Forall (λ r, length r ≤ 512)%nat f.2;
  so_size : Z.of_nat (length (concat f.2)) ≤ MAXFILE * BSIZE
}.

Definition args (fs : list (list Z * list (list Z))) : list (list Z * option (list (list Z))) :=
  (λ f, (f.1, Some f.2)) <$> fs.

Fixpoint entries (inum : Z) (fs : list (list Z * list (list Z))) : list Z :=
  match fs with [] => [] | f :: fs' => entry inum (skip_mark f.1) ++ entries (inum + 1) fs' end.

Definition regular (fs : list (list Z * list (list Z))) : list (Z * list Z) :=
  (λ f, (T_FILE, concat f.2)) <$> fs.

(** The root directory, and everything on the image. *)
Definition root_bytes (fs : list (list Z * list (list Z))) : list Z :=
  entry 1 [46] ++ entry 1 [46; 46] ++ entries 2 fs.
Definition tree (fs : list (list Z * list (list Z))) : list (Z * list Z) :=
  (T_DIR, root_bytes fs) :: regular fs.

Section tree.
Implicit Types (m : mkst) (d : disk) (fs : list (list Z * list (list Z))) (old : list (Z * list Z)).

Lemma length_entry inum name : length (entry inum name) = 16%nat.
Proof. unfold entry. by rewrite length_app, length_le_bytes, length_strncpy. Qed.

Lemma length_entries inum fs : length (entries inum fs) = (16 * length fs)%nat.
Proof.
revert inum. induction fs as [|f fs IH]; intros inum; [done|]. cbn [entries length].
rewrite length_app, length_entry, IH. lia.
Qed.

Lemma weight_nonneg f : 0 ≤ weight f.
Proof. unfold weight, taken, nblk. case_match; zlia. Qed.
Lemma weights_nonneg old : 0 ≤ weights old.
Proof. induction old as [|f old IH]; cbn [weights]; [lia|]. pose proof (weight_nonneg f). lia. Qed.
Lemma weights_app old old' : weights (old ++ old') = weights old + weights old'.
Proof. induction old as [|f old IH]; cbn [weights app]; lia. Qed.

Lemma add_file_image m d rc old f :
let inum := 2 + Z.of_nat (length old) in let rc' := rc ++ entry inum (skip_mark f.1) in
image m d ((T_DIR, rc) :: old) → src_ok f → Z.of_nat (length old) < 198 →
Z.of_nat (length rc') ≤ MAXFILE * BSIZE →
59 + weight (T_DIR, rc') + weights (old ++ [(T_FILE, concat f.2)]) ≤ 1000 →
∃ m' d', add_file m 1 (f.1, Some f.2) = Ok m' ∧
  image m' d' ((T_DIR, rc') :: old ++ [(T_FILE, concat f.2)]).
Proof.
intros inum rc' Him [Hn Hr Hs] Hlen Hrc Hw. rewrite weights_snoc in Hw.
pose proof (weight_nonneg (T_FILE, concat f.2)) as Hnn.
unfold add_file. rewrite bool_decide_eq_false_2 by done.
destruct (inoalloc_image m d _ T_FILE Him) as (m1 & d1 & E1 & Him1); [cbn [length]; lia | done|].
replace (Z.of_nat (length ((T_DIR, rc) :: old)) + 1) with inum in E1 by (unfold inum; cbn [length]; lia).
rewrite E1. cbn [rbind].
pose proof (im_free _ _ _ Him1) as F1. cbn [app weights] in F1. rewrite weights_snoc in F1.
change (weight (T_FILE, [])) with 0 in F1.
destruct (iappend_image m1 d1 _ 0 T_DIR rc (entry inum (skip_mark f.1)) Him1) as (m2 & d2 & E2 & Him2);
  [done | done | rewrite length_entry; lia | done | fold rc'; lia |].
change (Z.of_nat 0 + 1) with 1 in E2. rewrite E2. cbn [rbind]. fold rc' in Him2.
cbn [app list_insert insert list_insert] in Him2.
pose proof (im_free _ _ _ Him2) as F2. cbn [weights] in F2. rewrite weights_snoc in F2.
change (weight (T_FILE, [])) with 0 in F2.
destruct (append_reads_image f.2 m2 d2 _ (S (length old)) T_FILE [] Him2) as (m3 & d3 & E3 & Him3);
  [cbn; by apply list_lookup_middle | done | done | done | cbn [app]; change (weight (T_FILE, [])) with 0; lia |].
replace (Z.of_nat (S (length old)) + 1) with inum in E3 by (unfold inum; lia).
rewrite E3. exists m3, d3. split; [done|]. cbn in Him3.
by rewrite (insert_app_r_alt old) in Him3 by lia; rewrite Nat.sub_diag in Him3.
Qed.

Lemma add_files_image fs m d rc old :
let rc' := rc ++ entries (2 + Z.of_nat (length old)) fs in
image m d ((T_DIR, rc) :: old) → Forall src_ok fs → (length old + length fs < 199)%nat →
Z.of_nat (length rc') ≤ MAXFILE * BSIZE →
59 + weight (T_DIR, rc') + weights (old ++ regular fs) ≤ 1000 →
∃ m' d', add_files m 1 (args fs) = Ok m' ∧ image m' d' ((T_DIR, rc') :: old ++ regular fs).
Proof.
revert m d rc old. induction fs as [|f fs IH]; intros m d rc old rc' Him Hok Hlen Hrc Hw; cbn [add_files args fmap list_fmap].
{ exists m, d. split; [done|]. unfold rc'. cbn [entries regular fmap list_fmap]. by rewrite !app_nil_r. }
apply Forall_cons in Hok as [Hf Hfs]. cbn [length] in Hlen.
set (rc1 := rc ++ entry (2 + Z.of_nat (length old)) (skip_mark f.1)).
set (old1 := old ++ [(T_FILE, concat f.2)]).
assert (rc' = rc1 ++ entries (2 + Z.of_nat (length old1)) fs) as Erc.
{ unfold rc', rc1, old1. cbn [entries]. rewrite length_app, <- app_assoc. cbn [length].
  do 3 f_equal. lia. }
assert (old ++ regular (f :: fs) = old1 ++ regular fs) as Eold
  by (unfold old1; by rewrite <- app_assoc).
rewrite Erc, Eold in *. rewrite length_app in Hrc. rewrite weights_app in Hw.
pose proof (weights_nonneg (regular fs)).
pose proof (weight_mono T_DIR T_DIR rc1 (rc1 ++ entries (2 + Z.of_nat (length old1)) fs)
  ltac:(rewrite length_app; lia)).
destruct (add_file_image m d rc old f Him Hf) as (m1 & d1 & E1 & Him1);
  [lia | fold rc1; lia | fold rc1 old1; lia |]. fold rc1 old1 in Him1.
rewrite E1. cbn [rbind].
apply (IH m1 d1 rc1 old1 Him1 Hfs).
- unfold old1. rewrite length_app. cbn [length]. lia.
- rewrite length_app. lia.
- rewrite weights_app. lia.
Qed.

(** * The empty image *)

Lemma zero_sectors_eq n i fi fb :
(i + n ≤ 1000)%nat →
zero_sectors (mk_mkst (replicate i zeroes) fi fb) (Z.of_nat i) n = mk_mkst (replicate (i + n) zeroes) fi fb.
Proof.
revert i. induction n as [|n IH]; intros i Hi; cbn [zero_sectors]; [by rewrite Nat.add_0_r|].
assert (wsect (mk_mkst (replicate i zeroes) fi fb) (Z.of_nat i) zeroes =
  mk_mkst (replicate (i + 1) zeroes) fi fb) as ->.
{ unfold wsect. cbn [m_img freeinode freeblock]. rewrite seek_small by lia. rewrite Nat2Z.id, length_replicate.
  f_equal. replace (i + 1 - i)%nat with 1%nat by lia. rewrite replicate_add.
  apply list_insert_id. rewrite lookup_app_r by (rewrite length_replicate; lia).
  by rewrite length_replicate, Nat.sub_diag. }
replace (Z.of_nat i + 1) with (Z.of_nat (i + 1)) by lia. rewrite IH by lia. do 2 f_equal. lia.
Qed.

Definition sb_block : list Z := splice (replicate 512 0) 0 (enc_sb sb).
Definition img0 : mkst := mk_mkst (<[1%nat := sb_block]> (replicate 1000 zeroes)) 1 nmeta.

(** The image before the first inode, with the bitmap of the blocks up to the
bitmap in place. *)
Definition disk_img0 : disk := λ _ b,
  if decide (b = 1) then sb_block
  else if decide (b = 58) then mark_bits (replicate 512 0) 0 59 else replicate 512 0.

Lemma img0_rep : mrep img0 disk_img0.
Proof.
split.
- reflexivity.
- intros b Hb Hn. cbn [img0 m_img]. unfold disk_img0. rewrite (decide_False (P := b = 58)) by done.
  case_decide as E; [subst b; reflexivity|].
  rewrite list_lookup_insert_ne by lia. apply lookup_replicate. split; [done | lia].
- intros b Hb. unfold disk_img0. repeat case_decide; reflexivity.
- intros b Hb. change (freeblock img0) with 59.
  assert (b ∈ seqZ 0 1000) as Hin by (apply elem_of_seqZ; lia). clear Hb. revert b Hin.
  apply Forall_forall. apply (bool_decide_unpack _). vm_compute. exact I.
- intros b Hb. change (freeblock img0) with 59 in Hb. unfold disk_img0.
  by rewrite !decide_False by lia.
- change (freeblock img0) with 59. lia.
Qed.

Lemma img0_image : image img0 disk_img0 [].
Proof.
split; try done.
- apply img0_rep.
- cbn. lia.
- intros j Hj _. assert (j ∈ seqZ 0 200) as Hin by (apply elem_of_seqZ; lia). clear Hj. revert j Hin.
  apply Forall_forall. apply (bool_decide_unpack _). vm_compute. exact I.
Qed.
End tree.

(** * The end of [main] *)

(** A drive with the image at its start, and zeros beyond it. *)
Definition disk_of (m : mkst) : disk := λ _ b, default zeroes (m_img m !! Z.to_nat b).

Lemma mark_bits_clear n buf i j :
  0 ≤ i → i + Z.of_nat n ≤ 8 * Z.of_nat (length buf) → 0 ≤ j < 8 * Z.of_nat (length buf) →
  length (mark_bits buf i n) = length buf ∧
  bit_clear (mark_bits buf i n) j = bit_clear buf j && negb (bool_decide (i ≤ j < i + Z.of_nat n)).
Proof.
  revert buf i. induction n as [|n IH]; intros buf i Hi Hn Hj; cbn [mark_bits].
  { split; [done|]. rewrite bool_decide_eq_false_2 by lia. by rewrite andb_true_r. }
  change (zset buf (i / 8) (u8 (Z.lor (zget buf (i / 8)) (Z.shiftl 1 (i mod 8))))) with (set_bit buf i).
  assert (length (set_bit buf i) = length buf) as Hl by (unfold set_bit; by rewrite length_zset).
  destruct (IH (set_bit buf i) (i + 1)) as [H1 H2]; [lia | rewrite Hl; lia | rewrite Hl; lia |].
  split; [by rewrite H1|]. rewrite H2, bit_clear_set by lia. destruct (decide (j = i)) as [->|E].
  - rewrite andb_false_l, bool_decide_eq_true_2 by lia. by rewrite andb_false_r.
  - f_equal. f_equal. apply bool_decide_ext. lia.
Qed.

Section finish.
Implicit Types (m : mkst) (d : disk) (fs : list (list Z * list (list Z))) (old : list (Z * list Z)).

(** The bitmap is written; the image is now the disk itself. *)
Lemma balloc_disk m d :
mrep m d → ∃ m', mkfs_balloc m (s32 (freeblock m)) = Ok m' ∧ length (m_img m') = 1000%nat ∧
  freeblock m' = freeblock m ∧
  (∀ b, 0 ≤ b < 1000 → b ≠ 58 → disk_of m' 1 b = d 1 b) ∧
  (∀ b, 0 ≤ b < 1000 → mused (disk_of m') 1 b = mused d 1 b) ∧
  (∀ dev b, length (disk_of m' dev b) = 512%nat).
Proof.
intros Hm. pose proof (mr_free _ _ Hm) as Hf. pose proof (mr_len _ _ Hm) as Hl.
unfold mkfs_balloc. rewrite s32_small by lia.
rewrite (proj2 (Z.ltb_lt _ _)) by (change (BSIZE * 8) with 4096; lia).
change (sb_bmapstart sb) with 58. rewrite wsect_img by (done || lia).
eexists; split; [done|]. cbn [m_img freeblock]. split; [by rewrite length_insert|]. split; [done|].
set (bits := mark_bits _ 0 _).
destruct (mark_bits_clear (Z.to_nat (freeblock m)) (replicate 512 0) 0 0) as [Hbl _];
  [lia | rewrite length_replicate; lia | rewrite length_replicate; lia |].
change (mark_bits (replicate 512 0) 0 (Z.to_nat (freeblock m))) with bits in Hbl.
split; [|split].
- intros b Hb Hn. unfold disk_of. cbn [m_img]. rewrite list_lookup_insert_ne by lia.
  by rewrite (mr_img _ _ Hm).
- intros b Hb. unfold used at 1. rewrite BBLOCK_58 by done. unfold disk_of. cbn [m_img].
  rewrite list_lookup_insert_eq by lia. cbn [default id from_option].
  change BPB with 4096. rewrite Z.mod_small by lia. unfold bits.
  change (Z.to_nat BSIZE) with 512%nat.
  destruct (mark_bits_clear (Z.to_nat (freeblock m)) (replicate 512 0) 0 b) as [_ ->];
    [lia | rewrite length_replicate; lia | rewrite length_replicate; lia |].
  rewrite bit_clear_testbit. unfold zget. rewrite lookup_total_replicate_2 by zlia.
  rewrite Z.testbit_0_l. cbn [negb andb]. rewrite negb_involutive.
  apply eq_bool_prop_intro. rewrite !Is_true_true, bool_decide_eq_true, (mr_used _ _ Hm) by done. lia.
- intros dev b. unfold disk_of. cbn [m_img].
  destruct (decide (Z.to_nat b = 58%nat)) as [->|Hn].
  { change (Z.to_nat 58) with 58%nat. rewrite list_lookup_insert_eq by lia. cbn [default id from_option]. by rewrite Hbl, length_replicate. }
  rewrite list_lookup_insert_ne by (change (Z.to_nat 58) with 58%nat; lia).
  destruct (decide (Z.to_nat b < 1000)%nat) as [Hb|Hb].
  + pose proof (mr_img _ _ Hm (Z.of_nat (Z.to_nat b))) as Hi. rewrite Nat2Z.id in Hi.
    rewrite Hi by lia. apply (mr_sec _ _ Hm). lia.
  + by rewrite lookup_ge_None_2 by lia.
Qed.

(** What is on the image at the end: the super block, the bitmap, the files, the
root directory with its size made up to whole blocks and one more when it fills
them exactly. *)
Record built m fs : Prop := {
  bu_len : length (m_img m) = Z.to_nat FSSIZE;
  bu_sectors : ∀ dev b, length (disk_of m dev b) = Z.to_nat BSIZE;
  bu_sb : dec_sb (disk_of m 1 1) = sb;
  bu_used : ∀ b, 0 ≤ b < FSSIZE → mused (disk_of m) 1 b = true ↔ b < nmeta + weights (tree fs);
  bu_files : ∀ i f, fs !! i = Some f → holds (disk_of m) (Z.of_nat i + 2) T_FILE (concat f.2);
  bu_root : let r := file_at (disk_of m) 1 in let len := Z.of_nat (length (root_bytes fs)) in
    let size := (len / BSIZE + 1) * BSIZE in
    file_wf sb 1 (disk_of m) r ∧ dinode_of r = mk_dinode T_DIR 0 0 1 size (i_addrs r) ∧
    shape (disk_of m) r (nblk len) ∧
    file_bytes 1 (disk_of m) r 0 (Z.to_nat size) = root_bytes fs ++ replicate (Z.to_nat (size - len)) 0;
  bu_apart : ∀ i j b, 1 ≤ i ≤ Z.of_nat (length fs) + 1 → 1 ≤ j ≤ Z.of_nat (length fs) + 1 → i ≠ j →
    own 1 (disk_of m) (file_at (disk_of m) i) b → ¬ own 1 (disk_of m) (file_at (disk_of m) j) b;
  bu_rest : ∀ j, 0 ≤ j < NINODES → j = 0 ∨ Z.of_nat (length fs) + 1 < j →
    di_type (disk_inode sb 1 (disk_of m) j) = 0
}.

(** The bytes of a file beyond its end are zeros. *)
Lemma holds_bytes d inum ty c n :
holds d inum ty c → (length c ≤ n)%nat → Z.of_nat n ≤ NBLK * BSIZE →
file_bytes 1 d (file_at d inum) 0 n = c ++ replicate (n - length c) 0.
Proof.
intros Hh Hn Hmax. replace n with (length c + (n - length c))%nat at 1 by lia.
rewrite file_bytes_app, (ho_bytes _ _ _ _ Hh). f_equal. apply list_eq. intros k.
destruct (decide (k < n - length c)%nat) as [Hk|Hk].
- rewrite lookup_file_bytes, lookup_replicate_2 by done. f_equal. apply (ho_tail _ _ _ _ Hh). lia.
- rewrite !lookup_ge_None_2; [done | rewrite length_replicate; lia | rewrite length_file_bytes; lia].
Qed.

(** The tail of [main]: the size of the root, then the bitmap. *)
Lemma finish_disk m d sz :
let r := file_at d 1 in let x := set_size r sz in
mrep m d → file_wf sb 1 d r → meta_ok r → 0 ≤ sz ≤ MAXFILE * BSIZE →
∃ m', (let* m1 := winode m 1 (dinode_of x) in mkfs_balloc m1 (s32 (freeblock m1))) = Ok m' ∧
  length (m_img m') = 1000%nat ∧ freeblock m' = freeblock m ∧
  (∀ b, 58 < b < 1000 → disk_of m' 1 b = d 1 b) ∧ disk_of m' 1 1 = d 1 1 ∧
  (∀ b, 0 ≤ b < 1000 → mused (disk_of m') 1 b = mused d 1 b) ∧
  (∀ dev b, length (disk_of m' dev b) = 512%nat) ∧
  (∀ j, 0 ≤ j < 200 → j ≠ 1 → disk_inode sb 1 (disk_of m') j = disk_inode sb 1 d j) ∧
  file_at (disk_of m') 1 = x.
Proof.
intros r x Hm Hwf Hmo Hsz.
assert (file_wf sb 1 d x) as Hwfx by (apply (step_size sb 1 d r sz Hwf Hsz)).
destruct (winode_spec m d x Hm) as (m1 & E1 & Hm1 & Hfb1 & _); [change (i_inum x) with 1; lia|].
change (i_inum x) with 1 in E1. rewrite E1. cbn [rbind].
destruct (put_saved d x) as [Hsv Hdi]; [change (i_inum x) with 1; lia | apply (mr_sec _ _ Hm) | |].
{ change (i_inum x) with 1. pose proof (iblock_range 1). lia. }
{ apply (file_dinode_ok _ mk_sb_wf 1 d); [done|]. by destruct Hmo. }
change (i_inum x) with 1 in Hsv, Hdi. set (d1 := put_dinode sb 1 d x) in *.
destruct (balloc_disk m1 d1 Hm1) as (m2 & E2 & Hl & Hfb2 & Hd & Hu & Hsec).
assert (∀ j, 0 ≤ j < 200 → disk_inode sb 1 (disk_of m2) j = disk_inode sb 1 d1 j) as Hi.
{ intros j Hj. pose proof (iblock_range j Hj). unfold disk_inode. by rewrite Hd by lia. }
exists m2. split; [done|]. split; [done|]. split; [lia|]. split; [|split; [|split; [|split; [done|split]]]].
- intros b Hb. rewrite Hd by lia. apply (sv_data _ _ _ Hsv). lia.
- rewrite Hd by lia. apply (sv_sb _ _ _ Hsv).
- intros b Hb. rewrite Hu by done. by apply (sv_used _ _ _ Hsv).
- intros j Hj Hne. rewrite Hi by done. by apply (sv_inodes _ _ _ Hsv).
- unfold file_at. rewrite Hi by lia. by rewrite Hdi.
Qed.

Lemma image_built m d fs :
let len := Z.of_nat (length (root_bytes fs)) in let sz := (len / BSIZE + 1) * BSIZE in
image m d (tree fs) → sz ≤ MAXFILE * BSIZE →
∃ m', (let* m1 := winode m 1 (dinode_of (set_size (file_at d 1) sz)) in mkfs_balloc m1 (s32 (freeblock m1))) = Ok m' ∧
  built m' fs.
Proof.
intros len sz [Hm Hcnt Hin Hfs Hap Hfb Hsb Hrest] Hsz.
assert (Z.of_nat (length (tree fs)) = Z.of_nat (length fs) + 1) as Hlen
  by (unfold tree, regular; cbn [length]; rewrite length_fmap; lia).
rewrite Hlen in *. pose proof (Hfs 0%nat _ _ eq_refl) as Hr. change (Z.of_nat 0 + 1) with 1 in Hr.
assert (0 ≤ len ≤ sz) as Hls.
{ unfold sz. assert (0 ≤ len) as H0 by (unfold len; lia). clear -H0. clearbody len. unfold BSIZE. zlia. }
set (r := file_at d 1) in *. pose proof (ho_wf _ _ _ _ Hr) as Hwf. fold r in Hwf.
pose proof (ho_meta _ _ _ _ Hr) as Hmeta. fold r len in Hmeta.
destruct (finish_disk m d sz Hm Hwf) as (m' & E & Hl & Hfb' & Hd & Hd1 & Hu & Hsec & Hi & Hf1); [|lia|].
{ unfold r, file_at. rewrite Hmeta. by split. }
fold r in E, Hf1. exists m'. split; [done|]. set (D := disk_of m') in *.
assert (∀ j ty c, 0 ≤ j < 200 → j ≠ 1 → holds d j ty c →
  holds D j ty c ∧ ∀ b, own 1 D (file_at D j) b ↔ own 1 d (file_at d j) b) as Hothers.
{ intros j ty c Hj Hne Hh. apply holds_kept; [done | by apply Hi |]. intros b Ho.
  pose proof (own_small _ _ b (ho_wf _ _ _ _ Hh) Ho). rewrite Hd, Hu by lia.
  split; [done|]. by apply (fw_own _ _ _ _ (ho_wf _ _ _ _ Hh)). }
assert (file_wf sb 1 d (set_size r sz)) as Hwfx by (apply (step_size sb 1 d r sz Hwf); lia).
destruct (kept_file d D _ Hwfx) as (K1 & K2 & K3 & K4).
{ intros b Ho. pose proof (own_small _ _ b Hwfx Ho). rewrite Hd, Hu by lia.
  split; [done|]. by apply (fw_own _ _ _ _ Hwfx). }
assert (∀ j, 1 ≤ j ≤ Z.of_nat (length fs) + 1 → ∀ b, own 1 D (file_at D j) b ↔ own 1 d (file_at d j) b) as Hown.
{ intros j Hj. destruct (decide (j = 1)) as [->|Hne]; [by rewrite Hf1|].
  destruct (lookup_lt_is_Some_2 (tree fs) (Z.to_nat (j - 1))) as ([ty c] & Hf); [lia|].
  apply (Hothers j ty c); [lia | done |].
  replace j with (Z.of_nat (Z.to_nat (j - 1)) + 1) by lia. by apply Hfs. }
split.
- exact Hl.
- exact Hsec.
- fold D. by rewrite Hd1.
- intros b Hb. fold D. rewrite Hu by done. rewrite (mr_used _ _ Hm) by done.
  change nmeta with 59. by rewrite Hfb.
- intros i f Hf. fold D. apply Hothers; [apply lookup_lt_Some in Hf; lia | lia |].
  replace (Z.of_nat i + 2) with (Z.of_nat (S i) + 1) by lia. apply Hfs.
  change (regular fs !! i = Some (T_FILE, concat f.2)). unfold regular. by rewrite list_lookup_fmap, Hf.
- cbv zeta. fold D len sz. rewrite Hf1. split; [done|]. split; [|split].
  + unfold r at 1, file_at. by rewrite Hmeta.
  + destruct (ho_shape _ _ _ _ Hr) as [S1 S2 S3]. split; [done | | done]. intros bn Hbn. rewrite K2. by apply S2.
  + change (MAXFILE * BSIZE) with 71680 in Hsz.
    replace (replicate (Z.to_nat (sz - len)) 0) with (replicate (Z.to_nat sz - length (root_bytes fs)) 0)
      by (f_equal; unfold len; lia).
    rewrite <- (holds_bytes d 1 T_DIR) by (done || (unfold len in *; lia) || (unfold NBLK; change (140 * BSIZE) with 71680; lia)).
    unfold file_bytes. apply list_fmap_ext. intros i k Hk. apply lookup_seq in Hk as [-> Hk].
    rewrite K4 by (unfold NBLK; change (140 * BSIZE) with 71680; lia). done.
- intros i j b Hii Hj Hne Ho Ho'. fold D in Ho, Ho'.
  apply (Hap i j b Hii Hj Hne); [exact (proj1 (Hown i Hii b) Ho) | exact (proj1 (Hown j Hj b) Ho')].
- intros j Hj Hr'. fold D. change NINODES with 200 in Hj. rewrite Hi by lia. apply Hrest; lia.
Qed.
End finish.

(** [main] up to the root inode, and the first two entries of the root. *)
Lemma main_img0 files : mkfs_main files =
  (let* r := inoalloc img0 T_DIR in
   let '(m, rootino) := r in
   if negb (rootino =? ROOTINO) then Fault
   else
     let* m := iappend m rootino (entry rootino [46]) in
     let* m := iappend m rootino (entry rootino [46; 46]) in
     let* m := add_files m rootino files in
     let* din := rinode m rootino in
     let off := (xint (di_size din) / BSIZE + 1) * BSIZE in
     let* m := winode m rootino (mk_dinode (di_type din) (di_major din) (di_minor din) (di_nlink din)
                                   (xint (u32 off)) (di_addrs din)) in
     mkfs_balloc m (s32 (freeblock m))).
Proof.
  unfold mkfs_main. change (Z.to_nat FSSIZE) with 1000%nat.
  assert (zero_sectors (mk_mkst [] 1 nmeta) 0 1000 = mk_mkst (replicate 1000 zeroes) 1 nmeta) as ->
    by exact (zero_sectors_eq 1000 0 1 nmeta ltac:(lia)).
  by rewrite wsect_img by (cbn [m_img]; rewrite ?length_replicate; lia).
Qed.

Lemma root_image :
  ∃ m1 m2 m3 d3, inoalloc img0 T_DIR = Ok (m1, 1) ∧ iappend m1 1 (entry 1 [46]) = Ok m2 ∧
    iappend m2 1 (entry 1 [46; 46]) = Ok m3 ∧ image m3 d3 [(T_DIR, entry 1 [46] ++ entry 1 [46; 46])].
Proof.
  destruct (inoalloc_image img0 disk_img0 [] T_DIR img0_image) as (m1 & d1 & E1 & Him1); [cbn; lia | done |].
  cbn [app] in Him1. pose proof (im_free _ _ _ Him1) as F1. change (weights [(T_DIR, [])]) with 0 in F1.
  destruct (iappend_image m1 d1 _ 0 T_DIR [] (entry 1 [46]) Him1) as (m2 & d2 & E2 & Him2);
    [done | done | rewrite length_entry; lia | done | rewrite F1; vm_compute; congruence |].
  cbn [app insert list_insert] in Him2. pose proof (im_free _ _ _ Him2) as F2.
  destruct (iappend_image m2 d2 _ 0 T_DIR (entry 1 [46]) (entry 1 [46; 46]) Him2) as (m3 & d3 & E3 & Him3);
    [done | done | rewrite length_entry; lia | done | rewrite F2; vm_compute; congruence |].
  by exists m1, m2, m3, d3.
Qed.

Lemma mkfs_builds_spec (fs : list (list Z * list (list Z))) :
  Forall src_ok fs → (length fs < 199)%nat → nmeta + weights (tree fs) ≤ FSSIZE →
  ∃ m, mkfs_main (args fs) = Ok m ∧ built m fs.
Proof.
  intros Hok Hlen Hw. change nmeta with 59 in Hw. change FSSIZE with 1000 in Hw.
  cbn [tree weights] in Hw. pose proof (weights_nonneg (regular fs)) as Hnn.
  assert (length (root_bytes fs) = 32 + 16 * length fs)%nat as Hr
    by (unfold root_bytes; rewrite !length_app, !length_entry, length_entries; lia).
  assert (weight (T_DIR, root_bytes fs) ≤ 941) as Hwr by lia.
  destruct root_image as (m1 & m2 & m3 & d3 & E1 & E2 & E3 & Him3).
  rewrite main_img0, E1. cbn [rbind]. change (negb (1 =? ROOTINO)) with false. cbn iota.
  rewrite E2. cbn [rbind]. rewrite E3. cbn [rbind].
  destruct (add_files_image fs m3 d3 (entry 1 [46] ++ entry 1 [46; 46]) [] Him3 Hok) as (m4 & d4 & E4 & Him4).
  { cbn [length]. lia. }
  { rewrite length_app, length_entries, length_app, !length_entry. change (MAXFILE * BSIZE) with 71680. lia. }
  { rewrite <- app_assoc. cbn [app length]. change (2 + Z.of_nat 0) with 2. fold (root_bytes fs). lia. }
  rewrite E4. cbn [rbind]. rewrite <- app_assoc in Him4. cbn [app length] in Him4.
  change (2 + Z.of_nat 0) with 2 in Him4. change (image m4 d4 (tree fs)) in Him4.
  rewrite (rinode_spec m4 d4) by (apply Him4 || lia). cbn [rbind].
  pose proof (ho_meta _ _ _ _ (im_files _ _ _ Him4 0%nat _ _ eq_refl)) as Hmeta.
  change (Z.of_nat 0 + 1) with 1 in Hmeta. set (len := Z.of_nat (length (root_bytes fs))) in *.
  assert (0 ≤ len < 4000) as Hl by (unfold len; lia).
  destruct (image_built m4 d4 fs Him4) as (m5 & E5 & Hb).
  { fold len. change (MAXFILE * BSIZE) with 71680. clear -Hl. clearbody len. unfold BSIZE. zlia. }
  exists m5. split; [|done]. rewrite <- E5. fold len.
  assert (di_size (disk_inode sb 1 d4 1) = len) as Es by (by rewrite Hmeta).
  assert (0 ≤ (len / BSIZE + 1) * BSIZE < 2 ^ 32) as Hsz
    by (clear -Hl; clearbody len; unfold BSIZE; zlia).
  rewrite Es, (xint_small len), u32_small, xint_small by (exact Hsz || lia). reflexivity.
Qed.

(** The directory is one of the kernel's, unless its entries fill its blocks
    exactly: then its size reaches one block further than its blocks. *)
Lemma built_root m fs :
  let r := file_at (disk_of m) 1 in let len := Z.of_nat (length (root_bytes fs)) in
  built m fs → (length fs < 199)%nat →
  (len mod BSIZE ≠ 0 → dir_ok sb 1 (disk_of m) r) ∧
  (len mod BSIZE = 0 → len < i_size r ∧ blk_addr 1 (disk_of m) r (len / BSIZE) = 0).
Proof.
  intros r len Hb Hn. destruct (bu_root _ _ Hb) as (Hwf & Hd & Hsh & _). fold r len in Hwf, Hd, Hsh.
  assert (0 ≤ len < 4000) as Hl
    by (unfold len, root_bytes; rewrite !length_app, !length_entry, length_entries; lia).
  assert (i_type r = T_DIR) as Hty by exact (f_equal di_type Hd).
  assert (i_size r = (len / BSIZE + 1) * BSIZE) as Hsz by exact (f_equal di_size Hd).
  clear Hd. clearbody len.
  split; intros Hm.
  - split; [done | | done | rewrite Hsz; unfold BSIZE; zlia]. intros bn H0 Hlt. rewrite Hsz in Hlt.
    unfold BSIZE in *. assert (bn < NBLK) by (unfold NBLK; zlia).
    apply (sh_addr _ _ _ Hsh); [lia|]. unfold nblk. zlia.
  - split; [rewrite Hsz; unfold BSIZE in *; zlia|]. unfold BSIZE in *.
    assert (0 ≤ len / 512 < NBLK) as Hbn by (unfold NBLK; zlia).
    pose proof (sh_addr _ _ _ Hsh _ Hbn) as Ha. unfold nblk in Ha.
    destruct (decide (blk_addr 1 (disk_of m) r (len / 512) = 0)) as [|N]; [done|].
    apply Ha in N. exfalso. zlia.
Qed.

(** C21. The program builds a file system of fs/fs.c.  For files that can be opened,
    without a slash in their names, each of at most 140 blocks, 198 of them at
    most, that together with the directory fit on the image, [main] ends without
    a failed check, and the image holds the super block, every file with its
    contents at its inode, no block in two files, the other inodes free, a
    bitmap that marks exactly the blocks taken, and a root directory with the
    entries ".", "..", and one for each file, followed by empty entries. *)
Theorem mkfs_builds (fs : list (list Z * list (list Z))) :
  Forall src_ok fs → (length fs < 199)%nat → nmeta + weights (tree fs) ≤ FSSIZE →
  ∃ m, mkfs_main (args fs) = Ok m ∧ built m fs.
Proof. apply mkfs_builds_spec. Qed.

Lemma mkfs_builds_witness :
  ∃ m, mkfs_main [([95; 97], Some [[1; 2; 3]; [4]]); ([98], Some [])] = Ok m ∧
    built m [([95; 97], [[1; 2; 3]; [4]]); ([98], [])].
Proof.
  apply (mkfs_builds [([95; 97], [[1; 2; 3]; [4]]); ([98], [])]).
  - repeat constructor; try (vm_compute; congruence); cbn; lia || (apply (bool_decide_unpack _); vm_compute; exact I).
  - cbn. lia.
  - vm_compute. congruence.
Defined.
