(* ===== verification/ImageRead.v ===== *)
(** From utils/mkfs.c to fs/fs.c: the kernel reads the files that the host
    program put on the image.  [mkfs] writes the directory and the inodes,
    [iinit], [namei], [ilock] and [readi] of the kernel find them again, through
    any block layer over the image. *)
From S2P Require Import Prelude LibC Ports Ide Block Bio FsLayout Fs FsDir FsBlocks FsFile FsRw FsDirProps FsPath.
From S2P Require Import Mkfs MkfsProps.

(** * Names *)

(** The kernel's comparison of a component with an entry. *)
Lemma namecmp_entry junk e inum t :
  clean e → length junk = DIRSIZ →
  namecmp (put_name junk e) (de_name (entry inum t)) = 0 ↔ strncpy_bytes e DIRSIZ = strncpy_bytes t DIRSIZ.
Proof.
  intros He Hj. unfold entry. rewrite xshort_u16.
  change (le_bytes 2 (u16 inum) ++ strncpy_bytes t DIRSIZ) with (new_dirent t inum).
  rewrite new_dirent_name. unfold namecmp.
  rewrite strncmp_names by (rewrite ?length_strncpy, ?length_put_name; lia).
  by rewrite strncpy_idem, strncpy_put_name.
Qed.

Lemma entry_inum inum t : 0 ≤ inum < 2 ^ 16 → de_inum (entry inum t) = inum.
Proof. intros Hi. unfold entry. rewrite xshort_u16. by apply (new_dirent_inum 1 ltac:(lia) t). Qed.

(** * The entries of the root *)

Section root.
Context (m : mkst) (fs : list (list Z * list (list Z))) (Hb : built m fs).
#[local] Abbreviation D := (disk_of m).
#[local] Abbreviation root := (file_at (disk_of m) 1).

Lemma slice_file d x off n N :
0 ≤ off → off + Z.of_nat n ≤ Z.of_nat N →
file_bytes 1 d x off n = slice (file_bytes 1 d x 0 N) (Z.to_nat off) n.
Proof.
intros Ho Hn. apply list_eq. intros i. destruct (decide (i < n)%nat) as [Hi|Hi].
- rewrite lookup_slice, !lookup_file_bytes by lia. do 2 f_equal. lia.
- rewrite !lookup_ge_None_2; [done | |]; [|rewrite length_file_bytes; lia].
  unfold slice. rewrite length_take. lia.
Qed.

Lemma slice_entries (l : list (list Z * list (list Z))) i f inum rest :
l !! i = Some f →
slice (entries inum l ++ rest) (16 * i) 16 = entry (inum + Z.of_nat i) (skip_mark f.1).
Proof.
revert i inum. induction l as [|g l IH]; intros [|i] inum Hf; [done..| |].
- injection Hf as ->. cbn [entries]. rewrite <- app_assoc. rewrite Nat.mul_0_r, Z.add_0_r.
  apply slice_app_l. by rewrite length_entry.
- cbn [entries]. rewrite <- app_assoc, (slice_app_r _ _ _ _ 16) by (rewrite ?length_entry; lia).
  replace (16 * S i - 16)%nat with (16 * i)%nat by lia. rewrite IH by done. f_equal. lia.
Qed.

Lemma root_len : length (root_bytes fs) = (32 + 16 * length fs)%nat.
Proof. unfold root_bytes. rewrite !length_app, !length_entry, length_entries. lia. Qed.

Lemma root_size : i_size root = (Z.of_nat (length (root_bytes fs)) / BSIZE + 1) * BSIZE.
Proof. destruct (bu_root _ _ Hb) as (_ & Hd & _). exact (f_equal di_size Hd). Qed.

Lemma root_dirent k :
(k < length fs + 2)%nat →
dirent 1 D root k =
  slice (root_bytes fs ++ replicate (Z.to_nat (i_size root - Z.of_nat (length (root_bytes fs)))) 0) (16 * k) 16.
Proof.
intros Hk. destruct (bu_root _ _ Hb) as (_ & _ & _ & Hbytes). rewrite root_size.
pose proof root_len as Hl. unfold dirent.
rewrite (slice_file D root (16 * Z.of_nat k) 16 (Z.to_nat ((Z.of_nat (length (root_bytes fs)) / BSIZE + 1) * BSIZE))).
- rewrite Hbytes. f_equal. lia.
- lia.
- unfold BSIZE. rewrite Hl. zlia.
Qed.

Lemma root_first i f : fs !! i = Some f → dirent 1 D root (i + 2) = entry (2 + Z.of_nat i) (skip_mark f.1).
Proof.
intros Hf. pose proof (lookup_lt_Some _ _ _ Hf). rewrite root_dirent by lia. unfold root_bytes.
rewrite <- !app_assoc.
rewrite (slice_app_r _ _ _ _ 16) by (rewrite ?length_entry; lia).
rewrite (slice_app_r _ _ _ _ 16) by (rewrite ?length_entry; lia).
replace (16 * (i + 2) - 16 - 16)%nat with (16 * i)%nat by lia. by apply slice_entries.
Qed.

Lemma root_dot : dirent 1 D root 0 = entry 1 [46].
Proof.
rewrite root_dirent by lia. unfold root_bytes. rewrite <- !app_assoc. apply slice_app_l. by rewrite length_entry.
Qed.
Lemma root_dotdot : dirent 1 D root 1 = entry 1 [46; 46].
Proof.
rewrite root_dirent by lia. unfold root_bytes. rewrite <- !app_assoc.
rewrite (slice_app_r _ _ _ _ 16) by (rewrite ?length_entry; lia). apply slice_app_l. by rewrite length_entry.
Qed.
End root.

(** The names of the files are strings, and their first 14 characters tell them
    apart, from "." and ".." too. *)
Definition stored (name : list Z) : list Z := strncpy_bytes (skip_mark name) DIRSIZ.
Record names_ok (fs : list (list Z * list (list Z))) : Prop := {
  no_clean : ∀ i f, fs !! i = Some f → clean (skip_mark f.1);
  no_distinct : ∀ i j f g, fs !! i = Some f → fs !! j = Some g → stored f.1 = stored g.1 → i = j;
  no_dots : ∀ i f, fs !! i = Some f →
    stored f.1 ≠ strncpy_bytes [46] DIRSIZ ∧ stored f.1 ≠ strncpy_bytes [46; 46] DIRSIZ
}.

(** The search of the root for a file. *)
Lemma root_found m fs i f junk :
  built m fs → names_ok fs → (length fs < 199)%nat → fs !! i = Some f → length junk = DIRSIZ →
  List.find (λ k, names (put_name junk (skip_mark f.1)) (dirent 1 (disk_of m) (file_at (disk_of m) 1) k))
    (seq 0 (nents (file_at (disk_of m) 1))) = Some (i + 2)%nat.
Proof.
  intros Hb [Hc Hd Hdots] Hn Hf Hj. pose proof (lookup_lt_Some _ _ _ Hf) as Hlt.
  assert (∀ inum t, 0 < inum < 2 ^ 16 →
    names (put_name junk (skip_mark f.1)) (entry inum t) = bool_decide (stored f.1 = strncpy_bytes t DIRSIZ)) as Hnm.
  { intros inum t Hi. unfold names. rewrite entry_inum by lia. rewrite (proj2 (Z.eqb_neq _ _)) by lia.
    cbn [negb andb]. apply eq_true_iff_eq. rewrite Z.eqb_eq, bool_decide_eq_true.
    apply namecmp_entry; [by eapply Hc | done]. }
  apply find_seq_unique.
  - unfold nents. rewrite (root_size _ _ Hb), (root_len fs). unfold BSIZE. split; [lia|]. zlia.
  - rewrite (root_first _ _ Hb _ _ Hf), Hnm by lia. by apply bool_decide_eq_true_2.
  - intros j Hji. destruct (Hdots _ _ Hf) as [H1 H2]. destruct j as [|[|j]].
    + rewrite (root_dot _ _ Hb), Hnm by lia. by apply bool_decide_eq_false_2.
    + rewrite (root_dotdot _ _ Hb), Hnm by lia. by apply bool_decide_eq_false_2.
    + destruct (lookup_lt_is_Some_2 fs j) as (g & Hg); [lia|].
      replace (S (S j)) with (j + 2)%nat by lia. rewrite (root_first _ _ Hb _ _ Hg), Hnm by lia.
      apply bool_decide_eq_false_2. intros E. apply (Hd _ _ _ _ Hf Hg) in E. lia.
Qed.

(** * Reading a file *)

Section run.
Context {S : Type} `{BlockLayer S}.
Implicit Types (fk : fsys S).

(** Mount, look the path up, lock the inode, read: what a program does through
the system calls, on the file system alone. *)
Definition mount_read fk (cwd : nat) (path junk : list Z) (n : Z) : res (fsys S * list Z * Z) :=
let* fk := iinit fk ROOTDEV in
let* r := namei fk cwd path junk in
match r.2 with
| None => Fault
| Some ip => let* fk := ilock r.1 ip in readi fk ip 0 n
end.

(** [iget] of a fresh inode takes the first slot, or the second when the first
is in use for another inode. *)
Definition fresh (inum : Z) : inode := mk_inode 1 inum 1 0 0 0 0 0 0 (replicate 13 0).

Lemma iget_slot0 fk inum :
icache fk = replicate NINODE no_inode →
∃ fk', iget fk 1 inum = Ok (fk', 0%nat) ∧ f_blk fk' = f_blk fk ∧ f_sb fk' = f_sb fk ∧
  icache fk' = fresh inum :: replicate 49 no_inode.
Proof.
intros E. unfold iget. rewrite E. change (iget_scan _ _ _ _ _) with (inr (Some 0%nat) : nat + option nat).
cbn iota. eexists; split; [reflexivity|]. split; [done|]. split; [done|]. cbn. by rewrite E.
Qed.

Lemma iget_slot1 fk x inum :
icache fk = x :: replicate 49 no_inode → i_dev x = 1 → i_inum x ≠ inum → i_ref x = 1 →
∃ fk', iget fk 1 inum = Ok (fk', 1%nat) ∧ f_blk fk' = f_blk fk ∧ f_sb fk' = f_sb fk ∧
  icache fk' = x :: fresh inum :: replicate 48 no_inode.
Proof.
intros E E1 E2 E3. unfold iget. rewrite E.
assert (iget_scan (x :: replicate 49 no_inode) 0 None 1 inum = inr (Some 1%nat)) as ->.
{ cbn [iget_scan]. rewrite E1, E3, (proj2 (Z.eqb_neq (i_inum x) inum)) by done. reflexivity. }
eexists; split; [reflexivity|]. split; [done|]. split; [done|]. cbn. by rewrite E.
Qed.

Lemma ilock_slot fk m (ip : nat) inum ic1 ic2 :
fsi sb 1 fk (disk_of m) → icache fk = ic1 ++ fresh inum :: ic2 → ip = length ic1 → 1 ≤ inum < 200 →
di_type (disk_inode sb 1 (disk_of m) inum) ≠ 0 →
∃ fk', ilock fk ip = Ok fk' ∧ fsi sb 1 fk' (disk_of m) ∧
  icache fk' = ic1 ++ file_at (disk_of m) inum :: ic2.
Proof.
intros Hfs E -> Hi Hty.
assert (inodep fk (length ic1) = fresh inum) as Ex
  by (unfold inodep; rewrite E; apply list_lookup_total_correct, list_lookup_middle; done).
destruct (ilock_spec sb mk_sb_wf 1 ltac:(lia) fk (disk_of m) (length ic1)) as (s & El & Hr);
  rewrite ?Ex; try done.
{ rewrite E, length_app. cbn [length]. lia. }
{ rewrite sb_ninodes_200. cbn. lia. }
rewrite Ex in El. eexists; split; [exact El|]. split.
- destruct Hfs as [F1 F2 F3 F4]. by split.
- cbn [icache put_inode set_icache set_blk]. rewrite E. by rewrite insert_app_r_alt, Nat.sub_diag by lia.
Qed.

(** Giving up a locked inode with one user that is still linked. *)
Lemma iunlockput_linked fk ip x ic1 ic2 :
icache fk = ic1 ++ x :: ic2 → ip = length ic1 → i_ref x = 1 → i_nlink x ≠ 0 →
∃ fk', iunlockput fk ip = Ok fk' ∧ f_blk fk' = f_blk fk ∧ f_sb fk' = f_sb fk ∧
  icache fk' = ic1 ++ set_ref x 0 :: ic2.
Proof.
intros E -> Hr Hn.
assert (inodep fk (length ic1) = x) as Ex
  by (unfold inodep; rewrite E; apply list_lookup_total_correct, list_lookup_middle; done).
unfold iunlockput, iunlock. rewrite Ex, Hr. change (1 <? 1) with false. cbn iota.
unfold iput. rewrite Ex, (proj2 (Z.eqb_neq (i_nlink x) 0)) by done. rewrite andb_false_r. cbn [andb rbind].
eexists; split; [reflexivity|]. split; [done|]. split; [done|]. cbn. rewrite E.
rewrite alter_app_r_alt, Nat.sub_diag by lia. cbn. by rewrite Hr.
Qed.
End run.

Section read.
Context {S : Type} `{BlockLayer S}.
Implicit Types (fk : fsys S).

Lemma fsi_carry fk fk' d :
fsi sb 1 fk d → f_blk fk' = f_blk fk → f_sb fk' = f_sb fk → fsi sb 1 fk' d.
Proof. intros [F1 F2 F3 F4] Eb Es. split; [by rewrite Es | by rewrite Eb | done | done]. Qed.

(** The kernel's super block after [iinit]. *)
Lemma iinit_image m fs fk :
built m fs → bl_rep (f_blk fk) (disk_of m) ∅ →
∃ fk', iinit fk ROOTDEV = Ok fk' ∧ fsi sb 1 fk' (disk_of m) ∧ icache fk' = icache fk.
Proof.
intros Hb Hr. unfold iinit.
destruct (readsb_spec fk (disk_of m) ∅ 1 Hr) as (s & E & Hr');
  [apply (bool_decide_unpack _); vm_compute; exact I | vm_compute; lia | by intros ?? |].
change ROOTDEV with 1. rewrite E. cbn [rbind fst snd]. rewrite (bu_sb _ _ Hb).
eexists; split; [reflexivity|]. split; [|done].
split; [done | exact Hr' | | exact (bu_sb _ _ Hb)].
intros b Hlt. rewrite mk_dstart in Hlt. apply (bu_used _ _ Hb); [change FSSIZE with 1000; lia|].
pose proof (weights_nonneg (tree fs)). change nmeta with 59. lia.
Qed.

Lemma holds_no_holes d inum ty c :
holds d inum ty c → no_holes 1 d (file_at d inum).
Proof.
intros Hh bn Hpos Hlt. assert (i_size (file_at d inum) = Z.of_nat (length c)) as Hs
  by exact (f_equal di_size (ho_meta _ _ _ _ Hh)).
pose proof (fw_size _ _ _ _ (ho_wf _ _ _ _ Hh)) as Hm. rewrite Hs in *.
change (MAXFILE * BSIZE) with 71680 in Hm. unfold BSIZE in Hlt.
apply (sh_addr _ _ _ (ho_shape _ _ _ _ Hh)); [unfold NBLK; lia|]. unfold nblk. zlia.
Qed.

Lemma mkfs_file_read_spec m fs fk cwd path junk i f :
built m fs → names_ok fs → (length fs < 199)%nat →
Z.of_nat (length (root_bytes fs)) mod BSIZE ≠ 0 → fs !! i = Some f →
head path = Some SLASH → elems path = [skip_mark f.1] → Z.of_nat (length path) < 2 ^ 32 →
length junk = DIRSIZ →
bl_rep (f_blk fk) (disk_of m) ∅ → icache fk = replicate NINODE no_inode →
∃ fk', mount_read fk cwd path junk (Z.of_nat (length (concat f.2))) =
  Ok (fk', concat f.2, Z.of_nat (length (concat f.2))).
Proof.
intros Hb Hn Hlen Hmod Hf Hhd Hel Hpath Hj Hr Hic. pose proof (lookup_lt_Some _ _ _ Hf) as Hi.
pose proof (bu_files _ _ Hb _ _ Hf) as Hh.
destruct (built_root m fs Hb Hlen) as [Hdir _]. specialize (Hdir Hmod).
destruct (bu_root _ _ Hb) as (_ & Hrt & _).
unfold mount_read. destruct (iinit_image m fs fk Hb Hr) as (fk0 & -> & Hfs0 & E0). cbn [rbind].
unfold namei. rewrite namex_spec by done. destruct path as [|c path]; [done|]. injection Hhd as ->.
rewrite Z.eqb_refl, Hel. change ROOTDEV with 1. change ROOTINO with 1.
destruct (iget_slot0 fk0 1) as (fk1 & -> & B1 & S1 & C1); [by rewrite E0|]. cbn [rbind fst snd namex_walk].
assert (fsi sb 1 fk1 (disk_of m)) as Hfs1 by (by apply (fsi_carry fk0)).
destruct (ilock_slot fk1 m 0 1 [] (replicate 49 no_inode) Hfs1) as (fk2 & -> & Hfs2 & C2);
  [done | done | lia | | ].
{ replace (disk_inode sb 1 (disk_of m) 1) with (dinode_of (file_at (disk_of m) 1)) by done. by rewrite Hrt. }
cbn [rbind app] in *. assert (inodep fk2 0 = file_at (disk_of m) 1) as P2 by (unfold inodep; by rewrite C2).
rewrite P2, (dr_type _ _ _ _ Hdir). cbn [negb Z.eqb T_DIR Pos.eqb andb].
destruct (dirlookup_spec sb mk_sb_wf 1 ltac:(lia) fk2 (disk_of m) 0 (put_name junk (skip_mark f.1)) Hfs2) as (s & -> & Hr2);
  [by rewrite P2|].
unfold lookup_result, found_entry. rewrite P2, (root_found m fs i f junk) by done.
rewrite (root_first m fs Hb _ _ Hf), entry_inum by lia.
set (root := file_at (disk_of m) 1) in *. set (inum := 2 + Z.of_nat i).
assert (fsi sb 1 (set_blk fk2 s) (disk_of m)) as Hfs2' by (destruct Hfs2 as [F1 F2 F3 F4]; by split).
destruct (iget_slot1 (set_blk fk2 s) root inum) as (fk3 & -> & B3 & S3 & C3); [done..| unfold inum; change (1 ≠ 2 + Z.of_nat i); lia | done |].
cbn [rbind fst snd].
destruct (iunlockput_linked fk3 0 root [] (fresh inum :: replicate 48 no_inode) C3 eq_refl eq_refl)
  as (fk4 & -> & B4 & S4 & C4); [rewrite (f_equal di_nlink Hrt : i_nlink root = 1); lia|].
cbn [rbind fst snd]. cbn [app] in C4.
assert (fsi sb 1 fk4 (disk_of m)) as Hfs4
  by (apply (fsi_carry fk3); [|done..]; by apply (fsi_carry (set_blk fk2 s))).
destruct (ilock_slot fk4 m 1 inum [set_ref root 0] (replicate 48 no_inode) Hfs4) as (fk5 & -> & Hfs5 & C5);
  [done | done | unfold inum; lia | | ].
{ unfold inum. rewrite Z.add_comm, (ho_meta _ _ _ _ Hh). done. }
cbn [rbind app] in *. assert (inodep fk5 1 = file_at (disk_of m) inum) as P5 by (unfold inodep; by rewrite C5).
replace (Z.of_nat i + 2) with inum in Hh by (unfold inum; lia).
pose proof (ho_meta _ _ _ _ Hh) as Hmeta.
assert (i_size (file_at (disk_of m) inum) = Z.of_nat (length (concat f.2))) as Hsz by exact (f_equal di_size Hmeta).
pose proof (fw_size _ _ _ _ (ho_wf _ _ _ _ Hh)) as Hmax. rewrite Hsz in Hmax.
change (MAXFILE * BSIZE) with 71680 in Hmax.
destruct (readi_spec sb mk_sb_wf 1 ltac:(lia) fk5 (disk_of m) 1 0 (Z.of_nat (length (concat f.2))))
  as (s5 & -> & _); rewrite ?P5, ?Hsz; try lia; try done.
- by apply Hh.
- by apply (holds_no_holes _ _ T_FILE (concat f.2)).
- by rewrite (f_equal di_type Hmeta : i_type (file_at (disk_of m) inum) = T_FILE).
- rewrite Z.min_l by lia. rewrite Nat2Z.id, (ho_bytes _ _ _ _ Hh). by eexists.
Qed.
End read.

(** C10. A file put on the image is what the kernel reads.  Let [mkfs] build an
    image of files whose names are told apart by their first 14 characters,
    the entries of the root not filling their blocks exactly.  On any block
    layer over that image, with no inode in the cache, mounting ([iinit]),
    looking up the absolute path of a file ([namei]), locking its inode and
    reading as many bytes as it has gives its contents, whole and unchanged. *)
Theorem mkfs_file_read {S} `{BlockLayer S} (fs : list (list Z * list (list Z))) cwd path junk i f :
  Forall src_ok fs → (length fs < 199)%nat → nmeta + weights (tree fs) ≤ FSSIZE → names_ok fs →
  Z.of_nat (length (root_bytes fs)) mod BSIZE ≠ 0 → fs !! i = Some f →
  head path = Some SLASH → elems path = [skip_mark f.1] → Z.of_nat (length path) < 2 ^ 32 →
  length junk = DIRSIZ →
  ∃ m, mkfs_main (args fs) = Ok m ∧
    ∀ fk : fsys S, bl_rep (f_blk fk) (disk_of m) ∅ → icache fk = replicate NINODE no_inode →
      ∃ fk', mount_read fk cwd path junk (Z.of_nat (length (concat f.2))) =
        Ok (fk', concat f.2, Z.of_nat (length (concat f.2))).
Proof.
  intros Hok Hlen Hw Hn Hmod Hf Hhd Hel Hp Hj.
  destruct (mkfs_builds_spec fs Hok Hlen Hw) as (m & E & Hb). exists m. split; [done|].
  intros fk Hr Hic. by apply (mkfs_file_read_spec m fs fk cwd path junk i f).
Qed.

(** A kernel just started, over the drive with the image. *)
Definition mounted (m : mkst) : fsys (disk_st ata) :=
  mk_fsys (binit (boot_disk (sim_disk (disk_of m)))) Mkfs.sb (replicate NINODE no_inode) [] [] [].

Lemma mounted_rep m fs : built m fs → bl_rep (f_blk (mounted m)) (disk_of m) ∅.
Proof.
  intros Hb. pose proof (binit_rep (sim_disk (disk_of m))) as Hi. rewrite sim_platter in Hi.
  apply Hi; [done|]. intros. apply (bu_sectors _ _ Hb).
Qed.

(** The files "_ab" and "c", and the path "/ab". *)
Definition src2 : list (list Z * list (list Z)) := [([95; 97; 98], [[1; 2; 3]; [4]]); ([99], [[5]])].

Lemma src2_names : names_ok src2.
Proof.
  assert (∀ (P : nat → list Z * list (list Z) → Prop),
    P 0%nat ([95; 97; 98], [[1; 2; 3]; [4]]) → P 1%nat ([99], [[5]]) → ∀ i f, src2 !! i = Some f → P i f) as Hall.
  { intros P P0 P1 [|[|i]] f Hf; try done; injection Hf as <-; done. }
  split.
  - apply Hall; repeat constructor; done.
  - intros i j f g Hf. revert j g. pattern i, f. revert i f Hf.
    apply Hall; apply (Hall (λ j g, _ → _ = j)); vm_compute; congruence.
  - apply Hall; vm_compute; split; congruence.
Qed.

Lemma mkfs_file_read_witness :
  ∃ m fk', mkfs_main (args src2) = Ok m ∧
    mount_read (mounted m) 0 [47; 97; 98; 0] (replicate 14 7) 4 = Ok (fk', [1; 2; 3; 4], 4).
Proof.
  assert (Forall src_ok src2) as Hok
    by (repeat constructor; try (vm_compute; congruence); cbn; lia || (apply (bool_decide_unpack _); vm_compute; exact I)).
  assert (nmeta + weights (tree src2) ≤ FSSIZE) as Hw by (vm_compute; congruence).
  assert (length src2 < 199)%nat as Hl by (cbn; lia).
  destruct (mkfs_file_read src2 0 [47; 97; 98; 0] (replicate 14 7) 0 ([95; 97; 98], [[1; 2; 3]; [4]])
    Hok Hl Hw src2_names ltac:(vm_compute; congruence) eq_refl eq_refl eq_refl ltac:(vm_compute; congruence) eq_refl)
    as (m & E & Hread).
  destruct (mkfs_builds_spec src2 Hok Hl Hw) as (m' & E' & Hb). rewrite E in E'. injection E' as <-.
  destruct (Hread (mounted m) (mounted_rep m src2 Hb) eq_refl) as (fk' & Ek).
  exists m, fk'. split; [exact E | exact Ek].
Defined.
