(* ===== verification/Init.v ===== *)
(** cpu/isr.c, cpu/idt.c, drivers/keyboard.c: [isr_install] on the whole kernel.
    It fills the interrupt table, sets up the interrupt controllers, the timer and
    the keyboard, registers the handlers and makes the screen a device.

    Behind the ports are the two interrupt controllers and the keyboard's
    controller; like the drive of Ports they are parameters, with the protocol
    that the kernel relies on as classes. *)
From S2P Require Import Prelude Memory Mmu Kalloc Vm Seg Trap Ports Ide Block Bio FsLayout Fs File Kernel.

(** * The controllers *)

(** An interrupt controller (8259): the first initialisation word, the number of
    the word it waits for or 0 when it is ready, the first vector, the mask. *)
Record pic := mk_pic { pic_icw1 : Z; pic_next : Z; pic_base : Z; pic_mask : Z }.

(** A byte at the command port: an initialisation starts with bit 4. *)
Definition pic_cmd (p : pic) (v : Z) : pic :=
  if Z.testbit v 4 then mk_pic v 2 (pic_base p) 0 else p.

(** A byte at the data port: the third word only comes for a controller that is
    not alone, the fourth when the first word says so. *)
Definition pic_data (p : pic) (v : Z) : pic :=
  let last := if Z.testbit (pic_icw1 p) 0 then 4 else 0 in
  if pic_next p =? 2 then mk_pic (pic_icw1 p) (if Z.testbit (pic_icw1 p) 1 then last else 3) v (pic_mask p)
  else if pic_next p =? 3 then mk_pic (pic_icw1 p) last (pic_base p) (pic_mask p)
  else if pic_next p =? 4 then mk_pic (pic_icw1 p) 0 (pic_base p) (pic_mask p)
  else mk_pic (pic_icw1 p) 0 (pic_base p) v.

Definition pics_out (a : pic * pic) (port v : Z) : pic * pic :=
  let v := u8 v in
  if port =? 0x20 then (pic_cmd a.1 v, a.2)
  else if port =? 0x21 then (pic_data a.1 v, a.2)
  else if port =? 0xA0 then (a.1, pic_cmd a.2 v)
  else if port =? 0xA1 then (a.1, pic_data a.2 v)
  else a.

(** The vector that the processor gets for line [n]; lines 8 to 15 are those of
    the second controller, behind line 2 of the first. *)
Definition irq_vector (a : pic * pic) (n : Z) : option Z :=
  if n <? 8 then
    if (pic_next a.1 =? 0) && negb (Z.testbit (pic_mask a.1) n) then Some (Z.land (pic_base a.1) 0xf8 + n) else None
  else if (pic_next a.1 =? 0) && negb (Z.testbit (pic_mask a.1) 2) && (pic_next a.2 =? 0) && negb (Z.testbit (pic_mask a.2) (n - 8))
  then Some (Z.land (pic_base a.2) 0xf8 + (n - 8)) else None.

Class Pics (hw : Type) `{AtaDrive hw} := {
  pic_view : hw → pic * pic;
  pic_outb : ∀ h port v, pic_view (outb h port v) = pics_out (pic_view h) port v
}.

(** The keyboard's controller acknowledges the command 0xED with 0xfa, after what
    it had to say before; [kbd_left] bounds that. *)
Class KbdController (hw : Type) `{Pics hw} := {
  kbd_asked : hw → Prop;
  kbd_left : hw → Z;
  kbd_left_bound : ∀ h, 0 ≤ kbd_left h < 2 ^ 31;
  kbd_ask : ∀ h, kbd_asked (outb h 0x60 0xED);
  kbd_answer : ∀ h, kbd_asked h →
    let '(h', r) := inb h 0x60 in
    ata_view h' = ata_view h ∧ pic_view h' = pic_view h ∧
    (u8 r = 0xfa ∨ u8 r ≠ 0xfa ∧ kbd_asked h' ∧ kbd_left h' < kbd_left h)
}.

(** A machine with the drive of Ports that acknowledges at once. *)
Record pc := mk_pc { pc_ata : ata; pc_pics : pic * pic }.

#[export] Instance pc_ports : PortIO pc := {
  inb h port := if port =? 0x60 then (h, 0xfa) else let '(a, r) := inb (pc_ata h) port in (mk_pc a (pc_pics h), r);
  outb h port v := mk_pc (outb (pc_ata h) port v) (pics_out (pc_pics h) port v);
  insl h port n := let '(a, l) := insl (pc_ata h) port n in (mk_pc a (pc_pics h), l);
  outsl h port l := mk_pc (outsl (pc_ata h) port l) (pc_pics h)
}.

#[export] Instance pc_drive : AtaDrive pc.
Proof.
  refine {| ata_view := λ h, ata_view (pc_ata h); ata_busy := λ _, 0 |}.
  - lia.
  - done.
  - intros [a p]. cbn. auto.
  - intros [a p] d b E. pose proof (ata_insl a d b E) as Hi. cbn in *. destruct (sim_insl a 0x1f0 128). exact Hi.
  - intros [a p] d b l E. exact (ata_outsl a d b l E).
Defined.

#[export] Instance pc_pics_ok : Pics pc.
Proof. by refine {| pic_view := pc_pics |}. Defined.

#[export] Instance pc_kbd : KbdController pc.
Proof.
  refine {| kbd_asked := λ _, True; kbd_left := λ _, 0 |}; [lia | done |].
  intros h _. cbn. split; [done|]. split; [done|]. by left.
Defined.

(** * The machine *)

(** The kernel with the interrupt table, what [lidtl] was given, and whether the
    processor takes interrupts; the table of handlers is around it. *)
Record mach (hw : Type) := mk_mach { m_kern : kern (disk_st hw); m_idt : list idt_gate; m_idtr : Z * Z; m_if : bool }.
Arguments mk_mach {hw} _ _ _ _.
Arguments m_kern {hw} _.
Arguments m_idt {hw} _.
Arguments m_idtr {hw} _.
Arguments m_if {hw} _.

Definition CONSOLE : nat := 1.

Section machine.
Context {hw : Type} `{PortIO hw}.
Implicit Types (k : kern (disk_st hw)) (m : mach hw) (s : isr_state (St := mach hw)).

Definition set_disk k (d : disk_st hw) : kern (disk_st hw) := set_kfs k (set_blk (kfs k) d).
Definition kern_hw k : hw := d_hw (f_blk (kfs k)).
Definition set_kern_hw k (h : hw) : kern (disk_st hw) := set_disk k (set_hw (f_blk (kfs k)) h).

Definition set_kern m k : mach hw := mk_mach k (m_idt m) (m_idtr m) (m_if m).
Definition set_gate_table m (idt : list idt_gate) : mach hw := mk_mach (m_kern m) idt (m_idtr m) (m_if m).
Definition lidt m (r : Z * Z) : mach hw := mk_mach (m_kern m) (m_idt m) r (m_if m).
Definition cli m : mach hw := mk_mach (m_kern m) (m_idt m) (m_idtr m) false.
Definition sti m : mach hw := mk_mach (m_kern m) (m_idt m) (m_idtr m) true.
Definition with_rest s (f : mach hw → mach hw) : isr_state := mk_isr (interrupt_handlers s) (tick s) (f (isr_rest s)).
Definition s_kern s : kern (disk_st hw) := m_kern (isr_rest s).
Definition with_kern s k : isr_state := with_rest s (λ m, set_kern m k).

(** [port_byte_out]. *)
Definition kern_out k (port v : Z) : kern (disk_st hw) := set_kern_hw k (outb (kern_hw k) port v).
Definition mach_out m (port v : Z) : mach hw := set_kern m (kern_out (m_kern m) port v).

(** The console writes to the screen and cannot be read. *)
Definition screeninit k : kern (disk_st hw) :=
  let fs := kfs k in
  set_kfs k (mk_fsys (f_blk fs) (f_sb fs) (icache fs) (<[CONSOLE := (None, Some Screenewrite)]> (devsw fs)) (f_con fs) (f_log fs)).

(** [while(port_byte_in(0x60) != 0xfa);] *)
Definition kbd_wait (h : hw) : res hw :=
  while (2 ^ 32) (λ h, let '(h, r) := inb h 0x60 in Ok (if negb (u8 r =? 0xfa) then inl h else inr h)) h.

(** [init_keyboard] up to the registration of its handler. *)
Definition init_keyboard k : res (kern (disk_st hw)) :=
  let k := kern_out k 0x60 0xED in
  let* h := kbd_wait (kern_hw k) in
  let k := kern_out (set_kern_hw k h) 0x60 0 in
  Ok (screeninit (kmsg k "kern:capslock:disable!")).

(** [entry v] is the address of the entry code of vector [v] (isr0 to isr31, irq0
    to irq15, irq64), [idt_addr] that of [idt].  [irq_install] begins with
    [cli]. *)
Definition isr_install s (entry : nat → Z) (idt_addr : Z) : res isr_state :=
  let s := with_rest s (λ m, set_gate_table m (set_gates (m_idt m) entry exc_vectors)) in
  let s := isr_outs mach_out s pic_remap in
  let s := with_rest s (λ m, set_gate_table m (set_gates (m_idt m) entry irq_vectors)) in
  let s := with_rest s cli in
  let* s := irq_install mach_out s (λ m, let* k := init_keyboard (m_kern m) in Ok (set_kern m k)) in
  Ok (with_rest s (λ m, lidt m (set_idt idt_addr))).
End machine.

Section served.
Context {hw : Type} `{Pics hw}.
Implicit Types (s : isr_state (St := mach hw)).

(** The processor takes line [line] to [f]: interrupts are on, the controllers
    give a vector, [lidtl] was given the interrupt table, the vector's gate is
    present and leads to its entry code, which calls [trap_handler], and [f] is
    the handler that is registered. *)
Definition irq_served s (entry : nat → Z) (idt_addr line : Z) (f : handler) : bool :=
  let m := isr_rest s in
  match irq_vector (pic_view (kern_hw (m_kern m))) line with
  | Some v =>
      let g := m_idt m !!! Z.to_nat v in
      m_if m && bool_decide (m_idtr m = set_idt idt_addr) && gate_present g && (g_sel g =? KERNEL_CS)
        && (gate_offset g =? entry (Z.to_nat v)) && bool_decide (interrupt_handlers s !! Z.to_nat v = Some (Some f))
  | None => false
  end.
End served.

(** * What [isr_install] leaves *)

Lemma ata_out_other a port v : ¬ 0x1f2 ≤ port ≤ 0x1f7 → ata_out a port v = a.
Proof. intros Hp. unfold ata_out. rewrite !(proj2 (Z.eqb_neq port _)) by lia. done. Qed.

(** The two controllers after [pic_remap]: vectors 0x20 and 0x28, nothing masked. *)
Definition pics_ready : pic * pic := (mk_pic 0x11 0 0x20 0, mk_pic 0x11 0 0x28 0).

Lemma pics_ready_vector n : 0 ≤ n < 16 → irq_vector pics_ready n = Some (32 + n).
Proof.
  intros Hn. assert (n ∈ seqZ 0 16) as Hin by (apply elem_of_seqZ; lia). clear Hn. revert n Hin. apply Forall_forall.
  apply (bool_decide_unpack _). vm_compute. exact I.
Qed.

(** The table of handlers after [irq_install]. *)
Definition handler_table (t : list (option handler)) : list (option handler) :=
  <[64%nat := Some SyscallHandler]> (<[33%nat := Some KeyboardCallback]>
    (<[46%nat := Some IdeintCallback]> (<[32%nat := Some TimerCallback]> t))).

Section install.
Context {hw : Type} `{KbdController hw}.
Implicit Types (k : kern (disk_st hw)).

Lemma set_kern_hw_id k : set_kern_hw k (kern_hw k) = k.
Proof. by destruct k as [[[[] ? ? ? ? ?] ?] ? ? ? ? ? ? ? ? ? ?]. Qed.

(** Bytes that are not for the drive only change the hardware. *)
Lemma isr_outs_spec l t tk k idt r f :
  Forall (λ pv, ¬ 0x1f2 ≤ pv.1 ≤ 0x1f7) l →
  ∃ h, isr_outs mach_out (mk_isr t tk (mk_mach k idt r f)) l = mk_isr t tk (mk_mach (set_kern_hw k h) idt r f) ∧
    ata_view h = ata_view (kern_hw k) ∧ pic_view h = foldl (λ a pv, pics_out a pv.1 pv.2) (pic_view (kern_hw k)) l.
Proof.
  intros Hl. revert k. induction Hl as [|[port v] l Hp Hl IH]; intros k.
  - exists (kern_hw k). by rewrite set_kern_hw_id.
  - destruct (IH (kern_out k port v)) as (h & E & E1 & E2). exists h. split; [exact E|]. split.
    + rewrite E1. unfold kern_out. change (kern_hw (set_kern_hw k (outb (kern_hw k) port v))) with (outb (kern_hw k) port v). rewrite ata_outb. by apply ata_out_other.
    + rewrite E2. unfold kern_out. change (kern_hw (set_kern_hw k (outb (kern_hw k) port v))) with (outb (kern_hw k) port v). by rewrite pic_outb.
Qed.

Lemma kbd_wait_spec h :
  kbd_asked h → ∃ h', kbd_wait h = Ok h' ∧ ata_view h' = ata_view h ∧ pic_view h' = pic_view h.
Proof.
  intros Ha. unfold kbd_wait.
  destruct (while_spec (λ h1, kbd_asked h1 ∧ ata_view h1 = ata_view h ∧ pic_view h1 = pic_view h) kbd_left
    (λ h1, ata_view h1 = ata_view h ∧ pic_view h1 = pic_view h) (2 ^ 32)
    (λ h, let '(h, r) := inb h 0x60 in Ok (if negb (u8 r =? 0xfa) then inl h else inr h)) h)
    as (h' & E & Hv); [| |done| |by exists h'].
  - intros h1 _. apply kbd_left_bound.
  - intros h1 (Ha1 & E1 & E2). pose proof (kbd_answer h1 Ha1) as Hk. destruct (inb h1 0x60) as [h2 r].
    destruct Hk as (V1 & V2 & [Er | (Er & Ha2 & Hlt)]).
    + right. exists h2. rewrite Er. split; [done|]. split; congruence.
    + left. exists h2. rewrite (proj2 (Z.eqb_neq _ _) Er). split; [done|]. split; [|done]. split; [done|]. split; congruence.
  - pose proof (kbd_left_bound h). lia.
Qed.

Lemma init_keyboard_spec k :
  ∃ h, init_keyboard k = Ok (screeninit (kmsg (set_kern_hw k h) "kern:capslock:disable!")) ∧
    ata_view h = ata_view (kern_hw k) ∧ pic_view h = pic_view (kern_hw k).
Proof.
  unfold init_keyboard. set (h0 := outb (kern_hw k) 0x60 0xED).
  destruct (kbd_wait_spec h0 (kbd_ask _)) as (h1 & E & V1 & V2).
  change (kern_hw (kern_out k 0x60 0xED)) with h0. rewrite E. cbn [rbind].
  exists (outb h1 0x60 0). split; [reflexivity|].
  rewrite ata_outb, ata_out_other, V1, pic_outb, V2 by lia. unfold h0.
  rewrite ata_outb, ata_out_other, pic_outb by lia. done.
Qed.

Lemma isr_install_spec t tk k idt r f entry idt_addr :
  ∃ h, isr_install (mk_isr t tk (mk_mach k idt r f)) entry idt_addr =
      Ok (mk_isr (handler_table t) tk (mk_mach (screeninit (kmsg (set_kern_hw k h) "kern:capslock:disable!"))
        (set_gates idt entry isr_vectors) (set_idt idt_addr) false)) ∧
    ata_view h = ata_view (kern_hw k) ∧ pic_view h = pics_ready.
Proof.
  destruct (isr_outs_spec pic_remap t tk k (set_gates idt entry exc_vectors) r f) as (h1 & E1 & A1 & P1);
    [repeat constructor; cbn; lia|].
  set (t1 := <[46%nat := Some IdeintCallback]> (<[32%nat := Some TimerCallback]> t)).
  set (idt' := set_gates (set_gates idt entry exc_vectors) entry irq_vectors).
  destruct (isr_outs_spec [(0x43, 0x36); (0x40, 55); (0x40, 93)] (<[32%nat := Some TimerCallback]> t) tk (set_kern_hw k h1)
    idt' r false) as (h2 & E2 & A2 & P2); [repeat constructor; cbn; lia|].
  destruct (init_keyboard_spec (set_kern_hw k h2)) as (h3 & E3 & A3 & P3).
  exists h3. split; [|split].
  - unfold isr_install. cbv zeta. change (with_rest (mk_isr t tk (mk_mach k idt r f)) _)
      with (mk_isr t tk (mk_mach k (set_gates idt entry exc_vectors) r f)).
    rewrite E1. unfold irq_install, init_timer. cbv zeta.
    change (register_interrupt_handler (with_rest _ _) IRQ0 TimerCallback)
      with (mk_isr (<[32%nat := Some TimerCallback]> t) tk (mk_mach (set_kern_hw k h1) idt' r false)).
    change (1193180 / 50) with 23863. change (u8 (Z.land (u32 23863) 0xFF)) with 55.
    change (u8 (Z.land (Z.shiftr (u32 23863) 8) 0xFF)) with 93. rewrite E2.
    change (m_kern (isr_rest (ide_register _))) with (set_kern_hw k h2). rewrite E3.
    unfold isr_vectors. rewrite set_gates_app. reflexivity.
  - rewrite A3. change (kern_hw (set_kern_hw k h2)) with h2. rewrite A2. exact A1.
  - rewrite P3. change (kern_hw (set_kern_hw k h2)) with h2. rewrite P2.
    change (kern_hw (set_kern_hw k h1)) with h1. rewrite P1. destruct (pic_view (kern_hw k)) as [p1 p2]. reflexivity.
Qed.

Lemma handler_table_lookup t n :
  length t = 256%nat → 0 ≤ n < 256 →
  handler_table t !! Z.to_nat n =
    if decide (n = 32) then Some (Some TimerCallback) else if decide (n = 33) then Some (Some KeyboardCallback)
    else if decide (n = 46) then Some (Some IdeintCallback) else if decide (n = 64) then Some (Some SyscallHandler)
    else t !! Z.to_nat n.
Proof.
  intros Hl Hn. unfold handler_table. rewrite !list_lookup_insert, !length_insert, Hl.
  repeat case_decide; done || lia.
Qed.

(** So the disk's line reaches the disk driver once interrupts are on. *)
Lemma irq14_served t tk k idt entry idt_addr :
  length t = 256%nat → length idt = IDT_ENTRIES → (∀ v, 0 ≤ entry v < 2 ^ 32) → pic_view (kern_hw k) = pics_ready →
  irq_served (mk_isr (handler_table t) tk (mk_mach k (set_gates idt entry isr_vectors) (set_idt idt_addr) true))
    entry idt_addr 14 IdeintCallback = true.
Proof.
  intros Ht Hidt He Hp. unfold irq_served. cbn [isr_rest m_kern m_idt m_idtr m_if interrupt_handlers].
  rewrite Hp, pics_ready_vector by lia. change (32 + 14) with 46.
  pose proof (gates_installed idt entry (Z.to_nat 46) Hidt He) as Hg. cbv zeta in Hg.
  rewrite decide_True in Hg by (apply (bool_decide_unpack _); vm_compute; exact I).
  destruct Hg as (g & Eg & Eo & Es & Epr & _). rewrite (list_lookup_total_correct _ _ _ Eg), Eo, Es, Epr.
  rewrite !bool_decide_eq_true_2, !Z.eqb_refl; [done | | done].
  by rewrite handler_table_lookup by (done || lia).
Qed.
End install.
