(* ===== verification/Start.v ===== *)
(** kernel/kernel.c, kernel/proc.c: from the entry of the kernel to the first
    program.  [kernel_main] calls the initialisers of the other files; [uinit], its
    last call, makes the first process, sets up the interrupts and ends in the
    scheduler, which does not return. *)
From S2P Require Import Prelude Memory LibC Mmu Kalloc Vm UserMem Uvm UvmProps Kvm Seg Trap Ports Ide Block Bio FsLayout Fs FsDir.
From S2P Require Import FsBlocks FsTypes FsDirProps File Kernel FirstProc KernTypes ImageRead Init.

(** * The entry table

    The page directory that the entry code (boot/kernel_entry.S) switches on, with
    pages of 4 MB; it holds until [kvmalloc]. *)
Definition entrypgdir : list Z :=
  let pde := Z.lor (Z.lor (Z.lor 0 PTE_P) PTE_W) PTE_PS in
  <[512%nat := pde]> (<[0%nat := pde]> (replicate (Z.to_nat NPDENTRIES) 0)).

(** The physical address that the processor finds for [va] in a directory of such
    pages. *)
Definition big_page (pgdir : list Z) (va : Z) : option Z :=
  let pde := pgdir !!! Z.to_nat (PDX va) in
  if (Z.land pde PTE_P =? 0) || (Z.land pde PTE_PS =? 0) then None
  else Some (Z.land pde (Z.lnot 0x3FFFFF) + va mod 2 ^ 22).

(** The first 4 MB of memory are there twice, at 0, where the entry code runs, and
    at [KERNBASE], where [kernel_main] is linked and [kinit1] finds its pages. *)
Lemma entrypgdir_maps va :
  0 ≤ va < 2 ^ 32 →
  big_page entrypgdir va =
    if decide (va < 2 ^ 22) then Some va
    else if decide (KERNBASE ≤ va < KERNBASE + 2 ^ 22) then Some (V2P va) else None.
Proof.
  intros Hva. unfold big_page. rewrite PDX_div by done. pose proof (Z.div_mod va (2 ^ 22) ltac:(lia)) as Hdm.
  pose proof (Z.mod_pos_bound va (2 ^ 22) ltac:(lia)). assert (0 ≤ va / 2 ^ 22 < 1024) as Hq by zlia.
  set (q := va / 2 ^ 22) in *. set (r := va mod 2 ^ 22) in *. clearbody q r. unfold V2P, KERNBASE.
  destruct (decide (q = 0)) as [->|H0].
  { change (entrypgdir !!! Z.to_nat 0) with 131. rewrite decide_True by lia. change (Some (0 + r) = Some va). f_equal. lia. }
  destruct (decide (q = 512)) as [->|H5].
  { change (entrypgdir !!! Z.to_nat 512) with 131. rewrite decide_False, decide_True by lia.
    rewrite u32_small by lia. change (Some (0 + r) = Some (va - 2147483648)). f_equal. lia. }
  assert (entrypgdir !!! Z.to_nat q = 0) as ->; [|by rewrite !decide_False by lia].
  unfold entrypgdir. rewrite !list_lookup_total_insert_ne by lia. rewrite lookup_total_replicate_2; [done|].
  change (Z.to_nat NPDENTRIES) with 1024%nat. lia.
Qed.

Section start.
Context {hw : Type} `{PortIO hw}.
Implicit Types (k : kern (disk_st hw)) (s : isr_state (St := mach hw)).

(** [lcr3(V2P(kpgdir))]; [kpgdir] is not used again. *)
Definition switchkvm k (kpgdir : Z) : kern (disk_st hw) :=
set_cpu k (k_gdt k) (k_esp0 k) (k_ss0 k) (V2P kpgdir).

Definition kvmalloc k (data : Z) : res (kern (disk_st hw)) :=
let* r := setupkvm (k_vm k) data in
Ok (switchkvm (set_vm k r.1) r.2).

(** The calls of [kernel_main] before [uinit]; [endp] is the linker's [end],
[data] the end of the kernel's read-only part.  [fileinit] is empty. *)
Definition kernel_inits k (endp data : Z) : res (kern (disk_st hw)) :=
let* st := kinit1 (k_vm k) endp (P2V (4 * 1024 * 1024)) in
let* k := kvmalloc (set_vm k st) data in
let k := set_cpu k (seginit (k_gdt k)) (k_esp0 k) (k_ss0 k) (k_cr3 k) in
let* st := kinit2 (k_vm k) (P2V (4 * 1024 * 1024)) (P2V PHYSTOP) in
let k := set_vm k st in
let k := set_disk k (binit (f_blk (kfs k))) in
let* d := ideinit (f_blk (kfs k)) in
Ok (set_disk k d).

(** [uinit]: the first process, the interrupts, and the scheduler up to the
[swtch] to the process that it found.  The scheduler begins with [sti]. *)
Definition uinit s (trapret forkret data image size : Z) (entry : nat → Z) (idt_addr ts_addr : Z) :
  res (isr_state (St := mach hw) * option nat) :=
let* k := uinit_proc (s_kern s) trapret forkret data image size in
let* s := isr_install (with_kern s k) entry idt_addr in
let s := with_kern s (kmsg (s_kern s) ("set IDT  done!" ++ String (Ascii.ascii_of_nat 10) "scheduler.....")) in
let s := with_rest s sti in
let* r := scheduler (s_kern s) ts_addr in
Ok (with_kern s r.1, r.2).

Definition kernel_main s (endp data trapret forkret image size : Z) (entry : nat → Z) (idt_addr ts_addr : Z) :
  res (isr_state (St := mach hw) * option nat) :=
let* k := kernel_inits (s_kern s) endp data in
uinit (with_kern s k) trapret forkret data image size entry idt_addr ts_addr.

(** The variables of the kernel before [kernel_main]: what the loader leaves in
memory, zeros in the tables; the descriptors and registers that the entry
code sets are arbitrary. *)
Definition boot_fsys (h : hw) : fsys (disk_st hw) :=
mk_fsys (boot_disk h) (mk_sb 0 0 0 0 0 0 0) (replicate NINODE no_inode) (replicate (Z.to_nat NDEV) (None, None)) [] [].
Definition boot_kern (h : hw) (m : mem) (gdt : list segdesc) (esp0 ss0 cr3 : Z) : kern (disk_st hw) :=
mk_kern (mk_fio (boot_fsys h) (replicate NFILE (mk_file FD_NONE 0 0 0 0 0))) (mk_kst m 0 [])
  (replicate NPROC proc0) None None 1 gdt esp0 ss0 cr3 true.
Definition boot_mach (h : hw) (m : mem) (gdt : list segdesc) (esp0 ss0 cr3 : Z) (idt : list idt_gate) (idtr : Z * Z)
  (if0 : bool) : isr_state (St := mach hw) :=
  mk_isr (replicate 256 None) 0 (mk_mach (boot_kern h m gdt esp0 ss0 cr3) idt idtr if0).
End start.

(** [swtch] returns to [forkret] of the process that the scheduler found; after it
    the process goes to user mode with its trap frame.  The first time, [forkret]
    reads the super block: no buffer holds it yet, and [iderw] waits until the
    disk's interrupt, line 14, has run [ideint_callback]. *)
Definition run_first {hw} `{Pics hw} (r : isr_state (St := mach hw) * option nat) (entry : nat → Z) (idt_addr : Z) :
    res (isr_state (St := mach hw)) :=
  let '(s, o) := r in
  match o with
  | None => Hang
  | Some _ =>
      if k_first (s_kern s) && negb (irq_served s entry idt_addr 14 IdeintCallback) then Hang
      else let* k := forkret (s_kern s) in Ok (with_kern s k)
  end.

(** * The steps *)

Section steps.
Context {hw : Type} `{AtaDrive hw}.
Implicit Types (st : disk_st hw) (k : kern (disk_st hw)) (h : hw) (d : disk).

Lemma ideinit_probe_keeps n st :
bufs (ideinit_probe st n) = bufs st ∧ idequeue (ideinit_probe st n) = idequeue st ∧
ata_view (d_hw (ideinit_probe st n)) = ata_view (d_hw st).
Proof.
revert st. induction n as [|n IH]; intros st; [done|]. cbn [ideinit_probe].
pose proof (ata_status (d_hw st)) as Hs. destruct (inb (d_hw st) 0x1f7) as [h r]. destruct Hs as [Ev _].
destruct (negb (r =? 0)); [done|]. destruct (IH (set_hw st h)) as (E1 & E2 & E3). by rewrite E1, E2, E3.
Qed.

(** [ideinit] ends and leaves the buffer cache as it is: it selects drives, and
starts no command. *)
Lemma ideinit_spec st d hd :
bio_rep st d hd → ∃ st', ideinit st = Ok st' ∧ bio_rep st' d hd.
Proof.
intros [R1 R2 R3 R4 R5 R6 R7 R8]. unfold ideinit.
destruct (idewait_ok (d_hw st) false) as (h1 & -> & E1). cbn [rbind fst snd].
set (st1 := set_hw st _). destruct (ideinit_probe_keeps 1000 st1) as (B & Q & V).
set (st2 := ideinit_probe st1 1000) in *. eexists; split; [reflexivity|].
unfold disk_of in R4. assert (ata_view (d_hw st2) = ata_out (ata_view (d_hw st)) 0x1f6 (Z.lor 0xe0 (Z.shiftl 1 4))) as Ev.
{ rewrite V. unfold st1. cbn [d_hw set_hw]. by rewrite ata_outb, E1. }
split; cbn [bufs set_hw idequeue d_hw]; rewrite ?B, ?Q; try done.
- rewrite ata_outb, Ev. exact R3.
- unfold disk_of. cbn [d_hw set_hw]. rewrite ata_outb, Ev. exact R4.
- intros i Hi. specialize (R6 i Hi). unfold bufp in *. cbn [bufs set_hw]. by rewrite B.
- intros i j. unfold bufp. cbn [bufs set_hw]. rewrite B. apply R7.
Qed.

End steps.

(** The cache only depends on what the drive sees of the hardware. *)
Lemma bio_rep_hw {hw} `{AtaDrive hw} (st : disk_st hw) d hd h :
  bio_rep st d hd → ata_view h = ata_view (d_hw st) → bio_rep (set_hw st h) d hd.
Proof.
  intros [R1 R2 R3 R4 R5 R6 R7 R8] E. unfold disk_of in R4.
  split; cbn [bufs set_hw idequeue d_hw]; unfold disk_of; cbn [d_hw set_hw]; rewrite ?E; try done.
Qed.

(** * The pages

    The kernel ends at [endp], with 68 pages left up to 4 MB. *)
Definition end_ok (endp : Z) : Prop := KERNBASE ≤ endp ≤ 0x803BC000.

Lemma end_ok_page endp : end_ok endp → endp ≤ PGROUNDUP endp ≤ 0x803BD000 ∧ PGROUNDUP endp mod 4096 = 0.
Proof. unfold end_ok, KERNBASE. intros Hr. pose proof (PGROUNDUP_spec endp). zlia. Qed.

(** [kinit1] frees the pages between the kernel and 4 MB, [kinit2] those from
    4 MB to [PHYSTOP]. *)
Lemma kinit1_pages (st : kst) endp :
  free_pages st [] → end_ok endp →
  ∃ st' l, kinit1 st endp (P2V (4 * 1024 * 1024)) = Ok st' ∧ free_pages st' l ∧ (67 ≤ length l)%nat ∧
    (∀ p, p ∈ l → PGROUNDUP endp ≤ p < 0x80400000) ∧ klog st' = klog st ∧
    ∀ x, x < PGROUNDUP endp → ld8 (km st') x = ld8 (km st) x.
Proof.
  intros Hf He. destruct (end_ok_page endp He) as [Hr Ha]. unfold end_ok, KERNBASE in He.
  change (P2V (4 * 1024 * 1024)) with 0x80400000. set (p0 := PGROUNDUP endp) in *.
  set (n := Z.to_nat ((0x80400000 - p0) / 4096)).
  assert (67 ≤ (0x80400000 - p0) / 4096) as Hn by zlia.
  destruct (freerange_spec st [] endp 0x80400000 Hf ltac:(unfold KERNBASE; lia) ltac:(lia)
    ltac:(by intros p ?%elem_of_nil) p0 n eq_refl eq_refl) as (st' & E & Hf' & Hlog & Hm).
  rewrite app_nil_r in Hf'. exists st', (rev (page_run p0 n)). split; [done|]. split; [done|].
  split; [rewrite length_rev, length_page_run; lia|]. split; [|split; [done|]].
  - intros p Hp. apply list_elem_of_In, in_rev, list_elem_of_In, elem_of_page_run in Hp as (j & Hj & ->).
    unfold n in Hj. zlia.
  - intros x Hx. apply Hm. unfold inr_. lia.
Qed.

Lemma kinit2_pages (st : kst) l :
  free_pages st l → (∀ p, p ∈ l → p < 0x80400000) →
  ∃ st' s l', kinit2 st (P2V (4 * 1024 * 1024)) (P2V PHYSTOP) = Ok st' ∧ free_pages st' (s :: l') ∧
    (69 ≤ length l')%nat ∧ (∀ p, p ∈ s :: l' → 0x80400000 ≤ p ∨ p ∈ l) ∧ klog st' = klog st ∧
    ∀ x, x < 0x80400000 → ld8 (km st') x = ld8 (km st) x.
Proof.
  intros Hf Hl. change (P2V (4 * 1024 * 1024)) with 0x80400000. change (P2V PHYSTOP) with 0x8E000000.
  remember (Z.to_nat 56319) as n eqn:En.
  assert (S n = Z.to_nat ((0x8E000000 - 0x80400000) / 4096)) as Es.
  { change ((0x8E000000 - 0x80400000) / 4096) with (Z.succ 56319). rewrite Z2Nat.inj_succ by lia. by rewrite En. }
  assert (∀ p, p ∈ l → ¬ PGROUNDUP 0x80400000 ≤ p < 0x8E000000) as Hnew.
  { intros p Hp. apply Hl in Hp. change (PGROUNDUP 0x80400000) with 0x80400000. lia. }
  destruct (freerange_spec st l 0x80400000 0x8E000000 Hf ltac:(unfold KERNBASE; lia) ltac:(lia)
    Hnew 0x80400000 (S n) eq_refl Es) as (st' & E & Hf' & Hlog & Hm).
  rewrite page_run_snoc, rev_unit in Hf'. cbn [app] in Hf'.
  eexists st', _, _. split; [exact E|]. split; [exact Hf'|]. split; [|split; [|split; [done|]]].
  - rewrite length_app, length_rev, length_page_run. lia.
  - intros p [->|[Hp|Hp]%elem_of_app]%elem_of_cons; [left; lia | left | by right].
    apply list_elem_of_In, in_rev, list_elem_of_In, elem_of_page_run in Hp as (j & Hj & ->). lia.
  - intros x Hx. apply Hm. unfold inr_. lia.
Qed.

(** * From the entry to the first program *)

Section boot.
Context {hw : Type} `{KbdController hw}.
Context (h : hw) (m : mem) (gdt : list segdesc) (esp0 ss0 cr3 : Z) (idt : list idt_gate) (idtr : Z * Z) (if0 : bool).
Context (endp data trapret forkret_addr image size ts_addr idt_addr : Z) (entry : nat → Z).

(** The state when the first process goes to user mode: it is the current one,
its address space, registers and kernel stack are set up, the file system is
mounted and the root is its directory. *)
Record booted (k : kern (disk_st hw)) (s pgdir pg : Z) (l : list Z) : Prop := {
  bt_cur : curproc k = Some 0%nat;
  bt_proc : procp k 0 = pset_state (first_proc proc0 1 s pgdir 0) RUNNING;
  bt_cpu : k_cr3 k = V2P pgdir ∧ k_esp0 k = u32 (s + 4096) ∧ k_ss0 k = Z.of_nat SEG_KDATA * 8;
  bt_gdt : k_gdt k = <[SEG_TSS := set_s (SEG16 STS_T32A ts_addr 103 0) 0]> (seginit gdt);
  bt_space : first_space m data image size (k_vm k) s pgdir pg l;
  bt_frame : first_frame (km (k_vm k)) (s + 4096 - TF_SIZE) trapret forkret_addr;
  bt_disk : bl_rep (f_blk (kfs k)) (platter (ata_view h)) ∅;
  bt_sb : f_sb (kfs k) = dec_sb (platter (ata_view h) 1 1);
  bt_root : icache (kfs k) = fresh ROOTINO :: replicate 49 no_inode;
  bt_console : devsw (kfs k) = <[CONSOLE := (None, Some Screenewrite)]> (replicate (Z.to_nat NDEV) (None, None));
  bt_ok : kern_ok k
}.

(** The interrupts when the scheduler leaves [uinit]: they are on, the gates of
the exceptions, the 16 lines and the system call lead to their entry code,
the controllers give line [n] the vector [32 + n], and four functions are
registered. *)
Record interrupts_on (s : isr_state (St := mach hw)) : Prop := {
  io_if : m_if (isr_rest s) = true;
  io_idtr : m_idtr (isr_rest s) = set_idt idt_addr;
  io_gates : ∀ v, v ∈ isr_vectors → ∃ g, m_idt (isr_rest s) !! v = Some g ∧ gate_offset g = entry v ∧
    g_sel g = KERNEL_CS ∧ gate_present g = true ∧ gate_dpl g = (if decide (v = 64%nat) then 3 else 0);
  io_lines : ∀ n, 0 ≤ n < 16 → irq_vector (pic_view (kern_hw (s_kern s))) n = Some (32 + n);
  io_handlers : ∀ n, 0 ≤ n < 256 → interrupt_handlers s !! Z.to_nat n =
    Some (if decide (n = 32) then Some TimerCallback else if decide (n = 33) then Some KeyboardCallback
          else if decide (n = 46) then Some IdeintCallback else if decide (n = 64) then Some SyscallHandler
          else None)
}.

Lemma image_at_ext m1 m2 st um :
(∀ x, inr_ image size x → ld8 m1 x = ld8 m2 x) → image_at m1 image size st um → image_at m2 image size st um.
Proof.
intros Hm Hi u Hu. rewrite Hi by done. destruct (decide (u < size)); [|done].
rewrite Hm; [done|]. unfold inr_. lia.
Qed.

Lemma first_space_ext m1 m2 st s pgdir pg l :
(∀ x, inr_ image size x → ld8 m1 x = ld8 m2 x) →
first_space m1 data image size st s pgdir pg l → first_space m2 data image size st s pgdir pg l.
Proof. intros Hm [F1 F2 F3 F4]. split; [done | done | by eapply image_at_ext | done]. Qed.

Lemma first_space_kprint m1 st msg s pgdir pg l :
first_space m1 data image size st s pgdir pg l → first_space m1 data image size (kprint st msg) s pgdir pg l.
Proof.
intros [(F1 & F2 & F3 & F4) [[U1 U2 U3 U4 U5] V1 V2 V3] F5 F6]. split; [by split_and! | | exact F5 | exact F6].
split; [by split | exact V1 | exact V2 | exact V3].
Qed.

(** The scheduler and [forkret] on what [uinit_proc] leaves. *)
Lemma scheduler_first (io : fio (disk_st hw)) st s pgdir ps np g e0 s0 c :
page_ok s → page_ok pgdir →
scheduler (mk_kern io st (first_proc proc0 1 s pgdir 0 :: ps) None (Some 0%nat) np g e0 s0 c true) ts_addr =
  Ok (mk_kern io st (pset_state (first_proc proc0 1 s pgdir 0) RUNNING :: ps) (Some 0%nat) (Some 0%nat) np
    (<[SEG_TSS := set_s (SEG16 STS_T32A ts_addr 103 0) 0]> g) (u32 (s + 4096)) (Z.of_nat SEG_KDATA * 8)
    (V2P pgdir) true, Some 0%nat).
Proof.
intros Hs Hp. unfold scheduler, switchuvm. cbn [next_runnable ptable first_proc p_state]. rewrite decide_True by done.
cbn [procp ptable lookup_total list_lookup_total first_proc p_kstack p_pgdir rbind].
rewrite !(proj2 (Z.eqb_neq _ 0)) by (by apply page_ok_nonzero). reflexivity.
Qed.

Lemma forkret_first (k : kern (disk_st hw)) d :
k_first k = true → bl_rep (f_blk (kfs k)) d ∅ →
∃ blk, forkret k = Ok (set_kfs (set_first k false) (fprint (set_sb (set_blk (kfs k) blk) (dec_sb (d 1 1)))
    "sb: size %d nblocks %d ninodes %d  inodestart %d bmap start %d")) ∧ bl_rep blk d ∅.
Proof.
intros Hk Hr. destruct (readsb_spec (kfs k) d ∅ 1 Hr) as (blk & E & Hr');
  [apply (bool_decide_unpack _); vm_compute; exact I | vm_compute; lia | by intros ?? |].
exists blk. split; [|done]. unfold forkret. rewrite Hk. unfold iinit.
change (kfs (set_first k false)) with (kfs k). change ROOTDEV with 1. rewrite E. reflexivity.
Qed.

(** What [isr_install] does to the kernel is no matter for its shape. *)
Lemma install_typed (k : kern (disk_st hw)) h' msg1 msg2 :
kern_ok k → kern_ok (kmsg (screeninit (kmsg (set_kern_hw k h') msg1)) msg2).
Proof. intros [[[F1 F2] F4 F5] K2 K3 K4 K5]. split; [split; [split|..]|..]; done. Qed.

Context (Hidle : ata_pending (ata_view h) = AtaIdle)
  (Hsec : ∀ dev bno, block_ok dev bno → length (platter (ata_view h) dev bno) = 512%nat).
Context (Hend : end_ok endp) (Hdata : data_ok data).
Context (Hidt : length idt = IDT_ENTRIES) (Hentry : ∀ v, 0 ≤ entry v < 2 ^ 32).
Context (Hsize : 0 ≤ size < PGSIZE) (Himage : KERNBASE ≤ image) (Hiend : image + size ≤ endp).

#[local] Abbreviation kern0 := (boot_kern h m gdt esp0 ss0 cr3).

Lemma image_page x :
inr_ image size x → ∃ q, page_ok q ∧ q < PGROUNDUP endp ∧ inr_ q PGSIZE x.
Proof.
intros Hx. destruct (end_ok_page endp Hend) as [Hr Ha]. unfold end_ok, KERNBASE in *. unfold inr_ in *.
exists (4096 * (x / 4096)). unfold page_ok, KERNBASE, PGSIZE. split; [zlia|]. split; zlia.
Qed.

(** The memory before [uinit]: the free pages are above the kernel, whose
memory is unchanged. *)
Lemma boot_memory :
∃ st1 st2 kpgdir st3 s l, kinit1 (mk_kst m 0 []) endp (P2V (4 * 1024 * 1024)) = Ok st1 ∧
  setupkvm st1 data = Ok (st2, kpgdir) ∧ kinit2 st2 (P2V (4 * 1024 * 1024)) (P2V PHYSTOP) = Ok st3 ∧
  free_pages st3 (s :: l) ∧ (69 ≤ length l)%nat ∧ image_ok (s :: l) image size ∧
  ∀ x, inr_ image size x → ld8 (km st3) x = ld8 m x.
Proof.
assert (free_pages (mk_kst m 0 []) []) as Hf0 by (split; [done | constructor]).
destruct (end_ok_page endp Hend) as [Hr Ha]. pose proof Hend as He. unfold end_ok, KERNBASE in He.
destruct (kinit1_pages (mk_kst m 0 []) endp Hf0 Hend) as (st1 & l1 & E1 & Hf1 & Hn1 & Hl1 & _ & Hm1).
destruct (setupkvm_spec st1 l1 data Hf1 Hdata Hn1) as (st2 & kpgdir & l2 & E2 & _ & [Hu _ (used & El & _) Hm2 _]).
assert (∀ p, p ∈ l2 → PGROUNDUP endp ≤ p < 0x80400000) as Hl2
  by (intros p Hp; apply Hl1; rewrite El; apply elem_of_app; by right).
destruct (kinit2_pages st2 l2) as (st3 & s & l & E3 & Hf3 & Hn3 & Hl3 & _ & Hm3);
  [apply Hu | intros p Hp%Hl2; lia |].
exists st1, st2, kpgdir, st3, s, l. split; [done|]. split; [done|]. split; [done|]. split; [done|]. split; [done|].
split.
- split; [done|]. unfold KERNBASE in Himage. split; [lia|]. split; [lia|]. intros x Hx.
  destruct (image_page x Hx) as (q & Hq & Hlt & Hin). exists q. split; [done|]. split; [|done].
  intros [?|Hp%Hl2]%Hl3; lia.
- intros x Hx. destruct (image_page x Hx) as (q & Hq & Hlt & Hin). unfold inr_ in Hx.
  rewrite Hm3 by lia. assert (q ∉ l1) as Hql by (intros Hp%Hl1; lia).
  rewrite (Hm2 q x Hq Hql Hin).
  apply Hm1. lia.
Qed.

(** The tables of zeros have their shape. *)
Lemma zero_tables_ok (fs : fsys (disk_st hw)) st np g e0 s0 c f :
icache fs = replicate NINODE no_inode →
kern_ok (mk_kern (mk_fio fs (replicate NFILE (mk_file FD_NONE 0 0 0 0 0))) st (replicate NPROC proc0) None None
  np g e0 s0 c f).
Proof.
intros E. split; [split; [split|..]|..]; try done; cbn [y_fs k_io]; rewrite ?E.
- done.
- by apply Forall_replicate.
- by apply Forall_replicate.
- apply Forall_replicate, proc_ok_proc0.
Qed.

Lemma iget_devsw (fs fs' : fsys (disk_st hw)) dev inum ip : iget fs dev inum = Ok (fs', ip) → devsw fs' = devsw fs.
Proof. unfold iget. intros Hi. repeat case_match; simplify_eq; done. Qed.

#[local] Abbreviation mach0 := (boot_mach h m gdt esp0 ss0 cr3 idt idtr if0).

(** [kernel_main] up to [uinit], and the first part of [uinit]. *)
Lemma kernel_inits_spec :
∃ k0 k1 st s pgdir pg l fs, kernel_inits kern0 endp data = Ok k0 ∧
  uinit_proc k0 trapret forkret_addr data image size = Ok k1 ∧ kern_ok k1 ∧ page_ok s ∧ page_ok pgdir ∧
  k1 = mk_kern (mk_fio fs (replicate NFILE (mk_file FD_NONE 0 0 0 0 0))) st (first_proc proc0 1 s pgdir 0 :: replicate 63 proc0)
    None (Some 0%nat) 2 (seginit gdt) esp0 ss0 (k_cr3 k0) true ∧
  first_space m data image size st s pgdir pg l ∧ first_frame (km st) (s + 4096 - TF_SIZE) trapret forkret_addr ∧
  bio_rep (f_blk fs) (platter (ata_view h)) ∅ ∧ icache fs = fresh ROOTINO :: replicate 49 no_inode ∧
  devsw fs = replicate (Z.to_nat NDEV) (None, None).
Proof.
destruct boot_memory as (st1 & st2 & kpgdir & st3 & s & l & E1 & E2 & E3 & Hf & Hlen & Him & Hm).
assert (bl_rep (binit (boot_disk h)) (platter (ata_view h)) ∅) as Hb by (by apply binit_rep).
destruct (ideinit_spec _ _ _ Hb) as (dsk & E4 & Hr4).
set (fs := set_blk (boot_fsys h) dsk).
destruct (iget_slot0 fs ROOTINO) as (fs' & E5 & B5 & S5 & C5); [done|].
set (k0 := mk_kern (mk_fio fs (replicate NFILE (mk_file FD_NONE 0 0 0 0 0))) st3 (replicate NPROC proc0) None None 1
  (seginit gdt) esp0 ss0 (V2P kpgdir) true).
destruct (uinit_spec k0 s l proc0 (replicate 63 proc0) trapret forkret_addr data image size fs' 0 eq_refl eq_refl Hf Hlen Hdata Him E5)
  as (st & pgdir & pg & l' & E6 & Hsp & Hpd & Hfr & _ & _).
assert (kernel_inits kern0 endp data = Ok k0) as Emain.
{ unfold kernel_inits, kvmalloc. change (k_vm kern0) with (mk_kst m 0 []). rewrite E1. cbn [rbind].
  change (k_vm (set_vm kern0 st1)) with st1. rewrite E2. cbn [rbind fst snd].
  match goal with |- context [kinit2 ?t _ _] => change t with st2 end. rewrite E3. cbn [rbind].
  match goal with |- context [ideinit ?t] => change t with (binit (boot_disk h)) end. rewrite E4. reflexivity. }
assert (kern_ok k0) as Hk0 by (by apply zero_tables_ok).
eexists k0, _, _, s, pgdir, pg, l', fs'. split; [exact Emain|]. split; [exact E6|].
split; [exact (uinit_typed _ _ _ _ _ _ _ E6 Hk0)|]. split; [apply Hsp|]. split; [done|]. split; [reflexivity|].
split; [exact (first_space_ext (km st3) m _ s pgdir pg l' Hm (first_space_kprint _ st _ s pgdir pg l' Hsp))|].
split; [exact Hfr|]. split; [by rewrite B5|]. split; [exact C5|].
change (devsw fs' = devsw fs). by eapply iget_devsw.
Qed.

Lemma kernel_main_spec :
∃ s1 k s pgdir pg l, kernel_main mach0 endp data trapret forkret_addr image size entry idt_addr ts_addr = Ok (s1, Some 0%nat) ∧
  interrupts_on s1 ∧ run_first (s1, Some 0%nat) entry idt_addr = Ok (with_kern s1 k) ∧ booted k s pgdir pg l.
Proof.
destruct kernel_inits_spec as (k0 & k1 & st & s & pgdir & pg & l & fs & E0 & E1 & Hk1 & Hs & Hp & Ek1 & Hsp & Hfr & Hr & Hic & Hdv).
destruct (isr_install_spec (replicate 256 None) 0 k1 idt idtr if0 entry idt_addr) as (h1 & E2 & A1 & P1).
set (k2 := screeninit (kmsg (set_kern_hw k1 h1) "kern:capslock:disable!")) in *.
set (msg := ("set IDT  done!" ++ String (Ascii.ascii_of_nat 10) "scheduler.....")%string).
set (io := mk_fio (mk_fsys (set_hw (f_blk fs) h1) (f_sb fs) (icache fs) (<[CONSOLE := (None, Some Screenewrite)]> (devsw fs))
  (f_con fs) (f_log fs)) (replicate NFILE (mk_file FD_NONE 0 0 0 0 0))).
set (st' := kprint (kprint st "kern:capslock:disable!") msg).
set (k3 := mk_kern io st' (first_proc proc0 1 s pgdir 0 :: replicate 63 proc0) None (Some 0%nat) 2 (seginit gdt) esp0 ss0
  (k_cr3 k0) true).
assert (kmsg k2 msg = k3) as E3 by (unfold k2; rewrite Ek1; reflexivity).
assert (kern_ok k3) as Hk3 by (rewrite <- E3; by apply install_typed).
pose proof (scheduler_first io st' s pgdir (replicate 63 proc0) 2 (seginit gdt) esp0 ss0 (k_cr3 k0) Hs Hp) as E4.
set (k4 := mk_kern io st' (pset_state _ _ :: _) _ _ _ _ _ _ _ _) in E4. change (scheduler k3 ts_addr = Ok (k4, Some 0%nat)) in E4.
assert (kern_ok k4) as Hk4 by (by eapply scheduler_typed).
assert (bl_rep (f_blk (kfs k4)) (platter (ata_view h)) ∅) as Hr4.
{ apply (bio_rep_hw (f_blk fs)); [exact Hr|]. rewrite A1, Ek1. reflexivity. }
destruct (forkret_first k4 _ eq_refl Hr4) as (blk & E5 & Hr5).
set (k5 := set_kfs _ _) in E5.
set (s1 := mk_isr (handler_table (replicate 256 None)) 0 (mk_mach k4 (set_gates idt entry isr_vectors) (set_idt idt_addr) true)).
assert (pic_view (kern_hw k4) = pics_ready) as P4 by exact P1.
exists s1, k5, s, pgdir, pg, l. split; [|split; [|split]].
- unfold kernel_main. change (s_kern mach0) with kern0. rewrite E0. cbn [rbind]. unfold uinit.
  change (s_kern (with_kern mach0 k0)) with k0. rewrite E1. cbn [rbind].
  change (with_kern (with_kern mach0 k0) k1) with (mk_isr (replicate 256 None) 0 (mk_mach k1 idt idtr if0)).
  rewrite E2. cbn [rbind]. cbv zeta.
  change (s_kern (mk_isr _ _ (mk_mach k2 _ _ _))) with k2. fold msg. rewrite E3.
  change (s_kern (with_rest _ sti)) with k3. rewrite E4. reflexivity.
- split; [done | done | | |].
  + intros v Hv. pose proof (gates_installed idt entry v Hidt Hentry) as Hg. cbv zeta in Hg. by rewrite decide_True in Hg.
  + intros n Hn. change (kern_hw (s_kern s1)) with (kern_hw k4). rewrite P4. by apply pics_ready_vector.
  + intros n Hn. unfold s1. cbn [interrupt_handlers]. rewrite handler_table_lookup by (done || lia).
    rewrite lookup_replicate_2 by lia. by repeat case_decide.
- unfold run_first. change (s_kern s1) with k4. unfold s1.
  rewrite irq14_served by done. change (negb true) with false. rewrite andb_false_r, E5. reflexivity.
- assert (kern_ok k5) as Hk5 by (by eapply forkret_typed).
  split; [done | done | done | done | | exact Hfr | exact Hr5 | done | exact Hic | | done].
  + by do 2 apply first_space_kprint.
  + change (<[CONSOLE := (None, Some Screenewrite)]> (devsw fs) =
      <[CONSOLE := (None, Some Screenewrite)]> (replicate (Z.to_nat NDEV) (None : option devread, None : option devwrite))).
    by rewrite Hdv.
Qed.

(** C11. From the entry of the kernel to the first program.  For a kernel of at
most 3.7 MB on a drive at rest, with a keyboard that acknowledges its command,
[kernel_main] ends in the scheduler, which has found the first process, with the
interrupts on: the gates of the exceptions, the 16 lines and the system call
lead to their entry code, line [n] of the controllers is vector [32 + n], and the
timer, the keyboard, the disk and the system call are the handlers that are
registered.  [forkret] then ends, as the disk's interrupt is served.  The first
process is the current one; its address space maps user page 0 with the bytes of
the program's image and zeros, and the kernel as [kmap] says; the trap frame
enters user mode at address 0 with the stack at the end of the page; the free
pages, the stack and the tables are apart; the buffer cache represents the drive,
the super block is the one on block 1 of drive 1, the root directory is the only
inode in use, the console is the only device; and the tables have their shape. *)
Theorem kernel_main_boots :
∃ s1 k s pgdir pg l, kernel_main mach0 endp data trapret forkret_addr image size entry idt_addr ts_addr = Ok (s1, Some 0%nat) ∧
  interrupts_on s1 ∧ run_first (s1, Some 0%nat) entry idt_addr = Ok (with_kern s1 k) ∧ booted k s pgdir pg l.
Proof. exact kernel_main_spec. Qed.
End boot.

(** A machine of zeros, and a kernel of 1.1 MB with a program of 100 bytes. *)
Definition pc0 : pc := mk_pc (sim_disk (λ _ _, replicate 512 0)) (mk_pic 0 0 0 0, mk_pic 0 0 0 0).

Lemma kernel_main_boots_witness :
  ∃ s1 k, kernel_main (boot_mach pc0 ∅ [] 0 0 0 (replicate 256 inhabitant) (0, 0) false)
      0x80120000 0x80110000 0x1000 0x2000 0x80118000 100 (λ v, 0x80101000 + Z.of_nat v mod 256) 0x80117000 0x80119000 =
        Ok (s1, Some 0%nat) ∧
    run_first (s1, Some 0%nat) (λ v, 0x80101000 + Z.of_nat v mod 256) 0x80117000 = Ok (with_kern s1 k) ∧
    curproc k = Some 0%nat ∧ p_pid (procp k 0) = 1.
Proof.
  destruct (kernel_main_boots pc0 ∅ [] 0 0 0 (replicate 256 inhabitant) (0, 0) false 0x80120000 0x80110000 0x1000
    0x2000 0x80118000 100 0x80119000 0x80117000 (λ v, 0x80101000 + Z.of_nat v mod 256))
    as (s1 & k & s & pgdir & pg & l & E1 & _ & E2 & Hb).
  - reflexivity.
  - intros. apply length_replicate.
  - unfold end_ok, KERNBASE. lia.
  - split; [reflexivity | unfold KERNLINK, KERNBASE, PHYSTOP; lia].
  - reflexivity.
  - intros v. zlia.
  - unfold PGSIZE. lia.
  - unfold KERNBASE. lia.
  - lia.
  - exists s1, k. split; [exact E1|]. split; [exact E2|]. destruct Hb as [B1 B2]. split; [exact B1|]. exact (f_equal p_pid B2).
Defined.
